(* ===== verification/_CoqProject ===== *)
-Q . S2P
Prelude.v
Words.v
Fifo.v
Ssi.v
Lpspi.v
LpspiSpec.v
LpspiProps.v
Chardev.v
Lpuart.v
Memory.v
Clock.v
Syscfg.v
Soc.v
RtosList.v
RtosListProps.v
RtosSeq.v
RtosHeap.v
RtosSched.v
RtosSchedInv.v
RtosTick.v
RtosSchedProps.v
RtosRun.v
RtosSteady.v
RtosBoot.v
RtosTyped.v
RtosDelay.v
RtosFair.v
RtosQueue.v
RtosQueueData.v
RtosQueueSys.v
RtosQueueRun.v
RtosLock.v
RtosMachine.v
RtosWait.v
RtosProgram.v
RtosMutex.v
RtosTimer.v
RtosTimerProps.v
RtosTimerRun.v
RtosTimerTask.v
RtosTimerSys.v
SpiDriver.v
SpiDriverProps.v
SpiExchange.v
SpiSystem.v
SpiDemo.v
SpiAsync.v
SpiAsyncSafety.v
SpiAsyncProps.v
SpiAsyncDemo.v
UartDriver.v
UartDriverProps.v
UartSystem.v
UartDemo.v
DemoTasks.v
DemoProps.v
DemoInv.v
DemoMain.v
DemoRun.v
DemoBoard.v
