(* ===== verification/Prelude.v ===== *)
(** * Verification of the S32K358 board model and of the demo that runs on it

    The repository is a fork of QEMU with a model of the NXP S32K358 board (a
    Cortex-M7 chip with LPUART and LPSPI controllers and a motor speed sensor on an
    SPI bus), and a FreeRTOS demo that reads the sensor through the LPSPI driver.
    This development models the devices the fork adds, the parts of QEMU they are
    built on, and the demo from its tasks down to the registers, each as a shallow
    embedding: the functions of the C code are functions on records that hold its
    variables, machine integers are integers with the wrap-around written out, and a
    failed assertion, a division by zero, an access out of bounds or through a null
    pointer is a [Fault] of the [res] monad.

    The parts meet at interfaces.  The LPSPI model runs over any bus ([SpiBus]), the
    LPUART model over any character back end ([CharPort]), the two drivers over any
    controller ([SpiPort], [UartPort]), and the tasks of the demo over any board that
    sends bytes and reads values ([Board]); each interface is implemented by the model
    of the part behind it, so that [DemoBoard] speaks of the whole: tasks, kernel,
    semaphores, drivers, controllers, sensor and back end.

    ** The files

    Foundations:
    - [Prelude]: the [res] monad, record updates, w-bit integers, array accesses,
      and the lemmas on lists and numbers that the other files share.
    - [Words]: registers as bit masks, bytes of a word in either order.

    The machine ([src/qemu]):
    - [Fifo]: util/fifo8.c, the byte FIFO of the controllers.
    - [Ssi]: hw/ssi/ssi.c, the SPI bus, and hw/ssi/motor_speed.c, the sensor.
    - [Lpspi], [LpspiSpec], [LpspiProps]: hw/ssi/nxps32k358_lpspi.c, over an interface
      for the bus ([SpiBus]) that [Ssi] implements; the state of the controller is one
      record, a register access is [nxps32k358_lpspi_read] or [_write].
    - [Chardev]: chardev/char-mux.c, the multiplexer behind the serial ports.
    - [Lpuart]: hw/char/nxps32k358_lpuart.c, over an interface for the character
      device that [Chardev] implements.
    - [Memory]: system/memory.c, how regions become a flat view.
    - [Clock]: hw/core/clock.c, the tree of clocks.
    - [Syscfg]: hw/misc/nxps32k358_syscfg.c.
    - [Soc]: hw/arm/nxps32k358_soc.c and nxps32k358discovery.c, which put the parts
      together: clocks, memory map, interrupts, controllers, sensor.

    The demo ([src/Demo_FreeRTOS]):
    - [RtosList], [RtosListProps]: FreeRTOS/Source/list.c, on a heap of linked items.
    - [RtosSeq]: the same lists as sequences; the operations on the heap implement
      those on the sequences, which the scheduler uses.
    - [RtosHeap]: portable/MemMang/heap_1.c, the allocator.
    - [RtosSched]: tasks.c and the interrupt handlers of port.c.  [kernel] holds the
      variables of tasks.c; a handler or a critical section is a function on it.  The
      calls that suspend the scheduler take the interrupts that come meanwhile as
      arguments.
    - [RtosSchedInv], [RtosTick], [RtosSchedProps], [RtosRun]: the invariant of the
      kernel, and that the tick, the handlers and the calls keep it.  [RtosSteady]:
      what they leave alone.  [RtosTyped]: the types of what the kernel holds.
    - [RtosBoot]: task creation, the states a started kernel reaches, and what holds
      in all of them.  [RtosDelay]: delays, periodic delays and time-outs.  [RtosFair]:
      the turns of tasks of equal priority.
    - [RtosQueue]: queue.c.  [sys] adds the queues and the heap to the kernel; a call
      that can block is a [progress] that is continued step by step, cut where other
      tasks can run, and interrupts come also between the parts that run with the
      scheduler suspended.  [RtosQueueData]: the storage as a sequence of items.
      [RtosQueueSys], [RtosQueueRun]: the steps keep the invariant of kernel and
      queues.  [RtosLock]: the same for mutexes.
    - [RtosMachine], [RtosProgram]: the machine of tasks, interrupts, queues and
      mutexes as a step relation ([qevent], [qenabled]), the programs that create their
      queues, and what holds in every state they reach.  [RtosWait]: waits without a
      time limit.  [RtosMutex]: where priority inheritance goes wrong.
    - [RtosTimer]: timers.c.  [RtosTimerProps], [RtosTimerRun]: the timers in absolute
      time, across the wrap of the tick count.  [RtosTimerTask], [RtosTimerSys]: the
      timer task as a task of a program.
    - [SpiDriver], [SpiDriverProps]: RTD/src/Lpspi_Ip.c, over an interface for the
      registers ([SpiPort]) of any controller.
    - [SpiExchange], [SpiSystem], [SpiDemo]: the driver on the controller model of
      [Lpspi], and the readings of src/main.c on the board of [Soc].
    - [SpiAsync]: the asynchronous and half-duplex transfers of Lpspi_Ip.c, its interrupt
      handler, cancelling and the changes to a device.  The pointer of a channel to its
      device is null until the first transfer and then a copy of the device; the devices
      of the application are an argument and a result of the calls that change them.
      [SpiAsyncSafety]: these on any controller, with the devices as a table; [SpiAsyncProps], [SpiAsyncDemo]: on the controller model of [Lpspi], whose
      interrupt line calls the handler.
    - [UartDriver], [UartDriverProps]: RTD/src/Lpuart_Uart_Ip.c and its register
      functions, over [UartPort].  [UartSystem], [UartDemo]: the driver on the LPUART
      model, and the output functions of src/main.c.
    - [DemoTasks]: the tasks of src/main.c as programs ([prog], one constructor per
      call) and the machine that runs them on [RtosMachine].  [DemoProps]: what each
      task may print and when ([wp]).  [DemoInv]: the invariant of tasks, semaphores,
      mutex and output.  [DemoMain]: [main] up to the start of the scheduler.
      [DemoRun]: the states the demo reaches.  [DemoBoard]: the demo on its devices.

    ** What the theorems show

    - Devices: no sequence of guest accesses makes the LPSPI or LPUART model abort or
      index out of bounds, under the conditions that the theorems name; where one
      fails the fault is a theorem of its own.  The LPSPI controller is a pair of
      bounded queues in front of the bus, the FIFO is a bounded queue as long as no
      buffered read asks for more than is stored (where it aborts, against its
      documentation), a read of the receive register takes a frame and leaves the
      interrupt line alone, the
      multiplexer delivers bytes in order, the flat view of the memory sends every
      address to the region the tree of regions gives it and is built without a failed
      128-bit conversion, an update of a clock reaches
      its whole tree.
    - Board: memory map of the realized board; lemmas on its interrupt lines and
      frequencies.
    - SPI driver: a synchronous transfer ends, whatever the controller answers; on the
      controller model it exchanges every byte with the bus once and in order, and
      the demo reads the values that the sensor draws.  An interrupt-driven transfer
      does the same, and ends with the interrupt line low and one callback.  No
      sequence of asynchronous transfers, changes of devices, interrupts, polls and
      cancels faults, on any controller, once a first transfer has set the device and
      while full-duplex transfers take full-duplex devices.  The time-out of the half-duplex call does not work, and the
      full-duplex calls keep the transfer type of a half-duplex one.
    - UART driver: no sequence of calls and interrupts faults on hardware that keeps its
      control register; on the LPUART model a polling send puts out the bytes in
      order, the baud rate is the nearest one, an interrupt-driven send never ends.
    - Kernel: no reachable state faults, whatever calls and interrupts come; the
      running task is ready and of the highest priority whenever no switch is
      pending, unless a give of a mutex has dropped a switch since the last one; a delay ends at its tick, a periodic delay does not drift, a time-out
      is exact, all across the wrap of the tick count; tasks of equal priority take
      turns; the pointer lists implement the sequences; allocations do not overlap.
    - Queues: what the calls report is a history of bounded sequences, no call faults,
      a mutex has one holder at a time, tasks and counts are well typed.  Priority
      inheritance goes wrong in two ways: the give of a mutex can drop a switch, and a
      time-out on a mutex can fail an assertion; the theorems say in which states.
    - Timers: a periodic timer is called once per period, never early; the timer task
      does the rounds and commands of that specification and does not fault.
    - Demo: [main] gets all the memory it asks for; from then on no step of the tasks
      faults, whatever the interrupts and the other tasks do; what reaches the back
      end are whole messages in the order of the rounds, with the speeds the sensor
      draws and the warning exactly above the threshold.

    ** Bounds and fuel

    Integers have the width of the C types.  Loops of the code that are not bounded by
    a counter take fuel: the loop over delayed tasks and the one over pending tasks
    take one step more than the list has items and each step takes an item off it; the
    walk of [vListInsert] takes the number of items; the polling loop of the driver
    takes fuel that [sync_transmit_returns] bounds by the words of the transfer and
    the time-out; the calls of the interrupt handler take fuel that
    [async_transmit_exchanges] bounds by the length; the wait of the half-duplex
    transfer takes its time-out; the half-duplex loop has no bound, which
    [half_duplex_deadline] shows; the polling loops of the UART driver take the rounds the time-out
    counter allows; [clock_propagate_period] takes the height of the tree;
    the bitmap searches take the size of the bitmap, which [find_next_bit_first] and
    [find_next_zero_bit_first] show to be enough; [unlock_loop] takes the count of the
    lock, [reload_loop] and [flush_list] the timers and periods that are due; [board_read] takes the four rounds that a
    transfer of one byte needs.  For each of the others a theorem shows that the fuel is not used
    up.  The number of priorities, the heap
    size and the other constants are those of FreeRTOSConfig.h and of the
    headers.

    ** Not modelled

    - The rest of QEMU: the translation of guest code, the processor and its interrupt
      controller (armv7m, NVIC), object model, migration, other devices and boards;
      the parts above need only their calls, which are named in the components.
      Tracing and debug output have no effect on the state.
    - DMA transfers and the second clock of the SPI driver, which the configuration
      compiles out, and the register headers, which are parameters.
    - In FreeRTOS: the stacks and saved registers of the context switch (assembly),
      event groups, stream buffers, co-routines, queue sets and static allocation,
      which the demo does not use, and the functions of tasks.c that only report.
    - In the demo: the messages [main] prints when something cannot be created, which
      never happens; [TestMPU], which nothing calls.  The time a step takes is not
      modelled: interrupts, the tick included, come at any point.
    - The other drivers of the demo (clocks, ports, interrupt controller), start-up
      code and generated configuration other than that of the two drivers;
      Demo_FreeRTOS_MPU, of which the repository has only the binary, and the scripts
      of LPSPI_Testing. *)

From stdpp Require Export base list list_numbers gmap numbers.
From Stdlib Require Export ZArith Lia.

#[global] Open Scope Z_scope.

(** ** Faults and the result monad

    The C code aborts (or hangs) on a failed [assert], and has undefined
    behaviour on a division by zero, an access outside an array or through a
    null pointer.  Each of these is a [fault]; a computation either returns a
    value or faults.  [OutOfFuel] is no behaviour of the code: it marks a loop
    whose bound in the model was too small, so a theorem that a computation
    returns also says that its loops end. *)

Inductive fault :=
  | AssertFailure
  | DivisionByZero
  | OutOfBounds
  | NullPointer
  | OutOfFuel.

#[export] Instance fault_eq_dec : EqDecision fault.
Proof. solve_decision. Defined.

Inductive res (A : Type) :=
  | Ok (a : A)
  | Fault (f : fault).
Arguments Ok {A} a.
Arguments Fault {A} f.

Definition res_bind {A B} (m : res A) (k : A -> res B) : res B :=
  match m with
  | Ok a => k a
  | Fault f => Fault f
  end.

Definition assert (b : bool) : res unit :=
  if b then Ok tt else Fault AssertFailure.

Declare Scope res_scope.
Delimit Scope res_scope with res.
#[global] Open Scope res_scope.

Notation "'let!' x := m 'in' k" := (res_bind m (fun x => k))
  (at level 10, x name, m at level 100, k at level 200,
   format "'let!'  x  :=  m  'in' '//' k") : res_scope.
Notation "'let!' ' pat := m 'in' k" := (res_bind m (fun y => match y with pat => k end))
  (at level 10, pat strict pattern, m at level 100, k at level 200) : res_scope.
Notation "'do!' m 'in' k" := (res_bind m (fun _ => k))
  (at level 10, m at level 100, k at level 200,
   format "'do!'  m  'in' '//' k") : res_scope.

(** Run a fallible step once per element of [l], threading the state.  The step is a
    variable of the section, so that a recursive function can be the step. *)
Section fold.
Context {A S : Type} (f : S -> A -> res S).
Fixpoint res_fold (s : S) (l : list A) : res S :=
  match l with
  | [] => Ok s
  | x :: l' => let! s' := f s x in res_fold s' l'
  end.
End fold.

(** C division and remainder of unsigned operands. *)
Definition c_div (a b : Z) : res Z := if b =? 0 then Fault DivisionByZero else Ok (a / b).
Definition c_mod (a b : Z) : res Z := if b =? 0 then Fault DivisionByZero else Ok (a mod b).

(** [l[i]] and [l[i] = v] on an array, and [memcpy(&dst[off], src, n)]. *)
Definition load {A} (l : list A) (i : Z) : res A :=
  match l !! Z.to_nat i with
  | Some v => if 0 <=? i then Ok v else Fault OutOfBounds
  | None => Fault OutOfBounds
  end.
Definition store {A} (l : list A) (i : Z) (v : A) : res (list A) :=
  if (0 <=? i) && (i <? Z.of_nat (length l)) then Ok (<[Z.to_nat i := v]> l)
  else Fault OutOfBounds.
Definition memcpy {A} (dst : list A) (off : Z) (src : list A) (n : Z) : res (list A) :=
  if (0 <=? off) && (0 <=? n) && (off + n <=? Z.of_nat (length dst)) && (n <=? Z.of_nat (length src))
  then Ok (take (Z.to_nat off) dst ++ take (Z.to_nat n) src ++ drop (Z.to_nat (off + n)) dst)
  else Fault OutOfBounds.

Definition is_ok {A} (m : res A) : bool :=
  match m with Ok _ => true | Fault _ => false end.


(** ** Record update

    [s <| f := v |>] is [s] with field [f] set to [v].  A record type opts in
    with an [Eta] instance that rebuilds a record from its projections; the
    setter of a field is found by abstracting that projection. *)

Class Eta (R : Type) := eta : R -> R.
Class Setter {R T : Type} (p : R -> T) := { upd : (T -> T) -> R -> R }.

(** The setter of [p] is searched for by this tactic only, which checks that
    it sets the field. *)
Ltac find_setter R T p :=
  let inst := constr:(_ : Eta R) in
  let e := eval hnf in inst in
  let set := constr:(fun (g : T -> T) (r : R) =>
    ltac:(let body := eval cbv beta in (e r) in
          let abs := eval pattern (p r) in body in
          lazymatch abs with
          | ?h _ => let t := eval cbv beta in (h (g (p r))) in exact t
          end)) in
  let law := constr:(fun g r => eq_refl : p (set g r) = g (p r)) in
  exact (@Build_Setter R T p set).

#[export] Hint Extern 0 (@Setter ?R ?T ?p) => find_setter R T p : typeclass_instances.

Notation "s <| p := v |>" := (upd (p := p) (fun _ => v) s)
  (at level 1, left associativity, p at level 0, v at level 200,
   format "s  <| p  :=  v |>") : res_scope.

(** Push projections through setters.  The equation is proved for a variable
    record and rewritten at the occurrence, so that nested updates are never
    unfolded. *)
Ltac not_upd q := lazymatch q with @upd _ _ _ _ _ => fail | _ => idtac end.
Ltac upd_eq R T p i q :=
  match constr:(Set) with
  | _ => constr:(ltac:(reflexivity) : forall (f : T -> T) (s : R), q (@upd R T p i f s) = f (q s))
  | _ => constr:(ltac:(reflexivity) : forall (f : T -> T) (s : R), q (@upd R T p i f s) = q s)
  end.
Ltac rsimpl_step :=
  match goal with
  | |- context [?q (@upd ?R ?T ?p ?i ?f ?s)] =>
      not_upd q;
      let H := upd_eq R T p i q in
      pattern (q (@upd R T p i f s));
      lazymatch goal with |- ?P _ => refine (eq_ind_r P _ (H f s)); cbv beta end
  end.
Ltac rsimpl_in_step H :=
  match type of H with
  | context [?q (@upd ?R ?T ?p ?i ?f ?s)] =>
      not_upd q;
      let E := upd_eq R T p i q in
      let A := type of H in
      let B := eval pattern (q (@upd R T p i f s)) in A in
      lazymatch B with
      | ?P _ => apply (fun h => eq_ind _ P h _ (E f s)) in H; cbv beta in H
      end
  end.
Ltac rsimpl := repeat rsimpl_step.
Tactic Notation "rsimpl" "in" hyp(H) := repeat rsimpl_in_step H.

(** The last of two settings of one field wins. *)
Ltac rcollapse :=
  repeat match goal with
  | |- context [@upd ?R ?T ?p ?i ?f (@upd ?R ?T ?p ?i ?g ?s)] =>
      change (@upd R T p i f (@upd R T p i g s)) with (@upd R T p i (fun x => f (g x)) s); cbv beta
  end.


(** ** Machine integers

    A C integer of [w] bits is a [Z] in [0, 2^w); a cast is [u w]. *)

Definition u (w z : Z) : Z := z mod 2 ^ w.
Abbreviation u8 := (u 8).
Abbreviation u16 := (u 16).
Abbreviation u32 := (u 32).
Abbreviation u64 := (u 64).

Definition is_u (w z : Z) : Prop := 0 <= z < 2 ^ w.
#[export] Instance is_u_dec w z : Decision (is_u w z).
Proof. unfold is_u. apply _. Defined.

(** The C condition [x & m]. *)
Definition has (x m : Z) : bool := negb (Z.land x m =? 0).
(** [x |= m] and [x &= ~m]. *)
Definition set_bits (x m : Z) : Z := Z.lor x m.
Definition clear_bits (x m : Z) : Z := Z.ldiff x m.
(** [1 << n] and [m << n] for a constant [m]. *)
Definition BIT (n : Z) : Z := 2 ^ n.

Create HintDb ints.

Lemma u_range w z : 0 <= w -> is_u w (u w z).
Proof. intros. unfold is_u, u. apply Z.mod_pos_bound. lia. Qed.

Lemma u_small w z : is_u w z -> u w z = z.
Proof. apply Z.mod_small. Qed.

Lemma is_u_mono w w' z : w <= w' -> is_u w z -> is_u w' z.
Proof.
  unfold is_u. intros Hw [? ?]. split; [done|].
  apply (Z.lt_le_trans _ (2 ^ w)); [done|]. by apply Z.pow_le_mono_r.
Qed.

Lemma is_u_testbit w z : 0 <= w -> is_u w z <-> 0 <= z /\ forall i, w <= i -> Z.testbit z i = false.
Proof.
  intros Hw. split.
  - intros Hz. split; [apply Hz|]. intros i Hi.
    rewrite <- (u_small w z Hz). by apply Z.mod_pow2_bits_high.
  - intros [Hz Hb]. enough (z = u w z) as -> by by apply u_range.
    apply Z.bits_inj'. intros i Hi. unfold u. destruct (Z.lt_ge_cases i w).
    + by rewrite Z.mod_pow2_bits_low.
    + rewrite Z.mod_pow2_bits_high by lia. apply Hb. lia.
Qed.

Lemma is_u_lor w a b : 0 <= w -> is_u w a -> is_u w b -> is_u w (Z.lor a b).
Proof.
  intros Hw. rewrite !is_u_testbit by done. intros [? Ha] [? Hb].
  split; [by apply Z.lor_nonneg|]. intros i Hi. by rewrite Z.lor_spec, Ha, Hb.
Qed.

Lemma is_u_land w a b : 0 <= w -> is_u w a -> is_u w (Z.land a b).
Proof.
  intros Hw. rewrite !is_u_testbit by done. intros [? Ha].
  split; [apply Z.land_nonneg; by left|]. intros i Hi. by rewrite Z.land_spec, Ha.
Qed.

Lemma is_u_land_r w a b : 0 <= w -> is_u w b -> is_u w (Z.land a b).
Proof. rewrite Z.land_comm. apply is_u_land. Qed.

Lemma is_u_ldiff w a b : 0 <= w -> is_u w a -> is_u w (Z.ldiff a b).
Proof.
  intros Hw. rewrite !is_u_testbit by done. intros [? Ha].
  split; [apply Z.ldiff_nonneg; by left|]. intros i Hi. by rewrite Z.ldiff_spec, Ha.
Qed.

Lemma is_u_set_bits w a b : 0 <= w -> is_u w a -> is_u w b -> is_u w (set_bits a b).
Proof. apply is_u_lor. Qed.
Lemma is_u_clear_bits w a b : 0 <= w -> is_u w a -> is_u w (clear_bits a b).
Proof. apply is_u_ldiff. Qed.

#[export] Hint Resolve u_range is_u_lor is_u_land is_u_land_r is_u_set_bits is_u_clear_bits : ints.
#[export] Hint Extern 5 (0 <= _) => lia : ints.
#[export] Hint Extern 6 (is_u _ _) => (unfold is_u; lia) : ints.

(** Testing a single-bit mask is [Z.testbit]. *)
Lemma has_BIT x n : 0 <= n -> has x (BIT n) = Z.testbit x n.
Proof.
  intros Hn. unfold has, BIT. destruct (Z.testbit x n) eqn:E.
  - apply negb_true_iff, Z.eqb_neq. intros H.
    apply (f_equal (fun z => Z.testbit z n)) in H.
    rewrite Z.land_spec, E, Z.pow2_bits_true, Z.bits_0 in H by done. done.
  - apply negb_false_iff, Z.eqb_eq, Z.bits_inj'. intros i Hi.
    rewrite Z.land_spec, Z.bits_0, Z.pow2_bits_eqb by done.
    destruct (Z.eqb_spec n i) as [<-|]; by rewrite ?E, ?andb_false_r.
Qed.

Lemma has_true_iff x m : has x m = true <-> Z.land x m <> 0.
Proof. unfold has. by rewrite negb_true_iff, Z.eqb_neq. Qed.

Lemma has_lor_mask x m1 m2 : has x (Z.lor m1 m2) = has x m1 || has x m2.
Proof.
  unfold has. rewrite Z.land_lor_distr_r.
  destruct (Z.eqb_spec (Z.land x m1) 0) as [->|H1];
    destruct (Z.eqb_spec (Z.land x m2) 0) as [->|H2]; cbn;
    rewrite ?Z.lor_0_l, ?Z.lor_0_r; try done.
  - by apply Z.eqb_neq in H2 as ->.
  - by apply Z.eqb_neq in H1 as ->.
  - apply negb_true_iff, Z.eqb_neq. rewrite Z.lor_eq_0_iff. tauto.
Qed.

Lemma BIT_u32 n : 0 <= n < 32 -> is_u 32 (BIT n).
Proof.
  unfold is_u, BIT. split; [apply Z.pow_nonneg; lia|apply Z.pow_lt_mono_r; lia].
Qed.

Lemma testbit_BIT n i : 0 <= n -> Z.testbit (BIT n) i = (n =? i).
Proof. apply Z.pow2_bits_eqb. Qed.

Lemma has_clear x m : has (clear_bits x m) m = false.
Proof.
  unfold has, clear_bits. apply negb_false_iff, Z.eqb_eq, Z.bits_inj'. intros i _.
  rewrite Z.land_spec, Z.ldiff_spec, Z.bits_0. by destruct (Z.testbit x i), (Z.testbit m i).
Qed.

#[export] Hint Resolve BIT_u32 : ints.

(** Simplify the bits of words built by [set_bits], [clear_bits] and [land]. *)
Ltac closed_Z t :=
  lazymatch t with
  | Z0 => idtac | Zpos ?p => closed_pos p | Zneg ?p => closed_pos p
  end
with closed_pos p :=
  lazymatch p with xH => idtac | xI ?q => closed_pos q | xO ?q => closed_pos q end.

Ltac eval_testbit :=
  repeat match goal with
  | |- context [Z.testbit ?c ?n] =>
      closed_Z c; closed_Z n;
      let v := eval vm_compute in (Z.testbit c n) in change (Z.testbit c n) with v
  end.

Ltac bits_simpl :=
  unfold set_bits, clear_bits;
  repeat rewrite ?Z.lor_spec, ?Z.land_spec, ?Z.ldiff_spec;
  eval_testbit;
  repeat rewrite ?orb_false_r, ?orb_true_r, ?andb_true_r, ?andb_false_r, ?orb_false_l,
    ?andb_true_l, ?andb_false_l; cbn [negb andb orb].

(** Bounds of every element of a literal list. *)
Ltac forall_bytes :=
  repeat first [ apply List.Forall_nil | apply List.Forall_cons | split ];
  cbn; unfold is_u; repeat split; cbn; try lia; try exact I.

(** ** Result-monad lemmas *)

Lemma res_bind_ok {A B} (m : res A) (k : A -> res B) (b : B) :
  res_bind m k = Ok b <-> exists a, m = Ok a /\ k a = Ok b.
Proof. destruct m; cbn; split; [by eauto|by intros (? & [= ->] & ?)|done|by intros (? & ? & ?)]. Qed.

Lemma res_fold_app {A S} (f : S -> A -> res S) s l1 l2 :
  res_fold f s (l1 ++ l2) = let! s' := res_fold f s l1 in res_fold f s' l2.
Proof.
  revert s. induction l1 as [|x l1 IH]; intros s; cbn; [done|].
  destruct (f s x); cbn; auto.
Qed.

(** An invariant of every step of a fold, and that the fold does not fault. *)
Lemma res_fold_inv {A S} (P : S -> Prop) (f : S -> A -> res S) s l :
  P s -> (forall s x, In x l -> P s -> exists s', f s x = Ok s' /\ P s') ->
  exists s', res_fold f s l = Ok s' /\ P s'.
Proof.
  revert s. induction l as [|x l IH]; intros s Hs Hf; cbn; [by exists s|].
  destruct (Hf s x) as (s1 & -> & Hs1); [by left|done|]. cbn.
  apply IH; [done|]. intros s2 y Hy. apply Hf. by right.
Qed.

(** The computation returns, and its result is as described. *)
Definition yields {A} (m : res A) (P : A -> Prop) : Prop := exists x, m = Ok x /\ P x.

Lemma yields_ok {A} (x : A) (P : A -> Prop) : P x -> yields (Ok x) P.
Proof. by exists x. Qed.
Lemma yields_bind {A B} (m : res A) (k : A -> res B) (P : A -> Prop) (Q : B -> Prop) :
  yields m P -> (forall x, P x -> yields (k x) Q) -> yields (res_bind m k) Q.
Proof. intros (x & -> & Hx) Hk. exact (Hk x Hx). Qed.
Lemma yields_mono {A} (m : res A) (P Q : A -> Prop) :
  yields m P -> (forall x, P x -> Q x) -> yields m Q.
Proof. intros (x & -> & Hx) HQ. exists x. by split; [|apply HQ]. Qed.
Lemma yields_fold {A S} (P : S -> Prop) (f : S -> A -> res S) s l :
  P s -> (forall s x, P s -> yields (f s x) P) -> yields (res_fold f s l) P.
Proof. intros Hs Hf. by apply res_fold_inv; [|intros s' x _; apply Hf]. Qed.
Lemma yields_assert (b : bool) (P : unit -> Prop) : b = true -> P tt -> yields (assert b) P.
Proof. intros -> HP. by exists tt. Qed.

Lemma assert_true (b : bool) : b = true -> assert b = Ok tt.
Proof. by intros ->. Qed.

Lemma c_div_nz a b : b <> 0 -> c_div a b = Ok (a / b).
Proof. unfold c_div. intros Hb%Z.eqb_neq. by rewrite Hb. Qed.
Lemma c_mod_nz a b : b <> 0 -> c_mod a b = Ok (a mod b).
Proof. unfold c_mod. intros Hb%Z.eqb_neq. by rewrite Hb. Qed.

Lemma load_ok {A} (l : list A) i v :
  0 <= i -> l !! Z.to_nat i = Some v -> load l i = Ok v.
Proof. unfold load. intros Hi ->. by destruct (Z.leb_spec 0 i); [|lia]. Qed.

Lemma store_ok {A} (l : list A) i v :
  0 <= i < Z.of_nat (length l) -> store l i v = Ok (<[Z.to_nat i := v]> l).
Proof.
  unfold store. intros Hi.
  by destruct (Z.leb_spec 0 i), (Z.ltb_spec i (Z.of_nat (length l))); try lia.
Qed.

(** Storing where an element was read, and reading it back. *)
Lemma store_set {A} (l : list A) i v v' :
  load l i = Ok v -> exists l', store l i v' = Ok l' /\ load l' i = Ok v'.
Proof.
  unfold load. destruct (l !! Z.to_nat i) eqn:E; [|done]. destruct (Z.leb_spec 0 i); [|done]. intros _.
  apply lookup_lt_Some in E. rewrite store_ok by lia. eexists. split; [done|]. by rewrite list_lookup_insert_eq.
Qed.

Lemma store_same {A} (l l' : list A) i v : load l i = Ok v -> store l i v = Ok l' -> l' = l.
Proof.
  unfold load, store. destruct (0 <=? i) eqn:Hi; cbn [andb]; destruct (l !! Z.to_nat i) eqn:E; try done. intros [= ->].
  destruct (i <? Z.of_nat (length l)); [|done]. intros [= <-]. by apply list_insert_id.
Qed.
Lemma store_other {A} (l l' : list A) i j v : store l i v = Ok l' -> j <> i -> load l' j = load l j.
Proof.
  unfold load, store. destruct (Z.leb_spec 0 i), (i <? Z.of_nat (length l)); cbn [andb]; try done. intros [= <-] Hne.
  destruct (Z.leb_spec 0 j); [|by destruct (l !! _), (<[_ := _]> l !! _)]. by rewrite list_lookup_insert_ne by lia.
Qed.
Lemma store_oob {A} (l : list A) i v :
  Z.of_nat (length l) <= i -> store l i v = Fault OutOfBounds.
Proof.
  unfold store. intros Hi. destruct (Z.ltb_spec i (Z.of_nat (length l))); [lia|].
  by rewrite andb_false_r.
Qed.

Lemma memcpy_ok {A} (dst src : list A) off n :
  0 <= off -> 0 <= n -> off + n <= Z.of_nat (length dst) -> n <= Z.of_nat (length src) ->
  memcpy dst off src n
  = Ok (take (Z.to_nat off) dst ++ take (Z.to_nat n) src ++ drop (Z.to_nat (off + n)) dst).
Proof.
  unfold memcpy. intros.
  by destruct (Z.leb_spec 0 off), (Z.leb_spec 0 n), (Z.leb_spec (off + n) (Z.of_nat (length dst))),
    (Z.leb_spec n (Z.of_nat (length src))); try lia.
Qed.

(** ** Reading an array as a ring

    [ring h l] is the array [l] read cyclically from index [h]. *)
Definition ring {A} (h : nat) (l : list A) : list A := drop h l ++ take h l.

Ltac len := repeat rewrite ?length_app, ?length_take, ?length_drop; cbn [length]; lia.

Section ring.
Context {A : Type}.
Implicit Types (l src : list A) (x : A).

Lemma length_ring h l : length (ring h l) = length l.
Proof. unfold ring. rewrite length_app, length_drop, length_take. lia. Qed.

(** Writing cell [n] of the ring. *)
Lemma ring_insert h n x l :
  (h <= length l)%nat -> (n < length l)%nat ->
  ring h (<[(if decide (h + n < length l) then h + n else h + n - length l)%nat := x]> l)
  = <[n := x]> (ring h l).
Proof.
  intros Hh Hn. unfold ring. case_decide.
  - rewrite drop_insert_ge, take_insert_ge by lia.
    replace (h + n - h)%nat with n by lia.
    by rewrite insert_app_l by (rewrite length_drop; lia).
  - rewrite drop_insert_lt, take_insert_lt by lia.
    replace n with (length (drop h l) + (h + n - length l))%nat at 2
      by (rewrite length_drop; lia).
    by rewrite insert_app_r.
Qed.

(** Advancing the start of the ring by [k]. *)
Lemma ring_advance h k l :
  (h <= length l)%nat -> (k <= length l)%nat ->
  ring (if decide (h + k < length l) then h + k else h + k - length l)%nat l
  = drop k (ring h l) ++ take k (ring h l).
Proof.
  intros Hh Hk. unfold ring. case_decide.
  - rewrite drop_app_le, take_app_le by (rewrite length_drop; lia).
    rewrite drop_drop, <- app_assoc, take_drop_commute. f_equal.
    rewrite <- (take_drop h (take (h + k) l)) at 1. by rewrite take_take, Nat.min_l by lia.
  - rewrite drop_app_ge, take_app_ge, length_drop by (rewrite length_drop; lia).
    replace (k - (length l - h))%nat with (h + k - length l)%nat by lia.
    set (j := (h + k - length l)%nat). rewrite take_take, Nat.min_l, app_assoc by lia.
    f_equal. rewrite <- (take_drop h l) at 1.
    by rewrite drop_app_le by (rewrite length_take; lia).
Qed.

(** Reading [k] contiguous cells from the start. *)
Lemma take_ring_low h k l :
  (h + k <= length l)%nat -> take k (drop h l) = take k (ring h l).
Proof. intros. unfold ring. by rewrite take_app_le by (rewrite length_drop; lia). Qed.

(** Overwriting cells [n, n + length src) of the ring: the block fits before the
    end of the array, is cut by it, or starts after it. *)
Lemma ring_write_low h n l src :
  (h + n + length src <= length l)%nat ->
  take (n + length src) (ring h (take (h + n) l ++ src ++ drop (h + n + length src) l))
  = take n (ring h l) ++ src.
Proof.
  intros. unfold ring. rewrite drop_app_le by (rewrite length_take; lia).
  rewrite <- take_drop_commute, <- !app_assoc.
  rewrite take_app_add' by (rewrite length_take, length_drop; lia).
  rewrite take_app_length. f_equal.
  by rewrite take_app_le by (rewrite length_drop; lia).
Qed.

Lemma ring_write_split h n l src :
  (h + n <= length l)%nat -> (n + length src <= length l)%nat ->
  (length l < h + n + length src)%nat -> (h <= length l)%nat ->
  let avail := (length l - (h + n))%nat in
  take (n + length src)
    (ring h (drop avail src
             ++ drop (length src - avail) (take (h + n) l ++ take avail src)))
  = take n (ring h l) ++ src.
Proof.
  intros ??? Hh avail. unfold ring.
  rewrite drop_app_ge, length_drop by len.
  rewrite drop_drop. replace (length src - avail + (h - (length src - avail)))%nat with h by lia.
  rewrite drop_app_le, <- take_drop_commute by len.
  rewrite <- app_assoc. rewrite take_app_add' by len.
  rewrite (take_app_le (drop h l)) by len. f_equal.
  rewrite take_app_ge, length_take by len.
  rewrite take_take, take_app_le, (take_ge (drop avail src)) by len.
  apply take_drop.
Qed.

Lemma ring_write_high h n l src :
  (length l <= h + n)%nat -> (n + length src <= length l)%nat -> (h <= length l)%nat ->
  let start := (h + n - length l)%nat in
  take (n + length src) (ring h (take start l ++ src ++ drop (start + length src) l))
  = take n (ring h l) ++ src.
Proof.
  intros ?? Hh start. unfold ring.
  rewrite drop_app_ge by len.
  rewrite drop_app_ge by len.
  rewrite drop_drop, length_take, Nat.min_l by lia.
  replace (start + length src + (h - start - length src))%nat with h by lia.
  rewrite (take_app_ge (take start l)) by len.
  rewrite length_take, Nat.min_l by lia.
  rewrite !take_app_ge by len.
  rewrite !length_drop, length_take, Nat.min_l by lia.
  rewrite <- app_assoc. replace (n - (length l - h))%nat with start by lia.
  replace (n + length src - (length l - h) - start - length src)%nat with 0%nat by lia.
  rewrite take_0, app_nil_r. by rewrite take_take, Nat.min_l by lia.
Qed.

End ring.

(** The index arithmetic [(h + i) % c] of a ring buffer. *)
Lemma ring_index h i c :
  0 <= h < c -> 0 <= i <= c ->
  Z.to_nat ((h + i) mod c)
  = if decide (Z.to_nat h + Z.to_nat i < Z.to_nat c)%nat then (Z.to_nat h + Z.to_nat i)%nat
    else (Z.to_nat h + Z.to_nat i - Z.to_nat c)%nat.
Proof.
  intros Hh Hi. case_decide.
  - rewrite Z.mod_small by lia. lia.
  - rewrite <- (Z_mod_plus_full _ (-1)), Z.mod_small by lia. lia.
Qed.

Lemma ring_index_bounds h i c : 0 < c -> 0 <= (h + i) mod c < c.
Proof. intros. by apply Z.mod_pos_bound. Qed.
