(* ===== verification/Words.v ===== *)
(** * Words and their bytes

    The device models split a word into bytes and put it together again, least
    or most significant byte first.  Reference definitions of both directions
    and their round trips. *)

From S2P Require Import Prelude.

(** The word whose bytes are [bs], least significant first. *)
Fixpoint le_word (bs : list Z) : Z :=
  match bs with
  | [] => 0
  | b :: bs' => Z.lor b (Z.shiftl (le_word bs') 8)
  end.

(** The [n] low bytes of [v], least significant first. *)
Fixpoint le_bytes (n : nat) (v : Z) : list Z :=
  match n with
  | O => []
  | S n' => Z.land v 0xFF :: le_bytes n' (Z.shiftr v 8)
  end.

(** The same in the byte order selected by [lsbf] (least significant first). *)
Definition word_of (lsbf : bool) (bs : list Z) : Z := le_word (if lsbf then bs else rev bs).
Definition bytes_of (lsbf : bool) (n : nat) (v : Z) : list Z :=
  if lsbf then le_bytes n v else rev (le_bytes n v).

Lemma land_ff_u v : is_u 8 (Z.land v 0xFF).
Proof. apply is_u_land_r; [lia|]. unfold is_u. lia. Qed.

Lemma length_le_bytes n v : length (le_bytes n v) = n.
Proof. revert v. induction n; intros v; cbn; auto. Qed.

Lemma length_bytes_of lsbf n v : length (bytes_of lsbf n v) = n.
Proof. unfold bytes_of. destruct lsbf; by rewrite ?length_rev, length_le_bytes. Qed.

Lemma le_bytes_u8 n v : Forall (is_u 8) (le_bytes n v).
Proof. revert v. induction n; intros v; cbn; constructor; auto using land_ff_u. Qed.

Lemma bytes_of_u8 lsbf n v : Forall (is_u 8) (bytes_of lsbf n v).
Proof. unfold bytes_of. destruct lsbf; [|apply Forall_rev]; apply le_bytes_u8. Qed.

Lemma le_word_app a b :
  le_word (a ++ b) = Z.lor (le_word a) (Z.shiftl (le_word b) (8 * Z.of_nat (length a))).
Proof.
  induction a as [|x a IH]; cbn -[Z.mul Z.of_nat Z.shiftl Z.lor]; [by rewrite Z.shiftl_0_r|].
  rewrite IH, Z.shiftl_lor, Z.shiftl_shiftl, Z.lor_assoc by lia. do 2 f_equal. lia.
Qed.

Lemma is_u_shiftl w k x : 0 <= k -> is_u w x -> is_u (w + k) (Z.shiftl x k).
Proof.
  unfold is_u. intros Hk [H0 H1]. rewrite Z.shiftl_mul_pow2 by done.
  destruct (Z.lt_ge_cases w 0) as [Hw|Hw].
  { rewrite Z.pow_neg_r in H1 by done. lia. }
  rewrite Z.pow_add_r by lia. pose proof (Z.pow_pos_nonneg 2 k). nia.
Qed.

Lemma le_word_u bs : Forall (is_u 8) bs -> is_u (8 * Z.of_nat (length bs)) (le_word bs).
Proof.
  induction 1 as [|b bs Hb _ IH]; cbn -[Z.mul Z.of_nat Z.shiftl Z.lor]; [unfold is_u; lia|].
  apply is_u_lor; [lia|apply (is_u_mono 8); [lia|done]|].
  replace (8 * Z.of_nat (S (length bs))) with (8 * Z.of_nat (length bs) + 8) by lia.
  by apply is_u_shiftl.
Qed.

Lemma word_of_u32 lsbf bs :
  Forall (is_u 8) bs -> (length bs <= 4)%nat -> is_u 32 (word_of lsbf bs).
Proof.
  intros Hb Hl. unfold word_of. destruct lsbf.
  - eapply is_u_mono; [|by apply le_word_u]. lia.
  - eapply is_u_mono; [|apply le_word_u; by apply Forall_rev]. rewrite length_rev. lia.
Qed.

(** Splitting and rejoining keeps the low bytes. *)
Lemma le_word_bytes n v : le_word (le_bytes n v) = u (8 * Z.of_nat n) v.
Proof.
  revert v. induction n as [|n IH]; intros v; cbn -[Z.mul Z.of_nat Z.shiftl Z.lor Z.land].
  { unfold u. by rewrite Z.mod_1_r. }
  rewrite IH. unfold u. apply Z.bits_inj'. intros i Hi.
  change 255 with (Z.ones 8). rewrite Z.lor_spec, Z.land_ones by lia.
  destruct (Z.lt_ge_cases i 8).
  - rewrite Z.shiftl_spec_low, orb_false_r by lia. by rewrite !Z.mod_pow2_bits_low by lia.
  - rewrite Z.mod_pow2_bits_high, orb_false_l, Z.shiftl_spec by lia.
    destruct (Z.lt_ge_cases i (8 * Z.of_nat (S n))).
    + rewrite !Z.mod_pow2_bits_low, Z.shiftr_spec by lia. f_equal. lia.
    + by rewrite !Z.mod_pow2_bits_high by lia.
Qed.

Lemma word_of_bytes_of lsbf n v : word_of lsbf (bytes_of lsbf n v) = u (8 * Z.of_nat n) v.
Proof. unfold word_of, bytes_of. destruct lsbf; by rewrite ?rev_involutive, le_word_bytes. Qed.

(** Joining and splitting again gives the bytes back. *)
Lemma le_bytes_word bs : Forall (is_u 8) bs -> le_bytes (length bs) (le_word bs) = bs.
Proof.
  induction 1 as [|b bs Hb _ IH]; cbn -[Z.shiftl Z.lor Z.land]; [done|].
  assert (Z.land (Z.lor b (Z.shiftl (le_word bs) 8)) 255 = b) as ->.
  { change 255 with (Z.ones 8). rewrite Z.land_lor_distr_l, !Z.land_ones by lia.
    rewrite Z.shiftl_mul_pow2, Z.mod_mul, Z.lor_0_r by lia. by apply Z.mod_small. }
  f_equal. rewrite Z.shiftr_lor, Z.shiftr_shiftl_l, Z.sub_diag, Z.shiftl_0_r by lia.
  rewrite Z.shiftr_div_pow2, Z.div_small, Z.lor_0_l by (unfold is_u in Hb; lia). done.
Qed.

(** The byte selected by index [i] in either order. *)
Lemma le_bytes_lookup n v k : (k < n)%nat ->
  le_bytes n v !! k = Some (Z.land (Z.shiftr v (Z.of_nat k * 8)) 0xFF).
Proof.
  revert v k. induction n as [|n IH]; intros v k Hk; [lia|].
  destruct k as [|k]; cbn -[Z.mul Z.of_nat Z.shiftr Z.land]; [by rewrite Z.shiftr_0_r|].
  rewrite IH, Z.shiftr_shiftr by lia. do 3 f_equal. lia.
Qed.
