(* ===== verification/Fifo.v ===== *)
(** * QEMU's byte FIFO

    [util/fifo8.c]: a circular buffer of bytes.  [Module Fifo8] translates every
    operation; [contents] is the abstract queue a FIFO stands for, and each
    operation is shown to implement the queue operation it is named after. *)

From S2P Require Import Prelude.

Module Fifo8.

(** The [Fifo8] struct of [include/qemu/fifo8.h]. *)
Record Fifo8 := mkFifo8 {
  data : list Z;
  capacity : Z;
  head : Z;
  num : Z;
}.
#[global] Instance eta_Fifo8 : Eta Fifo8 :=
  fun f => mkFifo8 (data f) (capacity f) (head f) (num f).

Definition fifo8_reset (fifo : Fifo8) : Fifo8 :=
  fifo <| num := 0 |> <| head := 0 |>.

(** [mem] is the block [g_new(uint8_t, capacity)] returns; it is not
    initialised, so its bytes are arbitrary. *)
Definition fifo8_create (mem : list Z) (cap : Z) (fifo : Fifo8) : Fifo8 :=
  fifo8_reset (fifo <| data := mem |> <| capacity := cap |>).

Definition fifo8_push (fifo : Fifo8) (d : Z) : res Fifo8 :=
  do! assert (num fifo <? capacity fifo) in
  let! i := c_mod (u32 (head fifo + num fifo)) (capacity fifo) in
  let! m := store (data fifo) i d in
  Ok (fifo <| data := m |> <| num := u32 (num fifo + 1) |>).

Definition fifo8_push_all (fifo : Fifo8) (d : list Z) (n : Z) : res Fifo8 :=
  do! assert (u32 (num fifo + n) <=? capacity fifo) in
  let! start := c_mod (u32 (head fifo + num fifo)) (capacity fifo) in
  let! m :=
    (if u32 (start + n) <=? capacity fifo then memcpy (data fifo) start d n
     else
       let avail := u32 (capacity fifo - start) in
       let! m1 := memcpy (data fifo) start d avail in
       memcpy m1 0 (drop (Z.to_nat avail) d) (u32 (n - avail))) in
  Ok (fifo <| data := m |> <| num := u32 (num fifo + n) |>).

Definition fifo8_pop (fifo : Fifo8) : res (Z * Fifo8) :=
  do! assert (0 <? num fifo) in
  let! ret := load (data fifo) (head fifo) in
  let! h := c_mod (u32 (head fifo + 1)) (capacity fifo) in
  Ok (ret, fifo <| head := h |> <| num := u32 (num fifo - 1) |>).

Definition fifo8_peek (fifo : Fifo8) : res Z :=
  do! assert (0 <? num fifo) in
  load (data fifo) (head fifo).

(** The returned pointer [&fifo->data[head]] is the offset [head]; the second
    component is what is stored through [numptr]. *)
Definition fifo8_peekpop_bufptr (fifo : Fifo8) (max skip : Z) (do_pop : bool)
    : res (Z * Z * Fifo8) :=
  do! assert ((0 <? max) && (max <=? num fifo)) in
  do! assert (skip <=? num fifo) in
  let! h := c_mod (u32 (head fifo + skip)) (capacity fifo) in
  let n := Z.min (u32 (capacity fifo - h)) max in
  if do_pop then
    let! h' := c_mod (u32 (h + n)) (capacity fifo) in
    Ok (h, n, fifo <| head := h' |> <| num := u32 (num fifo - n) |>)
  else Ok (h, n, fifo).

Definition fifo8_peek_bufptr (fifo : Fifo8) (max : Z) : res (Z * Z * Fifo8) :=
  fifo8_peekpop_bufptr fifo max 0 false.

Definition fifo8_pop_bufptr (fifo : Fifo8) (max : Z) : res (Z * Z * Fifo8) :=
  fifo8_peekpop_bufptr fifo max 0 true.

(** [if (dest) memcpy(&dest[off], buf, n)], [buf] an offset in [data]. *)
Definition copy_out (dest : option (list Z)) (off : Z) (fifo : Fifo8) (buf n : Z)
    : res (option (list Z)) :=
  match dest with
  | Some d => let! d' := memcpy d off (drop (Z.to_nat buf) (data fifo)) n in Ok (Some d')
  | None => Ok None
  end.

Definition fifo8_num_used (fifo : Fifo8) : Z := num fifo.
Definition fifo8_num_free (fifo : Fifo8) : Z := u32 (capacity fifo - num fifo).
Definition fifo8_is_empty (fifo : Fifo8) : bool := num fifo =? 0.
Definition fifo8_is_full (fifo : Fifo8) : bool := num fifo =? capacity fifo.

(** Returns the byte count, the destination buffer (if any) and the FIFO. *)
Definition fifo8_peekpop_buf (fifo : Fifo8) (dest : option (list Z)) (destlen : Z)
    (do_pop : bool) : res (Z * option (list Z) * Fifo8) :=
  if destlen =? 0 then Ok (0, dest, fifo) else
  let! '(buf, n1, fifo1) := fifo8_peekpop_bufptr fifo destlen 0 do_pop in
  let! dest1 := copy_out dest 0 fifo1 buf n1 in
  let len := Z.min (u32 (destlen - n1)) (fifo8_num_used fifo1) in
  if negb (len =? 0) then
    let! '(buf2, n2, fifo2) :=
      fifo8_peekpop_bufptr fifo1 len (if do_pop then 0 else n1) do_pop in
    let! dest2 := copy_out dest1 n1 fifo2 buf2 n2 in
    Ok (u32 (n1 + n2), dest2, fifo2)
  else Ok (u32 (n1 + 0), dest1, fifo1).

Definition fifo8_pop_buf (fifo : Fifo8) (dest : option (list Z)) (destlen : Z) :=
  fifo8_peekpop_buf fifo dest destlen true.

Definition fifo8_peek_buf (fifo : Fifo8) (dest : option (list Z)) (destlen : Z) :=
  fifo8_peekpop_buf fifo dest destlen false.

Definition fifo8_drop (fifo : Fifo8) (len : Z) : res Fifo8 :=
  let! '(n, _, fifo') := fifo8_pop_buf fifo None len in
  do! assert (u32 (len - n) =? 0) in
  Ok fifo'.

(** ** Clients

    A client's calls, with the bytes each call hands back. *)
Inductive fifo_op :=
  | OReset
  | OPush (d : Z)
  | OPushAll (d : list Z)
  | OPop
  | OPeek
  | OPopBuf (n : Z)
  | OPeekBuf (n : Z)
  | ODrop (n : Z).

Definition fifo_exec (fifo : Fifo8) (o : fifo_op) : res (list Z * Fifo8) :=
  match o with
  | OReset => Ok ([], fifo8_reset fifo)
  | OPush d => let! f := fifo8_push fifo d in Ok ([], f)
  | OPushAll d => let! f := fifo8_push_all fifo d (Z.of_nat (length d)) in Ok ([], f)
  | OPop => let! '(d, f) := fifo8_pop fifo in Ok ([d], f)
  | OPeek => let! d := fifo8_peek fifo in Ok ([d], fifo)
  | OPopBuf n =>
      let! '(_, dest, f) := fifo8_pop_buf fifo (Some (replicate (Z.to_nat n) 0)) n in
      Ok (default [] dest, f)
  | OPeekBuf n =>
      let! '(_, dest, f) := fifo8_peek_buf fifo (Some (replicate (Z.to_nat n) 0)) n in
      Ok (default [] dest, f)
  | ODrop n => let! f := fifo8_drop fifo n in Ok ([], f)
  end.

Fixpoint fifo_run (fifo : Fifo8) (ops : list fifo_op) : res (list Z * Fifo8) :=
  match ops with
  | [] => Ok ([], fifo)
  | o :: ops' =>
      let! '(out, fifo1) := fifo_exec fifo o in
      let! '(outs, fifo2) := fifo_run fifo1 ops' in
      Ok (out ++ outs, fifo2)
  end.

(** The same calls on a bounded queue, as [fifo8.h] documents them; [None] when the
    header leaves the call undefined (a push that does not fit, a pop, peek or drop of
    bytes that are not there).  The length of a buffered read is a maximum. *)
Definition queue_exec (cap : Z) (q : list Z) (o : fifo_op) : option (list Z * list Z) :=
  match o with
  | OReset => Some ([], [])
  | OPush d => if Z.of_nat (length q) <? cap then Some ([], q ++ [d]) else None
  | OPushAll d =>
      if Z.of_nat (length q + length d) <=? cap then Some ([], q ++ d) else None
  | OPop => match q with [] => None | d :: q' => Some ([d], q') end
  | OPeek => match q with [] => None | d :: _ => Some ([d], q) end
  | OPopBuf n => Some (take (Z.to_nat n) q, drop (Z.to_nat n) q)
  | OPeekBuf n => Some (take (Z.to_nat n) q, q)
  | ODrop n => if n <=? Z.of_nat (length q) then Some ([], drop (Z.to_nat n) q) else None
  end.

Fixpoint queue_run (cap : Z) (q : list Z) (ops : list fifo_op) : option (list Z * list Z) :=
  match ops with
  | [] => Some ([], q)
  | o :: ops' =>
      match queue_exec cap q o with
      | None => None
      | Some (out, q1) =>
          match queue_run cap q1 ops' with
          | None => None
          | Some (outs, q2) => Some (out ++ outs, q2)
          end
      end
  end.

(** No buffered read of the sequence asks for more bytes than the queue then holds. *)
Definition asks_held (q : list Z) (o : fifo_op) : bool :=
  match o with OPopBuf n | OPeekBuf n => n <=? Z.of_nat (length q) | _ => true end.
Fixpoint asks_run (cap : Z) (q : list Z) (ops : list fifo_op) : bool :=
  match ops with
  | [] => true
  | o :: ops' => asks_held q o && match queue_exec cap q o with Some (_, q1) => asks_run cap q1 ops' | None => true end
  end.

(** Arguments of the right C types. *)
Definition op_ok (o : fifo_op) : Prop :=
  match o with
  | OPush d => is_u 8 d
  | OPushAll d => Forall (is_u 8) d /\ is_u 31 (Z.of_nat (length d))
  | OPopBuf n | OPeekBuf n | ODrop n => is_u 32 n
  | OReset | OPop | OPeek => True
  end.

(** ** The abstract queue and the representation invariant *)

Definition contents (fifo : Fifo8) : list Z :=
  take (Z.to_nat (num fifo)) (ring (Z.to_nat (head fifo)) (data fifo)).

Record wf (fifo : Fifo8) : Prop := {
  wf_capacity : 0 < capacity fifo < 2 ^ 31;
  wf_length : Z.of_nat (length (data fifo)) = capacity fifo;
  wf_head : 0 <= head fifo < capacity fifo;
  wf_num : 0 <= num fifo <= capacity fifo;
  wf_bytes : Forall (is_u 8) (data fifo);
}.

(** Two FIFOs are interchangeable for every client. *)
#[global] Instance fifo_equiv : Equiv Fifo8 := fun f g =>
  contents f = contents g /\ capacity f = capacity g.
#[global] Instance fifo_equivalence : Equivalence (≡@{Fifo8}).
Proof.
  split.
  - intros f. done.
  - intros f g [? ?]. done.
  - intros f g h [H1 ?] [H2 ?]. split; [by rewrite H1|congruence].
Qed.

Section lemmas.
Context (fifo : Fifo8) (Hwf : wf fifo).

Lemma length_contents : Z.of_nat (length (contents fifo)) = num fifo.
Proof.
  destruct Hwf as [Hc Hl Hh Hn _]. unfold contents. rewrite length_take, length_ring. lia.
Qed.

Lemma contents_bytes : Forall (is_u 8) (contents fifo).
Proof.
  destruct Hwf as [_ _ _ _ Hb]. unfold contents, ring.
  apply Forall_take, Forall_app; split; [by apply Forall_drop|by apply Forall_take].
Qed.

Lemma num_free_eq : fifo8_num_free fifo = capacity fifo - num fifo.
Proof. destruct Hwf. unfold fifo8_num_free. apply u_small. unfold is_u. lia. Qed.

Lemma is_empty_contents : fifo8_is_empty fifo = true <-> contents fifo = [].
Proof.
  unfold fifo8_is_empty. rewrite Z.eqb_eq, <- length_contents.
  destruct (contents fifo); cbn; split; (done || lia).
Qed.

(** The slot [(head + num) % capacity] both writers compute. *)
Lemma write_index :
  c_mod (u32 (head fifo + num fifo)) (capacity fifo)
  = Ok ((head fifo + num fifo) mod capacity fifo).
Proof.
  destruct Hwf. rewrite u_small by (unfold is_u; lia). apply c_mod_nz. lia.
Qed.

Lemma push_ok d :
  is_u 8 d -> num fifo < capacity fifo ->
  exists fifo', fifo8_push fifo d = Ok fifo' /\ wf fifo' /\
    contents fifo' = contents fifo ++ [d] /\ capacity fifo' = capacity fifo.
Proof.
  intros Hd Hfree. pose proof Hwf as [Hc Hl Hh Hn Hb]. unfold fifo8_push.
  rewrite assert_true by (by apply Z.ltb_lt). cbn [res_bind].
  rewrite write_index. cbn [res_bind].
  pose proof (ring_index_bounds (head fifo) (num fifo) (capacity fifo)).
  rewrite store_ok, (u_small 32) by (unfold is_u; lia). cbn [res_bind].
  eexists; split; [reflexivity|]. split.
  - constructor; rsimpl; rewrite ?length_insert; try lia. by apply Forall_insert.
  - split; [|by rsimpl]. unfold contents. rsimpl.
    rewrite ring_index, <- Hl, Nat2Z.id, ring_insert by lia.
    replace (Z.to_nat (num fifo + 1)) with (S (Z.to_nat (num fifo))) by lia.
    erewrite take_S_r by (apply list_lookup_insert_eq; rewrite length_ring; lia).
    by rewrite take_insert_ge by lia.
Qed.

Lemma push_full d : num fifo = capacity fifo -> fifo8_push fifo d = Fault AssertFailure.
Proof. unfold fifo8_push. intros ->. by rewrite Z.ltb_irrefl. Qed.

(** [m] is the array after [src] has been appended to the queue. *)
Definition appended (src m : list Z) : Prop :=
  length m = length (data fifo) /\ Forall (is_u 8) m /\
  take (Z.to_nat (num fifo) + length src) (ring (Z.to_nat (head fifo)) m) = contents fifo ++ src.

Let start := (head fifo + num fifo) mod capacity fifo.

Lemma write_block d n :
  Forall (is_u 8) d -> 0 <= n <= Z.of_nat (length d) -> num fifo + n <= capacity fifo ->
  start + n <= capacity fifo ->
  exists m, memcpy (data fifo) start d n = Ok m /\ appended (take (Z.to_nat n) d) m.
Proof.
  intros Hd Hn Hfit Hle. pose proof Hwf as [Hc Hl Hh Hnum Hb].
  pose proof (ring_index_bounds (head fifo) (num fifo) (capacity fifo)) as Hi. fold start in Hi.
  rewrite memcpy_ok by lia. eexists; split; [reflexivity|].
  set (src := take (Z.to_nat n) d).
  assert (length src = Z.to_nat n) as Hsrc by (unfold src; len).
  assert (Forall (is_u 8) src) as Hsb by (by apply Forall_take).
  split; [len|split].
  - repeat (apply Forall_app; split); auto using Forall_take, Forall_drop.
  - replace (Z.to_nat (start + n)) with (Z.to_nat start + length src)%nat by lia.
    assert (Hidx := ring_index (head fifo) (num fifo) (capacity fifo) Hh Hnum). fold start in Hidx.
    replace (Z.to_nat (capacity fifo)) with (length (data fifo)) in Hidx by lia.
    case_decide; rewrite Hidx; [apply ring_write_low; lia|apply ring_write_high; lia].
Qed.

Lemma write_split d n :
  Forall (is_u 8) d -> 0 <= n <= Z.of_nat (length d) -> num fifo + n <= capacity fifo ->
  capacity fifo < start + n ->
  let avail := capacity fifo - start in
  exists m, (let! m1 := memcpy (data fifo) start d avail in
             memcpy m1 0 (drop (Z.to_nat avail) d) (n - avail)) = Ok m /\
    appended (take (Z.to_nat n) d) m.
Proof.
  intros Hd Hn Hfit Hgt avail. pose proof Hwf as [Hc Hl Hh Hnum Hb].
  pose proof (ring_index_bounds (head fifo) (num fifo) (capacity fifo)) as Hi. fold start in Hi.
  assert (start = head fifo + num fifo) as Hst.
  { unfold start in *. destruct (Z.lt_ge_cases (head fifo + num fifo) (capacity fifo)).
    - apply Z.mod_small; lia.
    - rewrite <- (Z_mod_plus_full _ (-1)), Z.mod_small in Hgt; lia. }
  rewrite memcpy_ok by lia. cbn [res_bind].
  replace (Z.to_nat (start + avail)) with (length (data fifo)) by lia.
  rewrite drop_all, app_nil_r, memcpy_ok by len. eexists; split; [reflexivity|].
  set (src := take (Z.to_nat n) d).
  assert (length src = Z.to_nat n) as Hsrc by (unfold src; len).
  assert (Forall (is_u 8) src) as Hsb by (by apply Forall_take).
  change (Z.to_nat 0) with 0%nat. rewrite take_0, app_nil_l, Z.add_0_l, take_drop_commute.
  replace (Z.to_nat avail + Z.to_nat (n - avail))%nat with (Z.to_nat n) by lia. fold src.
  replace (take (Z.to_nat avail) d) with (take (Z.to_nat avail) src)
    by (unfold src; rewrite take_take; f_equal; lia).
  split; [len|split].
  - apply Forall_app; split; [by apply Forall_drop|].
    apply Forall_drop, Forall_app; split; by apply Forall_take.
  - replace (Z.to_nat avail)
      with (length (data fifo) - (Z.to_nat (head fifo) + Z.to_nat (num fifo)))%nat by lia.
    replace (Z.to_nat (n - avail))
      with (length src - (length (data fifo) - (Z.to_nat (head fifo) + Z.to_nat (num fifo))))%nat
      by lia.
    replace (Z.to_nat start) with (Z.to_nat (head fifo) + Z.to_nat (num fifo))%nat by lia.
    apply ring_write_split; lia.
Qed.

Lemma push_all_ok d n :
  Forall (is_u 8) d -> 0 <= n <= Z.of_nat (length d) -> num fifo + n <= capacity fifo ->
  exists fifo', fifo8_push_all fifo d n = Ok fifo' /\ wf fifo' /\
    contents fifo' = contents fifo ++ take (Z.to_nat n) d /\ capacity fifo' = capacity fifo.
Proof.
  intros Hd Hn Hfit. pose proof Hwf as [Hc Hl Hh Hnum Hb]. unfold fifo8_push_all.
  rewrite (u_small 32 (num fifo + n)) by (unfold is_u; lia).
  rewrite assert_true by (by apply Z.leb_le). cbn [res_bind].
  rewrite write_index. cbn [res_bind]. fold start.
  pose proof (ring_index_bounds (head fifo) (num fifo) (capacity fifo)) as Hi. fold start in Hi.
  rewrite (u_small 32 (start + n)), (u_small 32 (capacity fifo - start)) by (unfold is_u; lia).
  assert (exists m, (if start + n <=? capacity fifo then memcpy (data fifo) start d n
     else let! m1 := memcpy (data fifo) start d (capacity fifo - start) in
          memcpy m1 0 (drop (Z.to_nat (capacity fifo - start)) d) (u32 (n - (capacity fifo - start))))
     = Ok m /\ appended (take (Z.to_nat n) d) m) as (m & -> & Hm & Hmb & Hcont).
  { destruct (Z.leb_spec (start + n) (capacity fifo)); [by apply write_block|].
    rewrite (u_small 32 (n - _)) by (unfold is_u; lia). by apply write_split. }
  eexists; split; [reflexivity|]. split.
  - constructor; rsimpl; rewrite ?Hm; (done || lia).
  - split; [|by rsimpl]. rewrite <- Hcont. unfold contents. rsimpl. f_equal. len.
Qed.

(** Moving the head by [k]: the first [k] bytes leave the queue. *)
Lemma advance_ok k :
  0 <= k <= num fifo ->
  let fifo' := fifo <| head := (head fifo + k) mod capacity fifo |> <| num := num fifo - k |> in
  wf fifo' /\ contents fifo' = drop (Z.to_nat k) (contents fifo) /\
  capacity fifo' = capacity fifo.
Proof.
  intros Hk fifo'. pose proof Hwf as [Hc Hl Hh Hnum Hb].
  pose proof (ring_index_bounds (head fifo) k (capacity fifo)). unfold fifo'. split.
  - constructor; rsimpl; (done || lia).
  - split; [|by rsimpl]. unfold contents. rsimpl.
    rewrite ring_index by lia. replace (Z.to_nat (capacity fifo)) with (length (data fifo)) by lia.
    rewrite ring_advance, take_app_le by (rewrite ?length_drop, ?length_ring; lia).
    rewrite take_drop_commute. f_equal. f_equal. lia.
Qed.

Lemma pop_ok d l :
  contents fifo = d :: l ->
  exists fifo', fifo8_pop fifo = Ok (d, fifo') /\ wf fifo' /\ contents fifo' = l /\
    capacity fifo' = capacity fifo.
Proof.
  intros Hcont. pose proof Hwf as [Hc Hl Hh Hnum Hb].
  pose proof length_contents as Hlen. rewrite Hcont in Hlen. cbn [length] in Hlen.
  unfold fifo8_pop. rewrite assert_true by (apply Z.ltb_lt; lia). cbn [res_bind].
  rewrite (load_ok _ _ d); [|lia|].
  - cbn [res_bind]. rewrite !(u_small 32), c_mod_nz by (unfold is_u; lia). cbn [res_bind].
    destruct (advance_ok 1) as (? & Hd & ?); [lia|]. eexists; split; [done|]. split; [done|].
    split; [|done]. by rewrite Hd, Hcont.
  - assert (contents fifo !! 0%nat = Some d) as Hd by by rewrite Hcont.
    unfold contents in Hd. rewrite lookup_take_lt in Hd by lia. unfold ring in Hd.
    rewrite lookup_app_l, lookup_drop, Nat.add_0_r in Hd by len. done.
Qed.

Lemma pop_empty : num fifo = 0 -> fifo8_pop fifo = Fault AssertFailure.
Proof. unfold fifo8_pop. by intros ->. Qed.

Lemma peek_ok d l : contents fifo = d :: l -> fifo8_peek fifo = Ok d.
Proof.
  intros (fifo' & Hpop & _)%pop_ok. unfold fifo8_pop, fifo8_peek in *.
  destruct (assert _); [|done]. cbn in *. destruct (load _ _); [|done]. cbn in *.
  destruct (c_mod _ _); [|done]. cbn in *. congruence.
Qed.

(** The contiguous block a buffer pointer gives access to. *)
Lemma bufptr_bytes skip n :
  let h := (head fifo + skip) mod capacity fifo in
  0 <= skip -> 0 <= n <= capacity fifo - h -> skip + n <= num fifo ->
  take (Z.to_nat n) (drop (Z.to_nat h) (data fifo))
  = take (Z.to_nat n) (drop (Z.to_nat skip) (contents fifo)).
Proof.
  intros h Hs Hn Hsn. pose proof Hwf as [Hc Hl Hh Hnum Hb].
  pose proof (ring_index_bounds (head fifo) skip (capacity fifo)).
  rewrite take_ring_low by lia. unfold h. rewrite ring_index by lia.
  replace (Z.to_nat (capacity fifo)) with (length (data fifo)) by lia.
  rewrite ring_advance, take_app_le by (rewrite ?length_drop, ?length_ring; lia).
  unfold contents. rewrite !take_drop_commute, take_take. do 2 f_equal. lia.
Qed.

Lemma bufptr_ok max skip do_pop :
  let h := (head fifo + skip) mod capacity fifo in
  let n := Z.min (capacity fifo - h) max in
  0 < max -> 0 <= skip -> skip + max <= num fifo -> (do_pop = true -> skip = 0) ->
  exists fifo', fifo8_peekpop_bufptr fifo max skip do_pop = Ok (h, n, fifo') /\ 0 < n /\
    wf fifo' /\ data fifo' = data fifo /\ capacity fifo' = capacity fifo /\
    head fifo' = (if do_pop then (head fifo + n) mod capacity fifo else head fifo) /\
    num fifo' = (if do_pop then num fifo - n else num fifo) /\
    contents fifo' = if do_pop then drop (Z.to_nat n) (contents fifo) else contents fifo.
Proof.
  intros h n Hmax Hskip Hfit Hpop. pose proof Hwf as [Hc Hl Hh Hnum Hb].
  pose proof (ring_index_bounds (head fifo) skip (capacity fifo)) as Hi. fold h in Hi.
  unfold fifo8_peekpop_bufptr.
  rewrite !assert_true by (rewrite ?andb_true_iff, ?Z.ltb_lt, ?Z.leb_le; lia). cbn [res_bind].
  rewrite (u_small 32 (head fifo + skip)), c_mod_nz by (unfold is_u; lia). cbn [res_bind].
  fold h. rewrite (u_small 32 (capacity fifo - h)) by (unfold is_u; lia). fold n.
  assert (0 < n <= max /\ n <= capacity fifo - h) as Hn by lia. clearbody n.
  destruct do_pop; [|eexists; split; [done|]; split_and!; (done || lia)].
  assert (skip = 0) as -> by auto.
  assert (h = head fifo) as Hh0 by (unfold h; rewrite Z.add_0_r; by apply Z.mod_small).
  clearbody h. subst h. rewrite !(u_small 32), c_mod_nz by (unfold is_u; lia). cbn [res_bind].
  destruct (advance_ok n) as (? & ? & ?); [lia|].
  eexists; split; [done|]. split_and!; (done || lia).
Qed.

End lemmas.

(** [dest] with its first bytes replaced by [bs]. *)
Definition blit (bs : list Z) (d : list Z) : list Z := bs ++ drop (length bs) d.

Lemma copy_out_ok fifo dest pre buf n bs :
  0 <= n -> take (Z.to_nat n) (drop (Z.to_nat buf) (data fifo)) = bs ->
  length bs = Z.to_nat n ->
  (forall d, dest = Some d -> (length pre + length bs <= length d)%nat) ->
  copy_out (blit pre <$> dest) (Z.of_nat (length pre)) fifo buf n = Ok (blit (pre ++ bs) <$> dest).
Proof.
  intros Hn Hbs Hlen Hd. destruct dest as [d|]; cbn; [|done].
  specialize (Hd d eq_refl). unfold blit.
  assert (length (take (Z.to_nat n) (drop (Z.to_nat buf) (data fifo))) = Z.to_nat n) as Hl
    by by rewrite Hbs.
  rewrite length_take in Hl.
  rewrite memcpy_ok by (rewrite ?length_app, ?length_drop in *; lia). cbn. do 2 f_equal.
  rewrite Hbs, Nat2Z.id, take_app_length, <- app_assoc. do 2 f_equal.
  replace (Z.to_nat (Z.of_nat (length pre) + n)) with (length pre + length bs)%nat by lia.
  by rewrite drop_app_add, drop_drop, length_app.
Qed.

(** Progress of [fifo8_peekpop_buf]: [k] bytes of [fifo0] have been delivered. *)
Record delivered (fifo0 : Fifo8) (do_pop : bool) (k : Z) (fifo : Fifo8) : Prop := {
  dlv_wf : wf fifo;
  dlv_data : data fifo = data fifo0;
  dlv_capacity : capacity fifo = capacity fifo0;
  dlv_head : head fifo = if do_pop then (head fifo0 + k) mod capacity fifo0 else head fifo0;
  dlv_contents : contents fifo = if do_pop then drop (Z.to_nat k) (contents fifo0) else contents fifo0;
}.

Lemma deliver_chunk fifo0 (do_pop : bool) (k : Z) fifo dest (max : Z) :
  let skip := if do_pop then 0 else k in
  let h := (head fifo0 + k) mod capacity fifo0 in
  let n := Z.min (capacity fifo0 - h) max in
  delivered fifo0 do_pop k fifo -> wf fifo0 -> 0 <= k -> 0 < max -> k + max <= num fifo0 ->
  (forall d, dest = Some d -> k + max <= Z.of_nat (length d)) ->
  exists buf fifo', fifo8_peekpop_bufptr fifo max skip do_pop = Ok (buf, n, fifo') /\ 0 < n /\
    copy_out (blit (take (Z.to_nat k) (contents fifo0)) <$> dest) k fifo' buf n
      = Ok (blit (take (Z.to_nat (k + n)) (contents fifo0)) <$> dest) /\
    delivered fifo0 do_pop (k + n) fifo'.
Proof.
  intros skip h n [Hw Hdat Hcap Hhead Hcont] Hw0 Hk Hmax Hfit Hdest.
  pose proof Hw0 as [Hc Hl Hh Hnum Hb]. pose proof (length_contents _ Hw0) as Hcl0.
  pose proof (length_contents _ Hw) as Hcl.
  assert ((head fifo + skip) mod capacity fifo = h) as Hidx.
  { unfold skip, h. rewrite Hhead, Hcap. destruct do_pop; [|done].
    by rewrite Z.add_0_r, Z.mod_mod by lia. }
  assert (skip + max <= num fifo) as Hsm.
  { rewrite <- Hcl, Hcont. unfold skip. destruct do_pop; [rewrite length_drop|]; lia. }
  destruct (bufptr_ok fifo Hw max skip do_pop)
    as (fifo' & Hptr & Hn & Hw' & Hdat' & Hcap' & Hhead' & Hnum' & Hcont');
    [lia|destruct do_pop; lia|done|by intros ->|].
  rewrite Hidx, Hcap in Hptr, Hn, Hhead', Hnum', Hcont'. fold n in Hptr, Hn, Hhead', Hnum', Hcont'.
  exists h, fifo'. split; [done|]. split; [done|].
  assert (take (Z.to_nat n) (drop (Z.to_nat k) (contents fifo0))
          = take (Z.to_nat n) (drop (Z.to_nat h) (data fifo'))) as Hbytes.
  { pose proof (bufptr_bytes fifo Hw skip n) as Hby. rewrite Hidx, Hcap in Hby.
    rewrite Hdat', Hby by (unfold skip; destruct do_pop; lia).
    rewrite Hcont. unfold skip. by destruct do_pop. }
  split.
  - rewrite Z2Nat.inj_add, <- take_take_drop by lia.
    replace k with (Z.of_nat (length (take (Z.to_nat k) (contents fifo0)))) at 2 by len.
    apply copy_out_ok; [lia|done|len|]. intros d Hd. specialize (Hdest d Hd). len.
  - constructor; [done|congruence|congruence| |].
    + rewrite Hhead', Hhead. destruct do_pop; [|done]. by rewrite Zplus_mod_idemp_l, Z.add_assoc.
    + rewrite Hcont', Hcont. destruct do_pop; [|done]. rewrite drop_drop. f_equal. lia.
Qed.

(** Both [pop_buf] and [peek_buf] deliver the first [destlen] bytes of the
    queue, through the wrap-around of the ring. *)
Lemma peekpop_buf_ok fifo dest destlen do_pop :
  wf fifo -> 0 <= destlen <= num fifo ->
  (forall d, dest = Some d -> destlen <= Z.of_nat (length d)) ->
  exists fifo', fifo8_peekpop_buf fifo dest destlen do_pop
      = Ok (destlen, blit (take (Z.to_nat destlen) (contents fifo)) <$> dest, fifo') /\
    delivered fifo do_pop destlen fifo'.
Proof.
  intros Hwf Hlen Hd. pose proof Hwf as [Hc Hl Hh Hnum Hb]. unfold fifo8_peekpop_buf.
  assert (delivered fifo do_pop 0 fifo) as H0.
  { constructor; try done; destruct do_pop; try done.
    by rewrite Z.add_0_r, Z.mod_small. }
  assert (blit (take (Z.to_nat 0) (contents fifo)) <$> dest = dest) as Hd0 by by destruct dest.
  destruct (Z.eqb_spec destlen 0) as [->|Hne]; [by exists fifo; rewrite Hd0|].
  destruct (deliver_chunk fifo do_pop 0 fifo dest destlen) as (buf & f1 & Hp1 & Hn1 & Hc1 & H1);
    [done|done|lia..|done|].
  rewrite Z.add_0_r, (Z.mod_small (head fifo)) in * by done. rewrite Hd0 in Hc1.
  replace (if do_pop then 0 else 0) with 0 in Hp1 by by destruct do_pop.
  set (n1 := Z.min (capacity fifo - head fifo) destlen) in *.
  assert (n1 = destlen \/ n1 = capacity fifo - head fifo /\ n1 < destlen) as Hn1' by lia.
  clearbody n1. rewrite Hp1. cbn [res_bind]. rewrite Hc1. cbn [res_bind]. rewrite Z.add_0_l in *.
  unfold fifo8_num_used. rewrite (u_small 32 (destlen - n1)) by (unfold is_u; lia).
  replace (Z.min (destlen - n1) (num f1)) with (destlen - n1).
  2: { pose proof (length_contents _ (dlv_wf _ _ _ _ H1)). pose proof (length_contents _ Hwf).
       rewrite (dlv_contents _ _ _ _ H1) in *.
       destruct do_pop; [rewrite length_drop in *|]; lia. }
  destruct (Z.eqb_spec (destlen - n1) 0) as [He|Hn2]; cbn [negb].
  { rewrite Z.add_0_r, (u_small 32 n1) by (unfold is_u; lia).
    assert (destlen = n1) as -> by lia. by eexists. }
  destruct (deliver_chunk fifo do_pop n1 f1 dest (destlen - n1)) as (buf2 & f2 & Hp2 & _ & Hc2 & H2);
    [done|done|lia..|intros d ->; specialize (Hd d eq_refl); lia|].
  replace ((head fifo + n1) mod capacity fifo) with 0 in *
    by (replace (head fifo + n1) with (capacity fifo) by lia; by rewrite Z_mod_same_full).
  replace (Z.min (capacity fifo - 0) (destlen - n1)) with (destlen - n1) in * by lia.
  rewrite Hp2. cbn [res_bind]. rewrite Hc2. cbn [res_bind].
  replace (n1 + (destlen - n1)) with destlen in * by lia.
  rewrite u_small by (unfold is_u; lia). by eexists.
Qed.

Lemma reset_ok fifo :
  wf fifo -> wf (fifo8_reset fifo) /\ contents (fifo8_reset fifo) = [] /\
    capacity (fifo8_reset fifo) = capacity fifo.
Proof.
  intros [Hc Hl Hh Hn Hb]. unfold fifo8_reset. split; [constructor|split]; rsimpl; (done || lia).
Qed.

Lemma create_ok mem cap fifo :
  0 < cap < 2 ^ 31 -> Z.of_nat (length mem) = cap -> Forall (is_u 8) mem ->
  wf (fifo8_create mem cap fifo) /\ contents (fifo8_create mem cap fifo) = [] /\
    capacity (fifo8_create mem cap fifo) = cap.
Proof.
  intros Hc Hl Hb. unfold fifo8_create, fifo8_reset.
  split; [constructor|split]; rsimpl; (done || lia).
Qed.

Lemma push_all_overflow fifo d n :
  wf fifo -> is_u 31 n -> capacity fifo < num fifo + n ->
  fifo8_push_all fifo d n = Fault AssertFailure.
Proof.
  intros [Hc Hl Hh Hn Hb] Hn' Hov. unfold fifo8_push_all, is_u in *.
  rewrite u_small by (unfold is_u; lia).
  by destruct (Z.leb_spec (num fifo + n) (capacity fifo)); [lia|].
Qed.

Lemma peekpop_buf_underflow fifo dest destlen do_pop :
  wf fifo -> num fifo < destlen ->
  fifo8_peekpop_buf fifo dest destlen do_pop = Fault AssertFailure.
Proof.
  intros [Hc Hl Hh Hn Hb] Hlt. unfold fifo8_peekpop_buf, fifo8_peekpop_bufptr.
  destruct (Z.eqb_spec destlen 0); [lia|].
  destruct (Z.leb_spec destlen (num fifo)); [lia|]. by rewrite andb_false_r.
Qed.

Lemma blit_all bs n : length bs = n -> blit bs (replicate n 0) = bs.
Proof.
  intros <-. unfold blit. rewrite drop_ge by (by rewrite length_replicate). apply app_nil_r.
Qed.

Lemma delivered_ok fifo0 do_pop k fifo :
  delivered fifo0 do_pop k fifo ->
  wf fifo /\ contents fifo = (if do_pop then drop (Z.to_nat k) (contents fifo0) else contents fifo0) /\
    capacity fifo = capacity fifo0.
Proof. by intros []. Qed.

(** One call: the FIFO does what the queue does, and aborts exactly when the
    queue rejects the call. *)
Lemma exec_refines fifo o :
  wf fifo -> op_ok o -> asks_held (contents fifo) o = true ->
  match queue_exec (capacity fifo) (contents fifo) o with
  | Some (out, q) => exists fifo', fifo_exec fifo o = Ok (out, fifo') /\
      wf fifo' /\ contents fifo' = q /\ capacity fifo' = capacity fifo
  | None => fifo_exec fifo o = Fault AssertFailure
  end.
Proof.
  intros Hwf Hop Hask. pose proof (length_contents fifo Hwf) as Hlen.
  destruct o as [|d|d| | |n|n|n]; cbn [queue_exec fifo_exec op_ok asks_held] in *; rewrite ?Nat2Z.inj_add, ?Hlen in *.
  - eexists; split; [done|]. by apply reset_ok.
  - destruct (Z.ltb_spec (num fifo) (capacity fifo)).
    + destruct (push_ok fifo Hwf d) as (f & -> & ?); [done..|]. by exists f.
    + rewrite push_full; [done|]. destruct Hwf. lia.
  - destruct Hop as [Hd Hl]. unfold is_u in Hl.
    destruct (Z.leb_spec (num fifo + Z.of_nat (length d)) (capacity fifo)).
    + destruct (push_all_ok fifo Hwf d (Z.of_nat (length d))) as (f & -> & Hw & Hc & Hcap); [done|lia..|].
      exists f. by rewrite Nat2Z.id, firstn_all in Hc.
    + by rewrite push_all_overflow by done.
  - destruct (contents fifo) as [|d q] eqn:E; cbn in Hlen.
    + by rewrite pop_empty.
    + destruct (pop_ok fifo Hwf d q E) as (f & -> & ?). by exists f.
  - destruct (contents fifo) as [|d q] eqn:E; cbn in Hlen.
    + unfold fifo8_peek. by rewrite <- Hlen.
    + rewrite (peek_ok fifo Hwf d q E). by exists fifo.
  - apply Z.leb_le in Hask. unfold fifo8_pop_buf.
    destruct (peekpop_buf_ok fifo (Some (replicate (Z.to_nat n) 0)) n true)
      as (f & -> & Hf%delivered_ok); [done|unfold is_u in *; lia|
        intros ? [= <-]; rewrite length_replicate; unfold is_u in *; lia|].
    cbn. rewrite blit_all by (rewrite length_take; lia). by exists f.
  - apply Z.leb_le in Hask. unfold fifo8_peek_buf.
    destruct (peekpop_buf_ok fifo (Some (replicate (Z.to_nat n) 0)) n false)
      as (f & -> & Hf%delivered_ok); [done|unfold is_u in *; lia|
        intros ? [= <-]; rewrite length_replicate; unfold is_u in *; lia|].
    cbn. rewrite blit_all by (rewrite length_take; lia). by exists f.
  - unfold fifo8_drop, fifo8_pop_buf. destruct (Z.leb_spec n (num fifo));
      [|by rewrite peekpop_buf_underflow].
    destruct (peekpop_buf_ok fifo None n true) as (f & -> & Hf%delivered_ok);
      [done|unfold is_u in *; lia|done|].
    cbn [res_bind]. rewrite Z.sub_diag. by exists f.
Qed.

Lemma fold_push_ok fifo d :
  wf fifo -> Forall (is_u 8) d -> num fifo + Z.of_nat (length d) <= capacity fifo ->
  exists fifo', res_fold fifo8_push fifo d = Ok fifo' /\ wf fifo' /\
    contents fifo' = contents fifo ++ d /\ capacity fifo' = capacity fifo.
Proof.
  revert fifo. induction d as [|x d IH]; intros fifo Hwf Hd Hfit; cbn [res_fold].
  { exists fifo. by rewrite app_nil_r. }
  apply Forall_cons_1 in Hd as [Hx Hd]. cbn [length] in Hfit.
  destruct (push_ok fifo Hwf x) as (f1 & -> & Hw1 & Hc1 & Hcap1); [done|lia|].
  pose proof (length_contents f1 Hw1) as Hl1. pose proof (length_contents fifo Hwf) as Hl.
  rewrite Hc1, length_app in Hl1. cbn [length] in Hl1.
  destruct (IH f1) as (f2 & Hrun & Hw2 & Hc2 & Hcap2); [done|done|lia|].
  exists f2. cbn [res_bind]. split; [done|]. split; [done|]. split; [|congruence].
  by rewrite Hc2, Hc1, <- app_assoc.
Qed.

(** ** Theorems *)

(** C20: every sequence of FIFO calls refines the same sequence on a bounded queue, as
    long as no [fifo8_pop_buf] or [fifo8_peek_buf] asks for more bytes than are stored:
    the bytes handed back, the remaining contents and the representation invariant
    agree call by call, and the C code aborts (a failed [assert]) exactly when a call
    is one the queue leaves undefined.  A buffered read past the stored bytes, which
    the header allows, is [fifo8_buf_aborts_past_end]. *)
Theorem fifo8_refines_queue (ops : list fifo_op) (fifo : Fifo8) :
  wf fifo -> Forall op_ok ops -> asks_run (capacity fifo) (contents fifo) ops = true ->
  match queue_run (capacity fifo) (contents fifo) ops with
  | Some (outs, q) => exists fifo', fifo_run fifo ops = Ok (outs, fifo') /\
      wf fifo' /\ contents fifo' = q /\ capacity fifo' = capacity fifo
  | None => fifo_run fifo ops = Fault AssertFailure
  end.
Proof.
  revert fifo. induction ops as [|o ops IH]; intros fifo Hwf Hops Hask; cbn [queue_run fifo_run asks_run] in *.
  { by exists fifo. }
  apply Forall_cons_1 in Hops as [Ho Hops]. apply andb_prop in Hask as [Ha Hask]. pose proof (exec_refines fifo o Hwf Ho Ha) as Hex.
  destruct (queue_exec _ _ o) as [[out q1]|]; [|by rewrite Hex].
  destruct Hex as (f1 & -> & Hw1 & <- & Hcap). rewrite <- Hcap in *. cbn [res_bind]. specialize (IH f1 Hw1 Hops Hask).
  destruct (queue_run _ _ ops) as [[outs q2]|]; [|by rewrite IH].
  destruct IH as (f2 & -> & ?). by exists f2.
Qed.

(** A 4-byte FIFO driven across the end of its ring. *)
Definition fifo_demo : Fifo8 := fifo8_create [7; 7; 7; 7] 4 (mkFifo8 [] 0 0 0).
Definition fifo_demo_ops : list fifo_op :=
  [OPushAll [1; 2; 3]; OPopBuf 2; OPushAll [4; 5; 6]; OPeek; OPopBuf 4; OReset].

Lemma fifo_demo_wf : wf fifo_demo.
Proof. apply create_ok; [lia|done|]. forall_bytes. Qed.

Lemma fifo8_refines_queue_witness :
  exists fifo', fifo_run fifo_demo fifo_demo_ops = Ok ([1; 2; 3; 3; 4; 5; 6], fifo') /\
    wf fifo' /\ contents fifo' = [] /\ capacity fifo' = 4.
Proof.
  apply (fifo8_refines_queue fifo_demo_ops fifo_demo); [apply fifo_demo_wf|forall_bytes|by vm_compute].
Defined.

(** The bulk writer [fifo8_push_all], with its one or two [memcpy] calls, is
    equivalent to pushing the bytes one at a time. *)
Theorem fifo8_push_all_equiv (fifo : Fifo8) (d : list Z) :
  wf fifo -> Forall (is_u 8) d -> num fifo + Z.of_nat (length d) <= capacity fifo ->
  exists bulk single, fifo8_push_all fifo d (Z.of_nat (length d)) = Ok bulk /\
    res_fold fifo8_push fifo d = Ok single /\ bulk ≡ single.
Proof.
  intros Hwf Hd Hfit.
  destruct (push_all_ok fifo Hwf d (Z.of_nat (length d))) as (f1 & H1 & _ & Hc1 & Hcap1); [done|lia..|].
  destruct (fold_push_ok fifo d) as (f2 & H2 & _ & Hc2 & Hcap2); [done..|].
  exists f1, f2. split; [done|]. split; [done|].
  rewrite Nat2Z.id, firstn_all in Hc1. split; congruence.
Qed.

Lemma fifo8_push_all_equiv_witness :
  exists bulk single, fifo8_push_all fifo_demo [1; 2; 3] 3 = Ok bulk /\
    res_fold fifo8_push fifo_demo [1; 2; 3] = Ok single /\ bulk ≡ single.
Proof.
  apply (fifo8_push_all_equiv fifo_demo [1; 2; 3]); [apply fifo_demo_wf| |cbn; lia].
  forall_bytes.
Defined.

(** C36: asking [fifo8_pop_buf] or [fifo8_peek_buf] for more bytes than the FIFO holds
    aborts, for every FIFO and every destination, although the header documents
    [destlen] as a maximum and the queue of [queue_exec] hands out what it has. *)
Theorem fifo8_buf_aborts_past_end (fifo : Fifo8) (dest : option (list Z)) (destlen : Z) :
  wf fifo -> num fifo < destlen ->
  fifo8_pop_buf fifo dest destlen = Fault AssertFailure /\
  fifo8_peek_buf fifo dest destlen = Fault AssertFailure.
Proof. intros. by split; apply peekpop_buf_underflow. Qed.

Lemma fifo8_buf_aborts_past_end_witness :
  fifo8_pop_buf fifo_demo None 1 = Fault AssertFailure /\
  fifo8_peek_buf fifo_demo None 1 = Fault AssertFailure.
Proof. apply (fifo8_buf_aborts_past_end fifo_demo None 1); [apply fifo_demo_wf|done]. Defined.

End Fifo8.
