(* ===== verification/Ssi.v ===== *)
(** * The SPI bus and the motor speed sensor

    [hw/ssi/ssi.c] ([Module SSI]): a bus with its peripherals, chip selects and
    the transfer that combines their answers.  [hw/ssi/motor_speed.c]
    ([Module MotorSpeed]): the sensor the SoC puts on every bus.  [SpiBus] is
    what an SPI controller may assume of the bus it drives. *)

From S2P Require Import Prelude.

(** The master's view of a bus: one exchange of a 32-bit word. *)
Class SpiBus (B : Type) := {
  bus_ok : B -> Prop;
  ssi_exchange : B -> Z -> Z * B;
  ssi_exchange_u32 : forall b v, bus_ok b -> is_u 32 v -> is_u 32 (ssi_exchange b v).1;
  ssi_exchange_ok : forall b v, bus_ok b -> is_u 32 v -> bus_ok (ssi_exchange b v).2;
}.

Module SSI.

(** [enum SSICSMode]. *)
Inductive SSICSMode := SSI_CS_NONE | SSI_CS_LOW | SSI_CS_HIGH.
#[global] Instance SSICSMode_eq_dec : EqDecision SSICSMode.
Proof. solve_decision. Defined.

Section ssi.
(** [D]: the state of one peripheral; [W]: process-wide state the device
    callbacks use (the C library's random generator). *)
Context {D W : Type}.

(** [struct SSIPeripheralClass]; [transfer_raw = None] is the class that keeps
    [ssi_transfer_raw_default]. *)
Record SSIPeripheralClass := mkClass {
  realize : D -> W -> D * W;
  transfer : D -> Z -> W -> Z * D * W;
  set_cs : option (D -> bool -> D);
  cs_polarity : SSICSMode;
  transfer_raw : option (D -> Z -> W -> Z * D * W);
}.

Record SSIPeripheral := mkPeripheral {
  parent_obj : D;
  spc : SSIPeripheralClass;
  cs : bool;
  cs_index : Z;
}.
#[global] Instance eta_SSIPeripheral : Eta SSIPeripheral :=
  fun p => mkPeripheral (parent_obj p) (spc p) (cs p) (cs_index p).

(** The bus is the list of its children, most recently added first. *)
Definition SSIBus := list SSIPeripheral.

Fixpoint ssi_get_cs (bus : SSIBus) (index : Z) : option SSIPeripheral :=
  match bus with
  | [] => None
  | kid :: bus' => if cs_index kid =? index then Some kid else ssi_get_cs bus' index
  end.

Definition ssi_bus_check_address (bus : SSIBus) (dev : SSIPeripheral) : bool :=
  match ssi_get_cs bus (cs_index dev) with
  | Some _ => false
  | None => true
  end.

Definition ssi_cs_default (s : SSIPeripheral) (n level : Z) : res SSIPeripheral :=
  let new_cs := negb (level =? 0) in
  do! assert (n =? 0) in
  let s1 :=
    if negb (eqb (cs s) new_cs) then
      match set_cs (spc s) with
      | Some f => s <| parent_obj := f (parent_obj s) new_cs |>
      | None => s
      end
    else s in
  Ok (s1 <| cs := new_cs |>).

Definition ssi_transfer_raw_default (dev : SSIPeripheral) (val : Z) (w : W)
    : Z * SSIPeripheral * W :=
  let ssc := spc dev in
  if (cs dev && bool_decide (cs_polarity ssc = SSI_CS_HIGH))
     || (negb (cs dev) && bool_decide (cs_polarity ssc = SSI_CS_LOW))
     || bool_decide (cs_polarity ssc = SSI_CS_NONE)
  then let '(r, d, w') := transfer ssc (parent_obj dev) val w in
       (r, dev <| parent_obj := d |>, w')
  else (0, dev, w).

Definition peripheral_transfer_raw (dev : SSIPeripheral) (val : Z) (w : W)
    : Z * SSIPeripheral * W :=
  match transfer_raw (spc dev) with
  | None => ssi_transfer_raw_default dev val w
  | Some f => let '(r, d, w') := f (parent_obj dev) val w in (r, dev <| parent_obj := d |>, w')
  end.

(** The loop of [ssi_transfer]: every child sees the word, the answers are or-ed. *)
Fixpoint ssi_transfer_loop (kids : SSIBus) (val r : Z) (w : W) : Z * SSIBus * W :=
  match kids with
  | [] => (r, [], w)
  | p :: kids' =>
      let '(a, p', w1) := peripheral_transfer_raw p val w in
      let '(r', kids'', w2) := ssi_transfer_loop kids' val (Z.lor r a) w1 in
      (r', p' :: kids'', w2)
  end.

Definition ssi_transfer (bus : SSIBus) (val : Z) (w : W) : Z * SSIBus * W :=
  ssi_transfer_loop bus val 0 w.

(** [ssi_create_peripheral]: a new device of class [k] and chip select [index]
    is put on the bus and realized; [None] is the [error_fatal] exit. *)
Definition ssi_create_peripheral (bus : SSIBus) (k : SSIPeripheralClass) (d0 : D) (index : Z) (w : W)
    : option (SSIBus * W) :=
  let dev := mkPeripheral d0 k false index in
  if ssi_bus_check_address bus dev then
    let '(d, w') := realize k (parent_obj dev) w in
    Some ((dev <| parent_obj := d |>) :: bus, w')
  else None.

End ssi.
Arguments SSIPeripheralClass : clear implicits.
Arguments SSIPeripheral : clear implicits.
Arguments SSIBus : clear implicits.
End SSI.

Module MotorSpeed.

(** The C library's random generator: [rand] returns an [int] between 0 and
    [RAND_MAX], [srand] seeds it. *)
Class RandLib (W : Type) := {
  RAND_MAX : Z;
  rand : W -> Z * W;
  srand : Z -> W -> W;
  rand_range : forall w, 0 <= (rand w).1 <= RAND_MAX;
}.

Definition CMD_GET_SPEED : Z := 0xAA.

(** [struct MotorSpeedSensor]: both fields are [uint16_t]. *)
Record MotorSpeedSensor := mkSensor {
  last_speed : Z;
  transfer_value : Z;
}.
#[global] Instance eta_MotorSpeedSensor : Eta MotorSpeedSensor :=
  fun s => mkSensor (last_speed s) (transfer_value s).

Section sensor.
Context {W : Type} `{RandLib W}.
(** [time(NULL)] at realization. *)
Variable now : Z.

Definition generate_random_speed (w : W) : Z * W :=
  let '(r, w') := rand w in (u16 (Z.rem r 255), w').

Definition motor_speed_sensor_transfer (sensor : MotorSpeedSensor) (val : Z) (w : W)
    : Z * MotorSpeedSensor * W :=
  if val =? CMD_GET_SPEED then
    let '(speed, w') := generate_random_speed w in
    let sensor1 := sensor <| last_speed := speed |> in
    let sensor2 := sensor1 <| transfer_value := last_speed sensor1 |> in
    (transfer_value sensor2, sensor2, w')
  else (transfer_value sensor, sensor, w).

Definition motor_speed_sensor_realize (sensor : MotorSpeedSensor) (w : W) : MotorSpeedSensor * W :=
  (sensor <| last_speed := 0 |> <| transfer_value := 0 |>, srand now w).

(** [motor_speed_sensor_class_init]. *)
Definition motor_speed_sensor_class : SSI.SSIPeripheralClass MotorSpeedSensor W :=
  SSI.mkClass motor_speed_sensor_realize motor_speed_sensor_transfer None SSI.SSI_CS_NONE None.

(** The speeds stored in a sensor. *)
Definition sensor_ok (s : MotorSpeedSensor) : Prop :=
  0 <= last_speed s <= 254 /\ 0 <= transfer_value s <= 254.

Lemma generate_random_speed_range w : 0 <= (generate_random_speed w).1 <= 254.
Proof.
  unfold generate_random_speed. pose proof (rand_range w) as Hr.
  destruct (rand w) as [r w']; cbn in *.
  assert (0 <= Z.rem r 255 < 255) by (apply Z.rem_bound_pos; lia).
  rewrite u_small; [lia|unfold is_u; lia].
Qed.

Lemma sensor_transfer_ok s v w :
  sensor_ok s ->
  let '(r, s', w') := motor_speed_sensor_transfer s v w in
  sensor_ok s' /\ r = transfer_value s'.
Proof.
  intros Hs. unfold motor_speed_sensor_transfer. pose proof (generate_random_speed_range w) as Hg.
  destruct (v =? CMD_GET_SPEED); [|done].
  destruct (generate_random_speed w) as [speed w']; cbn in *. by unfold sensor_ok; rsimpl.
Qed.
(** A bus that carries motor sensors only, as the SoC wires it, together with
    the random generator the sensors draw from. *)
Definition MotorBus : Type := SSI.SSIBus MotorSpeedSensor W * W.

Definition motor_child (p : SSI.SSIPeripheral MotorSpeedSensor W) : Prop :=
  SSI.transfer (SSI.spc p) = motor_speed_sensor_transfer /\
  SSI.cs_polarity (SSI.spc p) = SSI.SSI_CS_NONE /\ SSI.transfer_raw (SSI.spc p) = None /\
  sensor_ok (SSI.parent_obj p).

Lemma motor_child_raw p v w :
  motor_child p ->
  SSI.peripheral_transfer_raw p v w =
    let '(r, d, w') := motor_speed_sensor_transfer (SSI.parent_obj p) v w in
    (r, p <| SSI.parent_obj := d |>, w').
Proof.
  intros (Ht & Hp & Hr & Hs). unfold SSI.peripheral_transfer_raw, SSI.ssi_transfer_raw_default.
  rewrite Hr, Hp, Ht, (bool_decide_eq_true_2 (SSI.SSI_CS_NONE = SSI.SSI_CS_NONE)) by done.
  by rewrite orb_true_r.
Qed.

Lemma motor_transfer_loop kids v r w :
  Forall motor_child kids -> is_u 32 r ->
  let '(r', kids', w') := SSI.ssi_transfer_loop kids v r w in
  is_u 32 r' /\ Forall motor_child kids'.
Proof.
  intros Hk. revert r w. induction Hk as [|p kids Hp Hk IH]; intros r w Hr; cbn; [done|].
  rewrite motor_child_raw by done.
  pose proof (sensor_transfer_ok (SSI.parent_obj p) v w) as Hs.
  destruct (motor_speed_sensor_transfer _ v w) as [[a d] w1].
  destruct Hs as [Hd ->]; [apply Hp|].
  specialize (IH (Z.lor r (transfer_value d)) w1).
  destruct (SSI.ssi_transfer_loop kids v _ w1) as [[r' kids'] w2].
  destruct IH as [Hr' Hk'].
  { apply is_u_lor; [done..|]. destruct Hd. unfold is_u. lia. }
  split; [done|]. constructor; [|done]. destruct Hp as (? & ? & ? & ?).
  unfold motor_child. by rsimpl.
Qed.

#[global] Program Instance motor_bus : SpiBus MotorBus := {
  bus_ok b := Forall motor_child b.1;
  ssi_exchange b v := let '(r, kids, w) := SSI.ssi_transfer b.1 v b.2 in (r, (kids, w));
}.
Next Obligation.
  intros [kids w] v Hb Hv. unfold SSI.ssi_transfer. cbn [fst snd] in *.
  pose proof (motor_transfer_loop kids v 0 w Hb) as H1.
  destruct (SSI.ssi_transfer_loop kids v 0 w) as [[r kids'] w']. apply H1. unfold is_u. lia.
Qed.
Next Obligation.
  intros [kids w] v Hb Hv. unfold SSI.ssi_transfer. cbn [fst snd] in *.
  pose proof (motor_transfer_loop kids v 0 w Hb) as H1.
  destruct (SSI.ssi_transfer_loop kids v 0 w) as [[r kids'] w']. apply H1. unfold is_u. lia.
Qed.
End sensor.
End MotorSpeed.

Module MotorProps.
Import MotorSpeed.
Section props.
Context {W : Type} `{RandLib W}.

(** What a run of words on the bus is answered with when [last] was reported
    before: a speed request draws a new value, anything else repeats the last. *)
Fixpoint reported (last : Z) (w : W) (words : list Z) : list Z :=
  match words with
  | [] => []
  | c :: words' =>
      if c =? CMD_GET_SPEED
      then let '(r, w') := rand w in (r mod 255) :: reported (r mod 255) w' words'
      else last :: reported last w words'
  end.

Fixpoint exchanges (b : MotorBus) (words : list Z) : list Z :=
  match words with
  | [] => []
  | c :: words' => let '(r, b') := ssi_exchange b c in r :: exchanges b' words'
  end.

(** One sensor on the bus: the answer is the sensor's, [or]-ed with nothing. *)
Lemma exchange_one p v w :
  motor_child p ->
  ssi_exchange (([p], w) : MotorBus) v =
    let '(r, d, w') := motor_speed_sensor_transfer (SSI.parent_obj p) v w in
    (r, ([p <| SSI.parent_obj := d |>], w')).
Proof.
  intros Hp. unfold ssi_exchange, motor_bus, SSI.ssi_transfer. cbn [fst snd SSI.ssi_transfer_loop].
  rewrite motor_child_raw by done.
  destruct (motor_speed_sensor_transfer _ v w) as [[r d] w']. by rewrite Z.lor_0_l.
Qed.

Lemma draw_speed w : generate_random_speed w = ((rand w).1 mod 255, (rand w).2).
Proof.
  unfold generate_random_speed. pose proof (rand_range w) as Hr. destruct (rand w) as [r w'].
  cbn [fst snd] in *. rewrite Z.rem_mod_nonneg by lia.
  pose proof (Z.mod_pos_bound r 255). by rewrite u_small by (unfold is_u; lia).
Qed.

Lemma exchanges_reported words p w :
  motor_child p ->
  exchanges ([p], w) words = reported (transfer_value (SSI.parent_obj p)) w words.
Proof.
  revert p w. induction words as [|c words IH]; intros p w Hp; [done|].
  cbn [exchanges reported]. rewrite exchange_one by done.
  pose proof (sensor_transfer_ok (SSI.parent_obj p) c w) as Hs.
  unfold motor_speed_sensor_transfer in *. rewrite draw_speed in *.
  assert (sensor_ok (SSI.parent_obj p)) as Hok by apply Hp. specialize (Hs Hok).
  destruct Hp as (Ht & Hc & Hr & _).
  destruct (c =? CMD_GET_SPEED).
  - rsimpl in Hs. destruct (rand w) as [r w']. cbn [fst snd] in *. rsimpl. f_equal.
    rewrite IH; [|unfold motor_child; rsimpl; by destruct Hs]. by rsimpl.
  - f_equal. by rewrite IH; [rsimpl|unfold motor_child; rsimpl].
Qed.

Lemma reported_range last w words :
  0 <= last <= 254 -> Forall (fun r => 0 <= r <= 254) (reported last w words).
Proof.
  revert last w. induction words as [|c words IH]; intros last w Hl; [constructor|].
  cbn [reported]. destruct (c =? CMD_GET_SPEED); [|constructor; auto].
  destruct (rand w) as [r w']. pose proof (Z.mod_pos_bound r 255).
  constructor; [lia|]. apply IH. lia.
Qed.

(** A sensor put on an empty bus answers every speed request with a fresh
    random value between 0 and 254, repeats the last reported speed for any
    other word, and reports 0 before the first request. *)
Theorem motor_sensor_behaviour now d0 index w words :
  exists b, SSI.ssi_create_peripheral [] (motor_speed_sensor_class now) d0 index w = Some b /\
    exchanges b words = reported 0 (srand now w) words /\
    Forall (fun r => 0 <= r <= 254) (exchanges b words).
Proof.
  eexists. split; [done|].
  assert (exchanges ([SSI.mkPeripheral (mkSensor 0 0) (motor_speed_sensor_class now) false index],
    srand now w) words = reported 0 (srand now w) words) as He.
  { rewrite exchanges_reported; [done|]. by split_and!. }
  change (mkSensor 0 0) with (d0 <| last_speed := 0 |> <| transfer_value := 0 |>) in He.
  split; [exact He|]. setoid_rewrite He. apply reported_range. lia.
Qed.
End props.

(** A linear congruential generator in the place of the C library's. *)
#[global] Instance lcg : RandLib Z.
Proof.
  refine {| RAND_MAX := 32767;
            rand w := ((w / 65536) mod 32768, (w * 1103515245 + 12345) mod 2 ^ 31);
            srand seed _ := seed |}.
  intros w. cbn [fst]. pose proof (Z.mod_pos_bound (w / 65536) 32768). lia.
Defined.

Lemma motor_sensor_behaviour_witness :
  exists b, SSI.ssi_create_peripheral [] (motor_speed_sensor_class 77777) (mkSensor 9 9) 0 5 = Some b /\
    exchanges b [0; 0xAA; 0; 0xAA] = [0; 1; 1; 35].
Proof.
  destruct (motor_sensor_behaviour 77777 (mkSensor 9 9) 0 5 [0; 0xAA; 0; 0xAA]) as (b & Hb & He & _).
  exists b. split; [done|]. rewrite He. by vm_compute.
Defined.
End MotorProps.
