(* ===== verification/Lpspi.v ===== *)
(** * The LPSPI controller

    [hw/ssi/nxps32k358_lpspi.c] and its header: the registers, the two FIFOs,
    the transfer routine, reset, and the register read and write handlers.  The
    state record has the fields of [NXPS32K358LPSPIState]; interrupt and chip
    select lines are their levels.  Handlers run in the [res] monad: an abort or
    undefined behaviour of the C code is a [Fault].  The bus is any [SpiBus]. *)

From S2P Require Import Prelude Words Fifo Ssi.
Import Fifo8.

Module Lpspi.

(** ** Constants of [nxps32k358_lpspi.h] *)

Definition LPSPI_CR_MEN : Z := BIT 0.
Definition LPSPI_CR_RST : Z := BIT 1.
Definition LPSPI_CR_RTF : Z := BIT 8.
Definition LPSPI_CR_RRF : Z := BIT 9.

Definition LPSPI_SR_TDF : Z := BIT 0.
Definition LPSPI_SR_RDF : Z := BIT 1.
Definition LPSPI_SR_TCF : Z := BIT 10.
Definition LPSPI_SR_TEF : Z := BIT 11.
Definition LPSPI_SR_REF : Z := BIT 12.
Definition LPSPI_SR_MBF : Z := BIT 24.

Definition LPSPI_RSR_RXEMPTY : Z := BIT 1.

Definition TCR_FRAMESZ_SHIFT : Z := 0.
Definition TCR_FRAMESZ_MASK : Z := Z.shiftl 0xFFF TCR_FRAMESZ_SHIFT.
Definition TCR_PCS_SHIFT : Z := 24.
Definition TCR_PCS_MASK : Z := Z.shiftl 0x3 TCR_PCS_SHIFT.
Definition TCR_TXMSK : Z := BIT 23.
Definition TCR_RXMSK : Z := BIT 22.
Definition TCR_LSBF : Z := BIT 28.
Definition TCR_CONT : Z := BIT 30.
Definition TCR_CONTC : Z := BIT 31.
Definition TCR_CPOL : Z := BIT 31.
Definition TCR_CPHA : Z := BIT 30.
Definition TCR_PRESCALE_SHIFT : Z := 27.
Definition TCR_PRESCALE_MASK : Z := Z.shiftl 0x7 27.

Definition FSR_TXCOUNT_SHIFT : Z := 0.
Definition FSR_RXCOUNT_SHIFT : Z := 16.
Definition LPSPI_FCR_TXWATER_SHIFT : Z := 0.
Definition LPSPI_FCR_TXWATER_MASK : Z := Z.shiftl 0x3 LPSPI_FCR_TXWATER_SHIFT.
Definition LPSPI_FCR_RXWATER_SHIFT : Z := 16.
Definition LPSPI_FCR_RXWATER_MASK : Z := Z.shiftl 0x3 LPSPI_FCR_RXWATER_SHIFT.
Definition LPSPI_CFGR1_PINCFG_SHIFT : Z := 8.
Definition LPSPI_CFGR1_PCSPOL_SHIFT : Z := 24.
Definition CCR1_SCKSET_MASK : Z := Z.shiftl 0xFF 0.
Definition CCR1_SCKSET_SHIFT : Z := 0.
Definition CCR1_SCKHLD_MASK : Z := Z.shiftl 0xFF 8.
Definition CCR1_SCKHLD_SHIFT : Z := 8.

Definition LPSPI_FIFO_WORD_DEPTH : Z := 4.
Definition LPSPI_FIFO_BYTE_CAPACITY : Z := LPSPI_FIFO_WORD_DEPTH * 4.

(** The registers, and the [switch (addr)] that selects one. *)
Inductive reg :=
  | VERID | PARAM | CR | SR | IER | DER | CFGR0 | CFGR1 | CCR | CCR1 | FCR | FSR | TCR | TDR
  | RSR | RDR.
#[global] Instance reg_eq_dec : EqDecision reg.
Proof. solve_decision. Defined.

Definition reg_offset (r : reg) : Z :=
  match r with
  | VERID => 0x00 | PARAM => 0x04 | CR => 0x10 | SR => 0x14 | IER => 0x18 | DER => 0x1C
  | CFGR0 => 0x20 | CFGR1 => 0x24 | CCR => 0x40 | CCR1 => 0x44 | FCR => 0x58 | FSR => 0x5C
  | TCR => 0x60 | TDR => 0x64 | RSR => 0x70 | RDR => 0x74
  end.

Definition all_regs : list reg :=
  [VERID; PARAM; CR; SR; IER; DER; CFGR0; CFGR1; CCR; CCR1; FCR; FSR; TCR; TDR; RSR; RDR].

Definition decode (addr : Z) : option reg :=
  List.find (fun r => reg_offset r =? addr) all_regs.

Section lpspi.
Context {B : Type} `{SpiBus B}.

(** ** State *)

Record NXPS32K358LPSPIState := mkLpspi {
  clk : Z;                  (* [clock_get_hz(s->clk)] *)
  ssi : B;
  irq : bool;
  cs_lines : list bool;
  tx_fifo : Fifo8;
  rx_fifo : Fifo8;
  lpspi_verid : Z;
  lpspi_param : Z;
  lpspi_cr : Z;
  lpspi_sr : Z;
  lpspi_ier : Z;
  lpspi_der : Z;
  lpspi_cfgr0 : Z;
  lpspi_cfgr1 : Z;
  lpspi_ccr : Z;
  lpspi_ccr1 : Z;
  lpspi_fcr : Z;
  lpspi_fsr : Z;
  lpspi_tcr : Z;
  lpspi_tdr : Z;
  lpspi_rsr : Z;
  lpspi_rdr : Z;
  busy : bool;
  tx_watermark : Z;
  rx_watermark : Z;
  frame_size : Z;
  continuous_mode : bool;
  input_clk : Z;
  num_cs_lines : Z;
}.
#[global] Instance eta_LPSPIState : Eta NXPS32K358LPSPIState := fun s =>
  mkLpspi (clk s) (ssi s) (irq s) (cs_lines s) (tx_fifo s) (rx_fifo s) (lpspi_verid s)
    (lpspi_param s) (lpspi_cr s) (lpspi_sr s) (lpspi_ier s) (lpspi_der s) (lpspi_cfgr0 s)
    (lpspi_cfgr1 s) (lpspi_ccr s) (lpspi_ccr1 s) (lpspi_fcr s) (lpspi_fsr s) (lpspi_tcr s)
    (lpspi_tdr s) (lpspi_rsr s) (lpspi_rdr s) (busy s) (tx_watermark s) (rx_watermark s)
    (frame_size s) (continuous_mode s) (input_clk s) (num_cs_lines s).

Abbreviation state := NXPS32K358LPSPIState.

(** ** Fields of the transmit command register *)

(** [((tcr & TCR_FRAMESZ_MASK) >> TCR_FRAMESZ_SHIFT) + 1], a [uint16_t]. *)
Definition tcr_frame_size (tcr : Z) : Z :=
  u16 (Z.shiftr (Z.land tcr TCR_FRAMESZ_MASK) TCR_FRAMESZ_SHIFT + 1).

(** [bytes_per_frame], a [uint8_t] capped at four, as computed in the status,
    transfer, read and write routines. *)
Definition tcr_frame_bytes (tcr : Z) : Z :=
  let bytes_per_frame := u8 ((tcr_frame_size tcr + 7) / 8) in
  if 4 <? bytes_per_frame then 4 else bytes_per_frame.

Definition tcr_pcs (tcr : Z) : Z := u8 (Z.shiftr (Z.land tcr TCR_PCS_MASK) TCR_PCS_SHIFT).

(** ** Status and interrupt *)

Definition lpspi_update_status (s : state) : res state :=
  let bytes_per_frame := tcr_frame_bytes (lpspi_tcr s) in
  let! tx_words := c_div (fifo8_num_used (tx_fifo s)) bytes_per_frame in
  let! rx_words := c_div (fifo8_num_used (rx_fifo s)) bytes_per_frame in
  let tx_word_count := u8 tx_words in
  let rx_word_count := u8 rx_words in
  let s := s <| lpspi_fsr := Z.lor (Z.shiftl rx_word_count FSR_RXCOUNT_SHIFT)
                                   (Z.shiftl tx_word_count FSR_TXCOUNT_SHIFT) |> in
  let s :=
    if tx_word_count <=? tx_watermark s then
      if 4 <=? fifo8_num_free (tx_fifo s)
      then s <| lpspi_sr := set_bits (lpspi_sr s) LPSPI_SR_TDF |>
      else s <| lpspi_sr := clear_bits (lpspi_sr s) LPSPI_SR_TDF |>
    else s in
  let s :=
    if rx_watermark s <? rx_word_count then
      if 4 <=? fifo8_num_used (rx_fifo s)
      then s <| lpspi_sr := set_bits (lpspi_sr s) LPSPI_SR_RDF |>
      else s <| lpspi_sr := clear_bits (lpspi_sr s) LPSPI_SR_RDF |>
    else s in
  if rx_word_count =? 0
  then Ok (s <| lpspi_rsr := set_bits (lpspi_rsr s) LPSPI_RSR_RXEMPTY |>)
  else Ok (s <| lpspi_rsr := clear_bits (lpspi_rsr s) LPSPI_RSR_RXEMPTY |>).

Definition lpspi_update_irq (s : state) : res state :=
  let! s := lpspi_update_status s in
  Ok (s <| irq := has (Z.land (lpspi_sr s) (lpspi_ier s)) (Z.lor LPSPI_SR_TDF LPSPI_SR_RDF) |>).

(** Only logs; the logged (CPOL, CPHA, prescaler, SCK frequency) is returned. *)
Definition lpspi_update_clock_config (s : state) : res (option (Z * Z * Z * Z)) :=
  let input_clk := clk s in
  if input_clk =? 0 then Ok None else
  let prescale_val :=
    u32 (Z.shiftl 1 (Z.shiftr (Z.land (lpspi_tcr s) TCR_PRESCALE_MASK) TCR_PRESCALE_SHIFT)) in
  let sckset := u32 (Z.shiftr (Z.land (lpspi_ccr1 s) CCR1_SCKSET_MASK) CCR1_SCKSET_SHIFT + 1) in
  let sckhld := u32 (Z.shiftr (Z.land (lpspi_ccr1 s) CCR1_SCKHLD_MASK) CCR1_SCKHLD_SHIFT + 1) in
  if u32 (sckset + sckhld + 2) =? 0 then Ok None else
  let sck_period_divisor := u32 (sckset + sckhld + 2) in
  let! sck_freq := c_div input_clk (u32 (prescale_val * sck_period_divisor)) in
  let cpol := if has (lpspi_tcr s) TCR_CPOL then 1 else 0 in
  let cpha := if has (lpspi_tcr s) TCR_CPHA then 1 else 0 in
  Ok (Some (cpol, cpha, prescale_val, sck_freq)).

(** ** The transfer *)

(** [qemu_set_irq(s->cs_lines[pcs], level)]. *)
Definition set_cs_line (s : state) (pcs : Z) (level : bool) : res state :=
  let! lines := store (cs_lines s) pcs level in
  Ok (s <| cs_lines := lines |>).

(** [CFGR1.PCSPOL] of chip select [pcs]. *)
Definition cs_active_high (s : state) (pcs : Z) : bool :=
  has (lpspi_cfgr1 s) (Z.shiftl 1 (LPSPI_CFGR1_PCSPOL_SHIFT + pcs)).

(** Shift of byte [i] of an [n]-byte word on the wire. *)
Definition byte_shift (lsbf : bool) (n i : Z) : Z := if lsbf then i * 8 else (n - 1 - i) * 8.

(** First loop: pop [bytes_per_frame] bytes into a word. *)
Definition build_tx_word (s : state) (bytes_per_frame : Z) : res (Z * Fifo8) :=
  res_fold (fun '(tx_data, fifo) i =>
    if negb (fifo8_is_empty fifo) then
      let! '(byte, fifo') := fifo8_pop fifo in
      let shift := byte_shift (has (lpspi_tcr s) TCR_LSBF) bytes_per_frame i in
      Ok (Z.lor tx_data (u32 (Z.shiftl byte shift)), fifo')
    else Ok (tx_data, fifo))
  (0, tx_fifo s) (seqZ 0 bytes_per_frame).

(** Second loop: push the received word byte by byte. *)
Definition store_rx_word (s : state) (bytes_per_frame rx_data : Z) : res state :=
  res_fold (fun s i =>
    let shift := byte_shift (has (lpspi_tcr s) TCR_LSBF) bytes_per_frame i in
    let rx_byte := u8 (Z.land (Z.shiftr rx_data shift) 0xFF) in
    if fifo8_is_full (rx_fifo s)
    then Ok (s <| lpspi_sr := set_bits (lpspi_sr s) LPSPI_SR_REF |>)
    else let! fifo := fifo8_push (rx_fifo s) rx_byte in Ok (s <| rx_fifo := fifo |>))
  s (seqZ 0 bytes_per_frame).

Definition lpspi_flush_txfifo (s : state) : res state :=
  let tcr := lpspi_tcr s in
  let pcs := tcr_pcs tcr in
  let frame_size := tcr_frame_size tcr in
  let cont := has tcr TCR_CONT in
  let contc := has tcr TCR_CONTC in
  let rxmsk := has tcr TCR_RXMSK in
  if (frame_size <? 1) || (4096 <? frame_size) then Ok s else
  let bytes_per_frame := tcr_frame_bytes tcr in
  if fifo8_num_used (tx_fifo s) <? bytes_per_frame then Ok s else
  if negb rxmsk && (fifo8_num_free (rx_fifo s) <? bytes_per_frame) then Ok s else
  let! s :=
    (if negb (busy s) || (negb cont && negb contc) then
       let! s := set_cs_line s pcs (cs_active_high s pcs) in
       Ok (s <| busy := true |> <| lpspi_sr := set_bits (lpspi_sr s) LPSPI_SR_MBF |>)
     else Ok s) in
  let! '(tx_data, fifo) := build_tx_word s bytes_per_frame in
  let s := s <| tx_fifo := fifo |> in
  let pincfg := u8 (Z.land (Z.shiftr (lpspi_cfgr1 s) LPSPI_CFGR1_PINCFG_SHIFT) 0x3) in
  let '(rx_data, s) :=
    (if pincfg =? 1 then (tx_data, s)
     else let '(r, bus) := ssi_exchange (ssi s) tx_data in (r, s <| ssi := bus |>)) in
  let! s := (if negb rxmsk then store_rx_word s bytes_per_frame rx_data else Ok s) in
  let! s := lpspi_update_status s in
  let! s :=
    (if fifo8_is_empty (tx_fifo s) && busy s then
       let! s :=
         (if negb cont && negb contc then
            let! s := set_cs_line s pcs (negb (cs_active_high s pcs)) in
            Ok (s <| busy := false |> <| lpspi_sr := clear_bits (lpspi_sr s) LPSPI_SR_MBF |>)
          else Ok s) in
       Ok (s <| lpspi_sr := set_bits (lpspi_sr s) LPSPI_SR_TCF |>)
     else Ok s) in
  lpspi_update_irq s.

(** ** Reset *)

Definition nxps32k358_lpspi_do_reset (s : state) : res state :=
  let s := s
    <| lpspi_verid := 0x04040007 |> <| lpspi_param := 0x00040404 |> <| lpspi_cr := 0 |>
    <| lpspi_sr := Z.lor LPSPI_SR_TDF LPSPI_SR_TCF |> <| lpspi_ier := 0 |> <| lpspi_der := 0 |>
    <| lpspi_cfgr0 := 0 |> <| lpspi_cfgr1 := 0 |> <| lpspi_ccr := 0 |> <| lpspi_ccr1 := 0 |>
    <| lpspi_fcr := 0 |> <| lpspi_fsr := 0 |> <| lpspi_tcr := 0x0000001F |> <| lpspi_tdr := 0 |>
    <| lpspi_rsr := LPSPI_RSR_RXEMPTY |> <| lpspi_rdr := 0 |> <| busy := false |>
    <| tx_watermark := 0 |> <| rx_watermark := 0 |> <| frame_size := 32 |>
    <| continuous_mode := false |>
    <| tx_fifo := fifo8_reset (tx_fifo s) |> <| rx_fifo := fifo8_reset (rx_fifo s) |> in
  let! s := res_fold (fun s i => set_cs_line s i true) s (seqZ 0 (num_cs_lines s)) in
  do! lpspi_update_clock_config s in
  lpspi_update_irq s.

Definition nxps32k358_lpspi_reset (s : state) : res state := nxps32k358_lpspi_do_reset s.

(** ** Register reads *)

(** The loop of the RDR read: bytes until the frame is complete or the FIFO empty. *)
Fixpoint read_rx_word (lsbf : bool) (n : Z) (idx : list Z) (ret : Z) (fifo : Fifo8)
    : res (Z * Fifo8) :=
  match idx with
  | [] => Ok (ret, fifo)
  | i :: idx' =>
      if negb (fifo8_is_empty fifo) then
        let! '(byte, fifo') := fifo8_pop fifo in
        read_rx_word lsbf n idx' (Z.lor ret (u32 (Z.shiftl byte (byte_shift lsbf n i)))) fifo'
      else Ok (ret, fifo)
  end.

Definition read_rdr (s : state) : res (Z * state) :=
  if fifo8_num_used (rx_fifo s) <? 1 then Ok (0, s) else
  let bytes_per_frame := tcr_frame_bytes (lpspi_tcr s) in
  let! '(ret, fifo) := read_rx_word (has (lpspi_tcr s) TCR_LSBF) bytes_per_frame
                         (seqZ 0 bytes_per_frame) 0 (rx_fifo s) in
  let s := s <| rx_fifo := fifo |> <| lpspi_rdr := ret |> in
  let! s := lpspi_update_status s in
  Ok (ret, s).

Definition nxps32k358_lpspi_read (s : state) (addr : Z) : res (Z * state) :=
  let! s := lpspi_update_status s in
  match decode addr with
  | Some VERID => Ok (lpspi_verid s, s)
  | Some PARAM => Ok (lpspi_param s, s)
  | Some CR => Ok (lpspi_cr s, s)
  | Some SR => Ok (lpspi_sr s, s)
  | Some IER => Ok (lpspi_ier s, s)
  | Some DER => Ok (lpspi_der s, s)
  | Some CFGR0 => Ok (lpspi_cfgr0 s, s)
  | Some CFGR1 => Ok (lpspi_cfgr1 s, s)
  | Some CCR => Ok (lpspi_ccr s, s)
  | Some CCR1 => Ok (lpspi_ccr1 s, s)
  | Some FCR => Ok (lpspi_fcr s, s)
  | Some FSR => Ok (lpspi_fsr s, s)
  | Some TCR => Ok (lpspi_tcr s, s)
  | Some RSR => Ok (lpspi_rsr s, s)
  | Some RDR => read_rdr s
  | Some TDR | None => Ok (0, s)
  end.

(** ** Register writes *)

(** The CR case past the reset bit. *)
Definition write_cr (s : state) (value : Z) : state :=
  let s :=
    if has value LPSPI_CR_RTF
    then s <| tx_fifo := fifo8_reset (tx_fifo s) |>
           <| lpspi_sr := set_bits (lpspi_sr s) LPSPI_SR_TDF |>
    else s in
  let s :=
    if has value LPSPI_CR_RRF
    then s <| rx_fifo := fifo8_reset (rx_fifo s) |>
           <| lpspi_rsr := set_bits (lpspi_rsr s) LPSPI_RSR_RXEMPTY |>
    else s in
  s <| lpspi_cr := clear_bits value (Z.lor (Z.lor LPSPI_CR_RST LPSPI_CR_RTF) LPSPI_CR_RRF) |>.

Definition write_tcr (s : state) (value : Z) : res state :=
  let s := s <| lpspi_tcr := value |> <| frame_size := tcr_frame_size value |>
             <| continuous_mode := has value (Z.lor TCR_CONT TCR_CONTC) |> in
  let! s :=
    (if has (lpspi_cr s) LPSPI_CR_MEN then
       if negb (fifo8_is_empty (tx_fifo s)) then lpspi_flush_txfifo s else Ok s
     else Ok s) in
  do! lpspi_update_clock_config s in
  Ok s.

(** The byte loop of a TDR write. *)
Definition push_tx_word (s : state) (bytes_per_frame val64 : Z) : res Fifo8 :=
  res_fold (fun fifo i =>
    let shift := byte_shift (has (lpspi_tcr s) TCR_LSBF) bytes_per_frame i in
    fifo8_push fifo (u8 (Z.land (Z.shiftr val64 shift) 0xFF)))
  (tx_fifo s) (seqZ 0 bytes_per_frame).

(** The TDR case; the flag says whether the handler returned early. *)
Definition write_tdr (s : state) (val64 : Z) : res (bool * state) :=
  if has (lpspi_cr s) LPSPI_CR_MEN then
    let bytes_per_frame := tcr_frame_bytes (lpspi_tcr s) in
    if fifo8_num_free (tx_fifo s) <? bytes_per_frame then
      let s := s <| lpspi_sr := set_bits (lpspi_sr s) LPSPI_SR_TEF |> in
      let! s := lpspi_update_irq s in
      Ok (true, s)
    else
      let! fifo := push_tx_word s bytes_per_frame val64 in
      let! s := lpspi_flush_txfifo (s <| tx_fifo := fifo |>) in
      Ok (false, s)
  else Ok (false, s).

Definition write_fcr (s : state) (value : Z) : res state :=
  lpspi_update_status
    (s <| lpspi_fcr := value |>
       <| tx_watermark := u8 (Z.shiftr (Z.land value LPSPI_FCR_TXWATER_MASK) LPSPI_FCR_TXWATER_SHIFT) |>
       <| rx_watermark := u8 (Z.shiftr (Z.land value LPSPI_FCR_RXWATER_MASK) LPSPI_FCR_RXWATER_SHIFT) |>).

Definition nxps32k358_lpspi_write (s : state) (addr val64 : Z) : res state :=
  let value := u32 val64 in
  match decode addr with
  | Some VERID | Some PARAM | Some FSR | Some RSR | Some RDR => Ok s
  | Some CR =>
      if has value LPSPI_CR_RST then nxps32k358_lpspi_do_reset s
      else lpspi_update_irq (write_cr s value)
  | Some SR => lpspi_update_irq (s <| lpspi_sr := clear_bits (lpspi_sr s) value |>)
  | Some TCR => let! s := write_tcr s value in lpspi_update_irq s
  | Some TDR =>
      let! '(early, s) := write_tdr s val64 in
      if early then Ok s else lpspi_update_irq s
  | Some IER => lpspi_update_irq (s <| lpspi_ier := value |>)
  | Some DER => lpspi_update_irq (s <| lpspi_der := value |>)
  | Some CFGR0 => lpspi_update_irq (s <| lpspi_cfgr0 := value |>)
  | Some CFGR1 =>
      let s := s <| lpspi_cfgr1 := value |> in
      do! lpspi_update_clock_config s in lpspi_update_irq s
  | Some CCR =>
      let s := s <| lpspi_ccr := value |> in
      do! lpspi_update_clock_config s in lpspi_update_irq s
  | Some CCR1 =>
      let s := s <| lpspi_ccr1 := value |> in
      do! lpspi_update_clock_config s in lpspi_update_irq s
  | Some FCR => let! s := write_fcr s value in lpspi_update_irq s
  | None => Ok s
  end.

(** ** Realize *)

Inductive realize_error := ClockNotConnected | ZeroClock | BadChipSelectCount.

(** [connected]: [s->clk] is not NULL; [tx_mem], [rx_mem]: the FIFO blocks
    [fifo8_create] allocates; a fresh gpio line is low. *)
Definition nxps32k358_lpspi_realize (s : state) (connected : bool) (tx_mem rx_mem : list Z)
    : realize_error + state :=
  if negb connected then inl ClockNotConnected else
  let s := s <| input_clk := clk s |> in
  if input_clk s =? 0 then inl ZeroClock else
  if (num_cs_lines s <? 1) || (4 <? num_cs_lines s) then inl BadChipSelectCount else
  inr (s <| cs_lines := replicate (Z.to_nat (num_cs_lines s)) false |>
         <| tx_fifo := fifo8_create tx_mem LPSPI_FIFO_BYTE_CAPACITY (tx_fifo s) |>
         <| rx_fifo := fifo8_create rx_mem LPSPI_FIFO_BYTE_CAPACITY (rx_fifo s) |>).

(** ** Lemmas: the byte loops *)

Lemma byte_shift_u32 lsbf n i b :
  n <= 4 -> 0 <= i < n -> is_u 8 b ->
  u32 (Z.shiftl b (byte_shift lsbf n i)) = Z.shiftl b (byte_shift lsbf n i).
Proof.
  intros Hn Hi Hb. apply u_small.
  assert (0 <= byte_shift lsbf n i <= 24) by (unfold byte_shift; destruct lsbf; lia).
  eapply is_u_mono; [|apply is_u_shiftl, Hb; lia]. lia.
Qed.

(** The value of the bytes [bs] read for an [n]-byte word: with fewer bytes
    than the word has, the missing ones are zero. *)
Definition partial_word (lsbf : bool) (n : Z) (bs : list Z) : Z :=
  if lsbf then le_word bs else Z.shiftl (le_word (rev bs)) (8 * (n - Z.of_nat (length bs))).

(** Reading bytes [k, n) of a word from the FIFO. *)
Lemma read_rx_word_ok lsbf n k ret fifo :
  n <= 4 -> 0 <= k <= n -> wf fifo ->
  let bs := take (Z.to_nat (n - k)) (contents fifo) in
  exists fifo', wf fifo' /\ contents fifo' = drop (Z.to_nat (n - k)) (contents fifo) /\
    capacity fifo' = capacity fifo /\
    read_rx_word lsbf n (seqZ k (n - k)) ret fifo
    = Ok (Z.lor ret (if lsbf then Z.shiftl (le_word bs) (8 * k) else partial_word false (n - k) bs), fifo').
Proof.
  intros Hn Hk. remember (Z.to_nat (n - k)) as m eqn:Hm. revert k ret fifo Hk Hm.
  induction m as [|m IH]; intros k ret fifo Hk Hm Hwf.
  { exists fifo. rewrite seqZ_nil by lia. cbn [read_rx_word take drop le_word]. unfold partial_word.
    cbn [rev le_word]. rewrite !Z.shiftl_0_l. destruct lsbf; by rewrite Z.lor_0_r. }
  rewrite seqZ_cons by lia. cbn [read_rx_word].
  destruct (contents fifo) as [|b l] eqn:Hc.
  { exists fifo. rewrite (proj2 (is_empty_contents fifo Hwf) Hc). cbn [negb take drop].
    unfold partial_word. cbn [rev le_word]. rewrite !Z.shiftl_0_l.
    destruct lsbf; by rewrite Z.lor_0_r. }
  destruct (fifo8_is_empty fifo) eqn:He.
  { apply is_empty_contents in He; [|done]. by rewrite Hc in He. }
  pose proof (contents_bytes fifo Hwf) as Hb. rewrite Hc in Hb. apply Forall_cons_1 in Hb as [Hb _].
  destruct (pop_ok fifo Hwf b l Hc) as (f1 & -> & Hw1 & Hc1 & Hcap1).
  cbn [negb res_bind]. rewrite byte_shift_u32 by (done || lia).
  replace (Z.succ k) with (k + 1) by lia. replace (Z.pred (n - k)) with (n - (k + 1)) by lia.
  destruct (IH (k + 1) (Z.lor ret (Z.shiftl b (byte_shift lsbf n k))) f1)
    as (f2 & Hw2 & Hc2 & Hcap2 & ->); [lia|lia|done|]. rewrite Hc1 in *.
  exists f2. split; [done|]. split; [done|]. split; [congruence|]. do 2 f_equal.
  rewrite <- Z.lor_assoc. f_equal. cbn [take]. unfold byte_shift, partial_word.
  destruct lsbf; cbn [le_word rev length].
  - rewrite Z.shiftl_lor, Z.shiftl_shiftl by lia. do 2 f_equal; lia.
  - assert (length (take m l) <= m)%nat by (rewrite length_take; lia).
    rewrite le_word_app, length_rev, Z.lor_comm. cbn [le_word].
    rewrite Z.shiftl_0_l, Z.lor_0_r, Z.shiftl_lor, Z.shiftl_shiftl by lia. do 2 f_equal; lia.
Qed.

Lemma read_partial_ok lsbf n fifo :
  0 <= n <= 4 -> wf fifo ->
  exists fifo', wf fifo' /\ contents fifo' = drop (Z.to_nat n) (contents fifo) /\
    capacity fifo' = capacity fifo /\
    read_rx_word lsbf n (seqZ 0 n) 0 fifo
    = Ok (partial_word lsbf n (take (Z.to_nat n) (contents fifo)), fifo').
Proof.
  intros Hn Hwf. destruct (read_rx_word_ok lsbf n 0 0 fifo) as (f & ? & ? & ? & Heq); [lia..|done|].
  exists f. rewrite Z.sub_0_r in *. split; [done|]. split; [done|]. split; [done|]. rewrite Heq.
  unfold partial_word. destruct lsbf; by rewrite ?Z.lor_0_l, ?Z.mul_0_r, ?Z.shiftl_0_r.
Qed.

Lemma partial_word_full lsbf bs : partial_word lsbf (Z.of_nat (length bs)) bs = word_of lsbf bs.
Proof.
  unfold partial_word, word_of. by destruct lsbf; rewrite ?Z.sub_diag, ?Z.mul_0_r, ?Z.shiftl_0_r.
Qed.

Lemma read_word_ok lsbf n fifo bs rest :
  n <= 4 -> n = Z.of_nat (length bs) -> wf fifo -> contents fifo = bs ++ rest ->
  exists fifo', wf fifo' /\ contents fifo' = rest /\ capacity fifo' = capacity fifo /\
    read_rx_word lsbf n (seqZ 0 n) 0 fifo = Ok (word_of lsbf bs, fifo').
Proof.
  intros Hn -> Hwf Hc. destruct (read_partial_ok lsbf (Z.of_nat (length bs)) fifo)
    as (f & ? & Hf & ? & Heq); [lia|done|].
  rewrite Hc, Nat2Z.id, take_app_length, partial_word_full in *. rewrite drop_app_length in Hf. eauto.
Qed.

(** The transmit loop is the receive loop when the FIFO holds a whole frame. *)
Lemma build_tx_word_ok s bs rest :
  let n := Z.of_nat (length bs) in
  n <= 4 -> wf (tx_fifo s) -> contents (tx_fifo s) = bs ++ rest ->
  exists fifo', wf fifo' /\ contents fifo' = rest /\ capacity fifo' = capacity (tx_fifo s) /\
    build_tx_word s n = Ok (word_of (has (lpspi_tcr s) TCR_LSBF) bs, fifo').
Proof.
  intros n Hn Hwf Hc. set (lsbf := has (lpspi_tcr s) TCR_LSBF).
  destruct (read_word_ok lsbf n (tx_fifo s) bs rest) as (f & ? & ? & ? & Heq); [done..|].
  exists f. split_and!; try done. rewrite <- Heq. unfold build_tx_word. fold lsbf.
  assert (length (seqZ 0 n) <= length (contents (tx_fifo s)))%nat as Hlen
    by (rewrite length_seqZ, Hc, length_app; lia).
  generalize dependent (seqZ 0 n). intros idx _ Hlen. generalize 0 as acc.
  clear Hc. revert Hwf Hlen. generalize (tx_fifo s) as fifo.
  induction idx as [|i idx IH]; intros fifo Hwf Hlen acc; cbn [res_fold read_rx_word]; [done|].
  destruct (contents fifo) as [|b q] eqn:Hc; cbn [length] in Hlen; [lia|].
  destruct (fifo8_is_empty fifo) eqn:He.
  { apply is_empty_contents in He; [|done]. by rewrite Hc in He. }
  destruct (pop_ok fifo Hwf b q Hc) as (f1 & -> & Hw1 & Hc1 & _). cbn [negb res_bind].
  apply IH; [done|]. rewrite Hc1. lia.
Qed.

(** The bytes both push loops produce. *)
Lemma split_bytes lsbf n v :
  (fun i => u8 (Z.land (Z.shiftr v (byte_shift lsbf (Z.of_nat n) i)) 0xFF)) <$> seqZ 0 (Z.of_nat n)
  = bytes_of lsbf n v.
Proof.
  apply list_eq. intros k. rewrite list_lookup_fmap.
  destruct (Nat.lt_ge_cases k n) as [Hk|Hk].
  - rewrite lookup_seqZ_lt by lia. cbn. rewrite u_small by apply land_ff_u.
    unfold bytes_of, byte_shift. destruct lsbf; [by rewrite le_bytes_lookup|].
    rewrite rev_alt. change (rev_append ?l []) with (reverse l).
    rewrite reverse_lookup, length_le_bytes, le_bytes_lookup by (rewrite ?length_le_bytes; lia).
    do 3 f_equal. lia.
  - rewrite lookup_seqZ_ge by lia. cbn. symmetry. apply lookup_ge_None_2.
    rewrite length_bytes_of. lia.
Qed.

Lemma res_fold_map {A A' S} (f : S -> A -> res S) (g : A' -> A) s l :
  res_fold (fun s x => f s (g x)) s l = res_fold f s (g <$> l).
Proof. revert s. induction l as [|x l IH]; intros s; cbn; [done|].
  destruct (f s (g x)); cbn; [apply IH|done]. Qed.

Lemma push_tx_word_ok s n v :
  wf (tx_fifo s) -> num (tx_fifo s) + Z.of_nat n <= capacity (tx_fifo s) ->
  exists fifo', push_tx_word s (Z.of_nat n) v = Ok fifo' /\ wf fifo' /\
    contents fifo' = contents (tx_fifo s) ++ bytes_of (has (lpspi_tcr s) TCR_LSBF) n v /\
    capacity fifo' = capacity (tx_fifo s).
Proof.
  intros Hwf Hfit. unfold push_tx_word.
  rewrite (res_fold_map fifo8_push (fun i => u8 _)), split_bytes.
  apply fold_push_ok; [done|apply bytes_of_u8|by rewrite length_bytes_of].
Qed.

(** With room for the frame the overflow branch of the receive loop is dead. *)
Lemma store_rx_word_ok s n v :
  wf (rx_fifo s) -> num (rx_fifo s) + Z.of_nat n <= capacity (rx_fifo s) ->
  exists fifo', store_rx_word s (Z.of_nat n) v = Ok (s <| rx_fifo := fifo' |>) /\ wf fifo' /\
    contents fifo' = contents (rx_fifo s) ++ bytes_of (has (lpspi_tcr s) TCR_LSBF) n v /\
    capacity fifo' = capacity (rx_fifo s).
Proof.
  intros Hwf Hfit. set (lsbf := has (lpspi_tcr s) TCR_LSBF).
  destruct (fold_push_ok (rx_fifo s) (bytes_of lsbf n v)) as (f & Hf & Hok);
    [done|apply bytes_of_u8|by rewrite length_bytes_of|].
  exists f. split; [|done]. clear Hok. unfold store_rx_word.
  assert (num (rx_fifo s) + Z.of_nat (length (seqZ 0 (Z.of_nat n))) <= capacity (rx_fifo s)) as Hfit'
    by (rewrite length_seqZ; lia).
  revert Hf Hfit'. rewrite <- split_bytes. generalize (seqZ 0 (Z.of_nat n)) as idx. clear Hfit.
  intros idx. unfold lsbf. clear lsbf. revert s Hwf. induction idx as [|i idx IH]; intros s Hwf Hf Hfit.
  { cbn in *. injection Hf as <-. by destruct s. }
  cbn [res_fold fmap list_fmap length] in *.
  assert (fifo8_is_full (rx_fifo s) = false) as -> by (apply Z.eqb_neq; lia).
  destruct (push_ok (rx_fifo s) Hwf (u8 (Z.land (Z.shiftr v (byte_shift (has (lpspi_tcr s) TCR_LSBF) (Z.of_nat n) i)) 255)))
    as (f1 & Hp & Hw1 & Hc1 & Hcap1); [by apply u_range|lia|].
  rewrite Hp in *. cbn [res_bind] in *.
  pose proof (length_contents f1 Hw1) as Hl1. rewrite Hc1, length_app in Hl1. cbn [length] in Hl1.
  pose proof (length_contents (rx_fifo s) Hwf).
  change (s <| rx_fifo := f |>) with (s <| rx_fifo := f1 |> <| rx_fifo := f |>).
  apply (IH (s <| rx_fifo := f1 |>)); rsimpl; [done|done|lia].
Qed.

(** ** Lemmas: status and interrupt *)

Definition tx_words (s : state) : Z := u8 (num (tx_fifo s) / tcr_frame_bytes (lpspi_tcr s)).
Definition rx_words (s : state) : Z := u8 (num (rx_fifo s) / tcr_frame_bytes (lpspi_tcr s)).

Definition flag (b : bool) (x m : Z) : Z := if b then set_bits x m else clear_bits x m.

(** What [lpspi_update_status] leaves in FSR, SR and RSR. *)
Definition status_fsr (s : state) : Z := Z.lor (Z.shiftl (rx_words s) 16) (tx_words s).
Definition status_sr (s : state) : Z :=
  let sr := if tx_words s <=? tx_watermark s
            then flag (4 <=? fifo8_num_free (tx_fifo s)) (lpspi_sr s) LPSPI_SR_TDF
            else lpspi_sr s in
  if rx_watermark s <? rx_words s then flag (4 <=? num (rx_fifo s)) sr LPSPI_SR_RDF else sr.
Definition status_rsr (s : state) : Z := flag (rx_words s =? 0) (lpspi_rsr s) LPSPI_RSR_RXEMPTY.

Definition refresh (s : state) : state :=
  s <| lpspi_fsr := status_fsr s |> <| lpspi_sr := status_sr s |> <| lpspi_rsr := status_rsr s |>.
Definition irq_level (s : state) : bool :=
  has (Z.land (lpspi_sr s) (lpspi_ier s)) (Z.lor LPSPI_SR_TDF LPSPI_SR_RDF).
Definition refresh_irq (s : state) : state :=
  (refresh s) <| irq := irq_level (refresh s) |>.

Lemma update_status_eq s :
  tcr_frame_bytes (lpspi_tcr s) <> 0 -> lpspi_update_status s = Ok (refresh s).
Proof.
  intros Hn. unfold lpspi_update_status, fifo8_num_used. rewrite !c_div_nz by done. cbn [res_bind].
  unfold refresh, status_fsr, status_sr, status_rsr, flag. fold (tx_words s) (rx_words s). rsimpl.
  rewrite Z.shiftl_0_r.
  destruct (tx_words s <=? tx_watermark s); try destruct (4 <=? fifo8_num_free (tx_fifo s)); rsimpl;
    (destruct (rx_watermark s <? rx_words s); [destruct (4 <=? num (rx_fifo s))|]); rsimpl;
    destruct (rx_words s =? 0); rsimpl; rcollapse; first [reflexivity | by destruct s].
Qed.

Lemma update_status_fault s :
  tcr_frame_bytes (lpspi_tcr s) = 0 -> lpspi_update_status s = Fault DivisionByZero.
Proof. intros Hn. unfold lpspi_update_status, c_div. by rewrite Hn. Qed.

Lemma update_irq_eq s :
  tcr_frame_bytes (lpspi_tcr s) <> 0 -> lpspi_update_irq s = Ok (refresh_irq s).
Proof. intros Hn. unfold lpspi_update_irq. by rewrite update_status_eq. Qed.

End lpspi.
End Lpspi.
