(* ===== verification/LpspiSpec.v ===== *)
(** * The LPSPI controller: invariant, transfers, properties

    The device invariant [lpspi_ok], the description of a transfer
    ([flush_ok], [flush_idle]), preservation of the invariant by reset and by
    every register access, and the properties of the controller. *)

From S2P Require Import Prelude Words Fifo Ssi Lpspi.
Import Fifo8 Lpspi.

Module LpspiSpec.

(** Bits of SR and CR after updates with the mask constants. *)
Ltac mask_bits :=
  unfold set_bits, clear_bits, LPSPI_SR_MBF, LPSPI_SR_TCF, LPSPI_SR_TEF, LPSPI_SR_TDF;
  rewrite ?Z.lor_spec, ?Z.ldiff_spec, ?testbit_BIT by lia; cbn [Z.eqb Pos.eqb negb];
  rewrite ?orb_false_r, ?orb_true_r, ?andb_true_r, ?andb_false_r; cbn [Z.eqb Pos.eqb negb].

Section spec.
Context {B : Type} `{SpiBus B}.
Abbreviation state := (NXPS32K358LPSPIState (B:=B)).
Implicit Types s : state.

(** ** Register fields *)

Lemma land_mask_range x w k :
  0 <= w -> 0 <= k -> 0 <= Z.shiftr (Z.land x (Z.shiftl (Z.ones w) k)) k < 2 ^ w.
Proof.
  intros Hw Hk. rewrite Z.shiftr_land, Z.shiftr_shiftl_l, Z.sub_diag, Z.shiftl_0_r by lia.
  rewrite Z.land_ones by lia. apply Z.mod_pos_bound. lia.
Qed.

Lemma frame_size_range tcr : 1 <= tcr_frame_size tcr <= 4096.
Proof.
  unfold tcr_frame_size. pose proof (land_mask_range tcr 12 0) as Hr.
  change (Z.shiftl (Z.ones 12) 0) with TCR_FRAMESZ_MASK in Hr. unfold TCR_FRAMESZ_SHIFT.
  rewrite u_small; unfold is_u; lia.
Qed.

Lemma frame_bytes_range tcr : 0 <= tcr_frame_bytes tcr <= 4.
Proof.
  unfold tcr_frame_bytes. pose proof (u_range 8 ((tcr_frame_size tcr + 7) / 8)) as Hr.
  unfold is_u in Hr. destruct (Z.ltb_spec 4 (u8 ((tcr_frame_size tcr + 7) / 8))); lia.
Qed.

(** For frames of up to 32 bits the byte count is the rounded-up one. *)
Lemma frame_bytes_small tcr :
  tcr_frame_size tcr <= 32 -> tcr_frame_bytes tcr = (tcr_frame_size tcr + 7) / 8.
Proof.
  intros Hs. pose proof (frame_size_range tcr). unfold tcr_frame_bytes.
  assert (1 <= (tcr_frame_size tcr + 7) / 8 <= 4) by (Z.to_euclidean_division_equations; lia).
  rewrite u_small by (unfold is_u; lia).
  by destruct (Z.ltb_spec 4 ((tcr_frame_size tcr + 7) / 8)); [lia|].
Qed.

Lemma pcs_range tcr : 0 <= tcr_pcs tcr <= 3.
Proof.
  unfold tcr_pcs. pose proof (land_mask_range tcr 2 24) as Hr.
  change (Z.shiftl (Z.ones 2) 24) with TCR_PCS_MASK in Hr. unfold TCR_PCS_SHIFT.
  rewrite u_small; unfold is_u; lia.
Qed.

(** The divisor of [lpspi_update_clock_config] is never zero. *)
Lemma clock_config_ok s : exists r, lpspi_update_clock_config s = Ok r.
Proof.
  unfold lpspi_update_clock_config.
  pose proof (land_mask_range (lpspi_tcr s) 3 27) as Hp.
  pose proof (land_mask_range (lpspi_ccr1 s) 8 0) as Hs.
  pose proof (land_mask_range (lpspi_ccr1 s) 8 8) as Hh.
  change (Z.shiftl (Z.ones 3) 27) with TCR_PRESCALE_MASK in Hp.
  change (Z.shiftl (Z.ones 8) 0) with CCR1_SCKSET_MASK in Hs.
  change (Z.shiftl (Z.ones 8) 8) with CCR1_SCKHLD_MASK in Hh.
  unfold TCR_PRESCALE_SHIFT, CCR1_SCKSET_SHIFT, CCR1_SCKHLD_SHIFT.
  revert Hp Hs Hh. generalize (Z.shiftr (Z.land (lpspi_tcr s) TCR_PRESCALE_MASK) 27) as p.
  generalize (Z.shiftr (Z.land (lpspi_ccr1 s) CCR1_SCKSET_MASK) 0) as a.
  generalize (Z.shiftr (Z.land (lpspi_ccr1 s) CCR1_SCKHLD_MASK) 8) as b. intros b a p Hp Ha Hb.
  destruct (clk s =? 0); [by eexists|].
  rewrite !(u_small 32 (_ + 1)) by (unfold is_u; lia).
  destruct (u32 _ =? 0); [by eexists|].
  rewrite (u_small 32 (_ + 2)) by (unfold is_u; lia).
  assert (1 <= Z.shiftl 1 p <= 128).
  { rewrite Z.shiftl_1_l. split; [|apply (Z.pow_le_mono_r 2 p 7); lia].
    apply (Z.pow_le_mono_r 2 0 p); lia. }
  rewrite (u_small 32 (Z.shiftl 1 p)) by (unfold is_u; lia).
  rewrite c_div_nz; [by eexists|]. rewrite u_small; unfold is_u; nia.
Qed.

(** ** Invariant *)

Definition regs s : list Z :=
  [lpspi_verid s; lpspi_param s; lpspi_cr s; lpspi_sr s; lpspi_ier s; lpspi_der s; lpspi_cfgr0 s;
   lpspi_cfgr1 s; lpspi_ccr s; lpspi_ccr1 s; lpspi_fcr s; lpspi_fsr s; lpspi_tcr s; lpspi_tdr s;
   lpspi_rsr s; lpspi_rdr s].

(** A transmit command the model can execute: a frame of at least one byte on
    an existing chip select. *)
Definition supported (ncs tcr : Z) : bool :=
  negb (tcr_frame_bytes tcr =? 0) && (tcr_pcs tcr <? ncs).

Record lpspi_core s : Prop := {
  ok_bus : bus_ok (ssi s);
  ok_tx : wf (tx_fifo s);
  ok_tx_cap : capacity (tx_fifo s) = LPSPI_FIFO_BYTE_CAPACITY;
  ok_rx : wf (rx_fifo s);
  ok_rx_cap : capacity (rx_fifo s) = LPSPI_FIFO_BYTE_CAPACITY;
  ok_cs : Z.of_nat (length (cs_lines s)) = num_cs_lines s;
  ok_num_cs : 1 <= num_cs_lines s <= 4;
  ok_regs : Forall (is_u 32) (regs s);
  ok_supported : supported (num_cs_lines s) (lpspi_tcr s) = true;
  ok_shadow : frame_size s = tcr_frame_size (lpspi_tcr s) /\
    continuous_mode s = has (lpspi_tcr s) (Z.lor TCR_CONT TCR_CONTC);
  ok_cr : has (lpspi_cr s) (Z.lor (Z.lor LPSPI_CR_RST LPSPI_CR_RTF) LPSPI_CR_RRF) = false;
  ok_mbf : Z.testbit (lpspi_sr s) 24 = true -> busy s = true;
  ok_ref : Z.testbit (lpspi_sr s) 12 = false;
}.

(** FSR counts the words of the FIFOs, RSR.RXEMPTY says there is none to read. *)
Definition settled s : Prop :=
  lpspi_fsr s = status_fsr s /\ Z.testbit (lpspi_rsr s) 1 = (rx_words s =? 0).

Definition lpspi_ok s : Prop := lpspi_core s /\ settled s.

Lemma supported_iff ncs tcr :
  supported ncs tcr = true <-> 1 <= tcr_frame_bytes tcr <= 4 /\ 0 <= tcr_pcs tcr < ncs.
Proof.
  unfold supported. pose proof (frame_bytes_range tcr). pose proof (pcs_range tcr).
  rewrite andb_true_iff, negb_true_iff, Z.eqb_neq, Z.ltb_lt. lia.
Qed.

Lemma core_frame s : lpspi_core s -> 1 <= tcr_frame_bytes (lpspi_tcr s) <= 4.
Proof. intros Hc. by destruct (proj1 (supported_iff _ _) (ok_supported s Hc)). Qed.
Lemma core_pcs s : lpspi_core s -> 0 <= tcr_pcs (lpspi_tcr s) < Z.of_nat (length (cs_lines s)).
Proof. intros Hc. rewrite (ok_cs s Hc).
  by destruct (proj1 (supported_iff _ _) (ok_supported s Hc)). Qed.

Lemma core_update_status s : lpspi_core s -> lpspi_update_status s = Ok (refresh s).
Proof. intros Hc%core_frame. apply update_status_eq. lia. Qed.
Lemma core_update_irq s : lpspi_core s -> lpspi_update_irq s = Ok (refresh_irq s).
Proof. intros Hc%core_frame. apply update_irq_eq. lia. Qed.

Lemma words_le (f : Fifo8) n :
  wf f -> capacity f = 16 -> 1 <= n -> u8 (num f / n) = num f / n /\ 0 <= num f / n <= 16.
Proof.
  intros [Hc _ _ Hn _] Hcap Hn1.
  assert (0 <= num f / n <= 16) by (Z.to_euclidean_division_equations; nia).
  split; [apply u_small; unfold is_u; lia|done].
Qed.

Lemma flag_u32 b x m : is_u 32 x -> is_u 32 m -> is_u 32 (flag b x m).
Proof. destruct b; cbn [flag]; auto with ints. Qed.

Lemma flag_other b x m i :
  Z.testbit m i = false -> Z.testbit (flag b x m) i = Z.testbit x i.
Proof.
  intros Hm. unfold flag, set_bits, clear_bits.
  destruct b; by rewrite ?Z.lor_spec, ?Z.ldiff_spec, Hm, ?orb_false_r, ?andb_true_r.
Qed.

Lemma flag_bit b x n : 0 <= n -> Z.testbit (flag b x (BIT n)) n = b.
Proof.
  intros Hn. unfold flag, set_bits, clear_bits, BIT.
  destruct b; by rewrite ?Z.lor_spec, ?Z.ldiff_spec, Z.pow2_bits_true, ?orb_true_r, ?andb_false_r.
Qed.

(** Outside TDF and RDF the status refresh leaves SR alone. *)
Lemma status_sr_other s i :
  2 <= i -> Z.testbit (status_sr s) i = Z.testbit (lpspi_sr s) i.
Proof.
  intros Hi. unfold status_sr.
  assert (Z.testbit LPSPI_SR_TDF i = false) by (apply Z.pow2_bits_false; lia).
  assert (Z.testbit LPSPI_SR_RDF i = false) by (apply Z.pow2_bits_false; lia).
  destruct (rx_watermark s <? rx_words s), (tx_words s <=? tx_watermark s);
    by rewrite ?flag_other.
Qed.

Lemma status_sr_u32 s : is_u 32 (lpspi_sr s) -> is_u 32 (status_sr s).
Proof.
  intros Hs. unfold status_sr.
  destruct (rx_watermark s <? rx_words s), (tx_words s <=? tx_watermark s);
    repeat (apply flag_u32); (done || unfold is_u, LPSPI_SR_TDF, LPSPI_SR_RDF, BIT; lia).
Qed.

Lemma status_fsr_u32 s : is_u 32 (status_fsr s).
Proof.
  unfold status_fsr. apply is_u_lor; [lia| |].
  - eapply (is_u_mono (8 + 16)); [lia|]. apply is_u_shiftl; [lia|by apply u_range].
  - eapply (is_u_mono 8); [lia|by apply u_range].
Qed.

Lemma status_rsr_u32 s : is_u 32 (lpspi_rsr s) -> is_u 32 (status_rsr s).
Proof. intros Hs. apply flag_u32; [done|unfold is_u, LPSPI_RSR_RXEMPTY, BIT; lia]. Qed.

Hint Resolve status_fsr_u32 status_sr_u32 status_rsr_u32 flag_u32 : ints.
Hint Extern 2 (is_u 32 ?m) => (is_const m; unfold m; apply BIT_u32; lia) : ints.

(** Invariant steps: split the register list, project through the update. *)
Ltac regs_u32 := repeat (apply List.Forall_cons; [solve [auto with ints]|]); apply List.Forall_nil.
Ltac core_step Hc :=
  let Hr := fresh "Hregs" in
  destruct Hc as [? ? ? ? ? ? ? Hr ? ? ? ? ?]; unfold regs in Hr;
  repeat (apply Forall_cons_1 in Hr as [? Hr]);
  constructor; unfold regs; rsimpl; try done; try regs_u32.

Lemma refresh_core s : lpspi_core s -> lpspi_core (refresh s).
Proof.
  intros Hc. unfold refresh. core_step Hc.
  - by rewrite status_sr_other.
  - by rewrite status_sr_other.
Qed.

Lemma refresh_settled s : settled (refresh s).
Proof.
  split; [done|]. unfold refresh. rsimpl. unfold status_rsr, LPSPI_RSR_RXEMPTY. by rewrite flag_bit.
Qed.

Lemma refresh_ok s : lpspi_core s -> lpspi_ok (refresh s).
Proof. split; [by apply refresh_core|apply refresh_settled]. Qed.

Lemma core_irq s b : lpspi_core s -> lpspi_core (s <| irq := b |>).
Proof. intros Hc. by core_step Hc. Qed.

Lemma refresh_irq_ok s : lpspi_core s -> lpspi_ok (refresh_irq s).
Proof.
  intros Hc. split; [|exact (refresh_settled s)].  unfold refresh_irq.
  by apply core_irq, refresh_core.
Qed.

(** Writing SR bits that are neither REF nor MBF. *)
Lemma core_sr s v :
  lpspi_core s -> is_u 32 v -> (Z.testbit v 24 = true -> busy s = true) -> Z.testbit v 12 = false ->
  lpspi_core (s <| lpspi_sr := v |>).
Proof. intros Hc Hv H24 H12. core_step Hc. Qed.

(** ** The transfer *)

Definition continuous s : bool := has (lpspi_tcr s) TCR_CONT || has (lpspi_tcr s) TCR_CONTC.
Definition pcs s : Z := tcr_pcs (lpspi_tcr s).
Definition lsbf s : bool := has (lpspi_tcr s) TCR_LSBF.
Definition rxmsk s : bool := has (lpspi_tcr s) TCR_RXMSK.
Definition loopback s : bool := Z.land (Z.shiftr (lpspi_cfgr1 s) 8) 3 =? 1.

(** Whether a whole frame can be moved. *)
Definition ready s : bool :=
  (tcr_frame_bytes (lpspi_tcr s) <=? num (tx_fifo s)) &&
  (rxmsk s || (tcr_frame_bytes (lpspi_tcr s) <=? capacity (rx_fifo s) - num (rx_fifo s))).

(** What the word on the wire is answered with, and the bus afterwards. *)
Definition exchange s (w : Z) : Z * B := if loopback s then (w, ssi s) else ssi_exchange (ssi s) w.

(** The state changes of a transfer around the two FIFOs and the bus. *)
Definition assert_cs s : state :=
  if negb (busy s) || negb (continuous s)
  then s <| cs_lines := <[Z.to_nat (pcs s) := cs_active_high s (pcs s)]> (cs_lines s) |>
         <| busy := true |> <| lpspi_sr := set_bits (lpspi_sr s) LPSPI_SR_MBF |>
  else s.
Definition deassert_cs s : state :=
  if continuous s then s
  else s <| cs_lines := <[Z.to_nat (pcs s) := negb (cs_active_high s (pcs s))]> (cs_lines s) |>
         <| busy := false |> <| lpspi_sr := clear_bits (lpspi_sr s) LPSPI_SR_MBF |>.
Definition complete s : state :=
  if (num (tx_fifo s) =? 0) && busy s
  then (deassert_cs s) <| lpspi_sr := set_bits (lpspi_sr (deassert_cs s)) LPSPI_SR_TCF |>
  else s.
Definition moved s (txf rxf : Fifo8) (bus : B) : state :=
  (assert_cs s) <| tx_fifo := txf |> <| ssi := bus |> <| rx_fifo := rxf |>.
Definition transferred s (txf rxf : Fifo8) (bus : B) : state :=
  refresh_irq (complete (refresh (moved s txf rxf bus))).

Lemma flush_guard s :
  (tcr_frame_size (lpspi_tcr s) <? 1) || (4096 <? tcr_frame_size (lpspi_tcr s)) = false.
Proof.
  pose proof (frame_size_range (lpspi_tcr s)). apply orb_false_iff. rewrite !Z.ltb_ge. lia.
Qed.

Lemma flush_idle s :
  lpspi_core s -> ready s = false -> lpspi_flush_txfifo s = Ok s.
Proof.
  intros Hc Hr. unfold lpspi_flush_txfifo. rewrite flush_guard.
  unfold ready in Hr. unfold fifo8_num_used.
  rewrite (num_free_eq _ (ok_rx s Hc)). fold (rxmsk s).
  rewrite Z.ltb_antisym. destruct (_ <=? num (tx_fifo s)); [cbn [negb andb] in *|done].
  rewrite Z.ltb_antisym. by destruct (rxmsk s), (_ <=? _ - _).
Qed.

Lemma set_cs_line_ok s level :
  lpspi_core s ->
  set_cs_line s (pcs s) level = Ok (s <| cs_lines := <[Z.to_nat (pcs s) := level]> (cs_lines s) |>).
Proof. intros Hc%core_pcs. unfold set_cs_line. by rewrite store_ok. Qed.

Lemma core_assert_cs s : lpspi_core s -> lpspi_core (assert_cs s).
Proof.
  intros Hc. unfold assert_cs. destruct (_ || _); [|done]. core_step Hc.
  - by rewrite length_insert.
  - by mask_bits.
Qed.

Lemma core_deassert_cs s : lpspi_core s -> lpspi_core (deassert_cs s).
Proof.
  intros Hc. unfold deassert_cs. destruct (continuous s); [done|]. core_step Hc.
  - by rewrite length_insert.
  - by mask_bits.
  - by mask_bits.
Qed.

Lemma core_complete s : lpspi_core s -> lpspi_core (complete s).
Proof.
  intros Hc. unfold complete. destruct (_ && _); [|done].
  apply core_deassert_cs in Hc. generalize dependent (deassert_cs s). clear s. intros s Hc.
  core_step Hc; by mask_bits.
Qed.

Lemma core_moved s txf rxf bus :
  lpspi_core s -> bus_ok bus -> wf txf -> capacity txf = capacity (tx_fifo s) ->
  wf rxf -> capacity rxf = capacity (rx_fifo s) -> lpspi_core (moved s txf rxf bus).
Proof.
  intros Hs Hb Ht Htc Hr Hrc. unfold moved.
  rewrite (ok_tx_cap s Hs) in Htc. rewrite (ok_rx_cap s Hs) in Hrc.
  pose proof (core_assert_cs s Hs) as Hc. core_step Hc.
Qed.

Lemma pincfg_eq s : (u8 (Z.land (Z.shiftr (lpspi_cfgr1 s) LPSPI_CFGR1_PINCFG_SHIFT) 3) =? 1) = loopback s.
Proof.
  unfold loopback, LPSPI_CFGR1_PINCFG_SHIFT. rewrite u_small; [done|]. change 3 with (Z.ones 2).
  rewrite Z.land_ones by lia. unfold is_u. pose proof (Z.mod_pos_bound (Z.shiftr (lpspi_cfgr1 s) 8) (2 ^ 2)).
  change (2 ^ 2) with 4 in *. lia.
Qed.

(** The chip-select part of the transfer. *)
Lemma flush_assert s :
  lpspi_core s ->
  (if negb (busy s) || (negb (has (lpspi_tcr s) TCR_CONT) && negb (has (lpspi_tcr s) TCR_CONTC)) then
     let! s := set_cs_line s (tcr_pcs (lpspi_tcr s)) (cs_active_high s (tcr_pcs (lpspi_tcr s))) in
     Ok (s <| busy := true |> <| lpspi_sr := set_bits (lpspi_sr s) LPSPI_SR_MBF |>)
   else Ok s) = Ok (assert_cs s).
Proof.
  intros Hc. rewrite <- negb_orb. fold (continuous s) (pcs s). rewrite set_cs_line_ok by done.
  unfold assert_cs. by destruct (_ || _).
Qed.

Lemma flush_complete s tcr :
  lpspi_core s -> lpspi_tcr s = tcr ->
  (if fifo8_is_empty (tx_fifo s) && busy s then
     let! s :=
       (if negb (has tcr TCR_CONT) && negb (has tcr TCR_CONTC) then
          let! s := set_cs_line s (tcr_pcs tcr)
                      (negb (cs_active_high s (tcr_pcs tcr))) in
          Ok (s <| busy := false |> <| lpspi_sr := clear_bits (lpspi_sr s) LPSPI_SR_MBF |>)
        else Ok s) in
     Ok (s <| lpspi_sr := set_bits (lpspi_sr s) LPSPI_SR_TCF |>)
   else Ok s) = Ok (complete s).
Proof.
  intros Hc <-. rewrite <- negb_orb. fold (continuous s) (pcs s). rewrite set_cs_line_ok by done.
  unfold complete, deassert_cs, fifo8_is_empty. destruct (_ && _); [|done].
  by destruct (continuous s).
Qed.

(** The bytes and the word of the next frame, and its answer. *)
Definition frame_len s : nat := Z.to_nat (tcr_frame_bytes (lpspi_tcr s)).
Definition next_frame s : list Z := take (frame_len s) (contents (tx_fifo s)).
Definition answer s : Z := (exchange s (word_of (lsbf s) (next_frame s))).1.
Definition bus_after s : B := (exchange s (word_of (lsbf s) (next_frame s))).2.

Lemma assert_cs_tcr s : lpspi_tcr (assert_cs s) = lpspi_tcr s.
Proof. unfold assert_cs. by destruct (_ || _). Qed.
Lemma assert_cs_tx s : tx_fifo (assert_cs s) = tx_fifo s.
Proof. unfold assert_cs. by destruct (_ || _). Qed.
Lemma assert_cs_rx s : rx_fifo (assert_cs s) = rx_fifo s.
Proof. unfold assert_cs. by destruct (_ || _). Qed.
Lemma assert_cs_cfgr1 s : lpspi_cfgr1 (assert_cs s) = lpspi_cfgr1 s.
Proof. unfold assert_cs. by destruct (_ || _). Qed.
Lemma assert_cs_ssi s : ssi (assert_cs s) = ssi s.
Proof. unfold assert_cs. by destruct (_ || _). Qed.

Lemma refresh_tcr s : lpspi_tcr (refresh s) = lpspi_tcr s.
Proof. done. Qed.
Lemma moved_tcr s txf rxf bus : lpspi_tcr (moved s txf rxf bus) = lpspi_tcr s.
Proof. unfold moved. rsimpl. apply assert_cs_tcr. Qed.

Lemma next_frame_ok s :
  lpspi_core s -> ready s = true ->
  Z.of_nat (length (next_frame s)) = tcr_frame_bytes (lpspi_tcr s) /\
  Forall (is_u 8) (next_frame s) /\ is_u 32 (word_of (lsbf s) (next_frame s)).
Proof.
  intros Hc Hr. pose proof (core_frame s Hc).
  apply andb_true_iff in Hr as [Hr%Z.leb_le _].
  pose proof (length_contents _ (ok_tx s Hc)).
  assert (Z.of_nat (length (next_frame s)) = tcr_frame_bytes (lpspi_tcr s)) as Hl
    by (unfold next_frame, frame_len; rewrite length_take; lia).
  assert (Forall (is_u 8) (next_frame s)) as Hb by (apply Forall_take, contents_bytes, Hc).
  split_and!; [done..|]. apply word_of_u32; [done|lia].
Qed.

Lemma exchange_ok s w :
  lpspi_core s -> is_u 32 w -> is_u 32 (exchange s w).1 /\ bus_ok (exchange s w).2.
Proof.
  intros Hc Hw. unfold exchange. destruct (loopback s); cbn.
  - split; [done|apply Hc].
  - split; [apply ssi_exchange_u32|apply ssi_exchange_ok]; by try apply Hc.
Qed.

(** The receive side of the transfer. *)
Lemma flush_store s n r :
  lpspi_core s -> rxmsk s || (Z.of_nat n <=? capacity (rx_fifo s) - num (rx_fifo s)) = true ->
  exists rxf, wf rxf /\ capacity rxf = capacity (rx_fifo s) /\
    contents rxf = contents (rx_fifo s) ++ (if rxmsk s then [] else bytes_of (lsbf s) n r) /\
    (if negb (rxmsk s) then store_rx_word s (Z.of_nat n) r else Ok s) = Ok (s <| rx_fifo := rxf |>).
Proof.
  intros Hc Hroom. destruct (rxmsk s) eqn:Hm; cbn [negb orb] in *.
  - exists (rx_fifo s). rewrite app_nil_r. split_and!; [apply Hc|done..|]. by destruct s.
  - apply Z.leb_le in Hroom.
    destruct (store_rx_word_ok s n r) as (rxf & -> & Hw & Hcont & Hcap); [apply Hc|lia|].
    by exists rxf.
Qed.

(** The transfer is its pieces in order. *)
Lemma flush_run s txf rxf :
  let s1 := (assert_cs s) <| tx_fifo := txf |> <| ssi := bus_after s |> in
  let n := tcr_frame_bytes (lpspi_tcr s) in
  lpspi_core s -> ready s = true ->
  build_tx_word (assert_cs s) n = Ok (word_of (lsbf s) (next_frame s), txf) ->
  (if negb (rxmsk s) then store_rx_word s1 n (answer s) else Ok s1) = Ok (s1 <| rx_fifo := rxf |>) ->
  lpspi_core (moved s txf rxf (bus_after s)) ->
  lpspi_flush_txfifo s = Ok (transferred s txf rxf (bus_after s)).
Proof.
  intros s1 n Hc Hr Hbuild Hstore Hm. apply andb_true_iff in Hr as [Htx Hroom].
  unfold lpspi_flush_txfifo. rewrite flush_guard. unfold fifo8_num_used.
  rewrite (num_free_eq _ (ok_rx s Hc)), !Z.ltb_antisym. fold n (rxmsk s) in Htx, Hroom |- *.
  rewrite Htx. cbn [negb].
  assert (negb (rxmsk s) && negb (n <=? capacity (rx_fifo s) - num (rx_fifo s)) = false) as ->
    by (destruct (rxmsk s); [done|cbn in *; by rewrite Hroom]).
  rewrite flush_assert by done. cbn [res_bind]. rewrite Hbuild. cbn [res_bind].
  set (s0 := (assert_cs s) <| tx_fifo := txf |>).
  assert ((if u8 (Z.land (Z.shiftr (lpspi_cfgr1 s0) LPSPI_CFGR1_PINCFG_SHIFT) 3) =? 1
           then (word_of (lsbf s) (next_frame s), s0)
           else let '(r, bus) := ssi_exchange (ssi s0) (word_of (lsbf s) (next_frame s)) in
                (r, s0 <| ssi := bus |>)) = (answer s, s1)) as ->.
  { rewrite pincfg_eq. unfold s1, answer, bus_after, exchange, loopback, s0. rsimpl.
    rewrite assert_cs_cfgr1, assert_cs_ssi. destruct (_ =? 1).
    - f_equal. cbn [snd]. rewrite <- (assert_cs_ssi s). by destruct (assert_cs s).
    - by destruct (ssi_exchange _ _). }
  rewrite Hstore. cbn [res_bind]. change (s1 <| rx_fifo := rxf |>) with (moved s txf rxf (bus_after s)).
  rewrite core_update_status by done. cbn [res_bind].
  rewrite flush_complete;
    [|by apply refresh_core|rewrite refresh_tcr; apply moved_tcr].
  cbn [res_bind]. by rewrite core_update_irq by (by apply core_complete, refresh_core).
Qed.

Lemma flush_ok s :
  lpspi_core s -> ready s = true ->
  exists txf rxf,
    wf txf /\ contents txf = drop (frame_len s) (contents (tx_fifo s)) /\
    capacity txf = capacity (tx_fifo s) /\
    wf rxf /\ contents rxf = contents (rx_fifo s) ++
      (if rxmsk s then [] else bytes_of (lsbf s) (frame_len s) (answer s)) /\
    capacity rxf = capacity (rx_fifo s) /\
    lpspi_core (moved s txf rxf (bus_after s)) /\
    lpspi_flush_txfifo s = Ok (transferred s txf rxf (bus_after s)).
Proof.
  intros Hc Hr. pose proof (core_frame s Hc) as Hfr.
  destruct (next_frame_ok s Hc Hr) as (Hlen & Hbytes & Hword).
  pose proof (exchange_ok s _ Hc Hword) as [_ Hbus].
  pose proof (core_assert_cs s Hc) as Ha.
  pose proof Hr as [Htx Hroom]%andb_true_iff.
  destruct (build_tx_word_ok (assert_cs s) (next_frame s) (drop (frame_len s) (contents (tx_fifo s))))
    as (txf & Hwt & Hct & Hcapt & Hbuild);
    [lia|apply Ha|rewrite assert_cs_tx; symmetry; apply take_drop|].
  rewrite assert_cs_tx in Hcapt. rewrite assert_cs_tcr, Hlen in Hbuild. fold (lsbf s) in Hbuild.
  set (s1 := (assert_cs s) <| tx_fifo := txf |> <| ssi := bus_after s |>).
  assert (lpspi_core s1) as H1.
  { apply (core_moved s txf (rx_fifo (assert_cs s)) (bus_after s)); try done;
      rewrite assert_cs_rx; [apply Hc|done]. }
  destruct (flush_store s1 (frame_len s) (answer s)) as (rxf & Hwr & Hcapr & Hcr & Hstore);
    [done|unfold s1, rxmsk, frame_len; rsimpl; rewrite assert_cs_tcr, assert_cs_rx, Z2Nat.id by lia;
          exact Hroom|].
  assert (lsbf s1 = lsbf s /\ rxmsk s1 = rxmsk s /\ rx_fifo s1 = rx_fifo s) as (El & Em & Er)
    by (unfold s1, lsbf, rxmsk; rsimpl; by rewrite assert_cs_tcr, assert_cs_rx).
  rewrite El, Em, Er in *. unfold frame_len in Hstore. rewrite Z2Nat.id in Hstore by lia.
  assert (lpspi_core (moved s txf rxf (bus_after s))) by by apply core_moved.
  exists txf, rxf. split_and!; try done. by apply flush_run.
Qed.

Lemma transferred_ok s txf rxf bus :
  lpspi_core (moved s txf rxf bus) -> lpspi_ok (transferred s txf rxf bus).
Proof. intros Hm. by apply refresh_irq_ok, core_complete, refresh_core. Qed.

(** The registers software configures. *)
Definition config s : list Z :=
  [lpspi_cr s; lpspi_ier s; lpspi_der s; lpspi_cfgr0 s; lpspi_cfgr1 s; lpspi_ccr s; lpspi_ccr1 s;
   lpspi_fcr s; lpspi_tcr s; tx_watermark s; rx_watermark s; num_cs_lines s].

Lemma config_eq s s' :
  config s = config s' ->
  num_cs_lines s = num_cs_lines s' /\ lpspi_tcr s = lpspi_tcr s' /\ lpspi_cr s = lpspi_cr s' /\
  lpspi_cfgr1 s = lpspi_cfgr1 s' /\ lpspi_ier s = lpspi_ier s' /\
  tx_watermark s = tx_watermark s' /\ rx_watermark s = rx_watermark s'.
Proof. intros Hs. by injection Hs. Qed.

Lemma refresh_config s : config (refresh s) = config s.
Proof. done. Qed.
Lemma refresh_irq_config s : config (refresh_irq s) = config s.
Proof. done. Qed.
Lemma complete_config s : config (complete s) = config s.
Proof.
  unfold complete, deassert_cs. destruct (_ && _); [|done]. by destruct (continuous s).
Qed.
Lemma moved_config s txf rxf bus : config (moved s txf rxf bus) = config s.
Proof. unfold moved, assert_cs. by destruct (_ || _). Qed.

Lemma transferred_config s txf rxf bus : config (transferred s txf rxf bus) = config s.
Proof.
  unfold transferred. by rewrite refresh_irq_config, complete_config, refresh_config, moved_config.
Qed.

Lemma transferred_data s txf rxf bus :
  tx_fifo (transferred s txf rxf bus) = txf /\ rx_fifo (transferred s txf rxf bus) = rxf /\
  ssi (transferred s txf rxf bus) = bus.
Proof.
  unfold transferred, refresh_irq, complete, deassert_cs, moved.
  repeat case_match; done.
Qed.

(** ** Every register access preserves the invariant *)

Lemma flush_safe s :
  lpspi_core s -> exists s', lpspi_flush_txfifo s = Ok s' /\ lpspi_core s' /\
    num_cs_lines s' = num_cs_lines s.
Proof.
  intros Hc. destruct (ready s) eqn:Hr.
  - destruct (flush_ok s Hc Hr) as (txf & rxf & _ & _ & _ & _ & _ & _ & Hm & ->).
    eexists. split; [done|]. split; [by apply transferred_ok|].
    by apply config_eq, transferred_config.
  - rewrite flush_idle by done. by exists s.
Qed.

Lemma core_rtf s :
  lpspi_core s ->
  lpspi_core (s <| tx_fifo := fifo8_reset (tx_fifo s) |>
                <| lpspi_sr := set_bits (lpspi_sr s) LPSPI_SR_TDF |>).
Proof. intros Hc. destruct (reset_ok _ (ok_tx s Hc)) as (? & _ & ?). core_step Hc; by mask_bits. Qed.

Lemma core_rrf s :
  lpspi_core s ->
  lpspi_core (s <| rx_fifo := fifo8_reset (rx_fifo s) |>
                <| lpspi_rsr := set_bits (lpspi_rsr s) LPSPI_RSR_RXEMPTY |>).
Proof. intros Hc. destruct (reset_ok _ (ok_rx s Hc)) as (? & _ & ?). core_step Hc. Qed.

Lemma core_cr s v :
  lpspi_core s -> is_u 32 v ->
  lpspi_core (s <| lpspi_cr := clear_bits v (Z.lor (Z.lor LPSPI_CR_RST LPSPI_CR_RTF) LPSPI_CR_RRF) |>).
Proof. intros Hc Hv. core_step Hc. apply has_clear. Qed.

Lemma core_write_cr s value : lpspi_core s -> is_u 32 value -> lpspi_core (write_cr s value).
Proof.
  intros Hc Hv. unfold write_cr. apply core_cr; [|done].
  destruct (has value LPSPI_CR_RRF), (has value LPSPI_CR_RTF);
    repeat first [done | apply core_rrf | apply core_rtf].
Qed.

Lemma core_tcr s value :
  lpspi_core s -> is_u 32 value -> supported (num_cs_lines s) value = true ->
  lpspi_core (s <| lpspi_tcr := value |> <| frame_size := tcr_frame_size value |>
                <| continuous_mode := has value (Z.lor TCR_CONT TCR_CONTC) |>).
Proof. intros Hc Hv Hs. core_step Hc. Qed.

Lemma core_fcr s v tw rw :
  lpspi_core s -> is_u 32 v ->
  lpspi_core (s <| lpspi_fcr := v |> <| tx_watermark := tw |> <| rx_watermark := rw |>).
Proof. intros Hc Hv. core_step Hc. Qed.
Lemma core_tx s f :
  lpspi_core s -> wf f -> capacity f = capacity (tx_fifo s) -> lpspi_core (s <| tx_fifo := f |>).
Proof. intros Hc Hf Hcap. rewrite (ok_tx_cap s Hc) in Hcap. core_step Hc. Qed.

Lemma core_refresh_irq s :
  lpspi_core s -> exists s', lpspi_update_irq s = Ok s' /\ lpspi_ok s' /\
    num_cs_lines s' = num_cs_lines s.
Proof.
  intros Hc. exists (refresh_irq s).
  split_and!; [by apply core_update_irq|by apply refresh_irq_ok|done].
Qed.

Lemma core_tef s :
  lpspi_core s -> lpspi_core (s <| lpspi_sr := set_bits (lpspi_sr s) LPSPI_SR_TEF |>).
Proof. intros Hc. core_step Hc; by mask_bits. Qed.

Lemma core_sr_clear s v : lpspi_core s -> lpspi_core (s <| lpspi_sr := clear_bits (lpspi_sr s) v |>).
Proof.
  intros Hc. core_step Hc; unfold clear_bits; rewrite Z.ldiff_spec.
  - by intros [? _]%andb_true_iff; auto.
  - apply andb_false_iff. by left.
Qed.

Lemma write_tcr_safe s value :
  lpspi_core s -> is_u 32 value -> supported (num_cs_lines s) value = true ->
  exists s', write_tcr s value = Ok s' /\ lpspi_core s' /\ num_cs_lines s' = num_cs_lines s.
Proof.
  intros Hc Hv Hs. pose proof (core_tcr s value Hc Hv Hs) as Ht. unfold write_tcr.
  change (num_cs_lines s) with
    (num_cs_lines (s <| lpspi_tcr := value |> <| frame_size := tcr_frame_size value |>
                <| continuous_mode := has value (Z.lor TCR_CONT TCR_CONTC) |>)).
  generalize dependent (s <| lpspi_tcr := value |> <| frame_size := tcr_frame_size value |>
                <| continuous_mode := has value (Z.lor TCR_CONT TCR_CONTC) |>). intros s1 H1.
  destruct (flush_safe s1 H1) as (s2 & Hflush & H2 & Hn).
  destruct (clock_config_ok s1) as [r1 Hk1], (clock_config_ok s2) as [r2 Hk2].
  destruct (has (lpspi_cr s1) LPSPI_CR_MEN), (negb (fifo8_is_empty (tx_fifo s1)));
    rewrite ?Hflush; cbn [res_bind]; rewrite ?Hk1, ?Hk2; cbn [res_bind]; eauto.
Qed.

Lemma push_frame_ok s v :
  lpspi_core s -> tcr_frame_bytes (lpspi_tcr s) <= capacity (tx_fifo s) - num (tx_fifo s) ->
  exists f, push_tx_word s (tcr_frame_bytes (lpspi_tcr s)) v = Ok f /\ lpspi_core (s <| tx_fifo := f |>) /\
    contents f = contents (tx_fifo s) ++ bytes_of (lsbf s) (frame_len s) v.
Proof.
  intros Hc Hfree. pose proof (core_frame s Hc).
  destruct (push_tx_word_ok s (frame_len s) v) as (f & Hp & Hw & Hcont & Hcap);
    [apply Hc|unfold frame_len; lia|].
  unfold frame_len in Hp. rewrite Z2Nat.id in Hp by lia.
  exists f. split; [done|]. split; [by apply core_tx|done].
Qed.

Lemma write_tdr_safe s v :
  lpspi_core s -> exists early s', write_tdr s v = Ok (early, s') /\ lpspi_core s' /\
    (early = true -> lpspi_ok s') /\ num_cs_lines s' = num_cs_lines s.
Proof.
  intros Hc. unfold write_tdr. destruct (has _ _); [|by exists false, s].
  rewrite (num_free_eq _ (ok_tx s Hc)).
  destruct (Z.ltb_spec (capacity (tx_fifo s) - num (tx_fifo s)) (tcr_frame_bytes (lpspi_tcr s))).
  - destruct (core_refresh_irq _ (core_tef s Hc)) as (s' & -> & Hs' & Hn). exists true, s'.
    cbn [res_bind]. split_and!; [done|apply Hs'|done|done].
  - destruct (push_frame_ok s v) as (f & -> & Hf & _); [done|lia|]. cbn [res_bind].
    destruct (flush_safe _ Hf) as (s' & -> & Hs' & Hn). by exists false, s'.
Qed.

(** ** Reset *)

(** What realize establishes and reset needs. *)
Record hw_ok s : Prop := {
  hw_bus : bus_ok (ssi s);
  hw_tx : wf (tx_fifo s);
  hw_tx_cap : capacity (tx_fifo s) = LPSPI_FIFO_BYTE_CAPACITY;
  hw_rx : wf (rx_fifo s);
  hw_rx_cap : capacity (rx_fifo s) = LPSPI_FIFO_BYTE_CAPACITY;
  hw_cs : Z.of_nat (length (cs_lines s)) = num_cs_lines s;
  hw_num_cs : 1 <= num_cs_lines s <= 4;
}.

Lemma core_hw s : lpspi_core s -> hw_ok s.
Proof. intros []. by constructor. Qed.

Lemma reset_cs_lines s (pre : list bool) (m : nat) :
  cs_lines s = pre ++ drop (length pre) (cs_lines s) ->
  length (cs_lines s) = (length pre + m)%nat ->
  res_fold (fun s i => set_cs_line s i true) s (seqZ (Z.of_nat (length pre)) (Z.of_nat m))
  = Ok (s <| cs_lines := pre ++ replicate m true |>).
Proof.
  revert s pre. induction m as [|m IH]; intros s pre Hpre Hlen.
  { rewrite seqZ_nil by lia. cbn [res_fold replicate]. rewrite app_nil_r. do 2 f_equal.
    rewrite drop_ge, app_nil_r in Hpre by lia. rewrite <- Hpre. by destruct s. }
  rewrite seqZ_cons by lia. cbn [res_fold]. unfold set_cs_line at 1. rewrite store_ok by lia.
  cbn [res_bind]. rewrite Nat2Z.id.
  assert (<[length pre := true]> (cs_lines s)
          = (pre ++ [true]) ++ drop (S (length pre)) (cs_lines s)) as ->.
  { rewrite Hpre at 1. rewrite insert_app_r_alt, Nat.sub_diag by lia.
    destruct (drop (length pre) (cs_lines s)) as [|x l] eqn:Hd.
    - apply (f_equal length) in Hd. rewrite length_drop in Hd. cbn in Hd. lia.
    - cbn [insert list_insert]. rewrite <- app_assoc. cbn [app]. do 2 f_equal.
      replace (S (length pre)) with (length pre + 1)%nat by lia.
      by rewrite <- drop_drop, Hd. }
  replace (Z.succ (Z.of_nat (length pre))) with (Z.of_nat (length (pre ++ [true])))
    by (rewrite length_app; cbn; lia).
  replace (Z.pred (Z.of_nat (S m))) with (Z.of_nat m) by lia.
  rewrite IH; rsimpl.
  - rcollapse. by rewrite <- app_assoc.
  - f_equal. rewrite drop_app_length. done.
  - rewrite !length_app, length_drop. cbn [length]. lia.
Qed.

(** The assignments of [nxps32k358_lpspi_do_reset], chip selects included. *)
Definition reset_state s : state :=
  mkLpspi (clk s) (ssi s) (irq s) (replicate (Z.to_nat (num_cs_lines s)) true)
    (fifo8_reset (tx_fifo s)) (fifo8_reset (rx_fifo s)) 0x04040007 0x00040404 0
    (Z.lor LPSPI_SR_TDF LPSPI_SR_TCF) 0 0 0 0 0 0 0 0 0x1F 0 LPSPI_RSR_RXEMPTY 0 false 0 0 32 false
    (input_clk s) (num_cs_lines s).

Lemma reset_state_core s : hw_ok s -> lpspi_core (reset_state s).
Proof.
  intros [Hb Ht Htc Hr Hrc Hl Hn].
  destruct (reset_ok _ Ht) as (? & _ & ?), (reset_ok _ Hr) as (? & _ & ?).
  unfold reset_state. constructor; unfold regs;
    cbn [ssi tx_fifo rx_fifo cs_lines num_cs_lines lpspi_tcr]; try done; try congruence.
  - rewrite length_replicate. lia.
  - repeat (apply List.Forall_cons; [by split; vm_compute|]). apply List.Forall_nil.
  - apply supported_iff. change (tcr_frame_bytes 31) with 4. change (tcr_pcs 31) with 0. lia.
Qed.

Lemma do_reset_eq s :
  hw_ok s -> nxps32k358_lpspi_do_reset s = Ok (refresh_irq (reset_state s)).
Proof.
  intros Hs. pose proof (reset_state_core s Hs) as Hc.
  destruct Hs as [_ _ _ _ _ Hl Hn]. unfold nxps32k358_lpspi_do_reset. rsimpl.
  pose proof (fun s' => reset_cs_lines s' [] (Z.to_nat (num_cs_lines s))) as Hfold.
  cbn [length app drop] in Hfold. rewrite Z2Nat.id in Hfold by lia.
  rewrite Hfold by (rsimpl; (done || lia)). cbn [res_bind].
  change (_ <| cs_lines := _ |>) with (reset_state s).
  destruct (clock_config_ok (reset_state s)) as [r ->]. by apply core_update_irq.
Qed.

Lemma reset_safe s :
  hw_ok s -> exists s', nxps32k358_lpspi_do_reset s = Ok s' /\ lpspi_ok s' /\
    num_cs_lines s' = num_cs_lines s.
Proof.
  intros Hs. eexists. split; [by apply do_reset_eq|]. split; [|done].
  by apply refresh_irq_ok, reset_state_core.
Qed.

Ltac irq_step :=
  match goal with |- context [lpspi_update_irq ?s1] => apply (core_refresh_irq s1) end.

Lemma write_safe s addr val :
  lpspi_ok s -> (decode addr = Some TCR -> supported (num_cs_lines s) (u32 val) = true) ->
  exists s', nxps32k358_lpspi_write s addr val = Ok s' /\ lpspi_ok s' /\
    num_cs_lines s' = num_cs_lines s.
Proof.
  intros [Hc Hset] Hsup. unfold nxps32k358_lpspi_write.
  assert (is_u 32 (u32 val)) as Hv by by apply u_range. revert Hsup Hv.
  generalize (u32 val) as v. intros v Hsup Hv.
  destruct (decode addr) as [r|]; [|by exists s].
  destruct r; try (by exists s);
    try (destruct (clock_config_ok (s <| lpspi_cfgr1 := v |>)) as [? ->]);
    try (destruct (clock_config_ok (s <| lpspi_ccr := v |>)) as [? ->]);
    try (destruct (clock_config_ok (s <| lpspi_ccr1 := v |>)) as [? ->]); cbn [res_bind];
    try (irq_step; by core_step Hc).
  - destruct (has v LPSPI_CR_RST); [by apply reset_safe, core_hw|].
    destruct (core_refresh_irq _ (core_write_cr s v Hc Hv)) as (s' & ? & ? & Hn).
    exists s'. split_and!; [done..|]. rewrite Hn. unfold write_cr. by repeat case_match.
  - irq_step. by apply core_sr_clear.
  - pose proof (core_fcr s v) as Hf. unfold write_fcr.
    rewrite core_update_status by by apply Hf. cbn [res_bind].
    irq_step. by apply refresh_core, Hf.
  - destruct (write_tcr_safe s v) as (s' & -> & Hs' & <-); [done|done|by apply Hsup|].
    by apply core_refresh_irq.
  - destruct (write_tdr_safe s val Hc) as (early & s' & -> & Hs' & He & <-). cbn [res_bind].
    destruct early; [eauto|by apply core_refresh_irq].
Qed.

(** Register reads. *)

Lemma read_loop_safe lsbf n idx ret fifo :
  wf fifo -> is_u 32 ret ->
  exists ret' fifo', read_rx_word lsbf n idx ret fifo = Ok (ret', fifo') /\ is_u 32 ret' /\
    wf fifo' /\ capacity fifo' = capacity fifo.
Proof.
  revert ret fifo. induction idx as [|i idx IH]; intros ret fifo Hw Hr; cbn [read_rx_word].
  { by exists ret, fifo. }
  destruct (fifo8_is_empty fifo) eqn:He; cbn [negb]; [by exists ret, fifo|].
  destruct (contents fifo) as [|b l] eqn:Hc.
  { apply is_empty_contents in Hc; [|done]. congruence. }
  destruct (pop_ok fifo Hw b l Hc) as (f1 & -> & Hw1 & _ & Hcap1). cbn [res_bind].
  destruct (IH (Z.lor ret (u32 (Z.shiftl b (byte_shift lsbf n i)))) f1)
    as (ret' & f2 & Hrun & ? & ? & ?); [done|auto with ints|].
  exists ret', f2. split_and!; (done || congruence).
Qed.

Lemma core_rdr s f v :
  lpspi_core s -> wf f -> capacity f = capacity (rx_fifo s) -> is_u 32 v ->
  lpspi_core (s <| rx_fifo := f |> <| lpspi_rdr := v |>).
Proof. intros Hc Hf Hcap Hv. rewrite (ok_rx_cap s Hc) in Hcap. core_step Hc. Qed.

Lemma read_rdr_safe s :
  lpspi_ok s -> exists v s', read_rdr s = Ok (v, s') /\ is_u 32 v /\ lpspi_ok s' /\
    num_cs_lines s' = num_cs_lines s.
Proof.
  intros Hok. pose proof Hok as [Hc _]. unfold read_rdr. destruct (_ <? _); [by exists 0, s|].
  destruct (read_loop_safe (has (lpspi_tcr s) TCR_LSBF) (tcr_frame_bytes (lpspi_tcr s))
    (seqZ 0 (tcr_frame_bytes (lpspi_tcr s))) 0 (rx_fifo s)) as (v & f & -> & Hv & Hw & Hcap);
    [apply Hc|done|]. cbn [res_bind].
  pose proof (core_rdr s f v Hc Hw Hcap Hv) as H1. rewrite core_update_status by done.
  eexists v, _. split; [done|]. split; [done|]. split; [by apply refresh_ok|done].
Qed.

Lemma read_safe s addr :
  lpspi_ok s -> exists v s', nxps32k358_lpspi_read s addr = Ok (v, s') /\ is_u 32 v /\ lpspi_ok s' /\
    num_cs_lines s' = num_cs_lines s.
Proof.
  intros [Hc _]. unfold nxps32k358_lpspi_read. rewrite core_update_status by done. cbn [res_bind].
  change (num_cs_lines s) with (num_cs_lines (refresh s)).
  pose proof (refresh_ok s Hc) as Hok. generalize dependent (refresh s). intros s1 Hok.
  assert (Forall (is_u 32) (regs s1)) as Hr by apply Hok. unfold regs in Hr.
  repeat (apply Forall_cons_1 in Hr as [? Hr]).
  destruct (decode addr) as [[]|]; try (eexists _, s1; done). by apply read_rdr_safe.
Qed.

End spec.
End LpspiSpec.
