(* ===== verification/LpspiProps.v ===== *)
(** * The LPSPI controller: properties

    [Module LpspiQueue]: the data path as a pair of bounded byte queues in front
    of a bus, and the simulation of that machine by the register interface.
    [Module LpspiProps]: the theorems on safety, transfers, interrupt and chip
    select, and on the guest inputs that bring the model down. *)

From S2P Require Import Prelude Words Fifo Ssi Lpspi LpspiSpec.
Import Fifo8 Lpspi LpspiSpec.

Module LpspiQueue.
Section queue.
Context {B : Type} `{SpiBus B}.
Abbreviation state := (NXPS32K358LPSPIState (B:=B)).
Implicit Types s : state.

(** ** The abstract machine *)

(** Frame length in bytes, byte order, receive mask, loopback. *)
Record spi_cfg := mkCfg { c_len : nat; c_lsbf : bool; c_rxmsk : bool; c_loop : bool }.

(** Bytes waiting to be sent, bytes waiting to be read, the bus, and whether a
    word was dropped for lack of room. *)
Record spi := mkSpi { q_tx : list Z; q_rx : list Z; q_bus : B; q_err : bool }.

Definition spi_move (c : spi_cfg) (q : spi) : spi :=
  if bool_decide (c_len c <= length (q_tx q))%nat &&
     (c_rxmsk c || bool_decide (length (q_rx q) + c_len c <= 16)%nat)
  then
    let w := word_of (c_lsbf c) (take (c_len c) (q_tx q)) in
    let '(r, bus) := if c_loop c then (w, q_bus q) else ssi_exchange (q_bus q) w in
    mkSpi (drop (c_len c) (q_tx q))
      (q_rx q ++ if c_rxmsk c then [] else bytes_of (c_lsbf c) (c_len c) r) bus (q_err q)
  else q.

Definition spi_put (c : spi_cfg) (q : spi) (v : Z) : spi :=
  if bool_decide (length (q_tx q) + c_len c <= 16)%nat
  then spi_move c (mkSpi (q_tx q ++ bytes_of (c_lsbf c) (c_len c) v) (q_rx q) (q_bus q) (q_err q))
  else mkSpi (q_tx q) (q_rx q) (q_bus q) true.

Definition spi_get (c : spi_cfg) (q : spi) : Z * spi :=
  (partial_word (c_lsbf c) (Z.of_nat (c_len c)) (take (c_len c) (q_rx q)),
   mkSpi (q_tx q) (drop (c_len c) (q_rx q)) (q_bus q) (q_err q)).

(** Complete words in each queue, as FSR reports them. *)
Definition spi_count (c : spi_cfg) (q : spi) : Z :=
  Z.lor (Z.shiftl (Z.of_nat (length (q_rx q) / c_len c)) 16) (Z.of_nat (length (q_tx q) / c_len c)).

Inductive data_op := PutWord (v : Z) | GetWord | GetCount.

Definition spi_exec (c : spi_cfg) (q : spi) (o : data_op) : list Z * spi :=
  match o with
  | PutWord v => ([], spi_put c q v)
  | GetWord => let '(v, q') := spi_get c q in ([v], q')
  | GetCount => ([spi_count c q], q)
  end.
Fixpoint spi_run (c : spi_cfg) (q : spi) (ops : list data_op) : list Z * spi :=
  match ops with
  | [] => ([], q)
  | o :: ops' =>
      let '(out, q1) := spi_exec c q o in
      let '(outs, q2) := spi_run c q1 ops' in (out ++ outs, q2)
  end.

(** The same operations through the registers TDR, RDR and FSR. *)
Definition dev_exec s (o : data_op) : res (list Z * state) :=
  match o with
  | PutWord v => let! s := nxps32k358_lpspi_write s 0x64 v in Ok ([], s)
  | GetWord => let! '(v, s) := nxps32k358_lpspi_read s 0x74 in Ok ([v], s)
  | GetCount => let! '(v, s) := nxps32k358_lpspi_read s 0x5C in Ok ([v], s)
  end.
Fixpoint dev_run s (ops : list data_op) : res (list Z * state) :=
  match ops with
  | [] => Ok ([], s)
  | o :: ops' =>
      let! '(out, s) := dev_exec s o in
      let! '(outs, s) := dev_run s ops' in Ok (out ++ outs, s)
  end.

Definition cfg_of s : spi_cfg := mkCfg (frame_len s) (lsbf s) (rxmsk s) (loopback s).
Definition spi_of s : spi :=
  mkSpi (contents (tx_fifo s)) (contents (rx_fifo s)) (ssi s) (Z.testbit (lpspi_sr s) 11).

(** ** Simulation *)

Lemma cfg_of_config s s' : config s' = config s -> cfg_of s' = cfg_of s.
Proof.
  intros (_ & Ht & _ & Hc & _)%config_eq. unfold cfg_of, frame_len, lsbf, rxmsk, loopback.
  by rewrite Ht, Hc.
Qed.

Lemma spi_of_refresh s : spi_of (refresh s) = spi_of s.
Proof. unfold spi_of, refresh. rsimpl. f_equal. by apply status_sr_other. Qed.
Lemma spi_of_refresh_irq s : spi_of (refresh_irq s) = spi_of s.
Proof. rewrite <- (spi_of_refresh s). by unfold spi_of, refresh_irq; rsimpl. Qed.
Lemma spi_of_complete s : spi_of (complete s) = spi_of s.
Proof.
  unfold complete, deassert_cs. destruct (_ && _); [|done].
  destruct (continuous s); unfold spi_of; rsimpl; f_equal; by mask_bits.
Qed.
Lemma spi_of_moved s txf rxf bus :
  spi_of (moved s txf rxf bus) = mkSpi (contents txf) (contents rxf) bus (Z.testbit (lpspi_sr s) 11).
Proof.
  unfold moved, assert_cs, spi_of. rsimpl. f_equal. destruct (_ || _); [|done]. rsimpl. by mask_bits.
Qed.

Lemma spi_of_transferred s txf rxf bus :
  spi_of (transferred s txf rxf bus)
  = mkSpi (contents txf) (contents rxf) bus (Z.testbit (lpspi_sr s) 11).
Proof.
  unfold transferred. by rewrite spi_of_refresh_irq, spi_of_complete, spi_of_refresh, spi_of_moved.
Qed.

Lemma ready_spec s :
  lpspi_core s ->
  ready s = bool_decide (frame_len s <= length (contents (tx_fifo s)))%nat &&
    (rxmsk s || bool_decide (length (contents (rx_fifo s)) + frame_len s <= 16)%nat).
Proof.
  intros Hc. pose proof (core_frame s Hc). unfold ready, frame_len.
  pose proof (length_contents _ (ok_tx s Hc)). pose proof (length_contents _ (ok_rx s Hc)).
  rewrite (ok_rx_cap s Hc). unfold LPSPI_FIFO_BYTE_CAPACITY, LPSPI_FIFO_WORD_DEPTH.
  f_equal; [|f_equal]; apply eq_bool_prop_intro; rewrite bool_decide_spec, Is_true_true, Z.leb_le; lia.
Qed.

Lemma flush_refines s :
  lpspi_core s ->
  exists s', lpspi_flush_txfifo s = Ok s' /\ lpspi_core s' /\ config s' = config s /\
    spi_of s' = spi_move (cfg_of s) (spi_of s).
Proof.
  intros Hc. unfold spi_move. cbn [c_len c_rxmsk c_lsbf c_loop cfg_of q_tx q_rx q_bus q_err spi_of].
  rewrite <- (ready_spec s Hc). destruct (ready s) eqn:Hr.
  - destruct (flush_ok s Hc Hr) as (txf & rxf & _ & Ht & _ & _ & Hx & _ & Hm & ->).
    eexists. split; [done|]. split; [by apply transferred_ok|]. split; [apply transferred_config|].
    rewrite spi_of_transferred, Ht, Hx. unfold answer, bus_after, exchange, next_frame.
    by destruct (if loopback s then _ else _).
  - rewrite flush_idle by done. by exists s.
Qed.

Lemma put_refines s v :
  lpspi_ok s -> has (lpspi_cr s) LPSPI_CR_MEN = true ->
  exists s', nxps32k358_lpspi_write s 0x64 v = Ok s' /\ lpspi_ok s' /\ config s' = config s /\
    spi_of s' = spi_put (cfg_of s) (spi_of s) v.
Proof.
  intros [Hc _] Hmen. unfold nxps32k358_lpspi_write. change (decode 0x64) with (Some TDR).
  cbn match. unfold write_tdr. rewrite Hmen, (num_free_eq _ (ok_tx s Hc)), (ok_tx_cap s Hc).
  pose proof (length_contents _ (ok_tx s Hc)) as Hl. pose proof (core_frame s Hc).
  unfold spi_put. cbn [q_tx spi_of c_len cfg_of]. unfold LPSPI_FIFO_BYTE_CAPACITY, LPSPI_FIFO_WORD_DEPTH.
  destruct (Z.ltb_spec (4 * 4 - num (tx_fifo s)) (tcr_frame_bytes (lpspi_tcr s))).
  - rewrite bool_decide_eq_false_2 by (unfold frame_len; lia).
    pose proof (core_tef s Hc) as Ht. rewrite core_update_irq by done. cbn [res_bind].
    eexists. split; [done|]. split; [by apply refresh_irq_ok|]. split; [done|].
    rewrite spi_of_refresh_irq. unfold spi_of. rsimpl. f_equal. by mask_bits.
  - rewrite bool_decide_eq_true_2 by (unfold frame_len; lia).
    destruct (push_frame_ok s v) as (f & -> & Hf & Hcont);
      [done|rewrite (ok_tx_cap s Hc); unfold LPSPI_FIFO_BYTE_CAPACITY, LPSPI_FIFO_WORD_DEPTH; lia|].
    cbn [res_bind]. destruct (flush_refines _ Hf) as (s' & -> & Hs' & Hcfg & Hspi). cbn [res_bind].
    rewrite core_update_irq by done. eexists. split; [done|]. split; [by apply refresh_irq_ok|].
    split; [by rewrite refresh_irq_config, Hcfg|].
    rewrite spi_of_refresh_irq, Hspi. unfold spi_of. rsimpl. by rewrite Hcont.
Qed.

Lemma get_refines s :
  lpspi_ok s ->
  exists v s', nxps32k358_lpspi_read s 0x74 = Ok (v, s') /\ lpspi_ok s' /\ config s' = config s /\
    spi_get (cfg_of s) (spi_of s) = (v, spi_of s').
Proof.
  intros [Hc _]. unfold nxps32k358_lpspi_read. rewrite core_update_status by done. cbn [res_bind].
  change (decode 0x74) with (Some RDR). cbn match.
  rewrite <- (spi_of_refresh s), <- (refresh_config s). change (cfg_of s) with (cfg_of (refresh s)).
  pose proof (refresh_ok s Hc) as Hok. clear Hc. generalize dependent (refresh s). clear s.
  intros s Hok. pose proof Hok as [Hc _]. pose proof (core_frame s Hc).
  unfold read_rdr, fifo8_num_used. pose proof (length_contents _ (ok_rx s Hc)) as Hl.
  destruct (Z.ltb_spec (num (rx_fifo s)) 1).
  - exists 0, s. split; [done|]. split; [done|]. split; [done|]. unfold spi_get, spi_of, partial_word.
    cbn [c_len c_lsbf cfg_of q_tx q_rx q_bus q_err].
    destruct (contents (rx_fifo s)); [|cbn in Hl; lia]. rewrite take_nil, drop_nil.
    cbn [rev le_word]. rewrite Z.shiftl_0_l. by destruct (lsbf s).
  - destruct (read_partial_ok (lsbf s) (tcr_frame_bytes (lpspi_tcr s)) (rx_fifo s))
      as (f & Hw & Hcf & Hcap & Hread); [lia|apply Hc|].
    fold (lsbf s). rewrite Hread. cbn [res_bind].
    destruct (read_loop_safe (lsbf s) (tcr_frame_bytes (lpspi_tcr s))
      (seqZ 0 (tcr_frame_bytes (lpspi_tcr s))) 0 (rx_fifo s)) as (v & f' & Hv & Hu & _ & _);
      [apply Hc|done|]. rewrite Hread in Hv. injection Hv as Hv _. rewrite <- Hv in Hu.
    pose proof (core_rdr s f _ Hc Hw Hcap Hu) as Hcore. rewrite core_update_status by done.
    eexists _, _. split; [done|]. split; [by apply refresh_ok|]. split; [done|].
    rewrite spi_of_refresh. unfold spi_get, spi_of. rsimpl. cbn [c_len c_lsbf cfg_of q_tx q_rx q_bus q_err].
    rewrite Hcf. unfold frame_len. by rewrite Z2Nat.id by lia.
Qed.

Lemma fsr_words s f :
  lpspi_core s -> wf f -> capacity f = LPSPI_FIFO_BYTE_CAPACITY ->
  u8 (num f / tcr_frame_bytes (lpspi_tcr s)) = Z.of_nat (length (contents f) / frame_len s).
Proof.
  intros Hc Hf Hcap. pose proof (core_frame s Hc).
  destruct (words_le f (tcr_frame_bytes (lpspi_tcr s)) Hf Hcap) as [-> _]; [lia|].
  rewrite Nat2Z.inj_div, (length_contents f Hf). unfold frame_len. by rewrite Z2Nat.id by lia.
Qed.

Lemma count_refines s :
  lpspi_ok s ->
  nxps32k358_lpspi_read s 0x5C = Ok (spi_count (cfg_of s) (spi_of s), refresh s).
Proof.
  intros [Hc _]. unfold nxps32k358_lpspi_read. rewrite core_update_status by done. cbn [res_bind].
  change (decode 0x5C) with (Some FSR). cbn match. do 2 f_equal.
  change (lpspi_fsr (refresh s)) with (status_fsr s). unfold status_fsr, rx_words, tx_words.
  by rewrite !fsr_words by (done || apply Hc).
Qed.

Lemma dev_exec_refines s o :
  lpspi_ok s -> has (lpspi_cr s) LPSPI_CR_MEN = true ->
  exists out s', dev_exec s o = Ok (out, s') /\ lpspi_ok s' /\ config s' = config s /\
    spi_exec (cfg_of s) (spi_of s) o = (out, spi_of s').
Proof.
  intros Hok Hmen. destruct o as [v| |]; cbn [dev_exec spi_exec].
  - destruct (put_refines s v Hok Hmen) as (s' & -> & ? & ? & <-). by exists [], s'.
  - destruct (get_refines s Hok) as (v & s' & -> & ? & ? & ->). by exists [v], s'.
  - rewrite count_refines by done. cbn [res_bind]. eexists _, (refresh s). split; [done|].
    split; [by apply refresh_ok; apply Hok|]. by rewrite spi_of_refresh.
Qed.


(** The machine with empty queues: one word out, one word back. *)
Lemma spi_put_idle c bus e v :
  (c_len c <= 16)%nat -> c_rxmsk c = false ->
  let w := u (8 * Z.of_nat (c_len c)) v in
  let x := if c_loop c then (w, bus) else ssi_exchange bus w in
  spi_put c (mkSpi [] [] bus e) v = mkSpi [] (bytes_of (c_lsbf c) (c_len c) x.1) x.2 e.
Proof.
  intros Hl Hm w x. unfold spi_put, spi_move. cbn [q_tx q_rx q_bus q_err length app].
  rewrite length_bytes_of, Hm, !bool_decide_eq_true_2 by lia. cbn [andb orb].
  rewrite take_ge, drop_ge, word_of_bytes_of by (rewrite length_bytes_of; lia).
  fold w x. by destruct x.
Qed.

Lemma spi_get_word c bus e r :
  spi_get c (mkSpi [] (bytes_of (c_lsbf c) (c_len c) r) bus e)
  = (u (8 * Z.of_nat (c_len c)) r, mkSpi [] [] bus e).
Proof.
  unfold spi_get. cbn [q_tx q_rx q_bus q_err].
  rewrite take_ge, drop_ge by (rewrite length_bytes_of; lia). f_equal.
  rewrite <- (length_bytes_of (c_lsbf c) (c_len c) r) at 1.
  by rewrite partial_word_full, word_of_bytes_of.
Qed.
End queue.
End LpspiQueue.

Module LpspiProps.
Import LpspiQueue.
Section props.
Context {B : Type} `{SpiBus B}.
Abbreviation state := (NXPS32K358LPSPIState (B:=B)).
Implicit Types s : state.

(** ** Guest accesses *)

Inductive access := RdReg (addr : Z) | WrReg (addr val : Z) | SysReset.

(** Software only issues transmit commands the controller supports. *)
Definition access_ok (ncs : Z) (a : access) : Prop :=
  match a with
  | WrReg addr val => decode addr = Some TCR -> supported ncs (u32 val) = true
  | _ => True
  end.

Definition guest_exec s (a : access) : res (list Z * state) :=
  match a with
  | RdReg addr => let! '(v, s) := nxps32k358_lpspi_read s addr in Ok ([v], s)
  | WrReg addr val => let! s := nxps32k358_lpspi_write s addr val in Ok ([], s)
  | SysReset => let! s := nxps32k358_lpspi_reset s in Ok ([], s)
  end.
Fixpoint guest_run s (accs : list access) : res (list Z * state) :=
  match accs with
  | [] => Ok ([], s)
  | a :: accs' =>
      let! '(out, s) := guest_exec s a in
      let! '(outs, s) := guest_run s accs' in Ok (out ++ outs, s)
  end.

Lemma guest_exec_safe s a :
  lpspi_ok s -> access_ok (num_cs_lines s) a ->
  exists out s', guest_exec s a = Ok (out, s') /\ lpspi_ok s' /\ Forall (is_u 32) out /\
    num_cs_lines s' = num_cs_lines s.
Proof.
  intros Hok Ha. destruct a as [addr|addr val|]; cbn [guest_exec].
  - destruct (read_safe s addr Hok) as (v & s' & -> & Hv & ? & ?).
    exists [v], s'. split; [done|]. split; [done|]. split; [by repeat constructor; apply Hv|done].
  - destruct (write_safe s addr val Hok Ha) as (s' & -> & ? & ?).
    exists [], s'. split; [done|]. split; [done|]. by split; [constructor|].
  - unfold nxps32k358_lpspi_reset.
    destruct (reset_safe s) as (s' & -> & ? & ?); [by apply core_hw, Hok|].
    exists [], s'. split; [done|]. split; [done|]. by split; [constructor|].
Qed.

Lemma guest_run_safe s accs :
  lpspi_ok s -> Forall (access_ok (num_cs_lines s)) accs ->
  exists outs s', guest_run s accs = Ok (outs, s') /\ lpspi_ok s' /\ Forall (is_u 32) outs.
Proof.
  revert s. induction accs as [|a accs IH]; intros s Hok Ha; cbn [guest_run].
  { by exists [], s. }
  apply Forall_cons_1 in Ha as [Ha Haccs].
  destruct (guest_exec_safe s a Hok Ha) as (out & s1 & -> & Hok1 & Hout & Hn). cbn [res_bind].
  destruct (IH s1) as (outs & s2 & -> & Hok2 & Houts); [done|by rewrite Hn|]. cbn [res_bind].
  exists (out ++ outs), s2. split; [done|]. split; [done|]. by apply Forall_app.
Qed.

Lemma realize_hw s connected tx_mem rx_mem s' :
  bus_ok (ssi s) -> length tx_mem = 16%nat -> length rx_mem = 16%nat ->
  Forall (is_u 8) tx_mem -> Forall (is_u 8) rx_mem ->
  nxps32k358_lpspi_realize s connected tx_mem rx_mem = inr s' ->
  hw_ok s' /\ num_cs_lines s' = num_cs_lines s.
Proof.
  intros Hb Htl Hrl Ht Hr. unfold nxps32k358_lpspi_realize. destruct connected; [|done].
  cbn [negb]. destruct (_ =? 0); [done|]. rsimpl.
  destruct (Z.ltb_spec (num_cs_lines s) 1), (Z.ltb_spec 4 (num_cs_lines s)); [done..|].
  cbn [orb]. intros [= <-].
  destruct (create_ok tx_mem LPSPI_FIFO_BYTE_CAPACITY (tx_fifo s)) as (? & _ & ?);
    [done|by rewrite Htl|done|].
  destruct (create_ok rx_mem LPSPI_FIFO_BYTE_CAPACITY (rx_fifo s)) as (? & _ & ?);
    [done|by rewrite Hrl|done|].
  split; [|done]. constructor; cbn; try done. rewrite length_replicate. lia.
Qed.

(** ** Transmit commands the model cannot execute *)

(** The [uint8_t] byte count of a frame wraps to zero. *)
Lemma frame_bytes_zero tcr :
  tcr_frame_bytes tcr = 0 <->
  2041 <= tcr_frame_size tcr <= 2048 \/ 4089 <= tcr_frame_size tcr <= 4096.
Proof.
  pose proof (frame_size_range tcr) as Hr. unfold tcr_frame_bytes, u. change (2 ^ 8) with 256.
  destruct (Z.ltb_spec 4 (((tcr_frame_size tcr + 7) / 8) mod 256));
    Z.to_euclidean_division_equations; lia.
Qed.

(** A transfer of a zero-byte frame reaches the division of the status update. *)
Lemma flush_zero_frame s :
  wf (tx_fifo s) -> wf (rx_fifo s) -> tcr_frame_bytes (lpspi_tcr s) = 0 ->
  tcr_pcs (lpspi_tcr s) < Z.of_nat (length (cs_lines s)) ->
  lpspi_flush_txfifo s = Fault DivisionByZero.
Proof.
  intros Htx Hrx Hz Hp. pose proof (pcs_range (lpspi_tcr s)).
  unfold lpspi_flush_txfifo. rewrite flush_guard, Hz. unfold fifo8_num_used.
  rewrite (num_free_eq _ Hrx). destruct Htx as [_ _ _ Ht _], Hrx as [_ _ _ Hr _].
  destruct (Z.ltb_spec (num (tx_fifo s)) 0); [lia|].
  destruct (Z.ltb_spec (capacity (rx_fifo s) - num (rx_fifo s)) 0); [lia|]. rewrite andb_false_r.
  unfold set_cs_line. rewrite store_ok by lia.
  assert (forall s1 : state, lpspi_tcr s1 = lpspi_tcr s ->
    lpspi_update_status s1 = Fault DivisionByZero) as Hdiv
    by (intros s1 E; apply update_status_fault; by rewrite E).
  unfold build_tx_word, store_rx_word. rewrite (seqZ_nil 0 0) by lia. cbn [res_fold].
  destruct (_ || _); cbn [res_bind]; destruct (_ =? 1); destruct (negb (has _ TCR_RXMSK));
    try (destruct (ssi_exchange _ _)); cbn [res_bind]; by rewrite Hdiv.
Qed.

Lemma write_tcr_zero_frame s value :
  lpspi_core s -> tcr_frame_bytes value = 0 -> tcr_pcs value < num_cs_lines s ->
  (let! s := write_tcr s value in lpspi_update_irq s) = Fault DivisionByZero.
Proof.
  intros Hc Hz Hp. rewrite <- (ok_cs s Hc) in Hp. unfold write_tcr.
  set (s1 := s <| lpspi_tcr := value |> <| frame_size := _ |> <| continuous_mode := _ |>).
  assert (lpspi_flush_txfifo s1 = Fault DivisionByZero) as Hf
    by (apply flush_zero_frame; unfold s1; rsimpl; (done || apply Hc)).
  destruct (clock_config_ok s1) as [r Hk].
  assert ((let! s := (do! lpspi_update_clock_config s1 in Ok s1) in lpspi_update_irq s)
    = Fault DivisionByZero) as Hirq.
  { rewrite Hk. cbn [res_bind]. unfold lpspi_update_irq. by rewrite update_status_fault. }
  destruct (has (lpspi_cr s1) LPSPI_CR_MEN); [|exact Hirq].
  destruct (negb (fifo8_is_empty (tx_fifo s1))); [by rewrite Hf|exact Hirq].
Qed.

(** A chip select beyond [num_cs_lines] indexes past [cs_lines]. *)
Lemma flush_bad_pcs s :
  wf (rx_fifo s) -> tcr_frame_bytes (lpspi_tcr s) <= num (tx_fifo s) ->
  tcr_frame_bytes (lpspi_tcr s) <= capacity (rx_fifo s) - num (rx_fifo s) -> busy s = false ->
  Z.of_nat (length (cs_lines s)) <= tcr_pcs (lpspi_tcr s) ->
  lpspi_flush_txfifo s = Fault OutOfBounds.
Proof.
  intros Hrx Ht Hr Hb Hp. unfold lpspi_flush_txfifo. rewrite flush_guard, Hb. unfold fifo8_num_used.
  rewrite (num_free_eq _ Hrx).
  destruct (Z.ltb_spec (num (tx_fifo s)) (tcr_frame_bytes (lpspi_tcr s))); [lia|].
  destruct (Z.ltb_spec (capacity (rx_fifo s) - num (rx_fifo s)) (tcr_frame_bytes (lpspi_tcr s)));
    [lia|]. rewrite andb_false_r. cbn [negb orb].
  unfold set_cs_line. by rewrite store_oob.
Qed.

(** ** Interrupt *)

Lemma update_irq_level s s' : lpspi_update_irq s = Ok s' -> irq s' = irq_level s'.
Proof. intros (s1 & _ & [= <-])%res_bind_ok. done. Qed.

(** Registers a write changes. *)
Definition writable (r : reg) : bool :=
  match r with VERID | PARAM | FSR | RSR | RDR => false | _ => true end.

Lemma do_reset_irq_level s s' : nxps32k358_lpspi_do_reset s = Ok s' -> irq s' = irq_level s'.
Proof.
  unfold nxps32k358_lpspi_do_reset. intros (s1 & _ & (r & _ & Hs)%res_bind_ok)%res_bind_ok.
  by apply update_irq_level in Hs.
Qed.

Lemma write_tdr_early s v s' : write_tdr s v = Ok (true, s') -> irq s' = irq_level s'.
Proof.
  unfold write_tdr. destruct (has _ _); [|done]. destruct (_ <? _).
  - intros (s1 & Hs1%update_irq_level & [= <-])%res_bind_ok. done.
  - by intros (f & _ & (s1 & _ & [=])%res_bind_ok)%res_bind_ok.
Qed.


(** An enabled controller with empty FIFOs and no transfer under way. *)
Definition idle s : Prop :=
  has (lpspi_cr s) LPSPI_CR_MEN = true /\ contents (tx_fifo s) = [] /\
  contents (rx_fifo s) = [] /\ busy s = false.


(** One word out and one word back. *)
Lemma idle_put_get s v :
  lpspi_ok s -> idle s -> rxmsk s = false ->
  let w := 8 * tcr_frame_bytes (lpspi_tcr s) in
  let x := exchange s (u w v) in
  exists s1 s2, nxps32k358_lpspi_write s 0x64 v = Ok s1 /\ ssi s1 = x.2 /\
    nxps32k358_lpspi_read s1 0x74 = Ok (u w x.1, s2) /\
    contents (tx_fifo s2) = [] /\ contents (rx_fifo s2) = [].
Proof.
  intros Hok (Hmen & Htx & Hrx & _) Hm w x. pose proof (core_frame s (proj1 Hok)) as Hfr.
  destruct (put_refines s v Hok Hmen) as (s1 & Hput & Hok1 & Hcfg & Hspi).
  destruct (get_refines s1 Hok1) as (r & s2 & Hget & Hok2 & _ & Hspi2).
  rewrite (cfg_of_config s s1), Hspi in Hspi2 by done. revert Hspi Hspi2.
  assert (spi_of s = mkSpi [] [] (ssi s) (Z.testbit (lpspi_sr s) 11)) as ->
    by (unfold spi_of; by rewrite Htx, Hrx).
  rewrite spi_put_idle by (cbn; unfold frame_len; (done || lia)).
  cbn [c_len c_lsbf c_loop cfg_of]. unfold x, exchange, w, frame_len in *. rewrite Z2Nat.id by lia.
  intros Hspi Hspi2. rewrite (spi_get_word (cfg_of s)) in Hspi2.
  cbn [c_len cfg_of] in Hspi2. unfold frame_len in Hspi2. rewrite Z2Nat.id in Hspi2 by lia.
  injection Hspi2 as <- Htx2 Hrx2 _ _. injection Hspi as _ _ Hbus _.
  by exists s1, s2.
Qed.

(** ** Theorems *)

(** C19: a realized and reset controller answers every sequence of register reads,
    register writes and resets without an abort or undefined behaviour, keeps
    its invariant and returns 32-bit values, as long as every transmit command
    has a non-empty frame and an existing chip select. *)
Theorem lpspi_access_safe s0 connected tx_mem rx_mem s accs :
  bus_ok (ssi s0) -> length tx_mem = 16%nat -> length rx_mem = 16%nat ->
  Forall (is_u 8) tx_mem -> Forall (is_u 8) rx_mem ->
  nxps32k358_lpspi_realize s0 connected tx_mem rx_mem = inr s ->
  Forall (access_ok (num_cs_lines s0)) accs ->
  exists outs s', guest_run s (SysReset :: accs) = Ok (outs, s') /\ lpspi_ok s' /\
    Forall (is_u 32) outs.
Proof.
  intros Hb Htl Hrl Ht Hr Hreal Ha.
  destruct (realize_hw s0 connected tx_mem rx_mem s) as [Hhw Hn]; [done..|].
  destruct (reset_safe s Hhw) as (s1 & Hs1 & Hok1 & Hn1).
  cbn [guest_run guest_exec]. unfold nxps32k358_lpspi_reset. rewrite Hs1. cbn [res_bind].
  destruct (guest_run_safe s1 accs Hok1) as (outs & s' & -> & ? & ?); [by rewrite Hn1, Hn|].
  by exists outs, s'.
Qed.

(** C11: through TDR, RDR and FSR the enabled controller is a pair of 16-byte
    queues in front of the bus: any sequence of data accesses returns what the
    abstract machine returns and leaves it in the corresponding state, dropped
    words (TEF) included.  A read of RDR takes one frame of one to four bytes, or what
    is there of it, and moves no data on the bus; the device description (Doc, section
    [nxps32k358_lpspi_read]) has it take four bytes, return 0 with fewer, and flush the
    transmit FIFO. *)
Theorem lpspi_refines_queues s ops :
  lpspi_ok s -> has (lpspi_cr s) LPSPI_CR_MEN = true ->
  exists outs s', dev_run s ops = Ok (outs, s') /\ lpspi_ok s' /\ config s' = config s /\
    spi_run (cfg_of s) (spi_of s) ops = (outs, spi_of s').
Proof.
  revert s. induction ops as [|o ops IH]; intros s Hok Hmen; [by exists [], s|].
  cbn [dev_run spi_run]. destruct (dev_exec_refines s o Hok Hmen) as (out & s1 & -> & Hok1 & Hcfg & ->).
  cbn [res_bind]. pose proof (config_eq _ _ Hcfg) as (_ & _ & Hcr & _).
  destruct (IH s1) as (outs & s2 & -> & Hok2 & Hcfg2 & Hrun); [done|by rewrite Hcr|].
  rewrite <- (cfg_of_config s s1) by done. rewrite Hrun. cbn [res_bind].
  exists (out ++ outs), s2. split; [done|]. split; [done|]. split; [congruence|done].
Qed.

(** C22: on an idle controller a word written to TDR is put on the wire once,
    truncated to the frame, in either byte order, and the next read of RDR
    returns the answer truncated to the frame; in loopback mode that is the
    word itself.  This holds for frames of one to four bytes; by the device description
    in Doc a read with fewer than four bytes in the FIFO would return 0. *)
Theorem lpspi_word_roundtrip s v :
  lpspi_ok s -> idle s -> rxmsk s = false ->
  let w := 8 * tcr_frame_bytes (lpspi_tcr s) in
  let '(r, bus') := exchange s (u w v) in
  exists s1 s2, nxps32k358_lpspi_write s 0x64 v = Ok s1 /\ ssi s1 = bus' /\
    nxps32k358_lpspi_read s1 0x74 = Ok (u w r, s2) /\
    contents (tx_fifo s2) = [] /\ contents (rx_fifo s2) = [].
Proof.
  intros Hok Hidle Hm w. pose proof (idle_put_get s v Hok Hidle Hm) as Hpg.
  cbv zeta in Hpg. fold w in Hpg.
  by destruct (exchange s (u w v)) as [r bus'].
Qed.

(** RDF after a status refresh. *)
Lemma refresh_rdf s :
  Z.testbit (lpspi_sr (refresh s)) 1 =
  if rx_watermark s <? rx_words s then 4 <=? num (rx_fifo s) else Z.testbit (lpspi_sr s) 1.
Proof.
  unfold refresh. rsimpl. unfold status_sr. change LPSPI_SR_RDF with (BIT 1).
  destruct (rx_watermark s <? rx_words s); [by rewrite flag_bit|]. destruct (tx_words s <=? tx_watermark s); [by rewrite flag_other|done].
Qed.
Lemma core_rx_words s : lpspi_core s -> rx_words s = num (rx_fifo s) / tcr_frame_bytes (lpspi_tcr s).
Proof.
  intros Hc. pose proof (core_frame s Hc). pose proof (wf_num _ (ok_rx s Hc)) as Hn. rewrite (ok_rx_cap s Hc) in Hn.
  change LPSPI_FIFO_BYTE_CAPACITY with 16 in Hn. unfold rx_words. apply u_small. unfold is_u. split; [apply Z.div_pos; lia|].
  apply Z.div_lt_upper_bound; lia.
Qed.

(** C35: what a read of the receive data register does to the receive interrupt, for
    every state with data.  The read takes one frame off the FIFO and never changes the
    interrupt line.  RDF follows the FIFO only while more words than the watermark are
    left: it is then set if four bytes are left and cleared otherwise, with the line
    still as it was; when the read brings the FIFO down to the watermark, RDF stays as
    it was before the read, set also when the FIFO is empty. *)
Theorem lpspi_rdf_after_read s :
  lpspi_ok s -> contents (rx_fifo s) <> [] ->
  let n := tcr_frame_bytes (lpspi_tcr s) in
  let before := Z.of_nat (length (contents (rx_fifo s))) in
  let left := Z.max 0 (before - n) in
  exists v s', nxps32k358_lpspi_read s 0x74 = Ok (v, s') /\ irq s' = irq s /\
    contents (rx_fifo s') = drop (Z.to_nat n) (contents (rx_fifo s)) /\
    has (lpspi_sr s') LPSPI_SR_RDF =
      if rx_watermark s <? left / n then 4 <=? left
      else if rx_watermark s <? before / n then 4 <=? before else has (lpspi_sr s) LPSPI_SR_RDF.
Proof.
  intros [Hc _] Hne n before left. pose proof (core_frame s Hc) as Hn. fold n in Hn. pose proof (length_contents _ (ok_rx s Hc)) as Hlen.
  unfold nxps32k358_lpspi_read. rewrite core_update_status by done. cbn [res_bind].
  change (decode 0x74) with (Some RDR). cbn iota. unfold read_rdr. change (rx_fifo (refresh s)) with (rx_fifo s).
  unfold fifo8_num_used. rewrite (proj2 (Z.ltb_ge (num (rx_fifo s)) 1)) by (destruct (contents (rx_fifo s)); [done|cbn [length] in Hlen; lia]).
  change (tcr_frame_bytes (lpspi_tcr (refresh s))) with n.
  destruct (read_partial_ok (has (lpspi_tcr (refresh s)) TCR_LSBF) n (rx_fifo s)) as (f & Wf & Cf & Capf & E); [lia|apply Hc|].
  destruct (read_loop_safe (has (lpspi_tcr (refresh s)) TCR_LSBF) n (seqZ 0 n) 0 (rx_fifo s)) as (v & f' & E' & Hv & _); [apply Hc|done|].
  assert (f' = f) as -> by congruence. rewrite E'. cbn [res_bind].
  pose proof (core_rdr (refresh s) f v (refresh_core s Hc) Wf Capf Hv) as H1. rewrite core_update_status by done.
  eexists v, _. split; [done|]. split; [done|]. split; [exact Cf|].
  change LPSPI_SR_RDF with (BIT 1). rewrite !has_BIT, refresh_rdf, core_rx_words by (done || lia). rsimpl. rewrite refresh_rdf, core_rx_words by done.
  pose proof (length_contents f Wf) as Hf. rewrite Cf, length_drop in Hf. subst before left. rewrite Hlen.
  replace (num f) with (Z.max 0 (num (rx_fifo s) - n)) by lia. done.
Qed.

(** After a write to any writable register the interrupt line is the
    TDF/RDF status masked by IER. *)
Theorem lpspi_irq_after_write s addr val r s' :
  decode addr = Some r -> writable r = true -> nxps32k358_lpspi_write s addr val = Ok s' ->
  irq s' = irq_level s'.
Proof.
  unfold nxps32k358_lpspi_write. intros -> Hr Hw.
  destruct r; try done; try (by apply update_irq_level in Hw);
    try (apply res_bind_ok in Hw as (? & Hpre & Hw)); try (by apply update_irq_level in Hw).
  - destruct (has _ _); [by apply do_reset_irq_level in Hw|by apply update_irq_level in Hw].
  - match type of Hpre with write_tdr _ _ = Ok ?x => destruct x as [[] s1] end.
    + injection Hw as <-. by apply write_tdr_early in Hpre.
    + by apply update_irq_level in Hw.
Qed.


(** Reset from any state of a realized controller puts the registers at their
    documented values, empties the FIFOs, lowers the interrupt and raises
    every (active-low) chip select. *)
Theorem lpspi_reset_values s :
  hw_ok s ->
  exists s', nxps32k358_lpspi_reset s = Ok s' /\ lpspi_ok s' /\
    regs s' = [0x04040007; 0x00040404; 0; 0x401; 0; 0; 0; 0; 0; 0; 0; 0; 0x1F; 0; 2; 0] /\
    contents (tx_fifo s') = [] /\ contents (rx_fifo s') = [] /\ irq s' = false /\
    cs_lines s' = replicate (Z.to_nat (num_cs_lines s)) true /\ busy s' = false.
Proof.
  intros Hhw. unfold nxps32k358_lpspi_reset. rewrite do_reset_eq by done.
  eexists. split; [done|]. split; [by apply refresh_irq_ok, reset_state_core|].
  destruct (reset_ok _ (hw_tx s Hhw)) as (_ & Ht & Htc), (reset_ok _ (hw_rx s Hhw)) as (_ & Hr & _).
  assert (fifo8_num_free (fifo8_reset (tx_fifo s)) = 16) as Hfree.
  { rewrite num_free_eq by (by apply reset_ok, Hhw). by rewrite Htc, (hw_tx_cap s Hhw). }
  assert (status_sr (reset_state s) = 0x401) as Hsr.
  { unfold status_sr. change (tx_fifo (reset_state s)) with (fifo8_reset (tx_fifo s)).
    rewrite Hfree. done. }
  split; [|split; [done|]; split; [done|]; split; [|done]].
  - unfold regs, refresh_irq, refresh. rsimpl. rewrite Hsr. done.
  - unfold refresh_irq, irq_level, refresh. rsimpl. rewrite Hsr. done.
Qed.

(** C34: a transmit command with a frame of 2041 to 2048 or 4089 to 4096 bits, all
    legal values of FRAMESZ, stops the emulator with a division by zero,
    whatever state the controller is in: the byte count is kept in a
    [uint8_t]. *)
Theorem lpspi_frame_size_fault s v :
  lpspi_ok s -> tcr_pcs (u32 v) < num_cs_lines s ->
  2041 <= tcr_frame_size (u32 v) <= 2048 \/ 4089 <= tcr_frame_size (u32 v) <= 4096 ->
  nxps32k358_lpspi_write s 0x60 v = Fault DivisionByZero.
Proof.
  intros [Hc _] Hp Hf%frame_bytes_zero. unfold nxps32k358_lpspi_write.
  change (decode 0x60) with (Some TCR). cbn match. by apply write_tcr_zero_frame.
Qed.

Lemma write_tcr_empty s v :
  contents (tx_fifo s) = [] -> wf (tx_fifo s) -> tcr_frame_bytes (u32 v) <> 0 ->
  nxps32k358_lpspi_write s 0x60 v
  = Ok (refresh_irq (s <| lpspi_tcr := u32 v |> <| frame_size := tcr_frame_size (u32 v) |>
          <| continuous_mode := has (u32 v) (Z.lor TCR_CONT TCR_CONTC) |>)).
Proof.
  intros He Hwf Hn. unfold nxps32k358_lpspi_write. change (decode 0x60) with (Some TCR). cbn match.
  unfold write_tcr. rsimpl. apply is_empty_contents in He; [|done]. rewrite He. cbn [negb].
  assert (forall (b : bool) (s1 : state), (if b then Ok s1 else Ok s1) = Ok s1) as Hif by by intros [].
  rewrite Hif. cbn [res_bind]. destruct (clock_config_ok (s <| lpspi_tcr := u32 v |>
    <| frame_size := tcr_frame_size (u32 v) |>
    <| continuous_mode := has (u32 v) (Z.lor TCR_CONT TCR_CONTC) |>)) as [r ->].
  cbn [res_bind]. by apply update_irq_eq.
Qed.

(** A transmit command that selects a chip select the board did not
    configure is accepted, and the next word written to TDR indexes past the
    end of the chip-select array. *)
Theorem lpspi_pcs_fault s v data :
  lpspi_ok s -> idle s -> tcr_frame_bytes (u32 v) <> 0 -> num_cs_lines s <= tcr_pcs (u32 v) ->
  exists s1, nxps32k358_lpspi_write s 0x60 v = Ok s1 /\
    nxps32k358_lpspi_write s1 0x64 data = Fault OutOfBounds.
Proof.
  intros [Hc _] (Hmen & Htx & Hrx & Hb) Hn Hp. eexists.
  split; [apply write_tcr_empty; [done|apply Hc|done]|].
  set (s1 := refresh_irq _). pose proof (frame_bytes_range (u32 v)) as Hr.
  assert (tx_fifo s1 = tx_fifo s /\ rx_fifo s1 = rx_fifo s /\ lpspi_tcr s1 = u32 v /\
    lpspi_cr s1 = lpspi_cr s /\ busy s1 = busy s /\ cs_lines s1 = cs_lines s)
    as (Et & Er & Ec & Ecr & Eb & El) by done. clearbody s1.
  pose proof (length_contents _ (ok_tx s Hc)) as Hlt. pose proof (length_contents _ (ok_rx s Hc)) as Hlr.
  rewrite Htx in Hlt. rewrite Hrx in Hlr. cbn [length] in Hlt, Hlr.
  unfold nxps32k358_lpspi_write. change (decode 0x64) with (Some TDR). cbn match. unfold write_tdr.
  rewrite Ecr, Hmen, Et, (num_free_eq _ (ok_tx s Hc)), (ok_tx_cap s Hc), Ec, <- Hlt.
  unfold LPSPI_FIFO_BYTE_CAPACITY, LPSPI_FIFO_WORD_DEPTH.
  destruct (Z.ltb_spec (4 * 4 - Z.of_nat 0) (tcr_frame_bytes (u32 v))); [lia|].
  destruct (push_tx_word_ok s1 (Z.to_nat (tcr_frame_bytes (u32 v))) data) as (f & Hf & Hw & Hcf & _);
    [rewrite Et; apply Hc|rewrite Et, (ok_tx_cap s Hc);
       unfold LPSPI_FIFO_BYTE_CAPACITY, LPSPI_FIFO_WORD_DEPTH; lia|].
  rewrite Z2Nat.id in Hf by lia. rewrite Hf. cbn [res_bind].
  pose proof (length_contents _ Hw) as Hlf. rewrite Hcf, length_app, length_bytes_of, Et, Htx in Hlf.
  cbn [length] in Hlf.
  rewrite flush_bad_pcs; rsimpl; rewrite ?Ec, ?Er, ?El, ?Eb, ?(ok_cs s Hc), ?(ok_rx_cap s Hc);
    try done; try (apply Hc); unfold LPSPI_FIFO_BYTE_CAPACITY, LPSPI_FIFO_WORD_DEPTH; lia.
Qed.
End props.

(** ** The motor speed sensor behind the controller *)

(** With one motor sensor on the bus and 8-bit frames, writing 0xAA to TDR
    and reading RDR is a speed measurement: software reads the speed the sensor
    drew, a value between 0 and 254. *)
Theorem lpspi_motor_speed {W} `{MotorSpeed.RandLib W}
    (s : NXPS32K358LPSPIState (B:=MotorSpeed.MotorBus (W:=W))) p w :
  lpspi_ok s -> idle s -> rxmsk s = false -> loopback s = false ->
  tcr_frame_bytes (lpspi_tcr s) = 1 -> ssi s = ([p], w) ->
  let speed := (MotorSpeed.rand w).1 mod 255 in
  0 <= speed <= 254 /\
  exists s1 s2, nxps32k358_lpspi_write s 0x64 MotorSpeed.CMD_GET_SPEED = Ok s1 /\
    nxps32k358_lpspi_read s1 0x74 = Ok (speed, s2).
Proof.
  intros Hok Hidle Hm Hlb Hn Hbus speed.
  assert (0 <= speed <= 254) as Hs by (pose proof (Z.mod_pos_bound (MotorSpeed.rand w).1 255); lia).
  split; [done|].
  destruct (idle_put_get s MotorSpeed.CMD_GET_SPEED Hok Hidle Hm) as (s1 & s2 & Hput & _ & Hget & _).
  exists s1, s2. split; [done|]. rewrite Hget. do 2 f_equal.
  assert (MotorSpeed.motor_child p) as Hp.
  { pose proof (ok_bus s (proj1 Hok)) as Hb. rewrite Hbus in Hb. by apply Forall_cons_1 in Hb as [? _]. }
  unfold exchange. rewrite Hlb, Hn, Hbus, MotorProps.exchange_one by done.
  change (u (8 * 1) MotorSpeed.CMD_GET_SPEED) with MotorSpeed.CMD_GET_SPEED.
  unfold MotorSpeed.motor_speed_sensor_transfer. rewrite Z.eqb_refl, MotorProps.draw_speed.
  cbn [fst]. rsimpl. apply u_small. unfold is_u. lia.
Qed.

(** ** Concrete controllers *)

Section demo.
Context {B : Type} `{SpiBus B} (b : B).

Definition no_fifo : Fifo8 := mkFifo8 [] 0 0 0.
Definition demo_mem : list Z := replicate 16 0.
(** Device memory before realize: one chip select, an 80 MHz clock. *)
Definition demo_init : NXPS32K358LPSPIState :=
  mkLpspi 80000000 b false [] no_fifo no_fifo 0 0 0 0 0 0 0 0 0 0 0 0 0 0 0 0 false 0 0 0 false 0 1.
Definition demo_hw : NXPS32K358LPSPIState :=
  match nxps32k358_lpspi_realize demo_init true demo_mem demo_mem with
  | inr s => s
  | inl _ => demo_init
  end.
Definition demo_reset : NXPS32K358LPSPIState := refresh_irq (reset_state demo_hw).
(** Enabled with 32-bit frames, and with 8-bit frames. *)
Definition demo_on : NXPS32K358LPSPIState := refresh_irq (write_cr demo_reset 1).
Definition demo_8 : NXPS32K358LPSPIState :=
  refresh_irq (demo_on <| lpspi_tcr := 7 |> <| frame_size := 8 |> <| continuous_mode := false |>).

Lemma demo_hw_ok : bus_ok b -> hw_ok demo_hw.
Proof.
  intros Hb. apply (realize_hw demo_init true demo_mem demo_mem); [done..|forall_bytes|forall_bytes|done].
Qed.
Lemma demo_on_ok : bus_ok b -> lpspi_ok demo_on.
Proof.
  intros Hb. apply refresh_irq_ok, core_write_cr; [|done].
  by apply refresh_irq_ok, reset_state_core, demo_hw_ok.
Qed.
Lemma demo_8_ok : bus_ok b -> lpspi_ok demo_8.
Proof. intros Hb. apply refresh_irq_ok, (core_tcr demo_on 7); [by apply demo_on_ok|done..]. Qed.
Lemma demo_on_idle : idle demo_on.
Proof. done. Qed.
Lemma demo_8_idle : idle demo_8.
Proof. done. Qed.
End demo.

(** A wire from MOSI to MISO in the place of the bus. *)
#[global] Instance wire_bus : SpiBus unit.
Proof. refine {| bus_ok _ := True; ssi_exchange b v := (v, b) |}; done. Defined.
Lemma wire_ok : bus_ok tt.
Proof. done. Qed.

Lemma lpspi_access_safe_witness :
  Forall (access_ok 1) [WrReg 0x10 1; WrReg 0x60 7; WrReg 0x64 0xAA; RdReg 0x74] /\
  exists outs s', guest_run (demo_hw tt)
    (SysReset :: [WrReg 0x10 1; WrReg 0x60 7; WrReg 0x64 0xAA; RdReg 0x74]) = Ok (outs, s') /\
    lpspi_ok s' /\ Forall (is_u 32) outs.
Proof.
  assert (Forall (access_ok 1) [WrReg 0x10 1; WrReg 0x60 7; WrReg 0x64 0xAA; RdReg 0x74]) as Ha
    by (repeat constructor; done).
  split; [done|].
  apply (lpspi_access_safe (demo_init tt) true demo_mem demo_mem (demo_hw tt)); try done; forall_bytes.
Defined.

Lemma lpspi_refines_queues_witness :
  lpspi_ok (demo_on tt) /\ has (lpspi_cr (demo_on tt)) LPSPI_CR_MEN = true /\
  exists outs s', dev_run (demo_on tt) [PutWord 0xAA; GetCount; GetWord] = Ok (outs, s') /\ lpspi_ok s' /\
    config s' = config (demo_on tt) /\
    spi_run (cfg_of (demo_on tt)) (spi_of (demo_on tt)) [PutWord 0xAA; GetCount; GetWord] = (outs, spi_of s').
Proof.
  split; [apply (demo_on_ok tt wire_ok)|]. split; [done|]. by apply (lpspi_refines_queues (demo_on tt)); [apply (demo_on_ok tt wire_ok)|].
Defined.

Lemma lpspi_word_roundtrip_witness :
  lpspi_ok (demo_on tt) /\ idle (demo_on tt) /\ rxmsk (demo_on tt) = false /\
  exists s1 s2, nxps32k358_lpspi_write (demo_on tt) 0x64 0x123456789 = Ok s1 /\ ssi s1 = tt /\
    nxps32k358_lpspi_read s1 0x74 = Ok (0x23456789, s2) /\
    contents (tx_fifo s2) = [] /\ contents (rx_fifo s2) = [].
Proof.
  split; [apply (demo_on_ok tt wire_ok)|]. split; [apply (demo_on_idle tt)|]. split; [done|].
  exact (lpspi_word_roundtrip (demo_on tt) 0x123456789 (demo_on_ok tt wire_ok) (demo_on_idle tt) eq_refl).
Defined.

Lemma lpspi_irq_after_write_witness :
  decode 0x18 = Some IER /\
  match nxps32k358_lpspi_write (demo_on tt) 0x18 1 with
  | Ok s' => irq s' = irq_level s' /\ irq s' = true
  | Fault _ => False
  end.
Proof.
  split; [done|]. pose proof (lpspi_irq_after_write (demo_on tt) 0x18 1 IER) as Hirq.
  destruct (nxps32k358_lpspi_write (demo_on tt) 0x18 1) as [s'|f] eqn:Hw.
  - split; [by apply Hirq|]. vm_compute in Hw. by injection Hw as <-.
  - by vm_compute in Hw.
Defined.


Lemma lpspi_reset_values_witness :
  hw_ok (demo_hw tt) /\ exists s', nxps32k358_lpspi_reset (demo_hw tt) = Ok s' /\ cs_lines s' = [true].
Proof.
  split; [apply (demo_hw_ok tt wire_ok)|].
  destruct (lpspi_reset_values (demo_hw tt) (demo_hw_ok tt wire_ok)) as (s' & Hs' & _ & _ & _ & _ & _ & Hcs & _).
  by exists s'.
Defined.

Lemma lpspi_frame_size_fault_witness :
  lpspi_ok (demo_on tt) /\ nxps32k358_lpspi_write (demo_on tt) 0x60 0x7FF = Fault DivisionByZero.
Proof.
  split; [apply (demo_on_ok tt wire_ok)|].
  apply lpspi_frame_size_fault; [apply (demo_on_ok tt wire_ok)|done|left; by vm_compute].
Defined.

Lemma lpspi_pcs_fault_witness :
  lpspi_ok (demo_on tt) /\ idle (demo_on tt) /\
  exists s1, nxps32k358_lpspi_write (demo_on tt) 0x60 0x0100001F = Ok s1 /\
    nxps32k358_lpspi_write s1 0x64 0xAA = Fault OutOfBounds.
Proof.
  split; [apply (demo_on_ok tt wire_ok)|]. split; [apply (demo_on_idle tt)|].
  by apply lpspi_pcs_fault; [apply (demo_on_ok tt wire_ok)|apply (demo_on_idle tt)|..].
Defined.

(** The bus of the SoC with its sensor. *)
Definition demo_sensor : SSI.SSIPeripheral MotorSpeed.MotorSpeedSensor Z :=
  SSI.mkPeripheral (MotorSpeed.mkSensor 0 0) (MotorSpeed.motor_speed_sensor_class 77777) false 0.
Definition demo_bus : MotorSpeed.MotorBus (W:=Z) := ([demo_sensor], 77777).
Lemma demo_bus_ok : bus_ok demo_bus.
Proof. repeat constructor; cbn; lia. Qed.

Lemma lpspi_motor_speed_witness :
  SSI.ssi_create_peripheral [] (MotorSpeed.motor_speed_sensor_class 77777)
    (MotorSpeed.mkSensor 0 0) 0 5 = Some demo_bus /\
  exists s1 s2, nxps32k358_lpspi_write (demo_8 demo_bus) 0x64 MotorSpeed.CMD_GET_SPEED = Ok s1 /\
    nxps32k358_lpspi_read s1 0x74 = Ok (1, s2).
Proof.
  split; [done|].
  refine (proj2 (lpspi_motor_speed (demo_8 demo_bus) demo_sensor 77777 _ _ _ _ _ _));
    [apply demo_8_ok, demo_bus_ok|apply demo_8_idle|done..].
Defined.

(** With 8-bit frames, RDF enabled and four bytes received, one read clears RDF and
    leaves the line high. *)
Definition four_accesses : list access := [WrReg 0x60 7; WrReg 0x18 2; WrReg 0x64 1; WrReg 0x64 2; WrReg 0x64 3; WrReg 0x64 4].
Definition four_received := match guest_run (demo_on tt) four_accesses with Ok (_, s) => s | Fault _ => demo_on tt end.
Lemma four_received_ok : lpspi_ok four_received.
Proof.
  destruct (guest_run_safe (demo_on tt) four_accesses) as (outs & s' & E & Hok & _); [apply (demo_on_ok tt wire_ok)|by repeat constructor|].
  unfold four_received. by rewrite E.
Qed.
Lemma lpspi_rdf_after_read_witness :
  irq four_received = true /\ exists v s', nxps32k358_lpspi_read four_received 0x74 = Ok (v, s') /\ irq s' = true /\ has (lpspi_sr s') LPSPI_SR_RDF = false.
Proof.
  split; [by vm_compute|]. destruct (lpspi_rdf_after_read four_received four_received_ok) as (v & s' & E & Hi & _ & Hr); [by vm_compute|].
  exists v, s'. split; [exact E|]. split; [rewrite Hi; by vm_compute|rewrite Hr; by vm_compute].
Defined.

End LpspiProps.
