(* ===== verification/Chardev.v ===== *)
(** * The character-device multiplexer

    [chardev/char-mux.c] ([Module Mux]) with the helpers it uses of
    [util/bitops.c]: the multiplexer behind [-serial mon:stdio], which feeds
    host input to the front end that has the focus, buffers what it does not
    accept, and interprets the escape sequences.  The state of the front ends
    is a store the multiplexer reads and updates through their callbacks
    ([Class Frontend]); bytes written to the host and calls into the rest of
    the emulator are logs. *)

From stdpp Require Import strings.
From S2P Require Import Prelude.

(** [QEMUChrEvent]. *)
Inductive QEMUChrEvent :=
  | CHR_EVENT_BREAK | CHR_EVENT_OPENED | CHR_EVENT_MUX_IN | CHR_EVENT_MUX_OUT | CHR_EVENT_CLOSED.

(** The callbacks a device registers with [qemu_chr_fe_set_handlers]. *)
Class Frontend (F : Type) := {
  chr_can_read : F -> Z;
  chr_read : F -> Z -> F;
  chr_event : F -> QEMUChrEvent -> F;
}.

Module Bitops.

Definition ULONG_MAX : Z := Z.ones 64.

(** Count of trailing zeros of a non-zero word. *)
Definition ctzl (w : Z) : Z := Z.log2 (Z.land w (- w)).

Definition BITS_PER_LONG : Z := 64.
Definition BIT_WORD (nr : Z) : Z := nr / BITS_PER_LONG.

(** [found_first], then [found_middle]: the last word, of which [size] bits count. *)
Definition found_first (tmp size result : Z) : Z :=
  let tmp := Z.land tmp (Z.shiftr ULONG_MAX (BITS_PER_LONG - size)) in
  if tmp =? 0 then result + size else result + ctzl tmp.
Definition found_first_zero (tmp size result : Z) : Z :=
  let tmp := Z.lor tmp (u64 (Z.shiftl ULONG_MAX size)) in
  if tmp =? ULONG_MAX then result + size else result + ctzl (Z.lxor tmp ULONG_MAX).

(** The loops over whole words; each step takes words off [size], which is the fuel.  The
    first one skips four words at a time and says whether it found a bit or where
    it stopped. *)
Fixpoint skip_four (fuel : nat) (addr : list Z) (p size result : Z) : res (Z + Z * Z * Z) :=
  match fuel with
  | O => Fault OutOfFuel
  | S fuel =>
      if 4 * BITS_PER_LONG <=? size then
        let! tmp := load addr p in
        let! d1 := load addr (p + 1) in
        let! d2 := load addr (p + 2) in
        let! d3 := load addr (p + 3) in
        if negb (tmp =? 0) then Ok (inl (result + ctzl tmp))
        else if negb (Z.lor (Z.lor d1 d2) d3 =? 0) then Ok (inr (p, size, result))
        else skip_four fuel addr (p + 4) (size - 4 * BITS_PER_LONG) (result + 4 * BITS_PER_LONG)
      else Ok (inr (p, size, result))
  end.
Fixpoint find_word (fuel : nat) (addr : list Z) (p size result : Z) : res Z :=
  match fuel with
  | O => Fault OutOfFuel
  | S fuel =>
      if BITS_PER_LONG <=? size then
        let! tmp := load addr p in
        if negb (tmp =? 0) then Ok (result + ctzl tmp)
        else find_word fuel addr (p + 1) (size - BITS_PER_LONG) (result + BITS_PER_LONG)
      else if size =? 0 then Ok result
      else let! tmp := load addr p in Ok (found_first tmp size result)
  end.
Definition scan_words (addr : list Z) (p size result : Z) : res Z :=
  let fuel := S (Z.to_nat size) in
  let! r := skip_four fuel addr p size result in
  match r with
  | inl bit => Ok bit
  | inr (p, size, result) => find_word fuel addr p size result
  end.
Definition find_next_bit (addr : list Z) (size offset : Z) : res Z :=
  let p := BIT_WORD offset in
  let result := Z.ldiff offset (BITS_PER_LONG - 1) in
  if size <=? offset then Ok size else
  let size := size - result in
  let offset := offset mod BITS_PER_LONG in
  if negb (offset =? 0) then
    let! tmp := load addr p in
    let tmp := Z.land tmp (u64 (Z.shiftl ULONG_MAX offset)) in
    if size <? BITS_PER_LONG then Ok (found_first tmp size result)
    else if negb (tmp =? 0) then Ok (result + ctzl tmp)
    else scan_words addr (p + 1) (size - BITS_PER_LONG) (result + BITS_PER_LONG)
  else scan_words addr p size result.

Fixpoint find_zero_word (fuel : nat) (addr : list Z) (p size result : Z) : res Z :=
  match fuel with
  | O => Fault OutOfFuel
  | S fuel =>
      if negb (Z.ldiff size (BITS_PER_LONG - 1) =? 0) then
        let! tmp := load addr p in
        if negb (tmp =? ULONG_MAX) then Ok (result + ctzl (Z.lxor tmp ULONG_MAX))
        else find_zero_word fuel addr (p + 1) (size - BITS_PER_LONG) (result + BITS_PER_LONG)
      else if size =? 0 then Ok result
      else let! tmp := load addr p in Ok (found_first_zero tmp size result)
  end.
Definition find_next_zero_bit (addr : list Z) (size offset : Z) : res Z :=
  let p := BIT_WORD offset in
  let result := Z.ldiff offset (BITS_PER_LONG - 1) in
  if size <=? offset then Ok size else
  let size := size - result in
  let offset := offset mod BITS_PER_LONG in
  if negb (offset =? 0) then
    let! tmp := load addr p in
    let tmp := Z.lor tmp (Z.shiftr ULONG_MAX (BITS_PER_LONG - offset)) in
    if size <? BITS_PER_LONG then Ok (found_first_zero tmp size result)
    else if negb (tmp =? ULONG_MAX) then Ok (result + ctzl (Z.lxor tmp ULONG_MAX))
    else find_zero_word (S (Z.to_nat size)) addr (p + 1) (size - BITS_PER_LONG) (result + BITS_PER_LONG)
  else find_zero_word (S (Z.to_nat size)) addr p size result.
End Bitops.

(** ** The first bit *)

Module BitopsProps.
Import Bitops.

Lemma odd_neg_land m : Z.odd m = true -> Z.land m (- m) = 1.
Proof.
  intros Hm. apply Z.bits_inj'. intros i Hi. rewrite Z.land_spec. destruct (Z.eq_dec i 0) as [->|Hne].
  { rewrite !Z.bit0_odd, Z.odd_opp, Hm. done. }
  replace (- m) with (Z.lnot (m - 1)) by (unfold Z.lnot; lia). rewrite Z.lnot_spec by lia.
  apply Z.odd_spec in Hm as [j ->]. replace (2 * j + 1 - 1) with (2 * j) by lia.
  replace i with (Z.succ (i - 1)) by lia. rewrite Z.testbit_odd_succ, Z.testbit_even_succ by lia.
  rewrite andb_negb_r. symmetry. change 1 with (2 * 0 + 1). rewrite Z.testbit_odd_succ by lia. apply Z.bits_0.
Qed.
(** A non-zero word is an odd number shifted. *)
Lemma lowest_bit w : 0 < w -> exists k m, 0 <= k /\ w = Z.shiftl m k /\ Z.odd m = true.
Proof.
  intros Hw. revert Hw. induction w as [w IH] using (well_founded_induction (Z.lt_wf 0)). intros Hw.
  destruct (Z.odd w) eqn:E; [by exists 0, w; rewrite Z.shiftl_0_r|].
  rewrite <- Z.negb_even in E. apply negb_false_iff, Z.even_spec in E as [j ->].
  destruct (IH j) as (k & m & Hk & -> & Hm); [lia..|]. exists (k + 1), m. split; [lia|]. split; [|done].
  rewrite !Z.shiftl_mul_pow2, Z.pow_add_r by lia. lia.
Qed.
Lemma ctzl_spec w : 0 < w -> 0 <= ctzl w /\ Z.testbit w (ctzl w) = true /\ forall j, j < ctzl w -> Z.testbit w j = false.
Proof.
  intros Hw. destruct (lowest_bit w Hw) as (k & m & Hk & -> & Hm). assert (ctzl (Z.shiftl m k) = k) as ->.
  { unfold ctzl. replace (- Z.shiftl m k) with (Z.shiftl (- m) k) by (rewrite !Z.shiftl_mul_pow2 by lia; lia).
    rewrite <- Z.shiftl_land, odd_neg_land, Z.shiftl_1_l by done. by apply Z.log2_pow2. }
  split; [done|]. split; [by rewrite Z.shiftl_spec, Z.sub_diag, Z.bit0_odd by lia|].
  intros j Hj. destruct (Z.le_gt_cases 0 j); [|by apply Z.testbit_neg_r]. rewrite Z.shiftl_spec by lia. apply Z.testbit_neg_r. lia.
Qed.
Lemma ctzl_lt w n : 0 < w < 2 ^ n -> ctzl w < n.
Proof.
  intros Hw. destruct (ctzl_spec w) as (H0 & Ht & _); [lia|]. destruct (Z.le_gt_cases n (ctzl w)); [|done].
  assert (0 <= n) by (destruct (Z.le_gt_cases 0 n); [done|]; rewrite Z.pow_neg_r in Hw; lia).
  rewrite (Z.bits_above_log2 w) in Ht; [done|lia|]. apply Z.log2_lt_pow2; [lia|]. eapply Z.lt_le_trans; [apply Hw|]. apply Z.pow_le_mono_r; lia.
Qed.

Lemma land_low_bits tmp n j : 0 <= n <= 64 -> 0 <= j -> Z.testbit (Z.land tmp (Z.shiftr ULONG_MAX (64 - n))) j = Z.testbit tmp j && (j <? n).
Proof.
  intros Hn Hj. rewrite Z.land_spec. f_equal. unfold ULONG_MAX. rewrite Z.shiftr_spec by lia.
  destruct (Z.ltb_spec j n); [by rewrite Z.ones_spec_low by lia|by rewrite Z.ones_spec_high by lia].
Qed.

(** Bit [i] of a bitmap, and the first set bit from [offset] on, or [size]. *)
Definition bit (addr : list Z) (i : Z) : bool := Z.testbit (addr !!! Z.to_nat (i / 64)) (i mod 64).
Record first_bit (addr : list Z) (size offset r : Z) : Prop := {
  fb_range : offset <= r <= size;
  fb_before i : offset <= i < r -> bit addr i = false;
  fb_at : r < size -> bit addr r = true;
}.

Section scan.
Context (addr : list Z) (N offset : Z) (Hw : Forall (is_u 64) addr) (HN : N <= 64 * Z.of_nat (length addr)).

Lemma load_bits p : 0 <= p -> 64 * p < N -> exists w, load addr p = Ok w /\ is_u 64 w /\ forall j, 0 <= j < 64 -> bit addr (64 * p + j) = Z.testbit w j.
Proof.
  intros Hp Hlt. destruct (lookup_lt_is_Some_2 addr (Z.to_nat p)) as [w E]; [lia|]. exists w. split; [by apply load_ok|].
  split; [by eapply Forall_lookup_1|]. intros j Hj. unfold bit. rewrite (Z.mul_comm 64), Z.div_add_l, Z.div_small, Z.add_0_r by lia.
  rewrite (list_lookup_total_correct _ _ _ E). f_equal. rewrite Z.add_comm, Z.mod_add, Z.mod_small by lia. done.
Qed.
(** The bits before [result] are clear. *)
Definition clear_to (result : Z) : Prop := forall i, offset <= i < result -> bit addr i = false.

(** [tmp] is the word at [p], with bits below [offset] cleared. *)
Lemma found_middle_first p tmp :
  clear_to (64 * p) -> 0 < tmp < 2 ^ 64 -> 64 * p + 64 <= N -> (forall j, 0 <= j < 64 -> offset <= 64 * p + j -> bit addr (64 * p + j) = Z.testbit tmp j) ->
  offset < 64 * p + 64 -> (forall j, 64 * p + j < offset -> Z.testbit tmp j = false) -> first_bit addr N offset (64 * p + ctzl tmp).
Proof.
  intros Hc Ht Hfit Hb Ho Hlow. destruct (ctzl_spec tmp) as (H0 & H1 & Hlt); [lia|]. pose proof (ctzl_lt tmp 64 ltac:(lia)) as H64.
  assert (offset <= 64 * p + ctzl tmp) as Hge by (destruct (Z.le_gt_cases offset (64 * p + ctzl tmp)); [done|]; by rewrite Hlow in H1).
  split; [lia| |].
  - intros i Hi. destruct (Z.lt_ge_cases i (64 * p)); [apply Hc; lia|]. replace i with (64 * p + (i - 64 * p)) by lia. rewrite Hb by lia. apply Hlt. lia.
  - intros _. by rewrite Hb by lia.
Qed.
Lemma found_first_first p tmp :
  clear_to (64 * p) -> 0 <= tmp -> 64 * p < N < 64 * p + 64 ->
  (forall j, 0 <= j < 64 -> offset <= 64 * p + j -> bit addr (64 * p + j) = Z.testbit tmp j) ->
  offset < N -> (forall j, 64 * p + j < offset -> Z.testbit tmp j = false) ->
  first_bit addr N offset (found_first tmp (N - 64 * p) (64 * p)).
Proof.
  intros Hc Ht Hfit Hb Ho Hlow. unfold found_first, BITS_PER_LONG. set (n := N - 64 * p). set (t := Z.land _ _).
  assert (forall j, 0 <= j -> Z.testbit t j = Z.testbit tmp j && (j <? n)) as Hbits by (intros j Hj; apply land_low_bits; lia).
  assert (0 <= t) as H0 by (apply Z.land_nonneg; by left). clearbody t. destruct (Z.eqb_spec t 0) as [->|Hne].
  - split; [lia| |lia]. intros i Hi. destruct (Z.lt_ge_cases i (64 * p)); [apply Hc; lia|]. replace i with (64 * p + (i - 64 * p)) by lia. rewrite Hb by lia.
    specialize (Hbits (i - 64 * p) ltac:(lia)). rewrite Z.bits_0 in Hbits. destruct (Z.ltb_spec (i - 64 * p) n); [|lia]. by rewrite andb_true_r in Hbits.
  - destruct (ctzl_spec t) as (G0 & G1 & Glt); [lia|]. rewrite Hbits in G1 by lia. apply andb_prop in G1 as [G1 Gn%Z.ltb_lt].
    assert (offset <= 64 * p + ctzl t) as Hge by (destruct (Z.le_gt_cases offset (64 * p + ctzl t)); [done|]; by rewrite Hlow in G1).
    split; [lia| |].
    + intros i Hi. destruct (Z.lt_ge_cases i (64 * p)); [apply Hc; lia|]. replace i with (64 * p + (i - 64 * p)) by lia. rewrite Hb by lia.
      specialize (Glt (i - 64 * p) ltac:(lia)). rewrite Hbits in Glt by lia. destruct (Z.ltb_spec (i - 64 * p) n); [|lia]. by rewrite andb_true_r in Glt.
    + intros _. by rewrite Hb by lia.
Qed.
Lemma clear_word p : clear_to (64 * p) -> (forall j, 0 <= j < 64 -> offset <= 64 * p + j -> bit addr (64 * p + j) = false) -> clear_to (64 * (p + 1)).
Proof.
  intros Hc Hz i Hi. destruct (Z.lt_ge_cases i (64 * p)); [apply Hc; lia|]. replace i with (64 * p + (i - 64 * p)) by lia. apply Hz; lia.
Qed.
Lemma clear_zero p : clear_to (64 * p) -> 0 <= p -> 64 * p < N -> load addr p = Ok 0 -> clear_to (64 * (p + 1)).
Proof.
  intros Hc Hp Hlt E. apply clear_word; [done|]. intros j Hj _. destruct (load_bits p Hp Hlt) as (w & E' & _ & Hb). rewrite E in E'. injection E' as <-.
  rewrite Hb by lia. apply Z.bits_0.
Qed.

(** The loops start at a word boundary not before [offset]. *)
Lemma find_word_first fuel p :
  0 <= p -> offset <= 64 * p <= N -> clear_to (64 * p) -> N - 64 * p < Z.of_nat fuel ->
  exists r, find_word fuel addr p (N - 64 * p) (64 * p) = Ok r /\ first_bit addr N offset r.
Proof.
  revert p. induction fuel as [|fuel IH]; intros p Hp Ho Hc Hf; [lia|]. cbn [find_word]. unfold BITS_PER_LONG.
  assert (forall w, load addr p = Ok w -> forall j, 64 * p + j < offset -> Z.testbit w j = false) as Hlow
    by (intros w _ j Hj; apply Z.testbit_neg_r; lia).
  destruct (Z.leb_spec 64 (N - 64 * p)).
  - destruct (load_bits p Hp ltac:(lia)) as (w & E & Hu & Hb). rewrite E. cbn [res_bind]. destruct (Z.eqb_spec w 0) as [->|Hne]; cbn [negb].
    + replace (N - 64 * p - 64) with (N - 64 * (p + 1)) by lia. replace (64 * p + 64) with (64 * (p + 1)) by lia.
      apply IH; [lia|lia|by apply clear_zero; [..|lia|]|lia].
    + eexists. split; [done|]. unfold is_u in Hu. apply found_middle_first; [done|lia|lia|auto|lia|by apply Hlow].
  - destruct (Z.eqb_spec (N - 64 * p) 0) as [Hz|Hne].
    + eexists. split; [done|]. split; [lia|done|lia].
    + destruct (load_bits p Hp ltac:(lia)) as (w & E & Hu & Hb). rewrite E. cbn [res_bind]. eexists. split; [done|].
      unfold is_u in Hu. apply found_first_first; [done|lia|lia|auto|lia|by apply Hlow].
Qed.
Lemma skip_four_first fuel p :
  0 <= p -> offset <= 64 * p <= N -> clear_to (64 * p) -> N - 64 * p < Z.of_nat fuel ->
  exists x, skip_four fuel addr p (N - 64 * p) (64 * p) = Ok x /\
    match x with
    | inl r => first_bit addr N offset r
    | inr (p', size, result) => 0 <= p' /\ offset <= 64 * p' <= N /\ clear_to (64 * p') /\ size = N - 64 * p' /\ result = 64 * p' /\ p <= p'
    end.
Proof.
  revert p. induction fuel as [|fuel IH]; intros p Hp Ho Hc Hf; [lia|]. cbn [skip_four]. unfold BITS_PER_LONG.
  destruct (Z.leb_spec (4 * 64) (N - 64 * p)); [|by eexists; split; [done|]].
  destruct (load_bits p Hp ltac:(lia)) as (w & E & Hu & Hb), (load_bits (p + 1) ltac:(lia) ltac:(lia)) as (d1 & E1 & Hu1 & _),
    (load_bits (p + 2) ltac:(lia) ltac:(lia)) as (d2 & E2 & Hu2 & _), (load_bits (p + 3) ltac:(lia) ltac:(lia)) as (d3 & E3 & Hu3 & _).
  rewrite E, E1, E2, E3. cbn [res_bind]. destruct (Z.eqb_spec w 0) as [->|Hne]; cbn [negb].
  - destruct (Z.eqb_spec (Z.lor (Z.lor d1 d2) d3) 0) as [Hz|]; cbn [negb]; [|by eexists; split; [done|]].
    apply Z.lor_eq_0_iff in Hz as [[-> ->]%Z.lor_eq_0_iff ->].
    replace (N - 64 * p - 4 * 64) with (N - 64 * (p + 4)) by lia. replace (64 * p + 4 * 64) with (64 * (p + 4)) by lia.
    destruct (IH (p + 4)) as (x & -> & Hx); [lia|lia| |lia|].
    + replace (p + 4) with (p + 1 + 1 + 1 + 1) by lia.
      do 3 (apply clear_zero; [|lia..|by rewrite <- ?Z.add_assoc]). by apply clear_zero; [..|lia|].
    + exists x. split; [done|]. destruct x as [|[[p' ?] ?]]; [done|]. destruct Hx as (? & ? & ? & ? & ? & ?). split_and!; done || lia.
  - eexists. split; [done|]. unfold is_u in Hu. apply found_middle_first; [done|lia|lia|auto|lia|intros j Hj; apply Z.testbit_neg_r; lia].
Qed.
Lemma scan_words_first p :
  0 <= p -> offset <= 64 * p <= N -> clear_to (64 * p) -> exists r, scan_words addr p (N - 64 * p) (64 * p) = Ok r /\ first_bit addr N offset r.
Proof.
  intros Hp Ho Hc. unfold scan_words. destruct (skip_four_first (S (Z.to_nat (N - 64 * p))) p Hp Ho Hc) as (x & -> & Hx); [lia|]. cbn [res_bind].
  destruct x as [r|[[p' ?] ?]]; [by exists r|]. destruct Hx as (? & ? & ? & -> & -> & ?). apply find_word_first; [done..|lia].
Qed.
(** The word [offset] is in, with the bits below [offset] masked out: [rest] scans on. *)
Lemma masked_word_first p t (rest : res Z) :
  offset = 64 * p + offset mod 64 -> offset < N -> is_u 64 t ->
  (forall j, 0 <= j < 64 -> Z.testbit t j = bit addr (64 * p + j) && (offset mod 64 <=? j)) ->
  (clear_to (64 * (p + 1)) -> offset <= 64 * (p + 1) <= N -> exists r, rest = Ok r /\ first_bit addr N offset r) ->
  exists r, (if N - 64 * p <? 64 then Ok (found_first t (N - 64 * p) (64 * p)) else if negb (t =? 0) then Ok (64 * p + ctzl t) else rest) = Ok r /\
    first_bit addr N offset r.
Proof.
  intros Hdm Ho Hu Ht Hrest. pose proof (Z.mod_pos_bound offset 64 ltac:(lia)) as Hm. set (m := offset mod 64) in *. unfold is_u in Hu.
  assert (clear_to (64 * p)) as Hc by (intros i Hi; lia).
  assert (forall j, 0 <= j < 64 -> offset <= 64 * p + j -> bit addr (64 * p + j) = Z.testbit t j) as Hbt.
  { intros j Hj Hge. rewrite Ht by lia. destruct (Z.leb_spec m j); [by rewrite andb_true_r|lia]. }
  assert (forall j, 64 * p + j < offset -> Z.testbit t j = false) as Hlow.
  { intros j Hj. destruct (Z.le_gt_cases 0 j); [|by apply Z.testbit_neg_r]. rewrite Ht by lia. destruct (Z.leb_spec m j); [lia|apply andb_false_r]. }
  destruct (Z.ltb_spec (N - 64 * p) 64); [eexists; split; [done|]; apply found_first_first; done || lia|].
  destruct (Z.eqb_spec t 0) as [->|Hne]; cbn [negb].
  - apply Hrest; [|lia]. apply clear_word; [done|]. intros j Hj Hge. rewrite Hbt by done. apply Z.bits_0.
  - eexists. split; [done|]. apply found_middle_first; done || lia.
Qed.
End scan.

Lemma ldiff_63 n : Z.ldiff n (BITS_PER_LONG - 1) = 64 * (n / 64).
Proof. change (BITS_PER_LONG - 1) with (Z.ones 6). rewrite Z.ldiff_ones_r, Z.shiftr_div_pow2, Z.shiftl_mul_pow2 by lia. change (2 ^ 6) with 64. lia. Qed.

(** [find_next_bit] finds the first set bit from [offset] on, or returns [size]: for
    bitmaps of any number of words, whichever of its loops finds it. *)
Theorem find_next_bit_first (addr : list Z) (size offset : Z) :
  Forall (is_u 64) addr -> 0 <= offset < size -> size <= 64 * Z.of_nat (length addr) ->
  exists r, find_next_bit addr size offset = Ok r /\ first_bit addr size offset r.
Proof.
  intros Hw Ho HN. unfold find_next_bit. rewrite ldiff_63. unfold BIT_WORD, BITS_PER_LONG. destruct (Z.leb_spec size offset); [lia|].
  pose proof (Z.div_mod offset 64 ltac:(lia)) as Hdm. pose proof (Z.mod_pos_bound offset 64 ltac:(lia)) as Hm.
  set (p := offset / 64) in *. assert (0 <= p) as Hp by (apply Z.div_pos; lia).
  destruct (Z.eqb_spec (offset mod 64) 0) as [Hz|Hnz]; cbn [negb]; [apply scan_words_first; done || lia || (intros i Hi; lia)|].
  destruct (load_bits addr size Hw HN p Hp ltac:(lia)) as (w & E & Hu & Hb). rewrite E. cbn [res_bind].
  apply masked_word_first; [done|lia|by apply is_u_land| |].
  - intros j Hj. unfold u64, u, ULONG_MAX. rewrite Z.land_spec, Z.mod_pow2_bits_low, Z.shiftl_spec, Hb by lia. f_equal.
    destruct (Z.leb_spec (offset mod 64) j); [by rewrite Z.ones_spec_low by lia|apply Z.testbit_neg_r; lia].
  - intros Hc Hr. replace (size - 64 * p - 64) with (size - 64 * (p + 1)) by lia. replace (64 * p + 64) with (64 * (p + 1)) by lia.
    apply scan_words_first; done || lia.
Qed.

(** A search for a clear bit is a search for a set bit of the complement. *)
Definition compl (w : Z) : Z := Z.lxor w ULONG_MAX.
Lemma compl_bit w j : 0 <= j < 64 -> Z.testbit (compl w) j = negb (Z.testbit w j).
Proof. intros Hj. unfold compl, ULONG_MAX. by rewrite Z.lxor_spec, Z.ones_spec_low, xorb_true_r by lia. Qed.
Lemma compl_u w : is_u 64 w -> is_u 64 (compl w).
Proof.
  rewrite !is_u_testbit by lia. intros [H0 Hw]. unfold compl, ULONG_MAX. split; [by apply Z.lxor_nonneg|].
  intros i Hi. by rewrite Z.lxor_spec, Hw, Z.ones_spec_high by lia.
Qed.
Lemma compl_0 w : (w =? ULONG_MAX) = (compl w =? 0).
Proof. apply eq_true_iff_eq. rewrite !Z.eqb_eq. unfold compl. by rewrite Z.lxor_eq_0_iff. Qed.
Lemma found_first_compl w size result : is_u 64 w -> 0 <= size < 64 -> found_first_zero w size result = found_first (compl w) size result.
Proof.
  intros Hw Hs. unfold found_first_zero, found_first. rewrite compl_0. fold (compl (Z.lor w (u64 (Z.shiftl ULONG_MAX size)))).
  enough (compl (Z.lor w (u64 (Z.shiftl ULONG_MAX size))) = Z.land (compl w) (Z.shiftr ULONG_MAX (BITS_PER_LONG - size))) as -> by done.
  assert (is_u 64 (Z.lor w (u64 (Z.shiftl ULONG_MAX size)))) as Hl by (apply is_u_lor; [lia|done|by apply u_range]).
  apply Z.bits_inj'. intros j Hj. rewrite land_low_bits by lia. destruct (Z.lt_ge_cases j 64) as [Hlt|Hge].
  - rewrite !compl_bit, Z.lor_spec by lia. unfold u64, u, ULONG_MAX. rewrite Z.mod_pow2_bits_low, Z.shiftl_spec by lia. rewrite negb_orb. f_equal.
    destruct (Z.ltb_spec j size); [by rewrite Z.testbit_neg_r by lia|by rewrite Z.ones_spec_low by lia].
  - apply compl_u, is_u_testbit in Hl as [_ Hl]; [|lia]. apply compl_u, is_u_testbit in Hw as [_ Hw]; [|lia]. by rewrite Hl, Hw by lia.
Qed.
Lemma load_compl addr p : load (compl <$> addr) p = (let! w := load addr p in Ok (compl w)).
Proof. unfold load. rewrite list_lookup_fmap. destruct (addr !! Z.to_nat p); [|done]. cbn. by destruct (0 <=? p). Qed.
Lemma find_zero_word_compl fuel addr p size result :
  Forall (is_u 64) addr -> 0 <= size -> find_zero_word fuel addr p size result = find_word fuel (compl <$> addr) p size result.
Proof.
  intros Hw. revert p size result. induction fuel as [|fuel IH]; intros p size result Hs; [done|]. cbn [find_zero_word find_word].
  rewrite ldiff_63, load_compl. pose proof (Z.div_mod size 64 ltac:(lia)). pose proof (Z.mod_pos_bound size 64 ltac:(lia)).
  unfold BITS_PER_LONG. destruct (Z.leb_spec 64 size), (Z.eqb_spec (64 * (size / 64)) 0); try lia; cbn [negb].
  - destruct (load addr p); [|done]. cbn [res_bind]. rewrite compl_0, IH by lia. done.
  - destruct (size =? 0); [done|]. destruct (load addr p) as [w|] eqn:E; [|done]. cbn [res_bind]. rewrite found_first_compl; [done| |lia].
    unfold load in E. destruct (addr !! Z.to_nat p) eqn:E'; [|done]. destruct (0 <=? p); [|done]. injection E as ->. by eapply Forall_lookup_1.
Qed.
Lemma bit_compl addr i : 0 <= i < 64 * Z.of_nat (length addr) -> bit (compl <$> addr) i = negb (bit addr i).
Proof.
  intros Hi. unfold bit. destruct (lookup_lt_is_Some_2 addr (Z.to_nat (i / 64))) as [w E].
  { pose proof (Z.div_lt_upper_bound i 64 (Z.of_nat (length addr)) ltac:(lia) ltac:(lia)). pose proof (Z.div_pos i 64 ltac:(lia) ltac:(lia)). lia. }
  rewrite (list_lookup_total_correct _ _ _ E), (list_lookup_total_correct _ _ (compl w)) by (by rewrite list_lookup_fmap, E).
  apply compl_bit, Z.mod_pos_bound. lia.
Qed.

(** [find_next_zero_bit] finds the first clear bit from [offset] on, or returns [size]. *)
Theorem find_next_zero_bit_first (addr : list Z) (size offset : Z) :
  Forall (is_u 64) addr -> 0 <= offset < size -> size <= 64 * Z.of_nat (length addr) ->
  exists r, find_next_zero_bit addr size offset = Ok r /\ first_bit (compl <$> addr) size offset r.
Proof.
  intros Hw Ho HN. unfold find_next_zero_bit. rewrite ldiff_63. unfold BIT_WORD, BITS_PER_LONG. destruct (Z.leb_spec size offset); [lia|].
  pose proof (Z.div_mod offset 64 ltac:(lia)) as Hdm. pose proof (Z.mod_pos_bound offset 64 ltac:(lia)) as Hm.
  set (p := offset / 64) in *. assert (0 <= p) as Hp by (apply Z.div_pos; lia).
  assert (Forall (is_u 64) (compl <$> addr)) as Hcw by (apply Forall_fmap; revert Hw; apply Forall_impl; intros w; apply compl_u).
  assert (size <= 64 * Z.of_nat (length (compl <$> addr))) as HcN by (by rewrite length_fmap).
  destruct (Z.eqb_spec (offset mod 64) 0) as [Hz|Hnz]; cbn [negb].
  { rewrite find_zero_word_compl by (done || lia). apply find_word_first; done || lia || (intros i Hi; lia). }
  destruct (load_bits addr size Hw HN p Hp ltac:(lia)) as (w & E & Hu & Hb). rewrite E. cbn [res_bind].
  set (t := Z.lor w _). assert (is_u 64 t) as Ht.
  { apply is_u_lor; [lia|done|]. apply is_u_testbit; [lia|]. unfold ULONG_MAX. split; [by apply Z.shiftr_nonneg|].
    intros i Hi. by rewrite Z.shiftr_spec, Z.ones_spec_high by lia. }
  rewrite compl_0. fold (compl t). destruct (masked_word_first (compl <$> addr) size offset p (compl t)
    (find_zero_word (S (Z.to_nat (size - 64 * p))) addr (p + 1) (size - 64 * p - 64) (64 * p + 64))) as (r & Hr & Hfb);
    [done|lia|by apply compl_u| | |].
  - intros j Hj. rewrite compl_bit, bit_compl, Hb by lia. unfold t, ULONG_MAX. rewrite Z.lor_spec, Z.shiftr_spec, negb_orb by lia. f_equal.
    destruct (Z.leb_spec (offset mod 64) j); [by rewrite Z.ones_spec_high by lia|by rewrite Z.ones_spec_low by lia].
  - intros Hc Hr. rewrite find_zero_word_compl by (done || lia).
    replace (size - 64 * p - 64) with (size - 64 * (p + 1)) by lia. replace (64 * p + 64) with (64 * (p + 1)) by lia.
    apply find_word_first; done || lia.
  - exists r. split; [|done]. rewrite <- Hr. destruct (Z.ltb_spec (size - 64 * p) 64); [|done]. by rewrite found_first_compl by (done || lia).
Qed.
End BitopsProps.

Module Mux.
Import Bitops.

Definition MAX_MUX : Z := 4.
Definition MUX_BUFFER_SIZE : Z := 32.
Definition MUX_BUFFER_MASK : Z := MUX_BUFFER_SIZE - 1.
(** Ctrl-a, the value of the variable unless [-echr] changes it. *)
Definition term_escape_char : Z := 0x01.

(** Effects outside the multiplexer. *)
Inductive host_call := Quit | CommitAll.

Record MuxChardev := mkMux {
  mux_bitset : Z;
  focus : Z;
  term_got_escape : bool;
  buffer : list (list Z);
  prod : list Z;
  cons : list Z;
  timestamps : bool;
  linestart : bool;
  timestamps_start : Z;
  chr_be : option Z;             (* [chr->be], the tag of the back end *)
  chr_out : list Z;              (* bytes written to [d->chr] *)
  host_calls : list host_call;
}.
#[global] Instance eta_MuxChardev : Eta MuxChardev := fun d =>
  mkMux (mux_bitset d) (focus d) (term_got_escape d) (buffer d) (prod d) (cons d) (timestamps d)
    (linestart d) (timestamps_start d) (chr_be d) (chr_out d) (host_calls d).

(** The bytes of a string literal. *)
Definition char_of (c : Ascii.ascii) : Z := Z.of_nat (Ascii.nat_of_ascii c).
Definition text (s : string) : list Z := char_of <$> String.list_ascii_of_string s.

(** ** Output *)

(** ["%0<w>d"] of a non-negative number. *)
Fixpoint digits (fuel : nat) (n : Z) : list Z :=
  match fuel with
  | O => []
  | S k => if n <? 10 then [48 + n] else digits k (n / 10) ++ [48 + n mod 10]
  end.
Definition print_padded (w : nat) (n : Z) : list Z :=
  let ds := digits 20 n in replicate (w - length ds) 48 ++ ds.

(** The time stamp of [mux_chr_write], at [ti] milliseconds. *)
Definition timestamp (ti : Z) : list Z :=
  let secs := ti / 1000 in
  [91] ++ print_padded 2 (secs / 3600) ++ [58] ++ print_padded 2 ((secs / 60) mod 60) ++ [58]
    ++ print_padded 2 (secs mod 60) ++ [46] ++ print_padded 3 (ti mod 1000) ++ [93; 32].

Section write.
(** [qemu_clock_get_ms(QEMU_CLOCK_REALTIME)], constant over one call. *)
Variable now : Z.

Definition mux_chr_write_byte (d : MuxChardev) (b : Z) : MuxChardev :=
  let d :=
    if linestart d then
      let d := if timestamps_start d =? -1 then d <| timestamps_start := now |> else d in
      d <| chr_out := chr_out d ++ timestamp (now - timestamps_start d) |> <| linestart := false |>
    else d in
  let d := d <| chr_out := chr_out d ++ [b] |> in
  if b =? 10 then d <| linestart := true |> else d.

Definition mux_chr_write (d : MuxChardev) (buf : list Z) : MuxChardev :=
  if negb (timestamps d) then d <| chr_out := chr_out d ++ buf |>
  else fold_left mux_chr_write_byte buf d.

Definition mux_help : list (list Z) :=
  (fun s => text s ++ [10; 13]) <$>
  ["% h    print this help"; "% x    exit emulator";
   "% s    save disk data back to file (if -snapshot)"; "% t    toggle console timestamps";
   "% b    send break (magic sysrq)"; "% c    switch between console and monitor";
   "% %  sends %"]%string.

Definition mux_print_help (d : MuxChardev) : MuxChardev :=
  let ebuf :=
    if (0 <? term_escape_char) && (term_escape_char <? 26)
    then text "C-" ++ [term_escape_char - 1 + 97] else text "Escape-Char" in
  let d := mux_chr_write d [10; 13] in
  fold_left (fun d line =>
    fold_left (fun d c => mux_chr_write d (if c =? 37 then ebuf else [c])) line d)
  mux_help d.
End write.

(** ** Input *)

Section input.
Context {F : Type} `{Frontend F}.
Variable now : Z.

(** [d->backends]: the front ends by tag. *)
Abbreviation store_of := (list (option F)).

Definition mux_chr_send_event (fes : store_of) (mux_nr : Z) (event : QEMUChrEvent) : res store_of :=
  let! be := load fes mux_nr in
  match be with
  | Some f => store fes mux_nr (Some (chr_event f event))
  | None => Ok fes
  end.

Definition mux_chr_be_event (d : MuxChardev) (fes : store_of) (event : QEMUChrEvent) : res store_of :=
  if negb (focus d =? -1) then mux_chr_send_event fes (focus d) event else Ok fes.

Definition mux_set_focus (d : MuxChardev) (fes : store_of) (focus' : Z)
    : res (MuxChardev * store_of) :=
  do! assert (has (mux_bitset d) (Z.shiftl 1 focus')) in
  let! fes :=
    (if negb (focus d =? -1) then mux_chr_send_event fes (focus d) CHR_EVENT_MUX_OUT else Ok fes) in
  let! be := load fes focus' in
  let d := d <| focus := focus' |> <| chr_be := (match be with Some _ => Some focus' | None => None end) |> in
  let! fes := mux_chr_send_event fes (focus d) CHR_EVENT_MUX_IN in
  Ok (d, fes).

(** The escape commands: the flag says whether the byte is data. *)
Definition mux_proc_byte (d : MuxChardev) (fes : store_of) (ch : Z)
    : res (bool * MuxChardev * store_of) :=
  if term_got_escape d then
    let d := d <| term_got_escape := false |> in
    if ch =? term_escape_char then Ok (true, d, fes)
    else if (ch =? 63) || (ch =? 104) (* ? h *) then Ok (false, mux_print_help now d, fes)
    else if ch =? 120 (* x *) then
      let d := mux_chr_write now d (text "QEMU: Terminated" ++ [10; 13]) in
      Ok (false, d <| host_calls := host_calls d ++ [Quit] |>, fes)
    else if ch =? 115 (* s *) then Ok (false, d <| host_calls := host_calls d ++ [CommitAll] |>, fes)
    else if ch =? 98 (* b *) then
      let! fes := mux_chr_be_event d fes CHR_EVENT_BREAK in Ok (false, d, fes)
    else if ch =? 99 (* c *) then
      do! assert (negb (mux_bitset d =? 0)) in
      let! bit := find_next_bit [mux_bitset d] MAX_MUX (focus d + 1) in
      let! bit := if MAX_MUX <=? bit then find_next_bit [mux_bitset d] MAX_MUX 0 else Ok bit in
      let! '(d, fes) := mux_set_focus d fes bit in
      Ok (false, d, fes)
    else if ch =? 116 (* t *) then
      Ok (false, d <| timestamps := negb (timestamps d) |> <| timestamps_start := -1 |>
                   <| linestart := false |>, fes)
    else Ok (false, d, fes)
  else if ch =? term_escape_char then Ok (false, d <| term_got_escape := true |>, fes)
  else Ok (true, d, fes).

(** The loop of [mux_chr_accept_input] for front end [m]. *)
Fixpoint accept_loop (fuel : nat) (m : Z) (d : MuxChardev) (fes : store_of)
    : res (MuxChardev * store_of) :=
  match fuel with
  | O => Ok (d, fes)
  | S k =>
      let! be := load fes m in
      let! p := load (prod d) m in
      let! c := load (cons d) m in
      match be with
      | Some f =>
          if negb (p =? c) && negb (chr_can_read f =? 0) then
            let! cons' := store (cons d) m (u32 (c + 1)) in
            let! row := load (buffer d) m in
            let! b := load row (Z.land c MUX_BUFFER_MASK) in
            let! fes' := store fes m (Some (chr_read f b)) in
            accept_loop k m (d <| cons := cons' |>) fes'
          else Ok (d, fes)
      | None => Ok (d, fes)
      end
  end.

(** The loop stops at the latest when [cons] has caught up with [prod]. *)
Definition mux_chr_accept_input (d : MuxChardev) (fes : store_of) : res (MuxChardev * store_of) :=
  let m := focus d in
  let! p := load (prod d) m in
  let! c := load (cons d) m in
  accept_loop (Z.to_nat (u32 (p - c))) m d fes.

Definition mux_chr_can_read (d : MuxChardev) (fes : store_of) : res Z :=
  let m := focus d in
  let! be := load fes m in
  let! p := load (prod d) m in
  let! c := load (cons d) m in
  if u32 (p - c) <? MUX_BUFFER_SIZE then Ok 1 else
  match be with Some f => Ok (chr_can_read f) | None => Ok 0 end.

(** [d->buffer[m][d->prod[m]++ & MUX_BUFFER_MASK] = b]. *)
Definition mux_buffer_byte (m : Z) (d : MuxChardev) (b : Z) : res MuxChardev :=
  let! p := load (prod d) m in
  let! prod' := store (prod d) m (u32 (p + 1)) in
  let! row := load (buffer d) m in
  let! row := store row (Z.land p MUX_BUFFER_MASK) b in
  let! buf := store (buffer d) m row in
  Ok (d <| buffer := buf |> <| prod := prod' |>).

(** One byte of [mux_chr_read], for the front end [m] that had the focus when
    the call started. *)
Definition mux_read_byte (m : Z) (d : MuxChardev) (fes : store_of) (b : Z)
    : res (MuxChardev * store_of) :=
  let! '(data, d, fes) := mux_proc_byte d fes b in
  if negb data then Ok (d, fes) else
  let! be := load fes m in
  let! p := load (prod d) m in
  let! c := load (cons d) m in
  match be with
  | Some f =>
      if (p =? c) && negb (chr_can_read f =? 0)
      then let! fes := store fes m (Some (chr_read f b)) in Ok (d, fes)
      else let! d := mux_buffer_byte m d b in Ok (d, fes)
  | None => let! d := mux_buffer_byte m d b in Ok (d, fes)
  end.

Definition mux_chr_read (d : MuxChardev) (fes : store_of) (buf : list Z)
    : res (MuxChardev * store_of) :=
  let m := focus d in
  let! '(d, fes) := mux_chr_accept_input d fes in
  res_fold (fun '(d, fes) b => mux_read_byte m d fes b) (d, fes) buf.

(** ** Front ends *)

Definition mux_chr_attach_frontend (d : MuxChardev) (fes : store_of) (b : F)
    : res (option (Z * MuxChardev * store_of)) :=
  let! bit := find_next_zero_bit [mux_bitset d] MAX_MUX 0 in
  if MAX_MUX <=? bit then Ok None else
  let! fes := store fes bit (Some b) in
  Ok (Some (bit, d <| mux_bitset := Z.lor (mux_bitset d) (Z.shiftl 1 bit) |>, fes)).

Definition mux_chr_detach_frontend (d : MuxChardev) (fes : store_of) (tag : Z)
    : res (bool * MuxChardev * store_of) :=
  if negb (has (mux_bitset d) (Z.shiftl 1 tag)) then Ok (false, d, fes) else
  let! fes := store fes tag None in
  Ok (true, d <| mux_bitset := Z.ldiff (mux_bitset d) (Z.shiftl 1 tag) |>, fes).

(** ** The buffer as a queue *)

Record mux_ok (d : MuxChardev) : Prop := {
  mux_focus : 0 <= focus d < MAX_MUX;
  mux_buffer : length (buffer d) = 4%nat /\ Forall (fun row => length row = 32%nat) (buffer d);
  mux_prod : length (prod d) = 4%nat /\ Forall (is_u 32) (prod d);
  mux_cons : length (cons d) = 4%nat /\ Forall (is_u 32) (cons d);
  mux_room : forall m p c, prod d !! m = Some p -> cons d !! m = Some c ->
    u32 (p - c) <= MUX_BUFFER_SIZE;
}.

(** Bytes waiting for front end [m]. *)
Definition row_pending (row : list Z) (p c : Z) : list Z :=
  take (Z.to_nat (u32 (p - c))) (ring (Z.to_nat (c mod 32)) row).
Definition pending (d : MuxChardev) (m : nat) : list Z :=
  match buffer d !! m, prod d !! m, cons d !! m with
  | Some row, Some p, Some c => row_pending row p c
  | _, _, _ => []
  end.

Lemma land_mask x : Z.land x MUX_BUFFER_MASK = x mod 32.
Proof. change MUX_BUFFER_MASK with (Z.ones 5). by rewrite Z.land_ones. Qed.

Lemma u32_sub_0 p c : is_u 32 p -> is_u 32 c -> u32 (p - c) = 0 <-> p = c.
Proof. unfold is_u, u. intros. split; [|intros ->; by rewrite Z.sub_diag].
  intros Hz. Z.to_euclidean_division_equations. lia.
Qed.

Lemma length_row_pending row p c :
  length row = 32%nat -> u32 (p - c) <= 32 -> Z.of_nat (length (row_pending row p c)) = u32 (p - c).
Proof.
  intros Hr Hn. unfold row_pending. rewrite length_take, length_ring.
  pose proof (u_range 32 (p - c)). unfold is_u in *. lia.
Qed.

(** Consuming and producing one byte. *)
Lemma row_pop row p c b q :
  length row = 32%nat -> is_u 32 p -> is_u 32 c -> u32 (p - c) <= 32 ->
  row_pending row p c = b :: q ->
  load row (Z.land c MUX_BUFFER_MASK) = Ok b /\ row_pending row p (u32 (c + 1)) = q /\
  u32 (p - u32 (c + 1)) = u32 (p - c) - 1.
Proof.
  intros Hr Hp Hc Hn Hq. pose proof (length_row_pending row p c Hr Hn) as Hl. rewrite Hq in Hl.
  cbn [length] in Hl. rewrite land_mask. pose proof (Z.mod_pos_bound c 32).
  assert (u32 (p - u32 (c + 1)) = u32 (p - c) - 1) as Hu.
  { unfold u, is_u in *. Z.to_euclidean_division_equations. lia. }
  split; [|split; [|done]].
  - apply load_ok; [lia|]. unfold row_pending in Hq.
    apply (f_equal (fun l => l !! 0%nat)) in Hq. cbn in Hq.
    rewrite lookup_take_lt in Hq by lia. unfold ring in Hq.
    by rewrite lookup_app_l, lookup_drop, Nat.add_0_r in Hq by (rewrite length_drop; lia).
  - unfold row_pending in *. rewrite Hu.
    assert ((u32 (c + 1)) mod 32 = (c mod 32 + 1) mod 32) as ->.
    { unfold u. change (2 ^ 32) with (134217728 * 32). Z.to_euclidean_division_equations. lia. }
    rewrite ring_index by lia. change (Z.to_nat 32) with 32%nat. rewrite <- Hr.
    rewrite ring_advance, take_app_le by (rewrite ?length_drop, ?length_ring; lia).
    rewrite take_drop_commute. change q with (drop 1 (b :: q)). rewrite <- Hq. f_equal. f_equal. lia.
Qed.

Lemma row_push row p c b :
  length row = 32%nat -> is_u 32 p -> is_u 32 c -> u32 (p - c) < 32 ->
  store row (Z.land p MUX_BUFFER_MASK) b = Ok (<[Z.to_nat (p mod 32) := b]> row) /\
  row_pending (<[Z.to_nat (p mod 32) := b]> row) (u32 (p + 1)) c = row_pending row p c ++ [b] /\
  u32 (u32 (p + 1) - c) = u32 (p - c) + 1.
Proof.
  intros Hr Hp Hc Hn. rewrite land_mask. pose proof (Z.mod_pos_bound p 32).
  pose proof (Z.mod_pos_bound c 32). pose proof (u_range 32 (p - c)) as Hu0.
  assert (u32 (u32 (p + 1) - c) = u32 (p - c) + 1) as Hu.
  { unfold u, is_u in *. Z.to_euclidean_division_equations. lia. }
  split; [apply store_ok; lia|]. split; [|done]. unfold row_pending. rewrite Hu.
  assert (p mod 32 = (c mod 32 + u32 (p - c)) mod 32) as ->.
  { unfold u. change (2 ^ 32) with (134217728 * 32). Z.to_euclidean_division_equations. lia. }
  unfold is_u in Hu0. rewrite ring_index by lia. change (Z.to_nat 32) with 32%nat. rewrite <- Hr.
  rewrite ring_insert by lia.
  replace (Z.to_nat (u32 (p - c) + 1)) with (S (Z.to_nat (u32 (p - c)))) by lia.
  erewrite take_S_r by (apply list_lookup_insert_eq; rewrite length_ring; lia).
  by rewrite take_insert_ge by lia.
Qed.

(** The cells of front end [m]. *)
Lemma mux_cells d (m : nat) :
  mux_ok d -> (m < 4)%nat ->
  exists row p c, buffer d !! m = Some row /\ prod d !! m = Some p /\ cons d !! m = Some c /\
    length row = 32%nat /\ is_u 32 p /\ is_u 32 c /\ u32 (p - c) <= 32 /\
    pending d m = row_pending row p c.
Proof.
  intros [_ [Hbl Hb] [Hpl Hp] [Hcl Hc] Hroom] Hm.
  destruct (lookup_lt_is_Some_2 (buffer d) m) as [row Hrow]; [lia|].
  destruct (lookup_lt_is_Some_2 (prod d) m) as [p Hpm]; [lia|].
  destruct (lookup_lt_is_Some_2 (cons d) m) as [c Hcm]; [lia|].
  exists row, p, c. unfold pending. rewrite Hrow, Hpm, Hcm.
  split_and!; try done.
  - by apply (Forall_lookup_1 _ _ _ _ Hb Hrow).
  - by apply (Forall_lookup_1 _ _ _ _ Hp Hpm).
  - by apply (Forall_lookup_1 _ _ _ _ Hc Hcm).
  - by apply (Hroom m).
Qed.

Lemma load_nat {A} (l : list A) (m : nat) x : l !! m = Some x -> load l (Z.of_nat m) = Ok x.
Proof. intros Hl. apply load_ok; [lia|by rewrite Nat2Z.id]. Qed.
Lemma store_nat {A} (l : list A) (m : nat) x :
  (m < length l)%nat -> store l (Z.of_nat m) x = Ok (<[m := x]> l).
Proof. intros Hl. rewrite store_ok by lia. by rewrite Nat2Z.id. Qed.

Lemma mux_ok_cons d m p c' :
  mux_ok d -> prod d !! m = Some p -> is_u 32 c' -> u32 (p - c') <= 32 ->
  mux_ok (d <| cons := <[m := c']> (cons d) |>).
Proof.
  intros [Hf Hb Hp [Hcl Hc] Hroom] Hm Hc' Hn. constructor; rsimpl; try done.
  - split; [by rewrite length_insert|by apply Forall_insert].
  - intros m' p' c2 Hp' Hc2. apply list_lookup_insert_Some in Hc2 as [(-> & <- & _)|[? Hc2]].
    + by rewrite Hm in Hp'; injection Hp' as <-.
    + by apply (Hroom m').
Qed.

Lemma mux_ok_push d m row p c b :
  mux_ok d -> buffer d !! m = Some row -> cons d !! m = Some c ->
  is_u 32 p -> length row = 32%nat -> u32 (u32 (p + 1) - c) <= 32 ->
  mux_ok (d <| buffer := <[m := <[Z.to_nat (p mod 32) := b]> row]> (buffer d) |>
            <| prod := <[m := u32 (p + 1)]> (prod d) |>).
Proof.
  intros [Hf [Hbl Hb] [Hpl Hp] Hcs Hroom] Hrow Hc Hp' Hl Hn. constructor; rsimpl; try done.
  - split; [by rewrite length_insert|]. apply Forall_insert; [done|by rewrite length_insert].
  - split; [by rewrite length_insert|]. apply Forall_insert; [done|by apply u_range].
  - intros m' p2 c2 Hp2 Hc2. apply list_lookup_insert_Some in Hp2 as [(-> & <- & _)|[? Hp2]].
    + by rewrite Hc in Hc2; injection Hc2 as <-.
    + by apply (Hroom m').
Qed.

(** What a front end takes of a queue of bytes, and what it leaves. *)
Fixpoint deliver (f : F) (q : list Z) : F * list Z :=
  match q with
  | [] => (f, [])
  | b :: q' => if chr_can_read f =? 0 then (f, q) else deliver (chr_read f b) q'
  end.

Lemma deliver_app f q1 q2 :
  deliver f (q1 ++ q2) =
    match (deliver f q1).2 with
    | [] => deliver (deliver f q1).1 q2
    | q => ((deliver f q1).1, q ++ q2)
    end.
Proof.
  revert f. induction q1 as [|b q1 IH]; intros f; cbn [app deliver fst snd]; [done|].
  destruct (chr_can_read f =? 0); [done|apply IH].
Qed.

Lemma deliver_stuck f q : (deliver f q).2 <> [] -> chr_can_read (deliver f q).1 = 0.
Proof.
  revert f. induction q as [|b q IH]; intros f; cbn [deliver]; [done|].
  destruct (Z.eqb_spec (chr_can_read f) 0); [done|apply IH].
Qed.

Lemma accept_loop_spec fuel (m : nat) d (fes : store_of) f :
  mux_ok d -> (m < 4)%nat -> length fes = 4%nat -> fes !! m = Some (Some f) ->
  (length (pending d m) <= fuel)%nat ->
  let '(f', q') := deliver f (pending d m) in
  exists cs, accept_loop fuel (Z.of_nat m) d fes = Ok (d <| cons := cs |>, <[m := Some f']> fes) /\
    mux_ok (d <| cons := cs |>) /\ pending (d <| cons := cs |>) m = q' /\
    (forall m', m' <> m -> cs !! m' = cons d !! m').
Proof.
  revert d fes f. induction fuel as [|fuel IH]; intros d fes f Hok Hm Hl Hf Hlen;
    destruct (mux_cells d m Hok Hm) as (row & p & c & Hrow & Hp & Hc & Hrl & Hpu & Hcu & Hn & Hpend).
  - destruct (pending d m) eqn:Hq; [|cbn in Hlen; lia]. cbn [deliver accept_loop].
    exists (cons d). rewrite list_insert_id by done. by destruct d.
  - cbn [accept_loop]. rewrite (load_nat _ _ _ Hf), (load_nat _ _ _ Hp), (load_nat _ _ _ Hc).
    cbn [res_bind]. pose proof (length_row_pending row p c Hrl Hn) as Hlp. rewrite <- Hpend in Hlp.
    pose proof (u32_sub_0 p c Hpu Hcu) as Heq.
    destruct (pending d m) as [|b q] eqn:Hq; cbn [length deliver] in *.
    { rewrite (proj2 (Z.eqb_eq p c)) by (apply Heq; lia). cbn [negb andb]. exists (cons d).
      rewrite list_insert_id by done. by destruct d. }
    rewrite (proj2 (Z.eqb_neq p c)) by (rewrite <- Heq; lia). cbn [negb andb].
    destruct (chr_can_read f =? 0); cbn [negb].
    { exists (cons d). rewrite list_insert_id by done. by destruct d. }
    destruct (row_pop row p c b q) as (Hload & Hq' & Hu); [done..|].
    rewrite store_nat, (load_nat _ _ _ Hrow) by (destruct Hok as [_ _ _ [-> _] _]; lia).
    cbn [res_bind]. rewrite Hload. cbn [res_bind]. rewrite store_nat by lia. cbn [res_bind].
    set (d1 := d <| cons := <[m := u32 (c + 1)]> (cons d) |>).
    assert (mux_ok d1) as Hok1 by (apply (mux_ok_cons d m p); [done..|by apply u_range|lia]).
    assert (pending d1 m = q) as Hpend1.
    { unfold pending, d1. rsimpl. rewrite Hrow, Hp, list_lookup_insert_eq; [done|].
      destruct Hok as [_ _ _ [-> _] _]; lia. }
    specialize (IH d1 (<[m := Some (chr_read f b)]> fes) (chr_read f b)). rewrite Hpend1 in IH.
    rewrite length_insert, list_lookup_insert_eq in IH by lia.
    destruct (deliver (chr_read f b) q) as [f' q'].
    destruct IH as (cs & -> & Hok' & Hpend' & Hcs); [done..|lia|]. exists cs.
    rewrite list_insert_insert_eq. unfold d1 in *. revert Hok' Hpend'. rcollapse. intros Hok' Hpend'.
    split; [done|]. split; [done|]. split; [done|].
    intros m' Hm'. rewrite Hcs by done. rsimpl. by rewrite list_lookup_insert_ne.
Qed.

Lemma mux_accept_spec d (fes : store_of) (m : nat) f :
  mux_ok d -> focus d = Z.of_nat m -> length fes = 4%nat -> fes !! m = Some (Some f) ->
  let '(f', q') := deliver f (pending d m) in
  exists cs, mux_chr_accept_input d fes = Ok (d <| cons := cs |>, <[m := Some f']> fes) /\
    mux_ok (d <| cons := cs |>) /\ pending (d <| cons := cs |>) m = q' /\
    (forall m', m' <> m -> cs !! m' = cons d !! m').
Proof.
  intros Hok Hfoc Hl Hf. pose proof (mux_focus d Hok) as Hfr. unfold MAX_MUX in Hfr.
  assert (m < 4)%nat as Hm by lia.
  destruct (mux_cells d m Hok Hm) as (row & p & c & Hrow & Hp & Hc & Hrl & Hpu & Hcu & Hn & Hpend).
  unfold mux_chr_accept_input. rewrite Hfoc, (load_nat _ _ _ Hp), (load_nat _ _ _ Hc). cbn [res_bind].
  pose proof (length_row_pending row p c Hrl Hn) as Hlp. rewrite <- Hpend in Hlp.
  apply accept_loop_spec; (done || lia).
Qed.

Lemma mux_buffer_spec d (m : nat) b :
  mux_ok d -> (m < 4)%nat -> (length (pending d m) < 32)%nat ->
  exists d', mux_buffer_byte (Z.of_nat m) d b = Ok d' /\ mux_ok d' /\
    pending d' m = pending d m ++ [b] /\ focus d' = focus d.
Proof.
  intros Hok Hm Hlt.
  destruct (mux_cells d m Hok Hm) as (row & p & c & Hrow & Hp & Hc & Hrl & Hpu & Hcu & Hn & Hpend).
  pose proof (length_row_pending row p c Hrl Hn) as Hlp. rewrite <- Hpend in Hlp.
  destruct (row_push row p c b) as (Hst & Hq & Hu); [done..|lia|].
  pose proof (mux_prod d Hok) as [Hpl _]. pose proof (mux_buffer d Hok) as [Hbl _].
  unfold mux_buffer_byte. rewrite (load_nat _ _ _ Hp). cbn [res_bind].
  rewrite store_nat, (load_nat _ _ _ Hrow) by lia. cbn [res_bind]. rewrite Hst. cbn [res_bind].
  rewrite store_nat by lia. eexists. split; [done|].
  split; [apply (mux_ok_push d m row p c); (done || lia)|]. split; [|done].
  rewrite Hpend, <- Hq. unfold pending. rsimpl.
  by rewrite !list_lookup_insert_eq, Hc by lia.
Qed.

Lemma deliver_length f q : (length (deliver f q).2 <= length q)%nat.
Proof.
  revert f. induction q as [|b q IH]; intros f; cbn [deliver length]; [done|].
  destruct (chr_can_read f =? 0); [done|]. specialize (IH (chr_read f b)). lia.
Qed.

(** When the host is told there is room, there is room after the front end has
    taken what it can. *)
Lemma can_read_room d (fes : store_of) (m : nat) f n :
  mux_ok d -> focus d = Z.of_nat m -> (m < 4)%nat -> fes !! m = Some (Some f) ->
  mux_chr_can_read d fes = Ok n -> n <> 0 -> (length (deliver f (pending d m)).2 < 32)%nat.
Proof.
  intros Hok Hfoc Hm Hf Hcan Hn0.
  destruct (mux_cells d m Hok Hm) as (row & p & c & Hrow & Hp & Hc & Hrl & Hpu & Hcu & Hn & Hpend).
  pose proof (length_row_pending row p c Hrl Hn) as Hlp. rewrite <- Hpend in Hlp.
  unfold mux_chr_can_read in Hcan. rewrite Hfoc, (load_nat _ _ _ Hf), (load_nat _ _ _ Hp),
    (load_nat _ _ _ Hc) in Hcan. cbn [res_bind] in Hcan. unfold MUX_BUFFER_SIZE in Hcan.
  pose proof (deliver_length f (pending d m)) as Hdl.
  destruct (Z.ltb_spec (u32 (p - c)) 32) as [?|Hfull]; [lia|].
  injection Hcan as <-. destruct (pending d m) as [|b q]; cbn [length deliver] in *; [lia|].
  destruct (Z.eqb_spec (chr_can_read f) 0); [done|]. pose proof (deliver_length (chr_read f b) q). lia.
Qed.

(** A data byte for a front end whose buffer has room. *)
Lemma read_byte_spec d (fes : store_of) (m : nat) f b :
  mux_ok d -> (m < 4)%nat -> length fes = 4%nat -> fes !! m = Some (Some f) ->
  term_got_escape d = false -> b <> term_escape_char -> (length (pending d m) < 32)%nat ->
  (pending d m <> [] -> chr_can_read f = 0) ->
  let '(f', q') := deliver f (pending d m ++ [b]) in
  exists d', mux_read_byte (Z.of_nat m) d fes b = Ok (d', <[m := Some f']> fes) /\ mux_ok d' /\
    pending d' m = q' /\ focus d' = focus d.
Proof.
  intros Hok Hm Hl Hf Hesc Hb Hroom Hstuck.
  destruct (mux_cells d m Hok Hm) as (row & p & c & Hrow & Hp & Hc & Hrl & Hpu & Hcu & Hn & Hpend).
  pose proof (length_row_pending row p c Hrl Hn) as Hlp. rewrite <- Hpend in Hlp.
  pose proof (u32_sub_0 p c Hpu Hcu) as Heq.
  unfold mux_read_byte, mux_proc_byte. apply Z.eqb_neq in Hb. rewrite Hesc, Hb. cbn [res_bind negb].
  rewrite (load_nat _ _ _ Hf), (load_nat _ _ _ Hp), (load_nat _ _ _ Hc). cbn [res_bind].
  destruct (mux_buffer_spec d m b Hok Hm Hroom) as (d' & Hbuf & Hok' & Hpend' & Hfoc').
  destruct (pending d m) as [|x q] eqn:Hq; cbn [app deliver length] in *.
  - rewrite (proj2 (Z.eqb_eq p c)) by (apply Heq; lia). cbn [andb].
    destruct (chr_can_read f =? 0); cbn [negb].
    + rewrite Hbuf. exists d'. rewrite list_insert_id by done. done.
    + rewrite store_nat by lia. by exists d.
  - rewrite Hstuck by done. cbn [Z.eqb negb]. rewrite andb_false_r, Hbuf. cbn [res_bind].
    exists d'. rewrite list_insert_id by done. done.
Qed.

(** ** Theorems *)

(** C23: whenever the multiplexer tells the host it can take a byte, the byte is
    neither lost nor reordered: front end and buffer end up as if the front end
    had been offered the buffered bytes followed by the new one, in order. *)
Theorem mux_input_fifo d (fes : store_of) (m : nat) f b n :
  mux_ok d -> focus d = Z.of_nat m -> length fes = 4%nat -> fes !! m = Some (Some f) ->
  term_got_escape d = false -> b <> term_escape_char ->
  mux_chr_can_read d fes = Ok n -> n <> 0 ->
  let '(f', q') := deliver f (pending d m ++ [b]) in
  exists d', mux_chr_read d fes [b] = Ok (d', <[m := Some f']> fes) /\ mux_ok d' /\
    pending d' m = q' /\ focus d' = focus d.
Proof.
  intros Hok Hfoc Hl Hf Hesc Hb Hcan Hn. pose proof (mux_focus d Hok) as Hfr. unfold MAX_MUX in Hfr.
  pose proof (mux_accept_spec d fes m f Hok Hfoc Hl Hf) as Hacc.
  pose proof (deliver_stuck f (pending d m)) as Hstuck.
  pose proof (can_read_room d fes m f n Hok Hfoc ltac:(lia) Hf Hcan Hn) as Hroom.
  unfold mux_chr_read. rewrite deliver_app.
  destruct (deliver f (pending d m)) as [f1 q1]. cbn [fst snd] in *.
  destruct Hacc as (cs & -> & Hok1 & Hq1 & _). cbn [res_bind res_fold]. rewrite Hfoc.
  set (d1 := d <| cons := cs |>) in *.
  pose proof (read_byte_spec d1 (<[m := Some f1]> fes) m f1 b) as Hrb. rewrite Hq1 in Hrb.
  rewrite length_insert, list_lookup_insert_eq in Hrb by lia.
  destruct q1 as [|x q1]; cbn [app] in *.
  - destruct (deliver f1 [b]) as [f' q'].
    destruct Hrb as (d' & -> & ? & ? & Hfoc'); [done || lia..|]. exists d'. cbn [res_bind].
    by rewrite list_insert_insert_eq, Hfoc'.
  - cbn [deliver] in Hrb. rewrite Hstuck in Hrb by done. cbn [Z.eqb] in Hrb.
    destruct Hrb as (d' & -> & ? & ? & Hfoc'); [done || lia..|]. exists d'. cbn [res_bind].
    by rewrite list_insert_insert_eq, Hfoc'.
Qed.

(** The next registered front end after [f], going round. *)
Definition next_frontend (bitset f : Z) : option Z :=
  List.find (Z.testbit bitset) [(f + 1) mod 4; (f + 2) mod 4; (f + 3) mod 4; f].

(** The two bitmap searches of the [c] command. *)
Definition switch_target (bitset f : Z) : res Z :=
  let! bit := find_next_bit [bitset] MAX_MUX (f + 1) in
  if MAX_MUX <=? bit then find_next_bit [bitset] MAX_MUX 0 else Ok bit.

Lemma switch_target_table :
  forallb (fun bitset => forallb (fun f =>
    match switch_target bitset f with
    | Ok t => bool_decide (next_frontend bitset f = Some t) && has bitset (Z.shiftl 1 t) && (0 <=? t) && (t <? 4)
    | Fault _ => false
    end) (seqZ 0 4)) (seqZ 1 15) = true.
Proof. by vm_compute. Qed.

Lemma switch_target_ok bitset f :
  1 <= bitset <= 15 -> 0 <= f < 4 ->
  exists t, switch_target bitset f = Ok t /\ next_frontend bitset f = Some t /\
    has bitset (Z.shiftl 1 t) = true /\ 0 <= t < 4.
Proof.
  intros Hb Hf. pose proof switch_target_table as Ht. rewrite forallb_forall in Ht.
  specialize (Ht bitset). rewrite forallb_forall in Ht.
  assert (In bitset (seqZ 1 15) /\ In f (seqZ 0 4)) as [Hib Hif]
    by (split; apply list_elem_of_In, elem_of_seqZ; lia).
  specialize (Ht Hib f Hif). destruct (switch_target bitset f) as [t|]; [|done]. exists t.
  rewrite !andb_true_iff, bool_decide_eq_true, Z.leb_le, Z.ltb_lt in Ht. tauto.
Qed.

Lemma send_event_ok (fes : store_of) t e :
  0 <= t < Z.of_nat (length fes) ->
  exists fes', mux_chr_send_event fes t e = Ok fes' /\ length fes' = length fes.
Proof.
  intros Ht. unfold mux_chr_send_event.
  destruct (lookup_lt_is_Some_2 fes (Z.to_nat t)) as [be Hbe]; [lia|].
  rewrite (load_ok _ _ _ (proj1 Ht) Hbe). cbn [res_bind]. destruct be as [f|]; [|by exists fes].
  rewrite store_ok by done. eexists. split; [done|]. by rewrite length_insert.
Qed.

(** Ctrl-a c moves the focus to the next registered front end, cyclically, and
    never trips the assertions of the multiplexer as long as one is registered. *)
Theorem mux_switch_focus d (fes : store_of) :
  1 <= mux_bitset d <= 15 -> 0 <= focus d < MAX_MUX -> length fes = 4%nat ->
  term_got_escape d = true ->
  exists d' fes', mux_proc_byte d fes 99 = Ok (false, d', fes') /\
    next_frontend (mux_bitset d) (focus d) = Some (focus d') /\ term_got_escape d' = false /\
    length fes' = 4%nat.
Proof.
  intros Hbits Hfoc Hl Hesc. unfold MAX_MUX in Hfoc.
  destruct (switch_target_ok (mux_bitset d) (focus d)) as (t & E & Hnext & Hhas & Hrange); [done..|].
  unfold switch_target in E. apply res_bind_ok in E as (bit & E1 & E2).
  unfold mux_proc_byte. rewrite Hesc. cbn [Z.eqb Pos.eqb term_escape_char orb]. rsimpl.
  rewrite assert_true by (apply negb_true_iff, Z.eqb_neq; lia). cbn [res_bind].
  rewrite E1. cbn [res_bind]. rewrite E2. cbn [res_bind]. unfold mux_set_focus. rsimpl.
  rewrite assert_true by done. cbn [res_bind].
  rewrite (proj2 (Z.eqb_neq (focus d) (-1))) by lia. cbn [negb].
  destruct (send_event_ok fes (focus d) CHR_EVENT_MUX_OUT) as (fes1 & -> & Hl1); [lia|]. cbn [res_bind].
  destruct (lookup_lt_is_Some_2 fes1 (Z.to_nat t)) as [be Hbe]; [lia|].
  rewrite (load_ok _ _ _ (proj1 Hrange) Hbe). cbn [res_bind]. rsimpl.
  destruct (send_event_ok fes1 t CHR_EVENT_MUX_IN) as (fes2 & -> & Hl2); [lia|]. cbn [res_bind].
  eexists _, fes2. split; [done|]. split; [by rsimpl|]. split; [done|lia].
Qed.
End input.

(** A front end with a one-byte receive register. *)
#[global] Instance slot_frontend : Frontend (option Z) := {
  chr_can_read f := match f with Some _ => 0 | None => 1 end;
  chr_read _ b := Some b;
  chr_event f _ := f;
}.
Definition mux_demo (p : Z) : MuxChardev :=
  mkMux 1 0 false (replicate 4 (replicate 32 7)) [p; 0; 0; 0] [0; 0; 0; 0] false false (-1) (Some 0) [] [].
Lemma mux_demo_ok : mux_ok (mux_demo 32).
Proof.
  constructor; [done|split; [done|by repeat constructor]|split; [done|forall_bytes]..|].
  intros m p c Hp Hc. destruct m as [|[|[|[|m]]]]; cbn in Hp, Hc; try done;
    injection Hp as <-; injection Hc as <-; by vm_compute.
Qed.

Lemma mux_input_fifo_witness :
  mux_ok (mux_demo 32) /\
  mux_chr_can_read (mux_demo 32) [Some None; None; None; None] = Ok 1 /\
  exists d', mux_chr_read 0 (mux_demo 32) [Some None; None; None; None] [65]
             = Ok (d', [Some (Some 7); None; None; None]) /\ mux_ok d' /\
    pending d' 0 = replicate 31 7 ++ [65] /\ focus d' = 0.
Proof.
  split; [apply mux_demo_ok|]. split; [done|].
  exact (mux_input_fifo 0 (mux_demo 32) [Some None; None; None; None] 0 None 65 1 mux_demo_ok
           eq_refl eq_refl eq_refl eq_refl ltac:(done) eq_refl ltac:(done)).
Defined.

Definition mux_demo_two : MuxChardev :=
  mkMux 5 0 true (replicate 4 (replicate 32 0)) [0; 0; 0; 0] [0; 0; 0; 0] false false (-1) (Some 0) [] [].
Definition slots_demo : list (option (option Z)) := [Some None; None; Some None; None].

Lemma mux_switch_focus_witness :
  exists d' fes', mux_proc_byte 0 mux_demo_two slots_demo 99 = Ok (false, d', fes') /\
    next_frontend 5 0 = Some (focus d') /\ term_got_escape d' = false /\ length fes' = 4%nat.
Proof. by apply (mux_switch_focus 0 mux_demo_two slots_demo). Defined.
End Mux.
