(* ===== verification/Lpuart.v ===== *)
(** * The LPUART serial port

    [hw/char/nxps32k358_lpuart.c]: registers, baud rate, interrupt, the receive
    callbacks and the register handlers.  The character back end is anything
    that implements [CharPort]: it may call the receive callback while the
    device is inside [qemu_chr_fe_accept_input].  [mux_port] is the multiplexer
    of [Chardev.v] in that role. *)

From S2P Require Import Prelude Chardev.

Module Lpuart.

(** ** Constants of [nxps32k358_lpuart.h] *)

Definition LPUART_GLOBAL : Z := 0x08.
Definition LPUART_BAUD : Z := 0x10.
Definition LPUART_STAT : Z := 0x14.
Definition LPUART_CTRL : Z := 0x18.
Definition LPUART_DATA : Z := 0x1C.
Definition LPUART_STAT_TDRE : Z := BIT 23.
Definition LPUART_STAT_RDRF : Z := BIT 21.
Definition LPUART_CTRL_RE : Z := BIT 18.
Definition LPUART_CTRL_RIE : Z := BIT 21.
Definition LPUART_CTRL_TCIE : Z := BIT 22.
Definition LPUART_CTRL_TIE : Z := BIT 23.
Definition LPUART_BAUD_OSR_SHIFT : Z := 24.
Definition LPUART_BAUD_OSR_WIDTH : Z := 5.
Definition LPUART_BAUD_OSR_MASK : Z := Z.shiftl (Z.shiftl 1 LPUART_BAUD_OSR_WIDTH - 1) LPUART_BAUD_OSR_SHIFT.
Definition LPUART_BAUD_SBR_SHIFT : Z := 0.
Definition LPUART_BAUD_SBR_WIDTH : Z := 13.
Definition LPUART_BAUD_SBR_MASK : Z := Z.shiftl (Z.shiftl 1 LPUART_BAUD_SBR_WIDTH - 1) LPUART_BAUD_SBR_SHIFT.
Definition LPUART_GLOBAL_RST_MASK : Z := BIT 1.
Definition LPUART_BAUD_RESET : Z := 0x0F000004.
Definition LPUART_STAT_RESET : Z := 0x00C00000.
Definition LPUART_CONTROL_RESET : Z := 0x0000000.
Definition LPUART_DATA_RESET : Z := 0x00001000.
Definition LPUART_GLOBAL_RESET : Z := 0x00000002.

(** ** State *)

Record NXPS32K358LPUARTState := mkLpuart {
  clk : Z;                    (* [clock_get_hz(s->clk)] *)
  irq : bool;
  baud_rate_config : Z;
  lpuart_cr : Z;
  lpuart_sr : Z;
  lpuart_dr : Z;
  lpuart_gb : Z;
}.
#[global] Instance eta_LPUARTState : Eta NXPS32K358LPUARTState := fun s =>
  mkLpuart (clk s) (irq s) (baud_rate_config s) (lpuart_cr s) (lpuart_sr s) (lpuart_dr s) (lpuart_gb s).
Abbreviation state := NXPS32K358LPUARTState.
Implicit Types s : state.

Definition nxps32k358_lpuart_calculate_baud_rate s : Z :=
  let sbr := Z.shiftr (Z.land (baud_rate_config s) LPUART_BAUD_SBR_MASK) LPUART_BAUD_SBR_SHIFT in
  let osr_val_in_reg := Z.shiftr (Z.land (baud_rate_config s) LPUART_BAUD_OSR_MASK) LPUART_BAUD_OSR_SHIFT in
  let divisor := u64 (u32 (osr_val_in_reg + 1) * sbr) in
  if divisor =? 0 then 0 else u32 (clk s / divisor).

Definition nxps32k358_lpuart_update_irq s : state :=
  let mask := Z.land (lpuart_sr s) (lpuart_cr s) in
  s <| irq := has mask (Z.lor (Z.lor LPUART_CTRL_TIE LPUART_CTRL_TCIE) LPUART_CTRL_RIE) |>.

Definition nxps32k358_lpuart_can_receive s : Z :=
  if has (lpuart_sr s) LPUART_STAT_RDRF then 0 else 1.

(** [buf] of [size = length buf] bytes; one byte is taken. *)
Definition nxps32k358_lpuart_receive s (buf : list Z) : state :=
  match buf with
  | [] => s
  | b :: _ =>
      if negb (has (lpuart_cr s) LPUART_CTRL_RE) then s else
      nxps32k358_lpuart_update_irq
        (s <| lpuart_dr := b |> <| lpuart_sr := set_bits (lpuart_sr s) LPUART_STAT_RDRF |>)
  end.

Definition nxps32k358_lpuart_reset s : state :=
  nxps32k358_lpuart_update_irq
    (s <| lpuart_cr := LPUART_CONTROL_RESET |> <| lpuart_sr := LPUART_STAT_RESET |>
       <| lpuart_dr := LPUART_DATA_RESET |> <| lpuart_gb := LPUART_GLOBAL_RESET |>
       <| baud_rate_config := LPUART_BAUD_RESET |>).

(** ** The character back end *)

(** A back end hands bytes to the device one by one, and only while the device
    says it can receive. *)
Inductive delivers : state -> state -> Prop :=
  | delivers_none s : delivers s s
  | delivers_byte s b s' :
      nxps32k358_lpuart_can_receive s <> 0 -> is_u 8 b ->
      delivers (nxps32k358_lpuart_receive s [b]) s' -> delivers s s'.

Class CharPort (C : Type) := {
  port_ok : C -> Prop;
  qemu_chr_fe_accept_input : C -> state -> res (C * state);
  qemu_chr_fe_write_all : C -> list Z -> C;
  chr_ioctl_speed : C -> Z -> C;          (* [CHR_IOCTL_SERIAL_SET_PARAMS] *)
  accept_input_ok : forall c s, port_ok c ->
    exists c' s', qemu_chr_fe_accept_input c s = Ok (c', s') /\ port_ok c' /\ delivers s s';
  write_all_ok : forall c bs, port_ok c -> Forall (is_u 8) bs -> port_ok (qemu_chr_fe_write_all c bs);
  ioctl_ok : forall c v, port_ok c -> port_ok (chr_ioctl_speed c v);
}.

Section handlers.
Context {C : Type} `{CharPort C}.

Definition nxps32k358_lpuart_update_params (c : C) s : C :=
  chr_ioctl_speed c (nxps32k358_lpuart_calculate_baud_rate s).

Definition nxps32k358_lpuart_read (c : C) s (offset : Z) : res (Z * C * state) :=
  if offset =? LPUART_GLOBAL then Ok (lpuart_gb s, c, s)
  else if offset =? LPUART_BAUD then Ok (baud_rate_config s, c, s)
  else if offset =? LPUART_STAT then Ok (lpuart_sr s, c, s)
  else if offset =? LPUART_CTRL then Ok (lpuart_cr s, c, s)
  else if offset =? LPUART_DATA then
    let s := s <| lpuart_sr := clear_bits (lpuart_sr s) LPUART_STAT_RDRF |> in
    let! '(c, s) := qemu_chr_fe_accept_input c s in
    let s := nxps32k358_lpuart_update_irq s in
    Ok (lpuart_dr s, c, s)
  else Ok (0, c, s).

Definition nxps32k358_lpuart_write (c : C) s (offset val64 : Z) : C * state :=
  let value := u32 val64 in
  if offset =? LPUART_GLOBAL then
    let s := s <| lpuart_gb := value |> in
    if has value LPUART_GLOBAL_RST_MASK then (c, nxps32k358_lpuart_reset s) else (c, s)
  else if offset =? LPUART_BAUD then
    let s := s <| baud_rate_config := value |> in
    (nxps32k358_lpuart_update_params c s, s)
  else if offset =? LPUART_STAT then
    if value <=? 0x3FF then (c, s <| lpuart_sr := Z.lor value LPUART_STAT_TDRE |>)
    else (c, s <| lpuart_sr := Z.land (lpuart_sr s) value |>)
  else if offset =? LPUART_CTRL then
    (c, nxps32k358_lpuart_update_irq (s <| lpuart_cr := value |>))
  else if offset =? LPUART_DATA then
    if value <? 0xF000 then
      let ch := u8 value in
      let c := qemu_chr_fe_write_all c [ch] in
      (c, nxps32k358_lpuart_update_irq
            (s <| lpuart_sr := set_bits (lpuart_sr s) LPUART_STAT_TDRE |>))
    else (c, s)
  else (c, s).

(** [connected]: [clock_has_source(s->clk)]; the error is the realize error. *)
Definition nxps32k358_lpuart_realize (connected : bool) s : unit + state :=
  if negb connected then inl tt else inr s.
End handlers.

(** ** Invariant *)

Definition irq_level s : bool :=
  has (Z.land (lpuart_sr s) (lpuart_cr s))
    (Z.lor (Z.lor LPUART_CTRL_TIE LPUART_CTRL_TCIE) LPUART_CTRL_RIE).

Definition regs s : list Z := [baud_rate_config s; lpuart_cr s; lpuart_sr s; lpuart_dr s; lpuart_gb s].
Definition uart_ok s : Prop := Forall (is_u 32) (regs s).

Ltac uart_regs Hs :=
  unfold uart_ok, regs in *; repeat (apply Forall_cons_1 in Hs as [? Hs]); rsimpl;
  repeat (apply List.Forall_cons; [solve [auto with ints]|]); apply List.Forall_nil.

Lemma update_irq_uart s : uart_ok s -> uart_ok (nxps32k358_lpuart_update_irq s).
Proof. intros Hs. unfold nxps32k358_lpuart_update_irq. uart_regs Hs. Qed.

Lemma uart_irq_level s :
  irq (nxps32k358_lpuart_update_irq s) = irq_level (nxps32k358_lpuart_update_irq s).
Proof. done. Qed.

Lemma RDRF_u32 : is_u 32 LPUART_STAT_RDRF.
Proof. by apply BIT_u32. Qed.
Lemma TDRE_u32 : is_u 32 LPUART_STAT_TDRE.
Proof. by apply BIT_u32. Qed.
#[local] Hint Resolve RDRF_u32 TDRE_u32 : ints.

Lemma receive_uart s b : uart_ok s -> is_u 8 b -> uart_ok (nxps32k358_lpuart_receive s [b]).
Proof.
  intros Hs Hb. cbn [nxps32k358_lpuart_receive]. destruct (negb _); [done|]. apply update_irq_uart.
  assert (is_u 32 b) by (by apply (is_u_mono 8)). uart_regs Hs.
Qed.

Lemma delivers_uart s s' : delivers s s' -> uart_ok s -> uart_ok s'.
Proof. induction 1; [done|]. intros Hs. by apply IHdelivers, receive_uart. Qed.

Lemma reset_uart s : uart_ok (nxps32k358_lpuart_reset s).
Proof.
  apply update_irq_uart. unfold uart_ok, regs. rsimpl.
  repeat (apply List.Forall_cons; [by vm_compute|]). apply List.Forall_nil.
Qed.

(** ** Guest and host activity *)

Inductive event := Rd (offset : Z) | Wr (offset val : Z) | HostByte (b : Z) | DevReset.

Section events.
Context {C : Type} `{CharPort C}.

(** A host byte arrives when the device can receive. *)
Definition uart_exec (c : C) s (e : event) : res (list Z * C * state) :=
  match e with
  | Rd offset => let! '(v, c, s) := nxps32k358_lpuart_read c s offset in Ok ([v], c, s)
  | Wr offset val => let '(c, s) := nxps32k358_lpuart_write c s offset val in Ok ([], c, s)
  | HostByte b =>
      if nxps32k358_lpuart_can_receive s =? 0 then Ok ([], c, s)
      else Ok ([], c, nxps32k358_lpuart_receive s [b])
  | DevReset => Ok ([], c, nxps32k358_lpuart_reset s)
  end.
Fixpoint uart_run (c : C) s (es : list event) : res (list Z * C * state) :=
  match es with
  | [] => Ok ([], c, s)
  | e :: es' =>
      let! '(o, c, s) := uart_exec c s e in
      let! '(os, c, s) := uart_run c s es' in Ok (o ++ os, c, s)
  end.

Definition event_ok (e : event) : Prop := match e with HostByte b => is_u 8 b | _ => True end.
(** Writes to STAT leave the interrupt line alone. *)
Definition keeps_irq (e : event) : bool := match e with Wr offset _ => negb (offset =? LPUART_STAT) | _ => true end.

Lemma write_uart (c : C) s offset val :
  port_ok c -> uart_ok s ->
  let '(c', s') := nxps32k358_lpuart_write c s offset val in
  port_ok c' /\ uart_ok s' /\
  (negb (offset =? LPUART_STAT) = true -> irq s = irq_level s -> irq s' = irq_level s').
Proof.
  intros Hc Hs. unfold nxps32k358_lpuart_write.
  assert (is_u 32 (u32 val)) as Hv by by apply u_range. generalize dependent (u32 val). intros v Hv.
  destruct (offset =? LPUART_GLOBAL).
  { destruct (has v _); split_and!; try done; [apply reset_uart|uart_regs Hs]. }
  destruct (offset =? LPUART_BAUD); [split_and!; [by apply ioctl_ok|uart_regs Hs|done]|].
  destruct (offset =? LPUART_STAT).
  { destruct (v <=? 0x3FF); split_and!; try done; uart_regs Hs. }
  destruct (offset =? LPUART_CTRL).
  { split_and!; try done. apply update_irq_uart. uart_regs Hs. }
  destruct (offset =? LPUART_DATA); [|done]. destruct (v <? 0xF000); [|done].
  split_and!; [|apply update_irq_uart; uart_regs Hs|done].
  apply write_all_ok; [done|]. repeat constructor; by apply u_range.
Qed.

Lemma read_uart (c : C) s offset :
  port_ok c -> uart_ok s ->
  exists v c' s', nxps32k358_lpuart_read c s offset = Ok (v, c', s') /\ port_ok c' /\ uart_ok s' /\
    is_u 32 v /\ (irq s = irq_level s -> irq s' = irq_level s').
Proof.
  intros Hc Hs. unfold nxps32k358_lpuart_read. pose proof Hs as Hr. unfold uart_ok, regs in Hr.
  repeat (apply Forall_cons_1 in Hr as [? Hr]).
  destruct (offset =? LPUART_GLOBAL); [by eexists _, c, s|].
  destruct (offset =? LPUART_BAUD); [by eexists _, c, s|].
  destruct (offset =? LPUART_STAT); [by eexists _, c, s|].
  destruct (offset =? LPUART_CTRL); [by eexists _, c, s|].
  destruct (offset =? LPUART_DATA); [|by eexists _, c, s].
  destruct (accept_input_ok c (s <| lpuart_sr := clear_bits (lpuart_sr s) LPUART_STAT_RDRF |>) Hc)
    as (c' & s' & -> & Hc' & Hd).
  apply delivers_uart in Hd; [|uart_regs Hs]. cbn [res_bind].
  eexists _, c', _. split; [done|]. split; [done|]. split; [by apply update_irq_uart|]. split; [|done].
  unfold uart_ok, regs in Hd. by repeat (apply Forall_cons_1 in Hd as [? Hd]).
Qed.

Lemma exec_uart (c : C) s e :
  port_ok c -> uart_ok s -> event_ok e ->
  exists o c' s', uart_exec c s e = Ok (o, c', s') /\ port_ok c' /\ uart_ok s' /\
    Forall (is_u 32) o /\ (keeps_irq e = true -> irq s = irq_level s -> irq s' = irq_level s').
Proof.
  intros Hc Hs He. destruct e as [offset|offset val|b|]; cbn [uart_exec keeps_irq event_ok] in *.
  - destruct (read_uart c s offset Hc Hs) as (v & c' & s' & -> & ? & ? & Hv & ?).
    exists [v], c', s'. split_and!; try done. by repeat constructor; apply Hv.
  - pose proof (write_uart c s offset val Hc Hs) as Hw.
    destruct (nxps32k358_lpuart_write c s offset val) as [c' s'].
    destruct Hw as (? & ? & ?). exists [], c', s'. split_and!; try done.
  - destruct (_ =? 0); [by exists [], c, s|]. eexists [], c, _. split_and!; try done.
    + by apply receive_uart.
    + cbn [nxps32k358_lpuart_receive]. by destruct (negb _).
  - eexists [], c, _. split_and!; try done. apply reset_uart.
Qed.
End events.

(** ** The multiplexer as back end *)

Section mux.
(** [M]: the other front ends of the multiplexer (the monitor). *)
Context {M : Type} `{Frontend M}.

#[global] Instance uart_frontend : Frontend (state + M) := {
  chr_can_read f := match f with inl s => nxps32k358_lpuart_can_receive s | inr m => chr_can_read m end;
  chr_read f b := match f with inl s => inl (nxps32k358_lpuart_receive s [b]) | inr m => inr (chr_read m b) end;
  chr_event f e := match f with inl s => inl s | inr m => inr (chr_event m e) end;
}.

(** The multiplexer, its front ends, and the tag of this device among them. *)
Record MuxPort := mkPort {
  port_mux : Mux.MuxChardev;
  port_fes : list (option (state + M));
  port_tag : nat;
  port_now : Z;       (* host clock, for the time stamps of the output *)
}.

Definition mux_port_ok (c : MuxPort) : Prop :=
  Mux.mux_ok (port_mux c) /\ length (port_fes c) = 4%nat /\ (port_tag c < 4)%nat /\
  Forall (Forall (is_u 8)) (Mux.buffer (port_mux c)).

(** The device sits in the store of front ends while the multiplexer runs. *)
Definition mux_accept (c : MuxPort) s : res (MuxPort * state) :=
  let! '(d, fes) := Mux.mux_chr_accept_input (port_mux c) (<[port_tag c := Some (inl s)]> (port_fes c)) in
  match fes !! port_tag c with
  | Some (Some (inl s')) => Ok (mkPort d fes (port_tag c) (port_now c), s')
  | _ => Fault OutOfBounds
  end.

Definition mux_write (c : MuxPort) (bs : list Z) : MuxPort :=
  mkPort (Mux.mux_chr_write (port_now c) (port_mux c) bs) (port_fes c) (port_tag c) (port_now c).

Lemma deliver_uart s q :
  Forall (is_u 8) q ->
  exists s', (Mux.deliver (inl s : state + M) q).1 = inl s' /\ delivers s s'.
Proof.
  intros Hq. revert s. induction Hq as [|b q Hb Hq IH]; intros s; cbn [Mux.deliver].
  { exists s. split; [done|constructor]. }
  change (chr_can_read (inl s : state + M)) with (nxps32k358_lpuart_can_receive s).
  destruct (Z.eqb_spec (nxps32k358_lpuart_can_receive s) 0) as [Hz|Hnz].
  { exists s. split; [done|constructor]. }
  destruct (IH (nxps32k358_lpuart_receive s [b])) as (s' & Hs' & Hd).
  exists s'. split; [exact Hs'|by econstructor].
Qed.

Lemma pending_bytes d m :
  Forall (Forall (is_u 8)) (Mux.buffer d) -> Forall (is_u 8) (Mux.pending d m).
Proof.
  intros Hb. unfold Mux.pending. repeat case_match; try constructor.
  unfold Mux.row_pending, ring. eapply Forall_lookup_1 in Hb; [|done].
  apply Forall_take, Forall_app; split; [by apply Forall_drop|by apply Forall_take].
Qed.

Lemma write_byte_ok now d b :
  Mux.mux_ok d -> Mux.mux_ok (Mux.mux_chr_write_byte now d b) /\
  Mux.buffer (Mux.mux_chr_write_byte now d b) = Mux.buffer d.
Proof.
  intros [? ? ? ? ?]. unfold Mux.mux_chr_write_byte.
  destruct (Mux.linestart d); [destruct (_ =? -1)|]; destruct (b =? 10); split; try done.
Qed.

Lemma mux_write_ok now d bs :
  Mux.mux_ok d -> Mux.mux_ok (Mux.mux_chr_write now d bs) /\
  Mux.buffer (Mux.mux_chr_write now d bs) = Mux.buffer d.
Proof.
  intros Hd. unfold Mux.mux_chr_write. destruct (negb _).
  { by destruct Hd. }
  revert d Hd. induction bs as [|b bs IH]; intros d Hd; cbn [fold_left]; [done|].
  destruct (write_byte_ok now d b Hd) as [Hok Hb]. destruct (IH _ Hok) as [? Hb'].
  split; [done|]. by rewrite Hb', Hb.
Qed.

(** With the focus elsewhere the device is not called. *)
Lemma accept_none d (fes : list (option (state + M))) m :
  Mux.mux_ok d -> Mux.focus d = Z.of_nat m -> length fes = 4%nat -> fes !! m = Some None ->
  Mux.mux_chr_accept_input d fes = Ok (d, fes).
Proof.
  intros Hok Hfoc Hl Hf. pose proof (Mux.mux_focus d Hok) as Hfr. unfold Mux.MAX_MUX in Hfr.
  destruct (Mux.mux_cells d m Hok) as (row & p & c & Hrow & Hp & Hc & _); [lia|].
  unfold Mux.mux_chr_accept_input. rewrite Hfoc, (Mux.load_nat _ _ _ Hp), (Mux.load_nat _ _ _ Hc).
  cbn [res_bind]. destruct (Z.to_nat _); cbn [Mux.accept_loop]; [done|].
  by rewrite (Mux.load_nat _ _ _ Hf), (Mux.load_nat _ _ _ Hp), (Mux.load_nat _ _ _ Hc).
Qed.

Lemma mux_accept_ok c s :
  mux_port_ok c ->
  exists c' s', mux_accept c s = Ok (c', s') /\ mux_port_ok c' /\ delivers s s'.
Proof.
  intros (Hd & Hl & Ht & Hb). unfold mux_accept.
  set (fes := <[port_tag c := Some (inl s)]> (port_fes c)).
  assert (length fes = 4%nat) as Hlf by (unfold fes; by rewrite length_insert).
  assert (fes !! port_tag c = Some (Some (inl s))) as Hft
    by (unfold fes; apply list_lookup_insert_eq; lia).
  pose proof (Mux.mux_focus _ Hd) as Hfr. unfold Mux.MAX_MUX in Hfr.
  set (m := Z.to_nat (Mux.focus (port_mux c))).
  assert (Mux.focus (port_mux c) = Z.of_nat m) as Hfoc by (unfold m; lia).
  destruct (lookup_lt_is_Some_2 fes m) as [be Hbe]; [lia|]. destruct be as [f|].
  - pose proof (Mux.mux_accept_spec (port_mux c) fes m f Hd Hfoc Hlf Hbe) as Hacc.
    destruct (Mux.deliver f _) as [f' q'] eqn:Hdel. destruct Hacc as (cs & -> & Hok' & _ & _).
    cbn [res_bind]. assert (mux_port_ok (mkPort ((port_mux c) <| Mux.cons := cs |>) (<[m := Some f']> fes)
      (port_tag c) (port_now c)))
      as Hport by (split_and!; try done; cbn; by rewrite length_insert).
    destruct (decide (m = port_tag c)) as [Em|Em].
    + rewrite Em in *. rewrite Hft in Hbe. injection Hbe as <-. rewrite list_lookup_insert_eq by lia.
      destruct (deliver_uart s (Mux.pending (port_mux c) (port_tag c))) as (s' & Hs' & Hdv);
        [by apply pending_bytes|]. rewrite Hdel in Hs'. cbn in Hs'. subst f'. eauto.
    + rewrite list_lookup_insert_ne, Hft by done. eexists _, s. split; [done|]. split; [done|constructor].
  - rewrite (accept_none _ _ m) by done. cbn [res_bind]. rewrite Hft.
    eexists _, s. split; [done|]. split; [by split_and!|constructor].
Qed.

Lemma mux_port_write_ok c bs : mux_port_ok c -> Forall (is_u 8) bs -> mux_port_ok (mux_write c bs).
Proof.
  intros (Hd & Hl & Ht & Hb) _. destruct (mux_write_ok (port_now c) _ bs Hd) as [Hok Hb'].
  split_and!; try done. by cbn; rewrite Hb'.
Qed.

#[global] Instance mux_port : CharPort MuxPort := {
  port_ok := mux_port_ok;
  qemu_chr_fe_accept_input := mux_accept;
  qemu_chr_fe_write_all := mux_write;
  chr_ioctl_speed c _ := c;
  accept_input_ok := mux_accept_ok;
  write_all_ok := mux_port_write_ok;
  ioctl_ok c _ Hc := Hc;
}.

(** The focused device is offered the buffered bytes in order. *)
Lemma mux_accept_focused c s s' q' :
  mux_port_ok c -> Mux.focus (port_mux c) = Z.of_nat (port_tag c) ->
  Mux.deliver (inl s : state + M) (Mux.pending (port_mux c) (port_tag c)) = (inl s', q') ->
  exists c', mux_accept c s = Ok (c', s') /\ mux_port_ok c' /\
    Mux.focus (port_mux c') = Z.of_nat (port_tag c') /\
    Mux.pending (port_mux c') (port_tag c') = q'.
Proof.
  intros (Hd & Hl & Ht & Hb) Hfoc Hdel. unfold mux_accept.
  set (fes := <[port_tag c := Some (inl s)]> (port_fes c)).
  assert (length fes = 4%nat) as Hlf by (unfold fes; by rewrite length_insert).
  assert (fes !! port_tag c = Some (Some (inl s))) as Hft
    by (unfold fes; apply list_lookup_insert_eq; lia).
  pose proof (Mux.mux_accept_spec (port_mux c) fes (port_tag c) (inl s) Hd Hfoc Hlf Hft) as Hacc.
  rewrite Hdel in Hacc. destruct Hacc as (cs & -> & Hok' & Hq & _). cbn [res_bind].
  rewrite list_lookup_insert_eq by lia. eexists. split; [done|].
  split; [|done]. split_and!; try done. cbn. by rewrite length_insert.
Qed.
End mux.

(** ** Receive data register *)

Lemma has_set x n : 0 <= n -> has (set_bits x (BIT n)) (BIT n) = true.
Proof.
  intros Hn. rewrite has_BIT by done. unfold set_bits. by rewrite Z.lor_spec, testbit_BIT, Z.eqb_refl, orb_true_r.
Qed.
Lemma has_clear_BIT x n : has (clear_bits x (BIT n)) (BIT n) = false.
Proof. apply has_clear. Qed.

(** A device with an empty receive register takes one byte of a queue. *)
Lemma deliver_one {M} `{Frontend M} s y q :
  has (lpuart_sr s) LPUART_STAT_RDRF = false -> has (lpuart_cr s) LPUART_CTRL_RE = true ->
  Mux.deliver (inl s : state + M) (y :: q) = (inl (nxps32k358_lpuart_receive s [y]), q) /\
  lpuart_dr (nxps32k358_lpuart_receive s [y]) = y /\
  has (lpuart_sr (nxps32k358_lpuart_receive s [y])) LPUART_STAT_RDRF = true /\
  lpuart_cr (nxps32k358_lpuart_receive s [y]) = lpuart_cr s.
Proof.
  intros Hrd Hre. cbn [Mux.deliver].
  change (chr_can_read (inl s : state + M)) with (nxps32k358_lpuart_can_receive s).
  assert (nxps32k358_lpuart_can_receive s = 1) as -> by (unfold nxps32k358_lpuart_can_receive; by rewrite Hrd).
  cbn [Z.eqb]. change (chr_read (inl s : state + M) y) with (inl (nxps32k358_lpuart_receive s [y]) : state + M).
  set (s1 := nxps32k358_lpuart_receive s [y]).
  assert (lpuart_dr s1 = y /\ has (lpuart_sr s1) LPUART_STAT_RDRF = true /\ lpuart_cr s1 = lpuart_cr s)
    as (Hdr & Hs1 & Hcr).
  { unfold s1. cbn [nxps32k358_lpuart_receive]. rewrite Hre. cbn [negb].
    unfold nxps32k358_lpuart_update_irq. rsimpl. split_and!; try done. by apply has_set. }
  split; [|done]. destruct q as [|z q]; cbn [Mux.deliver]; [done|].
  change (chr_can_read (inl s1 : state + M)) with (nxps32k358_lpuart_can_receive s1).
  unfold nxps32k358_lpuart_can_receive. by rewrite Hs1.
Qed.
End Lpuart.

Module LpuartProps.
Import Lpuart.
Implicit Types s : state.

Section any_port.
Context {C : Type} `{CharPort C}.

(** C31: whatever the guest reads and writes and the host types, on any back end the
    device never faults, its registers stay 32-bit words, and the interrupt line
    is the masked status at all times unless the guest has written STAT. *)
Theorem lpuart_access_safe (c : C) s es :
  port_ok c -> uart_ok s -> Forall event_ok es ->
  exists os c' s', uart_run c s es = Ok (os, c', s') /\ port_ok c' /\ uart_ok s' /\
    Forall (is_u 32) os /\
    (forallb keeps_irq es = true -> irq s = irq_level s -> irq s' = irq_level s').
Proof.
  intros Hc Hs Hes. revert c s Hc Hs. induction Hes as [|e es He Hes IH]; intros c s Hc Hs.
  { by exists [], c, s. }
  cbn [uart_run forallb].
  destruct (exec_uart c s e Hc Hs He) as (o & c1 & s1 & -> & Hc1 & Hs1 & Ho & Hi1). cbn [res_bind].
  destruct (IH c1 s1 Hc1 Hs1) as (os & c2 & s2 & -> & Hc2 & Hs2 & Hos & Hi2). cbn [res_bind].
  exists (o ++ os), c2, s2. split; [done|]. split; [done|]. split; [done|].
  split; [by apply Forall_app|]. intros [? ?]%andb_true_iff ?. auto.
Qed.

(** A write to STAT keeps the transmit-ready flag only for values up to 0x3FF;
    any other value with bit 23 clear turns it off, and no write to STAT moves
    the interrupt line. *)
Theorem lpuart_stat_write (c : C) s val :
  let v := u32 val in
  let s' := (nxps32k358_lpuart_write c s LPUART_STAT val).2 in
  has (lpuart_sr s') LPUART_STAT_TDRE
    = (if v <=? 0x3FF then true else has (lpuart_sr s) LPUART_STAT_TDRE && Z.testbit v 23) /\
  irq s' = irq s.
Proof.
  intros v s'. unfold s', nxps32k358_lpuart_write. cbn [Z.eqb Pos.eqb LPUART_DATA LPUART_GLOBAL
    LPUART_BAUD LPUART_STAT LPUART_CTRL]. fold v.
  destruct (v <=? 0x3FF); cbn [snd]; rsimpl; (split; [|done]).
  - by apply (has_set v 23).
  - unfold LPUART_STAT_TDRE. by rewrite !has_BIT, Z.land_spec.
Qed.
End any_port.

(** The baud rate is the clock divided by SBR times the oversampling ratio, and
    zero when SBR is zero. *)
Theorem lpuart_baud_rate s :
  is_u 32 (clk s) ->
  let sbr := baud_rate_config s mod 2 ^ 13 in
  let osr := (baud_rate_config s / 2 ^ 24) mod 2 ^ 5 in
  nxps32k358_lpuart_calculate_baud_rate s
  = if sbr =? 0 then 0 else clk s / ((osr + 1) * sbr).
Proof.
  intros Hclk sbr osr. unfold nxps32k358_lpuart_calculate_baud_rate.
  assert (Z.shiftr (Z.land (baud_rate_config s) LPUART_BAUD_SBR_MASK) LPUART_BAUD_SBR_SHIFT = sbr) as ->.
  { unfold LPUART_BAUD_SBR_SHIFT, sbr. rewrite Z.shiftr_0_r. apply (Z.land_ones _ 13). lia. }
  assert (Z.shiftr (Z.land (baud_rate_config s) LPUART_BAUD_OSR_MASK) LPUART_BAUD_OSR_SHIFT = osr) as ->.
  { rewrite Z.shiftr_land. change (Z.shiftr LPUART_BAUD_OSR_MASK LPUART_BAUD_OSR_SHIFT) with (Z.ones 5).
    rewrite Z.land_ones, Z.shiftr_div_pow2 by (done || lia). done. }
  assert (0 <= sbr < 8192) as Hs by (apply (Z.mod_pos_bound _ (2 ^ 13)); lia).
  assert (0 <= osr < 32) as Ho by (apply (Z.mod_pos_bound _ (2 ^ 5)); lia).
  clearbody sbr osr. rewrite (u_small 32), (u_small 64) by (unfold is_u; nia).
  destruct (Z.eqb_spec sbr 0) as [->|Hnz]; [by rewrite Z.mul_0_r|].
  destruct (Z.eqb_spec ((osr + 1) * sbr) 0); [nia|]. apply u_small. unfold is_u in *.
  split; [apply Z.div_pos; nia|]. apply Z.div_lt_upper_bound; nia.
Qed.

Section on_mux.
Context {M : Type} `{Frontend M}.
Implicit Types c : MuxPort (M:=M).

(** Without time stamps the host receives exactly the low bytes of the values
    below 0xF000 written to DATA, in order, whatever the control register says. *)
Theorem lpuart_transmit c s vals :
  Mux.timestamps (port_mux c) = false ->
  exists c' s', uart_run c s (Wr LPUART_DATA <$> vals) = Ok ([], c', s') /\
    Mux.chr_out (port_mux c') = Mux.chr_out (port_mux c)
      ++ ((fun v => v mod 256) <$> filter (fun v => v < 0xF000) (u32 <$> vals)).
Proof.
  revert c s. induction vals as [|v vals IH]; intros c s Hts; cbn [fmap list_fmap uart_run uart_exec].
  { exists c, s. by rewrite app_nil_r. }
  unfold nxps32k358_lpuart_write.
  cbn [Z.eqb Pos.eqb LPUART_DATA LPUART_GLOBAL LPUART_BAUD LPUART_STAT LPUART_CTRL].
  rewrite filter_cons. destruct (Z.ltb_spec (u32 v) 0xF000); cbn [res_bind].
  - rewrite decide_True by done. set (s1 := nxps32k358_lpuart_update_irq _).
    destruct (IH (mux_write c [u8 (u32 v)]) s1) as (c' & s' & Hrun & Hout).
    { cbn. unfold Mux.mux_chr_write. by rewrite Hts. }
    exists c', s'. change (qemu_chr_fe_write_all c ?b) with (mux_write c b). rewrite Hrun.
    split; [done|]. rewrite Hout. cbn. unfold Mux.mux_chr_write. rewrite Hts. cbn [negb]. rsimpl.
    by rewrite <- app_assoc.
  - rewrite decide_False by lia. destruct (IH c s Hts) as (c' & s' & Hrun & Hout).
    exists c', s'. by rewrite Hrun.
Qed.

(** The device has the focus of the multiplexer and holds the byte [x]. *)
Definition holding c s (x : Z) : Prop :=
  mux_port_ok c /\ Mux.focus (port_mux c) = Z.of_nat (port_tag c) /\
  has (lpuart_cr s) LPUART_CTRL_RE = true /\ has (lpuart_sr s) LPUART_STAT_RDRF = true /\
  lpuart_dr s = x.

(** With nothing else typed, reading DATA returns the received byte and frees
    the receive register for the next one. *)
Theorem lpuart_receive_read c s x :
  holding c s x -> Mux.pending (port_mux c) (port_tag c) = [] ->
  exists c' s', nxps32k358_lpuart_read c s LPUART_DATA = Ok (x, c', s') /\
    nxps32k358_lpuart_can_receive s' = 1 /\ irq s' = irq_level s' /\ mux_port_ok c'.
Proof.
  intros (Hc & Hfoc & Hre & Hrd & Hx) Hq. unfold nxps32k358_lpuart_read.
  cbn [Z.eqb Pos.eqb LPUART_DATA LPUART_GLOBAL LPUART_BAUD LPUART_STAT LPUART_CTRL].
  set (s1 := s <| lpuart_sr := clear_bits (lpuart_sr s) LPUART_STAT_RDRF |>).
  destruct (mux_accept_focused c s1 s1 [] Hc Hfoc) as (c' & Ha & Hc' & _); [by rewrite Hq|].
  change (qemu_chr_fe_accept_input c s1) with (mux_accept c s1). rewrite Ha. cbn [res_bind].
  eexists c', _. split; [unfold nxps32k358_lpuart_update_irq, s1; rsimpl; by rewrite Hx|].
  split; [|done]. unfold nxps32k358_lpuart_can_receive, nxps32k358_lpuart_update_irq, s1. rsimpl.
  unfold LPUART_STAT_RDRF. by rewrite has_clear_BIT.
Qed.

(** When the next byte [y] is already waiting in the multiplexer, reading DATA
    returns [y] instead of the received byte [x], which software never sees;
    with no third byte, the following read returns [y] again. *)
Theorem lpuart_mux_overwrites c s x y :
  holding c s x -> Mux.pending (port_mux c) (port_tag c) = [y] ->
  exists c' s', uart_run c s [Rd LPUART_DATA; Rd LPUART_DATA] = Ok ([y; y], c', s').
Proof.
  intros (Hc & Hfoc & Hre & Hrd & Hx) Hq. cbn [uart_run uart_exec]. unfold nxps32k358_lpuart_read.
  cbn [Z.eqb Pos.eqb LPUART_DATA LPUART_GLOBAL LPUART_BAUD LPUART_STAT LPUART_CTRL].
  set (s1 := s <| lpuart_sr := clear_bits (lpuart_sr s) LPUART_STAT_RDRF |>).
  destruct (deliver_one s1 y []) as (Hdel & Hdr & Hs2 & Hcr2);
    [apply has_clear_BIT|done|]. set (s2 := nxps32k358_lpuart_receive s1 [y]) in *.
  destruct (mux_accept_focused c s1 s2 [] Hc Hfoc) as (c1 & Ha & Hc1 & Hfoc1 & Hq1); [by rewrite Hq|].
  change (qemu_chr_fe_accept_input c s1) with (mux_accept c s1). rewrite Ha. cbn [res_bind].
  set (s3 := nxps32k358_lpuart_update_irq s2).
  set (s4 := s3 <| lpuart_sr := clear_bits (lpuart_sr s3) LPUART_STAT_RDRF |>).
  destruct (mux_accept_focused c1 s4 s4 [] Hc1 Hfoc1) as (c2 & Ha2 & _); [by rewrite Hq1|].
  change (qemu_chr_fe_accept_input c1 s4) with (mux_accept c1 s4). rewrite Ha2. cbn [res_bind app].
  eexists c2, _. assert (lpuart_dr s3 = y) as Hd3 by done.
  assert (lpuart_dr (nxps32k358_lpuart_update_irq s4) = y) as Hd4 by done. by rewrite Hd3, Hd4.
Qed.
End on_mux.

(** ** Concrete states *)

Definition demo_mux (p : Z) : Mux.MuxChardev :=
  Mux.mkMux 1 0 false (replicate 4 (replicate 32 121)) [p; 0; 0; 0] [0; 0; 0; 0] false false (-1) (Some 0) [] [].
(** The UART is front end 0; [p] bytes (all 'y') are buffered. *)
Definition demo_port (p : Z) : MuxPort (M:=option Z) :=
  mkPort (demo_mux p) [None; None; None; None] 0 0.
(** Receiver on, the byte 'x' received. *)
Definition demo_uart : state :=
  nxps32k358_lpuart_receive ((nxps32k358_lpuart_reset (mkLpuart 48000000 false 0 0 0 0 0))
    <| lpuart_cr := LPUART_CTRL_RE |>) [120].

Lemma demo_port_ok p : 0 <= p <= 32 -> mux_port_ok (demo_port p).
Proof.
  intros Hp. split_and!; [|done|cbn; lia|].
  - constructor; [done|split; [done|by repeat constructor]| | |].
    + split; [done|]. repeat (apply List.Forall_cons; [unfold is_u; lia|]). constructor.
    + split; [done|]. repeat (apply List.Forall_cons; [unfold is_u; lia|]). constructor.
    + intros m p' c' Hp' Hc'. destruct m as [|[|[|[|m]]]]; cbn in Hp', Hc'; try done;
        injection Hp' as <-; injection Hc' as <-; try done.
      rewrite Z.sub_0_r, u_small by (unfold is_u; lia). unfold Mux.MUX_BUFFER_SIZE. lia.
  - repeat constructor; unfold is_u; lia.
Qed.
Lemma demo_uart_ok : uart_ok demo_uart.
Proof. repeat (apply List.Forall_cons; [by vm_compute|]). constructor. Qed.
Lemma demo_holding p : 0 <= p <= 32 -> holding (demo_port p) demo_uart 120.
Proof. intros Hp. split; [by apply demo_port_ok|]. done. Qed.

Lemma lpuart_access_safe_witness :
  exists os c' s', uart_run (demo_port 1) demo_uart [Wr LPUART_CTRL 0xA40000; HostByte 65; Rd LPUART_DATA]
      = Ok (os, c', s') /\ port_ok c' /\ uart_ok s' /\ Forall (is_u 32) os /\ irq s' = irq_level s'.
Proof.
  destruct (lpuart_access_safe (demo_port 1) demo_uart
    [Wr LPUART_CTRL 0xA40000; HostByte 65; Rd LPUART_DATA]) as (os & c' & s' & ? & ? & ? & ? & Hi);
    [by apply demo_port_ok|apply demo_uart_ok|by repeat constructor|].
  exists os, c', s'. split_and!; try done. by apply Hi.
Defined.

Lemma lpuart_transmit_witness :
  exists c' s', uart_run (demo_port 0) demo_uart (Wr LPUART_DATA <$> [72; 0x169; 0xF000]) = Ok ([], c', s') /\
    Mux.chr_out (port_mux c') = [72; 105].
Proof. by apply (lpuart_transmit (demo_port 0) demo_uart [72; 0x169; 0xF000]). Defined.

Lemma lpuart_baud_rate_witness :
  nxps32k358_lpuart_calculate_baud_rate (demo_uart <| baud_rate_config := 0x0F00001A |>) = 115384.
Proof. rewrite (lpuart_baud_rate (demo_uart <| baud_rate_config := 0x0F00001A |>)); by vm_compute. Defined.

Lemma lpuart_receive_read_witness :
  holding (demo_port 0) demo_uart 120 /\
  exists c' s', nxps32k358_lpuart_read (demo_port 0) demo_uart LPUART_DATA = Ok (120, c', s') /\
    nxps32k358_lpuart_can_receive s' = 1 /\ irq s' = irq_level s' /\ mux_port_ok c'.
Proof.
  split; [by apply demo_holding|]. by apply lpuart_receive_read; [apply demo_holding|].
Defined.

Lemma lpuart_mux_overwrites_witness :
  holding (demo_port 1) demo_uart 120 /\
  exists c' s', uart_run (demo_port 1) demo_uart [Rd LPUART_DATA; Rd LPUART_DATA] = Ok ([121; 121], c', s').
Proof.
  split; [by apply demo_holding|]. by apply (lpuart_mux_overwrites _ _ 120); [apply demo_holding|].
Defined.
End LpuartProps.
