(* ===== verification/Memory.v ===== *)
(** * Memory regions and the flat view

    The part of [system/memory.c] that turns the tree of memory regions into
    the flat list of address ranges the CPU dispatches on: insertion of a
    subregion by priority, and [render_memory_region].  [resolves] says which
    region an address belongs to according to the documented rules (first
    enabled subregion in priority order, aliases followed, then the region
    itself); rendering is proved to implement it. *)

From Stdlib Require Import Sorting.Sorted.
From S2P Require Import Prelude.

#[local] Set Warnings "-register-all".

Module Memory.

(** ** Address ranges *)

Record AddrRange := addrrange_make { start : Z; size : Z }.
Definition addrrange_end (r : AddrRange) : Z := start r + size r.
Definition addrrange_contains (range : AddrRange) (addr : Z) : bool :=
  (start range <=? addr) && (addr <? addrrange_end range).
Definition addrrange_intersects (r1 r2 : AddrRange) : bool :=
  addrrange_contains r1 (start r2) || addrrange_contains r2 (start r1).
Definition addrrange_intersection (r1 r2 : AddrRange) : AddrRange :=
  let s := Z.max (start r1) (start r2) in
  let e := Z.min (addrrange_end r1) (addrrange_end r2) in
  addrrange_make s (e - s).

(** The flags a region inherits from its containers. *)
Record flags := mkFlags { readonly : bool; nonvolatile : bool; unmergeable : bool }.
Definition flags_or (a b : flags) : flags :=
  mkFlags (readonly a || readonly b) (nonvolatile a || nonvolatile b) (unmergeable a || unmergeable b).
#[global] Instance flags_eq_dec : EqDecision flags.
Proof. solve_decision. Defined.

Section memory.
(** [D]: the identity of a region (its address in C). *)
Context {D : Type} `{EqDecision D}.

(** [struct MemoryRegion], with the subregions in the order of the C list. *)
Inductive MemoryRegion := mkMR {
  owner : D;
  addr : Z;
  mr_size : Z;
  priority : Z;
  enabled : bool;
  terminates : bool;
  mr_flags : flags;
  alias : option MemoryRegion;
  alias_offset : Z;
  subregions : list MemoryRegion;
}.

Record FlatRange := mkFR { mr : D; fr_addr : AddrRange; offset_in_region : Z; fr_flags : flags }.
Definition FlatView := list FlatRange.

(** ** Building the tree *)

(** [memory_region_update_container_subregions]: before the first subregion
    whose priority is not higher. *)
Fixpoint insert_by_priority (subs : list MemoryRegion) (r : MemoryRegion) : list MemoryRegion :=
  match subs with
  | [] => [r]
  | other :: subs' =>
      if priority other <=? priority r then r :: subs else other :: insert_by_priority subs' r
  end.

Definition with_place (r : MemoryRegion) (offset prio : Z) : MemoryRegion :=
  mkMR (owner r) offset (mr_size r) prio (enabled r) (terminates r) (mr_flags r) (alias r)
    (alias_offset r) (subregions r).
Definition with_subregions (r : MemoryRegion) (subs : list MemoryRegion) : MemoryRegion :=
  mkMR (owner r) (addr r) (mr_size r) (priority r) (enabled r) (terminates r) (mr_flags r) (alias r)
    (alias_offset r) subs.

Definition memory_region_add_subregion_overlap (c : MemoryRegion) (offset : Z) (r : MemoryRegion)
    (prio : Z) : MemoryRegion :=
  with_subregions c (insert_by_priority (subregions c) (with_place r offset prio)).
Definition memory_region_add_subregion (c : MemoryRegion) (offset : Z) (r : MemoryRegion) : MemoryRegion :=
  memory_region_add_subregion_overlap c offset r 0.

(** ** Rendering *)

(** An [Int128] as an unsigned 64-bit number. *)
Definition int128_get64 (v : Z) : res Z := do! assert ((0 <=? v) && (v <? 2 ^ 64)) in Ok v.

(** The final loop of [render_memory_region]: put the region into the gaps of
    the view between [base] and [base + remain]. *)
Fixpoint render_gaps (o : D) (fl : flags) (view : FlatView) (base remain off : Z) : res FlatView :=
  match view with
  | [] => Ok (if remain =? 0 then [] else [mkFR o (addrrange_make base remain) off fl])
  | rg :: view' =>
      if remain =? 0 then Ok view
      else if addrrange_end (fr_addr rg) <=? base then
        let! rest := render_gaps o fl view' base remain off in Ok (rg :: rest)
      else
        let! '(piece, base, remain, off) :=
          if base <? start (fr_addr rg) then
            let now := Z.min remain (start (fr_addr rg) - base) in
            let! n := int128_get64 now in
            Ok ([mkFR o (addrrange_make base now) off fl], base + now, remain - now, u64 (off + n))
          else Ok ([], base, remain, off) in
        let now := Z.min (base + remain) (addrrange_end (fr_addr rg)) - base in
        let! n := int128_get64 now in
        let! rest := render_gaps o fl view' (base + now) (remain - now) (u64 (off + n)) in
        Ok (piece ++ rg :: rest)
  end.

Fixpoint render_memory_region (view : FlatView) (m : MemoryRegion) (base : Z) (clip : AddrRange)
    (fl : flags) {struct m} : res FlatView :=
  match m with
  | mkMR o a sz _ en term mfl al al_off subs =>
      if negb en then Ok view else
      let base := base + a in
      let fl := flags_or fl mfl in
      let tmp := addrrange_make base sz in
      if negb (addrrange_intersects tmp clip) then Ok view else
      let clip := addrrange_intersection tmp clip in
      match al with
      | Some target =>
          render_memory_region view target (base - addr target - al_off) clip fl
      | None =>
          let! view := res_fold (fun view subregion => render_memory_region view subregion base clip fl) view subs in
          if negb term then Ok view
          else
            let! off := int128_get64 (start clip - base) in
            render_gaps o fl view (start clip) (size clip) off
      end
  end.

(** ** Merging adjacent ranges *)

(** [dirty_log_mask] and [romd_mode] are functions of the region, which the
    second conjunct compares. *)
Definition can_merge (r1 r2 : FlatRange) : bool :=
  (addrrange_end (fr_addr r1) =? start (fr_addr r2))
  && bool_decide (mr r1 = mr r2)
  && (offset_in_region r1 + size (fr_addr r1) =? offset_in_region r2)
  && Bool.eqb (readonly (fr_flags r1)) (readonly (fr_flags r2))
  && Bool.eqb (nonvolatile (fr_flags r1)) (nonvolatile (fr_flags r2))
  && negb (unmergeable (fr_flags r1)) && negb (unmergeable (fr_flags r2)).

(** [ranges[i]] is [cur], [ranges[j-1]] is [prev], the list starts at [ranges[j]]. *)
Fixpoint simplify_from (cur prev : FlatRange) (view : FlatView) : FlatView :=
  match view with
  | [] => [cur]
  | rg :: view' =>
      if can_merge prev rg then
        simplify_from
          (mkFR (mr cur) (addrrange_make (start (fr_addr cur)) (size (fr_addr cur) + size (fr_addr rg)))
             (offset_in_region cur) (fr_flags cur)) rg view'
      else cur :: simplify_from rg rg view'
  end.
Definition flatview_simplify (view : FlatView) : FlatView :=
  match view with [] => [] | rg :: view' => simplify_from rg rg view' end.

Definition no_flags : flags := mkFlags false false false.

(** The ranges of [generate_memory_topology]. *)
Definition generate_memory_topology (m : MemoryRegion) : res FlatView :=
  let! view := render_memory_region [] m 0 (addrrange_make 0 (2 ^ 64)) no_flags in
  Ok (flatview_simplify view).

(** ** What an address means *)

(** Owner, offset in the region and flags of the region an address resolves to. *)
Definition hit : Type := D * Z * flags.

Definition fr_hit (rg : FlatRange) (a : Z) : hit :=
  (mr rg, offset_in_region rg + (a - start (fr_addr rg)), fr_flags rg).
Fixpoint lookup_view (view : FlatView) (a : Z) : option hit :=
  match view with
  | [] => None
  | rg :: view' => if addrrange_contains (fr_addr rg) a then Some (fr_hit rg a) else lookup_view view' a
  end.

Fixpoint resolves (m : MemoryRegion) (base : Z) (fl : flags) (a : Z) {struct m} : option hit :=
  match m with
  | mkMR o ad sz _ en term mfl al al_off subs =>
      if negb en then None else
      let base := base + ad in
      let fl := flags_or fl mfl in
      if negb ((base <=? a) && (a <? base + sz)) then None else
      match al with
      | Some target => resolves target (base - addr target - al_off) fl a
      | None =>
          match fold_right (fun subregion rest =>
                  match resolves subregion base fl a with Some h => Some h | None => rest end) None subs with
          | Some h => Some h
          | None => if term then Some (o, a - base, fl) else None
          end
      end
  end.

(** The fields have their types ([hwaddr], and a size of at most [2 ^ 64]), and the
    region of a device or a memory, other than a container, is smaller than the whole
    64-bit space: [int128_get64] of its size must not fail. *)
Definition is_hwaddr (v : Z) : bool := (0 <=? v) && (v <? 2 ^ 64).
Fixpoint sizes_ok (m : MemoryRegion) : bool :=
  match m with
  | mkMR _ a sz _ _ term _ al al_off subs =>
      is_hwaddr a && is_hwaddr al_off
      && (0 <=? sz) && (if term then sz <? 2 ^ 64 else sz <=? 2 ^ 64)
      && match al with Some t => sizes_ok t | None => true end
      && forallb sizes_ok subs
  end.

(** ** The view stays sorted and disjoint *)

Fixpoint view_from (lo : Z) (view : FlatView) : Prop :=
  match view with
  | [] => True
  | rg :: view' =>
      lo <= start (fr_addr rg) /\ 0 < size (fr_addr rg) /\ view_from (addrrange_end (fr_addr rg)) view'
  end.

Lemma view_from_weaken (lo lo' : Z) (view : FlatView) :
  lo' <= lo -> view_from lo view -> view_from lo' view.
Proof. destruct view; simpl; [done|]. intros ? (? & ? & ?); split_and!; auto; lia. Qed.

Lemma lookup_below (view : FlatView) (lo a : Z) :
  view_from lo view -> a < lo -> lookup_view view a = None.
Proof.
  revert lo; induction view as [|rg view IH]; intros lo; simpl; [done|].
  intros (H1 & H2 & H3) Ha. unfold addrrange_contains, addrrange_end in *.
  destruct (Z.leb_spec (start (fr_addr rg)) a); [lia|]. simpl. eapply IH; [done|lia].
Qed.


Ltac ranges := unfold addrrange_contains, addrrange_end in *; simpl in *.

(** The loop without the checks of the machine integers. *)
Fixpoint fill_gaps (o : D) (fl : flags) (view : FlatView) (base remain off : Z) : FlatView :=
  match view with
  | [] => if remain =? 0 then [] else [mkFR o (addrrange_make base remain) off fl]
  | rg :: view' =>
      if remain =? 0 then view
      else if addrrange_end (fr_addr rg) <=? base then rg :: fill_gaps o fl view' base remain off
      else
        let '(piece, base, remain, off) :=
          (if base <? start (fr_addr rg) then
             let now := Z.min remain (start (fr_addr rg) - base) in
             ([mkFR o (addrrange_make base now) off fl], base + now, remain - now, off + now)
           else ([], base, remain, off)) in
        let now := Z.min (base + remain) (addrrange_end (fr_addr rg)) - base in
        piece ++ rg :: fill_gaps o fl view' (base + now) (remain - now) (off + now)
  end.
Lemma int128_get64_ok (v : Z) : 0 <= v < 2 ^ 64 -> int128_get64 v = Ok v.
Proof. intros Hv. unfold int128_get64. by replace ((0 <=? v) && (v <? 2 ^ 64)) with true by lia. Qed.
Lemma render_gaps_fill (o : D) (fl : flags) (view : FlatView) (lo base remain off : Z) :
  view_from lo view -> 0 <= remain -> 0 <= off -> off + remain < 2 ^ 64 ->
  render_gaps o fl view base remain off = Ok (fill_gaps o fl view base remain off).
Proof.
  revert lo base remain off; induction view as [|rg view IH]; intros lo base remain off; simpl; [done|].
  intros (H1 & H2 & H3) Hr Ho Hb. ranges. destruct (Z.eqb_spec remain 0); [done|].
  destruct (Z.leb_spec (start (fr_addr rg) + size (fr_addr rg)) base).
  { by rewrite (IH _ _ _ _ H3) by lia. }
  destruct (Z.ltb_spec base (start (fr_addr rg))).
  - rewrite int128_get64_ok by lia. cbn [res_bind]. rewrite !(u_small 64) by (unfold is_u; lia). rewrite int128_get64_ok by lia.
    cbn [res_bind]. rewrite (u_small 64) by (unfold is_u; lia). by rewrite (IH _ _ _ _ H3) by lia.
  - cbn [res_bind]. rewrite int128_get64_ok by lia. cbn [res_bind]. rewrite (u_small 64) by (unfold is_u; lia).
    by rewrite (IH _ _ _ _ H3) by lia.
Qed.

(** Filling the gaps keeps what the view had and adds the region elsewhere. *)
Lemma render_gaps_lookup (o : D) (fl : flags) (view : FlatView) (lo base remain off a : Z) :
  view_from lo view -> 0 <= remain ->
  lookup_view (fill_gaps o fl view base remain off) a =
    match lookup_view view a with
    | Some h => Some h
    | None => if (base <=? a) && (a <? base + remain) then Some (o, off + (a - base), fl) else None
    end.
Proof.
  revert lo base remain off; induction view as [|rg view IH]; intros lo base remain off; simpl.
  - intros _ Hr. destruct (Z.eqb_spec remain 0); simpl; [|done].
    by replace ((base <=? a) && (a <? base + remain)) with false by lia.
  - intros (H1 & H2 & H3) Hr. pose proof (lookup_below _ _ a H3) as Hlow. ranges.
    destruct (Z.eqb_spec remain 0) as [->|Hnz].
    { replace ((base <=? a) && (a <? base + 0)) with false by lia. simpl. ranges. by repeat case_match. }
    destruct (Z.leb_spec (start (fr_addr rg) + size (fr_addr rg)) base); simpl; ranges.
    { rewrite (IH _ _ _ _ H3) by lia. by repeat case_match. }
    destruct (Z.ltb_spec base (start (fr_addr rg))); simpl; ranges;
      rewrite (IH _ _ _ _ H3) by lia;
      destruct (Z.leb_spec (start (fr_addr rg)) a), (Z.ltb_spec a (start (fr_addr rg) + size (fr_addr rg)));
      simpl; try rewrite Hlow by lia; try lia;
      repeat case_match; unfold fr_hit; simpl; try done; try lia; try (do 3 f_equal; lia).
Qed.

Lemma render_gaps_sorted (o : D) (fl : flags) (view : FlatView) (lo lo' base remain off : Z) :
  view_from lo view -> 0 <= remain -> lo' <= lo -> remain = 0 \/ lo' <= base ->
  view_from lo' (fill_gaps o fl view base remain off).
Proof.
  revert lo lo' base remain off; induction view as [|rg view IH]; intros lo lo' base remain off; simpl.
  - intros _ Hr ? ?. destruct (Z.eqb_spec remain 0); simpl; [done|]. split_and!; auto; lia.
  - intros (H1 & H2 & H3) Hr Hlo Hb. ranges.
    destruct (Z.eqb_spec remain 0) as [->|Hnz]; [simpl; split_and!; auto; lia|].
    destruct (Z.leb_spec (start (fr_addr rg) + size (fr_addr rg)) base); simpl.
    { split_and!; [lia|done|]. ranges; eapply IH; [done|lia..]. }
    destruct (Z.ltb_spec base (start (fr_addr rg))); simpl; split_and!; ranges; try lia;
      (eapply IH; [done|lia..]).
Qed.

(** ** Rendering a tree *)

Fixpoint region_ind (P : MemoryRegion -> Prop)
    (step : forall m, (forall t, alias m = Some t -> P t) -> Forall P (subregions m) -> P m)
    (m : MemoryRegion) {struct m} : P m.
Proof.
  destruct m as [o ad sz pr en term mfl al al_off subs]. apply step; simpl.
  - intros t Ht. destruct al as [t'|]; [|discriminate]. injection Ht as <-. apply region_ind, step.
  - induction subs as [|r subs IH]; constructor; [apply region_ind, step|apply IH].
Defined.

Definition view_ok (view : FlatView) : Prop := exists lo, view_from lo view.

(** [view'] is [view] with the addresses [f] answers added behind it. *)
Definition extends (view view' : FlatView) (f : Z -> option hit) : Prop :=
  view_ok view' /\
  forall a, lookup_view view' a = match lookup_view view a with Some h => Some h | None => f a end.

Definition clipped (clip : AddrRange) (f : Z -> option hit) (a : Z) : option hit :=
  if addrrange_contains clip a then f a else None.

Lemma extends_none (view : FlatView) (f : Z -> option hit) :
  view_ok view -> (forall a, f a = None) -> extends view view f.
Proof. intros H Hf. split; [done|]. intros a. rewrite Hf. by destruct (lookup_view view a). Qed.

Lemma extends_ext (view view' : FlatView) (f g : Z -> option hit) :
  (forall a, f a = g a) -> extends view view' f -> extends view view' g.
Proof. intros Hfg [H1 H2]. split; [done|]. intros a. by rewrite H2, Hfg. Qed.

Lemma extends_trans (v1 v2 v3 : FlatView) (f g : Z -> option hit) :
  extends v1 v2 f -> extends v2 v3 g ->
  extends v1 v3 (fun a => match f a with Some h => Some h | None => g a end).
Proof. intros [_ H1] [H2 H3]. split; [done|]. intros a. rewrite H3, H1. by destruct (lookup_view v1 a). Qed.

Lemma disjoint_clip (r1 r2 : AddrRange) (a : Z) :
  addrrange_intersects r1 r2 = false ->
  addrrange_contains r1 a && addrrange_contains r2 a = false.
Proof. unfold addrrange_intersects. ranges. lia. Qed.

Lemma intersection_contains (r1 r2 : AddrRange) (a : Z) :
  addrrange_contains (addrrange_intersection r1 r2) a = addrrange_contains r1 a && addrrange_contains r2 a.
Proof. unfold addrrange_intersection. ranges. lia. Qed.

Lemma intersection_size (r1 r2 : AddrRange) :
  0 <= size r1 -> 0 <= size r2 -> addrrange_intersects r1 r2 = true ->
  0 <= size (addrrange_intersection r1 r2).
Proof. unfold addrrange_intersects, addrrange_intersection. ranges. lia. Qed.

Lemma render_gaps_extends (o : D) (fl : flags) (view : FlatView) (clip : AddrRange) (base : Z) :
  view_ok view -> 0 <= size clip -> base <= start clip -> addrrange_end clip < base + 2 ^ 64 ->
  exists view', (let! off := int128_get64 (start clip - base) in render_gaps o fl view (start clip) (size clip) off) = Ok view' /\
    extends view view' (clipped clip (fun a => Some (o, a - base, fl))).
Proof.
  intros [lo Hv] Hs Hb He. ranges. rewrite int128_get64_ok by lia. cbn [res_bind].
  rewrite (render_gaps_fill _ _ _ lo) by (done || lia). eexists. split; [done|]. split.
  - exists (Z.min lo (start clip)). eapply render_gaps_sorted; [done|lia..].
  - intros a. rewrite (render_gaps_lookup _ _ _ lo) by done. unfold clipped. ranges.
    by repeat case_match; try done; repeat f_equal; lia.
Qed.

Definition render_ok (m : MemoryRegion) : Prop :=
  forall view base clip fl, sizes_ok m = true -> view_ok view -> 0 <= size clip ->
    exists view', render_memory_region view m base clip fl = Ok view' /\ extends view view' (clipped clip (resolves m base fl)).

Definition resolves_list (subs : list MemoryRegion) (base : Z) (fl : flags) (a : Z) : option hit :=
  fold_right (fun r rest => match resolves r base fl a with Some h => Some h | None => rest end) None subs.

Lemma render_list_ok (subs : list MemoryRegion) (view : FlatView) (base : Z) (clip : AddrRange) (fl : flags) :
  Forall render_ok subs -> forallb sizes_ok subs = true -> view_ok view -> 0 <= size clip ->
  exists view', res_fold (fun view r => render_memory_region view r base clip fl) view subs = Ok view' /\
    extends view view' (clipped clip (resolves_list subs base fl)).
Proof.
  intros Hsubs; revert view; induction Hsubs as [|r subs Hr Hsubs IH]; simpl; intros view Hs Hv Hc.
  - eexists. split; [done|]. apply extends_none; [done|]. intros a. unfold clipped. by case_match.
  - apply andb_prop in Hs as [Hs1 Hs2]. destruct (Hr view base clip fl Hs1 Hv Hc) as (v1 & -> & E1). cbn [res_bind].
    destruct (IH _ Hs2 (proj1 E1) Hc) as (v2 & -> & E2). eexists. split; [done|].
    eapply extends_ext; [|exact (extends_trans _ _ _ _ _ E1 E2)].
    intros a. unfold clipped. cbn [resolves_list fold_right]. by repeat case_match.
Qed.

Lemma render_region_ok (m : MemoryRegion) : render_ok m.
Proof.
  induction m as [[o ad sz pr en term mfl al al_off subs] IHal IHsubs] using region_ind.
  intros view base clip fl Hs Hv Hc. simpl in *. rewrite !andb_true_iff, Z.leb_le in Hs.
  destruct Hs as [[[[_ Hsz] Hterm] Hal] Hsubs].
  destruct en; simpl; [|eexists; split; [done|]; apply extends_none; [done|]; intros a; unfold clipped; simpl; by repeat case_match].
  set (tmp := addrrange_make (base + ad) sz).
  destruct (addrrange_intersects tmp clip) eqn:Hint; simpl.
  2:{ eexists. split; [done|]. apply extends_none; [done|]. intros a. pose proof (disjoint_clip _ _ a Hint) as Hd.
      unfold clipped. subst tmp. ranges. repeat case_match; try done; lia. }
  pose proof (intersection_size tmp clip Hsz Hc Hint) as Hi.
  destruct al as [t|].
  - destruct (IHal t eq_refl view (base + ad - addr t - al_off) (addrrange_intersection tmp clip) (flags_or fl mfl) Hal Hv Hi) as (v & -> & E).
    eexists. split; [done|]. eapply extends_ext; [|exact E].
    intros a. unfold clipped. cbn [resolves]. rewrite intersection_contains. subst tmp. ranges.
    repeat case_match; try done; lia.
  - destruct (render_list_ok _ view (base + ad) _ (flags_or fl mfl) IHsubs Hsubs Hv Hi) as (v & -> & E1). cbn [res_bind].
    destruct term; simpl.
    + destruct (render_gaps_extends o (flags_or fl mfl) v _ (base + ad) (proj1 E1) Hi) as (v' & E & E2);
        [unfold addrrange_intersection; subst tmp; ranges; lia..|].
      eexists. split; [exact E|]. eapply extends_ext; [|exact (extends_trans _ _ _ _ _ E1 E2)].
      intros a. unfold clipped. cbn [resolves]. rewrite intersection_contains. unfold resolves_list.
      subst tmp. ranges. repeat case_match; try done; lia.
    + eexists. split; [done|]. eapply extends_ext; [|exact E1]. intros a. unfold clipped. cbn [resolves]. rewrite intersection_contains.
      unfold resolves_list. subst tmp. ranges.
      repeat case_match; try done; lia.
Qed.

(** ** Merging keeps the meaning *)

(** [cur] covers, contiguously, everything up to the end of [prev]. *)
Definition run_ok (cur prev : FlatRange) : Prop :=
  mr cur = mr prev /\ fr_flags cur = fr_flags prev /\ start (fr_addr cur) <= start (fr_addr prev) /\
  addrrange_end (fr_addr cur) = addrrange_end (fr_addr prev) /\
  offset_in_region prev = offset_in_region cur + (start (fr_addr prev) - start (fr_addr cur)).

Lemma can_merge_inv (r1 r2 : FlatRange) :
  can_merge r1 r2 = true ->
  addrrange_end (fr_addr r1) = start (fr_addr r2) /\ mr r1 = mr r2 /\ fr_flags r1 = fr_flags r2 /\
  offset_in_region r2 = offset_in_region r1 + size (fr_addr r1).
Proof.
  unfold can_merge. rewrite !andb_true_iff, !Z.eqb_eq, !negb_true_iff, bool_decide_eq_true.
  intros ((((((H1 & H2) & H3) & H4) & H5) & H6) & H7).
  apply eqb_prop in H4, H5. split_and!; [done..| |done].
  destruct (fr_flags r1), (fr_flags r2); simpl in *; by subst.
Qed.

Lemma simplify_from_ok (view : FlatView) (cur prev : FlatRange) :
  run_ok cur prev -> 0 < size (fr_addr cur) -> view_from (addrrange_end (fr_addr prev)) view ->
  view_from (start (fr_addr cur)) (simplify_from cur prev view) /\
  forall a, lookup_view (simplify_from cur prev view) a = lookup_view (cur :: view) a.
Proof.
  revert cur prev; induction view as [|rg view IH]; intros cur prev Hrun Hpos Hv.
  { split; [|done]. simpl. split_and!; [lia|done..]. }
  simpl in Hv. destruct Hv as (H1 & H2 & H3), Hrun as (R1 & R2 & R3 & R4 & R5). cbn [simplify_from].
  destruct (can_merge prev rg) eqn:Hm.
  - apply can_merge_inv in Hm as (M1 & M2 & M3 & M4). ranges.
    edestruct (IH (mkFR (mr cur) (addrrange_make (start (fr_addr cur)) (size (fr_addr cur) + size (fr_addr rg)))
             (offset_in_region cur) (fr_flags cur)) rg) as [IH1 IH2]; [|simpl; lia|done|].
    { unfold run_ok. ranges. split_and!; [congruence..|lia|lia|lia]. }
    split; [exact IH1|]. intros a. rewrite IH2. ranges. unfold fr_hit. simpl.
    rewrite <- M2, <- R1, <- M3, <- R2.
    repeat case_match; try done; try lia; do 3 f_equal; lia.
  - destruct (IH rg rg) as [IH1 IH2]; [by unfold run_ok; split_and!; auto; lia|done|done|].
    split; [|intros a; simpl; by rewrite IH2]. simpl. split_and!; [lia|done|].
    eapply view_from_weaken; [|exact IH1]. lia.
Qed.

Lemma simplify_ok (view : FlatView) :
  view_ok view ->
  view_ok (flatview_simplify view) /\ forall a, lookup_view (flatview_simplify view) a = lookup_view view a.
Proof.
  intros [lo Hv]. destruct view as [|rg view]; [split; [by exists lo|done]|]. simpl in Hv.
  destruct (simplify_from_ok view rg rg) as [H1 H2]; [|lia|apply Hv|].
  - unfold run_ok. split_and!; auto; lia.
  - split; [by eexists|exact H2].
Qed.

(** The flat view of a well-formed tree. *)
Lemma topology_ok (m : MemoryRegion) :
  sizes_ok m = true ->
  exists view, generate_memory_topology m = Ok view /\ view_ok view /\
    forall a, 0 <= a < 2 ^ 64 -> lookup_view view a = resolves m 0 no_flags a.
Proof.
  intros Hs. unfold generate_memory_topology.
  destruct (render_region_ok m [] 0 (addrrange_make 0 (2 ^ 64)) no_flags) as (v & -> & H1 & H2);
    [done|by exists 0|simpl; lia|]. cbn [res_bind].
  destruct (simplify_ok _ H1) as [H3 H4]. eexists. split; [done|]. split; [done|]. intros a Ha. rewrite H4, H2. simpl.
  unfold clipped, addrrange_contains, addrrange_end. simpl start; simpl size.
  by replace ((0 <=? a) && (a <? 0 + 2 ^ 64)) with true by lia.
Qed.

(** In a sorted view an address belongs to the range that contains it. *)
Lemma lookup_in_view (view : FlatView) (rg : FlatRange) (a : Z) :
  view_ok view -> In rg view -> addrrange_contains (fr_addr rg) a = true ->
  lookup_view view a = Some (fr_hit rg a).
Proof.
  intros [lo Hv] Hin Ha. revert lo Hv; induction view as [|r view IH]; intros lo; simpl in *; [done|].
  intros (H1 & H2 & H3). destruct Hin as [->|Hin]; [by rewrite Ha|].
  specialize (IH Hin _ H3). destruct (addrrange_contains (fr_addr r) a) eqn:E; [|done].
  exfalso. rewrite (lookup_below view _ a H3) in IH; [done|]. ranges. lia.
Qed.

(** ** Priority order *)

Definition by_priority (subs : list MemoryRegion) : Prop :=
  StronglySorted (fun r1 r2 => priority r2 <= priority r1) subs.

Lemma insert_by_priority_perm (subs : list MemoryRegion) (r : MemoryRegion) :
  insert_by_priority subs r ≡ₚ r :: subs.
Proof.
  induction subs as [|other subs IH]; simpl; [done|]. case_match; [done|]. rewrite IH. constructor.
Qed.

Lemma insert_by_priority_sorted (subs : list MemoryRegion) (r : MemoryRegion) :
  by_priority subs -> by_priority (insert_by_priority subs r).
Proof.
  induction 1 as [|other subs Hs IH Hall]; simpl; [repeat constructor|].
  destruct (Z.leb_spec (priority other) (priority r)).
  - constructor; [by constructor|]. constructor; [done|]. eapply List.Forall_impl; [|exact Hall]. simpl; lia.
  - constructor; [done|]. rewrite insert_by_priority_perm. constructor; [lia|done].
Qed.
End memory.
Arguments MemoryRegion : clear implicits.
Arguments FlatRange : clear implicits.
Arguments FlatView : clear implicits.
End Memory.

Module MemoryProps.
Import Memory.

(** C21: for every tree of memory regions whose fields have their C types and whose
    device and memory regions are smaller than the 64-bit space (of such a region
    [int128_get64] takes lengths, and would abort at [2 ^ 64]), [generate_memory_topology]
    does not abort; the flat view it computes (rendering into gaps, then
    merging) is sorted and without overlaps, and an address of the 64-bit space
    is dispatched to exactly the region the priority rules give: the first
    enabled subregion (in list order) that claims it, through aliases, and the
    containing region only where no subregion does; with the right offset and
    inherited flags. *)
Theorem flat_view_resolves {D : Type} `{EqDecision D} (m : MemoryRegion D) :
  sizes_ok m = true ->
  exists view, generate_memory_topology m = Ok view /\ view_ok view /\
    forall a, 0 <= a < 2 ^ 64 -> lookup_view view a = resolves m 0 no_flags a.
Proof. apply topology_ok. Qed.

(** A bus with a catch-all at low priority behind a device, and an alias of it. *)
Definition leaf (o : Z) (sz : Z) : MemoryRegion Z := mkMR o 0 sz 0 true true no_flags None 0 [].
Definition demo_device : MemoryRegion Z := leaf 1 0x10.
Definition demo_bus : MemoryRegion Z :=
  memory_region_add_subregion_overlap
    (memory_region_add_subregion
       (memory_region_add_subregion (mkMR 0 0 (2 ^ 64) 0 true false no_flags None 0 []) 0x100 demo_device)
       0x400 (mkMR 2 0 0x8 0 true false no_flags (Some demo_device) 0x8 []))
    0xF0 (leaf 3 0x100) (-1000).

Lemma flat_view_resolves_witness :
  sizes_ok demo_bus = true /\
  exists view, generate_memory_topology demo_bus = Ok view /\
    lookup_view view 0x104 = Some (1, 0x4, no_flags) /\
    lookup_view view 0x110 = Some (3, 0x20, no_flags) /\
    lookup_view view 0x401 = Some (1, 0x9, no_flags).
Proof.
  split; [done|]. destruct (flat_view_resolves demo_bus eq_refl) as (view & E & _ & H).
  exists view. split; [done|]. rewrite !H by done. done.
Defined.

(** The condition on the sizes is needed: two memories of the whole 64-bit space, one
    over the other, abort. *)
Example whole_space_aborts :
  generate_memory_topology (memory_region_add_subregion
    (memory_region_add_subregion (mkMR 0 0 (2 ^ 64) 0 true false no_flags None 0 []) 0 (leaf 1 (2 ^ 64))) 0 (leaf 2 (2 ^ 64)))
  = Fault AssertFailure.
Proof. by vm_compute. Qed.

(** [memory_region_add_subregion_overlap] keeps the subregions in order of
    decreasing priority and loses none of them; among equal priorities the
    region added last comes first, so it is the one that is visible. *)
Theorem add_subregion_priority {D : Type} (c r : MemoryRegion D) (offset prio : Z) :
  by_priority (subregions c) ->
  let subs := subregions (memory_region_add_subregion_overlap c offset r prio) in
  by_priority subs /\ subs ≡ₚ with_place r offset prio :: subregions c /\
  exists higher rest, subs = higher ++ with_place r offset prio :: rest /\
    subregions c = higher ++ rest /\
    Forall (fun o => prio < priority o) higher /\ Forall (fun o => priority o <= prio) rest.
Proof.
  intros Hs. simpl. split; [by apply insert_by_priority_sorted|].
  split; [apply insert_by_priority_perm|].
  induction Hs as [|other subs Hs IH Hall]; simpl; [exists [], []; by repeat constructor|].
  destruct (Z.leb_spec (priority other) prio).
  - exists [], (other :: subs). split_and!; [done..|]. constructor; [done|].
    eapply List.Forall_impl; [|exact Hall]. simpl; lia.
  - destruct IH as (hi & rest & E1 & E2 & H1 & H2). exists (other :: hi), rest. simpl.
    rewrite E1, <- E2. split_and!; auto.
Qed.

Lemma add_subregion_priority_witness :
  by_priority (subregions demo_bus) /\
  by_priority (subregions (memory_region_add_subregion_overlap demo_bus 0 (leaf 4 1) (-5))).
Proof.
  assert (H : by_priority (subregions demo_bus)) by (repeat constructor; simpl; lia).
  split; [exact H|]. exact (proj1 (add_subregion_priority demo_bus (leaf 4 1) 0 (-5) H)).
Defined.
End MemoryProps.
