(* ===== verification/Clock.v ===== *)
(** * The clock tree

    [hw/core/clock.c] and the macros of [include/hw/clock.h].  Clocks are
    heap objects that point to their source and list their children, so the
    model keeps a heap of them.  A callback is a function of the device that
    registered it; the model records which callbacks run, in which order.
    [clock_propagate_period] is recursive over the tree and takes fuel: the
    height of the tree is enough. *)

From S2P Require Import Prelude.

Module Clock.

Definition CLOCK_PERIOD_1SEC : Z := 1000000000 * 2 ^ 32.
Definition CLOCK_PERIOD_FROM_NS (ns : Z) : Z := u64 (ns * (CLOCK_PERIOD_1SEC / 1000000000)).
Definition CLOCK_PERIOD_FROM_HZ (hz : Z) : Z := if negb (hz =? 0) then CLOCK_PERIOD_1SEC / hz else 0.
Definition CLOCK_PERIOD_TO_HZ (per : Z) : Z := if negb (per =? 0) then CLOCK_PERIOD_1SEC / per else 0.

(** [muldiv64]: the product is 96 bits wide, the quotient is cut to 64. *)
Definition muldiv64 (a b c : Z) : Z := u64 (a * b / c).

Inductive ClockEvent := ClockUpdate | ClockPreUpdate.
Definition event_bit (e : ClockEvent) : Z := match e with ClockUpdate => 1 | ClockPreUpdate => 2 end.

Record Clock := mkClock {
  period : Z;
  callback : bool;
  callback_events : Z;
  multiplier : Z;
  divider : Z;
  source : option Z;
  children : list Z;
}.
#[global] Instance eta_Clock : Eta Clock := fun s =>
  mkClock (period s) (callback s) (callback_events s) (multiplier s) (divider s) (source s) (children s).
(** [clock_initfn]: the object is zeroed first. *)
Definition clock_initfn : Clock := mkClock 0 false 0 1 1 None [].
#[global] Instance clock_inhabited : Inhabited Clock := populate clock_initfn.

(** The clocks, and the callbacks that have run. *)
Record tree := mkTree { clocks : gmap Z Clock; calls : list (Z * ClockEvent) }.
#[global] Instance eta_tree : Eta tree := fun s => mkTree (clocks s) (calls s).
Definition get (t : tree) (clk : Z) : Clock := clocks t !!! clk.
Definition put (t : tree) (clk : Z) (c : Clock) : tree := t <| clocks := <[clk := c]> (clocks t) |>.

Definition clock_new (t : tree) (clk : Z) : tree := put t clk clock_initfn.
Definition clock_has_source (t : tree) (clk : Z) : bool := bool_decide (is_Some (source (get t clk))).
Definition clock_get (t : tree) (clk : Z) : Z := period (get t clk).
Definition clock_get_hz (t : tree) (clk : Z) : Z := u32 (CLOCK_PERIOD_TO_HZ (clock_get t clk)).

Definition clock_set_callback (t : tree) (clk : Z) (cb : bool) (events : Z) : tree :=
  put t clk ((get t clk) <| callback := cb |> <| callback_events := events |>).

Definition set_period (t : tree) (clk p : Z) : tree := put t clk ((get t clk) <| period := p |>).
Definition clock_set (t : tree) (clk p : Z) : tree * bool :=
  if period (get t clk) =? p then (t, false) else (set_period t clk p, true).
Definition clock_set_hz (t : tree) (clk hz : Z) : tree * bool := clock_set t clk (CLOCK_PERIOD_FROM_HZ hz).

(** The divider is not zero: see [clock_set_mul_div]. *)
Definition clock_get_child_period (t : tree) (clk : Z) : Z :=
  muldiv64 (period (get t clk)) (multiplier (get t clk)) (divider (get t clk)).

Definition clock_call_callback (t : tree) (clk : Z) (e : ClockEvent) : tree :=
  if callback (get t clk) && negb (Z.land (callback_events (get t clk)) (event_bit e) =? 0)
  then t <| calls := calls t ++ [(clk, e)] |> else t.

(** One child of [clock_propagate_period], before the recursive call. *)
Definition update_child (t : tree) (child p : Z) (call_callbacks : bool) : tree :=
  let t := if call_callbacks then clock_call_callback t child ClockPreUpdate else t in
  let t := set_period t child p in
  if call_callbacks then clock_call_callback t child ClockUpdate else t.

(** [None]: out of fuel. *)
Fixpoint clock_propagate_period (fuel : nat) (t : tree) (clk : Z) (call_callbacks : bool) : option tree :=
  match fuel with
  | O => None
  | S fuel =>
      let child_period := clock_get_child_period t clk in
      fold_left (fun acc child =>
        t ← acc;
        if negb (period (get t child) =? child_period)
        then clock_propagate_period fuel (update_child t child child_period call_callbacks) child call_callbacks
        else Some t) (children (get t clk)) (Some t)
  end.

Definition clock_propagate (fuel : nat) (t : tree) (clk : Z) : option tree :=
  clock_propagate_period fuel t clk true.

Definition clock_update (fuel : nat) (t : tree) (clk value : Z) : option tree :=
  let '(t, changed) := clock_set t clk value in
  if changed then clock_propagate fuel t clk else Some t.

(** The assignments of [clock_set_source], before the propagation. *)
Definition attach (t : tree) (clk src : Z) : tree :=
  let t := set_period t clk (clock_get_child_period t src) in
  let t := put t src ((get t src) <| children := clk :: children (get t src) |>) in
  put t clk ((get t clk) <| source := Some src |>).

Definition clock_set_source (fuel : nat) (t : tree) (clk src : Z) : res (option tree) :=
  do! assert (negb (clock_has_source t clk)) in
  Ok (clock_propagate_period fuel (attach t clk src) clk false).

Definition clock_set_mul_div (t : tree) (clk mul div : Z) : res (tree * bool) :=
  do! assert (negb (div =? 0)) in
  if (multiplier (get t clk) =? mul) && (divider (get t clk) =? div) then Ok (t, false)
  else Ok (put t clk ((get t clk) <| multiplier := mul |> <| divider := div |>), true).

(** QLIST_REMOVE takes the clock out of the list of its source. *)
Definition clock_disconnect (t : tree) (clk : Z) : tree :=
  match source (get t clk) with
  | None => t
  | Some src =>
      let t := put t clk ((get t clk) <| source := None |>) in
      put t src ((get t src) <| children := filter (fun c => c <> clk) (children (get t src)) |>)
  end.

(** ** Invariants of the tree *)

(** [t] is a forest of height at most [h]: [depth] counts the sources above a clock. *)
Record forest (depth : Z -> nat) (h : nat) (t : tree) : Prop := {
  forest_links c ch : ch ∈ children (get t c) -> source (get t ch) = Some c;
  forest_depth c ch : ch ∈ children (get t c) -> depth ch = S (depth c);
  forest_height c : (depth c <= h)%nat;
}.

(** Every child runs at the period its source gives it, but for the children
    of the clocks in [P]. *)
Definition settled_except (P : Z -> Prop) (t : tree) : Prop :=
  forall c ch, ~ P c -> ch ∈ children (get t c) -> period (get t ch) = clock_get_child_period t c.
Definition settled (t : tree) : Prop := settled_except (fun _ => False) t.

(** [t'] differs from [t] only in the periods of the clocks in [P]. *)
Definition changed (P : Z -> Prop) (t t' : tree) : Prop :=
  forall c, exists p, get t' c = (get t c) <| period := p |> /\ (~ P c -> get t' c = get t c).

Lemma get_put (t : tree) (a b : Z) (c : Clock) :
  get (put t a c) b = if decide (a = b) then c else get t b.
Proof.
  unfold get, put. rsimpl. case_decide; subst.
  - apply lookup_total_insert_eq.
  - by apply lookup_total_insert_ne.
Qed.

Lemma get_call_callback (t : tree) (clk b : Z) (e : ClockEvent) :
  get (clock_call_callback t clk e) b = get t b.
Proof. unfold clock_call_callback, get. by case_match; rsimpl. Qed.

Lemma get_update_child (t : tree) (ch p b : Z) (cb : bool) :
  get (update_child t ch p cb) b = if decide (ch = b) then (get t ch) <| period := p |> else get t b.
Proof.
  unfold update_child, set_period. by destruct cb; rewrite ?get_call_callback, get_put, ?get_call_callback.
Qed.

Lemma changed_refl (P : Z -> Prop) (t : tree) : changed P t t.
Proof. intros c. exists (period (get t c)). split; [|done]. by destruct (get t c). Qed.

Lemma changed_trans (P : Z -> Prop) (t1 t2 t3 : tree) :
  changed P t1 t2 -> changed P t2 t3 -> changed P t1 t3.
Proof.
  intros H1 H2 c. destruct (H1 c) as (p1 & E1 & N1), (H2 c) as (p2 & E2 & N2). exists p2. split.
  - rewrite E2, E1. by destruct (get t1 c).
  - intros HP. by rewrite N2, N1.
Qed.

Lemma changed_weaken (P Q : Z -> Prop) (t t' : tree) :
  (forall c, P c -> Q c) -> changed P t t' -> changed Q t t'.
Proof. intros HPQ H c. destruct (H c) as (p & E & N). exists p. split; [done|]. auto. Qed.

Lemma changed_children (P : Z -> Prop) (t t' : tree) (c : Z) :
  changed P t t' -> children (get t' c) = children (get t c) /\ source (get t' c) = source (get t c).
Proof. intros H. destruct (H c) as (p & -> & _). by rsimpl. Qed.

Lemma changed_period (P : Z -> Prop) (t t' : tree) (c : Z) :
  changed P t t' -> ~ P c ->
  period (get t' c) = period (get t c) /\ clock_get_child_period t' c = clock_get_child_period t c.
Proof. intros H HP. destruct (H c) as (p & _ & E). unfold clock_get_child_period. by rewrite E. Qed.

Lemma changed_forest (P : Z -> Prop) (depth : Z -> nat) (h : nat) (t t' : tree) :
  changed P t t' -> forest depth h t -> forest depth h t'.
Proof.
  intros Hc [F1 F2 F3]. split; [intros c ch|intros c ch|done].
  - rewrite (proj1 (changed_children _ _ _ c Hc)), (proj2 (changed_children _ _ _ ch Hc)). auto.
  - rewrite (proj1 (changed_children _ _ _ c Hc)). auto.
Qed.

Lemma update_child_changed (t : tree) (ch p : Z) (cb : bool) :
  changed (fun c => c = ch) t (update_child t ch p cb).
Proof.
  intros c. rewrite get_update_child. case_decide; subst.
  - exists p. by split; [|intros []].
  - exists (period (get t c)). split; [|done]. by destruct (get t c).
Qed.

(** Updating one child settles its edge and unsettles its own children only. *)
Lemma update_child_settled (P : Z -> Prop) (depth : Z -> nat) (h : nat) (t : tree) (clk ch p : Z) (cb : bool) :
  forest depth h t -> ch ∈ children (get t clk) -> settled_except (fun c => c = clk \/ P c) t ->
  settled_except (fun c => c = ch \/ (c = clk \/ P c)) (update_child t ch p cb).
Proof.
  intros F Hch Hs c x Hc. pose proof (update_child_changed t ch p cb) as Hu.
  rewrite (proj1 (changed_children _ _ _ c Hu)). intros Hx.
  assert (x <> ch).
  { intros ->. apply (forest_links _ _ _ F) in Hx, Hch. rewrite Hx in Hch. injection Hch as ->. apply Hc; auto. }
  rewrite (proj1 (changed_period _ _ _ x Hu ltac:(done))).
  rewrite (proj2 (changed_period _ _ _ c Hu ltac:(intros ->; apply Hc; auto))).
  apply Hs; [|done]. intros HP; apply Hc; auto.
Qed.

(** The loop over the children, for a recursive call [rec] that settles a child. *)
Lemma propagate_fold (depth : Z -> nat) (h : nat) (P : Z -> Prop) (clk p : Z) (cb : bool)
    (rec : tree -> Z -> option tree) :
  (forall Q t ch, depth ch = S (depth clk) -> forest depth h t -> settled_except (fun c => c = ch \/ Q c) t ->
    exists t', rec t ch = Some t' /\ changed (fun c => depth ch < depth c)%nat t t' /\ settled_except Q t') ->
  forall l t, (forall ch, ch ∈ l -> ch ∈ children (get t clk)) -> forest depth h t ->
  settled_except (fun c => c = clk \/ P c) t ->
  exists t', fold_left (fun acc ch => t ← acc;
        if negb (period (get t ch) =? p) then rec (update_child t ch p cb) ch else Some t) l (Some t) = Some t' /\
    changed (fun c => depth clk < depth c)%nat t t' /\ settled_except (fun c => c = clk \/ P c) t' /\
    (forall ch, depth ch = S (depth clk) -> ch ∈ l \/ period (get t ch) = p -> period (get t' ch) = p).
Proof.
  intros Hrec. induction l as [|ch l IHl]; intros t Hl F Hs; simpl.
  { exists t. split_and!; [done|apply changed_refl|done|]. intros ch _ [[]%not_elem_of_nil|?]; done. }
  destruct (Z.eqb_spec (period (get t ch)) p) as [Hp|Hp]; simpl.
  { destruct (IHl t) as (t' & -> & C & S' & D); [set_solver|done..|]. exists t'. split_and!; [done..|].
    intros x Hx [[->|]%elem_of_cons|]; auto. }
  assert (Hch : ch ∈ children (get t clk)) by (apply Hl; set_solver).
  pose proof (forest_depth _ _ _ F _ _ Hch) as Hd. pose proof (update_child_changed t ch p cb) as Hu.
  destruct (Hrec (fun c => c = clk \/ P c) (update_child t ch p cb) ch) as (t1 & -> & C1 & S1);
    [done|by eapply changed_forest|by eapply update_child_settled|].
  assert (C2 : changed (fun c => depth clk < depth c)%nat t t1).
  { eapply changed_trans; (eapply changed_weaken; [|eassumption]); simpl; [by intros c ->; lia|intros c; lia]. }
  destruct (IHl t1) as (t' & -> & C & S' & D);
    [|by eapply changed_forest|done|].
  { intros x Hx. rewrite (proj1 (changed_children _ _ _ clk C2)). apply Hl. set_solver. }
  exists t'. split_and!; [done|by eapply changed_trans|done|]. intros x Hx Hor. apply D; [done|].
  destruct (decide (x ∈ l)); [by left|right].
  rewrite (proj1 (changed_period _ _ _ x C1 ltac:(cbn beta; lia))), get_update_child.
  case_decide; subst; [by rsimpl|]. destruct Hor as [[->|]%elem_of_cons|]; done.
Qed.

(** Propagation with fuel for the height below [clk] ends and settles it. *)
Lemma propagate_settles (depth : Z -> nat) (h fuel : nat) (P : Z -> Prop) (t : tree) (clk : Z) (cb : bool) :
  forest depth h t -> (h < fuel + depth clk)%nat -> settled_except (fun c => c = clk \/ P c) t ->
  exists t', clock_propagate_period fuel t clk cb = Some t' /\
    changed (fun c => depth clk < depth c)%nat t t' /\ settled_except P t'.
Proof.
  revert P t clk; induction fuel as [|fuel IH]; intros P t clk F Hf Hs.
  { pose proof (forest_height _ _ _ F clk). lia. }
  cbn [clock_propagate_period].
  destruct (propagate_fold depth h P clk (clock_get_child_period t clk) cb
    (fun t ch => clock_propagate_period fuel t ch cb)) with (l := children (get t clk)) (t := t)
    as (t' & -> & C & S' & D); [|done..|].
  { intros Q t1 ch Hd F1 Hs1. apply IH; [done|lia|done]. }
  exists t'. split_and!; [done..|]. intros c ch Hc Hch.
  destruct (decide (c = clk)) as [->|Hne]; [|apply S'; [tauto|done]].
  rewrite (proj1 (changed_children _ _ _ clk C)) in Hch.
  rewrite (proj2 (changed_period _ _ _ clk C ltac:(cbn beta; lia))).
  apply D; [by apply (forest_depth _ _ _ F)|by left].
Qed.

(** Without callbacks nothing is recorded. *)
Lemma propagate_silent (fuel : nat) (t t' : tree) (clk : Z) :
  clock_propagate_period fuel t clk false = Some t' -> calls t' = calls t.
Proof.
  revert t t' clk; induction fuel as [|fuel IH]; intros t t' clk; [done|]. cbn [clock_propagate_period].
  generalize (clock_get_child_period t clk) as p, (children (get t clk)) as l. intros p l.
  revert t; induction l as [|ch l IHl]; intros t; cbn [fold_left]; [by intros [= ->]|].
  cbn [mbind option_bind]. destruct (negb _); [|apply IHl].
  destruct (clock_propagate_period fuel _ ch false) as [t1|] eqn:E; intros H.
  - apply IH in E. apply IHl in H. rewrite H, E. unfold update_child, set_period, put. by rsimpl.
  - exfalso. clear -H. induction l; simpl in H; [done|auto].
Qed.

Lemma get_attach (t : tree) (clk src c : Z) :
  src <> clk ->
  get (attach t clk src) c =
    if decide (c = clk) then (get t clk) <| period := clock_get_child_period t src |> <| source := Some src |>
    else if decide (c = src) then (get t src) <| children := clk :: children (get t src) |>
    else get t c.
Proof.
  intros Hne. unfold attach, set_period. rewrite !get_put. repeat case_decide; subst; done.
Qed.

Lemma attach_distinct (depth : Z -> nat) (h : nat) (t : tree) (clk src : Z) :
  forest depth h (attach t clk src) -> src <> clk.
Proof.
  intros F ->. cut (depth clk = S (depth clk)); [lia|]. apply (forest_depth _ _ _ F).
  unfold attach, set_period. rewrite !get_put, !decide_True by done. rsimpl. apply list_elem_of_here.
Qed.

Lemma attach_settled (t : tree) (clk src : Z) :
  settled t -> src <> clk -> (forall c, clk ∉ children (get t c)) ->
  settled_except (fun c => c = clk \/ False) (attach t clk src).
Proof.
  intros Hs Hne Hnew c ch Hc Hch. assert (c <> clk) by tauto.
  assert (E : clock_get_child_period (attach t clk src) c = clock_get_child_period t c).
  { unfold clock_get_child_period. rewrite get_attach, decide_False by done. by case_decide; subst; rsimpl. }
  rewrite E. rewrite (get_attach t clk src ch) by done. rewrite (get_attach t clk src c) in Hch by done.
  rewrite decide_False in Hch by done.
  destruct (decide (ch = clk)) as [->|Hch'].
  - rsimpl. destruct (decide (c = src)) as [->|]; [done|]. by apply Hnew in Hch.
  - assert (ch ∈ children (get t c)).
    { destruct (decide (c = src)) as [->|]; [|done]. rsimpl in Hch. set_solver. }
    rewrite <- (Hs c ch) by auto. by destruct (decide (ch = src)) as [->|]; rsimpl.
Qed.
End Clock.

Module ClockProps.
Import Clock.

(** A frequency whose square is at most [CLOCK_PERIOD_1SEC] (every frequency
    up to 2 GHz) set with [clock_set_hz] is read back by [clock_get_hz]
    unchanged, although the clock stores only the rounded period. *)
Theorem clock_hz_roundtrip (t : tree) (clk hz : Z) :
  0 <= hz < 2 ^ 32 -> hz * hz <= CLOCK_PERIOD_1SEC ->
  clock_get_hz (fst (clock_set_hz t clk hz)) clk = hz.
Proof.
  intros Hr Hsq. unfold clock_get_hz, clock_set_hz, clock_set, clock_get.
  assert (E : forall t', period (get t' clk) = CLOCK_PERIOD_FROM_HZ hz ->
    u32 (CLOCK_PERIOD_TO_HZ (period (get t' clk))) = hz).
  { intros t' ->. unfold CLOCK_PERIOD_TO_HZ, CLOCK_PERIOD_FROM_HZ.
    destruct (Z.eqb_spec hz 0) as [->|Hnz]; [done|]. simpl negb. cbv iota.
    set (q := CLOCK_PERIOD_1SEC / hz).
    pose proof (Z.div_mod CLOCK_PERIOD_1SEC hz ltac:(lia)) as Hdm. fold q in Hdm.
    pose proof (Z.mod_pos_bound CLOCK_PERIOD_1SEC hz ltac:(lia)) as Hm.
    assert (hz <= q) by (apply Z.div_le_lower_bound; lia).
    destruct (Z.eqb_spec q 0); [lia|]. simpl negb. cbv iota.
    rewrite <- (Z.div_unique CLOCK_PERIOD_1SEC q hz (CLOCK_PERIOD_1SEC mod hz)) by lia.
    by apply u_small. }
  case_match; simpl; apply E; [lia|]. unfold set_period. rewrite get_put, decide_True by done. by rsimpl.
Qed.

(** C24: in a forest of clocks of height [h] where every clock runs at the period
    its source gives it, [clock_update] of a root clock ends with [h + 1] levels
    of recursion, the root has the new period, nothing but periods has changed,
    and again every clock runs at the period its source gives it. *)
Theorem clock_update_settles (depth : Z -> nat) (h : nat) (t : tree) (clk value : Z) :
  forest depth h t -> settled t -> source (get t clk) = None ->
  exists t', clock_update (S h) t clk value = Some t' /\ clock_get t' clk = value /\
    changed (fun c => c = clk \/ (depth clk < depth c)%nat) t t' /\ settled t'.
Proof.
  intros F Hs Hroot. unfold clock_update, clock_set.
  destruct (Z.eqb_spec (period (get t clk)) value).
  { exists t. split_and!; [done..|apply changed_refl|done]. }
  assert (C : changed (fun c => c = clk) t (set_period t clk value)).
  { exact (update_child_changed t clk value false). }
  destruct (propagate_settles depth h (S h) (fun _ => False) (set_period t clk value) clk true)
    as (t' & E & C' & S'); [by eapply changed_forest|lia| |].
  { intros c ch Hc. rewrite (proj1 (changed_children _ _ _ c C)). intros Hch.
    rewrite (proj1 (changed_period _ _ _ ch C ltac:(intros ->; apply (forest_links _ _ _ F) in Hch; congruence))).
    rewrite (proj2 (changed_period _ _ _ c C ltac:(intros ->; apply Hc; auto))). by apply Hs; [auto|]. }
  exists t'. split_and!; [done| | |done].
  - unfold clock_get. rewrite (proj1 (changed_period _ _ _ clk C' ltac:(cbn beta; lia))).
    unfold set_period. rewrite get_put, decide_True by done. by rsimpl.
  - eapply changed_trans; (eapply changed_weaken; [|eassumption]); simpl; auto.
Qed.

(** A 24 MHz root, a clock that feeds its children at an eighth, and its child. *)
Definition demo_tree : tree :=
  put (put (put (mkTree ∅ []) 0 (mkClock (CLOCK_PERIOD_FROM_HZ 24000000) false 0 1 1 None [1]))
    1 (mkClock (CLOCK_PERIOD_FROM_HZ 24000000) false 0 8 1 (Some 0) [2]))
    2 (mkClock (8 * CLOCK_PERIOD_FROM_HZ 24000000) true 3 1 1 (Some 1) []).
Definition demo_depth (c : Z) : nat := if c =? 1 then 1%nat else if c =? 2 then 2%nat else 0%nat.

Lemma get_empty (c : Z) : get (mkTree ∅ []) c = clock_initfn.
Proof. unfold get. simpl. by rewrite lookup_total_empty. Qed.

Lemma demo_children (c ch : Z) :
  ch ∈ children (get demo_tree c) -> c = 0 /\ ch = 1 \/ c = 1 /\ ch = 2.
Proof.
  unfold demo_tree. rewrite !get_put, get_empty.
  repeat case_decide; simpl; rewrite ?list_elem_of_singleton; subst; auto; by intros []%not_elem_of_nil.
Qed.

Lemma demo_forest : forest demo_depth 2 demo_tree.
Proof.
  split; [intros c ch [[-> ->]|[-> ->]]%demo_children; done..|].
  intros c. unfold demo_depth. repeat case_match; lia.
Qed.

Lemma demo_settled : settled demo_tree.
Proof. by intros c ch _ [[-> ->]|[-> ->]]%demo_children; vm_compute. Qed.

Lemma clock_hz_roundtrip_witness :
  clock_get_hz (fst (clock_set_hz demo_tree 0 80000000)) 0 = 80000000.
Proof. apply (clock_hz_roundtrip demo_tree 0 80000000); [lia|by vm_compute]. Defined.

Lemma clock_update_settles_witness :
  exists t', clock_update 3 demo_tree 0 100 = Some t' /\ clock_get t' 0 = 100 /\
    changed (fun c => c = 0 \/ (demo_depth 0 < demo_depth c)%nat) demo_tree t' /\ settled t'.
Proof. exact (clock_update_settles demo_depth 2 demo_tree 0 100 demo_forest demo_settled eq_refl). Defined.

(** Connecting a clock without a source below [src], where the result is
    still a forest, gives the clock and everything below it the period that
    follows from [src], and runs no callback; a clock that has a source already
    cannot be connected again. *)
Theorem clock_set_source_settles (depth : Z -> nat) (h : nat) (t : tree) (clk src : Z) :
  settled t -> (forall c, clk ∈ children (get t c) -> source (get t clk) = Some c) ->
  forest depth h (attach t clk src) ->
  (source (get t clk) = None ->
   exists t', clock_set_source (S h) t clk src = Ok (Some t') /\
     clock_get t' clk = clock_get_child_period t src /\ clock_has_source t' clk = true /\
     calls t' = calls t /\ settled t') /\
  (source (get t clk) <> None -> clock_set_source (S h) t clk src = Fault AssertFailure).
Proof.
  intros Hs Hl F. pose proof (attach_distinct _ _ _ _ _ F) as Hne. unfold clock_set_source, clock_has_source.
  split; intros Hsrc; [|by destruct (source (get t clk)) eqn:E; [rewrite bool_decide_eq_true_2|]].
  rewrite Hsrc, bool_decide_eq_false_2 by (by intros [? ?]). cbn [negb assert res_bind].
  destruct (propagate_settles depth h (S h) (fun _ => False) (attach t clk src) clk false)
    as (t' & E & C & S'); [done|lia|apply attach_settled; [done..|]|].
  { intros c Hc. apply Hl in Hc. congruence. }
  exists t'. split_and!; [by rewrite E| | | |done].
  - unfold clock_get. rewrite (proj1 (changed_period _ _ _ clk C ltac:(cbn beta; lia))).
    rewrite get_attach, decide_True by done. by rsimpl.
  - rewrite (proj2 (changed_children _ _ _ clk C)), get_attach, decide_True by done. rsimpl.
    by apply bool_decide_eq_true_2.
  - apply propagate_silent in E. rewrite E. unfold attach, set_period, put. by rsimpl.
Qed.

Lemma demo_attach_forest : forest (fun c => if c =? 3 then 1%nat else demo_depth c) 2 (attach demo_tree 3 0).
Proof.
  assert (H : forall c ch, ch ∈ children (get (attach demo_tree 3 0) c) ->
    c = 0 /\ ch = 3 \/ c = 0 /\ ch = 1 \/ c = 1 /\ ch = 2).
  { intros c ch. rewrite get_attach by done. repeat case_decide; subst; rsimpl.
    - by intros [[? ?]|[? ?]]%demo_children.
    - intros [->|[[_ ->]|[? ?]]%demo_children]%elem_of_cons; auto; done.
    - intros [[? ?]|[? ?]]%demo_children; auto. }
  split; [intros c ch [[-> ->]|[[-> ->]|[-> ->]]]%H; done..|].
  intros c. unfold demo_depth. repeat case_match; lia.
Qed.

Lemma clock_set_source_settles_witness :
  exists t', clock_set_source 3 demo_tree 3 0 = Ok (Some t') /\
    clock_get t' 3 = clock_get_child_period demo_tree 0 /\ clock_has_source t' 3 = true /\
    calls t' = calls demo_tree /\ settled t'.
Proof.
  apply (clock_set_source_settles (fun c => if c =? 3 then 1%nat else demo_depth c) 2 demo_tree 3 0 demo_settled);
    [by intros c [[? ?]|[? ?]]%demo_children|exact demo_attach_forest|done].
Defined.
End ClockProps.
