(* ===== verification/Syscfg.v ===== *)
(** * The system configuration block

    [hw/misc/nxps32k358_syscfg.c]: five registers behind a 0x400-byte window,
    three of them with a mask of writable bits. *)

From S2P Require Import Prelude.

Module Syscfg.

Definition SYSCFG_CFGR1 : Z := 0x00.
Definition SYSCFG_MEMRMP : Z := 0x04.
Definition SYSCFG_SCSR : Z := 0x08.
Definition SYSCFG_CFGR2 : Z := 0x0C.
Definition SYSCFG_SKR : Z := 0x10.

Definition ACTIVABLE_BITS_MEMRP : Z := 0x000000FF.
Definition ACTIVABLE_BITS_CFGR1 : Z := 0x0000FFFF.
Definition ACTIVABLE_BITS_SKR : Z := 0x000000FF.

Record NXPS32K358SYSCFGState := mkSyscfg { memrmp : Z; cfgr1 : Z; scsr : Z; cfgr2 : Z; skr : Z }.
#[global] Instance eta_SYSCFGState : Eta NXPS32K358SYSCFGState := fun s =>
  mkSyscfg (memrmp s) (cfgr1 s) (scsr s) (cfgr2 s) (skr s).

Definition nxps32k358_syscfg_hold_reset (s : NXPS32K358SYSCFGState) : NXPS32K358SYSCFGState :=
  s <| memrmp := 0 |> <| cfgr1 := 0x7C000001 |> <| scsr := 0 |> <| cfgr2 := 0 |> <| skr := 0 |>.

Definition nxps32k358_syscfg_read (s : NXPS32K358SYSCFGState) (addr : Z) : Z :=
  if addr =? SYSCFG_MEMRMP then memrmp s
  else if addr =? SYSCFG_CFGR1 then cfgr1 s
  else if addr =? SYSCFG_SCSR then scsr s
  else if addr =? SYSCFG_CFGR2 then cfgr2 s
  else if addr =? SYSCFG_SKR then skr s
  else 0.

(** The 64-bit value is cut to the width of the register. *)
Definition nxps32k358_syscfg_write (s : NXPS32K358SYSCFGState) (addr value : Z) : NXPS32K358SYSCFGState :=
  if addr =? SYSCFG_MEMRMP then s <| memrmp := u32 (Z.land value ACTIVABLE_BITS_MEMRP) |>
  else if addr =? SYSCFG_CFGR1 then s <| cfgr1 := u32 (Z.land value ACTIVABLE_BITS_CFGR1) |>
  else if addr =? SYSCFG_SCSR then s <| scsr := u32 value |>
  else if addr =? SYSCFG_CFGR2 then s <| cfgr2 := u32 value |>
  else if addr =? SYSCFG_SKR then s <| skr := u32 (Z.land value ACTIVABLE_BITS_SKR) |>
  else s.

(** [connected]: [clock_has_source(s->clk)]. *)
Definition nxps32k358_syscfg_realize (connected : bool) (s : NXPS32K358SYSCFGState)
    : unit + NXPS32K358SYSCFGState :=
  if negb connected then inl tt else inr s.

(** The bits a write can set, per register. *)
Definition writable (addr : Z) : Z :=
  if addr =? SYSCFG_MEMRMP then ACTIVABLE_BITS_MEMRP
  else if addr =? SYSCFG_CFGR1 then ACTIVABLE_BITS_CFGR1
  else if addr =? SYSCFG_SKR then ACTIVABLE_BITS_SKR
  else if (addr =? SYSCFG_SCSR) || (addr =? SYSCFG_CFGR2) then Z.ones 32
  else 0.

(** A write to the configuration block changes the register at that offset
    to the writable bits of the value and no other register; a write to any
    other offset is ignored, and reads there give zero. *)
Theorem syscfg_write_read (s : NXPS32K358SYSCFGState) (addr value addr' : Z) :
  nxps32k358_syscfg_read (nxps32k358_syscfg_write s addr value) addr' =
    if addr' =? addr then Z.land value (writable addr) else nxps32k358_syscfg_read s addr'.
Proof.
  assert (M : forall m, m = 0xFF \/ m = 0xFFFF -> u32 (Z.land value m) = Z.land value m).
  { intros m Hm. apply u_small. unfold is_u. assert (E : exists k, 0 <= k <= 16 /\ m = Z.ones k).
    { destruct Hm as [->| ->]; [by exists 8|by exists 16]. }
    destruct E as (k & Hk & ->). rewrite Z.land_ones by lia.
    pose proof (Z.mod_pos_bound value (2 ^ k) ltac:(lia)).
    assert (2 ^ k <= 2 ^ 16) by (apply Z.pow_le_mono_r; lia). lia. }
  assert (L : u32 value = Z.land value (Z.ones 32)) by (by rewrite Z.land_ones by lia).
  unfold nxps32k358_syscfg_read, nxps32k358_syscfg_write, writable.
  unfold ACTIVABLE_BITS_MEMRP, ACTIVABLE_BITS_CFGR1, ACTIVABLE_BITS_SKR,
    SYSCFG_CFGR1, SYSCFG_MEMRMP, SYSCFG_SCSR, SYSCFG_CFGR2, SYSCFG_SKR.
  destruct (decide (addr = 4 \/ addr = 0 \/ addr = 8 \/ addr = 12 \/ addr = 16)) as [Hin|Hout].
  - destruct Hin as [->|[->|[->|[->| ->]]]]; cbn [Z.eqb Pos.eqb orb]; rsimpl; rewrite ?M by auto;
      rewrite ?L; repeat case_match; try done; lia.
  - destruct (Z.eqb_spec addr 4), (Z.eqb_spec addr 0), (Z.eqb_spec addr 8), (Z.eqb_spec addr 12),
      (Z.eqb_spec addr 16); try (exfalso; lia). cbn [orb]. rewrite Z.land_0_r.
    repeat case_match; try done; lia.
Qed.

(** Reset gives [CFGR1] bits 26 to 30, which no write can give it. *)
Theorem syscfg_reset_unwritable (s s' : NXPS32K358SYSCFGState) (value : Z) :
  Z.land (cfgr1 (nxps32k358_syscfg_hold_reset s)) (Z.lnot (writable SYSCFG_CFGR1)) = 0x7C000000 /\
  cfgr1 (nxps32k358_syscfg_write s' SYSCFG_CFGR1 value) <> cfgr1 (nxps32k358_syscfg_hold_reset s).
Proof.
  split; [done|]. unfold nxps32k358_syscfg_write, nxps32k358_syscfg_hold_reset. simpl. rsimpl.
  unfold ACTIVABLE_BITS_CFGR1. change 0xFFFF with (Z.ones 16). rewrite Z.land_ones by lia. unfold u32, u.
  pose proof (Z.mod_pos_bound value (2 ^ 16) ltac:(lia)). rewrite Z.mod_small by lia. lia.
Qed.
End Syscfg.
