(* ===== verification/Soc.v ===== *)
(** * The S32K358 system-on-chip and its board

    [hw/arm/nxps32k358_soc.c], [hw/arm/nxps32k358discovery.c] and the helper
    [create_unimplemented_device]: the memory map, the clock tree, the
    interrupt wiring and the sensors that [nxps32k358_soc_realize] sets up, with
    its error returns.  The part of [armv7m_realize] that creates the processor
    core is the parameter [cpu_ok]. *)

From stdpp Require Import strings.
From S2P Require Import Prelude Words Fifo Ssi Lpspi Lpuart Memory Clock Syscfg.

Module Soc.
Import Memory Clock.

(** ** Constants *)

Definition NXP_NUM_LPUARTS : Z := 16.
Definition NXP_NUM_LPSPIS : Z := 6.
Definition CODE_FLASH_BASE_ADDRESS : Z := 0x00400000.
Definition CODE_FLASH_BLOCK_SIZE : Z := 2 * 1024 * 1024.
Definition DATA_FLASH_BASE_ADDRESS : Z := 0x10000000.
Definition DATA_FLASH_SIZE : Z := 128 * 1024.
Definition SRAM_BASE_ADDRESS : Z := 0x20400000.
Definition SRAM_BLOCK_SIZE : Z := 256 * 1024.
Definition DTCM_BASE_ADDRESS : Z := 0x20000000.
Definition DTCM_SIZE : Z := 128 * 1024 + 1.
Definition ITCM_BASE_ADDRESS : Z := 0x00000000.
Definition ITCM_SIZE : Z := 64 * 1024.
Definition SYSCLK_FRQ : Z := 24000000.

Definition lpuart_addr : list Z :=
  [0x40328000; 0x4032C000; 0x40330000; 0x40334000; 0x40338000; 0x4033C000; 0x40340000; 0x40344000;
   0x4048C000; 0x40490000; 0x40494000; 0x40498000; 0x4049C000; 0x404A0000; 0x404A4000; 0x404A8000].
Definition lpspi_addr : list Z :=
  [0x40358000; 0x4035C000; 0x40360000; 0x40364000; 0x404BC000; 0x404C0000].
(** Entries without an initialiser are zero. *)
Definition lpuart_irq : list Z := [141; 142; 143; 144; 145; 146; 147] ++ replicate 9 0.
Definition lpspi_irq : list Z := [165; 166; 167; 168; 169; 170].

(** Name, base and size of [create_unimplemented_devices]. *)
Definition unimplemented_devices : list (string * Z * Z) :=
  [
   ("hse_xbic"%string, 0x40008000, 0x4000);
   ("erm1"%string, 0x4000C000, 0x4000);
   ("pfc1"%string, 0x40068000, 0x4000);
   ("pfc1_alt"%string, 0x4006C000, 0x4000);
   ("swt_3"%string, 0x40070000, 0x4000);
   ("trgmux"%string, 0x40080000, 0x4000);
   ("bctu"%string, 0x40084000, 0x4000);
   ("emios0"%string, 0x40088000, 0x4000);
   ("emios1"%string, 0x4008C000, 0x4000);
   ("emios2"%string, 0x40090000, 0x4000);
   ("lcu0"%string, 0x40098000, 0x4000);
   ("lcu1"%string, 0x4009C000, 0x4000);
   ("adc_0"%string, 0x400A0000, 0x4000);
   ("adc_1"%string, 0x400A4000, 0x4000);
   ("adc_2"%string, 0x400A8000, 0x4000);
   ("pit0"%string, 0x400B0000, 0x4000);
   ("pit1"%string, 0x400B4000, 0x4000);
   ("mu_2_mua"%string, 0x400B8000, 0x4000);
   ("mu_2_mub"%string, 0x400BC000, 0x4000);
   ("mu_3_mua"%string, 0x400C4000, 0x4000);
   ("mu_3_mub"%string, 0x400C8000, 0x4000);
   ("mu_4_mua"%string, 0x400CC000, 0x4000);
   ("mu_4_mub"%string, 0x400D0000, 0x4000);
   ("axbs"%string, 0x40200000, 0x4000);
   ("system_xbic"%string, 0x40204000, 0x4000);
   ("periph_xbic"%string, 0x40208000, 0x4000);
   ("edma"%string, 0x4020C000, 0x4000);
   ("edma_tcd_0"%string, 0x40210000, 0x4000);
   ("edma_tcd_1"%string, 0x40214000, 0x4000);
   ("edma_tcd_2"%string, 0x40218000, 0x4000);
   ("edma_tcd_3"%string, 0x4021C000, 0x4000);
   ("edma_tcd_4"%string, 0x40220000, 0x4000);
   ("edma_tcd_5"%string, 0x40224000, 0x4000);
   ("edma_tcd_6"%string, 0x40228000, 0x4000);
   ("edma_tcd_7"%string, 0x4022C000, 0x4000);
   ("edma_tcd_8"%string, 0x40230000, 0x4000);
   ("edma_tcd_9"%string, 0x40234000, 0x4000);
   ("edma_tcd_10"%string, 0x40238000, 0x4000);
   ("edma_tcd_11"%string, 0x4023C000, 0x4000);
   ("debug_apb_page0"%string, 0x40240000, 0x4000);
   ("debug_apb_page1"%string, 0x40244000, 0x4000);
   ("debug_apb_page2"%string, 0x40248000, 0x4000);
   ("debug_apb_page3"%string, 0x4024C000, 0x4000);
   ("debug_apb_paged_area"%string, 0x40250000, 0x4000);
   ("sda-ap"%string, 0x40254000, 0x4000);
   ("eim0"%string, 0x40258000, 0x4000);
   ("erm0"%string, 0x4025C000, 0x4000);
   ("mscm"%string, 0x40260000, 0x4000);
   ("pram_0"%string, 0x40264000, 0x4000);
   ("pfc"%string, 0x40268000, 0x4000);
   ("pfc_alt"%string, 0x4026C000, 0x4000);
   ("swt_0"%string, 0x40270000, 0x4000);
   ("stm_0"%string, 0x40274000, 0x4000);
   ("xrdc"%string, 0x40278000, 0x4000);
   ("intm"%string, 0x4027C000, 0x4000);
   ("dmamux_0"%string, 0x40280000, 0x4000);
   ("dmamux_1"%string, 0x40284000, 0x4000);
   ("rtc"%string, 0x40288000, 0x4000);
   ("mc_rgm"%string, 0x4028C000, 0x4000);
   ("siul_virtwrapper_pdac0_hse"%string, 0x40290000, 0x4000);
   ("siul_virtwrapper_pdac1_m7_0"%string, 0x40298000, 0x4000);
   ("siul_virtwrapper_pdac2_m7_1"%string, 0x402A0000, 0x4000);
   ("siul_virtwrapper_pdac3"%string, 0x402A8000, 0x4000);
   ("dcm"%string, 0x402AC000, 0x4000);
   ("wkpu"%string, 0x402B4000, 0x4000);
   ("cmu"%string, 0x402BC000, 0x4000);
   ("tspc"%string, 0x402C4000, 0x4000);
   ("sirc"%string, 0x402C8000, 0x4000);
   ("sxosc"%string, 0x402CC000, 0x4000);
   ("firc"%string, 0x402D0000, 0x4000);
   ("fxosc"%string, 0x402D4000, 0x4000);
   ("mc_cgm"%string, 0x402D8000, 0x4000);
   ("mc_me"%string, 0x402DC000, 0x4000);
   ("pll"%string, 0x402E0000, 0x4000);
   ("pll2"%string, 0x402E4000, 0x4000);
   ("pmc"%string, 0x402E8000, 0x4000);
   ("fmu"%string, 0x402EC000, 0x4000);
   ("fmu_alt"%string, 0x402F0000, 0x4000);
   ("siul_virtwrapper_pdac4_m7_2"%string, 0x402F4000, 0x4000);
   ("pit2"%string, 0x402FC000, 0x4000);
   ("pit3"%string, 0x40300000, 0x4000);
   ("flexcan_0"%string, 0x40304000, 0x4000);
   ("flexcan_1"%string, 0x40308000, 0x4000);
   ("flexcan_2"%string, 0x4030C000, 0x4000);
   ("flexcan_3"%string, 0x40310000, 0x4000);
   ("flexcan_4"%string, 0x40314000, 0x4000);
   ("flexcan_5"%string, 0x40318000, 0x4000);
   ("flexcan_6"%string, 0x4031C000, 0x4000);
   ("flexcan_7"%string, 0x40320000, 0x4000);
   ("flexio"%string, 0x40324000, 0x4000);
   ("lpuart_0"%string, 0x40328000, 0x4000);
   ("lpuart_1"%string, 0x4032C000, 0x4000);
   ("lpuart_2"%string, 0x40330000, 0x4000);
   ("lpuart_3"%string, 0x40334000, 0x4000);
   ("lpuart_4"%string, 0x40338000, 0x4000);
   ("lpuart_5"%string, 0x4033C000, 0x4000);
   ("lpuart_6"%string, 0x40340000, 0x4000);
   ("lpuart_7"%string, 0x40344000, 0x4000);
   ("siul_virtwrapper_pdac5_m7_3"%string, 0x40348000, 0x4000);
   ("lpi2c_0"%string, 0x40350000, 0x4000);
   ("lpi2c_1"%string, 0x40354000, 0x4000);
   ("lpspi_0"%string, 0x40358000, 0x4000);
   ("lpspi_1"%string, 0x4035C000, 0x4000);
   ("lpspi_2"%string, 0x40360000, 0x4000);
   ("lpspi_3"%string, 0x40364000, 0x4000);
   ("sai0"%string, 0x4036C000, 0x4000);
   ("lpcmp_0"%string, 0x40370000, 0x4000);
   ("lpcmp_1"%string, 0x40374000, 0x4000);
   ("tmu"%string, 0x4037C000, 0x4000);
   ("crc"%string, 0x40380000, 0x4000);
   ("fccu_"%string, 0x40384000, 0x4000);
   ("mu_0_mub"%string, 0x4038C000, 0x4000);
   ("mu_1_mub"%string, 0x40390000, 0x4000);
   ("jdc"%string, 0x40394000, 0x4000);
   ("configuration_gpr"%string, 0x4039C000, 0x4000);
   ("stcu"%string, 0x403A0000, 0x4000);
   ("selftest_gpr"%string, 0x403B0000, 0x4000);
   ("aes_accel"%string, 0x403C0000, 0x10000);
   ("aes_app0"%string, 0x403D0000, 0x10000);
   ("aes_app1"%string, 0x403E0000, 0x10000);
   ("aes_app2"%string, 0x403F0000, 0x10000);
   ("tcm_xbic"%string, 0x40400000, 0x4000);
   ("edma_xbic"%string, 0x40404000, 0x4000);
   ("pram2_tcm_xbic"%string, 0x40408000, 0x4000);
   ("aes_mux_xbic"%string, 0x4040C000, 0x4000);
   ("edma_tcd_12"%string, 0x40410000, 0x4000);
   ("edma_tcd_13"%string, 0x40414000, 0x4000);
   ("edma_tcd_14"%string, 0x40418000, 0x4000);
   ("edma_tcd_15"%string, 0x4041C000, 0x4000);
   ("edma_tcd_16"%string, 0x40420000, 0x4000);
   ("edma_tcd_17"%string, 0x40424000, 0x4000);
   ("edma_tcd_18"%string, 0x40428000, 0x4000);
   ("edma_tcd_19"%string, 0x4042C000, 0x4000);
   ("edma_tcd_20"%string, 0x40430000, 0x4000);
   ("edma_tcd_21"%string, 0x40434000, 0x4000);
   ("edma_tcd_22"%string, 0x40438000, 0x4000);
   ("edma_tcd_23"%string, 0x4043C000, 0x4000);
   ("edma_tcd_24"%string, 0x40440000, 0x4000);
   ("edma_tcd_25"%string, 0x40444000, 0x4000);
   ("edma_tcd_26"%string, 0x40448000, 0x4000);
   ("edma_tcd_27"%string, 0x4044C000, 0x4000);
   ("edma_tcd_28"%string, 0x40450000, 0x4000);
   ("edma_tcd_29"%string, 0x40454000, 0x4000);
   ("edma_tcd_30"%string, 0x40458000, 0x4000);
   ("edma_tcd_31"%string, 0x4045C000, 0x4000);
   ("sema42"%string, 0x40460000, 0x4000);
   ("pram_1"%string, 0x40464000, 0x4000);
   ("pram_2"%string, 0x40468000, 0x4000);
   ("swt_1"%string, 0x4046C000, 0x4000);
   ("swt_2"%string, 0x40470000, 0x4000);
   ("stm_1"%string, 0x40474000, 0x4000);
   ("stm_2"%string, 0x40478000, 0x4000);
   ("stm_3"%string, 0x4047C000, 0x4000);
   ("emac"%string, 0x40480000, 0x4000);
   ("gmac0"%string, 0x40484000, 0x4000);
   ("gmac1"%string, 0x40488000, 0x4000);
   ("lpuart_8"%string, 0x4048C000, 0x4000);
   ("lpuart_9"%string, 0x40490000, 0x4000);
   ("lpuart_10"%string, 0x40494000, 0x4000);
   ("lpuart_11"%string, 0x40498000, 0x4000);
   ("lpuart_12"%string, 0x4049C000, 0x4000);
   ("lpuart_13"%string, 0x404A0000, 0x4000);
   ("lpuart_14"%string, 0x404A4000, 0x4000);
   ("lpuart_15"%string, 0x404A8000, 0x4000);
   ("lpspi_4"%string, 0x404BC000, 0x4000);
   ("lpspi_5"%string, 0x404C0000, 0x4000);
   ("quadspi"%string, 0x404CC000, 0x4000);
   ("sai1"%string, 0x404DC000, 0x4000);
   ("usdhc"%string, 0x404E4000, 0x4000);
   ("lpcmp_2"%string, 0x404E8000, 0x4000);
   ("eim0_dup"%string, 0x4050C000, 0x4000);
   ("eim1"%string, 0x40510000, 0x4000);
   ("eim2"%string, 0x40514000, 0x4000);
   ("eim3"%string, 0x40518000, 0x4000);
   ("aes_app3"%string, 0x40520000, 0x10000);
   ("aes_app4"%string, 0x40530000, 0x10000);
   ("aes_app5"%string, 0x40540000, 0x10000);
   ("aes_app6"%string, 0x40550000, 0x10000);
   ("aes_app7"%string, 0x40560000, 0x10000);
   ("flexcan_8"%string, 0x40570000, 0x4000);
   ("flexcan_9"%string, 0x40574000, 0x4000);
   ("flexcan_10"%string, 0x40578000, 0x4000);
   ("flexcan_11"%string, 0x4057C000, 0x4000);
   ("fmu1"%string, 0x40580000, 0x4000);
   ("fmu1_alt"%string, 0x40584000, 0x4000);
   ("pram_3"%string, 0x40588000, 0x4000)].

(** ** Regions and clocks *)

(** The memory regions of the system, one constructor per C object. *)
Inductive region :=
  | SystemMemory | CodeFlash (n : Z) | DataFlash | Sram (n : Z) | Dtcm | Itcm
  | SyscfgMmio | LpuartMmio (n : Z) | LpspiMmio (n : Z) | Unimp (name : string).
#[global] Instance region_eq_dec : EqDecision region.
Proof. solve_decision. Defined.

Definition rom_flags : flags := mkFlags true false false.
(** [memory_region_init_rom], [memory_region_init_ram], [memory_region_init_io]. *)
Definition memory_region_init (r : region) (size : Z) (terminates : bool) (fl : flags) : MemoryRegion region :=
  mkMR r 0 size 0 true terminates fl None 0 [].
Definition memory_region_init_rom (r : region) (size : Z) := memory_region_init r size true rom_flags.
Definition memory_region_init_ram (r : region) (size : Z) := memory_region_init r size true no_flags.
Definition memory_region_init_io (r : region) (size : Z) := memory_region_init r size true no_flags.
(** [memory_map_init]: UINT64_MAX stands for the whole 64-bit space. *)
Definition system_memory : MemoryRegion region := memory_region_init SystemMemory (2 ^ 64) false no_flags.

(** The clock objects: of the board, of the chip and the inputs of its devices. *)
Definition SYSCLK : Z := 0.
Definition sysclk : Z := 1.
Definition refclk : Z := 2.
Definition aips_plat_clk : Z := 3.
Definition aips_slow_clk : Z := 4.
Definition aips_plat_fixed : Z := 5.
Definition aips_slow_fixed : Z := 6.
Definition armv7m_cpuclk : Z := 7.
Definition armv7m_refclk : Z := 8.
Definition syscfg_clk : Z := 9.
Definition lpuart_clk (i : Z) : Z := 10 + i.
Definition lpspi_clk (i : Z) : Z := 30 + i.

(** ** State and error returns *)

Inductive soc_error :=
  | RefclkWired | SysclkNotWired | Armv7mError | SyscfgError | LpuartError (i : Z)
  | LpspiError (i : Z) (e : Lpspi.realize_error) | SensorError (i : Z).

Section soc.
Context {W : Type} `{MotorSpeed.RandLib W}.
(** [time(NULL)]; the memory [fifo8_create] gets; whether the part of
    [armv7m_realize] after the clock check succeeds. *)
Variables (now : Z) (mem : list Z) (cpu_ok : bool).

Definition Bus : Type := SSI.SSIBus MotorSpeed.MotorSpeedSensor W.

Record NXPS32K358State := mkSoc {
  clk : tree;
  memory : MemoryRegion region;
  syscfg : Syscfg.NXPS32K358SYSCFGState;
  lpuarts : list Lpuart.NXPS32K358LPUARTState;
  lpspis : list (Lpspi.NXPS32K358LPSPIState (B := Bus));
  init_svtor : Z;
  irqs : list (region * Z);    (* [sysbus_connect_irq] to an input of the NVIC *)
  world : W;                   (* the random generator *)
}.
#[global] Instance eta_SocState : Eta NXPS32K358State := fun s =>
  mkSoc (clk s) (memory s) (syscfg s) (lpuarts s) (lpspis s) (init_svtor s) (irqs s) (world s).
Abbreviation soc := NXPS32K358State.

(** A step of realize: abort, error return or the next state. *)
Definition action : Type := soc -> res (soc_error + soc).
Definition andthen (f g : action) : action := fun s =>
  let! r := f s in match r with inl e => Ok (inl e) | inr s => g s end.
Definition pure_action (f : soc -> soc) : action := fun s => Ok (inr (f s)).
Fixpoint for_each {A} (f : A -> action) (l : list A) : action :=
  match l with [] => pure_action (fun s => s) | a :: l' => andthen (f a) (for_each f l') end.

(** The clock tree of the chip has at most four levels; running out of fuel
    (the [None] case) does not happen: see [soc_clock_frequencies]. *)
Definition set_source (c src : Z) : action := fun s =>
  let! r := clock_set_source 5 (clk s) c src in
  match r with Some t => Ok (inr (s <| clk := t |>)) | None => Fault OutOfBounds end.
Definition qdev_connect_clock_in (c src : Z) : action := set_source c src.

Definition add_subregion (offset : Z) (r : MemoryRegion region) (s : soc) : soc :=
  s <| memory := memory_region_add_subregion (memory s) offset r |>.
Definition sysbus_mmio_map (r : region) (size addr : Z) (s : soc) : soc :=
  add_subregion addr (memory_region_init_io r size) s.

(** [qdev_get_gpio_in(armv7m, n)]: the NVIC has 240 inputs. *)
Definition NUM_IRQ : Z := 240.
Definition sysbus_connect_irq (r : region) (n : Z) : action := fun s =>
  do! assert ((0 <=? n) && (n <? NUM_IRQ)) in
  Ok (inr (s <| irqs := irqs s ++ [(r, n)] |>)).

(** The name, base and size of one device, mapped below everything else. *)
Definition create_unimplemented_device (d : string * Z * Z) : soc -> soc := fun s =>
  let '(name, base, size) := d in
  s <| memory := memory_region_add_subregion_overlap (memory s) base
         (memory_region_init_io (Unimp name) size) (-1000) |>.
Definition create_unimplemented_devices (s : soc) : soc :=
  fold_left (fun s d => create_unimplemented_device d s) unimplemented_devices s.

(** ** Initialisation *)

Definition new_lpuart : Lpuart.NXPS32K358LPUARTState := Lpuart.mkLpuart 0 false 0 0 0 0 0.
(** The property [num-cs-lines] has the default 1. *)
Definition new_lpspi : Lpspi.NXPS32K358LPSPIState (B := Bus) :=
  Lpspi.mkLpspi 0 [] false [] (Fifo8.mkFifo8 [] 0 0 0) (Fifo8.mkFifo8 [] 0 0 0)
    0 0 0 0 0 0 0 0 0 0 0 0 0 0 0 0 false 0 0 0 false 0 1.

(** [nxps32k358_soc_initfn], on the clocks [t] there are. *)
Definition nxps32k358_soc_initfn (t : tree) (w : W) : soc :=
  let inputs := [sysclk; refclk; aips_plat_clk; aips_slow_clk; armv7m_cpuclk; armv7m_refclk; syscfg_clk]
    ++ map lpuart_clk (seqZ 0 NXP_NUM_LPUARTS) ++ map lpspi_clk (seqZ 0 NXP_NUM_LPSPIS) in
  mkSoc (fold_left clock_new inputs t) system_memory (Syscfg.mkSyscfg 0 0 0 0 0)
    (replicate (Z.to_nat NXP_NUM_LPUARTS) new_lpuart) (replicate (Z.to_nat NXP_NUM_LPSPIS) new_lpspi)
    0 [] w.

(** ** Realize *)

(** [clock_new] and [clock_set_hz] of a fixed source, and its connection. *)
Definition fixed_clock (fixed hz c : Z) : action :=
  andthen (pure_action (fun s => s <| clk := fst (clock_set_hz (clock_new (clk s) fixed) fixed hz) |>))
    (set_source c fixed).

Definition check_clocks : action := fun s =>
  if clock_has_source (clk s) refclk then Ok (inl RefclkWired)
  else if negb (clock_has_source (clk s) sysclk) then Ok (inl SysclkNotWired)
  else
    let! '(t, _) := clock_set_mul_div (clk s) refclk 8 1 in
    set_source refclk sysclk (s <| clk := t |>).

Definition add_memories (s : soc) : soc :=
  let s := fold_left (fun s n => add_subregion (CODE_FLASH_BASE_ADDRESS + n * CODE_FLASH_BLOCK_SIZE)
    (memory_region_init_rom (CodeFlash n) CODE_FLASH_BLOCK_SIZE) s) [0; 1; 2; 3] s in
  let s := add_subregion DATA_FLASH_BASE_ADDRESS (memory_region_init_rom DataFlash DATA_FLASH_SIZE) s in
  let s := fold_left (fun s n => add_subregion (SRAM_BASE_ADDRESS + n * SRAM_BLOCK_SIZE)
    (memory_region_init_ram (Sram n) SRAM_BLOCK_SIZE) s) [0; 1; 2] s in
  let s := add_subregion DTCM_BASE_ADDRESS (memory_region_init_ram Dtcm DTCM_SIZE) s in
  add_subregion ITCM_BASE_ADDRESS (memory_region_init_ram Itcm ITCM_SIZE) s.

(** The memory link is set before; [cpu_ok] stands for the rest of [armv7m_realize]. *)
Definition armv7m_realize : action := fun s =>
  if negb (clock_has_source (clk s) armv7m_cpuclk) then Ok (inl Armv7mError)
  else if cpu_ok then Ok (inr s) else Ok (inl Armv7mError).

Definition realize_armv7m : action :=
  andthen (pure_action (fun s => s <| init_svtor := CODE_FLASH_BASE_ADDRESS + 2048 |>))
 (andthen (qdev_connect_clock_in armv7m_cpuclk sysclk)
 (andthen (qdev_connect_clock_in armv7m_refclk refclk) armv7m_realize)).

Definition realize_syscfg : action :=
  andthen (qdev_connect_clock_in syscfg_clk sysclk) (fun s =>
  match Syscfg.nxps32k358_syscfg_realize (clock_has_source (clk s) syscfg_clk) (syscfg s) with
  | inl _ => Ok (inl SyscfgError)
  | inr d => Ok (inr (sysbus_mmio_map SyscfgMmio 0x400 0x40013800 (s <| syscfg := d |>)))
  end).

(** The device is the [i]-th of [lpuarts]. *)
Definition realize_lpuart (i : Z) : action :=
  andthen (qdev_connect_clock_in (lpuart_clk i)
            (if (i <? 2) || (i =? 8) then aips_plat_clk else aips_slow_clk)) (fun s =>
  let! dev := load (lpuarts s) i in
  let dev := dev <| Lpuart.clk := clock_get_hz (clk s) (lpuart_clk i) |> in
  match Lpuart.nxps32k358_lpuart_realize (clock_has_source (clk s) (lpuart_clk i)) dev with
  | inl _ => Ok (inl (LpuartError i))
  | inr dev =>
      let! devs := store (lpuarts s) i dev in
      let! addr := load lpuart_addr i in
      let! n := load lpuart_irq i in
      sysbus_connect_irq (LpuartMmio i) n (sysbus_mmio_map (LpuartMmio i) 0x4000 addr (s <| lpuarts := devs |>))
  end).

Definition realize_lpspi (i : Z) : action :=
  andthen (qdev_connect_clock_in (lpspi_clk i) aips_plat_clk) (fun s =>
  let! dev := load (lpspis s) i in
  let dev := dev <| Lpspi.clk := clock_get_hz (clk s) (lpspi_clk i) |> in
  match Lpspi.nxps32k358_lpspi_realize dev true mem mem with
  | inl e => Ok (inl (LpspiError i e))
  | inr dev =>
      let! devs := store (lpspis s) i dev in
      let! addr := load lpspi_addr i in
      let! n := load lpspi_irq i in
      sysbus_connect_irq (LpspiMmio i) n (sysbus_mmio_map (LpspiMmio i) 0x4000 addr (s <| lpspis := devs |>))
  end).

(** A sensor with chip select 0 (the default of the property [cs]). *)
Definition create_sensor (i : Z) : action := fun s =>
  let! dev := load (lpspis s) i in
  match SSI.ssi_create_peripheral (Lpspi.ssi dev) (MotorSpeed.motor_speed_sensor_class now)
          (MotorSpeed.mkSensor 0 0) 0 (world s) with
  | None => Ok (inl (SensorError i))
  | Some (bus, w) =>
      let! devs := store (lpspis s) i (dev <| Lpspi.ssi := bus |>) in
      Ok (inr (s <| lpspis := devs |> <| world := w |>))
  end.

Definition nxps32k358_soc_realize : action :=
  andthen (fixed_clock aips_plat_fixed 80000000 aips_plat_clk)
 (andthen (fixed_clock aips_slow_fixed 40000000 aips_slow_clk)
 (andthen check_clocks
 (andthen (pure_action add_memories)
 (andthen realize_armv7m
 (andthen realize_syscfg
 (andthen (for_each realize_lpuart (seqZ 0 NXP_NUM_LPUARTS))
 (andthen (for_each realize_lpspi (seqZ 0 NXP_NUM_LPSPIS))
 (andthen (for_each create_sensor (seqZ 0 NXP_NUM_LPSPIS))
          (pure_action create_unimplemented_devices))))))))).

(** [nxp_s32k358discovery_init] up to the loading of the kernel. *)
Definition nxp_s32k358discovery_init (w : W) : res (soc_error + soc) :=
  let t := fst (clock_set_hz (clock_new (mkTree ∅ []) SYSCLK) SYSCLK SYSCLK_FRQ) in
  andthen (qdev_connect_clock_in sysclk SYSCLK) nxps32k358_soc_realize (nxps32k358_soc_initfn t w).
End soc.
End Soc.

Module SocProps.
Import Memory Clock Soc.

(** The windows of the memories and of the devices that are implemented. *)
Definition windows : list (region * Z * Z * flags) :=
  map (fun n => (CodeFlash n, CODE_FLASH_BASE_ADDRESS + n * CODE_FLASH_BLOCK_SIZE, CODE_FLASH_BLOCK_SIZE, rom_flags))
    [0; 1; 2; 3]
  ++ [(DataFlash, DATA_FLASH_BASE_ADDRESS, DATA_FLASH_SIZE, rom_flags)]
  ++ map (fun n => (Sram n, SRAM_BASE_ADDRESS + n * SRAM_BLOCK_SIZE, SRAM_BLOCK_SIZE, no_flags)) [0; 1; 2]
  ++ [(Dtcm, DTCM_BASE_ADDRESS, DTCM_SIZE, no_flags); (Itcm, ITCM_BASE_ADDRESS, ITCM_SIZE, no_flags);
      (SyscfgMmio, 0x40013800, 0x400, no_flags)]
  ++ imap (fun i a => (LpuartMmio (Z.of_nat i), a, 0x4000, no_flags)) lpuart_addr
  ++ imap (fun i a => (LpspiMmio (Z.of_nat i), a, 0x4000, no_flags)) lpspi_addr.

(** The windows of the unimplemented devices no implemented one is mapped over. *)
Definition unimp_windows : list (region * Z * Z * flags) :=
  map (fun '(name, base, size) => (Unimp name, base, size, no_flags))
    (filter (fun '(_, base, _) => negb (existsb (Z.eqb base) (lpuart_addr ++ lpspi_addr))) unimplemented_devices).

Definition window_range (wd : region * Z * Z * flags) : FlatRange region :=
  let '(r, base, size, fl) := wd in mkFR r (addrrange_make base size) 0 fl.
Definition range_eqb (r1 r2 : FlatRange region) : bool :=
  bool_decide (mr r1 = mr r2) && (start (fr_addr r1) =? start (fr_addr r2))
  && (size (fr_addr r1) =? size (fr_addr r2)) && (offset_in_region r1 =? offset_in_region r2)
  && bool_decide (fr_flags r1 = fr_flags r2).

Lemma range_eqb_eq (r1 r2 : FlatRange region) : range_eqb r1 r2 = true -> r1 = r2.
Proof.
  unfold range_eqb. rewrite !andb_true_iff, !Z.eqb_eq, !bool_decide_eq_true.
  destruct r1 as [? [] ? ?], r2 as [? [] ? ?]; simpl. intuition congruence.
Qed.

Definition in_view (view : FlatView region) (wd : region * Z * Z * flags) : bool :=
  existsb (range_eqb (window_range wd)) view.

Lemma in_view_lookup (view : FlatView region) r base size fl (a : Z) :
  view_ok view -> in_view view (r, base, size, fl) = true -> base <= a < base + size ->
  lookup_view view a = Some (r, a - base, fl).
Proof.
  intros Hv Hin Ha. apply existsb_exists in Hin as (rg & Hrg & <-%range_eqb_eq).
  rewrite (lookup_in_view _ _ a Hv Hrg); [done|].
  unfold addrrange_contains, addrrange_end. simpl. lia.
Qed.
Definition all_in_view (m : MemoryRegion region) (wds : list (region * Z * Z * flags)) : bool :=
  match generate_memory_topology m with Ok view => forallb (in_view view) wds | Fault _ => false end.

Section boot.
Context {W : Type} `{MotorSpeed.RandLib W}.
Variables (now : Z) (mem : list Z) (w : W).

(** What the boot of the board gives, in a form that evaluates. *)
Definition booted (P : NXPS32K358State (W := W) -> Prop) : Prop :=
  match nxp_s32k358discovery_init now mem true w with Ok (inr s) => P s | _ => False end.

Lemma booted_map :
  booted (fun s => sizes_ok (memory s) && all_in_view (memory s) (windows ++ unimp_windows) = true).
Proof. by vm_compute. Qed.

Lemma booted_exists (P : NXPS32K358State (W := W) -> Prop) :
  booted P -> exists s, nxp_s32k358discovery_init now mem true w = Ok (inr s) /\ P s.
Proof.
  unfold booted. destruct (nxp_s32k358discovery_init now mem true w) as [[|s]|]; [done| |done]. eauto.
Qed.

(** C25: the board comes up, and in the flat view of its memory every address of
    every memory block, of the 16 LPUARTs, the 6 LPSPIs and the system
    configuration block reaches that region at the right offset, although the
    same windows are also covered by placeholder devices; code and data flash are
    read-only; every other placeholder is reachable over its whole window. *)
Theorem soc_memory_map :
  exists s view, nxp_s32k358discovery_init now mem true w = Ok (inr s) /\ generate_memory_topology (memory s) = Ok view /\
    forall r base size fl a, In (r, base, size, fl) (windows ++ unimp_windows) -> base <= a < base + size ->
      lookup_view view a = Some (r, a - base, fl).
Proof.
  destruct (booted_exists _ booted_map) as (s & Hs & Hm). apply andb_prop in Hm as [Hsz Hall].
  destruct (topology_ok (memory s) Hsz) as (view & E & Hv & _). unfold all_in_view in Hall. rewrite E, forallb_forall in Hall.
  exists s, view. split; [done|]. split; [done|].
  intros r base size fl a Hin Ha. apply in_view_lookup with size; [done|by apply Hall|done].
Qed.

(** After the board has come up the processor runs at 24 MHz and its SysTick
    reference clock at an eighth of it; LPUART 0, 1 and 8 get 80 MHz, the other
    LPUARTs 40 MHz, every LPSPI 80 MHz (which is what its realize expects); the
    vector table is in the first code flash block; every LPSPI has one chip
    select and exactly one peripheral, a reset motor speed sensor. *)
Theorem soc_clock_frequencies :
  exists s, nxp_s32k358discovery_init now mem true w = Ok (inr s) /\
    clock_get_hz (clk s) armv7m_cpuclk = SYSCLK_FRQ /\ clock_get_hz (clk s) armv7m_refclk = SYSCLK_FRQ / 8 /\
    map Lpuart.clk (lpuarts s) =
      map (fun i => if bool_decide (i = 0 \/ i = 1 \/ i = 8) then 80000000 else 40000000) (seqZ 0 16) /\
    map Lpspi.input_clk (lpspis s) = replicate 6 80000000 /\
    map (fun d => Z.of_nat (length (Lpspi.cs_lines d))) (lpspis s) = replicate 6 1 /\
    map (fun d => map SSI.parent_obj (Lpspi.ssi d)) (lpspis s) = replicate 6 [MotorSpeed.mkSensor 0 0] /\
    CODE_FLASH_BASE_ADDRESS <= init_svtor s < CODE_FLASH_BASE_ADDRESS + CODE_FLASH_BLOCK_SIZE.
Proof. apply booted_exists. vm_compute. repeat split; congruence. Qed.

(** The interrupt lines: LPSPI [i] drives input 165 + [i] of the NVIC and
    LPUART 0 to 6 inputs 141 to 147, each its own; but LPUART 7 to 15 all drive
    input 0, because the table has initialisers for seven entries only. *)
Theorem soc_interrupt_lines :
  exists s, nxp_s32k358discovery_init now mem true w = Ok (inr s) /\
    irqs s = map (fun i => (LpuartMmio i, if i <? 7 then 141 + i else 0)) (seqZ 0 16)
          ++ map (fun i => (LpspiMmio i, 165 + i)) (seqZ 0 6).
Proof. apply booted_exists. by vm_compute. Qed.

(** The error returns of realize, in the order of the code: a wired reference
    clock, a missing system clock (both before any memory is mapped), and a
    processor that does not realize; connecting the system clock twice aborts. *)
Theorem soc_realize_errors :
  let s0 := nxps32k358_soc_initfn (clock_new (mkTree ∅ []) SYSCLK) w in
  nxps32k358_soc_realize now mem true s0 = Ok (inl SysclkNotWired) /\
  andthen (qdev_connect_clock_in refclk SYSCLK) (nxps32k358_soc_realize now mem true) s0 = Ok (inl RefclkWired) /\
  nxp_s32k358discovery_init now mem false w = Ok (inl Armv7mError) /\
  andthen (qdev_connect_clock_in sysclk SYSCLK)
    (andthen (qdev_connect_clock_in sysclk SYSCLK) (nxps32k358_soc_realize now mem true)) s0 = Fault AssertFailure.
Proof. by vm_compute. Qed.
End boot.
End SocProps.
