(* ===== verification/RtosList.v ===== *)
(** * The lists of the FreeRTOS kernel

    [Demo_FreeRTOS/FreeRTOS/Source/list.c] and the macros of [include/list.h]:
    circular doubly linked lists with an end marker inside the list structure
    and an index that walks around.  The model is the heap of nodes and list
    headers the C code works on, with its assignments in their order; [is_list]
    relates a list in the heap to the sequence of its items. *)

From Stdlib Require Import Sorting.Sorted.
From S2P Require Import Prelude.
From stdpp Require Import list.

#[local] Set Warnings "-clear-no-such-hyp".
#[local] Open Scope Z_scope.

Module RtosList.

Definition portMAX_DELAY : Z := 0xffffffff.

(** A pointer to a list item: an item of its own, or the end marker of a list. *)
Inductive ptr := Item (i : Z) | End (l : Z).
#[global] Instance ptr_eq_dec : EqDecision ptr.
Proof. solve_decision. Defined.
#[global] Instance ptr_countable : Countable ptr.
Proof.
  refine (inj_countable' (fun p => match p with Item i => inl i | End l => inr l end)
    (fun s => match s with inl i => Item i | inr l => End l end) _).
  by intros [].
Defined.
#[global] Instance Item_inj : Inj (=) (=) Item.
Proof. by intros ?? [=]. Qed.

Record ListItem_t := mkItem {
  xItemValue : Z;
  pxNext : ptr;
  pxPrevious : ptr;
  pvOwner : Z;
  pxContainer : option Z;
}.
#[global] Instance eta_ListItem : Eta ListItem_t := fun s =>
  mkItem (xItemValue s) (pxNext s) (pxPrevious s) (pvOwner s) (pxContainer s).

(** The end marker [xListEnd] is the node [End l] of the heap. *)
Record List_t := mkList { uxNumberOfItems : Z; pxIndex : ptr }.
#[global] Instance eta_List : Eta List_t := fun s => mkList (uxNumberOfItems s) (pxIndex s).

#[global] Instance ListItem_inhabited : Inhabited ListItem_t := populate (mkItem 0 (Item 0) (Item 0) 0 None).
#[global] Instance List_inhabited : Inhabited List_t := populate (mkList 0 (Item 0)).

Record heap := mkHeap { nodes : gmap ptr ListItem_t; lists : gmap Z List_t }.
#[global] Instance eta_heap : Eta heap := fun s => mkHeap (nodes s) (lists s).

Definition node (h : heap) (p : ptr) : ListItem_t := nodes h !!! p.
Definition hdr (h : heap) (l : Z) : List_t := lists h !!! l.
Definition put_node (h : heap) (p : ptr) (n : ListItem_t) : heap := h <| nodes := <[p := n]> (nodes h) |>.
Definition put_hdr (h : heap) (l : Z) (n : List_t) : heap := h <| lists := <[l := n]> (lists h) |>.

Definition set_next (h : heap) (p q : ptr) : heap := put_node h p ((node h p) <| pxNext := q |>).
Definition set_prev (h : heap) (p q : ptr) : heap := put_node h p ((node h p) <| pxPrevious := q |>).
Definition set_container (h : heap) (p : ptr) (c : option Z) : heap :=
  put_node h p ((node h p) <| pxContainer := c |>).
Definition set_value (h : heap) (p : ptr) (v : Z) : heap := put_node h p ((node h p) <| xItemValue := v |>).
Definition set_index (h : heap) (l : Z) (p : ptr) : heap := put_hdr h l ((hdr h l) <| pxIndex := p |>).
Definition set_number (h : heap) (l n : Z) : heap := put_hdr h l ((hdr h l) <| uxNumberOfItems := n |>).

(** ** Operations *)

Definition vListInitialise (h : heap) (l : Z) : heap :=
  let h := set_index h l (End l) in
  let h := set_value h (End l) portMAX_DELAY in
  let h := set_next h (End l) (End l) in
  let h := set_prev h (End l) (End l) in
  set_number h l 0.

Definition vListInitialiseItem (h : heap) (i : Z) : heap := set_container h (Item i) None.

Definition vListInsertEnd (h : heap) (l i : Z) : heap :=
  let idx := pxIndex (hdr h l) in
  let h := set_next h (Item i) idx in
  let h := set_prev h (Item i) (pxPrevious (node h idx)) in
  let h := set_next h (pxPrevious (node h idx)) (Item i) in
  let h := set_prev h idx (Item i) in
  let h := set_container h (Item i) (Some l) in
  set_number h l (u32 (uxNumberOfItems (hdr h l) + 1)).

(** The search loop of [vListInsert]; [None] is out of fuel. *)
Fixpoint find_position (fuel : nat) (h : heap) (it : ptr) (v : Z) : option ptr :=
  match fuel with
  | O => None
  | S fuel =>
      if xItemValue (node h (pxNext (node h it))) <=? v
      then find_position fuel h (pxNext (node h it)) v else Some it
  end.

Definition insert_after (h : heap) (l i : Z) (it : ptr) : heap :=
  let h := set_next h (Item i) (pxNext (node h it)) in
  let h := set_prev h (pxNext (node h (Item i))) (Item i) in
  let h := set_prev h (Item i) it in
  let h := set_next h it (Item i) in
  let h := set_container h (Item i) (Some l) in
  set_number h l (u32 (uxNumberOfItems (hdr h l) + 1)).

Definition vListInsert (fuel : nat) (h : heap) (l i : Z) : option heap :=
  let v := xItemValue (node h (Item i)) in
  it ← (if v =? portMAX_DELAY then Some (pxPrevious (node h (End l))) else find_position fuel h (End l) v);
  Some (insert_after h l i it).

(** [None]: the item is on no list, and the code dereferences a null pointer. *)
Definition uxListRemove (h : heap) (i : Z) : option (heap * Z) :=
  l ← pxContainer (node h (Item i));
  let h := set_prev h (pxNext (node h (Item i))) (pxPrevious (node h (Item i))) in
  let h := set_next h (pxPrevious (node h (Item i))) (pxNext (node h (Item i))) in
  let h := if decide (pxIndex (hdr h l) = Item i) then set_index h l (pxPrevious (node h (Item i))) else h in
  let h := set_container h (Item i) None in
  let h := set_number h l (u32 (uxNumberOfItems (hdr h l) - 1)) in
  Some (h, uxNumberOfItems (hdr h l)).

(** The macros. *)
Definition listGET_OWNER_OF_NEXT_ENTRY (h : heap) (l : Z) : Z * heap :=
  let h := set_index h l (pxNext (node h (pxIndex (hdr h l)))) in
  let h := if decide (pxIndex (hdr h l) = End l)
           then set_index h l (pxNext (node h (pxIndex (hdr h l)))) else h in
  (pvOwner (node h (pxIndex (hdr h l))), h).
Definition listGET_OWNER_OF_HEAD_ENTRY (h : heap) (l : Z) : Z := pvOwner (node h (pxNext (node h (End l)))).
Definition listGET_ITEM_VALUE_OF_HEAD_ENTRY (h : heap) (l : Z) : Z :=
  xItemValue (node h (pxNext (node h (End l)))).
Definition listLIST_IS_EMPTY (h : heap) (l : Z) : bool := uxNumberOfItems (hdr h l) =? 0.
Definition listCURRENT_LIST_LENGTH (h : heap) (l : Z) : Z := uxNumberOfItems (hdr h l).
Definition listIS_CONTAINED_WITHIN (h : heap) (l i : Z) : bool :=
  bool_decide (pxContainer (node h (Item i)) = Some l).

(** ** Reading the heap after a write *)

Lemma node_put (h : heap) (p q : ptr) (n : ListItem_t) :
  node (put_node h p n) q = if decide (p = q) then n else node h q.
Proof.
  unfold node, put_node. rsimpl. case_decide; subst.
  - apply lookup_total_insert_eq.
  - by apply lookup_total_insert_ne.
Qed.
Lemma hdr_put (h : heap) (l m : Z) (n : List_t) :
  hdr (put_hdr h l n) m = if decide (l = m) then n else hdr h m.
Proof.
  unfold hdr, put_hdr. rsimpl. case_decide; subst.
  - apply lookup_total_insert_eq.
  - by apply lookup_total_insert_ne.
Qed.
Lemma node_put_hdr (h : heap) (l : Z) (n : List_t) (p : ptr) : node (put_hdr h l n) p = node h p.
Proof. unfold node, put_hdr. by rsimpl. Qed.
Lemma hdr_put_node (h : heap) (l : Z) (n : ListItem_t) (p : ptr) : hdr (put_node h p n) l = hdr h l.
Proof. unfold hdr, put_node. by rsimpl. Qed.

(** Read a field through the writes, splitting on the pointers. *)
Ltac heap_read :=
  unfold set_next, set_prev, set_container, set_value, set_index, set_number;
  repeat (rewrite ?node_put_hdr, ?hdr_put_node, ?node_put, ?hdr_put);
  rsimpl.

(** ** Segments of a circular list *)

Section segments.
Variables nx pv : ptr -> ptr.

(** A walk from [a] over [ps] that ends in [c]. *)
Fixpoint seg (a : ptr) (ps : list ptr) (c : ptr) : Prop :=
  match ps with [] => a = c | p :: ps' => nx a = p /\ pv p = a /\ seg p ps' c end.

(** The nodes whose successor a walk uses. *)
Fixpoint sources (a : ptr) (ps : list ptr) : list ptr :=
  match ps with [] => [] | p :: ps' => a :: sources p ps' end.

Lemma seg_app (a : ptr) (ps qs : list ptr) (c : ptr) :
  seg a (ps ++ qs) c <-> exists b, seg a ps b /\ seg b qs c.
Proof.
  revert a; induction ps as [|p ps IH]; intros a; simpl.
  - split; [by exists a|by intros (b & -> & ?)].
  - rewrite IH. naive_solver.
Qed.

Lemma sources_snoc (a : ptr) (ps : list ptr) (c : ptr) : sources a (ps ++ [c]) = a :: ps.
Proof. revert a; induction ps as [|p ps IH]; intros a; simpl; [done|]. by rewrite IH. Qed.

Lemma seg_last (a : ptr) (ps : list ptr) (c : ptr) : seg a ps c -> c ∈ a :: ps.
Proof.
  revert a; induction ps as [|p ps IH]; intros a; simpl; [intros ->; set_solver|].
  intros (_ & _ & Hs%IH). set_solver.
Qed.

(** The last node of a walk without repetition is not a source of it. *)
Lemma seg_sources (a : ptr) (ps : list ptr) (c : ptr) :
  seg a ps c -> NoDup (a :: ps) -> (c ∉ sources a ps) /\ (forall u, u ∈ sources a ps -> u ∈ a :: ps).
Proof.
  revert a; induction ps as [|p ps IH]; intros a; simpl; [set_solver|].
  intros (_ & _ & Hs) [Ha Hn]%NoDup_cons. destruct (IH p Hs Hn) as [H1 H2].
  pose proof (seg_last _ _ _ Hs). set_solver.
Qed.
End segments.

Lemma seg_frame (nx pv nx' pv' : ptr -> ptr) (a : ptr) (ps : list ptr) (c : ptr) :
  seg nx pv a ps c -> (forall u, u ∈ sources a ps -> nx' u = nx u) -> (forall u, u ∈ ps -> pv' u = pv u) ->
  seg nx' pv' a ps c.
Proof.
  revert a; induction ps as [|p ps IH]; intros a; simpl; [done|].
  intros (H1 & H2 & H3) Hn Hp. split_and!; [rewrite Hn by set_solver; done|rewrite Hp by set_solver; done|].
  apply IH; [done|..]; intros; [apply Hn|apply Hp]; set_solver.
Qed.

(** Linking [x] in between the ends of two walks around the circle. *)
Lemma seg_insert (nx pv nx' pv' : ptr -> ptr) (e p x : ptr) (ps qs : list ptr) :
  NoDup (e :: ps ++ qs) -> x ∉ e :: ps ++ qs ->
  seg nx pv e ps p -> seg nx pv p (qs ++ [e]) e ->
  let q := nx p in
  (forall u, nx' u = if decide (u = p) then x else if decide (u = x) then q else nx u) ->
  (forall u, pv' u = if decide (u = q) then x else if decide (u = x) then p else pv u) ->
  seg nx' pv' e (ps ++ x :: qs ++ [e]) e.
Proof.
  intros Hn Hx H1 H2 q Enx Epv. pose proof (seg_last _ _ _ _ _ H1) as Hp.
  assert (Hps : NoDup (e :: ps)) by (rewrite app_comm_cons in Hn; by apply NoDup_app in Hn as [? _]).
  destruct (seg_sources _ _ _ _ _ H1 Hps) as [S1 S2].
  apply seg_app. exists p. split.
  - eapply seg_frame; [exact H1|intros u Hu|intros u Hu].
    + rewrite Enx, !decide_False; set_solver.
    + rewrite Epv, !decide_False; [done|set_solver|]. intros ->. subst q.
      destruct qs as [|q qs]; simpl in H2; destruct H2 as (Hq & _ & _); rewrite Hq in Hu.
      * apply NoDup_cons in Hps as [? _]. done.
      * apply NoDup_cons in Hn as [_ Hn]. apply NoDup_app in Hn as (_ & Hd & _). apply (Hd q Hu). set_solver.
  - simpl. split_and!.
    + by rewrite Enx, decide_True.
    + rewrite Epv. case_decide as Hxq; [|by rewrite decide_True].
      exfalso. apply Hx. rewrite Hxq. subst q.
      destruct qs as [|q qs]; simpl in H2; destruct H2 as (-> & _ & _); set_solver.
    + destruct qs as [|q0 qs]; simpl in H2 |- *; destruct H2 as (Hq & Hpq & H2).
      * rewrite Enx, Epv, decide_False, decide_True by set_solver.
        rewrite decide_True by done. by subst q.
      * subst q. rewrite Enx, Epv, decide_False, decide_True by set_solver.
        rewrite Hq, decide_True by done. split_and!; [done..|].
        apply NoDup_cons in Hn as [He Hn]. apply NoDup_app in Hn as (Hn1 & Hd & [Hq0 Hn2]%NoDup_cons).
        eapply seg_frame; [exact H2|intros u Hu|intros u Hu].
        -- rewrite sources_snoc in Hu. rewrite Enx, !decide_False; [done|set_solver|].
           intros ->. apply elem_of_cons in Hp as [->|Hp]; [set_solver|]. apply (Hd p Hp). set_solver.
        -- rewrite Epv, Hq, !decide_False; [done|set_solver|]. intros ->.
           apply elem_of_app in Hu as [|]; set_solver.
Qed.

(** Unlinking [x]. *)
Lemma seg_remove (nx pv nx' pv' : ptr -> ptr) (e p x : ptr) (ps qs : list ptr) :
  NoDup (e :: ps ++ x :: qs) ->
  seg nx pv e ps p -> nx p = x -> seg nx pv x (qs ++ [e]) e ->
  (forall u, nx' u = if decide (u = p) then nx x else nx u) ->
  (forall u, pv' u = if decide (u = nx x) then p else pv u) ->
  seg nx' pv' e (ps ++ qs ++ [e]) e.
Proof.
  intros Hn H1 Hx H2 Enx Epv. pose proof (seg_last _ _ _ _ _ H1) as Hp.
  assert (Hps : NoDup (e :: ps)) by (rewrite app_comm_cons in Hn; by apply NoDup_app in Hn as [? _]).
  destruct (seg_sources _ _ _ _ _ H1 Hps) as [S1 S2].
  apply NoDup_cons in Hn as [He Hn]. apply NoDup_app in Hn as (Hn1 & Hd & [Hxq Hn2]%NoDup_cons).
  apply seg_app. exists p. split.
  - eapply seg_frame; [exact H1|intros u Hu|intros u Hu].
    + rewrite Enx, decide_False; set_solver.
    + rewrite Epv, decide_False; [done|]. intros ->.
      destruct qs as [|q qs]; simpl in H2; destruct H2 as (Hq & _ & _); rewrite Hq in Hu.
      * apply NoDup_cons in Hps as [? _]. done.
      * apply (Hd q Hu). set_solver.
  - destruct qs as [|q qs]; simpl in H2 |- *; destruct H2 as (Hq & Hpq & H2).
    + rewrite Enx, Epv, Hq, !decide_True by done. done.
    + rewrite Enx, Epv, Hq, !decide_True by done. split_and!; [done..|].
      apply NoDup_cons in Hn2 as [Hqq Hn2].
      eapply seg_frame; [exact H2|intros u Hu|intros u Hu].
      * rewrite sources_snoc in Hu. rewrite Enx, decide_False; [done|].
        intros ->. apply elem_of_cons in Hp as [->|Hp]; [set_solver|]. apply (Hd p Hp). set_solver.
      * rewrite Epv, Hq, decide_False; [done|]. intros ->. apply elem_of_app in Hu as [|]; set_solver.
Qed.

(** ** The abstraction *)

Definition nx (h : heap) (p : ptr) : ptr := pxNext (node h p).
Definition pv (h : heap) (p : ptr) : ptr := pxPrevious (node h p).
Definition value (h : heap) (i : Z) : Z := xItemValue (node h (Item i)).

(** List [l] of the heap holds the items [xs], from the head. *)
Record is_list (h : heap) (l : Z) (xs : list Z) : Prop := {
  il_circle : seg (nx h) (pv h) (End l) ((Item <$> xs) ++ [End l]) (End l);
  il_nodup : NoDup xs;
  il_container x : x ∈ xs -> pxContainer (node h (Item x)) = Some l;
  il_number : uxNumberOfItems (hdr h l) = u32 (Z.of_nat (length xs));
  il_index : pxIndex (hdr h l) ∈ End l :: (Item <$> xs);
  il_end : xItemValue (node h (End l)) = portMAX_DELAY;
}.

Lemma circle_nodup (l : Z) (xs : list Z) : NoDup xs -> NoDup (End l :: (Item <$> xs)).
Proof.
  intros H. constructor; [|by apply NoDup_fmap_2; [apply _|]].
  intros (x & ? & _)%list_elem_of_fmap. done.
Qed.

(** The node after the last of a walk, on the rest of the circle. *)
Lemma circle_split (h : heap) (l : Z) (xs ys : list Z) :
  is_list h l (xs ++ ys) ->
  exists p, seg (nx h) (pv h) (End l) (Item <$> xs) p /\
    seg (nx h) (pv h) p ((Item <$> ys) ++ [End l]) (End l).
Proof. intros H. pose proof (il_circle _ _ _ H) as Hc. rewrite fmap_app, <- app_assoc in Hc. by apply seg_app. Qed.

(** A new item [i] linked in between [xs] and [ys] of list [l]. *)
Record linked (h h' : heap) (l i : Z) (p : ptr) : Prop := {
  lk_nx u : nx h' u = if decide (u = p) then Item i else if decide (u = Item i) then nx h p else nx h u;
  lk_pv u : pv h' u = if decide (u = nx h p) then Item i else if decide (u = Item i) then p else pv h u;
  lk_value u : xItemValue (node h' u) = xItemValue (node h u);
  lk_owner u : pvOwner (node h' u) = pvOwner (node h u);
  lk_container u : pxContainer (node h' u) = if decide (u = Item i) then Some l else pxContainer (node h u);
  lk_hdr m : hdr h' m = if decide (m = l) then mkList (u32 (uxNumberOfItems (hdr h l) + 1)) (pxIndex (hdr h l)) else hdr h m;
}.

Lemma u32_succ (n : Z) : u32 (u32 n + 1) = u32 (n + 1).
Proof. unfold u. by rewrite Zplus_mod_idemp_l. Qed.
Lemma u32_pred (n : Z) : u32 (u32 n - 1) = u32 (n - 1).
Proof. unfold u. by rewrite Zminus_mod_idemp_l. Qed.

Lemma linked_is_list (h h' : heap) (l i : Z) (p : ptr) (xs ys : list Z) :
  is_list h l (xs ++ ys) -> i ∉ xs ++ ys -> seg (nx h) (pv h) (End l) (Item <$> xs) p ->
  linked h h' l i p -> is_list h' l (xs ++ i :: ys).
Proof.
  intros H Hi Hp L. destruct (circle_split _ _ _ _ H) as (p' & H1 & H2).
  assert (p' = p) as ->.
  { clear -H1 Hp. revert H1 Hp. generalize (End l) as a, (Item <$> xs) as zs. intros a zs; revert a.
    induction zs as [|z zs IH]; intros a; simpl; [congruence|]. naive_solver. }
  assert (Hne : (Item <$> (xs ++ ys)) = (Item <$> xs) ++ (Item <$> ys)) by apply fmap_app.
  split.
  - rewrite fmap_app, fmap_cons, <- app_assoc. simpl.
    eapply seg_insert; [| |exact H1|exact H2|exact (lk_nx _ _ _ _ _ L)|exact (lk_pv _ _ _ _ _ L)].
    + rewrite <- Hne. apply circle_nodup, (il_nodup _ _ _ H).
    + rewrite <- Hne, not_elem_of_cons. split; [done|]. intros (y & [= <-] & Hy)%list_elem_of_fmap. done.
  - pose proof (il_nodup _ _ _ H) as Hn. rewrite <- Permutation_middle. by constructor.
  - intros x Hx. rewrite (lk_container _ _ _ _ _ L). case_decide as E; [done|].
    apply (il_container _ _ _ H). assert (x <> i) by congruence. set_solver.
  - rewrite (lk_hdr _ _ _ _ _ L), decide_True by done. simpl.
    rewrite (il_number _ _ _ H), u32_succ, !length_app. simpl. f_equal. lia.
  - rewrite (lk_hdr _ _ _ _ _ L), decide_True by done. simpl.
    pose proof (il_index _ _ _ H) as Hidx. rewrite fmap_app in Hidx. rewrite fmap_app, fmap_cons. set_solver.
  - rewrite (lk_value _ _ _ _ _ L). apply (il_end _ _ _ H).
Qed.

(** The two nodes next to the new item are on list [l]. *)
Lemma circle_next (h : heap) (l : Z) (xs : list Z) (p : ptr) :
  is_list h l xs -> p ∈ End l :: (Item <$> xs) -> nx h p ∈ End l :: (Item <$> xs).
Proof.
  intros H Hp. apply list_elem_of_split in Hp as (ps & qs & E).
  assert (Hseg : exists zs, (Item <$> xs) ++ [End l] = zs ++ qs ++ [End l] /\ seg (nx h) (pv h) p (qs ++ [End l]) (End l)).
  { pose proof (il_circle _ _ _ H) as Hc. destruct ps as [|a ps]; simpl in E; injection E as E1 E2.
    - subst p. exists []. simpl. by rewrite <- E2.
    - exists (ps ++ [p]). rewrite E2, <- !app_assoc. simpl. split; [done|].
      rewrite E2, <- app_assoc in Hc. apply seg_app in Hc as (b & _ & (_ & _ & Hc)). done. }
  destruct Hseg as (zs & E' & Hseg).
  assert (Hin : nx h p ∈ qs ++ [End l]).
  { destruct qs as [|q qs]; simpl in Hseg; destruct Hseg as (-> & _); set_solver. }
  assert (nx h p ∈ (Item <$> xs) ++ [End l]) by (rewrite E'; set_solver). set_solver.
Qed.

Lemma other_list (h : heap) (l m : Z) (xs ys : list Z) (p : ptr) :
  is_list h l xs -> is_list h m ys -> l <> m -> p ∈ End l :: (Item <$> xs) -> p ∉ End m :: (Item <$> ys).
Proof.
  intros H1 H2 Hne Hp Hq. apply elem_of_cons in Hp as [->|(x & -> & Hx)%list_elem_of_fmap];
    apply elem_of_cons in Hq as [Hq|(y & Hq & Hy)%list_elem_of_fmap]; try congruence.
  injection Hq as ->. pose proof (il_container _ _ _ H1 _ Hx). pose proof (il_container _ _ _ H2 _ Hy). congruence.
Qed.

(** A list none of whose nodes is written to stays as it is. *)
Lemma untouched (h h' : heap) (m : Z) (ys : list Z) :
  is_list h m ys -> hdr h' m = hdr h m ->
  (forall u, u ∈ End m :: (Item <$> ys) -> nx h' u = nx h u /\ pv h' u = pv h u /\
    xItemValue (node h' u) = xItemValue (node h u) /\ pxContainer (node h' u) = pxContainer (node h u)) ->
  is_list h' m ys.
Proof.
  intros H Hh Hu. split.
  - eapply seg_frame; [apply (il_circle _ _ _ H)|intros u Hin|intros u Hin].
    + rewrite sources_snoc in Hin. apply Hu, Hin.
    + apply Hu. set_solver.
  - apply (il_nodup _ _ _ H).
  - intros x Hx. destruct (Hu (Item x)) as (_ & _ & _ & ->); [|by apply (il_container _ _ _ H)].
    apply elem_of_cons; right. by apply list_elem_of_fmap_2.
  - rewrite Hh. apply (il_number _ _ _ H).
  - rewrite Hh. apply (il_index _ _ _ H).
  - destruct (Hu (End m)) as (_ & _ & -> & _); [set_solver|]. apply (il_end _ _ _ H).
Qed.

Lemma linked_other (h h' : heap) (l i m : Z) (p : ptr) (xs ys : list Z) :
  is_list h l xs -> is_list h m ys -> l <> m -> i ∉ ys -> p ∈ End l :: (Item <$> xs) ->
  linked h h' l i p -> is_list h' m ys.
Proof.
  intros H1 H2 Hne Hi Hp L. pose proof (circle_next _ _ _ _ H1 Hp) as Hq.
  pose proof (other_list _ _ _ _ _ _ H1 H2 Hne Hp). pose proof (other_list _ _ _ _ _ _ H1 H2 Hne Hq).
  assert (Item i ∉ End m :: (Item <$> ys)).
  { intros [?|(y & [= <-] & ?)%list_elem_of_fmap]%elem_of_cons; done. }
  apply (untouched h); [done|by rewrite (lk_hdr _ _ _ _ _ L), decide_False|].
  intros u Hu. rewrite (lk_nx _ _ _ _ _ L), (lk_pv _ _ _ _ _ L), (lk_container _ _ _ _ _ L), !decide_False
    by (intros ->; done). by rewrite (lk_value _ _ _ _ _ L).
Qed.

(** ** The operations on the abstraction *)

Ltac solve_linked :=
  heap_read; repeat case_decide; subst; rsimpl; try congruence;
  repeat match goal with H : context [upd] |- _ => progress rsimpl in H end; try congruence;
  try (match goal with |- context [hdr ?h ?l] => by destruct (hdr h l) end).

Lemma insert_after_linked (h : heap) (l i : Z) (it : ptr) :
  it <> Item i -> nx h it <> Item i -> linked h (insert_after h l i it) l i it.
Proof.
  unfold nx. intros H1 H2. unfold insert_after.
  split; intros u; unfold nx, pv; solve_linked.
Qed.

Lemma insert_end_linked (h : heap) (l i : Z) :
  let idx := pxIndex (hdr h l) in
  idx <> Item i -> pv h idx <> Item i -> nx h (pv h idx) = idx -> linked h (vListInsertEnd h l i) l i (pv h idx).
Proof.
  unfold nx, pv. intros H1 H2 H3. unfold vListInsertEnd.
  split; intros u; unfold nx, pv; solve_linked.
Qed.

(** The node before the index, and the items before it. *)
Lemma index_split (h : heap) (l : Z) (ys zs : list Z) :
  is_list h l (ys ++ zs) -> pxIndex (hdr h l) = hd (End l) (Item <$> zs) ->
  let p := pv h (pxIndex (hdr h l)) in
  seg (nx h) (pv h) (End l) (Item <$> ys) p /\ nx h p = pxIndex (hdr h l).
Proof.
  intros H Hidx. destruct (circle_split _ _ _ _ H) as (p & H1 & H2).
  rewrite Hidx. destruct zs as [|z zs]; simpl in H2 |- *; destruct H2 as (Hn & Hp & _); by rewrite Hp.
Qed.

Lemma not_in_circle (l i : Z) (xs : list Z) (p : ptr) :
  i ∉ xs -> p ∈ End l :: (Item <$> xs) -> p <> Item i.
Proof. intros Hi Hp ->. apply elem_of_cons in Hp as [?|(x & [= <-] & ?)%list_elem_of_fmap]; done. Qed.

Lemma seg_in_circle (h : heap) (l : Z) (xs ys : list Z) (p : ptr) :
  seg (nx h) (pv h) (End l) (Item <$> xs) p -> p ∈ End l :: (Item <$> (xs ++ ys)).
Proof. intros Hp%seg_last. rewrite fmap_app. set_solver. Qed.

Lemma insert_end_ok (h : heap) (l i : Z) (ys zs : list Z) :
  is_list h l (ys ++ zs) -> i ∉ ys ++ zs -> pxIndex (hdr h l) = hd (End l) (Item <$> zs) ->
  let p := pv h (pxIndex (hdr h l)) in
  seg (nx h) (pv h) (End l) (Item <$> ys) p /\ linked h (vListInsertEnd h l i) l i p.
Proof.
  intros H Hi Hidx. destruct (index_split _ _ _ _ H Hidx) as [H1 H2]. split; [done|].
  apply insert_end_linked; [| |done].
  - eapply not_in_circle; [exact Hi|apply (il_index _ _ _ H)].
  - eapply not_in_circle; [exact Hi|by eapply seg_in_circle].
Qed.

(** Sorted insertion, after the items of the same value. *)
Fixpoint insert_value (val : Z -> Z) (i : Z) (xs : list Z) : list Z :=
  match xs with
  | [] => [i]
  | x :: xs' => if val x <=? val i then x :: insert_value val i xs' else i :: xs
  end.

Lemma insert_value_last (val : Z -> Z) (i : Z) (xs : list Z) :
  (forall x, x ∈ xs -> val x <= val i) -> insert_value val i xs = xs ++ [i].
Proof.
  induction xs as [|x xs IH]; intros H; simpl; [done|].
  rewrite IH by set_solver. destruct (Z.leb_spec (val x) (val i)); [done|].
  specialize (H x ltac:(set_solver)). lia.
Qed.

Lemma insert_value_sorted (val : Z -> Z) (i : Z) (xs : list Z) :
  StronglySorted (fun x y => val x <= val y) xs -> StronglySorted (fun x y => val x <= val y) (insert_value val i xs).
Proof.
  induction 1 as [|x xs Hs IH Hall]; simpl; [by repeat constructor|].
  destruct (Z.leb_spec (val x) (val i)).
  - constructor; [done|]. clear -Hall H. induction xs as [|y xs IH]; simpl; [by repeat constructor|].
    apply Forall_cons in Hall as [H1 H2]. case_match; constructor; auto.
  - constructor; [by constructor|]. constructor; [lia|]. eapply Forall_impl; [exact Hall|]. simpl; lia.
Qed.

(** The search ends at the node after which the item belongs. *)
Lemma find_position_ok (h : heap) (l i : Z) (xs : list Z) (a : ptr) (fuel : nat) :
  seg (nx h) (pv h) a ((Item <$> xs) ++ [End l]) (End l) -> xItemValue (node h (End l)) = portMAX_DELAY ->
  value h i < portMAX_DELAY -> (length xs < fuel)%nat ->
  exists ys zs p, xs = ys ++ zs /\ insert_value (value h) i xs = ys ++ i :: zs /\
    find_position fuel h a (value h i) = Some p /\ seg (nx h) (pv h) a (Item <$> ys) p.
Proof.
  intros Hseg Hend Hv. revert a fuel Hseg; induction xs as [|x xs IH]; intros a fuel Hseg Hf;
    (destruct fuel as [|fuel]; [simpl in Hf; lia|]); simpl in Hseg; destruct Hseg as (Hn & Hp & Hseg);
    cbn [find_position]; fold (nx h a); rewrite Hn.
  - exists [], [], a. rewrite Hend. destruct (Z.leb_spec portMAX_DELAY (value h i)); [lia|]. done.
  - fold (value h x). cbn [insert_value]. destruct (Z.leb_spec (value h x) (value h i)).
    + destruct (IH (Item x) fuel Hseg) as (ys & zs & p & -> & E & F & S'); [simpl in Hf; lia|].
      exists (x :: ys), zs, p. rewrite E, F. done.
    + by exists [], (x :: xs), a.
Qed.

(** Item [i] taken out of list [l]; its own links stay. *)
Record unlinked (h h' : heap) (l i : Z) : Prop := {
  ul_nx u : nx h' u = if decide (u = pv h (Item i)) then nx h (Item i) else nx h u;
  ul_pv u : pv h' u = if decide (u = nx h (Item i)) then pv h (Item i) else pv h u;
  ul_value u : xItemValue (node h' u) = xItemValue (node h u);
  ul_owner u : pvOwner (node h' u) = pvOwner (node h u);
  ul_container u : pxContainer (node h' u) = if decide (u = Item i) then None else pxContainer (node h u);
  ul_hdr m : hdr h' m = if decide (m = l) then
      mkList (u32 (uxNumberOfItems (hdr h l) - 1))
        (if decide (pxIndex (hdr h l) = Item i) then pv h (Item i) else pxIndex (hdr h l))
    else hdr h m;
}.

Lemma unlink_pointers (h : heap) (i : Z) :
  nx h (Item i) <> Item i -> pv h (Item i) <> Item i ->
  let h1 := set_prev h (pxNext (node h (Item i))) (pxPrevious (node h (Item i))) in
  let h2 := set_next h1 (pxPrevious (node h1 (Item i))) (pxNext (node h1 (Item i))) in
  (forall u, nx h2 u = if decide (u = pv h (Item i)) then nx h (Item i) else nx h u) /\
  (forall u, pv h2 u = if decide (u = nx h (Item i)) then pv h (Item i) else pv h u) /\
  (forall u, xItemValue (node h2 u) = xItemValue (node h u) /\ pvOwner (node h2 u) = pvOwner (node h u) /\
    pxContainer (node h2 u) = pxContainer (node h u)) /\
  (forall m, hdr h2 m = hdr h m).
Proof.
  intros H1 H2 h1 h2.
  assert (E : node h1 (Item i) = node h (Item i)) by (subst h1; unfold nx in H1; heap_read; by rewrite decide_False).
  subst h2. rewrite E. subst h1. unfold nx, pv in *. split_and!; intros u.
  - solve_linked.
  - solve_linked.
  - split_and!; solve_linked.
  - solve_linked.
Qed.

Lemma remove_unlinked (h : heap) (l i : Z) :
  pxContainer (node h (Item i)) = Some l -> nx h (Item i) <> Item i -> pv h (Item i) <> Item i ->
  exists h', uxListRemove h i = Some (h', u32 (uxNumberOfItems (hdr h l) - 1)) /\ unlinked h h' l i.
Proof.
  intros Hc H1 H2. unfold uxListRemove. rewrite Hc. cbn [mbind option_bind].
  destruct (unlink_pointers h i H1 H2) as (En & Ep & Ev & Eh).
  set (h2 := set_next _ _ _) in *. clearbody h2.
  assert (E2 : pxPrevious (node h2 (Item i)) = pv h (Item i)).
  { change (pv h2 (Item i) = pv h (Item i)). by rewrite Ep, decide_False by congruence. }
  rewrite Eh, E2.
  set (h3 := if decide _ then _ else _).
  assert (E3 : (forall u, node h3 u = node h2 u) /\ forall m, hdr h3 m = if decide (m = l) then
      mkList (uxNumberOfItems (hdr h l))
        (if decide (pxIndex (hdr h l) = Item i) then pv h (Item i) else pxIndex (hdr h l)) else hdr h m).
  { subst h3. case_decide; (split; intros u; [by heap_read|]); heap_read; rewrite ?Eh;
      repeat case_decide; subst; try congruence; rewrite ?Eh; try done; destruct (hdr h l); by rsimpl. }
  destruct E3 as [E3 E4]. clearbody h3. eexists. split.
  - f_equal. f_equal. unfold set_number. rewrite hdr_put, decide_True by done. rsimpl.
    unfold set_container. rewrite hdr_put_node, E4, decide_True by done. done.
  - split; intros u; unfold nx, pv, set_number, set_container; rewrite ?node_put_hdr, ?node_put, ?hdr_put, ?hdr_put_node, ?E3.
    + specialize (En u). unfold nx, pv in En. rewrite <- En. by destruct (decide (Item i = u)) as [<-|]; rsimpl.
    + specialize (Ep u). unfold nx, pv in Ep. rewrite <- Ep. by destruct (decide (Item i = u)) as [<-|]; rsimpl.
    + destruct (Ev u) as (<- & _ & _). by destruct (decide (Item i = u)) as [<-|]; rsimpl.
    + destruct (Ev u) as (_ & <- & _). by destruct (decide (Item i = u)) as [<-|]; rsimpl.
    + destruct (Ev u) as (_ & _ & <-). destruct (decide (Item i = u)) as [<-|].
      * rewrite decide_True by done. by rsimpl.
      * by rewrite decide_False by congruence.
    + fold (pv h (Item i)). destruct (decide (l = u)) as [<-|].
      * rewrite !E4, (decide_True (P := l = l)) by done. rewrite (decide_True (P := l = l)) by done. reflexivity.
      * by rewrite E4, !decide_False by congruence.
Qed.
End RtosList.
