(* ===== verification/RtosListProps.v ===== *)
(** * Theorems on the kernel lists

    The operations of [list.c] on the sequences that the lists of the heap hold:
    sorted insertion, insertion before the index, removal, and the walk of the
    index around the list, which is how the scheduler shares the processor. *)

From Stdlib Require Import Sorting.Sorted.
From S2P Require Import Prelude RtosList.
From stdpp Require Import list.

#[local] Set Warnings "-clear-no-such-hyp".
#[local] Open Scope Z_scope.

Module RtosListProps.
Import RtosList.

(** ** Initialisation *)

Lemma initialise_ok (h : heap) (l : Z) : is_list (vListInitialise h l) l [].
Proof.
  unfold vListInitialise. split; simpl; unfold nx, pv; heap_read; rewrite ?decide_True by done; rsimpl; try done.
  - constructor.
  - set_solver.
  - set_solver.
Qed.

(** A heap with list 7 holding the items 1 and 2, of values 10 and 30, the index
    at the first of them, and item 3 of value 20 on no list. *)
Definition demo_item (v o : Z) : ListItem_t := mkItem v (Item 0) (Item 0) o None.
Definition demo_heap : heap :=
  let h := put_node (put_node (put_node (mkHeap ∅ ∅) (Item 1) (demo_item 10 101)) (Item 2) (demo_item 30 102))
             (Item 3) (demo_item 20 103) in
  let h := vListInsertEnd (vListInsertEnd (vListInitialise h 7) 7 1) 7 2 in
  snd (listGET_OWNER_OF_NEXT_ENTRY h 7).

Lemma demo_is_list : is_list demo_heap 7 [1; 2].
Proof.
  split; [by vm_compute|by repeat constructor; set_solver| |by vm_compute|vm_compute; set_solver|by vm_compute].
  intros x [->|[->|[]%not_elem_of_nil]%elem_of_cons]%elem_of_cons; by vm_compute.
Qed.

(** Every other list of the heap is as before. *)
Definition others_kept (h h' : heap) (l : Z) : Prop :=
  forall m ys, m <> l -> is_list h m ys -> is_list h' m ys.

Lemma free_not_in (h : heap) (l i : Z) (xs : list Z) :
  is_list h l xs -> pxContainer (node h (Item i)) = None -> i ∉ xs.
Proof. intros H Hc Hi. apply (il_container _ _ _ H) in Hi. congruence. Qed.

Lemma linked_others (h h' : heap) (l i : Z) (p : ptr) (xs : list Z) :
  is_list h l xs -> pxContainer (node h (Item i)) = None -> p ∈ End l :: (Item <$> xs) ->
  linked h h' l i p -> others_kept h h' l.
Proof.
  intros H Hc Hp L m ys Hm Hys. eapply linked_other; [exact H|exact Hys|congruence| |exact Hp|exact L].
  by eapply free_not_in.
Qed.

(** ** Insertion *)

Lemma insert_ok (h : heap) (l i : Z) (xs : list Z) :
  is_list h l xs -> pxContainer (node h (Item i)) = None -> (forall x, x ∈ xs -> value h x <= portMAX_DELAY) ->
  value h i <= portMAX_DELAY ->
  exists ys zs p, xs = ys ++ zs /\ insert_value (value h) i xs = ys ++ i :: zs /\
    seg (nx h) (pv h) (End l) (Item <$> ys) p /\
    vListInsert (S (length xs)) h l i = Some (insert_after h l i p).
Proof.
  intros H Hc Hall Hi. unfold vListInsert. fold (value h i).
  destruct (Z.eqb_spec (value h i) portMAX_DELAY) as [E|E].
  - exists xs, [], (pv h (End l)). rewrite app_nil_r. split_and!; [done| | |done].
    + apply insert_value_last. intros x Hx. rewrite E. auto.
    + pose proof H as H'. rewrite <- (app_nil_r xs) in H'.
      destruct (circle_split _ _ _ _ H') as (p & H1 & (_ & Hp & _)). by rewrite Hp.
  - destruct (find_position_ok h l i xs (End l) (S (length xs))) as (ys & zs & p & E1 & E2 & E3 & E4);
      [apply (il_circle _ _ _ H)|apply (il_end _ _ _ H)|lia|lia|].
    exists ys, zs, p. by rewrite E3.
Qed.

(** [vListInsert] of an item that is on no list ends (after at most one step
    of its loop per item) and puts the item behind the last item whose value is
    not greater, so that a sorted list stays sorted and items of equal value keep
    their order of arrival; all other lists of the heap are unchanged. *)
Theorem list_insert_sorted (h : heap) (l i : Z) (xs : list Z) :
  is_list h l xs -> pxContainer (node h (Item i)) = None ->
  (forall x, x ∈ i :: xs -> value h x <= portMAX_DELAY) ->
  exists h', vListInsert (S (length xs)) h l i = Some h' /\
    is_list h' l (insert_value (value h) i xs) /\ (forall x, value h' x = value h x) /\ others_kept h h' l /\
    (StronglySorted (fun x y => value h x <= value h y) xs ->
     StronglySorted (fun x y => value h' x <= value h' y) (insert_value (value h) i xs)).
Proof.
  intros H Hc Hall. pose proof (free_not_in _ _ _ _ H Hc) as Hi.
  destruct (insert_ok h l i xs H Hc) as (ys & zs & p & -> & E2 & Hp & E3); [set_solver..|].
  pose proof (seg_in_circle h l ys zs p Hp) as Hin.
  assert (L : linked h (insert_after h l i p) l i p).
  { apply insert_after_linked; [by eapply not_in_circle|].
    eapply not_in_circle; [exact Hi|by apply circle_next]. }
  exists (insert_after h l i p). rewrite E2. split_and!.
  - exact E3.
  - by eapply linked_is_list.
  - intros x. apply (lk_value _ _ _ _ _ L).
  - by eapply linked_others.
  - intros Hs. rewrite <- E2. assert (Ev : forall x, value (insert_after h l i p) x = value h x) by
      (intros x; apply (lk_value _ _ _ _ _ L)).
    apply (insert_value_sorted (value h) i) in Hs. clear -Hs Ev. induction Hs as [|x xs Hs IH Hx]; constructor; [done|].
    eapply Forall_impl; [exact Hx|]. intros y. by rewrite !Ev.
Qed.

(** ** Removal *)

Lemma removal_site (h : heap) (l i : Z) (xs ys : list Z) :
  is_list h l (xs ++ i :: ys) ->
  seg (nx h) (pv h) (End l) (Item <$> xs) (pv h (Item i)) /\ nx h (pv h (Item i)) = Item i /\
  seg (nx h) (pv h) (Item i) ((Item <$> ys) ++ [End l]) (End l) /\
  nx h (Item i) <> Item i /\ pv h (Item i) <> Item i.
Proof.
  intros H. destruct (circle_split _ _ _ _ H) as (p & H1 & (Hn & Hp & H2)). rewrite Hp.
  pose proof (il_nodup _ _ _ H) as Hd. apply NoDup_app in Hd as (_ & Hd & [Hi _]%NoDup_cons).
  split_and!; [done..| |].
  - destruct ys as [|y ys]; simpl in H2; destruct H2 as (-> & _ & _); [done|]. intros [= ->]. set_solver.
  - intros ->. apply seg_last in H1. apply elem_of_cons in H1 as [?|(x & [= <-] & Hx)%list_elem_of_fmap]; [done|].
    apply (Hd i Hx). set_solver.
Qed.

Lemma unlinked_is_list (h h' : heap) (l i : Z) (xs ys : list Z) :
  is_list h l (xs ++ i :: ys) -> unlinked h h' l i -> is_list h' l (xs ++ ys).
Proof.
  intros H U. destruct (removal_site _ _ _ _ _ H) as (H1 & Hn & H2 & _ & _).
  assert (Hd : NoDup (xs ++ i :: ys)) by apply (il_nodup _ _ _ H).
  assert (Hi : (i ∉ xs ++ ys) /\ NoDup (xs ++ ys)).
  { rewrite <- Permutation_middle in Hd. by apply NoDup_cons in Hd. }
  split.
  - rewrite fmap_app, <- app_assoc.
    eapply seg_remove; [|exact H1|exact Hn|exact H2|exact (ul_nx _ _ _ _ U)|exact (ul_pv _ _ _ _ U)].
    pose proof (circle_nodup l _ Hd) as Hc. by rewrite fmap_app, fmap_cons in Hc.
  - apply Hi.
  - intros x Hx. rewrite (ul_container _ _ _ _ U), decide_False by (intros [= ->]; by apply Hi).
    apply (il_container _ _ _ H). set_solver.
  - rewrite (ul_hdr _ _ _ _ U), decide_True by done. simpl.
    rewrite (il_number _ _ _ H), u32_pred, !length_app. simpl. f_equal. lia.
  - rewrite (ul_hdr _ _ _ _ U), decide_True by done. simpl. case_decide as Hx.
    + by eapply seg_in_circle.
    + pose proof (il_index _ _ _ H) as Hidx. rewrite fmap_app, fmap_cons in Hidx. rewrite fmap_app. set_solver.
  - rewrite (ul_value _ _ _ _ U). apply (il_end _ _ _ H).
Qed.

Lemma unlinked_others (h h' : heap) (l i : Z) (xs ys : list Z) :
  is_list h l (xs ++ i :: ys) -> unlinked h h' l i -> others_kept h h' l.
Proof.
  intros H U m zs Hm Hz. destruct (removal_site _ _ _ _ _ H) as (H1 & Hn & H2 & _ & _).
  assert (Hin : forall p, p ∈ End l :: (Item <$> (xs ++ i :: ys)) -> p ∉ End m :: (Item <$> zs)).
  { intros p. eapply other_list; [exact H|exact Hz|congruence]. }
  assert (Hi : Item i ∈ End l :: (Item <$> (xs ++ i :: ys))) by (rewrite fmap_app; set_solver).
  pose proof (Hin _ Hi). pose proof (Hin _ (seg_in_circle _ _ _ _ _ H1)).
  pose proof (Hin _ (circle_next _ _ _ _ H Hi)).
  apply (untouched h); [done|by rewrite (ul_hdr _ _ _ _ U), decide_False|].
  intros u Hu. rewrite (ul_nx _ _ _ _ U), (ul_pv _ _ _ _ U), (ul_container _ _ _ _ U), !decide_False
    by (intros ->; done). by rewrite (ul_value _ _ _ _ U).
Qed.

(** [uxListRemove] takes exactly the item out of the list it is on, keeps the
    order of the others, leaves the item on no list, and returns the number of
    items that remain; an item on no list is a null pointer access. *)
Theorem list_remove (h : heap) (i : Z) :
  (pxContainer (node h (Item i)) = None -> uxListRemove h i = None) /\
  (forall l xs ys, is_list h l (xs ++ i :: ys) -> Z.of_nat (length (xs ++ ys)) < 2 ^ 32 ->
   exists h', uxListRemove h i = Some (h', Z.of_nat (length (xs ++ ys))) /\
    is_list h' l (xs ++ ys) /\ pxContainer (node h' (Item i)) = None /\ others_kept h h' l).
Proof.
  split; [intros E; unfold uxListRemove; by rewrite E|]. intros l xs ys H Hlen.
  destruct (removal_site _ _ _ _ _ H) as (_ & _ & _ & Ha & Hb).
  destruct (remove_unlinked h l i) as (h' & E & U); [apply (il_container _ _ _ H); set_solver|done..|].
  exists h'. split_and!.
  - rewrite E, (il_number _ _ _ H), u32_pred. do 2 f_equal. rewrite length_app in Hlen |- *. simpl.
    rewrite u_small; [rewrite length_app; lia|]. unfold is_u. lia.
  - by eapply unlinked_is_list.
  - by rewrite (ul_container _ _ _ _ U), decide_True.
  - by eapply unlinked_others.
Qed.

(** ** The walk of the index *)

(** [w] is the order in which the items of [l] are next returned: those after
    the index, then those up to and including it. *)
Definition walk (h : heap) (l : Z) (w : list Z) : Prop :=
  exists ys zs, is_list h l (ys ++ zs) /\ w = zs ++ ys /\
    seg (nx h) (pv h) (End l) (Item <$> ys) (pxIndex (hdr h l)).

(** [h'] is [h] with the index of list [l] at [p]. *)
Definition reindexed (h h' : heap) (l : Z) (p : ptr) : Prop :=
  (forall u, node h' u = node h u) /\ hdr h' l = mkList (uxNumberOfItems (hdr h l)) p /\
  (forall m, m <> l -> hdr h' m = hdr h m).

Lemma set_index_reads (h : heap) (l : Z) (p : ptr) : reindexed h (set_index h l p) l p.
Proof.
  unfold set_index. split_and!; intros.
  - apply node_put_hdr.
  - rewrite hdr_put, decide_True by done. by destruct (hdr h l).
  - by rewrite hdr_put, decide_False.
Qed.

Lemma reindexed_trans (h1 h2 h3 : heap) (l : Z) (p q : ptr) :
  reindexed h1 h2 l p -> reindexed h2 h3 l q -> reindexed h1 h3 l q.
Proof.
  intros (A1 & A2 & A3) (B1 & B2 & B3). split_and!; intros.
  - by rewrite B1, A1.
  - by rewrite B2, A2.
  - by rewrite B3, A3.
Qed.

Lemma reindexed_is_list (h h' : heap) (l : Z) (p : ptr) (m : Z) (xs : list Z) :
  reindexed h h' l p -> (m = l -> p ∈ End l :: (Item <$> xs)) -> is_list h m xs -> is_list h' m xs.
Proof.
  intros (En & El & Eo) Hp [H1 H2 H3 H4 H5 H6].
  assert (Enx : forall u, nx h' u = nx h u /\ pv h' u = pv h u) by (intros u; unfold nx, pv; by rewrite En).
  split; [|done|intros x Hx; rewrite En; auto| | |by rewrite En].
  - eapply seg_frame; [exact H1|..]; intros; apply Enx.
  - destruct (decide (m = l)) as [->|]; [by rewrite El|by rewrite Eo].
  - destruct (decide (m = l)) as [->|]; [rewrite El; auto|by rewrite Eo].
Qed.

Lemma next_entry_reads (h : heap) (l : Z) :
  let n := nx h (pxIndex (hdr h l)) in
  let q := if decide (n = End l) then nx h n else n in
  exists h', listGET_OWNER_OF_NEXT_ENTRY h l = (pvOwner (node h q), h') /\ reindexed h h' l q.
Proof.
  intros n q. unfold listGET_OWNER_OF_NEXT_ENTRY. change (pxNext (node h _)) with n.
  pose proof (set_index_reads h l n) as R. set (h1 := set_index h l n) in *. clearbody h1.
  pose proof R as (Rn & Rl & _). rewrite Rl. cbn [pxIndex]. subst q. case_decide.
  - pose proof (set_index_reads h1 l (pxNext (node h1 n))) as R2. pose proof R2 as (R2n & R2l & _).
    rewrite Rn in *. change (pxNext (node h n)) with (nx h n) in *.
    eexists. split; [|by eapply reindexed_trans]. rewrite R2l. cbn [pxIndex]. by rewrite R2n, Rn.
  - exists h1. rewrite Rl. cbn [pxIndex]. by rewrite Rn.
Qed.

Lemma seg_end_unique (f g : ptr -> ptr) (a b c : ptr) (vs : list ptr) :
  seg f g a vs b -> seg f g a vs c -> b = c.
Proof. revert a; induction vs as [|v vs IH]; intros a; simpl; [congruence|]. naive_solver. Qed.

(** One step of the walk: the first item is returned and goes to the end. *)
Lemma walk_step (h : heap) (l x : Z) (w : list Z) :
  walk h l (x :: w) ->
  exists h', listGET_OWNER_OF_NEXT_ENTRY h l = (pvOwner (node h (Item x)), h') /\
    (forall u, node h' u = node h u) /\ walk h' l (w ++ [x]) /\ others_kept h h' l.
Proof.
  intros (ys & zs & H & Ew & Hseg). destruct (next_entry_reads h l) as (h' & E & R).
  destruct (circle_split _ _ _ _ H) as (p & H1 & H2). rewrite <- (seg_end_unique _ _ _ _ _ _ Hseg H1) in H2.
  assert (Q : exists ys' zs', ys' ++ zs' = ys ++ zs /\ zs' ++ ys' = w ++ [x] /\
    (if decide (nx h (pxIndex (hdr h l)) = End l) then nx h (nx h (pxIndex (hdr h l))) else nx h (pxIndex (hdr h l)))
      = Item x /\ seg (nx h) (pv h) (End l) (Item <$> ys') (Item x)).
  { destruct zs as [|z zs]; simpl in H2, Ew; destruct H2 as (Hn & Hp & _); rewrite Hn.
    - destruct ys as [|y ys]; [done|]. injection Ew as <- ->. destruct H1 as (Hy & Hpy & _).
      exists [x], ys. rewrite decide_True by done. simpl. by rewrite app_nil_r.
    - injection Ew as <- ->. exists (ys ++ [x]), zs. rewrite decide_False by done.
      rewrite <- !app_assoc. split_and!; [done..|]. rewrite fmap_app. apply seg_app.
      exists (pxIndex (hdr h l)). by simpl. }
  destruct Q as (ys' & zs' & E1 & E2 & E3 & E4). rewrite E3 in E, R. rewrite <- E1 in H.
  pose proof R as (Rn & Rl & _). exists h'. split_and!; [done|done| |].
  - exists ys', zs'. split_and!; [|done|].
    + eapply reindexed_is_list; [exact R| |exact H]. intros _. by eapply seg_in_circle.
    + rewrite Rl. cbn [pxIndex]. eapply seg_frame; [exact E4|..]; intros; unfold nx, pv; by rewrite Rn.
  - intros m zz Hm. eapply reindexed_is_list; [exact R|]. by intros ->.
Qed.

(** Calling the macro [n] times. *)
Fixpoint next_entries (n : nat) (h : heap) (l : Z) : list Z * heap :=
  match n with
  | O => ([], h)
  | S n => let '(o, h) := listGET_OWNER_OF_NEXT_ENTRY h l in
           let '(os, h) := next_entries n h l in (o :: os, h)
  end.

Lemma walk_steps (v w : list Z) (h : heap) (l : Z) :
  walk h l (v ++ w) ->
  exists h', next_entries (length v) h l = ((fun x => pvOwner (node h (Item x))) <$> v, h') /\
    walk h' l (w ++ v).
Proof.
  revert w h; induction v as [|x v IH]; intros w h Hw; cbn [length next_entries];
    [exists h; by rewrite app_nil_r|].
  destruct (walk_step _ _ _ _ Hw) as (h1 & -> & En & Hw1 & _). rewrite <- app_assoc in Hw1.
  destruct (IH _ _ Hw1) as (h' & -> & Hw'). exists h'. rewrite <- app_assoc in Hw'.
  split; [|done]. rewrite fmap_cons. do 2 f_equal. apply list_fmap_ext. intros i y _. by rewrite En.
Qed.

(** Every list in the heap has such an order. *)
Lemma walk_exists (h : heap) (l : Z) (xs : list Z) : is_list h l xs -> exists w, walk h l w /\ w ≡ₚ xs.
Proof.
  intros H. pose proof (il_index _ _ _ H) as Hi. apply elem_of_cons in Hi as [E|(x & E & Hx)%list_elem_of_fmap].
  - exists xs. split; [|done]. exists [], xs. split_and!; [done|by rewrite app_nil_r|by rewrite E].
  - apply list_elem_of_split in Hx as (ys & zs & ->). exists (zs ++ ys ++ [x]).
    split; [|by rewrite Permutation_app_comm, <- app_assoc]. exists (ys ++ [x]), zs.
    rewrite <- app_assoc. split_and!; [done..|]. destruct (circle_split _ _ _ _ H) as (p & H1 & H2).
    rewrite fmap_app. apply seg_app. exists p. split; [done|]. rewrite E. simpl in *. tauto.
Qed.

(** Round robin. On a list of [n] items, [n] calls of
    [listGET_OWNER_OF_NEXT_ENTRY] return the owner of every item exactly once,
    whatever the position of the index, and then the same order starts again. *)
Theorem list_round_robin (h : heap) (l : Z) (xs : list Z) :
  is_list h l xs ->
  exists w h', w ≡ₚ xs /\ next_entries (length xs) h l = ((fun x => pvOwner (node h (Item x))) <$> w, h') /\
    walk h l w /\ walk h' l w.
Proof.
  intros H. destruct (walk_exists _ _ _ H) as (w & Hw & Hp). exists w.
  pose proof Hw as Hw0. rewrite <- (app_nil_r w) in Hw.
  destruct (walk_steps w [] h l Hw) as (h' & E & Hw'). exists h'. rewrite <- Hp. by split_and!.
Qed.

(** An item added with [vListInsertEnd] becomes the last to be returned by
    [listGET_OWNER_OF_NEXT_ENTRY], but for the item the index is at, which was
    returned just before and comes after it. *)
Theorem list_insert_end (h : heap) (l i : Z) (w : list Z) :
  walk h l w -> pxContainer (node h (Item i)) = None ->
  let h' := vListInsertEnd h l i in
  others_kept h h' l /\
  match pxIndex (hdr h l) with
  | End _ => walk h' l (w ++ [i])
  | Item x => exists v, w = v ++ [x] /\ walk h' l (v ++ [i; x])
  end.
Proof.
  intros (ys & zs & H & -> & Hseg) Hc h'. pose proof (free_not_in _ _ _ _ H Hc) as Hi.
  destruct (pxIndex (hdr h l)) as [x|m] eqn:Eidx.
  - destruct ys as [|y ys _] using rev_ind; [discriminate|]. rewrite fmap_app in Hseg.
    apply seg_app in Hseg as (p & Hp & (_ & _ & Hy)). injection Hy as ->.
    rewrite <- app_assoc in H, Hi. destruct (insert_end_ok h l i ys ([x] ++ zs)) as [S1 L]; [done..|by rewrite Eidx|].
    split; [eapply linked_others; [exact H|done|by eapply seg_in_circle|exact L]|].
    exists (zs ++ ys). rewrite app_assoc. split; [done|]. exists (ys ++ [i; x]), zs.
    pose proof (linked_is_list _ _ _ _ _ _ _ H Hi S1 L) as H'. rewrite <- !app_assoc.
    split_and!; [exact H'|done|]. rewrite (lk_hdr _ _ _ _ _ L), decide_True by done. cbn [pxIndex]. rewrite Eidx.
    destruct (circle_split h' l (ys ++ [i; x]) zs) as (q & Hq & _); [by rewrite <- app_assoc|].
    pose proof Hq as Hq'. rewrite fmap_app in Hq'. apply seg_app in Hq' as (b & _ & (_ & _ & _ & _ & Hq')).
    simpl in Hq'. by rewrite Hq'.
  - assert (ys = [] /\ m = l) as [-> ->].
    { destruct ys as [|y ys _] using rev_ind; [by injection Hseg|]. exfalso. rewrite fmap_app in Hseg.
      by apply seg_app in Hseg as (p & _ & (_ & _ & ?)). }
    rewrite app_nil_r. simpl in H, Hi. destruct (insert_end_ok h l i zs []) as [S1 L];
      [by rewrite app_nil_r..|by rewrite Eidx|]. rewrite <- (app_nil_r zs) in H, Hi.
    split; [eapply linked_others; [exact H|done|by eapply seg_in_circle|exact L]|].
    exists [], (zs ++ [i]). pose proof (linked_is_list _ _ _ _ _ _ _ H Hi S1 L) as H'.
    split_and!; [exact H'|by rewrite app_nil_r|]. by rewrite (lk_hdr _ _ _ _ _ L), decide_True.
Qed.

(** ** Witnesses *)

Lemma list_insert_sorted_witness :
  exists h', vListInsert 3 demo_heap 7 3 = Some h' /\ is_list h' 7 [1; 3; 2].
Proof.
  destruct (list_insert_sorted demo_heap 7 3 [1; 2] demo_is_list) as (h' & E & H & _); [by vm_compute| |].
  - intros x [->|[->|[->|[]%not_elem_of_nil]%elem_of_cons]%elem_of_cons]%elem_of_cons; by vm_compute.
  - exists h'. split; [exact E|].
    by replace (insert_value (value demo_heap) 3 [1; 2]) with [1; 3; 2] in H by (by vm_compute).
Defined.

Lemma list_remove_witness :
  uxListRemove demo_heap 3 = None /\
  exists h', uxListRemove demo_heap 1 = Some (h', 1) /\ is_list h' 7 [2].
Proof.
  split; [by apply (list_remove demo_heap 3); vm_compute|].
  destruct (proj2 (list_remove demo_heap 1) 7 [] [2] demo_is_list) as (h' & E & H & _); [by vm_compute|].
  exists h'. split; [exact E|exact H].
Defined.

Lemma list_round_robin_witness :
  exists w h', w ≡ₚ [1; 2] /\
    next_entries 2 demo_heap 7 = ((fun x => pvOwner (node demo_heap (Item x))) <$> w, h') /\
    walk demo_heap 7 w /\ walk h' 7 w.
Proof. exact (list_round_robin demo_heap 7 [1; 2] demo_is_list). Defined.

Lemma demo_walk : walk demo_heap 7 [2; 1].
Proof. exists [1], [2]. split_and!; [exact demo_is_list|done|by vm_compute]. Qed.

Lemma list_insert_end_witness :
  exists v, [2; 1] = v ++ [1] /\ walk (vListInsertEnd demo_heap 7 3) 7 (v ++ [3; 1]).
Proof. exact (proj2 (list_insert_end demo_heap 7 3 [2; 1] demo_walk eq_refl)). Defined.
End RtosListProps.
