(* ===== verification/RtosSeq.v ===== *)
(** * Kernel lists as sequences

    The lists of [list.c] as the rest of the kernel sees them: a store of items,
    each with its value and the list it is on, and of lists, each a sequence of
    items cut at the position of the index.  The operations on the heap of
    [RtosList.v] implement the operations on the store. *)

From Stdlib Require Import Sorting.Sorted.
From S2P Require Import Prelude RtosList RtosListProps.
From stdpp Require Import list.
#[local] Set Warnings "-clear-no-such-hyp".
#[local] Open Scope Z_scope.

Module RtosSeq.

(** The items up to and including the one the index is at (none when it is at
    the end marker), and the items after it. *)
Record slist (I : Type) := mkSl { upto : list I; after : list I }.
Arguments mkSl {I}.
Arguments upto {I}.
Arguments after {I}.
Record sitem (L : Type) := mkSi { s_value : Z; s_container : option L }.
Arguments mkSi {L}.
Arguments s_value {L}.
Arguments s_container {L}.
#[global] Instance slist_inhabited I : Inhabited (slist I) := populate (mkSl [] []).
#[global] Instance sitem_inhabited L : Inhabited (sitem L) := populate (mkSi 0 None).

Definition members {I} (s : slist I) : list I := upto s ++ after s.

Section seq.
Context {I L : Type} `{Countable I} `{Countable L}.

Record store := mkStore { s_items : gmap I (sitem L); s_lists : gmap L (slist I) }.
#[global] Instance eta_store : Eta store := fun s => mkStore (s_items s) (s_lists s).
Implicit Types (st : store) (s : slist I) (i : I) (l : L).

Definition item st i : sitem L := s_items st !!! i.
Definition the_list st l : slist I := s_lists st !!! l.
Definition on st l : list I := members (the_list st l).
Definition put_list st l s : store := st <| s_lists := <[l := s]> (s_lists st) |>.
Definition put_item st i (x : sitem L) : store := st <| s_items := <[i := x]> (s_items st) |>.
Definition put_container st i (c : option L) : store := put_item st i (mkSi (s_value (item st i)) c).
Definition seq_set_value st i (v : Z) : store := put_item st i (mkSi v (s_container (item st i))).

(** [listINSERT_END], [vListInsertEnd]: the new item goes in front of the index. *)
Definition add_end (i : I) (s : slist I) : slist I :=
  match reverse (upto s) with
  | [] => mkSl [] (after s ++ [i])
  | x :: r => mkSl (reverse r ++ [i; x]) (after s)
  end.
Definition seq_insert_end st l i : store :=
  put_container (put_list st l (add_end i (the_list st l))) i (Some l).

(** [vListInsert]: behind the last item whose value is not greater. *)
Fixpoint insert_by (val : I -> Z) (i : I) (xs : list I) : list I :=
  match xs with
  | [] => [i]
  | x :: xs' => if val x <=? val i then x :: insert_by val i xs' else i :: xs
  end.
Definition add_sorted (val : I -> Z) (i : I) (s : slist I) : slist I :=
  if existsb (fun x => val i <? val x) (upto s)
  then mkSl (insert_by val i (upto s)) (after s)
  else mkSl (upto s) (insert_by val i (after s)).
Definition seq_insert st l i : store :=
  put_container (put_list st l (add_sorted (fun x => s_value (item st x)) i (the_list st l))) i (Some l).

(** [listREMOVE_ITEM], [uxListRemove]: a null pointer access for an item on no
    list, otherwise the number of items left. *)
Definition del (i : I) (xs : list I) : list I := filter (fun x => x <> i) xs.
Definition seq_remove st i : option (store * Z) :=
  match s_container (item st i) with
  | None => None
  | Some l =>
      let s := mkSl (del i (upto (the_list st l))) (del i (after (the_list st l))) in
      Some (put_container (put_list st l s) i None, Z.of_nat (length (members s)))
  end.

(** [listGET_OWNER_OF_NEXT_ENTRY]: the index moves to the item that is returned. *)
Definition advance (s : slist I) : option (I * slist I) :=
  match after s, upto s with
  | x :: xs, ys => Some (x, mkSl (ys ++ [x]) xs)
  | [], y :: ys => Some (y, mkSl [y] ys)
  | [], [] => None
  end.
Definition seq_next st l : option (I * store) :=
  match advance (the_list st l) with
  | Some (x, s) => Some (x, put_list st l s)
  | None => None
  end.

(** [listGET_OWNER_OF_HEAD_ENTRY]. *)
Definition seq_head st l : option I := head (on st l).
Definition seq_length st l : Z := Z.of_nat (length (on st l)).
Definition seq_empty st l : bool := bool_decide (on st l = []).

(** ** Reading the store after a write *)

Lemma the_list_put st l s m : the_list (put_list st l s) m = if decide (l = m) then s else the_list st m.
Proof.
  unfold the_list, put_list. rsimpl. destruct (decide (l = m)) as [<-|].
  - apply lookup_total_insert_eq.
  - by apply lookup_total_insert_ne.
Qed.
Lemma item_put st i x j : item (put_item st i x) j = if decide (i = j) then x else item st j.
Proof.
  unfold item, put_item. rsimpl. destruct (decide (i = j)) as [<-|].
  - apply lookup_total_insert_eq.
  - by apply lookup_total_insert_ne.
Qed.
Lemma the_list_put_item st i x l : the_list (put_item st i x) l = the_list st l.
Proof. done. Qed.
Lemma item_put_list st l s i : item (put_list st l s) i = item st i.
Proof. done. Qed.
Lemma the_list_container st i c l : the_list (put_container st i c) l = the_list st l.
Proof. done. Qed.
Lemma item_container st i c j :
  item (put_container st i c) j = if decide (i = j) then mkSi (s_value (item st i)) c else item st j.
Proof. apply item_put. Qed.
End seq.
Arguments store : clear implicits.
Arguments store I L {_ _ _ _}.

(** ** Sequences *)

Lemma del_notin {I} `{EqDecision I} (i : I) xs : i ∉ xs -> del i xs = xs.
Proof.
  unfold del. induction xs as [|x xs IH]; intros Hn; [done|]. rewrite filter_cons_True by set_solver.
  f_equal. apply IH. set_solver.
Qed.
Lemma del_split {I} `{EqDecision I} (i : I) xs ys : i ∉ xs -> i ∉ ys -> del i (xs ++ i :: ys) = xs ++ ys.
Proof.
  intros Hx Hy. unfold del. rewrite filter_app, filter_cons_False by tauto.
  fold (del i xs) (del i ys). by rewrite (del_notin i xs Hx), (del_notin i ys Hy).
Qed.
Lemma elem_of_del {I} `{EqDecision I} (i y : I) xs : y ∈ del i xs <-> y <> i /\ y ∈ xs.
Proof. unfold del. by rewrite list_elem_of_filter. Qed.
Lemma elem_of_insert_by {I} (val : I -> Z) (i y : I) xs : y ∈ insert_by val i xs <-> y = i \/ y ∈ xs.
Proof.
  induction xs as [|x xs IH]; cbn; [set_solver|].
  destruct (val x <=? val i); rewrite ?elem_of_cons, ?IH; rewrite ?elem_of_cons; tauto.
Qed.
Lemma insert_by_app {I} (val : I -> Z) (i : I) ys zs :
  insert_by val i (ys ++ zs)
  = if existsb (fun x => val i <? val x) ys then insert_by val i ys ++ zs else ys ++ insert_by val i zs.
Proof.
  induction ys as [|y ys IH]; cbn [app existsb]; [done|].
  cbn [insert_by]. rewrite IH. destruct (Z.leb_spec (val y) (val i)), (Z.ltb_spec (val i) (val y)); try lia; cbn [orb].
  - by destruct (existsb _ ys).
  - done.
Qed.
Lemma add_sorted_members {I} (val : I -> Z) (i : I) s :
  members (add_sorted val i s) = insert_by val i (members s).
Proof. unfold members, add_sorted. rewrite insert_by_app. by destruct (existsb _ (upto s)). Qed.
Lemma insert_by_perm {I} (val : I -> Z) (i : I) xs : insert_by val i xs ≡ₚ i :: xs.
Proof.
  induction xs as [|x xs IH]; cbn; [done|]. destruct (val x <=? val i); [|done]. rewrite IH. apply perm_swap.
Qed.
Lemma insert_by_sorted {I} (val : I -> Z) (i : I) xs :
  StronglySorted (fun x y => val x <= val y) xs -> StronglySorted (fun x y => val x <= val y) (insert_by val i xs).
Proof.
  induction 1 as [|x xs Hs IH Hx]; cbn; [by repeat constructor|]. destruct (Z.leb_spec (val x) (val i)).
  - constructor; [done|]. rewrite Forall_forall in *. intros y [->|Hy]%elem_of_insert_by; [done|auto].
  - constructor; [by constructor|]. constructor; [lia|]. eapply Forall_impl; [exact Hx|]. cbn. lia.
Qed.
Lemma add_end_perm {I} (i : I) s : members (add_end i s) ≡ₚ i :: members s.
Proof.
  unfold members, add_end. destruct s as [ys zs]. cbn [upto after]. destruct ys as [|x ys _] using rev_ind.
  - cbn [reverse rev_append upto after app]. by rewrite Permutation_app_comm.
  - rewrite reverse_snoc, reverse_involutive. cbn [upto after]. rewrite <- !app_assoc. cbn [app].
    rewrite <- Permutation_middle. done.
Qed.
Lemma del_sorted {I} `{EqDecision I} (R : I -> I -> Prop) i xs : StronglySorted R xs -> StronglySorted R (del i xs).
Proof.
  unfold del. induction 1 as [|x xs Hs IH Hx]; [constructor|]. rewrite filter_cons. case_decide; [|done].
  constructor; [done|]. rewrite Forall_forall in *. intros y [_ Hy]%list_elem_of_filter. auto.
Qed.

(** ** A consistent store

    No item is twice on a list, and an item is on the list its container says. *)

Section consistent.
Context {I L : Type} `{Countable I} `{Countable L}.
Implicit Types (st : store I L) (s : slist I) (i j : I) (l m : L).

Record store_ok st : Prop := {
  so_nodup l : NoDup (on st l);
  so_on i l : s_container (item st i) = Some l <-> i ∈ on st l;
}.

Lemma on_put st l s i c m : on (put_container (put_list st l s) i c) m = if decide (l = m) then members s else on st m.
Proof. unfold on. rewrite the_list_container, the_list_put. by destruct (decide (l = m)). Qed.
Lemma container_put st l s i c j :
  s_container (item (put_container (put_list st l s) i c) j) = if decide (i = j) then c else s_container (item st j).
Proof. rewrite item_container, item_put_list. by destruct (decide (i = j)). Qed.
Lemma value_put st l s i c j : s_value (item (put_container (put_list st l s) i c) j) = s_value (item st j).
Proof. rewrite item_container, !item_put_list. by destruct (decide (i = j)) as [<-|]. Qed.

(** Removal of an item. *)
Record removed st i st' : Prop := {
  rm_ok : store_ok st';
  rm_on l : on st' l = del i (on st l);
  rm_container j : s_container (item st' j) = if decide (i = j) then None else s_container (item st j);
  rm_value j : s_value (item st' j) = s_value (item st j);
}.

Lemma seq_remove_removed st i l :
  store_ok st -> s_container (item st i) = Some l -> exists st' n, seq_remove st i = Some (st', n) /\ removed st i st'.
Proof.
  intros [Hn Ho] Hc. unfold seq_remove. rewrite Hc. eexists _, _. split; [done|].
  set (s := mkSl _ _). assert (members s = del i (on st l)) as Em.
  { unfold s, members, on, del. cbn [upto after]. by rewrite <- filter_app. }
  assert (forall m, on (put_container (put_list st l s) i None) m = del i (on st m)) as Hon.
  { intros m. rewrite on_put, Em. destruct (decide (l = m)) as [<-|Hne]; [done|]. symmetry. apply del_notin.
    rewrite <- Ho. congruence. }
  assert (forall j, s_container (item (put_container (put_list st l s) i None) j)
    = if decide (i = j) then None else s_container (item st j)) as Hcj by (intros j; apply container_put).
  split; [split|done|done|intros j; apply value_put].
  - intros m. rewrite Hon. unfold del. by apply NoDup_filter.
  - intros j m. rewrite Hon, Hcj, elem_of_del, <- Ho. destruct (decide (i = j)); naive_solver.
Qed.

(** Insertion of an item that is on no list. *)
Record inserted st l i st' : Prop := {
  ins_ok : store_ok st';
  ins_on : on st' l ≡ₚ i :: on st l;
  ins_other m : m <> l -> on st' m = on st m;
  ins_container j : s_container (item st' j) = if decide (i = j) then Some l else s_container (item st j);
  ins_value j : s_value (item st' j) = s_value (item st j);
}.

Lemma put_inserted st l i s :
  store_ok st -> s_container (item st i) = None -> members s ≡ₚ i :: on st l ->
  inserted st l i (put_container (put_list st l s) i (Some l)).
Proof.
  intros [Hn Ho] Hc Hm.
  assert (forall m, i ∉ on st m) as Hni by (intros m; rewrite <- Ho; congruence).
  split.
  - split.
    + intros m. rewrite on_put. destruct (decide (l = m)) as [<-|]; [|done]. rewrite Hm. by apply NoDup_cons.
    + intros j m. rewrite on_put, container_put. destruct (decide (l = m)) as [<-|Hlm].
      * rewrite Hm, elem_of_cons, <- Ho. destruct (decide (i = j)); naive_solver.
      * destruct (decide (i = j)) as [<-|]; [|apply Ho]. split; [congruence|]. intros []%Hni.
  - by rewrite on_put, decide_True.
  - intros m Hne. by rewrite on_put, decide_False.
  - intros j. apply container_put.
  - intros j. apply value_put.
Qed.
Lemma seq_insert_end_inserted st l i :
  store_ok st -> s_container (item st i) = None -> inserted st l i (seq_insert_end st l i).
Proof. intros Hs Hc. apply put_inserted; [done..|]. apply add_end_perm. Qed.
Lemma seq_insert_inserted st l i :
  store_ok st -> s_container (item st i) = None -> inserted st l i (seq_insert st l i).
Proof. intros Hs Hc. apply put_inserted; [done..|]. rewrite add_sorted_members. apply insert_by_perm. Qed.
Lemma on_seq_insert st l i : on (seq_insert st l i) l = insert_by (fun x => s_value (item st x)) i (on st l).
Proof. unfold seq_insert. rewrite on_put, decide_True by done. apply add_sorted_members. Qed.

(** Setting a value, and stepping the index. *)
Lemma seq_set_value_ok st i v : store_ok st -> store_ok (seq_set_value st i v).
Proof.
  intros [Hn Ho]. split; [exact Hn|]. intros j l. unfold seq_set_value. rewrite item_put, <- (Ho j l).
  by destruct (decide (i = j)) as [<-|].
Qed.
Lemma container_set_value st i v j : s_container (item (seq_set_value st i v) j) = s_container (item st j).
Proof. unfold seq_set_value. rewrite item_put. by destruct (decide (i = j)) as [<-|]. Qed.
Lemma value_set_value st i v j :
  s_value (item (seq_set_value st i v) j) = if decide (i = j) then v else s_value (item st j).
Proof. unfold seq_set_value. rewrite item_put. by destruct (decide (i = j)). Qed.

Lemma advance_members s x s' : advance s = Some (x, s') -> members s' = members s /\ x ∈ members s.
Proof.
  unfold advance, members. destruct s as [ys [|z zs]]; cbn [upto after].
  - destruct ys as [|y ys]; intros [= <- <-]; cbn [upto after]. rewrite app_nil_r. set_solver.
  - intros [= <- <-]; cbn [upto after]. rewrite <- app_assoc. set_solver.
Qed.
Lemma seq_next_some st l : on st l <> [] -> exists x st', seq_next st l = Some (x, st').
Proof. unfold seq_next, advance, on, members. destruct (the_list st l) as [[|] [|]]; naive_solver. Qed.
Lemma seq_next_same st l x st' :
  seq_next st l = Some (x, st') ->
  x ∈ on st l /\ (forall m, on st' m = on st m) /\ (forall i, item st' i = item st i) /\ (store_ok st -> store_ok st').
Proof.
  unfold seq_next. destruct (advance _) as [[y s]|] eqn:E; [|done]. intros [= -> <-].
  apply advance_members in E as [Em Hx]. 
  assert (forall m, on (put_list st l s) m = on st m) as Hon.
  { intros m. unfold on. rewrite the_list_put. by destruct (decide (l = m)) as [<-|]. }
  split_and!; [done..|]. intros [Hn Ho]. split; intros; rewrite Hon; [apply Hn|apply Ho].
Qed.
Lemma seq_head_some st l : on st l <> [] -> exists x, seq_head st l = Some x /\ x ∈ on st l.
Proof. unfold seq_head. destruct (on st l) as [|x xs]; [done|]. exists x. set_solver. Qed.
Lemma seq_head_none st l : seq_head st l = None <-> on st l = [].
Proof. unfold seq_head. by destruct (on st l). Qed.
End consistent.

(** ** The heap implements the store *)

Import RtosList RtosListProps.

Definition idx (l : Z) (ys : list Z) : ptr := match last ys with Some x => Item x | None => End l end.

Record represents (h : heap) (st : store Z Z) : Prop := {
  rp_item i : i ∈ dom (s_items st) ->
    value h i = s_value (item st i) /\ pxContainer (node h (Item i)) = s_container (item st i);
  rp_list l : l ∈ dom (s_lists st) ->
    is_list h l (on st l) /\ pxIndex (hdr h l) = idx l (upto (the_list st l));
  rp_member i l : s_container (item st i) = Some l -> l ∈ dom (s_lists st) /\ i ∈ on st l;
  rp_dom i l : l ∈ dom (s_lists st) -> i ∈ on st l -> i ∈ dom (s_items st);
}.

Lemma idx_snoc l ys x : idx l (ys ++ [x]) = Item x.
Proof. unfold idx. by rewrite last_snoc. Qed.

Lemma seg_idx f g (l : Z) (ys : list Z) (p : ptr) : seg f g (End l) (Item <$> ys) p -> p = idx l ys.
Proof.
  destruct ys as [|y ys _] using rev_ind; [done|]. rewrite idx_snoc, fmap_app.
  intros (q & _ & (_ & _ & ->))%seg_app. done.
Qed.
Lemma seg_idx_exists h (l : Z) (ys zs : list Z) :
  is_list h l (ys ++ zs) -> seg (nx h) (pv h) (End l) (Item <$> ys) (idx l ys) /\
    seg (nx h) (pv h) (idx l ys) ((Item <$> zs) ++ [End l]) (End l).
Proof.
  intros Hl. destruct (circle_split _ _ _ _ Hl) as (p & H1 & H2). by rewrite <- (seg_idx _ _ _ _ _ H1).
Qed.

(** Putting an item on a list. *)
Lemma represents_link h h' st l i p s :
  represents h st -> l ∈ dom (s_lists st) -> i ∈ dom (s_items st) -> s_container (item st i) = None ->
  p ∈ End l :: (Item <$> on st l) -> linked h h' l i p -> is_list h' l (members s) ->
  (forall x, x ∈ members s <-> x = i \/ x ∈ on st l) -> idx l (upto s) = idx l (upto (the_list st l)) ->
  represents h' (put_container (put_list st l s) i (Some l)).
Proof.
  intros [Ri Rl Rm Rd] Hl Hi Hc Hp L Hs Hm Hx.
  destruct (Ri i Hi) as [_ Hci]. rewrite Hc in Hci. destruct (Rl l Hl) as [Hls Hidx].
  assert (forall m, m ∈ dom (s_lists (put_container (put_list st l s) i (Some l))) <-> m ∈ dom (s_lists st)) as Hdl
    by (intros m; unfold put_container, put_item, put_list; rsimpl; set_solver).
  assert (forall j, j ∈ dom (s_items (put_container (put_list st l s) i (Some l))) <-> j ∈ dom (s_items st)) as Hdi
    by (intros m; unfold put_container, put_item, put_list; rsimpl; set_solver).
  assert (forall m, on (put_container (put_list st l s) i (Some l)) m = if decide (l = m) then members s else on st m) as Hon.
  { intros m. unfold on. rewrite the_list_container, the_list_put. by case_decide. }
  split.
  - intros j Hj%Hdi. destruct (Ri j Hj) as [Hv Hcj]. rewrite item_container, !item_put_list.
    unfold value. rewrite (lk_value _ _ _ _ _ L), (lk_container _ _ _ _ _ L).
    destruct (decide (i = j)) as [<-|Hne].
    + rewrite decide_True by done. by split.
    + rewrite decide_False by congruence. by split.
  - intros m Hm'%Hdl. rewrite Hon, the_list_container, the_list_put, (lk_hdr _ _ _ _ _ L).
    destruct (decide (l = m)) as [<-|Hne].
    + rewrite decide_True by done. cbn [pxIndex]. split; [done|]. by rewrite Hidx, Hx.
    + rewrite decide_False by congruence. destruct (Rl m Hm') as [Hlm Him]. split; [|done].
      by eapply (linked_others h h' l i p); [..|exact Hlm]; try done.
  - intros j m. rewrite item_container, item_put_list. intros Hj. rewrite Hdl, Hon.
    destruct (decide (i = j)) as [<-|Hne]; cbn [s_container] in Hj.
    + injection Hj as <-. rewrite decide_True by done. split; [done|]. apply Hm. by left.
    + apply Rm in Hj as [Hj1 Hj2]. split; [done|]. destruct (decide (l = m)) as [<-|]; [|done]. apply Hm. by right.
  - intros j m. rewrite Hdl, Hdi, Hon. intros Hm' Hj. destruct (decide (l = m)) as [<-|]; [|by eapply Rd].
    apply Hm in Hj as [->|Hj]; [done|by eapply Rd].
Qed.

Lemma insert_end_refines h st l i :
  represents h st -> l ∈ dom (s_lists st) -> i ∈ dom (s_items st) -> s_container (item st i) = None ->
  represents (vListInsertEnd h l i) (seq_insert_end st l i).
Proof.
  intros R Hl Hi Hc. destruct (rp_list _ _ R l Hl) as [Hls Hidx]. destruct (rp_item _ _ R i Hi) as [_ Hci].
  rewrite Hc in Hci. pose proof (free_not_in _ _ _ _ Hls Hci) as Hni.
  unfold seq_insert_end, add_end. unfold on, members in *. destruct (the_list st l) as [ys zs] eqn:El. cbn [upto after] in *.
  destruct ys as [|x ys _] using rev_ind.
  - cbn [reverse rev_append]. destruct (insert_end_ok h l i zs []) as [S1 Lk]; rewrite ?app_nil_r; try done.
    eapply (represents_link h); try done; unfold on, members; rewrite ?El; cbn [upto after app]; try done.
    + pose proof (seg_in_circle _ _ _ [] _ S1) as Hin. by rewrite app_nil_r in Hin.
    + eapply linked_is_list; [..|exact Lk]; rewrite ?app_nil_r; done.
    + intros y. rewrite elem_of_app, list_elem_of_singleton. tauto.
  - rewrite reverse_snoc, reverse_involutive. rewrite idx_snoc in Hidx. rewrite <- app_assoc in Hls, Hni.
    destruct (insert_end_ok h l i ys (x :: zs)) as [S1 Lk]; try done.
    eapply (represents_link h); try done; unfold on, members; rewrite ?El; cbn [upto after app]; rewrite <- ?app_assoc.
    + by eapply seg_in_circle.
    + by eapply linked_is_list.
    + intros y. cbn. rewrite !elem_of_app, !elem_of_cons. tauto.
    + change [i; x] with ([i] ++ [x]). by rewrite app_assoc, !idx_snoc.
Qed.

(** Sorted insertion. *)
Lemma insert_by_value (val : Z -> Z) i xs : insert_by val i xs = insert_value val i xs.
Proof. induction xs as [|x xs IH]; cbn; [done|]. rewrite IH. by destruct (val x <=? val i). Qed.
Lemma insert_by_idx (val : Z -> Z) (i l : Z) ys :
  existsb (fun x => val i <? val x) ys = true -> idx l (insert_by val i ys) = idx l ys.
Proof.
  destruct ys as [|y ys _] using rev_ind; [done|]. intros Hx. rewrite insert_by_app, idx_snoc.
  rewrite existsb_app in Hx. destruct (existsb _ ys); [by rewrite idx_snoc|]. cbn [orb existsb] in Hx.
  rewrite orb_false_r in Hx. cbn [insert_by]. rewrite Z.leb_antisym, Hx. cbn [negb].
  change [i; y] with ([i] ++ [y]). by rewrite app_assoc, idx_snoc.
Qed.
Lemma insert_refines h st l i :
  represents h st -> l ∈ dom (s_lists st) -> i ∈ dom (s_items st) -> s_container (item st i) = None ->
  (forall x, x ∈ i :: on st l -> s_value (item st x) <= portMAX_DELAY) ->
  exists h', vListInsert (S (length (on st l))) h l i = Some h' /\ represents h' (seq_insert st l i).
Proof.
  intros R Hl Hi Hc Hv. destruct (rp_list _ _ R l Hl) as [Hls Hidx]. destruct (rp_item _ _ R i Hi) as [_ Hci].
  rewrite Hc in Hci. pose proof (free_not_in _ _ _ _ Hls Hci) as Hni.
  assert (forall x, x ∈ i :: on st l -> value h x = s_value (item st x)) as Hval.
  { intros x Hx. apply (rp_item _ _ R). apply elem_of_cons in Hx as [->|Hx]; [done|by apply (rp_dom _ _ R _ l)]. }
  assert (value h i = s_value (item st i)) as Hvi by (apply Hval; set_solver).
  destruct (insert_ok h l i (on st l) Hls Hci) as (ys & zs & p & E1 & E2 & Hp & E3);
    [intros x Hx; rewrite Hval; [apply Hv|]; set_solver|rewrite Hvi; apply Hv; set_solver|].
  pose proof (seg_in_circle h l ys zs p Hp) as Hin. rewrite <- E1 in Hin.
  assert (insert_by (fun x => s_value (item st x)) i (on st l) = ys ++ i :: zs) as E4.
  { rewrite insert_by_value, <- E2. clear -Hval Hvi. induction (on st l) as [|x xs IH]; [done|]. cbn.
    rewrite (Hval x), Hvi by set_solver. rewrite IH; [done|]. intros y Hy. apply Hval. set_solver. }
  assert (linked h (insert_after h l i p) l i p) as Lk.
  { apply insert_after_linked; [by eapply not_in_circle|].
    eapply not_in_circle; [exact Hni|by apply circle_next]. }
  eexists. split; [exact E3|]. eapply (represents_link h); try done.
  - rewrite add_sorted_members. fold (on st l). rewrite E4. rewrite E1 in Hls, Hni. by eapply linked_is_list.
  - intros x. rewrite add_sorted_members. apply elem_of_insert_by.
  - unfold add_sorted. destruct (existsb _ (upto (the_list st l))) eqn:Hx; [|done]. by apply (insert_by_idx (fun x => s_value (item st x))).
Qed.

(** Removal. *)
Lemma idx_del h l i ys zs :
  is_list h l (ys ++ zs) -> i ∈ ys ++ zs ->
  idx l (del i ys) = if decide (idx l ys = Item i) then pv h (Item i) else idx l ys.
Proof.
  intros Hl Hi. pose proof (il_nodup _ _ _ Hl) as Hd. apply NoDup_app in Hd as (Hdy & Hyz & _).
  destruct (decide (i ∈ ys)) as [Hy|Hy].
  - apply list_elem_of_split in Hy as (a & b & ->). apply NoDup_app in Hdy as (_ & Hab & [Hib _]%NoDup_cons).
    assert (i ∉ a) as Hia by (intros Ha; apply (Hab i Ha); set_solver).
    rewrite del_split by done. destruct b as [|x b _] using rev_ind.
    + rewrite app_nil_r, idx_snoc, decide_True by done.
      rewrite <- app_assoc in Hl. destruct (removal_site _ _ _ _ _ Hl) as (Hs & _). symmetry. by eapply seg_idx.
    + rewrite app_assoc, idx_snoc. change (a ++ i :: b ++ [x]) with (a ++ (i :: b) ++ [x]).
      rewrite app_assoc, idx_snoc, decide_False; [done|]. intros [= ->]. set_solver.
  - rewrite del_notin by done. rewrite decide_False; [done|]. intros E. unfold idx in E.
    destruct (last ys) as [x|] eqn:Ex; [|done]. injection E as ->. apply Hy. by eapply last_Some_elem_of.
Qed.

Lemma represents_unlink h h' st l i s :
  represents h st -> l ∈ dom (s_lists st) -> i ∈ dom (s_items st) -> s_container (item st i) = Some l ->
  unlinked h h' l i -> is_list h' l (members s) -> others_kept h h' l ->
  (forall x, x ∈ members s <-> x <> i /\ x ∈ on st l) ->
  idx l (upto s) = (if decide (idx l (upto (the_list st l)) = Item i) then pv h (Item i) else idx l (upto (the_list st l))) ->
  represents h' (put_container (put_list st l s) i None).
Proof.
  intros [Ri Rl Rm Rd] Hl Hi Hc U Hs Ho Hm Hx. destruct (Rl l Hl) as [Hls Hidx].
  assert (forall m, m ∈ dom (s_lists (put_container (put_list st l s) i None)) <-> m ∈ dom (s_lists st)) as Hdl
    by (intros m; unfold put_container, put_item, put_list; rsimpl; set_solver).
  assert (forall j, j ∈ dom (s_items (put_container (put_list st l s) i None)) <-> j ∈ dom (s_items st)) as Hdi
    by (intros m; unfold put_container, put_item, put_list; rsimpl; set_solver).
  assert (forall m, on (put_container (put_list st l s) i None) m = if decide (l = m) then members s else on st m) as Hon.
  { intros m. unfold on. rewrite the_list_container, the_list_put. by destruct (decide (l = m)). }
  split.
  - intros j Hj%Hdi. destruct (Ri j Hj) as [Hv Hcj]. rewrite item_container, !item_put_list.
    unfold value. rewrite (ul_value _ _ _ _ U), (ul_container _ _ _ _ U).
    destruct (decide (i = j)) as [<-|Hne].
    + rewrite decide_True by done. by split.
    + rewrite decide_False by congruence. by split.
  - intros m Hm'%Hdl. rewrite Hon, the_list_container, the_list_put, (ul_hdr _ _ _ _ U).
    destruct (decide (l = m)) as [<-|Hne].
    + rewrite decide_True by done. cbn [pxIndex]. split; [done|]. by rewrite Hidx, Hx.
    + rewrite decide_False by congruence. destruct (Rl m Hm') as [Hlm Him]. split; [|done]. by apply Ho.
  - intros j m. rewrite item_container, item_put_list. intros Hj. rewrite Hdl, Hon.
    destruct (decide (i = j)) as [<-|Hne]; cbn [s_container] in Hj; [done|].
    apply Rm in Hj as [Hj1 Hj2]. split; [done|]. destruct (decide (l = m)) as [<-|]; [|done]. apply Hm. by split.
  - intros j m. rewrite Hdl, Hdi, Hon. intros Hm' Hj. destruct (decide (l = m)) as [<-|]; [|by eapply Rd].
    apply Hm in Hj as [_ Hj]. by eapply Rd.
Qed.

Lemma remove_refines h st i st' n :
  represents h st -> seq_remove st i = Some (st', n) -> n < 2 ^ 32 -> i ∈ dom (s_items st) ->
  exists h', uxListRemove h i = Some (h', n) /\ represents h' st'.
Proof.
  intros R E Hn Hi. unfold seq_remove in E. destruct (s_container (item st i)) as [l|] eqn:Hc; [|done].
  injection E as <- <-. destruct (rp_member _ _ R i l Hc) as [Hl Hon]. destruct (rp_list _ _ R l Hl) as [Hls Hidx].
  destruct (rp_item _ _ R i Hi) as [_ Hci]. rewrite Hc in Hci.
  set (s := mkSl _ _) in *. pose proof Hls as Hls'. apply list_elem_of_split in Hon as (xs & ys & Eon).
  rewrite Eon in Hls'. destruct (removal_site _ _ _ _ _ Hls') as (_ & _ & _ & Ha & Hb).
  destruct (remove_unlinked h l i) as (h' & E & U); [done..|]. exists h'.
  assert (members s = xs ++ ys) as Em.
  { pose proof (il_nodup _ _ _ Hls') as Hd. rewrite <- Permutation_middle in Hd. apply NoDup_cons in Hd as [Hni _].
    unfold s, members. cbn [upto after]. unfold del. rewrite <- filter_app. fold (del i (upto (the_list st l) ++ after (the_list st l))).
    unfold on, members in Eon. rewrite Eon. apply del_split; set_solver. }
  split.
  - rewrite E, (il_number _ _ _ Hls'), u32_pred, Em. do 2 f_equal. rewrite Em, length_app in Hn. rewrite length_app. simpl.
    rewrite u_small; [rewrite length_app; lia|]. unfold is_u. lia.
  - apply (represents_unlink h h' st l i s); try done; [rewrite Em; by eapply unlinked_is_list|by eapply unlinked_others| |].
    + intros x. unfold s, members. cbn [upto after]. rewrite elem_of_app, !elem_of_del. unfold on, members. rewrite elem_of_app. tauto.
    + unfold s. cbn [upto]. apply (idx_del h l i _ (after (the_list st l))); [done|]. unfold on, members in Eon. rewrite Eon. set_solver.
Qed.

(** The step of the index. *)
Lemma advance_site h l ys zs x ys' zs' :
  is_list h l (ys ++ zs) -> advance (mkSl ys zs) = Some (x, mkSl ys' zs') ->
  ys' ++ zs' = ys ++ zs /\ idx l ys' = Item x /\
  (if decide (nx h (idx l ys) = End l) then nx h (nx h (idx l ys)) else nx h (idx l ys)) = Item x.
Proof.
  intros Hl E. destruct (seg_idx_exists h l ys zs Hl) as [S1 S2]. unfold advance in E. cbn [upto after] in E.
  destruct zs as [|z zs].
  - destruct ys as [|y ys]; [done|]. injection E as <- <- <-. destruct S2 as (-> & _ & _). rewrite decide_True by done.
    destruct S1 as (-> & _ & _). by rewrite app_nil_r.
  - injection E as <- <- <-. destruct S2 as (-> & _ & _). rewrite decide_False by done. by rewrite idx_snoc, <- app_assoc.
Qed.

Lemma next_refines h st l x st' :
  represents h st -> l ∈ dom (s_lists st) -> seq_next st l = Some (x, st') ->
  exists h', listGET_OWNER_OF_NEXT_ENTRY h l = (pvOwner (node h (Item x)), h') /\ represents h' st'.
Proof.
  intros R Hl E. destruct (rp_list _ _ R l Hl) as [Hls Hidx]. unfold on, members in Hls.
  unfold seq_next in E. destruct (the_list st l) as [ys zs] eqn:El. destruct (advance _) as [[x' [ys' zs']]|] eqn:Ea; [|done].
  injection E as -> <-. destruct (advance_site h l ys zs x ys' zs' Hls Ea) as (Em & Ei & Ex). cbn [upto after] in *.
  destruct (next_entry_reads h l) as (h' & -> & Rx). rewrite Hidx, Ex in *. exists h'. split; [done|].
  pose proof Rx as (Rn & Rh & Ro). destruct R as [Ri Rl Rm Rd].
  assert (forall m, on (put_list st l (mkSl ys' zs')) m = on st m) as Hon.
  { intros m. unfold on. rewrite the_list_put. destruct (decide (l = m)) as [<-|]; [by rewrite El|done]. }
  assert (forall m, m ∈ dom (s_lists (put_list st l (mkSl ys' zs'))) <-> m ∈ dom (s_lists st)) as Hdl
    by (intros m; unfold put_list; rsimpl; set_solver).
  split.
  - intros j Hj. unfold value. rewrite Rn. by apply Ri.
  - intros m Hm%Hdl. rewrite Hon, the_list_put. destruct (Rl m Hm) as [Hlm Him]. split.
    + eapply reindexed_is_list; [exact Rx| |exact Hlm]. intros ->. unfold on, members. rewrite El. cbn [upto after].
      rewrite <- Em. unfold idx in Ei. destruct (last ys') as [y|] eqn:Ey; [|done]. injection Ei as ->.
      apply last_Some_elem_of in Ey. rewrite fmap_app. set_solver.
    + destruct (decide (l = m)) as [<-|Hne]; [by rewrite Rh|by rewrite Ro].
  - intros j m Hj. rewrite Hdl, Hon. by apply Rm.
  - intros j m. rewrite Hdl, Hon. apply Rd.
Qed.

Lemma head_refines h st l x :
  represents h st -> l ∈ dom (s_lists st) -> seq_head st l = Some x ->
  listGET_OWNER_OF_HEAD_ENTRY h l = pvOwner (node h (Item x)) /\
  (x ∈ dom (s_items st) -> listGET_ITEM_VALUE_OF_HEAD_ENTRY h l = s_value (item st x)).
Proof.
  intros R Hl E. destruct (rp_list _ _ R l Hl) as [Hls _]. unfold seq_head in E.
  destruct (on st l) as [|y ys]; [done|]. injection E as ->. destruct (il_circle _ _ _ Hls) as (Hn & _).
  unfold listGET_OWNER_OF_HEAD_ENTRY, listGET_ITEM_VALUE_OF_HEAD_ENTRY. fold (nx h (End l)). rewrite Hn.
  split; [done|]. intros Hx. by apply (rp_item _ _ R).
Qed.

(** C17: the heap operations implement the store operations.  From a heap that
    represents a store, [vListInsertEnd], [vListInsert] (whose loop ends within one
    step more than the items of the list), [uxListRemove] and
    [listGET_OWNER_OF_NEXT_ENTRY] reach heaps that represent the store after the
    sequence operation, with the same return value, and removing an item that is
    on no list is a null pointer access in both. *)
Theorem list_ops_refine (h : heap) (st : store Z Z) :
  represents h st ->
  (forall l i, l ∈ dom (s_lists st) -> i ∈ dom (s_items st) -> s_container (item st i) = None ->
     represents (vListInsertEnd h l i) (seq_insert_end st l i)) /\
  (forall l i, l ∈ dom (s_lists st) -> i ∈ dom (s_items st) -> s_container (item st i) = None ->
     (forall x, x ∈ i :: on st l -> s_value (item st x) <= portMAX_DELAY) ->
     exists h', vListInsert (S (length (on st l))) h l i = Some h' /\ represents h' (seq_insert st l i)) /\
  (forall i, i ∈ dom (s_items st) ->
     match seq_remove st i with
     | None => uxListRemove h i = None
     | Some (st', n) => n < 2 ^ 32 -> exists h', uxListRemove h i = Some (h', n) /\ represents h' st'
     end) /\
  (forall l, l ∈ dom (s_lists st) ->
     match seq_next st l with
     | None => on st l = []
     | Some (x, st') => exists h', listGET_OWNER_OF_NEXT_ENTRY h l = (pvOwner (node h (Item x)), h') /\ represents h' st'
     end).
Proof.
  intros R. split_and!; intros.
  - by apply insert_end_refines.
  - by apply (insert_refines h st).
  - destruct (seq_remove st i) as [[st' n]|] eqn:E; [intros; by eapply remove_refines|].
    unfold seq_remove in E. unfold uxListRemove. destruct (rp_item _ _ R i) as [_ ->]; [done|].
    by destruct (s_container (item st i)).
  - destruct (seq_next st l) as [[x st']|] eqn:E; [by apply (next_refines h st)|].
    unfold seq_next, advance, on, members in *. by destruct (the_list st l) as [[|] [|]].
Qed.

(** The heap of [RtosListProps.v] and its store. *)
Definition demo_store : store Z Z := {|
  s_items := <[1 := mkSi 10 (Some 7)]> (<[2 := mkSi 30 (Some 7)]> {[3 := mkSi 20 None]});
  s_lists := {[ 7 := mkSl [1] [2] ]} |}.
Lemma demo_represents : represents demo_heap demo_store.
Proof.
  split.
  - intros i Hi. assert (i = 1 \/ i = 2 \/ i = 3) as [->|[->| ->]] by (unfold demo_store in Hi; cbn [s_items] in Hi; set_solver);
      by vm_compute.
  - intros l Hl. assert (l = 7) as -> by (unfold demo_store in Hl; cbn [s_lists] in Hl; set_solver). split; [exact demo_is_list|done].
  - intros i l. unfold item, demo_store. cbn [s_items]. rewrite lookup_total_alt.
    rewrite !lookup_insert, lookup_singleton. intros E.
    assert (l = 7 /\ (i = 1 \/ i = 2)) as [-> Hi] by (repeat case_decide; cbn in E; simplify_eq; auto).
    split; [unfold demo_store; cbn [s_lists]; set_solver|]. change (on demo_store 7) with [1; 2].
    destruct Hi as [->| ->]; repeat constructor.
  - intros i l Hl. assert (l = 7) as -> by (unfold demo_store in Hl; cbn [s_lists] in Hl; set_solver).
    change (on demo_store 7) with [1; 2]. unfold demo_store. cbn [s_items]. set_solver.
Qed.

Lemma list_ops_refine_witness :
  represents (vListInsertEnd demo_heap 7 3) (seq_insert_end demo_store 7 3) /\
  on (seq_insert_end demo_store 7 3) 7 = [3; 1; 2] /\
  exists h', uxListRemove demo_heap 1 = Some (h', 1).
Proof.
  destruct (list_ops_refine demo_heap demo_store demo_represents) as (A & _ & B & _). split; [|split; [done|]].
  - apply A; unfold demo_store; cbn [s_items s_lists]; [set_solver|set_solver|done].
  - specialize (B 1 ltac:(unfold demo_store; cbn [s_items]; set_solver)). assert (snd <$> seq_remove demo_store 1 = Some 1) as En by (by vm_compute).
    destruct (seq_remove demo_store 1) as [[st' n]|]; [|done]. injection En as ->.
    destruct (B eq_refl) as (h' & E & _). exists h'. exact E.
Defined.
End RtosSeq.
