(* ===== verification/RtosHeap.v ===== *)
(** * The FreeRTOS heap

    [portable/MemMang/heap_1.c]: an allocator that never frees, over a static
    array.  The address of the array is the linker's; [size_t] and pointers have
    32 bits on the target. *)

From S2P Require Import Prelude.

Module RtosHeap.

Definition configTOTAL_HEAP_SIZE : Z := 8192.
Definition portBYTE_ALIGNMENT : Z := 8.
Definition portBYTE_ALIGNMENT_MASK : Z := 0x0007.
Definition configADJUSTED_HEAP_SIZE : Z := configTOTAL_HEAP_SIZE - portBYTE_ALIGNMENT.

(** The static variables; 0 is the null pointer. *)
Record heap_1 := mkHeap1 { xNextFreeByte : Z; pucAlignedHeap : Z }.
#[global] Instance eta_heap_1 : Eta heap_1 := fun s => mkHeap1 (xNextFreeByte s) (pucAlignedHeap s).
Definition heap_start : heap_1 := mkHeap1 0 0.

Section heap.
(** The address of [ucHeap]. *)
Variable ucHeap : Z.

(** The size rounded up; 0 when that overflows. *)
Definition aligned_size (xWantedSize : Z) : Z :=
  let low := Z.land xWantedSize portBYTE_ALIGNMENT_MASK in
  if negb (low =? 0) then
    if xWantedSize <? u32 (xWantedSize + (portBYTE_ALIGNMENT - low))
    then u32 (xWantedSize + (portBYTE_ALIGNMENT - low)) else 0
  else xWantedSize.

Definition aligned_base : Z :=
  Z.land (u32 (ucHeap + (portBYTE_ALIGNMENT - 1))) (u32 (Z.lnot portBYTE_ALIGNMENT_MASK)).

Definition pvPortMalloc (s : heap_1) (xWantedSize : Z) : Z * heap_1 :=
  let xWantedSize := aligned_size xWantedSize in
  let s := if pucAlignedHeap s =? 0 then s <| pucAlignedHeap := aligned_base |> else s in
  if (0 <? xWantedSize)
     && (u32 (xNextFreeByte s + xWantedSize) <? configADJUSTED_HEAP_SIZE)
     && (xNextFreeByte s <? u32 (xNextFreeByte s + xWantedSize))
  then (u32 (pucAlignedHeap s + xNextFreeByte s), s <| xNextFreeByte := u32 (xNextFreeByte s + xWantedSize) |>)
  else (0, s).

(** Freeing anything but the null pointer fails the kernel's assertion. *)
Definition vPortFree (pv : Z) : res unit := assert (pv =? 0).

Definition vPortInitialiseBlocks (s : heap_1) : heap_1 := s <| xNextFreeByte := 0 |>.
Definition xPortGetFreeHeapSize (s : heap_1) : Z := u32 (configADJUSTED_HEAP_SIZE - xNextFreeByte s).

(** ** Rounding *)

Lemma land7 (z : Z) : Z.land z portBYTE_ALIGNMENT_MASK = z mod 8.
Proof. change portBYTE_ALIGNMENT_MASK with (Z.ones 3). by rewrite Z.land_ones. Qed.

(** The array lies within the address space and is not at address 0. *)
Definition placed : Prop := 0 < ucHeap /\ ucHeap + configTOTAL_HEAP_SIZE <= 2 ^ 32.

Lemma aligned_base_eq : placed -> aligned_base = (ucHeap + 7) / 8 * 8.
Proof.
  unfold placed, configTOTAL_HEAP_SIZE. intros Hp. unfold aligned_base, portBYTE_ALIGNMENT.
  rewrite u_small by (unfold is_u; lia). replace (8 - 1) with 7 by lia.
  assert (E : u32 (Z.lnot portBYTE_ALIGNMENT_MASK) = Z.ldiff (Z.ones 32) (Z.ones 3)) by done.
  rewrite E. apply Z.bits_inj'. intros n Hn.
  rewrite Z.land_spec, Z.ldiff_spec, !Z.testbit_ones_nonneg by lia.
  replace ((ucHeap + 7) / 8 * 8) with (Z.shiftl (Z.shiftr (ucHeap + 7) 3) 3)
    by (rewrite Z.shiftl_mul_pow2, Z.shiftr_div_pow2 by lia; done).
  rewrite Z.shiftl_spec by lia.
  destruct (Z.ltb_spec n 3); simpl; [rewrite !andb_false_r; rewrite Z.testbit_neg_r by lia; done|].
  rewrite Z.shiftr_spec by lia. replace (n - 3 + 3) with n by lia.
  destruct (Z.ltb_spec n 32); simpl; [by rewrite andb_true_r|].
  rewrite andb_false_r. symmetry. apply Z.bits_above_log2; [lia|].
  apply Z.lt_le_trans with 32; [|lia]. apply Z.log2_lt_pow2; lia.
Qed.

Lemma aligned_base_range : placed -> aligned_base mod 8 = 0 /\ ucHeap <= aligned_base <= ucHeap + 7.
Proof.
  intros Hp. rewrite aligned_base_eq by done. split; [apply Z.mod_mul; lia|].
  pose proof (Z.div_mod (ucHeap + 7) 8 ltac:(lia)). pose proof (Z.mod_pos_bound (ucHeap + 7) 8 ltac:(lia)). lia.
Qed.

(** A request is rounded up to a multiple of 8, or refused on overflow. *)
Lemma aligned_size_eq (n : Z) :
  is_u 32 n -> aligned_size n = if n <=? 2 ^ 32 - 8 then (n + 7) / 8 * 8 else 0.
Proof.
  unfold is_u. intros Hn. unfold aligned_size, portBYTE_ALIGNMENT. rewrite land7.
  pose proof (Z.div_mod n 8 ltac:(lia)) as D. pose proof (Z.mod_pos_bound n 8 ltac:(lia)) as M.
  assert (Hd : (n + 7) / 8 = if n mod 8 =? 0 then n / 8 else n / 8 + 1).
  { destruct (Z.eqb_spec (n mod 8) 0); symmetry.
    - apply Z.div_unique with 7; lia.
    - apply Z.div_unique with (n mod 8 - 1); lia. }
  rewrite Hd. destruct (Z.eqb_spec (n mod 8) 0) as [E|E]; simpl negb; cbv iota.
  - destruct (Z.leb_spec n (2 ^ 32 - 8)); lia.
  - destruct (Z.leb_spec n (2 ^ 32 - 8)).
    + rewrite u_small by (unfold is_u; lia). destruct (Z.ltb_spec n (n + (8 - n mod 8))); lia.
    + assert (E2 : n + (8 - n mod 8) = 2 ^ 32) by lia. rewrite E2. change (u32 (2 ^ 32)) with 0.
      destruct (Z.ltb_spec n 0); lia.
Qed.

(** ** The invariant *)

Record heap_ok (s : heap_1) : Prop := {
  ho_base : pucAlignedHeap s = 0 \/ pucAlignedHeap s = aligned_base;
  ho_first : pucAlignedHeap s = 0 -> xNextFreeByte s = 0;
  ho_next : 0 <= xNextFreeByte s < configADJUSTED_HEAP_SIZE;
  ho_aligned : xNextFreeByte s mod 8 = 0;
}.

Lemma heap_start_ok : heap_ok heap_start.
Proof. split; simpl; auto; by vm_compute. Qed.

(** The bytes a request takes. *)
Definition block_size (n : Z) : Z := (n + 7) / 8 * 8.

Lemma block_size_bounds (n : Z) : block_size n mod 8 = 0 /\ n <= block_size n < n + 8.
Proof.
  unfold block_size. split; [apply Z.mod_mul; lia|].
  pose proof (Z.div_mod (n + 7) 8 ltac:(lia)). pose proof (Z.mod_pos_bound (n + 7) 8 ltac:(lia)). lia.
Qed.

(** A request succeeds exactly when it is not empty and its rounded size leaves
    the last byte of the adjusted heap free; then it gets the next bytes. *)
Lemma malloc_eq (s : heap_1) (n : Z) :
  placed -> heap_ok s -> is_u 32 n ->
  pvPortMalloc s n =
    let s := mkHeap1 (xNextFreeByte s) aligned_base in
    if (0 <? n) && (xNextFreeByte s + block_size n <? configADJUSTED_HEAP_SIZE)
    then (aligned_base + xNextFreeByte s, s <| xNextFreeByte := xNextFreeByte s + block_size n |>)
    else (0, s).
Proof.
  intros Hp [Hb Hf Hn Ha] Hu. pose proof (aligned_base_range Hp) as [_ Hr]. unfold placed in Hp.
  pose proof (block_size_bounds n) as [_ Hbs]. unfold is_u in Hu.
  unfold configADJUSTED_HEAP_SIZE, configTOTAL_HEAP_SIZE, portBYTE_ALIGNMENT in *.
  assert (Es : (if pucAlignedHeap s =? 0 then s <| pucAlignedHeap := aligned_base |> else s)
    = mkHeap1 (xNextFreeByte s) aligned_base).
  { destruct s as [nx b]. simpl in *. destruct Hb as [->| ->]; simpl; [done|]. by case_match. }
  unfold pvPortMalloc. rewrite Es, aligned_size_eq by (unfold is_u; lia). simpl. fold (block_size n).
  unfold configADJUSTED_HEAP_SIZE, configTOTAL_HEAP_SIZE, portBYTE_ALIGNMENT.
  destruct (Z.leb_spec n (2 ^ 32 - 8)) as [Hle|Hle].
  - destruct (Z.ltb_spec 0 n) as [H0|H0].
    2:{ assert (n = 0) as -> by lia. done. }
    replace (0 <? block_size n) with true by lia. simpl andb.
    destruct (Z.ltb_spec (xNextFreeByte s + block_size n) (8192 - 8)).
    + rewrite !u_small by (unfold is_u; lia). repeat case_match; lia || done.
    + assert (E : u32 (xNextFreeByte s + block_size n) = xNextFreeByte s + block_size n \/
        u32 (xNextFreeByte s + block_size n) <= xNextFreeByte s) by
        (unfold u; pose proof (Z.div_mod (xNextFreeByte s + block_size n) (2 ^ 32) ltac:(lia));
         pose proof (Z.mod_pos_bound (xNextFreeByte s + block_size n) (2 ^ 32) ltac:(lia)); nia).
      repeat case_match; lia || done.
  - simpl. replace (xNextFreeByte s + block_size n <? 8192 - 8) with false by lia. by rewrite andb_false_r.
Qed.

Lemma malloc_ok (s : heap_1) (n : Z) : placed -> heap_ok s -> is_u 32 n -> heap_ok (pvPortMalloc s n).2.
Proof.
  intros Hp Hs Hn. rewrite malloc_eq by done. destruct Hs as [Hb Hf Hx Ha].
  pose proof (block_size_bounds n) as [Hm Hbs]. pose proof (aligned_base_range Hp) as [_ Hr].
  unfold placed, is_u in *. cbv zeta. simpl xNextFreeByte at 1. destruct (_ && _) eqn:E; simpl; [rsimpl|].
  - apply andb_prop in E as [E1 E2]. split; simpl; auto; [lia|lia|].
    rewrite Z.add_mod, Ha, Hm by lia. done.
  - split; simpl; auto; lia.
Qed.

(** Requests one after the other: the blocks, and the heap after them. *)
Fixpoint mallocs (s : heap_1) (ns : list Z) : list (Z * Z) * heap_1 :=
  match ns with
  | [] => ([], s)
  | n :: ns => let '(p, s) := pvPortMalloc s n in
               let '(bs, s) := mallocs s ns in ((p, n) :: bs, s)
  end.

(** What a request got lies between two positions of the free index. *)
Definition block_between (lo hi : Z) (b : Z * Z) : Prop :=
  b.1 <> 0 -> 0 < b.2 /\ b.1 mod 8 = 0 /\ aligned_base + lo <= b.1 /\ b.1 + block_size b.2 <= aligned_base + hi.

(** The blocks of later requests come after those of earlier ones. *)
Fixpoint in_order (lo : Z) (bs : list (Z * Z)) : Prop :=
  match bs with
  | [] => True
  | b :: bs => 0 <= lo /\ block_between lo (configADJUSTED_HEAP_SIZE - 1) b /\
      in_order (if b.1 =? 0 then lo else b.1 + block_size b.2 - aligned_base) bs
  end.

Lemma mallocs_in_order (ns : list Z) (s : heap_1) :
  placed -> heap_ok s -> Forall (is_u 32) ns ->
  in_order (xNextFreeByte s) (mallocs s ns).1 /\ heap_ok (mallocs s ns).2 /\ map snd (mallocs s ns).1 = ns.
Proof.
  intros Hp. revert s; induction ns as [|n ns IH]; intros s Hs Hns; [done|].
  apply Forall_cons_1 in Hns as [Hn Hns]. cbn [mallocs].
  pose proof (malloc_ok s n Hp Hs Hn) as Hs'. pose proof (malloc_eq s n Hp Hs Hn) as E.
  destruct (pvPortMalloc s n) as [p s']. simpl in Hs'. specialize (IH s' Hs' Hns).
  destruct (mallocs s' ns) as [bs s'']. destruct IH as (I1 & I2 & I3). simpl in *.
  pose proof (aligned_base_range Hp) as [Hal Hr]. pose proof (block_size_bounds n) as [Hbm Hbs].
  destruct Hs as [Hb Hf Hx Ha]. unfold placed in Hp. split_and!; [lia| | |done|by f_equal].
  - intros Hne. simpl in *. destruct (_ && _) eqn:Ec; injection E as -> ->; [|done].
    apply andb_prop in Ec as [E1 E2]. split_and!; [lia| |lia|lia].
    rewrite Z.add_mod, Hal, Ha by lia. done.
  - destruct (_ && _) eqn:Ec; injection E as -> ->; simpl in *.
    + replace (aligned_base + xNextFreeByte s =? 0) with false by lia.
      replace (aligned_base + xNextFreeByte s + block_size n - aligned_base) with (xNextFreeByte s + block_size n) by lia.
      by rsimpl in I1.
    + done.
Qed.

Lemma in_order_after (bs : list (Z * Z)) (lo : Z) (b : Z * Z) :
  in_order lo bs -> In b bs -> b.1 <> 0 -> aligned_base + lo <= b.1 /\
    b.1 + block_size b.2 <= aligned_base + configADJUSTED_HEAP_SIZE - 1 /\ b.1 mod 8 = 0 /\ 0 < b.2.
Proof.
  revert lo; induction bs as [|c bs IH]; intros lo; simpl; [done|].
  intros (H1 & H2 & H3) [->|Hin] Hne.
  - specialize (H2 Hne). lia.
  - specialize (IH _ H3 Hin Hne). destruct (Z.eqb_spec c.1 0); [done|]. specialize (H2 n).
    pose proof (block_size_bounds c.2). split_and!; try tauto; lia.
Qed.

Lemma in_order_disjoint (bs : list (Z * Z)) (lo : Z) (i j : nat) (b c : Z * Z) :
  in_order lo bs -> (i < j)%nat -> bs !! i = Some b -> bs !! j = Some c -> b.1 <> 0 -> c.1 <> 0 ->
  b.1 + block_size b.2 <= c.1.
Proof.
  revert lo i j; induction bs as [|a bs IH]; intros lo i j; [done|]. intros (H1 & H2 & H3) Hij Hi Hj Hb Hc.
  destruct j as [|j]; [lia|]. destruct i as [|i]; simpl in Hi, Hj.
  - injection Hi as ->. destruct (Z.eqb_spec b.1 0); [done|].
    apply list_elem_of_lookup_2, list_elem_of_In in Hj.
    pose proof (in_order_after _ _ _ H3 Hj Hc). lia.
  - eapply (IH _ i j); [exact H3|lia|done..].
Qed.
End heap.
End RtosHeap.

Module RtosHeapProps.
Import RtosHeap.

(** C32: whatever is requested from the start of the system, every block that is
    given out is 8-byte aligned, lies inside the heap array, and does not overlap
    any block given out before. *)
Theorem heap_blocks_disjoint (ucHeap : Z) (ns : list Z) :
  placed ucHeap -> Forall (is_u 32) ns ->
  let bs := (mallocs ucHeap heap_start ns).1 in
  map snd bs = ns /\
  (forall p n, In (p, n) bs -> p <> 0 -> 0 < n /\ p mod 8 = 0 /\ ucHeap <= p /\ p + n <= ucHeap + configTOTAL_HEAP_SIZE) /\
  (forall i j p n q m, (i < j)%nat -> bs !! i = Some (p, n) -> bs !! j = Some (q, m) -> p <> 0 -> q <> 0 -> p + n <= q).
Proof.
  intros Hp Hns bs. destruct (mallocs_in_order ucHeap ns heap_start Hp (heap_start_ok _) Hns) as (H1 & _ & H3).
  pose proof (aligned_base_range ucHeap Hp) as [_ Hr]. split_and!; [exact H3| |].
  - intros p n Hin Hne. destruct (in_order_after _ _ _ _ H1 Hin Hne) as (A & B & C & D). simpl in *.
    pose proof (block_size_bounds n). unfold configADJUSTED_HEAP_SIZE, portBYTE_ALIGNMENT in B. split_and!; lia.
  - intros i j p n q m Hij Hi Hj Hne Hnq. pose proof (in_order_disjoint _ _ _ _ _ _ _ H1 Hij Hi Hj Hne Hnq) as B.
    pose proof (block_size_bounds n). simpl in *. lia.
Qed.

Lemma heap_blocks_disjoint_witness :
  placed 0x20000004 /\ mallocs 0x20000004 heap_start [100; 0; 9000; 5] =
    ([(0x20000008, 100); (0, 0); (0, 9000); (0x20000070, 5)], mkHeap1 112 0x20000008) /\
  (forall i j p n q m, (i < j)%nat -> (mallocs 0x20000004 heap_start [100; 0; 9000; 5]).1 !! i = Some (p, n) ->
     (mallocs 0x20000004 heap_start [100; 0; 9000; 5]).1 !! j = Some (q, m) -> p <> 0 -> q <> 0 -> p + n <= q).
Proof.
  assert (Hp : placed 0x20000004) by (by vm_compute). split; [exact Hp|]. split; [by vm_compute|].
  apply (heap_blocks_disjoint 0x20000004 [100; 0; 9000; 5] Hp). repeat constructor; by vm_compute.
Defined.

(** A request succeeds exactly when it is not empty and its size rounded up
    to 8 is less than the free heap size: asking for all that
    [xPortGetFreeHeapSize] reports fails, and so does a size whose rounding
    overflows; a failed request leaves the free heap size as it was, a
    successful one takes the rounded size off it. *)
Theorem malloc_bounds (ucHeap : Z) (s : heap_1) (n : Z) :
  placed ucHeap -> heap_ok ucHeap s -> is_u 32 n ->
  let '(p, s') := pvPortMalloc ucHeap s n in
  heap_ok ucHeap s' /\ (p <> 0 <-> 0 < n /\ block_size n < xPortGetFreeHeapSize s) /\
  xPortGetFreeHeapSize s' = xPortGetFreeHeapSize s - (if p =? 0 then 0 else block_size n).
Proof.
  intros Hp Hs Hn. pose proof (malloc_ok ucHeap s n Hp Hs Hn) as Hok. pose proof (malloc_eq ucHeap s n Hp Hs Hn) as E.
  destruct (pvPortMalloc ucHeap s n) as [p s']. simpl in Hok, E. split; [done|].
  pose proof (aligned_base_range ucHeap Hp) as [_ Hr]. unfold placed in Hp.
  pose proof (ho_next _ _ Hs) as Hx. pose proof (ho_next _ _ Hok) as Hx'.
  pose proof (block_size_bounds n) as [_ Hb].
  unfold xPortGetFreeHeapSize, configADJUSTED_HEAP_SIZE, configTOTAL_HEAP_SIZE, portBYTE_ALIGNMENT in *.
  rewrite !u_small by (unfold is_u; lia).
  destruct (Z.ltb_spec 0 n), (Z.ltb_spec (xNextFreeByte s + block_size n) (8192 - 8)); simpl in E;
    injection E as -> ->; simpl; rsimpl; repeat case_match; lia.
Qed.

Lemma malloc_bounds_witness :
  let '(p, s') := pvPortMalloc 0x20000004 heap_start 8184 in
  heap_ok 0x20000004 s' /\ (p <> 0 <-> 0 < 8184 /\ block_size 8184 < xPortGetFreeHeapSize heap_start) /\
  xPortGetFreeHeapSize s' = xPortGetFreeHeapSize heap_start - (if p =? 0 then 0 else block_size 8184).
Proof. apply (malloc_bounds 0x20000004 heap_start 8184); [by vm_compute|apply heap_start_ok|by vm_compute]. Defined.
End RtosHeapProps.
