(* ===== verification/RtosSched.v ===== *)
(** * The scheduler of the FreeRTOS kernel

    [Demo_FreeRTOS/FreeRTOS/Source/tasks.c], compiled with the options of
    [generate/include/FreeRTOSConfig.h]: five priorities, preemption with time
    slicing, generic task selection, task suspension, abortable delays and mutexes
    with priority inheritance; no tickless idle, no hooks, no statistics.  The lists
    are those of [RtosSeq.v].  A context switch is requested by pending the PendSV
    exception and performed when it is taken. *)

From S2P Require Import Prelude RtosList RtosHeap RtosSeq.
From stdpp Require Import list.
#[local] Set Warnings "-clear-no-such-hyp".
#[local] Open Scope Z_scope.

Module RtosSched.
Export RtosSeq.

Definition portMAX_DELAY : Z := RtosList.portMAX_DELAY.
Definition configMAX_PRIORITIES : Z := 5.
Definition configTASK_NOTIFICATION_ARRAY_ENTRIES : Z := 1.
Definition taskEVENT_LIST_ITEM_VALUE_IN_USE : Z := 0x80000000.
Definition taskNOT_WAITING_NOTIFICATION : Z := 0.
Definition taskWAITING_NOTIFICATION : Z := 1.
Definition taskNOTIFICATION_RECEIVED : Z := 2.
(** [BaseType_t] is a signed 32-bit integer. *)
Definition s32 (z : Z) : Z := if u32 z <? 2 ^ 31 then u32 z else u32 z - 2 ^ 32.

(** ** Data *)

(** The two list items of a task, and the lists of the kernel; [EventList e] is a
    list of tasks waiting for the event [e] of a queue, a timer or an event group. *)
Inductive kitem := StateItem (t : Z) | EventItem (t : Z).
Inductive klist :=
  | ReadyTasks (p : Z)
  | DelayedTaskList1
  | DelayedTaskList2
  | PendingReadyList
  | SuspendedTaskList
  | TasksWaitingTermination
  | EventList (e : Z).
#[global] Instance kitem_eq_dec : EqDecision kitem.
Proof. solve_decision. Defined.
#[global] Instance klist_eq_dec : EqDecision klist.
Proof. solve_decision. Defined.
#[global] Instance kitem_countable : Countable kitem.
Proof.
  refine (inj_countable' (fun i => match i with StateItem t => inl t | EventItem t => inr t end)
    (fun s => match s with inl t => StateItem t | inr t => EventItem t end) _).
  by intros [].
Defined.
#[global] Instance klist_countable : Countable klist.
Proof.
  refine (inj_countable' (fun l => match l with
      | ReadyTasks p => (0, p) | DelayedTaskList1 => (1, 0) | DelayedTaskList2 => (2, 0)
      | PendingReadyList => (3, 0) | SuspendedTaskList => (4, 0)
      | TasksWaitingTermination => (5, 0) | EventList e => (6, e) end)
    (fun s => match s with
      | (0, p) => ReadyTasks p | (1, _) => DelayedTaskList1 | (2, _) => DelayedTaskList2
      | (3, _) => PendingReadyList | (4, _) => SuspendedTaskList
      | (5, _) => TasksWaitingTermination | (_, e) => EventList e end) _).
  by intros [].
Defined.

(** The owner of an item. *)
Definition owner (i : kitem) : Z := match i with StateItem t | EventItem t => t end.

(** The members of the task control block the scheduler decides with. *)
Record TCB_t := mkTcb {
  uxPriority : Z;
  uxBasePriority : Z;
  uxMutexesHeld : Z;
  ulNotifiedValue : Z;
  ucNotifyState : Z;
  ucDelayAborted : bool;
}.
#[global] Instance eta_TCB : Eta TCB_t := fun s =>
  mkTcb (uxPriority s) (uxBasePriority s) (uxMutexesHeld s) (ulNotifiedValue s) (ucNotifyState s) (ucDelayAborted s).
#[global] Instance TCB_inhabited : Inhabited TCB_t := populate (mkTcb 0 0 0 0 0 false).

(** The file scope variables of [tasks.c], the task control blocks, and the PendSV
    exception of the processor. *)
Record kernel := mkKernel {
  kst : RtosSeq.store kitem klist;
  tcbs : gmap Z TCB_t;
  pxCurrentTCB : option Z;
  pxDelayedTaskList : klist;
  pxOverflowDelayedTaskList : klist;
  uxTopReadyPriority : Z;
  xTickCount : Z;
  xPendedTicks : Z;
  xYieldPending : bool;
  xNumOfOverflows : Z;
  xNextTaskUnblockTime : Z;
  uxSchedulerSuspended : Z;
  uxCurrentNumberOfTasks : Z;
  uxTaskNumber : Z;
  uxDeletedTasksWaitingCleanUp : Z;
  xSchedulerRunning : bool;
  xPendSV : bool;
}.
#[global] Instance eta_kernel : Eta kernel := fun s =>
  mkKernel (kst s) (tcbs s) (pxCurrentTCB s) (pxDelayedTaskList s) (pxOverflowDelayedTaskList s)
    (uxTopReadyPriority s) (xTickCount s) (xPendedTicks s) (xYieldPending s) (xNumOfOverflows s)
    (xNextTaskUnblockTime s) (uxSchedulerSuspended s) (uxCurrentNumberOfTasks s) (uxTaskNumber s)
    (uxDeletedTasksWaitingCleanUp s) (xSchedulerRunning s) (xPendSV s).

Definition tcb (k : kernel) (t : Z) : TCB_t := tcbs k !!! t.
Definition put_tcb (k : kernel) (t : Z) (x : TCB_t) : kernel := k <| tcbs := <[t := x]> (tcbs k) |>.
Definition priority (k : kernel) (t : Z) : Z := uxPriority (tcb k t).
Definition set_priority (k : kernel) (t p : Z) : kernel := put_tcb k t ((tcb k t) <| uxPriority := p |>).
Definition set_base_priority (k : kernel) (t p : Z) : kernel := put_tcb k t ((tcb k t) <| uxBasePriority := p |>).
Definition set_mutexes_held (k : kernel) (t n : Z) : kernel := put_tcb k t ((tcb k t) <| uxMutexesHeld := n |>).
Definition set_delay_aborted (k : kernel) (t : Z) (b : bool) : kernel := put_tcb k t ((tcb k t) <| ucDelayAborted := b |>).
Definition set_notify_state (k : kernel) (t n : Z) : kernel := put_tcb k t ((tcb k t) <| ucNotifyState := n |>).
Definition set_notified_value (k : kernel) (t n : Z) : kernel := put_tcb k t ((tcb k t) <| ulNotifiedValue := n |>).

(** Dereferencing [pxCurrentTCB]. *)
Definition current (k : kernel) : res Z :=
  match pxCurrentTCB k with Some t => Ok t | None => Fault NullPointer end.
Definition prvGetTCBFromHandle (k : kernel) (h : option Z) : res Z :=
  match h with None => current k | Some t => Ok t end.

(** The list operations on the lists of the kernel. *)
Definition tasks_on (k : kernel) (l : klist) : list kitem := on (kst k) l.
Definition item_value (k : kernel) (i : kitem) : Z := s_value (item (kst k) i).
Definition container (k : kernel) (i : kitem) : option klist := s_container (item (kst k) i).
Definition listSET_LIST_ITEM_VALUE (k : kernel) (i : kitem) (v : Z) : kernel :=
  k <| kst := seq_set_value (kst k) i v |>.
Definition listINSERT_END (k : kernel) (l : klist) (i : kitem) : kernel :=
  k <| kst := seq_insert_end (kst k) l i |>.
Definition listINSERT (k : kernel) (l : klist) (i : kitem) : kernel :=
  k <| kst := seq_insert (kst k) l i |>.
Definition listREMOVE_ITEM (k : kernel) (i : kitem) : res kernel :=
  match seq_remove (kst k) i with
  | Some (s, _) => Ok (k <| kst := s |>)
  | None => Fault NullPointer
  end.
(** Removal of a task from its state list, and from its event list if it is on one. *)
Definition remove_from_lists (k : kernel) (t : Z) : res kernel :=
  let! k := listREMOVE_ITEM k (StateItem t) in
  match container k (EventItem t) with
  | Some _ => listREMOVE_ITEM k (EventItem t)
  | None => Ok k
  end.
Definition listIS_CONTAINED_WITHIN (k : kernel) (l : klist) (i : kitem) : bool :=
  bool_decide (container k i = Some l).
Definition listLIST_IS_EMPTY (k : kernel) (l : klist) : bool := seq_empty (kst k) l.
Definition listCURRENT_LIST_LENGTH (k : kernel) (l : klist) : Z := seq_length (kst k) l.
Definition head_owner (k : kernel) (l : klist) : option Z := owner <$> seq_head (kst k) l.

(** [portYIELD]: pend the PendSV exception. *)
Definition portYIELD (k : kernel) : kernel := k <| xPendSV := true |>.

(** ** Ready lists *)

Definition taskRECORD_READY_PRIORITY (k : kernel) (p : Z) : kernel :=
  if uxTopReadyPriority k <? p then k <| uxTopReadyPriority := p |> else k.
Definition prvAddTaskToReadyList (k : kernel) (t : Z) : kernel :=
  let k := taskRECORD_READY_PRIORITY k (priority k t) in
  listINSERT_END k (ReadyTasks (priority k t)) (StateItem t).

(** The loop of [taskSELECT_HIGHEST_PRIORITY_TASK] from priority [n] down. *)
Fixpoint highest_ready (k : kernel) (n : nat) : res Z :=
  if listLIST_IS_EMPTY k (ReadyTasks (Z.of_nat n))
  then match n with O => Fault AssertFailure | S n => highest_ready k n end
  else Ok (Z.of_nat n).
Definition taskSELECT_HIGHEST_PRIORITY_TASK (k : kernel) : res kernel :=
  let! p := highest_ready k (Z.to_nat (uxTopReadyPriority k)) in
  match seq_next (kst k) (ReadyTasks p) with
  | Some (i, s) => Ok (k <| kst := s |> <| pxCurrentTCB := Some (owner i) |> <| uxTopReadyPriority := p |>)
  | None => Fault NullPointer
  end.

(** ** Delayed lists *)

Definition prvResetNextTaskUnblockTime (k : kernel) : kernel :=
  match seq_head (kst k) (pxDelayedTaskList k) with
  | None => k <| xNextTaskUnblockTime := portMAX_DELAY |>
  | Some i => k <| xNextTaskUnblockTime := item_value k i |>
  end.

Definition taskSWITCH_DELAYED_LISTS (k : kernel) : res kernel :=
  do! assert (listLIST_IS_EMPTY k (pxDelayedTaskList k)) in
  let temp := pxDelayedTaskList k in
  let k := k <| pxDelayedTaskList := pxOverflowDelayedTaskList k |> <| pxOverflowDelayedTaskList := temp |>
             <| xNumOfOverflows := s32 (xNumOfOverflows k + 1) |> in
  Ok (prvResetNextTaskUnblockTime k).

(** What [prvAddCurrentTaskToDelayedList] does once the task is off the ready list. *)
Definition add_to_delayed_list (k : kernel) (c xTicksToWait : Z) (xCanBlockIndefinitely : bool) : kernel :=
  if (xTicksToWait =? portMAX_DELAY) && xCanBlockIndefinitely
  then listINSERT_END k SuspendedTaskList (StateItem c)
  else
    let xTimeToWake := u32 (xTickCount k + xTicksToWait) in
    let k := listSET_LIST_ITEM_VALUE k (StateItem c) xTimeToWake in
    if xTimeToWake <? xTickCount k
    then listINSERT k (pxOverflowDelayedTaskList k) (StateItem c)
    else
      let k := listINSERT k (pxDelayedTaskList k) (StateItem c) in
      if xTimeToWake <? xNextTaskUnblockTime k then k <| xNextTaskUnblockTime := xTimeToWake |> else k.
Definition prvAddCurrentTaskToDelayedList (k : kernel) (xTicksToWait : Z) (xCanBlockIndefinitely : bool) : res kernel :=
  let! c := current k in
  let k := set_delay_aborted k c false in
  let! k := listREMOVE_ITEM k (StateItem c) in
  Ok (add_to_delayed_list k c xTicksToWait xCanBlockIndefinitely).

(** ** The tick *)

(** The loop over the delayed tasks whose time has come; the result says whether
    one of them has a priority above that of the running task. *)
Fixpoint unblock_due (fuel : nat) (k : kernel) (xConstTickCount : Z) (xSwitchRequired : bool) : res (kernel * bool) :=
  match fuel with
  | O => Fault OutOfFuel
  | S fuel =>
      match head_owner k (pxDelayedTaskList k) with
      | None => Ok (k <| xNextTaskUnblockTime := portMAX_DELAY |>, xSwitchRequired)
      | Some t =>
          let xItemValue := item_value k (StateItem t) in
          if xConstTickCount <? xItemValue
          then Ok (k <| xNextTaskUnblockTime := xItemValue |>, xSwitchRequired)
          else
            let! k := remove_from_lists k t in
            let k := prvAddTaskToReadyList k t in
            let! c := current k in
            unblock_due fuel k xConstTickCount (if priority k c <? priority k t then true else xSwitchRequired)
      end
  end.

Definition xTaskIncrementTick (k : kernel) : res (kernel * bool) :=
  if uxSchedulerSuspended k =? 0 then
    let xConstTickCount := u32 (xTickCount k + 1) in
    let k := k <| xTickCount := xConstTickCount |> in
    let! k := if xConstTickCount =? 0 then taskSWITCH_DELAYED_LISTS k else Ok k in
    let! '(k, xSwitchRequired) :=
      if xNextTaskUnblockTime k <=? xConstTickCount
      then unblock_due (S (length (tasks_on k (pxDelayedTaskList k)))) k xConstTickCount false
      else Ok (k, false) in
    let! c := current k in
    let xSwitchRequired :=
      if 1 <? listCURRENT_LIST_LENGTH k (ReadyTasks (priority k c)) then true else xSwitchRequired in
    Ok (k, if xYieldPending k then true else xSwitchRequired)
  else Ok (k <| xPendedTicks := u32 (xPendedTicks k + 1) |>, false).

(** [xPortSysTickHandler] and the call the PendSV handler makes. *)
Definition xPortSysTickHandler (k : kernel) : res kernel :=
  let! '(k, sw) := xTaskIncrementTick k in
  Ok (if sw : bool then portYIELD k else k).

Definition vTaskSwitchContext (k : kernel) : res kernel :=
  if negb (uxSchedulerSuspended k =? 0) then Ok (k <| xYieldPending := true |>)
  else taskSELECT_HIGHEST_PRIORITY_TASK (k <| xYieldPending := false |>).
Definition xPortPendSVHandler (k : kernel) : res kernel := vTaskSwitchContext (k <| xPendSV := false |>).

(** ** Suspending and resuming the scheduler *)

Definition vTaskSuspendAll (k : kernel) : kernel := k <| uxSchedulerSuspended := u32 (uxSchedulerSuspended k + 1) |>.

Fixpoint move_pending (fuel : nat) (k : kernel) (moved : bool) : res (kernel * bool) :=
  match fuel with
  | O => Fault OutOfFuel
  | S fuel =>
      match head_owner k PendingReadyList with
      | None => Ok (k, moved)
      | Some t =>
          let! k := listREMOVE_ITEM k (EventItem t) in
          let! k := listREMOVE_ITEM k (StateItem t) in
          let k := prvAddTaskToReadyList k t in
          let! c := current k in
          let k := if priority k c <=? priority k t then k <| xYieldPending := true |> else k in
          move_pending fuel k true
      end
  end.

Fixpoint unwind_ticks (n : nat) (k : kernel) : res kernel :=
  match n with
  | O => Ok k
  | S n =>
      let! '(k, sw) := xTaskIncrementTick k in
      unwind_ticks n (if sw : bool then k <| xYieldPending := true |> else k)
  end.

Definition xTaskResumeAll (k : kernel) : res (kernel * bool) :=
  do! assert (negb (uxSchedulerSuspended k =? 0)) in
  let k := k <| uxSchedulerSuspended := u32 (uxSchedulerSuspended k - 1) |> in
  if (uxSchedulerSuspended k =? 0) && (0 <? uxCurrentNumberOfTasks k) then
    let! '(k, moved) := move_pending (S (length (tasks_on k PendingReadyList))) k false in
    let k := if moved : bool then prvResetNextTaskUnblockTime k else k in
    let! k := if 0 <? xPendedTicks k
              then let! k := unwind_ticks (Z.to_nat (xPendedTicks k)) k in Ok (k <| xPendedTicks := 0 |>)
              else Ok k in
    if xYieldPending k then Ok (portYIELD k, true) else Ok (k, false)
  else Ok (k, false).

Definition xTaskCatchUpTicks (k : kernel) (xTicksToCatchUp : Z) : res (kernel * bool) :=
  do! assert (uxSchedulerSuspended k =? 0) in
  let k := vTaskSuspendAll k in
  xTaskResumeAll (k <| xPendedTicks := u32 (xPendedTicks k + xTicksToCatchUp) |>).

(** ** Delays

    [isr1] and [isr2] are what the interrupt handlers that run while the scheduler
    is suspended do to the kernel, before and after the task is moved. *)

Definition vTaskDelay (isr1 isr2 : kernel -> res kernel) (k : kernel) (xTicksToDelay : Z) : res kernel :=
  let! '(k, xAlreadyYielded) :=
    if 0 <? xTicksToDelay then
      do! assert (uxSchedulerSuspended k =? 0) in
      let! k := isr1 (vTaskSuspendAll k) in
      let! k := prvAddCurrentTaskToDelayedList k xTicksToDelay false in
      let! k := isr2 k in
      xTaskResumeAll k
    else Ok (k, false) in
  Ok (if xAlreadyYielded : bool then k else portYIELD k).

(** The tick arithmetic of [xTaskDelayUntil]: whether the task has to wait for the
    wake time, given the time it was woken last. *)
Definition should_delay (xConstTickCount pxPreviousWakeTime xTimeToWake : Z) : bool :=
  if xConstTickCount <? pxPreviousWakeTime
  then (xTimeToWake <? pxPreviousWakeTime) && (xConstTickCount <? xTimeToWake)
  else (xTimeToWake <? pxPreviousWakeTime) || (xConstTickCount <? xTimeToWake).
(** The result: the kernel, the new [*pxPreviousWakeTime] and [xShouldDelay]. *)
Definition xTaskDelayUntil (isr1 isr2 : kernel -> res kernel) (k : kernel) (pxPreviousWakeTime xTimeIncrement : Z)
    : res (kernel * Z * bool) :=
  do! assert (0 <? xTimeIncrement) in
  do! assert (uxSchedulerSuspended k =? 0) in
  let! k := isr1 (vTaskSuspendAll k) in
  let xConstTickCount := xTickCount k in
  let xTimeToWake := u32 (pxPreviousWakeTime + xTimeIncrement) in
  let xShouldDelay := should_delay xConstTickCount pxPreviousWakeTime xTimeToWake in
  let! k := if xShouldDelay then prvAddCurrentTaskToDelayedList k (u32 (xTimeToWake - xConstTickCount)) false else Ok k in
  let! k := isr2 k in
  let! '(k, xAlreadyYielded) := xTaskResumeAll k in
  Ok (if xAlreadyYielded : bool then k else portYIELD k, xTimeToWake, xShouldDelay).

(** ** Task states *)

Inductive eTaskState := eRunning | eReady | eBlocked | eSuspended | eDeleted | eInvalid.

Definition eTaskGetState (k : kernel) (t : Z) : eTaskState :=
  if bool_decide (pxCurrentTCB k = Some t) then eRunning
  else
    let pxStateList := container k (StateItem t) in
    if bool_decide (pxStateList = Some (pxDelayedTaskList k))
       || bool_decide (pxStateList = Some (pxOverflowDelayedTaskList k)) then eBlocked
    else if bool_decide (pxStateList = Some SuspendedTaskList) then
      match container k (EventItem t) with
      | None => if ucNotifyState (tcb k t) =? taskWAITING_NOTIFICATION then eBlocked else eSuspended
      | Some _ => eBlocked
      end
    else if bool_decide (pxStateList = Some TasksWaitingTermination) || bool_decide (pxStateList = None) then eDeleted
    else eReady.

(** Setting the value of an event list item to a priority, unless the value is in
    use for something else. *)
Definition set_event_priority (k : kernel) (t p : Z) : kernel :=
  if Z.land (item_value k (EventItem t)) taskEVENT_LIST_ITEM_VALUE_IN_USE =? 0
  then listSET_LIST_ITEM_VALUE k (EventItem t) (u32 (configMAX_PRIORITIES - p)) else k.

Definition vTaskPrioritySet (k : kernel) (xTask : option Z) (uxNewPriority : Z) : res kernel :=
  do! assert (uxNewPriority <? configMAX_PRIORITIES) in
  let uxNewPriority := if configMAX_PRIORITIES <=? uxNewPriority then configMAX_PRIORITIES - 1 else uxNewPriority in
  let! t := prvGetTCBFromHandle k xTask in
  let uxCurrentBasePriority := uxBasePriority (tcb k t) in
  if uxCurrentBasePriority =? uxNewPriority then Ok k
  else
    let! c := current k in
    let xYieldRequired :=
      if uxCurrentBasePriority <? uxNewPriority
      then if t =? c then false else priority k c <=? uxNewPriority
      else t =? c in
    let uxPriorityUsedOnEntry := priority k t in
    let k := if uxBasePriority (tcb k t) =? priority k t then set_priority k t uxNewPriority else k in
    let k := set_base_priority k t uxNewPriority in
    let k := set_event_priority k t uxNewPriority in
    let! k := if listIS_CONTAINED_WITHIN k (ReadyTasks uxPriorityUsedOnEntry) (StateItem t)
              then let! k := listREMOVE_ITEM k (StateItem t) in Ok (prvAddTaskToReadyList k t)
              else Ok k in
    Ok (if xYieldRequired : bool then portYIELD k else k).

Definition vTaskSuspend (k : kernel) (xTaskToSuspend : option Z) : res kernel :=
  let! t := prvGetTCBFromHandle k xTaskToSuspend in
  let! k := remove_from_lists k t in
  let k := listINSERT_END k SuspendedTaskList (StateItem t) in
  let k := if ucNotifyState (tcb k t) =? taskWAITING_NOTIFICATION
           then set_notify_state k t taskNOT_WAITING_NOTIFICATION else k in
  let k := if xSchedulerRunning k then prvResetNextTaskUnblockTime k else k in
  if bool_decide (pxCurrentTCB k = Some t) then
    if xSchedulerRunning k then
      do! assert (uxSchedulerSuspended k =? 0) in Ok (portYIELD k)
    else if listCURRENT_LIST_LENGTH k SuspendedTaskList =? uxCurrentNumberOfTasks k
    then Ok (k <| pxCurrentTCB := None |>)
    else vTaskSwitchContext k
  else Ok k.

Definition prvTaskIsTaskSuspended (k : kernel) (t : Z) : bool :=
  listIS_CONTAINED_WITHIN k SuspendedTaskList (StateItem t)
  && negb (listIS_CONTAINED_WITHIN k PendingReadyList (EventItem t))
  && bool_decide (container k (EventItem t) = None).

Definition vTaskResume (k : kernel) (t : Z) : res kernel :=
  if negb (bool_decide (pxCurrentTCB k = Some t)) && prvTaskIsTaskSuspended k t then
    let! k := listREMOVE_ITEM k (StateItem t) in
    let k := prvAddTaskToReadyList k t in
    let! c := current k in
    Ok (if priority k c <=? priority k t then portYIELD k else k)
  else Ok k.

Definition xTaskResumeFromISR (k : kernel) (t : Z) : res (kernel * bool) :=
  if prvTaskIsTaskSuspended k t then
    if uxSchedulerSuspended k =? 0 then
      let! c := current k in
      let xYieldRequired := priority k c <=? priority k t in
      let k := if xYieldRequired then k <| xYieldPending := true |> else k in
      let! k := listREMOVE_ITEM k (StateItem t) in
      Ok (prvAddTaskToReadyList k t, xYieldRequired)
    else Ok (listINSERT_END k PendingReadyList (EventItem t), false)
  else Ok (k, false).

Definition xTaskAbortDelay (isr1 isr2 : kernel -> res kernel) (k : kernel) (t : Z) : res (kernel * bool) :=
  let! k := isr1 (vTaskSuspendAll k) in
  let! '(k, xReturn) :=
    match eTaskGetState k t with
    | eBlocked =>
        let! k := listREMOVE_ITEM k (StateItem t) in
        let! k := match container k (EventItem t) with
                  | Some _ => let! k := listREMOVE_ITEM k (EventItem t) in Ok (set_delay_aborted k t true)
                  | None => Ok k
                  end in
        let k := prvAddTaskToReadyList k t in
        let! c := current k in
        Ok (if priority k c <? priority k t then k <| xYieldPending := true |> else k, true)
    | _ => Ok (k, false)
    end in
  let! k := isr2 k in
  let! '(k, _) := xTaskResumeAll k in
  Ok (k, xReturn).

(** ** Creation and deletion of tasks *)

Definition prvInitialiseTaskLists (k : kernel) : kernel :=
  let init st l := put_list st l (mkSl [] []) in
  let st := foldl init (kst k) (ReadyTasks <$> seqZ 0 configMAX_PRIORITIES) in
  let st := foldl init st [DelayedTaskList1; DelayedTaskList2; PendingReadyList; TasksWaitingTermination; SuspendedTaskList] in
  k <| kst := st |> <| pxDelayedTaskList := DelayedTaskList1 |> <| pxOverflowDelayedTaskList := DelayedTaskList2 |>.

(** The members of a zeroed control block that [prvInitialiseNewTask] sets; the
    stack and the name of the task are not part of the model. *)
Definition prvInitialiseNewTask (k : kernel) (t uxPriority : Z) : res kernel :=
  do! assert (uxPriority <? configMAX_PRIORITIES) in
  let p := if configMAX_PRIORITIES <=? uxPriority then configMAX_PRIORITIES - 1 else uxPriority in
  let k := put_tcb k t (mkTcb p p 0 0 0 false) in
  let k := k <| kst := put_item (kst k) (StateItem t) (mkSi 0 None) |> in
  Ok (k <| kst := put_item (kst k) (EventItem t) (mkSi (u32 (configMAX_PRIORITIES - p)) None) |>).

Definition prvAddNewTaskToReadyList (k : kernel) (t : Z) : res kernel :=
  let k := k <| uxCurrentNumberOfTasks := u32 (uxCurrentNumberOfTasks k + 1) |> in
  let k := match pxCurrentTCB k with
           | None =>
               let k := k <| pxCurrentTCB := Some t |> in
               if uxCurrentNumberOfTasks k =? 1 then prvInitialiseTaskLists k else k
           | Some c =>
               if negb (xSchedulerRunning k) && (priority k c <=? priority k t) then k <| pxCurrentTCB := Some t |> else k
           end in
  let k := k <| uxTaskNumber := u32 (uxTaskNumber k + 1) |> in
  let k := prvAddTaskToReadyList k t in
  let! c := current k in
  Ok (if xSchedulerRunning k && (priority k c <? priority k t) then portYIELD k else k).

(** What [vTaskStartScheduler] does between the creation of its tasks and
    [xPortStartScheduler]. *)
Definition start_variables (k : kernel) : kernel :=
  k <| xNextTaskUnblockTime := portMAX_DELAY |> <| xSchedulerRunning := true |> <| xTickCount := 0 |>.

(** [prvDeleteTCB]: both blocks of the task go back to the heap. *)
Definition prvDeleteTCB (pxStack pxTCB : Z) : res unit :=
  do! RtosHeap.RtosHeap.vPortFree pxStack in RtosHeap.RtosHeap.vPortFree pxTCB.

(** [stack] gives the address of the stack of a task, [address] that of its control
    block. *)
Definition vTaskDelete (stack address : Z -> Z) (k : kernel) (xTaskToDelete : option Z) : res kernel :=
  let! t := prvGetTCBFromHandle k xTaskToDelete in
  let! k := remove_from_lists k t in
  let k := k <| uxTaskNumber := u32 (uxTaskNumber k + 1) |> in
  if bool_decide (pxCurrentTCB k = Some t) then
    let k := listINSERT_END k TasksWaitingTermination (StateItem t) in
    let k := k <| uxDeletedTasksWaitingCleanUp := u32 (uxDeletedTasksWaitingCleanUp k + 1) |> in
    if xSchedulerRunning k then do! assert (uxSchedulerSuspended k =? 0) in Ok (portYIELD k) else Ok k
  else
    let k := k <| uxCurrentNumberOfTasks := u32 (uxCurrentNumberOfTasks k - 1) |> in
    let k := prvResetNextTaskUnblockTime k in
    do! prvDeleteTCB (stack t) (address t) in Ok k.

(** The loop of the idle task over the deleted tasks. *)
Fixpoint clean_up (n : nat) (stack address : Z -> Z) (k : kernel) : res kernel :=
  match n with
  | O => Ok k
  | S n =>
      match head_owner k TasksWaitingTermination with
      | None => Fault NullPointer
      | Some t =>
          let! k := listREMOVE_ITEM k (StateItem t) in
          let k := k <| uxCurrentNumberOfTasks := u32 (uxCurrentNumberOfTasks k - 1) |>
                     <| uxDeletedTasksWaitingCleanUp := u32 (uxDeletedTasksWaitingCleanUp k - 1) |> in
          do! prvDeleteTCB (stack t) (address t) in clean_up n stack address k
      end
  end.
Definition prvCheckTasksWaitingTermination (stack address : Z -> Z) (k : kernel) : res kernel :=
  clean_up (Z.to_nat (uxDeletedTasksWaitingCleanUp k)) stack address k.

(** ** Event lists *)

Definition vTaskPlaceOnEventList (k : kernel) (e xTicksToWait : Z) : res kernel :=
  let! c := current k in
  prvAddCurrentTaskToDelayedList (listINSERT k (EventList e) (EventItem c)) xTicksToWait true.

Definition vTaskPlaceOnUnorderedEventList (k : kernel) (e xItemValue xTicksToWait : Z) : res kernel :=
  do! assert (negb (uxSchedulerSuspended k =? 0)) in
  let! c := current k in
  let k := listSET_LIST_ITEM_VALUE k (EventItem c) (Z.lor xItemValue taskEVENT_LIST_ITEM_VALUE_IN_USE) in
  prvAddCurrentTaskToDelayedList (listINSERT_END k (EventList e) (EventItem c)) xTicksToWait true.

Definition vTaskPlaceOnEventListRestricted (k : kernel) (e xTicksToWait : Z) (xWaitIndefinitely : bool) : res kernel :=
  let! c := current k in
  let k := listINSERT_END k (EventList e) (EventItem c) in
  prvAddCurrentTaskToDelayedList k (if xWaitIndefinitely then portMAX_DELAY else xTicksToWait) xWaitIndefinitely.

(** The caller has checked that the list is not empty. *)
Definition xTaskRemoveFromEventList (k : kernel) (e : Z) : res (kernel * bool) :=
  match head_owner k (EventList e) with
  | None => Fault NullPointer
  | Some t =>
      let! k := listREMOVE_ITEM k (EventItem t) in
      let! k := if uxSchedulerSuspended k =? 0
                then let! k := listREMOVE_ITEM k (StateItem t) in Ok (prvAddTaskToReadyList k t)
                else Ok (listINSERT_END k PendingReadyList (EventItem t)) in
      let! c := current k in
      Ok (if priority k c <? priority k t then (k <| xYieldPending := true |>, true) else (k, false))
  end.

Definition vTaskRemoveFromUnorderedEventList (k : kernel) (t xItemValue : Z) : res kernel :=
  do! assert (negb (uxSchedulerSuspended k =? 0)) in
  let k := listSET_LIST_ITEM_VALUE k (EventItem t) (Z.lor xItemValue taskEVENT_LIST_ITEM_VALUE_IN_USE) in
  let! k := listREMOVE_ITEM k (EventItem t) in
  let! k := listREMOVE_ITEM k (StateItem t) in
  let k := prvAddTaskToReadyList k t in
  let! c := current k in
  Ok (if priority k c <? priority k t then k <| xYieldPending := true |> else k).

Definition uxTaskResetEventItemValue (k : kernel) : res (kernel * Z) :=
  let! c := current k in
  Ok (listSET_LIST_ITEM_VALUE k (EventItem c) (u32 (configMAX_PRIORITIES - priority k c)), item_value k (EventItem c)).
Definition vTaskMissedYield (k : kernel) : kernel := k <| xYieldPending := true |>.

(** ** Time outs *)

Record TimeOut_t := mkTimeOut { xOverflowCount : Z; xTimeOnEntering : Z }.
Definition vTaskInternalSetTimeOutState (k : kernel) : TimeOut_t := mkTimeOut (xNumOfOverflows k) (xTickCount k).

(** The result: the kernel, the time out state, the ticks left to wait, and whether
    the time is up. *)
Definition xTaskCheckForTimeOut (k : kernel) (pxTimeOut : TimeOut_t) (pxTicksToWait : Z)
    : res (kernel * TimeOut_t * Z * bool) :=
  let xConstTickCount := xTickCount k in
  let xElapsedTime := u32 (xConstTickCount - xTimeOnEntering pxTimeOut) in
  let! c := current k in
  if ucDelayAborted (tcb k c) then Ok (set_delay_aborted k c false, pxTimeOut, pxTicksToWait, true)
  else if pxTicksToWait =? portMAX_DELAY then Ok (k, pxTimeOut, pxTicksToWait, false)
  else if negb (xNumOfOverflows k =? xOverflowCount pxTimeOut) && (xTimeOnEntering pxTimeOut <=? xConstTickCount)
  then Ok (k, pxTimeOut, 0, true)
  else if xElapsedTime <? pxTicksToWait
  then Ok (k, vTaskInternalSetTimeOutState k, pxTicksToWait - xElapsedTime, false)
  else Ok (k, pxTimeOut, 0, true).

(** ** Priority inheritance *)

Definition xTaskPriorityInherit (k : kernel) (pxMutexHolder : option Z) : res (kernel * bool) :=
  match pxMutexHolder with
  | None => Ok (k, false)
  | Some t =>
      let! c := current k in
      if priority k t <? priority k c then
        let k := set_event_priority k t (priority k c) in
        if listIS_CONTAINED_WITHIN k (ReadyTasks (priority k t)) (StateItem t)
        then let! k := listREMOVE_ITEM k (StateItem t) in
             Ok (prvAddTaskToReadyList (set_priority k t (priority k c)) t, true)
        else Ok (set_priority k t (priority k c), true)
      else Ok (k, uxBasePriority (tcb k t) <? priority k c)
  end.

Definition xTaskPriorityDisinherit (k : kernel) (pxMutexHolder : option Z) : res (kernel * bool) :=
  match pxMutexHolder with
  | None => Ok (k, false)
  | Some t =>
      do! assert (bool_decide (pxCurrentTCB k = Some t)) in
      do! assert (negb (uxMutexesHeld (tcb k t) =? 0)) in
      let k := set_mutexes_held k t (u32 (uxMutexesHeld (tcb k t) - 1)) in
      if negb (priority k t =? uxBasePriority (tcb k t)) && (uxMutexesHeld (tcb k t) =? 0) then
        let! k := listREMOVE_ITEM k (StateItem t) in
        let k := set_priority k t (uxBasePriority (tcb k t)) in
        let k := listSET_LIST_ITEM_VALUE k (EventItem t) (u32 (configMAX_PRIORITIES - priority k t)) in
        Ok (prvAddTaskToReadyList k t, true)
      else Ok (k, false)
  end.

Definition vTaskPriorityDisinheritAfterTimeout (k : kernel) (pxMutexHolder : option Z)
    (uxHighestPriorityWaitingTask : Z) : res kernel :=
  match pxMutexHolder with
  | None => Ok k
  | Some t =>
      do! assert (negb (uxMutexesHeld (tcb k t) =? 0)) in
      let uxPriorityToUse :=
        if uxBasePriority (tcb k t) <? uxHighestPriorityWaitingTask then uxHighestPriorityWaitingTask
        else uxBasePriority (tcb k t) in
      if negb (priority k t =? uxPriorityToUse) && (uxMutexesHeld (tcb k t) =? 1) then
        do! assert (negb (bool_decide (pxCurrentTCB k = Some t))) in
        let uxPriorityUsedOnEntry := priority k t in
        let k := set_priority k t uxPriorityToUse in
        let k := set_event_priority k t uxPriorityToUse in
        if listIS_CONTAINED_WITHIN k (ReadyTasks uxPriorityUsedOnEntry) (StateItem t)
        then let! k := listREMOVE_ITEM k (StateItem t) in Ok (prvAddTaskToReadyList k t)
        else Ok k
      else Ok k
  end.

Definition pvTaskIncrementMutexHeldCount (k : kernel) : kernel * option Z :=
  (match pxCurrentTCB k with
   | Some c => set_mutexes_held k c (u32 (uxMutexesHeld (tcb k c) + 1))
   | None => k
   end, pxCurrentTCB k).

(** ** Task notifications

    A task has [configTASK_NOTIFICATION_ARRAY_ENTRIES], that is one, notification;
    an index other than 0 fails the assertion.  A function that blocks is cut at the
    yield between its two critical sections. *)

Definition notify_index (uxIndex : Z) : res unit := assert (uxIndex <? configTASK_NOTIFICATION_ARRAY_ENTRIES).

Definition notify_block (k : kernel) (c xTicksToWait : Z) : res kernel :=
  let k := set_notify_state k c taskWAITING_NOTIFICATION in
  if 0 <? xTicksToWait
  then let! k := prvAddCurrentTaskToDelayedList k xTicksToWait true in Ok (portYIELD k)
  else Ok k.

Definition ulTaskGenericNotifyTake_wait (k : kernel) (uxIndexToWait xTicksToWait : Z) : res kernel :=
  do! notify_index uxIndexToWait in
  let! c := current k in
  if ulNotifiedValue (tcb k c) =? 0 then notify_block k c xTicksToWait else Ok k.
Definition ulTaskGenericNotifyTake_return (k : kernel) (xClearCountOnExit : bool) : res (kernel * Z) :=
  let! c := current k in
  let ulReturn := ulNotifiedValue (tcb k c) in
  let k := if negb (ulReturn =? 0) then set_notified_value k c (if xClearCountOnExit then 0 else ulReturn - 1) else k in
  Ok (set_notify_state k c taskNOT_WAITING_NOTIFICATION, ulReturn).

Definition xTaskGenericNotifyWait_wait (k : kernel) (uxIndexToWait ulBitsToClearOnEntry xTicksToWait : Z) : res kernel :=
  do! notify_index uxIndexToWait in
  let! c := current k in
  if ucNotifyState (tcb k c) =? taskNOTIFICATION_RECEIVED then Ok k
  else notify_block (set_notified_value k c (Z.ldiff (ulNotifiedValue (tcb k c)) ulBitsToClearOnEntry)) c xTicksToWait.
(** The result: the kernel, the notification value and [xReturn]. *)
Definition xTaskGenericNotifyWait_return (k : kernel) (ulBitsToClearOnExit : Z) : res (kernel * Z * bool) :=
  let! c := current k in
  let value := ulNotifiedValue (tcb k c) in
  let received := ucNotifyState (tcb k c) =? taskNOTIFICATION_RECEIVED in
  let k := if received then set_notified_value k c (Z.ldiff value ulBitsToClearOnExit) else k in
  Ok (set_notify_state k c taskNOT_WAITING_NOTIFICATION, value, received).

Inductive eNotifyAction := eNoAction | eSetBits | eIncrement | eSetValueWithOverwrite | eSetValueWithoutOverwrite.

(** The [switch] on the action: the new value, and whether it could be written. *)
Definition notify_value (eAction : eNotifyAction) (ucOriginalNotifyState old ulValue : Z) : Z * bool :=
  match eAction with
  | eSetBits => (Z.lor old ulValue, true)
  | eIncrement => (u32 (old + 1), true)
  | eSetValueWithOverwrite => (ulValue, true)
  | eSetValueWithoutOverwrite =>
      if negb (ucOriginalNotifyState =? taskNOTIFICATION_RECEIVED) then (ulValue, true) else (old, false)
  | eNoAction => (old, true)
  end.

(** The result: the kernel, the previous value and [xReturn]. *)
Definition xTaskGenericNotify (k : kernel) (t uxIndexToNotify ulValue : Z) (eAction : eNotifyAction)
    : res (kernel * Z * bool) :=
  do! notify_index uxIndexToNotify in
  let previous := ulNotifiedValue (tcb k t) in
  let ucOriginalNotifyState := ucNotifyState (tcb k t) in
  let k := set_notify_state k t taskNOTIFICATION_RECEIVED in
  let '(v, xReturn) := notify_value eAction ucOriginalNotifyState previous ulValue in
  let k := set_notified_value k t v in
  if ucOriginalNotifyState =? taskWAITING_NOTIFICATION then
    let! k := listREMOVE_ITEM k (StateItem t) in
    let k := prvAddTaskToReadyList k t in
    do! assert (bool_decide (container k (EventItem t) = None)) in
    let! c := current k in
    Ok (if priority k c <? priority k t then portYIELD k else k, previous, xReturn)
  else Ok (k, previous, xReturn).

(** The part of the notifications from an interrupt that wakes the task; the result
    says whether the interrupted task has a lower priority. *)
Definition notify_wake_from_isr (k : kernel) (t : Z) : res (kernel * bool) :=
  do! assert (bool_decide (container k (EventItem t) = None)) in
  let! k := if uxSchedulerSuspended k =? 0
            then let! k := listREMOVE_ITEM k (StateItem t) in Ok (prvAddTaskToReadyList k t)
            else Ok (listINSERT_END k PendingReadyList (EventItem t)) in
  let! c := current k in
  Ok (if priority k c <? priority k t then (k <| xYieldPending := true |>, true) else (k, false)).

(** The result: the kernel, the previous value, [xReturn] and
    [*pxHigherPriorityTaskWoken] when it was [pdFALSE]. *)
Definition xTaskGenericNotifyFromISR (k : kernel) (t uxIndexToNotify ulValue : Z) (eAction : eNotifyAction)
    : res (kernel * Z * bool * bool) :=
  do! notify_index uxIndexToNotify in
  let previous := ulNotifiedValue (tcb k t) in
  let ucOriginalNotifyState := ucNotifyState (tcb k t) in
  let k := set_notify_state k t taskNOTIFICATION_RECEIVED in
  let '(v, xReturn) := notify_value eAction ucOriginalNotifyState previous ulValue in
  let k := set_notified_value k t v in
  let! '(k, woken) := if ucOriginalNotifyState =? taskWAITING_NOTIFICATION
                      then notify_wake_from_isr k t else Ok (k, false) in
  Ok (k, previous, xReturn, woken).

Definition vTaskGenericNotifyGiveFromISR (k : kernel) (t uxIndexToNotify : Z) : res (kernel * bool) :=
  do! notify_index uxIndexToNotify in
  let ucOriginalNotifyState := ucNotifyState (tcb k t) in
  let k := set_notify_state k t taskNOTIFICATION_RECEIVED in
  let k := set_notified_value k t (u32 (ulNotifiedValue (tcb k t) + 1)) in
  if ucOriginalNotifyState =? taskWAITING_NOTIFICATION then notify_wake_from_isr k t else Ok (k, false).

Definition xTaskGenericNotifyStateClear (k : kernel) (xTask : option Z) (uxIndexToClear : Z) : res (kernel * bool) :=
  do! notify_index uxIndexToClear in
  let! t := prvGetTCBFromHandle k xTask in
  Ok (if ucNotifyState (tcb k t) =? taskNOTIFICATION_RECEIVED
      then (set_notify_state k t taskNOT_WAITING_NOTIFICATION, true) else (k, false)).
(** The index is not checked: another index than 0 reads outside the array. *)
Definition ulTaskGenericNotifyValueClear (k : kernel) (xTask : option Z) (uxIndexToClear ulBitsToClear : Z)
    : res (kernel * Z) :=
  if uxIndexToClear <? configTASK_NOTIFICATION_ARRAY_ENTRIES then
    let! t := prvGetTCBFromHandle k xTask in
    let ulReturn := ulNotifiedValue (tcb k t) in
    Ok (set_notified_value k t (Z.ldiff ulReturn ulBitsToClear), ulReturn)
  else Fault OutOfBounds.
End RtosSched.
