(* ===== verification/RtosSchedInv.v ===== *)
(** * The invariant of the scheduler

    What holds of the lists and variables of [tasks.c] whenever no kernel function
    is half way through, and that the list operations the functions are made of
    keep it. *)

From Stdlib Require Import Sorting.Sorted.
From S2P Require Import Prelude RtosList RtosSeq RtosSched.
From stdpp Require Import list.
#[local] Set Warnings "-clear-no-such-hyp".
#[local] Open Scope Z_scope.

Module RtosSchedInv.
Export RtosSched.

Create HintDb kern.

(** The lists the state item of a task may be on, and those of its event item. *)
Definition state_list (k : kernel) (t : Z) (l : klist) : Prop :=
  match l with
  | ReadyTasks p => p = priority k t /\ p <= uxTopReadyPriority k
  | DelayedTaskList1 | DelayedTaskList2 | SuspendedTaskList | TasksWaitingTermination => True
  | PendingReadyList | EventList _ => False
  end.
Definition event_list (l : klist) : Prop :=
  match l with PendingReadyList | EventList _ => True | _ => False end.
(** A task that waits: for a time, or without limit. *)
Definition blocked (k : kernel) (t : Z) : Prop :=
  match container k (StateItem t) with
  | Some (DelayedTaskList1 | DelayedTaskList2 | SuspendedTaskList) => True
  | _ => False
  end.
Definition ready (k : kernel) (t : Z) : Prop := container k (StateItem t) = Some (ReadyTasks (priority k t)).
Definition value_order (k : kernel) (i j : kitem) : Prop := item_value k i <= item_value k j.

(** [now] is the time up to which the delayed tasks have been woken, the tick count
    but for the time the tick is being processed; [ex] is a task whose event item
    may be on a list although the task is not blocked, while it is being moved. *)
Record wf (ex : option Z) (now : Z) (k : kernel) : Prop := {
  wf_store : store_ok (kst k);
  wf_lists : pxDelayedTaskList k = DelayedTaskList1 /\ pxOverflowDelayedTaskList k = DelayedTaskList2 \/
             pxDelayedTaskList k = DelayedTaskList2 /\ pxOverflowDelayedTaskList k = DelayedTaskList1;
  wf_state t l : container k (StateItem t) = Some l -> state_list k t l;
  wf_event t l : container k (EventItem t) = Some l -> event_list l /\ (Some t <> ex -> blocked k t);
  wf_top : 0 <= uxTopReadyPriority k < configMAX_PRIORITIES;
  wf_priority t : 0 <= priority k t < configMAX_PRIORITIES;
  wf_tick : is_u 32 (xTickCount k);
  wf_sorted l : l = pxDelayedTaskList k \/ l = pxOverflowDelayedTaskList k ->
    StronglySorted (value_order k) (tasks_on k l);
  wf_due t : container k (StateItem t) = Some (pxDelayedTaskList k) ->
    now < item_value k (StateItem t) < 2 ^ 32 /\ xNextTaskUnblockTime k <= item_value k (StateItem t);
  wf_overflow t : container k (StateItem t) = Some (pxOverflowDelayedTaskList k) ->
    0 <= item_value k (StateItem t) < xTickCount k;
}.

(** ** Reading the kernel after a list operation *)

Lemma tasks_on_iff ex now k i l : wf ex now k -> container k i = Some l <-> i ∈ tasks_on k l.
Proof. intros W. apply (so_on _ (wf_store _ _ _ W)). Qed.

Lemma remove_item_ok k i l :
  store_ok (kst k) -> container k i = Some l ->
  exists st', listREMOVE_ITEM k i = Ok (k <| kst := st' |>) /\ removed (kst k) i st'.
Proof.
  intros Hs Hc. destruct (seq_remove_removed (kst k) i l Hs Hc) as (st' & n & E & R).
  exists st'. unfold listREMOVE_ITEM. by rewrite E.
Qed.

(** A delayed list holds the state items of tasks. *)
Lemma delayed_list_cases ex now k l :
  wf ex now k -> l = pxDelayedTaskList k \/ l = pxOverflowDelayedTaskList k -> l = DelayedTaskList1 \/ l = DelayedTaskList2.
Proof. intros W [->| ->]; destruct (wf_lists _ _ _ W) as [[E1 E2]|[E1 E2]]; rewrite ?E1, ?E2; auto. Qed.
Lemma delayed_state ex now k l i :
  wf ex now k -> l = pxDelayedTaskList k \/ l = pxOverflowDelayedTaskList k -> i ∈ tasks_on k l ->
  i = StateItem (owner i) /\ container k (StateItem (owner i)) = Some l.
Proof.
  intros W Hl Hi%(tasks_on_iff _ _ _ _ _ W). destruct i as [t|t]; [done|].
  apply (wf_event _ _ _ W) in Hi as [He _]. by destruct (delayed_list_cases _ _ _ _ W Hl) as [-> | ->].
Qed.

Lemma wf_weaken ex now k : wf None now k -> wf ex now k.
Proof. intros [? ? ? He ? ? ? ? ? ?]. split; [done..| |done|done|done|done|done|done]. intros t l H. naive_solver. Qed.
Lemma wf_strengthen t now k : wf (Some t) now k -> container k (EventItem t) = None \/ blocked k t -> wf None now k.
Proof.
  intros [? ? ? He ? ? ? ? ? ?] Ht. split; [done..| |done|done|done|done|done|done].
  intros s l Hs. destruct (He s l Hs) as [H1 H2]. split; [done|]. intros _.
  destruct (decide (s = t)) as [->|Hne]; [|apply H2; congruence]. destruct Ht as [Ht|]; [congruence|done].
Qed.

Lemma value_order_same k k' xs :
  (forall j, item_value k' j = item_value k j) -> StronglySorted (value_order k) xs -> StronglySorted (value_order k') xs.
Proof.
  intros Hv. induction 1 as [|x xs Hs IH Hx]; constructor; [done|].
  eapply Forall_impl; [exact Hx|]. intros y. unfold value_order. by rewrite !Hv.
Qed.

(** ** Taking an item off its list *)

Lemma wf_remove ex now k i st' :
  wf ex now k -> removed (kst k) i st' -> (forall t, i = StateItem t -> ex = Some t \/ container k (EventItem t) = None) ->
  wf ex now (k <| kst := st' |>).
Proof.
  intros W R Hx. pose proof (rm_container _ _ _ R) as Rc. pose proof (rm_value _ _ _ R) as Rv.
  assert (forall j l, container (k <| kst := st' |>) j = Some l -> i <> j /\ container k j = Some l) as Hc.
  { intros j l. unfold container. rsimpl. rewrite Rc. by destruct (decide (i = j)). }
  assert (forall j, item_value (k <| kst := st' |>) j = item_value k j) as Hv by apply Rv.
  destruct W as [H1 H2 H3 H4 H5 H6 H7 H8 H9 H10]. split; [apply R|exact H2| | |exact H5|exact H6|exact H7| | |].
  - intros t l [_ Hl]%Hc. exact (H3 t l Hl).
  - intros t l [Hne Hl]%Hc. destruct (H4 t l Hl) as [He Hb]. split; [done|]. intros Ht. specialize (Hb Ht).
    unfold blocked, container in *. rsimpl. rewrite Rc. destruct (decide (i = StateItem t)) as [E|]; [|done].
    destruct (Hx t E); congruence.
  - intros l Hl. apply (value_order_same k); [done|]. unfold tasks_on. rsimpl. rewrite (rm_on _ _ _ R).
    apply del_sorted, (H8 l Hl).
  - intros t [_ Ht]%Hc. rewrite Hv. apply (H9 t Ht).
  - intros t [_ Ht]%Hc. rewrite Hv. apply (H10 t Ht).
Qed.

(** ** Putting an item on a list *)

Lemma wf_insert ex now k l i st' :
  wf ex now k -> inserted (kst k) l i st' -> container k i = None ->
  match i with
  | StateItem t => state_list k t l /\ (Some t <> ex -> container k (EventItem t) = None \/ blocked (k <| kst := st' |>) t)
  | EventItem t => event_list l /\ (Some t <> ex -> blocked k t)
  end ->
  (l = pxDelayedTaskList k -> now < item_value k i < 2 ^ 32 /\ xNextTaskUnblockTime k <= item_value k i) ->
  (l = pxOverflowDelayedTaskList k -> 0 <= item_value k i < xTickCount k) ->
  (l = pxDelayedTaskList k \/ l = pxOverflowDelayedTaskList k ->
     on st' l = insert_by (item_value k) i (tasks_on k l)) ->
  wf ex now (k <| kst := st' |>).
Proof.
  intros W R Hfree Hi Hd Ho Hsort. pose proof (ins_container _ _ _ _ R) as Rc. pose proof (ins_value _ _ _ _ R) as Rv.
  assert (forall j m, container (k <| kst := st' |>) j = Some m -> (i = j /\ l = m) \/ (i <> j /\ container k j = Some m)) as Hc.
  { intros j m. unfold container. rsimpl. rewrite Rc. destruct (decide (i = j)); naive_solver. }
  assert (forall j, item_value (k <| kst := st' |>) j = item_value k j) as Hv by apply Rv.
  pose proof (delayed_list_cases _ _ _ l W) as Hcases.
  destruct W as [H1 H2 H3 H4 H5 H6 H7 H8 H9 H10]. split; [apply R|exact H2| | |exact H5|exact H6|exact H7| | |].
  - intros t m [[-> ->]|[_ Hl]]%Hc; [apply Hi|exact (H3 t m Hl)].
  - intros t m [[-> ->]|[Hne Hl]]%Hc; [split; [apply Hi|]|].
    + intros Ht. destruct Hi as (_ & Hb). specialize (Hb Ht). unfold blocked, container in *. rsimpl.
      by rewrite Rc, decide_False.
    + destruct (H4 t m Hl) as [He Hb]. split; [done|]. intros Ht.
      destruct (decide (i = StateItem t)) as [->|Hni].
      * destruct Hi as [_ [Hi|Hi]]; [done|congruence|done].
      * specialize (Hb Ht). unfold blocked, container in *. rsimpl. by rewrite Rc, decide_False.
  - intros m Hm. apply (value_order_same k); [done|]. unfold tasks_on. rsimpl.
    destruct (decide (m = l)) as [->|Hne].
    + rewrite (Hsort Hm). apply insert_by_sorted, (H8 l Hm).
    + rewrite (ins_other _ _ _ _ R) by done. exact (H8 m Hm).
  - intros t [[-> E]|[_ Ht]]%Hc; rewrite Hv; [by apply Hd|by apply H9].
  - intros t [[-> E]|[_ Ht]]%Hc; rewrite Hv; [by apply Ho|by apply H10].
Qed.

(** ** Moving a task *)

(** Everything but the lists, the highest ready priority, the next unblock time and
    the [ucDelayAborted] flags is as before. *)
Record frame (k k' : kernel) : Prop := {
  fr_tcb t : tcb k' t = (tcb k t) <| ucDelayAborted := ucDelayAborted (tcb k' t) |>;
  fr_current : pxCurrentTCB k' = pxCurrentTCB k;
  fr_delayed : pxDelayedTaskList k' = pxDelayedTaskList k;
  fr_overflow : pxOverflowDelayedTaskList k' = pxOverflowDelayedTaskList k;
  fr_tick : xTickCount k' = xTickCount k;
  fr_pended : xPendedTicks k' = xPendedTicks k;
  fr_yield : xYieldPending k' = xYieldPending k;
  fr_suspended : uxSchedulerSuspended k' = uxSchedulerSuspended k;
  fr_overflows : xNumOfOverflows k' = xNumOfOverflows k;
  fr_number : uxCurrentNumberOfTasks k' = uxCurrentNumberOfTasks k;
  fr_running : xSchedulerRunning k' = xSchedulerRunning k;
  fr_pendsv : xPendSV k' = xPendSV k;
}.
Lemma frame_refl k : frame k k.
Proof. split; try done. intros t. by destruct (tcb k t). Qed.
Lemma frame_trans k1 k2 k3 : frame k1 k2 -> frame k2 k3 -> frame k1 k3.
Proof.
  intros [T1 ???????????] [T2 ???????????]. split; [|congruence..]. intros t. rewrite T2, T1 at 1. by destruct (tcb k1 t).
Qed.
#[export] Hint Resolve frame_refl : kern.
Lemma frame_priority k k' t : frame k k' -> priority k' t = priority k t.
Proof. intros F. unfold priority. by rewrite (fr_tcb _ _ F). Qed.
Lemma frame_base k k' t : frame k k' -> uxBasePriority (tcb k' t) = uxBasePriority (tcb k t).
Proof. intros F. by rewrite (fr_tcb _ _ F). Qed.
Lemma frame_same k k' :
  tcbs k' = tcbs k -> pxCurrentTCB k' = pxCurrentTCB k -> pxDelayedTaskList k' = pxDelayedTaskList k ->
  pxOverflowDelayedTaskList k' = pxOverflowDelayedTaskList k -> xTickCount k' = xTickCount k ->
  xPendedTicks k' = xPendedTicks k -> xYieldPending k' = xYieldPending k ->
  uxSchedulerSuspended k' = uxSchedulerSuspended k -> xNumOfOverflows k' = xNumOfOverflows k ->
  uxCurrentNumberOfTasks k' = uxCurrentNumberOfTasks k -> xSchedulerRunning k' = xSchedulerRunning k ->
  xPendSV k' = xPendSV k -> frame k k'.
Proof. intros Ht **. split; try done. intros t. unfold tcb. rewrite Ht. by destruct (tcbs k !!! t). Qed.
Lemma frame_kst k st' : frame k (k <| kst := st' |>).
Proof. by apply frame_same. Qed.

(** The state item of [t] is now on [s] and its event item on [e], nothing else has
    moved, and no value has changed. *)
Record moved (k k' : kernel) (t : Z) (s e : option klist) : Prop := {
  mv_frame : frame k k';
  mv_state u : container k' (StateItem u) = if decide (t = u) then s else container k (StateItem u);
  mv_event u : container k' (EventItem u) = if decide (t = u) then e else container k (EventItem u);
  mv_value i : item_value k' i = item_value k i;
}.
Lemma moved_trans k1 k2 k3 t s e s' e' : moved k1 k2 t s e -> moved k2 k3 t s' e' -> moved k1 k3 t s' e'.
Proof.
  intros [F1 S1 E1 V1] [F2 S2 E2 V2]. split.
  - by eapply frame_trans.
  - intros u. rewrite S2, S1. by destruct (decide (t = u)).
  - intros u. rewrite E2, E1. by destruct (decide (t = u)).
  - intros i. by rewrite V2, V1.
Qed.

Lemma moved_event_same k k' t s u :
  moved k k' t s (container k (EventItem t)) -> container k' (EventItem u) = container k (EventItem u).
Proof. intros M. rewrite (mv_event _ _ _ _ _ M). by destruct (decide (t = u)) as [<-|]. Qed.

Lemma moved_removed k i st' :
  removed (kst k) i st' ->
  moved k (k <| kst := st' |>) (owner i)
    (match i with StateItem _ => None | EventItem t => container k (StateItem t) end)
    (match i with EventItem _ => None | StateItem t => container k (EventItem t) end).
Proof.
  intros [_ _ Rc Rv]. split; [apply frame_kst| | |apply Rv]; intros u; unfold container; rsimpl; rewrite Rc;
    destruct i as [t|t]; cbn [owner]; repeat case_decide; congruence.
Qed.
Lemma moved_inserted k l i st' :
  inserted (kst k) l i st' ->
  moved k (k <| kst := st' |>) (owner i)
    (match i with StateItem _ => Some l | EventItem t => container k (StateItem t) end)
    (match i with EventItem _ => Some l | StateItem t => container k (EventItem t) end).
Proof.
  intros [_ _ _ Rc Rv]. split; [apply frame_kst| | |apply Rv]; intros u; unfold container; rsimpl; rewrite Rc;
    destruct i as [t|t]; cbn [owner]; repeat case_decide; congruence.
Qed.

Lemma remove_from_lists_ok now k t l :
  wf None now k -> container k (StateItem t) = Some l ->
  exists k', remove_from_lists k t = Ok k' /\ wf None now k' /\ moved k k' t None None.
Proof.
  intros W Hc. unfold remove_from_lists.
  destruct (remove_item_ok k (StateItem t) l (wf_store _ _ _ W) Hc) as (st1 & -> & R1). cbn [res_bind].
  assert (wf (Some t) now (k <| kst := st1 |>)) as W1.
  { apply (wf_remove _ _ k (StateItem t)); [by apply wf_weaken|done|]. intros u [= ->]. by left. }
  pose proof (moved_removed k _ _ R1) as M1. cbn [owner] in M1.
  destruct (container (k <| kst := st1 |>) (EventItem t)) as [m|] eqn:He.
  - destruct (remove_item_ok _ _ _ (wf_store _ _ _ W1) He) as (st2 & -> & R2).
    pose proof (moved_removed _ _ _ R2) as M2. cbn [owner] in M2. eexists. split; [done|].
    pose proof (moved_trans _ _ _ _ _ _ _ _ M1 M2) as M.
    rewrite (mv_state _ _ _ _ _ M1), decide_True in M by done. split; [|done].
    apply (wf_strengthen t); [apply (wf_remove _ _ _ _ _ W1 R2); done|]. left. by rewrite (mv_event _ _ _ _ _ M), decide_True.
  - eexists. split; [done|]. split; [apply (wf_strengthen t); [done|by left]|].
    rewrite (mv_event _ _ _ _ _ M1), decide_True in He by done. by rewrite He in M1.
Qed.

(** ** Making a task ready *)

Lemma wf_record ex now k p :
  wf ex now k -> 0 <= p < configMAX_PRIORITIES -> wf ex now (taskRECORD_READY_PRIORITY k p).
Proof.
  intros W Hp. unfold taskRECORD_READY_PRIORITY. destruct (Z.ltb_spec (uxTopReadyPriority k) p) as [Hlt|]; [|done].
  destruct W as [H1 H2 H3 H4 H5 H6 H7 H8 H9 H10]. split; try done.
  intros t l Hl. specialize (H3 t l Hl). destruct l; cbn in *; try done. destruct H3 as [-> ?]. split; [done|]. lia.
Qed.
Lemma record_top k p : uxTopReadyPriority (taskRECORD_READY_PRIORITY k p) = Z.max (uxTopReadyPriority k) p.
Proof. unfold taskRECORD_READY_PRIORITY. destruct (Z.ltb_spec (uxTopReadyPriority k) p); rsimpl; lia. Qed.
Lemma moved_record k k' p t s e :
  moved (taskRECORD_READY_PRIORITY k p) k' t s e -> moved k k' t s e.
Proof.
  unfold taskRECORD_READY_PRIORITY. destruct (_ <? _); [|done]. intros [F S E V]. split; [|done..].
  eapply frame_trans; [|exact F]. by apply frame_same.
Qed.

Lemma add_ready_ok ex now k t :
  wf ex now k -> container k (StateItem t) = None -> (Some t <> ex -> container k (EventItem t) = None) ->
  wf ex now (prvAddTaskToReadyList k t) /\
  moved k (prvAddTaskToReadyList k t) t (Some (ReadyTasks (priority k t))) (container k (EventItem t)).
Proof.
  intros W Hs He. unfold prvAddTaskToReadyList. set (k1 := taskRECORD_READY_PRIORITY k (priority k t)).
  assert (wf ex now k1) as W1 by (apply wf_record; [done|apply (wf_priority _ _ _ W)]).
  assert (priority k1 t = priority k t) as Hp by (unfold k1, taskRECORD_READY_PRIORITY; by destruct (_ <? _)).
  assert (kst k1 = kst k) as Hk by (unfold k1, taskRECORD_READY_PRIORITY; by destruct (_ <? _)).
  assert (forall i, container k1 i = container k i) as Hc by (intros i; unfold container; by rewrite Hk).
  pose proof (record_top k (priority k t)) as Ht. fold k1 in Ht. rewrite Hp. unfold listINSERT_END.
  pose proof (seq_insert_end_inserted (kst k1) (ReadyTasks (priority k t)) (StateItem t) (wf_store _ _ _ W1)) as R.
  specialize (R ltac:(by rewrite Hk)). pose proof (moved_inserted k1 _ _ _ R) as M. cbn [owner] in M. split.
  - pose proof (delayed_list_cases _ _ _ (ReadyTasks (priority k t)) W1) as Hd.
    apply (wf_insert _ _ _ _ _ _ W1 R); [by rewrite Hc|..].
    + split; [cbn; split; [done|lia]|]. intros Hx. left. rewrite Hc. auto.
    + intros E. destruct Hd as [?|?]; auto; congruence.
    + intros E. destruct Hd as [?|?]; auto; congruence.
    + intros E. destruct Hd as [?|?]; auto; congruence.
  - rewrite Hc in M. unfold k1 in *. by eapply moved_record.
Qed.

(** The wake-up of a task by a time out: both items off their lists, and ready. *)
Lemma wake_ok now k t l :
  wf None now k -> container k (StateItem t) = Some l ->
  exists k', remove_from_lists k t = Ok k' /\ wf None now (prvAddTaskToReadyList k' t) /\
    moved k (prvAddTaskToReadyList k' t) t (Some (ReadyTasks (priority k t))) None.
Proof.
  intros W Hc. destruct (remove_from_lists_ok now k t l W Hc) as (k' & E & W' & M). exists k'. split; [done|].
  destruct (add_ready_ok None now k' t W') as [W2 M2];
    [by rewrite (mv_state _ _ _ _ _ M), decide_True|intros _; by rewrite (mv_event _ _ _ _ _ M), decide_True|].
  split; [done|]. rewrite (frame_priority k k' t (mv_frame _ _ _ _ _ M)) in M2.
  rewrite (mv_event _ _ _ _ _ M), decide_True in M2 by done. by eapply moved_trans.
Qed.

(** The wake-up by an event: the event item first. *)
Lemma event_wake_ok now k t l m :
  wf None now k -> container k (StateItem t) = Some l -> container k (EventItem t) = Some m ->
  exists k1 k2, listREMOVE_ITEM k (EventItem t) = Ok k1 /\ listREMOVE_ITEM k1 (StateItem t) = Ok k2 /\
    moved k k1 t (Some l) None /\ wf None now k1 /\
    wf None now (prvAddTaskToReadyList k2 t) /\
    moved k (prvAddTaskToReadyList k2 t) t (Some (ReadyTasks (priority k t))) None.
Proof.
  intros W Hs He. destruct (remove_item_ok k _ _ (wf_store _ _ _ W) He) as (st1 & E1 & R1).
  pose proof (moved_removed k _ _ R1) as M1. cbn [owner] in M1. rewrite Hs in M1.
  assert (wf None now (k <| kst := st1 |>)) as W1 by by apply (wf_remove _ _ _ _ _ W R1).
  set (k1 := k <| kst := st1 |>) in *. clearbody k1.
  assert (container k1 (StateItem t) = Some l) as Hs1 by (by rewrite (mv_state _ _ _ _ _ M1), decide_True).
  assert (container k1 (EventItem t) = None) as He1 by (by rewrite (mv_event _ _ _ _ _ M1), decide_True).
  destruct (remove_item_ok k1 _ _ (wf_store _ _ _ W1) Hs1) as (st2 & E2 & R2).
  pose proof (moved_removed k1 _ _ R2) as M2. cbn [owner] in M2. rewrite He1 in M2.
  assert (wf None now (k1 <| kst := st2 |>)) as W2.
  { apply (wf_remove _ _ _ _ _ W1 R2). intros u [= <-]. by right. }
  set (k2 := k1 <| kst := st2 |>) in *. clearbody k2. pose proof (moved_trans _ _ _ _ _ _ _ _ M1 M2) as M.
  destruct (add_ready_ok None now k2 t W2) as [W3 M3];
    [by rewrite (mv_state _ _ _ _ _ M), decide_True|intros _; by rewrite (mv_event _ _ _ _ _ M), decide_True|].
  rewrite (frame_priority k k2 t (mv_frame _ _ _ _ _ M)), (mv_event _ _ _ _ _ M), decide_True in M3 by done.
  exists k1, k2. split_and!; [done..|]. by eapply moved_trans.
Qed.

(** ** Blocking the running task *)

Lemma tcb_put k t x u : tcb (put_tcb k t x) u = if decide (t = u) then x else tcb k u.
Proof.
  unfold tcb, put_tcb. rsimpl. destruct (decide (t = u)) as [<-|]; [apply lookup_total_insert_eq|by apply lookup_total_insert_ne].
Qed.
Lemma wf_put_tcb ex now k t x : uxPriority x = priority k t -> wf ex now k -> wf ex now (put_tcb k t x).
Proof.
  intros Hx [H1 H2 H3 H4 H5 H6 H7 H8 H9 H10].
  assert (forall u, priority (put_tcb k t x) u = priority k u) as Hp.
  { intros u. unfold priority. rewrite tcb_put. by destruct (decide (t = u)) as [<-|]. }
  split; try done.
  - intros u l Hl. specialize (H3 u l Hl). destruct l; try done. cbn. by rewrite Hp.
  - intros u. by rewrite Hp.
Qed.
Lemma frame_delay_aborted k c b : frame k (set_delay_aborted k c b).
Proof.
  split; try done. intros t. unfold set_delay_aborted. rewrite tcb_put. destruct (decide (c = t)) as [<-|]; [done|].
  by destruct (tcb k t).
Qed.

Lemma item_value_set k i v j : item_value (listSET_LIST_ITEM_VALUE k i v) j = if decide (i = j) then v else item_value k j.
Proof. apply value_set_value. Qed.
Lemma container_set k i v j : container (listSET_LIST_ITEM_VALUE k i v) j = container k j.
Proof. apply container_set_value. Qed.
(** The value of an item that is on no delayed list can be set. *)
Lemma wf_set_value ex now k i v :
  wf ex now k -> match i with StateItem _ => container k i = None | EventItem _ => True end ->
  wf ex now (listSET_LIST_ITEM_VALUE k i v).
Proof.
  intros W Hi. pose proof (container_set k i v) as Hc. pose proof (item_value_set k i v) as Hv.
  assert (forall l, l = pxDelayedTaskList k \/ l = pxOverflowDelayedTaskList k -> i ∉ tasks_on k l) as Hn.
  { intros l Hl Hin. destruct (delayed_state _ _ _ _ _ W Hl Hin) as [E Ec]. destruct i; [cbn in *; congruence|done]. }
  destruct W as [H1 H2 H3 H4 H5 H6 H7 H8 H9 H10].
  assert (forall t l, container (listSET_LIST_ITEM_VALUE k i v) (StateItem t) = Some l -> i <> StateItem t) as Hne.
  { intros t l Ht ->. rewrite Hc in Ht. congruence. }
  split; try done.
  - by apply seq_set_value_ok.
  - intros t l. rewrite Hc. apply H3.
  - intros t l. rewrite Hc. intros Hl. destruct (H4 t l Hl) as [He Hb]. split; [done|].
    intros Ht. unfold blocked. rewrite Hc. by apply Hb.
  - intros l Hl. specialize (H8 l Hl). specialize (Hn l Hl). change (tasks_on _ l) with (tasks_on k l).
    revert H8 Hn. generalize (tasks_on k l). clear -Hv. intros xs. induction 1 as [|x xs Hs IH Hx]; intros Hn; constructor.
    + apply IH. set_solver.
    + rewrite Forall_forall in *. intros y Hy. specialize (Hx y Hy). unfold value_order in *.
      rewrite !Hv, !decide_False by set_solver. done.
  - intros t Ht. rewrite Hv, decide_False by (by eapply Hne). rewrite Hc in Ht. by apply H9.
  - intros t Ht. rewrite Hv, decide_False by (by eapply Hne). rewrite Hc in Ht. by apply H10.
Qed.

(** The list a task that waits [n] ticks goes to. *)
Definition wait_list (k : kernel) (n : Z) (indefinitely : bool) : klist :=
  if (n =? portMAX_DELAY) && indefinitely then SuspendedTaskList
  else if u32 (xTickCount k + n) <? xTickCount k then pxOverflowDelayedTaskList k else pxDelayedTaskList k.
Definition wait_value (k : kernel) (c n : Z) (indefinitely : bool) : Z :=
  if (n =? portMAX_DELAY) && indefinitely then item_value k (StateItem c) else u32 (xTickCount k + n).

Record waits (k k' : kernel) (c : Z) (l : klist) (v : Z) : Prop := {
  wt_frame : frame k k';
  wt_state u : container k' (StateItem u) = if decide (c = u) then Some l else container k (StateItem u);
  wt_event u : container k' (EventItem u) = container k (EventItem u);
  wt_value i : item_value k' i = if decide (StateItem c = i) then v else item_value k i;
}.

Lemma wf_next ex now k v :
  wf ex now k -> (forall t, container k (StateItem t) = Some (pxDelayedTaskList k) -> v <= item_value k (StateItem t)) ->
  wf ex now (k <| xNextTaskUnblockTime := v |>).
Proof. intros [H1 H2 H3 H4 H5 H6 H7 H8 H9 H10] Hv. split; try done. intros t Ht. split; [by apply H9|by apply Hv]. Qed.

(** The insertion of a task in a delayed list. *)
Lemma insert_delayed_ok ex k c v l :
  wf ex (xTickCount k) k -> container k (StateItem c) = None -> item_value k (StateItem c) = v ->
  (l = pxDelayedTaskList k /\ xTickCount k < v < 2 ^ 32 /\ xNextTaskUnblockTime k <= v) \/
  (l = pxOverflowDelayedTaskList k /\ 0 <= v < xTickCount k) ->
  wf ex (xTickCount k) (listINSERT k l (StateItem c)) /\
  moved k (listINSERT k l (StateItem c)) c (Some l) (container k (EventItem c)).
Proof.
  intros W Hc Hv Hl. unfold listINSERT.
  pose proof (seq_insert_inserted (kst k) l (StateItem c) (wf_store _ _ _ W) Hc) as R.
  pose proof (moved_inserted k _ _ _ R) as M. cbn [owner] in M. split; [|done].
  assert (l = DelayedTaskList1 \/ l = DelayedTaskList2) as Hcase
    by (apply (delayed_list_cases _ _ _ _ W); destruct Hl as [[-> _]|[-> _]]; auto).
  assert (pxDelayedTaskList k <> pxOverflowDelayedTaskList k) as Hne by (destruct (wf_lists _ _ _ W) as [[-> ->]|[-> ->]]; done).
  apply (wf_insert _ _ _ _ _ _ W R Hc); rewrite ?Hv.
  - split; [by destruct Hcase as [->| ->]|]. intros _. right. unfold blocked.
    rewrite (mv_state _ _ _ _ _ M), decide_True by done. by destruct Hcase as [->| ->].
  - intros E. destruct Hl as [[_ ?]|[E' _]]; [done|congruence].
  - intros E. destruct Hl as [[E' _]|[_ ?]]; [congruence|done].
  - intros _. apply on_seq_insert.
Qed.

(** The insertion of a task that is off its list in the suspended list. *)
Lemma insert_suspended_ok ex now k t :
  wf ex now k -> container k (StateItem t) = None ->
  wf ex now (listINSERT_END k SuspendedTaskList (StateItem t)) /\
  moved k (listINSERT_END k SuspendedTaskList (StateItem t)) t (Some SuspendedTaskList) (container k (EventItem t)).
Proof.
  intros W Hf. pose proof (seq_insert_end_inserted (kst k) SuspendedTaskList (StateItem t) (wf_store _ _ _ W) Hf) as R.
  pose proof (moved_inserted k _ _ _ R) as M. cbn [owner] in M. split; [|done]. unfold listINSERT_END in *.
  pose proof (delayed_list_cases _ _ _ SuspendedTaskList W) as Hd.
  apply (wf_insert _ _ _ _ _ _ W R Hf); try (intros E; destruct Hd; auto; congruence).
  split; [done|]. intros _. right. unfold blocked. by rewrite (mv_state _ _ _ _ _ M), decide_True.
Qed.

Lemma waits_moved k k1 k2 c l v :
  frame k k1 -> (forall u, container k1 (StateItem u) = container k (StateItem u)) ->
  (forall u, container k1 (EventItem u) = container k (EventItem u)) ->
  (forall i, item_value k1 i = if decide (StateItem c = i) then v else item_value k i) ->
  moved k1 k2 c (Some l) (container k1 (EventItem c)) -> waits k k2 c l v.
Proof.
  intros F Hs He Hv M. split.
  - eapply frame_trans; [exact F|apply M].
  - intros u. rewrite (mv_state _ _ _ _ _ M). destruct (decide (c = u)); [done|apply Hs].
  - intros u. by rewrite (moved_event_same _ _ _ _ _ M).
  - intros i. by rewrite (mv_value _ _ _ _ _ M).
Qed.

Lemma add_to_delayed_list_ok ex k c n b :
  wf ex (xTickCount k) k -> container k (StateItem c) = None -> 0 < n < 2 ^ 32 ->
  wf ex (xTickCount k) (add_to_delayed_list k c n b) /\
  waits k (add_to_delayed_list k c n b) c (wait_list k n b) (wait_value k c n b).
Proof.
  intros W Hf Hn. unfold add_to_delayed_list, wait_list, wait_value. destruct ((n =? portMAX_DELAY) && b).
  - destruct (insert_suspended_ok _ _ _ _ W Hf) as [W' M]. split; [done|].
    apply (waits_moved k k); [apply frame_refl|done|done| |done]. intros i. by destruct (decide _) as [<-|].
  - set (v := u32 (xTickCount k + n)). cbv zeta. set (k1 := listSET_LIST_ITEM_VALUE k (StateItem c) v).
    assert (wf ex (xTickCount k) k1) as W1 by (by apply wf_set_value).
    assert (frame k k1) as F1 by (by apply frame_same).
    pose proof (container_set k (StateItem c) v) as Hc. pose proof (item_value_set k (StateItem c) v) as Hv.
    fold k1 in Hc, Hv. change (xTickCount k1) with (xTickCount k).
    pose proof (u_range 32 (xTickCount k + n) ltac:(lia)) as Hu. pose proof (wf_tick _ _ _ W) as Ht. unfold is_u in *. fold v in Hu.
    assert (v <> xTickCount k) as Hne.
    { unfold v, u32, u. intros E. Z.to_euclidean_division_equations. lia. }
    assert (container k1 (StateItem c) = None) as Hf1 by (by rewrite Hc).
    assert (item_value k1 (StateItem c) = v) as Hv1 by (by rewrite Hv, decide_True).
    destruct (Z.ltb_spec v (xTickCount k)).
    + destruct (insert_delayed_ok ex k1 c v (pxOverflowDelayedTaskList k1) W1 Hf1 Hv1) as [W2 M2]; [right; split; [done|]; cbn; lia|].
      split; [done|]. by apply (waits_moved k k1).
    + change (xNextTaskUnblockTime (listINSERT k1 (pxDelayedTaskList k1) (StateItem c))) with (xNextTaskUnblockTime k1).
      destruct (Z.ltb_spec v (xNextTaskUnblockTime k1)) as [Hlt|Hge].
      * set (k2 := k1 <| xNextTaskUnblockTime := v |>).
        assert (wf ex (xTickCount k) k2) as W2.
        { apply wf_next; [done|]. intros t Ht1. destruct (wf_due _ _ _ W1 t Ht1). lia. }
        destruct (insert_delayed_ok ex k2 c v (pxDelayedTaskList k2) W2 Hf1 Hv1) as [W3 M3];
          [left; split; [done|]; split; [cbn; lia|done]|].
        split; [exact W3|]. apply (waits_moved k k2); [by apply frame_same|intros u; apply Hc|intros u; apply Hc|exact Hv|exact M3].
      * destruct (insert_delayed_ok ex k1 c v (pxDelayedTaskList k1) W1 Hf1 Hv1) as [W2 M2]; [left; split; [done|]; split; [cbn; lia|done]|].
        split; [done|]. by apply (waits_moved k k1).
Qed.

Lemma block_ok ex k c l n b :
  wf ex (xTickCount k) k -> pxCurrentTCB k = Some c -> container k (StateItem c) = Some l ->
  ex = Some c \/ container k (EventItem c) = None -> 0 < n < 2 ^ 32 ->
  exists k', prvAddCurrentTaskToDelayedList k n b = Ok k' /\ wf ex (xTickCount k) k' /\
    waits k k' c (wait_list k n b) (wait_value k c n b).
Proof.
  intros W Hcur Hs He Hn. unfold prvAddCurrentTaskToDelayedList, current. rewrite Hcur. cbn [res_bind].
  set (k0 := set_delay_aborted k c false). assert (frame k k0) as F0 by apply frame_delay_aborted.
  assert (wf ex (xTickCount k) k0) as W0 by (by apply wf_put_tcb).
  destruct (remove_item_ok k0 (StateItem c) l (wf_store _ _ _ W0) Hs) as (st1 & -> & R1). cbn [res_bind].
  assert (wf ex (xTickCount k) (k0 <| kst := st1 |>)) as W1.
  { apply (wf_remove _ _ k0 (StateItem c)); [done..|]. intros u [= <-]. exact He. }
  pose proof (moved_removed k0 _ _ R1) as M1. cbn [owner] in M1. set (k1 := k0 <| kst := st1 |>) in *.
  assert (container k1 (StateItem c) = None) as Hf by (by rewrite (mv_state _ _ _ _ _ M1), decide_True).
  destruct (add_to_delayed_list_ok ex k1 c n b W1 Hf Hn) as [W2 [F2 S2 E2 V2]].
  eexists. split; [done|]. split; [done|]. split.
  - eapply frame_trans; [exact F0|]. eapply frame_trans; [apply M1|exact F2].
  - intros u. rewrite S2, (mv_state _ _ _ _ _ M1). by destruct (decide (c = u)).
  - intros u. by rewrite E2, (moved_event_same _ _ _ _ _ M1).
  - intros i. rewrite V2. change (item_value k i) with (item_value k0 i). rewrite <- (mv_value _ _ _ _ _ M1).
    unfold wait_value. destruct ((n =? portMAX_DELAY) && b); [|done]. destruct (decide (StateItem c = i)) as [<-|]; [|done].
    apply (mv_value _ _ _ _ _ M1).
Qed.
End RtosSchedInv.
