(* ===== verification/RtosTick.v ===== *)
(** * The tick of the kernel

    [xTaskIncrementTick]: the loop over the delayed tasks, the swap of the delayed
    lists when the tick count wraps, and [xTaskResumeAll], which makes up for the
    ticks and wake-ups that were held back. *)

From Stdlib Require Import Sorting.Sorted.
From S2P Require Import Prelude RtosList RtosSeq RtosSched RtosSchedInv.
From stdpp Require Import list.
#[local] Set Warnings "-clear-no-such-hyp".
#[local] Open Scope Z_scope.

Module RtosTick.
Export RtosSchedInv.

Lemma nodup_length_lt {A} `{EqDecision A} (xs ys : list A) (x : A) :
  NoDup xs -> xs ⊆ ys -> x ∈ ys -> x ∉ xs -> (length xs < length ys)%nat.
Proof.
  intros Hn Hs Hx Hnx. assert (x :: xs ⊆+ ys) as Hsub.
  { apply NoDup_submseteq; [by apply NoDup_cons|]. intros y [->|Hy]%elem_of_cons; auto. }
  apply submseteq_length in Hsub. cbn in Hsub. lia.
Qed.

Lemma wf_advance ex now now' k :
  wf ex now k ->
  (forall t, container k (StateItem t) = Some (pxDelayedTaskList k) -> now' < item_value k (StateItem t)) ->
  wf ex now' k.
Proof.
  intros [H1 H2 H3 H4 H5 H6 H7 H8 H9 H10] Hd. split; try done.
  intros t Ht. destruct (H9 t Ht) as [? ?]. split; [split; [by apply Hd|lia]|done].
Qed.

(** The task at the head of the delayed list is the first to be due. *)
Lemma delayed_head ex now k :
  wf ex now k ->
  (head_owner k (pxDelayedTaskList k) = None /\
   forall t, container k (StateItem t) <> Some (pxDelayedTaskList k)) \/
  exists t, head_owner k (pxDelayedTaskList k) = Some t /\ seq_head (kst k) (pxDelayedTaskList k) = Some (StateItem t) /\
    container k (StateItem t) = Some (pxDelayedTaskList k) /\
    forall u, container k (StateItem u) = Some (pxDelayedTaskList k) -> item_value k (StateItem t) <= item_value k (StateItem u).
Proof.
  intros W. unfold head_owner. pose proof (wf_sorted _ _ _ W (pxDelayedTaskList k) (or_introl eq_refl)) as Hs.
  unfold tasks_on in Hs. unfold seq_head. destruct (on (kst k) (pxDelayedTaskList k)) as [|i xs] eqn:E; cbn [head fmap option_fmap option_map].
  - left. split; [done|]. intros t Ht%(tasks_on_iff _ _ _ _ _ W). unfold tasks_on in Ht. rewrite E in Ht. set_solver.
  - right. assert (i ∈ tasks_on k (pxDelayedTaskList k)) as Hi by (unfold tasks_on; rewrite E; set_solver).
    destruct (delayed_state _ _ _ _ _ W (or_introl eq_refl) Hi) as [Ei Hc]. exists (owner i). split; [done|].
    split; [by rewrite <- Ei|]. split; [done|]. intros u Hu%(tasks_on_iff _ _ _ _ _ W). unfold tasks_on in Hu. rewrite E in Hu.
    rewrite <- Ei. apply elem_of_cons in Hu as [<-|Hu]; [lia|]. inversion Hs as [|? ? _ Hall]; subst.
    rewrite Forall_forall in Hall. exact (Hall _ Hu).
Qed.

(** A delayed task whose time has come. *)
Definition due (k : kernel) (tick t : Z) : bool :=
  bool_decide (container k (StateItem t) = Some (pxDelayedTaskList k)) && (item_value k (StateItem t) <=? tick).

(** [k'] is [k] with the tasks of [p] made ready. *)
Record woken (p : Z -> bool) (k k' : kernel) : Prop := {
  wk_frame : frame k k';
  wk_state t : container k' (StateItem t) = if p t then Some (ReadyTasks (priority k t)) else container k (StateItem t);
  wk_event t : container k' (EventItem t) = if p t then None else container k (EventItem t);
  wk_value i : item_value k' i = item_value k i;
}.
Lemma woken_moved p q k k1 k2 t :
  moved k k1 t (Some (ReadyTasks (priority k t))) None -> woken p k1 k2 ->
  (forall u, q u = (bool_decide (t = u) || p u)) -> woken q k k2.
Proof.
  intros [F1 S1 E1 V1] [F2 S2 E2 V2] Hq. split.
  - by eapply frame_trans.
  - intros u. rewrite S2, S1, Hq, (frame_priority _ _ _ F1). case_bool_decide; destruct (p u); repeat case_decide; subst; done.
  - intros u. rewrite E2, E1, Hq. case_bool_decide; destruct (p u); repeat case_decide; subst; done.
  - intros i. by rewrite V2, V1.
Qed.
Lemma woken_none p k k' : frame k k' -> kst k' = kst k -> (forall t, p t = false) -> woken p k k'.
Proof.
  intros F E Hp. split; [done|..]; intros; rewrite ?Hp; unfold container, item_value; by rewrite E.
Qed.

(** A list that loses an item gets shorter. *)
Lemma list_shrinks ex now now' k k2 l i :
  wf ex now k -> wf ex now' k2 -> (forall j, container k2 j = Some l -> container k j = Some l) ->
  container k i = Some l -> container k2 i <> Some l -> (length (tasks_on k2 l) < length (tasks_on k l))%nat.
Proof.
  intros W W2 Hsub Hi Hi2. apply (nodup_length_lt _ _ i); [apply (wf_store _ _ _ W2)|..].
  - intros j Hj. apply (tasks_on_iff _ _ _ _ _ W), Hsub. by apply (tasks_on_iff _ _ _ _ _ W2).
  - by apply (tasks_on_iff _ _ _ _ _ W).
  - by rewrite <- (tasks_on_iff _ _ _ _ _ W2).
Qed.
(** Making a task ready takes it off every other list. *)
Lemma moved_ready_sub k k2 t p l :
  moved k k2 t (Some (ReadyTasks p)) None -> l <> ReadyTasks p -> forall j, container k2 j = Some l -> container k j = Some l.
Proof.
  intros [F S E V] Hl [u|u]; [rewrite S|rewrite E]; destruct (decide (t = u)); congruence.
Qed.

Lemma unblock_due_ok fuel k tick sw c :
  wf None (tick - 1) k -> pxCurrentTCB k = Some c -> (length (tasks_on k (pxDelayedTaskList k)) < fuel)%nat ->
  exists k' sw', unblock_due fuel k tick sw = Ok (k', sw') /\ wf None tick k' /\ woken (due k tick) k k' /\
    (sw' = true <-> sw = true \/ exists t, due k tick t = true /\ priority k c < priority k t).
Proof.
  revert k sw. induction fuel as [|fuel IH]; intros k sw W Hc Hlen; [lia|]. cbn [unblock_due].
  destruct (delayed_head _ _ _ W) as [[-> Hn]|(t & -> & _ & Ht & Hmin)].
  - eexists _, _. split; [done|].
    assert (forall t, due k tick t = false) as Hd.
    { intros t. unfold due. by rewrite bool_decide_eq_false_2 by apply Hn. }
    split_and!.
    + apply wf_next; [|intros t []%Hn]. apply (wf_advance _ (tick - 1)); [done|]. by intros t []%Hn.
    + apply woken_none; [by apply frame_same|done|done].
    + split; [by left|]. intros [?|(t & Ht & _)]; [done|]. congruence.
  - destruct (Z.ltb_spec tick (item_value k (StateItem t))) as [Hlt|Hge].
    + eexists _, _. split; [done|]. assert (forall u, due k tick u = false) as Hd.
      { intros u. unfold due. case_bool_decide as Hu; [|done]. specialize (Hmin u Hu). cbn. lia. }
      split_and!.
      * apply wf_next; [|done]. apply (wf_advance _ (tick - 1)); [done|]. intros u Hu. specialize (Hmin u Hu). lia.
      * apply woken_none; [by apply frame_same|done|done].
      * split; [by left|]. intros [?|(u & Hu & _)]; [done|]. congruence.
    + destruct (wake_ok _ k t _ W Ht) as (k1 & -> & W2 & M). cbn [res_bind].
      set (k2 := prvAddTaskToReadyList k1 t) in *. clearbody k2. pose proof M as [F S E V].
      unfold current. rewrite (fr_current _ _ F), Hc. cbn [res_bind].
      assert (forall u, due k tick u = (bool_decide (t = u) || due k2 tick u)) as Hq.
      { intros u. unfold due. rewrite S, V, (fr_delayed _ _ F). destruct (decide (t = u)) as [<-|Hne].
        - rewrite !bool_decide_eq_true_2 by done. cbn. lia.
        - by rewrite (bool_decide_eq_false_2 (t = u)) by done. }
      assert (due k2 tick t = false) as Hdt.
      { unfold due. rewrite S, decide_True, bool_decide_eq_false_2; [done| |done]. rewrite (fr_delayed _ _ F).
        destruct (wf_lists _ _ _ W) as [[-> _]|[-> _]]; done. }
      destruct (IH k2 (if priority k2 c <? priority k2 t then true else sw)) as (k' & sw' & -> & W' & K' & Hsw);
        [done|by rewrite (fr_current _ _ F)| |].
      { eapply Nat.lt_le_trans; [|by apply Nat.lt_succ_r].
        rewrite (fr_delayed _ _ F). assert (forall p, pxDelayedTaskList k <> ReadyTasks p) as Hnr
          by (destruct (wf_lists _ _ _ W) as [[-> _]|[-> _]]; done).
        eapply (list_shrinks _ _ _ k k2 _ (StateItem t)); [done..|by eapply moved_ready_sub|done|].
        rewrite S, decide_True by done. intros [= E']. by apply (Hnr (priority k t)). }
      exists k', sw'. split; [done|]. split; [done|]. split; [by eapply woken_moved|].
      rewrite Hsw, !(frame_priority _ _ _ F). setoid_rewrite (frame_priority _ _ _ F). setoid_rewrite Hq.
      destruct (Z.ltb_spec (priority k c) (priority k t)).
      * split; [|by left]. intros _. right. exists t. by rewrite bool_decide_eq_true_2.
      * split; intros [?|(u & Hu & Hp)]; auto.
        -- right. exists u. by rewrite Hu, orb_true_r.
        -- apply orb_true_iff in Hu as [<-%bool_decide_eq_true|Hu]; [lia|]. right. by exists u.
Qed.

(** ** The tick count *)

(** The kernel once the tick count is incremented and, when it wraps, the delayed
    lists are swapped. *)
Definition rolled (k : kernel) : kernel :=
  let k := k <| xTickCount := u32 (xTickCount k + 1) |> in
  if xTickCount k =? 0
  then k <| pxDelayedTaskList := pxOverflowDelayedTaskList k |> <| pxOverflowDelayedTaskList := pxDelayedTaskList k |>
         <| xNumOfOverflows := s32 (xNumOfOverflows k + 1) |>
  else k.

Lemma u32_succ_cases n : is_u 32 n -> (n = 2 ^ 32 - 1 /\ u32 (n + 1) = 0) \/ (n < 2 ^ 32 - 1 /\ u32 (n + 1) = n + 1).
Proof.
  unfold is_u. intros Hn. destruct (decide (n = 2 ^ 32 - 1)) as [->|Hne]; [by left|right]. split; [lia|].
  apply (u_small 32). unfold is_u. lia.
Qed.

(** The delayed list is empty when the lists are swapped. *)
Lemma delayed_empty_at_wrap ex k :
  wf ex (xTickCount k) k -> xTickCount k = 2 ^ 32 - 1 -> tasks_on k (pxDelayedTaskList k) = [].
Proof.
  intros W E. destruct (tasks_on k (pxDelayedTaskList k)) as [|i xs] eqn:El; [done|exfalso].
  assert (i ∈ tasks_on k (pxDelayedTaskList k)) as Hi by (rewrite El; set_solver).
  destruct (delayed_state _ _ _ _ _ W (or_introl eq_refl) Hi) as [_ Hc]. apply (wf_due _ _ _ W) in Hc. lia.
Qed.

Lemma reset_next_frame k : frame k (prvResetNextTaskUnblockTime k) /\ kst (prvResetNextTaskUnblockTime k) = kst k.
Proof. unfold prvResetNextTaskUnblockTime. destruct (seq_head _ _); split; try done; by apply frame_same. Qed.
(** [prvResetNextTaskUnblockTime] makes the next unblock time the least wake time. *)
Lemma reset_next_wf ex now k : wf ex now k -> wf ex now (prvResetNextTaskUnblockTime k).
Proof.
  intros W. unfold prvResetNextTaskUnblockTime. destruct (delayed_head _ _ _ W) as [[E Hn]|(t & _ & E & Ht & Hmin)].
  - unfold head_owner in E. destruct (seq_head _ _); [done|]. apply wf_next; [done|]. by intros t []%Hn.
  - rewrite E. by apply wf_next.
Qed.

Lemma swap_wf k :
  wf None (xTickCount k) k -> xTickCount k = 2 ^ 32 - 1 ->
  taskSWITCH_DELAYED_LISTS (k <| xTickCount := 0 |>) = Ok (prvResetNextTaskUnblockTime (rolled k)) /\
  wf None (-1) (prvResetNextTaskUnblockTime (rolled k)).
Proof.
  intros W E. pose proof (delayed_empty_at_wrap _ _ W E) as He.
  assert (rolled k = k <| xTickCount := 0 |> <| pxDelayedTaskList := pxOverflowDelayedTaskList k |>
    <| pxOverflowDelayedTaskList := pxDelayedTaskList k |> <| xNumOfOverflows := s32 (xNumOfOverflows k + 1) |>) as ->.
  { unfold rolled. cbv zeta. rewrite E. reflexivity. }
  split.
  - unfold taskSWITCH_DELAYED_LISTS, listLIST_IS_EMPTY, seq_empty.
    change (on (kst _) (pxDelayedTaskList _)) with (tasks_on k (pxDelayedTaskList k)). rewrite He. reflexivity.
  - set (k1 := _ <| xNumOfOverflows := _ |>).
    assert (forall t, container k (StateItem t) <> Some (pxDelayedTaskList k)) as Hn.
    { intros t Ht%(tasks_on_iff _ _ _ _ _ W). rewrite He in Ht. set_solver. }
    destruct W as [H1 H2 H3 H4 H5 H6 H7 H8 H9 H10].
    assert (wf None (-1) (k1 <| xNextTaskUnblockTime := 0 |>)) as W1.
    { split; try done.
      - cbn. tauto.
      - intros l Hl. apply (H8 l). cbn in Hl. tauto.
      - intros t Ht. destruct (H10 t Ht) as [? ?].
        change (-1 < item_value k (StateItem t) < 2 ^ 32 /\ 0 <= item_value k (StateItem t)). lia.
      - intros t Ht. by destruct (Hn t). }
    apply reset_next_wf in W1. revert W1. unfold prvResetNextTaskUnblockTime. cbn [kst]. rsimpl.
    by destruct (seq_head (kst k1) (pxDelayedTaskList k1)).
Qed.

(** What the tick does before it looks at the delayed tasks. *)
Lemma roll_ok k :
  wf None (xTickCount k) k ->
  exists k1, (if u32 (xTickCount k + 1) =? 0 then taskSWITCH_DELAYED_LISTS (k <| xTickCount := u32 (xTickCount k + 1) |>)
              else Ok (k <| xTickCount := u32 (xTickCount k + 1) |>)) = Ok k1 /\
    wf None (u32 (xTickCount k + 1) - 1) k1 /\ frame (rolled k) k1 /\ kst k1 = kst k /\
    xTickCount (rolled k) = u32 (xTickCount k + 1).
Proof.
  intros W. destruct (u32_succ_cases _ (wf_tick _ _ _ W)) as [[E ->]|[E Et]].
  - destruct (swap_wf k W E) as [-> W1]. eexists. split; [done|]. split; [done|].
    destruct (reset_next_frame (rolled k)) as [F K]. split; [done|]. rewrite K. unfold rolled. cbv zeta. by rewrite E.
  - destruct (wf_tick _ _ _ W) as [H0 _]. rewrite Et, (proj2 (Z.eqb_neq (xTickCount k + 1) 0)) by lia.
    assert (rolled k = k <| xTickCount := xTickCount k + 1 |>) as ->.
    { unfold rolled. cbv zeta. rsimpl. by rewrite Et, (proj2 (Z.eqb_neq (xTickCount k + 1) 0)) by lia. }
    eexists. split; [done|]. split_and!; [|by apply frame_same|done|done].
    replace (xTickCount k + 1 - 1) with (xTickCount k) by lia.
    destruct W as [H1 H2 H3 H4 H5 H6 H7 H8 H9 H10]. split; try done.
    + unfold is_u. cbn. lia.
    + intros t Ht. specialize (H10 t Ht). rsimpl. change (0 <= item_value k (StateItem t) < xTickCount k + 1). lia.
Qed.

Lemma rolled_same k :
  kst (rolled k) = kst k /\ tcbs (rolled k) = tcbs k /\ pxCurrentTCB (rolled k) = pxCurrentTCB k /\
  xYieldPending (rolled k) = xYieldPending k /\ uxSchedulerSuspended (rolled k) = uxSchedulerSuspended k /\
  xPendSV (rolled k) = xPendSV k /\ xPendedTicks (rolled k) = xPendedTicks k /\
  uxCurrentNumberOfTasks (rolled k) = uxCurrentNumberOfTasks k /\ xSchedulerRunning (rolled k) = xSchedulerRunning k.
Proof. unfold rolled. cbv zeta. by destruct (_ =? _). Qed.

(** The tasks woken by the tick are those whose time it is. *)
Definition due_now (k : kernel) (t : Z) : bool := due (rolled k) (xTickCount (rolled k)) t.

Lemma woken_from p q k0 k k' :
  frame k0 k -> kst k = kst k0 -> (forall t, p t = q t) -> woken p k k' -> woken q k0 k'.
Proof.
  intros F K Hq [Fw Sw Ew Vw]. split; [by eapply frame_trans| | |].
  - intros t. rewrite Sw, Hq, (frame_priority _ _ _ F). unfold container. by rewrite K.
  - intros t. rewrite Ew, Hq. unfold container. by rewrite K.
  - intros i. rewrite Vw. unfold item_value. by rewrite K.
Qed.

(** The delayed tasks are looked at when the next unblock time has come. *)
Definition process_due (k : kernel) (tick : Z) : res (kernel * bool) :=
  if xNextTaskUnblockTime k <=? tick
  then unblock_due (S (length (tasks_on k (pxDelayedTaskList k)))) k tick false
  else Ok (k, false).
Lemma process_due_ok k tick c :
  wf None (tick - 1) k -> pxCurrentTCB k = Some c ->
  exists k' sw, process_due k tick = Ok (k', sw) /\ wf None tick k' /\ woken (due k tick) k k' /\
    (sw = true <-> exists t, due k tick t = true /\ priority k c < priority k t).
Proof.
  intros W Hc. unfold process_due. destruct (Z.leb_spec (xNextTaskUnblockTime k) tick) as [Hle|Hgt].
  - destruct (unblock_due_ok (S (length (tasks_on k (pxDelayedTaskList k)))) k tick false c)
      as (k2 & sw & E & W2 & K & Hsw); [done..|lia|].
    exists k2, sw. split_and!; [done..|]. rewrite Hsw. naive_solver.
  - exists k, false. assert (forall t, due k tick t = false) as Hd.
    { intros t. unfold due. case_bool_decide as Ht; [|done]. apply (wf_due _ _ _ W) in Ht. cbn. lia. }
    split; [done|]. split_and!.
    + apply (wf_advance _ _ _ _ W). intros t Ht. apply (wf_due _ _ _ W) in Ht. lia.
    + apply woken_none; [apply frame_refl|done|done].
    + split; [done|]. intros (t & Ht & _). congruence.
Qed.

Lemma tick_ok k c :
  wf None (xTickCount k) k -> pxCurrentTCB k = Some c -> uxSchedulerSuspended k = 0 ->
  exists k' sw, xTaskIncrementTick k = Ok (k', sw) /\ wf None (xTickCount k') k' /\ woken (due_now k) (rolled k) k' /\
    (sw = true <-> xYieldPending k = true \/ (exists t, due_now k t = true /\ priority k c < priority k t) \/
       1 < listCURRENT_LIST_LENGTH k' (ReadyTasks (priority k c))).
Proof.
  intros W Hc Hs. unfold xTaskIncrementTick. rewrite Hs. cbn [Z.eqb].
  destruct (roll_ok k W) as (k1 & -> & W1 & F & K & Et). cbn [res_bind].
  destruct (rolled_same k) as (Rk & Rt & Rc & Ry & _).
  assert (forall t, due k1 (u32 (xTickCount k + 1)) t = due_now k t) as Hdue.
  { intros t. unfold due_now, due, container, item_value. by rewrite Et, K, Rk, (fr_delayed _ _ F). }
  assert (forall t, priority (rolled k) t = priority k t) as Hr by (intros t; unfold priority, tcb; by rewrite Rt).
  assert (forall t, priority k1 t = priority k t) as Hp by (intros t; by rewrite (frame_priority _ _ _ F)).
  fold (process_due k1 (u32 (xTickCount k + 1))).
  destruct (process_due_ok k1 (u32 (xTickCount k + 1)) c) as (k2 & sw & -> & W2 & Kw & Hsw);
    [done|by rewrite (fr_current _ _ F), Rc|].
  apply (woken_from _ (due_now k) (rolled k)) in Kw; [|done|by rewrite K, Rk|done]. pose proof (wk_frame _ _ _ Kw) as Fw.
  cbn [res_bind]. unfold current. rewrite (fr_current _ _ Fw), Rc, Hc. cbn [res_bind].
  rewrite (fr_yield _ _ Fw), Ry, (frame_priority _ _ _ Fw), Hr. eexists _, _. split; [done|].
  assert (xTickCount k2 = u32 (xTickCount k + 1)) as -> by (by rewrite (fr_tick _ _ Fw)).
  split; [done|]. split; [done|]. setoid_rewrite Hdue in Hsw. setoid_rewrite Hp in Hsw.
  destruct (xYieldPending k), (Z.ltb_spec 1 (listCURRENT_LIST_LENGTH k2 (ReadyTasks (priority k c)))); try tauto.
  rewrite Hsw. split; [auto|]. intros [?|[?|?]]; [done|done|lia].
Qed.

(** ** Resuming the scheduler *)

Definition pending (k : kernel) (t : Z) : bool := bool_decide (container k (EventItem t) = Some PendingReadyList).

Lemma wf_yield_pending ex now k b : wf ex now k -> wf ex now (k <| xYieldPending := b |>).
Proof. intros []. by split. Qed.
Lemma wf_pendsv ex now k b : wf ex now k -> wf ex now (k <| xPendSV := b |>).
Proof. intros []. by split. Qed.
Lemma wf_suspended ex now k n : wf ex now k -> wf ex now (k <| uxSchedulerSuspended := n |>).
Proof. intros []. by split. Qed.
Lemma wf_pended ex now k n : wf ex now k -> wf ex now (k <| xPendedTicks := n |>).
Proof. intros []. by split. Qed.
#[export] Hint Resolve wf_yield_pending wf_pendsv wf_suspended wf_pended : kern.

Lemma pending_blocked now k t : wf None now k -> pending k t = true -> exists l, container k (StateItem t) = Some l.
Proof.
  intros W Ht%bool_decide_eq_true. apply (wf_event _ _ _ W) in Ht as [_ Hb]. specialize (Hb ltac:(done)).
  unfold blocked in Hb. destruct (container k (StateItem t)) as [l|]; [by exists l|done].
Qed.
Lemma pending_head now k :
  wf None now k ->
  (head_owner k PendingReadyList = None /\ forall t, pending k t = false) \/
  exists t, head_owner k PendingReadyList = Some t /\ pending k t = true.
Proof.
  intros W. unfold head_owner, seq_head. destruct (on (kst k) PendingReadyList) as [|i xs] eqn:E; cbn [head fmap option_fmap option_map].
  - left. split; [done|]. intros t. apply bool_decide_eq_false. intros Ht%(tasks_on_iff _ _ _ _ _ W).
    unfold tasks_on in Ht. rewrite E in Ht. set_solver.
  - right. exists (owner i). split; [done|]. assert (container k i = Some PendingReadyList) as Hi.
    { apply (tasks_on_iff _ _ _ _ _ W). unfold tasks_on. rewrite E. set_solver. }
    apply bool_decide_eq_true. destruct i as [t|t]; [|done]. by apply (wf_state _ _ _ W) in Hi.
Qed.

Lemma move_pending_ok fuel now k c m :
  wf None now k -> pxCurrentTCB k = Some c -> (length (tasks_on k PendingReadyList) < fuel)%nat ->
  exists k' m' y, move_pending fuel k m = Ok (k', m') /\ wf None now k' /\
    woken (pending k) (k <| xYieldPending := y |>) k' /\
    (y = true <-> xYieldPending k = true \/ exists t, pending k t = true /\ priority k c <= priority k t).
Proof.
  revert k m. induction fuel as [|fuel IH]; intros k m W Hc Hlen; [lia|]. cbn [move_pending].
  destruct (pending_head _ _ W) as [[-> Hn]|(t & -> & Ht)].
  - exists k, m, (xYieldPending k). split_and!; [done..| |].
    + apply woken_none; [by apply frame_same|done|done].
    + split; [by left|]. intros [?|(t & Ht & _)]; [done|]. by rewrite Hn in Ht.
  - destruct (pending_blocked _ _ _ W Ht) as [l Hl]. pose proof Ht as Hp%bool_decide_eq_true.
    destruct (event_wake_ok _ k t _ _ W Hl Hp) as (k1 & k2 & -> & E2 & _ & _ & W3 & M). cbn [res_bind]. rewrite E2. cbn [res_bind].
    set (k3 := prvAddTaskToReadyList k2 t) in *. clearbody k3. clear k1 k2 E2. pose proof M as [F S E V].
    unfold current. rewrite (fr_current _ _ F), Hc. cbn [res_bind]. rewrite !(frame_priority _ _ _ F).
    set (y1 := if priority k c <=? priority k t then true else xYieldPending k3).
    replace (if priority k c <=? priority k t then k3 <| xYieldPending := true |> else k3) with (k3 <| xYieldPending := y1 |>).
    2: { unfold y1. destruct (_ <=? _); [done|]. by destruct k3. }
    set (k4 := k3 <| xYieldPending := y1 |>).
    assert (forall u, pending k u = (bool_decide (t = u) || pending k4 u)) as Hq.
    { intros u. unfold pending. change (container k4 (EventItem u)) with (container k3 (EventItem u)). rewrite E.
      destruct (decide (t = u)) as [<-|Hne]; [by rewrite Hp, (bool_decide_eq_true_2 (t = t)), bool_decide_eq_true_2|].
      by rewrite (bool_decide_eq_false_2 (t = u)) by done. }
    destruct (IH k4 true) as (k' & m' & y & -> & W' & Kw & Hy); [by apply wf_yield_pending|by rewrite <- Hc, <- (fr_current _ _ F)| |].
    { eapply Nat.lt_le_trans; [|by apply Nat.lt_succ_r].
      eapply (list_shrinks _ _ _ k k3 _ (EventItem t)); [done..|by eapply moved_ready_sub|done|].
      rewrite E, decide_True by done. done. }
    exists k', m', y. split_and!; [done..| |].
    + apply (woken_moved (pending k4) _ _ (k4 <| xYieldPending := y |>) _ t); [|done|done].
      split; [|exact S|exact E|exact V]. destruct F. by split.
    + rewrite Hy. change (xYieldPending k4) with y1. unfold y1. rewrite (fr_yield _ _ F).
      change (priority k4) with (priority k3). setoid_rewrite (frame_priority _ _ _ F). setoid_rewrite Hq.
      destruct (Z.leb_spec (priority k c) (priority k t)).
      * split; [|by left]. intros _. right. exists t. by rewrite bool_decide_eq_true_2.
      * split; intros [?|(u & Hu & Hpu)]; auto; right; exists u; [by rewrite Hu, orb_true_r|].
        apply orb_true_iff in Hu as [<-%bool_decide_eq_true|Hu]; [lia|done].
Qed.

(** Time goes by: some tasks have become ready, the rest is where it was. *)
Record later (k k' : kernel) : Prop := {
  lt_tcb t : tcb k' t = (tcb k t) <| ucDelayAborted := ucDelayAborted (tcb k' t) |>;
  lt_current : pxCurrentTCB k' = pxCurrentTCB k;
  lt_number : uxCurrentNumberOfTasks k' = uxCurrentNumberOfTasks k;
  lt_running : xSchedulerRunning k' = xSchedulerRunning k;
  lt_pendsv : xPendSV k = true -> xPendSV k' = true;
  lt_state t : container k' (StateItem t) = container k (StateItem t) \/ ready k' t;
  lt_event t : container k' (EventItem t) = container k (EventItem t) \/ container k' (EventItem t) = None;
  lt_value i : item_value k' i = item_value k i;
}.
Lemma later_priority k k' t : later k k' -> priority k' t = priority k t.
Proof. intros L. unfold priority. by rewrite (lt_tcb _ _ L). Qed.
Lemma later_ready k k' t : later k k' -> ready k t -> ready k' t.
Proof. intros L Hr. destruct (lt_state _ _ L t) as [E|]; [|done]. unfold ready in *. by rewrite E, (later_priority _ _ _ L). Qed.
Lemma later_trans k1 k2 k3 : later k1 k2 -> later k2 k3 -> later k1 k3.
Proof.
  intros L1 L2. destruct L1 as [T1 C1 N1 R1 P1 S1 E1 V1]. pose proof L2 as [T2 C2 N2 R2 P2 S2 E2 V2].
  split; [|congruence|congruence|congruence|auto| | |congruence].
  - intros t. rewrite T2, T1 at 1. by destruct (tcb k1 t).
  - intros t. destruct (S2 t) as [->|]; [|by right]. destruct (S1 t) as [->|Hr1]; [by left|]. right. by apply (later_ready k2).
  - intros t. destruct (E2 t) as [->|]; [|by right]. apply E1.
Qed.
Lemma later_refl k : later k k.
Proof. split; auto. intros t. by destruct (tcb k t). Qed.
Lemma later_woken p k k' : woken p k k' -> later k k'.
Proof.
  intros [[] Sw Ew Vw]. split; try done; try congruence.
  - intros t. unfold ready. rewrite Sw. unfold priority. destruct (p t); [right|by left]. by rewrite fr_tcb0.
  - intros t. rewrite Ew. destruct (p t); auto.
Qed.
(** Kernels that agree on what [later] speaks of. *)
Lemma later_same k k' :
  kst k' = kst k -> tcbs k' = tcbs k -> pxCurrentTCB k' = pxCurrentTCB k ->
  uxCurrentNumberOfTasks k' = uxCurrentNumberOfTasks k -> xSchedulerRunning k' = xSchedulerRunning k ->
  (xPendSV k = true -> xPendSV k' = true) -> later k k'.
Proof.
  intros Hk Ht Hc Hn Hr Hp. split; try done; intros; unfold tcb, container, item_value; rewrite ?Hk, ?Ht; auto.
  by destruct (tcbs k !!! t).
Qed.

(** ** The running task is the right one

    Ready, and - under the [Strict] reading, which mutexes can break - of the highest
    priority of the ready tasks. *)
Class Strict : Type := strict : Prop.

Section strictness.
Context {stc : Strict}.

Definition settled (k : kernel) : Prop :=
  exists c, pxCurrentTCB k = Some c /\ ready k c /\ (strict -> forall t, ready k t -> priority k t <= priority k c).
(** It is, or a switch of the context is on its way. *)
Definition covered (k : kernel) : Prop := xPendSV k = true \/ xYieldPending k = true \/ settled k.

Lemma settled_later k k' c :
  later k k' -> settled k -> pxCurrentTCB k = Some c ->
  (forall t, ready k' t -> ready k t \/ priority k t <= priority k c) -> settled k'.
Proof.
  intros L (c' & Hc & Hr & Hmax) Hc' Hw. rewrite Hc in Hc'. injection Hc' as ->. exists c. split; [by rewrite (lt_current _ _ L)|].
  split; [by apply (later_ready k)|]. intros HS t Ht. rewrite !(later_priority _ _ _ L).
  destruct (Hw t Ht) as [Ht'|]; [by apply Hmax|done].
Qed.
Lemma woken_ready p k k' t : woken p k k' -> ready k' t -> ready k t \/ p t = true.
Proof.
  intros K Ht. unfold ready in *. rewrite (wk_state _ _ _ K), (frame_priority _ _ _ (wk_frame _ _ _ K)) in Ht.
  destruct (p t); auto.
Qed.

Lemma tick_later k c k' sw :
  wf None (xTickCount k) k -> pxCurrentTCB k = Some c -> uxSchedulerSuspended k = 0 ->
  xTaskIncrementTick k = Ok (k', sw) ->
  later k k' /\ wf None (xTickCount k') k' /\ uxSchedulerSuspended k' = 0 /\ xYieldPending k' = xYieldPending k /\
  xPendedTicks k' = xPendedTicks k /\ xPendSV k' = xPendSV k /\ xTickCount k' = u32 (xTickCount k + 1) /\
  (covered k -> xPendSV k' = true \/ sw = true \/ settled k').
Proof.
  intros W Hc Hs E. destruct (tick_ok k c W Hc Hs) as (k1 & sw1 & E1 & W1 & K & Hsw). rewrite E in E1.
  injection E1 as <- <-. destruct (rolled_same k) as (Rk & Rt & Rc & Ry & Rs & Rp & Rd & Rn & Rr).
  assert (later k (rolled k)) as L1 by (apply later_same; try done; by rewrite Rp).
  pose proof (later_trans _ _ _ L1 (later_woken _ _ _ K)) as L. destruct (wk_frame _ _ _ K).
  split_and!; try done; try congruence.
  - rewrite fr_tick0. unfold rolled. cbv zeta. by destruct (_ =? _).
  - intros [Hp|[Hy|Hset]]; [left; congruence|right; left; by apply Hsw; left|].
    destruct sw; [by right; left|right; right]. apply (settled_later k k' c); [done..|]. intros t Ht.
    destruct (woken_ready _ _ _ _ K Ht) as [Hr|Hd].
    + left. unfold ready, container, priority, tcb in *. by rewrite <- Rk, <- Rt.
    + right. destruct (Z.le_gt_cases (priority k t) (priority k c)); [done|]. assert (false = true); [|done].
      apply Hsw. right. left. by exists t.
Qed.

Lemma unwind_ticks_ok n k c :
  wf None (xTickCount k) k -> pxCurrentTCB k = Some c -> uxSchedulerSuspended k = 0 ->
  exists k', unwind_ticks n k = Ok k' /\ later k k' /\ wf None (xTickCount k') k' /\ uxSchedulerSuspended k' = 0 /\
    xTickCount k' = u32 (xTickCount k + Z.of_nat n) /\ (covered k -> covered k').
Proof.
  revert k. induction n as [|n IH]; intros k W Hc Hs; cbn [unwind_ticks].
  - exists k. split_and!; [done|apply later_refl|done|done| |done]. rewrite Z.add_0_r. symmetry. apply (u_small 32), (wf_tick _ _ _ W).
  - destruct (tick_ok k c W Hc Hs) as (k1 & sw & E & _). rewrite E. cbn [res_bind].
    destruct (tick_later k c k1 sw W Hc Hs E) as (L & W1 & S1 & Y1 & _ & _ & T1 & C1).
    set (k2 := if sw then k1 <| xYieldPending := true |> else k1).
    assert (later k k2 /\ wf None (xTickCount k2) k2 /\ uxSchedulerSuspended k2 = 0 /\ xTickCount k2 = xTickCount k1 /\
      (covered k -> covered k2)) as (L2 & W2 & S2 & T2 & C2).
    { unfold k2. destruct sw.
      - split_and!; [|by apply wf_yield_pending|done|done|by intros _; right; left].
        eapply later_trans; [exact L|]. by apply later_same.
      - split_and!; [done..|]. intros Hk. destruct (C1 Hk) as [?|[?|?]]; [by left|done|by right; right]. }
    clearbody k2. destruct (IH k2 W2) as (k' & -> & L3 & W3 & S3 & T3 & C3); [by rewrite (lt_current _ _ L2)|done|].
    exists k'. split_and!; [done|by eapply later_trans|done|done| |auto].
    rewrite T3, T2, T1. unfold u32, u. rewrite Zplus_mod_idemp_l. f_equal. lia.
Qed.

Lemma later_pending k k' : later k k' -> (forall t, pending k t = false) -> forall t, pending k' t = false.
Proof.
  intros L Hn t. specialize (Hn t). unfold pending in *. by destruct (lt_event _ _ L t) as [-> | ->].
Qed.

(** The wake-ups held back. *)
Lemma release_pending_ok k c :
  wf None (xTickCount k) k -> pxCurrentTCB k = Some c ->
  exists k' m, move_pending (S (length (tasks_on k PendingReadyList))) k false = Ok (k', m) /\
    wf None (xTickCount k) k' /\ later k k' /\ (forall t, pending k' t = false) /\
    xTickCount k' = xTickCount k /\ uxSchedulerSuspended k' = uxSchedulerSuspended k /\ xPendedTicks k' = xPendedTicks k /\
    (covered k -> covered k').
Proof.
  intros W Hc. destruct (move_pending_ok (S (length (tasks_on k PendingReadyList))) _ k c false W Hc) as (k' & m & y & E & W' & K & Hy); [lia|].
  exists k', m. split; [done|]. split; [done|].
  assert (later k k') as L.
  { eapply later_trans; [|by eapply later_woken]. by apply later_same. }
  split; [done|]. destruct (wk_frame _ _ _ K). split_and!; try done.
  - intros t. unfold pending. rewrite (wk_event _ _ _ K). destruct (pending k t) eqn:Ep; [done|exact Ep].
  - unfold covered. rewrite fr_yield0, fr_pendsv0. rsimpl. intros [Hp|[Hyp|Hset]]; [by left|right; left; apply Hy; by left|].
    destruct y; [by right; left|right; right]. apply (settled_later k k' c); [done..|]. intros t Ht.
    destruct (woken_ready _ _ _ _ K Ht) as [?|Hd]; [by left|right].
    destruct (Z.le_gt_cases (priority k t) (priority k c)); [done|]. assert (false = true); [|done].
    apply Hy. right. exists t. split; [done|lia].
Qed.

Lemma resume_all_ok k c :
  wf None (xTickCount k) k -> pxCurrentTCB k = Some c -> uxSchedulerSuspended k = 1 -> 0 < uxCurrentNumberOfTasks k ->
  0 <= xPendedTicks k ->
  exists k' b, xTaskResumeAll k = Ok (k', b) /\ wf None (xTickCount k') k' /\ later k k' /\ uxSchedulerSuspended k' = 0 /\
    (forall t, pending k' t = false) /\ xTickCount k' = u32 (xTickCount k + xPendedTicks k) /\ xPendedTicks k' = 0 /\
    (b = true -> xPendSV k' = true) /\ (covered k -> xPendSV k' = true \/ settled k').
Proof.
  intros W Hc Hs Hn Hpt. unfold xTaskResumeAll. rewrite Hs. cbn [negb Z.eqb assert res_bind]. rsimpl.
  change (u32 (1 - 1)) with 0. cbn [Z.eqb andb]. rewrite (proj2 (Z.ltb_lt 0 _) Hn).
  set (k0 := k <| uxSchedulerSuspended := 0 |>).
  change (tasks_on k PendingReadyList) with (tasks_on k0 PendingReadyList).
  destruct (release_pending_ok k0 c) as (k1 & m & -> & W1 & L1 & P1 & T1 & S1 & D1 & C1); [by apply wf_suspended|done|].
  cbn [res_bind]. set (k2 := if m then prvResetNextTaskUnblockTime k1 else k1).
  assert (frame k1 k2 /\ kst k2 = kst k1) as [F2 K2] by (unfold k2; destruct m; [apply reset_next_frame|split; [apply frame_refl|done]]).
  assert (wf None (xTickCount k0) k2) as W2 by (unfold k2; destruct m; [by apply reset_next_wf|done]).
  assert (later k1 k2) as L2 by (apply (later_woken (fun _ => false)), woken_none; done).
  assert (covered k1 -> covered k2) as C2.
  { unfold covered, settled, ready, container. rewrite (fr_yield _ _ F2), (fr_pendsv _ _ F2), (fr_current _ _ F2), K2.
    by setoid_rewrite (frame_priority _ _ _ F2). }
  clearbody k2. rewrite (fr_pended _ _ F2), D1. change (xPendedTicks k0) with (xPendedTicks k).
  assert (xTickCount k2 = xTickCount k) as T2 by (by rewrite (fr_tick _ _ F2), T1).
  assert (exists k3, (if 0 <? xPendedTicks k then let! k := unwind_ticks (Z.to_nat (xPendedTicks k)) k2 in Ok (k <| xPendedTicks := 0 |>) else Ok k2)
    = Ok k3 /\ later k2 k3 /\ wf None (xTickCount k3) k3 /\ uxSchedulerSuspended k3 = 0 /\
      xTickCount k3 = u32 (xTickCount k + xPendedTicks k) /\ xPendedTicks k3 = 0 /\ (covered k2 -> covered k3)) as
    (k3 & -> & L3 & W3 & S3 & T3 & D3 & C3).
  { destruct (Z.ltb_spec 0 (xPendedTicks k)).
    - destruct (unwind_ticks_ok (Z.to_nat (xPendedTicks k)) k2 c) as (k3 & -> & L3 & W3 & S3 & T3 & C3);
        [by rewrite T2|by rewrite (lt_current _ _ L2), (lt_current _ _ L1)|by rewrite (fr_suspended _ _ F2), S1|].
      eexists. split; [done|]. split_and!; [|by apply wf_pended|done| |done|done].
      + eapply later_trans; [exact L3|]. by apply later_same.
      + rsimpl. by rewrite T3, T2, Z2Nat.id by lia.
    - exists k2. split_and!; [done|apply later_refl|by rewrite T2|by rewrite (fr_suspended _ _ F2), S1| | |done].
      + replace (xPendedTicks k) with 0 by lia. rewrite Z.add_0_r, T2. symmetry. apply (u_small 32), (wf_tick _ _ _ W).
      + rewrite (fr_pended _ _ F2), D1. cbn. lia. }
  cbn [res_bind]. assert (later k k3) as L.
  { eapply later_trans; [|eapply later_trans; [exact L1|by eapply later_trans]]. by apply later_same. }
  pose proof (later_pending _ _ (later_trans _ _ _ L2 L3) P1) as P3.
  destruct (xYieldPending k3) eqn:Ey; eexists _, _; (split; [done|]).
  - split_and!; try done; [by apply wf_pendsv| |by left]. eapply later_trans; [exact L|]. by apply later_same.
  - split_and!; try done. intros Hcov. destruct (C3 (C2 (C1 Hcov))) as [?|[?|?]]; [by left|congruence|by right].
Qed.
End strictness.

Lemma settled_any {stc : Strict} k : settled (stc := True) k -> settled k.
Proof. intros (c & Hc & Hr & Hmax). exists c. split; [done|]. split; [done|]. intros _. by apply Hmax. Qed.
End RtosTick.
