(* ===== verification/RtosSchedProps.v ===== *)
(** * The scheduler at work

    The kernel as a machine driven by the calls of the running task and by
    interrupts.  In every state it can reach no kernel function faults or hangs, and
    the running task is a ready task of the highest priority or the switch to one is
    pending. *)

From Stdlib Require Import Sorting.Sorted.
From S2P Require Import Prelude RtosList RtosSeq RtosSched RtosSchedInv RtosTick.
From stdpp Require Import list.
#[local] Set Warnings "-clear-no-such-hyp".
#[local] Open Scope Z_scope.

Module RtosSchedProps.
Export RtosTick.

(** ** Interrupts *)

Inductive interrupt :=
  | SysTick
  | PendSV
  | Signal (e : Z)
  | ResumeTask (t : Z).

(** The handlers.  A queue operation in a handler signals an event when a task waits
    for it, and a handler requests the switch that a call asks for. *)
Definition yield_if (r : res (kernel * bool)) : res kernel :=
  let! '(k, b) := r in Ok (if b : bool then portYIELD k else k).
Definition run_interrupt (k : kernel) (i : interrupt) : res kernel :=
  match i with
  | SysTick => xPortSysTickHandler k
  | PendSV => if xPendSV k then xPortPendSVHandler k else Ok k
  | Signal e => if listLIST_IS_EMPTY k (EventList e) then Ok k else yield_if (xTaskRemoveFromEventList k e)
  | ResumeTask t => yield_if (xTaskResumeFromISR k t)
  end.
Definition run_interrupts (ints : list interrupt) (k : kernel) : res kernel := res_fold run_interrupt k ints.

(** ** The invariant

    [idle] is the idle task, which never blocks. *)
Section strictness.
Context {stc : Strict}.

Record inv (idle : Z) (k : kernel) : Prop := {
  inv_wf : wf None (xTickCount k) k;
  inv_current : exists c, pxCurrentTCB k = Some c;
  inv_number : 0 < uxCurrentNumberOfTasks k;
  inv_running : xSchedulerRunning k = true;
  inv_suspended : is_u 32 (uxSchedulerSuspended k);
  inv_pended : is_u 32 (xPendedTicks k) /\ (uxSchedulerSuspended k = 0 -> xPendedTicks k = 0);
  inv_idle : ready k idle;
  inv_base t : 0 <= uxBasePriority (tcb k t) < configMAX_PRIORITIES;
  inv_pending : uxSchedulerSuspended k = 0 -> forall t, pending k t = false;
  inv_switch : uxSchedulerSuspended k = 0 -> xPendSV k = true \/ settled k;
  inv_held : uxSchedulerSuspended k <> 0 -> covered k /\ exists c, pxCurrentTCB k = Some c /\ ready k c;
}.

(** The processor runs a task: its calls can change the kernel. *)
Lemma running_ready idle k c : inv idle k -> xPendSV k = false -> pxCurrentTCB k = Some c -> ready k c.
Proof.
  intros I Hp Hc. destruct (decide (uxSchedulerSuspended k = 0)) as [Hs|Hs].
  - destruct (inv_switch _ _ I Hs) as [|(c' & Hc' & Hr & _)]; congruence.
  - destruct (inv_held _ _ I Hs) as (_ & c' & Hc' & Hr). congruence.
Qed.
Lemma inv_covered idle k : inv idle k -> covered k.
Proof.
  intros I. destruct (decide (uxSchedulerSuspended k = 0)) as [Hs|Hs]; [|by apply (inv_held _ _ I)].
  destruct (inv_switch _ _ I Hs) as [?|?]; [by left|by right; right].
Qed.

(** The scheduler is not suspended and some tasks become ready. *)
Lemma inv_later idle k k' :
  inv idle k -> later k k' -> wf None (xTickCount k') k' -> uxSchedulerSuspended k = 0 -> uxSchedulerSuspended k' = 0 ->
  xPendedTicks k' = xPendedTicks k -> (xPendSV k' = true \/ settled k') -> inv idle k'.
Proof.
  intros I L W Hs0 Hs Hp Hset. destruct I. split; try done.
  - by rewrite (lt_current _ _ L).
  - by rewrite (lt_number _ _ L).
  - by rewrite (lt_running _ _ L).
  - by rewrite Hs.
  - rewrite Hp, Hs. split; [apply inv_pended0|]. intros _. by apply inv_pended0.
  - by apply (later_ready k).
  - intros t. rewrite (lt_tcb _ _ L). apply inv_base0.
  - intros _. by apply (later_pending k); [|apply inv_pending0].
Qed.

(** ** Interrupts while the scheduler is suspended *)
End strictness.


Record held (k k' : kernel) : Prop := {
  hd_tcb t : tcb k' t = (tcb k t) <| ucDelayAborted := ucDelayAborted (tcb k' t) |>;
  hd_current : pxCurrentTCB k' = pxCurrentTCB k;
  hd_suspended : uxSchedulerSuspended k' = uxSchedulerSuspended k;
  hd_number : uxCurrentNumberOfTasks k' = uxCurrentNumberOfTasks k;
  hd_running : xSchedulerRunning k' = xSchedulerRunning k;
  hd_tick : xTickCount k' = xTickCount k;
  hd_delayed : pxDelayedTaskList k' = pxDelayedTaskList k;
  hd_overflow : pxOverflowDelayedTaskList k' = pxOverflowDelayedTaskList k;
  hd_state t : container k' (StateItem t) = container k (StateItem t);
  hd_event t : container k' (EventItem t) = container k (EventItem t) \/ container k' (EventItem t) = Some PendingReadyList;
  hd_event_free t : container k (EventItem t) = None -> container k (StateItem t) <> Some SuspendedTaskList ->
    container k' (EventItem t) = None;
  hd_value i : item_value k' i = item_value k i;
  hd_switch : xPendSV k = true \/ xYieldPending k = true -> xPendSV k' = true \/ xYieldPending k' = true;
  hd_pended : is_u 32 (xPendedTicks k) -> is_u 32 (xPendedTicks k');
}.
Lemma tcb_eta (x : TCB_t) : x = x <| ucDelayAborted := ucDelayAborted x |>.
Proof. by destruct x. Qed.
Lemma held_refl k : held k k.
Proof. split; auto. intros t. by destruct (tcb k t). Qed.
Lemma held_trans k1 k2 k3 : held k1 k2 -> held k2 k3 -> held k1 k3.
Proof.
  intros [] []. split; try congruence; auto.
  - intros t. rewrite hd_tcb1, hd_tcb0 at 1. by destruct (tcb k1 t).
  - intros t. destruct (hd_event1 t) as [->|]; [apply hd_event0|by right].
  - intros t H1 H2. apply hd_event_free1; [auto|congruence].
Qed.
#[export] Hint Resolve held_refl : kern.

Section strictness.
Context {stc : Strict}.
(** Only the flags and the pended ticks differ. *)
Lemma held_flags k y p n :
  (xPendSV k = true \/ xYieldPending k = true -> p = true \/ y = true) -> (is_u 32 (xPendedTicks k) -> is_u 32 n) ->
  held k (k <| xYieldPending := y |> <| xPendSV := p |> <| xPendedTicks := n |>).
Proof. intros Hs Hn. split; auto. intros t. exact (tcb_eta (tcb k t)). Qed.

Lemma held_ready k k' t : held k k' -> ready k' t <-> ready k t.
Proof. intros H. unfold ready, priority. by rewrite (hd_state _ _ H), (hd_tcb _ _ H). Qed.
Lemma held_priority k k' t : held k k' -> priority k' t = priority k t.
Proof. intros H. unfold priority. by rewrite (hd_tcb _ _ H). Qed.
Lemma held_covered k k' : held k k' -> covered k -> covered k'.
Proof.
  intros H. pose proof (hd_switch _ _ H). unfold covered, settled. rewrite (hd_current _ _ H).
  setoid_rewrite (held_ready _ _ _ H). setoid_rewrite (held_priority _ _ _ H). tauto.
Qed.

(** An event item goes to the pending list. *)
Lemma pend_event_ok k t k1 :
  wf None (xTickCount k) k -> blocked k t -> (k1 = k \/ listREMOVE_ITEM k (EventItem t) = Ok k1) ->
  container k1 (EventItem t) = None ->
  wf None (xTickCount k) (listINSERT_END k1 PendingReadyList (EventItem t)) /\
  moved k (listINSERT_END k1 PendingReadyList (EventItem t)) t (container k (StateItem t)) (Some PendingReadyList).
Proof.
  intros W Hb Hk1 Hf.
  assert (wf None (xTickCount k) k1 /\ blocked k1 t /\ moved k k1 t (container k (StateItem t)) (container k1 (EventItem t))) as (W1 & Hb1 & M1).
  { destruct Hk1 as [->|E].
    - split_and!; [done..|]. split; [apply frame_refl| | |done]; intros u; destruct (decide (t = u)) as [<-|]; done.
    - destruct (container k (EventItem t)) as [l|] eqn:Hc.
      + destruct (remove_item_ok k _ _ (wf_store _ _ _ W) Hc) as (st1 & E1 & R1). rewrite E in E1. injection E1 as ->.
        pose proof (moved_removed _ _ _ R1) as M. cbn [owner] in M. rewrite Hf. split; [by apply (wf_remove _ _ _ _ _ W R1)|].
        split; [|done]. unfold blocked in *. by rewrite (mv_state _ _ _ _ _ M), decide_True.
      + unfold listREMOVE_ITEM, seq_remove in E. unfold container in Hc. by rewrite Hc in E. }
  pose proof (seq_insert_end_inserted (kst k1) PendingReadyList (EventItem t) (wf_store _ _ _ W1) Hf) as R.
  pose proof (moved_inserted k1 _ _ _ R) as M. cbn [owner] in M. unfold listINSERT_END. split.
  - pose proof (delayed_list_cases _ _ _ PendingReadyList W1) as Hd.
    apply (wf_insert _ _ _ _ _ _ W1 R Hf); try (intros E; destruct Hd; auto; congruence). done.
  - rewrite (mv_state _ _ _ _ _ M1), decide_True in M by done. by eapply moved_trans.
Qed.

Lemma held_moved k k' t :
  moved k k' t (container k (StateItem t)) (Some PendingReadyList) ->
  container k (EventItem t) <> None \/ container k (StateItem t) = Some SuspendedTaskList -> held k k'.
Proof.
  intros [[] S E V] Hx. split; try done; try congruence.
  - intros u. rewrite S. by destruct (decide (t = u)) as [<-|].
  - intros u. rewrite E. destruct (decide (t = u)); auto.
  - intros u H1 H2. rewrite E. destruct (decide (t = u)) as [<-|]; [|done]. destruct Hx; congruence.
Qed.

(** The first task waiting for an event. *)
Lemma event_head now k e :
  wf None now k -> listLIST_IS_EMPTY k (EventList e) = false ->
  exists t l, head_owner k (EventList e) = Some t /\ container k (EventItem t) = Some (EventList e) /\
    container k (StateItem t) = Some l /\ blocked k t.
Proof.
  intros W. unfold listLIST_IS_EMPTY, seq_empty, head_owner, seq_head. intros Hne%bool_decide_eq_false.
  destruct (on (kst k) (EventList e)) as [|i xs] eqn:E; [done|]. exists (owner i).
  assert (container k i = Some (EventList e)) as Hi.
  { apply (tasks_on_iff _ _ _ _ _ W). unfold tasks_on. rewrite E. set_solver. }
  destruct i as [t|t]; [by apply (wf_state _ _ _ W) in Hi|]. cbn [owner].
  destruct (wf_event _ _ _ W t _ Hi) as [_ Hb]. specialize (Hb ltac:(done)). pose proof Hb as Hb'.
  unfold blocked in Hb. destruct (container k (StateItem t)) as [l|] eqn:El; [|done]. by exists l.
Qed.

Lemma held_wf_flags k k' y p :
  wf None (xTickCount k) k' -> held k k' -> (xPendSV k' = true \/ xYieldPending k' = true -> p = true \/ y = true) ->
  wf None (xTickCount k) (k' <| xYieldPending := y |> <| xPendSV := p |>) /\
  held k (k' <| xYieldPending := y |> <| xPendSV := p |>).
Proof.
  intros W H Hs. split; [by apply wf_pendsv, wf_yield_pending|]. eapply held_trans; [exact H|].
  exact (held_flags k' y p (xPendedTicks k') Hs (fun h => h)).
Qed.

(** A task leaves an event list for the pending list. *)
Lemma remove_held k e c :
  wf None (xTickCount k) k -> pxCurrentTCB k = Some c -> uxSchedulerSuspended k <> 0 ->
  listLIST_IS_EMPTY k (EventList e) = false ->
  exists k' b, xTaskRemoveFromEventList k e = Ok (k', b) /\ wf None (xTickCount k) k' /\ held k k' /\
    xPendedTicks k' = xPendedTicks k /\ (b = true -> xYieldPending k' = true).
Proof.
  intros W Hc Hs%Z.eqb_neq Hl. destruct (event_head _ _ _ W Hl) as (t & l & Hh & He & Hst & Hb).
  unfold xTaskRemoveFromEventList. rewrite Hh. destruct (remove_item_ok k _ _ (wf_store _ _ _ W) He) as (st1 & E1 & R1).
  rewrite E1. cbn [res_bind]. rsimpl. rewrite Hs. cbn [res_bind]. pose proof (moved_removed _ _ _ R1) as M1.
  destruct (pend_event_ok k t _ W Hb (or_intror E1)) as [W2 M2]; [by rewrite (mv_event _ _ _ _ _ M1), decide_True|].
  pose proof (held_moved _ _ _ M2 ltac:(left; congruence)) as H2. set (k2 := listINSERT_END _ _ _) in *.
  unfold current. rewrite (hd_current _ _ H2), Hc. cbn [res_bind]. clearbody k2.
  pose proof (fr_pended _ _ (mv_frame _ _ _ _ _ M2)) as D2.
  destruct (_ <? _); (eexists _, _; split; [done|]); [|done].
  destruct (held_wf_flags k k2 true (xPendSV k2) W2 H2) as [W3 H3]; [tauto|done].
Qed.

Lemma interrupt_held k i c :
  wf None (xTickCount k) k -> pxCurrentTCB k = Some c -> uxSchedulerSuspended k <> 0 ->
  exists k', run_interrupt k i = Ok k' /\ wf None (xTickCount k) k' /\ held k k' /\
    xPendedTicks k' = match i with SysTick => u32 (xPendedTicks k + 1) | _ => xPendedTicks k end.
Proof.
  intros W Hc Hs%Z.eqb_neq. destruct i as [| |e|t]; cbn [run_interrupt].
  - unfold xPortSysTickHandler, xTaskIncrementTick. rewrite Hs. cbn [res_bind]. eexists. split; [done|].
    split; [by apply wf_pended|]. split; [|done]. apply (held_flags k (xYieldPending k) (xPendSV k)); [done|].
    intros _. apply (u_range 32). lia.
  - destruct (xPendSV k) eqn:Hp; [|exists k; auto with kern]. unfold xPortPendSVHandler, vTaskSwitchContext. rsimpl.
    rewrite Hs. cbn [negb]. eexists. split; [done|]. split; [by apply wf_yield_pending, wf_pendsv|]. split; [|done].
    exact (held_flags k true false (xPendedTicks k) (fun _ => or_intror eq_refl) (fun h => h)).
  - destruct (listLIST_IS_EMPTY k (EventList e)) eqn:Hl; [exists k; auto with kern|]. apply Z.eqb_neq in Hs.
    destruct (remove_held k e c W Hc Hs Hl) as (k1 & b & -> & W1 & H1 & D1 & Hb). unfold yield_if. cbn [res_bind].
    eexists. split; [done|]. destruct b; [|done].
    destruct (held_wf_flags k k1 (xYieldPending k1) true W1 H1) as [W3 H3]; [by left|done].
  - unfold xTaskResumeFromISR, yield_if. destruct (prvTaskIsTaskSuspended k t) eqn:Ht; [|exists k; auto with kern].
    rewrite Hs. cbn [res_bind]. eexists. split; [done|].
    unfold prvTaskIsTaskSuspended, listIS_CONTAINED_WITHIN in Ht. apply andb_true_iff in Ht as [[Ht1%bool_decide_eq_true _]%andb_true_iff Ht2%bool_decide_eq_true].
    destruct (pend_event_ok k t k W) as [W2 M2]; [by unfold blocked; rewrite Ht1|by left|done|].
    split; [done|]. split; [|apply (mv_frame _ _ _ _ _ M2)]. eapply held_moved; [done|by right].
Qed.

(** The ticks among some interrupts. *)
Definition tick_of (i : interrupt) : Z := match i with SysTick => 1 | _ => 0 end.
Fixpoint ticks (ints : list interrupt) : Z :=
  match ints with [] => 0 | i :: rest => tick_of i + ticks rest end.
Lemma ticks_nonneg ints : 0 <= ticks ints.
Proof. induction ints as [|[] ints IH]; cbn [ticks tick_of]; lia. Qed.

Lemma interrupts_held ints k c :
  wf None (xTickCount k) k -> pxCurrentTCB k = Some c -> uxSchedulerSuspended k <> 0 -> is_u 32 (xPendedTicks k) ->
  exists k', run_interrupts ints k = Ok k' /\ wf None (xTickCount k) k' /\ held k k' /\
    xPendedTicks k' = u32 (xPendedTicks k + ticks ints).
Proof.
  revert k. induction ints as [|i ints IH]; intros k W Hc Hs Hu;
    [exists k; unfold run_interrupts; split_and!; auto with kern; change (ticks []) with 0; by rewrite Z.add_0_r, (u_small 32)|].
  unfold run_interrupts in *. cbn [res_fold]. destruct (interrupt_held k i c W Hc Hs) as (k1 & -> & W1 & H1 & D1). cbn [res_bind].
  rewrite <- (hd_tick _ _ H1) in W1. destruct (IH k1 W1) as (k2 & -> & W2 & H2 & D2).
  { by rewrite (hd_current _ _ H1). }
  { by rewrite (hd_suspended _ _ H1). }
  { by apply (hd_pended _ _ H1). }
  exists k2. split; [done|]. rewrite (hd_tick _ _ H1) in W2. split; [done|]. split; [by eapply held_trans|].
  rewrite D2, D1. destruct i; cbn [ticks tick_of]; [|f_equal; lia..]. unfold u32, u. rewrite Zplus_mod_idemp_l. f_equal. lia.
Qed.

Lemma inv_while_held idle k k' :
  inv idle k -> held k k' -> wf None (xTickCount k) k' -> uxSchedulerSuspended k <> 0 -> inv idle k'.
Proof.
  intros I H W Hs. destruct (inv_held _ _ I Hs) as (Hcov & c & Hc & Hr). pose proof (held_ready _ _ idle H). destruct I. destruct H.
  split; try congruence; auto; try tauto.
  - exists c. congruence.
  - split; [by apply hd_pended0, inv_pended0|congruence].
  - intros t. rewrite hd_tcb0. apply inv_base0.
  - intros _. split; [by apply (held_covered k)|]. exists c. split; [congruence|]. by apply (held_ready k).
Qed.

(** ** The choice of the task to run *)

Lemma ready_list_nonempty now k t : wf None now k -> ready k t -> tasks_on k (ReadyTasks (priority k t)) <> [].
Proof. intros W Hr%(tasks_on_iff _ _ _ _ _ W) E. rewrite E in Hr. set_solver. Qed.

Lemma highest_ready_ok k n q :
  0 <= q <= Z.of_nat n -> tasks_on k (ReadyTasks q) <> [] ->
  exists p, highest_ready k n = Ok p /\ tasks_on k (ReadyTasks p) <> [] /\ 0 <= p <= Z.of_nat n /\
    forall r, p < r <= Z.of_nat n -> tasks_on k (ReadyTasks r) = [].
Proof.
  revert q. induction n as [|n IH]; intros q Hq Hne; cbn [highest_ready]; unfold listLIST_IS_EMPTY, seq_empty.
  - replace q with 0 in Hne by lia. rewrite bool_decide_eq_false_2 by done. exists 0. split_and!; [done|done|lia|lia|]. intros; lia.
  - case_bool_decide as He.
    + destruct (IH q) as (p & E & Hp & Hr & Hz); [|done|].
      { destruct (decide (q = Z.of_nat (S n))) as [->|]; [done|lia]. }
      exists p. split_and!; [done..|lia|lia|]. intros r Hr'. destruct (decide (r = Z.of_nat (S n))) as [->|]; [done|apply Hz; lia].
    + exists (Z.of_nat (S n)). split_and!; [done..|lia|lia|]. intros; lia.
Qed.

(** Stepping the index of a list and lowering the highest ready priority. *)
Lemma wf_select now k st' c p :
  wf None now k -> store_ok st' -> (forall l, on st' l = on (kst k) l) -> (forall i, item st' i = item (kst k) i) ->
  0 <= p < configMAX_PRIORITIES -> (forall t, ready k t -> priority k t <= p) ->
  wf None now (k <| kst := st' |> <| pxCurrentTCB := c |> <| uxTopReadyPriority := p |>).
Proof.
  intros [H1 H2 H3 H4 H5 H6 H7 H8 H9 H10] Hok Hon Hit Hp Hmax. set (k' := _ <| uxTopReadyPriority := p |>).
  assert (forall j, container k' j = container k j) as Hc by (intros j; unfold container, k'; rsimpl; by rewrite Hit).
  assert (forall j, item_value k' j = item_value k j) as Hv by (intros j; unfold item_value, k'; rsimpl; by rewrite Hit).
  split; try done.
  - intros t l. rewrite Hc. intros Hl. specialize (H3 t l Hl). destruct l as [q| | | | | |]; try done. destruct H3 as [-> _].
    split; [done|]. change (priority k t <= p). by apply Hmax.
  - intros t l. rewrite Hc. intros Hl. destruct (H4 t l Hl) as [He Hb]. split; [done|]. intros Hx. unfold blocked. rewrite Hc. by apply Hb.
  - intros l Hl. unfold tasks_on, k'. rsimpl. rewrite Hon. apply (value_order_same k); [done|by apply H8].
  - intros t. rewrite Hc, Hv. apply H9.
  - intros t. rewrite Hc, Hv. apply H10.
Qed.

(** The scheduler chooses a ready task of the highest priority, whatever task was
    running; nothing else changes. *)
Lemma switch_ok k idle :
  wf None (xTickCount k) k -> ready k idle -> uxSchedulerSuspended k = 0 ->
  exists k' c, vTaskSwitchContext k = Ok k' /\ pxCurrentTCB k' = Some c /\ settled k' /\
    wf None (xTickCount k') k' /\ later (k <| pxCurrentTCB := Some c |>) k' /\ uxSchedulerSuspended k' = 0 /\
    xPendedTicks k' = xPendedTicks k /\ xYieldPending k' = false /\ xPendSV k' = xPendSV k.
Proof.
  intros W Hi Hs. unfold vTaskSwitchContext. rewrite Hs. cbn [Z.eqb negb]. unfold taskSELECT_HIGHEST_PRIORITY_TASK. rsimpl.
  set (k0 := k <| xYieldPending := false |>). assert (wf None (xTickCount k) k0) as W0 by (by apply wf_yield_pending).
  destruct (wf_top _ _ _ W) as [Ht0 Ht1]. pose proof (wf_state _ _ _ W idle _ Hi) as [_ Hitop].
  pose proof (wf_priority _ _ _ W idle) as Hip.
  destruct (highest_ready_ok k0 (Z.to_nat (uxTopReadyPriority k)) (priority k idle)) as (p & -> & Hne & Hp & Hz);
    [lia|by apply (ready_list_nonempty _ _ _ W0)|]. cbn [res_bind].
  destruct (seq_next_some (kst k0) (ReadyTasks p) Hne) as (i & st' & E). change (kst k0) with (kst k) in E. rewrite E.
  destruct (seq_next_same _ _ _ _ E) as (Hin & Hon & Hit & Hok). eexists _, (owner i). split; [done|].
  assert (i = StateItem (owner i) /\ container k (StateItem (owner i)) = Some (ReadyTasks p)) as [Ei Hci].
  { apply (tasks_on_iff _ _ _ _ _ W) in Hin. destruct i as [t|t]; [done|]. by apply (wf_event _ _ _ W) in Hin as [? _]. }
  pose proof (wf_state _ _ _ W _ _ Hci) as [Hpp _]. set (k' := _ <| uxTopReadyPriority := p |>).
  assert (forall j, container k' j = container k j) as Hc by (intros j; unfold container, k'; rsimpl; by rewrite Hit).
  assert (forall t, ready k t -> priority k t <= p) as Hmax.
  { intros t Ht. destruct (Z.le_gt_cases (priority k t) p); [done|]. pose proof (wf_state _ _ _ W t _ Ht) as [_ Htop].
    pose proof (wf_priority _ _ _ W t). exfalso. apply (ready_list_nonempty _ _ _ W Ht), Hz. lia. }
  split; [done|]. split_and!; try done.
  - exists (owner i). split; [done|]. unfold ready. rewrite Hc, Hci, Hpp. split; [done|]. intros _ t.
    rewrite Hc. change (priority k' t) with (priority k t). intros Ht. change (priority k' (owner i)) with (priority k (owner i)).
    rewrite <- Hpp. by apply Hmax.
  - apply wf_select; [done|by apply Hok, (wf_store _ _ _ W)|done..|lia|done].
  - split; try done.
    + intros t. exact (tcb_eta (tcb k t)).
    + intros t. left. apply Hc.
    + intros t. left. apply Hc.
    + intros j. unfold item_value, k'. rsimpl. by rewrite Hit.
Qed.

(** ** A task becomes ready *)

Lemma later_moved k k' t : moved k k' t (Some (ReadyTasks (priority k t))) None -> later k k'.
Proof.
  intros M. apply (later_woken (fun u => bool_decide (t = u))). destruct M as [F S E V]. split; try done.
  - intros u. rewrite S. case_bool_decide as Hu; [subst; by rewrite decide_True|by rewrite decide_False].
  - intros u. rewrite E. case_bool_decide as Hu; [subst; by rewrite decide_True|by rewrite decide_False].
Qed.
Lemma settled_moved k k' t c :
  moved k k' t (Some (ReadyTasks (priority k t))) None -> settled k -> pxCurrentTCB k = Some c ->
  priority k t <= priority k c -> settled k'.
Proof.
  intros M Hset Hc Hp. apply (settled_later k k' c); [by apply (later_moved _ _ t)|done..|].
  intros u Hu. unfold ready in Hu. rewrite (mv_state _ _ _ _ _ M) in Hu. destruct (decide (t = u)) as [<-|]; [by right|left].
  unfold ready. by rewrite Hu, (frame_priority _ _ _ (mv_frame _ _ _ _ _ M)).
Qed.

Lemma later_flags k k' y p : later k k' -> (xPendSV k' = true -> p = true) -> later k (k' <| xYieldPending := y |> <| xPendSV := p |>).
Proof. intros L Hp. eapply later_trans; [exact L|]. by apply later_same. Qed.
Lemma inv_flags idle k y p : inv idle k -> (xPendSV k = true -> p = true) -> (xYieldPending k = true -> y = true) ->
  inv idle (k <| xYieldPending := y |> <| xPendSV := p |>).
Proof.
  intros [] Hp Hy. split; try done.
  - by apply wf_pendsv, wf_yield_pending.
  - intros Hs. destruct (inv_switch0 Hs) as [?|?]; [left; by apply Hp|by right].
  - intros Hs. destruct (inv_held0 Hs) as [[?|[?|?]] Hc]; (split; [|done]).
    + left. by apply Hp.
    + right. left. by apply Hy.
    + by right; right.
Qed.

(** The task [t] becomes ready, and a switch is requested if it has a higher
    priority than the running task. *)
Lemma inv_wakes idle k k' t c (y : bool) :
  inv idle k -> pxCurrentTCB k = Some c ->
  moved k k' t (Some (ReadyTasks (priority k t))) None -> wf None (xTickCount k) k' ->
  (priority k c < priority k t -> y = true) ->
  inv idle (if y then portYIELD k' else k').
Proof.
  intros I Hc M W Hy. pose proof (later_moved _ _ _ M) as L. pose proof (inv_covered _ _ I) as Hcov.
  assert (settled k -> y = true \/ settled k') as Hset.
  { intros Hset. destruct y; [by left|right]. apply (settled_moved k k' t c); try done.
    destruct (Z.le_gt_cases (priority k t) (priority k c)) as [|Hgt]; [done|]. by apply Hy in Hgt. }
  rewrite <- (fr_tick _ _ (mv_frame _ _ _ _ _ M)) in W. destruct (mv_frame _ _ _ _ _ M).
  set (k2 := if y then portYIELD k' else k').
  assert (wf None (xTickCount k2) k2 /\ later k k2 /\ (y = true \/ xPendSV k = true -> xPendSV k2 = true) /\ (settled k' -> settled k2) /\
    uxSchedulerSuspended k2 = uxSchedulerSuspended k /\ xPendedTicks k2 = xPendedTicks k /\ xYieldPending k2 = xYieldPending k)
    as (W2 & L2 & P2 & S2 & Hs2 & D2 & Y2).
  { unfold k2. destruct y; split_and!; try done; try congruence; [by apply wf_pendsv|by apply (later_flags k k' (xYieldPending k') true)|].
    rewrite fr_pendsv0. naive_solver. }
  clearbody k2. destruct I. split; try congruence.
  - by rewrite (lt_current _ _ L2).
  - by rewrite (lt_number _ _ L2).
  - by rewrite (lt_running _ _ L2).
  - by apply (later_ready k).
  - intros u. rewrite (lt_tcb _ _ L2). apply inv_base0.
  - rewrite Hs2. intros Hs. by apply (later_pending k); [|apply inv_pending0].
  - rewrite Hs2. intros Hs. destruct (inv_switch0 Hs) as [?|Hk]; [left; auto|]. destruct (Hset Hk); auto.
  - rewrite Hs2. intros Hs. destruct (inv_held0 Hs) as [_ (c' & Hc' & Hr)]. split.
    + unfold covered. rewrite Y2. destruct Hcov as [?|[?|Hk]]; [left; auto|by right; left|]. destruct (Hset Hk); auto.
    + exists c'. rewrite (lt_current _ _ L2). split; [done|]. by apply (later_ready k).
Qed.

Lemma signal_inv idle k e :
  inv idle k -> uxSchedulerSuspended k = 0 -> listLIST_IS_EMPTY k (EventList e) = false ->
  exists k', yield_if (xTaskRemoveFromEventList k e) = Ok k' /\ inv idle k'.
Proof.
  intros I Hs Hl. pose proof (inv_wf _ _ I) as W. destruct (inv_current _ _ I) as [c Hc].
  destruct (event_head _ _ _ W Hl) as (t & l & Hh & He & Hst & _).
  destruct (event_wake_ok _ k t l _ W Hst He) as (k1 & k2 & E1 & E2 & M1 & _ & W3 & M).
  unfold xTaskRemoveFromEventList. rewrite Hh, E1. cbn [res_bind]. rewrite (fr_suspended _ _ (mv_frame _ _ _ _ _ M1)), Hs.
  cbn [Z.eqb]. rewrite E2. cbn [res_bind]. unfold current. destruct (mv_frame _ _ _ _ _ M). rewrite fr_current0, Hc. cbn [res_bind].
  set (k3 := prvAddTaskToReadyList k2 t) in *. clearbody k3. rewrite !(frame_priority k k3) by apply M.
  pose proof (inv_wakes idle k k3 t c (priority k c <? priority k t) I Hc M W3 ltac:(by intros ?%Z.ltb_lt)) as I'.
  unfold yield_if. destruct (priority k c <? priority k t); cbn [res_bind]; (eexists; split; [done|]); [|done].
  exact (inv_flags _ _ true true I' (fun _ => eq_refl) (fun _ => eq_refl)).
Qed.

(** A task that is on no event list goes to the end of its ready list. *)
Lemma requeue_ok now k t l :
  wf None now k -> container k (StateItem t) = Some l -> container k (EventItem t) = None ->
  exists k1, listREMOVE_ITEM k (StateItem t) = Ok k1 /\ wf None now k1 /\ moved k k1 t None None /\
    wf None now (prvAddTaskToReadyList k1 t) /\
    moved k (prvAddTaskToReadyList k1 t) t (Some (ReadyTasks (priority k t))) None.
Proof.
  intros W Hs He. destruct (remove_item_ok k _ _ (wf_store _ _ _ W) Hs) as (st1 & E1 & R1).
  pose proof (moved_removed k _ _ R1) as M1. cbn [owner] in M1. rewrite He in M1.
  assert (wf None now (k <| kst := st1 |>)) as W1.
  { apply (wf_remove _ _ _ _ _ W R1). intros u [= <-]. by right. }
  set (k1 := k <| kst := st1 |>) in *. clearbody k1. exists k1. split; [done|]. split; [done|]. split; [done|].
  destruct (add_ready_ok None now k1 t W1) as [W2 M2];
    [by rewrite (mv_state _ _ _ _ _ M1), decide_True|intros _; by rewrite (mv_event _ _ _ _ _ M1), decide_True|].
  rewrite (frame_priority k k1 t (mv_frame _ _ _ _ _ M1)), (mv_event _ _ _ _ _ M1), decide_True in M2 by done.
  split; [done|]. by eapply moved_trans.
Qed.

Lemma suspended_iff k t :
  prvTaskIsTaskSuspended k t = true -> container k (StateItem t) = Some SuspendedTaskList /\ container k (EventItem t) = None.
Proof.
  unfold prvTaskIsTaskSuspended, listIS_CONTAINED_WITHIN.
  by intros [[Ht1%bool_decide_eq_true _]%andb_true_iff Ht2%bool_decide_eq_true]%andb_true_iff.
Qed.

Lemma resume_isr_inv idle k t :
  inv idle k -> uxSchedulerSuspended k = 0 -> exists k', yield_if (xTaskResumeFromISR k t) = Ok k' /\ inv idle k'.
Proof.
  intros I Hs. unfold xTaskResumeFromISR, yield_if. destruct (prvTaskIsTaskSuspended k t) eqn:Ht; [|by exists k].
  rewrite Hs. cbn [Z.eqb]. destruct (suspended_iff _ _ Ht) as [Ht1 Ht2]. destruct (inv_current _ _ I) as [c Hc].
  unfold current. rewrite Hc. cbn [res_bind]. set (b := priority k c <=? priority k t).
  set (k0 := if b then _ else k). assert (k0 = k <| xYieldPending := (if b then true else xYieldPending k) |> <| xPendSV := xPendSV k |>) as E0
    by (unfold k0; destruct b; [done|by destruct k]).
  assert (inv idle k0) as I0.
  { rewrite E0. apply inv_flags; [done..|]. by destruct b; [|destruct (xYieldPending k)]. }
  assert (container k0 = container k /\ priority k0 = priority k /\ uxSchedulerSuspended k0 = 0 /\ pxCurrentTCB k0 = Some c)
    as (C0 & P0 & S0 & Hc0) by (by rewrite E0).
  clearbody k0. destruct (requeue_ok _ k0 t SuspendedTaskList (inv_wf _ _ I0)) as (k1 & -> & _ & _ & W2 & M2); [by rewrite C0..|].
  cbn [res_bind]. eexists. split; [done|]. apply (inv_wakes idle k0 _ t c b); try done.
  rewrite P0. unfold b. intros Hlt. apply Z.leb_le. lia.
Qed.

Lemma systick_inv idle k :
  inv idle k -> uxSchedulerSuspended k = 0 -> exists k', xPortSysTickHandler k = Ok k' /\ inv idle k'.
Proof.
  intros I Hs. destruct (inv_current _ _ I) as [c Hc]. pose proof (inv_wf _ _ I) as W.
  unfold xPortSysTickHandler. destruct (tick_ok k c W Hc Hs) as (k1 & sw & E & _). rewrite E. cbn [res_bind].
  destruct (tick_later k c k1 sw W Hc Hs E) as (L & W1 & S1 & Y1 & D1 & P1 & T1 & C1). eexists. split; [done|].
  destruct sw; [|apply (inv_later idle k); try done; destruct (C1 (inv_covered _ _ I)) as [?|[?|?]]; auto; done].
  apply (inv_later idle k); try done; [|by apply wf_pendsv|by left].
  exact (later_flags k k1 (xYieldPending k1) true L (fun _ => eq_refl)).
Qed.

Lemma pendsv_inv idle k :
  inv idle k -> uxSchedulerSuspended k = 0 -> exists k', xPortPendSVHandler k = Ok k' /\ inv idle k' /\ settled k' /\ xPendSV k' = false.
Proof.
  intros I Hs. unfold xPortPendSVHandler.
  destruct (switch_ok (k <| xPendSV := false |>) idle) as (k' & c & E & Hc & Hset & W & L & S & D & Y & P);
    [apply wf_pendsv, (inv_wf _ _ I)|apply (inv_idle _ _ I)|done|].
  exists k'. split; [done|]. split; [|done]. destruct I. split; try done.
  - by exists c.
  - by rewrite (lt_number _ _ L).
  - by rewrite (lt_running _ _ L).
  - by rewrite S.
  - rewrite D, S. split; [apply inv_pended0|]. intros _. by apply inv_pended0.
  - by apply (later_ready _ _ _ L).
  - intros t. rewrite (lt_tcb _ _ L). apply inv_base0.
  - intros _. apply (later_pending _ _ L). by apply inv_pending0.
  - intros _. by right.
Qed.

(** No interrupt faults, and all keep the invariant. *)
Lemma interrupt_inv idle k i : inv idle k -> exists k', run_interrupt k i = Ok k' /\ inv idle k'.
Proof.
  intros I. destruct (decide (uxSchedulerSuspended k = 0)) as [Hs|Hs].
  - destruct i as [| |e|t]; cbn [run_interrupt].
    + by apply systick_inv.
    + destruct (xPendSV k); [|by exists k]. destruct (pendsv_inv idle k I Hs) as (k' & ? & ? & _). by exists k'.
    + destruct (listLIST_IS_EMPTY k (EventList e)) eqn:El; [by exists k|]. by apply signal_inv.
    + by apply resume_isr_inv.
  - destruct (inv_current _ _ I) as [c Hc]. destruct (interrupt_held k i c (inv_wf _ _ I) Hc Hs) as (k' & E & W & H & _).
    exists k'. split; [done|]. by apply (inv_while_held idle k).
Qed.
End strictness.
End RtosSchedProps.
