(* ===== verification/RtosRun.v ===== *)
(** * The calls of the running task

    The kernel functions a task calls, with the interrupts that can come between
    their steps, and the machine of calls and interrupts. *)

From Stdlib Require Import Sorting.Sorted.
From S2P Require Import Prelude RtosList RtosSeq RtosSched RtosSchedInv RtosTick RtosSchedProps.
From stdpp Require Import list.
#[local] Set Warnings "-clear-no-such-hyp".
#[local] Open Scope Z_scope.

Module RtosRun.
Export RtosSchedProps.

(** ** Calls *)

Inductive call :=
  | SuspendAll
  | ResumeAll
  | Delay (n : Z) (before after : list interrupt)
  | DelayUntil (last inc : Z) (before after : list interrupt)
  | WaitEvent (e n : Z) (before after : list interrupt)
  | SignalEvent (e : Z)
  | PrioritySet (t p : Z)
  | Suspend (t : Z)
  | Resume (t : Z)
  | AbortDelay (t : Z) (before after : list interrupt)
  | Inherit (t : Z)
  | Disinherit (e : Z)
  | HoldMutex.

(** The wait for an event as the queue functions do it. *)
Definition wait_event (isr1 isr2 : kernel -> res kernel) (k : kernel) (e n : Z) : res kernel :=
  let! k := isr1 (vTaskSuspendAll k) in
  let! k := vTaskPlaceOnEventList k e n in
  let! k := isr2 k in
  let! '(k, xAlreadyYielded) := xTaskResumeAll k in
  Ok (if xAlreadyYielded : bool then k else portYIELD k).

(** The give of a mutex as xQueueGenericSend does it: the caller gives up the priority
    it inherited, and if a task waits for the mutex (event [e]) only the wake-up of
    that task decides about a switch. *)
Definition give_mutex (k : kernel) (e : Z) : res kernel :=
  let! '(k, xYieldRequired) := xTaskPriorityDisinherit k (pxCurrentTCB k) in
  if negb (listLIST_IS_EMPTY k (EventList e)) then yield_if (xTaskRemoveFromEventList k e)
  else Ok (if xYieldRequired : bool then portYIELD k else k).
(** The switch that the lost priority asks for is dropped: a task waits, and does not
    itself ask for one. *)
Definition drops_switch (k : kernel) (e : Z) : bool :=
  match xTaskPriorityDisinherit k (pxCurrentTCB k) with
  | Ok (k', true) => negb (listLIST_IS_EMPTY k' (EventList e)) &&
                     match xTaskRemoveFromEventList k' e with Ok (_, false) => true | _ => false end
  | _ => false
  end.

Definition run_call (k : kernel) (c : call) : res kernel :=
  match c with
  | SuspendAll => Ok (vTaskSuspendAll k)
  | ResumeAll => let! '(k, _) := xTaskResumeAll k in Ok k
  | Delay n i1 i2 => vTaskDelay (run_interrupts i1) (run_interrupts i2) k n
  | DelayUntil last inc i1 i2 => let! '(k, _, _) := xTaskDelayUntil (run_interrupts i1) (run_interrupts i2) k last inc in Ok k
  | WaitEvent e n i1 i2 => wait_event (run_interrupts i1) (run_interrupts i2) k e n
  | SignalEvent e => run_interrupt k (Signal e)
  | PrioritySet t p => vTaskPrioritySet k (Some t) p
  | Suspend t => vTaskSuspend k (Some t)
  | Resume t => vTaskResume k t
  | AbortDelay t i1 i2 => let! '(k, _) := xTaskAbortDelay (run_interrupts i1) (run_interrupts i2) k t in Ok k
  | Inherit t => let! '(k, _) := xTaskPriorityInherit k (Some t) in Ok k
  | Disinherit e => give_mutex k e
  | HoldMutex => Ok (pvTaskIncrementMutexHeldCount k).1
  end.

(** What a task may call: not what blocks the idle task, and nothing that blocks
    while the scheduler is suspended. *)
Definition may_call (idle : Z) (k : kernel) (c : call) : Prop :=
  match c with
  | SuspendAll => uxSchedulerSuspended k < 2 ^ 32 - 1
  | ResumeAll => uxSchedulerSuspended k <> 0
  | Delay n _ _ => 0 <= n < 2 ^ 32 /\ uxSchedulerSuspended k = 0 /\ pxCurrentTCB k <> Some idle
  | DelayUntil _ inc _ _ => 0 < inc /\ uxSchedulerSuspended k = 0 /\ pxCurrentTCB k <> Some idle
  | WaitEvent _ n _ _ => 0 < n < 2 ^ 32 /\ uxSchedulerSuspended k = 0 /\ pxCurrentTCB k <> Some idle
  | SignalEvent _ | Resume _ => True
  | PrioritySet _ p => 0 <= p < configMAX_PRIORITIES
  | Suspend t => t <> idle /\ container k (StateItem t) <> None /\
                 (pxCurrentTCB k = Some t -> uxSchedulerSuspended k = 0)
  | AbortDelay _ _ _ => uxSchedulerSuspended k = 0
  | Inherit t => True
  | Disinherit _ => forall c, pxCurrentTCB k = Some c -> uxMutexesHeld (tcb k c) <> 0
  | HoldMutex => True
  end.

(** ** Suspending the scheduler *)

Lemma ready_no_event now k t : wf None now k -> ready k t -> container k (EventItem t) = None.
Proof.
  intros W Hr. destruct (container k (EventItem t)) as [l|] eqn:E; [|done].
  apply (wf_event _ _ _ W) in E as [_ Hb]. specialize (Hb ltac:(done)). unfold blocked in Hb. by rewrite Hr in Hb.
Qed.

Section strictness.
Context {stc : Strict}.

Lemma suspend_all_inv idle k :
  inv idle k -> xPendSV k = false -> uxSchedulerSuspended k < 2 ^ 32 - 1 -> inv idle (vTaskSuspendAll k).
Proof.
  intros I Hp Hlt. destruct (inv_current _ _ I) as [c Hc]. pose proof (running_ready _ _ _ I Hp Hc) as Hr.
  pose proof (inv_covered _ _ I) as Hcov. destruct (inv_suspended _ _ I) as [H0 _].
  assert (u32 (uxSchedulerSuspended k + 1) = uxSchedulerSuspended k + 1) as E by (apply (u_small 32); unfold is_u; lia).
  unfold vTaskSuspendAll. rewrite E. destruct I. split; try done.
  - by apply wf_suspended.
  - unfold is_u. cbn. lia.
  - split; [apply inv_pended0|]. cbn. lia.
  - cbn. lia.
  - cbn. lia.
  - intros _. split; [done|]. by exists c.
Qed.

(** The last step of the calls that suspend the scheduler: whatever the task did,
    resuming and, if that did not request a switch, requesting one keeps the
    invariant. *)
Lemma resume_inv idle k c :
  wf None (xTickCount k) k -> pxCurrentTCB k = Some c -> uxSchedulerSuspended k = 1 -> 0 < uxCurrentNumberOfTasks k ->
  xSchedulerRunning k = true -> 0 <= xPendedTicks k -> ready k idle ->
  (forall t, 0 <= uxBasePriority (tcb k t) < configMAX_PRIORITIES) ->
  exists k' b, xTaskResumeAll k = Ok (k', b) /\ later k k' /\ inv idle (if b : bool then k' else portYIELD k') /\
    (covered k -> inv idle k').
Proof.
  intros W Hc Hs Hn Hr Hp Hi Hb.
  destruct (resume_all_ok k c W Hc Hs Hn Hp) as (k' & b & E & W' & L & S' & P' & T' & D' & B' & C').
  exists k', b. split; [done|]. split; [done|].
  assert (forall k2, kst k2 = kst k' -> tcbs k2 = tcbs k' -> wf None (xTickCount k2) k2 -> later k k2 -> uxSchedulerSuspended k2 = 0 ->
    xPendedTicks k2 = 0 -> (xPendSV k2 = true \/ settled k2) -> inv idle k2) as Hinv.
  { intros k2 K2 T2 W2 L2 S2 D2 C2. split; try done.
    - exists c. by rewrite (lt_current _ _ L2).
    - by rewrite (lt_number _ _ L2).
    - by rewrite (lt_running _ _ L2).
    - by rewrite S2.
    - by rewrite D2.
    - by apply (later_ready _ _ _ L2).
    - intros t. rewrite (lt_tcb _ _ L2). apply Hb.
    - intros _ t. unfold pending, container. rewrite K2. apply P'. }
  split; [|intros Hcov; apply Hinv; auto].
  destruct b; [apply Hinv; auto|]. apply Hinv; try done; [by apply wf_pendsv| |by left].
  exact (later_flags k k' (xYieldPending k') true L (fun _ => eq_refl)).
Qed.

Lemma resume_all_inv idle k :
  inv idle k -> xPendSV k = false -> uxSchedulerSuspended k <> 0 ->
  exists k' b, xTaskResumeAll k = Ok (k', b) /\ inv idle k'.
Proof.
  intros I Hp Hs. destruct (inv_current _ _ I) as [c Hc]. pose proof (inv_covered _ _ I) as Hcov.
  destruct (decide (uxSchedulerSuspended k = 1)) as [H1|H1].
  - destruct (resume_inv idle k c) as (k' & b & E & _ & _ & I'); [apply (inv_wf _ _ I)|done|done|apply (inv_number _ _ I)|apply (inv_running _ _ I)|apply (inv_pended _ _ I)|apply (inv_idle _ _ I)|apply (inv_base _ _ I)|].
    exists k', b. split; [done|]. by apply I'.
  - destruct (inv_suspended _ _ I) as [H0 H2].
    assert (u32 (uxSchedulerSuspended k - 1) = uxSchedulerSuspended k - 1) as E by (apply (u_small 32); unfold is_u; lia).
    unfold xTaskResumeAll. rewrite (proj2 (Z.eqb_neq _ 0) Hs). cbn [negb assert res_bind]. rsimpl. rewrite E.
    rewrite (proj2 (Z.eqb_neq (uxSchedulerSuspended k - 1) 0)) by lia. cbn [andb]. eexists _, _. split; [done|].
    destruct (inv_held _ _ I Hs) as [_ Hr]. destruct I. split; try done.
    + by apply wf_suspended.
    + unfold is_u. cbn. lia.
    + split; [apply inv_pended0|]. cbn. lia.
    + cbn. lia.
    + cbn. lia.
Qed.

(** ** Calls that block *)

(** The state in which the body of such a call runs. *)
Record body_state (idle : Z) (k : kernel) (c : Z) : Prop := {
  bs_wf : wf None (xTickCount k) k;
  bs_current : pxCurrentTCB k = Some c;
  bs_suspended : uxSchedulerSuspended k = 1;
  bs_number : 0 < uxCurrentNumberOfTasks k;
  bs_running : xSchedulerRunning k = true;
  bs_pended : is_u 32 (xPendedTicks k);
  bs_idle : ready k idle;
  bs_base t : 0 <= uxBasePriority (tcb k t) < configMAX_PRIORITIES;
}.
Lemma body_held idle k k' c : body_state idle k c -> held k k' -> wf None (xTickCount k) k' -> body_state idle k' c.
Proof.
  intros [] H W. pose proof (held_ready _ _ idle H). destruct H. split; try congruence; auto; [tauto|].
  intros t. rewrite hd_tcb0. apply bs_base0.
Qed.

Lemma enter_body idle k c ints :
  inv idle k -> xPendSV k = false -> uxSchedulerSuspended k = 0 -> pxCurrentTCB k = Some c ->
  exists k', run_interrupts ints (vTaskSuspendAll k) = Ok k' /\ body_state idle k' c /\ ready k' c /\ covered k' /\
    held (vTaskSuspendAll k) k' /\ xPendedTicks k' = u32 (ticks ints).
Proof.
  intros I Hp Hs Hc. assert (inv idle (vTaskSuspendAll k)) as I1 by (apply suspend_all_inv; [done|done|lia]).
  assert (uxSchedulerSuspended (vTaskSuspendAll k) = 1) as S1 by (unfold vTaskSuspendAll; rsimpl; by rewrite Hs).
  set (k1 := vTaskSuspendAll k) in *. assert (pxCurrentTCB k1 = Some c) as Hc1 by done.
  assert (xPendedTicks k1 = 0) as D1 by (by apply (inv_pended _ _ I)). clearbody k1.
  destruct (interrupts_held ints k1 c (inv_wf _ _ I1) Hc1) as (k2 & E & W2 & H2 & D2); [lia|by rewrite D1|]. rewrite D1 in D2.
  exists k2. split; [done|]. destruct (inv_held _ _ I1) as (Hcov & c' & Hc' & Hr); [lia|].
  assert (c' = c) as -> by congruence. destruct I1. split; [|split; [by apply (held_ready k1)|split; [by apply (held_covered k1)|done]]].
  apply (body_held idle k1); [|done..]. split; try done. apply inv_pended0.
Qed.

Lemma leave_body idle k c ints :
  body_state idle k c ->
  exists k2 k' b, run_interrupts ints k = Ok k2 /\ held k k2 /\ xTaskResumeAll k2 = Ok (k', b) /\ later k2 k' /\
    inv idle (if b : bool then k' else portYIELD k') /\ (covered k -> inv idle k') /\
    xPendedTicks k2 = u32 (xPendedTicks k + ticks ints).
Proof.
  intros B. destruct (interrupts_held ints k c) as (k2 & E & W2 & H2 & D2); [apply B..|rewrite (bs_suspended _ _ _ B); lia|apply B|].
  pose proof (body_held _ _ _ _ B H2 W2) as [].
  destruct (resume_inv idle k2 c) as (k' & b & E2 & L2 & I2 & C2); [done..|apply bs_pended0|done|done|].
  exists k2, k', b. split_and!; [done..| |done]. intros Hcov. by apply C2, (held_covered k).
Qed.

Lemma waits_body idle k k' c l v :
  body_state idle k c -> waits k k' c l v -> wf None (xTickCount k) k' -> c <> idle -> body_state idle k' c.
Proof.
  intros [] [F S E V] W Hne. destruct F. split; try congruence.
  - unfold ready. rewrite S, decide_False by congruence. unfold priority. by rewrite fr_tcb0.
  - intros t. rewrite fr_tcb0. apply bs_base0.
Qed.

Lemma delay_inv idle k c n i1 i2 :
  inv idle k -> xPendSV k = false -> uxSchedulerSuspended k = 0 -> pxCurrentTCB k = Some c -> c <> idle -> 0 <= n < 2 ^ 32 ->
  exists k', vTaskDelay (run_interrupts i1) (run_interrupts i2) k n = Ok k' /\ inv idle k'.
Proof.
  intros I Hp Hs Hc Hne Hn. unfold vTaskDelay. destruct (Z.ltb_spec 0 n).
  - rewrite Hs. cbn [Z.eqb assert res_bind]. destruct (enter_body idle k c i1 I Hp Hs Hc) as (k1 & -> & B1 & R1 & _). cbn [res_bind].
    destruct (block_ok None k1 c _ n false (bs_wf _ _ _ B1) (bs_current _ _ _ B1) R1) as (k2 & -> & W2 & Wt);
      [right; by apply (ready_no_event _ _ _ (bs_wf _ _ _ B1))|lia|]. cbn [res_bind].
    pose proof (waits_body _ _ _ _ _ _ B1 Wt W2 Hne) as B2.
    destruct (leave_body idle k2 c i2 B2) as (k3 & k' & b & -> & _ & E3 & _ & I' & _). cbn [res_bind]. rewrite E3. cbn [res_bind].
    eexists. split; [done|]. done.
  - cbn [res_bind]. eexists. split; [done|]. exact (inv_flags idle k (xYieldPending k) true I (fun _ => eq_refl) (fun h => h)).
Qed.

Lemma should_delay_pos tick last wake : is_u 32 tick -> is_u 32 wake -> should_delay tick last wake = true -> 0 < u32 (wake - tick) < 2 ^ 32.
Proof.
  unfold is_u, should_delay. intros Ht Hw H. assert (wake <> tick) as Hne.
  { intros ->. destruct (Z.ltb_spec tick last); [apply andb_true_iff in H as [_ H]|apply orb_true_iff in H as [H|H]]; lia. }
  unfold u32, u. destruct (Z.ltb_spec wake tick); [rewrite <- (Z.mod_unique (wake - tick) (2 ^ 32) (-1) (wake - tick + 2 ^ 32)); lia|].
  rewrite Z.mod_small; lia.
Qed.
Lemma delay_until_inv idle k c last inc i1 i2 :
  inv idle k -> xPendSV k = false -> uxSchedulerSuspended k = 0 -> pxCurrentTCB k = Some c -> c <> idle -> 0 < inc ->
  exists k' b, xTaskDelayUntil (run_interrupts i1) (run_interrupts i2) k last inc = Ok (k', u32 (last + inc), b) /\ inv idle k'.
Proof.
  intros I Hp Hs Hc Hne Hinc. unfold xTaskDelayUntil. rewrite (proj2 (Z.ltb_lt 0 inc) Hinc), Hs. cbn [Z.eqb assert res_bind].
  destruct (enter_body idle k c i1 I Hp Hs Hc) as (k1 & -> & B1 & R1 & _). cbn [res_bind]. set (wake := u32 (last + inc)).
  assert (exists k2, (if should_delay (xTickCount k1) last wake then prvAddCurrentTaskToDelayedList k1 (u32 (wake - xTickCount k1)) false else Ok k1) = Ok k2 /\
    body_state idle k2 c) as (k2 & E2 & B2).
  { destruct (should_delay _ _ _) eqn:Hd; [|by exists k1]. pose proof (bs_wf _ _ _ B1) as W1.
    apply should_delay_pos in Hd; [|apply W1|apply u_range; lia].
    destruct (block_ok None k1 c _ _ false W1 (bs_current _ _ _ B1) R1 (or_intror (ready_no_event _ _ _ W1 R1)) Hd) as (k2 & -> & W2 & Wt).
    exists k2. split; [done|]. by apply (waits_body _ _ _ _ _ _ B1 Wt W2). }
  cbv zeta. rewrite E2. cbn [res_bind].
  destruct (leave_body idle k2 c i2 B2) as (k3 & k' & b & -> & _ & E3 & _ & I' & _). cbn [res_bind]. rewrite E3. cbn [res_bind].
  eexists _, _. split; [done|]. done.
Qed.

(** The running task is on an event list and goes to a delayed list. *)
Lemma place_inserted_ok idle k c e st n b :
  body_state idle k c -> ready k c -> inserted (kst k) (EventList e) (EventItem c) st -> 0 < n < 2 ^ 32 -> c <> idle ->
  exists k', prvAddCurrentTaskToDelayedList (k <| kst := st |>) n b = Ok k' /\ body_state idle k' c /\
    container k' (EventItem c) = Some (EventList e) /\ container k' (StateItem c) = Some (wait_list k n b) /\ frame k k'.
Proof.
  intros B Hr R Hn Hne. pose proof (bs_wf _ _ _ B) as W. pose proof (ready_no_event _ _ _ W Hr) as He.
  pose proof (moved_inserted k _ _ _ R) as M. cbn [owner] in M. set (k1 := k <| kst := _ |>) in *.
  assert (wf (Some c) (xTickCount k) k1) as W1.
  { pose proof (delayed_list_cases _ _ _ (EventList e) W) as Hd. apply (wf_weaken (Some c)) in W.
    apply (wf_insert _ _ _ _ _ _ W R He); try (intros E; destruct Hd; auto; congruence). by split. }
  assert (container k1 (StateItem c) = Some (ReadyTasks (priority k c))) as Hs1 by (by rewrite (mv_state _ _ _ _ _ M), decide_True).
  assert (container k1 (EventItem c) = Some (EventList e)) as He1 by (by rewrite (mv_event _ _ _ _ _ M), decide_True).
  pose proof (mv_state _ _ _ _ _ M) as S1. assert (frame k k1) as F1 by apply M.
  change (wait_list k n b) with (wait_list k1 n b). change (xTickCount k) with (xTickCount k1) in W1. clearbody k1.
  destruct (block_ok (Some c) k1 c (ReadyTasks (priority k c)) n b W1) as (k2 & E2 & W2 & [F2 S2 E2' V2]);
    [by rewrite (fr_current _ _ F1), (bs_current _ _ _ B)|done|by left|done|].
  exists k2. split; [done|]. split; [|rewrite E2', S2, decide_True by done; split_and!; [done..|by eapply frame_trans]].
  assert (container k2 (StateItem c) = Some (wait_list k1 n b)) as Hs2 by (by rewrite S2, decide_True).
  pose proof (frame_trans _ _ _ F1 F2) as F. destruct B. split; try (destruct F; congruence).
  - rewrite (fr_tick _ _ F2). apply (wf_strengthen c); [done|]. right. unfold blocked. rewrite Hs2. unfold wait_list.
    destruct (wf_lists _ _ _ W1) as [[-> ->]|[-> ->]]; destruct (_ && _); [done| |done|]; destruct (_ <? _); done.
  - unfold ready. rewrite S2, decide_False, S1, decide_False by congruence. by rewrite (frame_priority _ _ _ F).
  - intros t. rewrite (frame_base _ _ _ F). apply bs_base0.
Qed.
Lemma place_ok idle k c e n :
  body_state idle k c -> ready k c -> 0 < n < 2 ^ 32 -> c <> idle ->
  exists k', vTaskPlaceOnEventList k e n = Ok k' /\ body_state idle k' c /\
    container k' (EventItem c) = Some (EventList e) /\ container k' (StateItem c) = Some (wait_list k n true) /\ frame k k'.
Proof.
  intros B Hr Hn Hne. pose proof (bs_wf _ _ _ B) as W. pose proof (ready_no_event _ _ _ W Hr) as He.
  unfold vTaskPlaceOnEventList, current. rewrite (bs_current _ _ _ B). cbn [res_bind].
  apply place_inserted_ok; try done. apply seq_insert_inserted; [apply W|done].
Qed.
Lemma place_restricted_ok idle k c e n (forever : bool) :
  body_state idle k c -> ready k c -> forever = true \/ 0 < n < 2 ^ 32 -> c <> idle ->
  exists k', vTaskPlaceOnEventListRestricted k e n forever = Ok k' /\ body_state idle k' c /\
    container k' (EventItem c) = Some (EventList e) /\
    container k' (StateItem c) = Some (wait_list k (if forever then portMAX_DELAY else n) forever) /\ frame k k'.
Proof.
  intros B Hr Hn Hne. pose proof (bs_wf _ _ _ B) as W. pose proof (ready_no_event _ _ _ W Hr) as He.
  unfold vTaskPlaceOnEventListRestricted, current. rewrite (bs_current _ _ _ B). cbn [res_bind].
  apply place_inserted_ok; try done; [apply seq_insert_end_inserted; [apply W|done]|].
  destruct forever; [done|]. by destruct Hn.
Qed.

Lemma wait_event_inv idle k c e n i1 i2 :
  inv idle k -> xPendSV k = false -> uxSchedulerSuspended k = 0 -> pxCurrentTCB k = Some c -> c <> idle -> 0 < n < 2 ^ 32 ->
  exists k', wait_event (run_interrupts i1) (run_interrupts i2) k e n = Ok k' /\ inv idle k'.
Proof.
  intros I Hp Hs Hc Hne Hn. unfold wait_event. destruct (enter_body idle k c i1 I Hp Hs Hc) as (k1 & -> & B1 & R1 & _). cbn [res_bind].
  destruct (place_ok idle k1 c e n B1 R1 Hn Hne) as (k2 & -> & B2 & _). cbn [res_bind].
  destruct (leave_body idle k2 c i2 B2) as (k3 & k' & b & -> & _ & E3 & _ & I' & _). cbn [res_bind]. rewrite E3. cbn [res_bind].
  eexists. split; [done|]. done.
Qed.

(** ** Changes of priority *)

(** The control block of [t] is now [x], and [t], if ready, is on the ready list of
    its new priority. *)
Record reprio (k k' : kernel) (t : Z) (x : TCB_t) : Prop := {
  rq_current : pxCurrentTCB k' = pxCurrentTCB k;
  rq_suspended : uxSchedulerSuspended k' = uxSchedulerSuspended k;
  rq_number : uxCurrentNumberOfTasks k' = uxCurrentNumberOfTasks k;
  rq_running : xSchedulerRunning k' = xSchedulerRunning k;
  rq_pended : xPendedTicks k' = xPendedTicks k;
  rq_tick : xTickCount k' = xTickCount k;
  rq_yield : xYieldPending k' = xYieldPending k;
  rq_pendsv : xPendSV k' = xPendSV k;
  rq_priority u : priority k' u = if decide (t = u) then uxPriority x else priority k u;
  rq_base u : uxBasePriority (tcb k' u) = if decide (t = u) then uxBasePriority x else uxBasePriority (tcb k u);
  rq_self : ready k t -> ready k' t;
  rq_not : ~ ready k t -> container k' (StateItem t) = container k (StateItem t);
  rq_state u : t <> u -> container k' (StateItem u) = container k (StateItem u);
  rq_event u : container k' (EventItem u) = container k (EventItem u);
}.

Lemma priority_put k t x u : priority (put_tcb k t x) u = if decide (t = u) then uxPriority x else priority k u.
Proof. unfold priority. rewrite tcb_put. by destruct (decide (t = u)). Qed.
Lemma base_put k t x u :
  uxBasePriority (tcb (put_tcb k t x) u) = if decide (t = u) then uxBasePriority x else uxBasePriority (tcb k u).
Proof. rewrite tcb_put. by destruct (decide (t = u)). Qed.
Lemma wf_put_tcb_off now k t x :
  wf None now k -> (forall p, container k (StateItem t) <> Some (ReadyTasks p)) -> 0 <= uxPriority x < configMAX_PRIORITIES ->
  wf None now (put_tcb k t x).
Proof.
  intros [H1 H2 H3 H4 H5 H6 H7 H8 H9 H10] Ht Hx. split; try done.
  - intros u l Hl. specialize (H3 u l Hl). destruct l as [p| | | | | |]; try done. change (p = priority (put_tcb k t x) u /\ p <= uxTopReadyPriority k). rewrite priority_put.
    rewrite decide_False by (intros ->; by apply (Ht p)). exact H3.
  - intros u. rewrite priority_put. by destruct (decide (t = u)).
Qed.
Lemma put_off_ok now k t x :
  wf None now k -> ~ ready k t -> 0 <= uxPriority x < configMAX_PRIORITIES ->
  wf None now (put_tcb k t x) /\ reprio k (put_tcb k t x) t x.
Proof.
  intros W Hr Hx. split.
  - apply wf_put_tcb_off; [done| |done]. intros p Hp. apply Hr. unfold ready. rewrite Hp.
    apply (wf_state _ _ _ W) in Hp as [-> _]. done.
  - split; try done; intros u; [apply priority_put|apply base_put].
Qed.
Lemma requeue_with_ok now k t x :
  wf None now k -> ready k t -> 0 <= uxPriority x < configMAX_PRIORITIES ->
  exists k1, listREMOVE_ITEM k (StateItem t) = Ok k1 /\ listREMOVE_ITEM (put_tcb k t x) (StateItem t) = Ok (put_tcb k1 t x) /\
    frame k k1 /\ (forall u, priority k1 u = priority k u) /\ (forall u, tcb k1 u = tcb k u) /\
    wf None now (prvAddTaskToReadyList (put_tcb k1 t x) t) /\
    reprio k (prvAddTaskToReadyList (put_tcb k1 t x) t) t x.
Proof.
  intros W Hr Hx. pose proof (ready_no_event _ _ _ W Hr) as He.
  destruct (seq_remove_removed (kst k) (StateItem t) _ (wf_store _ _ _ W) Hr) as (st1 & n & E & R1).
  assert (wf None now (k <| kst := st1 |>)) as W1.
  { apply (wf_remove _ _ _ _ _ W R1). intros u [= <-]. by right. }
  pose proof (moved_removed k _ _ R1) as M1. cbn [owner] in M1. rewrite He in M1.
  exists (k <| kst := st1 |>). split; [unfold listREMOVE_ITEM; by rewrite E|].
  split; [unfold listREMOVE_ITEM, put_tcb; rsimpl; by rewrite E|]. split; [apply M1|]. split; [done|]. split; [done|].
  set (k1 := k <| kst := st1 |>) in *. set (k2 := put_tcb k1 t x).
  assert (container k1 (StateItem t) = None) as Hf by (by rewrite (mv_state _ _ _ _ _ M1), decide_True).
  assert (wf None now k2) as W2 by (apply wf_put_tcb_off; [done|intros p; congruence|done]).
  destruct (add_ready_ok None now k2 t W2 Hf) as [W3 M3]; [intros _; by rewrite <- He; apply (moved_event_same k k1 t None); rewrite He|].
  split; [done|]. pose proof M3 as [[] S3 E3 V3]. split; try done.
  - intros u. rewrite (frame_priority _ _ _ (mv_frame _ _ _ _ _ M3)). exact (priority_put k1 t x u).
  - intros u. rewrite (frame_base _ _ _ (mv_frame _ _ _ _ _ M3)). exact (base_put k1 t x u).
  - intros _. unfold ready. by rewrite S3, decide_True, (frame_priority _ _ _ (mv_frame _ _ _ _ _ M3)).
  - intros u Hu. rewrite S3, decide_False by done. change (container k2 (StateItem u)) with (container k1 (StateItem u)).
    by rewrite (mv_state _ _ _ _ _ M1), decide_False.
  - intros u. rewrite (moved_event_same _ _ _ _ _ M3). change (container k2 (EventItem u)) with (container k1 (EventItem u)).
    apply (moved_event_same k k1 t None). by rewrite He.
Qed.

Lemma reprio_ready now k k' t x u : wf None now k -> reprio k k' t x -> ready k' u <-> ready k u.
Proof.
  intros W R. destruct (decide (t = u)) as [<-|Hu].
  - split; [|apply R]. intros Hr. destruct (decide (container k (StateItem t) = Some (ReadyTasks (priority k t)))) as [|Hn]; [done|].
    unfold ready in Hr. rewrite (rq_not _ _ _ _ R Hn) in Hr. pose proof (wf_state _ _ _ W t _ Hr) as [E _]. by rewrite E in Hr.
  - unfold ready. by rewrite (rq_state _ _ _ _ R u Hu), (rq_priority _ _ _ _ R), decide_False.
Qed.

Lemma settled_reprio now k k' t x c :
  wf None now k -> reprio k k' t x -> settled k -> pxCurrentTCB k = Some c ->
  (strict -> (t <> c -> ready k t -> uxPriority x <= priority k c) /\ (t = c -> priority k c <= uxPriority x)) -> settled k'.
Proof.
  intros W R (c' & Hc' & Hr & Hmax) Hc H12. assert (c' = c) as -> by congruence. exists c.
  split; [by rewrite (rq_current _ _ _ _ R)|]. split; [by apply (reprio_ready now k k' t x)|].
  intros HS u Hu%(reprio_ready _ _ _ _ _ _ W R). specialize (Hmax HS u Hu). destruct (H12 HS) as [H1 H2]. rewrite !(rq_priority _ _ _ _ R).
  destruct (decide (t = u)) as [<-|], (decide (t = c)) as [<-|]; auto with lia.
Qed.

Lemma inv_reprio idle k k' t x c (y : bool) :
  inv idle k -> reprio k k' t x -> wf None (xTickCount k) k' -> pxCurrentTCB k = Some c ->
  0 <= uxBasePriority x < configMAX_PRIORITIES ->
  (y = false -> settled k -> strict -> (t <> c -> ready k t -> uxPriority x <= priority k c) /\ (t = c -> priority k c <= uxPriority x)) ->
  inv idle (if y then portYIELD k' else k').
Proof.
  intros I R W Hc Hbx Hy. pose proof (inv_wf _ _ I) as W0. pose proof (reprio_ready _ _ _ _ _ idle W0 R) as Ri.
  pose proof (reprio_ready _ _ _ _ _ c W0 R) as Rc. rewrite <- (rq_tick _ _ _ _ R) in W.
  assert (settled k -> y = true \/ settled k') as Hset.
  { intros Hset. destruct y; [by left|right]. apply (settled_reprio _ k k' t x c W0); auto. }
  destruct I, R. set (k2 := if y then portYIELD k' else k').
  assert (wf None (xTickCount k2) k2) as W2 by (unfold k2; destruct y; [by apply wf_pendsv|done]).
  assert (container k2 = container k' /\ pxCurrentTCB k2 = Some c /\ (settled k' -> settled k2) /\ (xPendSV k = true \/ y = true -> xPendSV k2 = true) /\
    uxSchedulerSuspended k2 = uxSchedulerSuspended k /\ uxCurrentNumberOfTasks k2 = uxCurrentNumberOfTasks k /\
    xSchedulerRunning k2 = xSchedulerRunning k /\ xPendedTicks k2 = xPendedTicks k /\ xYieldPending k2 = xYieldPending k /\
    (forall u, ready k2 u <-> ready k' u) /\ tcb k2 = tcb k') as (C2 & Hc2 & Hs2 & P2 & S2 & N2 & R2 & D2 & Y2 & Hr2 & T2).
  { unfold k2. destruct y; split_and!; try done; try (cbn; congruence). rewrite rq_pendsv0. naive_solver. }
  clearbody k2. split; try congruence.
  - by exists c.
  - rewrite Hr2. tauto.
  - intros u. rewrite T2, rq_base0. by destruct (decide (t = u)).
  - rewrite S2. intros Hs u. unfold pending. rewrite C2, rq_event0. by apply inv_pending0.
  - rewrite S2. intros Hs. destruct (inv_switch0 Hs) as [?|Hk]; [left; auto|]. destruct (Hset Hk); auto.
  - rewrite S2. intros Hs. destruct (inv_held0 Hs) as [Hcov (c' & Hc' & Hr')]. assert (c' = c) as -> by congruence.
    split; [|exists c; split; [done|]; rewrite Hr2; tauto]. unfold covered. rewrite Y2.
    destruct Hcov as [?|[?|Hk]]; [left; auto|by right; left|]. destruct (Hset Hk); auto.
Qed.

Lemma put_tcb_twice k t x y : put_tcb (put_tcb k t x) t y = put_tcb k t y.
Proof. unfold put_tcb. rsimpl. destruct k. cbn. f_equal. apply insert_insert_eq. Qed.

(** The invariant does not depend on item values or on what else the control
    blocks hold. *)
Lemma inv_ext idle k k' :
  inv idle k -> wf None (xTickCount k') k' -> (forall i, container k' i = container k i) ->
  (forall t, priority k' t = priority k t) -> (forall t, uxBasePriority (tcb k' t) = uxBasePriority (tcb k t)) ->
  pxCurrentTCB k' = pxCurrentTCB k -> uxSchedulerSuspended k' = uxSchedulerSuspended k ->
  uxCurrentNumberOfTasks k' = uxCurrentNumberOfTasks k -> xSchedulerRunning k' = xSchedulerRunning k ->
  xPendedTicks k' = xPendedTicks k -> xYieldPending k' = xYieldPending k -> xPendSV k' = xPendSV k -> inv idle k'.
Proof.
  intros I W Hc Hp Hb Ec Es En Er Ed Ey Ep.
  assert (forall u, ready k' u <-> ready k u) as Hr by (intros u; unfold ready; by rewrite Hc, Hp).
  assert (settled k -> settled k') as Hs.
  { intros (c & Hcur & Hrc & Hmax). exists c. split; [congruence|]. split; [by apply Hr|]. intros HS u Hu%Hr. rewrite !Hp. by apply Hmax. }
  destruct I. split; try congruence.
  - by rewrite Ec.
  - intros u. by rewrite Hb.
  - rewrite Es. intros H u. unfold pending. rewrite Hc. by apply inv_pending0.
  - rewrite Es, Ep. intros H. destruct (inv_switch0 H); auto.
  - rewrite Es, Ec. intros H. destruct (inv_held0 H) as [Hcov (c & Hcur & Hrc)]. split.
    + unfold covered. rewrite Ep, Ey. destruct Hcov as [?|[?|?]]; auto.
    + exists c. split; [done|by apply Hr].
Qed.
Lemma inv_set_event idle k t v : inv idle k -> inv idle (listSET_LIST_ITEM_VALUE k (EventItem t) v).
Proof.
  intros I. apply (inv_ext idle k); try done; [|intros i; apply container_set]. apply wf_set_value; [apply (inv_wf _ _ I)|done].
Qed.
Lemma inv_event_priority idle k t p : inv idle k -> inv idle (set_event_priority k t p).
Proof. intros I. unfold set_event_priority. destruct (_ =? 0); [by apply inv_set_event|done]. Qed.
Lemma event_priority_same k t p :
  (forall i, container (set_event_priority k t p) i = container k i) /\ tcbs (set_event_priority k t p) = tcbs k /\
  pxCurrentTCB (set_event_priority k t p) = pxCurrentTCB k /\ xTickCount (set_event_priority k t p) = xTickCount k.
Proof. unfold set_event_priority. destruct (_ =? 0); split_and!; try done. intros i. apply container_set. Qed.
Lemma event_priority_put k t p x : set_event_priority (put_tcb k t x) t p = put_tcb (set_event_priority k t p) t x.
Proof. unfold set_event_priority. change (item_value (put_tcb k t x) (EventItem t)) with (item_value k (EventItem t)). by destruct (_ =? 0). Qed.

(** A new control block for [t]: the step the functions that change a priority
    share. *)
Definition requeue_with (k : kernel) (t : Z) (x : TCB_t) : res kernel :=
  if listIS_CONTAINED_WITHIN k (ReadyTasks (priority k t)) (StateItem t)
  then let! k1 := listREMOVE_ITEM (put_tcb k t x) (StateItem t) in Ok (prvAddTaskToReadyList k1 t)
  else Ok (put_tcb k t x).
Lemma requeue_inv idle k t x c y :
  inv idle k -> pxCurrentTCB k = Some c -> 0 <= uxPriority x < configMAX_PRIORITIES ->
  0 <= uxBasePriority x < configMAX_PRIORITIES ->
  (y = false -> settled k -> strict -> (t <> c -> ready k t -> uxPriority x <= priority k c) /\ (t = c -> priority k c <= uxPriority x)) ->
  exists k', requeue_with k t x = Ok k' /\ inv idle (if y : bool then portYIELD k' else k') /\ reprio k k' t x.
Proof.
  intros I Hc Hx Hbx Hy. unfold requeue_with, listIS_CONTAINED_WITHIN. case_bool_decide as Hr.
  - destruct (requeue_with_ok _ k t x (inv_wf _ _ I) Hr Hx) as (k1 & _ & -> & _ & _ & _ & W & R). cbn [res_bind].
    eexists. split; [done|]. split; [|done]. by apply (inv_reprio idle k _ t x c y).
  - destruct (put_off_ok _ k t x (inv_wf _ _ I) Hr Hx) as [W R]. eexists. split; [done|]. split; [|done].
    by apply (inv_reprio idle k _ t x c y).
Qed.

Lemma priority_set_inv idle k t p :
  inv idle k -> 0 <= p < configMAX_PRIORITIES -> exists k', vTaskPrioritySet k (Some t) p = Ok k' /\ inv idle k'.
Proof.
  intros I Hp. destruct (inv_current _ _ I) as [c Hc]. unfold vTaskPrioritySet. cbn [prvGetTCBFromHandle res_bind].
  rewrite (proj2 (Z.ltb_lt p _)), (proj2 (Z.leb_gt _ p)) by lia. cbn [assert res_bind].
  destruct (Z.eqb_spec (uxBasePriority (tcb k t)) p) as [|Hb]; [by exists k|]. unfold current. rewrite Hc. cbn [res_bind].
  set (x := (tcb k t) <| uxPriority := if uxBasePriority (tcb k t) =? priority k t then p else priority k t |> <| uxBasePriority := p |>).
  assert (set_base_priority (if uxBasePriority (tcb k t) =? priority k t then set_priority k t p else k) t p = put_tcb k t x) as ->.
  { unfold set_base_priority, set_priority, x. destruct (uxBasePriority (tcb k t) =? priority k t).
    - by rewrite tcb_put, decide_True, put_tcb_twice.
    - done. }
  rewrite event_priority_put. pose proof (inv_event_priority idle k t p I) as I0.
  destruct (event_priority_same k t p) as (C0 & T0 & Hc0 & _). set (k0 := set_event_priority k t p) in *. clearbody k0.
  assert (forall u, priority k0 u = priority k u) as P0 by (intros u; unfold priority, tcb; by rewrite T0).
  set (y := if uxBasePriority (tcb k t) <? p then _ else _).
  destruct (requeue_inv idle k0 t x c y I0) as (k' & E & I' & _); [congruence| |done| |].
  - unfold x. cbn. destruct (_ =? _); [done|]. apply (wf_priority _ _ _ (inv_wf _ _ I)).
  - intros Hy (c' & Hc' & _ & Hmax). assert (c' = c) as -> by congruence. rewrite P0. intros HS. specialize (Hmax HS). split.
    + intros Hne Hr. specialize (Hmax t Hr). rewrite !P0 in Hmax. revert Hy. unfold y, x. cbn.
      rewrite (proj2 (Z.eqb_neq t c) Hne).
      destruct (Z.ltb_spec (uxBasePriority (tcb k t)) p), (Z.eqb_spec (uxBasePriority (tcb k t)) (priority k t)); intros; lia.
    + intros ->. revert Hy. unfold y, x. cbn. rewrite Z.eqb_refl.
      destruct (Z.ltb_spec (uxBasePriority (tcb k c)) p), (Z.eqb_spec (uxBasePriority (tcb k c)) (priority k c)); intros; [lia..|done|done].
  - unfold requeue_with in E. rewrite P0 in E.
    change (listIS_CONTAINED_WITHIN (put_tcb k0 t x)) with (listIS_CONTAINED_WITHIN k0). rewrite E. cbn [res_bind].
    eexists. split; [done|exact I'].
Qed.

(** ** Priority inheritance *)

Lemma inherit_inv idle k t c :
  inv idle k -> pxCurrentTCB k = Some c -> exists k' b, xTaskPriorityInherit k (Some t) = Ok (k', b) /\ inv idle k' /\
    (forall u, priority k' u = if decide (t = u) then Z.max (priority k t) (priority k c) else priority k u) /\
    (ready k t -> ready k' t).
Proof.
  intros I Hc. unfold xTaskPriorityInherit, current. rewrite Hc. cbn [res_bind].
  destruct (Z.ltb_spec (priority k t) (priority k c)) as [Hlt|Hge].
  2: { eexists _, _. split_and!; [done..| |done]. intros u. destruct (decide (t = u)) as [<-|]; lia. }
  pose proof (inv_event_priority idle k t (priority k c) I) as I0.
  destruct (event_priority_same k t (priority k c)) as (C0 & T0 & Hc0 & _). set (k0 := set_event_priority k t (priority k c)) in *.
  clearbody k0. assert (forall u, priority k0 u = priority k u) as P0 by (intros u; unfold priority, tcb; by rewrite T0).
  assert (0 <= priority k c < configMAX_PRIORITIES) as Hpc by apply (wf_priority _ _ _ (inv_wf _ _ I)).
  set (x := (tcb k0 t) <| uxPriority := priority k c |>).
  assert (forall k', reprio k0 k' t x -> wf None (xTickCount k0) k' -> inv idle k' /\
    (forall u, priority k' u = if decide (t = u) then Z.max (priority k t) (priority k c) else priority k u) /\
    (ready k t -> ready k' t)) as Hfin.
  { intros k' R W. split_and!.
    - apply (inv_reprio idle k0 k' t x c false); try done; [congruence|apply (inv_base _ _ I0)|]. intros _ _. rewrite P0. unfold x. cbn. split; [lia|].
      intros ->. lia.
    - intros u. rewrite (rq_priority _ _ _ _ R), P0. unfold x. cbn. destruct (decide (t = u)); lia.
    - intros Hr. apply R. unfold ready. by rewrite C0, P0. }
  unfold listIS_CONTAINED_WITHIN. case_bool_decide as Hr.
  - destruct (requeue_with_ok _ k0 t x (inv_wf _ _ I0) Hr Hpc) as (k1 & -> & _ & _ & P1 & T1 & W & R). cbn [res_bind].
    unfold set_priority. rewrite P1, P0, T1. eexists _, _. split; [done|]. by apply Hfin.
  - unfold set_priority. rewrite P0. destruct (put_off_ok _ k0 t x (inv_wf _ _ I0) Hr Hpc) as [W R].
    eexists _, _. split; [done|]. by apply Hfin.
Qed.

Lemma inv_put_tcb idle k t x :
  uxPriority x = priority k t -> uxBasePriority x = uxBasePriority (tcb k t) -> inv idle k -> inv idle (put_tcb k t x).
Proof.
  intros Hx Hb I. apply (inv_ext idle k); try done.
  - apply wf_put_tcb; [done|apply (inv_wf _ _ I)].
  - intros u. rewrite priority_put. by destruct (decide (t = u)) as [<-|].
  - intros u. rewrite base_put. by destruct (decide (t = u)) as [<-|].
Qed.

(** Back to the base priority, when the last mutex is returned. *)
Lemma drop_priority_ok now k c x v :
  wf None now k -> ready k c -> 0 <= uxPriority x < configMAX_PRIORITIES ->
  exists k1, listREMOVE_ITEM k (StateItem c) = Ok k1 /\ tcbs k1 = tcbs k /\
    let k' := prvAddTaskToReadyList (listSET_LIST_ITEM_VALUE (put_tcb k1 c x) (EventItem c) v) c in
    wf None now k' /\ reprio k k' c x.
Proof.
  intros W Hr Hx. pose proof (ready_no_event _ _ _ W Hr) as He.
  destruct (remove_item_ok k _ _ (wf_store _ _ _ W) Hr) as (st1 & E & R1). exists (k <| kst := st1 |>).
  split; [done|]. split; [done|]. pose proof (moved_removed k _ _ R1) as M1. cbn [owner] in M1. rewrite He in M1.
  assert (wf None now (k <| kst := st1 |>)) as W1.
  { apply (wf_remove _ _ _ _ _ W R1). intros u [= <-]. by right. }
  set (k1 := k <| kst := st1 |>) in *. assert (container k1 (StateItem c) = None) as Hf by (by rewrite (mv_state _ _ _ _ _ M1), decide_True).
  set (k2 := listSET_LIST_ITEM_VALUE (put_tcb k1 c x) (EventItem c) v).
  assert (wf None now k2) as W2 by (apply wf_set_value; [|done]; apply wf_put_tcb_off; [done|intros p; congruence|done]).
  assert (forall i, container k2 i = container k1 i) as C2 by (intros i; exact (container_set (put_tcb k1 c x) _ _ i)).
  destruct (add_ready_ok None now k2 c W2) as [W3 M3]; [by rewrite C2|intros _; by rewrite C2, (mv_event _ _ _ _ _ M1), decide_True|].
  split; [done|]. pose proof M3 as [[] S3 E3 V3]. split; try done.
  - intros u. rewrite (frame_priority _ _ _ (mv_frame _ _ _ _ _ M3)). exact (priority_put k1 c x u).
  - intros u. rewrite (frame_base _ _ _ (mv_frame _ _ _ _ _ M3)). exact (base_put k1 c x u).
  - intros _. unfold ready. by rewrite S3, decide_True, (frame_priority _ _ _ (mv_frame _ _ _ _ _ M3)).
  - intros u Hu. rewrite S3, decide_False, C2 by done. by rewrite (mv_state _ _ _ _ _ M1), decide_False.
  - intros u. rewrite (moved_event_same _ _ _ _ _ M3), C2. apply (moved_event_same k k1 c None). by rewrite He.
Qed.

(** The caller is asked to switch; a switch is not needed when no priority matters. *)
Lemma disinherit_ok idle k c :
  inv idle k -> xPendSV k = false -> pxCurrentTCB k = Some c -> uxMutexesHeld (tcb k c) <> 0 ->
  exists k' b, xTaskPriorityDisinherit k (Some c) = Ok (k', b) /\ inv idle (if b : bool then portYIELD k' else k') /\ (~ strict -> inv idle k').
Proof.
  intros I Hp Hc Hm. pose proof (inv_base _ _ I c) as Hbase. unfold xTaskPriorityDisinherit. rewrite bool_decide_eq_true_2 by done.
  rewrite (proj2 (Z.eqb_neq _ 0) Hm). cbn [negb assert res_bind]. unfold set_mutexes_held.
  set (x0 := (tcb k c) <| uxMutexesHeld := _ |>). assert (inv idle (put_tcb k c x0)) as I0 by (by apply inv_put_tcb).
  pose proof (running_ready _ _ _ I0 Hp Hc) as Hr. assert (tcb (put_tcb k c x0) c = x0) as T0 by (by rewrite tcb_put, decide_True).
  set (k0 := put_tcb k c x0) in *. assert (pxCurrentTCB k0 = Some c) as Hc0 by done. clearbody k0.
  destruct (negb (priority k0 c =? uxBasePriority (tcb k0 c)) && (uxMutexesHeld (tcb k0 c) =? 0)); [|by exists k0, false].
  set (x := x0 <| uxPriority := uxBasePriority (tcb k0 c) |>).
  destruct (drop_priority_ok _ k0 c x (u32 (configMAX_PRIORITIES - uxPriority x)) (inv_wf _ _ I0) Hr) as (k1 & -> & T1 & W & R);
    [by unfold x; cbn; rewrite T0|]. cbn [res_bind]. unfold set_priority.
  assert (tcb k1 c = x0) as -> by (unfold tcb; rewrite T1; exact T0).
  assert (uxBasePriority x0 = uxBasePriority (tcb k0 c)) as -> by (by rewrite T0). fold x.
  rewrite priority_put, decide_True by done. eexists _, _. split; [done|]. split.
  - apply (inv_reprio idle k0 _ c x c true); done.
  - intros Hs. apply (inv_reprio idle k0 _ c x c false); done.
Qed.
End strictness.

Section strictness.
Context {stc : Strict}.

(** Only the priorities distinguish the two readings, and a pending switch hides them. *)
Lemma inv_strict idle k : (strict -> xPendSV k = true) -> inv (stc := False) idle k -> inv idle k.
Proof.
  intros Hp I. assert (settled (stc := False) k -> xPendSV k = true \/ settled k) as Hset.
  { intros (c & Hc & Hr & _). destruct (xPendSV k) eqn:E; [by left|right]. exists c. split_and!; [done..|]. intros Hs. by specialize (Hp Hs). }
  destruct I. split; try done.
  - intros Hs. destruct (inv_switch0 Hs) as [?|?]; [by left|auto].
  - intros Hs. destruct (inv_held0 Hs) as (Hcov & Hc). split; [|done].
    destruct Hcov as [?|[?|?]]; [by left|by right; left|]. destruct (Hset H) as [?|?]; [by left|by right; right].
Qed.
Lemma inv_yield idle k : inv idle k -> inv idle (portYIELD k).
Proof. intros []. split; try done; [by apply wf_pendsv|by intros _; left|intros Hs; split; [by left|by apply inv_held0]]. Qed.
Lemma inv_lenient idle k : inv idle k -> inv (stc := False) idle k.
Proof.
  intros []. split; try done.
  - intros Hs. destruct (inv_switch0 Hs) as [?|(c & Hc & Hr & _)]; [by left|right; by exists c].
  - intros Hs. destruct (inv_held0 Hs) as (Hcov & Hc). split; [|done].
    destruct Hcov as [?|[?|(c & Hcc & Hr & _)]]; [by left|by right; left|right; right; by exists c].
Qed.
Lemma hold_mutex_inv idle k : inv idle k -> inv idle (pvTaskIncrementMutexHeldCount k).1.
Proof. intros I. unfold pvTaskIncrementMutexHeldCount. cbn [fst]. destruct (pxCurrentTCB k); [by apply inv_put_tcb|done]. Qed.
Lemma give_mutex_inv idle k e c :
  inv idle k -> xPendSV k = false -> pxCurrentTCB k = Some c -> uxMutexesHeld (tcb k c) <> 0 ->
  (strict -> drops_switch k e = false) -> exists k', give_mutex k e = Ok k' /\ inv idle k'.
Proof.
  intros I Hp Hc Hm Hd. unfold drops_switch in Hd. unfold give_mutex. rewrite Hc in Hd |- *.
  destruct (disinherit_ok idle k c I Hp Hc Hm) as (k1 & b & E & I1 & _).
  destruct (disinherit_ok (stc := False) idle k c (inv_lenient _ _ I) Hp Hc Hm) as (k1' & b' & E' & _ & L1).
  rewrite E in Hd, E' |- *. injection E' as <- <-. specialize (L1 (fun f => f)). cbn [res_bind].
  destruct (listLIST_IS_EMPTY k1 (EventList e)) eqn:El; cbn [negb]; [by eexists|].
  pose proof (interrupt_inv (stc := False) idle k1 (Signal e) L1) as (k2 & E2 & L2). cbn [run_interrupt] in E2.
  rewrite El in E2. exists k2. split; [done|]. destruct b.
  - apply inv_strict; [|done]. intros HS. specialize (Hd HS). unfold yield_if in E2.
    destruct (xTaskRemoveFromEventList k1 e) as [[k3 []]|]; [by injection E2 as <-|done|done].
  - pose proof (interrupt_inv idle k1 (Signal e) I1) as (k2' & E2' & I2). cbn [run_interrupt] in E2'. rewrite El in E2'. congruence.
Qed.
(** A task that waited for a mutex has timed out; the holder is another task. *)
Lemma disinherit_timeout_ok idle k c t p :
  ~ strict -> inv idle k -> pxCurrentTCB k = Some c -> t <> c -> uxMutexesHeld (tcb k t) <> 0 -> p < configMAX_PRIORITIES ->
  exists k', vTaskPriorityDisinheritAfterTimeout k (Some t) p = Ok k' /\ inv idle k'.
Proof.
  intros Hs I Hc Hne Hm Hp. unfold vTaskPriorityDisinheritAfterTimeout. rewrite (proj2 (Z.eqb_neq _ 0) Hm). cbn [negb assert res_bind].
  pose proof (inv_base _ _ I t) as Hb. set (q := if uxBasePriority (tcb k t) <? p then p else uxBasePriority (tcb k t)).
  assert (0 <= q < configMAX_PRIORITIES) as Hq by (unfold q; destruct (Z.ltb_spec (uxBasePriority (tcb k t)) p); lia). clearbody q.
  destruct (_ && _); [|by exists k]. rewrite bool_decide_eq_false_2 by congruence. cbn [negb assert res_bind]. unfold set_priority.
  rewrite event_priority_put. pose proof (inv_event_priority idle k t q I) as I0.
  destruct (event_priority_same k t q) as (C0 & T0 & Hc0 & _). set (k0 := set_event_priority k t q) in *. clearbody k0.
  destruct (requeue_inv idle k0 t ((tcb k t) <| uxPriority := q |>) c false I0) as (k' & E & I' & _); try done; [congruence|].
  exists k'. split; [|done]. unfold requeue_with in E. unfold priority, tcb in E |- *. rewrite T0 in E. exact E.
Qed.

(** ** Suspending and resuming a task *)

(** A task other than the idle task leaves the ready state; if it is the running
    task, a switch is requested. *)
Lemma inv_leaves idle k k' t l c :
  inv idle k -> moved k k' t (Some l) None -> wf None (xTickCount k) k' -> l <> ReadyTasks (priority k t) -> t <> idle ->
  pxCurrentTCB k = Some c -> (t = c -> uxSchedulerSuspended k = 0) ->
  inv idle (if decide (t = c) then portYIELD k' else k').
Proof.
  intros I [F S E V] W Hl Hne Hc Hs. pose proof (inv_covered _ _ I) as Hcov.
  assert (forall u, ready k' u <-> u <> t /\ ready k u) as Hr.
  { intros u. unfold ready. rewrite S, (frame_priority _ _ _ F). destruct (decide (t = u)); naive_solver congruence. }
  assert (t <> c -> settled k -> settled k') as Hset.
  { intros Htc (c' & Hc' & Hrc & Hmax). assert (c' = c) as -> by congruence. exists c. split; [by rewrite (fr_current _ _ F)|].
    split; [by apply Hr|]. intros HS u [_ Hu]%Hr. rewrite !(frame_priority _ _ _ F). by apply Hmax. }
  assert (forall t0, pending k t0 = false -> pending k' t0 = false) as Hpend.
  { intros u. unfold pending. rewrite E. by destruct (decide (t = u)). }
  rewrite <- (fr_tick _ _ F) in W. destruct I, F. set (k2 := if decide (t = c) then portYIELD k' else k').
  assert (wf None (xTickCount k2) k2) as W2 by (unfold k2; destruct (decide (t = c)); [by apply wf_pendsv|done]).
  assert (container k2 = container k' /\ pxCurrentTCB k2 = Some c /\ (settled k' -> settled k2) /\ (xPendSV k = true \/ t = c -> xPendSV k2 = true) /\
    uxSchedulerSuspended k2 = uxSchedulerSuspended k /\ uxCurrentNumberOfTasks k2 = uxCurrentNumberOfTasks k /\
    xSchedulerRunning k2 = xSchedulerRunning k /\ xPendedTicks k2 = xPendedTicks k /\ xYieldPending k2 = xYieldPending k /\
    (forall u, ready k2 u <-> ready k' u) /\ tcb k2 = tcb k') as (C2 & Hc2 & Hs2 & P2 & S2 & N2 & R2 & D2 & Y2 & Hr2 & T2).
  { unfold k2. destruct (decide (t = c)); split_and!; try done; try (cbn; congruence). rewrite fr_pendsv0. naive_solver. }
  clearbody k2. split; try congruence.
  - by exists c.
  - rewrite Hr2. by apply Hr.
  - intros u. rewrite T2, fr_tcb0. apply inv_base0.
  - rewrite S2. intros Hs0 u. unfold pending. rewrite C2. by apply Hpend, inv_pending0.
  - rewrite S2. intros Hs0. destruct (decide (t = c)); [by left; auto|]. destruct (inv_switch0 Hs0); [left; auto|right; auto].
  - rewrite S2. intros Hs0. assert (t <> c) as Htc by auto. destruct (inv_held0 Hs0) as [_ (c' & Hc' & Hrc)]. assert (c' = c) as -> by congruence. split.
    + unfold covered. rewrite Y2. destruct Hcov as [?|[?|?]]; auto.
    + exists c. split; [done|]. rewrite Hr2. by apply Hr.
Qed.

Lemma inv_reset_next idle k : inv idle k -> inv idle (prvResetNextTaskUnblockTime k).
Proof.
  intros I. destruct (reset_next_frame k) as [F K]. pose proof (reset_next_wf _ _ _ (inv_wf _ _ I)) as W. destruct F.
  apply (inv_ext idle k); [exact I|rewrite fr_tick0; exact W|intros i; unfold container; by rewrite K| | |assumption..].
  - intros t. unfold priority. by rewrite fr_tcb0.
  - intros t. by rewrite fr_tcb0.
Qed.
Lemma reset_yield k : prvResetNextTaskUnblockTime (portYIELD k) = portYIELD (prvResetNextTaskUnblockTime k).
Proof. unfold prvResetNextTaskUnblockTime. change (kst (portYIELD k)) with (kst k). change (pxDelayedTaskList (portYIELD k)) with (pxDelayedTaskList k). by destruct (seq_head _ _). Qed.

Lemma suspend_inv idle k t l c :
  inv idle k -> container k (StateItem t) = Some l -> t <> idle -> pxCurrentTCB k = Some c ->
  (t = c -> uxSchedulerSuspended k = 0) ->
  exists k', vTaskSuspend k (Some t) = Ok k' /\ inv idle k'.
Proof.
  intros I Hst Hne Hc Hs. unfold vTaskSuspend. cbn [prvGetTCBFromHandle res_bind].
  destruct (remove_from_lists_ok _ k t l (inv_wf _ _ I) Hst) as (k1 & -> & W1 & M1). cbn [res_bind].
  destruct (insert_suspended_ok _ _ k1 t W1) as [W2 M2]; [by rewrite (mv_state _ _ _ _ _ M1), decide_True|].
  rewrite (mv_event _ _ _ _ _ M1), decide_True in M2 by done. pose proof (moved_trans _ _ _ _ _ _ _ _ M1 M2) as M.
  set (k2 := listINSERT_END k1 SuspendedTaskList (StateItem t)) in *. clearbody k2. clear k1 W1 M1 M2.
  pose proof (inv_leaves idle k k2 t SuspendedTaskList c I M W2 ltac:(done) Hne Hc Hs) as I2.
  set (k3 := if ucNotifyState (tcb k2 t) =? taskWAITING_NOTIFICATION then _ else k2).
  assert (pxCurrentTCB k3 = Some c /\ xSchedulerRunning k3 = true /\ uxSchedulerSuspended k3 = uxSchedulerSuspended k) as (E1 & E2 & E3).
  { pose proof (inv_running _ _ I). destruct (mv_frame _ _ _ _ _ M). unfold k3. destruct (_ =? _); cbn; split_and!; congruence. }
  assert (forall y, inv idle (if y : bool then portYIELD k2 else k2) -> inv idle (if y then portYIELD k3 else k3)) as H3.
  { intros y Hy. unfold k3. destruct (_ =? _); [|done].
    assert (forall kk, inv idle kk -> inv idle (set_notify_state kk t taskNOT_WAITING_NOTIFICATION)) as Hn
      by (intros kk; by apply inv_put_tcb). destruct y; [exact (Hn _ Hy)|exact (Hn _ Hy)]. }
  rewrite E2. clearbody k3. destruct (reset_next_frame k3) as [F4 K4].
  rewrite (fr_current _ _ F4), (fr_running _ _ F4), (fr_suspended _ _ F4), E1, E2, E3.
  destruct (decide (t = c)) as [->|Htc].
  - rewrite bool_decide_eq_true_2 by done. rewrite (Hs eq_refl). cbn [Z.eqb assert res_bind]. eexists. split; [done|].
    rewrite <- reset_yield. apply inv_reset_next. exact (H3 true I2).
  - rewrite bool_decide_eq_false_2 by congruence. eexists. split; [done|]. apply inv_reset_next. exact (H3 false I2).
Qed.

Lemma resume_task_inv idle k t : inv idle k -> exists k', vTaskResume k t = Ok k' /\ inv idle k'.
Proof.
  intros I. destruct (inv_current _ _ I) as [c Hc]. unfold vTaskResume. destruct (negb _ && _) eqn:Eb; [|by exists k].
  apply andb_true_iff in Eb as [_ Ht]. destruct (suspended_iff _ _ Ht) as [Ht1 Ht2].
  destruct (requeue_ok _ k t _ (inv_wf _ _ I) Ht1 Ht2) as (k1 & -> & _ & _ & W2 & M2). cbn [res_bind].
  unfold current. rewrite (fr_current _ _ (mv_frame _ _ _ _ _ M2)), Hc. cbn [res_bind].
  rewrite !(frame_priority _ _ _ (mv_frame _ _ _ _ _ M2)). eexists. split; [done|].
  apply (inv_wakes idle k _ t c (priority k c <=? priority k t)); try done. intros ?. apply Z.leb_le. lia.
Qed.

(** ** Aborting a delay *)

Lemma state_blocked now k t :
  wf None now k -> eTaskGetState k t = eBlocked ->
  exists l, container k (StateItem t) = Some l /\ pxCurrentTCB k <> Some t.
Proof.
  intros W. unfold eTaskGetState. case_bool_decide as Hc; [done|]. destruct (container k (StateItem t)) as [l|]; [by exists l|].
  cbn. rewrite !bool_decide_eq_false_2 by done. done.
Qed.

(** The body of [xTaskAbortDelay] on a blocked task. *)
Definition abort_body (k : kernel) (t : Z) : res (kernel * bool) :=
  let! k := listREMOVE_ITEM k (StateItem t) in
  let! k := match container k (EventItem t) with
            | Some _ => let! k := listREMOVE_ITEM k (EventItem t) in Ok (set_delay_aborted k t true)
            | None => Ok k
            end in
  let k := prvAddTaskToReadyList k t in
  let! c := current k in
  Ok (if priority k c <? priority k t then k <| xYieldPending := true |> else k, true).

Lemma abort_removes now k t l :
  wf None now k -> container k (StateItem t) = Some l ->
  exists k', (let! k := listREMOVE_ITEM k (StateItem t) in
    match container k (EventItem t) with
    | Some _ => let! k := listREMOVE_ITEM k (EventItem t) in Ok (set_delay_aborted k t true)
    | None => Ok k
    end) = Ok k' /\ wf None now k' /\ moved k k' t None None.
Proof.
  intros W Hl. destruct (remove_from_lists_ok now k t l W Hl) as (k1 & E & W1 & M1). unfold remove_from_lists in E.
  destruct (listREMOVE_ITEM k (StateItem t)) as [k0|]; [|done]. cbn [res_bind] in *.
  destruct (container k0 (EventItem t)) as [m|]; [|by exists k1]. rewrite E. cbn [res_bind].
  eexists. split; [done|]. split; [by apply wf_put_tcb|]. destruct M1 as [F S Ev V]. split; try done.
  eapply frame_trans; [exact F|apply frame_delay_aborted].
Qed.

Lemma abort_body_ok now k t l c :
  wf None now k -> container k (StateItem t) = Some l -> pxCurrentTCB k = Some c ->
  exists k' y, abort_body k t = Ok (k' <| xYieldPending := y |>, true) /\ wf None now k' /\
    moved k k' t (Some (ReadyTasks (priority k t))) None /\
    (y = true <-> xYieldPending k = true \/ priority k c < priority k t).
Proof.
  intros W Hl Hc. destruct (abort_removes now k t l W Hl) as (k1 & E & W1 & M1).
  destruct (add_ready_ok None now k1 t W1) as [W2 M2];
    [by rewrite (mv_state _ _ _ _ _ M1), decide_True|intros _; by rewrite (mv_event _ _ _ _ _ M1), decide_True|].
  rewrite (frame_priority k k1 t (mv_frame _ _ _ _ _ M1)), (mv_event _ _ _ _ _ M1), decide_True in M2 by done.
  pose proof (moved_trans _ _ _ _ _ _ _ _ M1 M2) as M. pose proof (mv_frame _ _ _ _ _ M) as F.
  exists (prvAddTaskToReadyList k1 t), (if priority k c <? priority k t then true else xYieldPending k).
  split_and!; [|done|done|destruct (Z.ltb_spec (priority k c) (priority k t)); [by split; [right|]|]].
  - unfold abort_body. destruct (listREMOVE_ITEM k (StateItem t)) as [k0|]; [|done]. cbn [res_bind] in *. rewrite E. cbn [res_bind].
    set (k2 := prvAddTaskToReadyList k1 t) in *. clearbody k2. unfold current. rewrite (fr_current _ _ F), Hc. cbn [res_bind].
    rewrite !(frame_priority _ _ _ F). destruct (_ <? _); [done|]. rewrite <- (fr_yield _ _ F). by destruct k2.
  - split; [by left|]. intros [|]; [done|lia].
Qed.

Lemma abort_delay_inv idle k t i1 i2 :
  inv idle k -> xPendSV k = false -> uxSchedulerSuspended k = 0 ->
  exists k' b, xTaskAbortDelay (run_interrupts i1) (run_interrupts i2) k t = Ok (k', b) /\ inv idle k'.
Proof.
  intros I Hp Hs. destruct (inv_current _ _ I) as [c Hc]. unfold xTaskAbortDelay.
  destruct (enter_body idle k c i1 I Hp Hs Hc) as (k1 & -> & B1 & R1 & C1 & _). cbn [res_bind].
  assert (exists k2 b, match eTaskGetState k1 t with eBlocked => abort_body k1 t | _ => Ok (k1, false) end = Ok (k2, b) /\
    body_state idle k2 c /\ covered k2) as (k2 & b & E2 & B2 & C2).
  { destruct (eTaskGetState k1 t) eqn:Est; try (by eexists _, _).
    destruct (state_blocked _ _ _ (bs_wf _ _ _ B1) Est) as (l & Hl & Hne).
    destruct (abort_body_ok _ k1 t l c (bs_wf _ _ _ B1) Hl (bs_current _ _ _ B1)) as (k2 & y & -> & W2 & M2 & Hy).
    eexists _, _. split; [done|]. pose proof (later_moved _ _ _ M2) as L. destruct (mv_frame _ _ _ _ _ M2). destruct B1. split.
    - split; try (cbn; congruence).
      + apply wf_yield_pending. change (wf None (xTickCount k2) k2). by rewrite fr_tick0.
      + change (ready k2 idle). by apply (later_ready k1).
      + intros u. change (0 <= uxBasePriority (tcb k2 u) < configMAX_PRIORITIES). rewrite fr_tcb0. apply bs_base0.
    - destruct C1 as [?|[?|Hset]]; [left; cbn; congruence|right; left; apply Hy; by left|].
      destruct y; [by right; left|right; right]. change (settled k2). apply (settled_moved k1 k2 t c); try done.
      destruct (Z.le_gt_cases (priority k1 t) (priority k1 c)) as [|Hgt]; [done|]. assert (false = true); [|done]. apply Hy. by right. }
  fold (abort_body k1 t). rewrite E2. cbn [res_bind].
  destruct (leave_body idle k2 c i2 B2) as (k3 & k' & b' & -> & _ & E3 & _ & _ & I'). cbn [res_bind]. rewrite E3. cbn [res_bind].
  eexists _, _. split; [done|]. by apply I'.
Qed.
End strictness.
End RtosRun.
