(* ===== verification/RtosSteady.v ===== *)
(** * What the kernel functions leave alone

    Whatever a call or an interrupt does, the number of tasks stays the same, only
    PendSV changes the running task, and not while the scheduler is suspended. *)

From S2P Require Import Prelude RtosList RtosSeq RtosSched RtosSchedInv RtosTick RtosSchedProps RtosRun.
From stdpp Require Import list.
#[local] Open Scope Z_scope.

Module RtosSteady.
Export RtosRun.

Definition sig (k : kernel) : Z * bool * option Z * Z :=
  (uxCurrentNumberOfTasks k, xSchedulerRunning k, pxCurrentTCB k, uxSchedulerSuspended k).

Lemma ok_inj {A} (x y : A) : Ok x = Ok y -> x = y.
Proof. by intros [= ->]. Qed.
(** Case analysis of a computation that returned. *)
Ltac ok_inv :=
  repeat match goal with
  | H : Ok _ = Ok _ |- _ => apply ok_inj in H; subst
  | H : (_, _) = (_, _) |- _ => apply pair_equal_spec in H as [??]; subst
  | H : Fault _ = Ok _ |- _ => discriminate H
  | H : Ok _ = Fault _ |- _ => discriminate H
  | H : res_bind _ _ = Ok _ |- _ => apply res_bind_ok in H as (? & ? & H)
  | H : (let '(_, _) := ?x in _) = Ok _ |- _ => destruct x eqn:?
  | H : match ?x with _ => _ end = Ok _ |- _ => destruct x eqn:?
  | H : match ?x with _ => _ end = (_, _) |- _ => destruct x eqn:?
  end.
(** Updates of other fields. *)
Ltac sig_change :=
  repeat match goal with
  | |- context [sig (@upd kernel ?T ?p ?i ?f ?k)] => change (sig (@upd kernel T p i f k)) with (sig k)
  | H : context [sig (@upd kernel ?T ?p ?i ?f ?k)] |- _ => change (sig (@upd kernel T p i f k)) with (sig k) in H
  | |- context [sig (if ?b then _ else _)] => destruct b
  | H : context [sig (if ?b then _ else _)] |- _ => destruct b
  end.
(** What is known of a call that returned; extended below. *)
Ltac sig_hyp H := fail.
Ltac sig_hyps := repeat match goal with H : _ = Ok _ |- _ => sig_hyp H end.
Create Rewrite HintDb sig.
Ltac sig_solve :=
  intros; ok_inv; sig_hyps; repeat (autorewrite with sig in *; sig_change); try congruence.

Lemma sig_put_tcb k t x : sig (put_tcb k t x) = sig k.
Proof. done. Qed.
Lemma sig_set_value k i v : sig (listSET_LIST_ITEM_VALUE k i v) = sig k.
Proof. done. Qed.
Lemma sig_insert k l i : sig (listINSERT k l i) = sig k.
Proof. done. Qed.
Lemma sig_insert_end k l i : sig (listINSERT_END k l i) = sig k.
Proof. done. Qed.
Lemma sig_yield k : sig (portYIELD k) = sig k.
Proof. done. Qed.
#[export] Hint Rewrite sig_put_tcb sig_set_value sig_insert sig_insert_end sig_yield : sig.
Lemma sig_add_ready k t : sig (prvAddTaskToReadyList k t) = sig k.
Proof. unfold prvAddTaskToReadyList, taskRECORD_READY_PRIORITY. sig_solve. Qed.
Lemma sig_reset_next k : sig (prvResetNextTaskUnblockTime k) = sig k.
Proof. unfold prvResetNextTaskUnblockTime. destruct (seq_head _ _); sig_solve. Qed.
Lemma sig_delayed k c n b : sig (add_to_delayed_list k c n b) = sig k.
Proof. unfold add_to_delayed_list. destruct (_ && _); cbv zeta; sig_solve. Qed.
Lemma sig_event_priority k t p : sig (set_event_priority k t p) = sig k.
Proof. unfold set_event_priority. sig_solve. Qed.
#[export] Hint Rewrite sig_add_ready sig_reset_next sig_delayed sig_event_priority : sig.

Lemma sig_remove k i k' : listREMOVE_ITEM k i = Ok k' -> sig k' = sig k.
Proof. unfold listREMOVE_ITEM. sig_solve. Qed.
Ltac sig_hyp H ::= apply sig_remove in H.
Lemma sig_remove_lists k t k' : remove_from_lists k t = Ok k' -> sig k' = sig k.
Proof. unfold remove_from_lists. sig_solve. Qed.
Lemma sig_add_delayed k n b k' : prvAddCurrentTaskToDelayedList k n b = Ok k' -> sig k' = sig k.
Proof. unfold prvAddCurrentTaskToDelayedList, set_delay_aborted. sig_solve. Qed.
Lemma sig_switch_delayed k k' : taskSWITCH_DELAYED_LISTS k = Ok k' -> sig k' = sig k.
Proof. unfold taskSWITCH_DELAYED_LISTS. sig_solve. Qed.
Ltac sig_hyp H ::= first [apply sig_remove in H | apply sig_remove_lists in H | apply sig_add_delayed in H | apply sig_switch_delayed in H].

Lemma sig_place k e n k' : vTaskPlaceOnEventList k e n = Ok k' -> sig k' = sig k.
Proof. unfold vTaskPlaceOnEventList. sig_solve. Qed.
Lemma sig_unblock fuel k now sw k' b : unblock_due fuel k now sw = Ok (k', b) -> sig k' = sig k.
Proof.
  revert k sw. induction fuel as [|fuel IH]; intros k sw; [done|]. cbn [unblock_due]. intros H. ok_inv; sig_change; try done.
  apply IH in H. sig_hyps. rewrite H, sig_add_ready. congruence.
Qed.
Lemma sig_tick k k' b : xTaskIncrementTick k = Ok (k', b) -> sig k' = sig k.
Proof.
  unfold xTaskIncrementTick. intros H. ok_inv; repeat match goal with H : unblock_due _ _ _ _ = Ok _ |- _ => apply sig_unblock in H end; sig_solve.
Qed.
Lemma sig_move_pending fuel k m k' b : move_pending fuel k m = Ok (k', b) -> sig k' = sig k.
Proof.
  revert k m. induction fuel as [|fuel IH]; intros k m; [done|]. cbn [move_pending]. intros H. ok_inv; try done; apply IH in H; sig_solve.
Qed.
Lemma sig_unwind n k k' : unwind_ticks n k = Ok k' -> sig k' = sig k.
Proof.
  revert k. induction n as [|n IH]; intros k; cbn [unwind_ticks]; intros H; ok_inv; [done|]; apply IH in H;
    repeat match goal with H : xTaskIncrementTick _ = Ok _ |- _ => apply sig_tick in H end; sig_solve.
Qed.
Lemma sig_remove_event k e k' b : xTaskRemoveFromEventList k e = Ok (k', b) -> sig k' = sig k.
Proof. unfold xTaskRemoveFromEventList. sig_solve. Qed.
Lemma sig_resume_isr k t k' b : xTaskResumeFromISR k t = Ok (k', b) -> sig k' = sig k.
Proof. unfold xTaskResumeFromISR. sig_solve. Qed.
Lemma sig_priority_set k t p k' : vTaskPrioritySet k t p = Ok k' -> sig k' = sig k.
Proof. unfold vTaskPrioritySet, set_priority, set_base_priority. sig_solve. Qed.
Lemma sig_resume k t k' : vTaskResume k t = Ok k' -> sig k' = sig k.
Proof. unfold vTaskResume. sig_solve. Qed.
Lemma sig_inherit k h k' b : xTaskPriorityInherit k h = Ok (k', b) -> sig k' = sig k.
Proof. unfold xTaskPriorityInherit, set_priority. sig_solve. Qed.
Lemma sig_disinherit k h k' b : xTaskPriorityDisinherit k h = Ok (k', b) -> sig k' = sig k.
Proof. unfold xTaskPriorityDisinherit, set_priority, set_mutexes_held. sig_solve. Qed.
Lemma sig_disinherit_timeout k h p k' : vTaskPriorityDisinheritAfterTimeout k h p = Ok k' -> sig k' = sig k.
Proof. unfold vTaskPriorityDisinheritAfterTimeout, set_priority. sig_solve. Qed.
Lemma sig_check k to n k' to' n' b : xTaskCheckForTimeOut k to n = Ok (k', to', n', b) -> sig k' = sig k.
Proof. unfold xTaskCheckForTimeOut, set_delay_aborted. sig_solve. Qed.

(** ** Interrupts *)

Record steady (k k' : kernel) : Prop := {
  sy_number : uxCurrentNumberOfTasks k' = uxCurrentNumberOfTasks k;
  sy_running : xSchedulerRunning k' = xSchedulerRunning k;
  sy_suspended : uxSchedulerSuspended k' = uxSchedulerSuspended k;
  sy_current : uxSchedulerSuspended k <> 0 -> pxCurrentTCB k' = pxCurrentTCB k;
}.
Lemma steady_sig k k' : sig k' = sig k -> steady k k'.
Proof. intros [= ]. by split. Qed.
Lemma steady_trans k1 k2 k3 : steady k1 k2 -> steady k2 k3 -> steady k1 k3.
Proof. intros [] []. split; try congruence. intros H. rewrite <- sy_current0 by done. apply sy_current1. congruence. Qed.

Lemma switch_steady k k' : vTaskSwitchContext k = Ok k' -> steady k k'.
Proof.
  unfold vTaskSwitchContext, taskSELECT_HIGHEST_PRIORITY_TASK. destruct (Z.eqb_spec (uxSchedulerSuspended k) 0) as [Hs|Hs]; cbn [negb]; intros H; ok_inv.
  - by split.
  - by apply steady_sig.
Qed.
Lemma interrupt_steady k i k' : run_interrupt k i = Ok k' -> steady k k'.
Proof.
  destruct i; cbn [run_interrupt]; unfold xPortSysTickHandler, xPortPendSVHandler, yield_if; intros H; ok_inv.
  - apply steady_sig. match goal with H : _ = Ok _ |- _ => apply sig_tick in H end. sig_solve.
  - by apply switch_steady in H as [].
  - by apply steady_sig.
  - by apply steady_sig.
  - apply steady_sig. match goal with H : _ = Ok _ |- _ => apply sig_remove_event in H end. sig_solve.
  - apply steady_sig. match goal with H : _ = Ok _ |- _ => apply sig_resume_isr in H end. sig_solve.
Qed.
Lemma interrupts_steady ints k k' : run_interrupts ints k = Ok k' -> steady k k'.
Proof.
  unfold run_interrupts. revert k. induction ints as [|i ints IH]; intros k; cbn [res_fold]; intros H; ok_inv; [by apply steady_sig|].
  eapply steady_trans; [by eapply interrupt_steady|by apply IH].
Qed.

(** ** Calls *)

Lemma resume_steady k k' b :
  xTaskResumeAll k = Ok (k', b) -> sig k' = sig (k <| uxSchedulerSuspended := u32 (uxSchedulerSuspended k - 1) |>).
Proof.
  unfold xTaskResumeAll. set (k0 := k <| uxSchedulerSuspended := _ |>). clearbody k0. intros H. ok_inv;
    repeat match goal with
    | H : move_pending _ _ _ = Ok _ |- _ => apply sig_move_pending in H
    | H : unwind_ticks _ _ = Ok _ |- _ => apply sig_unwind in H
    end; sig_solve.
Qed.
Lemma sig_suspend k t k' : xSchedulerRunning k = true -> vTaskSuspend k t = Ok k' -> sig k' = sig k.
Proof.
  unfold vTaskSuspend, set_notify_state. intros Hr H. apply res_bind_ok in H as (t' & _ & H). apply res_bind_ok in H as (k1 & H1 & H).
  apply sig_remove_lists in H1. set (k2 := if ucNotifyState _ =? _ then _ else _) in H.
  assert (sig k2 = sig k) as H2 by (rewrite <- H1; unfold k2; by destruct (_ =? _)). clearbody k2.
  set (k3 := if xSchedulerRunning k2 then _ else _) in H.
  assert (sig k3 = sig k) as H3 by (unfold k3; destruct (xSchedulerRunning k2); [by rewrite sig_reset_next|done]). clearbody k3.
  assert (xSchedulerRunning k3 = true) as Hr3 by (injection H3; congruence). rewrite Hr3 in H. sig_solve.
Qed.

(** The number of tasks and the running task, after a call. *)
Definition kept (k k' : kernel) : Prop :=
  uxCurrentNumberOfTasks k' = uxCurrentNumberOfTasks k /\ pxCurrentTCB k' = pxCurrentTCB k.
Lemma kept_sig k k' : sig k' = sig k -> kept k k'.
Proof. by intros [= ]. Qed.

(** A call that suspends the scheduler, changes nothing else and resumes it. *)
Lemma kept_resume k k1 k' b :
  uxSchedulerSuspended k = 0 -> steady (vTaskSuspendAll k) k1 -> xTaskResumeAll k1 = Ok (k', b) -> kept k k' /\ kept k (portYIELD k').
Proof.
  intros Hs [] [= En _ Ec _]%resume_steady. cbn in *. rewrite Hs in *. unfold kept. cbn. rewrite En, Ec. by rewrite sy_number0, sy_current0.
Qed.
Lemma kept_yield k k' (b : bool) : kept k k' /\ kept k (portYIELD k') -> kept k (if b then k' else portYIELD k').
Proof. intros []. by destruct b. Qed.
Lemma steady_body k0 k1 k2 ints k3 : steady k0 k1 -> sig k2 = sig k1 -> run_interrupts ints k2 = Ok k3 -> steady k0 k3.
Proof. intros S E%steady_sig H%interrupts_steady. eapply steady_trans; [done|]. by eapply steady_trans. Qed.

Lemma delay_kept i1 i2 k n k' :
  vTaskDelay (run_interrupts i1) (run_interrupts i2) k n = Ok k' -> kept k k'.
Proof.
  unfold vTaskDelay. intros H. apply res_bind_ok in H as ([k3 b] & H & E). apply ok_inj in E as <-. destruct (0 <? n); [|by ok_inv].
  apply res_bind_ok in H as (u & Hs & H). destruct (Z.eqb_spec (uxSchedulerSuspended k) 0) as [Hz|]; [|done].
  apply res_bind_ok in H as (k1 & H1%interrupts_steady & H). apply res_bind_ok in H as (k2 & H2%sig_add_delayed & H).
  apply res_bind_ok in H as (k4 & H3 & H). eapply kept_yield, kept_resume; [done| |done]. by eapply steady_body.
Qed.
Lemma delay_until_kept i1 i2 k last inc k' w b :
  xTaskDelayUntil (run_interrupts i1) (run_interrupts i2) k last inc = Ok (k', w, b) -> kept k k' /\ uxSchedulerSuspended k' = 0.
Proof.
  unfold xTaskDelayUntil. intros H. apply res_bind_ok in H as (u & _ & H). apply res_bind_ok in H as (u' & Hs & H).
  destruct (Z.eqb_spec (uxSchedulerSuspended k) 0) as [Hz|]; [|done].
  apply res_bind_ok in H as (k1 & H1%interrupts_steady & H). cbv zeta in H. apply res_bind_ok in H as (k2 & H2 & H).
  assert (sig k2 = sig k1) as S2 by (destruct (should_delay _ _ _); [by apply sig_add_delayed in H2|by ok_inv]).
  apply res_bind_ok in H as (k3 & H3 & H). apply res_bind_ok in H as ([k4 b4] & H4 & E). apply ok_inj, pair_equal_spec in E as [E _].
  apply pair_equal_spec in E as [<- _]. pose proof (steady_body _ _ _ _ _ H1 S2 H3) as S. split.
  - eapply kept_yield, kept_resume; done.
  - apply resume_steady in H4 as [= _ _ _ Hu]. assert (uxSchedulerSuspended k4 = 0) as E4.
    { rewrite Hu, (sy_suspended _ _ S). unfold vTaskSuspendAll. rsimpl. by rewrite Hz. }
    by destruct b4.
Qed.
Lemma wait_kept i1 i2 k e n k' :
  uxSchedulerSuspended k = 0 -> wait_event (run_interrupts i1) (run_interrupts i2) k e n = Ok k' -> kept k k'.
Proof.
  unfold wait_event. intros Hs H. apply res_bind_ok in H as (k1 & H1%interrupts_steady & H). apply res_bind_ok in H as (k2 & H2%sig_place & H).
  apply res_bind_ok in H as (k3 & H3 & H). apply res_bind_ok in H as ([k4 b] & H4 & E). apply ok_inj in E as <-.
  eapply kept_yield, kept_resume; [done| |done]. by eapply steady_body.
Qed.
Lemma sig_abort k t k' b : abort_body k t = Ok (k', b) -> sig k' = sig k.
Proof. unfold abort_body, set_delay_aborted. sig_solve. Qed.
Lemma abort_kept i1 i2 k t k' b :
  uxSchedulerSuspended k = 0 -> xTaskAbortDelay (run_interrupts i1) (run_interrupts i2) k t = Ok (k', b) -> kept k k'.
Proof.
  unfold xTaskAbortDelay. intros Hs H. apply res_bind_ok in H as (k1 & H1%interrupts_steady & H). apply res_bind_ok in H as ([k2 b2] & H2 & H).
  apply res_bind_ok in H as (k3 & H3 & H). apply res_bind_ok in H as ([k4 b4] & H4 & E).
  apply ok_inj, pair_equal_spec in E as [<- <-].
  eapply kept_resume; [done| |done]. eapply steady_body; [done| |done]. fold (abort_body k1 t) in H2.
  destruct (eTaskGetState k1 t); ok_inv; try done. by apply sig_abort in H2.
Qed.

Lemma call_kept {stc : Strict} idle k c k' : inv idle k -> may_call idle k c -> run_call k c = Ok k' -> kept k k'.
Proof.
  intros I M. destruct c; cbn [run_call may_call] in *; unfold yield_if; intros H.
  - by ok_inv.
  - ok_inv. match goal with H : _ = Ok _ |- _ => by apply resume_steady in H as [= ] end.
  - by eapply delay_kept.
  - ok_inv. by eapply delay_until_kept.
  - eapply wait_kept; [|done]. tauto.
  - change (run_interrupt k (Signal e) = Ok k') in H. cbn [run_interrupt] in H. apply kept_sig. unfold yield_if in H. ok_inv; [done|].
    match goal with H : _ = Ok _ |- _ => apply sig_remove_event in H end. sig_solve.
  - by eapply kept_sig, sig_priority_set.
  - by eapply kept_sig, (sig_suspend _ _ _ (inv_running _ _ I)).
  - by eapply kept_sig, sig_resume.
  - apply res_bind_ok in H as ([k1 b] & H & E). ok_inv. by eapply abort_kept.
  - apply kept_sig. ok_inv. match goal with H : _ = Ok _ |- _ => by apply sig_inherit in H end.
  - apply kept_sig. unfold give_mutex, yield_if in H. ok_inv;
      repeat match goal with H : _ = Ok _ |- _ => first [apply sig_disinherit in H|apply sig_remove_event in H] end; sig_solve.
  - apply kept_sig. ok_inv. unfold pvTaskIncrementMutexHeldCount. cbn [fst]. by destruct (pxCurrentTCB k).
Qed.
End RtosSteady.
