(* ===== verification/RtosBoot.v ===== *)
(** * From the start of the scheduler on

    The creation of tasks before the scheduler starts, the states a started kernel
    can reach, and what holds in all of them. *)

From Stdlib Require Import Sorting.Sorted.
From S2P Require Import Prelude RtosList RtosSeq RtosSched RtosSchedInv RtosTick RtosSchedProps RtosRun.
From stdpp Require Import list.
#[local] Set Warnings "-clear-no-such-hyp".
#[local] Open Scope Z_scope.

Module RtosBoot.
Export RtosRun.

(** ** Creating tasks *)

(** The variables of [tasks.c] before any call. *)
Definition blank : kernel := {|
  kst := mkStore ∅ ∅; tcbs := ∅; pxCurrentTCB := None;
  pxDelayedTaskList := DelayedTaskList1; pxOverflowDelayedTaskList := DelayedTaskList2;
  uxTopReadyPriority := 0; xTickCount := 0; xPendedTicks := 0; xYieldPending := false; xNumOfOverflows := 0;
  xNextTaskUnblockTime := 0; uxSchedulerSuspended := 0; uxCurrentNumberOfTasks := 0; uxTaskNumber := 0;
  uxDeletedTasksWaitingCleanUp := 0; xSchedulerRunning := false; xPendSV := false |}.

(** The part of [xTaskCreate] that follows the allocation of the memory. *)
Definition create_task (k : kernel) (task : Z * Z) : res kernel :=
  let '(t, p) := task in
  let! k := prvInitialiseNewTask k t p in prvAddNewTaskToReadyList k t.
Definition boot (tasks : list (Z * Z)) : res kernel :=
  let! k := res_fold create_task blank tasks in Ok (start_variables k).

(** A kernel whose items are all off their lists. *)
Lemma wf_no_tasks now k :
  (forall i, container k i = None) -> (forall l, tasks_on k l = []) ->
  (pxDelayedTaskList k = DelayedTaskList1 /\ pxOverflowDelayedTaskList k = DelayedTaskList2) ->
  0 <= uxTopReadyPriority k < configMAX_PRIORITIES -> (forall t, 0 <= priority k t < configMAX_PRIORITIES) ->
  is_u 32 (xTickCount k) -> wf None now k.
Proof.
  intros Hc Ho Hl Ht Hp Hi. split; try done; try (intros; rewrite Hc in *; done).
  - split; [intros l; fold (tasks_on k l); rewrite Ho; constructor|]. intros i l. fold (tasks_on k l) (container k i).
    rewrite Hc, Ho. set_solver.
  - by left.
  - intros l _. rewrite Ho. constructor.
Qed.

Lemma on_initialised (ls : list klist) (st : RtosSeq.store kitem klist) :
  (forall l, on st l = []) -> let st' := foldl (fun st l => put_list st l (mkSl [] [])) st ls in
  (forall l, on st' l = []) /\ s_items st' = s_items st.
Proof.
  revert st. induction ls as [|m ls IH]; intros st Hst; [done|]. cbn [foldl].
  destruct (IH (put_list st m (mkSl [] []))) as [H1 H2]; [|by split].
  intros l. unfold on. rewrite the_list_put. destruct (decide (m = l)); [done|apply Hst].
Qed.

(** The state between two creations, [ts] being the tasks created so far. *)
Record booting (ts : list (Z * Z)) (k : kernel) : Prop := {
  bt_wf : wf None 0 k;
  bt_tick : xTickCount k = 0;
  bt_suspended : uxSchedulerSuspended k = 0;
  bt_running : xSchedulerRunning k = false;
  bt_pended : xPendedTicks k = 0;
  bt_number : uxCurrentNumberOfTasks k = Z.of_nat (length ts);
  bt_free t : t ∉ ts.*1 -> container k (StateItem t) = None;
  bt_state t l : container k (StateItem t) = Some l -> exists p, l = ReadyTasks p;
  bt_event t : container k (EventItem t) = None;
  bt_base t : 0 <= uxBasePriority (tcb k t) < configMAX_PRIORITIES;
  bt_ready t p : (t, p) ∈ ts -> ready k t /\ priority k t = p;
  bt_current : match ts with [] => pxCurrentTCB k = None | _ => settled (stc := True) k end;
}.

Lemma blank_booting : booting [] blank.
Proof.
  split; try done.
  - by apply wf_no_tasks.
  - set_solver.
Qed.

Lemma put_free_item k i v : container k i = None -> k <| kst := put_item (kst k) i (mkSi v None) |> = listSET_LIST_ITEM_VALUE k i v.
Proof. intros Hc. unfold listSET_LIST_ITEM_VALUE, seq_set_value. unfold container in Hc. by rewrite Hc. Qed.

(** A new control block, with its items off all lists. *)
Lemma init_task_ok ts k t p :
  booting ts k -> t ∉ ts.*1 -> 0 <= p < configMAX_PRIORITIES ->
  exists k', prvInitialiseNewTask k t p = Ok k' /\ booting ts k' /\ priority k' t = p /\ pxCurrentTCB k' = pxCurrentTCB k.
Proof.
  intros B Ht Hp. unfold prvInitialiseNewTask. rewrite (proj2 (Z.ltb_lt p _)), (proj2 (Z.leb_gt _ p)) by lia. cbn [assert res_bind].
  set (x := mkTcb p p 0 0 0 false). set (k1 := put_tcb k t x).
  assert (container k (StateItem t) = None) as Hs by by apply (bt_free _ _ B).
  rewrite (put_free_item k1 (StateItem t)) by done. set (k2 := listSET_LIST_ITEM_VALUE k1 (StateItem t) 0).
  assert (forall i, container k2 i = container k i) as C2 by (intros i; exact (container_set k1 _ _ i)).
  rewrite (put_free_item k2 (EventItem t)) by (rewrite C2; apply (bt_event _ _ B)).
  eexists. split; [done|]. set (k3 := listSET_LIST_ITEM_VALUE k2 _ _).
  assert (forall i, container k3 i = container k i) as C3 by (intros i; transitivity (container k2 i); [exact (container_set k2 _ _ i)|apply C2]).
  assert (forall u, priority k3 u = if decide (t = u) then p else priority k u) as P3 by (intros u; exact (priority_put k t x u)).
  assert (forall u, ready k3 u <-> u <> t /\ ready k u) as R3.
  { intros u. unfold ready. rewrite C3, P3. destruct (decide (t = u)) as [<-|]; [rewrite Hs|]; naive_solver. }
  split_and!; [|by rewrite P3, decide_True|done]. destruct B as [W ? ? ? ? ? Hf Hst He Hb Hr Hcur]. split; try done.
  - apply wf_set_value; [|done]. apply wf_set_value; [|exact Hs]. apply wf_put_tcb_off; [done|intros q; congruence|done].
  - intros u Hu. rewrite C3. auto.
  - intros u l. rewrite C3. apply Hst.
  - intros u. rewrite C3. auto.
  - intros u. change (tcb k3 u) with (tcb k1 u). unfold k1. rewrite tcb_put. by destruct (decide (t = u)).
  - intros u q Hu. destruct (Hr u q Hu) as [H1 H2]. assert (u <> t) as Hne by (intros ->; apply Ht; by apply (list_elem_of_fmap_2 fst ts (t, q))).
    rewrite R3, P3, decide_False by congruence. done.
  - destruct ts as [|tp ts]; [done|]. destruct Hcur as (c & Hc & Hrc & Hmax). exists c. split; [done|].
    assert (c <> t) as Hct by (intros ->; by unfold ready in Hrc; rewrite Hs in Hrc).
    split; [by apply R3|]. intros HS u [Hu Hru]%R3. rewrite !P3, !decide_False by congruence. by apply Hmax.
Qed.

Lemma no_tasks_on now k l : wf None now k -> (forall i, container k i = None) -> tasks_on k l = [].
Proof.
  intros W Hc. destruct (tasks_on k l) as [|i xs] eqn:E; [done|].
  assert (container k i = Some l) as Hi by (apply (tasks_on_iff _ _ _ _ _ W); rewrite E; set_solver). by rewrite Hc in Hi.
Qed.
Lemma initialise_lists_wf k :
  wf None 0 k -> (forall i, container k i = None) ->
  wf None 0 (prvInitialiseTaskLists k) /\ (forall i, container (prvInitialiseTaskLists k) i = None).
Proof.
  intros W Hc. unfold prvInitialiseTaskLists. set (init := fun st l => put_list st l (mkSl [] [])).
  destruct (on_initialised (ReadyTasks <$> seqZ 0 configMAX_PRIORITIES) (kst k)) as [H1 I1]; [intros l; by apply (no_tasks_on 0)|].
  destruct (on_initialised [DelayedTaskList1; DelayedTaskList2; PendingReadyList; TasksWaitingTermination; SuspendedTaskList] _ H1) as [H2 I2].
  fold init in H1, I1, H2, I2. set (st := foldl init _ [_; _; _; _; _]) in *.
  assert (forall i, s_container (item st i) = None) as Hst by (intros i; unfold item; rewrite I2, I1; apply Hc).
  clearbody st. split; [|exact Hst]. apply wf_no_tasks; try done; apply W.
Qed.

(** A task that is off all lists is added; [k] is as [prvAddNewTaskToReadyList] leaves
    it but for the ready list. *)
Lemma add_ready_booting ts k t p :
  wf None 0 k -> xTickCount k = 0 -> uxSchedulerSuspended k = 0 -> xSchedulerRunning k = false -> xPendedTicks k = 0 ->
  uxCurrentNumberOfTasks k = Z.of_nat (length ((t, p) :: ts)) -> (forall u, u ∉ ts.*1 -> container k (StateItem u) = None) ->
  (forall u l, container k (StateItem u) = Some l -> exists q, l = ReadyTasks q) ->
  (forall u, container k (EventItem u) = None) -> (forall u, 0 <= uxBasePriority (tcb k u) < configMAX_PRIORITIES) ->
  (forall u q, (u, q) ∈ ts -> ready k u /\ priority k u = q) -> t ∉ ts.*1 -> priority k t = p ->
  (exists c, pxCurrentTCB k = Some c /\ (c = t \/ ready k c) /\ p <= priority k c /\ forall u, ready k u -> priority k u <= priority k c) ->
  booting ((t, p) :: ts) (prvAddTaskToReadyList k t).
Proof.
  intros W Ht Hs Hr Hd Hn Hf Hst He Hb Hrd Hni Hp (c & Hc & Hcr & Hcp & Hmax).
  destruct (add_ready_ok None 0 k t W (Hf t Hni) (fun _ => He t)) as [W' M]. rewrite He in M.
  pose proof (later_moved _ _ _ M) as L. destruct M as [F S E V]. pose proof (frame_priority _ _ c F) as Pc.
  assert (forall u, ready (prvAddTaskToReadyList k t) u <-> u = t \/ ready k u) as R.
  { intros u. unfold ready. rewrite S, (frame_priority _ _ _ F). destruct (decide (t = u)) as [<-|]; [|naive_solver]. split; auto. }
  destruct F. split; try congruence.
  - intros u Hu. cbn in Hu. rewrite S, decide_False by set_solver. apply Hf. set_solver.
  - intros u l. rewrite S. destruct (decide (t = u)); [intros [= <-]; by eexists|apply Hst].
  - intros u. rewrite E. by destruct (decide (t = u)).
  - intros u. rewrite fr_tcb0. apply Hb.
  - intros u q [[= -> ->]|Hu]%elem_of_cons; rewrite R, (later_priority _ _ _ L); [auto|]. destruct (Hrd u q Hu). auto.
  - exists c. split; [congruence|]. rewrite R. split; [tauto|]. intros _ u [->|Hu]%R; rewrite !(later_priority _ _ _ L); [lia|auto].
Qed.

Lemma create_task_ok ts k t p :
  booting ts k -> t ∉ ts.*1 -> 0 <= p < configMAX_PRIORITIES -> Z.of_nat (length ts) < 2 ^ 32 - 1 ->
  exists k', create_task k (t, p) = Ok k' /\ booting ((t, p) :: ts) k'.
Proof.
  intros B0 Ht Hp Hlen. unfold create_task. destruct (init_task_ok ts k t p B0 Ht Hp) as (k1 & -> & B & Hpt & _). cbn [res_bind].
  clear k B0. destruct B as [W Hti Hs Hr Hd Hn Hf Hst He Hb Hrd Hcur]. unfold prvAddNewTaskToReadyList. rewrite Hn.
  assert (u32 (Z.of_nat (length ts) + 1) = Z.of_nat (length ((t, p) :: ts))) as -> by (cbn [length]; rewrite (u_small 32); unfold is_u; lia).
  set (n := Z.of_nat (length ((t, p) :: ts))).
  assert (forall k', xSchedulerRunning k' = false -> booting ((t, p) :: ts) k' ->
    exists k'', (let! c := current k' in Ok (if xSchedulerRunning k' && (priority k' c <? priority k' t) then portYIELD k' else k')) = Ok k'' /\
      booting ((t, p) :: ts) k'') as Hlast.
  { intros k' Hr' B'. destruct (bt_current _ _ B') as (c & Hc & _). unfold current. rewrite Hc. cbn [res_bind]. rewrite Hr'. by exists k'. }
  destruct ts as [|tp ts].
  - rsimpl. rewrite Hcur. rsimpl. cbn [n length Z.of_nat Z.eqb Pos.eqb Pos.of_succ_nat].
    assert (forall i, container k1 i = None) as Hc0 by (intros [u|u]; [apply Hf; set_solver|apply He]).
    destruct (initialise_lists_wf (k1 <| uxCurrentNumberOfTasks := 1 |> <| pxCurrentTCB := Some t |>)) as [W2 C2]; [destruct W; by split|exact Hc0|].
    set (k2 := prvInitialiseTaskLists _) in *.
    assert (tcbs k2 = tcbs k1 /\ xTickCount k2 = xTickCount k1 /\ uxSchedulerSuspended k2 = uxSchedulerSuspended k1 /\
      xSchedulerRunning k2 = xSchedulerRunning k1 /\ xPendedTicks k2 = xPendedTicks k1 /\ uxCurrentNumberOfTasks k2 = 1 /\
      pxCurrentTCB k2 = Some t) as (T2 & Ti2 & S2 & R2 & D2 & N2 & Hc2) by (split_and!; reflexivity).
    clearbody k2. assert (forall u, tcb k2 u = tcb k1 u) as T2' by (intros u; unfold tcb; by rewrite T2).
    match goal with |- context [prvAddTaskToReadyList ?kk t] => set (k3 := kk) end. assert (wf None 0 k3) as W3 by (destruct W2; by split).
    apply Hlast; [unfold prvAddTaskToReadyList, taskRECORD_READY_PRIORITY; destruct (_ <? _); exact (eq_trans R2 Hr)|].
    apply add_ready_booting; [exact W3|exact (eq_trans Ti2 Hti)|exact (eq_trans S2 Hs)|exact (eq_trans R2 Hr)|exact (eq_trans D2 Hd)|
      exact N2|intros u _; apply C2|intros u l; change (container k3) with (container k2); by rewrite C2|intros u; apply C2| |set_solver|set_solver| |].
    + intros u. change (tcb k3 u) with (tcb k2 u). rewrite T2'. apply Hb.
    + change (uxPriority (tcb k2 t) = p). by rewrite T2'.
    + exists t. split; [exact Hc2|]. split; [by left|]. change (p <= uxPriority (tcb k2 t) /\ forall u, ready k3 u -> priority k3 u <= priority k3 t).
      rewrite T2'. split; [unfold priority in Hpt; lia|]. intros u Hu. unfold ready in Hu. change (container k3) with (container k2) in Hu. by rewrite C2 in Hu.
  - destruct Hcur as (c & Hc & Hrc & Hmax). rsimpl. rewrite Hc, Hr. cbn [negb andb].
    set (k2 := if _ <=? _ then _ else _).
    assert (exists c', k2 = k1 <| uxCurrentNumberOfTasks := n |> <| pxCurrentTCB := Some c' |> /\ (c' = t \/ ready k1 c') /\
      p <= priority k1 c' /\ forall u, ready k1 u -> priority k1 u <= priority k1 c') as (c' & E2 & Hc1 & Hc2 & Hc3).
    { unfold k2. change (priority _ c) with (priority k1 c). change (priority _ t) with (priority k1 t).
      destruct (Z.leb_spec (priority k1 c) (priority k1 t)).
      - exists t. split_and!; [done|by left|lia|]. intros u Hu. specialize (Hmax Logic.I u Hu). lia.
      - exists c. split_and!; [|by right|lia|by apply Hmax]. by destruct k1; cbn in Hc; subst. }
    rewrite E2. clear k2 E2. apply Hlast; [by unfold prvAddTaskToReadyList, taskRECORD_READY_PRIORITY; destruct (_ <? _)|].
    apply add_ready_booting; try assumption; [destruct W; by split|done|]. by exists c'.
Qed.

Lemma create_tasks_ok ts tasks k :
  booting ts k -> NoDup (tasks.*1 ++ ts.*1) -> Forall (fun tp => 0 <= tp.2 < configMAX_PRIORITIES) tasks ->
  Z.of_nat (length tasks + length ts) < 2 ^ 32 ->
  exists k', res_fold create_task k tasks = Ok k' /\ booting (reverse tasks ++ ts) k'.
Proof.
  revert ts k. induction tasks as [|[t p] tasks IH]; intros ts k B Hnd Hall Hlen; [by exists k|].
  cbn [res_fold]. inversion Hall as [|? ? Hp Hall']; subst. cbn in Hnd. apply NoDup_cons in Hnd as [Hni Hnd].
  destruct (create_task_ok ts k t p B) as (k1 & -> & B1); [set_solver|done|cbn in Hlen; lia|]. cbn [res_bind].
  destruct (IH ((t, p) :: ts) k1 B1) as (k' & -> & B'); [|done|cbn in *; lia|].
  - cbn. rewrite <- Permutation_middle. by apply NoDup_cons.
  - exists k'. split; [done|]. by rewrite reverse_cons, <- app_assoc.
Qed.

(** The tasks an application creates, the idle task among them. *)
Definition task_set (idle : Z) (tasks : list (Z * Z)) : Prop :=
  NoDup tasks.*1 /\ Forall (fun tp => 0 <= tp.2 < configMAX_PRIORITIES) tasks /\ (idle, 0) ∈ tasks /\
  Z.of_nat (length tasks) < 2 ^ 32.

(** The scheduler is started. *)
Lemma started_inv {stc : Strict} idle ts k : booting ts k -> (idle, 0) ∈ ts -> inv idle (start_variables k).
Proof.
  intros B Hi. pose proof (bt_ready _ _ B) as Hr. destruct B as [W Hti Hs Hrun Hd Hn Hf Hst He Hb _ Hcur].
  assert (settled k) as Hset; [apply settled_any|].
  { destruct ts as [|tp ts]; [set_solver|done]. }
  split; try done.
  - assert (forall t l, l = DelayedTaskList1 \/ l = DelayedTaskList2 -> container k (StateItem t) <> Some l) as Hnd'
      by (intros t l Hl Ht; destruct (Hst t l Ht) as [p ->]; by destruct Hl).
    destruct W as [H1 H2 H3 H4 H5 H6 H7 H8 H9 H10]. split; try done.
    + intros t Ht. exfalso. apply (Hnd' t (pxDelayedTaskList k)); [|exact Ht]. destruct H2 as [[-> _]|[-> _]]; auto.
    + intros t Ht. exfalso. apply (Hnd' t (pxOverflowDelayedTaskList k)); [|exact Ht]. destruct H2 as [[_ ->]|[_ ->]]; auto.
  - by destruct Hset as (c & ? & _); exists c.
  - change (0 < uxCurrentNumberOfTasks k). rewrite Hn. destruct ts; [set_solver|cbn; lia].
  - change (is_u 32 (uxSchedulerSuspended k)). by rewrite Hs.
  - change (is_u 32 (xPendedTicks k) /\ (uxSchedulerSuspended k = 0 -> xPendedTicks k = 0)). by rewrite Hd.
  - by apply (Hr idle 0).
  - intros _ t. change (pending k t = false). unfold pending. by rewrite He.
  - by right.
Qed.
Lemma boot_ok {stc : Strict} idle tasks :
  task_set idle tasks ->
  exists k, boot tasks = Ok k /\ inv idle k /\ forall t p, (t, p) ∈ tasks -> ready k t /\ priority k t = p.
Proof.
  intros (Hnd & Hall & Hi & Hlen). unfold boot.
  destruct (create_tasks_ok [] tasks blank blank_booting) as (k & -> & B); [by rewrite app_nil_r|done|by rewrite Nat.add_0_r|].
  cbn [res_bind]. eexists. split; [done|]. rewrite app_nil_r in B. split; [by eapply started_inv, elem_of_reverse|].
  intros t p Ht. apply (bt_ready _ _ B). by apply elem_of_reverse.
Qed.

(** ** The states a started kernel reaches *)

Inductive event := Int (i : interrupt) | Call (c : call).
Definition run_event (k : kernel) (e : event) : res kernel :=
  match e with Int i => run_interrupt k i | Call c => run_call k c end.
(** A task runs, and calls, when no switch is pending; interrupts come at any time. *)
Definition enabled (idle : Z) (k : kernel) (e : event) : Prop :=
  match e with Int _ => True | Call c => xPendSV k = false /\ may_call idle k c end.

Inductive reachable (idle : Z) (tasks : list (Z * Z)) : kernel -> Prop :=
  | reach_boot k : boot tasks = Ok k -> reachable idle tasks k
  | reach_step k e k' : reachable idle tasks k -> enabled idle k e -> run_event k e = Ok k' -> reachable idle tasks k'.

(** The step does not give a mutex in a way that drops the switch asked for. *)
Definition keeps_switch (k : kernel) (e : event) : Prop :=
  match e with Call (Disinherit m) => drops_switch k m = false | _ => True end.
(** The states in which no switch has been dropped since the start or since the last
    context switch. *)
Inductive orderly (idle : Z) (tasks : list (Z * Z)) : kernel -> Prop :=
  | orderly_boot k : boot tasks = Ok k -> orderly idle tasks k
  | orderly_switch k k' :
      reachable idle tasks k -> xPendSV k = true -> uxSchedulerSuspended k = 0 -> run_event k (Int PendSV) = Ok k' -> orderly idle tasks k'
  | orderly_step k e k' : orderly idle tasks k -> enabled idle k e -> keeps_switch k e -> run_event k e = Ok k' -> orderly idle tasks k'.

Section strictness.
Context {stc : Strict}.

Lemma call_inv idle k c :
  inv idle k -> xPendSV k = false -> may_call idle k c -> (strict -> keeps_switch k (Call c)) -> exists k', run_call k c = Ok k' /\ inv idle k'.
Proof.
  intros I Hp Hm Hk. destruct (inv_current _ _ I) as [cur Hc]. destruct c as [| |n i1 i2|last inc i1 i2|e n i1 i2|e|t p|t|t|t i1 i2|t|e|]; cbn [run_call may_call] in *.
  - eexists. split; [done|]. by apply suspend_all_inv.
  - destruct (resume_all_inv idle k I Hp Hm) as (k' & b & -> & I'). by exists k'.
  - destruct Hm as (Hn & Hs & Hne). apply (delay_inv idle k cur); try done. congruence.
  - destruct Hm as (Hn & Hs & Hne). destruct (delay_until_inv idle k cur last inc i1 i2) as (k' & b & -> & I'); try done; [congruence|]. by exists k'.
  - destruct Hm as (Hn & Hs & Hne). apply (wait_event_inv idle k cur); try done. congruence.
  - exact (interrupt_inv idle k (Signal e) I).
  - by apply priority_set_inv.
  - destruct Hm as (Hne & Hl & Hs). destruct (container k (StateItem t)) as [l|] eqn:El; [|done].
    apply (suspend_inv idle k t l cur); try done. intros ->. auto.
  - by apply resume_task_inv.
  - destruct (abort_delay_inv idle k t i1 i2 I Hp Hm) as (k' & b & -> & I'). by exists k'.
  - destruct (inherit_inv idle k t cur I Hc) as (k' & b & -> & I' & _). by exists k'.
  - apply (give_mutex_inv idle k e cur); auto.
  - eexists. split; [done|]. by apply hold_mutex_inv.
Qed.
Lemma event_inv idle k e :
  inv idle k -> enabled idle k e -> (strict -> keeps_switch k e) -> exists k', run_event k e = Ok k' /\ inv idle k'.
Proof. intros I. destruct e as [i|c]; [intros _ _; by apply interrupt_inv|intros [? ?] ?; by apply call_inv]. Qed.
Lemma reachable_lenient idle tasks k : ~ strict -> task_set idle tasks -> reachable idle tasks k -> inv idle k.
Proof.
  intros Hn Ht. induction 1 as [k E|k e k' _ IH He E].
  - destruct (boot_ok idle tasks Ht) as (k' & E' & I & _). congruence.
  - destruct (event_inv idle k e IH He) as (k1 & E1 & I1); [done|]. congruence.
Qed.

End strictness.

Lemma reachable_inv idle tasks k : task_set idle tasks -> reachable idle tasks k -> inv (stc := False) idle k.
Proof. apply reachable_lenient. intros []. Qed.
(** A context switch picks the right task whatever was dropped before. *)
Lemma switch_strict idle k :
  inv (stc := False) idle k -> uxSchedulerSuspended k = 0 ->
  exists k', xPortPendSVHandler k = Ok k' /\ inv (stc := True) idle k' /\ settled (stc := True) k' /\ xPendSV k' = false.
Proof.
  intros I Hs. assert (inv (stc := True) idle (portYIELD k)) as I1 by (apply inv_strict; [done|by apply inv_yield]).
  exact (pendsv_inv (stc := True) idle (portYIELD k) I1 Hs).
Qed.
Lemma orderly_inv idle tasks k : task_set idle tasks -> orderly idle tasks k -> inv (stc := True) idle k.
Proof.
  intros Ht. induction 1 as [k E|k k' Hr Hp Hs E|k e k' _ IH He Hk E].
  - destruct (boot_ok (stc := True) idle tasks Ht) as (k' & E' & I & _). congruence.
  - destruct (switch_strict idle k (reachable_inv _ _ _ Ht Hr) Hs) as (k1 & E1 & I & _). cbn [run_event run_interrupt] in E.
    rewrite Hp in E. congruence.
  - destruct (event_inv (stc := True) idle k e IH He) as (k1 & E1 & I1); [done|]. congruence.
Qed.

(** C8: a started kernel never faults.  From every state that the created tasks reach
    by calls and interrupts, in any order and with any interrupts between the steps
    of the calls that suspend the scheduler, every interrupt handler and every call a
    task may make returns: no assertion fails (in particular the delayed list is
    empty when the tick count wraps, and a ready task is always found), no item is
    taken off a list it is not on, and all loops end. *)
Theorem sched_safe (idle : Z) (tasks : list (Z * Z)) (k : kernel) (e : event) :
  task_set idle tasks -> reachable idle tasks k -> enabled idle k e -> exists k', run_event k e = Ok k'.
Proof.
  intros Ht Hr He. destruct (event_inv (stc := False) idle k e (reachable_inv _ _ _ Ht Hr) He) as (k' & E & _); [done|]. by exists k'.
Qed.

(** C12: the running task is the right one as long as no switch is dropped.  Take any
    state that the created tasks reach by calls and interrupts in which, since the
    start or since the last context switch, no give of a mutex has dropped the switch
    that the lost priority asks for (queue.c drops it when a task waits for the mutex
    and the wake-up of that task asks for none).  If no context switch is pending and
    the scheduler is not suspended, the running task is ready and no ready task has a
    higher priority. *)
Theorem highest_priority_runs (idle : Z) (tasks : list (Z * Z)) (k : kernel) :
  task_set idle tasks -> orderly idle tasks k -> xPendSV k = false -> uxSchedulerSuspended k = 0 ->
  exists c, pxCurrentTCB k = Some c /\ container k (StateItem c) = Some (ReadyTasks (priority k c)) /\
    forall t p, container k (StateItem t) = Some (ReadyTasks p) -> p = priority k t /\ p <= priority k c.
Proof.
  intros Ht Hr Hp Hs. pose proof (orderly_inv _ _ _ Ht Hr) as I.
  destruct (inv_switch _ _ I Hs) as [|(c & Hc & Hrc & Hmax)]; [congruence|]. exists c. split; [done|]. split; [done|].
  intros t p Htp. pose proof (wf_state _ _ _ (inv_wf _ _ I) t _ Htp) as [-> _]. split; [done|]. by apply Hmax.
Qed.

(** A requested switch takes place.  In every reachable state the PendSV handler
    returns; if the scheduler is not suspended the processor then runs a ready task of
    the highest priority, and no switch is pending. *)
Theorem pendsv_switches (idle : Z) (tasks : list (Z * Z)) (k : kernel) :
  task_set idle tasks -> reachable idle tasks k ->
  exists k', xPortPendSVHandler k = Ok k' /\ xPendSV k' = false /\
    if uxSchedulerSuspended k =? 0
    then exists c, pxCurrentTCB k' = Some c /\ ready k' c /\ forall t, ready k' t -> priority k' t <= priority k' c
    else pxCurrentTCB k' = pxCurrentTCB k /\ xYieldPending k' = true.
Proof.
  intros Ht Hr. pose proof (reachable_inv _ _ _ Ht Hr) as I. destruct (Z.eqb_spec (uxSchedulerSuspended k) 0) as [Hs|Hs].
  - destruct (switch_strict idle k I Hs) as (k' & E & _ & (c & Hc & Hrc & Hmax) & Hp). exists k'. split; [done|]. split; [done|].
    exists c. split; [done|]. split; [done|]. by apply Hmax.
  - unfold xPortPendSVHandler, vTaskSwitchContext. rsimpl. rewrite (proj2 (Z.eqb_neq _ 0) Hs). by eexists.
Qed.

(** Three tasks and the idle task; task 3, of the highest priority, delays itself, a
    tick comes while the scheduler is suspended for that, and task 2 runs. *)
Definition some_tasks : list (Z * Z) := [(1, 1); (2, 2); (3, 3); (0, 0)].
Definition some_delay : event := Call (Delay 2 [SysTick] [Signal 5]).
Lemma some_tasks_ok : task_set 0 some_tasks.
Proof. split_and!; [repeat constructor; set_solver|repeat constructor; done|unfold some_tasks; set_solver|done]. Qed.
Definition after (r : res kernel) : kernel := match r with Ok k => k | Fault _ => blank end.
Definition some_start : kernel := after (boot some_tasks).
Definition some_delayed : kernel := after (run_event some_start some_delay).
Definition some_state : kernel := after (run_event some_delayed (Int PendSV)).
Lemma some_delayed_reachable : reachable 0 some_tasks some_delayed.
Proof.
  apply (reach_step _ _ some_start some_delay); [apply reach_boot; by vm_compute| |by vm_compute].
  split; [by vm_compute|]. split_and!; [lia|lia|by vm_compute|by vm_compute].
Qed.
Lemma some_state_reachable : reachable 0 some_tasks some_state.
Proof. apply (reach_step _ _ some_delayed (Int PendSV)); [exact some_delayed_reachable|done|by vm_compute]. Qed.
Lemma some_state_orderly : orderly 0 some_tasks some_state.
Proof. apply (orderly_switch _ _ some_delayed); [exact some_delayed_reachable|by vm_compute..]. Qed.

Lemma sched_safe_witness : exists k', run_event some_state (Call (SignalEvent 5)) = Ok k'.
Proof.
  apply (sched_safe 0 some_tasks some_state); [exact some_tasks_ok|exact some_state_reachable|].
  split; [by vm_compute|exact Logic.I].
Defined.
Lemma highest_priority_runs_witness :
  pxCurrentTCB some_state = Some 2 /\ container some_state (StateItem 3) = Some DelayedTaskList1 /\
  exists c, pxCurrentTCB some_state = Some c /\ container some_state (StateItem c) = Some (ReadyTasks (priority some_state c)) /\
    forall t p, container some_state (StateItem t) = Some (ReadyTasks p) -> p = priority some_state t /\ p <= priority some_state c.
Proof.
  split; [by vm_compute|]. split; [by vm_compute|].
  apply (highest_priority_runs 0 some_tasks some_state); [exact some_tasks_ok|exact some_state_orderly|by vm_compute|by vm_compute].
Defined.
Lemma pendsv_switches_witness :
  exists k', xPortPendSVHandler some_state = Ok k' /\ xPendSV k' = false /\
    if uxSchedulerSuspended some_state =? 0
    then exists c, pxCurrentTCB k' = Some c /\ ready k' c /\ forall t, ready k' t -> priority k' t <= priority k' c
    else pxCurrentTCB k' = pxCurrentTCB some_state /\ xYieldPending k' = true.
Proof. exact (pendsv_switches 0 some_tasks some_state some_tasks_ok some_state_reachable). Defined.
End RtosBoot.
