(* ===== verification/RtosTyped.v ===== *)
(** * What the kernel holds

    Every task that the kernel refers to is one that was created, every priority is a
    priority, the value of an event list item tells one, and the count of the mutexes a
    task holds changes only when it takes or gives one.  This needs none of the
    invariants on the lists: each function keeps it, whatever state it is called in. *)

From S2P Require Import Prelude Words RtosList RtosSeq RtosSched RtosSchedInv RtosTick RtosSchedProps RtosRun RtosSteady RtosBoot.
From stdpp Require Import list.
#[local] Set Warnings "-clear-no-such-hyp".
#[local] Open Scope Z_scope.

Module RtosTyped.
Export RtosSteady RtosBoot.

Definition is_priority (p : Z) : Prop := 0 <= p < configMAX_PRIORITIES.

(** The tasks whose waits nobody aborts. *)
Class Patient : Type := patient : Z -> Prop.
Definition nobody : Patient := fun _ => False.

(** [T] are the tasks, [H] says how many mutexes each holds. *)
Record typed {pt : Patient} (T : Z -> Prop) (H : Z -> Z) (k : kernel) : Prop := {
  ty_current c : pxCurrentTCB k = Some c -> T c;
  ty_item i l : container k i = Some l -> T (owner i);
  ty_on l i : i ∈ tasks_on k l -> T (owner i);
  ty_priority t : is_priority (priority k t);
  ty_base t : is_priority (uxBasePriority (tcb k t));
  ty_event t : T t -> 1 <= item_value k (EventItem t) <= configMAX_PRIORITIES;
  ty_held t : uxMutexesHeld (tcb k t) = H t;
  ty_patient t : patient t -> ucDelayAborted (tcb k t) = false;
}.

Section typed.
Context {pt : Patient} (T : Z -> Prop) (H : Z -> Z).
Implicit Types (k : kernel) (t c p : Z).
Abbreviation ok := (typed T H).

(** ** Changes of the state *)

Lemma typed_same k k' :
  ok k -> kst k' = kst k -> tcbs k' = tcbs k -> pxCurrentTCB k' = pxCurrentTCB k -> ok k'.
Proof.
  intros [] Es Et Ec. split.
  - by rewrite Ec.
  - intros i l. unfold container. rewrite Es. apply ty_item0.
  - intros l i. unfold tasks_on. rewrite Es. apply ty_on0.
  - intros t. unfold priority, tcb. rewrite Et. apply ty_priority0.
  - intros t. unfold tcb. rewrite Et. apply ty_base0.
  - intros t. unfold item_value. rewrite Es. apply ty_event0.
  - intros t. unfold tcb. rewrite Et. apply ty_held0.
  - intros t. unfold tcb. rewrite Et. apply ty_patient0.
Qed.
Lemma typed_store k st :
  ok k -> (forall i l, s_container (item st i) = Some l -> T (owner i)) -> (forall l i, i ∈ on st l -> T (owner i)) ->
  (forall t, T t -> 1 <= s_value (item st (EventItem t)) <= configMAX_PRIORITIES) -> ok (k <| kst := st |>).
Proof. intros [] Hi Ho Hv. split; try done. Qed.
Lemma typed_put k t x :
  ok k -> is_priority (uxPriority x) -> is_priority (uxBasePriority x) -> uxMutexesHeld x = H t ->
  (patient t -> ucDelayAborted x = false) -> ok (put_tcb k t x).
Proof.
  intros [] Hp Hb Hm Ha. split; try done; intros u; [rewrite priority_put|rewrite base_put|rewrite tcb_put|rewrite tcb_put]; destruct (decide (t = u)) as [<-|]; auto.
Qed.
Lemma typed_set_priority k t p : ok k -> is_priority p -> ok (set_priority k t p).
Proof. intros K Hp. apply typed_put; [done|done|apply K..]. Qed.
Lemma typed_set_base k t p : ok k -> is_priority p -> ok (set_base_priority k t p).
Proof. intros K Hp. apply typed_put; [done|apply (ty_priority _ _ _ K)|done|apply K..]. Qed.
Lemma typed_set_aborted k t (b : bool) : ok k -> (b = true -> ~ patient t) -> ok (set_delay_aborted k t b).
Proof.
  intros K Hb. apply typed_put; [done|apply (ty_priority _ _ _ K)|apply K..|]. destruct b; [|done]. intros Hp. by destruct (Hb eq_refl).
Qed.
Lemma typed_set_notify k t n : ok k -> ok (set_notify_state k t n).
Proof. intros K. apply typed_put; [done|apply (ty_priority _ _ _ K)|apply K..]. Qed.

Lemma typed_insert_with k l i s :
  ok k -> T (owner i) -> (forall j, j ∈ members s -> j = i \/ j ∈ tasks_on k l) ->
  ok (k <| kst := put_container (put_list (kst k) l s) i (Some l) |>).
Proof.
  intros K Hi Hs. apply typed_store; [done|..].
  - intros j m. rewrite container_put. destruct (decide (i = j)) as [<-|]; [done|apply (ty_item _ _ _ K)].
  - intros m j. rewrite on_put. destruct (decide (l = m)) as [<-|]; [|apply (ty_on _ _ _ K)].
    intros [->|Hj]%Hs; [done|by apply (ty_on _ _ _ K) in Hj].
  - intros t. rewrite value_put. apply (ty_event _ _ _ K).
Qed.
Lemma typed_insert k l i : ok k -> T (owner i) -> ok (listINSERT k l i).
Proof. intros K Hi. apply typed_insert_with; [done|done|]. intros j. rewrite add_sorted_members. apply elem_of_insert_by. Qed.
Lemma typed_insert_end k l i : ok k -> T (owner i) -> ok (listINSERT_END k l i).
Proof. intros K Hi. apply typed_insert_with; [done|done|]. intros j. rewrite add_end_perm. apply elem_of_cons. Qed.
Lemma typed_remove k i k' : ok k -> listREMOVE_ITEM k i = Ok k' -> ok k' /\ T (owner i).
Proof.
  intros K. unfold listREMOVE_ITEM, seq_remove. destruct (s_container (item (kst k) i)) as [l|] eqn:Hc; [|done]. intros <-%ok_inj.
  split; [|by apply (ty_item _ _ _ K) in Hc]. apply typed_store; [done|..].
  - intros j m. rewrite container_put. destruct (decide (i = j)) as [<-|]; [done|apply (ty_item _ _ _ K)].
  - intros m j. rewrite on_put. destruct (decide (l = m)) as [<-|]; [|apply (ty_on _ _ _ K)].
    unfold members, del. cbn. rewrite <- filter_app. intros [_ Hj]%list_elem_of_filter. by apply (ty_on _ _ _ K) in Hj.
  - intros t. rewrite value_put. apply (ty_event _ _ _ K).
Qed.
Lemma typed_set_state_value k t v : ok k -> ok (listSET_LIST_ITEM_VALUE k (StateItem t) v).
Proof.
  intros K. apply typed_store; [done|..].
  - intros i l. change (container (listSET_LIST_ITEM_VALUE k (StateItem t) v) i = Some l -> T (owner i)). rewrite container_set. apply K.
  - intros l i. apply (ty_on _ _ _ K).
  - intros u. unfold seq_set_value. rewrite item_put, decide_False by done. apply (ty_event _ _ _ K).
Qed.
Lemma typed_set_event_value k t p : ok k -> is_priority p -> ok (listSET_LIST_ITEM_VALUE k (EventItem t) (u32 (configMAX_PRIORITIES - p))).
Proof.
  intros K Hp. apply typed_store; [done|..].
  - intros i l. change (container (listSET_LIST_ITEM_VALUE k (EventItem t) (u32 (configMAX_PRIORITIES - p))) i = Some l -> T (owner i)).
    rewrite container_set. apply K.
  - intros l i. apply (ty_on _ _ _ K).
  - intros u. unfold seq_set_value. rewrite item_put. destruct (decide (EventItem t = EventItem u)); [|apply (ty_event _ _ _ K)].
    intros _. unfold is_priority, configMAX_PRIORITIES in *. cbn [s_value]. rewrite (u_small 32) by (unfold is_u; lia). lia.
Qed.
Lemma typed_event_priority k t p : ok k -> is_priority p -> ok (set_event_priority k t p).
Proof. intros K Hp. unfold set_event_priority. destruct (_ =? 0); [by apply typed_set_event_value|done]. Qed.

(** What is read. *)
Lemma typed_current k c : ok k -> current k = Ok c -> T c.
Proof. unfold current. intros K. destruct (pxCurrentTCB k) eqn:E; [|done]. intros [= <-]. by apply (ty_current _ _ _ K). Qed.
Lemma typed_head k l t : ok k -> head_owner k l = Some t -> T t.
Proof.
  unfold head_owner, seq_head. intros K E. destruct (on (kst k) l) as [|i xs] eqn:Ho; [done|]. injection E as <-.
  apply (ty_on _ _ _ K l). unfold tasks_on. rewrite Ho. by left.
Qed.
Lemma typed_delayed k c n b : ok k -> T c -> ok (add_to_delayed_list k c n b).
Proof.
  intros K Hc. unfold add_to_delayed_list. destruct (_ && _); [by apply typed_insert_end|]. cbv zeta.
  pose proof (typed_set_state_value k c (u32 (xTickCount k + n)) K) as K1. destruct (_ <? _); [by apply typed_insert|].
  destruct (_ <? _); [|by apply typed_insert]. eapply typed_same; [by apply (typed_insert _ (pxDelayedTaskList k) (StateItem c) K1)|done..].
Qed.
Lemma typed_add_ready k t : ok k -> T t -> ok (prvAddTaskToReadyList k t).
Proof.
  intros K Ht. unfold prvAddTaskToReadyList. apply typed_insert_end; [|done]. unfold taskRECORD_READY_PRIORITY.
  destruct (_ <? _); [by eapply typed_same|done].
Qed.
Lemma typed_reset_next k : ok k -> ok (prvResetNextTaskUnblockTime k).
Proof. intros K. unfold prvResetNextTaskUnblockTime. destruct (seq_head _ _); by eapply typed_same. Qed.
Lemma typed_contained k l i : ok k -> listIS_CONTAINED_WITHIN k l i = true -> T (owner i).
Proof. unfold listIS_CONTAINED_WITHIN. intros K E%bool_decide_eq_true. by apply (ty_item _ _ _ K) in E. Qed.
Lemma typed_suspended k t : ok k -> prvTaskIsTaskSuspended k t = true -> T t.
Proof. unfold prvTaskIsTaskSuspended. intros K [[E _]%andb_true_iff _]%andb_true_iff. by apply (typed_contained k) in E. Qed.
End typed.

(** Goals: the new state is built from one that is known to be typed. *)
Ltac typed_task :=
  match goal with
  | |- ?T ?t => assumption
  end.
Ltac typed_goal :=
  match goal with
  | |- typed _ _ (if ?b then _ else _) => destruct b; typed_goal
  | |- typed _ _ (fst (if ?b then _ else _)) => destruct b; typed_goal
  | K : typed ?T ?H ?k |- typed ?T ?H ?k => exact K
  | |- typed _ _ (set_priority _ _ _) => apply typed_set_priority; [typed_goal|typed_priority]
  | |- typed _ _ (set_base_priority _ _ _) => apply typed_set_base; [typed_goal|typed_priority]
  | |- typed _ _ (set_delay_aborted _ _ _) => apply typed_set_aborted; [typed_goal|first [discriminate|by intros _]]
  | |- typed _ _ (set_notify_state _ _ _) => apply typed_set_notify; typed_goal
  | |- typed _ _ (set_event_priority _ _ _) => apply typed_event_priority; [typed_goal|typed_priority]
  | |- typed _ _ (prvAddTaskToReadyList _ _) => apply typed_add_ready; [typed_goal|typed_task]
  | |- typed _ _ (prvResetNextTaskUnblockTime _) => apply typed_reset_next; typed_goal
  | |- typed _ _ (add_to_delayed_list _ _ _ _) => apply typed_delayed; [typed_goal|typed_task]
  | |- typed _ _ (listINSERT _ _ _) => apply typed_insert; [typed_goal|cbn [owner]; typed_task]
  | |- typed _ _ (listINSERT_END _ _ _) => apply typed_insert_end; [typed_goal|cbn [owner]; typed_task]
  | |- typed _ _ (listSET_LIST_ITEM_VALUE _ (StateItem _) _) => apply typed_set_state_value; typed_goal
  | |- typed _ _ (listSET_LIST_ITEM_VALUE _ (EventItem _) _) => apply typed_set_event_value; [typed_goal|typed_priority]
  | |- typed ?T ?H (vTaskSuspendAll ?k) => apply (typed_same T H k); [typed_goal|reflexivity..]
  | |- typed ?T ?H (portYIELD ?k) => apply (typed_same T H k); [typed_goal|reflexivity..]
  | |- typed ?T ?H (vTaskMissedYield ?k) => apply (typed_same T H k); [typed_goal|reflexivity..]
  | |- typed ?T ?H (@upd kernel _ _ _ _ ?k) => apply (typed_same T H k); [typed_goal|reflexivity..]
  end
with typed_priority :=
  match goal with
  | |- is_priority (if ?b then _ else _) => destruct b eqn:?; typed_priority
  | _ : typed ?T ?H _ |- is_priority (priority _ _) => apply (ty_priority T H); typed_goal
  | _ : typed ?T ?H _ |- is_priority (uxBasePriority (tcb _ _)) => apply (ty_base T H); typed_goal
  | |- is_priority _ => assumption
  end.
(** Facts: what a call that returned says; extended below. *)
Ltac typed_fact T H E := fail.
Ltac typed_facts :=
  repeat match goal with
  | E : current ?k = Ok ?c |- typed ?T ?H _ => apply (typed_current T H) in E; [|typed_goal]
  | E : head_owner ?k ?l = Some ?t |- typed ?T ?H _ => apply (typed_head T H) in E; [|typed_goal]
  | E : prvTaskIsTaskSuspended ?k ?t = true |- typed ?T ?H _ => apply (typed_suspended T H) in E; [|typed_goal]
  | E : listREMOVE_ITEM ?k ?i = Ok _ |- typed ?T ?H _ => apply (typed_remove T H) in E as [? ?]; [|typed_goal]; cbn [owner] in *
  | E : _ = Ok _ |- typed ?T ?H _ => typed_fact T H E; [|typed_goal..]
  end.
Ltac typed_solve := intros; ok_inv; typed_facts; typed_goal.

Section functions.
Context {pt : Patient} (T : Z -> Prop) (H : Z -> Z).
Implicit Types (k : kernel) (t c p : Z).
Abbreviation ok := (typed T H).

Lemma typed_remove_lists k t k' : remove_from_lists k t = Ok k' -> ok k -> ok k' /\ T t.
Proof.
  intros E K. unfold remove_from_lists in E. apply res_bind_ok in E as (k1 & E1 & E). apply (typed_remove T H) in E1 as [K1 Ht]; [|done].
  split; [|done]. typed_solve.
Qed.
Lemma typed_add_delayed k n b k' : prvAddCurrentTaskToDelayedList k n b = Ok k' -> ok k -> ok k'.
Proof. unfold prvAddCurrentTaskToDelayedList. typed_solve. Qed.
Lemma typed_switch_delayed k k' : taskSWITCH_DELAYED_LISTS k = Ok k' -> ok k -> ok k'.
Proof. unfold taskSWITCH_DELAYED_LISTS. typed_solve. Qed.
End functions.
Ltac typed_fact T H E ::=
  match type of E with
  | remove_from_lists _ _ = Ok _ => apply (typed_remove_lists T H) in E as [? ?]
  | prvAddCurrentTaskToDelayedList _ _ _ = Ok _ => apply (typed_add_delayed T H) in E
  | taskSWITCH_DELAYED_LISTS _ = Ok _ => apply (typed_switch_delayed T H) in E
  end.

Section more.
Context {pt : Patient} (T : Z -> Prop) (H : Z -> Z).
Implicit Types (k : kernel) (t c p : Z).
Abbreviation ok := (typed T H).

Lemma typed_place k e n k' : vTaskPlaceOnEventList k e n = Ok k' -> ok k -> ok k'.
Proof. unfold vTaskPlaceOnEventList. typed_solve. Qed.
Lemma typed_place_restricted k e n b k' : vTaskPlaceOnEventListRestricted k e n b = Ok k' -> ok k -> ok k'.
Proof. unfold vTaskPlaceOnEventListRestricted. typed_solve. Qed.
Lemma typed_unblock fuel k now sw k' b : unblock_due fuel k now sw = Ok (k', b) -> ok k -> ok k'.
Proof.
  revert k sw. induction fuel as [|fuel IH]; intros k sw; [done|]. cbn [unblock_due]. intros E K. ok_inv; [typed_solve| |typed_solve].
  typed_facts. eapply IH; [exact E|]. typed_goal.
Qed.
Lemma typed_move_pending fuel k m k' b : move_pending fuel k m = Ok (k', b) -> ok k -> ok k'.
Proof.
  revert k m. induction fuel as [|fuel IH]; intros k m; [done|]. cbn [move_pending]. intros E K. ok_inv; [..|done];
    typed_facts; (eapply IH; [exact E|]); typed_goal.
Qed.
Lemma typed_remove_event k e k' b : xTaskRemoveFromEventList k e = Ok (k', b) -> ok k -> ok k'.
Proof. unfold xTaskRemoveFromEventList. typed_solve. Qed.
Lemma typed_resume_isr k t k' b : xTaskResumeFromISR k t = Ok (k', b) -> ok k -> ok k'.
Proof. unfold xTaskResumeFromISR. typed_solve. Qed.
Lemma typed_resume k t k' : vTaskResume k t = Ok k' -> ok k -> ok k'.
Proof. unfold vTaskResume. typed_solve. Qed.
Lemma typed_check k to n k' to' n' b : xTaskCheckForTimeOut k to n = Ok (k', to', n', b) -> ok k -> ok k'.
Proof. unfold xTaskCheckForTimeOut. typed_solve. Qed.
Lemma typed_inherit k h k' b : xTaskPriorityInherit k h = Ok (k', b) -> ok k -> ok k'.
Proof. unfold xTaskPriorityInherit. typed_solve. Qed.
Lemma typed_priority_set k h p k' : vTaskPrioritySet k h p = Ok k' -> is_priority p -> ok k -> ok k'.
Proof.
  unfold vTaskPrioritySet. intros E Hp K. rewrite (proj2 (Z.leb_gt _ p)) in E by apply Hp. typed_solve.
Qed.
Lemma typed_select k k' : taskSELECT_HIGHEST_PRIORITY_TASK k = Ok k' -> ok k -> ok k'.
Proof.
  unfold taskSELECT_HIGHEST_PRIORITY_TASK. intros E K. ok_inv. match goal with E : seq_next _ _ = Some _ |- _ => destruct (seq_next_same _ _ _ _ E) as (Hin & Hon & Hit & _) end.
  pose proof (ty_on _ _ _ K _ _ Hin) as Ht. destruct K. split; try done; cbn.
  - by intros c [= <-].
  - intros i l. unfold container. cbn. rewrite Hit. apply ty_item0.
  - intros l i. unfold tasks_on. cbn. rewrite Hon. apply ty_on0.
  - intros t. unfold item_value. cbn. rewrite Hit. apply ty_event0.
Qed.
Lemma typed_disinherit_timeout k h p k' : vTaskPriorityDisinheritAfterTimeout k h p = Ok k' -> (p < configMAX_PRIORITIES) -> ok k -> ok k'.
Proof.
  unfold vTaskPriorityDisinheritAfterTimeout. destruct h as [t|]; [|by intros [= <-]]. intros E Hp K.
  set (q := if uxBasePriority (tcb k t) <? p then p else uxBasePriority (tcb k t)) in *.
  assert (is_priority q) as Hq.
  { unfold q. pose proof (ty_base _ _ _ K t) as Hb. unfold is_priority in *. destruct (Z.ltb_spec (uxBasePriority (tcb k t)) p); lia. }
  clearbody q. typed_solve.
Qed.
End more.
Ltac typed_fact T H E ::=
  match type of E with
  | remove_from_lists _ _ = Ok _ => apply (typed_remove_lists T H) in E as [? ?]
  | prvAddCurrentTaskToDelayedList _ _ _ = Ok _ => apply (typed_add_delayed T H) in E
  | taskSWITCH_DELAYED_LISTS _ = Ok _ => apply (typed_switch_delayed T H) in E
  | vTaskPlaceOnEventList _ _ _ = Ok _ => apply (typed_place T H) in E
  | vTaskPlaceOnEventListRestricted _ _ _ _ = Ok _ => apply (typed_place_restricted T H) in E
  | unblock_due _ _ _ _ = Ok _ => apply (typed_unblock T H) in E
  | move_pending _ _ _ = Ok _ => apply (typed_move_pending T H) in E
  | xTaskRemoveFromEventList _ _ = Ok _ => apply (typed_remove_event T H) in E
  | xTaskResumeFromISR _ _ = Ok _ => apply (typed_resume_isr T H) in E
  | xTaskCheckForTimeOut _ _ _ = Ok _ => apply (typed_check T H) in E
  | xTaskPriorityInherit _ _ = Ok _ => apply (typed_inherit T H) in E
  | taskSELECT_HIGHEST_PRIORITY_TASK _ = Ok _ => apply (typed_select T H) in E
  end.

Section calls.
Context {pt : Patient} (T : Z -> Prop) (H : Z -> Z).
Implicit Types (k : kernel) (t c p : Z).
Abbreviation ok := (typed T H).

Lemma typed_tick k k' b : xTaskIncrementTick k = Ok (k', b) -> ok k -> ok k'.
Proof. unfold xTaskIncrementTick. typed_solve. Qed.
Lemma typed_unwind n k k' : unwind_ticks n k = Ok k' -> ok k -> ok k'.
Proof.
  revert k. induction n as [|n IH]; intros k; cbn [unwind_ticks]; intros E K; ok_inv; [done|..]; (eapply IH; [exact E|]);
    match goal with E : xTaskIncrementTick _ = Ok _ |- _ => apply typed_tick in E; [|done] end; typed_goal.
Qed.
Lemma typed_resume_all k k' b : xTaskResumeAll k = Ok (k', b) -> ok k -> ok k'.
Proof.
  unfold xTaskResumeAll. intros E K. ok_inv; typed_facts; try typed_goal;
    repeat match goal with E : unwind_ticks _ _ = Ok _ |- _ => apply typed_unwind in E; [|typed_goal] end; typed_goal.
Qed.
Lemma typed_switch k k' : vTaskSwitchContext k = Ok k' -> ok k -> ok k'.
Proof. unfold vTaskSwitchContext. typed_solve. Qed.
Lemma typed_suspend k h k' : vTaskSuspend k h = Ok k' -> ok k -> ok k'.
Proof.
  unfold vTaskSuspend. intros E K. ok_inv; typed_facts; try typed_goal;
    try (match goal with |- ok (?k <| pxCurrentTCB := None |>) => assert (ok k) as [] by typed_goal; by split end);
    match goal with E : vTaskSwitchContext _ = Ok _ |- _ => apply typed_switch in E; [done|typed_goal] end.
Qed.
Lemma typed_interrupt k i k' : run_interrupt k i = Ok k' -> ok k -> ok k'.
Proof.
  destruct i; cbn [run_interrupt]; unfold xPortSysTickHandler, xPortPendSVHandler, yield_if; intros E K; ok_inv;
    repeat match goal with
    | E : xTaskIncrementTick _ = Ok _ |- _ => apply typed_tick in E; [|done]
    | E : vTaskSwitchContext _ = Ok _ |- _ => apply typed_switch in E; [|typed_goal]
    end; typed_facts; typed_goal.
Qed.
Lemma typed_interrupts ints k k' : run_interrupts ints k = Ok k' -> ok k -> ok k'.
Proof.
  unfold run_interrupts. revert k. induction ints as [|i ints IH]; intros k; cbn [res_fold]; intros E K; ok_inv; [done|].
  eapply IH; [exact E|]. by eapply typed_interrupt.
Qed.
End calls.
Ltac typed_call T H E :=
  match type of E with
  | run_interrupts _ _ = Ok _ => apply (typed_interrupts T H) in E; [|typed_goal]
  | xTaskResumeAll _ = Ok _ => apply (typed_resume_all T H) in E; [|typed_goal]
  end.

Section run.
Context {pt : Patient} (T : Z -> Prop) (H : Z -> Z).
Implicit Types (k : kernel) (t c p : Z).
Abbreviation ok := (typed T H).
(** A call that waits with the scheduler suspended. *)
Ltac typed_waits := ok_inv; repeat (typed_facts; try match goal with E : _ = Ok _ |- _ => typed_call T H E end); typed_goal.

Lemma typed_abort i1 i2 k t k' b : xTaskAbortDelay (run_interrupts i1) (run_interrupts i2) k t = Ok (k', b) -> ~ patient t -> ok k -> ok k'.
Proof. unfold xTaskAbortDelay. intros E Hn K. typed_waits. Qed.

(** The calls of a task; taking and giving a mutex is another matter. *)
Definition of_mutex (c : call) : bool := match c with Inherit _ | Disinherit _ | HoldMutex => true | _ => false end.
(** The call leaves the waits of patient tasks alone. *)
Definition spares (c : call) : Prop := match c with AbortDelay t _ _ => ~ patient t | _ => True end.
Lemma typed_run_call idle k (x : call) k' : run_call k x = Ok k' -> may_call idle k x -> of_mutex x = false -> spares x -> ok k -> ok k'.
Proof.
  intros E Hc Hm Hsp K. destruct x as [| |n i1 i2|last inc i1 i2|e n i1 i2|e|t p|t|t|t i1 i2|t|e|]; cbn [run_call] in E; try done.
  - ok_inv. typed_goal.
  - ok_inv. by eapply typed_resume_all.
  - unfold vTaskDelay in E. typed_waits.
  - unfold xTaskDelayUntil in E. typed_waits.
  - unfold wait_event in E. typed_waits.
  - by eapply typed_interrupt.
  - by eapply typed_priority_set.
  - by eapply typed_suspend.
  - by eapply typed_resume.
  - ok_inv. by eapply typed_abort.
Qed.
End run.

(** Taking and giving a mutex. *)
Lemma typed_ext {pt : Patient} T H H' k : (forall t, H t = H' t) -> typed T H k -> typed T H' k.
Proof. intros E []. split; try done. intros t. by rewrite <- E. Qed.
Lemma typed_set_held {pt : Patient} T H k t n : typed T H k -> typed T (fun u => if decide (t = u) then n else H u) (set_mutexes_held k t n).
Proof.
  intros []. unfold set_mutexes_held. split; try done; intros u; rewrite ?priority_put, ?tcb_put; destruct (decide (t = u)) as [<-|]; try done;
    [apply ty_priority0|apply ty_base0|apply ty_patient0|apply ty_patient0].
Qed.
Lemma typed_disinherit {pt : Patient} T H k t k' b :
  xTaskPriorityDisinherit k (Some t) = Ok (k', b) -> typed T H k -> typed T (fun u => if decide (t = u) then u32 (H t - 1) else H u) k'.
Proof.
  unfold xTaskPriorityDisinherit. intros E K. pose proof (typed_set_held T H k t (u32 (uxMutexesHeld (tcb k t) - 1)) K) as K1.
  rewrite (ty_held _ _ _ K) in *. set (k1 := set_mutexes_held _ _ _) in *. clearbody k1. typed_solve.
Qed.

(** ** Creating tasks *)

Lemma typed_init_task {pt : Patient} T H k t p k' :
  prvInitialiseNewTask k t p = Ok k' -> is_priority p -> H t = 0 -> typed T H k -> typed (fun u => u = t \/ T u) H k'.
Proof.
  unfold prvInitialiseNewTask. intros E Hp Ht K. rewrite (proj2 (Z.leb_gt _ p)) in E by apply Hp. ok_inv.
  pose proof (typed_put T H k t (mkTcb p p 0 0 0 false) K Hp Hp (eq_sym Ht) (fun _ => eq_refl)) as []. set (k1 := put_tcb k t _) in *. clearbody k1. split.
  - intros c Hc. right. by apply ty_current0.
  - intros i l. unfold container. rsimpl. rewrite !item_put. destruct (decide (EventItem t = i)) as [<-|]; [done|].
    destruct (decide (StateItem t = i)) as [<-|]; [done|]. intros Hi. right. by apply (ty_item0 i l).
  - intros l i Hi. right. by apply (ty_on0 l i).
  - exact ty_priority0.
  - exact ty_base0.
  - intros u Hu. unfold item_value. rsimpl. rewrite !item_put. destruct (decide (EventItem t = EventItem u)) as [[= <-]|Hne].
    + unfold is_priority, configMAX_PRIORITIES in *. cbn. rewrite (u_small 32) by (unfold is_u; lia). lia.
    + rewrite decide_False by done. apply ty_event0. destruct Hu as [->|]; [by destruct Hne|done].
  - exact ty_held0.
  - exact ty_patient0.
Qed.
Lemma on_cleared (ls : list klist) (st : store kitem klist) l i : i ∈ on (foldl (fun st l => put_list st l (mkSl [] [])) st ls) l -> i ∈ on st l.
Proof.
  revert st. induction ls as [|m ls IH]; intros st; [done|]. cbn [foldl]. intros Hi%IH. unfold on in *. rewrite the_list_put in Hi.
  destruct (decide (m = l)); [set_solver|done].
Qed.
Lemma item_cleared (ls : list klist) (st : store kitem klist) i : item (foldl (fun st l => put_list st l (mkSl [] [])) st ls) i = item st i.
Proof. revert st. induction ls as [|m ls IH]; intros st; [done|]. cbn [foldl]. by rewrite IH, item_put_list. Qed.
Lemma typed_init_lists {pt : Patient} T H k : typed T H k -> typed T H (prvInitialiseTaskLists k).
Proof.
  intros K. apply (typed_same T H (k <| kst := kst (prvInitialiseTaskLists k) |>)); [|done..]. apply typed_store; [done|..]; cbn -[foldl put_list on item].
  - intros i l. rewrite !item_cleared. apply (ty_item _ _ _ K).
  - intros l i Hi%on_cleared%on_cleared. by apply (ty_on _ _ _ K) in Hi.
  - intros t. rewrite !item_cleared. apply (ty_event _ _ _ K).
Qed.
Lemma typed_current_is {pt : Patient} T H k t : typed T H k -> T t -> typed T H (k <| pxCurrentTCB := Some t |>).
Proof. intros [] Ht. split; try done. by intros c [= <-]. Qed.
Lemma typed_add_task {pt : Patient} T H k t k' : prvAddNewTaskToReadyList k t = Ok k' -> T t -> typed T H k -> typed T H k'.
Proof.
  unfold prvAddNewTaskToReadyList. intros E Ht K. apply res_bind_ok in E as (c & _ & E).
  match type of E with context [prvAddTaskToReadyList ?k1 t] => assert (typed T H k1) as K1 end.
  { match goal with |- typed _ _ (@upd kernel _ _ _ _ ?k) => apply (typed_same T H k); [|done..] end. rsimpl. clear E. destruct (pxCurrentTCB k).
    - match goal with |- typed _ _ (if ?b then _ else _) => destruct b end; [apply typed_current_is; [typed_goal|done]|typed_goal].
    - match goal with |- typed _ _ (if ?b then _ else _) => destruct b end; [apply typed_init_lists|]; (apply typed_current_is; [typed_goal|done]). }
  apply ok_inj in E as <-. typed_goal.
Qed.
Lemma typed_create {pt : Patient} T tasks : forall k k',
  res_fold create_task k tasks = Ok k' -> Forall (fun tp => is_priority tp.2) tasks -> typed T (fun _ => 0) k ->
  typed (fun u => u ∈ tasks.*1 \/ T u) (fun _ => 0) k'.
Proof.
  revert T. induction tasks as [|[t p] tasks IH]; intros T k k'; cbn [res_fold].
  - intros E _ K. ok_inv. destruct K. split; intros; try (right; eauto); auto. apply ty_event0. set_solver.
  - intros E Hall K. apply Forall_cons in Hall as [Hp Hall]. apply res_bind_ok in E as (k2 & E1 & E). unfold create_task in E1.
    apply res_bind_ok in E1 as (k1 & E1 & E2). apply (typed_init_task T (fun _ => 0)) in E1; [|done..].
    apply (typed_add_task (fun u => u = t \/ T u) (fun _ => 0)) in E2; [|by left|done]. apply (IH _ _ _ E Hall) in E2. destruct E2. split; try done.
    + intros c Hc. specialize (ty_current0 c Hc). set_solver.
    + intros i l Hi. specialize (ty_item0 i l Hi). set_solver.
    + intros l i Hi. specialize (ty_on0 l i Hi). set_solver.
    + intros u Hu. apply ty_event0. set_solver.
Qed.
Lemma typed_boot {pt : Patient} idle tasks k : task_set idle tasks -> boot tasks = Ok k -> typed (fun u => u ∈ tasks.*1) (fun _ => 0) k.
Proof.
  intros (_ & Hall & _) E. unfold boot in E. apply res_bind_ok in E as (k1 & E & E1). apply ok_inj in E1 as <-.
  apply (typed_create (fun _ => False)) in E; [|done|].
  - apply (typed_same _ _ k1); [|done..]. destruct E. split; try done.
    + intros c Hc. by destruct (ty_current0 c Hc).
    + intros i l Hi. by destruct (ty_item0 i l Hi).
    + intros l i Hi. by destruct (ty_on0 l i Hi).
    + intros t Ht. apply ty_event0. by left.
  - split; try done. intros l i Hi. change (i ∈ @nil kitem) in Hi. by apply not_elem_of_nil in Hi.
Qed.
End RtosTyped.
