(* ===== verification/RtosDelay.v ===== *)
(** * Delays end on time

    A task that delays itself for [n] ticks is blocked until [n] ticks have passed,
    those that arrive while the kernel holds its scheduler included, and is ready
    from then on; the time-outs of the blocking calls, across the wrap of the tick
    count. *)

From S2P Require Import Prelude Words RtosList RtosSeq RtosSched RtosSchedInv RtosTick RtosSchedProps RtosRun RtosBoot.
From stdpp Require Import list.
#[local] Open Scope Z_scope.

Module RtosDelay.
Export RtosBoot.
#[local] Instance any_priority : Strict := False.

(** ** The time a task has to wait *)

(** The task [t] is on a delayed list, to be woken in [d] ticks; a wake time beyond
    the wrap of the tick count is on the overflow list. *)
Definition waiting (k : kernel) (t d : Z) : Prop :=
  container k (StateItem t) = Some (pxDelayedTaskList k) /\ item_value k (StateItem t) = xTickCount k + d \/
  container k (StateItem t) = Some (pxOverflowDelayedTaskList k) /\ item_value k (StateItem t) + 2 ^ 32 = xTickCount k + d.
(** [t] waits for no event and becomes ready in [d] ticks, or is ready. *)
Definition due_in (k : kernel) (t d : Z) : Prop :=
  0 < d /\ container k (EventItem t) = None /\ waiting k t d \/ d <= 0 /\ ready k t.

(** What the kernel knows about [t] and the time does not change. *)
Record untouched (k k' : kernel) (t : Z) : Prop := {
  un_state : container k' (StateItem t) = container k (StateItem t);
  un_event : container k' (EventItem t) = container k (EventItem t);
  un_value : item_value k' (StateItem t) = item_value k (StateItem t);
  un_delayed : pxDelayedTaskList k' = pxDelayedTaskList k;
  un_overflow : pxOverflowDelayedTaskList k' = pxOverflowDelayedTaskList k;
  un_tick : xTickCount k' = xTickCount k;
  un_priority : priority k' t = priority k t;
}.
Lemma untouched_refl k t : untouched k k t.
Proof. by split. Qed.
Lemma untouched_trans k1 k2 k3 t : untouched k1 k2 t -> untouched k2 k3 t -> untouched k1 k3 t.
Proof. intros [] []. split; congruence. Qed.
Lemma untouched_due k k' t d : untouched k k' t -> due_in k t d -> due_in k' t d.
Proof. intros []. unfold due_in, waiting, ready. by rewrite un_state0, un_event0, un_value0, un_delayed0, un_overflow0, un_tick0, un_priority0. Qed.
Lemma untouched_moved k k' t u s e : moved k k' u s e -> u <> t -> untouched k k' t.
Proof.
  intros M Hne. pose proof (frame_priority _ _ t (mv_frame _ _ _ _ _ M)) as Hp. destruct M as [[] S E V].
  split; try done; [by rewrite S, decide_False|by rewrite E, decide_False].
Qed.
Lemma untouched_kst k k' t : frame k k' -> kst k' = kst k -> untouched k k' t.
Proof. intros F K. pose proof (frame_priority _ _ t F). destruct F. split; try done; unfold container, item_value; by rewrite K. Qed.
Lemma untouched_held k k' t :
  held k k' -> container k (EventItem t) = None -> container k (StateItem t) <> Some SuspendedTaskList -> untouched k k' t.
Proof.
  intros H He Hs. pose proof (held_priority _ _ t H). destruct H. split; try done. rewrite He. by apply hd_event_free0.
Qed.
#[export] Hint Resolve untouched_refl : kern.

(** A task with a due time is on no event list and not suspended. *)
Lemma due_free now k t d :
  wf None now k -> due_in k t d -> container k (EventItem t) = None /\ container k (StateItem t) <> Some SuspendedTaskList.
Proof.
  intros W [(_ & He & Hw)|(_ & Hr)].
  - split; [done|]. destruct (wf_lists _ _ _ W) as [[Ed Eo]|[Ed Eo]], Hw as [[Hc _]|[Hc _]]; rewrite Hc; congruence.
  - split; [by apply (ready_no_event _ _ _ W)|]. unfold ready in Hr. congruence.
Qed.

(** ** A tick brings the wake-up one tick closer *)

Lemma woken_due p k k' t d :
  woken p k k' -> (p t = true -> d <= 0) -> (p t = false -> due_in k t d) -> due_in k' t d.
Proof.
  intros K Ht Hf. pose proof (frame_priority _ _ t (wk_frame _ _ _ K)) as Hp. destruct (p t) eqn:E.
  - right. split; [auto|]. unfold ready. by rewrite (wk_state _ _ _ K), E, Hp.
  - apply (untouched_due k); [|auto]. destruct K as [[] S Ev V]. split; try done; [by rewrite S, E|by rewrite Ev, E].
Qed.

Lemma rolled_cases k :
  wf None (xTickCount k) k ->
  (xTickCount k = 2 ^ 32 - 1 /\ xTickCount (rolled k) = 0 /\ pxDelayedTaskList (rolled k) = pxOverflowDelayedTaskList k /\
   pxOverflowDelayedTaskList (rolled k) = pxDelayedTaskList k) \/
  (xTickCount k < 2 ^ 32 - 1 /\ xTickCount (rolled k) = xTickCount k + 1 /\ pxDelayedTaskList (rolled k) = pxDelayedTaskList k /\
   pxOverflowDelayedTaskList (rolled k) = pxOverflowDelayedTaskList k).
Proof.
  intros W. destruct (wf_tick _ _ _ W) as [H0 _]. unfold rolled. cbv zeta. rsimpl.
  destruct (u32_succ_cases _ (wf_tick _ _ _ W)) as [[E ->]|[E ->]]; [by left|right].
  by rewrite (proj2 (Z.eqb_neq (xTickCount k + 1) 0)) by lia.
Qed.

Lemma rolled_due k t d :
  wf None (xTickCount k) k -> due_in k t d ->
  (due_now k t = true -> d - 1 <= 0) /\ (due_now k t = false -> due_in (rolled k) t (d - 1)).
Proof.
  intros W Hd. destruct (rolled_same k) as (Rk & Rt & _). unfold due_in, waiting, ready, due_now, due, container, item_value, priority, tcb in *.
  rewrite Rk, Rt. fold (container k (StateItem t)) (container k (EventItem t)) (item_value k (StateItem t)) in *.
  destruct (wf_lists _ _ _ W) as [[Ed Eo]|[Ed Eo]], (rolled_cases k W) as [(E & -> & -> & ->)|(E & -> & -> & ->)],
    Hd as [(Hd & He & [[Hc Hv]|[Hc Hv]])|[Hd Hr]].
  all: try (rewrite Hr; split; [lia|]; intros _; right; split; [lia|done]).
  all: try (pose proof (wf_due _ _ _ W t Hc)); try (pose proof (wf_overflow _ _ _ W t Hc)).
  all: rewrite Hc, Ed, Eo in *; case_bool_decide; try congruence; cbn [andb]; (split; [try lia; intros ?%Z.leb_le; lia|]).
  all: intros Hx; left; try (apply Z.leb_gt in Hx); (split; [lia|split; [done|]]).
  all: first [left; split; [congruence|lia]|right; split; [congruence|lia]].
Qed.

Lemma tick_due k c k' sw t d :
  wf None (xTickCount k) k -> pxCurrentTCB k = Some c -> uxSchedulerSuspended k = 0 ->
  xTaskIncrementTick k = Ok (k', sw) -> due_in k t d -> due_in k' t (d - 1).
Proof.
  intros W Hc Hs E Hd. destruct (tick_ok k c W Hc Hs) as (k1 & sw1 & E1 & _ & K & _). rewrite E in E1. injection E1 as <- <-.
  destruct (rolled_due k t d W Hd). by eapply woken_due.
Qed.

Lemma unwind_due n k c k' t d :
  wf None (xTickCount k) k -> pxCurrentTCB k = Some c -> uxSchedulerSuspended k = 0 ->
  unwind_ticks n k = Ok k' -> due_in k t d -> due_in k' t (d - Z.of_nat n).
Proof.
  revert k d. induction n as [|n IH]; intros k d W Hc Hs; cbn [unwind_ticks]; [by intros [= <-]; rewrite Z.sub_0_r|].
  destruct (xTaskIncrementTick k) as [[k1 sw]|] eqn:E; [|done]. cbn [res_bind]. intros E2 Hd.
  destruct (tick_later k c k1 sw W Hc Hs E) as (L & W1 & S1 & _). pose proof (tick_due k c k1 sw t d W Hc Hs E Hd) as Hd1.
  replace (d - Z.of_nat (S n)) with (d - 1 - Z.of_nat n) by lia. rewrite <- (lt_current _ _ L) in Hc.
  refine (IH _ (d - 1) _ _ _ E2 _); destruct sw; try done; by apply wf_yield_pending.
Qed.

(** Resuming the scheduler makes up for the ticks it held back. *)
Lemma resume_due k c k' b t d :
  wf None (xTickCount k) k -> pxCurrentTCB k = Some c -> uxSchedulerSuspended k = 1 -> 0 < uxCurrentNumberOfTasks k ->
  0 <= xPendedTicks k -> xTaskResumeAll k = Ok (k', b) -> due_in k t d -> due_in k' t (d - xPendedTicks k).
Proof.
  intros W Hc Hs Hn Hp. unfold xTaskResumeAll. rewrite Hs. cbn [negb Z.eqb assert res_bind]. rsimpl.
  change (u32 (1 - 1)) with 0. cbn [Z.eqb andb]. rewrite (proj2 (Z.ltb_lt 0 _) Hn).
  set (k0 := k <| uxSchedulerSuspended := 0 |>). change (tasks_on k PendingReadyList) with (tasks_on k0 PendingReadyList).
  assert (wf None (xTickCount k) k0) as W0 by (by apply wf_suspended).
  destruct (move_pending_ok (S (length (tasks_on k0 PendingReadyList))) _ k0 c false W0 Hc) as (k1 & m & y & -> & W1 & K & _); [lia|].
  cbn [res_bind]. set (k2 := if m then _ else k1). intros E Hd. destruct (due_free _ _ _ _ W Hd) as [He _].
  assert (wf None (xTickCount k) k2 /\ frame k1 k2 /\ kst k2 = kst k1) as (W2 & F2 & K2).
  { unfold k2. destruct m; [|auto using frame_refl]. split; [by apply reset_next_wf|apply reset_next_frame]. }
  assert (due_in k2 t d) as Hd2.
  { apply (untouched_due k1); [by apply untouched_kst|]. apply (woken_due _ _ _ _ _ K); [|done].
    intros Hx. unfold pending in Hx. apply bool_decide_eq_true in Hx. change (container k (EventItem t) = Some PendingReadyList) in Hx. congruence. }
  pose proof (frame_trans _ _ _ (wk_frame _ _ _ K) F2) as F. clearbody k2. destruct F.
  rewrite fr_pended0 in E. change (xPendedTicks (k0 <| xYieldPending := y |>)) with (xPendedTicks k) in E.
  assert (forall k3, (if xYieldPending k3 then Ok (portYIELD k3, true) else Ok (k3, false)) = Ok (k', b) ->
    due_in k3 t (d - xPendedTicks k) -> due_in k' t (d - xPendedTicks k)) as Hend.
  { intros k3 E3. destruct (xYieldPending k3); injection E3 as <- <-; [|done]. by apply untouched_due. }
  destruct (Z.ltb_spec 0 (xPendedTicks k)).
  - destruct (unwind_ticks _ k2) as [k3|] eqn:E3; [|done]. cbn [res_bind] in E. apply (Hend _ E).
    apply (untouched_due k3); [by split|]. rewrite <- (Z2Nat.id (xPendedTicks k)) at 1 by done.
    apply (unwind_due _ k2 c); try done; [by rewrite fr_tick0|by rewrite fr_current0].
  - cbn [res_bind] in E. apply (Hend _ E). by replace (d - xPendedTicks k) with d by lia.
Qed.

(** ** Interrupts *)

Lemma switch_untouched k k' t : uxSchedulerSuspended k = 0 -> vTaskSwitchContext k = Ok k' -> untouched k k' t /\ uxSchedulerSuspended k' = 0.
Proof.
  intros Hs. unfold vTaskSwitchContext. rewrite Hs. cbn [Z.eqb negb]. unfold taskSELECT_HIGHEST_PRIORITY_TASK. rsimpl.
  destruct (highest_ready _ _) as [p|]; [|done]. cbn [res_bind]. destruct (seq_next (kst k) (ReadyTasks p)) as [[i st']|] eqn:E; [|done].
  destruct (seq_next_same _ _ _ _ E) as (_ & _ & Hit & _). intros [= <-]. split; [|done].
  split; try done; unfold container, item_value; rsimpl; by rewrite Hit.
Qed.

Lemma signal_untouched idle k e k' t :
  inv idle k -> uxSchedulerSuspended k = 0 -> container k (EventItem t) = None ->
  run_interrupt k (Signal e) = Ok k' -> untouched k k' t /\ uxSchedulerSuspended k' = 0.
Proof.
  intros I Hs He. pose proof (inv_wf _ _ I) as W. cbn [run_interrupt].
  destruct (listLIST_IS_EMPTY k (EventList e)) eqn:El; [by intros [= <-]; auto with kern|].
  destruct (event_head _ _ _ W El) as (u & l & Hh & Hu & Hst & _).
  destruct (event_wake_ok _ k u l _ W Hst Hu) as (k1 & k2 & E1 & E2 & M1 & _ & _ & M).
  unfold xTaskRemoveFromEventList, yield_if. rewrite Hh, E1. cbn [res_bind]. rewrite (fr_suspended _ _ (mv_frame _ _ _ _ _ M1)), Hs.
  cbn [Z.eqb]. rewrite E2. cbn [res_bind]. set (k3 := prvAddTaskToReadyList k2 u) in *. clearbody k3.
  assert (untouched k k3 t) as Hk by (apply (untouched_moved _ _ _ _ _ _ M); congruence).
  pose proof (fr_suspended _ _ (mv_frame _ _ _ _ _ M)) as S3. destruct (current k3) as [c|]; [|done]. cbn [res_bind].
  destruct (_ <? _); cbn [res_bind]; intros [= <-]; (split; [|cbn; congruence]); [|done].
  eapply untouched_trans; [exact Hk|by split].
Qed.

Lemma resume_untouched idle k u k' t :
  inv idle k -> uxSchedulerSuspended k = 0 -> container k (StateItem t) <> Some SuspendedTaskList ->
  run_interrupt k (ResumeTask u) = Ok k' -> untouched k k' t /\ uxSchedulerSuspended k' = 0.
Proof.
  intros I Hs Ht. cbn [run_interrupt]. unfold xTaskResumeFromISR, yield_if.
  destruct (prvTaskIsTaskSuspended k u) eqn:Hu; [|by intros [= <-]; auto with kern]. rewrite Hs. cbn [Z.eqb].
  destruct (suspended_iff _ _ Hu) as [Hu1 Hu2]. destruct (inv_current _ _ I) as [c Hc]. unfold current. rewrite Hc. cbn [res_bind].
  set (b := priority k c <=? priority k u). set (k0 := if b then _ else k).
  assert (wf None (xTickCount k) k0 /\ untouched k k0 t /\ container k0 = container k /\ uxSchedulerSuspended k0 = 0) as (W0 & U0 & C0 & S0).
  { unfold k0. destruct b; split_and!; try done; [apply wf_yield_pending, (inv_wf _ _ I)|apply (inv_wf _ _ I)]. }
  clearbody k0. destruct (requeue_ok _ k0 u SuspendedTaskList W0) as (k1 & -> & _ & _ & _ & M2); [by rewrite C0..|]. cbn [res_bind].
  set (k2 := prvAddTaskToReadyList k1 u) in *. clearbody k2.
  assert (untouched k k2 t) as Hk by (eapply untouched_trans; [exact U0|]; apply (untouched_moved _ _ _ _ _ _ M2); congruence).
  pose proof (fr_suspended _ _ (mv_frame _ _ _ _ _ M2)) as S2. destruct b; intros [= <-]; (split; [|cbn; congruence]); [|done].
  eapply untouched_trans; [exact Hk|by split].
Qed.

Lemma interrupt_due idle k i k' t d :
  inv idle k -> uxSchedulerSuspended k = 0 -> run_interrupt k i = Ok k' -> due_in k t d ->
  due_in k' t (d - tick_of i) /\ uxSchedulerSuspended k' = 0.
Proof.
  intros I Hs E Hd. pose proof (inv_wf _ _ I) as W. destruct (due_free _ _ _ _ W Hd) as [He Hst].
  assert ((untouched k k' t /\ uxSchedulerSuspended k' = 0) /\ tick_of i = 0 ->
    due_in k' t (d - tick_of i) /\ uxSchedulerSuspended k' = 0) as Hu.
  { intros [[U S] ->]. rewrite Z.sub_0_r. split; [by apply (untouched_due k)|done]. }
  destruct i as [| |e|u].
  - cbn [run_interrupt tick_of] in *. clear Hu. unfold xPortSysTickHandler in E. destruct (inv_current _ _ I) as [c Hc].
    destruct (xTaskIncrementTick k) as [[k1 sw]|] eqn:E1; [|done]. cbn [res_bind] in E. injection E as <-.
    destruct (tick_later k c k1 sw W Hc Hs E1) as (_ & _ & S1 & _). pose proof (tick_due k c k1 sw t d W Hc Hs E1 Hd) as Hd1.
    destruct sw; [|done]. split; [|done]. by apply (untouched_due k1).
  - apply Hu. split; [|done]. cbn [run_interrupt] in E. destruct (xPendSV k); [|injection E as <-; auto with kern].
    apply (switch_untouched (k <| xPendSV := false |>) k' t) in E; [|done]. split; [|apply E].
    eapply untouched_trans; [|apply E]. by split.
  - apply Hu. split; [|done]. by eapply signal_untouched.
  - apply Hu. split; [|done]. by eapply resume_untouched.
Qed.

Lemma interrupts_due idle k ints t d :
  inv idle k -> uxSchedulerSuspended k = 0 -> due_in k t d ->
  exists k', run_interrupts ints k = Ok k' /\ inv idle k' /\ due_in k' t (d - ticks ints).
Proof.
  unfold run_interrupts. revert k d. induction ints as [|i ints IH]; intros k d I Hs Hd; cbn [res_fold ticks].
  - exists k. by rewrite Z.sub_0_r.
  - destruct (interrupt_inv idle k i I) as (k1 & E1 & I1). rewrite E1. cbn [res_bind].
    destruct (interrupt_due idle k i k1 t d I Hs E1 Hd) as [Hd1 S1]. destruct (IH k1 _ I1 S1 Hd1) as (k2 & -> & I2 & Hd2).
    exists k2. split; [done|]. split; [done|]. by replace (d - (tick_of i + ticks ints)) with (d - tick_of i - ticks ints) by lia.
Qed.

(** ** The calls that delay a task *)

(** The end of such a call: interrupts come, the scheduler is resumed. *)
Lemma leave_due idle k c ints t d :
  body_state idle k c -> due_in k t d -> xPendedTicks k + ticks ints < 2 ^ 32 ->
  exists k2 k' b, run_interrupts ints k = Ok k2 /\ xTaskResumeAll k2 = Ok (k', b) /\
    inv idle (if b : bool then k' else portYIELD k') /\ uxSchedulerSuspended k' = 0 /\
    due_in (if b then k' else portYIELD k') t (d - xPendedTicks k - ticks ints).
Proof.
  intros B Hd Hlt. destruct (interrupts_held ints k c) as (k2 & E & W2 & H2 & D2); [apply B..|rewrite (bs_suspended _ _ _ B); lia|apply B|].
  pose proof (body_held _ _ _ _ B H2 W2) as []. destruct (bs_pended _ _ _ B) as [Hp0 _]. pose proof (ticks_nonneg ints) as Ht.
  rewrite (u_small 32) in D2 by (unfold is_u; lia).
  destruct (resume_inv idle k2 c) as (k' & b & E2 & _ & I2 & _); [done..|apply bs_pended0|done|done|].
  destruct (resume_all_ok k2 c) as (k1 & b1 & E1 & _ & _ & S1 & _); [done..|apply bs_pended0|]. rewrite E2 in E1. injection E1 as <- <-.
  exists k2, k', b. split_and!; [done..|]. destruct (due_free _ _ _ _ (bs_wf _ _ _ B) Hd) as [He Hst].
  assert (due_in k2 t d) as Hd2 by (by apply (untouched_due k); [apply untouched_held|]).
  pose proof (resume_due k2 c k' b t d bs_wf0 bs_current0 bs_suspended0 bs_number0 (proj1 bs_pended0) E2 Hd2) as Hd'.
  rewrite D2, Z.sub_add_distr in Hd'. destruct b; [done|]. by apply (untouched_due k').
Qed.

(** A task that blocks for [n] ticks is due in [n] ticks. *)
Lemma block_due k k' c n l :
  wf None (xTickCount k) k -> pxCurrentTCB k = Some c -> container k (StateItem c) = Some l -> container k (EventItem c) = None ->
  0 < n < 2 ^ 32 -> waits k k' c (wait_list k n false) (wait_value k c n false) -> due_in k' c n.
Proof.
  intros W Hc Hl He Hn [F S E V]. left. split; [lia|]. split; [by rewrite E|]. unfold waiting.
  rewrite S, V, !decide_True, (fr_delayed _ _ F), (fr_overflow _ _ F), (fr_tick _ _ F) by done. unfold wait_list, wait_value.
  rewrite andb_false_r. destruct (wf_tick _ _ _ W) as [H0 H1].
  destruct (Z.lt_ge_cases (xTickCount k + n) (2 ^ 32)) as [Hlt|Hge].
  - rewrite (u_small 32 (xTickCount k + n)) by (unfold is_u; lia). left. rewrite (proj2 (Z.ltb_ge _ _)) by lia. done.
  - assert (u32 (xTickCount k + n) = xTickCount k + n - 2 ^ 32) as ->.
    { unfold u32, u. symmetry. apply Z.mod_unique with 1; lia. }
    right. rewrite (proj2 (Z.ltb_lt _ _)) by lia. split; [done|lia].
Qed.

(** In the body of a call the running task blocks itself. *)
Lemma block_body idle k c n :
  body_state idle k c -> ready k c -> c <> idle -> 0 < n < 2 ^ 32 ->
  exists k', prvAddCurrentTaskToDelayedList k n false = Ok k' /\ body_state idle k' c /\ due_in k' c n /\
    xPendedTicks k' = xPendedTicks k.
Proof.
  intros B R Hne Hn. pose proof (bs_wf _ _ _ B) as W. pose proof (bs_current _ _ _ B) as Hc.
  pose proof (ready_no_event _ _ _ W R) as He.
  destruct (block_ok None k c _ n false W Hc R) as (k2 & -> & W2 & Wt); [by right|lia|]. exists k2. split; [done|].
  split; [by eapply waits_body|]. split; [by eapply block_due|]. apply (wt_frame _ _ _ _ _ Wt).
Qed.

(** The end of the call and the interrupts after it. *)
Lemma leave_then_due idle k c ints more d :
  body_state idle k c -> due_in k c d -> xPendedTicks k + ticks ints < 2 ^ 32 ->
  exists k2 k3 b k4, run_interrupts ints k = Ok k2 /\ xTaskResumeAll k2 = Ok (k3, b) /\
    run_interrupts more (if b : bool then k3 else portYIELD k3) = Ok k4 /\
    let left := d - (xPendedTicks k + ticks ints + ticks more) in
    (0 < left -> waiting k4 c left) /\ (left <= 0 -> ready k4 c).
Proof.
  intros B Hd Hlt. destruct (leave_due idle k c ints c d B Hd Hlt) as (k2 & k3 & b & E2 & E3 & I3 & S3 & Hd3).
  assert (uxSchedulerSuspended (if b then k3 else portYIELD k3) = 0) as S4 by (by destruct b).
  destruct (interrupts_due idle _ more c _ I3 S4 Hd3) as (k4 & E4 & _ & Hd4). exists k2, k3, b, k4.
  split; [done|]. split; [done|]. split; [done|]. cbv zeta.
  replace (d - (xPendedTicks k + ticks ints + ticks more)) with (d - xPendedTicks k - ticks ints - ticks more) by lia.
  destruct Hd4 as [(? & _ & ?)|[? ?]]; (split; [try done; lia|try done; lia]).
Qed.

(** C7: a delay ends on time.  In every reachable state in which a task runs with the
    scheduler not suspended, vTaskDelay(n) returns, and whatever interrupts come
    during the call and after it, the task stays blocked, with the right time left,
    until n ticks have passed, and is ready from the n-th tick on.  Ticks that come
    while the call holds the scheduler count, and so does the wrap of the tick
    count. *)
Theorem delay_wakes_on_time (idle : Z) (tasks : list (Z * Z)) (k : kernel) (c n : Z) (i1 i2 more : list interrupt) :
  task_set idle tasks -> reachable idle tasks k -> xPendSV k = false -> uxSchedulerSuspended k = 0 ->
  pxCurrentTCB k = Some c -> c <> idle -> 0 < n < 2 ^ 32 -> ticks i1 + ticks i2 < 2 ^ 32 ->
  exists k1 k2, vTaskDelay (run_interrupts i1) (run_interrupts i2) k n = Ok k1 /\ run_interrupts more k1 = Ok k2 /\
    let left := n - (ticks i1 + ticks i2 + ticks more) in
    (0 < left -> waiting k2 c left) /\ (left <= 0 -> ready k2 c).
Proof.
  intros Ht Hr Hp Hs Hc Hne Hn Hlt. pose proof (reachable_inv _ _ _ Ht Hr) as I. unfold vTaskDelay.
  rewrite (proj2 (Z.ltb_lt 0 n)) by lia. rewrite Hs. cbn [Z.eqb assert res_bind].
  destruct (enter_body idle k c i1 I Hp Hs Hc) as (k1 & -> & B1 & R1 & _ & _ & D1). cbn [res_bind].
  destruct (block_body idle k1 c n B1 R1 Hne Hn) as (k2 & -> & B2 & Hd2 & D2). cbn [res_bind].
  pose proof (ticks_nonneg i1). pose proof (ticks_nonneg i2). rewrite D1, (u_small 32) in D2 by (unfold is_u; lia).
  destruct (leave_then_due idle k2 c i2 more n B2 Hd2) as (k3 & k4 & b & k5 & -> & E4 & E5 & Hf); [by rewrite D2|].
  cbn [res_bind]. rewrite E4. cbn [res_bind]. rewrite D2 in Hf. by eexists _, k5.
Qed.

Lemma delay_wakes_on_time_witness :
  exists k1 k2, vTaskDelay (run_interrupts [SysTick]) (run_interrupts [Signal 5]) some_start 3 = Ok k1 /\
    run_interrupts [SysTick; PendSV; SysTick] k1 = Ok k2 /\
    let left := 3 - (ticks [SysTick] + ticks [Signal 5] + ticks [SysTick; PendSV; SysTick]) in
    (0 < left -> waiting k2 3 left) /\ (left <= 0 -> ready k2 3).
Proof.
  apply (delay_wakes_on_time 0 some_tasks some_start 3 3); [exact some_tasks_ok|apply reach_boot; by vm_compute|by vm_compute..|lia|lia|].
  by vm_compute.
Defined.

(** ** Absolute time *)

(** [T] ticks have passed since the start: the kernel has the time modulo 2^32 and
    the number of wraps. *)
Definition clock (k : kernel) (T : Z) : Prop :=
  0 <= T /\ xTickCount k = T mod 2 ^ 32 /\ xNumOfOverflows k = s32 (T / 2 ^ 32).

Lemma u32_s32 z : u32 (s32 z) = u32 z.
Proof.
  unfold s32, u. destruct (_ <? _); [by rewrite Z.mod_mod|].
  rewrite <- (Z.mod_add _ 1) by lia. by replace (z mod 2 ^ 32 - 2 ^ 32 + 1 * 2 ^ 32) with (z mod 2 ^ 32) by lia; rewrite Z.mod_mod.
Qed.
Lemma s32_add z : s32 (s32 z + 1) = s32 (z + 1).
Proof.
  assert (u32 (s32 z + 1) = u32 (z + 1)) as E.
  { pose proof (u32_s32 z) as H. unfold u in *. by rewrite <- Zplus_mod_idemp_l, H, Zplus_mod_idemp_l. }
  unfold s32 at 1 3. by rewrite E.
Qed.
Lemma s32_succ_ne z : s32 (z + 1) <> s32 z.
Proof.
  intros E. apply (f_equal (u 32)) in E. rewrite !u32_s32 in E. unfold u in E.
  pose proof (Z.div_mod (z + 1) (2 ^ 32) ltac:(lia)). pose proof (Z.div_mod z (2 ^ 32) ltac:(lia)). lia.
Qed.

Lemma tick_clock k c k' sw T :
  wf None (xTickCount k) k -> pxCurrentTCB k = Some c -> uxSchedulerSuspended k = 0 ->
  xTaskIncrementTick k = Ok (k', sw) -> clock k T -> clock k' (T + 1).
Proof.
  intros W Hc Hs E (H0 & Ht & Ho). destruct (tick_ok k c W Hc Hs) as (k1 & sw1 & E1 & _ & K & _). rewrite E in E1. injection E1 as <- <-.
  pose proof (fr_tick _ _ (wk_frame _ _ _ K)) as Ft. pose proof (fr_overflows _ _ (wk_frame _ _ _ K)) as Fo.
  unfold clock. rewrite Ft, Fo. split; [lia|]. unfold rolled. cbv zeta. rsimpl.
  pose proof (Z.div_mod T (2 ^ 32) ltac:(lia)) as Hdm. pose proof (Z.mod_pos_bound T (2 ^ 32) ltac:(lia)) as Hb.
  destruct (u32_succ_cases _ (wf_tick _ _ _ W)) as [[Ex ->]|[Ex ->]]; rewrite Ht in Ex.
  - cbn [Z.eqb]. rsimpl. assert (T + 1 = 2 ^ 32 * (T / 2 ^ 32 + 1) + 0) as HT by lia. split.
    + apply Z.mod_unique with (T / 2 ^ 32 + 1); lia.
    + rewrite Ho, <- (Z.div_unique (T + 1) (2 ^ 32) (T / 2 ^ 32 + 1) 0) by lia. apply s32_add.
  - rewrite (proj2 (Z.eqb_neq (xTickCount k + 1) 0)) by lia. rsimpl. split.
    + rewrite Ht. apply Z.mod_unique with (T / 2 ^ 32); lia.
    + by rewrite Ho, <- (Z.div_unique (T + 1) (2 ^ 32) (T / 2 ^ 32) (T mod 2 ^ 32 + 1)) by lia.
Qed.

(** Two times at most 2^32 ticks apart. *)
Lemma clock_wraps k0 k T0 T :
  clock k0 T0 -> clock k T -> T0 <= T <= T0 + 2 ^ 32 ->
  (xNumOfOverflows k = xNumOfOverflows k0 /\ xTickCount k - xTickCount k0 = T - T0 /\ T - T0 < 2 ^ 32) \/
  (xNumOfOverflows k <> xNumOfOverflows k0 /\ xTickCount k - xTickCount k0 = T - T0 - 2 ^ 32).
Proof.
  intros (_ & Et0 & Eo0) (_ & Et & Eo) HT. rewrite Et, Et0, Eo, Eo0.
  pose proof (Z.div_mod T0 (2 ^ 32) ltac:(lia)). pose proof (Z.mod_pos_bound T0 (2 ^ 32) ltac:(lia)).
  pose proof (Z.div_mod T (2 ^ 32) ltac:(lia)). pose proof (Z.mod_pos_bound T (2 ^ 32) ltac:(lia)).
  assert (T / 2 ^ 32 = T0 / 2 ^ 32 \/ T / 2 ^ 32 = T0 / 2 ^ 32 + 1) as [E|E] by lia; rewrite E.
  - left. split; [done|lia].
  - right. split; [apply s32_succ_ne|lia].
Qed.

(** The time-out of a blocking call is exact.  The state taken when the call
    started at tick T0 is checked at tick T, at most 2^32 ticks more, with w ticks to
    wait: unless the delay was aborted or the wait is for ever, the call has timed out
    exactly when w ticks have passed, and otherwise the rest of the wait is kept, from
    now on, so that the deadline stays the same, whether or not the tick count has
    wrapped. *)
Theorem timeout_exact (k0 k : kernel) (T0 T w c : Z) :
  clock k0 T0 -> clock k T -> T0 <= T <= T0 + 2 ^ 32 -> pxCurrentTCB k = Some c -> 0 <= w < 2 ^ 32 ->
  xTaskCheckForTimeOut k (vTaskInternalSetTimeOutState k0) w =
  Ok (if ucDelayAborted (tcb k c) then (set_delay_aborted k c false, vTaskInternalSetTimeOutState k0, w, true)
      else if w =? portMAX_DELAY then (k, vTaskInternalSetTimeOutState k0, w, false)
      else if w <=? T - T0 then (k, vTaskInternalSetTimeOutState k0, 0, true)
      else (k, vTaskInternalSetTimeOutState k, T0 + w - T, false)).
Proof.
  intros H0 H HT Hc Hw. unfold xTaskCheckForTimeOut, current. rewrite Hc. cbn [res_bind].
  destruct (ucDelayAborted (tcb k c)); [done|]. destruct (Z.eqb_spec w portMAX_DELAY); [done|]. cbn [vTaskInternalSetTimeOutState].
  change (xOverflowCount (vTaskInternalSetTimeOutState k0)) with (xNumOfOverflows k0).
  change (xTimeOnEntering (vTaskInternalSetTimeOutState k0)) with (xTickCount k0).
  destruct (clock_wraps k0 k T0 T H0 H HT) as [(-> & -> & Hlt)|[Ho Ed]].
  - rewrite Z.eqb_refl, (u_small 32) by (unfold is_u; lia). cbn [negb andb].
    destruct (Z.ltb_spec (T - T0) w), (Z.leb_spec w (T - T0)); try lia; [|done]. by replace (T0 + w - T) with (w - (T - T0)) by lia.
  - rewrite (proj2 (Z.eqb_neq _ _) Ho). cbn [negb andb]. destruct (Z.leb_spec (xTickCount k0) (xTickCount k)).
    + by rewrite (proj2 (Z.leb_le w (T - T0))) by lia.
    + assert (u32 (xTickCount k - xTickCount k0) = T - T0) as ->.
      { unfold u. symmetry. apply Z.mod_unique with (-1); lia. }
      destruct (Z.ltb_spec (T - T0) w), (Z.leb_spec w (T - T0)); try lia; [|done]. by replace (T0 + w - T) with (w - (T - T0)) by lia.
Qed.

Definition before_wrap : kernel := some_start <| xTickCount := 2 ^ 32 - 2 |>.
Definition after_wrap : kernel := some_start <| xTickCount := 3 |> <| xNumOfOverflows := 1 |>.
Lemma timeout_exact_witness :
  xTaskCheckForTimeOut after_wrap (vTaskInternalSetTimeOutState before_wrap) 7 =
    Ok (after_wrap, vTaskInternalSetTimeOutState after_wrap, 2, false) /\
  xTaskCheckForTimeOut after_wrap (vTaskInternalSetTimeOutState before_wrap) 5 =
    Ok (after_wrap, vTaskInternalSetTimeOutState before_wrap, 0, true).
Proof.
  assert (clock before_wrap (2 ^ 32 - 2) /\ clock after_wrap (2 ^ 32 + 3)) as [H0 H1] by done.
  split; [apply (timeout_exact before_wrap after_wrap (2 ^ 32 - 2) (2 ^ 32 + 3) 7 3)
         |apply (timeout_exact before_wrap after_wrap (2 ^ 32 - 2) (2 ^ 32 + 3) 5 3)]; try lia; try done; by vm_compute.
Defined.

(** ** Periodic delays *)

(** The comparison of three tick counts decides whether the wake time is still to
    come. *)
Lemma should_delay_spec N P inc :
  0 <= P <= N -> N < P + 2 ^ 32 -> 0 < inc < 2 ^ 32 ->
  should_delay (u32 N) (u32 P) (u32 (u32 P + inc)) = (N <? P + inc) /\
  (N < P + inc -> u32 (u32 (u32 P + inc) - u32 N) = P + inc - N).
Proof.
  intros HP HN Hinc. replace (u32 (u32 P + inc)) with (u32 (P + inc)) by (unfold u; by rewrite Zplus_mod_idemp_l).
  replace (u32 (u32 (P + inc) - u32 N)) with (u32 (P + inc - N)) by (unfold u; by rewrite Zminus_mod). split.
  - unfold should_delay, u. set (m := 2 ^ 32) in *. pose proof (Z.div_mod P m ltac:(lia)). pose proof (Z.mod_pos_bound P m ltac:(lia)).
    pose proof (Z.div_mod N m ltac:(lia)). pose proof (Z.mod_pos_bound N m ltac:(lia)).
    pose proof (Z.div_mod (P + inc) m ltac:(lia)). pose proof (Z.mod_pos_bound (P + inc) m ltac:(lia)). clearbody m.
    assert (N / m = P / m \/ N / m = P / m + 1) as HN' by nia.
    assert ((P + inc) / m = P / m \/ (P + inc) / m = P / m + 1) as HP' by nia.
    destruct (Z.ltb_spec (N mod m) (P mod m)), (Z.ltb_spec ((P + inc) mod m) (P mod m)), (Z.ltb_spec (N mod m) ((P + inc) mod m)),
      (Z.ltb_spec N (P + inc)); cbn [andb orb]; try done; destruct HN' as [EN|EN], HP' as [EP|EP]; rewrite EN, EP in *; nia.
  - intros Hlt. apply (u_small 32). unfold is_u. lia.
Qed.

(** C38: periodic delays do not drift.  A task whose last wake time was tick P calls
    xTaskDelayUntil at tick N, less than 2^32 ticks more.  The call reports, and
    remembers, the wake time P + inc, and says that it delayed the task exactly when
    that time is still to come; the task is then blocked until tick P + inc and ready
    from then on, whatever interrupts come and however the tick count wraps. *)
Theorem delay_until_periodic (idle : Z) (tasks : list (Z * Z)) (k : kernel) (c P inc N : Z) (i1 i2 more : list interrupt) :
  task_set idle tasks -> reachable idle tasks k -> xPendSV k = false -> uxSchedulerSuspended k = 0 ->
  pxCurrentTCB k = Some c -> c <> idle -> xTickCount k = u32 N -> 0 <= P <= N -> N < P + 2 ^ 32 -> 0 < inc < 2 ^ 32 ->
  ticks i1 + ticks i2 < 2 ^ 32 ->
  exists k1 k2, xTaskDelayUntil (run_interrupts i1) (run_interrupts i2) k (u32 P) inc = Ok (k1, u32 (P + inc), N <? P + inc) /\
    run_interrupts more k1 = Ok k2 /\
    let left := P + inc - (N + ticks i1 + ticks i2 + ticks more) in
    (0 < left -> waiting k2 c left) /\ (left <= 0 -> ready k2 c).
Proof.
  intros Ht Hr Hp Hs Hc Hne HN HP HNP Hinc Hlt. pose proof (reachable_inv _ _ _ Ht Hr) as I. unfold xTaskDelayUntil.
  rewrite (proj2 (Z.ltb_lt 0 inc)) by lia. rewrite Hs. cbn [Z.eqb assert res_bind].
  destruct (enter_body idle k c i1 I Hp Hs Hc) as (k1 & -> & B1 & R1 & _ & H1 & D1). cbn [res_bind].
  rewrite (hd_tick _ _ H1). change (xTickCount (vTaskSuspendAll k)) with (xTickCount k). rewrite HN.
  destruct (should_delay_spec N P inc HP HNP Hinc) as [-> Hn].
  assert (exists k2, (if N <? P + inc then prvAddCurrentTaskToDelayedList k1 (u32 (u32 (u32 P + inc) - u32 N)) false else Ok k1) = Ok k2 /\
    body_state idle k2 c /\ due_in k2 c (P + inc - N) /\ xPendedTicks k2 = xPendedTicks k1) as (k2 & -> & B2 & Hd2 & D2).
  { destruct (Z.ltb_spec N (P + inc)); [rewrite Hn by done; apply block_body; [done..|lia]|].
    exists k1. split_and!; [done..| |done]. right. split; [lia|done]. }
  cbn [res_bind]. pose proof (ticks_nonneg i1). pose proof (ticks_nonneg i2). rewrite D1, (u_small 32) in D2 by (unfold is_u; lia).
  destruct (leave_then_due idle k2 c i2 more _ B2 Hd2) as (k3 & k4 & b & k5 & -> & E4 & E5 & Hf); [by rewrite D2|].
  cbn [res_bind]. rewrite E4. cbn [res_bind]. rewrite D2 in Hf.
  replace (P + inc - N - (ticks i1 + ticks i2 + ticks more)) with (P + inc - (N + ticks i1 + ticks i2 + ticks more)) in Hf by lia.
  replace (u32 (u32 P + inc)) with (u32 (P + inc)) by (unfold u; by rewrite Zplus_mod_idemp_l). by eexists _, k5.
Qed.

Lemma delay_until_periodic_witness :
  exists k1 k2, xTaskDelayUntil (run_interrupts [SysTick]) (run_interrupts []) some_start (u32 0) 4 = Ok (k1, u32 (0 + 4), 0 <? 0 + 4) /\
    run_interrupts [SysTick; PendSV] k1 = Ok k2 /\
    let left := 0 + 4 - (0 + ticks [SysTick] + ticks [] + ticks [SysTick; PendSV]) in
    (0 < left -> waiting k2 3 left) /\ (left <= 0 -> ready k2 3).
Proof.
  apply (delay_until_periodic 0 some_tasks some_start 3 0 4 0 [SysTick] [] [SysTick; PendSV]);
    [exact some_tasks_ok|apply reach_boot; by vm_compute|by vm_compute..|lia|by vm_compute|lia|lia|lia|by vm_compute].
Defined.
End RtosDelay.
