(* ===== verification/RtosFair.v ===== *)
(** * Tasks of equal priority take turns

    [vTaskSwitchContext] steps the index of the ready list of the highest priority:
    every task on it runs once before one runs again. *)

From S2P Require Import Prelude RtosList RtosSeq RtosSched RtosSchedInv RtosTick RtosSchedProps RtosRun RtosBoot.
From stdpp Require Import list.
#[local] Set Warnings "-clear-no-such-hyp".
#[local] Open Scope Z_scope.

Module RtosFair.
Export RtosBoot.
#[local] Instance any_priority : Strict := False.

(** The order in which the items of a list come up. *)
Definition order {I} (s : slist I) : list I := RtosSeq.after s ++ upto s.
Lemma order_perm {I} (s : slist I) : order s ≡ₚ members s.
Proof. apply Permutation_app_comm. Qed.
Lemma advance_order {I} (s s' : slist I) x : advance s = Some (x, s') -> exists rest, order s = x :: rest /\ order s' = rest ++ [x].
Proof.
  unfold advance, order. destruct s as [ys [|z zs]]; cbn [RtosSeq.after upto].
  - destruct ys as [|y ys]; [done|]. intros [= <- <-]. by exists ys.
  - intros [= <- <-]. exists (zs ++ ys). split; [done|]. cbn [RtosSeq.after upto]. by rewrite app_assoc.
Qed.

(** The running task gives up the processor [n] times; the tasks that run after
    each. *)
Fixpoint turns (n : nat) (k : kernel) : res (kernel * list Z) :=
  match n with
  | O => Ok (k, [])
  | S n =>
      let! k := xPortPendSVHandler (portYIELD k) in
      let! c := RtosSched.current k in
      let! '(k, ts) := turns n k in
      Ok (k, c :: ts)
  end.

(** [p] is the highest priority with a ready task. *)
Definition top (k : kernel) (p : Z) : Prop := (exists t, ready k t /\ priority k t = p) /\ forall t, ready k t -> priority k t <= p.

Lemma turn_ok idle k p :
  inv idle k -> uxSchedulerSuspended k = 0 -> top k p ->
  exists k' x rest, xPortPendSVHandler (portYIELD k) = Ok k' /\ inv idle k' /\ uxSchedulerSuspended k' = 0 /\ top k' p /\
    pxCurrentTCB k' = Some (owner x) /\ order (the_list (kst k) (ReadyTasks p)) = x :: rest /\
    order (the_list (kst k') (ReadyTasks p)) = rest ++ [x].
Proof.
  intros I Hs [(t & Ht & Hp) Hmax]. pose proof (inv_wf _ _ I) as W.
  pose proof (inv_flags idle k (xYieldPending k) true I (fun _ => eq_refl) (fun h => h)) as I1.
  destruct (pendsv_inv idle _ I1 Hs) as (k' & E & I' & _ & _). change (_ <| xPendSV := true |>) with (portYIELD k) in E.
  revert E. unfold xPortPendSVHandler, vTaskSwitchContext. rsimpl. change (uxSchedulerSuspended (portYIELD k)) with (uxSchedulerSuspended k).
  rewrite Hs. cbn [Z.eqb negb]. unfold taskSELECT_HIGHEST_PRIORITY_TASK. rsimpl. set (k0 := _ <| xYieldPending := false |>).
  pose proof (wf_state _ _ _ W t _ Ht) as [_ Htop]. pose proof (wf_priority _ _ _ W t) as Hpr.
  change (uxTopReadyPriority (portYIELD k)) with (uxTopReadyPriority k).
  destruct (highest_ready_ok k0 (Z.to_nat (uxTopReadyPriority k)) (priority k t)) as (q & -> & Hne & Hq & Hz);
    [lia|by apply (ready_list_nonempty _ _ _ W)|]. cbn [res_bind].
  assert (q = p) as ->.
  { destruct (Z.lt_trichotomy q p) as [Hlt|[->|Hgt]]; [|done|].
    - exfalso. apply (ready_list_nonempty _ _ _ W Ht). rewrite Hp. apply Hz. lia.
    - exfalso. destruct (tasks_on k (ReadyTasks q)) as [|i l] eqn:El; [done|].
      assert (container k i = Some (ReadyTasks q)) as Hi by (apply (tasks_on_iff _ _ _ _ _ W); rewrite El; set_solver).
      destruct i as [u|u]; [|by apply (wf_event _ _ _ W) in Hi as [? _]]. pose proof (wf_state _ _ _ W u _ Hi) as [Hu _].
      rewrite Hu in Hi. specialize (Hmax u Hi). lia. }
  unfold seq_next. change (kst k0) with (kst k). change (kst (portYIELD k)) with (kst k).
  destruct (advance (the_list (kst k) (ReadyTasks p))) as [[x s']|] eqn:Ea; [|done].
  destruct (advance_order _ _ _ Ea) as (rest & E1 & E2). intros [= <-]. eexists _, x, rest.
  split; [done|]. split; [exact I'|]. split; [done|]. split; [|split; [done|]].
  - split; [exists t; done|done].
  - split; [done|]. rsimpl. by rewrite the_list_put, decide_True.
Qed.

Lemma turns_order idle p n k xs ys :
  inv idle k -> uxSchedulerSuspended k = 0 -> top k p -> order (the_list (kst k) (ReadyTasks p)) = xs ++ ys -> length xs = n ->
  exists k', turns n k = Ok (k', owner <$> xs) /\ order (the_list (kst k') (ReadyTasks p)) = ys ++ xs.
Proof.
  revert k xs ys. induction n as [|n IH]; intros k xs ys I Hs Ht Ho Hn; cbn [turns].
  - destruct xs; [|done]. exists k. by rewrite app_nil_r.
  - destruct xs as [|x xs]; [done|]. destruct (turn_ok idle k p I Hs Ht) as (k1 & x1 & rest & -> & I1 & S1 & T1 & C1 & E1 & E2).
    rewrite Ho in E1. injection E1 as <- <-. cbn [res_bind]. unfold RtosSched.current. rewrite C1. cbn [res_bind].
    rewrite <- app_assoc in E2. destruct (IH k1 xs (ys ++ [x]) I1 S1 T1 E2) as (k' & -> & E3); [cbn in Hn; lia|].
    exists k'. split; [done|]. by rewrite E3, <- app_assoc.
Qed.

(** C18: tasks of equal priority take turns.  In every reachable state in which the
    scheduler is not suspended, when the running task gives up the processor as many
    times as there are ready tasks of the highest priority, each of these tasks is
    chosen exactly once. *)
Theorem round_robin (idle : Z) (tasks : list (Z * Z)) (k : kernel) (p : Z) :
  task_set idle tasks -> reachable idle tasks k -> uxSchedulerSuspended k = 0 -> top k p ->
  exists k' ts, turns (length (tasks_on k (ReadyTasks p))) k = Ok (k', ts) /\ NoDup ts /\
    forall t, t ∈ ts <-> ready k t /\ priority k t = p.
Proof.
  intros Ht Hr Hs Htop. pose proof (reachable_inv _ _ _ Ht Hr) as I. pose proof (inv_wf _ _ I) as W.
  set (s := the_list (kst k) (ReadyTasks p)). change (tasks_on k (ReadyTasks p)) with (members s).
  destruct (turns_order idle p (length (members s)) k (order s) [] I Hs Htop) as (k' & E & _);
    [by rewrite app_nil_r|by rewrite (order_perm s)|]. exists k', (owner <$> order s). split; [done|].
  assert (forall i, i ∈ order s <-> i = StateItem (owner i) /\ ready k (owner i) /\ priority k (owner i) = p) as Hin.
  { intros i. rewrite (order_perm s). change (members s) with (tasks_on k (ReadyTasks p)).
    rewrite <- (tasks_on_iff _ _ _ _ _ W). split.
    - intros Hi. destruct i as [u|u]; [|by apply (wf_event _ _ _ W) in Hi as [? _]]. pose proof (wf_state _ _ _ W u _ Hi) as [Hu _].
      split; [done|]. cbn [owner]. rewrite Hu in Hi. by rewrite Hu.
    - intros (-> & Hi & <-). exact Hi. }
  split.
  - apply NoDup_fmap_2_strong; [|rewrite (order_perm s); apply (wf_store _ _ _ W)].
    intros i j [Hi _]%Hin [Hj _]%Hin E'. by rewrite Hi, Hj, E'.
  - intros t. rewrite list_elem_of_fmap. split.
    + by intros (i & -> & [_ ?]%Hin).
    + intros [? ?]. exists (StateItem t). split; [done|]. by apply Hin.
Qed.

Definition equal_tasks : list (Z * Z) := [(1, 2); (2, 2); (3, 2); (0, 0)].
Definition equal_start : kernel := after (boot equal_tasks).
Lemma round_robin_witness :
  exists k' ts, turns (length (tasks_on equal_start (ReadyTasks 2))) equal_start = Ok (k', ts) /\ NoDup ts /\
    forall t, t ∈ ts <-> ready equal_start t /\ priority equal_start t = 2.
Proof.
  assert (task_set 0 equal_tasks) as Ht
    by (split_and!; [repeat constructor; set_solver|repeat constructor; done|unfold equal_tasks; set_solver|done]).
  assert ((3, 2) ∈ equal_tasks) as Hin by (unfold equal_tasks; set_solver).
  destruct (boot_ok (stc := True) 0 equal_tasks Ht) as (k & E & I & Hr). assert (k = equal_start) as Ek by (unfold equal_start; by rewrite E).
  assert (pxCurrentTCB equal_start = Some 3) as Hc by (vm_compute; exact eq_refl).
  assert (xPendSV equal_start = false) as Hp by (vm_compute; exact eq_refl).
  assert (uxSchedulerSuspended equal_start = 0) as Hs by (vm_compute; exact eq_refl).
  rewrite <- Ek in Hc, Hp, Hs |- *. destruct (Hr 3 2 Hin) as [H3 P3].
  apply (round_robin 0 equal_tasks k 2 Ht (reach_boot _ _ _ E) Hs).
  destruct (inv_switch (stc := True) _ _ I Hs) as [Hx|(c & Hc' & _ & Hmax)]; [rewrite Hp in Hx; discriminate Hx|].
  rewrite Hc in Hc'. injection Hc' as <-. rewrite P3 in Hmax. exact (conj (ex_intro _ 3 (conj H3 P3)) (Hmax Logic.I)).
Defined.
End RtosFair.
