(* ===== verification/RtosQueue.v ===== *)
(** * Queues, semaphores and mutexes

    [Demo_FreeRTOS/FreeRTOS/Source/queue.c], compiled without queue sets and without
    static allocation.  A queue is a record with the bytes of its storage area;
    pointers into the area are offsets from its start.  A call that can block is cut
    where the code leaves a critical section or resumes the scheduler, since other
    tasks can run there; interrupts can also come between the steps of a part that
    runs with the scheduler suspended. *)

From S2P Require Import Prelude Words RtosList RtosHeap RtosSeq RtosSched.
From stdpp Require Import list strings.
#[local] Open Scope Z_scope.

Module RtosQueue.
Export RtosSched.
Import RtosHeap.RtosHeap.

Definition queueUNLOCKED : Z := -1.
Definition queueLOCKED_UNMODIFIED : Z := 0.
Definition queueINT8_MAX : Z := 127.
Definition queueSEND_TO_BACK : Z := 0.
Definition queueSEND_TO_FRONT : Z := 1.
Definition queueOVERWRITE : Z := 2.
Definition queueQUEUE_TYPE_BASE : Z := 0.
Definition queueQUEUE_TYPE_MUTEX : Z := 1.
Definition queueQUEUE_TYPE_COUNTING_SEMAPHORE : Z := 2.
Definition queueQUEUE_TYPE_BINARY_SEMAPHORE : Z := 3.
Definition queueQUEUE_TYPE_RECURSIVE_MUTEX : Z := 4.
Definition queueSEMAPHORE_QUEUE_ITEM_LENGTH : Z := 0.
Definition configQUEUE_REGISTRY_SIZE : nat := 2.
Definition SIZE_MAX : Z := 2 ^ 32 - 1.

(** The union of the queue structure, with the member that was written last. *)
Inductive queue_union :=
  | xQueue (pcTail pcReadFrom : Z)
  | xSemaphore (xMutexHolder : option Z) (uxRecursiveCallCount : Z).

(** [queueQUEUE_IS_MUTEX] is the null pointer in [pcHead]. *)
Record Queue_t := mkQueue {
  pcHead_NULL : bool;
  storage : list Z;
  pcWriteTo : Z;
  q_u : queue_union;
  uxMessagesWaiting : Z;
  uxLength : Z;
  uxItemSize : Z;
  cRxLock : Z;
  cTxLock : Z;
  uxQueueNumber : Z;
  ucQueueType : Z;
}.
#[global] Instance eta_Queue : Eta Queue_t := fun q =>
  mkQueue (pcHead_NULL q) (storage q) (pcWriteTo q) (q_u q) (uxMessagesWaiting q) (uxLength q) (uxItemSize q)
    (cRxLock q) (cTxLock q) (uxQueueNumber q) (ucQueueType q).

(** Reading a member of the union that was not the last written is not modelled. *)
Definition pcTail (Q : Queue_t) : res Z := match q_u Q with xQueue t _ => Ok t | _ => Fault OutOfBounds end.
Definition pcReadFrom (Q : Queue_t) : res Z := match q_u Q with xQueue _ r => Ok r | _ => Fault OutOfBounds end.
Definition xMutexHolder (Q : Queue_t) : res (option Z) := match q_u Q with xSemaphore h _ => Ok h | _ => Fault OutOfBounds end.
Definition uxRecursiveCallCount (Q : Queue_t) : res Z := match q_u Q with xSemaphore _ n => Ok n | _ => Fault OutOfBounds end.
Definition set_read_from (Q : Queue_t) (r : Z) : res Queue_t := let! t := pcTail Q in Ok (Q <| q_u := xQueue t r |>).
Definition set_holder (Q : Queue_t) (h : option Z) : res Queue_t :=
  let! n := uxRecursiveCallCount Q in Ok (Q <| q_u := xSemaphore h n |>).
Definition set_recursive (Q : Queue_t) (n : Z) : res Queue_t := let! h := xMutexHolder Q in Ok (Q <| q_u := xSemaphore h n |>).

(** Calls that are over: an item was sent, received or peeked at; the queue was full
    or empty. *)
Inductive outcome :=
  | Sent (q : Z) (item : list Z) (position : Z)
  | Received (q : Z) (item : list Z)
  | Peeked (q : Z) (item : list Z)
  | WasFull (q : Z)
  | WasEmpty (q : Z).

Record QueueRegistryItem_t := mkRegItem { pcQueueName : option string; xHandle : Z }.

(** The kernel, the queues by their address, the heap and the registry; the outcomes of
    the calls so far are recorded, but no definition reads them. *)
Record sys := mkSys {
  kern : kernel;
  queues : gmap Z Queue_t;
  sheap : heap_1;
  xQueueRegistry : list QueueRegistryItem_t;
  outcomes : list outcome;
}.
#[global] Instance eta_sys : Eta sys := fun s => mkSys (kern s) (queues s) (sheap s) (xQueueRegistry s) (outcomes s).
Definition start_sys (k : kernel) : sys := mkSys k ∅ heap_start (replicate configQUEUE_REGISTRY_SIZE (mkRegItem None 0)) [].
Definition record (s : sys) (o : outcome) : sys := s <| outcomes := outcomes s ++ [o] |>.

(** [configASSERT( pxQueue )] and the access through the pointer. *)
Definition get_queue (s : sys) (q : Z) : res Queue_t :=
  match queues s !! q with Some Q => Ok Q | None => Fault AssertFailure end.
Definition put_queue (s : sys) (q : Z) (Q : Queue_t) : sys := s <| queues := <[q := Q]> (queues s) |>.
Definition put_kern (s : sys) (k : kernel) : sys := s <| kern := k |>.

(** The lists [xTasksWaitingToSend] and [xTasksWaitingToReceive] of a queue. *)
Definition to_send (q : Z) : Z := 2 * q.
Definition to_receive (q : Z) : Z := 2 * q + 1.

(** [if( listLIST_IS_EMPTY( .. ) == pdFALSE ) xTaskRemoveFromEventList( .. )]: whether
    a task of higher priority was woken. *)
Definition wake_waiting (k : kernel) (e : Z) : res (kernel * bool) :=
  if listLIST_IS_EMPTY k (EventList e) then Ok (k, false) else xTaskRemoveFromEventList k e.
(** ... followed by a request to switch. *)
Definition wake_and_yield (k : kernel) (e : Z) : res kernel :=
  let! '(k, b) := wake_waiting k e in Ok (if b : bool then portYIELD k else k).

(** ** Locks *)

Definition prvLockQueue (Q : Queue_t) : Queue_t :=
  let Q := if cRxLock Q =? queueUNLOCKED then Q <| cRxLock := queueLOCKED_UNMODIFIED |> else Q in
  if cTxLock Q =? queueUNLOCKED then Q <| cTxLock := queueLOCKED_UNMODIFIED |> else Q.

Definition prvIncrementQueueTxLock (k : kernel) (Q : Queue_t) : res Queue_t :=
  if u32 (cTxLock Q) <? uxCurrentNumberOfTasks k then
    do! assert (negb (cTxLock Q =? queueINT8_MAX)) in Ok (Q <| cTxLock := cTxLock Q + 1 |>)
  else Ok Q.
Definition prvIncrementQueueRxLock (k : kernel) (Q : Queue_t) : res Queue_t :=
  if u32 (cRxLock Q) <? uxCurrentNumberOfTasks k then
    do! assert (negb (cRxLock Q =? queueINT8_MAX)) in Ok (Q <| cRxLock := cRxLock Q + 1 |>)
  else Ok Q.

(** One of the two loops of [prvUnlockQueue]; the counter starts at [n]. *)
Fixpoint unlock_loop (n : nat) (k : kernel) (e : Z) : res kernel :=
  match n with
  | O => Ok k
  | S n =>
      if listLIST_IS_EMPTY k (EventList e) then Ok k
      else let! '(k, b) := xTaskRemoveFromEventList k e in
           unlock_loop n (if b : bool then vTaskMissedYield k else k) e
  end.
Definition prvUnlockQueue (isr : sys -> res sys) (s : sys) (q : Z) : res sys :=
  let! Q := get_queue s q in
  let! k := unlock_loop (Z.to_nat (cTxLock Q)) (kern s) (to_receive q) in
  let! s := isr (put_queue (put_kern s k) q (Q <| cTxLock := queueUNLOCKED |>)) in
  let! Q := get_queue s q in
  let! k := unlock_loop (Z.to_nat (cRxLock Q)) (kern s) (to_send q) in
  Ok (put_queue (put_kern s k) q (Q <| cRxLock := queueUNLOCKED |>)).

(** ** Copying items *)

Definition prvCopyDataToQueue (k : kernel) (Q : Queue_t) (pvItemToQueue : list Z) (xPosition : Z)
    : res (kernel * Queue_t * bool) :=
  let n := uxMessagesWaiting Q in
  let! '(k, Q, n, xReturn) :=
    if uxItemSize Q =? 0 then
      if pcHead_NULL Q then
        let! h := xMutexHolder Q in
        let! '(k, b) := xTaskPriorityDisinherit k h in
        let! Q := set_holder Q None in
        Ok (k, Q, n, b)
      else Ok (k, Q, n, false)
    else if xPosition =? queueSEND_TO_BACK then
      let! m := memcpy (storage Q) (pcWriteTo Q) pvItemToQueue (uxItemSize Q) in
      let w := pcWriteTo Q + uxItemSize Q in
      let! t := pcTail Q in
      Ok (k, Q <| storage := m |> <| pcWriteTo := if t <=? w then 0 else w |>, n, false)
    else
      let! r := pcReadFrom Q in
      let! m := memcpy (storage Q) r pvItemToQueue (uxItemSize Q) in
      let r := r - uxItemSize Q in
      let! t := pcTail Q in
      let! Q := set_read_from (Q <| storage := m |>) (if r <? 0 then t - uxItemSize Q else r) in
      Ok (k, Q, if (xPosition =? queueOVERWRITE) && (0 <? n) then n - 1 else n, false) in
  Ok (k, Q <| uxMessagesWaiting := u32 (n + 1) |>, xReturn).

(** The bytes that are copied to the caller's buffer. *)
Definition prvCopyDataFromQueue (Q : Queue_t) : res (Queue_t * list Z) :=
  if negb (uxItemSize Q =? 0) then
    let! r := pcReadFrom Q in
    let r := r + uxItemSize Q in
    let! t := pcTail Q in
    let r := if t <=? r then 0 else r in
    let! Q := set_read_from Q r in
    let! b := memcpy (replicate (Z.to_nat (uxItemSize Q)) 0) 0 (drop (Z.to_nat r) (storage Q)) (uxItemSize Q) in
    Ok (Q, b)
  else Ok (Q, []).

Definition prvIsQueueEmpty (Q : Queue_t) : bool := uxMessagesWaiting Q =? 0.
Definition prvIsQueueFull (Q : Queue_t) : bool := uxMessagesWaiting Q =? uxLength Q.
Definition uxQueueMessagesWaiting (s : sys) (q : Z) : res Z := let! Q := get_queue s q in Ok (uxMessagesWaiting Q).
Definition uxQueueSpacesAvailable (s : sys) (q : Z) : res Z :=
  let! Q := get_queue s q in Ok (u32 (uxLength Q - uxMessagesWaiting Q)).

(** ** Sending and receiving without waiting *)

Definition xTaskGetSchedulerState_suspended (k : kernel) : bool := xSchedulerRunning k && negb (uxSchedulerSuspended k =? 0).

(** Where a call that can block is: at the top of its loop, with the time-out state
    once that is set, and whether a mutex holder inherited the caller's priority; past
    the first critical section; after its time has run out; or at its end, with the
    bytes received when it succeeded. *)
Inductive progress :=
  | Try (xTimeOut : option TimeOut_t) (xTicksToWait : Z) (xInheritanceOccurred : bool)
  | Block (xTimeOut : TimeOut_t) (xTicksToWait : Z) (xInheritanceOccurred : bool)
  | Expired (xTimeOut : TimeOut_t) (xTicksToWait : Z) (xInheritanceOccurred : bool)
  | GiveUp
  | Return (result : option (list Z)).

(** What the first critical section does when it cannot succeed. *)
Definition cannot_now (k : kernel) (xTimeOut : option TimeOut_t) (xTicksToWait : Z) (inh : bool) : progress :=
  if xTicksToWait =? 0 then Return None
  else Block (default (vTaskInternalSetTimeOutState k) xTimeOut) xTicksToWait inh.

(** The assertions at the start of [xQueueGenericSend]; [None] is a null pointer. *)
Definition xQueueGenericSend_start (s : sys) (q : Z) (pvItemToQueue : option (list Z)) (xTicksToWait xCopyPosition : Z)
    : res progress :=
  let! Q := get_queue s q in
  do! assert (bool_decide (pvItemToQueue <> None) || (uxItemSize Q =? 0)) in
  do! assert (negb ((xCopyPosition =? queueOVERWRITE) && negb (uxLength Q =? 1))) in
  do! assert (negb (xTaskGetSchedulerState_suspended (kern s) && negb (xTicksToWait =? 0))) in
  Ok (Try None xTicksToWait false).

Definition xQueueGenericSend_try (s : sys) (q : Z) (pvItemToQueue : option (list Z)) (xCopyPosition : Z)
    (xTimeOut : option TimeOut_t) (xTicksToWait : Z) (inh : bool) : res (sys * progress) :=
  let! Q := get_queue s q in
  if (uxMessagesWaiting Q <? uxLength Q) || (xCopyPosition =? queueOVERWRITE) then
    let! '(k, Q, xYieldRequired) := prvCopyDataToQueue (kern s) Q (default [] pvItemToQueue) xCopyPosition in
    let! k := if negb (listLIST_IS_EMPTY k (EventList (to_receive q))) then wake_and_yield k (to_receive q)
              else Ok (if xYieldRequired : bool then portYIELD k else k) in
    Ok (put_queue (put_kern s k) q Q, Return (Some []))
  else Ok (s, cannot_now (kern s) xTimeOut xTicksToWait inh).

Definition xQueueReceive_start (s : sys) (q : Z) (xTicksToWait : Z) : res progress :=
  let! Q := get_queue s q in
  do! assert (negb (xTaskGetSchedulerState_suspended (kern s) && negb (xTicksToWait =? 0))) in
  Ok (Try None xTicksToWait false).
Definition xQueueReceive_try (s : sys) (q : Z) (xTimeOut : option TimeOut_t) (xTicksToWait : Z) (inh : bool)
    : res (sys * progress) :=
  let! Q := get_queue s q in
  if 0 <? uxMessagesWaiting Q then
    let! '(Q', b) := prvCopyDataFromQueue Q in
    let Q' := Q' <| uxMessagesWaiting := uxMessagesWaiting Q - 1 |> in
    let! k := wake_and_yield (kern s) (to_send q) in
    Ok (put_queue (put_kern s k) q Q', Return (Some b))
  else Ok (s, cannot_now (kern s) xTimeOut xTicksToWait inh).
(** A peek puts the read position back and wakes the next reader. *)
Definition xQueuePeek_try (s : sys) (q : Z) (xTimeOut : option TimeOut_t) (xTicksToWait : Z) (inh : bool)
    : res (sys * progress) :=
  let! Q := get_queue s q in
  if 0 <? uxMessagesWaiting Q then
    let! r := pcReadFrom Q in
    let! '(Q', b) := prvCopyDataFromQueue Q in
    let! Q' := set_read_from Q' r in
    let! k := wake_and_yield (kern s) (to_receive q) in
    Ok (put_queue (put_kern s k) q Q', Return (Some b))
  else Ok (s, cannot_now (kern s) xTimeOut xTicksToWait inh).

Definition xQueueSemaphoreTake_start (s : sys) (q : Z) (xTicksToWait : Z) : res progress :=
  let! Q := get_queue s q in
  do! assert (uxItemSize Q =? 0) in
  do! assert (negb (xTaskGetSchedulerState_suspended (kern s) && negb (xTicksToWait =? 0))) in
  Ok (Try None xTicksToWait false).
Definition xQueueSemaphoreTake_try (s : sys) (q : Z) (xTimeOut : option TimeOut_t) (xTicksToWait : Z) (inh : bool)
    : res (sys * progress) :=
  let! Q := get_queue s q in
  if 0 <? uxMessagesWaiting Q then
    let Q := Q <| uxMessagesWaiting := uxMessagesWaiting Q - 1 |> in
    let! '(k, Q) := if pcHead_NULL Q then
                      let '(k, h) := pvTaskIncrementMutexHeldCount (kern s) in
                      let! Q := set_holder Q h in Ok (k, Q)
                    else Ok (kern s, Q) in
    let! k := wake_and_yield k (to_send q) in
    Ok (put_queue (put_kern s k) q Q, Return (Some []))
  else Ok (s, cannot_now (kern s) xTimeOut xTicksToWait inh).

(** ** From interrupts

    The result says whether the call succeeded, and the switch that the handler then
    requests when a task of higher priority was woken is part of it. *)

Definition xQueueGenericSendFromISR (s : sys) (q : Z) (pvItemToQueue : option (list Z)) (xCopyPosition : Z) : res (sys * bool) :=
  let! Q := get_queue s q in
  do! assert (bool_decide (pvItemToQueue <> None) || (uxItemSize Q =? 0)) in
  do! assert (negb ((xCopyPosition =? queueOVERWRITE) && negb (uxLength Q =? 1))) in
  if (uxMessagesWaiting Q <? uxLength Q) || (xCopyPosition =? queueOVERWRITE) then
    let! '(k, Q, _) := prvCopyDataToQueue (kern s) Q (default [] pvItemToQueue) xCopyPosition in
    let! '(k, Q) := if cTxLock Q =? queueUNLOCKED
                    then let! k := wake_and_yield k (to_receive q) in Ok (k, Q)
                    else let! Q := prvIncrementQueueTxLock k Q in Ok (k, Q) in
    Ok (put_queue (put_kern s k) q Q, true)
  else Ok (s, false).

Definition xQueueGiveFromISR (s : sys) (q : Z) : res (sys * bool) :=
  let! Q := get_queue s q in
  do! assert (uxItemSize Q =? 0) in
  do! (if pcHead_NULL Q then let! h := xMutexHolder Q in assert (bool_decide (h = None)) else Ok tt) in
  if uxMessagesWaiting Q <? uxLength Q then
    let Q := Q <| uxMessagesWaiting := u32 (uxMessagesWaiting Q + 1) |> in
    let! '(k, Q) := if cTxLock Q =? queueUNLOCKED
                    then let! k := wake_and_yield (kern s) (to_receive q) in Ok (k, Q)
                    else let! Q := prvIncrementQueueTxLock (kern s) Q in Ok (kern s, Q) in
    Ok (put_queue (put_kern s k) q Q, true)
  else Ok (s, false).

Definition xQueueReceiveFromISR (s : sys) (q : Z) : res (sys * option (list Z)) :=
  let! Q := get_queue s q in
  if 0 <? uxMessagesWaiting Q then
    let! '(Q', b) := prvCopyDataFromQueue Q in
    let Q' := Q' <| uxMessagesWaiting := uxMessagesWaiting Q - 1 |> in
    let! '(k, Q') := if cRxLock Q' =? queueUNLOCKED
                     then let! k := wake_and_yield (kern s) (to_send q) in Ok (k, Q')
                     else let! Q' := prvIncrementQueueRxLock (kern s) Q' in Ok (kern s, Q') in
    Ok (put_queue (put_kern s k) q Q', Some b)
  else Ok (s, None).

Definition xQueuePeekFromISR (s : sys) (q : Z) : res (sys * option (list Z)) :=
  let! Q := get_queue s q in
  do! assert (negb (uxItemSize Q =? 0)) in
  if 0 <? uxMessagesWaiting Q then
    let! r := pcReadFrom Q in
    let! '(Q', b) := prvCopyDataFromQueue Q in
    let! Q' := set_read_from Q' r in
    Ok (put_queue s q Q', Some b)
  else Ok (s, None).

(** ** Waiting

    The part of a blocking call that runs with the scheduler suspended.  [isr n] are
    the interrupts that come at the [n]-th point between its critical sections;
    [blocked] is the condition to wait for the event [e], and [inherit] what a taker of
    a mutex does before it waits. *)

Definition lock_queue (s : sys) (q : Z) : res sys := let! Q := get_queue s q in Ok (put_queue s q (prvLockQueue Q)).

(** [prvUnlockQueue] and [xTaskResumeAll]. *)
Definition unlock_and_resume (isr : nat -> sys -> res sys) (s : sys) (q : Z) : res (sys * bool) :=
  let! s := prvUnlockQueue (isr 7%nat) s q in
  let! s := isr 8%nat s in
  let! '(k, yielded) := xTaskResumeAll (kern s) in
  Ok (put_kern s k, yielded).

Definition wait_part (isr : nat -> sys -> res sys) (blocked : Queue_t -> bool) (inherit : sys -> res (sys * bool)) (e : Z)
    (s : sys) (q : Z) (xTimeOut : TimeOut_t) (xTicksToWait : Z) (inh : bool) : res (sys * progress) :=
  let! s := isr 1%nat (put_kern s (vTaskSuspendAll (kern s))) in
  let! s := lock_queue s q in
  let! s := isr 2%nat s in
  let! '(k, xTimeOut, xTicksToWait, expired) := xTaskCheckForTimeOut (kern s) xTimeOut xTicksToWait in
  let! s := isr 3%nat (put_kern s k) in
  if expired : bool then
    let! '(s, _) := unlock_and_resume isr s q in
    Ok (s, Expired xTimeOut xTicksToWait inh)
  else
    let! Q := get_queue s q in
    if blocked Q then
      let! s := isr 4%nat s in
      let! '(s, inh) := inherit s in
      let! s := isr 5%nat s in
      let! k := vTaskPlaceOnEventList (kern s) e xTicksToWait in
      let! s := isr 6%nat (put_kern s k) in
      let! '(s, yielded) := unlock_and_resume isr s q in
      Ok (if yielded : bool then s else put_kern s (portYIELD (kern s)), Try (Some xTimeOut) xTicksToWait inh)
    else
      let! '(s, _) := unlock_and_resume isr s q in
      Ok (s, Try (Some xTimeOut) xTicksToWait inh).

Definition no_inherit (inh : bool) (s : sys) : res (sys * bool) := Ok (s, inh).
(** In a critical section: the holder of a mutex inherits the caller's priority. *)
Definition mutex_inherit (q : Z) (inh : bool) (s : sys) : res (sys * bool) :=
  let! Q := get_queue s q in
  if pcHead_NULL Q then
    let! h := xMutexHolder Q in
    let! '(k, b) := xTaskPriorityInherit (kern s) h in
    Ok (put_kern s k, b)
  else Ok (s, inh).

Definition xQueueGenericSend_wait (isr : nat -> sys -> res sys) (s : sys) (q : Z) (xTimeOut : TimeOut_t) (xTicksToWait : Z)
    (inh : bool) : res (sys * progress) :=
  wait_part isr prvIsQueueFull (no_inherit inh) (to_send q) s q xTimeOut xTicksToWait inh.
Definition xQueueReceive_wait (isr : nat -> sys -> res sys) (s : sys) (q : Z) (xTimeOut : TimeOut_t) (xTicksToWait : Z)
    (inh : bool) : res (sys * progress) :=
  wait_part isr prvIsQueueEmpty (no_inherit inh) (to_receive q) s q xTimeOut xTicksToWait inh.
Definition xQueueSemaphoreTake_wait (isr : nat -> sys -> res sys) (s : sys) (q : Z) (xTimeOut : TimeOut_t) (xTicksToWait : Z)
    (inh : bool) : res (sys * progress) :=
  wait_part isr prvIsQueueEmpty (mutex_inherit q inh) (to_receive q) s q xTimeOut xTicksToWait inh.

(** After the time has run out a sender gives up; a receiver looks once more, and a
    taker of a mutex takes back the priority it gave to the holder. *)
Definition xQueueReceive_expired (s : sys) (q : Z) (xTimeOut : TimeOut_t) (xTicksToWait : Z) (inh : bool) : res progress :=
  let! Q := get_queue s q in
  Ok (if prvIsQueueEmpty Q then Return None else Try (Some xTimeOut) xTicksToWait inh).
Definition xQueueSemaphoreTake_expired (s : sys) (q : Z) (xTimeOut : TimeOut_t) (xTicksToWait : Z) (inh : bool) : res progress :=
  let! Q := get_queue s q in
  Ok (if prvIsQueueEmpty Q then if inh then GiveUp else Return None else Try (Some xTimeOut) xTicksToWait inh).

Definition prvGetDisinheritPriorityAfterTimeout (k : kernel) (q : Z) : Z :=
  match seq_head (kst k) (EventList (to_receive q)) with
  | Some i => u32 (configMAX_PRIORITIES - item_value k i)
  | None => 0
  end.
Definition give_up_mutex (s : sys) (q : Z) : res sys :=
  let! Q := get_queue s q in
  let! h := xMutexHolder Q in
  let! k := vTaskPriorityDisinheritAfterTimeout (kern s) h (prvGetDisinheritPriorityAfterTimeout (kern s) q) in
  Ok (put_kern s k).

(** The calls, and a step of each. *)
Inductive operation :=
  | xQueueGenericSend (pvItemToQueue : option (list Z)) (xCopyPosition : Z)
  | xQueueReceive
  | xQueuePeek
  | xQueueSemaphoreTake.

Definition start_operation (o : operation) (s : sys) (q : Z) (xTicksToWait : Z) : res progress :=
  match o with
  | xQueueGenericSend item pos => xQueueGenericSend_start s q item xTicksToWait pos
  | xQueueReceive | xQueuePeek => xQueueReceive_start s q xTicksToWait
  | xQueueSemaphoreTake => xQueueSemaphoreTake_start s q xTicksToWait
  end.
Definition step_operation (isr : nat -> sys -> res sys) (o : operation) (s : sys) (q : Z) (p : progress) : res (sys * progress) :=
  match p with
  | Try to n inh =>
      match o with
      | xQueueGenericSend item pos => xQueueGenericSend_try s q item pos to n inh
      | xQueueReceive => xQueueReceive_try s q to n inh
      | xQueuePeek => xQueuePeek_try s q to n inh
      | xQueueSemaphoreTake => xQueueSemaphoreTake_try s q to n inh
      end
  | Block to n inh =>
      match o with
      | xQueueGenericSend _ _ => xQueueGenericSend_wait isr s q to n inh
      | xQueueReceive | xQueuePeek => xQueueReceive_wait isr s q to n inh
      | xQueueSemaphoreTake => xQueueSemaphoreTake_wait isr s q to n inh
      end
  | Expired to n inh =>
      match o with
      | xQueueGenericSend _ _ => Ok (s, Return None)
      | xQueueReceive | xQueuePeek => let! p := xQueueReceive_expired s q to n inh in Ok (s, p)
      | xQueueSemaphoreTake => let! p := xQueueSemaphoreTake_expired s q to n inh in Ok (s, p)
      end
  | GiveUp => let! s := give_up_mutex s q in Ok (s, Return None)
  | Return r => Ok (s, Return r)
  end.

(** Used by the timer task, with the scheduler suspended. *)
Definition vQueueWaitForMessageRestricted (isr : nat -> sys -> res sys) (s : sys) (q xTicksToWait : Z) (xWaitIndefinitely : bool) : res sys :=
  let! s := lock_queue s q in
  let! s := isr 2%nat s in
  let! Q := get_queue s q in
  let! s := if uxMessagesWaiting Q =? 0 then
              let! k := vTaskPlaceOnEventListRestricted (kern s) (to_receive q) xTicksToWait xWaitIndefinitely in
              Ok (put_kern s k)
            else Ok s in
  let! s := isr 6%nat s in
  prvUnlockQueue (isr 7%nat) s q.

(** ** Creating and resetting *)

Definition sizeof_Queue_t : Z := 80.
Definition offset_uxQueueNumber : Z := 72.
Definition initialise_lists (k : kernel) (q : Z) : kernel :=
  k <| kst := put_list (put_list (kst k) (EventList (to_send q)) (mkSl [] [])) (EventList (to_receive q)) (mkSl [] []) |>.

Definition xQueueGenericReset (s : sys) (q : Z) (xNewQueue : bool) : res sys :=
  let! Q := get_queue s q in
  do! assert ((1 <=? uxLength Q) && (uxItemSize Q <=? SIZE_MAX / uxLength Q)) in
  let Q := Q <| q_u := xQueue (u32 (uxLength Q * uxItemSize Q)) (u32 ((uxLength Q - 1) * uxItemSize Q)) |>
             <| uxMessagesWaiting := 0 |> <| pcWriteTo := 0 |> <| cRxLock := queueUNLOCKED |> <| cTxLock := queueUNLOCKED |> in
  let s := put_queue s q Q in
  if xNewQueue then Ok (put_kern s (initialise_lists (kern s) q))
  else let! k := wake_and_yield (kern s) (to_send q) in Ok (put_kern s k).

(** [pucQueueStorage] is the content of the memory that the queue gets; the number for
    trace tools keeps what the memory holds. *)
Definition prvInitialiseNewQueue (s : sys) (q uxQueueLength uxItemSize : Z) (pucQueueStorage : list Z) (uxQueueNumber ucQueueType : Z)
    : res sys :=
  let Q := mkQueue false pucQueueStorage 0 (xQueue 0 0) 0 uxQueueLength uxItemSize queueUNLOCKED queueUNLOCKED uxQueueNumber ucQueueType in
  xQueueGenericReset (put_queue s q Q) q true.

Section create.
(** The address of the heap, and the bytes that memory holds. *)
Context (ucHeap : Z) (memory : Z -> Z).

(** The word of memory at an address. *)
Definition memory_word (p : Z) : Z := le_word (memory <$> seqZ p 4).

(** The address of the queue, or 0. *)
Definition xQueueGenericCreate (s : sys) (uxQueueLength uxItemSize ucQueueType : Z) : res (sys * Z) :=
  if (0 <? uxQueueLength) && (uxItemSize <=? SIZE_MAX / uxQueueLength) &&
     (u32 (uxQueueLength * uxItemSize) <=? SIZE_MAX - sizeof_Queue_t) then
    let n := u32 (uxQueueLength * uxItemSize) in
    let '(p, h) := pvPortMalloc ucHeap (sheap s) (u32 (sizeof_Queue_t + n)) in
    let s := s <| sheap := h |> in
    if p =? 0 then Ok (s, 0)
    else let! s := prvInitialiseNewQueue s p uxQueueLength uxItemSize (memory <$> seqZ (p + sizeof_Queue_t) n)
                    (memory_word (p + offset_uxQueueNumber)) ucQueueType in
         Ok (s, p)
  else Fault AssertFailure.

Definition prvInitialiseMutex (s : sys) (q : Z) : res sys :=
  if q =? 0 then Ok s
  else let! Q := get_queue s q in
       let s := put_queue s q (Q <| q_u := xSemaphore None 0 |> <| pcHead_NULL := true |>) in
       let! '(s, _) := xQueueGenericSend_try s q None queueSEND_TO_BACK None 0 false in Ok s.
Definition xQueueCreateMutex (s : sys) (ucQueueType : Z) : res (sys * Z) :=
  let! '(s, q) := xQueueGenericCreate s 1 0 ucQueueType in
  let! s := prvInitialiseMutex s q in Ok (s, q).
Definition xQueueCreateCountingSemaphore (s : sys) (uxMaxCount uxInitialCount : Z) : res (sys * Z) :=
  if negb (uxMaxCount =? 0) && (uxInitialCount <=? uxMaxCount) then
    let! '(s, q) := xQueueGenericCreate s uxMaxCount queueSEMAPHORE_QUEUE_ITEM_LENGTH queueQUEUE_TYPE_COUNTING_SEMAPHORE in
    if q =? 0 then Ok (s, 0)
    else let! Q := get_queue s q in Ok (put_queue s q (Q <| uxMessagesWaiting := uxInitialCount |>), q)
  else Fault AssertFailure.
End create.

(** Recursive mutexes: the parts before and after the call that can block. *)
Definition xQueueGiveMutexRecursive (s : sys) (q : Z) : res (sys * bool) :=
  let! Q := get_queue s q in
  let! h := xMutexHolder Q in
  if bool_decide (h = pxCurrentTCB (kern s)) then
    let! n := uxRecursiveCallCount Q in
    let! Q := set_recursive Q (u32 (n - 1)) in
    let s := put_queue s q Q in
    let! s := if u32 (n - 1) =? 0
              then let! '(s, _) := xQueueGenericSend_try s q None queueSEND_TO_BACK None 0 false in Ok s
              else Ok s in
    Ok (s, true)
  else Ok (s, false).
Definition xQueueTakeMutexRecursive_held (s : sys) (q : Z) : res (option sys) :=
  let! Q := get_queue s q in
  let! h := xMutexHolder Q in
  if bool_decide (h = pxCurrentTCB (kern s)) then
    let! n := uxRecursiveCallCount Q in
    let! Q := set_recursive Q (u32 (n + 1)) in Ok (Some (put_queue s q Q))
  else Ok None.
Definition xQueueTakeMutexRecursive_taken (s : sys) (q : Z) (result : option (list Z)) : res sys :=
  match result with
  | None => Ok s
  | Some _ => let! Q := get_queue s q in
              let! n := uxRecursiveCallCount Q in
              let! Q := set_recursive Q (u32 (n + 1)) in Ok (put_queue s q Q)
  end.
(** ** The registry *)

(** The loop of [vQueueAddToRegistry]: the entry of the queue, else the first vacant one. *)
Fixpoint entry_to_write (reg : list QueueRegistryItem_t) (ux : nat) (pxEntryToWrite : option nat) (q : Z) : option nat :=
  match reg with
  | [] => pxEntryToWrite
  | e :: reg =>
      if q =? xHandle e then Some ux
      else entry_to_write reg (S ux)
             (match pxEntryToWrite, pcQueueName e with None, None => Some ux | _, _ => pxEntryToWrite end) q
  end.
Definition vQueueAddToRegistry (s : sys) (q : Z) (name : option string) : res sys :=
  do! assert (negb (q =? 0)) in
  match match name with Some _ => entry_to_write (xQueueRegistry s) 0 None q | None => None end with
  | Some ux => Ok (s <| xQueueRegistry := <[ux := mkRegItem name q]> (xQueueRegistry s) |>)
  | None => Ok s
  end.
Definition pcQueueGetName (s : sys) (q : Z) : res (option string) :=
  do! assert (negb (q =? 0)) in
  Ok (match list_find (fun e => xHandle e = q) (xQueueRegistry s) with Some (_, e) => pcQueueName e | None => None end).
Definition vQueueUnregisterQueue (s : sys) (q : Z) : res sys :=
  do! assert (negb (q =? 0)) in
  match list_find (fun e => xHandle e = q) (xQueueRegistry s) with
  | Some (ux, _) => Ok (s <| xQueueRegistry := <[ux := mkRegItem None 0]> (xQueueRegistry s) |>)
  | None => Ok s
  end.

(** Deleting a queue frees its memory. *)
Definition vQueueDelete (s : sys) (q : Z) : res sys :=
  let! Q := get_queue s q in
  let! s := vQueueUnregisterQueue s q in
  do! vPortFree q in Ok s.

(** ** What trace tools read, and other queries *)
Definition uxQueueGetQueueNumber (s : sys) (q : Z) : res Z := let! Q := get_queue s q in Ok (uxQueueNumber Q).
Definition vQueueSetQueueNumber (s : sys) (q number : Z) : res sys :=
  let! Q := get_queue s q in Ok (put_queue s q (Q <| uxQueueNumber := number |>)).
Definition ucQueueGetQueueType (s : sys) (q : Z) : res Z := let! Q := get_queue s q in Ok (ucQueueType Q).
Definition xQueueIsQueueEmptyFromISR (s : sys) (q : Z) : res bool := let! Q := get_queue s q in Ok (uxMessagesWaiting Q =? 0).
Definition xQueueIsQueueFullFromISR (s : sys) (q : Z) : res bool := let! Q := get_queue s q in Ok (uxMessagesWaiting Q =? uxLength Q).
End RtosQueue.
