(* ===== verification/RtosQueueData.v ===== *)
(** * The storage of a queue is a queue of items

    What a queue holds is a sequence of items: sending copies an item to the back or to
    the front of it, receiving copies the first item out. *)

From S2P Require Import Prelude RtosList RtosHeap RtosSeq RtosSched RtosQueue.
From stdpp Require Import list.
#[local] Open Scope Z_scope.

Module RtosQueueData.
Export RtosQueue.

(** ** Items of [n] bytes in an array *)

Definition slot (n : Z) (m : list Z) (i : Z) : list Z := take (Z.to_nat n) (drop (Z.to_nat (i * n)) m).

Lemma slot_write n len m item i :
  0 < n -> 0 <= i < len -> Z.of_nat (length m) = len * n -> Z.of_nat (length item) = n ->
  exists m', memcpy m (i * n) item n = Ok m' /\ length m' = length m /\
    forall j, 0 <= j < len -> slot n m' j = if j =? i then item else slot n m j.
Proof.
  intros Hn Hi Hm Hit. assert (0 <= i * n /\ i * n + n <= len * n) as [H0 H1] by nia. rewrite memcpy_ok by lia. eexists. split; [done|].
  assert (take (Z.to_nat n) item = item) as -> by (apply take_ge; lia). split; [len|]. intros j Hj. unfold slot.
  set (a := Z.to_nat (i * n)). set (b := Z.to_nat (j * n)). replace (Z.to_nat (i * n + n)) with (a + Z.to_nat n)%nat by (unfold a; nia).
  assert (a + Z.to_nat n <= length m)%nat by (unfold a; nia). assert (length item = Z.to_nat n) as Hl by lia.
  destruct (Z.eqb_spec j i) as [->|Hne].
  - fold a. rewrite drop_app_ge, length_take_le by (rewrite ?length_take; lia). rewrite Nat.sub_diag, drop_0.
    rewrite take_app_le by lia. apply take_ge. lia.
  - assert (b + Z.to_nat n <= a \/ a + Z.to_nat n <= b)%nat as [Hb|Hb] by (unfold a, b; nia).
    + rewrite drop_app_le by (rewrite length_take; lia). rewrite take_app_le by (rewrite length_drop, length_take; lia).
      rewrite skipn_firstn_comm, take_take. f_equal. lia.
    + rewrite drop_app_ge by (rewrite length_take; lia). rewrite length_take_le by lia.
      rewrite drop_app_ge by lia. rewrite drop_drop. do 2 f_equal. lia.
Qed.
Lemma slot_read n len m i :
  0 < n -> 0 <= i < len -> Z.of_nat (length m) = len * n ->
  memcpy (replicate (Z.to_nat n) 0) 0 (drop (Z.to_nat (i * n)) m) n = Ok (slot n m i) /\ Z.of_nat (length (slot n m i)) = n.
Proof.
  intros Hn Hi Hm. assert (Z.to_nat (i * n) + Z.to_nat n <= length m)%nat by nia. split.
  - rewrite memcpy_ok by (rewrite ?length_replicate, ?length_drop; lia). rewrite Z.add_0_l, (drop_ge (replicate _ _)) by (rewrite length_replicate; lia).
    by rewrite app_nil_r.
  - unfold slot. rewrite length_take, length_drop. lia.
Qed.

(** ** The invariant of a queue and its content *)

(** Where the next item is read, as a number of items. *)
Definition first_slot (Q : Queue_t) : Z :=
  match q_u Q with xQueue _ r => r / uxItemSize Q + 1 | xSemaphore _ _ => 0 end.
Definition contents (Q : Queue_t) : list (list Z) :=
  (fun i => if uxItemSize Q =? 0 then [] else slot (uxItemSize Q) (storage Q) ((first_slot Q + i) mod uxLength Q))
  <$> seqZ 0 (uxMessagesWaiting Q).

Record queue_ok (Q : Queue_t) : Prop := {
  qo_length : 0 < uxLength Q;
  qo_size : 0 <= uxItemSize Q;
  qo_area : uxLength Q * uxItemSize Q < 2 ^ 32 /\ uxLength Q < 2 ^ 32;
  qo_storage : Z.of_nat (length (storage Q)) = uxLength Q * uxItemSize Q;
  qo_waiting : 0 <= uxMessagesWaiting Q <= uxLength Q;
  qo_pointers : pcHead_NULL Q = false -> exists t r, q_u Q = xQueue t r /\
    (0 < uxItemSize Q -> exists a, 0 <= a < uxLength Q /\ t = uxLength Q * uxItemSize Q /\ r = a * uxItemSize Q /\
       pcWriteTo Q = (a + 1 + uxMessagesWaiting Q) mod uxLength Q * uxItemSize Q);
  qo_mutex : pcHead_NULL Q = true -> uxItemSize Q = 0 /\ uxLength Q = 1 /\
    exists h n, q_u Q = xSemaphore h n /\ uxMessagesWaiting Q = match h with Some _ => 0 | None => 1 end;
}.

Lemma contents_length Q : queue_ok Q -> Z.of_nat (length (contents Q)) = uxMessagesWaiting Q.
Proof. intros []. unfold contents. rewrite length_fmap, length_seqZ. lia. Qed.

Lemma contents_zero Q : uxItemSize Q = 0 -> contents Q = replicate (Z.to_nat (uxMessagesWaiting Q)) [].
Proof.
  intros Hz. unfold contents. rewrite Hz. cbn [Z.eqb]. unfold seqZ. rewrite <- list_fmap_compose.
  generalize (Z.to_nat (uxMessagesWaiting Q)) as n. intros n. generalize 0%nat. induction n as [|n IH]; intros m; [done|].
  cbn. f_equal. apply IH.
Qed.

(** ** Copying *)

(** The task that holds the mutex, of a queue that is one. *)
Definition holder (Q : Queue_t) : option (option Z) :=
  if pcHead_NULL Q then match q_u Q with xSemaphore h _ => Some h | xQueue _ _ => None end else None.

(** The configuration, the locks and the holder of the queue do not change. *)
Record same_queue (Q Q' : Queue_t) : Prop := {
  sq_length : uxLength Q' = uxLength Q;
  sq_size : uxItemSize Q' = uxItemSize Q;
  sq_mutex : pcHead_NULL Q' = pcHead_NULL Q;
  sq_rx : cRxLock Q' = cRxLock Q;
  sq_tx : cTxLock Q' = cTxLock Q;
  sq_holder : holder Q' = holder Q;
}.
Lemma same_queue_plain Q Q' :
  pcHead_NULL Q = false -> uxLength Q' = uxLength Q -> uxItemSize Q' = uxItemSize Q -> pcHead_NULL Q' = pcHead_NULL Q ->
  cRxLock Q' = cRxLock Q -> cTxLock Q' = cTxLock Q -> same_queue Q Q'.
Proof. intros Hm ? ? E ? ?. split; try done. unfold holder. by rewrite E, Hm. Qed.
Lemma same_queue_refl Q : same_queue Q Q.
Proof. by split. Qed.
Lemma same_queue_trans Q1 Q2 Q3 : same_queue Q1 Q2 -> same_queue Q2 Q3 -> same_queue Q1 Q3.
Proof. intros [] []. split; congruence. Qed.

Lemma mod_ne len x y : 0 < y - x < len -> x mod len <> y mod len.
Proof.
  intros H E. assert ((y - x) mod len = 0) as H0 by (rewrite Zminus_mod, E, Z.sub_diag; apply Z.mod_0_l; lia).
  rewrite Z.mod_small in H0; lia.
Qed.
(** One item further, or back at the start of the storage. *)
Lemma wrap_next len b n : 0 < n -> 0 <= b < len -> (if len * n <=? b * n + n then 0 else b * n + n) = (b + 1) mod len * n.
Proof.
  intros Hn Hb. destruct (Z.leb_spec (len * n) (b * n + n)).
  - replace (b + 1) with len by nia. by rewrite Z.mod_same by lia.
  - rewrite Z.mod_small by nia. lia.
Qed.
Lemma wrap_prev len a n : 0 < n -> 0 <= a < len -> (if a * n - n <? 0 then len * n - n else a * n - n) = (a - 1) mod len * n.
Proof.
  intros Hn Ha. destruct (Z.ltb_spec (a * n - n) 0).
  - replace a with 0 by nia. rewrite <- (Z.mod_unique (0 - 1) len (-1) (len - 1)) by lia. lia.
  - rewrite Z.mod_small by nia. lia.
Qed.

Lemma contents_some Q t r a :
  q_u Q = xQueue t r -> 0 < uxItemSize Q -> r = a * uxItemSize Q ->
  contents Q = (fun i => slot (uxItemSize Q) (storage Q) ((a + 1 + i) mod uxLength Q)) <$> seqZ 0 (uxMessagesWaiting Q).
Proof.
  intros Hu Hs ->. unfold contents, first_slot. rewrite Hu, (proj2 (Z.eqb_neq _ 0)), Z.div_mul by lia. done.
Qed.
Lemma fmap_seqZ_ext {A} (f g : Z -> A) a n : (forall i, a <= i < a + n -> f i = g i) -> f <$> seqZ a n = g <$> seqZ a n.
Proof. intros H. apply list_fmap_ext. intros j i Hi%lookup_seqZ. apply H. lia. Qed.

Lemma copy_back k Q item :
  queue_ok Q -> pcHead_NULL Q = false -> 0 < uxItemSize Q -> Z.of_nat (length item) = uxItemSize Q -> uxMessagesWaiting Q < uxLength Q ->
  exists Q', prvCopyDataToQueue k Q item queueSEND_TO_BACK = Ok (k, Q', false) /\ queue_ok Q' /\ same_queue Q Q' /\
    contents Q' = contents Q ++ [item].
Proof.
  intros Hok Hm Hs Hit Hlt. destruct (qo_pointers _ Hok Hm) as (t & r & Hu & Hp). destruct (Hp Hs) as (a & Ha & -> & -> & Hw).
  destruct Hok. destruct (slot_write (uxItemSize Q) (uxLength Q) (storage Q) item ((a + 1 + uxMessagesWaiting Q) mod uxLength Q))
    as (m' & E & Hl & Hsl); [done|apply Z.mod_pos_bound; lia|done|done|].
  unfold prvCopyDataToQueue, pcTail. rewrite (proj2 (Z.eqb_neq (uxItemSize Q) 0)), Hw by lia. cbn [Z.eqb queueSEND_TO_BACK].
  rewrite E. cbn [res_bind]. rewrite Hu. cbn [res_bind]. rewrite wrap_next by (try apply Z.mod_pos_bound; lia).
  rewrite (u_small 32) by (unfold is_u; lia). eexists. split; [done|]. split; [|split; [by apply same_queue_plain|]].
  - split; try done; cbn; try lia; try (intros; congruence). intros _. eexists _, _. split; [exact Hu|]. intros _. exists a. split; [done|]. split; [done|]. split; [done|].
    rsimpl. rewrite Zplus_mod_idemp_l. do 2 f_equal. lia.
  - erewrite !contents_some by done. rsimpl. rewrite seqZ_app, fmap_app by lia. cbn [seqZ fmap list_fmap]. f_equal.
    + apply fmap_seqZ_ext. intros i Hi. rewrite Hsl by (apply Z.mod_pos_bound; lia).
      rewrite (proj2 (Z.eqb_neq _ _)); [done|]. apply mod_ne. lia.
    + rewrite seqZ_cons by lia. change (seqZ _ (Z.pred 1)) with (@nil Z). cbn [fmap list_fmap]. f_equal.
      rewrite Hsl by (apply Z.mod_pos_bound; lia). by rewrite Z.add_0_l, Z.eqb_refl.
Qed.

(** In front of the [n0] items that stay. *)
Lemma copy_front k Q item pos n0 :
  queue_ok Q -> pcHead_NULL Q = false -> 0 < uxItemSize Q -> Z.of_nat (length item) = uxItemSize Q -> pos <> queueSEND_TO_BACK ->
  n0 = (if (pos =? queueOVERWRITE) && (0 <? uxMessagesWaiting Q) then uxMessagesWaiting Q - 1 else uxMessagesWaiting Q) ->
  n0 < uxLength Q -> (n0 = uxMessagesWaiting Q \/ uxLength Q = 1) ->
  exists Q', prvCopyDataToQueue k Q item pos = Ok (k, Q', false) /\ queue_ok Q' /\ same_queue Q Q' /\
    contents Q' = item :: take (Z.to_nat n0) (contents Q).
Proof.
  intros Hok Hm Hs Hit Hpos%Z.eqb_neq En0 Hlt Hcase. destruct (qo_pointers _ Hok Hm) as (t & r & Hu & Hp).
  destruct (Hp Hs) as (a & Ha & -> & -> & Hw). destruct Hok.
  assert (0 <= n0 <= uxMessagesWaiting Q) as Hn0.
  { subst n0. destruct (_ && _) eqn:E; [apply andb_true_iff in E as [_ ?%Z.ltb_lt]|]; lia. }
  destruct (slot_write (uxItemSize Q) (uxLength Q) (storage Q) item a) as (m' & E & Hl & Hsl); [done..|].
  unfold prvCopyDataToQueue, set_read_from, pcTail, pcReadFrom. rewrite (proj2 (Z.eqb_neq (uxItemSize Q) 0)), Hpos by lia.
  rewrite Hu. cbn [res_bind]. rewrite E. cbn [res_bind]. rsimpl. rewrite Hu. cbn [res_bind]. rewrite wrap_prev by lia.
  rewrite <- En0, (u_small 32) by (unfold is_u; lia). pose proof (Z.mod_pos_bound (a - 1) (uxLength Q) ltac:(lia)) as Hb.
  eexists. split; [done|]. split; [|split; [by apply same_queue_plain|]].
  - split; try done; cbn; try lia; try (intros; congruence). intros _. eexists _, _. split; [done|]. intros _. eexists. split; [exact Hb|]. split; [done|]. split; [done|].
    rewrite Hw. f_equal. replace ((a - 1) mod uxLength Q + 1 + (n0 + 1)) with ((a - 1) mod uxLength Q + (n0 + 2)) by lia.
    rewrite Zplus_mod_idemp_l. destruct Hcase as [-> | ->]; [f_equal; lia|by rewrite !Z.mod_1_r].
  - erewrite !contents_some by done. rsimpl. rewrite seqZ_cons by lia. cbn [fmap list_fmap]. f_equal.
    + rewrite Z.add_0_r, Zplus_mod_idemp_l. replace (a - 1 + 1) with a by lia. rewrite Z.mod_small, Hsl, Z.eqb_refl by done. done.
    + rewrite <- fmap_take. replace (Z.pred (n0 + 1)) with n0 by lia.
      replace (take (Z.to_nat n0) (seqZ 0 (uxMessagesWaiting Q))) with (seqZ 0 n0).
      2: { replace (uxMessagesWaiting Q) with (n0 + (uxMessagesWaiting Q - n0)) by lia. rewrite seqZ_app by lia.
           rewrite take_app_le, take_ge by (rewrite length_seqZ; lia). done. }
      replace (Z.succ 0) with (1 + 0) by lia. rewrite <- fmap_add_seqZ, <- list_fmap_compose. apply fmap_seqZ_ext. intros i Hi. cbn [compose].
      replace ((a - 1) mod uxLength Q + 1 + (1 + i)) with ((a - 1) mod uxLength Q + (2 + i)) by lia. rewrite Zplus_mod_idemp_l.
      replace (a - 1 + (2 + i)) with (a + 1 + i) by lia. rewrite Hsl by (apply Z.mod_pos_bound; lia).
      rewrite (proj2 (Z.eqb_neq _ a)); [done|]. intros Ea. apply (mod_ne (uxLength Q) a (a + 1 + i)); [lia|].
      by rewrite Ea, Z.mod_small by done.
Qed.

(** Semaphores hold items of no bytes. *)
Lemma copy_semaphore k Q item pos :
  queue_ok Q -> pcHead_NULL Q = false -> uxItemSize Q = 0 -> uxMessagesWaiting Q < uxLength Q ->
  exists Q', prvCopyDataToQueue k Q item pos = Ok (k, Q', false) /\ queue_ok Q' /\ same_queue Q Q' /\
    contents Q' = contents Q ++ [[]].
Proof.
  intros Hok Hm Hs Hlt. destruct (qo_pointers _ Hok Hm) as (t & r & Hu & _). destruct Hok. unfold prvCopyDataToQueue. rewrite Hs, Hm.
  cbn [Z.eqb res_bind]. rewrite (u_small 32) by (unfold is_u; lia). eexists. split; [done|]. split; [|split; [by apply same_queue_plain|]].
  - split; try done; cbn; try lia; try (intros; congruence). intros _. exists t, r. split; [done|]. lia.
  - rewrite !contents_zero by done. rsimpl. by rewrite Z2Nat.inj_add, replicate_add by lia.
Qed.

(** The first item is copied out; the caller then takes it off the count. *)
Lemma copy_from Q x xs :
  queue_ok Q -> pcHead_NULL Q = false -> contents Q = x :: xs ->
  exists Q', prvCopyDataFromQueue Q = Ok (Q', x) /\ same_queue Q Q' /\
    queue_ok (Q' <| uxMessagesWaiting := uxMessagesWaiting Q - 1 |>) /\
    contents (Q' <| uxMessagesWaiting := uxMessagesWaiting Q - 1 |>) = xs /\
    forall r, pcReadFrom Q = Ok r -> set_read_from Q' r = Ok Q.
Proof.
  intros Hok Hm Hx. pose proof (contents_length _ Hok) as Hn. rewrite Hx in Hn. cbn [length] in Hn.
  destruct (qo_pointers _ Hok Hm) as (t & r & Hu & Hp). destruct Hok. unfold prvCopyDataFromQueue, set_read_from, pcReadFrom, pcTail.
  destruct (Z.eqb_spec (uxItemSize Q) 0) as [Hz|Hz]; cbn [negb].
  - rewrite (contents_zero _ Hz) in Hx. replace (Z.to_nat (uxMessagesWaiting Q)) with (S (Z.to_nat (uxMessagesWaiting Q - 1))) in Hx by lia.
    injection Hx as <- <-. exists Q. split; [done|]. split; [by apply same_queue_plain|]. split; [|split].
    + split; try done; cbn; try lia; try (intros; congruence). intros _. exists t, r. split; [done|]. lia.
    + by rewrite contents_zero.
    + intros r'. rewrite Hu. intros [= <-]. cbn [res_bind]. destruct Q. cbn in *. by subst.
  - assert (0 < uxItemSize Q) as Hs by lia. destruct (Hp Hs) as (a & Ha & -> & -> & Hw). rewrite Hu. cbn [res_bind].
    rewrite wrap_next by done. pose proof (Z.mod_pos_bound (a + 1) (uxLength Q) ltac:(lia)) as Hb. rsimpl.
    destruct (slot_read (uxItemSize Q) (uxLength Q) (storage Q) _ Hs Hb qo_storage0) as [-> _]. cbn [res_bind].
    erewrite contents_some in Hx by done. rewrite seqZ_cons in Hx by lia. cbn [fmap list_fmap] in Hx. rewrite Z.add_0_r in Hx.
    injection Hx as <- <-. eexists. split; [done|]. split; [by apply same_queue_plain|]. split; [|split].
    + split; try done; cbn; try lia; try (intros; congruence). intros _. eexists _, _. split; [done|]. intros _. eexists. split; [exact Hb|]. split; [done|]. split; [done|].
      rewrite Hw. f_equal. replace ((a + 1) mod uxLength Q + 1 + (uxMessagesWaiting Q - 1)) with ((a + 1) mod uxLength Q + uxMessagesWaiting Q) by lia.
      by rewrite Zplus_mod_idemp_l.
    + erewrite contents_some by done. rsimpl. replace (Z.succ 0) with (1 + 0) by lia. rewrite <- fmap_add_seqZ, <- list_fmap_compose.
      apply fmap_seqZ_ext. intros i Hi. cbn [compose]. replace ((a + 1) mod uxLength Q + 1 + i) with ((a + 1) mod uxLength Q + (1 + i)) by lia.
      by rewrite Zplus_mod_idemp_l.
    + intros r' [= <-]. cbn [res_bind]. destruct Q. cbn in *. by subst.
Qed.
End RtosQueueData.
