(* ===== verification/RtosQueueSys.v ===== *)
(** * Tasks and interrupts that share queues

    The queues of [RtosQueue.v] on the kernel of [RtosSched.v]: whatever calls and
    interrupts come, in any order and at any point between critical sections, no call
    faults, the kernel keeps its invariant and every queue behaves as a bounded
    sequence of items. *)

From S2P Require Import Prelude RtosList RtosHeap RtosSeq RtosSched RtosSchedInv RtosTick RtosSchedProps RtosRun RtosSteady RtosBoot.
From S2P Require Import RtosQueue RtosQueueData.
From stdpp Require Import list.
#[local] Set Warnings "-clear-no-such-hyp".
#[local] Open Scope Z_scope.

Module RtosQueueSys.
Export RtosSteady RtosBoot RtosQueueData.

(** ** The specification: bounded sequences of items *)

Abbreviation aqueues := (gmap Z (Z * list (list Z))).
Definition apply_outcome (A : aqueues) (o : outcome) : option aqueues :=
  match o with
  | Sent q x pos =>
      '(cap, xs) ← A !! q;
      if pos =? queueOVERWRITE then if cap =? 1 then Some (<[q := (cap, [x])]> A) else None
      else if Z.of_nat (length xs) <? cap
      then Some (<[q := (cap, if pos =? queueSEND_TO_BACK then xs ++ [x] else x :: xs)]> A) else None
  | Received q x =>
      '(cap, xs) ← A !! q;
      match xs with y :: ys => if decide (x = y) then Some (<[q := (cap, ys)]> A) else None | [] => None end
  | Peeked q x => '(cap, xs) ← A !! q; if decide (head xs = Some x) then Some A else None
  | WasFull q => '(cap, xs) ← A !! q; if Z.of_nat (length xs) =? cap then Some A else None
  | WasEmpty q => '(cap, xs) ← A !! q; if decide (xs = []) then Some A else None
  end.
Fixpoint apply_outcomes (A : aqueues) (os : list outcome) : option aqueues :=
  match os with [] => Some A | o :: os => A' ← apply_outcome A o; apply_outcomes A' os end.
Lemma apply_outcomes_app A os os' : apply_outcomes A (os ++ os') = A' ← apply_outcomes A os; apply_outcomes A' os'.
Proof. revert A. induction os as [|o os IH]; intros A; [done|]. cbn. destruct (apply_outcome A o); cbn; [apply IH|done]. Qed.

(** What the queues hold. *)
Definition view (s : sys) : aqueues := (fun Q => (uxLength Q, contents Q)) <$> queues s.
(** The new outcomes account for the change. *)
Definition evolves (s s' : sys) : Prop :=
  exists os, outcomes s' = outcomes s ++ os /\ apply_outcomes (view s) os = Some (view s').
Lemma evolves_same s s' : outcomes s' = outcomes s -> view s' = view s -> evolves s s'.
Proof. intros Ho Hv. exists []. by rewrite app_nil_r, Hv. Qed.
Lemma evolves_trans s1 s2 s3 : evolves s1 s2 -> evolves s2 s3 -> evolves s1 s3.
Proof.
  intros (os & E1 & A1) (os' & E2 & A2). exists (os ++ os'). by rewrite E2, E1, app_assoc, apply_outcomes_app, A1.
Qed.

(** ** Interrupts that use queues *)

Inductive qint :=
  | QSysTick
  | QPendSV
  | QResume (t : Z)
  | QSend (q : Z) (item : option (list Z)) (position : Z)
  | QGive (q : Z)
  | QReceive (q : Z)
  | QPeek (q : Z).
Definition on_kernel (s : sys) (r : res kernel) : res sys := let! k := r in Ok (put_kern s k).
Definition run_qint (s : sys) (i : qint) : res sys :=
  match i with
  | QSysTick => on_kernel s (run_interrupt (kern s) SysTick)
  | QPendSV => on_kernel s (run_interrupt (kern s) PendSV)
  | QResume t => on_kernel s (run_interrupt (kern s) (ResumeTask t))
  | QSend q item pos =>
      let! '(s, ok) := xQueueGenericSendFromISR s q item pos in
      Ok (record s (if ok : bool then Sent q (default [] item) pos else WasFull q))
  | QGive q =>
      let! '(s, ok) := xQueueGiveFromISR s q in
      Ok (record s (if ok : bool then Sent q [] queueSEND_TO_BACK else WasFull q))
  | QReceive q =>
      let! '(s, r) := xQueueReceiveFromISR s q in
      Ok (record s (match r with Some b => Received q b | None => WasEmpty q end))
  | QPeek q =>
      let! '(s, r) := xQueuePeekFromISR s q in
      Ok (record s (match r with Some b => Peeked q b | None => WasEmpty q end))
  end.
Definition run_qints (ints : list qint) (s : sys) : res sys := res_fold run_qint s ints.

(** Length, item size and whether it is a mutex: what does not change. *)
Definition qtypes (s : sys) : gmap Z (Z * Z * bool) := (fun Q => (uxLength Q, uxItemSize Q, pcHead_NULL Q)) <$> queues s.
(** The item has the size of the queue's items, and the position is one a caller may
    ask for: semaphores are given to the back, only queues of one item overwritten. *)
Definition item_ok (len size : Z) (item : option (list Z)) (pos : Z) : Prop :=
  (if size =? 0 then item = None /\ pos = queueSEND_TO_BACK
   else exists b, item = Some b /\ Z.of_nat (length b) = size) /\
  (pos = queueSEND_TO_BACK \/ pos = queueSEND_TO_FRONT \/ pos = queueOVERWRITE /\ len = 1).
Definition int_ok (T : gmap Z (Z * Z * bool)) (i : qint) : Prop :=
  match i with
  | QSysTick | QPendSV | QResume _ => True
  | QSend q item pos => exists len size, T !! q = Some (len, size, false) /\ item_ok len size item pos
  | QGive q => exists len, T !! q = Some (len, 0, false)
  | QReceive q => exists len size, T !! q = Some (len, size, false)
  | QPeek q => exists len size, T !! q = Some (len, size, false) /\ size <> 0
  end.

(** Who holds the mutexes. *)
Definition holders (s : sys) : gmap Z (option Z) := omap holder (queues s).

(** ** Steps of the queues *)

Definition locks_ok (N : Z) (Q : Queue_t) : Prop := -1 <= cRxLock Q <= N /\ -1 <= cTxLock Q <= N.
Definition all_ok (N : Z) (s : sys) : Prop := forall q Q, queues s !! q = Some Q -> queue_ok Q /\ locks_ok N Q.
Record istep (N : Z) (s s' : sys) : Prop := {
  st_ok : all_ok N s';
  st_types : qtypes s' = qtypes s;
  st_holders : holders s' = holders s;
  st_evolves : evolves s s';
  st_unlocked q Q' : queues s' !! q = Some Q' -> exists Q, queues s !! q = Some Q /\
    (cRxLock Q = queueUNLOCKED -> cRxLock Q' = queueUNLOCKED) /\ (cTxLock Q = queueUNLOCKED -> cTxLock Q' = queueUNLOCKED);
}.
Lemma istep_refl N s : all_ok N s -> istep N s s.
Proof. intros H. split; [done|done|done|by apply evolves_same|]. intros q Q. by exists Q. Qed.
Lemma istep_trans N s1 s2 s3 : istep N s1 s2 -> istep N s2 s3 -> istep N s1 s3.
Proof.
  intros [A1 T1 H1 E1 U1] [A2 T2 H2 E2 U2]. split; [done|congruence|congruence|by eapply evolves_trans|].
  intros q Q3 H3. destruct (U2 q Q3 H3) as (Q2 & Hq2 & ? & ?). destruct (U1 q Q2 Hq2) as (Q1 & Hq1 & ? & ?). exists Q1. auto.
Qed.
Lemma istep_kern N s k : all_ok N s -> istep N s (put_kern s k).
Proof. intros H. split; [done|done|done|by apply evolves_same|]. intros q Q. by exists Q. Qed.
Lemma qtype_queue s q len size m :
  qtypes s !! q = Some (len, size, m) ->
  exists Q, queues s !! q = Some Q /\ uxLength Q = len /\ uxItemSize Q = size /\ pcHead_NULL Q = m.
Proof. unfold qtypes. rewrite lookup_fmap. destruct (queues s !! q) as [Q|]; [|done]. intros [= <- <- <-]. by exists Q. Qed.
Lemma view_queue s q Q : queues s !! q = Some Q -> view s !! q = Some (uxLength Q, contents Q).
Proof. intros H. unfold view. by rewrite lookup_fmap, H. Qed.

Lemma holders_same (qs : gmap Z Queue_t) q Q Q' : qs !! q = Some Q -> holder Q' = holder Q -> omap holder (<[q := Q']> qs) = omap holder qs.
Proof.
  intros Hq E. apply map_eq. intros q'. rewrite !lookup_omap. destruct (decide (q = q')) as [<-|].
  - rewrite lookup_insert_eq, Hq. exact E.
  - by rewrite lookup_insert_ne by done.
Qed.

(** One queue changes; [os] says how. *)
Lemma istep_put N s s' q Q Q' os :
  all_ok N s -> queues s !! q = Some Q -> queue_ok Q' -> locks_ok N Q' ->
  uxLength Q' = uxLength Q -> uxItemSize Q' = uxItemSize Q -> pcHead_NULL Q' = pcHead_NULL Q -> holder Q' = holder Q ->
  (cRxLock Q = queueUNLOCKED -> cRxLock Q' = queueUNLOCKED) -> (cTxLock Q = queueUNLOCKED -> cTxLock Q' = queueUNLOCKED) ->
  queues s' = <[q := Q']> (queues s) -> outcomes s' = outcomes s ++ os ->
  apply_outcomes (view s) os = Some (<[q := (uxLength Q, contents Q')]> (view s)) ->
  istep N s s'.
Proof.
  intros A Hq Hok Hl E1 E2 E3 E4 Hr Ht Hs' Ho Hv. split.
  - intros q0 Q0. rewrite Hs'. destruct (decide (q = q0)) as [<-|]; [rewrite lookup_insert_eq by done; by intros [= <-]|].
    rewrite lookup_insert_ne by done. apply A.
  - unfold qtypes. rewrite Hs', fmap_insert, E1, E2, E3. apply insert_id. by rewrite lookup_fmap, Hq.
  - unfold holders. rewrite Hs'. by apply holders_same with Q.
  - exists os. split; [done|]. rewrite Hv. unfold view. by rewrite Hs', fmap_insert, E1.
  - intros q0 Q0. rewrite Hs'. destruct (decide (q = q0)) as [<-|]; [rewrite lookup_insert_eq by done; intros [= <-]; by exists Q|].
    rewrite lookup_insert_ne by done. intros H. by exists Q0.
Qed.

Lemma send_data k q Q item pos :
  queue_ok Q -> pcHead_NULL Q = false -> item_ok (uxLength Q) (uxItemSize Q) item pos ->
  (uxMessagesWaiting Q <? uxLength Q) || (pos =? queueOVERWRITE) = true ->
  exists Q', prvCopyDataToQueue k Q (default [] item) pos = Ok (k, Q', false) /\ queue_ok Q' /\ same_queue Q Q' /\
    forall A : aqueues, A !! q = Some (uxLength Q, contents Q) ->
      apply_outcome A (Sent q (default [] item) pos) = Some (<[q := (uxLength Q, contents Q')]> A).
Proof.
  intros Hok Hm [Hi Hp] Hlt. pose proof (contents_length _ Hok) as Hlen. pose proof (qo_waiting _ Hok) as Hw.
  destruct (Z.eqb_spec (uxItemSize Q) 0) as [Hz|Hz].
  - destruct Hi as [-> ->]. rewrite orb_false_r in Hlt. apply Z.ltb_lt in Hlt.
    destruct (copy_semaphore k Q [] queueSEND_TO_BACK Hok Hm Hz Hlt) as (Q' & E & Hok' & Sq & Hc).
    exists Q'. split_and!; try done. intros A HA. cbn. rewrite HA. cbn. by rewrite Hlen, Hc, (proj2 (Z.ltb_lt _ _) Hlt).
  - destruct Hi as (b & -> & Hb). assert (0 < uxItemSize Q) as Hs by (pose proof (qo_size _ Hok); lia). cbn [default].
    destruct Hp as [-> | [-> | [-> Hl]]].
    + rewrite orb_false_r in Hlt. apply Z.ltb_lt in Hlt. destruct (copy_back k Q b Hok Hm Hs Hb Hlt) as (Q' & E & Hok' & Sq & Hc).
      exists Q'. split_and!; try done. intros A HA. cbn. rewrite HA. cbn. by rewrite Hlen, Hc, (proj2 (Z.ltb_lt _ _) Hlt).
    + rewrite orb_false_r in Hlt. apply Z.ltb_lt in Hlt.
      destruct (copy_front k Q b queueSEND_TO_FRONT (uxMessagesWaiting Q) Hok Hm Hs Hb) as (Q' & E & Hok' & Sq & Hc); [done|done|done|by left|].
      exists Q'. split_and!; try done. intros A HA. cbn. rewrite HA. cbn. rewrite Hlen, Hc, (proj2 (Z.ltb_lt _ _) Hlt).
      by rewrite take_ge by lia.
    + destruct (copy_front k Q b queueOVERWRITE 0 Hok Hm Hs Hb) as (Q' & E & Hok' & Sq & Hc); [done| |lia|by right|].
      { cbn. destruct (Z.ltb_spec 0 (uxMessagesWaiting Q)); lia. }
      exists Q'. split_and!; try done. intros A HA. cbn. rewrite HA. cbn. by rewrite Hl, Hc.
Qed.

Lemma receive_data q Q :
  queue_ok Q -> pcHead_NULL Q = false -> (0 <? uxMessagesWaiting Q) = true ->
  exists x Q', prvCopyDataFromQueue Q = Ok (Q', x) /\ same_queue Q Q' /\
    queue_ok (Q' <| uxMessagesWaiting := uxMessagesWaiting Q - 1 |>) /\
    (forall A : aqueues, A !! q = Some (uxLength Q, contents Q) ->
       apply_outcome A (Received q x) = Some (<[q := (uxLength Q, contents (Q' <| uxMessagesWaiting := uxMessagesWaiting Q - 1 |>))]> A) /\
       apply_outcome A (Peeked q x) = Some A) /\
    (forall r, pcReadFrom Q = Ok r -> set_read_from Q' r = Ok Q).
Proof.
  intros Hok Hm Hlt%Z.ltb_lt. pose proof (contents_length _ Hok) as Hlen. destruct (contents Q) as [|x xs] eqn:Hx; [cbn in Hlen; lia|].
  destruct (copy_from Q x xs Hok Hm Hx) as (Q' & E & Sq & Hok' & Hc & Hr). exists x, Q'. split; [done|]. split; [done|]. split; [done|]. split; [|done]. intros A HA. rewrite Hc. cbn. rewrite HA. cbn.
  by rewrite !decide_True.
Qed.
Lemma queue_ok_locks Q rx tx : queue_ok Q -> queue_ok (Q <| cRxLock := rx |> <| cTxLock := tx |>).
Proof. intros []. by split. Qed.
Lemma contents_locks Q rx tx : contents (Q <| cRxLock := rx |> <| cTxLock := tx |>) = contents Q.
Proof. done. Qed.

Lemma tx_lock_ok N k Q :
  N <= 127 -> uxCurrentNumberOfTasks k = N -> locks_ok N Q -> cTxLock Q <> queueUNLOCKED ->
  exists n, prvIncrementQueueTxLock k Q = Ok (Q <| cRxLock := cRxLock Q |> <| cTxLock := n |>) /\ 0 <= n <= N.
Proof.
  unfold queueUNLOCKED. intros HN Hk [_ Ht] Hu. unfold prvIncrementQueueTxLock. rewrite (u_small 32) by (unfold is_u; lia). rewrite Hk.
  destruct (Z.ltb_spec (cTxLock Q) N); [|exists (cTxLock Q); split; [by destruct Q|lia]].
  unfold queueINT8_MAX. rewrite (proj2 (Z.eqb_neq _ 127)) by lia. cbn [negb assert res_bind].
  exists (cTxLock Q + 1). split; [by destruct Q|lia].
Qed.
Lemma rx_lock_ok N k Q :
  N <= 127 -> uxCurrentNumberOfTasks k = N -> locks_ok N Q -> cRxLock Q <> queueUNLOCKED ->
  exists n, prvIncrementQueueRxLock k Q = Ok (Q <| cRxLock := n |> <| cTxLock := cTxLock Q |>) /\ 0 <= n <= N.
Proof.
  unfold queueUNLOCKED. intros HN Hk [Ht _] Hu. unfold prvIncrementQueueRxLock. rewrite (u_small 32) by (unfold is_u; lia). rewrite Hk.
  destruct (Z.ltb_spec (cRxLock Q) N); [|exists (cRxLock Q); split; [by destruct Q|lia]].
  unfold queueINT8_MAX. rewrite (proj2 (Z.eqb_neq _ 127)) by lia. cbn [negb assert res_bind].
  exists (cRxLock Q + 1). split; [by destruct Q|lia].
Qed.

(** Waking a waiting task is what the kernel takes for a signal. *)
Lemma wake_signal k e : wake_and_yield k e = run_interrupt k (Signal e).
Proof.
  unfold wake_and_yield, wake_waiting. cbn [run_interrupt]. unfold yield_if. by destruct (listLIST_IS_EMPTY k (EventList e)).
Qed.

Section interrupts.
Context {stc : Strict} (N : Z) (HN : N <= 127).

(** After a change of the data, from an interrupt: the waiting task is woken, or the
    lock counts. *)
Lemma notify_tx (G : kernel -> Prop) k Q e :
  G k -> (forall j, exists k', run_interrupt k j = Ok k' /\ G k') -> uxCurrentNumberOfTasks k = N -> locks_ok N Q ->
  exists k' n, (if cTxLock Q =? queueUNLOCKED then let! k := wake_and_yield k e in Ok (k, Q)
                else let! Q := prvIncrementQueueTxLock k Q in Ok (k, Q)) = Ok (k', Q <| cRxLock := cRxLock Q |> <| cTxLock := n |>) /\
    G k' /\ -1 <= n <= N /\ (cTxLock Q = queueUNLOCKED -> n = queueUNLOCKED).
Proof.
  intros Hk Hg Hn Hl. destruct (Z.eqb_spec (cTxLock Q) queueUNLOCKED) as [Hu|Hu].
  - rewrite wake_signal. destruct (Hg (Signal e)) as (k' & -> & Hk'). exists k', (cTxLock Q). cbn [res_bind].
    split; [by destruct Q|]. by destruct Hl.
  - destruct (tx_lock_ok N k Q HN Hn Hl Hu) as (n & -> & Hn'). exists k, n. cbn [res_bind]. split; [done|]. split; [done|]. split; [lia|done].
Qed.
Lemma notify_rx (G : kernel -> Prop) k Q e :
  G k -> (forall j, exists k', run_interrupt k j = Ok k' /\ G k') -> uxCurrentNumberOfTasks k = N -> locks_ok N Q ->
  exists k' n, (if cRxLock Q =? queueUNLOCKED then let! k := wake_and_yield k e in Ok (k, Q)
                else let! Q := prvIncrementQueueRxLock k Q in Ok (k, Q)) = Ok (k', Q <| cRxLock := n |> <| cTxLock := cTxLock Q |>) /\
    G k' /\ -1 <= n <= N /\ (cRxLock Q = queueUNLOCKED -> n = queueUNLOCKED).
Proof.
  intros Hk Hg Hn Hl. destruct (Z.eqb_spec (cRxLock Q) queueUNLOCKED) as [Hu|Hu].
  - rewrite wake_signal. destruct (Hg (Signal e)) as (k' & -> & Hk'). exists k', (cRxLock Q). cbn [res_bind].
    split; [by destruct Q|]. by destruct Hl.
  - destruct (rx_lock_ok N k Q HN Hn Hl Hu) as (n & -> & Hn'). exists k, n. cbn [res_bind]. split; [done|]. split; [done|]. split; [lia|done].
Qed.

Lemma istep_log s o : all_ok N s -> apply_outcome (view s) o = Some (view s) -> istep N s (record s o).
Proof.
  intros A Ho. split; [exact A|done|done| |].
  - exists [o]. split; [done|]. cbn [apply_outcomes]. rewrite Ho. done.
  - intros q Q H. by exists Q.
Qed.
Lemma full_outcome s q Q :
  queues s !! q = Some Q -> queue_ok Q -> (uxMessagesWaiting Q <? uxLength Q) = false -> apply_outcome (view s) (WasFull q) = Some (view s).
Proof.
  intros Hq Hok Hf%Z.ltb_ge. cbn. rewrite (view_queue _ _ _ Hq). cbn. rewrite (contents_length _ Hok).
  pose proof (qo_waiting _ Hok). by rewrite (proj2 (Z.eqb_eq _ _)) by lia.
Qed.
Lemma empty_outcome s q Q :
  queues s !! q = Some Q -> queue_ok Q -> (0 <? uxMessagesWaiting Q) = false -> apply_outcome (view s) (WasEmpty q) = Some (view s).
Proof.
  intros Hq Hok Hf%Z.ltb_ge. cbn. rewrite (view_queue _ _ _ Hq). cbn. pose proof (contents_length _ Hok). pose proof (qo_waiting _ Hok).
  destruct (contents Q); [by rewrite decide_True|cbn in *; lia].
Qed.
Lemma item_asserts len size item pos :
  item_ok len size item pos ->
  bool_decide (item <> None) || (size =? 0) = true /\ negb ((pos =? queueOVERWRITE) && negb (len =? 1)) = true.
Proof.
  intros [Hi Hp]. split.
  - destruct (Z.eqb_spec size 0); [by rewrite orb_true_r|]. destruct Hi as (b & -> & _). done.
  - destruct Hp as [-> | [-> | [-> ->]]]; done.
Qed.

(** [Q'] replaces [Q], its locks changed by the notification. *)
Lemma istep_notify s k q Q Q' rx tx o :
  all_ok N s -> queues s !! q = Some Q -> queue_ok Q' -> same_queue Q Q' -> -1 <= rx <= N -> -1 <= tx <= N ->
  (cRxLock Q' = queueUNLOCKED -> rx = queueUNLOCKED) -> (cTxLock Q' = queueUNLOCKED -> tx = queueUNLOCKED) ->
  (forall A : aqueues, A !! q = Some (uxLength Q, contents Q) -> apply_outcome A o = Some (<[q := (uxLength Q, contents Q')]> A)) ->
  istep N s (record (put_queue (put_kern s k) q (Q' <| cRxLock := rx |> <| cTxLock := tx |>)) o).
Proof.
  intros A Hq Hok [] Hrx Htx Hr Ht Ho. apply (istep_put N s _ q Q (Q' <| cRxLock := rx |> <| cTxLock := tx |>) [o]); try done.
  - by apply queue_ok_locks.
  - rsimpl. by rewrite <- sq_rx0.
  - rsimpl. by rewrite <- sq_tx0.
  - cbn [apply_outcomes]. rewrite (Ho _ (view_queue _ _ _ Hq)). done.
Qed.

Lemma send_isr_ok (G : kernel -> Prop) s q item pos :
  all_ok N s -> uxCurrentNumberOfTasks (kern s) = N -> int_ok (qtypes s) (QSend q item pos) -> G (kern s) ->
  (forall j, exists k', run_interrupt (kern s) j = Ok k' /\ G k') ->
  exists s', run_qint s (QSend q item pos) = Ok s' /\ G (kern s') /\ istep N s s'.
Proof.
  intros A Hn (len & size & HT & Hi) HG Hg. destruct (qtype_queue _ _ _ _ _ HT) as (Q & Hq & <- & <- & Hm).
  destruct (A q Q Hq) as [Hok Hl]. destruct (item_asserts _ _ _ _ Hi) as [H1 H2]. cbn [run_qint]. unfold xQueueGenericSendFromISR, get_queue.
  rewrite Hq. cbn [res_bind]. rewrite H1, H2. cbn [assert res_bind].
  destruct ((uxMessagesWaiting Q <? uxLength Q) || (pos =? queueOVERWRITE)) eqn:Hc.
  - destruct (send_data (kern s) q Q item pos Hok Hm Hi Hc) as (Q' & -> & Hok' & Sq & Ho). cbn [res_bind].
    assert (locks_ok N Q') as Hl' by (unfold locks_ok; by rewrite (sq_rx _ _ Sq), (sq_tx _ _ Sq)).
    destruct (notify_tx G (kern s) Q' (to_receive q) HG Hg Hn Hl') as (k' & n & -> & Hk' & Hn' & Hu). cbn [res_bind].
    eexists. split; [done|]. split; [exact Hk'|]. apply (istep_notify s k' q Q Q'); try done. apply Hl'.
  - cbn [res_bind]. eexists. split; [done|]. split; [exact HG|]. apply istep_log; [done|]. apply orb_false_iff in Hc as [Hc _].
    by apply (full_outcome s q Q).
Qed.

Lemma give_isr_ok (G : kernel -> Prop) s q :
  all_ok N s -> uxCurrentNumberOfTasks (kern s) = N -> int_ok (qtypes s) (QGive q) -> G (kern s) ->
  (forall j, exists k', run_interrupt (kern s) j = Ok k' /\ G k') ->
  exists s', run_qint s (QGive q) = Ok s' /\ G (kern s') /\ istep N s s'.
Proof.
  intros A Hn (len & HT) HG Hg. destruct (qtype_queue _ _ _ _ _ HT) as (Q & Hq & <- & Hz & Hm).
  destruct (A q Q Hq) as [Hok Hl]. cbn [run_qint]. unfold xQueueGiveFromISR, get_queue. rewrite Hq. cbn [res_bind]. rewrite Hz, Hm. cbn [Z.eqb assert res_bind].
  destruct (uxMessagesWaiting Q <? uxLength Q) eqn:Hc.
  - assert (item_ok (uxLength Q) (uxItemSize Q) None queueSEND_TO_BACK) as Hi by (rewrite Hz; split; [done|by left]).
    destruct (send_data (kern s) q Q None queueSEND_TO_BACK Hok Hm Hi) as (Q' & E & Hok' & Sq & Ho); [by rewrite Hc|].
    unfold prvCopyDataToQueue in E. rewrite Hz, Hm in E. cbn [Z.eqb res_bind] in E.
    assert (Q <| uxMessagesWaiting := u32 (uxMessagesWaiting Q + 1) |> = Q') as E2 by congruence. rewrite E2.
    assert (locks_ok N Q') as Hl' by (unfold locks_ok; by rewrite (sq_rx _ _ Sq), (sq_tx _ _ Sq)).
    destruct (notify_tx G (kern s) Q' (to_receive q) HG Hg Hn Hl') as (k' & n & -> & Hk' & Hn' & Hu). cbn [res_bind].
    eexists. split; [done|]. split; [exact Hk'|]. apply (istep_notify s k' q Q Q'); try done. apply Hl'.
  - cbn [res_bind]. eexists. split; [done|]. split; [exact HG|]. apply istep_log; [done|]. by apply (full_outcome s q Q).
Qed.

Lemma receive_isr_ok (G : kernel -> Prop) s q :
  all_ok N s -> uxCurrentNumberOfTasks (kern s) = N -> int_ok (qtypes s) (QReceive q) -> G (kern s) ->
  (forall j, exists k', run_interrupt (kern s) j = Ok k' /\ G k') ->
  exists s', run_qint s (QReceive q) = Ok s' /\ G (kern s') /\ istep N s s'.
Proof.
  intros A Hn (len & size & HT) HG Hg. destruct (qtype_queue _ _ _ _ _ HT) as (Q & Hq & <- & <- & Hm).
  destruct (A q Q Hq) as [Hok Hl]. cbn [run_qint]. unfold xQueueReceiveFromISR, get_queue. rewrite Hq. cbn [res_bind].
  destruct (0 <? uxMessagesWaiting Q) eqn:Hc.
  - destruct (receive_data q Q Hok Hm Hc) as (x & Q' & -> & Sq & Hok' & Ho & _). cbn [res_bind].
    set (Q2 := Q' <| uxMessagesWaiting := _ |>) in *. assert (same_queue Q Q2) as Sq2 by (by destruct Sq). clearbody Q2.
    assert (locks_ok N Q2) as Hl' by (unfold locks_ok; by rewrite (sq_rx _ _ Sq2), (sq_tx _ _ Sq2)).
    destruct (notify_rx G (kern s) Q2 (to_send q) HG Hg Hn Hl') as (k' & n & -> & Hk' & Hn' & Hu). cbn [res_bind].
    eexists. split; [done|]. split; [exact Hk'|]. apply (istep_notify s k' q Q Q2); try done; [apply Hl'|]. intros A' HA. by apply Ho.
  - cbn [res_bind]. eexists. split; [done|]. split; [exact HG|]. apply istep_log; [done|]. by apply (empty_outcome s q Q).
Qed.

Lemma peek_isr_ok (G : kernel -> Prop) s q :
  all_ok N s -> int_ok (qtypes s) (QPeek q) -> G (kern s) ->
  exists s', run_qint s (QPeek q) = Ok s' /\ G (kern s') /\ istep N s s'.
Proof.
  intros A (len & size & HT & Hs) HG. destruct (qtype_queue _ _ _ _ _ HT) as (Q & Hq & <- & <- & Hm).
  destruct (A q Q Hq) as [Hok Hl]. cbn [run_qint]. unfold xQueuePeekFromISR, get_queue. rewrite Hq. cbn [res_bind].
  rewrite (proj2 (Z.eqb_neq _ 0) Hs). cbn [negb assert res_bind]. destruct (0 <? uxMessagesWaiting Q) eqn:Hc.
  - destruct (receive_data q Q Hok Hm Hc) as (x & Q' & -> & Sq & Hok' & Ho & Hr). destruct (qo_pointers _ Hok Hm) as (t & r & Hu & _).
    assert (pcReadFrom Q = Ok r) as Er by (unfold pcReadFrom; by rewrite Hu). rewrite Er. cbn [res_bind]. rewrite (Hr r Er). cbn [res_bind].
    eexists. split; [done|]. split; [exact HG|]. replace (put_queue s q Q) with s.
    { apply istep_log; [done|]. apply Ho. by apply view_queue. }
    unfold put_queue. rewrite insert_id by done. by destruct s.
  - cbn [res_bind]. eexists. split; [done|]. split; [exact HG|]. apply istep_log; [done|]. by apply (empty_outcome s q Q).
Qed.

(** An interrupt does to the kernel what an interrupt of the kernel, or none, does. *)
Lemma qint_ok (G : kernel -> Prop) s i :
  all_ok N s -> uxCurrentNumberOfTasks (kern s) = N -> int_ok (qtypes s) i -> G (kern s) ->
  (forall j, exists k', run_interrupt (kern s) j = Ok k' /\ G k') ->
  exists s', run_qint s i = Ok s' /\ G (kern s') /\ istep N s s'.
Proof.
  intros A Hn Hi HG Hg.
  assert (forall j, exists s', on_kernel s (run_interrupt (kern s) j) = Ok s' /\ G (kern s') /\ istep N s s') as Hk.
  { intros j. destruct (Hg j) as (k' & E & Hk'). unfold on_kernel. rewrite E. cbn [res_bind]. eexists. split; [done|]. split; [exact Hk'|].
    by apply istep_kern. }
  destruct i; [apply Hk..| | | |]; [by apply send_isr_ok|by apply give_isr_ok|by apply receive_isr_ok|by apply peek_isr_ok].
Qed.

(** ** With the scheduler suspended *)

(** Locks may change too. *)
Record qstep (s s' : sys) : Prop := {
  qs_ok : all_ok N s';
  qs_types : qtypes s' = qtypes s;
  qs_holders : holders s' = holders s;
  qs_evolves : evolves s s';
}.
Lemma istep_qstep s s' : istep N s s' -> qstep s s'.
Proof. intros []. by split. Qed.
Lemma qstep_trans s1 s2 s3 : qstep s1 s2 -> qstep s2 s3 -> qstep s1 s3.
Proof. intros [A1 T1 H1 E1] [A2 T2 H2 E2]. split; [done|congruence|congruence|by eapply evolves_trans]. Qed.

Record region (idle c : Z) (s0 s : sys) : Prop := {
  rg_body : body_state idle (kern s) c;
  rg_step : qstep s0 s;
  rg_number : uxCurrentNumberOfTasks (kern s) = N;
}.
Lemma region_trans idle c s0 s1 s : qstep s0 s1 -> region idle c s1 s -> region idle c s0 s.
Proof. intros H []. split; [done|by eapply qstep_trans|done]. Qed.
Lemma region_kern idle c s0 s k :
  region idle c s0 s -> body_state idle k c -> uxCurrentNumberOfTasks k = N -> region idle c s0 (put_kern s k).
Proof. intros [] B Hn. split; [done| |done]. eapply qstep_trans; [done|]. by apply istep_qstep, istep_kern, (qs_ok _ _ rg_step0). Qed.
Lemma region_held idle c s0 s k :
  region idle c s0 s -> wf None (xTickCount (kern s)) k -> held (kern s) k -> region idle c s0 (put_kern s k).
Proof.
  intros R W H. apply (region_kern _ _ _ _ _ R); [apply (body_held idle (kern s)); [apply R|done..]|].
  rewrite (hd_number _ _ H). apply R.
Qed.

Lemma region_isr idle c s0 s ints :
  region idle c s0 s -> Forall (int_ok (qtypes s0)) ints ->
  exists s', run_qints ints s = Ok s' /\ region idle c s0 s' /\ istep N s s' /\ held (kern s) (kern s') /\
    wf None (xTickCount (kern s)) (kern s').
Proof.
  intros R Hi. revert s R. induction Hi as [|i ints Hi _ IH]; intros s R; unfold run_qints in *; cbn [res_fold].
  - exists s. split_and!; try done; [apply istep_refl, (qs_ok _ _ (rg_step _ _ _ _ R))|apply held_refl|apply (bs_wf _ _ _ (rg_body _ _ _ _ R))].
  - pose proof (rg_body _ _ _ _ R) as B. pose proof (qs_ok _ _ (rg_step _ _ _ _ R)) as A.
    rewrite <- (qs_types _ _ (rg_step _ _ _ _ R)) in Hi.
    destruct (qint_ok (fun k => wf None (xTickCount (kern s)) k /\ held (kern s) k) s i A (rg_number _ _ _ _ R) Hi) as (s1 & -> & [W1 H1] & Q1).
    + split; [apply B|apply held_refl].
    + intros j. destruct (interrupt_held (kern s) j c (bs_wf _ _ _ B) (bs_current _ _ _ B)) as (k' & E & W' & H' & _);
        [rewrite (bs_suspended _ _ _ B); lia|]. by exists k'.
    + cbn [res_bind]. assert (region idle c s0 s1) as R1.
      { split; [by apply (body_held idle (kern s))|eapply qstep_trans; [apply R|by apply istep_qstep]|]. rewrite (hd_number _ _ H1). apply R. }
      destruct (IH s1 R1) as (s2 & -> & R2 & Q2 & H2 & W2). exists s2. split; [done|]. split; [done|].
      split; [by eapply istep_trans|]. split; [by eapply held_trans|]. by rewrite <- (hd_tick _ _ H1).
Qed.

Lemma unlock_loop_ok n k e c :
  wf None (xTickCount k) k -> pxCurrentTCB k = Some c -> uxSchedulerSuspended k <> 0 ->
  exists k', unlock_loop n k e = Ok k' /\ wf None (xTickCount k) k' /\ held k k'.
Proof.
  revert k. induction n as [|n IH]; intros k W Hc Hs; cbn [unlock_loop]; [exists k; auto with kern|].
  destruct (listLIST_IS_EMPTY k (EventList e)) eqn:El; [exists k; auto with kern|].
  destruct (remove_held k e c W Hc Hs El) as (k1 & b & -> & W1 & H1 & _ & Hb). cbn [res_bind].
  assert ((if b then vTaskMissedYield k1 else k1) = k1) as ->.
  { destruct b; [|done]. unfold vTaskMissedYield. rewrite <- (Hb eq_refl). by destruct k1. }
  rewrite <- (hd_tick _ _ H1) in W1. destruct (IH k1 W1) as (k2 & -> & W2 & H2).
  { by rewrite (hd_current _ _ H1). }
  { by rewrite (hd_suspended _ _ H1). }
  exists k2. split; [done|]. rewrite (hd_tick _ _ H1) in W2. split; [done|]. by eapply held_trans.
Qed.

Definition unlocked (Q : Queue_t) : Prop := cRxLock Q = queueUNLOCKED /\ cTxLock Q = queueUNLOCKED.
(** Only [q] may be locked. *)
Definition others_unlocked (q : Z) (s : sys) : Prop := forall q' Q, q' <> q -> queues s !! q' = Some Q -> unlocked Q.
Definition all_unlocked (s : sys) : Prop := forall q Q, queues s !! q = Some Q -> unlocked Q.
Lemma others_istep q s s' : istep N s s' -> others_unlocked q s -> others_unlocked q s'.
Proof. intros [_ _ _ _ U] H q' Q' Hne Hq'. destruct (U q' Q' Hq') as (Q & HQ & Hr & Ht). destruct (H q' Q Hne HQ). split; auto. Qed.
Lemma all_istep s s' : istep N s s' -> all_unlocked s -> all_unlocked s'.
Proof. intros [_ _ _ _ U] H q' Q' Hq'. destruct (U q' Q' Hq') as (Q & HQ & Hr & Ht). destruct (H q' Q HQ). split; auto. Qed.
Lemma others_put q s Q : others_unlocked q s -> others_unlocked q (put_queue s q Q).
Proof. intros H q' Q' Hne. unfold put_queue. cbn. rewrite lookup_insert_ne by done. by apply H. Qed.

Lemma qstep_locks s q Q rx tx :
  all_ok N s -> queues s !! q = Some Q -> -1 <= rx <= N -> -1 <= tx <= N ->
  qstep s (put_queue s q (Q <| cRxLock := rx |> <| cTxLock := tx |>)).
Proof.
  intros A Hq Hr Ht. split.
  - intros q' Q'. unfold put_queue. cbn. destruct (decide (q = q')) as [<-|]; [rewrite lookup_insert_eq; intros [= <-]|rewrite lookup_insert_ne by done; apply A].
    split; [by apply queue_ok_locks, (A q Q)|done].
  - unfold qtypes, put_queue. cbn. rewrite fmap_insert. apply insert_id. by rewrite lookup_fmap, Hq.
  - by apply holders_same with Q.
  - apply evolves_same; [done|]. unfold view, put_queue. cbn. rewrite fmap_insert. apply insert_id. by rewrite lookup_fmap, Hq.
Qed.
Lemma region_locks idle c s0 s q Q rx tx :
  region idle c s0 s -> queues s !! q = Some Q -> -1 <= rx <= N -> -1 <= tx <= N ->
  region idle c s0 (put_queue s q (Q <| cRxLock := rx |> <| cTxLock := tx |>)).
Proof.
  intros [] Hq Hr Ht. split; [done| |done]. eapply qstep_trans; [done|]. apply qstep_locks; [apply (qs_ok _ _ rg_step0)|done..].
Qed.
Lemma istep_queue s s' q Q : istep N s s' -> queues s !! q = Some Q -> exists Q', queues s' !! q = Some Q'.
Proof.
  intros [_ T _ _ _] Hq. apply (f_equal (fun m => m !! q)) in T. unfold qtypes in T. rewrite !lookup_fmap, Hq in T.
  destruct (queues s' !! q) as [Q'|]; [by exists Q'|done].
Qed.

Lemma unlock_ok idle c s0 s q Q ints :
  region idle c s0 s -> queues s !! q = Some Q -> others_unlocked q s -> Forall (int_ok (qtypes s0)) ints ->
  exists s', prvUnlockQueue (run_qints ints) s q = Ok s' /\ region idle c s0 s' /\ all_unlocked s' /\ held (kern s) (kern s').
Proof.
  intros R Hq Ho Hi. pose proof (rg_body _ _ _ _ R) as B. destruct (qs_ok _ _ (rg_step _ _ _ _ R) q Q Hq) as [_ [Hrx Htx]].
  unfold prvUnlockQueue, get_queue. rewrite Hq. cbn [res_bind].
  destruct (unlock_loop_ok (Z.to_nat (cTxLock Q)) (kern s) (to_receive q) c) as (k1 & -> & W1 & H1); [apply B..|rewrite (bs_suspended _ _ _ B); lia|].
  cbn [res_bind]. pose proof (region_held _ _ _ _ _ R W1 H1) as R1.
  assert (region idle c s0 (put_queue (put_kern s k1) q (Q <| cTxLock := queueUNLOCKED |>))) as R2.
  { pose proof (region_locks _ _ _ _ q Q (cRxLock Q) queueUNLOCKED R1 Hq Hrx ltac:(unfold queueUNLOCKED; lia)) as R2.
    by replace (Q <| cRxLock := cRxLock Q |>) with Q in R2 by (by destruct Q). }
  set (s2 := put_queue _ _ _) in *. assert (others_unlocked q s2) as Ho2 by (by apply others_put).
  assert (queues s2 !! q = Some (Q <| cTxLock := queueUNLOCKED |>)) as Hq2 by apply lookup_insert_eq.
  assert (kern s2 = k1) as Ek by done. clearbody s2.
  destruct (region_isr _ _ _ _ _ R2 Hi) as (s3 & -> & R3 & I3 & H3 & W3). cbn [res_bind].
  destruct (istep_queue _ _ _ _ I3 Hq2) as (Q3 & Hq3). rewrite Hq3. cbn [res_bind]. pose proof (rg_body _ _ _ _ R3) as B3.
  destruct (unlock_loop_ok (Z.to_nat (cRxLock Q3)) (kern s3) (to_send q) c) as (k4 & -> & W4 & H4); [apply B3..|rewrite (bs_suspended _ _ _ B3); lia|].
  cbn [res_bind]. eexists. split; [done|]. pose proof (region_held _ _ _ _ _ R3 W4 H4) as R4.
  destruct (qs_ok _ _ (rg_step _ _ _ _ R3) q Q3 Hq3) as [_ [_ Htx3]].
  pose proof (region_locks _ _ _ _ q Q3 queueUNLOCKED (cTxLock Q3) R4 Hq3 ltac:(unfold queueUNLOCKED; lia) Htx3) as R5.
  replace (Q3 <| cRxLock := queueUNLOCKED |> <| cTxLock := cTxLock Q3 |>) with (Q3 <| cRxLock := queueUNLOCKED |>) in R5 by (by destruct Q3).
  split; [done|]. split.
  - assert (cTxLock Q3 = queueUNLOCKED) as Hu3.
    { destruct (st_unlocked _ _ _ I3 q Q3 Hq3) as (Q2 & HQ2 & _ & Ht). rewrite Hq2 in HQ2. injection HQ2 as <-. by apply Ht. }
    intros q' Q'. unfold put_queue. cbn. destruct (decide (q = q')) as [<-|Hne].
    + rewrite lookup_insert_eq. intros [= <-]. by split.
    + rewrite lookup_insert_ne by done. by apply (others_istep _ _ _ I3 Ho2).
  - eapply held_trans; [exact H1|]. rewrite Ek in H3. by eapply held_trans.
Qed.

Lemma unlock_resume_ok idle c s0 s q Q ints :
  region idle c s0 s -> queues s !! q = Some Q -> others_unlocked q s -> (forall n, Forall (int_ok (qtypes s0)) (ints n)) ->
  exists s' b, unlock_and_resume (fun n => run_qints (ints n)) s q = Ok (s', b) /\ qstep s0 s' /\ all_unlocked s' /\
    uxCurrentNumberOfTasks (kern s') = N /\
    inv idle (if b : bool then kern s' else portYIELD (kern s')) /\ (covered (kern s) -> inv idle (kern s')).
Proof.
  intros R Hq Ho Hi. unfold unlock_and_resume.
  destruct (unlock_ok _ _ _ _ _ _ (ints 7%nat) R Hq Ho (Hi 7%nat)) as (s1 & -> & R1 & U1 & H1). cbn [res_bind].
  destruct (region_isr _ _ _ _ _ R1 (Hi 8%nat)) as (s2 & -> & R2 & I2 & H2 & _). cbn [res_bind].
  pose proof (rg_body _ _ _ _ R2) as []. destruct (resume_inv idle (kern s2) c) as (k' & b & -> & L & I' & C'); [done..|apply bs_pended0|done|done|].
  cbn [res_bind]. eexists _, b. split; [done|]. split_and!.
  - eapply qstep_trans; [apply R2|]. by apply istep_qstep, istep_kern, (qs_ok _ _ (rg_step _ _ _ _ R2)).
  - by apply (all_istep _ _ I2).
  - cbn. rewrite (lt_number _ _ L). apply R2.
  - exact I'.
  - intros Hc. apply C'. apply (held_covered (kern s1)); [done|]. by apply (held_covered (kern s)).
Qed.

Lemma check_ok idle k c to n :
  inv idle k -> pxCurrentTCB k = Some c -> 0 < n < 2 ^ 32 ->
  exists k' to' n' b, xTaskCheckForTimeOut k to n = Ok (k', to', n', b) /\ inv idle k' /\ pxCurrentTCB k' = Some c /\
    uxSchedulerSuspended k' = uxSchedulerSuspended k /\ uxCurrentNumberOfTasks k' = uxCurrentNumberOfTasks k /\
    0 <= n' < 2 ^ 32 /\ (b = false -> 0 < n').
Proof.
  intros I Hc Hn. unfold xTaskCheckForTimeOut, current. rewrite Hc. cbn [res_bind].
  pose proof (u_range 32 (xTickCount k - xTimeOnEntering to) ltac:(lia)) as [He _].
  destruct (ucDelayAborted (tcb k c)).
  { eexists _, _, _, _. split; [done|]. split; [by apply inv_put_tcb|]. split_and!; try done; lia. }
  destruct (n =? portMAX_DELAY); [eexists _, _, _, _; split; [done|]; split_and!; try done; lia|].
  destruct (_ && _); [eexists _, _, _, _; split; [done|]; split_and!; try done; lia|].
  destruct (Z.ltb_spec (u32 (xTickCount k - xTimeOnEntering to)) n); eexists _, _, _, _; (split; [done|]); split_and!; try done; lia.
Qed.

(** The running task, with the scheduler suspended, has not blocked itself yet. *)
Lemma region_inv idle c s0 s :
  inv idle (kern s) -> pxCurrentTCB (kern s) = Some c -> uxSchedulerSuspended (kern s) = 1 -> qstep s0 s ->
  uxCurrentNumberOfTasks (kern s) = N -> region idle c s0 s /\ ready (kern s) c /\ covered (kern s).
Proof.
  intros I Hc Hs Q Hn. destruct (inv_held _ _ I) as (Hcov & c' & Hc' & Hr); [lia|]. assert (c' = c) as -> by congruence.
  split; [|done]. split; [|done|done]. destruct I. split; try done. apply inv_pended0.
Qed.
Lemma region_isr_inv idle c s0 s ints :
  inv idle (kern s) -> region idle c s0 s -> Forall (int_ok (qtypes s0)) ints ->
  exists s', run_qints ints s = Ok s' /\ region idle c s0 s' /\ istep N s s' /\ inv idle (kern s').
Proof.
  intros I R Hi. destruct (region_isr _ _ _ _ _ R Hi) as (s' & -> & R' & I' & H' & W'). exists s'. split_and!; try done.
  apply (inv_while_held idle (kern s)); try done. rewrite (bs_suspended _ _ _ (rg_body _ _ _ _ R)). lia.
Qed.

(** Where a call on a queue or semaphore can be; [m] when it takes a mutex. *)
Definition progress_ok (m : bool) (p : progress) : Prop :=
  match p with
  | Try _ n inh | Expired _ n inh => 0 <= n < 2 ^ 32 /\ (m = false -> inh = false)
  | Block _ n inh => 0 < n < 2 ^ 32 /\ (m = false -> inh = false)
  | GiveUp => m = true
  | Return _ => True
  end.
(** The state between two steps. *)
Record sinv (idle : Z) (s : sys) : Prop := {
  si_kern : inv idle (kern s);
  si_queues : all_ok N s;
  si_unlocked : all_unlocked s;
  si_number : uxCurrentNumberOfTasks (kern s) = N;
}.
(** ... and after a step. *)
Definition stepped (idle : Z) (s s' : sys) : Prop := sinv idle s' /\ qtypes s' = qtypes s /\ evolves s s' /\ holders s' = holders s.
Lemma stepped_qstep idle s s' :
  qstep s s' -> inv idle (kern s') -> all_unlocked s' -> uxCurrentNumberOfTasks (kern s') = N -> stepped idle s s'.
Proof. intros [] I U Hn. by split_and!. Qed.

(** The task has blocked itself, the queue is unlocked and the scheduler resumed. *)
Lemma placed_part_ok idle c s0 s k q Q ints :
  region idle c s0 s -> body_state idle k c -> frame (kern s) k -> queues s !! q = Some Q -> others_unlocked q s ->
  (forall n, Forall (int_ok (qtypes s0)) (ints n)) ->
  exists s1 s' b, run_qints (ints 6%nat) (put_kern s k) = Ok s1 /\
    unlock_and_resume (fun n => run_qints (ints n)) s1 q = Ok (s', b) /\
    stepped idle s0 (if b : bool then s' else put_kern s' (portYIELD (kern s'))).
Proof.
  intros R B F Hq Ho Hi.
  assert (region idle c s0 (put_kern s k)) as R1 by (apply region_kern; [done|done|]; rewrite (fr_number _ _ F); apply R).
  destruct (region_isr _ _ _ _ _ R1 (Hi 6%nat)) as (s1 & E1 & R2 & I2 & _ & _).
  destruct (istep_queue _ _ _ _ I2 Hq) as (Q2 & Hq2). pose proof (others_istep q (put_kern s k) s1 I2 Ho) as Ho2.
  destruct (unlock_resume_ok _ _ _ _ _ _ ints R2 Hq2 Ho2 Hi) as (s3 & b & E3 & Q3 & U3 & N3 & I3 & _).
  exists s1, s3, b. split_and!; try done. destruct b; [by apply stepped_qstep|]. apply stepped_qstep; try done.
  eapply qstep_trans; [exact Q3|]. apply istep_qstep, istep_kern, Q3.
Qed.
Lemma place_part_ok idle c s0 s q Q e n ints :
  region idle c s0 s -> ready (kern s) c -> queues s !! q = Some Q -> others_unlocked q s -> 0 < n < 2 ^ 32 -> c <> idle ->
  (forall n, Forall (int_ok (qtypes s0)) (ints n)) ->
  exists k s1 s' b, vTaskPlaceOnEventList (kern s) e n = Ok k /\ run_qints (ints 6%nat) (put_kern s k) = Ok s1 /\
    unlock_and_resume (fun n => run_qints (ints n)) s1 q = Ok (s', b) /\
    stepped idle s0 (if b : bool then s' else put_kern s' (portYIELD (kern s'))).
Proof.
  intros R Hr Hq Ho Hn Hne Hi. destruct (place_ok idle (kern s) c e n (rg_body _ _ _ _ R) Hr Hn Hne) as (k & E & B & _ & _ & F).
  destruct (placed_part_ok idle c s0 s k q Q ints R B F Hq Ho Hi) as (s1 & s' & b & H). by exists k, s1, s', b.
Qed.

(** The queue is unlocked and the scheduler resumed, by a task that did not block. *)
Lemma leave_part_ok idle c s0 s q Q ints :
  region idle c s0 s -> inv idle (kern s) -> queues s !! q = Some Q -> others_unlocked q s ->
  (forall n, Forall (int_ok (qtypes s0)) (ints n)) ->
  exists s' b, unlock_and_resume (fun n => run_qints (ints n)) s q = Ok (s', b) /\ stepped idle s0 s'.
Proof.
  intros R I Hq Ho Hi. destruct (unlock_resume_ok _ _ _ _ _ _ ints R Hq Ho Hi) as (s' & b & E & Q' & U' & N' & _ & I').
  exists s', b. split; [done|]. apply stepped_qstep; try done. by apply I', (inv_covered idle).
Qed.

Lemma lock_ok idle c s0 s q Q :
  0 <= N -> region idle c s0 s -> queues s !! q = Some Q -> all_unlocked s ->
  exists Q', lock_queue s q = Ok (put_queue s q Q') /\ region idle c s0 (put_queue s q Q') /\ others_unlocked q (put_queue s q Q').
Proof.
  intros H0 R Hq U. unfold lock_queue, get_queue. rewrite Hq. cbn [res_bind]. destruct (U q Q Hq) as [Hr Ht].
  exists (Q <| cRxLock := 0 |> <| cTxLock := 0 |>). split; [|split].
  - unfold prvLockQueue. by rewrite Hr; cbn; rewrite Ht.
  - apply region_locks; [done|done|lia|lia].
  - apply others_put. intros q' Q' _. apply U.
Qed.

(** What a taker does before it waits: a holder may inherit its priority. *)
Definition inherits (m : bool) (idle c : Z) (s : sys) (inherit : sys -> res (sys * bool)) : Prop :=
  forall s1, region idle c s s1 -> inv idle (kern s1) ->
    exists k b, inherit s1 = Ok (put_kern s1 k, b) /\ inv idle k /\ sig k = sig (kern s1) /\ (m = false -> b = false).
Lemma region_inherit m idle c s s1 inherit :
  inherits m idle c s inherit -> region idle c s s1 -> inv idle (kern s1) ->
  exists k b, inherit s1 = Ok (put_kern s1 k, b) /\ inv idle k /\ region idle c s (put_kern s1 k) /\ (m = false -> b = false).
Proof.
  intros Hinh R I. destruct (Hinh s1 R I) as (k & b & E & I' & Hsig & Hb). exists k, b. split_and!; try done. injection Hsig as En _ Ec Es.
  pose proof (rg_body _ _ _ _ R) as B. apply (region_inv idle c s (put_kern s1 k) I').
  - cbn. rewrite Ec. apply B.
  - cbn. rewrite Es. apply B.
  - eapply qstep_trans; [apply R|]. apply istep_qstep, istep_kern, (qs_ok _ _ (rg_step _ _ _ _ R)).
  - cbn. rewrite En. apply R.
Qed.

Lemma wait_part_ok m idle c s q e to n inh ints blocked inherit Q :
  sinv idle s -> xPendSV (kern s) = false -> uxSchedulerSuspended (kern s) = 0 -> pxCurrentTCB (kern s) = Some c -> c <> idle ->
  queues s !! q = Some Q -> 0 < n < 2 ^ 32 -> (forall n, Forall (int_ok (qtypes s)) (ints n)) ->
  inherits m idle c s inherit -> (m = false -> inh = false) ->
  exists s' p, wait_part (fun n => run_qints (ints n)) blocked inherit e s q to n inh = Ok (s', p) /\ stepped idle s s' /\ progress_ok m p.
Proof.
  intros [I A U HNt] Hp Hs Hc Hne Hq Hn Hi Hinh Hfalse. unfold wait_part. set (s1 := put_kern s (vTaskSuspendAll (kern s))).
  assert (inv idle (kern s1)) as I1 by (apply suspend_all_inv; [done|done|lia]).
  assert (uxSchedulerSuspended (kern s1) = 1) as S1 by (unfold s1, vTaskSuspendAll; cbn; by rewrite Hs).
  destruct (region_inv idle c s s1 I1) as (R1 & _); [done|done|by apply istep_qstep, istep_kern|done|].
  destruct (region_isr_inv _ _ _ _ _ I1 R1 (Hi 1%nat)) as (s2 & -> & R2 & J2 & I2). cbn [res_bind].
  destruct (istep_queue _ _ _ _ J2 Hq) as (Q2 & Hq2). pose proof (all_istep _ _ J2 U) as U2. clear J2. clearbody s1.
  destruct (lock_ok _ _ _ _ _ _ ltac:(pose proof (inv_number _ _ I); lia) R2 Hq2 U2) as (Q3 & -> & R3 & O3). cbn [res_bind].
  assert (queues (put_queue s2 q Q3) !! q = Some Q3) as Hq3 by apply lookup_insert_eq.
  destruct (region_isr_inv idle c s (put_queue s2 q Q3) _ I2 R3 (Hi 2%nat)) as (s4 & -> & R4 & J4 & I4). cbn [res_bind].
  destruct (istep_queue _ _ _ _ J4 Hq3) as (Q4 & Hq4). pose proof (others_istep _ _ _ J4 O3) as O4. clear J4 Hq3 O3 R3 Hq2 U2 R2 I2.
  destruct (check_ok idle (kern s4) c to n I4 (bs_current _ _ _ (rg_body _ _ _ _ R4)) Hn) as (k5 & to5 & n5 & b & -> & I5 & C5 & S5 & N5 & Hn5 & Hb).
  cbn [res_bind]. rewrite (bs_suspended _ _ _ (rg_body _ _ _ _ R4)) in S5. rewrite (rg_number _ _ _ _ R4) in N5.
  destruct (region_inv idle c s (put_kern s4 k5) I5 C5 S5) as (R5 & _);
    [eapply qstep_trans; [apply R4|apply istep_qstep, istep_kern, (qs_ok _ _ (rg_step _ _ _ _ R4))]|done|].
  destruct (region_isr_inv idle c s (put_kern s4 k5) _ I5 R5 (Hi 3%nat)) as (s6 & -> & R6 & J6 & I6). cbn [res_bind].
  destruct (istep_queue _ _ _ _ J6 Hq4) as (Q6 & Hq6). pose proof (others_istep q (put_kern s4 k5) _ J6 O4) as O6. clear J6.
  destruct b.
  { destruct (leave_part_ok _ _ _ _ _ _ ints R6 I6 Hq6 O6 Hi) as (s7 & b & -> & H7). cbn [res_bind]. by eexists _, _. }
  specialize (Hb eq_refl). unfold get_queue. rewrite Hq6. cbn [res_bind]. destruct (blocked Q6).
  2: { destruct (leave_part_ok _ _ _ _ _ _ ints R6 I6 Hq6 O6 Hi) as (s7 & b & -> & H7). cbn [res_bind]. by eexists _, _. }
  destruct (region_isr_inv _ _ _ _ _ I6 R6 (Hi 4%nat)) as (s7 & -> & R7 & J7 & I7). cbn [res_bind].
  destruct (region_inherit m _ _ _ _ inherit Hinh R7 I7) as (k7 & b7 & -> & I7' & R7' & Hb7). cbn [res_bind].
  destruct (region_isr_inv idle c s (put_kern s7 k7) _ I7' R7' (Hi 5%nat)) as (s8 & -> & R8 & J8 & I8). cbn [res_bind].
  pose proof (istep_trans _ _ _ _ J7 (istep_trans _ _ _ _ (istep_kern N s7 k7 (st_ok _ _ _ J7)) J8)) as J. destruct (istep_queue _ _ _ _ J Hq6) as (Q8 & Hq8).
  assert (ready (kern s8) c) as Hr8.
  { destruct (region_inv idle c s s8 I8) as (_ & ? & _); [apply R8..|done]. }
  destruct (place_part_ok idle c s s8 q Q8 e n5 ints R8 Hr8 Hq8 (others_istep _ _ _ J O6) ltac:(lia) Hne Hi)
    as (k9 & s9 & s' & b & -> & E9 & E' & H'). cbn [res_bind]. rewrite E9. cbn [res_bind]. rewrite E'. cbn [res_bind]. by eexists _, _.
Qed.
End interrupts.
End RtosQueueSys.
