(* ===== verification/RtosQueueRun.v ===== *)
(** * Programs that use queues and semaphores

    The machine of tasks, interrupts and queues: the running task starts a call on a
    queue, continues the one it is in or calls the kernel; interrupts come between
    the steps and inside those that run with the scheduler suspended. *)

From S2P Require Import Prelude RtosList RtosHeap RtosSeq RtosSched RtosSchedInv RtosTick RtosSchedProps RtosRun RtosSteady RtosTyped RtosBoot.
From S2P Require Import RtosQueue RtosQueueData RtosQueueSys.
From stdpp Require Import list.
#[local] Set Warnings "-clear-no-such-hyp".
#[local] Open Scope Z_scope.

Module RtosQueueRun.
Export RtosSteady RtosTyped RtosQueueSys.

(** ** What the interrupts leave alone *)

Lemma sig_copy k Q x pos k' Q' b : prvCopyDataToQueue k Q x pos = Ok (k', Q', b) -> sig k' = sig k.
Proof.
  unfold prvCopyDataToQueue. intros H. ok_inv; try done;
    match goal with H : xTaskPriorityDisinherit _ _ = Ok _ |- _ => by apply sig_disinherit in H end.
Qed.
Lemma sig_wake k e k' : wake_and_yield k e = Ok k' -> sig k' = sig k.
Proof.
  unfold wake_and_yield, wake_waiting. intros H. ok_inv; try done;
    match goal with H : xTaskRemoveFromEventList _ _ = Ok _ |- _ => apply sig_remove_event in H end; sig_solve.
Qed.
Lemma sig_unlock_loop n k e k' : unlock_loop n k e = Ok k' -> sig k' = sig k.
Proof.
  revert k. induction n as [|n IH]; intros k; cbn [unlock_loop]; intros H; ok_inv; try done. apply IH in H.
  match goal with H : xTaskRemoveFromEventList _ _ = Ok _ |- _ => apply sig_remove_event in H end. unfold vTaskMissedYield in *. sig_solve.
Qed.
(** What the queue functions that returned did to the kernel. *)
Ltac queue_sig :=
  repeat match goal with
  | H : prvCopyDataToQueue _ _ _ _ = Ok _ |- _ => apply sig_copy in H
  | H : wake_and_yield _ _ = Ok _ |- _ => apply sig_wake in H
  | H : unlock_loop _ _ _ = Ok _ |- _ => apply sig_unlock_loop in H
  end.

Lemma qint_steady s i s' : run_qint s i = Ok s' -> steady (kern s) (kern s').
Proof.
  destruct i; cbn [run_qint]; unfold on_kernel, xQueueGenericSendFromISR, xQueueGiveFromISR, xQueueReceiveFromISR, xQueuePeekFromISR; intros H;
    [ok_inv; by eapply interrupt_steady..| | | |]; apply steady_sig; ok_inv; queue_sig; try done; cbn; congruence.
Qed.
Lemma qints_steady ints s s' : run_qints ints s = Ok s' -> steady (kern s) (kern s').
Proof.
  unfold run_qints. revert s. induction ints as [|i ints IH]; intros s; cbn [res_fold]; intros H; ok_inv; [by apply steady_sig|].
  eapply steady_trans; [by eapply qint_steady|by apply IH].
Qed.
Lemma unlock_steady ints s q s' : prvUnlockQueue (run_qints ints) s q = Ok s' -> steady (kern s) (kern s').
Proof.
  unfold prvUnlockQueue. intros H. apply res_bind_ok in H as (Q & _ & H). apply res_bind_ok in H as (k1 & H1%sig_unlock_loop%steady_sig & H).
  apply res_bind_ok in H as (s1 & H2%qints_steady & H). apply res_bind_ok in H as (Q' & _ & H).
  apply res_bind_ok in H as (k2 & H3%sig_unlock_loop%steady_sig & H). ok_inv. eapply steady_trans; [exact H1|]. eapply steady_trans; [exact H2|exact H3].
Qed.

(** A call that waited: the same task is current, and the scheduler is not suspended. *)
Definition came_back (k k' : kernel) : Prop := kept k k' /\ uxSchedulerSuspended k' = 0.
Lemma came_back_yield k k' : came_back k k' -> came_back k (portYIELD k').
Proof. by intros [[] ?]. Qed.
Lemma unlock_came_back ints k0 s q s' b :
  uxSchedulerSuspended k0 = 0 -> steady (vTaskSuspendAll k0) (kern s) ->
  unlock_and_resume (fun n => run_qints (ints n)) s q = Ok (s', b) -> came_back k0 (kern s').
Proof.
  unfold unlock_and_resume. intros Hs S H. apply res_bind_ok in H as (s1 & H1%unlock_steady & H). apply res_bind_ok in H as (s2 & H2%qints_steady & H).
  apply res_bind_ok in H as ([k' b'] & H3 & H). ok_inv.
  assert (steady (vTaskSuspendAll k0) (kern s2)) as S2 by (eapply steady_trans; [done|]; by eapply steady_trans).
  split; [by eapply kept_resume|]. change (uxSchedulerSuspended k' = 0). apply resume_steady in H3 as [= _ _ _ ->]. rewrite (sy_suspended _ _ S2). cbn. by rewrite Hs.
Qed.
Lemma wait_came_back blocked inherit ints e s q to n inh s' p :
  uxSchedulerSuspended (kern s) = 0 -> (forall s1 s2 b, inherit s1 = Ok (s2, b) -> sig (kern s2) = sig (kern s1)) ->
  wait_part (fun n => run_qints (ints n)) blocked inherit e s q to n inh = Ok (s', p) -> came_back (kern s) (kern s').
Proof.
  intros Hs Hi. unfold wait_part. intros H. apply res_bind_ok in H as (s1 & S1%qints_steady & H).
  apply res_bind_ok in H as (s2 & H2 & H). apply res_bind_ok in H as (s3 & S3%qints_steady & H).
  apply res_bind_ok in H as ([[[k to'] n'] expired] & H4%sig_check%steady_sig & H). apply res_bind_ok in H as (s4 & S4%qints_steady & H).
  assert (steady (vTaskSuspendAll (kern s)) (kern s4)) as S.
  { eapply steady_trans; [exact S1|]. replace (kern s1) with (kern s2) by (unfold lock_queue in H2; by ok_inv).
    eapply steady_trans; [exact S3|]. eapply steady_trans; [exact H4|exact S4]. }
  clear S1 H2 S3 H4 S4. destruct expired; [ok_inv; by eapply unlock_came_back|]. apply res_bind_ok in H as (Q & _ & H).
  destruct (blocked Q); [|ok_inv; by eapply unlock_came_back].
  apply res_bind_ok in H as (s5 & S5%qints_steady & H). apply res_bind_ok in H as ([s6 i6] & S6%Hi%steady_sig & H).
  apply res_bind_ok in H as (s7 & S7%qints_steady & H). apply res_bind_ok in H as (k8 & S8%sig_place%steady_sig & H).
  apply res_bind_ok in H as (s9 & S9%qints_steady & H). apply res_bind_ok in H as ([s10 b] & H10 & H).
  assert (came_back (kern s) (kern s10)) as C.
  { eapply unlock_came_back; [done| |done]. do 5 (eapply steady_trans; [eassumption|]). exact S9. }
  ok_inv. destruct b; [done|]. by apply came_back_yield.
Qed.

(** ** The kernel stays typed *)

Definition shape (Q : Queue_t) : Z * Z * bool := (uxLength Q, uxItemSize Q, pcHead_NULL Q).
Ltac queue_shape := unfold set_holder, set_read_from, xMutexHolder, pcTail, pcReadFrom, uxRecursiveCallCount in *; ok_inv; try done.
Lemma copy_shape k Q x pos k' Q' b :
  prvCopyDataToQueue k Q x pos = Ok (k', Q', b) -> shape Q' = shape Q /\ (pcHead_NULL Q = false -> k' = k).
Proof. unfold prvCopyDataToQueue. intros E. queue_shape. Qed.
Lemma copy_from_shape Q Q' b : prvCopyDataFromQueue Q = Ok (Q', b) -> shape Q' = shape Q.
Proof. unfold prvCopyDataFromQueue. intros E. queue_shape. Qed.
Lemma read_from_shape Q r Q' : set_read_from Q r = Ok Q' -> shape Q' = shape Q.
Proof. intros E. queue_shape. Qed.
Lemma tx_shape k Q Q' : prvIncrementQueueTxLock k Q = Ok Q' -> shape Q' = shape Q.
Proof. unfold prvIncrementQueueTxLock. intros E. queue_shape. Qed.
Lemma rx_shape k Q Q' : prvIncrementQueueRxLock k Q = Ok Q' -> shape Q' = shape Q.
Proof. unfold prvIncrementQueueRxLock. intros E. queue_shape. Qed.
Lemma types_put s k q Q Q' : get_queue s q = Ok Q -> shape Q' = shape Q -> qtypes (put_queue (put_kern s k) q Q') = qtypes s.
Proof.
  unfold get_queue. destruct (queues s !! q) as [Q0|] eqn:Hq; [|done]. intros [= ->] E. unfold qtypes, put_queue. cbn. rewrite fmap_insert.
  apply insert_id. rewrite lookup_fmap, Hq. cbn. f_equal. by symmetry.
Qed.

Section typed.
Context {pt : Patient} (T : Z -> Prop) (H : Z -> Z).

Record tstep (s s' : sys) : Prop := {
  ts_types : qtypes s' = qtypes s;
  ts_typed : typed T H (kern s) -> typed T H (kern s');
}.
Lemma tstep_refl s : tstep s s.
Proof. done. Qed.
Lemma tstep_trans s1 s2 s3 : tstep s1 s2 -> tstep s2 s3 -> tstep s1 s3.
Proof. intros [E1 K1] [E2 K2]. split; [congruence|auto]. Qed.
Lemma tstep_kern s k : (typed T H (kern s) -> typed T H k) -> tstep s (put_kern s k).
Proof. done. Qed.
Lemma tstep_put s k q Q Q' :
  get_queue s q = Ok Q -> shape Q' = shape Q -> (typed T H (kern s) -> typed T H k) -> tstep s (put_queue (put_kern s k) q Q').
Proof. intros Hq Hs K. split; [by eapply types_put|done]. Qed.
Lemma tstep_record s s' o : tstep s s' -> tstep s (record s' o).
Proof. by intros []. Qed.

Lemma typed_wake k e k' : wake_and_yield k e = Ok k' -> typed T H k -> typed T H k'.
Proof. rewrite wake_signal. apply typed_interrupt. Qed.
Lemma typed_unlock_loop n k e k' : unlock_loop n k e = Ok k' -> typed T H k -> typed T H k'.
Proof.
  revert k. induction n as [|n IH]; intros k; cbn [unlock_loop]; intros E K; ok_inv; try done;
    (eapply IH; [exact E|]); typed_facts; typed_goal.
Qed.
Lemma plain_queue s q len size Q : qtypes s !! q = Some (len, size, false) -> get_queue s q = Ok Q -> pcHead_NULL Q = false.
Proof. unfold qtypes, get_queue. rewrite lookup_fmap. destruct (queues s !! q); [|done]. intros [= _ _ E] [= <-]. exact E. Qed.

Lemma tstep_send_isr s q item pos s' b : int_ok (qtypes s) (QSend q item pos) -> xQueueGenericSendFromISR s q item pos = Ok (s', b) -> tstep s s'.
Proof.
  intros (len & size & HT & _) E. unfold xQueueGenericSendFromISR in E. apply res_bind_ok in E as (Q & Hq & E).
  pose proof (plain_queue _ _ _ _ _ HT Hq) as Hm. ok_inv; try done;
    match goal with E : prvCopyDataToQueue _ _ _ _ = Ok _ |- _ => apply copy_shape in E as [? Hk]; specialize (Hk Hm); subst end;
    (eapply tstep_put; [exact Hq|try (by etrans; [by eapply tx_shape|])|]); try done. by apply typed_wake with (to_receive q).
Qed.
Lemma tstep_give_isr s q s' b : xQueueGiveFromISR s q = Ok (s', b) -> tstep s s'.
Proof.
  intros E. unfold xQueueGiveFromISR in E. apply res_bind_ok in E as (Q & Hq & E). ok_inv; try done;
    (eapply tstep_put; [exact Hq|try (by etrans; [by eapply tx_shape|])|]); try done; by apply typed_wake with (to_receive q).
Qed.
Lemma tstep_receive_isr s q s' r : xQueueReceiveFromISR s q = Ok (s', r) -> tstep s s'.
Proof.
  intros E. unfold xQueueReceiveFromISR in E. apply res_bind_ok in E as (Q & Hq & E). ok_inv; try done;
    match goal with E : prvCopyDataFromQueue _ = Ok _ |- _ => apply copy_from_shape in E end;
    (eapply tstep_put; [exact Hq|try (by etrans; [by eapply rx_shape|])|]); try done; by apply typed_wake with (to_send q).
Qed.
Lemma tstep_peek_isr s q s' r : xQueuePeekFromISR s q = Ok (s', r) -> tstep s s'.
Proof.
  intros E. unfold xQueuePeekFromISR in E. apply res_bind_ok in E as (Q & Hq & E). ok_inv; try done.
  match goal with E : prvCopyDataFromQueue _ = Ok _ |- _ => apply copy_from_shape in E end.
  match goal with E : set_read_from _ _ = Ok _ |- _ => apply read_from_shape in E end.
  apply (tstep_put s (kern s) q Q); [done|congruence|done].
Qed.
Lemma tstep_qint s i s' : int_ok (qtypes s) i -> run_qint s i = Ok s' -> tstep s s'.
Proof.
  intros Hi E. destruct i; cbn [run_qint] in E; unfold on_kernel in E;
    [ok_inv; apply tstep_kern; by eapply typed_interrupt..| | | |]; apply res_bind_ok in E as ([s1 r] & E & Es); apply ok_inj in Es as <-;
    apply tstep_record; [by eapply tstep_send_isr|by eapply tstep_give_isr|by eapply tstep_receive_isr|by eapply tstep_peek_isr].
Qed.
Lemma tstep_qints ints s s' : Forall (int_ok (qtypes s)) ints -> run_qints ints s = Ok s' -> tstep s s'.
Proof.
  unfold run_qints. revert s. induction ints as [|i ints IH]; intros s; cbn [res_fold]; intros Hi E; [by ok_inv|].
  apply res_bind_ok in E as (s1 & E1 & E). apply Forall_cons in Hi as [Hi His]. pose proof (tstep_qint _ _ _ Hi E1) as K. eapply tstep_trans; [exact K|]. apply IH; [|done].
  by rewrite (ts_types _ _ K).
Qed.

(** The interrupts inside a call. *)
Definition ints_ok (s : sys) (ints : nat -> list qint) : Prop := forall n, Forall (int_ok (qtypes s)) (ints n).
Lemma tstep_isr ints s0 s n s' : ints_ok s0 ints -> tstep s0 s -> run_qints (ints n) s = Ok s' -> tstep s0 s'.
Proof.
  intros Hi K E. eapply tstep_trans; [exact K|]. eapply tstep_qints; [|exact E]. rewrite (ts_types _ _ K). apply Hi.
Qed.
Lemma tstep_then s0 s k : tstep s0 s -> (typed T H (kern s) -> typed T H k) -> tstep s0 (put_kern s k).
Proof. intros [] Hk. split; [done|]. intros K. cbn. auto. Qed.
Lemma tstep_lock s0 s q s' : tstep s0 s -> lock_queue s q = Ok s' -> tstep s0 s'.
Proof.
  intros K E. unfold lock_queue in E. apply res_bind_ok in E as (Q & Hq & E). ok_inv. eapply tstep_trans; [exact K|].
  apply (tstep_put s (kern s) q Q); [done| |done]. unfold prvLockQueue. by destruct (cRxLock Q =? _), (cTxLock _ =? _).
Qed.
Lemma tstep_unlock ints s0 s q n s' :
  ints_ok s0 ints -> tstep s0 s -> prvUnlockQueue (run_qints (ints n)) s q = Ok s' -> tstep s0 s'.
Proof.
  intros Hi K E. unfold prvUnlockQueue in E. apply res_bind_ok in E as (Q & Hq & E). apply res_bind_ok in E as (k1 & H1 & E).
  apply res_bind_ok in E as (s1 & E1 & E). apply res_bind_ok in E as (Q2 & Hq2 & E). apply res_bind_ok in E as (k2 & H2 & E). apply ok_inj in E as <-.
  apply (tstep_isr ints s0 _ n) in E1; [|done|]; eapply tstep_trans; [exact E1| |exact K|].
  - eapply tstep_put; [exact Hq2|done|by eapply typed_unlock_loop].
  - eapply tstep_put; [exact Hq|done|by eapply typed_unlock_loop].
Qed.
Lemma tstep_unlock_resume ints s0 s q s' b :
  ints_ok s0 ints -> tstep s0 s -> unlock_and_resume (fun n => run_qints (ints n)) s q = Ok (s', b) -> tstep s0 s'.
Proof.
  intros Hi K E. unfold unlock_and_resume in E. apply res_bind_ok in E as (s1 & E1 & E). apply res_bind_ok in E as (s2 & E2 & E).
  apply res_bind_ok in E as ([k b'] & E3 & E). ok_inv. apply (tstep_unlock ints s0) in E1; [|done|done]. apply (tstep_isr ints s0) in E2; [|done|done].
  apply tstep_then; [done|]. by eapply typed_resume_all.
Qed.
Lemma tstep_wait ints blocked inherit e s q to n inh s' p :
  ints_ok s ints -> (forall s0 s1 b, inherit s0 = Ok (s1, b) -> tstep s0 s1) ->
  wait_part (fun n => run_qints (ints n)) blocked inherit e s q to n inh = Ok (s', p) -> tstep s s'.
Proof.
  intros Hi Hinh E. unfold wait_part in E. apply res_bind_ok in E as (s1 & E1 & E).
  apply (tstep_isr ints s) in E1; [|done|by apply tstep_then; [done|]; intros K; typed_goal].
  apply res_bind_ok in E as (s2 & E2 & E). apply (tstep_lock s) in E2; [|done]. apply res_bind_ok in E as (s3 & E3 & E).
  apply (tstep_isr ints s) in E3; [|done|done]. apply res_bind_ok in E as ([[[k4 to4] n4] expired] & E4 & E).
  apply res_bind_ok in E as (s5 & E5 & E). apply (tstep_isr ints s) in E5; [|done|by apply tstep_then; [done|]; by eapply typed_check].
  destruct expired; [ok_inv; by eapply tstep_unlock_resume|]. apply res_bind_ok in E as (Q & _ & E). destruct (blocked Q); [|ok_inv; by eapply tstep_unlock_resume].
  apply res_bind_ok in E as (s6 & E6 & E). apply (tstep_isr ints s) in E6; [|done|done]. apply res_bind_ok in E as ([s7 b7] & E7%Hinh & E).
  apply res_bind_ok in E as (s8 & E8 & E). apply (tstep_isr ints s) in E8; [|done|by eapply tstep_trans].
  apply res_bind_ok in E as (k9 & E9 & E). apply res_bind_ok in E as (s10 & E10 & E).
  apply (tstep_isr ints s) in E10; [|done|by apply tstep_then; [done|]; by eapply typed_place].
  apply res_bind_ok in E as ([s11 b11] & E11 & E). apply (tstep_unlock_resume ints s) in E11; [|done|done]. ok_inv.
  destruct b11; [done|]. apply tstep_then; [done|]. intros K. typed_goal.
Qed.
End typed.

(** ** Steps of a call *)

(** What a call that is over has done. *)
Definition finish (o : operation) (q : Z) (p p' : progress) : list outcome :=
  match p, p', o with
  | Try _ _ _, Return (Some _), xQueueGenericSend item pos => [Sent q (default [] item) pos]
  | Try _ _ _, Return (Some b), xQueueReceive => [Received q b]
  | Try _ _ _, Return (Some b), xQueuePeek => [Peeked q b]
  | Try _ _ _, Return (Some _), xQueueSemaphoreTake => [Received q []]
  | Try _ _ _, Return None, xQueueGenericSend _ _ => [WasFull q]
  | Expired _ _ _, Return None, xQueueGenericSend _ _ => []
  | (Try _ _ _ | Expired _ _ _), Return None, _ => [WasEmpty q]
  | _, _, _ => []
  end.
Definition step_call (isr : nat -> sys -> res sys) (o : operation) (s : sys) (q : Z) (p : progress) : res (sys * progress) :=
  let! '(s, p') := step_operation isr o s q p in Ok (foldl record s (finish o q p p'), p').

(** What may be asked of a queue: mutexes are left out. *)
Definition op_ok (T : gmap Z (Z * Z * bool)) (o : operation) (q : Z) : Prop :=
  match o with
  | xQueueGenericSend item pos => exists len size, T !! q = Some (len, size, false) /\ item_ok len size item pos
  | xQueueReceive | xQueuePeek => exists len size, T !! q = Some (len, size, false)
  | xQueueSemaphoreTake => exists len, T !! q = Some (len, 0, false)
  end.

Section typed_steps.
Context {pt : Patient} (T : Z -> Prop) (H : Z -> Z).
Abbreviation tstep := (tstep T H).

Lemma tstep_records s s' os : tstep s s' -> tstep s (foldl record s' os).
Proof. revert s'. induction os as [|o os IH]; intros s' K; [done|]. cbn. by apply IH, tstep_record. Qed.
Lemma tstep_block ints o s q to n inh s' p :
  ints_ok s ints -> step_operation (fun n => run_qints (ints n)) o s q (Block to n inh) = Ok (s', p) -> tstep s s'.
Proof.
  intros Hi E. destruct o; cbn [step_operation] in E; (eapply tstep_wait; [exact Hi| |exact E]); try (by intros s0 s1 b [= <- _]).
  intros s0 s1 b. unfold mutex_inherit. intros E1. ok_inv; [|done]. apply tstep_kern. by eapply typed_inherit.
Qed.
(** Queues and semaphores: the first critical section. *)
Lemma tstep_try isr o s q to n inh s' p :
  op_ok (qtypes s) o q -> step_operation isr o s q (Try to n inh) = Ok (s', p) -> tstep s s'.
Proof.
  intros Ho E. assert (exists len size, qtypes s !! q = Some (len, size, false)) as (len & size & HT).
  { destruct o; cbn in Ho; destruct Ho as (len & Ho); [destruct Ho as (size & ? & _); by exists len, size|destruct Ho as [size ?]; by exists len, size..|by exists len, 0]. }
  destruct o; cbn [step_operation] in E; unfold xQueueGenericSend_try, xQueueReceive_try, xQueuePeek_try, xQueueSemaphoreTake_try in E;
    apply res_bind_ok in E as (Q & Hq & E); pose proof (plain_queue _ _ _ _ _ HT Hq) as Hm.
  - ok_inv; try done; match goal with E : prvCopyDataToQueue _ _ _ _ = Ok _ |- _ => apply copy_shape in E as [? Hk]; specialize (Hk Hm); subst end;
      (eapply tstep_put; [exact Hq|done|]); [by eapply typed_wake|]. intros K. typed_goal.
  - ok_inv; try done. match goal with E : prvCopyDataFromQueue _ = Ok _ |- _ => apply copy_from_shape in E end.
    eapply tstep_put; [exact Hq|done|by eapply typed_wake].
  - ok_inv; try done. match goal with E : prvCopyDataFromQueue _ = Ok _ |- _ => apply copy_from_shape in E end.
    match goal with E : set_read_from _ _ = Ok _ |- _ => apply read_from_shape in E end. eapply tstep_put; [exact Hq|congruence|by eapply typed_wake].
  - destruct (0 <? uxMessagesWaiting Q); [|by ok_inv]. rsimpl in E. rewrite Hm in E. cbn [res_bind] in E. ok_inv.
    eapply tstep_put; [exact Hq|done|by eapply typed_wake].
Qed.
Lemma tstep_expired isr o s q to n inh s' p : step_operation isr o s q (Expired to n inh) = Ok (s', p) -> s' = s.
Proof. intros E. destruct o; cbn [step_operation] in E; by ok_inv. Qed.
Lemma tstep_step ints o s q p s' p' :
  op_ok (qtypes s) o q -> ints_ok s ints -> p <> GiveUp -> step_call (fun n => run_qints (ints n)) o s q p = Ok (s', p') -> tstep s s'.
Proof.
  intros Ho Hi Hp E. unfold step_call in E. apply res_bind_ok in E as ([s1 p1] & E & Es). apply ok_inj, pair_equal_spec in Es as [<- _].
  apply tstep_records. destruct p; [by eapply tstep_try|by eapply tstep_block|apply tstep_expired in E; by subst|done|]. destruct o; cbn in E; by ok_inv.
Qed.
End typed_steps.

Section steps.
Context {stc : Strict} (N : Z) (HN : N <= 127) (idle : Z).

Lemma stepped_istep s s' :
  istep N s s' -> sinv N idle s -> inv idle (kern s') -> uxCurrentNumberOfTasks (kern s') = N -> stepped N idle s s'.
Proof. intros I S Ik Hn. apply stepped_qstep; try done; [by apply istep_qstep|]. apply (all_istep N s); [done|]. apply S. Qed.
Lemma stepped_same s o : sinv N idle s -> apply_outcome (view s) o = Some (view s) -> stepped N idle s (record s o).
Proof. intros S Ho. apply stepped_istep; [|done|apply S..]. apply istep_log; [apply S|done]. Qed.
Lemma stepped_refl s : sinv N idle s -> stepped N idle s s.
Proof. intros S. apply stepped_istep; [|done|apply S..]. apply istep_refl, S. Qed.

Lemma wake_part_ok s e :
  sinv N idle s -> exists k', wake_and_yield (kern s) e = Ok k' /\ inv idle k' /\ uxCurrentNumberOfTasks k' = N.
Proof.
  intros [I _ _ Hn]. rewrite wake_signal. destruct (interrupt_inv idle (kern s) (Signal e) I) as (k' & E & I'). exists k'. split_and!; try done.
  by rewrite (sy_number _ _ (interrupt_steady _ _ _ E)).
Qed.
Lemma stepped_put s k q Q Q' o :
  sinv N idle s -> queues s !! q = Some Q -> queue_ok Q' -> same_queue Q Q' -> inv idle k -> uxCurrentNumberOfTasks k = N ->
  (forall A : aqueues, A !! q = Some (uxLength Q, contents Q) -> apply_outcome A o = Some (<[q := (uxLength Q, contents Q')]> A)) ->
  stepped N idle s (record (put_queue (put_kern s k) q Q') o).
Proof.
  intros S Hq Hok Sq Ik Hn Ho. destruct (si_queues _ _ _ S q Q Hq) as [_ Hl]. apply stepped_istep; try done.
  apply (istep_put N s _ q Q Q' [o]); try done; [apply S|unfold locks_ok; by rewrite (sq_rx _ _ Sq), (sq_tx _ _ Sq)|apply Sq..| | |].
  - by rewrite (sq_rx _ _ Sq).
  - by rewrite (sq_tx _ _ Sq).
  - cbn [apply_outcomes]. by rewrite (Ho _ (view_queue _ _ _ Hq)).
Qed.

(** When the call cannot succeed now. *)
Lemma cannot_ok m s to n inh o :
  sinv N idle s -> progress_ok m (Try to n inh) -> apply_outcome (view s) o = Some (view s) ->
  let p := cannot_now (kern s) to n inh in
  stepped N idle s (foldl record s (match p with Return _ => [o] | _ => [] end)) /\ progress_ok m p.
Proof.
  intros S [Hn Hm] Ho. unfold cannot_now. destruct (Z.eqb_spec n 0); cbn; [split; [by apply stepped_same|done]|].
  split; [by apply stepped_refl|]. split; [lia|done].
Qed.

Lemma send_try_ok isr s q item pos to n inh :
  sinv N idle s -> op_ok (qtypes s) (xQueueGenericSend item pos) q -> progress_ok false (Try to n inh) ->
  exists s' p', step_call isr (xQueueGenericSend item pos) s q (Try to n inh) = Ok (s', p') /\ stepped N idle s s' /\ progress_ok false p'.
Proof.
  intros S (len & size & HT & Hi) Hp. destruct (qtype_queue _ _ _ _ _ HT) as (Q & Hq & <- & <- & Hm).
  destruct (si_queues _ _ _ S q Q Hq) as [Hok _]. unfold step_call. cbn [step_operation]. unfold xQueueGenericSend_try, get_queue.
  rewrite Hq. cbn [res_bind]. destruct ((uxMessagesWaiting Q <? uxLength Q) || (pos =? queueOVERWRITE)) eqn:Hc.
  - destruct (send_data (kern s) q Q item pos Hok Hm Hi Hc) as (Q' & -> & Hok' & Sq & Ho). cbn [res_bind].
    destruct (wake_part_ok s (to_receive q) S) as (k' & E & I' & N').
    assert ((if negb (listLIST_IS_EMPTY (kern s) (EventList (to_receive q))) then wake_and_yield (kern s) (to_receive q) else Ok (kern s)) = Ok k') as ->.
    { destruct (listLIST_IS_EMPTY _ _) eqn:El; [|done]. cbn [negb]. unfold wake_and_yield, wake_waiting in E. by rewrite El in E. }
    cbn [res_bind]. eexists _, _. split; [done|]. split; [|done]. by apply (stepped_put s k' q Q Q').
  - cbn [res_bind]. apply orb_false_iff in Hc as [Hc _].
    destruct (cannot_ok false s to n inh (WasFull q) S Hp (full_outcome s q Q Hq Hok Hc)) as [St Po]. eexists _, _. split; [done|]. split; [|done].
    revert St. unfold cannot_now. by destruct (n =? 0).
Qed.

(** Receiving, peeking and taking share their data step. *)
Lemma receive_try_ok isr s q to n inh :
  sinv N idle s -> op_ok (qtypes s) xQueueReceive q -> progress_ok false (Try to n inh) ->
  exists s' p', step_call isr xQueueReceive s q (Try to n inh) = Ok (s', p') /\ stepped N idle s s' /\ progress_ok false p'.
Proof.
  intros S (len & size & HT) Hp. destruct (qtype_queue _ _ _ _ _ HT) as (Q & Hq & <- & <- & Hm).
  destruct (si_queues _ _ _ S q Q Hq) as [Hok _]. unfold step_call. cbn [step_operation]. unfold xQueueReceive_try, get_queue.
  rewrite Hq. cbn [res_bind]. destruct (0 <? uxMessagesWaiting Q) eqn:Hc.
  - destruct (receive_data q Q Hok Hm Hc) as (x & Q' & -> & Sq & Hok' & Ho & _). cbn [res_bind].
    destruct (wake_part_ok s (to_send q) S) as (k' & -> & I' & N'). cbn [res_bind]. eexists _, _. split; [done|]. split; [|done].
    apply (stepped_put s k' q Q); try done; [by destruct Sq|]. intros A HA. by apply Ho.
  - cbn [res_bind]. destruct (cannot_ok false s to n inh (WasEmpty q) S Hp (empty_outcome s q Q Hq Hok Hc)) as [St Po]. eexists _, _.
    split; [done|]. split; [|done]. revert St. unfold cannot_now. by destruct (n =? 0).
Qed.
Lemma peek_try_ok isr s q to n inh :
  sinv N idle s -> op_ok (qtypes s) xQueuePeek q -> progress_ok false (Try to n inh) ->
  exists s' p', step_call isr xQueuePeek s q (Try to n inh) = Ok (s', p') /\ stepped N idle s s' /\ progress_ok false p'.
Proof.
  intros S (len & size & HT) Hp. destruct (qtype_queue _ _ _ _ _ HT) as (Q & Hq & <- & <- & Hm).
  destruct (si_queues _ _ _ S q Q Hq) as [Hok _]. unfold step_call. cbn [step_operation]. unfold xQueuePeek_try, get_queue.
  rewrite Hq. cbn [res_bind]. destruct (0 <? uxMessagesWaiting Q) eqn:Hc.
  - destruct (receive_data q Q Hok Hm Hc) as (x & Q' & -> & Sq & Hok' & Ho & Hr). destruct (qo_pointers _ Hok Hm) as (t & r & Hu & _).
    assert (pcReadFrom Q = Ok r) as Er by (unfold pcReadFrom; by rewrite Hu). rewrite Er. cbn [res_bind]. rewrite (Hr r Er). cbn [res_bind].
    destruct (wake_part_ok s (to_receive q) S) as (k' & -> & I' & N'). cbn [res_bind]. eexists _, _. split; [done|]. split; [|done].
    apply (stepped_put s k' q Q); try done. intros A HA. rewrite insert_id by done. by apply Ho.
  - cbn [res_bind]. destruct (cannot_ok false s to n inh (WasEmpty q) S Hp (empty_outcome s q Q Hq Hok Hc)) as [St Po]. eexists _, _.
    split; [done|]. split; [|done]. revert St. unfold cannot_now. by destruct (n =? 0).
Qed.
Lemma take_try_ok isr s q to n inh :
  sinv N idle s -> op_ok (qtypes s) xQueueSemaphoreTake q -> progress_ok false (Try to n inh) ->
  exists s' p', step_call isr xQueueSemaphoreTake s q (Try to n inh) = Ok (s', p') /\ stepped N idle s s' /\ progress_ok false p'.
Proof.
  intros S (len & HT) Hp. destruct (qtype_queue _ _ _ _ _ HT) as (Q & Hq & <- & Hz & Hm).
  destruct (si_queues _ _ _ S q Q Hq) as [Hok _]. unfold step_call. cbn [step_operation]. unfold xQueueSemaphoreTake_try, get_queue.
  rewrite Hq. cbn [res_bind]. destruct (0 <? uxMessagesWaiting Q) eqn:Hc.
  - destruct (receive_data q Q Hok Hm Hc) as (x & Q' & E & Sq & Hok' & Ho & _). unfold prvCopyDataFromQueue in E. rewrite Hz in E.
    apply ok_inj, pair_equal_spec in E as [<- <-]. rsimpl. rewrite Hm. cbn [res_bind].
    destruct (wake_part_ok s (to_send q) S) as (k' & -> & I' & N'). cbn [res_bind]. eexists _, _. split; [done|]. split; [|done].
    apply (stepped_put s k' q Q); try done. intros A HA. by apply Ho.
  - cbn [res_bind]. destruct (cannot_ok false s to n inh (WasEmpty q) S Hp (empty_outcome s q Q Hq Hok Hc)) as [St Po]. eexists _, _.
    split; [done|]. split; [|done]. revert St. unfold cannot_now. by destruct (n =? 0).
Qed.

Lemma expired_ok isr o s q to n inh :
  sinv N idle s -> op_ok (qtypes s) o q -> progress_ok false (Expired to n inh) ->
  exists s' p', step_call isr o s q (Expired to n inh) = Ok (s', p') /\ stepped N idle s s' /\ progress_ok false p'.
Proof.
  intros S Ho [Hn Hinh]. rewrite (Hinh eq_refl) in *. destruct o as [item pos| | |]; [by eexists _, _; split; [done|]; split; [apply stepped_refl|]|..];
    unfold step_call; cbn [step_operation]; unfold xQueueReceive_expired, xQueueSemaphoreTake_expired, get_queue.
  3: assert (exists len size, qtypes s !! q = Some (len, size, false)) as (len & size & HT) by (destruct Ho as (len & HT); by exists len, 0).
  1, 2: destruct Ho as (len & size & HT).
  all: destruct (qtype_queue _ _ _ _ _ HT) as (Q & Hq & _); destruct (si_queues _ _ _ S q Q Hq) as [Hok _]; rewrite Hq; cbn [res_bind];
    unfold prvIsQueueEmpty; destruct (Z.eqb_spec (uxMessagesWaiting Q) 0) as [Hz|Hz]; cbn [finish foldl]; eexists _, _; (split; [done|]).
  2, 4, 6: by split; [apply stepped_refl|].
  all: split; [|done]; apply stepped_same; [done|]; apply (empty_outcome s q Q); [done|done|]; apply Z.ltb_ge; lia.
Qed.

Lemma block_step_ok o s q to n inh c ints :
  sinv N idle s -> xPendSV (kern s) = false -> uxSchedulerSuspended (kern s) = 0 -> pxCurrentTCB (kern s) = Some c -> c <> idle ->
  op_ok (qtypes s) o q -> progress_ok false (Block to n inh) -> (forall n, Forall (int_ok (qtypes s)) (ints n)) ->
  exists s' p', step_call (fun n => run_qints (ints n)) o s q (Block to n inh) = Ok (s', p') /\ stepped N idle s s' /\ progress_ok false p'.
Proof.
  intros S Hp Hs Hc Hne Ho [Hn Hinh] Hi. rewrite (Hinh eq_refl) in *.
  assert (forall (b : Queue_t -> bool) inherit e Q, queues s !! q = Some Q -> (forall s', qtypes s' = qtypes s -> inherit s' = Ok (s', false)) ->
    exists s' p', (let! '(s, p) := wait_part (fun n => run_qints (ints n)) b inherit e s q to n false in Ok (foldl record s [], p)) = Ok (s', p') /\
      stepped N idle s s' /\ progress_ok false p') as W.
  { intros b inherit e Q Hq Hin. destruct (wait_part_ok N HN false idle c s q e to n false ints b inherit Q) as (s' & p & -> & H); try done.
    - intros s1 R I. exists (kern s1), false. rewrite Hin by apply R. by destruct s1.
    - cbn [res_bind]. by exists s', p. }
  destruct o; destruct Ho as (len & HT); try destruct HT as (size & HT).
  1: destruct HT as [HT _].
  all: destruct (qtype_queue _ _ _ _ _ HT) as (Q & Hq & _ & _ & Hm); eapply W; [exact Hq|]; try done.
  intros s' Ht. rewrite <- Ht in HT. destruct (qtype_queue _ _ _ _ _ HT) as (Q' & Hq' & _ & _ & Hm'). unfold mutex_inherit, get_queue.
  rewrite Hq'. cbn [res_bind]. by rewrite Hm'.
Qed.

Definition polling (p : progress) : Prop := p = Try None 0 false.
Lemma step_call_ok o s q p c ints :
  sinv N idle s -> xPendSV (kern s) = false -> pxCurrentTCB (kern s) = Some c -> op_ok (qtypes s) o q -> progress_ok false p ->
  polling p \/ uxSchedulerSuspended (kern s) = 0 /\ c <> idle -> (forall n, Forall (int_ok (qtypes s)) (ints n)) ->
  exists s' p', step_call (fun n => run_qints (ints n)) o s q p = Ok (s', p') /\ stepped N idle s s' /\ progress_ok false p'.
Proof.
  intros S Hpend Hc Ho Hp Hpoll Hi. destruct p as [to n inh|to n inh|to n inh| |r].
  - destruct o; [by apply send_try_ok|by apply receive_try_ok|by apply peek_try_ok|by apply take_try_ok].
  - destruct Hpoll as [|[Hs Hne]]; [done|]. by apply (block_step_ok _ _ _ _ _ _ c).
  - by apply expired_ok.
  - done.
  - exists s, (Return r). split; [by destruct o|]. split; [by apply stepped_refl|done].
Qed.
End steps.

Lemma kern_record s os : kern (foldl record s os) = kern s.
Proof. revert s. induction os as [|o os IH]; intros s; [done|]. cbn. by rewrite IH. Qed.
Lemma sig_mutex_inherit q inh s s' b : mutex_inherit q inh s = Ok (s', b) -> sig (kern s') = sig (kern s).
Proof.
  unfold mutex_inherit. intros H. ok_inv; try done. match goal with H : xTaskPriorityInherit _ _ = Ok _ |- _ => by apply sig_inherit in H end.
Qed.
Lemma sig_held_count k k' h : pvTaskIncrementMutexHeldCount k = (k', h) -> sig k' = sig k.
Proof. unfold pvTaskIncrementMutexHeldCount. intros [<- _]%pair_equal_spec. by destruct (pxCurrentTCB k). Qed.
Lemma sig_try isr o s q to n inh s' p' : step_operation isr o s q (Try to n inh) = Ok (s', p') -> sig (kern s') = sig (kern s).
Proof.
  destruct o; cbn [step_operation]; unfold xQueueGenericSend_try, xQueueReceive_try, xQueuePeek_try, xQueueSemaphoreTake_try;
    intros H; ok_inv; queue_sig; try done; cbn in *; try congruence.
  - by destruct b.
  - match goal with H : pvTaskIncrementMutexHeldCount _ = _ |- _ => apply sig_held_count in H end. congruence.
Qed.
Lemma step_call_kept ints o s q p s' p' :
  step_call (fun n => run_qints (ints n)) o s q p = Ok (s', p') ->
  ((exists to n inh, p = Block to n inh) -> uxSchedulerSuspended (kern s) = 0) ->
  kept (kern s) (kern s') /\ (uxSchedulerSuspended (kern s) = 0 -> uxSchedulerSuspended (kern s') = 0).
Proof.
  unfold step_call. intros H Hb. apply res_bind_ok in H as ([s1 p1] & H & E). apply ok_inj, pair_equal_spec in E as [<- <-]. rewrite kern_record.
  assert (forall k, sig k = sig (kern s) -> kept (kern s) k /\ (uxSchedulerSuspended (kern s) = 0 -> uxSchedulerSuspended k = 0)) as Hsig.
  { intros k E. split; [by apply kept_sig|]. injection E. congruence. }
  destruct p as [to n inh|to n inh|to n inh| |r].
  - by eapply Hsig, sig_try.
  - assert (uxSchedulerSuspended (kern s) = 0) as Hs by eauto.
    assert (came_back (kern s) (kern s1)) as [? ?]; [|done].
    destruct o; (eapply wait_came_back; [done| |exact H]); try (by intros s2 s3 b [= <- <-]). intros s2 s3 b. apply sig_mutex_inherit.
  - apply Hsig. destruct o; cbn [step_operation] in H; ok_inv; done.
  - apply Hsig. cbn [step_operation] in H. unfold give_up_mutex in H. ok_inv.
    match goal with H : vTaskPriorityDisinheritAfterTimeout _ _ _ = Ok _ |- _ => by apply sig_disinherit_timeout in H end.
  - apply Hsig. destruct o; cbn [step_operation] in H; ok_inv; done.
Qed.

End RtosQueueRun.
