(* ===== verification/RtosLock.v ===== *)
(** * Mutexes held, taken and given back

    The calls on a mutex by tasks that take no mutex they hold and give back only what
    they hold: none faults, the holder is the task that took the mutex, and each task
    counts the mutexes it holds. *)

From S2P Require Import Prelude Words RtosList RtosHeap RtosSeq RtosSched RtosSchedInv RtosTick RtosSchedProps RtosRun RtosSteady RtosTyped RtosBoot.
From S2P Require Import RtosQueue RtosQueueData RtosQueueSys RtosQueueRun.
From stdpp Require Import list.
#[local] Set Warnings "-clear-no-such-hyp".
#[local] Open Scope Z_scope.

Module RtosLock.
Export RtosQueueRun.

(** ** The mutexes a task holds *)

Definition held_by (h : gmap Z (option Z)) (t : Z) : Z := Z.of_nat (size (filter (fun x => x.2 = Some t) h)).

Lemma held_take h q c t : h !! q = Some None -> held_by (<[q := Some c]> h) t = if decide (c = t) then held_by h t + 1 else held_by h t.
Proof.
  intros Hq. unfold held_by. destruct (decide (c = t)) as [<-|Hne].
  - rewrite map_filter_insert_True by done. rewrite map_size_insert_None; [lia|]. apply map_lookup_filter_None_2. right. intros x. rewrite Hq. by intros [= <-].
  - rewrite map_filter_insert_False by (cbn; congruence). do 2 f_equal. apply map_filter_delete_not. intros x. rewrite Hq. by intros [= <-].
Qed.
Lemma held_give h q c t : h !! q = Some (Some c) -> held_by (<[q := None]> h) t = if decide (c = t) then held_by h t - 1 else held_by h t.
Proof.
  intros Hq. unfold held_by. rewrite map_filter_insert_False by done. destruct (decide (c = t)) as [<-|Hne].
  - rewrite map_filter_delete, map_size_delete_Some by (eexists; by apply map_lookup_filter_Some_2).
    assert (size (filter (fun x : Z * option Z => x.2 = Some c) h) <> 0%nat); [|lia].
    apply map_size_ne_0_lookup_2 with q. eexists. by apply map_lookup_filter_Some_2.
  - do 2 f_equal. apply map_filter_delete_not. intros x. rewrite Hq. intros [= <-]. cbn. congruence.
Qed.
Lemma held_pos h q t : h !! q = Some (Some t) -> 0 < held_by h t.
Proof.
  intros Hq. unfold held_by. assert (size (filter (fun x : Z * option Z => x.2 = Some t) h) <> 0%nat); [|lia].
  apply map_size_ne_0_lookup_2 with q. eexists. by apply map_lookup_filter_Some_2.
Qed.
Lemma held_free h q t : h !! q = Some None -> 0 <= held_by h t < Z.of_nat (size h).
Proof.
  intros Hq. split; [unfold held_by; lia|]. unfold held_by. pose proof (held_take h q t t Hq) as E. rewrite decide_True in E by done.
  unfold held_by in E. assert (size (filter (fun x : Z * option Z => x.2 = Some t) (<[q := Some t]> h)) <= size (<[q := Some t]> h))%nat as Hle.
  { apply map_subseteq_size, map_filter_subseteq. }
  rewrite map_size_insert_Some in Hle by done. lia.
Qed.
(** ** Steps of the calls on a mutex *)

Definition free_count (h : option Z) : Z := match h with Some _ => 0 | None => 1 end.
(** [Q] is a mutex with the holder [h]. *)
Record mutex_is (Q : Queue_t) (h : option Z) (n : Z) : Prop := {
  mx_null : pcHead_NULL Q = true;
  mx_union : q_u Q = xSemaphore h n;
  mx_size : uxItemSize Q = 0;
  mx_length : uxLength Q = 1;
  mx_waiting : uxMessagesWaiting Q = free_count h;
}.
Lemma holder_mutex s N q h : all_ok N s -> holders s !! q = Some h -> exists Q n, queues s !! q = Some Q /\ mutex_is Q h n.
Proof.
  intros A. unfold holders. rewrite lookup_omap. destruct (queues s !! q) as [Q|] eqn:Hq; [|done]. cbn. unfold holder.
  destruct (pcHead_NULL Q) eqn:Hm; [|done]. destruct (A q Q Hq) as [Hok _]. destruct (qo_mutex _ Hok Hm) as (Hz & Hl & h' & n & Hu & Hw).
  rewrite Hu. intros [= ->]. by exists Q, n.
Qed.
Lemma mutex_contents Q h n : mutex_is Q h n -> contents Q = match h with Some _ => [] | None => [[]] end.
Proof. intros []. rewrite contents_zero, mx_waiting0 by done. by destruct h. Qed.

Lemma wait_part_returns isr blocked inherit e s q to n inh s' r : wait_part isr blocked inherit e s q to n inh <> Ok (s', Return r).
Proof. unfold wait_part. intros E. by ok_inv. Qed.

Section locks.
Context {stc : Strict} {pt : Patient} (N : Z) (HN : N <= 127) (idle : Z) (T : Z -> Prop).

(** The state after a step that leaves the mutexes with the holders [h]. *)
Record lstepped (s : sys) (h : gmap Z (option Z)) (s' : sys) : Prop := {
  ls_inv : sinv N idle s';
  ls_types : qtypes s' = qtypes s;
  ls_evolves : evolves s s';
  ls_holders : holders s' = h;
  ls_typed : typed T (held_by h) (kern s');
}.
Lemma lstepped_same s s' : stepped N idle s s' -> typed T (held_by (holders s)) (kern s') -> lstepped s (holders s) s'.
Proof. intros (S' & T' & V' & H') K. by split. Qed.

Lemma lstepped_put s k q Q Q' h h' n n' o :
  sinv N idle s -> queues s !! q = Some Q -> mutex_is Q h n -> mutex_is Q' h' n' -> storage Q' = storage Q -> cRxLock Q' = cRxLock Q -> cTxLock Q' = cTxLock Q ->
  inv idle k -> uxCurrentNumberOfTasks k = N -> typed T (held_by (<[q := h']> (holders s))) k ->
  apply_outcome (view s) o = Some (<[q := (1, contents Q')]> (view s)) ->
  lstepped s (<[q := h']> (holders s)) (record (put_queue (put_kern s k) q Q') o).
Proof.
  intros [I A U HNt] Hq [] [] Est Erx Etx Ik Hn K Ho. destruct (A q Q Hq) as [Hok Hl]. destruct (U q Q Hq) as [Hur Hut]. split; [split|..]; try done.
  - intros q0 Q0. cbn. destruct (decide (q = q0)) as [<-|]; [rewrite lookup_insert_eq|rewrite lookup_insert_ne by done; apply A]. intros [= <-].
    split; [|unfold locks_ok; by rewrite Erx, Etx]. destruct Hok. split; rewrite ?mx_length1, ?mx_size1, ?mx_waiting1; try congruence; try lia.
    + destruct h'; cbn; lia.
    + intros _. split; [done|]. split; [done|]. by exists h', n'.
  - intros q0 Q0. cbn. destruct (decide (q = q0)) as [<-|]; [rewrite lookup_insert_eq|rewrite lookup_insert_ne by done; apply U]. intros [= <-].
    split; congruence.
  - unfold qtypes. cbn. rewrite fmap_insert, mx_length1, mx_size1, mx_null1. apply insert_id. by rewrite lookup_fmap, Hq; cbn; rewrite mx_length0, mx_size0, mx_null0.
  - exists [o]. split; [done|]. cbn [apply_outcomes]. rewrite Ho. unfold view. cbn. by rewrite fmap_insert, mx_length1.
  - unfold holders. cbn. apply map_eq. intros q0. rewrite lookup_omap. destruct (decide (q = q0)) as [<-|].
    + rewrite !lookup_insert_eq. cbn. unfold holder. by rewrite mx_null1, mx_union1.
    + by rewrite !lookup_insert_ne, lookup_omap by done.
Qed.
Lemma waking_ok k e :
  inv idle k -> uxCurrentNumberOfTasks k = N -> exists k', wake_and_yield k e = Ok k' /\ inv idle k' /\ uxCurrentNumberOfTasks k' = N.
Proof.
  intros I Hn. rewrite wake_signal. destruct (interrupt_inv idle k (Signal e) I) as (k' & E & I'). exists k'. split_and!; try done.
  by rewrite (sy_number _ _ (interrupt_steady _ _ _ E)).
Qed.
(** Who holds the mutexes when the call of [c] has come to [p']. *)
Definition new_holders (h : gmap Z (option Z)) (c : Z) (o : operation) (q : Z) (p' : progress) : gmap Z (option Z) :=
  match o, p' with
  | xQueueGenericSend _ _, Return (Some _) => <[q := None]> h
  | xQueueSemaphoreTake, Return (Some _) => <[q := Some c]> h
  | _, _ => h
  end.
Lemma new_holders_cannot h c q k to n inh : new_holders h c xQueueSemaphoreTake q (cannot_now k to n inh) = h.
Proof. unfold cannot_now. by destruct (n =? 0). Qed.

Lemma take_lock_ok isr s q to n inh c h :
  sinv N idle s -> pxCurrentTCB (kern s) = Some c -> holders s !! q = Some h -> Z.of_nat (size (holders s)) < 2 ^ 32 ->
  typed T (held_by (holders s)) (kern s) -> progress_ok true (Try to n inh) ->
  exists s' p', step_call isr xQueueSemaphoreTake s q (Try to n inh) = Ok (s', p') /\
    lstepped s (new_holders (holders s) c xQueueSemaphoreTake q p') s' /\ progress_ok true p' /\
    forall b, p' = Return (Some b) -> holders s !! q = Some None.
Proof.
  intros S Hc Hh Hsz K Hp. destruct (holder_mutex s N q h (si_queues _ _ _ S) Hh) as (Q & r & Hq & M). pose proof M as [].
  unfold step_call. cbn [step_operation]. unfold xQueueSemaphoreTake_try, get_queue. rewrite Hq. cbn [res_bind]. rewrite mx_waiting0. destruct h as [t|]; cbn [free_count Z.ltb Z.compare].
  - assert (apply_outcome (view s) (WasEmpty q) = Some (view s)) as Ho.
    { apply (empty_outcome s q Q); [done|by apply (si_queues _ _ _ S q)|by rewrite mx_waiting0]. }
    destruct (cannot_ok N idle true s to n inh (WasEmpty q) S Hp Ho) as [St Po]. cbn [res_bind]. eexists _, _. split; [done|]. split; [|split; [done|by unfold cannot_now; destruct (n =? 0)]].
    rewrite new_holders_cannot. apply lstepped_same; [|by rewrite kern_record]. revert St. unfold cannot_now. by destruct (n =? 0).
  - rsimpl. rewrite mx_null0. unfold pvTaskIncrementMutexHeldCount, set_holder, uxRecursiveCallCount. rewrite Hc. rsimpl. rewrite mx_union0. cbn [res_bind].
    pose proof (typed_set_held T _ _ c (u32 (uxMutexesHeld (tcb (kern s) c) + 1)) K) as K1. destruct S as [I A U Hn].
    assert (inv idle (set_mutexes_held (kern s) c (u32 (uxMutexesHeld (tcb (kern s) c) + 1)))) as I1 by (by apply inv_put_tcb).
    set (k1 := set_mutexes_held _ _ _) in *. assert (uxCurrentNumberOfTasks k1 = N) as Hn1 by exact Hn. clearbody k1.
    destruct (waking_ok k1 (to_send q) I1 Hn1) as (k2 & E2 & I2 & Hn2). rewrite E2. cbn [res_bind]. eexists _, _. split; [done|]. split; [|done].
    cbn [finish foldl new_holders]. apply (lstepped_put s k2 q Q _ None (Some c) r r); try done.
    + eapply typed_ext; [|by eapply typed_wake]. intros t. cbn. rewrite (held_take _ _ _ _ Hh), (ty_held _ _ _ K). destruct (decide (c = t)) as [<-|]; [|done].
      pose proof (held_free _ _ c Hh). apply (u_small 32). unfold is_u. lia.
    + cbn. rewrite (view_queue _ _ _ Hq), mx_length0, (mutex_contents _ _ _ M). cbn. rewrite decide_True by done. rewrite contents_zero by done. done.
Qed.
Lemma give_lock_ok isr s q to n inh c :
  ~ strict -> sinv N idle s -> xPendSV (kern s) = false -> pxCurrentTCB (kern s) = Some c -> holders s !! q = Some (Some c) ->
  Z.of_nat (size (holders s)) < 2 ^ 32 -> typed T (held_by (holders s)) (kern s) ->
  exists s', step_call isr (xQueueGenericSend None queueSEND_TO_BACK) s q (Try to n inh) = Ok (s', Return (Some [])) /\
    lstepped s (<[q := None]> (holders s)) s'.
Proof.
  intros Hstrict S Hp Hc Hh Hsz K. destruct (holder_mutex s N q _ (si_queues _ _ _ S) Hh) as (Q & r & Hq & M). pose proof M as []. cbn in mx_waiting0.
  pose proof (held_pos _ _ _ Hh) as Hpos. destruct S as [I A U Hn]. unfold step_call. cbn [step_operation]. unfold xQueueGenericSend_try, get_queue. rewrite Hq. cbn [res_bind].
  rewrite mx_waiting0, mx_length0. cbn [Z.ltb Z.compare orb]. unfold prvCopyDataToQueue, xMutexHolder, set_holder, uxRecursiveCallCount.
  rewrite mx_size0, mx_null0, mx_union0, mx_waiting0. cbn [Z.eqb res_bind].
  destruct (disinherit_ok idle (kern s) c I Hp Hc) as (k1 & b & E1 & I1b & I1); [rewrite (ty_held _ _ _ K); lia|]. specialize (I1 Hstrict). rewrite E1. cbn [res_bind].
  assert (uxCurrentNumberOfTasks k1 = N) as Hn1 by (apply sig_disinherit in E1; injection E1; congruence).
  assert (typed T (held_by (<[q := None]> (holders s))) k1) as K1.
  { eapply typed_ext; [|by eapply typed_disinherit]. intros t. cbn. rewrite (held_give _ _ _ _ Hh). destruct (decide (c = t)) as [<-|]; [|done].
    apply (u_small 32). unfold is_u. unfold held_by in *. pose proof (map_subseteq_size _ _ (map_filter_subseteq (fun x : Z * option Z => x.2 = Some c) (holders s))). lia. }
  assert (exists k2, (if negb (listLIST_IS_EMPTY k1 (EventList (to_receive q))) then wake_and_yield k1 (to_receive q) else Ok (if b then portYIELD k1 else k1)) = Ok k2 /\
    inv idle k2 /\ uxCurrentNumberOfTasks k2 = N /\ typed T (held_by (<[q := None]> (holders s))) k2) as (k2 & -> & I2 & Hn2 & K2).
  { destruct (listLIST_IS_EMPTY k1 _); cbn [negb].
    - eexists. split; [done|]. split; [done|]. split; [by destruct b|]. destruct b; [typed_goal|done].
    - destruct (waking_ok k1 (to_receive q) I1 Hn1) as (k2 & E2 & I2 & Hn2). exists k2. split_and!; try done. by eapply typed_wake. }
  cbn [res_bind]. eexists. split; [done|]. cbn [finish foldl default]. apply (lstepped_put s k2 q Q _ (Some c) None r r); try done.
  cbn. rewrite (view_queue _ _ _ Hq), mx_length0, (mutex_contents _ _ _ M). cbn. by rewrite contents_zero.
Qed.

Lemma give_up_ok s q c h :
  ~ strict -> sinv N idle s -> pxCurrentTCB (kern s) = Some c -> holders s !! q = Some h -> h <> Some c -> typed T (held_by (holders s)) (kern s) ->
  exists s', give_up_mutex s q = Ok s' /\ lstepped s (holders s) s'.
Proof.
  intros Hstrict S Hc Hh Hne K. destruct (holder_mutex s N q h (si_queues _ _ _ S) Hh) as (Q & r & Hq & []). unfold give_up_mutex, get_queue, xMutexHolder.
  rewrite Hq. cbn [res_bind]. rewrite mx_union0. cbn [res_bind]. set (p := prvGetDisinheritPriorityAfterTimeout (kern s) q).
  assert (p < configMAX_PRIORITIES) as Hp.
  { unfold p, prvGetDisinheritPriorityAfterTimeout, seq_head. destruct (on (kst (kern s)) (EventList (to_receive q))) as [|i l] eqn:Eo; [done|]. cbn.
    assert (i ∈ tasks_on (kern s) (EventList (to_receive q))) as Hi by (unfold tasks_on; rewrite Eo; by left).
    pose proof (ty_on _ _ _ K _ _ Hi) as Hti. pose proof (inv_wf _ _ (si_kern _ _ _ S)) as W. apply (tasks_on_iff _ _ _ _ _ W) in Hi.
    destruct i as [t|t]; [by apply (wf_state _ _ _ W) in Hi|]. pose proof (ty_event _ _ _ K t Hti). unfold configMAX_PRIORITIES in *.
    rewrite (u_small 32) by (unfold is_u; lia). lia. }
  clearbody p. assert (exists k', vTaskPriorityDisinheritAfterTimeout (kern s) h p = Ok k' /\ inv idle k') as (k' & E & I').
  { destruct h as [t|]; [|exists (kern s); by split; [|apply S]]. apply (disinherit_timeout_ok idle (kern s) c t p); try done; [apply S|congruence|].
    rewrite (ty_held _ _ _ K). pose proof (held_pos _ _ _ Hh). lia. }
  rewrite E. cbn [res_bind]. eexists. split; [done|]. apply lstepped_same; [|by eapply typed_disinherit_timeout]. apply stepped_istep; try done; [apply istep_kern, S|].
  apply sig_disinherit_timeout in E. injection E as En _ _ _. cbn. rewrite En. apply S.
Qed.

Lemma mutex_inherits q inh c s h : holders s !! q = Some h -> inherits N true idle c s (mutex_inherit q inh).
Proof.
  intros Hh s1 R I. rewrite <- (qs_holders _ _ _ (rg_step _ _ _ _ _ R)) in Hh.
  destruct (holder_mutex s1 N q h (qs_ok _ _ _ (rg_step _ _ _ _ _ R)) Hh) as (Q & r & Hq & []). unfold mutex_inherit, get_queue, xMutexHolder.
  rewrite Hq. cbn [res_bind]. rewrite mx_null0, mx_union0. cbn [res_bind]. destruct h as [t|]; [|by exists (kern s1), false].
  destruct (inherit_inv idle (kern s1) t c I) as (k & b & E & I' & _); [apply R|]. rewrite E. cbn [res_bind]. exists k, b. split_and!; try done.
  by apply sig_inherit in E.
Qed.
Lemma expired_lock_ok isr s q to n inh c h :
  sinv N idle s -> holders s !! q = Some h -> typed T (held_by (holders s)) (kern s) -> progress_ok true (Expired to n inh) ->
  exists s' p', step_call isr xQueueSemaphoreTake s q (Expired to n inh) = Ok (s', p') /\
    lstepped s (new_holders (holders s) c xQueueSemaphoreTake q p') s' /\ progress_ok true p' /\
    forall b, p' = Return (Some b) -> holders s !! q = Some None.
Proof.
  intros S Hh K Hp. destruct (holder_mutex s N q h (si_queues _ _ _ S) Hh) as (Q & r & Hq & M). pose proof (mx_waiting _ _ _ M) as Hw.
  unfold step_call. cbn [step_operation]. unfold xQueueSemaphoreTake_expired, get_queue, prvIsQueueEmpty. rewrite Hq. cbn [res_bind]. rewrite Hw.
  assert (forall p, new_holders (holders s) c xQueueSemaphoreTake q p = holders s -> lstepped s (new_holders (holders s) c xQueueSemaphoreTake q p) s) as Hsame.
  { intros p ->. apply lstepped_same; [by apply stepped_refl|done]. }
  destruct h; cbn [free_count Z.eqb]; [destruct inh|]; (eexists _, _; split; [done|]; split; [|done]); try (by apply Hsame).
  apply lstepped_same; [|done]. apply stepped_same; [done|]. apply (empty_outcome s q Q); [done|by apply (si_queues _ _ _ S q)|by rewrite Hw].
Qed.
Lemma block_lock_ok ints s q to n inh c h :
  sinv N idle s -> xPendSV (kern s) = false -> uxSchedulerSuspended (kern s) = 0 -> pxCurrentTCB (kern s) = Some c -> c <> idle ->
  holders s !! q = Some h -> typed T (held_by (holders s)) (kern s) -> progress_ok true (Block to n inh) -> ints_ok s ints ->
  exists s' p', step_call (fun n => run_qints (ints n)) xQueueSemaphoreTake s q (Block to n inh) = Ok (s', p') /\
    lstepped s (new_holders (holders s) c xQueueSemaphoreTake q p') s' /\ progress_ok true p' /\
    forall b, p' = Return (Some b) -> holders s !! q = Some None.
Proof.
  intros S Hp Hs Hc Hne Hh K [Hn _] Hi. destruct (holder_mutex s N q h (si_queues _ _ _ S) Hh) as (Q & r & Hq & _).
  destruct (wait_part_ok N HN true idle c s q (to_receive q) to n inh ints prvIsQueueEmpty (mutex_inherit q inh) Q) as (s' & p & E & St & Po); try done.
  { by apply (mutex_inherits q inh c s h). }
  unfold step_call. cbn [step_operation]. unfold xQueueSemaphoreTake_wait. pose proof E as E'. rewrite E'. cbn [res_bind]. eexists _, _. split; [done|].
  assert (typed T (held_by (holders s)) (kern s')) as K'.
  { destruct (tstep_block T (held_by (holders s)) ints xQueueSemaphoreTake s q to n inh s' p Hi E) as [_ Ht]. auto. }
  assert (finish xQueueSemaphoreTake q (Block to n inh) p = []) as -> by (by destruct p as [| | | |[|]]).
  destruct p as [| | | |r']; try (by split; [apply lstepped_same|]). by destruct (wait_part_returns _ _ _ _ _ _ _ _ _ _ _ E).
Qed.

(** What a task may ask of a mutex, [h] being the holders: to give it back when it
    holds it, to take it when it does not. *)
Definition lock_call (h : gmap Z (option Z)) (t : Z) (o : operation) (q : Z) : Prop :=
  match o with
  | xQueueGenericSend item pos => item = None /\ pos = queueSEND_TO_BACK /\ h !! q = Some (Some t)
  | xQueueSemaphoreTake => exists x, h !! q = Some x /\ x <> Some t
  | _ => False
  end.
(** Where a call on a mutex can be: a give is over at once. *)
Definition lock_progress (o : operation) (p : progress) : Prop :=
  match o with
  | xQueueGenericSend _ _ => exists n, p = Try None n false /\ 0 <= n < 2 ^ 32
  | _ => progress_ok true p
  end.
Lemma lock_step_ok o s q p c ints :
  ~ strict -> sinv N idle s -> xPendSV (kern s) = false -> pxCurrentTCB (kern s) = Some c -> lock_call (holders s) c o q -> lock_progress o p ->
  (forall r, p <> Return r) -> polling p \/ uxSchedulerSuspended (kern s) = 0 /\ c <> idle -> ints_ok s ints ->
  Z.of_nat (size (holders s)) < 2 ^ 32 -> typed T (held_by (holders s)) (kern s) ->
  exists s' p', step_call (fun n => run_qints (ints n)) o s q p = Ok (s', p') /\ lstepped s (new_holders (holders s) c o q p') s' /\
    ((forall r, p' <> Return r) -> lock_progress o p') /\
    (o = xQueueSemaphoreTake -> forall b, p' = Return (Some b) -> holders s !! q = Some None).
Proof.
  intros Hstrict S Hp Hc Ho Hpr Hnr Hpoll Hi Hsz K. destruct o as [item pos| | |]; try done.
  - destruct Ho as (-> & -> & Hh), Hpr as (n & -> & _).
    destruct (give_lock_ok (fun n => run_qints (ints n)) s q None n false c) as (s' & E & L); try done. exists s', (Return (Some [])).
    split_and!; try done. intros Hr. by destruct (Hr (Some [])).
  - destruct Ho as (h & Hh & Hne). destruct p as [to n inh|to n inh|to n inh| |r].
    + destruct (take_lock_ok (fun n => run_qints (ints n)) s q to n inh c h) as (s' & p' & E & L & Po & Hfree); try done. exists s', p'. by split_and!.
    + destruct Hpoll as [|[Hs Hid]]; [done|]. destruct (block_lock_ok ints s q to n inh c h) as (s' & p' & E & L & Po & Hfree); try done. exists s', p'. by split_and!.
    + destruct (expired_lock_ok (fun n => run_qints (ints n)) s q to n inh c h) as (s' & p' & E & L & Po & Hfree); try done. exists s', p'. by split_and!.
    + destruct (give_up_ok s q c h) as (s' & E & L); try done. unfold step_call. cbn [step_operation]. rewrite E. cbn [res_bind].
      exists s', (Return None). split_and!; try done.
    + by destruct (Hnr r).
Qed.
End locks.
End RtosLock.
