(* ===== verification/RtosMachine.v ===== *)
(** * Programs that use queues, semaphores and mutexes

    The machine of tasks, interrupts and queues: the running task starts a call on a
    queue, continues the one it is in or calls the kernel; interrupts come between
    the steps and inside those that run with the scheduler suspended. *)

From S2P Require Import Prelude RtosList RtosHeap RtosSeq RtosSched RtosSchedInv RtosTick RtosSchedProps RtosRun RtosSteady RtosTyped RtosBoot.
From S2P Require Import RtosQueue RtosQueueData RtosQueueSys RtosQueueRun RtosLock.
From stdpp Require Import list.
#[local] Set Warnings "-clear-no-such-hyp".
#[local] Open Scope Z_scope.

Module RtosMachine.
Export RtosLock.

(** ** The machine *)

(** Mutexes that were taken and given back: the calls that returned, oldest first. *)
Inductive lock_event :=
  | Took (t q : Z)
  | Gave (t q : Z).
(** The tasks that took a mutex and have not given it back, by mutex. *)
Definition owned (l : list lock_event) : gmap Z Z :=
  foldl (fun h e => match e with Took t q => <[q := t]> h | Gave t q => delete q h end) ∅ l.

Lemma owned_snoc l e : owned (l ++ [e]) = match e with Took t q => <[q := t]> (owned l) | Gave t q => delete q (owned l) end.
Proof. unfold owned. by rewrite foldl_app. Qed.
(** Taken when free, given back by the task that took it. *)
Inductive log_ok : list lock_event -> Prop :=
  | log_nil : log_ok []
  | log_took l t q : log_ok l -> owned l !! q = None -> log_ok (l ++ [Took t q])
  | log_gave l t q : log_ok l -> owned l !! q = Some t -> log_ok (l ++ [Gave t q]).
Lemma log_inv l e : log_ok (l ++ [e]) -> log_ok l /\ match e with Took t q => owned l !! q = None | Gave t q => owned l !! q = Some t end.
Proof.
  intros H. inversion H as [E|l' t q Hl Ho E|l' t q Hl Ho E]; [by destruct l|..]; by apply app_inj_tail in E as [-> <-].
Qed.
(** A mutex is the task's until the task gives it back. *)
Lemma log_between l1 t q l2 :
  log_ok (l1 ++ Took t q :: l2) -> owned (l1 ++ Took t q :: l2) !! q = Some t \/ In (Gave t q) l2.
Proof.
  induction l2 as [|e l2 IH] using rev_ind; [rewrite owned_snoc, lookup_insert_eq; by left|].
  rewrite app_comm_cons, app_assoc. intros [Hl He]%log_inv. rewrite owned_snoc, in_app_iff. destruct (IH Hl) as [Ho|]; [|by right; left].
  destruct e as [t' q'|t' q']; destruct (decide (q' = q)) as [->|Hne].
  - congruence.
  - left. by rewrite lookup_insert_ne.
  - right. right. left. congruence.
  - left. by rewrite lookup_delete_ne.
Qed.

Lemma log_app l l' : log_ok (l ++ l') -> log_ok l.
Proof. induction l' as [|e l' IH] using rev_ind; [by rewrite app_nil_r|]. rewrite app_assoc. intros [Hl _]%log_inv. auto. Qed.
Lemma log_excludes l1 t q l2 u l3 : log_ok (l1 ++ Took t q :: l2 ++ Took u q :: l3) -> In (Gave t q) l2.
Proof.
  intros H. replace (l1 ++ Took t q :: l2 ++ Took u q :: l3) with (((l1 ++ Took t q :: l2) ++ [Took u q]) ++ l3) in H by (by rewrite <- !app_assoc).
  apply log_app, log_inv in H as [H Ho]. destruct (log_between _ _ _ _ H) as [E|]; [congruence|done].
Qed.

(** The tasks that are in a call on a queue, and where. *)
Record machine := mkMachine { msys : sys; in_call : gmap Z (operation * Z * progress); lock_log : list lock_event }.
#[global] Instance eta_machine : Eta machine := fun m => mkMachine (msys m) (in_call m) (lock_log m).

Inductive qevent :=
  | QInterrupt (i : qint)
  | QKernel (c : call)
  | QStart (o : operation) (q xTicksToWait : Z)
  | QStep (ints : nat -> list qint).

Definition set_progress (m : machine) (t : Z) (o : operation) (q : Z) (p : progress) : gmap Z (operation * Z * progress) :=
  match p with Return _ => delete t (in_call m) | _ => <[t := (o, q, p)]> (in_call m) end.
(** What the call of [t] adds to the log when it has come to [p]. *)
Definition logged (s : sys) (t : Z) (o : operation) (q : Z) (p : progress) : list lock_event :=
  match qtypes s !! q, o, p with
  | Some (_, _, true), xQueueGenericSend _ _, Return (Some _) => [Gave t q]
  | Some (_, _, true), xQueueSemaphoreTake, Return (Some _) => [Took t q]
  | _, _, _ => []
  end.
Definition run_qevent (m : machine) (e : qevent) : res machine :=
  match e with
  | QInterrupt i => let! s := run_qint (msys m) i in Ok (m <| msys := s |>)
  | QKernel c => let! k := run_call (kern (msys m)) c in Ok (m <| msys := put_kern (msys m) k |>)
  | QStart o q n =>
      let! t := current (kern (msys m)) in
      let! p := start_operation o (msys m) q n in
      Ok (m <| in_call := set_progress m t o q p |>)
  | QStep ints =>
      let! t := current (kern (msys m)) in
      match in_call m !! t with
      | None => Ok m
      | Some (o, q, p) =>
          let! '(s, p) := step_call (fun n => run_qints (ints n)) o (msys m) q p in
          Ok (mkMachine s (set_progress m t o q p) (lock_log m ++ logged s t o q p))
      end
  end.

(** What a task may ask of a mutex: to give it back when it has taken it, to take it
    when it has not. *)
Definition lock_may (T : gmap Z (Z * Z * bool)) (own : gmap Z Z) (t : Z) (o : operation) (q : Z) : Prop :=
  (exists len size, T !! q = Some (len, size, true)) /\
  match o with
  | xQueueGenericSend item pos => item = None /\ pos = queueSEND_TO_BACK /\ own !! q = Some t
  | xQueueSemaphoreTake => own !! q <> Some t
  | _ => False
  end.
(** A task calls one function at a time, blocks neither with the scheduler suspended
    nor as the idle task, and asks of a queue what the queue can do. *)
Definition qenabled (idle : Z) (m : machine) (e : qevent) : Prop :=
  let s := msys m in
  let free := xPendSV (kern s) = false /\ forall t, pxCurrentTCB (kern s) = Some t -> in_call m !! t = None in
  match e with
  | QInterrupt i => int_ok (qtypes s) i
  | QKernel c => free /\ may_call idle (kern s) c /\ of_mutex c = false
  | QStart o q n => free /\ 0 <= n < 2 ^ 32 /\
      (forall t, pxCurrentTCB (kern s) = Some t -> op_ok (qtypes s) o q \/ lock_may (qtypes s) (owned (lock_log m)) t o q) /\
      (n <> 0 -> uxSchedulerSuspended (kern s) = 0 /\ pxCurrentTCB (kern s) <> Some idle)
  | QStep ints => xPendSV (kern s) = false /\ ints_ok s ints
  end.

(** A call in progress: on a queue or semaphore, or on a mutex. *)
Definition call_ok (s : sys) (t : Z) (o : operation) (q : Z) (p : progress) : Prop :=
  op_ok (qtypes s) o q /\ progress_ok false p \/ lock_call (holders s) t o q /\ lock_progress o p.
Record minv {stc : Strict} {pt : Patient} (N idle : Z) (T : Z -> Prop) (m : machine) : Prop := {
  mi_sys : sinv N idle (msys m);
  mi_typed : typed T (held_by (holders (msys m))) (kern (msys m));
  mi_size : Z.of_nat (size (holders (msys m))) < 2 ^ 32;
  mi_strict : strict -> holders (msys m) = ∅;
  mi_log : log_ok (lock_log m);
  mi_owned q t : owned (lock_log m) !! q = Some t <-> holders (msys m) !! q = Some (Some t);
  mi_call t o q p : in_call m !! t = Some (o, q, p) -> call_ok (msys m) t o q p /\ forall r, p <> Return r;
  mi_polling t o q p : in_call m !! t = Some (o, q, p) ->
    t = idle \/ uxSchedulerSuspended (kern (msys m)) <> 0 /\ pxCurrentTCB (kern (msys m)) = Some t -> polling p;
}.

Lemma polling_returns isr o s q p s' p' :
  polling p -> step_call isr o s q p = Ok (s', p') -> exists r, p' = Return r.
Proof.
  intros -> H. unfold step_call in H. apply res_bind_ok in H as ([s1 p1] & H & E). apply ok_inj, pair_equal_spec in E as [_ <-].
  destruct o; cbn [step_operation] in H; unfold xQueueGenericSend_try, xQueueReceive_try, xQueuePeek_try, xQueueSemaphoreTake_try in H;
    ok_inv; cbn; eauto.
Qed.

Section machine.
Context {stc : Strict} {pt : Patient} (N : Z) (HN : N <= 127) (idle : Z) (T : Z -> Prop).
Abbreviation inv_m := (minv N idle T).

Lemma set_progress_lookup m t o q p t' x :
  set_progress m t o q p !! t' = Some x -> t' = t /\ x = (o, q, p) /\ (forall r, p <> Return r) \/ t' <> t /\ in_call m !! t' = Some x.
Proof.
  destruct (decide (t' = t)) as [->|Hne].
  - destruct p; cbn; rewrite ?lookup_insert_eq, ?lookup_delete_eq; intros [=<-]; by left.
  - assert (set_progress m t o q p !! t' = in_call m !! t') as -> by (destruct p; cbn; rewrite ?lookup_insert_ne, ?lookup_delete_ne; done).
    by right.
Qed.
Lemma set_progress_other m t o q p t' : t <> t' -> set_progress m t o q p !! t' = in_call m !! t'.
Proof. intros Hne. destruct p; cbn; by rewrite ?lookup_insert_ne, ?lookup_delete_ne by done. Qed.

(** The machine goes on: an event has the state [m'] after it. *)
Record goes_on (m m' : machine) : Prop := {
  go_inv : inv_m m';
  go_evolves : evolves (msys m) (msys m');
  go_types : qtypes (msys m') = qtypes (msys m);
}.
(** Steps that leave the calls and the mutexes alone. *)
Lemma minv_same m s' :
  inv_m m -> sinv N idle s' -> typed T (held_by (holders (msys m))) (kern s') -> qtypes s' = qtypes (msys m) -> holders s' = holders (msys m) ->
  (forall t o q p, in_call m !! t = Some (o, q, p) -> uxSchedulerSuspended (kern s') <> 0 /\ pxCurrentTCB (kern s') = Some t -> polling p) ->
  inv_m (m <| msys := s' |>).
Proof.
  intros [S K Z' St L O C P] S' K' T' H' P'. split; cbn; rewrite ?H'; try done.
  - intros t o q p Hin. unfold call_ok. rewrite T', H'. by apply C.
  - intros t o q p Hin [->|Hs]; [apply (P idle o q p Hin); by left|by apply (P' t o q p)].
Qed.

Lemma interrupt_minv m i :
  inv_m m -> qenabled idle m (QInterrupt i) -> exists m', run_qevent m (QInterrupt i) = Ok m' /\ goes_on m m'.
Proof.
  intros M Hi. cbn [run_qevent]. destruct (mi_sys _ _ _ _ M) as [I A U Hn].
  destruct (qint_ok N HN (inv idle) (msys m) i A Hn Hi I) as (s' & E & I' & Q); [intros j; by apply interrupt_inv|].
  pose proof (qint_steady _ _ _ E) as St. pose proof (tstep_qint T (held_by (holders (msys m))) _ _ _ Hi E) as [_ Ht]. rewrite E. cbn [res_bind].
  eexists. split; [done|]. split; [|apply Q..]. apply minv_same; [done| |apply Ht, M|apply Q..|].
  - split; [done|apply Q|by apply (all_istep _ _ _ Q)|]. by rewrite (sy_number _ _ St).
  - intros t o q p Hin [Hs Hc]. apply (mi_polling _ _ _ _ M t o q p Hin). right. rewrite (sy_suspended _ _ St) in Hs.
    rewrite (sy_current _ _ St Hs) in Hc. done.
Qed.

Lemma kernel_minv m c :
  inv_m m -> qenabled idle m (QKernel c) -> spares c -> exists m', run_qevent m (QKernel c) = Ok m' /\ goes_on m m'.
Proof.
  intros M ([Hp Hf] & Hc & Hm) Hsp. cbn [run_qevent]. destruct (mi_sys _ _ _ _ M) as [I A U Hn].
  destruct (call_inv idle (kern (msys m)) c I Hp Hc) as (k' & E & I'); [by destruct c|]. pose proof (call_kept _ _ _ _ I Hc E) as [Kn Kc].
  pose proof (typed_run_call _ _ _ _ _ _ E Hc Hm Hsp (mi_typed _ _ _ _ M)) as K'. rewrite E. cbn [res_bind].
  eexists. split; [done|]. split; [|by apply evolves_same|done]. apply minv_same; try done; [split; [done|done|done|cbn; congruence]|].
  cbn. intros t o q p Ht [_ Hcur]. rewrite Kc in Hcur. by rewrite (Hf t Hcur) in Ht.
Qed.

Lemma type_holder s q len size : all_ok N s -> qtypes s !! q = Some (len, size, true) -> exists h, holders s !! q = Some h.
Proof.
  intros A HT. destruct (qtype_queue _ _ _ _ _ HT) as (Q & Hq & _ & _ & Hm). destruct (A q Q Hq) as [Hok _].
  destruct (qo_mutex _ Hok Hm) as (_ & _ & h & n & Hu & _). exists h. unfold holders. rewrite lookup_omap, Hq. cbn. unfold holder. by rewrite Hm, Hu.
Qed.
Lemma may_lock_ok m t o q : inv_m m -> lock_may (qtypes (msys m)) (owned (lock_log m)) t o q -> lock_call (holders (msys m)) t o q.
Proof.
  intros M [(len & size & HT) Ho]. destruct (type_holder _ _ _ _ (si_queues _ _ _ (mi_sys _ _ _ _ M)) HT) as (h & Hh). destruct o; try done; cbn in *.
  - destruct Ho as (-> & -> & Ho). split_and!; try done. by apply (mi_owned _ _ _ _ M).
  - exists h. split; [done|]. intros ->. apply Ho. by apply (mi_owned _ _ _ _ M).
Qed.
Lemma start_ok o s q n t :
  sinv N idle s -> op_ok (qtypes s) o q \/ lock_call (holders s) t o q -> (n <> 0 -> uxSchedulerSuspended (kern s) = 0) ->
  start_operation o s q n = Ok (Try None n false).
Proof.
  intros [I A U Hn] Ho Hs. assert (negb (xTaskGetSchedulerState_suspended (kern s) && negb (n =? 0)) = true) as Hsus.
  { destruct (Z.eqb_spec n 0); [by rewrite andb_false_r|]. unfold xTaskGetSchedulerState_suspended. rewrite Hs by done. by rewrite andb_false_r. }
  destruct Ho as [Ho|Ho].
  - destruct o; destruct Ho as (len & HT); try destruct HT as (size & HT).
    1: destruct HT as [HT Hi].
    all: destruct (qtype_queue _ _ _ _ _ HT) as (Q & Hq & El & Ez & _); cbn [start_operation];
      unfold xQueueGenericSend_start, xQueueReceive_start, xQueueSemaphoreTake_start, get_queue; rewrite Hq; cbn [res_bind].
    + subst. destruct (item_asserts _ _ _ _ Hi) as [-> ->]. cbn [assert res_bind]. by rewrite Hsus.
    + by rewrite Hsus.
    + by rewrite Hsus.
    + rewrite Ez. cbn. by rewrite Hsus.
  - assert (exists h, holders s !! q = Some h) as [h Hh] by (destruct o; try done; [destruct Ho as (_ & _ & ?)|destruct Ho as (h & ? & _)]; by eexists).
    destruct (holder_mutex s N q h A Hh) as (Q & r & Hq & []). destruct o; try done; cbn [start_operation];
      unfold xQueueGenericSend_start, xQueueSemaphoreTake_start, get_queue; rewrite Hq; cbn [res_bind]; rewrite mx_size0.
    + destruct Ho as (-> & -> & _). cbn. by rewrite Hsus.
    + cbn. by rewrite Hsus.
Qed.
Lemma start_minv m o q n :
  inv_m m -> qenabled idle m (QStart o q n) -> exists m', run_qevent m (QStart o q n) = Ok m' /\ goes_on m m'.
Proof.
  intros M ((Hp & Hf) & Hn & Ho & Hb). pose proof M as [S K Z' St L O C P]. cbn [run_qevent]. destruct (inv_current _ _ (si_kern _ _ _ S)) as (c & Hc). unfold current.
  rewrite Hc. cbn [res_bind]. assert (op_ok (qtypes (msys m)) o q \/ lock_call (holders (msys m)) c o q) as Ho'.
  { destruct (Ho c Hc) as [?|Hl]; [by left|right]. by apply may_lock_ok. }
  rewrite (start_ok o (msys m) q n c S Ho') by (intros; by apply Hb). cbn [res_bind].
  eexists. split; [done|]. split; [|by apply evolves_same|done]. split; cbn -[set_progress]; try done.
  - intros t o' q' p' [(-> & [= -> -> ->] & _)|(Hne & Ht)]%set_progress_lookup; [|by apply (C t)]. split; [|done].
    destruct Ho' as [?|Hl]; [by left|right]. split; [done|]. destruct o; try done. by exists n.
  - intros t o' q' p' [(-> & [= -> -> ->] & _)|(Hne & Ht)]%set_progress_lookup Hor; [|by apply (P t o' q' p' Ht)].
    destruct (decide (n = 0)) as [->|Hn0]; [done|]. destruct (Hb Hn0) as [Hs Hi]. destruct Hor as [->|[? _]]; done.
Qed.
Lemma step_polling m c o q p :
  inv_m m -> pxCurrentTCB (kern (msys m)) = Some c -> in_call m !! c = Some (o, q, p) ->
  polling p \/ uxSchedulerSuspended (kern (msys m)) = 0 /\ c <> idle.
Proof.
  intros M Hc Hin. pose proof (mi_polling _ _ _ _ M) as P. destruct (decide (c = idle)); [left; apply (P c o q p Hin); by left|].
  destruct (decide (uxSchedulerSuspended (kern (msys m)) = 0)); [by right|]. left. apply (P c o q p Hin). by right.
Qed.

(** A step of a call, seen from the other calls. *)
Lemma other_calls m s' c o q p' t o1 q1 p1 :
  inv_m m -> qtypes s' = qtypes (msys m) -> lock_call (holders (msys m)) c o q -> holders s' = new_holders (holders (msys m)) c o q p' ->
  (o = xQueueSemaphoreTake -> forall b, p' = Return (Some b) -> holders (msys m) !! q = Some None) ->
  t <> c -> call_ok (msys m) t o1 q1 p1 -> call_ok s' t o1 q1 p1.
Proof.
  intros M Ety Ho Eh Hfree Hne [H1|[H1 H2]]; unfold call_ok; rewrite Ety, Eh; [by left|right]. split; [|done]. clear H2.
  unfold new_holders. destruct o as [item pos| | |]; try done; destruct p' as [| | | |[b|]]; try done.
  - destruct Ho as (_ & _ & Ho). destruct (decide (q = q1)) as [<-|Hq].
    + destruct o1; try done; cbn in *; [destruct H1 as (_ & _ & H1); congruence|]. exists None. by rewrite lookup_insert_eq.
    + destruct o1; try done; cbn in *; by rewrite lookup_insert_ne.
  - specialize (Hfree eq_refl b eq_refl). destruct (decide (q = q1)) as [<-|Hq].
    + destruct o1; try done; cbn in *; [destruct H1 as (_ & _ & H1); congruence|]. exists (Some c). rewrite lookup_insert_eq. split; [done|]. congruence.
    + destruct o1; try done; cbn in *; by rewrite lookup_insert_ne.
Qed.
Lemma holder_type s q h : all_ok N s -> holders s !! q = Some h -> qtypes s !! q = Some (1, 0, true).
Proof.
  intros A Hh. destruct (holder_mutex s N q h A Hh) as (Q & r & Hq & []). unfold qtypes. rewrite lookup_fmap, Hq. cbn. by rewrite mx_length0, mx_size0, mx_null0.
Qed.
Lemma lock_ok_type s t o q : all_ok N s -> lock_call (holders s) t o q -> qtypes s !! q = Some (1, 0, true).
Proof. intros A Ho. destruct o; try done; [destruct Ho as (_ & _ & Hh)|destruct Ho as (h & Hh & _)]; by eapply holder_type. Qed.
(** ... and the log. *)
Lemma logged_lock m s' c o q p' :
  inv_m m -> qtypes s' = qtypes (msys m) -> lock_call (holders (msys m)) c o q -> 
  (o = xQueueSemaphoreTake -> forall b, p' = Return (Some b) -> holders (msys m) !! q = Some None) ->
  log_ok (lock_log m ++ logged s' c o q p') /\
  forall q1 t1, owned (lock_log m ++ logged s' c o q p') !! q1 = Some t1 <-> new_holders (holders (msys m)) c o q p' !! q1 = Some (Some t1).
Proof.
  intros M Ety Ho Hfree. pose proof (lock_ok_type _ _ _ _ (si_queues _ _ _ (mi_sys _ _ _ _ M)) Ho) as HT. unfold logged. rewrite Ety, HT.
  pose proof (mi_log _ _ _ _ M) as L. pose proof (mi_owned _ _ _ _ M) as O.
  destruct o as [item pos| | |]; try done; destruct p' as [| | | |[b|]]; cbn [new_holders]; rewrite ?app_nil_r; try done; rewrite owned_snoc.
  - destruct Ho as (_ & _ & Ho%O). split; [by apply log_gave|]. intros q1 t1. destruct (decide (q = q1)) as [<-|].
    + by rewrite lookup_delete_eq, lookup_insert_eq.
    + rewrite lookup_delete_ne, lookup_insert_ne by done. apply O.
  - specialize (Hfree eq_refl b eq_refl). split.
    + apply log_took; [done|]. destruct (owned (lock_log m) !! q) as [t|] eqn:E; [|done]. apply O in E. congruence.
    + intros q1 t1. destruct (decide (q = q1)) as [<-|]; [rewrite !lookup_insert_eq; naive_solver|]. rewrite !lookup_insert_ne by done. apply O.
Qed.
Lemma new_holders_size h c o q p' : lock_call h c o q -> size (new_holders h c o q p') = size h.
Proof.
  intros Ho. unfold new_holders. destruct o as [item pos| | |]; try done; destruct p' as [| | | |[b|]]; try done.
  - destruct Ho as (_ & _ & Ho). by rewrite map_size_insert_Some.
  - destruct Ho as (x & Ho & _). by rewrite map_size_insert_Some.
Qed.
(** After a step of a call of the running task [c]. *)
Lemma stepped_polling m c o q p s' p' ints :
  inv_m m -> pxCurrentTCB (kern (msys m)) = Some c -> in_call m !! c = Some (o, q, p) -> step_call (fun n => run_qints (ints n)) o (msys m) q p = Ok (s', p') ->
  forall t o1 q1 p1, set_progress m c o q p' !! t = Some (o1, q1, p1) ->
    t = idle \/ uxSchedulerSuspended (kern s') <> 0 /\ pxCurrentTCB (kern s') = Some t -> polling p1.
Proof.
  intros M Hc Hin E. pose proof (step_polling m c o q p M Hc Hin) as Hpoll.
  destruct (step_call_kept ints o (msys m) q p s' p' E) as [[_ Kc] Ks].
  { intros (to & n & inh & ->). destruct Hpoll as [|[]]; done. }
  intros t o1 q1 p1 [(-> & [= -> -> ->] & Hnr)|(Hne & Ht)]%set_progress_lookup Hor.
  - destruct Hpoll as [Hpoll|[Hs Hne]]; [destruct (polling_returns _ _ _ _ _ _ _ Hpoll E) as (r & ->); by destruct (Hnr r)|].
    destruct Hor as [->|[Hs' _]]; [done|]. by rewrite (Ks Hs) in Hs'.
  - apply (mi_polling _ _ _ _ M t o1 q1 p1 Ht). destruct Hor as [?|[_ Hcur]]; [by left|]. rewrite Kc, Hc in Hcur. congruence.
Qed.
Lemma queue_step_minv m c o q p ints :
  inv_m m -> xPendSV (kern (msys m)) = false -> ints_ok (msys m) ints -> pxCurrentTCB (kern (msys m)) = Some c -> in_call m !! c = Some (o, q, p) ->
  op_ok (qtypes (msys m)) o q -> progress_ok false p ->
  exists s' p', step_call (fun n => run_qints (ints n)) o (msys m) q p = Ok (s', p') /\
    goes_on m (mkMachine s' (set_progress m c o q p') (lock_log m ++ logged s' c o q p')).
Proof.
  intros M Hp Hi Hc Hin Ho Hok. pose proof M as [S K Z' St L O C P].
  destruct (step_call_ok N HN idle o (msys m) q p c ints S Hp Hc Ho Hok (step_polling m c o q p M Hc Hin) Hi) as (s' & p' & E & (S' & T' & V' & H') & Hok').
  exists s', p'. split; [done|].
  pose proof (tstep_step T (held_by (holders (msys m))) ints o (msys m) q p s' p' Ho Hi ltac:(by intros ->) E) as [_ Ht].
  assert (logged s' c o q p' = []) as ->.
  { unfold logged. rewrite T'. destruct o; cbn in Ho; destruct Ho as (len & Ho); [destruct Ho as (size & -> & _)|destruct Ho as [size ->]..|rewrite Ho]; done. }
  rewrite app_nil_r. split; [|done|done]. split; cbn -[set_progress]; rewrite ?H'; try done; [apply Ht, K| |by apply (stepped_polling m c o q p s' p' ints)].
  intros t o1 q1 p1 [(-> & [= -> -> ->] & Hnr)|(Hne & Hx)]%set_progress_lookup; unfold call_ok; rewrite T', H'; [|by apply C].
  split; [by left|done].
Qed.
Lemma lock_step_minv m c o q p ints :
  inv_m m -> xPendSV (kern (msys m)) = false -> ints_ok (msys m) ints -> pxCurrentTCB (kern (msys m)) = Some c -> in_call m !! c = Some (o, q, p) ->
  lock_call (holders (msys m)) c o q -> lock_progress o p ->
  exists s' p', step_call (fun n => run_qints (ints n)) o (msys m) q p = Ok (s', p') /\
    goes_on m (mkMachine s' (set_progress m c o q p') (lock_log m ++ logged s' c o q p')).
Proof.
  intros M Hp Hi Hc Hin Ho Hpr. pose proof M as [S K Z' St L O C P]. destruct (C c o q p Hin) as [_ Hnr].
  assert (~ strict) as Hstrict.
  { intros HS. rewrite (St HS) in Ho. destruct o; try done; [destruct Ho as (_ & _ & Ho)|destruct Ho as (? & Ho & _)]; by rewrite lookup_empty in Ho. }
  destruct (lock_step_ok N HN idle T o (msys m) q p c ints) as (s' & p' & E & [S' T' V' H' K'] & Hpr' & Hfree); try done; [by apply (step_polling m c o q p)|].
  exists s', p'. split; [done|]. destruct (logged_lock m s' c o q p' M T' Ho Hfree) as [L' O']. split; [|done|done].
  split; cbn -[set_progress]; rewrite ?H'; try done; [by rewrite new_holders_size| |by apply (stepped_polling m c o q p s' p' ints)].
  intros t o1 q1 p1 [(-> & [= -> -> ->] & Hnr')|(Hne & Hx)]%set_progress_lookup.
  - split; [|done]. right. split; [|by apply Hpr']. rewrite H'. unfold new_holders. destruct o; try done; destruct p' as [| | | |r]; try done; by destruct (Hnr' r).
  - destruct (C t o1 q1 p1 Hx) as [Hx1 Hx2]. split; [|done]. by apply (other_calls m s' c o q p').
Qed.
Lemma step_minv m ints :
  inv_m m -> qenabled idle m (QStep ints) -> exists m', run_qevent m (QStep ints) = Ok m' /\ goes_on m m'.
Proof.
  intros M (Hp & Hi). cbn [run_qevent]. destruct (inv_current _ _ (si_kern _ _ _ (mi_sys _ _ _ _ M))) as (c & Hc). unfold current.
  rewrite Hc. cbn [res_bind]. destruct (in_call m !! c) as [[[o q] p]|] eqn:Hin; [|exists m; split; [done|]; by split; [|apply evolves_same|]].
  destruct (mi_call _ _ _ _ M c o q p Hin) as [[[Ho Hok]|[Ho Hok]] _].
  - destruct (queue_step_minv m c o q p ints) as (s' & p' & -> & G); try done. by eexists.
  - destruct (lock_step_minv m c o q p ints) as (s' & p' & -> & G); try done. by eexists.
Qed.
Definition event_spares (e : qevent) : Prop := match e with QKernel c => spares c | _ => True end.
Lemma qevent_minv m e : inv_m m -> qenabled idle m e -> event_spares e -> exists m', run_qevent m e = Ok m' /\ goes_on m m'.
Proof.
  intros M He Hs. destruct e; [by apply interrupt_minv|by apply kernel_minv|by apply start_minv|by apply step_minv].
Qed.

(** What an event leaves alone: a task that is not the running one is neither
    scheduled, except by an interrupt, nor put into a call. *)
Lemma qevent_kept m e m' :
  inv_m m -> qenabled idle m e -> run_qevent m e = Ok m' ->
  match e with QInterrupt _ => steady (kern (msys m)) (kern (msys m')) | _ => kept (kern (msys m)) (kern (msys m')) end /\
  forall t, pxCurrentTCB (kern (msys m)) <> Some t \/ (exists i, e = QInterrupt i) -> in_call m' !! t = in_call m !! t.
Proof.
  intros M He E. destruct e as [i|c|o q n|ints]; cbn [run_qevent] in E.
  - ok_inv. split; [by eapply qint_steady|done].
  - ok_inv. split; [by eapply call_kept; [apply (mi_sys _ _ _ _ M)|apply He|]|done].
  - apply res_bind_ok in E as (c & Hc & E). apply res_bind_ok in E as (p & _ & E). apply ok_inj in E as <-. split; [by apply kept_sig|].
    intros t [Hne|[? [=]]]. apply set_progress_other. unfold current in Hc. destruct (pxCurrentTCB _); ok_inv. congruence.
  - apply res_bind_ok in E as (c & Hc & E). unfold current in Hc. destruct (pxCurrentTCB (kern (msys m))) as [c'|] eqn:Hcur; [|done].
    apply ok_inj in Hc as ->. destruct (in_call m !! c) as [[[o q] p]|] eqn:Hin; [|ok_inv; by split; [apply kept_sig|]].
    apply res_bind_ok in E as ([s' p'] & E & E'). apply ok_inj in E' as <-. split.
    + apply (step_call_kept ints o (msys m) q p s' p' E). intros (to & n & inh & ->). by destruct (step_polling m c o q _ M Hcur Hin) as [|[]].
    + intros t [Hne|[? [=]]]. apply set_progress_other. congruence.
Qed.
End machine.
Lemma nobody_spared e : event_spares (pt := nobody) e.
Proof. destruct e as [|[]| |]; try exact I. intros H. exact H. Qed.
End RtosMachine.
