(* ===== verification/RtosWait.v ===== *)
(** * Waiting without a time limit

    What a program needs to know of the calls it makes with [portMAX_DELAY]: a task
    whose waits nobody aborts returns from them only with what it waited for, and
    calls and interrupts on other queues leave the count of a semaphore alone. *)

From S2P Require Import Prelude RtosList RtosHeap RtosSeq RtosSched RtosSchedInv RtosTick RtosSchedProps RtosRun RtosSteady RtosTyped RtosBoot.
From S2P Require Import RtosQueue RtosQueueData RtosQueueSys RtosQueueRun RtosLock RtosMachine.
From stdpp Require Import list.
#[local] Set Warnings "-clear-no-such-hyp".
#[local] Open Scope Z_scope.

Module RtosWait.
Export RtosMachine.

(** ** Other queues *)

Definition int_queue (i : qint) : option Z :=
  match i with QSysTick | QPendSV | QResume _ => None | QSend q _ _ | QGive q | QReceive q | QPeek q => Some q end.
Definition misses (q : Z) (ints : list qint) : Prop := Forall (fun i => int_queue i <> Some q) ints.
(** The items or the count of the queue. *)
Definition count (s : sys) (q : Z) : option Z := uxMessagesWaiting <$> queues s !! q.

Lemma count_put s k q Q q0 : q0 <> q -> count (put_queue (put_kern s k) q0 Q) q = count s q.
Proof. intros Hne. unfold count, put_queue. cbn. by rewrite lookup_insert_ne. Qed.
Lemma count_same s k q0 Q Q' q :
  get_queue s q0 = Ok Q -> uxMessagesWaiting Q' = uxMessagesWaiting Q -> count (put_queue (put_kern s k) q0 Q') q = count s q.
Proof.
  intros Hq E. destruct (decide (q0 = q)) as [->|Hne]; [|by apply count_put]. unfold count, put_queue, get_queue in *. cbn. rewrite lookup_insert_eq.
  destruct (queues s !! q); [|done]. injection Hq as ->. cbn. by rewrite E.
Qed.
Lemma count_records s os q : count (foldl record s os) q = count s q.
Proof. revert s. induction os as [|o os IH]; intros s; [done|]. cbn [foldl]. by rewrite IH. Qed.

Ltac isr_elsewhere := ok_inv; try done; by apply count_put.
Lemma qint_count s i s' q : run_qint s i = Ok s' -> int_queue i <> Some q -> count s' q = count s q.
Proof.
  destruct i as [| | |q0 item pos|q0|q0|q0]; cbn [run_qint int_queue]; unfold on_kernel; intros E Hne; [by ok_inv..| | | |];
    apply res_bind_ok in E as ([s1 r] & E & Es); apply ok_inj in Es as <-; change (count s1 q = count s q);
    (assert (q0 <> q) as Hq by congruence).
  - unfold xQueueGenericSendFromISR in E. isr_elsewhere.
  - unfold xQueueGiveFromISR in E. isr_elsewhere.
  - unfold xQueueReceiveFromISR in E. isr_elsewhere.
  - unfold xQueuePeekFromISR in E. ok_inv; try done. by apply (count_put s (kern s)).
Qed.
Lemma qints_count ints s s' q : run_qints ints s = Ok s' -> misses q ints -> count s' q = count s q.
Proof.
  unfold run_qints. revert s. induction ints as [|i ints IH]; intros s; cbn [res_fold]; intros E H; [by ok_inv|].
  apply res_bind_ok in E as (s1 & E1 & E). apply Forall_cons in H as [H1 H]. rewrite (IH _ E H). by apply (qint_count s i).
Qed.

(** The part of a call that waits does not change what its queue holds, either. *)
Lemma lock_count s q0 s' q : lock_queue s q0 = Ok s' -> count s' q = count s q.
Proof.
  unfold lock_queue. intros E. apply res_bind_ok in E as (Q & Hq & E). apply ok_inj in E as <-. apply (count_same s (kern s) q0 Q); [done|].
  unfold prvLockQueue. by destruct (cRxLock Q =? _), (cTxLock _ =? _).
Qed.
Lemma unlock_count ints s q0 s' q : misses q ints -> prvUnlockQueue (run_qints ints) s q0 = Ok s' -> count s' q = count s q.
Proof.
  intros Hm E. unfold prvUnlockQueue in E. apply res_bind_ok in E as (Q & Hq & E). apply res_bind_ok in E as (k1 & _ & E).
  apply res_bind_ok in E as (s1 & E1 & E). apply res_bind_ok in E as (Q2 & Hq2 & E). apply res_bind_ok in E as (k2 & _ & E). apply ok_inj in E as <-.
  rewrite (count_same s1 k2 q0 Q2) by done. rewrite (qints_count _ _ _ _ E1 Hm). by apply (count_same s k1 q0 Q).
Qed.
Definition all_miss (q : Z) (ints : nat -> list qint) : Prop := forall n, misses q (ints n).
Lemma resume_count ints s q0 s' b q :
  all_miss q ints -> unlock_and_resume (fun n => run_qints (ints n)) s q0 = Ok (s', b) -> count s' q = count s q.
Proof.
  intros Hm E. unfold unlock_and_resume in E. apply res_bind_ok in E as (s1 & E1 & E). apply res_bind_ok in E as (s2 & E2 & E).
  apply res_bind_ok in E as ([k b'] & _ & E). apply ok_inj, pair_equal_spec in E as [<- _]. change (count s2 q = count s q).
  rewrite (qints_count _ _ _ _ E2 (Hm _)). by apply (unlock_count _ _ _ _ _ (Hm _) E1).
Qed.
Lemma wait_count ints blocked inherit e s q0 to n inh s' p q :
  all_miss q ints -> (forall s1 s2 b, inherit s1 = Ok (s2, b) -> count s2 q = count s1 q) ->
  wait_part (fun n => run_qints (ints n)) blocked inherit e s q0 to n inh = Ok (s', p) -> count s' q = count s q.
Proof.
  intros Hm Hi E. unfold wait_part in E. apply res_bind_ok in E as (s1 & E1 & E). apply (qints_count _ _ _ q) in E1; [|apply Hm].
  apply res_bind_ok in E as (s2 & E2%(lock_count _ _ _ q) & E). apply res_bind_ok in E as (s3 & E3 & E). apply (qints_count _ _ _ q) in E3; [|apply Hm].
  apply res_bind_ok in E as ([[[k4 to4] n4] x] & _ & E). apply res_bind_ok in E as (s5 & E5 & E). apply (qints_count _ _ _ q) in E5; [|apply Hm].
  assert (count s5 q = count s q) as C5 by (rewrite E5; etrans; [exact E3|]; rewrite E2; exact E1). clear E1 E2 E3 E5.
  destruct x; [apply res_bind_ok in E as ([s6 b6] & E6 & E); ok_inv; by rewrite (resume_count _ _ _ _ _ _ Hm E6)|].
  apply res_bind_ok in E as (Q & _ & E). destruct (blocked Q);
    [|apply res_bind_ok in E as ([s6 b6] & E6 & E); ok_inv; by rewrite (resume_count _ _ _ _ _ _ Hm E6)].
  apply res_bind_ok in E as (s6 & E6 & E). apply (qints_count _ _ _ q) in E6; [|apply Hm]. apply res_bind_ok in E as ([s7 b7] & E7%Hi & E).
  apply res_bind_ok in E as (s8 & E8 & E). apply (qints_count _ _ _ q) in E8; [|apply Hm]. apply res_bind_ok in E as (k9 & _ & E).
  apply res_bind_ok in E as (s10 & E10 & E). apply (qints_count _ _ _ q) in E10; [|apply Hm]. apply res_bind_ok in E as ([s11 b11] & E11 & E).
  apply (resume_count _ _ _ _ _ q Hm) in E11. apply ok_inj, pair_equal_spec in E as [<- _].
  assert (count s11 q = count s q) as C by (rewrite E11, E10; etrans; [exact E8|]; congruence). by destruct b11.
Qed.
Lemma block_count ints o s q0 to n inh s' p q :
  all_miss q ints -> step_operation (fun n => run_qints (ints n)) o s q0 (Block to n inh) = Ok (s', p) -> count s' q = count s q.
Proof.
  intros Hm E. destruct o; cbn [step_operation] in E; (eapply wait_count; [exact Hm| |exact E]); try (by intros s0 s1 b [= <- _]).
  intros s0 s1 b. unfold mutex_inherit. intros E1. by ok_inv.
Qed.
Lemma step_elsewhere ints o s q0 p s' p' q :
  q0 <> q -> all_miss q ints -> step_call (fun n => run_qints (ints n)) o s q0 p = Ok (s', p') -> count s' q = count s q.
Proof.
  intros Hne Hm E. unfold step_call in E. apply res_bind_ok in E as ([s1 p1] & E & Es). apply ok_inj, pair_equal_spec in Es as [<- _].
  rewrite count_records. destruct p; [|by eapply block_count| | |].
  - destruct o; cbn [step_operation] in E; unfold xQueueGenericSend_try, xQueueReceive_try, xQueuePeek_try, xQueueSemaphoreTake_try in E; isr_elsewhere.
  - by rewrite (tstep_expired _ _ _ _ _ _ _ _ _ E).
  - cbn [step_operation] in E. unfold give_up_mutex in E. by destruct o; ok_inv.
  - destruct o; cbn in E; by ok_inv.
Qed.

(** ** Semaphores *)

(** The call is in its loop, with no limit to its time. *)
Definition forever (p : progress) : Prop := match p with Try _ n _ | Block _ n _ => n = portMAX_DELAY | _ => False end.
Definition semaphore_give : operation := xQueueGenericSend None queueSEND_TO_BACK.

Section patience.
Context {pt : Patient} (T : Z -> Prop) (H : Z -> Z).

Lemma patient_check k c to :
  typed T H k -> pxCurrentTCB k = Some c -> patient c -> xTaskCheckForTimeOut k to portMAX_DELAY = Ok (k, to, portMAX_DELAY, false).
Proof. intros K Hc Hp. unfold xTaskCheckForTimeOut, current. rewrite Hc. cbn [res_bind]. by rewrite (ty_patient _ _ _ K c Hp). Qed.
(** A patient task goes round its loop when its wait is over. *)
Lemma patient_wait ints blocked inherit e s q to inh s' p c :
  typed T H (kern s) -> pxCurrentTCB (kern s) = Some c -> patient c -> uxSchedulerSuspended (kern s) = 0 -> ints_ok s ints ->
  wait_part (fun n => run_qints (ints n)) blocked inherit e s q to portMAX_DELAY inh = Ok (s', p) -> forever p.
Proof.
  intros K Hc Hp Hs Hi E. unfold wait_part in E. apply res_bind_ok in E as (s1 & E1 & E). pose proof (qints_steady _ _ _ E1) as S1.
  apply (tstep_isr T H ints s) in E1; [|done|by apply tstep_then; [done|]; intros K'; typed_goal].
  apply res_bind_ok in E as (s2 & E2 & E). assert (kern s2 = kern s1) as Ek by (unfold lock_queue in E2; by ok_inv).
  apply (tstep_lock T H s) in E2; [|done]. apply res_bind_ok in E as (s3 & E3 & E). pose proof (qints_steady _ _ _ E3) as S3.
  apply (tstep_isr T H ints s) in E3; [|done|done]. rewrite Ek in S3. pose proof (steady_trans _ _ _ S1 S3) as S.
  assert (pxCurrentTCB (kern s3) = Some c) as Hc3.
  { rewrite (sy_current _ _ S); [done|]. unfold vTaskSuspendAll. cbn. by rewrite Hs. }
  rewrite (patient_check (kern s3) c to (ts_typed _ _ _ _ E3 K) Hc3 Hp) in E. cbn [res_bind] in E. by ok_inv.
Qed.
(** ... and leaves it with the semaphore. *)
Lemma patient_take ints s q p s' p' c :
  typed T H (kern s) -> pxCurrentTCB (kern s) = Some c -> patient c -> uxSchedulerSuspended (kern s) = 0 -> ints_ok s ints -> forever p ->
  step_call (fun n => run_qints (ints n)) xQueueSemaphoreTake s q p = Ok (s', p') -> forever p' \/ p' = Return (Some []).
Proof.
  intros K Hc Hp Hs Hi Hf E. unfold step_call in E. apply res_bind_ok in E as ([s1 p1] & E & Es). apply ok_inj, pair_equal_spec in Es as [_ <-].
  destruct p as [to n inh|to n inh| | |]; try done; cbn in Hf; subst n.
  - cbn [step_operation] in E. unfold xQueueSemaphoreTake_try in E. ok_inv; first [by right|by left].
  - left. by eapply patient_wait.
Qed.
End patience.

Lemma take_count ints s q p s' p' :
  forever p -> all_miss q ints -> step_call (fun n => run_qints (ints n)) xQueueSemaphoreTake s q p = Ok (s', p') ->
  match p' with Return (Some _) => exists n, count s q = Some n /\ 0 < n /\ count s' q = Some (n - 1) | _ => count s' q = count s q end.
Proof.
  intros Hf Hm E. unfold step_call in E. apply res_bind_ok in E as ([s1 p1] & E & Es). apply ok_inj, pair_equal_spec in Es as [<- <-].
  rewrite count_records. destruct p as [to n inh|to n inh| | |]; try done; cbn in Hf; subst n.
  - cbn [step_operation] in E. unfold xQueueSemaphoreTake_try in E. apply res_bind_ok in E as (Q & Hq & E).
    destruct (Z.ltb_spec 0 (uxMessagesWaiting Q)); [|by ok_inv]. apply res_bind_ok in E as ([k Q1] & E1 & E). apply res_bind_ok in E as (k2 & _ & E).
    apply ok_inj, pair_equal_spec in E as [<- <-]. exists (uxMessagesWaiting Q). unfold count, put_queue, get_queue in *. cbn. rewrite lookup_insert_eq.
    destruct (queues s !! q); [|done]. injection Hq as ->. split; [done|]. split; [done|]. cbn. f_equal.
    unfold set_holder in E1. by ok_inv.
  - rewrite (block_count ints _ _ _ _ _ _ _ _ _ Hm E). destruct p1 as [| | | |[b|]]; try done. unfold step_operation, xQueueSemaphoreTake_wait in E. by apply wait_part_returns in E.
Qed.
Lemma give_count isr s q to inh s' p' len n :
  qtypes s !! q = Some (len, 0, false) -> count s q = Some n -> 0 <= n < len -> len < 2 ^ 32 ->
  step_call isr semaphore_give s q (Try to 0 inh) = Ok (s', p') -> p' = Return (Some []) /\ count s' q = Some (n + 1).
Proof.
  intros HT Hn Hlt Hlen E. destruct (qtype_queue _ _ _ _ _ HT) as (Q & Hq & El & Ez & Em). unfold count in Hn. rewrite Hq in Hn. injection Hn as Hw.
  unfold step_call in E. apply res_bind_ok in E as ([s1 p1] & E & Es). apply ok_inj, pair_equal_spec in Es as [<- <-]. rewrite count_records.
  cbn [step_operation semaphore_give] in E. unfold xQueueGenericSend_try, get_queue in E. rewrite Hq in E. cbn [res_bind] in E.
  rewrite (proj2 (Z.ltb_lt _ _)) in E by lia. cbn [orb] in E. unfold prvCopyDataToQueue in E. rewrite Ez, Em in E. cbn [Z.eqb res_bind] in E.
  apply res_bind_ok in E as (k & _ & E). apply ok_inj, pair_equal_spec in E as [<- <-]. split; [done|]. unfold count, put_queue. cbn. rewrite lookup_insert_eq. cbn.
  rewrite Hw. f_equal. apply (u_small 32). unfold is_u. lia.
Qed.

(** ** Events of the machine *)

Definition event_misses (m : machine) (q : Z) (e : qevent) : Prop :=
  match e with
  | QInterrupt i => int_queue i <> Some q
  | QStep ints => all_miss q ints /\ forall t o q0 p, pxCurrentTCB (kern (msys m)) = Some t -> in_call m !! t = Some (o, q0, p) -> q0 <> q
  | _ => True
  end.
Lemma event_count m e m' q : run_qevent m e = Ok m' -> event_misses m q e -> count (msys m') q = count (msys m) q.
Proof.
  destruct e as [i|c|o q0 n|ints]; cbn [run_qevent event_misses]; intros E Hm.
  - apply res_bind_ok in E as (s' & E & Es). apply ok_inj in Es as <-. by apply (qint_count _ i).
  - by ok_inv.
  - by ok_inv.
  - destruct Hm as [Hm Hc]. apply res_bind_ok in E as (t & Ht & E). unfold current in Ht. destruct (pxCurrentTCB (kern (msys m))) as [c|] eqn:Hcur; [|done].
    injection Ht as ->. destruct (in_call m !! t) as [[[o q0] p]|] eqn:Hin; [|by ok_inv]. apply res_bind_ok in E as ([s' p'] & E & Es).
    apply ok_inj in Es as <-. eapply step_elsewhere; [|exact Hm|exact E]. by eapply Hc.
Qed.
(** ... and the holder of a mutex. *)
Lemma event_owned m e m' q : run_qevent m e = Ok m' -> event_misses m q e -> owned (lock_log m') !! q = owned (lock_log m) !! q.
Proof.
  destruct e as [i|c|o q0 n|ints]; cbn [run_qevent event_misses]; intros E Hm; [by ok_inv..|].
  destruct Hm as [_ Hc]. apply res_bind_ok in E as (t & Ht & E). unfold current in Ht. destruct (pxCurrentTCB (kern (msys m))) as [c|] eqn:Hcur; [|done].
  injection Ht as ->. destruct (in_call m !! t) as [[[o q0] p]|] eqn:Hin; [|by ok_inv]. apply res_bind_ok in E as ([s' p'] & E & Es).
  apply ok_inj in Es as <-. specialize (Hc t o q0 p eq_refl Hin). cbn. unfold logged. destruct (qtypes s' !! q0) as [[[? ?] []]|]; [|by rewrite app_nil_r..].
  destruct o, p' as [| | | |[]]; rewrite ?app_nil_r; try done; rewrite owned_snoc; [by rewrite lookup_delete_ne|by rewrite lookup_insert_ne].
Qed.
(** A call that is there after an event was there before, or was started by it. *)
Lemma event_call m e m' t o q p :
  run_qevent m e = Ok m' -> in_call m' !! t = Some (o, q, p) ->
  (exists p0, in_call m !! t = Some (o, q, p0)) \/ pxCurrentTCB (kern (msys m)) = Some t /\ exists n, e = QStart o q n.
Proof.
  destruct e as [i|c|o0 q0 n|ints]; cbn [run_qevent]; intros E Hin.
  - left. exists p. by ok_inv.
  - left. exists p. by ok_inv.
  - apply res_bind_ok in E as (c & Hc & E). apply res_bind_ok in E as (p0 & _ & E). apply ok_inj in E as <-. cbn -[set_progress] in Hin.
    apply set_progress_lookup in Hin as [(-> & [= -> -> ->] & _)|[_ Hin]]; [|by left; exists p].
    right. unfold current in Hc. destruct (pxCurrentTCB _); [|done]. injection Hc as ->. split; [done|]. by exists n.
  - apply res_bind_ok in E as (c & Hc & E). destruct (in_call m !! c) as [[[o0 q0] p0]|] eqn:Hin0; [|ok_inv; left; by exists p].
    apply res_bind_ok in E as ([s' p'] & _ & E). apply ok_inj in E as <-. cbn -[set_progress] in Hin.
    apply set_progress_lookup in Hin as [(-> & [= -> -> ->] & _)|[_ Hin]]; left; [by exists p0|by exists p].
Qed.
(** The steps of the running task. *)
Lemma step_event m ints m' t o q p :
  pxCurrentTCB (kern (msys m)) = Some t -> in_call m !! t = Some (o, q, p) -> run_qevent m (QStep ints) = Ok m' ->
  exists s' p', step_call (fun n => run_qints (ints n)) o (msys m) q p = Ok (s', p') /\
    m' = mkMachine s' (set_progress m t o q p') (lock_log m ++ logged s' t o q p').
Proof.
  intros Hc Hin E. cbn [run_qevent] in E. unfold current in E. rewrite Hc in E. cbn [res_bind] in E. rewrite Hin in E.
  apply res_bind_ok in E as ([s' p'] & E & Es). apply ok_inj in Es as <-. by exists s', p'.
Qed.
Lemma start_event m t o q n m' :
  (o = xQueueSemaphoreTake \/ o = semaphore_give) -> pxCurrentTCB (kern (msys m)) = Some t -> run_qevent m (QStart o q n) = Ok m' ->
  m' = m <| in_call := <[t := (o, q, Try None n false)]> (in_call m) |>.
Proof.
  intros Ho Hc E. cbn [run_qevent] in E. unfold current in E. rewrite Hc in E. cbn [res_bind] in E. apply res_bind_ok in E as (p & E & Es).
  apply ok_inj in Es as <-. assert (p = Try None n false) as ->; [|done].
  destruct Ho as [-> | ->]; cbn [start_operation semaphore_give] in E; unfold xQueueSemaphoreTake_start, xQueueGenericSend_start in E; by ok_inv.
Qed.
(** The holder gives the mutex back at once. *)
Lemma give_mutex isr N s q t s' p' :
  all_ok N s -> holders s !! q = Some (Some t) -> step_call isr semaphore_give s q (Try None 0 false) = Ok (s', p') -> p' = Return (Some []).
Proof.
  intros A Hh E. destruct (holder_mutex s N q (Some t) A Hh) as (Q & n & Hq & []). unfold step_call in E. apply res_bind_ok in E as ([s1 p1] & E & Es).
  apply ok_inj, pair_equal_spec in Es as [_ <-]. cbn [step_operation semaphore_give] in E. unfold xQueueGenericSend_try, get_queue in E. rewrite Hq in E.
  cbn [res_bind] in E. rewrite mx_length0, mx_waiting0 in E. cbn [free_count Z.ltb Z.compare orb] in E. by ok_inv.
Qed.
End RtosWait.
