(* ===== verification/RtosProgram.v ===== *)
(** * Programs: the queues they create and the states they reach

    A program creates its queues, semaphores, mutexes and tasks and starts the
    scheduler; what holds in every state it then reaches. *)

From S2P Require Import Prelude RtosList RtosHeap RtosSeq RtosSched RtosSchedInv RtosTick RtosSchedProps RtosRun RtosSteady RtosTyped RtosBoot.
From S2P Require Import RtosQueue RtosQueueData RtosQueueSys RtosQueueRun RtosLock RtosMachine.
From stdpp Require Import list.
#[local] Set Warnings "-clear-no-such-hyp".
#[local] Open Scope Z_scope.

Module RtosProgram.
Export RtosMachine.

(** ** Creating queues *)

(** No task waits for an event. *)
Definition nobody_waits (k : kernel) : Prop := forall i e, container k i <> Some (EventList e).
Lemma nobody_on {stc : Strict} idle k e : inv idle k -> nobody_waits k -> tasks_on k (EventList e) = [].
Proof.
  intros I H. destruct (tasks_on k (EventList e)) as [|i l] eqn:E; [done|]. destruct (H i e).
  apply (tasks_on_iff _ _ _ _ _ (inv_wf _ _ I)). rewrite E. set_solver.
Qed.
Lemma boot_nobody idle tasks k :
  task_set idle tasks -> boot tasks = Ok k -> nobody_waits k /\ uxCurrentNumberOfTasks k = Z.of_nat (length tasks) /\ uxSchedulerSuspended k = 0.
Proof.
  intros (Hnd & Hall & Hi & Hlen). unfold boot.
  destruct (create_tasks_ok [] tasks blank blank_booting) as (k1 & -> & B); [by rewrite app_nil_r|done|by rewrite Nat.add_0_r|].
  cbn [res_bind]. intros <-%ok_inj. rewrite app_nil_r in B. split;
    [|split; [change (uxCurrentNumberOfTasks k1 = Z.of_nat (length tasks)); by rewrite (bt_number _ _ B), length_reverse|exact (bt_suspended _ _ B)]].
  intros [u|u] e; [change (container k1 (StateItem u) <> Some (EventList e))|change (container k1 (EventItem u) <> Some (EventList e))].
  - intros E. by destruct (bt_state _ _ B u _ E).
  - by rewrite (bt_event _ _ B).
Qed.

Lemma clear_list_wf now k l :
  wf None now k -> tasks_on k l = [] -> wf None now (k <| kst := put_list (kst k) l (mkSl [] []) |>).
Proof.
  intros W H. set (st := put_list _ _ _).
  assert (forall m, on st m = on (kst k) m) as Ho.
  { intros m. unfold st, on. rewrite the_list_put. destruct (decide (l = m)) as [<-|]; [by symmetry|done]. }
  assert (forall i, item st i = item (kst k) i) as Hi by (intros i; apply item_put_list). clearbody st.
  assert (forall i, container (k <| kst := st |>) i = container k i) as Hc by (intros i; exact (f_equal s_container (Hi i))).
  assert (forall i, item_value (k <| kst := st |>) i = item_value k i) as Hv by (intros i; exact (f_equal s_value (Hi i))).
  destruct W as [[H1 H1'] H2 H3 H4 H5 H6 H7 H8 H9 H10].
  split; try done; try (intros t; rewrite ?Hc, ?Hv; done).
  - split; cbn; [intros m; rewrite Ho; apply H1|]. intros i m. rewrite Ho, Hi. apply H1'.
  - intros t m. rewrite Hc. exact (H3 t m).
  - intros t m. rewrite Hc. unfold blocked. rewrite Hc. apply H4.
  - intros m Hm. unfold tasks_on. cbn. rewrite Ho. by apply (value_order_same k), H8.
  - intros t. rewrite Hc, Hv. exact (H9 t).
  - intros t. rewrite Hc, Hv. exact (H10 t).
Qed.
Lemma clear_list_inv {stc : Strict} idle k l :
  inv idle k -> tasks_on k l = [] -> inv idle (k <| kst := put_list (kst k) l (mkSl [] []) |>).
Proof.
  intros I H. pose proof (clear_list_wf (xTickCount k) k l (inv_wf _ _ I) H) as W. apply (inv_ext idle k); done.
Qed.
Lemma nobody_put k l x : nobody_waits k -> nobody_waits (k <| kst := put_list (kst k) l x |>).
Proof. intros H i e E. apply (H i e). unfold container. rewrite <- (item_put_list (kst k) l x i). exact E. Qed.
Lemma initialise_lists_inv {stc : Strict} idle k q :
  inv idle k -> nobody_waits k -> inv idle (initialise_lists k q) /\ nobody_waits (initialise_lists k q).
Proof.
  intros I H. pose proof (nobody_put k (EventList (to_send q)) (mkSl [] []) H) as H1.
  pose proof (clear_list_inv idle k (EventList (to_send q)) I (nobody_on _ _ _ I H)) as I1. split.
  - apply (clear_list_inv idle _ (EventList (to_receive q)) I1). by apply (nobody_on idle).
  - exact (nobody_put _ (EventList (to_receive q)) (mkSl [] []) H1).
Qed.

Inductive creation :=
  | NewQueue (uxQueueLength uxItemSize ucQueueType : Z)
  | NewCounting (uxMaxCount uxInitialCount : Z)
  | NewMutex (ucQueueType : Z).
Definition is_mutex (c : creation) : bool := match c with NewMutex _ => true | _ => false end.
Definition creation_ok (c : creation) : Prop :=
  match c with
  | NewQueue len size _ => 0 < len < 2 ^ 32 /\ 0 <= size /\ len * size <= SIZE_MAX - sizeof_Queue_t
  | NewCounting max init => 0 < max < 2 ^ 32 /\ 0 <= init <= max
  | NewMutex _ => True
  end.
(** The capacity and the items of the new queue. *)
Definition created (c : creation) : Z * list (list Z) :=
  match c with
  | NewQueue len _ _ => (len, [])
  | NewCounting max init => (max, replicate (Z.to_nat init) [])
  | NewMutex _ => (1, [[]])
  end.

Section setup.
Context (ucHeap : Z) (memory : Z -> Z).

Definition create (s : sys) (c : creation) : res (sys * Z) :=
  match c with
  | NewQueue len size ty => xQueueGenericCreate ucHeap memory s len size ty
  | NewCounting max init => xQueueCreateCountingSemaphore ucHeap memory s max init
  | NewMutex ty => xQueueCreateMutex ucHeap memory s ty
  end.
Definition create_one (s : sys) (c : creation) : res sys := let! '(s, _) := create s c in Ok s.
(** The first task that runs creates the queues. *)
Definition setup (tasks : list (Z * Z)) (cs : list creation) : res sys :=
  let! k := boot tasks in res_fold create_one (start_sys k) cs.

Lemma new_queue_ok len size m number ty :
  0 < len < 2 ^ 32 -> 0 <= size -> len * size < 2 ^ 32 -> Z.of_nat (length m) = len * size ->
  queue_ok (mkQueue false m 0 (xQueue (len * size) ((len - 1) * size)) 0 len size queueUNLOCKED queueUNLOCKED number ty).
Proof.
  intros Hl Hs Ha Hm. split; cbn; try done; try lia. intros _. eexists _, _. split; [done|]. intros Hz. exists (len - 1).
  split; [lia|]. split; [done|]. split; [done|]. replace (len - 1 + 1 + 0) with len by lia. by rewrite Z_mod_same_full.
Qed.
(** An allocation takes the free index forward, within the heap. *)
Definition grows (p : Z) (h h' : RtosHeap.RtosHeap.heap_1) : Prop :=
  let f := RtosHeap.RtosHeap.xNextFreeByte in
  (if p =? 0 then f h <= f h' else f h < f h') /\ f h' <= Z.max (f h) RtosHeap.RtosHeap.configTOTAL_HEAP_SIZE.
Lemma malloc_grows h n p h' : RtosHeap.RtosHeap.pvPortMalloc ucHeap h n = (p, h') -> grows p h h'.
Proof.
  unfold RtosHeap.RtosHeap.pvPortMalloc, grows. set (h1 := if _ =? 0 then _ else h).
  assert (RtosHeap.RtosHeap.xNextFreeByte h1 = RtosHeap.RtosHeap.xNextFreeByte h) as E by (unfold h1; by destruct (_ =? 0)). clearbody h1.
  destruct (_ && _) eqn:Hc; intros [= <- <-].
  - apply andb_true_iff in Hc as [[_ H1%Z.ltb_lt]%andb_true_iff H2%Z.ltb_lt]. cbn. rewrite E in *.
    unfold RtosHeap.RtosHeap.configADJUSTED_HEAP_SIZE, RtosHeap.RtosHeap.configTOTAL_HEAP_SIZE, RtosHeap.RtosHeap.portBYTE_ALIGNMENT in *.
    split; [destruct (_ =? 0); lia|lia].
  - cbn. rewrite E. lia.
Qed.

Lemma generic_create_ok s len size ty :
  creation_ok (NewQueue len size ty) -> exists h p s', xQueueGenericCreate ucHeap memory s len size ty = Ok (s', p) /\
    RtosHeap.RtosHeap.pvPortMalloc ucHeap (sheap s) (sizeof_Queue_t + len * size) = (p, h) /\
    s' = if p =? 0 then s <| sheap := h |>
         else mkSys (initialise_lists (kern s) p)
           (<[p := mkQueue false (memory <$> seqZ (p + sizeof_Queue_t) (len * size)) 0 (xQueue (len * size) ((len - 1) * size)) 0 len size queueUNLOCKED queueUNLOCKED
                      (memory_word memory (p + offset_uxQueueNumber)) ty]>
              (queues s)) h (xQueueRegistry s) (outcomes s).
Proof.
  intros (Hl & Hs & Ha). unfold SIZE_MAX, sizeof_Queue_t in Ha. unfold xQueueGenericCreate.
  assert (size <= SIZE_MAX / len) as Hd by (unfold SIZE_MAX; apply Z.div_le_lower_bound; lia).
  assert (u32 (len * size) = len * size) as E1 by (apply (u_small 32); unfold is_u; nia).
  assert (u32 ((len - 1) * size) = (len - 1) * size) as E2 by (apply (u_small 32); unfold is_u; nia).
  assert (u32 (sizeof_Queue_t + len * size) = sizeof_Queue_t + len * size) as E3 by (apply (u_small 32); unfold is_u, sizeof_Queue_t; nia).
  rewrite E1, E3, (proj2 (Z.ltb_lt 0 len)), (proj2 (Z.leb_le size _) Hd), (proj2 (Z.leb_le (len * size) _)) by (unfold SIZE_MAX, sizeof_Queue_t; lia).
  cbn [andb]. destruct (RtosHeap.RtosHeap.pvPortMalloc _ _ _) as [p h] eqn:Em. exists h, p.
  destruct (p =? 0) eqn:Ep; [apply Z.eqb_eq in Ep as ->; by eexists|].
  unfold prvInitialiseNewQueue, xQueueGenericReset, get_queue, put_queue. rsimpl. rewrite lookup_insert_eq. cbn [res_bind uxLength uxItemSize].
  rewrite (proj2 (Z.leb_le 1 len)), (proj2 (Z.leb_le size _) Hd) by lia. cbn [andb assert res_bind]. eexists. split; [done|]. split; [done|].
  rewrite E1, E2. rsimpl. rewrite insert_insert_eq. done.
Qed.

(** Between two creations. *)
Record prepared {stc : Strict} {pt : Patient} (N idle : Z) (T : Z -> Prop) (cs : list creation) (s : sys) : Prop := {
  pr_sys : sinv N idle s;
  pr_nobody : nobody_waits (kern s);
  pr_suspended : uxSchedulerSuspended (kern s) = 0;
  pr_outcomes : outcomes s = [];
  pr_view q v : view s !! q = Some v -> exists c, In c cs /\ v = created c;
  pr_typed : typed T (fun _ => 0) (kern s);
  pr_free q h : holders s !! q = Some h -> h = None;
  pr_strict : strict -> holders s = ∅;
  pr_size : Z.of_nat (size (queues s)) <= RtosHeap.RtosHeap.xNextFreeByte (sheap s) <= RtosHeap.RtosHeap.configTOTAL_HEAP_SIZE;
}.
Lemma typed_new_lists {pt : Patient} T H k q : typed T H k -> typed T H (initialise_lists k q).
Proof.
  intros K. unfold initialise_lists. apply typed_store; [done|..].
  - intros i l. rewrite !item_put_list. apply (ty_item _ _ _ K).
  - intros l i. unfold on. rewrite !the_list_put. destruct (decide _); [set_solver|]. destruct (decide _); [set_solver|]. apply (ty_on _ _ _ K).
  - intros t. rewrite !item_put_list. apply (ty_event _ _ _ K).
Qed.
(** The new queue [Q] at [q], on the heap [h]. *)
Lemma prepared_add {stc : Strict} {pt : Patient} N idle T cs s s' q Q c :
  0 <= N -> prepared N idle T cs s -> In c cs -> queue_ok Q -> cRxLock Q = queueUNLOCKED -> cTxLock Q = queueUNLOCKED ->
  (uxLength Q, contents Q) = created c -> holder Q = (if is_mutex c then Some None else None) -> (strict -> is_mutex c = false) ->
  kern s' = initialise_lists (kern s) q -> queues s' = <[q := Q]> (queues s) -> outcomes s' = outcomes s ->
  (q =? 0) = false -> grows q (sheap s) (sheap s') -> prepared N idle T cs s'.
Proof.
  intros HN [[I A U Hn] Hw Hsu Ho Hv Hty Hfr Hst Hsz] Hc Hok Hr Ht Hcr Hh Hstc Ek Eq Eo Hq0 Hg. destruct (initialise_lists_inv idle (kern s) q I Hw) as [I' Hw'].
  assert (forall q' h, holders s' !! q' = Some h -> (q' = q /\ holder Q = Some h) \/ holders s !! q' = Some h) as Hho.
  { intros q' h. unfold holders. rewrite Eq, !lookup_omap. destruct (decide (q = q')) as [<-|]; [rewrite lookup_insert_eq; auto|]. rewrite lookup_insert_ne by done. auto. }
  split.
  - split; rewrite ?Ek; try done; intros q' Q'; rewrite Eq; destruct (decide (q = q')) as [<-|].
    + rewrite lookup_insert_eq. intros [= <-]. split; [done|]. unfold locks_ok. rewrite Hr, Ht. unfold queueUNLOCKED. lia.
    + rewrite lookup_insert_ne by done. apply A.
    + rewrite lookup_insert_eq. intros [= <-]. by split.
    + rewrite lookup_insert_ne by done. apply U.
  - by rewrite Ek.
  - by rewrite Ek.
  - congruence.
  - intros q' v. unfold view. rewrite Eq, fmap_insert, Hcr. destruct (decide (q = q')) as [<-|].
    + rewrite lookup_insert_eq. intros [= <-]. by exists c.
    + rewrite lookup_insert_ne by done. apply Hv.
  - rewrite Ek. by apply typed_new_lists.
  - intros q' h [[-> E]|E]%Hho; [|by apply (Hfr q')]. rewrite Hh in E. destruct (is_mutex c); congruence.
  - intros HS. apply map_empty. intros q'. destruct (holders s' !! q') as [h|] eqn:E; [|done]. apply Hho in E as [[-> E]|E].
    + by rewrite Hh, (Hstc HS) in E.
    + by rewrite (Hst HS), lookup_empty in E.
  - rewrite Eq. pose proof (map_size_insert q Q (queues s)) as Es. destruct Hg as [Hg1 Hg2]. rewrite Hq0 in Hg1. unfold id in Es. destruct (queues s !! q); lia.
Qed.
Lemma prepared_heap {stc : Strict} {pt : Patient} N idle T cs s h : prepared N idle T cs s -> grows 0 (sheap s) h -> prepared N idle T cs (s <| sheap := h |>).
Proof. intros [[] ? ? ? ? ? ? ? ?] [Hg1 Hg2]. split; try done. cbn in *. lia. Qed.

Lemma initialise_mutex_ok s q Q :
  (q =? 0) = false -> queues s !! q = Some Q -> uxItemSize Q = 0 -> uxLength Q = 1 -> uxMessagesWaiting Q = 0 ->
  listLIST_IS_EMPTY (kern s) (EventList (to_receive q)) = true ->
  prvInitialiseMutex s q = Ok (put_queue s q (Q <| pcHead_NULL := true |> <| q_u := xSemaphore None 0 |> <| uxMessagesWaiting := 1 |>)).
Proof.
  intros H0 Hq Hz Hl Hw He. unfold prvInitialiseMutex. rewrite H0. unfold get_queue. rewrite Hq. cbn [res_bind].
  destruct Q as [hd st w u n l z rx tx num ty]. cbn in Hz, Hl, Hw. subst. unfold xQueueGenericSend_try, get_queue, put_queue. cbn.
  rewrite lookup_insert_eq. cbn. rewrite He. cbn. unfold put_kern, put_queue. cbn. by rewrite insert_insert_eq.
Qed.
(** The structure of a new queue at [p], and the bytes it takes. *)
Definition new_queue (c : creation) (p : Z) : Queue_t :=
  let number := memory_word memory (p + offset_uxQueueNumber) in
  match c with
  | NewQueue len size ty =>
      mkQueue false (memory <$> seqZ (p + sizeof_Queue_t) (len * size)) 0 (xQueue (len * size) ((len - 1) * size)) 0 len size queueUNLOCKED queueUNLOCKED number ty
  | NewCounting max init =>
      mkQueue false (memory <$> seqZ (p + sizeof_Queue_t) (max * 0)) 0 (xQueue (max * 0) ((max - 1) * 0)) init max 0 queueUNLOCKED queueUNLOCKED number
        queueQUEUE_TYPE_COUNTING_SEMAPHORE
  | NewMutex ty => mkQueue true [] 0 (xSemaphore None 0) 1 1 0 queueUNLOCKED queueUNLOCKED number ty
  end.
Definition queue_bytes (c : creation) : Z :=
  match c with NewQueue len size _ => sizeof_Queue_t + len * size | _ => sizeof_Queue_t end.
Definition with_queue (s : sys) (c : creation) (p : Z) (h : RtosHeap.RtosHeap.heap_1) : sys :=
  mkSys (initialise_lists (kern s) p) (<[p := new_queue c p]> (queues s)) h (xQueueRegistry s) (outcomes s).

Lemma create_exact s c :
  creation_ok c -> exists h p, RtosHeap.RtosHeap.pvPortMalloc ucHeap (sheap s) (queue_bytes c) = (p, h) /\
    create s c = Ok (if p =? 0 then s <| sheap := h |> else with_queue s c p h, p).
Proof.
  intros Hok. destruct c as [len size ty|max init|ty]; cbn [create queue_bytes].
  - destruct (generic_create_ok s len size ty Hok) as (h & p & s' & -> & Hm & ->). by exists h, p.
  - destruct Hok as (Hm & Hi). unfold xQueueCreateCountingSemaphore. rewrite (proj2 (Z.eqb_neq max 0)), (proj2 (Z.leb_le init max)) by lia. cbn [negb andb].
    change queueSEMAPHORE_QUEUE_ITEM_LENGTH with 0. destruct (generic_create_ok s max 0 queueQUEUE_TYPE_COUNTING_SEMAPHORE) as (h & p & s' & -> & Hg & ->);
      [split; [done|]; unfold SIZE_MAX, sizeof_Queue_t; lia|]. exists h, p. rewrite Z.mul_0_r, Z.add_0_r in Hg. split; [done|]. cbn [res_bind].
    destruct (p =? 0) eqn:Ep; [by apply Z.eqb_eq in Ep as ->|]. unfold get_queue. cbn [queues]. rewrite lookup_insert_eq. cbn [res_bind]. unfold put_queue, with_queue. cbn.
    by rewrite insert_insert_eq.
  - unfold xQueueCreateMutex. destruct (generic_create_ok s 1 0 ty) as (h & p & s' & -> & Hg & ->); [by unfold creation_ok, SIZE_MAX, sizeof_Queue_t|].
    exists h, p. split; [done|]. cbn [res_bind]. destruct (p =? 0) eqn:Ep; [unfold prvInitialiseMutex; by rewrite Ep|].
    erewrite initialise_mutex_ok; [|done|apply lookup_insert_eq|done..|].
    + cbn [res_bind]. unfold put_queue, with_queue. cbn. by rewrite insert_insert_eq.
    + cbn [kern]. unfold listLIST_IS_EMPTY, seq_empty, initialise_lists, on. rsimpl. by rewrite the_list_put, decide_True.
Qed.
Lemma created_ok c p :
  creation_ok c -> let Q := new_queue c p in
  queue_ok Q /\ unlocked Q /\ (uxLength Q, contents Q) = created c /\ holder Q = if is_mutex c then Some None else None.
Proof.
  intros Hok. destruct c as [len size ty|max init|ty]; cbn [new_queue is_mutex].
  - destruct Hok as (Hl & Hs & Ha). unfold SIZE_MAX, sizeof_Queue_t in Ha. split_and!; try done. apply new_queue_ok; try done; [lia|]. rewrite length_fmap, length_seqZ. nia.
  - destruct Hok as (Hm & Hi). split_and!; try done.
    + destruct (new_queue_ok max 0 (memory <$> seqZ (p + sizeof_Queue_t) (max * 0)) (memory_word memory (p + offset_uxQueueNumber)) queueQUEUE_TYPE_COUNTING_SEMAPHORE) as [];
        [done|done|lia|rewrite length_fmap, length_seqZ; nia|]. split; try done. intros _. by eexists _, _.
    + rewrite contents_zero by done. done.
  - split_and!; try done. split; try done. intros _. split_and!; try done. by exists None, 0.
Qed.

Lemma create_one_ok {stc : Strict} {pt : Patient} N idle T cs s c :
  0 <= N -> prepared N idle T cs s -> In c cs -> creation_ok c -> (strict -> is_mutex c = false) -> exists s', create_one s c = Ok s' /\ prepared N idle T cs s'.
Proof.
  intros HN P Hc Hok Hst. unfold create_one. destruct (create_exact s c Hok) as (h & p & Hm & ->). cbn [res_bind]. eexists. split; [done|].
  apply malloc_grows in Hm. destruct (p =? 0) eqn:Ep; [apply Z.eqb_eq in Ep as ->; by apply prepared_heap|].
  destruct (created_ok c p Hok) as (HQ & [Hr Ht] & Hcr & Hh). by apply (prepared_add N idle T cs s _ p (new_queue c p) c).
Qed.

Lemma setup_ok {stc : Strict} {pt : Patient} idle tasks cs :
  task_set idle tasks -> Forall creation_ok cs -> (strict -> Forall (fun c => is_mutex c = false) cs) ->
  exists s, setup tasks cs = Ok s /\ prepared (Z.of_nat (length tasks)) idle (fun t => t ∈ tasks.*1) cs s.
Proof.
  intros Ht Hcs Hst. unfold setup. destruct (boot_ok idle tasks Ht) as (k & E & I & _). destruct (boot_nobody idle tasks k Ht E) as (Hw & Hn & Hsu).
  pose proof (typed_boot idle tasks k Ht E) as K. rewrite E. cbn [res_bind]. apply (res_fold_inv (prepared (Z.of_nat (length tasks)) idle (fun t => t ∈ tasks.*1) cs)).
  - by split.
  - intros s c Hin P. apply create_one_ok; try done; [lia|by apply (proj1 (List.Forall_forall creation_ok cs) Hcs)|].
    intros HS. by apply (proj1 (List.Forall_forall _ cs) (Hst HS)).
Qed.
(** The machine before its first event. *)
Lemma nothing_held (H : gmap Z (option Z)) t : (forall q h, H !! q = Some h -> h = None) -> held_by H t = 0.
Proof.
  intros Hf. unfold held_by. assert (filter (fun x : Z * option Z => x.2 = Some t) H = ∅) as ->; [|done]. apply map_empty. intros q.
  apply map_lookup_filter_None_2. right. intros h Hh. by rewrite (Hf q h Hh).
Qed.
Lemma holders_size s : (size (holders s) <= size (queues s))%nat.
Proof. unfold holders. rewrite <- !size_dom. apply subseteq_size, dom_omap_subseteq. Qed.
Lemma prepared_minv {stc : Strict} {pt : Patient} N idle T cs s : prepared N idle T cs s -> minv N idle T (mkMachine s ∅ []).
Proof.
  intros [S Hw Hsu Ho Hv Hty Hfr Hst Hsz]. assert (forall t, held_by (holders s) t = 0) as H0 by (intros t; by apply nothing_held).
  split; cbn; try done.
  - eapply typed_ext; [|exact Hty]. intros t. by rewrite H0.
  - pose proof (holders_size s). unfold RtosHeap.RtosHeap.configTOTAL_HEAP_SIZE in *. lia.
  - constructor.
  - intros q t. rewrite lookup_empty. split; [done|]. intros Hh. by apply Hfr in Hh.
Qed.

(** ** The states a program reaches *)

Inductive qreachable (idle : Z) (tasks : list (Z * Z)) (cs : list creation) : machine -> Prop :=
  | qr_setup s : setup tasks cs = Ok s -> qreachable idle tasks cs (mkMachine s ∅ [])
  | qr_step m e m' : qreachable idle tasks cs m -> qenabled idle m e -> run_qevent m e = Ok m' -> qreachable idle tasks cs m'.

Lemma qreachable_inv {stc : Strict} idle tasks cs m :
  task_set idle tasks -> (length tasks <= 127)%nat -> Forall creation_ok cs -> (strict -> Forall (fun c => is_mutex c = false) cs) ->
  qreachable idle tasks cs m ->
  minv (pt := nobody) (Z.of_nat (length tasks)) idle (fun t => t ∈ tasks.*1) m /\
  exists s, setup tasks cs = Ok s /\ prepared (pt := nobody) (Z.of_nat (length tasks)) idle (fun t => t ∈ tasks.*1) cs s /\ evolves s (msys m).
Proof.
  intros Ht HN Hcs Hst. destruct (setup_ok (pt := nobody) idle tasks cs Ht Hcs Hst) as (s0 & E0 & P0). induction 1 as [s E|m e m' _ [IH1 IH2] He E].
  - assert (s = s0) as -> by congruence. split; [by eapply prepared_minv|]. exists s0. split; [done|]. split; [done|]. by apply evolves_same.
  - destruct (qevent_minv (Z.of_nat (length tasks)) ltac:(lia) idle (fun t => t ∈ tasks.*1) m e IH1 He (nobody_spared e)) as (m1 & E1 & [M1 V1 _]). assert (m1 = m') as -> by congruence.
    split; [done|]. destruct IH2 as (s & Es & Ps & V). exists s. split; [done|]. split; [done|]. by eapply evolves_trans.
Qed.

(** C2: queues, semaphores and mutexes are bounded FIFO queues.  Whatever tasks and interrupts do, in any order, what the calls
    reported so far - the items sent, the items received or looked at, the full and
    the empty queues found - is a history of bounded sequences, which start empty (a
    counting semaphore: with its initial count; a mutex: with one item), and the
    sequences of that history are what the queues hold now. *)
Theorem queues_are_fifos (idle : Z) (tasks : list (Z * Z)) (cs : list creation) (m : machine) :
  task_set idle tasks -> (length tasks <= 127)%nat -> Forall creation_ok cs -> qreachable idle tasks cs m ->
  exists A, (forall q v, A !! q = Some v -> exists c, In c cs /\ v = created c) /\
    apply_outcomes A (outcomes (msys m)) = Some (view (msys m)) /\
    forall q cap xs, view (msys m) !! q = Some (cap, xs) -> Z.of_nat (length xs) <= cap.
Proof.
  intros Ht HN Hcs Hr. destruct (qreachable_inv (stc := False) _ _ _ _ Ht HN Hcs ltac:(done) Hr) as (M & s & _ & P & os & Eo & Ea). exists (view s).
  split; [apply P|]. rewrite (pr_outcomes _ _ _ _ _ P) in Eo. cbn in Eo. rewrite Eo. split; [done|]. intros q cap xs. unfold view. rewrite lookup_fmap.
  destruct (queues (msys m) !! q) as [Q|] eqn:Hq; [|done]. intros [= <- <-]. destruct (si_queues _ _ _ (mi_sys _ _ _ _ M) q Q Hq) as [Hok _].
  rewrite (contents_length _ Hok). apply Hok.
Qed.

(** C13: calls on queues, semaphores and mutexes never fault, whatever interrupts come between
    and inside their steps.  No assertion of [queue.c] or of the kernel fails - the lock counters do
    not overflow, the holder of a mutex is the task that gives it, its count of mutexes
    is not zero - and no byte outside the storage of a queue is read or written.  Tasks
    give back what they took and take no mutex they have. *)
Theorem queue_calls_safe (idle : Z) (tasks : list (Z * Z)) (cs : list creation) (m : machine) (e : qevent) :
  task_set idle tasks -> (length tasks <= 127)%nat -> Forall creation_ok cs -> qreachable idle tasks cs m -> qenabled idle m e ->
  exists m', run_qevent m e = Ok m'.
Proof.
  intros Ht HN Hcs Hr He. destruct (qreachable_inv (stc := False) _ _ _ _ Ht HN Hcs ltac:(done) Hr) as (M & _).
  destruct (qevent_minv (Z.of_nat (length tasks)) ltac:(lia) idle _ m e M He (nobody_spared e)) as (m' & E & _). by exists m'.
Qed.

(** C5: mutual exclusion.  In every history of a program, between two calls that took the
    same mutex, the task that took it first gave it back; and the holder the queue
    structure names is the task that took the mutex and has not given it back. *)
Theorem mutual_exclusion (idle : Z) (tasks : list (Z * Z)) (cs : list creation) (m : machine) :
  task_set idle tasks -> (length tasks <= 127)%nat -> Forall creation_ok cs -> qreachable idle tasks cs m ->
  (forall l1 l2 l3 t u q, lock_log m = l1 ++ Took t q :: l2 ++ Took u q :: l3 -> In (Gave t q) l2) /\
  (forall q Q h, queues (msys m) !! q = Some Q -> holder Q = Some h -> h = owned (lock_log m) !! q).
Proof.
  intros Ht HN Hcs Hr. destruct (qreachable_inv (stc := False) _ _ _ _ Ht HN Hcs ltac:(done) Hr) as (M & _). split.
  - intros l1 l2 l3 t u q E. pose proof (mi_log _ _ _ _ M) as L. rewrite E in L. by eapply log_excludes.
  - intros q Q h Hq Hh. assert (holders (msys m) !! q = Some h) as Hho by (unfold holders; by rewrite lookup_omap, Hq).
    pose proof (mi_owned _ _ _ _ M q) as O. destruct h as [t|]; [symmetry; by apply O|].
    destruct (owned (lock_log m) !! q) as [t|]; [|done]. assert (holders (msys m) !! q = Some (Some t)) as E by by apply O. congruence.
Qed.

(** C15: the types of the kernel's data.  In every state a program reaches, the tasks that the kernel refers to
    - the running one, the owners of the items on its lists, those whose items have a
    container - are tasks the program created; all priorities are below the number of
    priorities; the value of an event list item is what the sorting of the waiting
    tasks needs; and a task's count of mutexes is the number of mutexes whose structure
    names it as the holder. *)
Theorem kernel_typed (idle : Z) (tasks : list (Z * Z)) (cs : list creation) (m : machine) :
  task_set idle tasks -> (length tasks <= 127)%nat -> Forall creation_ok cs -> qreachable idle tasks cs m ->
  typed (pt := nobody) (fun t => t ∈ tasks.*1) (held_by (holders (msys m))) (kern (msys m)).
Proof.
  intros Ht HN Hcs Hr. by destruct (qreachable_inv (stc := False) _ _ _ _ Ht HN Hcs ltac:(done) Hr) as ([] & _).
Qed.

(** With queues and semaphores, too, the processor runs a ready task of the highest
    priority: in every state a program without mutexes reaches in which no switch is
    pending and the scheduler is not suspended, the running task is ready, and no ready
    task has a higher priority. *)
Theorem queue_program_priority (idle : Z) (tasks : list (Z * Z)) (cs : list creation) (m : machine) :
  task_set idle tasks -> (length tasks <= 127)%nat -> Forall creation_ok cs -> Forall (fun c => is_mutex c = false) cs ->
  qreachable idle tasks cs m -> xPendSV (kern (msys m)) = false -> uxSchedulerSuspended (kern (msys m)) = 0 ->
  exists c, pxCurrentTCB (kern (msys m)) = Some c /\ ready (kern (msys m)) c /\
    forall t, ready (kern (msys m)) t -> priority (kern (msys m)) t <= priority (kern (msys m)) c.
Proof.
  intros Ht HN Hcs Hm Hr Hp Hs. destruct (qreachable_inv (stc := True) _ _ _ _ Ht HN Hcs (fun _ => Hm) Hr) as ([S] & _).
  destruct (inv_switch _ _ (si_kern _ _ _ S) Hs) as [|(c & Hc & Hrc & Hmax)]; [congruence|]. exists c. split_and!; try done. by apply Hmax.
Qed.
End setup.

(** ** Runs

    Moves of the machine that can be checked by evaluation. *)
Inductive move :=
  | MInterrupt (i : qint)
  | MDelay (n : Z)
  | MStart (o : operation) (q n : Z)
  | MStep (at_point : nat) (ints : list qint).
Definition move_event (x : move) : qevent :=
  match x with
  | MInterrupt i => QInterrupt i
  | MDelay n => QKernel (Delay n [] [])
  | MStart o q n => QStart o q n
  | MStep i ints => QStep (fun j => if Nat.eqb i j then ints else [])
  end.

Definition item_okb (len size : Z) (item : option (list Z)) (pos : Z) : bool :=
  (if size =? 0 then bool_decide (item = None) && (pos =? queueSEND_TO_BACK)
   else match item with Some b => Z.of_nat (length b) =? size | None => false end) &&
  ((pos =? queueSEND_TO_BACK) || (pos =? queueSEND_TO_FRONT) || (pos =? queueOVERWRITE) && (len =? 1)).
Definition int_okb (T : gmap Z (Z * Z * bool)) (i : qint) : bool :=
  match i with
  | QSysTick | QPendSV | QResume _ => true
  | QSend q item pos => match T !! q with Some (len, size, false) => item_okb len size item pos | _ => false end
  | QGive q => match T !! q with Some (_, size, false) => size =? 0 | _ => false end
  | QReceive q => match T !! q with Some (_, _, false) => true | _ => false end
  | QPeek q => match T !! q with Some (_, size, false) => negb (size =? 0) | _ => false end
  end.
Definition op_okb (T : gmap Z (Z * Z * bool)) (own : gmap Z Z) (t : Z) (o : operation) (q : Z) : bool :=
  match T !! q with
  | Some (len, size, false) =>
      match o with
      | xQueueGenericSend item pos => item_okb len size item pos
      | xQueueReceive | xQueuePeek => true
      | xQueueSemaphoreTake => size =? 0
      end
  | Some (_, _, true) =>
      match o with
      | xQueueGenericSend item pos => bool_decide (item = None) && (pos =? queueSEND_TO_BACK) && bool_decide (own !! q = Some t)
      | xQueueSemaphoreTake => negb (bool_decide (own !! q = Some t))
      | _ => false
      end
  | None => false
  end.
Definition move_okb (idle : Z) (m : machine) (x : move) : bool :=
  let s := msys m in
  match pxCurrentTCB (kern s) with
  | None => false
  | Some t =>
      let free := negb (xPendSV (kern s)) && bool_decide (in_call m !! t = None) in
      let may_block := (uxSchedulerSuspended (kern s) =? 0) && negb (t =? idle) in
      match x with
      | MInterrupt i => int_okb (qtypes s) i
      | MDelay n => free && ((0 <=? n) && (n <? 2 ^ 32)) && may_block
      | MStart o q n => free && ((0 <=? n) && (n <? 2 ^ 32)) && op_okb (qtypes s) (owned (lock_log m)) t o q && ((n =? 0) || may_block)
      | MStep _ ints => negb (xPendSV (kern s)) && forallb (int_okb (qtypes s)) ints
      end
  end.

Ltac bool_facts :=
  repeat match goal with
  | H : _ && _ = true |- _ => apply andb_true_iff in H as [? ?]
  | H : negb _ = true |- _ => apply negb_true_iff in H
  | H : bool_decide _ = true |- _ => apply bool_decide_eq_true in H
  | H : bool_decide _ = false |- _ => apply bool_decide_eq_false in H
  | H : (_ =? _) = true |- _ => apply Z.eqb_eq in H
  | H : (_ =? _) = false |- _ => apply Z.eqb_neq in H
  | H : (_ <=? _) = true |- _ => apply Z.leb_le in H
  | H : (_ <? _) = true |- _ => apply Z.ltb_lt in H
  end.
Lemma item_okb_ok len size item pos : item_okb len size item pos = true -> item_ok len size item pos.
Proof.
  unfold item_okb, item_ok. intros [H1 H2]%andb_true_iff. split.
  - destruct (size =? 0); [by bool_facts|]. destruct item as [b|]; [|done]. bool_facts. by exists b.
  - apply orb_true_iff in H2 as [[H2|H2]%orb_true_iff|H2]; bool_facts; auto.
Qed.
Lemma int_okb_ok T i : int_okb T i = true -> int_ok T i.
Proof.
  destruct i as [| | |q item pos|q|q|q]; cbn; try done; destruct (T !! q) as [[[len size] []]|]; try done.
  - intros ?%item_okb_ok. by exists len, size.
  - intros ->%Z.eqb_eq. by exists len.
  - by exists len, size.
  - intros H. bool_facts. by exists len, size.
Qed.
Lemma op_okb_ok T own t o q : op_okb T own t o q = true -> op_ok T o q \/ lock_may T own t o q.
Proof.
  unfold op_okb, lock_may. destruct (T !! q) as [[[len size] []]|] eqn:E; [| |done].
  - intros H. right. split; [by exists len, size|]. destruct o; bool_facts; done.
  - intros H. left. destruct o; cbn; rewrite E.
    + apply item_okb_ok in H. by exists len, size.
    + by exists len, size.
    + by exists len, size.
    + apply Z.eqb_eq in H as ->. by exists len.
Qed.
Lemma move_okb_ok idle m x : move_okb idle m x = true -> qenabled idle m (move_event x).
Proof.
  unfold move_okb, qenabled, move_event. destruct (pxCurrentTCB (kern (msys m))) as [t|] eqn:Hc; [|done].
  destruct x as [i|n|o q n|j ints]; cbn [move_event].
  - apply int_okb_ok.
  - intros H. bool_facts. cbn [may_call]. rewrite Hc. split_and!; try done; [by intros ? [= <-]|]. intros [= ->]. done.
  - intros [[[Hf Hn]%andb_true_iff Ho%op_okb_ok]%andb_true_iff Hb]%andb_true_iff. bool_facts. split_and!; try done.
    + by intros ? [= <-].
    + by intros ? [= <-].
    + intros Hn0. apply orb_true_iff in Hb as [Hb|Hb]; bool_facts; [done|]. split; [done|]. congruence.
  - intros [Hp Hi]%andb_true_iff. bool_facts. split; [done|]. intros n. destruct (Nat.eqb j n); [|constructor].
    apply List.Forall_forall. intros y Hy. apply int_okb_ok. by apply (proj1 (forallb_forall _ _) Hi).
Qed.

(** The run of some moves, if all of them are allowed. *)
Fixpoint run_moves (idle : Z) (m : machine) (xs : list move) : option machine :=
  match xs with
  | [] => Some m
  | x :: xs => if move_okb idle m x then match run_qevent m (move_event x) with Ok m => run_moves idle m xs | Fault _ => None end else None
  end.
Lemma run_moves_reachable ucHeap memory idle tasks cs m xs m' :
  qreachable ucHeap memory idle tasks cs m -> run_moves idle m xs = Some m' -> qreachable ucHeap memory idle tasks cs m'.
Proof.
  revert m. induction xs as [|x xs IH]; intros m Hr; cbn [run_moves]; [by intros [= <-]|]. destruct (move_okb idle m x) eqn:Hx; [|done].
  destruct (run_qevent m (move_event x)) as [m1|] eqn:E; [|done]. apply IH. apply (qr_step _ _ _ _ _ m (move_event x)); [done| |done]. by apply move_okb_ok.
Qed.
Definition program_run (ucHeap : Z) (memory : Z -> Z) (idle : Z) (tasks : list (Z * Z)) (cs : list creation) (xs : list move) : option machine :=
  match setup ucHeap memory tasks cs with Ok s => run_moves idle (mkMachine s ∅ []) xs | Fault _ => None end.
Lemma program_run_reachable ucHeap memory idle tasks cs xs m :
  program_run ucHeap memory idle tasks cs xs = Some m -> qreachable ucHeap memory idle tasks cs m.
Proof.
  unfold program_run. destruct (setup ucHeap memory tasks cs) as [s|] eqn:E; [|done]. apply run_moves_reachable. by apply qr_setup.
Qed.
(** The state after a run that is known to succeed. *)
Definition the_machine (r : option machine) : machine := default (mkMachine (start_sys blank) ∅ []) r.
Lemma the_machine_reachable ucHeap memory idle tasks cs xs :
  bool_decide (is_Some (program_run ucHeap memory idle tasks cs xs)) = true -> qreachable ucHeap memory idle tasks cs (the_machine (program_run ucHeap memory idle tasks cs xs)).
Proof. intros [m E]%bool_decide_eq_true. rewrite E. by apply (program_run_reachable _ _ _ _ _ xs). Qed.

(** ** Two programs

    Task 2 waits for an item; the interrupt that sends it comes after the task has
    locked the queue and before it checks whether the queue is empty. *)
Definition a_heap : Z := 0x20400000.
Definition a_memory (p : Z) : Z := 0.
Definition two_tasks : list (Z * Z) := [(1, 1); (2, 2); (0, 0)].
Definition two_queues : list creation := [NewQueue 2 1 queueQUEUE_TYPE_BASE; NewCounting 3 1].
Definition receiving : list move :=
  [MStart xQueueReceive a_heap 100; MStep 0 []; MStep 2 [QSend a_heap (Some [5]) queueSEND_TO_BACK]].
Definition at_retry : machine := the_machine (program_run a_heap a_memory 0 two_tasks two_queues receiving).

Lemma two_tasks_ok : task_set 0 two_tasks.
Proof. split; [|split; [|split]]; [apply (bool_decide_unpack _); by vm_compute|repeat constructor; cbn; unfold configMAX_PRIORITIES; lia|set_solver|cbn; lia]. Qed.
Lemma two_queues_ok : Forall creation_ok two_queues.
Proof. repeat constructor; cbn; unfold SIZE_MAX, sizeof_Queue_t; lia. Qed.
Lemma at_retry_reachable : qreachable a_heap a_memory 0 two_tasks two_queues at_retry.
Proof. apply the_machine_reachable. vm_compute. exact eq_refl. Qed.

Lemma queues_are_fifos_witness :
  outcomes (msys at_retry) = [Sent a_heap [5] queueSEND_TO_BACK] /\ view (msys at_retry) !! a_heap = Some (2, [[5]]) /\
  exists A, (forall q v, A !! q = Some v -> exists c, In c two_queues /\ v = created c) /\
    apply_outcomes A (outcomes (msys at_retry)) = Some (view (msys at_retry)) /\
    forall q cap xs, view (msys at_retry) !! q = Some (cap, xs) -> Z.of_nat (length xs) <= cap.
Proof.
  split; [vm_compute; exact eq_refl|]. split; [vm_compute; exact eq_refl|].
  apply (queues_are_fifos a_heap a_memory 0 two_tasks two_queues at_retry);
    [exact two_tasks_ok|apply Nat.leb_le; exact eq_refl|exact two_queues_ok|exact at_retry_reachable].
Defined.

Lemma queue_program_priority_witness :
  exists c, pxCurrentTCB (kern (msys at_retry)) = Some c /\ ready (kern (msys at_retry)) c /\
    forall t, ready (kern (msys at_retry)) t -> priority (kern (msys at_retry)) t <= priority (kern (msys at_retry)) c.
Proof.
  apply (queue_program_priority a_heap a_memory 0 two_tasks two_queues at_retry);
    [exact two_tasks_ok|apply Nat.leb_le; exact eq_refl|exact two_queues_ok|repeat constructor|exact at_retry_reachable|vm_compute; exact eq_refl..].
Defined.

(** Task 2 takes a mutex and sleeps; task 1 waits for it for three ticks, without
    success, and then without a limit; task 2 gives it back, and task 1 gets it. *)
Definition one_mutex : list creation := [NewMutex queueQUEUE_TYPE_MUTEX].
Definition exchanging : list move :=
  [MStart xQueueSemaphoreTake a_heap portMAX_DELAY; MStep 0 []; MDelay 5; MInterrupt QPendSV;
   MStart xQueueSemaphoreTake a_heap 3; MStep 0 []; MStep 0 []; MInterrupt QPendSV;
   MInterrupt QSysTick; MInterrupt QSysTick; MInterrupt QSysTick; MInterrupt QPendSV; MStep 0 []; MStep 0 []; MStep 0 [];
   MStart xQueueSemaphoreTake a_heap portMAX_DELAY; MStep 0 []; MStep 3 [QSysTick]; MInterrupt QPendSV;
   MInterrupt QSysTick; MInterrupt QPendSV; MStart (xQueueGenericSend None queueSEND_TO_BACK) a_heap 0; MStep 0 [];
   MDelay 1; MInterrupt QPendSV; MStep 0 []].
Definition at_exchange : machine := the_machine (program_run a_heap a_memory 0 two_tasks one_mutex exchanging).
Lemma at_exchange_reachable : qreachable a_heap a_memory 0 two_tasks one_mutex at_exchange.
Proof. apply the_machine_reachable. vm_compute. exact eq_refl. Qed.
Lemma one_mutex_ok : Forall creation_ok one_mutex.
Proof. by repeat constructor. Qed.

Lemma mutual_exclusion_witness :
  lock_log at_exchange = [Took 2 a_heap; Gave 2 a_heap; Took 1 a_heap] /\ outcomes (msys at_exchange) = [Received a_heap []; WasEmpty a_heap; Sent a_heap [] queueSEND_TO_BACK; Received a_heap []] /\
  (forall l1 l2 l3 t u q, lock_log at_exchange = l1 ++ Took t q :: l2 ++ Took u q :: l3 -> In (Gave t q) l2) /\
  (forall q Q h, queues (msys at_exchange) !! q = Some Q -> holder Q = Some h -> h = owned (lock_log at_exchange) !! q).
Proof.
  split; [vm_compute; exact eq_refl|]. split; [vm_compute; exact eq_refl|].
  apply (mutual_exclusion a_heap a_memory 0 two_tasks one_mutex at_exchange);
    [exact two_tasks_ok|apply Nat.leb_le; exact eq_refl|exact one_mutex_ok|exact at_exchange_reachable].
Defined.
Lemma kernel_typed_witness :
  held_by (holders (msys at_exchange)) 1 = 1 /\
  typed (pt := nobody) (fun t => t ∈ two_tasks.*1) (held_by (holders (msys at_exchange))) (kern (msys at_exchange)).
Proof.
  split; [vm_compute; exact eq_refl|]. apply (kernel_typed a_heap a_memory 0 two_tasks one_mutex at_exchange);
    [exact two_tasks_ok|apply Nat.leb_le; exact eq_refl|exact one_mutex_ok|exact at_exchange_reachable].
Defined.
Lemma queue_calls_safe_witness : exists m', run_qevent at_exchange (QStart (xQueueGenericSend None queueSEND_TO_BACK) a_heap 0) = Ok m'.
Proof.
  apply (queue_calls_safe a_heap a_memory 0 two_tasks one_mutex at_exchange);
    [exact two_tasks_ok|apply Nat.leb_le; exact eq_refl|exact one_mutex_ok|exact at_exchange_reachable|].
  apply (move_okb_ok 0 at_exchange (MStart (xQueueGenericSend None queueSEND_TO_BACK) a_heap 0)). vm_compute. exact eq_refl.
Defined.
End RtosProgram.
