(* ===== verification/RtosMutex.v ===== *)
(** * Mutexes

    What priority inheritance leaves undone: a give that misses a switch and a time-out
    that fails an assertion, for every reachable state of the scheduler; and runs of the
    code of [queue.c] and [tasks.c] for mutexes. *)

From S2P Require Import Prelude RtosList RtosHeap RtosSeq RtosSched RtosSchedInv RtosTick RtosSchedProps RtosRun RtosBoot.
From S2P Require Import RtosQueue RtosQueueData RtosQueueSys.
From stdpp Require Import list.
#[local] Open Scope Z_scope.

Module RtosMutex.
Export RtosQueueSys.

(** ** Programs

    What the running task or an interrupt does next; no interrupt comes inside a
    call.  A call on a mutex goes on until it returns or its task is switched out. *)
Inductive action :=
  | Ticks (n : nat)
  | Switch
  | DelayFor (n : Z)
  | Take (q xTicksToWait : Z)
  | Give (q : Z)
  | Resumes.

Definition quiet (n : nat) (s : sys) : res sys := Ok s.
(** The calls in progress, by task. *)
Abbreviation waiting_calls := (gmap Z (Z * progress)).
Fixpoint run_take (fuel : nat) (q : Z) (s : sys) (p : progress) : res (sys * progress) :=
  match fuel, p with
  | O, _ | _, Return _ => Ok (s, p)
  | S fuel, _ => if xPendSV (kern s) then Ok (s, p)
                 else let! '(s, p) := step_operation quiet xQueueSemaphoreTake s q p in run_take fuel q s p
  end.
Definition act (m : sys * waiting_calls) (a : action) : res (sys * waiting_calls) :=
  let '(s, w) := m in
  match a with
  | Ticks n => let! k := run_interrupts (replicate n SysTick) (kern s) in Ok (put_kern s k, w)
  | Switch => let! k := run_interrupt (kern s) PendSV in Ok (put_kern s k, w)
  | DelayFor n => let! k := vTaskDelay Ok Ok (kern s) n in Ok (put_kern s k, w)
  | Take q n =>
      let! c := current (kern s) in
      let! p := start_operation xQueueSemaphoreTake s q n in
      let! '(s, p) := run_take 5 q s p in Ok (s, <[c := (q, p)]> w)
  | Give q =>
      let! p := start_operation (xQueueGenericSend None queueSEND_TO_BACK) s q 0 in
      let! '(s, _) := step_operation quiet (xQueueGenericSend None queueSEND_TO_BACK) s q p in Ok (s, w)
  | Resumes =>
      let! c := current (kern s) in
      match w !! c with
      | Some (q, p) => let! '(s, p) := run_take 5 q s p in Ok (s, <[c := (q, p)]> w)
      | None => Ok (s, w)
      end
  end.
(** The mutexes are created, then the tasks, and the scheduler is started. *)
Definition mutex_program (tasks : list (Z * Z)) (n : nat) (actions : list action) : res (sys * waiting_calls) :=
  let! s := res_fold (fun s _ => let! '(s, _) := xQueueCreateMutex 0x20400000 (fun _ => 0) s queueQUEUE_TYPE_MUTEX in Ok s)
              (start_sys blank) (replicate n tt) in
  let! k := boot tasks in res_fold act (put_kern s k, ∅) actions.
Definition mutex1 : Z := 0x20400000.
Definition mutex2 : Z := 0x20400050.

(** The task that runs, whether a switch is pending, whether the scheduler is
    suspended, and the priorities and state lists of some tasks. *)
Record summary_t := mkSummary { running : option Z; pends : bool; suspended : Z; states : list (Z * option klist) }.
#[global] Instance summary_eq_dec : EqDecision summary_t.
Proof. solve_decision. Defined.
Definition summary (ts : list Z) (r : res (sys * waiting_calls)) : option summary_t :=
  match r with
  | Ok (s, _) => Some (mkSummary (pxCurrentTCB (kern s)) (xPendSV (kern s)) (uxSchedulerSuspended (kern s))
                         (map (fun t => (priority (kern s) t, container (kern s) (StateItem t))) ts))
  | Fault _ => None
  end.

(** ** A give that misses a switch

    Task 1 (priority 2) takes both mutexes and sleeps; task 2 (priority 1) waits for
    the first, task 3 (priority 3) for the second, so that task 1 has priority 3 when
    it wakes.  It gives back the second mutex, then the first. *)
Definition two_mutexes : list action :=
  [DelayFor 2; Switch; Take mutex1 portMAX_DELAY; Take mutex2 portMAX_DELAY; DelayFor 3; Switch;
   Take mutex1 portMAX_DELAY; Switch; Ticks 2; Switch; Take mutex2 portMAX_DELAY; Switch; Ticks 1; Switch;
   Give mutex2; Switch; Give mutex1; Switch].
Definition three_tasks : list (Z * Z) := [(1, 2); (2, 1); (3, 3); (0, 0)].

(** Queue.c and tasks.c go this way: the last give wakes task 2, and task 1, back at
    priority 2, goes on although task 3 is ready; the next hundred ticks change nothing. *)
Lemma two_mutexes_run :
  Forall (fun n => summary [1; 3] (mutex_program three_tasks 2 (two_mutexes ++ [Ticks n; Switch])) =
    Some (mkSummary (Some 1) false 0 [(2, Some (ReadyTasks 2)); (3, Some (ReadyTasks 3))])) (seq 0 101).
Proof. apply (bool_decide_unpack _). vm_compute. exact Logic.I. Qed.

(** The loss of an inherited priority, and the wake-up of a waiting task that asks for
    no switch, leave the other tasks as they are. *)
Lemma disinherit_drops idle k c k' :
  inv (stc := False) idle k -> xPendSV k = false -> pxCurrentTCB k = Some c -> xTaskPriorityDisinherit k (Some c) = Ok (k', true) ->
  pxCurrentTCB k' = Some c /\ xPendSV k' = false /\ uxSchedulerSuspended k' = uxSchedulerSuspended k /\
  priority k' c = uxBasePriority (tcb k c) /\ forall t, t <> c -> ready k t -> ready k' t /\ priority k' t = priority k t.
Proof.
  intros I Hp Hc. unfold xTaskPriorityDisinherit. rewrite bool_decide_eq_true_2 by done. cbn [assert res_bind].
  destruct (uxMutexesHeld (tcb k c) =? 0); [done|]. cbn [negb assert res_bind]. unfold set_mutexes_held.
  set (x0 := (tcb k c) <| uxMutexesHeld := _ |>). assert (inv (stc := False) idle (put_tcb k c x0)) as I0 by (by apply inv_put_tcb).
  pose proof (running_ready _ _ _ I0 Hp Hc) as Hr. pose proof (inv_base _ _ I c) as Hbase.
  destruct (negb _ && _); [|done].
  set (x := x0 <| uxPriority := uxBasePriority x0 |>).
  destruct (drop_priority_ok _ _ c x (u32 (configMAX_PRIORITIES - uxPriority x)) (inv_wf _ _ I0) Hr) as (k1 & -> & T1 & _ & R); [done|].
  cbn [res_bind]. unfold set_priority. assert (tcb k1 c = x0) as ->
    by (transitivity (tcb (put_tcb k c x0) c); [unfold tcb; by rewrite T1|by rewrite tcb_put, decide_True]). fold x.
  rewrite priority_put, decide_True by done. intros E.
  assert (reprio (put_tcb k c x0) k' c x) as [] by (injection E as <-; exact R). clear E R.
  split_and!; [by rewrite rq_current0|by rewrite rq_pendsv0|by rewrite rq_suspended0|by rewrite rq_priority0, decide_True|].
  intros t Ht Hrt. assert (priority k' t = priority k t) as Pt
    by (rewrite rq_priority0, decide_False, priority_put by done; by rewrite decide_False).
  split; [|exact Pt]. unfold ready. rewrite rq_state0, Pt by done. exact Hrt.
Qed.
Lemma wakes_quietly idle k e k' t :
  inv (stc := False) idle k -> uxSchedulerSuspended k = 0 -> listLIST_IS_EMPTY k (EventList e) = false ->
  xTaskRemoveFromEventList k e = Ok (k', false) -> ready k t ->
  pxCurrentTCB k' = pxCurrentTCB k /\ xPendSV k' = xPendSV k /\ (forall u, priority k' u = priority k u) /\ ready k' t.
Proof.
  intros I Hs Hl. pose proof (inv_wf _ _ I) as W. destruct (inv_current _ _ I) as [c Hc].
  destruct (event_head _ _ _ W Hl) as (w & l & Hh & He & Hst & _).
  destruct (event_wake_ok _ k w l _ W Hst He) as (k1 & k2 & E1 & E2 & M1 & _ & W3 & M).
  unfold xTaskRemoveFromEventList. rewrite Hh, E1. cbn [res_bind]. rewrite (fr_suspended _ _ (mv_frame _ _ _ _ _ M1)), Hs.
  cbn [Z.eqb]. rewrite E2. cbn [res_bind]. unfold current. pose proof (mv_frame _ _ _ _ _ M) as F. rewrite (fr_current _ _ F), Hc. cbn [res_bind].
  pose proof (later_moved _ _ _ M) as L. destruct (_ <? _); [done|]. intros [= <-] Hr.
  split_and!; [by rewrite (fr_current _ _ F)|apply F|intros u; by apply frame_priority|by apply (later_ready k)].
Qed.

(** C39: the switch that [highest_priority_runs] needs is missed in general, not in one
    run.  In every reachable state in which a task runs with the scheduler not
    suspended, if it gives a mutex for which a task waits, loses an inherited priority
    and the wake-up of the waiting task asks for no switch, then the give returns, no
    switch is pending, and the giver goes on at its base priority although every other
    ready task stays ready: any ready task above that base priority is passed over. *)
Theorem mutex_give_misses_switch (idle : Z) (tasks : list (Z * Z)) (k : kernel) (e c t : Z) :
  task_set idle tasks -> reachable idle tasks k -> enabled idle k (Call (Disinherit e)) -> uxSchedulerSuspended k = 0 ->
  drops_switch k e = true -> pxCurrentTCB k = Some c -> t <> c -> ready k t -> uxBasePriority (tcb k c) < priority k t ->
  exists k', run_event k (Call (Disinherit e)) = Ok k' /\ xPendSV k' = false /\ pxCurrentTCB k' = Some c /\
    ready k' t /\ priority k' c = uxBasePriority (tcb k c) /\ priority k' c < priority k' t.
Proof.
  intros Ht Hr [Hp Hm] Hs Hd Hc Hne Hrt Hlt. pose proof (reachable_inv _ _ _ Ht Hr) as I.
  destruct (disinherit_ok (stc := False) idle k c I Hp Hc (Hm c Hc)) as (k1 & b & E & _ & I1). specialize (I1 (fun f => f)).
  unfold drops_switch in Hd. cbn [run_event run_call]. unfold give_mutex. rewrite Hc, E in *. cbn [res_bind]. destruct b; [|done].
  destruct (disinherit_drops idle k c k1 I Hp Hc E) as (Hc1 & Hp1 & Hs1 & P1 & Hother). destruct (Hother t Hne Hrt) as [Hr1 Pt].
  destruct (listLIST_IS_EMPTY k1 (EventList e)) eqn:El; [done|]. cbn [negb andb] in *.
  destruct (xTaskRemoveFromEventList k1 e) as [[k2 []]|] eqn:E2; try done. exists k2. split; [done|].
  destruct (wakes_quietly idle k1 e k2 t I1 ltac:(congruence) El E2 Hr1) as (Hc2 & Hp2 & P2 & Hr2).
  rewrite !P2, P1, Pt. split_and!; congruence || done.
Qed.

(** The same run with the calls of tasks.c: task 1 holds two mutexes (events 1 and 2),
    for which tasks 2 and 3 wait. *)
Definition two_holds : list event :=
  [Call (Delay 2 [] []); Int PendSV; Call HoldMutex; Call HoldMutex; Call (Delay 3 [] []); Int PendSV;
   Call (Inherit 1); Call (WaitEvent 1 portMAX_DELAY [] []); Int PendSV; Int SysTick; Int SysTick; Int PendSV;
   Call (Inherit 1); Call (WaitEvent 2 portMAX_DELAY [] []); Int PendSV; Int SysTick; Int PendSV;
   Call (Disinherit 2); Int PendSV].

(** Runs of events that a task may make, checked on the way. *)
Definition enabledb (idle : Z) (k : kernel) (e : event) : bool :=
  match e with
  | Int _ => true
  | Call c =>
      negb (xPendSV k) &&
      match c with
      | Delay n _ _ => (0 <=? n) && (n <? 2 ^ 32) && (uxSchedulerSuspended k =? 0) && negb (bool_decide (pxCurrentTCB k = Some idle))
      | WaitEvent _ n _ _ => (0 <? n) && (n <? 2 ^ 32) && (uxSchedulerSuspended k =? 0) && negb (bool_decide (pxCurrentTCB k = Some idle))
      | Disinherit _ => match pxCurrentTCB k with Some c => negb (uxMutexesHeld (tcb k c) =? 0) | None => true end
      | Inherit _ | HoldMutex => true
      | _ => false
      end
  end.
Lemma enabledb_ok idle k e : enabledb idle k e = true -> enabled idle k e.
Proof.
  destruct e as [i|c]; [done|]. cbn [enabledb enabled]. intros [Hp Hc]%andb_prop. split; [by destruct (xPendSV k)|].
  destruct c; cbn [may_call]; try done.
  - apply andb_prop in Hc as [[[? ?]%andb_prop ?]%andb_prop Hi]. case_bool_decide; [done|]. split; [lia|]. split; [lia|done].
  - apply andb_prop in Hc as [[[? ?]%andb_prop ?]%andb_prop Hi]. case_bool_decide; [done|]. split; [lia|]. split; [lia|done].
  - intros c Ec. rewrite Ec in Hc. by destruct (Z.eqb_spec (uxMutexesHeld (tcb k c)) 0).
Qed.
Definition play (idle : Z) (k : kernel) (es : list event) : res kernel :=
  res_fold (fun k e => do! assert (enabledb idle k e) in run_event k e) k es.
Lemma play_reachable idle tasks es : forall k k', reachable idle tasks k -> play idle k es = Ok k' -> reachable idle tasks k'.
Proof.
  induction es as [|e es IH]; intros k k' Hr; unfold play; cbn [res_fold]; [by intros [= <-]|].
  destruct (enabledb idle k e) eqn:He; [|done]. cbn [assert res_bind]. destruct (run_event k e) as [k1|] eqn:E; [|done]. cbn [res_bind].
  apply IH. by apply (reach_step _ _ k e); [|apply enabledb_ok|].
Qed.
Lemma played_reachable idle tasks es :
  (if let! k := boot tasks in play idle k es then true else false) = true ->
  reachable idle tasks (RtosBoot.after (let! k := boot tasks in play idle k es)).
Proof.
  destruct (boot tasks) as [k|] eqn:E; [|done]. cbn [res_bind]. destruct (play idle k es) as [k'|] eqn:E'; [|done]. intros _.
  apply (play_reachable idle tasks es k); [by apply reach_boot|done].
Qed.
Definition misses_start : kernel := RtosBoot.after (let! k := boot three_tasks in play 0 k two_holds).
Lemma three_tasks_ok : task_set 0 three_tasks.
Proof. split_and!; [repeat constructor; set_solver|repeat constructor; done|unfold three_tasks; set_solver|done]. Qed.
Lemma misses_reachable : reachable 0 three_tasks misses_start.
Proof. apply (played_reachable 0 three_tasks two_holds). vm_compute. exact eq_refl. Qed.
(** Task 1, of priority 2, gives the mutex of event 1 while task 3 is ready. *)
Lemma mutex_give_misses_switch_witness :
  exists k', run_event misses_start (Call (Disinherit 1)) = Ok k' /\ xPendSV k' = false /\ pxCurrentTCB k' = Some 1 /\
    ready k' 3 /\ priority k' 1 = uxBasePriority (tcb misses_start 1) /\ priority k' 1 < priority k' 3.
Proof.
  apply (mutex_give_misses_switch 0 three_tasks misses_start 1 1 3 three_tasks_ok misses_reachable);
    [apply enabledb_ok; by vm_compute|by vm_compute|by vm_compute|by vm_compute|done|by vm_compute|by vm_compute].
Defined.

(** ** A task that takes a mutex twice

    Task 1 holds the mutex; task 3 waits for it for two ticks, which gives task 1 the
    priority 3, and task 1 then takes it again, for five ticks.  Task 3 times out while
    task 1 waits, then task 1 does. *)
Definition taken_twice : list action :=
  [DelayFor 2; Switch; Take mutex1 portMAX_DELAY; Ticks 2; Switch; Take mutex1 2; Switch; Take mutex1 5; Switch;
   Ticks 2; Switch; Resumes; DelayFor 20; Switch; Ticks 5; Switch].

(** The run ends in the assertion of [vTaskPriorityDisinheritAfterTimeout]. *)
Lemma taken_twice_run :
  summary [1; 3] (mutex_program [(1, 1); (3, 3); (0, 0)] 1 taken_twice) =
    Some (mkSummary (Some 1) false 0 [(3, Some (ReadyTasks 3)); (3, Some DelayedTaskList1)]) /\
  mutex_program [(1, 1); (3, 3); (0, 0)] 1 (taken_twice ++ [Resumes]) = Fault AssertFailure.
Proof. split; vm_compute; exact eq_refl. Qed.

(** C40: when a time-out on a mutex fails an assertion.  In every reachable state, let
    [t] hold a mutex and let [p] be the highest priority of the tasks that still wait
    for it.  [vTaskPriorityDisinheritAfterTimeout] returns, except when the task that
    has timed out is itself the holder, holds no other mutex, and runs at a priority
    other than the greater of its base priority and [p]: then its assertion fails.  The
    comment at the assertion says that this cannot happen. *)
Theorem mutex_timeout_asserts (idle : Z) (tasks : list (Z * Z)) (k : kernel) (c t p : Z) :
  task_set idle tasks -> reachable idle tasks k -> pxCurrentTCB k = Some c -> uxMutexesHeld (tcb k t) <> 0 -> p < configMAX_PRIORITIES ->
  let asserts := t = c /\ uxMutexesHeld (tcb k t) = 1 /\ priority k t <> Z.max (uxBasePriority (tcb k t)) p in
  (asserts -> vTaskPriorityDisinheritAfterTimeout k (Some t) p = Fault AssertFailure) /\
  (~ asserts -> exists k', vTaskPriorityDisinheritAfterTimeout k (Some t) p = Ok k').
Proof.
  intros Ht Hr Hc Hm Hp. cbv zeta. destruct (decide (t = c)) as [->|Hne].
  - unfold vTaskPriorityDisinheritAfterTimeout. rewrite (proj2 (Z.eqb_neq _ 0) Hm), bool_decide_eq_true_2 by done. cbn [negb assert res_bind].
    replace (if uxBasePriority (tcb k c) <? p then p else uxBasePriority (tcb k c)) with (Z.max (uxBasePriority (tcb k c)) p)
      by (destruct (Z.ltb_spec (uxBasePriority (tcb k c)) p); lia).
    destruct (Z.eqb_spec (priority k c) (Z.max (uxBasePriority (tcb k c)) p)), (Z.eqb_spec (uxMutexesHeld (tcb k c)) 1); cbn [negb andb];
      (split; [try done; intros; lia|intros Hn; try (by exists k)]). by destruct Hn.
  - split; [by intros [? _]|intros _].
    destruct (disinherit_timeout_ok (stc := False) idle k c t p (fun f => f) (reachable_inv _ _ _ Ht Hr) Hc Hne Hm Hp) as (k' & E & _). by exists k'.
Qed.

(** The run above with the calls of tasks.c: task 1 has timed out on its own mutex, at
    the priority 3 that task 3 left it. *)
Definition twice_held : list event :=
  [Call (Delay 2 [] []); Int PendSV; Call HoldMutex; Int SysTick; Int SysTick; Int PendSV;
   Call (Inherit 1); Call (WaitEvent 1 2 [] []); Int PendSV; Call (Inherit 1); Call (WaitEvent 1 5 [] []); Int PendSV;
   Int SysTick; Int SysTick; Int PendSV; Call (Delay 20 [] []); Int PendSV;
   Int SysTick; Int SysTick; Int SysTick; Int SysTick; Int SysTick; Int PendSV].
Definition two_tasks : list (Z * Z) := [(1, 1); (3, 3); (0, 0)].
Definition twice_state : kernel := RtosBoot.after (let! k := boot two_tasks in play 0 k twice_held).
Lemma mutex_tasks_ok : task_set 0 two_tasks.
Proof. split_and!; [repeat constructor; set_solver|repeat constructor; done|unfold two_tasks; set_solver|done]. Qed.
Lemma twice_reachable : reachable 0 two_tasks twice_state.
Proof. apply (played_reachable 0 two_tasks twice_held). vm_compute. exact eq_refl. Qed.
Lemma mutex_timeout_asserts_witness :
  pxCurrentTCB twice_state = Some 1 /\ vTaskPriorityDisinheritAfterTimeout twice_state (Some 1) 0 = Fault AssertFailure.
Proof.
  split; [by vm_compute|]. apply (mutex_timeout_asserts 0 two_tasks twice_state 1 1 0 mutex_tasks_ok twice_reachable);
    [by vm_compute|by vm_compute|by vm_compute|]. split_and!; [done|by vm_compute|by vm_compute].
Defined.

(** ** Priority inheritance

    Task 3 waits for the mutex that task 1 holds: task 1 runs with the priority of
    task 3, also when task 2 (priority 2) is ready, and is back at its own when it has
    given the mutex to task 3. *)
Definition inheritance : list action :=
  [DelayFor 2; Switch; DelayFor 4; Switch; Take mutex1 portMAX_DELAY; Ticks 2; Switch; Take mutex1 portMAX_DELAY; Switch; Ticks 2; Switch].
Lemma inheritance_run :
  summary [1; 2; 3] (mutex_program [(1, 1); (2, 2); (3, 3); (0, 0)] 1 inheritance) =
    Some (mkSummary (Some 1) false 0 [(3, Some (ReadyTasks 3)); (2, Some (ReadyTasks 2)); (3, Some SuspendedTaskList)]) /\
  summary [1; 2; 3] (mutex_program [(1, 1); (2, 2); (3, 3); (0, 0)] 1 (inheritance ++ [Give mutex1; Switch])) =
    Some (mkSummary (Some 3) false 0 [(1, Some (ReadyTasks 1)); (2, Some (ReadyTasks 2)); (3, Some (ReadyTasks 3))]).
Proof. split; vm_compute; exact eq_refl. Qed.
End RtosMutex.
