(* ===== verification/RtosTimer.v ===== *)
(** * Software timers

    [Demo_FreeRTOS/FreeRTOS/Source/timers.c]: the timers, the two lists of active
    timers, and the timer task that other tasks send their commands to, through a
    queue.  A callback acts on the timers by sending commands like everyone else; the
    calls are recorded. *)

From S2P Require Import Prelude Words RtosList RtosHeap RtosSeq RtosSched RtosQueue RtosSchedProps RtosBoot RtosQueueSys RtosQueueRun.
From stdpp Require Import list strings.
#[local] Open Scope Z_scope.

Module RtosTimer.
Export RtosQueueRun.

Definition tmrMAX_TIME_BEFORE_OVERFLOW : Z := 2 ^ 32 - 1.
Definition tmrSTATUS_IS_ACTIVE : Z := 0x01.
Definition tmrSTATUS_IS_STATICALLY_ALLOCATED : Z := 0x02.
Definition tmrSTATUS_IS_AUTORELOAD : Z := 0x04.
Definition tmrCOMMAND_EXECUTE_CALLBACK_FROM_ISR : Z := -2.
Definition tmrCOMMAND_EXECUTE_CALLBACK : Z := -1.
Definition tmrCOMMAND_START_DONT_TRACE : Z := 0.
Definition tmrCOMMAND_START : Z := 1.
Definition tmrCOMMAND_RESET : Z := 2.
Definition tmrCOMMAND_STOP : Z := 3.
Definition tmrCOMMAND_CHANGE_PERIOD : Z := 4.
Definition tmrCOMMAND_DELETE : Z := 5.
Definition tmrFIRST_FROM_ISR_COMMAND : Z := 6.
Definition tmrCOMMAND_START_FROM_ISR : Z := 6.
Definition tmrCOMMAND_RESET_FROM_ISR : Z := 7.
Definition tmrCOMMAND_STOP_FROM_ISR : Z := 8.
Definition tmrCOMMAND_CHANGE_PERIOD_FROM_ISR : Z := 9.
Definition configTIMER_QUEUE_LENGTH : Z := 10.
Definition configTIMER_TASK_PRIORITY : Z := 2.
Definition configTIMER_TASK_STACK_DEPTH : Z := 180.
Definition sizeof_Timer_t : Z := 44.
Definition offset_uxTimerNumber : Z := 36.
Definition sizeof_DaemonTaskMessage_t : Z := 16.

(** The list item of a timer is in the store of the lists, under the address of the
    timer; the name, which no function changes, is not part of the model. *)
Record Timer_t := mkTimer { xTimerPeriodInTicks : Z; pvTimerID : Z; pxCallbackFunction : Z; uxTimerNumber : Z; ucStatus : Z }.
#[global] Instance eta_Timer : Eta Timer_t := fun x =>
  mkTimer (xTimerPeriodInTicks x) (pvTimerID x) (pxCallbackFunction x) (uxTimerNumber x) (ucStatus x).

Inductive tlist := xActiveTimerList1 | xActiveTimerList2.
#[global] Instance tlist_eq_dec : EqDecision tlist.
Proof. solve_decision. Defined.
#[global] Instance tlist_countable : Countable tlist.
Proof.
  refine (inj_countable' (fun l => match l with xActiveTimerList1 => true | xActiveTimerList2 => false end)
            (fun b : bool => if b then xActiveTimerList1 else xActiveTimerList2) _).
  by intros [].
Defined.

(** A call of the application's functions by the timer task: the callback of a timer,
    or a function another task asked for. *)
Inductive tcall := Callback (xTimer : Z) | Pended (xFunctionToPend pvParameter1 ulParameter2 : Z).

(** The timers by their address, the lists, the file scope variables, [xLastTime] of
    [prvSampleTimeNow], and the calls so far. *)
Record timers := mkTimers {
  tctl : gmap Z Timer_t;
  tst : RtosSeq.store Z tlist;
  pxCurrentTimerList : tlist;
  pxOverflowTimerList : tlist;
  xTimerQueue : Z;
  xTimerTaskHandle : Z;
  xLastTime : Z;
  tcalls : list tcall;
}.
#[global] Instance eta_timers : Eta timers := fun T =>
  mkTimers (tctl T) (tst T) (pxCurrentTimerList T) (pxOverflowTimerList T) (xTimerQueue T) (xTimerTaskHandle T) (xLastTime T) (tcalls T).
Definition no_timers : timers := mkTimers ∅ (RtosSeq.mkStore ∅ ∅) xActiveTimerList1 xActiveTimerList2 0 0 0 [].

Definition get_timer (T : timers) (t : Z) : res Timer_t :=
  match tctl T !! t with Some x => Ok x | None => Fault NullPointer end.
Definition put_timer (T : timers) (t : Z) (x : Timer_t) : timers := T <| tctl := <[t := x]> (tctl T) |>.
Definition set_status (x : Timer_t) (bit : Z) : Timer_t := x <| ucStatus := Z.lor (ucStatus x) bit |>.
Definition clear_status (x : Timer_t) (bit : Z) : Timer_t := x <| ucStatus := Z.land (ucStatus x) (u 8 (Z.lnot bit)) |>.
Definition has_status (x : Timer_t) (bit : Z) : bool := negb (Z.land (ucStatus x) bit =? 0).
Definition called (T : timers) (c : tcall) : timers := T <| tcalls := tcalls T ++ [c] |>.

(** ** The lists of active timers *)

Definition expiry (T : timers) (t : Z) : Z := s_value (item (tst T) t).
Definition timers_on (T : timers) (l : tlist) : list Z := on (tst T) l.

(** The result: whether the timer has to be processed now. *)
Definition prvInsertTimerInActiveList (T : timers) (t xNextExpiryTime xTimeNow xCommandTime : Z) : res (timers * bool) :=
  let! x := get_timer T t in
  let T := T <| tst := seq_set_value (tst T) t xNextExpiryTime |> in
  if xNextExpiryTime <=? xTimeNow then
    if xTimerPeriodInTicks x <=? u32 (xTimeNow - xCommandTime) then Ok (T, true)
    else Ok (T <| tst := seq_insert (tst T) (pxOverflowTimerList T) t |>, false)
  else if (xTimeNow <? xCommandTime) && (xCommandTime <=? xNextExpiryTime) then Ok (T, true)
  else Ok (T <| tst := seq_insert (tst T) (pxCurrentTimerList T) t |>, false).

Fixpoint reload_loop (fuel : nat) (T : timers) (t xExpiredTime xTimeNow : Z) : res timers :=
  match fuel with
  | O => Fault OutOfFuel
  | S fuel =>
      let! x := get_timer T t in
      let xNext := u32 (xExpiredTime + xTimerPeriodInTicks x) in
      let! '(T, now) := prvInsertTimerInActiveList T t xNext xTimeNow xExpiredTime in
      if now : bool then reload_loop fuel (called T (Callback t)) t xNext xTimeNow else Ok T
  end.
(** One iteration for each period that has passed, and the last one. *)
Definition prvReloadTimer (T : timers) (t xExpiredTime xTimeNow : Z) : res timers :=
  let! x := get_timer T t in
  reload_loop (S (Z.to_nat (u32 (xTimeNow - xExpiredTime) / xTimerPeriodInTicks x))) T t xExpiredTime xTimeNow.

(** What happens to a timer that has expired and is off the lists. *)
Definition expired (T : timers) (t xExpiredTime xTimeNow : Z) : res timers :=
  let! x := get_timer T t in
  let! T := if has_status x tmrSTATUS_IS_AUTORELOAD then prvReloadTimer T t xExpiredTime xTimeNow
            else Ok (put_timer T t (clear_status x tmrSTATUS_IS_ACTIVE)) in
  Ok (called T (Callback t)).
Definition prvProcessExpiredTimer (T : timers) (xNextExpireTime xTimeNow : Z) : res timers :=
  match seq_head (tst T) (pxCurrentTimerList T) with
  | None => Fault NullPointer
  | Some t =>
      match seq_remove (tst T) t with
      | None => Fault NullPointer
      | Some (st, _) => expired (T <| tst := st |>) t xNextExpireTime xTimeNow
      end
  end.

(** The loop over the timers left on the current list. *)
Fixpoint flush_list (fuel : nat) (T : timers) : res timers :=
  match seq_head (tst T) (pxCurrentTimerList T) with
  | None => Ok T
  | Some t =>
      match fuel with
      | O => Fault OutOfFuel
      | S fuel => let! T := prvProcessExpiredTimer T (expiry T t) tmrMAX_TIME_BEFORE_OVERFLOW in flush_list fuel T
      end
  end.
Definition prvSwitchTimerLists (T : timers) : res timers :=
  let! T := flush_list (length (timers_on T (pxCurrentTimerList T))) T in
  Ok (T <| pxCurrentTimerList := pxOverflowTimerList T |> <| pxOverflowTimerList := pxCurrentTimerList T |>).

(** The result: whether the lists were switched; [xTimeNow] is the tick count. *)
Definition prvSampleTimeNow (T : timers) (xTimeNow : Z) : res (timers * bool) :=
  let! '(T, switched) := if xTimeNow <? xLastTime T then let! T := prvSwitchTimerLists T in Ok (T, true) else Ok (T, false) in
  Ok (T <| xLastTime := xTimeNow |>, switched).

(** The time, and whether the list was empty. *)
Definition prvGetNextExpireTime (T : timers) : Z * bool :=
  match seq_head (tst T) (pxCurrentTimerList T) with
  | Some t => (expiry T t, false)
  | None => (0, true)
  end.

(** ** Commands *)

(** [DaemonTaskMessage_t]: the command and the members of the union it uses. *)
Inductive message :=
  | TimerMessage (xMessageID xMessageValue pxTimer : Z)
  | CallbackMessage (xMessageID pxCallbackFunction pvParameter1 ulParameter2 : Z).
(** A timer message leaves the last word of the structure as it was. *)
Definition message_bytes (m : message) (rest : list Z) : list Z :=
  match m with
  | TimerMessage id v t => le_bytes 4 (u32 id) ++ le_bytes 4 v ++ le_bytes 4 t ++ rest
  | CallbackMessage id f p1 p2 => le_bytes 4 (u32 id) ++ le_bytes 4 f ++ le_bytes 4 p1 ++ le_bytes 4 p2
  end.
Definition word_at (bs : list Z) (i : nat) : Z := le_word (take 4 (drop (4 * i) bs)).
Definition read_message (bs : list Z) : message :=
  let id := s32 (word_at bs 0) in
  if id <? 0 then CallbackMessage id (word_at bs 1) (word_at bs 2) (word_at bs 3)
  else TimerMessage id (word_at bs 1) (word_at bs 2).

Definition timer_command (T : timers) (xTimeNow id value t : Z) : res timers :=
  let! x := get_timer T t in
  if (id =? tmrCOMMAND_START) || (id =? tmrCOMMAND_START_FROM_ISR) || (id =? tmrCOMMAND_RESET) || (id =? tmrCOMMAND_RESET_FROM_ISR) then
    let x := set_status x tmrSTATUS_IS_ACTIVE in
    let xNext := u32 (value + xTimerPeriodInTicks x) in
    let! '(T, now) := prvInsertTimerInActiveList (put_timer T t x) t xNext xTimeNow value in
    if now : bool then expired T t xNext xTimeNow else Ok T
  else if (id =? tmrCOMMAND_STOP) || (id =? tmrCOMMAND_STOP_FROM_ISR) then Ok (put_timer T t (clear_status x tmrSTATUS_IS_ACTIVE))
  else if (id =? tmrCOMMAND_CHANGE_PERIOD) || (id =? tmrCOMMAND_CHANGE_PERIOD_FROM_ISR) then
    let T := put_timer T t ((set_status x tmrSTATUS_IS_ACTIVE) <| xTimerPeriodInTicks := value |>) in
    do! assert (0 <? value) in
    let! '(T, _) := prvInsertTimerInActiveList T t (u32 (xTimeNow + value)) xTimeNow xTimeNow in Ok T
  else if id =? tmrCOMMAND_DELETE then
    if has_status x tmrSTATUS_IS_STATICALLY_ALLOCATED then Ok (put_timer T t (clear_status x tmrSTATUS_IS_ACTIVE))
    else do! RtosHeap.RtosHeap.vPortFree t in Ok T
  else Ok T.

(** The body of the loop of [prvProcessReceivedCommands]; [xTimeNow] is the tick count. *)
Definition process_message (T : timers) (xTimeNow : Z) (m : message) : res timers :=
  match m with
  | CallbackMessage _ f p1 p2 => Ok (called T (Pended f p1 p2))
  | TimerMessage id value t =>
      do! get_timer T t in
      let! T := match seq_remove (tst T) t with Some (st, _) => Ok (T <| tst := st |>) | None => Ok T end in
      let! '(T, _) := prvSampleTimeNow T xTimeNow in
      timer_command T xTimeNow id value t
  end.

(** ** The timer task *)

(** The task is at the start of its loop, in the loop over the commands, or has taken
    a message from the queue. *)
Inductive daemon_pc := AtTimers | AtCommands | AtMessage (m : message).
Record tsys := mkTsys { tsys_sys : sys; tsys_timers : timers; tsys_pc : daemon_pc }.

Definition prvProcessTimerOrBlockTask (isr : nat -> sys -> res sys) (s : sys) (T : timers) (xNextExpireTime : Z) (xListWasEmpty : bool)
    : res (sys * timers) :=
  let! s := isr 1%nat (put_kern s (vTaskSuspendAll (kern s))) in
  let xTimeNow := xTickCount (kern s) in
  let! '(T, xTimerListsWereSwitched) := prvSampleTimeNow T xTimeNow in
  if negb xTimerListsWereSwitched then
    if negb xListWasEmpty && (xNextExpireTime <=? xTimeNow) then
      let! '(k, _) := xTaskResumeAll (kern s) in
      let! T := prvProcessExpiredTimer T xNextExpireTime xTimeNow in
      Ok (put_kern s k, T)
    else
      let xListWasEmpty := if xListWasEmpty then seq_empty (tst T) (pxOverflowTimerList T) else xListWasEmpty in
      let! s := vQueueWaitForMessageRestricted isr s (xTimerQueue T) (u32 (xNextExpireTime - xTimeNow)) xListWasEmpty in
      let! s := isr 8%nat s in
      let! '(k, yielded) := xTaskResumeAll (kern s) in
      Ok (put_kern s (if yielded : bool then k else portYIELD k), T)
  else
    let! s := isr 8%nat s in
    let! '(k, _) := xTaskResumeAll (kern s) in
    Ok (put_kern s k, T).

(** A step of [prvTimerTask]: one call of [prvProcessTimerOrBlockTask], the receipt of
    one message, or what the message asks for. *)
Definition timer_task_step (isr : nat -> sys -> res sys) (d : tsys) : res tsys :=
  let '(mkTsys s T pc) := d in
  match pc with
  | AtTimers =>
      let '(xNextExpireTime, xListWasEmpty) := prvGetNextExpireTime T in
      let! '(s, T) := prvProcessTimerOrBlockTask isr s T xNextExpireTime xListWasEmpty in
      Ok (mkTsys s T AtCommands)
  | AtCommands =>
      let! p := xQueueReceive_start s (xTimerQueue T) 0 in
      let! '(s, p) := step_call isr xQueueReceive s (xTimerQueue T) p in
      match p with
      | Return (Some bs) => Ok (mkTsys s T (AtMessage (read_message bs)))
      | _ => Ok (mkTsys s T AtTimers)
      end
  | AtMessage m => let! T := process_message T (xTickCount (kern s)) m in Ok (mkTsys s T AtCommands)
  end.

(** ** The interface *)

(** What [xTimerGenericCommand] asks of the queue of the timer task: nothing before
    the queue exists, otherwise a call, or a send from an interrupt. *)
Inductive command_call :=
  | NoTimerQueue
  | FromTask (o : operation) (q xTicksToWait : Z)
  | FromISR (i : qint).
Definition xTimerGenericCommand (k : kernel) (T : timers) (xTimer xCommandID xOptionalValue xTicksToWait : Z) (rest : list Z)
    : res command_call :=
  do! assert (negb (xTimer =? 0)) in
  if xTimerQueue T =? 0 then Ok NoTimerQueue
  else
    let bs := message_bytes (TimerMessage xCommandID xOptionalValue xTimer) rest in
    if xCommandID <? tmrFIRST_FROM_ISR_COMMAND then
      Ok (FromTask (xQueueGenericSend (Some bs) queueSEND_TO_BACK) (xTimerQueue T)
            (if xSchedulerRunning k && (uxSchedulerSuspended k =? 0) then xTicksToWait else 0))
    else Ok (FromISR (QSend (xTimerQueue T) (Some bs) queueSEND_TO_BACK)).
Definition xTimerPendFunctionCall (T : timers) (f p1 p2 xTicksToWait : Z) : res command_call :=
  do! assert (negb (xTimerQueue T =? 0)) in
  Ok (FromTask (xQueueGenericSend (Some (message_bytes (CallbackMessage tmrCOMMAND_EXECUTE_CALLBACK f p1 p2) [])) queueSEND_TO_BACK)
        (xTimerQueue T) xTicksToWait).
Definition xTimerPendFunctionCallFromISR (T : timers) (f p1 p2 : Z) : command_call :=
  FromISR (QSend (xTimerQueue T) (Some (message_bytes (CallbackMessage tmrCOMMAND_EXECUTE_CALLBACK_FROM_ISR f p1 p2) [])) queueSEND_TO_BACK).

(** ** Creating tasks and timers *)

Definition sizeof_TCB_t : Z := 88.
Definition sizeof_StackType_t : Z := 4.

Section create_timer.
Context (ucHeap : Z) (memory : Z -> Z).
Import RtosHeap.RtosHeap.

(** The handle of the task is the address of its control block. *)
Definition xTaskCreate (s : sys) (usStackDepth uxPriority : Z) : res (sys * option Z) :=
  let '(pxStack, h) := pvPortMalloc ucHeap (sheap s) (u32 (usStackDepth * sizeof_StackType_t)) in
  let s := s <| sheap := h |> in
  if pxStack =? 0 then Ok (s, None)
  else
    let '(pxNewTCB, h) := pvPortMalloc ucHeap (sheap s) sizeof_TCB_t in
    let s := s <| sheap := h |> in
    if pxNewTCB =? 0 then do! vPortFree pxStack in Ok (s, None)
    else let! k := RtosBoot.RtosBoot.create_task (kern s) (pxNewTCB, uxPriority) in Ok (put_kern s k, Some pxNewTCB).

Definition prvCheckForValidListAndQueue (s : sys) (T : timers) : res (sys * timers) :=
  if xTimerQueue T =? 0 then
    let st := put_list (put_list (tst T) xActiveTimerList1 (mkSl [] [])) xActiveTimerList2 (mkSl [] []) in
    let T := T <| tst := st |> <| pxCurrentTimerList := xActiveTimerList1 |> <| pxOverflowTimerList := xActiveTimerList2 |> in
    let! '(s, q) := xQueueGenericCreate ucHeap memory s configTIMER_QUEUE_LENGTH sizeof_DaemonTaskMessage_t queueQUEUE_TYPE_BASE in
    let T := T <| xTimerQueue := q |> in
    if q =? 0 then Ok (s, T) else let! s := vQueueAddToRegistry s q (Some "TmrQ"%string) in Ok (s, T)
  else Ok (s, T).

(** The members of the structure, the list item among them; the number for trace tools
    is what it was. *)
Definition set_members (T : timers) (t xTimerPeriod : Z) (xAutoReload : bool) (id callback number status : Z) : timers :=
  let x := mkTimer xTimerPeriod id callback number status in
  let T := put_timer T t (if xAutoReload then set_status x tmrSTATUS_IS_AUTORELOAD else x) in
  T <| tst := put_item (tst T) t (mkSi (s_value (item (tst T) t)) None) |>.
Definition prvInitialiseNewTimer (s : sys) (T : timers) (t xTimerPeriod : Z) (xAutoReload : bool) (id callback number status : Z) : res (sys * timers) :=
  do! assert (0 <? xTimerPeriod) in
  let! '(s, T) := prvCheckForValidListAndQueue s T in
  Ok (s, set_members T t xTimerPeriod xAutoReload id callback number status).

(** The address of the timer, or 0. *)
Definition xTimerCreate (s : sys) (T : timers) (xTimerPeriod : Z) (xAutoReload : bool) (id callback : Z) : res (sys * timers * Z) :=
  let '(t, h) := pvPortMalloc ucHeap (sheap s) sizeof_Timer_t in
  let s := s <| sheap := h |> in
  if t =? 0 then Ok (s, T, 0)
  else let! '(s, T) := prvInitialiseNewTimer s T t xTimerPeriod xAutoReload id callback (memory_word memory (t + offset_uxTimerNumber)) 0 in
       Ok (s, T, t).

(** Without memory for the queue, the stack or the control block an assertion fails. *)
Definition xTimerCreateTimerTask (s : sys) (T : timers) : res (sys * timers) :=
  let! '(s, T) := prvCheckForValidListAndQueue s T in
  do! assert (negb (xTimerQueue T =? 0)) in
  let! '(s, handle) := xTaskCreate s configTIMER_TASK_STACK_DEPTH configTIMER_TASK_PRIORITY in
  match handle with
  | Some t => Ok (s, T <| xTimerTaskHandle := t |>)
  | None => Fault AssertFailure
  end.
End create_timer.

Definition xTimerGetPeriod (T : timers) (t : Z) : res Z := let! x := get_timer T t in Ok (xTimerPeriodInTicks x).
Definition vTimerSetReloadMode (T : timers) (t : Z) (xAutoReload : bool) : res timers :=
  let! x := get_timer T t in
  Ok (put_timer T t (if xAutoReload then set_status x tmrSTATUS_IS_AUTORELOAD else clear_status x tmrSTATUS_IS_AUTORELOAD)).
Definition xTimerGetReloadMode (T : timers) (t : Z) : res bool := let! x := get_timer T t in Ok (has_status x tmrSTATUS_IS_AUTORELOAD).
Definition xTimerGetExpiryTime (T : timers) (t : Z) : res Z := do! get_timer T t in Ok (expiry T t).
Definition xTimerIsTimerActive (T : timers) (t : Z) : res bool := let! x := get_timer T t in Ok (has_status x tmrSTATUS_IS_ACTIVE).
Definition pvTimerGetTimerID (T : timers) (t : Z) : res Z := let! x := get_timer T t in Ok (pvTimerID x).
Definition uxTimerGetTimerNumber (T : timers) (t : Z) : res Z := let! x := get_timer T t in Ok (uxTimerNumber x).
Definition vTimerSetTimerNumber (T : timers) (t number : Z) : res timers :=
  let! x := get_timer T t in Ok (put_timer T t (x <| uxTimerNumber := number |>)).
Definition xTimerGetTimerDaemonTaskHandle (T : timers) : res Z :=
  do! assert (negb (xTimerTaskHandle T =? 0)) in Ok (xTimerTaskHandle T).
Definition vTimerSetTimerID (T : timers) (t pvNewID : Z) : res timers :=
  let! x := get_timer T t in Ok (put_timer T t (x <| pvTimerID := pvNewID |>)).
End RtosTimer.
