(* ===== verification/RtosTimerProps.v ===== *)
(** * Software timers keep their periods

    The tick count wraps; here time is the number of ticks since the start, and the
    timers have absolute expiry times.  The lists hold the expiry times modulo the
    range of the tick count. *)

From Stdlib Require Import Sorting.Sorted.
From S2P Require Import Prelude RtosSeq RtosSched RtosQueue RtosQueueSys RtosTimer.
From stdpp Require Import list.
#[local] Open Scope Z_scope.

Module RtosTimerProps.
Export RtosTimer.

(** The number of values of the tick count. *)
Abbreviation W := (2 ^ 32).

(** ** The invariant

    [ep] is the number of times the tick count has wrapped, as far as the timer task
    knows; [due] gives the expiry times of the active timers. *)
Record tinv (T : timers) (ep : Z) (due : gmap Z Z) : Prop := {
  ti_store : store_ok (tst T);
  ti_lists : pxCurrentTimerList T <> pxOverflowTimerList T;
  ti_period t x : tctl T !! t = Some x -> 0 < xTimerPeriodInTicks x < W;
  ti_due t E : due !! t = Some E -> is_Some (tctl T !! t) /\ expiry T t = E mod W /\
    (E / W = ep /\ s_container (item (tst T) t) = Some (pxCurrentTimerList T) \/
     E / W = ep + 1 /\ s_container (item (tst T) t) = Some (pxOverflowTimerList T));
  ti_active t l : s_container (item (tst T) t) = Some l -> is_Some (due !! t);
  ti_sorted l : StronglySorted (fun x y => expiry T x <= expiry T y) (timers_on T l);
}.

(** ** Absolute and wrapped times *)

(** The two comparisons of [prvInsertTimerInActiveList] decide whether the absolute
    expiry time has passed, and otherwise on which side of the next wrap it is. *)
Lemma wrapped_cases now C P ep :
  0 < P < W -> C <= now < C + W -> now / W = ep ->
  let E := C + P in
  if E mod W <=? now mod W
  then (P <=? u32 (now mod W - C mod W)) = (E <=? now) /\ (now < E -> E / W = ep + 1)
  else (now mod W <? C mod W) && (C mod W <=? E mod W) = (E <=? now) /\ (now < E -> E / W = ep).
Proof.
  intros HP HC <- E. assert (u32 (now mod W - C mod W) = now - C) as ->.
  { unfold u. change (2 ^ Z.of_nat 32) with W. rewrite <- Zminus_mod. apply Z.mod_small. lia. }
  pose proof (Z.div_mod now W ltac:(lia)) as Hn. pose proof (Z.mod_pos_bound now W ltac:(lia)) as Hn'.
  pose proof (Z.div_mod C W ltac:(lia)) as Hc. pose proof (Z.mod_pos_bound C W ltac:(lia)) as Hc'.
  pose proof (Z.div_mod E W ltac:(lia)) as He. pose proof (Z.mod_pos_bound E W ltac:(lia)) as He'.
  subst E. set (E := C + P) in *. assert (E = C + P) as HE by done. clearbody E.
  set (a := now mod W) in *. set (c := C mod W) in *. set (e := E mod W) in *. clearbody a c e.
  set (qn := now / W) in *. set (qc := C / W) in *. set (qe := E / W) in *. clearbody qn qc qe.
  destruct (Z.leb_spec e a).
  - split; [|lia]. destruct (Z.leb_spec P (now - C)), (Z.leb_spec E now); lia.
  - split; [|lia]. destruct (Z.ltb_spec a c), (Z.leb_spec c e), (Z.leb_spec E now); cbn; lia.
Qed.
Lemma u32_add a b : u32 (a mod W + b) = (a + b) mod W.
Proof. unfold u. by rewrite Zplus_mod_idemp_l. Qed.

(** ** List operations *)

Definition off_lists (T : timers) (t : Z) : Prop := s_container (item (tst T) t) = None.

Lemma sorted_ext T T' xs :
  (forall t, t ∈ xs -> expiry T' t = expiry T t) ->
  StronglySorted (fun x y => expiry T x <= expiry T y) xs -> StronglySorted (fun x y => expiry T' x <= expiry T' y) xs.
Proof.
  intros Hv Hs. induction Hs as [|x xs Hs IH Hx]; constructor; [apply IH; set_solver|]. rewrite Forall_forall in *. intros y Hy.
  rewrite !Hv by set_solver. auto.
Qed.

Lemma tinv_off T ep due t : tinv T ep due -> due !! t = None -> off_lists T t.
Proof. intros I Ht. unfold off_lists. destruct (s_container _) as [l|] eqn:E; [|done]. destruct (ti_active _ _ _ I t l E). congruence. Qed.

(** A new expiry time for a timer that is on no list. *)
Lemma tinv_set_value T ep due t v :
  tinv T ep due -> due !! t = None -> tinv (T <| tst := seq_set_value (tst T) t v |>) ep due.
Proof.
  intros I Ht. pose proof (tinv_off _ _ _ _ I Ht) as Hoff. destruct I as [H1 H2 H3 H4 H5 H6]. split; rsimpl; try done.
  - by apply seq_set_value_ok.
  - intros u E Hu. assert (t <> u) as Hne by congruence. unfold expiry. rsimpl. rewrite container_set_value, value_set_value, decide_False by done.
    by apply H4.
  - intros u l. rewrite container_set_value. apply H5.
  - intros l. change (timers_on (T <| tst := seq_set_value (tst T) t v |>) l) with (timers_on T l). apply (sorted_ext T); [|apply H6].
    intros u Hu. unfold expiry. rsimpl. rewrite value_set_value, decide_False; [done|]. intros ->. apply (so_on _ H1) in Hu. unfold off_lists in Hoff. congruence.
Qed.

(** The timer is put on the list of its expiry time. *)
Lemma tinv_insert T ep due t l E x :
  tinv T ep due -> due !! t = None -> tctl T !! t = Some x -> expiry T t = E mod W ->
  (E / W = ep /\ l = pxCurrentTimerList T \/ E / W = ep + 1 /\ l = pxOverflowTimerList T) ->
  tinv (T <| tst := seq_insert (tst T) l t |>) ep (<[t := E]> due).
Proof.
  intros I Ht Hx Hv Hl. pose proof (tinv_off _ _ _ _ I Ht) as Hoff. destruct I as [H1 H2 H3 H4 H5 H6].
  pose proof (seq_insert_inserted (tst T) l t H1 Hoff) as R. split; rsimpl; try done.
  - apply R.
  - intros u E' Hu. unfold expiry. rsimpl. rewrite (ins_container _ _ _ _ R), (ins_value _ _ _ _ R). destruct (decide (t = u)) as [<-|Hne].
    + rewrite lookup_insert_eq in Hu. injection Hu as <-. split; [by rewrite Hx|]. split; [done|]. destruct Hl as [[? ->]|[? ->]]; auto.
    + rewrite lookup_insert_ne in Hu by done. by apply H4.
  - intros u m. rewrite (ins_container _ _ _ _ R). destruct (decide (t = u)) as [<-|Hne]; [by rewrite lookup_insert_eq|].
    rewrite lookup_insert_ne by done. apply H5.
  - intros m. apply (sorted_ext T); [intros u _; apply (ins_value _ _ _ _ R)|]. unfold timers_on. rsimpl. destruct (decide (m = l)) as [->|Hne].
    + rewrite on_seq_insert. apply insert_by_sorted, H6.
    + rewrite (ins_other _ _ _ _ R) by done. apply H6.
Qed.

Lemma tinv_remove T ep due t l :
  tinv T ep due -> s_container (item (tst T) t) = Some l ->
  exists st n, seq_remove (tst T) t = Some (st, n) /\ tinv (T <| tst := st |>) ep (delete t due) /\
    forall m, timers_on (T <| tst := st |>) m = del t (timers_on T m).
Proof.
  intros I Hc. destruct I as [H1 H2 H3 H4 H5 H6]. destruct (seq_remove_removed (tst T) t l H1 Hc) as (st & n & E & R).
  exists st, n. split; [done|]. split; [|apply R]. split; rsimpl; try done.
  - apply R.
  - intros u E' Hu. apply lookup_delete_Some in Hu as [Hne Hu]. unfold expiry. rsimpl. rewrite (rm_container _ _ _ R), (rm_value _ _ _ R), decide_False by done.
    by apply H4.
  - intros u m. rewrite (rm_container _ _ _ R). destruct (decide (t = u)) as [<-|Hne]; [done|]. rewrite lookup_delete_ne by done. apply H5.
  - intros m. apply (sorted_ext T); [intros u _; apply (rm_value _ _ _ R)|]. unfold timers_on. rsimpl. rewrite (rm_on _ _ _ R). apply del_sorted, H6.
Qed.

(** ** Starting a timer *)

Lemma timer_insert_ok T ep due t x C now :
  tinv T ep due -> due !! t = None -> tctl T !! t = Some x -> C <= now < C + W -> now / W = ep ->
  let E := C + xTimerPeriodInTicks x in
  exists st, prvInsertTimerInActiveList T t (E mod W) (now mod W) (C mod W) = Ok (T <| tst := st |>, E <=? now) /\
    tinv (T <| tst := st |>) ep (if E <=? now then due else <[t := E]> due).
Proof.
  intros I Ht Hx HC Hn E. pose proof (wrapped_cases now C _ ep (ti_period _ _ _ I t x Hx) HC Hn) as Hw. fold E in Hw. cbv zeta in Hw.
  unfold prvInsertTimerInActiveList, get_timer. rewrite Hx. cbn [res_bind]. rsimpl.
  pose proof (tinv_set_value T ep due t (E mod W) I Ht) as I1. set (T1 := T <| tst := _ |>) in *.
  assert (expiry T1 t = E mod W) as Hv by (unfold T1, expiry; rsimpl; by rewrite value_set_value, decide_True).
  destruct (E mod W <=? now mod W); destruct Hw as [-> He]; destruct (Z.leb_spec E now); try (eexists; split; [done|]; exact I1).
  - eexists. split; [done|]. refine (tinv_insert T1 ep due t _ E x I1 Ht Hx Hv _). right. auto.
  - eexists. split; [done|]. refine (tinv_insert T1 ep due t _ E x I1 Ht Hx Hv _). left. auto.
Qed.

Lemma tinv_ext T T' ep due :
  tinv T ep due -> tst T' = tst T -> pxCurrentTimerList T' = pxCurrentTimerList T -> pxOverflowTimerList T' = pxOverflowTimerList T ->
  (forall t x, tctl T' !! t = Some x -> 0 < xTimerPeriodInTicks x < W) -> (forall t, is_Some (tctl T !! t) -> is_Some (tctl T' !! t)) ->
  tinv T' ep due.
Proof.
  intros [H1 H2 H3 H4 H5 H6] E1 E2 E3 Hp Hs. split; unfold expiry, timers_on in *; rewrite ?E1, ?E2, ?E3; try done.
  intros t E Ht. destruct (H4 t E Ht) as (? & ? & ?). auto.
Qed.
Lemma tinv_called T ep due c : tinv T ep due -> tinv (called T c) ep due.
Proof. intros I. apply (tinv_ext T); try done. apply (ti_period _ _ _ I). Qed.
Lemma tinv_put T ep due t x : tinv T ep due -> 0 < xTimerPeriodInTicks x < W -> tinv (put_timer T t x) ep due.
Proof.
  intros I Hx. apply (tinv_ext T); try done.
  - intros u y. unfold put_timer. rsimpl. destruct (decide (t = u)) as [<-|]; [rewrite lookup_insert_eq; by intros [= <-]|].
    rewrite lookup_insert_ne by done. apply (ti_period _ _ _ I).
  - intros u Hu. unfold put_timer. rsimpl. destruct (decide (t = u)) as [<-|]; [by rewrite lookup_insert_eq|by rewrite lookup_insert_ne].
Qed.

Lemma reload_loop_S fuel T t xExpiredTime xTimeNow :
  reload_loop (S fuel) T t xExpiredTime xTimeNow =
    let! x := get_timer T t in
    let xNext := u32 (xExpiredTime + xTimerPeriodInTicks x) in
    let! '(T, now) := prvInsertTimerInActiveList T t xNext xTimeNow xExpiredTime in
    if now : bool then reload_loop fuel (called T (Callback t)) t xNext xTimeNow else Ok T.
Proof. done. Qed.
(** Reloading catches up: one callback for each period that has passed completely. *)
Lemma reload_loop_ok n T due t x E now ep :
  tinv T ep due -> due !! t = None -> tctl T !! t = Some x -> E <= now < E + W -> now / W = ep ->
  (now - E) / xTimerPeriodInTicks x = Z.of_nat n ->
  exists st, reload_loop (S n) T t (E mod W) (now mod W) = Ok (T <| tst := st |> <| tcalls := tcalls T ++ replicate n (Callback t) |>) /\
    tinv (T <| tst := st |>) ep (<[t := E + (Z.of_nat n + 1) * xTimerPeriodInTicks x]> due).
Proof.
  revert T E. induction n as [|n IH]; intros T E I Ht Hx HE Hn Hd; pose proof (ti_period _ _ _ I t x Hx) as HP;
    rewrite reload_loop_S; unfold get_timer; rewrite Hx; cbn [res_bind]; cbv zeta; rewrite u32_add;
    destruct (timer_insert_ok T ep due t x E now I Ht Hx HE Hn) as (st & -> & I1); cbn [res_bind].
  - assert (now < E + xTimerPeriodInTicks x) as Hlt.
    { pose proof (Z.div_mod (now - E) (xTimerPeriodInTicks x) ltac:(lia)). pose proof (Z.mod_pos_bound (now - E) (xTimerPeriodInTicks x) ltac:(lia)). nia. }
    rewrite (proj2 (Z.leb_gt _ _) Hlt) in *. exists st. split; [|by rewrite Z.add_0_l, Z.mul_1_l]. rewrite app_nil_r. by destruct T.
  - set (P := xTimerPeriodInTicks x) in *.
    assert (E + P <= now) as Hle by (pose proof (Z.div_mod (now - E) P ltac:(lia)); pose proof (Z.mod_pos_bound (now - E) P ltac:(lia)); nia).
    rewrite (proj2 (Z.leb_le _ _) Hle) in *.
    destruct (IH (called (T <| tst := st |>) (Callback t)) (E + P)) as (st2 & E2 & I2); try done; [by apply tinv_called|lia| |].
    { replace (now - (E + P)) with (now - E + (-1) * P) by lia. rewrite Z.div_add by lia. lia. }
    exists st2. rewrite E2. split.
    + unfold called. rsimpl. rewrite <- app_assoc. by destruct T.
    + replace (E + (Z.of_nat (S n) + 1) * P) with (E + P + (Z.of_nat n + 1) * P) by lia.
      apply (tinv_ext _ _ _ _ I2); try done. apply (ti_period _ _ _ I2).
Qed.

Lemma reload_ok T due t x E now ep :
  tinv T ep due -> due !! t = None -> tctl T !! t = Some x -> E <= now < E + W -> now / W = ep ->
  let n := (now - E) / xTimerPeriodInTicks x in
  exists st, prvReloadTimer T t (E mod W) (now mod W) = Ok (T <| tst := st |> <| tcalls := tcalls T ++ replicate (Z.to_nat n) (Callback t) |>) /\
    tinv (T <| tst := st |>) ep (<[t := E + (n + 1) * xTimerPeriodInTicks x]> due).
Proof.
  intros I Ht Hx HE Hn n. pose proof (ti_period _ _ _ I t x Hx) as HP.
  assert (0 <= n) as H0 by (apply Z.div_pos; lia).
  destruct (reload_loop_ok (Z.to_nat n) T due t x E now ep I Ht Hx HE Hn) as (st & E1 & I1); [fold n; lia|].
  exists st. unfold prvReloadTimer, get_timer. rewrite Hx. cbn [res_bind].
  assert (u32 (now mod W - E mod W) = now - E) as -> by (unfold u; rewrite <- Zminus_mod; apply Z.mod_small; lia).
  fold n. rewrite E1. split; [done|]. by rewrite Z2Nat.id in I1.
Qed.

(** ** What the timers do as time passes *)

#[global] Instance tcall_eq_dec : EqDecision tcall.
Proof. solve_decision. Defined.
Definition calls_of (t : Z) (cs : list tcall) : Z := Z.of_nat (length (filter (fun c => c = Callback t) cs)).
Lemma calls_of_app t cs cs' : calls_of t (cs ++ cs') = calls_of t cs + calls_of t cs'.
Proof. unfold calls_of. rewrite filter_app, length_app. lia. Qed.
Lemma calls_of_self t n : calls_of t (replicate n (Callback t)) = Z.of_nat n.
Proof. unfold calls_of. induction n as [|n IH]; [done|]. cbn [replicate]. rewrite filter_cons_True by done. cbn [length]. lia. Qed.
Lemma calls_of_other t u n : t <> u -> calls_of t (replicate n (Callback u)) = 0.
Proof. intros Hne. unfold calls_of. induction n as [|n IH]; [done|]. cbn [replicate]. rewrite filter_cons_False by congruence. done. Qed.

Definition autoreload (x : Timer_t) : bool := has_status x tmrSTATUS_IS_AUTORELOAD.
(** A timer with [n] callbacks up to the time [now]: an auto-reload timer is due [n]
    periods later and none of the callbacks was early; a one-shot timer is called once
    at most, when it was due, and is then no longer active. *)
Definition timer_went (now : Z) (x : option Timer_t) (E : option Z) (n : Z) (x' : option Timer_t) (E' : option Z) : Prop :=
  match E with
  | None => n = 0 /\ E' = None /\ x' = x
  | Some e => exists y, x = Some y /\
      if autoreload y
      then x' = x /\ E' = Some (e + n * xTimerPeriodInTicks y) /\ 0 <= n /\ (0 < n -> e + (n - 1) * xTimerPeriodInTicks y <= now)
      else n = 0 /\ x' = x /\ E' = E \/ n = 1 /\ e <= now /\ E' = None /\ x' = Some (clear_status y tmrSTATUS_IS_ACTIVE)
  end.
Lemma timer_went_refl now x E : (E <> None -> is_Some x) -> timer_went now x E 0 x E.
Proof.
  intros H. destruct E as [e|]; [|done]. destruct (H ltac:(done)) as [y ->]. exists y. split; [done|].
  destruct (autoreload y); [|by left]. split; [done|]. split; [f_equal; lia|]. lia.
Qed.
Lemma timer_went_trans now1 now2 x1 E1 n1 x2 E2 n2 x3 E3 :
  (forall y, x1 = Some y -> 0 < xTimerPeriodInTicks y) -> now1 <= now2 ->
  timer_went now1 x1 E1 n1 x2 E2 -> timer_went now2 x2 E2 n2 x3 E3 -> timer_went now2 x1 E1 (n1 + n2) x3 E3.
Proof.
  intros HP Hle H1 H2. destruct E1 as [e|].
  2: { destruct H1 as (-> & -> & ->). destruct H2 as (-> & -> & ->). done. }
  destruct H1 as (y & -> & H1). specialize (HP y eq_refl). exists y. split; [done|]. destruct (autoreload y) eqn:Ha.
  - destruct H1 as (-> & -> & Hn1 & Hb1). destruct H2 as (y' & [= <-] & H2). rewrite Ha in H2. destruct H2 as (-> & -> & Hn2 & Hb2).
    split; [done|]. split; [f_equal; lia|]. split; [lia|]. intros Hn. destruct (Z.eq_dec n2 0) as [->|]; [|nia]. specialize (Hb1 ltac:(lia)).
    rewrite Z.add_0_r. lia.
  - destruct H1 as [(-> & -> & ->)|(-> & He & -> & ->)].
    + destruct H2 as (y' & [= <-] & H2). by rewrite Ha in H2.
    + destruct H2 as (-> & -> & ->). right. split; [done|]. split; [lia|done].
Qed.

(** The variables but the lists and the calls. *)
Definition same_vars (T T' : timers) : Prop :=
  pxCurrentTimerList T' = pxCurrentTimerList T /\ pxOverflowTimerList T' = pxOverflowTimerList T /\
  xTimerQueue T' = xTimerQueue T /\ xLastTime T' = xLastTime T.
Definition went_on (now : Z) (T : timers) (due : gmap Z Z) (T' : timers) (due' : gmap Z Z) : Prop :=
  exists cs, tcalls T' = tcalls T ++ cs /\
    forall t, timer_went now (tctl T !! t) (due !! t) (calls_of t cs) (tctl T' !! t) (due' !! t).
Lemma went_on_refl now T ep due : tinv T ep due -> went_on now T due T due.
Proof.
  intros I. exists []. split; [by rewrite app_nil_r|]. intros t. apply timer_went_refl. intros Ht.
  destruct (due !! t) as [E|] eqn:HE; [|done]. apply (ti_due _ _ _ I t E HE).
Qed.
Lemma went_on_trans now1 now2 T1 due1 T2 due2 T3 due3 ep :
  tinv T1 ep due1 -> now1 <= now2 -> went_on now1 T1 due1 T2 due2 -> went_on now2 T2 due2 T3 due3 -> went_on now2 T1 due1 T3 due3.
Proof.
  intros I Hle (cs & E1 & H1) (cs' & E2 & H2). exists (cs ++ cs'). split; [by rewrite E2, E1, app_assoc|]. intros t. rewrite calls_of_app.
  eapply timer_went_trans; [|exact Hle|apply H1|apply H2]. intros y Hy. by apply (ti_period _ _ _ I t).
Qed.

(** A timer that was due at [E], is off the lists and is processed. *)
Lemma timer_expired_ok T due t x E now ep :
  tinv T ep due -> due !! t = None -> tctl T !! t = Some x -> E <= now < E + W -> now / W = ep ->
  exists T' due', expired T t (E mod W) (now mod W) = Ok T' /\ tinv T' ep due' /\ same_vars T T' /\ went_on now T (<[t := E]> due) T' due' /\
    (forall u, u <> t -> due' !! u = due !! u) /\ (forall E', due' !! t = Some E' -> now < E').
Proof.
  intros I Ht Hx HE Hn. pose proof (ti_period _ _ _ I t x Hx) as HP. unfold expired. unfold get_timer at 1. rewrite Hx. cbn [res_bind].
  destruct (has_status x tmrSTATUS_IS_AUTORELOAD) eqn:Ha.
  - destruct (reload_ok T due t x E now ep I Ht Hx HE Hn) as (st & -> & I1). cbn [res_bind]. set (n := (now - E) / xTimerPeriodInTicks x) in *.
    assert (0 <= n) as H0 by (apply Z.div_pos; lia).
    assert (n * xTimerPeriodInTicks x <= now - E < (n + 1) * xTimerPeriodInTicks x) as Hnb.
    { unfold n. pose proof (Z.div_mod (now - E) (xTimerPeriodInTicks x) ltac:(lia)). pose proof (Z.mod_pos_bound (now - E) (xTimerPeriodInTicks x) ltac:(lia)). nia. }
    eexists _, _. split; [done|]. split; [apply (tinv_ext _ _ _ _ I1); try done; apply (ti_period _ _ _ I1)|]. split; [done|]. split.
    + exists (replicate (Z.to_nat (n + 1)) (Callback t)). split.
      { unfold called. rsimpl. rewrite <- app_assoc. f_equal. replace (Z.to_nat (n + 1)) with (Z.to_nat n + 1)%nat by lia. by rewrite replicate_add. }
      intros u. destruct (decide (t = u)) as [<-|Hne].
      * rewrite !lookup_insert_eq, calls_of_self, Z2Nat.id by lia. exists x. split; [done|]. unfold autoreload. rewrite Ha.
        split; [done|]. split; [done|]. split; [lia|]. intros _. replace (n + 1 - 1) with n by lia. lia.
      * rewrite !lookup_insert_ne, calls_of_other by congruence. apply timer_went_refl. intros Hu. destruct (due !! u) as [e|] eqn:He; [|done].
        apply (ti_due _ _ _ I u e He).
    + split; [intros u Hu; by rewrite lookup_insert_ne|]. rewrite lookup_insert_eq. intros E' [= <-]. lia.
  - cbn [res_bind]. eexists _, due. split; [done|]. split; [apply tinv_called, tinv_put; done|]. split; [done|]. split.
    + exists [Callback t]. split; [done|]. intros u. unfold called, put_timer. rsimpl. destruct (decide (t = u)) as [<-|Hne].
      * rewrite !lookup_insert_eq, Ht. replace (calls_of t [Callback t]) with 1 by (symmetry; apply (calls_of_self t 1)).
        exists x. split; [done|]. unfold autoreload. rewrite Ha. right. split; [done|]. split; [lia|done].
      * rewrite !lookup_insert_ne by done. replace (calls_of u [Callback t]) with 0 by (symmetry; by apply (calls_of_other u t 1)).
        apply timer_went_refl. intros Hu. destruct (due !! u) as [e|] eqn:He; [|done]. apply (ti_due _ _ _ I u e He).
    + split; [done|]. intros E'. by rewrite Ht.
Qed.

(** ** The lists *)

Lemma on_current T ep due t : tinv T ep due -> t ∈ timers_on T (pxCurrentTimerList T) <-> exists E, due !! t = Some E /\ E / W = ep.
Proof.
  intros I. pose proof (ti_lists _ _ _ I) as Hne. unfold timers_on. rewrite <- (so_on _ (ti_store _ _ _ I)). split.
  - intros Hc. destruct (ti_active _ _ _ I t _ Hc) as [E HE]. exists E. split; [done|].
    destruct (ti_due _ _ _ I t E HE) as (_ & _ & [[? _]|[_ ?]]); [done|congruence].
  - intros (E & HE & Hep). destruct (ti_due _ _ _ I t E HE) as (_ & _ & [[_ ?]|[? _]]); [done|lia].
Qed.
Lemma head_due T ep due t :
  tinv T ep due -> seq_head (tst T) (pxCurrentTimerList T) = Some t ->
  exists E, due !! t = Some E /\ E / W = ep /\ expiry T t = E mod W /\ s_container (item (tst T) t) = Some (pxCurrentTimerList T) /\
    forall u E', due !! u = Some E' -> E <= E'.
Proof.
  intros I Hh. unfold seq_head in Hh. destruct (on (tst T) (pxCurrentTimerList T)) as [|t' xs] eqn:Eo; [done|]. injection Hh as ->.
  assert (t ∈ timers_on T (pxCurrentTimerList T)) as Hin by (unfold timers_on; rewrite Eo; set_solver).
  apply (on_current _ _ _ _ I) in Hin as Hd. destruct Hd as (E & HE & Hep). destruct (ti_due _ _ _ I t E HE) as (_ & Hv & _).
  exists E. split_and!; try done; [by apply (so_on _ (ti_store _ _ _ I))|]. intros u E' Hu.
  destruct (ti_due _ _ _ I u E' Hu) as (_ & Hv' & [[Hep' Hc]|[Hep' _]]).
  - pose proof (ti_sorted _ _ _ I (pxCurrentTimerList T)) as Hs. unfold timers_on in Hs. rewrite Eo in Hs. inversion Hs as [|? ? _ Hf]; subst.
    apply (so_on _ (ti_store _ _ _ I)) in Hc. rewrite Eo in Hc. apply elem_of_cons in Hc as [->|Hc]; [assert (E' = E) by congruence; lia|].
    rewrite Forall_forall in Hf. specialize (Hf u Hc). rewrite Hv, Hv' in Hf.
    pose proof (Z.div_mod E W ltac:(lia)). pose proof (Z.div_mod E' W ltac:(lia)). lia.
  - pose proof (Z.div_mod E W ltac:(lia)). pose proof (Z.mod_pos_bound E W ltac:(lia)).
    pose proof (Z.div_mod E' W ltac:(lia)). pose proof (Z.mod_pos_bound E' W ltac:(lia)). lia.
Qed.

(** The first timer of the current list has expired. *)
Lemma process_expired_ok T due t E now ep :
  tinv T ep due -> seq_head (tst T) (pxCurrentTimerList T) = Some t -> due !! t = Some E -> E <= now -> now / W = ep ->
  exists T' due', prvProcessExpiredTimer T (E mod W) (now mod W) = Ok T' /\ tinv T' ep due' /\ same_vars T T' /\ went_on now T due T' due' /\
    (forall u, u <> t -> due' !! u = due !! u) /\ (forall E', due' !! t = Some E' -> now < E').
Proof.
  intros I Hh HE Hle Hn. destruct (head_due _ _ _ _ I Hh) as (E0 & HE0 & Hep & _ & Hc & _). assert (E0 = E) as -> by congruence.
  destruct (ti_due _ _ _ I t E HE) as ((x & Hx) & _). destruct (tinv_remove T ep due t _ I Hc) as (st & n & Er & I1 & _).
  unfold prvProcessExpiredTimer. rewrite Hh, Er.
  assert (now < E + W) as Hlt.
  { pose proof (Z.div_mod E W ltac:(lia)). pose proof (Z.mod_pos_bound E W ltac:(lia)).
    pose proof (Z.div_mod now W ltac:(lia)). pose proof (Z.mod_pos_bound now W ltac:(lia)). lia. }
  destruct (timer_expired_ok (T <| tst := st |>) (delete t due) t x E now ep I1) as (T' & due' & -> & I' & Sv & Wo & Ho & Hd); try done; [apply lookup_delete_eq|].
  rewrite insert_delete_id in Wo by done. exists T', due'. split_and!; try done. intros u Hu. by rewrite Ho, lookup_delete_ne.
Qed.
Lemma same_vars_trans T1 T2 T3 : same_vars T1 T2 -> same_vars T2 T3 -> same_vars T1 T3.
Proof. intros (? & ? & ? & ?) (? & ? & ? & ?). repeat split; congruence. Qed.

(** The end of the range of the tick count. *)
Definition epoch_end (ep : Z) : Z := ep * W + W - 1.
Lemma epoch_end_div ep : epoch_end ep / W = ep.
Proof. unfold epoch_end. replace (ep * W + W - 1) with (W - 1 + ep * W) by lia. rewrite Z.div_add by lia. done. Qed.
Lemma epoch_end_mod ep : epoch_end ep mod W = tmrMAX_TIME_BEFORE_OVERFLOW.
Proof. unfold epoch_end. replace (ep * W + W - 1) with (W - 1 + ep * W) by lia. rewrite Z.mod_add by lia. done. Qed.
Lemma epoch_le E ep : E / W = ep -> E <= epoch_end ep.
Proof. intros <-. unfold epoch_end. pose proof (Z.div_mod E W ltac:(lia)). pose proof (Z.mod_pos_bound E W ltac:(lia)). lia. Qed.

Lemma timer_flush_ok fuel T due ep :
  tinv T ep due -> length (timers_on T (pxCurrentTimerList T)) = fuel ->
  exists T' due', flush_list fuel T = Ok T' /\ tinv T' ep due' /\ same_vars T T' /\ went_on (epoch_end ep) T due T' due' /\
    timers_on T' (pxCurrentTimerList T') = [].
Proof.
  revert T due. induction fuel as [|fuel IH]; intros T due I Hlen; cbn [flush_list].
  - apply length_zero_iff_nil in Hlen. assert (seq_head (tst T) (pxCurrentTimerList T) = None) as -> by (by apply seq_head_none).
    exists T, due. split_and!; try done. by apply (went_on_refl _ _ ep).
  - destruct (seq_head (tst T) (pxCurrentTimerList T)) as [t|] eqn:Hh.
    2: { apply seq_head_none in Hh. unfold timers_on in Hlen. rewrite Hh in Hlen. done. }
    destruct (head_due _ _ _ _ I Hh) as (E & HE & Hep & -> & Hc & _). rewrite <- (epoch_end_mod ep).
    destruct (process_expired_ok T due t E (epoch_end ep) ep I Hh HE (epoch_le E ep Hep) (epoch_end_div ep)) as (T1 & due1 & -> & I1 & S1 & W1 & Ho & Hd).
    cbn [res_bind].
    assert (timers_on T (pxCurrentTimerList T) ≡ₚ t :: timers_on T1 (pxCurrentTimerList T1)) as Hperm.
    { apply NoDup_Permutation; [apply (so_nodup _ (ti_store _ _ _ I))| |].
      - apply NoDup_cons. split; [|apply (so_nodup _ (ti_store _ _ _ I1))]. rewrite (on_current _ _ _ _ I1). intros (E' & HE' & Hep').
        specialize (Hd E' HE'). apply epoch_le in Hep'. lia.
      - intros u. rewrite elem_of_cons, (on_current _ _ _ _ I), (on_current _ _ _ _ I1). destruct (decide (u = t)) as [->|Hne].
        + split; [by left|]. intros _. by exists E.
        + rewrite Ho by done. split; [by right|]. by intros [|]. }
    destruct (IH T1 due1 I1) as (T2 & due2 & -> & I2 & S2 & W2 & Hnil).
    { rewrite Hperm in Hlen. cbn in Hlen. lia. }
    exists T2, due2. split_and!; try done; [by eapply same_vars_trans|]. eapply (went_on_trans _ _ _ _ _ _ _ _ ep); done.
Qed.

Lemma timer_switch_ok T due ep :
  tinv T ep due ->
  exists T' due', prvSwitchTimerLists T = Ok T' /\ tinv T' (ep + 1) due' /\ xTimerQueue T' = xTimerQueue T /\ went_on (epoch_end ep) T due T' due'.
Proof.
  intros I. unfold prvSwitchTimerLists. destruct (timer_flush_ok _ T due ep I eq_refl) as (T1 & due1 & -> & I1 & (_ & _ & Hq & _) & Wo & Hnil). cbn [res_bind].
  eexists _, due1. split; [done|]. split_and!; try done.
  assert (forall t E, due1 !! t = Some E -> E / W = ep + 1) as Hd.
  { intros t E HE. destruct (ti_due _ _ _ I1 t E HE) as (_ & _ & [[Hep Hc]|[? _]]); [|done].
    assert (t ∈ timers_on T1 (pxCurrentTimerList T1)) as Hin by (apply (on_current _ _ _ _ I1); by exists E). rewrite Hnil in Hin. set_solver. }
  destruct I1 as [H1 H2 H3 H4 H5 H6]. split; rsimpl; try done.
  intros t E HE. destruct (H4 t E HE) as (? & ? & [[Hep _]|[? ?]]); [rewrite (Hd t E HE) in Hep; lia|]. split; [done|]. split; [done|]. by left.
Qed.

(** The lists and the last sample of the time; no timer is due later than a period
    after it. *)
Record tclock (T : timers) (last : Z) (due : gmap Z Z) : Prop := {
  tc_inv : tinv T (last / W) due;
  tc_last : xLastTime T = last mod W;
  tc_bound t E : due !! t = Some E -> E < last + W;
}.
Lemma timer_went_bound now last x E n x' E' :
  (forall y, x = Some y -> 0 < xTimerPeriodInTicks y < W) -> (forall e, E = Some e -> e < last + W) -> last <= now ->
  timer_went now x E n x' E' -> forall e, E' = Some e -> e < now + W.
Proof.
  intros HP HE Hle H e ->. destruct E as [e0|]; [|by destruct H as (_ & ? & _)]. specialize (HE e0 eq_refl). destruct H as (y & -> & H).
  specialize (HP y eq_refl). destruct (autoreload y).
  - destruct H as (_ & [= ->] & Hn & Hb). destruct (Z.eq_dec n 0) as [->|]; [lia|]. specialize (Hb ltac:(lia)). nia.
  - destruct H as [(_ & _ & [= ->])|(_ & _ & ? & _)]; [lia|done].
Qed.
Lemma went_on_bound now last T due T' due' ep :
  tinv T ep due -> (forall t E, due !! t = Some E -> E < last + W) -> last <= now -> went_on now T due T' due' ->
  forall t E, due' !! t = Some E -> E < now + W.
Proof.
  intros I HE Hle (cs & _ & H) t. eapply timer_went_bound; [..|apply (H t)]; [apply (ti_period _ _ _ I t)|apply HE|done].
Qed.
Lemma sample_ok T last now due :
  tclock T last due -> last <= now < last + W ->
  exists T' due' b, prvSampleTimeNow T (now mod W) = Ok (T', b) /\ tclock T' now due' /\ xTimerQueue T' = xTimerQueue T /\
    went_on now T due T' due' /\ (b = false -> T' = T <| xLastTime := now mod W |> /\ due' = due /\ now / W = last / W).
Proof.
  intros [I Hl Hb] Hn. unfold prvSampleTimeNow. rewrite Hl.
  pose proof (Z.div_mod now W ltac:(lia)). pose proof (Z.mod_pos_bound now W ltac:(lia)).
  pose proof (Z.div_mod last W ltac:(lia)). pose proof (Z.mod_pos_bound last W ltac:(lia)).
  destruct (Z.ltb_spec (now mod W) (last mod W)) as [Hlt|Hge].
  - assert (now / W = last / W + 1) as Hep by lia.
    destruct (timer_switch_ok T due _ I) as (T1 & due1 & -> & I1 & Hq & Wo). cbn [res_bind]. eexists _, due1, true. split; [done|].
    assert (went_on now T due T1 due1) as Wn.
    { eapply (went_on_trans _ now _ _ _ _ _ _ _ I _ Wo). exact (went_on_refl now _ _ _ I1). Unshelve. unfold epoch_end. lia. }
    split; [split; [|done|apply (went_on_bound now last T due T1 due1 _ I Hb ltac:(lia) Wn)]|split; [done|split; [exact Wn|done]]].
    rewrite Hep. apply (tinv_ext _ _ _ _ I1); try done. apply (ti_period _ _ _ I1).
  - assert (now / W = last / W) as Hep by lia. cbn [res_bind]. eexists _, due, false. split; [done|].
    assert (tinv (T <| xLastTime := now mod W |>) (now / W) due) as I' by (rewrite Hep; apply (tinv_ext _ _ _ _ I); try done; apply (ti_period _ _ _ I)).
    split; [split; [done|done|]|split; [done|split; [|done]]]; [intros t E HE; specialize (Hb t E HE); lia|exact (went_on_refl now _ _ _ I)].
Qed.

(** ** A round of the timer task *)

(** What [prvProcessTimerOrBlockTask] does to the timers: it processes a timer, or
    waits, for some ticks or without limit. *)
Definition timer_round (T : timers) (xTimeNow : Z) : res (timers * option (Z * bool)) :=
  let '(xNextExpireTime, xListWasEmpty) := prvGetNextExpireTime T in
  let! '(T, switched) := prvSampleTimeNow T xTimeNow in
  if switched : bool then Ok (T, None)
  else if negb xListWasEmpty && (xNextExpireTime <=? xTimeNow)
  then let! T := prvProcessExpiredTimer T xNextExpireTime xTimeNow in Ok (T, None)
  else Ok (T, Some (u32 (xNextExpireTime - xTimeNow), if xListWasEmpty then seq_empty (tst T) (pxOverflowTimerList T) else xListWasEmpty)).

(** What the timer task may do while it waits: nothing is due before it wakes up, and
    it wakes up when a timer is due or the tick count wraps. *)
Definition wait_right (now : Z) (due : gmap Z Z) (w : Z * bool) : Prop :=
  let '(ticks, indefinitely) := w in
  if indefinitely then forall t, due !! t = None
  else 0 < ticks < W /\ (forall t E, due !! t = Some E -> now + ticks <= E) /\
       ((exists t, due !! t = Some (now + ticks)) \/ (now + ticks) mod W = 0).

Lemma wait_ok T now due ticks ind :
  tclock T now due -> (ticks, ind) = (let '(next, empty) := prvGetNextExpireTime T in
    (u32 (next - now mod W), if empty then seq_empty (tst T) (pxOverflowTimerList T) else empty)) ->
  (forall t E, due !! t = Some E -> now < E) -> wait_right now due (ticks, ind).
Proof.
  intros [I Hl Hb] Hw Hd. unfold prvGetNextExpireTime in Hw. unfold wait_right.
  destruct (seq_head (tst T) (pxCurrentTimerList T)) as [t|] eqn:Hh.
  - injection Hw as -> ->. destruct (head_due _ _ _ _ I Hh) as (E & HE & Hep & -> & _ & Hmin).
    assert (u32 (E mod W - now mod W) = E - now) as ->.
    { specialize (Hd t E HE). specialize (Hb t E HE). unfold u. rewrite <- Zminus_mod. apply Z.mod_small. lia. }
    specialize (Hd t E HE) as Hlt. specialize (Hb t E HE). split; [lia|]. replace (now + (E - now)) with E by lia. split; [done|]. left. by exists t.
  - injection Hw as -> ->. apply seq_head_none in Hh. unfold seq_empty.
    assert (forall t E, due !! t = Some E -> E / W = now / W + 1) as Hov.
    { intros t E HE. destruct (ti_due _ _ _ I t E HE) as (_ & _ & [[Hep _]|[? _]]); [|done].
      assert (t ∈ timers_on T (pxCurrentTimerList T)) as Hin by (apply (on_current _ _ _ _ I); by exists E). unfold timers_on in Hin. rewrite Hh in Hin. set_solver. }
    case_bool_decide as Ho.
    + intros t. destruct (due !! t) as [E|] eqn:HE; [|done]. destruct (ti_due _ _ _ I t E HE) as (_ & _ & [[Hep _]|[_ Hc]]); [specialize (Hov t E HE); lia|].
      apply (so_on _ (ti_store _ _ _ I)) in Hc. rewrite Ho in Hc. set_solver.
    + assert (exists t E, due !! t = Some E) as (t0 & E0 & HE0).
      { destruct (on (tst T) (pxOverflowTimerList T)) as [|t0 xs] eqn:Eo; [done|].
        assert (s_container (item (tst T) t0) = Some (pxOverflowTimerList T)) as Hc by (apply (so_on _ (ti_store _ _ _ I)); rewrite Eo; set_solver).
        destruct (ti_active _ _ _ I t0 _ Hc) as [E0 HE0]. by exists t0, E0. }
      pose proof (Hov t0 E0 HE0) as Hep0. pose proof (Hb t0 E0 HE0) as Hb0.
      pose proof (Z.div_mod now W ltac:(lia)) as Hn. pose proof (Z.mod_pos_bound now W ltac:(lia)) as Hn'.
      pose proof (Z.div_mod E0 W ltac:(lia)) as He. pose proof (Z.mod_pos_bound E0 W ltac:(lia)) as He'.
      assert (u32 (0 - now mod W) = W - now mod W) as -> by (unfold u; symmetry; apply Z.mod_unique with (-1); lia).
      split; [lia|]. split.
      * intros t E HE. specialize (Hov t E HE). pose proof (Z.div_mod E W ltac:(lia)). pose proof (Z.mod_pos_bound E W ltac:(lia)). lia.
      * right. symmetry. apply Z.mod_unique with (now / W + 1); lia.
Qed.

Lemma round_ok T last now due :
  tclock T last due -> last <= now < last + W ->
  exists T' due' w, timer_round T (now mod W) = Ok (T', w) /\ tclock T' now due' /\ xTimerQueue T' = xTimerQueue T /\ went_on now T due T' due' /\
    match w with Some w => wait_right now due' w /\ (forall t E, due' !! t = Some E -> now < E) | None => True end.
Proof.
  intros C Hn. unfold timer_round. destruct (sample_ok T last now due C Hn) as (T1 & due1 & b & Es & C1 & Hq & Wo & Hb).
  destruct (prvGetNextExpireTime T) as [next empty] eqn:En. rewrite Es. cbn [res_bind]. destruct b; [by exists T1, due1, None|].
  destruct (Hb eq_refl) as (HT1 & -> & Hep). assert (prvGetNextExpireTime T1 = (next, empty)) as En1 by (by subst T1).
  pose proof (tc_inv _ _ _ C1) as I1. unfold prvGetNextExpireTime in En.
  assert (seq_head (tst T) (pxCurrentTimerList T) = seq_head (tst T1) (pxCurrentTimerList T1)) as Eh by (by subst T1).
  destruct (seq_head (tst T) (pxCurrentTimerList T)) as [t|] eqn:Hh; injection En as <- <-; symmetry in Eh.
  - destruct (head_due _ _ _ _ I1 Eh) as (E & HE & HepE & Hv & Hc & Hmin). assert (expiry T t = E mod W) as Hv' by (by rewrite <- Hv; subst T1).
    rewrite Hv' in *. cbn [negb andb].
    assert ((E mod W <=? now mod W) = (E <=? now)) as ->.
    { pose proof (Z.div_mod now W ltac:(lia)). pose proof (Z.div_mod E W ltac:(lia)). destruct (Z.leb_spec (E mod W) (now mod W)), (Z.leb_spec E now); lia. }
    destruct (Z.leb_spec E now) as [Hle|Hgt].
    + destruct (process_expired_ok T1 due t E now _ I1 Eh HE Hle eq_refl) as (T2 & due2 & -> & I2 & (S1 & S2 & S3 & S4) & W2 & _). cbn [res_bind].
      exists T2, due2, None. split; [done|]. split; [|split; [congruence|split; [|done]]].
      * split; [done|by rewrite S4; subst T1|]. apply (went_on_bound now now T1 due T2 due2 _ I1 (tc_bound _ _ _ C1) ltac:(lia) W2).
      * by apply (went_on_trans now now T due T1 due T2 due2 _ (tc_inv _ _ _ C) ltac:(lia)).
    + assert (forall u E', due !! u = Some E' -> now < E') as Hd by (intros u E' Hu; specialize (Hmin u E' Hu); lia).
      eexists T1, due, _. split; [done|]. split; [done|]. split; [done|]. split; [done|]. split; [|done]. apply (wait_ok T1); [done| |done]. by rewrite En1.
  - cbn [negb andb].
    assert (forall u E', due !! u = Some E' -> now < E') as Hd.
    { intros u E' Hu. destruct (ti_due _ _ _ I1 u E' Hu) as (_ & _ & [[_ Hc]|[HepE _]]).
      - apply (so_on _ (ti_store _ _ _ I1)) in Hc. apply seq_head_none in Eh. rewrite Eh in Hc. set_solver.
      - pose proof (Z.div_mod now W ltac:(lia)). pose proof (Z.mod_pos_bound now W ltac:(lia)).
        pose proof (Z.div_mod E' W ltac:(lia)). pose proof (Z.mod_pos_bound E' W ltac:(lia)). lia. }
    eexists T1, due, _. split; [done|]. split; [done|]. split; [done|]. split; [done|]. split; [|done]. apply (wait_ok T1); [done| |done]. by rewrite En1.
Qed.

(** ** Commands *)

Definition starts (id : Z) : Prop := id = tmrCOMMAND_START \/ id = tmrCOMMAND_RESET \/ id = tmrCOMMAND_START_FROM_ISR \/ id = tmrCOMMAND_RESET_FROM_ISR.
Definition changes_period (id : Z) : Prop := id = tmrCOMMAND_CHANGE_PERIOD \/ id = tmrCOMMAND_CHANGE_PERIOD_FROM_ISR.
#[global] Instance starts_dec id : Decision (starts id).
Proof. unfold starts. apply _. Defined.
#[global] Instance changes_period_dec id : Decision (changes_period id).
Proof. unfold changes_period. apply _. Defined.

(** Only the timer [t] is touched. *)
Definition only (t : Z) (T : timers) (due : gmap Z Z) (T' : timers) (due' : gmap Z Z) (cs : list tcall) : Prop :=
  forall u, u <> t -> due' !! u = due !! u /\ tctl T' !! u = tctl T !! u /\ calls_of u cs = 0.

Lemma autoreload_active x : autoreload (set_status x tmrSTATUS_IS_ACTIVE) = autoreload x.
Proof. unfold autoreload, has_status, set_status. rsimpl. rewrite Z.land_lor_distr_l. cbn. by rewrite Z.lor_0_r. Qed.

Lemma tclock_put T last due t x :
  tclock T last due -> 0 < xTimerPeriodInTicks x < W -> tclock (put_timer T t x) last due.
Proof. intros [] Hx. split; [by apply tinv_put|done..]. Qed.

(** From a start at the time [C] on, the timer is due a period later. *)
Lemma start_command_ok T now due t x C id :
  tclock T now due -> due !! t = None -> tctl T !! t = Some x -> C <= now < C + W -> starts id ->
  exists T' due' cs, timer_command T (now mod W) id (C mod W) t = Ok T' /\ tclock T' now due' /\ xTimerQueue T' = xTimerQueue T /\
    tcalls T' = tcalls T ++ cs /\ only t T due T' due' cs /\
    timer_went now (Some (set_status x tmrSTATUS_IS_ACTIVE)) (Some (C + xTimerPeriodInTicks x)) (calls_of t cs) (tctl T' !! t) (due' !! t) /\
    (forall E, due' !! t = Some E -> now < E).
Proof.
  intros Hc Ht Hx HC Hs. pose proof (ti_period _ _ _ (tc_inv _ _ _ Hc) t x Hx) as HP. unfold timer_command. unfold get_timer at 1. rewrite Hx. cbn [res_bind].
  assert ((id =? tmrCOMMAND_START) || (id =? tmrCOMMAND_START_FROM_ISR) || (id =? tmrCOMMAND_RESET) || (id =? tmrCOMMAND_RESET_FROM_ISR) = true) as ->.
  { destruct Hs as [-> |[-> |[-> | ->]]]; done. }
  set (x1 := set_status x tmrSTATUS_IS_ACTIVE). pose proof (tclock_put T now due t x1 Hc HP) as Hc1. destruct Hc1 as [I1 Hl1 Hb1].
  assert (tctl (put_timer T t x1) !! t = Some x1) as Hx1 by apply lookup_insert_eq.
  rewrite u32_add. destruct (timer_insert_ok (put_timer T t x1) _ due t x1 C now I1 Ht Hx1 HC eq_refl) as (st & E1 & I2).
  change (xTimerPeriodInTicks x1) with (xTimerPeriodInTicks x) in *. rewrite E1. cbn [res_bind]. set (T2 := (put_timer T t x1) <| tst := st |>) in *.
  assert (tctl T2 !! t = Some x1) as Hx2 by exact Hx1.
  assert (forall u, u <> t -> tctl T2 !! u = tctl T !! u) as Ho2 by (intros u Hu; by apply lookup_insert_ne).
  destruct (Z.leb_spec (C + xTimerPeriodInTicks x) now) as [Hle|Hgt].
  - destruct (timer_expired_ok T2 due t x1 (C + xTimerPeriodInTicks x) now _ I2 Ht Hx1 ltac:(lia) eq_refl) as (T3 & due3 & -> & I3 & (S1 & S2 & S3 & S4) & (cs & Ec & Hwent) & Ho & Hd).
    exists T3, due3, cs. split; [done|]. split.
    { split; [done|by rewrite S4|]. intros u E Hu. destruct (decide (u = t)) as [->|Hne]; [|rewrite Ho in Hu by done; by apply (Hb1 u)].
      specialize (Hwent t). rewrite lookup_insert_eq, Hx2 in Hwent.
      refine (timer_went_bound now now _ _ _ _ _ _ _ _ Hwent E Hu); [by intros y [= <-]|intros e [= <-]; lia|lia]. }
    split; [done|]. split; [done|]. split.
    { intros u Hu. split; [by apply Ho|]. specialize (Hwent u). rewrite lookup_insert_ne in Hwent by done. rewrite Ho, Ho2 in Hwent by done.
      destruct (due !! u) as [e|] eqn:He; [|by destruct Hwent as (? & _ & ->)]. destruct Hwent as (y & Hy & Hw). rewrite Hy in *.
      pose proof (ti_period _ _ _ (tc_inv _ _ _ Hc) u y Hy). destruct (autoreload y).
      - destruct Hw as (-> & [= He'] & ? & _). split; [done|nia].
      - destruct Hw as [(-> & -> & _)|(_ & _ & ? & _)]; [done|done]. }
    split; [|done]. specialize (Hwent t). by rewrite lookup_insert_eq, Hx2 in Hwent.
  - exists T2, (<[t := C + xTimerPeriodInTicks x]> due), []. split; [done|]. split.
    { split; [done|done|]. intros u E. destruct (decide (t = u)) as [<-|Hne]; [rewrite lookup_insert_eq; intros [= <-]; lia|].
      rewrite lookup_insert_ne by done. apply Hb1. }
    split; [done|]. split; [by rewrite app_nil_r|]. split; [intros u Hu; by rewrite lookup_insert_ne, Ho2|].
    rewrite lookup_insert_eq. split; [|intros E [= <-]; lia]. rewrite Hx2.
    by apply timer_went_refl.
Qed.

Lemma change_command_ok T now due t x v id :
  tclock T now due -> due !! t = None -> tctl T !! t = Some x -> 0 < v < W -> changes_period id ->
  exists T', timer_command T (now mod W) id v t = Ok T' /\ tclock T' now (<[t := now + v]> due) /\ xTimerQueue T' = xTimerQueue T /\
    tcalls T' = tcalls T /\ only t T due T' (<[t := now + v]> due) [] /\
    tctl T' !! t = Some ((set_status x tmrSTATUS_IS_ACTIVE) <| xTimerPeriodInTicks := v |>).
Proof.
  intros Hc Ht Hx Hv Hs. unfold timer_command. unfold get_timer at 1. rewrite Hx. cbn [res_bind].
  assert ((id =? tmrCOMMAND_START) || (id =? tmrCOMMAND_START_FROM_ISR) || (id =? tmrCOMMAND_RESET) || (id =? tmrCOMMAND_RESET_FROM_ISR) = false /\
    (id =? tmrCOMMAND_STOP) || (id =? tmrCOMMAND_STOP_FROM_ISR) = false /\
    (id =? tmrCOMMAND_CHANGE_PERIOD) || (id =? tmrCOMMAND_CHANGE_PERIOD_FROM_ISR) = true) as (-> & -> & ->) by (destruct Hs as [-> | ->]; done).
  rewrite (proj2 (Z.ltb_lt 0 v)) by lia. cbn [assert res_bind]. set (x1 := (set_status x tmrSTATUS_IS_ACTIVE) <| xTimerPeriodInTicks := v |>).
  destruct (tclock_put T now due t x1 Hc Hv) as [I1 Hl1 Hb1].
  assert (tctl (put_timer T t x1) !! t = Some x1) as Hx1 by apply lookup_insert_eq. rewrite u32_add.
  destruct (timer_insert_ok (put_timer T t x1) _ due t x1 now now I1 Ht Hx1 ltac:(lia) eq_refl) as (st & E1 & I2).
  change (xTimerPeriodInTicks x1) with v in *. rewrite E1. cbn [res_bind]. rewrite (proj2 (Z.leb_gt _ _)) in I2 by lia.
  eexists. split; [done|]. split.
  { split; [done|done|]. intros u E. destruct (decide (t = u)) as [<-|Hne]; [rewrite lookup_insert_eq; intros [= <-]; lia|].
    rewrite lookup_insert_ne by done. apply Hb1. }
  split; [done|]. split; [done|]. split; [|done]. intros u Hu. rewrite lookup_insert_ne by done. split; [done|]. split; [by apply lookup_insert_ne|done].
Qed.

Lemma take_off_ok T last due t :
  tclock T last due ->
  exists st, match seq_remove (tst T) t with Some (st, _) => Ok (T <| tst := st |>) | None => Ok T end = Ok (T <| tst := st |>) /\
    tclock (T <| tst := st |>) last (delete t due).
Proof.
  intros [I Hl Hb]. assert (forall u E, delete t due !! u = Some E -> E < last + W) as Hb' by (intros u E [_ Hu]%lookup_delete_Some; by apply (Hb u)).
  destruct (s_container (item (tst T) t)) as [l|] eqn:Hc.
  - destruct (tinv_remove T _ due t l I Hc) as (st & n & -> & I1 & _). exists st. split; [done|by split].
  - exists (tst T). unfold seq_remove. rewrite Hc. assert (T <| tst := tst T |> = T) as -> by (by destruct T). split; [done|].
    rewrite delete_id; [by split|]. destruct (due !! t) as [E|] eqn:HE; [|done]. destruct (ti_due _ _ _ I t E HE) as (_ & _ & [[_ ?]|[_ ?]]); congruence.
Qed.

(** The commands that do not start the timer. *)
Lemma other_command_ok T now due t x id v :
  tclock T now due -> due !! t = None -> tctl T !! t = Some x -> ~ starts id -> 0 <= v < W -> (changes_period id -> 0 < v) ->
  (id = tmrCOMMAND_DELETE -> has_status x tmrSTATUS_IS_STATICALLY_ALLOCATED = true) ->
  exists T' due', timer_command T (now mod W) id v t = Ok T' /\ tclock T' now due' /\ xTimerQueue T' = xTimerQueue T /\
    tcalls T' = tcalls T /\ only t T due T' due' [].
Proof.
  intros Hc Ht Hx Hs Hv Hch Hdel. destruct (decide (changes_period id)) as [Hcp|Hcp].
  { destruct (change_command_ok T now due t x v id Hc Ht Hx) as (T' & ? & ? & ? & ? & ? & _); [split; [auto|lia]|done|]. by eexists _, _. }
  pose proof (ti_period _ _ _ (tc_inv _ _ _ Hc) t x Hx) as HP.
  assert (forall y, xTimerPeriodInTicks y = xTimerPeriodInTicks x -> tclock (put_timer T t y) now due /\ only t T due (put_timer T t y) due []) as Hput.
  { intros y Hy. split; [apply tclock_put; [done|by rewrite Hy]|]. intros u Hu. split; [done|]. split; [by apply lookup_insert_ne|done]. }
  unfold timer_command. unfold get_timer at 1. rewrite Hx. cbn [res_bind].
  assert ((id =? tmrCOMMAND_START) || (id =? tmrCOMMAND_START_FROM_ISR) || (id =? tmrCOMMAND_RESET) || (id =? tmrCOMMAND_RESET_FROM_ISR) = false) as ->.
  { unfold starts in Hs. rewrite !orb_false_iff, !Z.eqb_neq. tauto. }
  assert ((id =? tmrCOMMAND_CHANGE_PERIOD) || (id =? tmrCOMMAND_CHANGE_PERIOD_FROM_ISR) = false) as ->.
  { unfold changes_period in Hcp. rewrite orb_false_iff, !Z.eqb_neq. tauto. }
  destruct (_ || _).
  { eexists _, due. split; [done|]. destruct (Hput (clear_status x tmrSTATUS_IS_ACTIVE) eq_refl). done. }
  destruct (Z.eqb_spec id tmrCOMMAND_DELETE) as [Hd|_].
  { rewrite (Hdel Hd). eexists _, due. split; [done|]. destruct (Hput (clear_status x tmrSTATUS_IS_ACTIVE) eq_refl). done. }
  exists T, due. split; [done|]. split; [done|]. split; [done|]. split; [done|]. by intros u Hu.
Qed.

(** The time of which a message holds the remainder. *)
Definition command_time (now v : Z) : Z := now - (now - v) mod W.
Lemma command_time_ok now v : 0 <= v < W -> command_time now v <= now < command_time now v + W /\ command_time now v mod W = v.
Proof.
  intros Hv. unfold command_time. pose proof (Z.mod_pos_bound (now - v) W ltac:(lia)). split; [lia|].
  rewrite Zminus_mod_idemp_r. replace (now - (now - v)) with v by lia. by apply Z.mod_small.
Qed.

Lemma timer_message_ok T last now due id v t x :
  tclock T last due -> last <= now < last + W -> tctl T !! t = Some x -> 0 <= v < W -> (changes_period id -> 0 < v) ->
  (id = tmrCOMMAND_DELETE -> has_status x tmrSTATUS_IS_STATICALLY_ALLOCATED = true) ->
  exists T' due' cs, process_message T (now mod W) (TimerMessage id v t) = Ok T' /\ tclock T' now due' /\ xTimerQueue T' = xTimerQueue T /\
    tcalls T' = tcalls T ++ cs /\
    (forall u, u <> t -> timer_went now (tctl T !! u) (due !! u) (calls_of u cs) (tctl T' !! u) (due' !! u)) /\
    (starts id -> timer_went now (Some (set_status x tmrSTATUS_IS_ACTIVE)) (Some (command_time now v + xTimerPeriodInTicks x))
       (calls_of t cs) (tctl T' !! t) (due' !! t) /\ forall E, due' !! t = Some E -> now < E).
Proof.
  intros Hc Hn Hx Hv Hch Hdel. cbn [process_message]. unfold get_timer at 1. rewrite Hx. cbn [res_bind].
  destruct (take_off_ok T last due t Hc) as (st & -> & Hc1). cbn [res_bind].
  destruct (sample_ok _ last now _ Hc1 Hn) as (T2 & due2 & b & -> & Hc2 & Hq2 & (cs1 & Ec1 & Hw1) & _). cbn [res_bind].
  pose proof (Hw1 t) as Hwt. rewrite lookup_delete_eq in Hwt. destruct Hwt as (Hn1 & Hd2 & Hx2). change (tctl T2 !! t = tctl T !! t) in Hx2. rewrite Hx in Hx2.
  assert (forall T' due' cs, only t T2 due2 T' due' cs -> forall u, u <> t ->
    timer_went now (tctl T !! u) (due !! u) (calls_of u (cs1 ++ cs)) (tctl T' !! u) (due' !! u)) as Hother.
  { intros T' due' cs Ho u Hu. destruct (Ho u Hu) as (-> & -> & E0). rewrite calls_of_app, E0, Z.add_0_r. specialize (Hw1 u).
    by rewrite lookup_delete_ne in Hw1. }
  destruct (decide (starts id)) as [Hs|Hs].
  - destruct (command_time_ok now v Hv) as [HC HCv].
    destruct (start_command_ok T2 now due2 t x (command_time now v) id Hc2 Hd2 Hx2 HC Hs) as (T' & due' & cs & E & Hc' & Hq' & Ecs & Ho & Hw & Hd).
    rewrite HCv in E. exists T', due', (cs1 ++ cs). split; [done|]. split; [done|]. split; [by rewrite Hq'|].
    split; [rewrite Ecs, Ec1; rsimpl; by rewrite app_assoc|]. split; [by apply Hother|]. intros _. rewrite calls_of_app, Hn1. done.
  - destruct (other_command_ok T2 now due2 t x id v Hc2 Hd2 Hx2 Hs Hv Hch Hdel) as (T' & due' & E & Hc' & Hq' & Ecs & Ho).
    exists T', due', (cs1 ++ []). split; [done|]. split; [done|]. split; [by rewrite Hq'|]. split; [rewrite Ecs, Ec1; rsimpl; by rewrite app_nil_r|].
    split; [by apply Hother|done].
Qed.
End RtosTimerProps.
