(* ===== verification/RtosTimerRun.v ===== *)
(** * Timers over time

    The timer task at work: rounds, commands and new timers, at times that go on
    without end while the tick count wraps. *)

From S2P Require Import Prelude Words RtosSeq RtosSched RtosQueue RtosQueueSys RtosTimer RtosTimerProps.
From stdpp Require Import list.
#[local] Set Warnings "-clear-no-such-hyp".
#[local] Open Scope Z_scope.

Module RtosTimerRun.
Export RtosTimerProps.

Inductive tevent :=
  | TRound
  | TMessage (m : message)
  | TCreate (t xTimerPeriod : Z) (xAutoReload : bool) (id callback number : Z).
Definition run_tevent (T : timers) (xTimeNow : Z) (e : tevent) : res (timers * option (Z * bool)) :=
  match e with
  | TRound => timer_round T xTimeNow
  | TMessage m => let! T := process_message T xTimeNow m in Ok (T, None)
  | TCreate t p a id cb n => Ok (set_members T t p a id cb n 0, None)
  end.
(** Messages are about timers that exist, a period is not 0, only timers that were
    allocated statically are deleted; a new timer has memory of its own. *)
Definition tevent_ok (T : timers) (e : tevent) : Prop :=
  match e with
  | TRound | TMessage (CallbackMessage _ _ _ _) => True
  | TMessage (TimerMessage id v t) => exists x, tctl T !! t = Some x /\ 0 <= v < W /\ (changes_period id -> 0 < v) /\
      (id = tmrCOMMAND_DELETE -> has_status x tmrSTATUS_IS_STATICALLY_ALLOCATED = true)
  | TCreate t p _ _ _ _ => tctl T !! t = None /\ 0 < p < W
  end.
(** The time [prvSampleTimeNow] was called last. *)
Definition sampled (e : tevent) (last now : Z) : Z :=
  match e with TRound | TMessage (TimerMessage _ _ _) => now | _ => last end.
(** What [prvCheckForValidListAndQueue] leaves when it has created the queue [q]. *)
Definition start_timers (q : Z) : timers :=
  mkTimers ∅ (put_list (put_list (RtosSeq.mkStore ∅ ∅) xActiveTimerList1 (mkSl [] [])) xActiveTimerList2 (mkSl [] []))
    xActiveTimerList1 xActiveTimerList2 q 0 0 [].

(** The timer task comes round at least once while the tick count wraps once. *)
Inductive treachable (q : Z) : timers -> Z -> Prop :=
  | tr_start : treachable q (start_timers q) 0
  | tr_step T last now e T' w : treachable q T last -> last <= now < last + W -> tevent_ok T e ->
      run_tevent T (now mod W) e = Ok (T', w) -> treachable q T' (sampled e last now).

Lemma start_clock q : tclock (start_timers q) 0 ∅.
Proof.
  assert (forall l, timers_on (start_timers q) l = []) as Ho.
  { intros l. unfold timers_on, on, start_timers. cbn [tst]. rewrite !the_list_put. repeat destruct (decide _); done. }
  split; [|done|intros t E; by rewrite lookup_empty]. split.
  - split; [intros l; fold (timers_on (start_timers q) l); rewrite Ho; constructor|]. intros t l. fold (timers_on (start_timers q) l). rewrite Ho.
    split; [done|set_solver].
  - done.
  - intros t x. cbn. by rewrite lookup_empty.
  - intros t E. by rewrite lookup_empty.
  - done.
  - intros l. rewrite Ho. constructor.
Qed.

Lemma timer_create_ok T last due t p a id cb n :
  tclock T last due -> tctl T !! t = None -> 0 < p < W ->
  tclock (set_members T t p a id cb n 0) last due /\ due !! t = None.
Proof.
  intros [I Hl Hb] Ht Hp.
  assert (due !! t = None) as Hd.
  { destruct (due !! t) as [E|] eqn:HE; [|done]. destruct (ti_due _ _ _ I t E HE) as ([x Hx] & _). congruence. }
  pose proof (tinv_off _ _ _ _ I Hd) as Hoff. split; [|done]. split; [|done|done].
  unfold set_members. set (x := mkTimer _ _ _ _ _). set (y := if a then _ else _).
  assert (xTimerPeriodInTicks y = p) as Hy by (unfold y, x; by destruct a).
  assert (tinv (put_timer T t y) (last / W) due) as I1 by (apply tinv_put; [done|by rewrite Hy]).
  set (T1 := put_timer T t y) in *. assert (off_lists T1 t) as Hoff1 by exact Hoff.
  replace (put_item (tst T1) t (mkSi (s_value (item (tst T1) t)) None)) with (seq_set_value (tst T1) t (expiry T1 t)).
  - by apply tinv_set_value.
  - unfold seq_set_value, expiry. by rewrite Hoff1.
Qed.

(** Every event keeps the clock; what it does to a timer it is not about. *)
Lemma tevent_clock T last now due e :
  tclock T last due -> last <= now < last + W -> tevent_ok T e ->
  exists T' w due' cs, run_tevent T (now mod W) e = Ok (T', w) /\ tclock T' (sampled e last now) due' /\ tcalls T' = tcalls T ++ cs /\
    (forall t, match e with TMessage (TimerMessage _ _ u) | TCreate u _ _ _ _ _ => u <> t | _ => True end ->
       timer_went (sampled e last now) (tctl T !! t) (due !! t) (calls_of t cs) (tctl T' !! t) (due' !! t)) /\
    match w with Some w => wait_right (sampled e last now) due' w /\ (forall t E, due' !! t = Some E -> sampled e last now < E) | None => True end.
Proof.
  intros Hc Hn He. destruct e as [|[id v t|id f p1 p2]|t p a id cb n]; cbn [run_tevent sampled tevent_ok] in *.
  - destruct (round_ok T last now due Hc Hn) as (T' & due' & w & E & Hc' & _ & (cs & Ec & Hw) & Hwt). exists T', w, due', cs. by split_and!.
  - destruct He as (x & Hx & Hv & Hch & Hdel).
    destruct (timer_message_ok T last now due id v t x Hc Hn Hx Hv Hch Hdel) as (T' & due' & cs & -> & Hc' & _ & Ec & Hw & _). cbn [res_bind].
    exists T', None, due', cs. split_and!; try done. intros u Hu. by apply Hw.
  - eexists _, None, due, [Pended f p1 p2]. split; [done|]. split; [|split; [done|split; [|done]]].
    + destruct Hc as [I Hl Hb]. split; [by apply tinv_called|done|done].
    + intros t _. change (calls_of t [Pended f p1 p2]) with 0. apply timer_went_refl. intros Ht. destruct (due !! t) as [E|] eqn:HE; [|done].
      apply (ti_due _ _ _ (tc_inv _ _ _ Hc) t E HE).
  - destruct He as [Ht Hp]. destruct (timer_create_ok T last due t p a id cb n Hc Ht Hp) as [Hc' Hd]. eexists _, None, due, [].
    split; [done|]. split; [done|]. split; [by rewrite app_nil_r|]. split; [|done]. intros u Hu. change (calls_of u []) with 0.
    assert (tctl (set_members T t p a id cb n 0) !! u = tctl T !! u) as -> by (unfold set_members, put_timer; cbn; by rewrite lookup_insert_ne).
    apply timer_went_refl. intros Hdu. destruct (due !! u) as [E|] eqn:HE; [|done]. apply (ti_due _ _ _ (tc_inv _ _ _ Hc) u E HE).
Qed.
Lemma treachable_clock q T last : treachable q T last -> exists due, tclock T last due.
Proof.
  induction 1 as [|T last now e T' w _ (due & IH) Hn He E]; [exists ∅; apply start_clock|].
  destruct (tevent_clock T last now due e IH Hn He) as (T1 & w1 & due1 & cs & E1 & Hc1 & _). assert (T1 = T') as -> by congruence. by exists due1.
Qed.

(** The timer task never faults.  However the timers were created, started,
    stopped, reset, changed and processed before, the next round, command or creation
    returns: the loops over expired timers and missed periods end, no timer is taken
    off a list it is not on, and the list of a tick range that is over is emptied
    before the lists are switched. *)
Theorem timer_task_safe (q : Z) (T : timers) (last now : Z) (e : tevent) :
  treachable q T last -> last <= now < last + W -> tevent_ok T e ->
  exists T' w, run_tevent T (now mod W) e = Ok (T', w) /\
    match w with
    | Some (ticks, indefinitely) => if indefinitely : bool then forall l, timers_on T' l = [] else 0 < ticks < W
    | None => True
    end.
Proof.
  intros Hr Hn He. destruct (treachable_clock q T last Hr) as (due & Hc).
  destruct (tevent_clock T last now due e Hc Hn He) as (T' & w & due' & cs & E & Hc' & _ & _ & Hw). exists T', w. split; [done|].
  destruct w as [[ticks ind]|]; [|done]. destruct Hw as [Hw _]. unfold wait_right in Hw. destruct ind; [|tauto]. intros l.
  destruct (timers_on T' l) as [|t xs] eqn:El; [done|]. pose proof (tc_inv _ _ _ Hc') as I'.
  assert (s_container (item (tst T') t) = Some l) as Hcont by (apply (so_on _ (ti_store _ _ _ I')); fold (timers_on T' l); rewrite El; set_solver).
  destruct (ti_active _ _ _ I' t l Hcont) as [E' HE']. by rewrite Hw in HE'.
Qed.

(** ** A periodic timer *)

(** The timer [t] with the period [P] was started by a command of the time [C], when it
    had been called [base] times, and no command for it came since; [waits] says that
    the timer task waits now. *)
Inductive since (q t C P base : Z) : timers -> Z -> bool -> Prop :=
  | since_start T last now id x T' : treachable q T last -> last <= now < last + W -> C <= now < C + W ->
      tctl T !! t = Some x -> autoreload x = true -> xTimerPeriodInTicks x = P -> starts id -> calls_of t (tcalls T) = base ->
      run_tevent T (now mod W) (TMessage (TimerMessage id (C mod W) t)) = Ok (T', None) -> since q t C P base T' now false
  | since_step T last b now e T' w : since q t C P base T last b -> last <= now < last + W -> tevent_ok T e ->
      match e with TMessage (TimerMessage _ _ u) | TCreate u _ _ _ _ _ => u <> t | _ => True end ->
      run_tevent T (now mod W) e = Ok (T', w) -> since q t C P base T' (sampled e last now) (bool_decide (w <> None)).

Lemma command_time_eq now C : C <= now < C + W -> command_time now (C mod W) = C.
Proof.
  intros H. unfold command_time. rewrite Zminus_mod_idemp_r. rewrite Z.mod_small by lia. lia.
Qed.
Lemma since_ok q t C P base T last b :
  since q t C P base T last b -> 0 < P /\ C <= last /\
  exists due x n, tclock T last due /\ tctl T !! t = Some x /\ autoreload x = true /\ xTimerPeriodInTicks x = P /\
    due !! t = Some (C + (n + 1) * P) /\ calls_of t (tcalls T) = base + n /\ 0 <= n /\ (0 < n -> C + n * P <= last) /\
    (b = true -> last < C + (n + 1) * P).
Proof.
  induction 1 as [T last now id x T' Hr Hn HC Hx Ha HP Hs Hbase E|T last b now e T' w _ (HP & HCl & due & x & n & Hc & Hx & Ha & HPx & HE & Hcalls & Hn0 & Hnb & _) Hn He Hne E].
  - destruct (treachable_clock q T last Hr) as (due & Hc). pose proof (ti_period _ _ _ (tc_inv _ _ _ Hc) t x Hx) as HPb.
    destruct (timer_message_ok T last now due id (C mod W) t x Hc Hn Hx) as (T1 & due1 & cs & E1 & Hc1 & _ & Ec & _ & Hst).
    { apply Z.mod_pos_bound. lia. }
    { intros Hcp. destruct Hs as [-> |[-> |[-> | ->]]], Hcp; done. }
    { intros ->. by destruct Hs as [? |[? |[? | ?]]]. }
    cbn [run_tevent] in E. rewrite E1 in E. cbn [res_bind] in E. injection E as ->. destruct (Hst Hs) as [Hw _]. rewrite (command_time_eq now C HC) in Hw.
    destruct Hw as (y & [= <-] & Hw). rewrite autoreload_active, Ha in Hw. destruct Hw as (Hx' & HE & Hn0 & Hnb). cbn [set_status] in *.
    change (xTimerPeriodInTicks (set_status x tmrSTATUS_IS_ACTIVE)) with (xTimerPeriodInTicks x) in *. rewrite HP in *.
    split; [lia|]. split; [lia|]. exists due1, (set_status x tmrSTATUS_IS_ACTIVE), (calls_of t cs). split; [done|]. split; [done|].
    split; [by rewrite autoreload_active|]. split; [done|]. split; [rewrite HE; f_equal; lia|]. split; [rewrite Ec, calls_of_app; lia|]. split; [done|].
    split; [|done]. intros Hpos. specialize (Hnb Hpos). nia.
  - destruct (tevent_clock T last now due e Hc Hn He) as (T1 & w1 & due1 & cs & E1 & Hc1 & Ec & Hw & Hwait).
    rewrite E in E1. injection E1 as <- <-. specialize (Hw t Hne). rewrite Hx, HE in Hw. destruct Hw as (y & [= <-] & Hw). rewrite Ha in Hw.
    destruct Hw as (Hx' & HE' & Hk & Hkb). rewrite HPx in *. set (k := calls_of t cs) in *. split; [done|].
    assert (last <= sampled e last now) as Hle by (destruct e as [|[| ]|]; cbn; lia). split; [lia|].
    exists due1, x, (n + k). split; [done|]. split; [done|]. split; [done|]. split; [done|]. split; [rewrite HE'; f_equal; lia|].
    split; [rewrite Ec, calls_of_app; lia|]. split; [lia|]. split.
    + intros _. destruct (Z.eq_dec k 0) as [->|]; [destruct (Z.eq_dec n 0) as [->|]; [lia|]; specialize (Hnb ltac:(lia)); rewrite Z.add_0_r; lia|].
      specialize (Hkb ltac:(lia)). nia.
    + intros Hb%bool_decide_eq_true. destruct w as [w|]; [|done]. destruct Hwait as [_ Hlt]. specialize (Hlt t _ HE'). lia.
Qed.

(** C6: a periodic timer is called once per period, exactly.  From the command that
    started it at the time [C] on, whatever other commands and timers come, the timer has
    been called at most as many times as whole periods have passed - no call is
    early - and exactly that many times whenever the timer task waits - none is lost,
    and none is late by more than the processing of the timers - however often the tick
    count has wrapped and however late the start command was received. *)
Theorem timer_called_every_period (q t C P base : Z) (T : timers) (now : Z) (waits : bool) :
  since q t C P base T now waits ->
  let n := calls_of t (tcalls T) - base in
  0 <= n <= (now - C) / P /\ (waits = true -> n = (now - C) / P).
Proof.
  intros H. destruct (since_ok _ _ _ _ _ _ _ _ H) as (HP & HC & due & x & n & _ & _ & _ & _ & _ & -> & Hn0 & Hnb & Hw).
  replace (base + n - base) with n by lia. cbv zeta. split.
  - split; [done|]. destruct (Z.eq_dec n 0) as [->|]; [apply Z.div_pos; lia|]. apply Z.div_le_lower_bound; [done|]. specialize (Hnb ltac:(lia)). lia.
  - intros Hb. specialize (Hw Hb). destruct (Z.eq_dec n 0) as [->|]; [symmetry; apply Z.div_small; lia|]. specialize (Hnb ltac:(lia)).
    apply Z.div_unique with (now - C - n * P); nia.
Qed.

(** ** A timer across the wrap of the tick count

    A timer of 3 ticks is started 5 ticks before the tick count wraps; the command is
    received a tick later, and the timer task runs again 7 ticks after the wrap. *)
Definition timers_after (T : timers) (now : Z) (e : tevent) : timers :=
  match run_tevent T (now mod W) e with Ok (T, _) => T | Fault _ => no_timers end.
Definition created_timer : timers := timers_after (start_timers 64) 0 (TCreate 100 3 true 0 7 0).
Definition idle_timer : timers := timers_after created_timer (W - 6) TRound.
Definition started_timer : timers := timers_after idle_timer (W - 4) (TMessage (TimerMessage tmrCOMMAND_START (W - 5) 100)).
Definition switched_timer : timers := timers_after started_timer (W + 7) TRound.
Definition caught_up_timer : timers := timers_after switched_timer (W + 7) TRound.
Definition waiting_timer : timers := timers_after caught_up_timer (W + 7) TRound.

Lemma idle_timer_reachable : treachable 64 idle_timer (W - 6).
Proof.
  apply (tr_step 64 created_timer 0 (W - 6) TRound idle_timer (Some (6, true))).
  - apply (tr_step 64 (start_timers 64) 0 0 (TCreate 100 3 true 0 7 0) created_timer None); [constructor|lia|by split; [|lia]|vm_compute; exact eq_refl].
  - lia.
  - exact Logic.I.
  - vm_compute. exact eq_refl.
Qed.
Lemma waiting_timer_since : since 64 100 (W - 5) 3 0 waiting_timer (W + 7) true.
Proof.
  apply (since_step 64 100 (W - 5) 3 0 caught_up_timer (W + 7) false (W + 7) TRound waiting_timer (Some (3, false)));
    [|lia|exact Logic.I|exact Logic.I|vm_compute; exact eq_refl].
  apply (since_step 64 100 (W - 5) 3 0 switched_timer (W + 7) false (W + 7) TRound caught_up_timer None);
    [|lia|exact Logic.I|exact Logic.I|vm_compute; exact eq_refl].
  apply (since_step 64 100 (W - 5) 3 0 started_timer (W - 4) false (W + 7) TRound switched_timer None);
    [|lia|exact Logic.I|exact Logic.I|vm_compute; exact eq_refl].
  apply (since_start 64 100 (W - 5) 3 0 idle_timer (W - 6) (W - 4) tmrCOMMAND_START (mkTimer 3 0 7 0 4) started_timer);
    [exact idle_timer_reachable|lia|lia|vm_compute; exact eq_refl|vm_compute; exact eq_refl|exact eq_refl|left; exact eq_refl|vm_compute; exact eq_refl|].
  vm_compute. exact eq_refl.
Qed.
Lemma timer_called_every_period_witness :
  let n := calls_of 100 (tcalls waiting_timer) - 0 in
  n = 4 /\ 0 <= n <= (W + 7 - (W - 5)) / 3 /\ (true = true -> n = (W + 7 - (W - 5)) / 3).
Proof.
  split; [vm_compute; exact eq_refl|].
  exact (timer_called_every_period 64 100 (W - 5) 3 0 waiting_timer (W + 7) true waiting_timer_since).
Defined.
Lemma timer_task_safe_witness :
  exists T' w, run_tevent idle_timer ((W + 7) mod W) (TMessage (TimerMessage tmrCOMMAND_CHANGE_PERIOD 20 100)) = Ok (T', w) /\
    match w with
    | Some (ticks, indefinitely) => if indefinitely : bool then forall l, timers_on T' l = [] else 0 < ticks < W
    | None => True
    end.
Proof.
  apply (timer_task_safe 64 idle_timer (W - 6) (W + 7)); [exact idle_timer_reachable|lia|].
  exists (mkTimer 3 0 7 0 4). split; [vm_compute; exact eq_refl|]. split; [lia|]. split; [intros _; lia|]. intros H. discriminate H.
Defined.
End RtosTimerRun.
