(* ===== verification/RtosTimerTask.v ===== *)
(** * The timer task in a program

    The timer task as one of the tasks of a program that uses queues: the other tasks and
    the interrupts send it commands, it waits for them and for the next timer, and
    what it does to the timers are the rounds and the commands of [RtosTimerRun]. *)

From S2P Require Import Prelude Words RtosHeap RtosSeq RtosSched RtosSchedInv RtosSchedProps RtosRun RtosSteady RtosBoot.
From S2P Require Import RtosQueue RtosQueueData RtosQueueSys RtosQueueRun RtosLock RtosMachine RtosTimer RtosTimerProps RtosTimerRun.
From stdpp Require Import list.
#[local] Set Warnings "-clear-no-such-hyp".
#[local] Open Scope Z_scope.

Module RtosTimerTask.
Export RtosMachine RtosTimerRun.

(** ** Messages *)

(** The values a message carries are words; the last word of the structure of a timer
    message is there. *)
Definition message_ok (m : message) (rest : list Z) : Prop :=
  match m with
  | TimerMessage id v t => 0 <= id < 2 ^ 31 /\ is_u 32 v /\ is_u 32 t /\ length rest = 4%nat
  | CallbackMessage id f p1 p2 => - 2 ^ 31 <= id < 0 /\ is_u 32 f /\ is_u 32 p1 /\ is_u 32 p2
  end.
Lemma word_at_head v bs : is_u 32 v -> word_at (le_bytes 4 v ++ bs) 0 = v.
Proof.
  intros H. unfold word_at. rewrite drop_0, take_app_length' by (symmetry; apply length_le_bytes). rewrite le_word_bytes. by apply u_small.
Qed.
Lemma word_at_tail v bs i : word_at (le_bytes 4 v ++ bs) (S i) = word_at bs i.
Proof.
  unfold word_at. replace (4 * S i)%nat with (4 + 4 * i)%nat by lia. rewrite <- drop_drop. by rewrite drop_app_length' by (symmetry; apply length_le_bytes).
Qed.
Lemma s32_u32 z : - 2 ^ 31 <= z < 2 ^ 31 -> s32 (u32 z) = z.
Proof.
  intros H. unfold s32. rewrite (u_small 32 (u32 z)) by (apply u_range; lia). destruct (Z.lt_ge_cases z 0).
  - assert (u32 z = z + 2 ^ 32) as -> by (unfold u; symmetry; apply Z.mod_unique with (-1); lia).
    rewrite (proj2 (Z.ltb_ge _ _)) by lia. lia.
  - rewrite u_small by (unfold is_u; lia). by rewrite (proj2 (Z.ltb_lt _ _)) by lia.
Qed.

(** The commands that tasks and interrupts write into the queue are the ones the
    timer task reads, and they have the size of the items of the queue. *)
Theorem timer_message_roundtrip (m : message) (rest : list Z) :
  message_ok m rest -> read_message (message_bytes m rest) = m /\ Z.of_nat (length (message_bytes m rest)) = sizeof_DaemonTaskMessage_t.
Proof.
  intros H. destruct m as [id v t|id f p1 p2]; cbn [message_ok message_bytes] in *; destruct H as (Hid & H1 & H2 & H3); split;
    try (rewrite !length_app, !length_le_bytes, ?H3; done);
    unfold read_message; rewrite ?word_at_tail, !word_at_head by (done || apply u_range; lia); rewrite s32_u32 by lia.
  - by rewrite (proj2 (Z.ltb_ge _ _)) by lia.
  - rewrite (proj2 (Z.ltb_lt _ _)) by lia. rewrite <- (app_nil_r (le_bytes 4 p2)). by rewrite word_at_head.
Qed.

Lemma timer_message_roundtrip_witness :
  let m := TimerMessage tmrCOMMAND_CHANGE_PERIOD_FROM_ISR 0x12345678 0x20400100 in
  read_message (message_bytes m [1; 2; 3; 4]) = m /\ Z.of_nat (length (message_bytes m [1; 2; 3; 4])) = sizeof_DaemonTaskMessage_t.
Proof. apply (timer_message_roundtrip _ [1; 2; 3; 4]). cbn. unfold is_u, tmrCOMMAND_CHANGE_PERIOD_FROM_ISR. lia. Defined.

(** ** Timers are never forgotten *)

Definition keeps (T T' : timers) : Prop := forall t, is_Some (tctl T !! t) -> is_Some (tctl T' !! t).
Lemma keeps_refl T T' : tctl T' = tctl T -> keeps T T'.
Proof. by intros E t; rewrite E. Qed.
Lemma keeps_trans T1 T2 T3 : keeps T1 T2 -> keeps T2 T3 -> keeps T1 T3.
Proof. intros H1 H2 t Ht. by apply H2, H1. Qed.
Lemma keeps_put T t x : keeps T (put_timer T t x).
Proof. intros u Hu. cbn. destruct (decide (t = u)) as [->|]; [rewrite lookup_insert_eq; by eexists|by rewrite lookup_insert_ne]. Qed.
Lemma insert_keeps T t a b c T' r : prvInsertTimerInActiveList T t a b c = Ok (T', r) -> tctl T' = tctl T.
Proof. unfold prvInsertTimerInActiveList. intros H. by ok_inv. Qed.
Lemma reload_keeps fuel T t a b T' : reload_loop fuel T t a b = Ok T' -> tctl T' = tctl T.
Proof.
  revert T a. induction fuel as [|fuel IH]; intros T a; [done|]. cbn [reload_loop]. intros H. ok_inv;
    match goal with H : prvInsertTimerInActiveList _ _ _ _ _ = _ |- _ => apply insert_keeps in H end; [|done].
  match goal with H : reload_loop _ _ _ _ _ = _ |- _ => apply IH in H end. cbn in *. congruence.
Qed.
Ltac timer_keeps :=
  repeat match goal with
  | H : prvInsertTimerInActiveList _ _ _ _ _ = Ok _ |- _ => apply insert_keeps in H
  | H : reload_loop _ _ _ _ _ = Ok _ |- _ => apply reload_keeps in H
  end.
Lemma expired_keeps T t a b T' : expired T t a b = Ok T' -> keeps T T'.
Proof.
  unfold expired, prvReloadTimer. intros H. ok_inv; timer_keeps; [by apply keeps_refl|].
  eapply keeps_trans; [apply keeps_put|by apply keeps_refl].
Qed.
Lemma process_expired_keeps T a b T' : prvProcessExpiredTimer T a b = Ok T' -> keeps T T'.
Proof.
  unfold prvProcessExpiredTimer. intros H. ok_inv. match goal with H : expired _ _ _ _ = _ |- _ => apply expired_keeps in H end. done.
Qed.
Lemma flush_keeps fuel T T' : flush_list fuel T = Ok T' -> keeps T T'.
Proof.
  revert T. induction fuel as [|fuel IH]; intros T; cbn [flush_list]; intros H; ok_inv; try (by apply keeps_refl).
  eapply keeps_trans; [by eapply process_expired_keeps|by apply IH].
Qed.
Lemma sample_keeps T a T' b : prvSampleTimeNow T a = Ok (T', b) -> keeps T T'.
Proof.
  unfold prvSampleTimeNow, prvSwitchTimerLists. intros H. ok_inv; [|by apply keeps_refl].
  match goal with H : flush_list _ _ = _ |- _ => apply flush_keeps in H end. done.
Qed.
Lemma command_keeps T now id v t T' : timer_command T now id v t = Ok T' -> keeps T T'.
Proof.
  unfold timer_command. intros H. ok_inv; try (by apply keeps_put); try (by apply keeps_refl); timer_keeps.
  - match goal with H : expired _ _ _ _ = _ |- _ => apply expired_keeps in H end. eapply keeps_trans; [eapply keeps_put|].
    eapply keeps_trans; [|done]. by apply keeps_refl.
  - eapply keeps_trans; [eapply keeps_put|by apply keeps_refl].
  - eapply keeps_trans; [eapply keeps_put|by apply keeps_refl].
Qed.
Lemma tevent_keeps T now e T' w : run_tevent T now e = Ok (T', w) -> keeps T T'.
Proof.
  destruct e as [|[id v t|id f p1 p2]|t p a id cb n]; cbn [run_tevent process_message]; unfold timer_round; intros H; ok_inv;
    repeat match goal with
    | H : prvSampleTimeNow _ _ = Ok _ |- _ => apply sample_keeps in H
    | H : prvProcessExpiredTimer _ _ _ = Ok _ |- _ => apply process_expired_keeps in H
    | H : timer_command _ _ _ _ _ = Ok _ |- _ => apply command_keeps in H
    end; try done; try (by apply keeps_refl); try (by eapply keeps_trans).
  unfold set_members. eapply keeps_trans; [apply keeps_put|by apply keeps_refl].
Qed.
Lemma treachable_queue q T last : treachable q T last -> xTimerQueue T = q.
Proof.
  induction 1 as [|T last now e T' w Hr IH Hn He E]; [done|]. destruct (treachable_clock _ _ _ Hr) as (due & Hc).
  destruct e as [|[id v t|id f p1 p2]|t p a id cb n]; cbn [run_tevent tevent_ok] in *.
  - destruct (round_ok T last now due Hc Hn) as (T1 & due1 & w1 & E1 & _ & Hq & _). rewrite E1 in E. injection E as <- <-. congruence.
  - destruct He as (x & Hx & Hv & Hch & Hdel).
    destruct (timer_message_ok T last now due id v t x Hc Hn Hx Hv Hch Hdel) as (T1 & due1 & cs & E1 & _ & Hq & _). rewrite E1 in E.
    injection E as <- <-. congruence.
  - by injection E as <- <-.
  - by injection E as <- <-.
Qed.

(** ** The timer task waits *)

Section task.
Context {stc : Strict} {pt : Patient} (N : Z) (HN : N <= 127) (idle : Z).

(** From the call of [vQueueWaitForMessageRestricted] to the end of
    [prvProcessTimerOrBlockTask]. *)
Definition restricted_wait (isr : nat -> sys -> res sys) (s : sys) (q n : Z) (forever : bool) : res sys :=
  let! s := vQueueWaitForMessageRestricted isr s q n forever in
  let! s := isr 8%nat s in
  let! '(k, yielded) := xTaskResumeAll (kern s) in
  Ok (put_kern s (if yielded : bool then k else portYIELD k)).

Lemma restricted_wait_ok c s0 s q Q n forever ints :
  0 <= N -> region N idle c s0 s -> inv idle (kern s) -> all_unlocked s -> queues s !! q = Some Q -> forever = true \/ 0 < n < 2 ^ 32 -> c <> idle ->
  (forall n, Forall (int_ok (qtypes s0)) (ints n)) ->
  exists s', restricted_wait (fun n => run_qints (ints n)) s q n forever = Ok s' /\ stepped N idle s0 s'.
Proof.
  intros H0 R I U Hq Hn Hne Hi. unfold restricted_wait, vQueueWaitForMessageRestricted.
  destruct (lock_ok N idle c s0 s q Q H0 R Hq U) as (Q1 & -> & R1 & O1). cbn [res_bind].
  assert (queues (put_queue s q Q1) !! q = Some Q1) as Hq1 by apply lookup_insert_eq.
  destruct (region_isr_inv N HN idle c s0 (put_queue s q Q1) _ I R1 (Hi 2%nat)) as (s2 & -> & R2 & J2 & I2). cbn [res_bind].
  destruct (istep_queue _ _ _ _ _ J2 Hq1) as (Q2 & Hq2). pose proof (others_istep _ _ _ _ J2 O1) as O2.
  unfold get_queue. rewrite Hq2. cbn [res_bind].
  assert (exists k, (if uxMessagesWaiting Q2 =? 0
            then let! k := vTaskPlaceOnEventListRestricted (kern s2) (to_receive q) n forever in Ok (put_kern s2 k) else Ok s2) = Ok (put_kern s2 k) /\
            body_state idle k c /\ frame (kern s2) k) as (k & -> & B & F).
  { destruct (uxMessagesWaiting Q2 =? 0); [|exists (kern s2); split; [by destruct s2|split; [apply R2|apply frame_refl]]].
    assert (ready (kern s2) c) as Hr by (destruct (region_inv N idle c s0 s2 I2) as (_ & ? & _); [apply R2..|done]).
    destruct (place_restricted_ok idle (kern s2) c (to_receive q) n forever (rg_body _ _ _ _ _ R2) Hr Hn Hne) as (k & -> & B & _ & _ & F).
    by exists k. }
  cbn [res_bind]. destruct (placed_part_ok N HN idle c s0 s2 k q Q2 ints R2 B F Hq2 O2 Hi) as (s3 & s' & b & -> & E & St). cbn [res_bind].
  unfold unlock_and_resume in E. apply res_bind_ok in E as (s4 & -> & E). cbn [res_bind]. apply res_bind_ok in E as (s5 & -> & E). cbn [res_bind].
  apply res_bind_ok in E as ([k6 y] & -> & E). cbn [res_bind]. apply ok_inj, pair_equal_spec in E as [<- <-].
  eexists. split; [done|]. by destruct y.
Qed.
Lemma resume_part_ok c s0 s :
  region N idle c s0 s -> inv idle (kern s) -> all_unlocked s ->
  exists k b, xTaskResumeAll (kern s) = Ok (k, b) /\ stepped N idle s0 (put_kern s k).
Proof.
  intros R I U. pose proof (rg_body _ _ _ _ _ R) as []. destruct (resume_inv idle (kern s) c) as (k' & b & -> & L & _ & C'); [done..|apply bs_pended0|done|done|].
  exists k', b. split; [done|]. apply stepped_qstep; [|apply C', (inv_covered idle); done|done|cbn; rewrite (lt_number _ _ L); apply R].
  eapply qstep_trans; [apply R|]. by apply istep_qstep, istep_kern, (qs_ok _ _ _ (rg_step _ _ _ _ _ R)).
Qed.

(** A round of the timer task: what it does to the timers, and to the kernel. *)
Lemma timers_step_ok c s T T' w Q ints :
  sinv N idle s -> xPendSV (kern s) = false -> uxSchedulerSuspended (kern s) = 0 -> pxCurrentTCB (kern s) = Some c -> c <> idle ->
  queues s !! xTimerQueue T = Some Q -> xTimerQueue T' = xTimerQueue T -> (forall n, Forall (int_ok (qtypes s)) (ints n)) ->
  timer_round T (xTickCount (kern s)) = Ok (T', w) -> match w with Some (n, forever) => forever = true \/ 0 < n < 2 ^ 32 | None => True end ->
  exists s', timer_task_step (fun n => run_qints (ints n)) (mkTsys s T AtTimers) = Ok (mkTsys s' T' AtCommands) /\ stepped N idle s s'.
Proof.
  intros [I A U Hnum] Hp Hs Hc Hne Hq HqT Hi Er Hw. cbn [timer_task_step]. unfold timer_round in Er.
  destruct (prvGetNextExpireTime T) as [next empty]. unfold prvProcessTimerOrBlockTask. set (s1 := put_kern s (vTaskSuspendAll (kern s))).
  assert (inv idle (kern s1)) as I1 by (apply suspend_all_inv; [done|done|lia]).
  assert (uxSchedulerSuspended (kern s1) = 1) as S1 by (unfold s1, vTaskSuspendAll; cbn; by rewrite Hs).
  destruct (region_inv N idle c s s1 I1) as (R1 & _); [done|done|by apply istep_qstep, istep_kern|done|].
  destruct (region_isr N HN _ _ _ _ _ R1 (Hi 1%nat)) as (s2 & -> & R2 & J2 & H2 & W2). cbn [res_bind].
  assert (inv idle (kern s2)) as I2 by (apply (inv_while_held idle (kern s1)); try done; lia).
  rewrite (hd_tick _ _ H2). change (xTickCount (kern s1)) with (xTickCount (kern s)).
  destruct (istep_queue _ s1 _ _ _ J2 Hq) as (Q2 & Hq2). pose proof (all_istep _ s1 _ J2 U) as U2. clearbody s1.
  apply res_bind_ok in Er as ([T1 switched] & -> & Er). cbn [res_bind]. destruct switched; cbn [negb].
  { apply ok_inj, pair_equal_spec in Er as [<- <-]. destruct (region_isr_inv N HN _ _ _ _ _ I2 R2 (Hi 8%nat)) as (s3 & -> & R3 & J3 & I3). cbn [res_bind].
    destruct (resume_part_ok c s s3 R3 I3 (all_istep _ _ _ J3 U2)) as (k & b & -> & St). cbn [res_bind]. by eexists. }
  destruct (negb empty && _).
  { destruct (resume_part_ok c s s2 R2 I2 U2) as (k & b & -> & St). cbn [res_bind].
    apply res_bind_ok in Er as (T2 & -> & Er). apply ok_inj, pair_equal_spec in Er as [<- <-]. cbn [res_bind]. by eexists. }
  apply ok_inj, pair_equal_spec in Er as [<- <-]. cbv beta zeta. rewrite HqT.
  destruct (restricted_wait_ok c s s2 (xTimerQueue T) Q2 (u32 (next - xTickCount (kern s)))
              (if empty then seq_empty (tst T1) (pxOverflowTimerList T1) else empty) ints) as (s' & E & St); try done.
  { pose proof (inv_number _ _ I). lia. }
  unfold restricted_wait in E. apply res_bind_ok in E as (s3 & -> & E). cbn [res_bind]. apply res_bind_ok in E as (s4 & -> & E). cbn [res_bind].
  apply res_bind_ok in E as ([k5 y] & -> & E). cbn [res_bind]. apply ok_inj in E as <-. by eexists.
Qed.

(** The same task is current afterwards. *)
Lemma sig_place_restricted k e n b k' : vTaskPlaceOnEventListRestricted k e n b = Ok k' -> sig k' = sig k.
Proof. unfold vTaskPlaceOnEventListRestricted. sig_solve. Qed.
Lemma restricted_wait_steady ints s q n b s' :
  vQueueWaitForMessageRestricted (fun n => run_qints (ints n)) s q n b = Ok s' -> steady (kern s) (kern s').
Proof.
  unfold vQueueWaitForMessageRestricted. intros H. apply res_bind_ok in H as (s1 & H1 & H). apply res_bind_ok in H as (s2 & S2%qints_steady & H).
  apply res_bind_ok in H as (Q & _ & H). apply res_bind_ok in H as (s3 & H3 & H). apply res_bind_ok in H as (s4 & S4%qints_steady & S5%unlock_steady).
  replace (kern s1) with (kern s) in S2 by (unfold lock_queue in H1; by ok_inv). eapply steady_trans; [exact S2|].
  eapply steady_trans; [|eapply steady_trans; [exact S4|exact S5]]. apply steady_sig. ok_inv; [|done]. by eapply sig_place_restricted.
Qed.
Lemma timers_step_came_back ints s T s' T' pc :
  uxSchedulerSuspended (kern s) = 0 -> timer_task_step (fun n => run_qints (ints n)) (mkTsys s T AtTimers) = Ok (mkTsys s' T' pc) ->
  came_back (kern s) (kern s').
Proof.
  intros Hs H. cbn [timer_task_step] in H. destruct (prvGetNextExpireTime T) as [next empty]. apply res_bind_ok in H as ([s1 T1] & H & E).
  apply ok_inj in E. injection E as <- <- <-. unfold prvProcessTimerOrBlockTask in H. apply res_bind_ok in H as (s2 & S2%qints_steady & H).
  change (kern (put_kern s (vTaskSuspendAll (kern s)))) with (vTaskSuspendAll (kern s)) in S2.
  assert (forall s3 k b, steady (kern s2) (kern s3) -> xTaskResumeAll (kern s3) = Ok (k, b) -> came_back (kern s) k /\ came_back (kern s) (portYIELD k)) as Hb.
  { intros s3 k b S3 E. pose proof (steady_trans _ _ _ S2 S3) as S. assert (came_back (kern s) k) as C; [|split; [done|by apply came_back_yield]].
    split; [by eapply kept_resume|]. apply resume_steady in E as [= _ _ _ ->]. rewrite (sy_suspended _ _ S). cbn. by rewrite Hs. }
  apply res_bind_ok in H as ([T2 sw] & _ & H). destruct sw; cbn [negb] in H; [|destruct (negb empty && _)].
  - apply res_bind_ok in H as (s3 & S3%qints_steady & H). apply res_bind_ok in H as ([k b] & E & H). ok_inv. by eapply Hb.
  - apply res_bind_ok in H as ([k b] & E & H). ok_inv. eapply Hb; [by apply steady_sig|done].
  - apply res_bind_ok in H as (s3 & S3%restricted_wait_steady & H). apply res_bind_ok in H as (s4 & S4%qints_steady & H).
    apply res_bind_ok in H as ([k b] & E & H). ok_inv. destruct (Hb s4 k b) as [? ?]; [by eapply steady_trans|done|by destruct b].
Qed.

(** ... and the kernel stays typed. *)
Lemma tstep_restricted (J : Z -> Prop) (H : Z -> Z) ints s0 s q n b s' :
  ints_ok s0 ints -> tstep J H s0 s -> vQueueWaitForMessageRestricted (fun n => run_qints (ints n)) s q n b = Ok s' -> tstep J H s0 s'.
Proof.
  intros Hi K E. unfold vQueueWaitForMessageRestricted in E. apply res_bind_ok in E as (s1 & E1 & E). apply (tstep_lock J H s0) in E1; [|done].
  apply res_bind_ok in E as (s2 & E2 & E). apply (tstep_isr J H ints s0) in E2; [|done|done]. apply res_bind_ok in E as (Q & _ & E).
  apply res_bind_ok in E as (s3 & E3 & E). assert (tstep J H s0 s3) as K3.
  { destruct (uxMessagesWaiting Q =? 0); ok_inv; [|done]. apply tstep_then; [done|]. by eapply typed_place_restricted. }
  apply res_bind_ok in E as (s4 & E4 & E). apply (tstep_isr J H ints s0) in E4; [|done|done]. by apply (tstep_unlock J H ints s0 s4 q 7).
Qed.
Lemma tstep_timers (J : Z -> Prop) (H : Z -> Z) ints s T s' T' pc :
  ints_ok s ints -> timer_task_step (fun n => run_qints (ints n)) (mkTsys s T AtTimers) = Ok (mkTsys s' T' pc) -> tstep J H s s'.
Proof.
  intros Hi E. cbn [timer_task_step] in E. destruct (prvGetNextExpireTime T) as [next empty]. apply res_bind_ok in E as ([s1 T1] & E & E').
  apply ok_inj in E'. injection E' as <- <- <-. unfold prvProcessTimerOrBlockTask in E. apply res_bind_ok in E as (s2 & E2 & E).
  apply (tstep_isr J H ints s) in E2; [|done|by apply tstep_then; [done|]; intros K; typed_goal].
  assert (forall s3 k b, tstep J H s s3 -> xTaskResumeAll (kern s3) = Ok (k, b) -> tstep J H s (put_kern s3 k) /\ tstep J H s (put_kern s3 (portYIELD k))) as Hb.
  { intros s3 k b K3 Ek. split; apply tstep_then; try done; intros K; apply (typed_resume_all J H) in Ek; try done. typed_goal. }
  apply res_bind_ok in E as ([T2 sw] & _ & E). destruct sw; cbn [negb] in E; [|destruct (negb empty && _)].
  - apply res_bind_ok in E as (s3 & E3 & E). apply (tstep_isr J H ints s) in E3; [|done|done]. apply res_bind_ok in E as ([k b] & Ek & E). ok_inv. by eapply Hb.
  - apply res_bind_ok in E as ([k b] & Ek & E). ok_inv. by eapply Hb.
  - apply res_bind_ok in E as (s3 & E3 & E). apply (tstep_restricted J H ints s) in E3; [|done|done]. apply res_bind_ok in E as (s4 & E4 & E).
    apply (tstep_isr J H ints s) in E4; [|done|done]. apply res_bind_ok in E as ([k b] & Ek & E). ok_inv. destruct (Hb s4 k b E4 Ek). by destruct b.
Qed.

(** The timer task looks for a command. *)
Lemma receive_head isr s q to n inh s' b :
  sinv N idle s -> op_ok (qtypes s) xQueueReceive q -> step_call isr xQueueReceive s q (Try to n inh) = Ok (s', Return (Some b)) ->
  exists cap xs, view s !! q = Some (cap, b :: xs).
Proof.
  intros S (len & size & HT) H. destruct (qtype_queue _ _ _ _ _ HT) as (Q & Hq & <- & <- & Hm). destruct (si_queues _ _ _ S q Q Hq) as [Hok _].
  unfold step_call in H. apply res_bind_ok in H as ([s1 p1] & H & E). apply ok_inj, pair_equal_spec in E as [_ ->]. cbn [step_operation] in H.
  unfold xQueueReceive_try, get_queue in H. rewrite Hq in H. cbn [res_bind] in H. destruct (0 <? uxMessagesWaiting Q) eqn:Hc.
  2: { unfold cannot_now in H. by destruct (n =? 0). }
  destruct (receive_data q Q Hok Hm Hc) as (x & Q' & E & _ & _ & Ho & _). rewrite E in H. cbn [res_bind] in H.
  apply res_bind_ok in H as (k & _ & H). apply ok_inj, pair_equal_spec in H as [_ [= <-]].
  pose proof (view_queue _ _ _ Hq) as Hv. destruct (Ho (view s) Hv) as [Hr _]. cbn in Hr. rewrite Hv in Hr. cbn in Hr.
  rewrite Hv. destruct (contents Q) as [|y ys]; [done|]. destruct (decide (x = y)) as [->|]; [|done]. by eexists _, _.
Qed.
Lemma commands_step_ok c s T ints :
  sinv N idle s -> xPendSV (kern s) = false -> pxCurrentTCB (kern s) = Some c -> op_ok (qtypes s) xQueueReceive (xTimerQueue T) ->
  (forall n, Forall (int_ok (qtypes s)) (ints n)) ->
  exists s' pc, timer_task_step (fun n => run_qints (ints n)) (mkTsys s T AtCommands) = Ok (mkTsys s' T pc) /\ stepped N idle s s' /\
    kept (kern s) (kern s') /\ (uxSchedulerSuspended (kern s) = 0 -> uxSchedulerSuspended (kern s') = 0) /\
    (forall J H, tstep J H s s') /\
    (pc = AtTimers \/ exists bs cap xs, pc = AtMessage (read_message bs) /\ view s !! xTimerQueue T = Some (cap, bs :: xs)).
Proof.
  intros S Hp Hc Ho Hi. cbn [timer_task_step]. change (xQueueReceive_start s (xTimerQueue T) 0) with (start_operation xQueueReceive s (xTimerQueue T) 0).
  rewrite (start_ok N HN idle xQueueReceive s _ 0 c S (or_introl Ho)) by done. cbn [res_bind].
  destruct (step_call_ok N HN idle xQueueReceive s (xTimerQueue T) (Try None 0 false) c ints S Hp Hc Ho) as (s' & p & E & St & _); try done; [by left|].
  destruct (step_call_kept ints _ _ _ _ _ _ E) as [K Ks]; [by intros (? & ? & ? & ?)|].
  assert (forall J H, tstep J H s s') as Hty by (intros J H; by apply (tstep_step J H ints xQueueReceive s (xTimerQueue T) (Try None 0 false) s' p)).
  destruct (polling_returns _ _ _ _ _ _ _ eq_refl E) as ([bs|] & ->); rewrite E; cbn [res_bind].
  - eexists _, _. split; [done|]. split; [done|]. split; [done|]. split; [done|]. split; [done|]. right.
    destruct (receive_head _ _ _ _ _ _ _ _ S Ho E) as (cap & xs & Hv). by exists bs, cap, xs.
  - eexists _, _. split; [done|]. split_and!; try done. by left.
Qed.
End task.

(** Items that were sent keep their property. *)
Definition items_are (J : list Z -> Prop) (q : Z) (A : aqueues) : Prop := forall cap xs, A !! q = Some (cap, xs) -> Forall J xs.
Lemma outcome_items J q A o A' :
  items_are J q A -> (forall x pos, o = Sent q x pos -> J x) -> apply_outcome A o = Some A' -> items_are J q A'.
Proof.
  intros HA Ho E cap xs. destruct o as [q' x pos|q' x|q' x|q'|q']; cbn in E; destruct (A !! q') as [[cap' ys]|] eqn:Hq'; try discriminate E; cbn in E.
  - destruct (decide (q' = q)) as [->|Hne].
    + pose proof (Ho x pos eq_refl) as Hx. pose proof (HA _ _ Hq') as Hys. destruct (pos =? queueOVERWRITE); [destruct (cap' =? 1)|destruct (_ <? _)]; try discriminate E;
        injection E as <-; rewrite lookup_insert_eq; intros [= _ <-]; [by repeat constructor|]. destruct (pos =? queueSEND_TO_BACK); [|by constructor].
      apply Forall_app. split; [done|by repeat constructor].
    + destruct (pos =? queueOVERWRITE); [destruct (cap' =? 1)|destruct (_ <? _)]; try discriminate E; injection E as <-; rewrite lookup_insert_ne by done; apply HA.
  - destruct ys as [|y ys]; [discriminate E|]. destruct (decide (x = y)) as [->|]; [|discriminate E]. injection E as <-.
    destruct (decide (q' = q)) as [->|Hne]; [|rewrite lookup_insert_ne by done; apply HA]. rewrite lookup_insert_eq. intros [= _ <-].
    by apply HA, Forall_inv_tail in Hq'.
  - destruct (decide _); [|discriminate E]. injection E as <-. apply HA.
  - destruct (_ =? _); [|discriminate E]. injection E as <-. apply HA.
  - destruct (decide _); [|discriminate E]. injection E as <-. apply HA.
Qed.
Lemma evolves_items J q s s' :
  evolves s s' -> items_are J q (view s) -> (forall x pos, In (Sent q x pos) (outcomes s') -> J x) -> items_are J q (view s').
Proof.
  intros (os & -> & E) Hs HJ. assert (forall x pos, In (Sent q x pos) os -> J x) as HJ' by (intros x pos Hin; apply (HJ x pos), in_app_iff; by right).
  clear HJ. revert E Hs HJ'. generalize (view s) as A, (view s') as A'. induction os as [|o os IH]; intros A A' E HA HJ; cbn in E; [by injection E as <-|].
  destruct (apply_outcome A o) as [A1|] eqn:E1; [|discriminate E]. apply (IH A1); [done| |intros x pos Hin; apply (HJ x pos); by right].
  apply (outcome_items J q A o A1 HA); [|done]. intros x pos ->. apply (HJ x pos). by left.
Qed.
End RtosTimerTask.
