(* ===== verification/RtosTimerSys.v ===== *)
(** * Programs with software timers

    The machine of [RtosMachine] with the timer task: the other tasks and the
    interrupts run as before and send commands to the queue of the timer task, which
    runs its loop when it is scheduled. *)

From S2P Require Import Prelude Words RtosHeap RtosSeq RtosSched RtosSchedInv RtosSchedProps RtosRun RtosSteady RtosTyped RtosBoot.
From S2P Require Import RtosQueue RtosQueueData RtosQueueSys RtosQueueRun RtosLock RtosMachine RtosProgram RtosTimer RtosTimerProps RtosTimerRun RtosTimerTask.
From stdpp Require Import list.
#[local] Set Warnings "-clear-no-such-hyp".
#[local] Open Scope Z_scope.

Module RtosTimerSys.
Export RtosProgram RtosTimerTask.
#[local] Existing Instance nobody.

(** The times count the ticks without end: [tm_now] is now, [tm_last] when the timer
    task sampled the tick count last. *)
Record tmachine := mkTmachine {
  tm_machine : machine;
  tm_timers : timers;
  tm_pc : daemon_pc;
  tm_now : Z;
  tm_last : Z;
}.
Definition tm_sys (f : tmachine) : sys := msys (tm_machine f).
Definition later (now : Z) (k : kernel) : Z := now + (xTickCount k - now) mod W.

(** A step of another task or an interrupt, a step of the timer task, or the creation
    of a timer. *)
Inductive fevent :=
  | FOther (e : qevent)
  | FTimer (ints : nat -> list qint)
  | FCreate (t xTimerPeriod : Z) (xAutoReload : bool) (id callback number : Z).
Definition run_fevent (f : tmachine) (e : fevent) : res tmachine :=
  let '(mkTmachine m T pc now last) := f in
  match e with
  | FOther e =>
      let! m := run_qevent m e in Ok (mkTmachine m T pc (later now (kern (msys m))) last)
  | FTimer ints =>
      let! '(mkTsys s T pc') := timer_task_step (fun n => run_qints (ints n)) (mkTsys (msys m) T pc) in
      let last := match pc with AtTimers | AtMessage (TimerMessage _ _ _) => now | _ => last end in
      Ok (mkTmachine (m <| msys := s |>) T pc' (later now (kern s)) last)
  | FCreate t p a id cb n => Ok (mkTmachine m (set_members T t p a id cb n 0) pc now last)
  end.

(** The task [d] is the timer task: it runs nothing else, and at least once while the
    tick count wraps once. *)
Definition fenabled (idle d : Z) (f : tmachine) (e : fevent) : Prop :=
  let s := tm_sys f in
  match e with
  | FOther e => qenabled idle (tm_machine f) e /\ match e with QInterrupt _ => True | _ => pxCurrentTCB (kern s) <> Some d end
  | FTimer ints => pxCurrentTCB (kern s) = Some d /\ xPendSV (kern s) = false /\ (forall n, Forall (int_ok (qtypes s)) (ints n)) /\
      tm_now f < tm_last f + W
  | FCreate t p _ _ _ _ => tctl (tm_timers f) !! t = None /\ 0 < p < W
  end.

(** The commands are about timers that exist; no timer is deleted, since [heap_1.c]
    cannot free its memory. *)
Definition valid (T : timers) (m : message) : Prop :=
  match m with
  | TimerMessage id v t => is_Some (tctl T !! t) /\ 0 <= v < W /\ (changes_period id -> 0 < v) /\ id <> tmrCOMMAND_DELETE
  | CallbackMessage _ _ _ _ => True
  end.
Definition commands_valid (q : Z) (f : tmachine) : Prop :=
  forall x pos, In (Sent q x pos) (outcomes (tm_sys f)) -> valid (tm_timers f) (read_message x).

Lemma valid_keeps T T' m : keeps T T' -> valid T m -> valid T' m.
Proof. intros K. destruct m; [|done]. intros (Ht & H). split; [by apply K|done]. Qed.
Lemma valid_event T m : valid T m -> tevent_ok T (TMessage m).
Proof. destruct m as [id v t|]; [|done]. intros ([x Hx] & Hv & Hc & Hd). by exists x. Qed.
Lemma later_ok {stc : Strict} now k idle : inv idle k -> 0 <= now -> now <= later now k /\ xTickCount k = later now k mod W.
Proof.
  intros I Hn. pose proof (wf_tick _ _ _ (inv_wf _ _ I)) as Ht. unfold is_u in Ht. unfold later, W in *.
  pose proof (Z.mod_pos_bound (xTickCount k - now) (2 ^ 32)). split; [lia|].
  rewrite Zplus_mod_idemp_r. replace (now + (xTickCount k - now)) with (xTickCount k) by lia. symmetry. by apply Z.mod_small.
Qed.

Record finv {stc : Strict} (N idle : Z) (J : Z -> Prop) (d q : Z) (f : tmachine) : Prop := {
  fi_machine : minv N idle J (tm_machine f);
  fi_timers : treachable q (tm_timers f) (tm_last f);
  fi_now : 0 <= tm_last f <= tm_now f;
  fi_tick : xTickCount (kern (tm_sys f)) = tm_now f mod W;
  fi_free : in_call (tm_machine f) !! d = None;
  fi_suspended : uxSchedulerSuspended (kern (tm_sys f)) <> 0 -> pxCurrentTCB (kern (tm_sys f)) <> Some d;
  fi_queue : qtypes (tm_sys f) !! q = Some (configTIMER_QUEUE_LENGTH, sizeof_DaemonTaskMessage_t, false);
  fi_items : items_are (fun x => valid (tm_timers f) (read_message x)) q (view (tm_sys f));
  fi_message m : tm_pc f = AtMessage m -> valid (tm_timers f) m;
}.

Section system.
Context {stc : Strict} (N : Z) (HN : N <= 127) (idle : Z) (J : Z -> Prop) (d q : Z) (Hd : d <> idle).

Lemma types_queue A len size : A !! q = Some (len, size, false) -> op_ok A xQueueReceive q.
Proof. intros H. by exists len, size. Qed.
Lemma items_mono (P P' : list Z -> Prop) A : (forall x, P x -> P' x) -> items_are P q A -> items_are P' q A.
Proof. intros H HA cap xs Hq. eapply Forall_impl; [by apply (HA cap)|done]. Qed.

Lemma other_finv f e :
  finv N idle J d q f -> fenabled idle d f (FOther e) ->
  exists f', run_fevent f (FOther e) = Ok f' /\ (commands_valid q f' -> finv N idle J d q f').
Proof.
  intros F [He Hcur]. destruct f as [m T pc now last]. pose proof F as [M Ht Hn Htick Hfree Hsus Hq Hit Hpc]. unfold tm_sys in *. cbn in *.
  destruct (qevent_minv N HN idle J m e M He (nobody_spared e)) as (m' & E & [M' V Ety]). rewrite E. cbn [res_bind]. eexists. split; [done|]. intros Hv.
  destruct (qevent_kept N idle J m e m' M He E) as [K C].
  destruct (later_ok now (kern (msys m')) idle) as [Hl1 Hl2]; [apply (mi_sys _ _ _ _ M')|lia|]. split; unfold tm_sys; cbn; try done.
  - lia.
  - rewrite C; [done|]. destruct e; [right; by eexists|by left..].
  - destruct e; [|destruct K as [_ ->]; intros _; exact Hcur..]. rewrite (sy_suspended _ _ K). intros Hs. rewrite (sy_current _ _ K Hs). auto.
  - by rewrite Ety.
  - by apply (evolves_items _ q (msys m)).
Qed.

(** After a step of the timer task. *)
Lemma after_timer_step m T pc now last s' T' last' pc' :
  finv N idle J d q (mkTmachine m T pc now last) -> stepped N idle (msys m) s' -> kept (kern (msys m)) (kern s') -> uxSchedulerSuspended (kern s') = 0 ->
  (forall H, tstep J H (msys m) s') -> treachable q T' last' -> keeps T T' -> 0 <= last' <= now -> (forall x, pc' = AtMessage x -> valid T' x) ->
  let f' := mkTmachine (m <| msys := s' |>) T' pc' (later now (kern s')) last' in
  commands_valid q f' -> finv N idle J d q f'.
Proof.
  intros [M _ _ _ Hfree Hsus Hq Hit _] (S' & T'' & V & Hho) [Kn Kc] Hs' Hty Hr K Hl Hpc f' Hv. unfold tm_sys in *. cbn in *.
  destruct (later_ok now (kern s') idle) as [Hl1 Hl2]; [apply S'|lia|].
  split; unfold tm_sys; cbn; try done.
  - apply minv_same; try done; [apply Hty, M|]. intros t o q' p Hin [Hne _]. by destruct Hne.
  - lia.
  - by rewrite T''.
  - apply (evolves_items _ q (msys m)); [done| |exact Hv]. eapply items_mono; [|exact Hit]. intros x. by apply valid_keeps.
Qed.

Lemma timer_finv f ints :
  finv N idle J d q f -> fenabled idle d f (FTimer ints) ->
  exists f', run_fevent f (FTimer ints) = Ok f' /\ (commands_valid q f' -> finv N idle J d q f').
Proof.
  intros F (Hc & Hp & Hi & Hlast). destruct f as [m T pc now last]. pose proof F as [M Ht Hn Htick Hfree Hsus Hq Hit Hpc]. unfold tm_sys in *. cbn in *.
  assert (uxSchedulerSuspended (kern (msys m)) = 0) as Hs by (destruct (decide (uxSchedulerSuspended (kern (msys m)) = 0)); [done|]; by destruct Hsus).
  pose proof (mi_sys _ _ _ _ M) as S. pose proof (treachable_queue _ _ _ Ht) as HqT. destruct (treachable_clock _ _ _ Ht) as (due & Hck).
  destruct (qtype_queue _ _ _ _ _ Hq) as (Q & HQ & _). destruct pc as [| |msg].
  - destruct (round_ok T last now due Hck ltac:(lia)) as (T' & due' & w & E & Hck' & Hq' & _ & Hw).
    assert (treachable q T' now) as Hr' by (apply (tr_step q T last now TRound T' w); [done|lia|done|done]).
    destruct (timers_step_ok N HN idle d (msys m) T T' w Q ints) as (s' & Es & St); try done; [by rewrite HqT|by rewrite Htick| |].
    { destruct w as [[n forever]|]; [|done]. destruct Hw as [Hw _]. unfold wait_right in Hw. destruct forever; [by left|right; apply Hw]. }
    destruct (timers_step_came_back ints _ _ _ _ _ Hs Es) as [K Hs']. cbn [timer_task_step] in Es. rewrite Es. cbn [res_bind].
    eexists. split; [done|]. apply (after_timer_step m T AtTimers now last); try done; [intros H; by eapply tstep_timers| |lia]. by apply (tevent_keeps T (now mod W) TRound T' w).
  - destruct (commands_step_ok N HN idle d (msys m) T ints S Hp Hc) as (s' & pc' & Es & St & K & Hs' & Hty & Hpc'); [rewrite HqT; by eapply types_queue|done|].
    cbn [timer_task_step] in Es. rewrite Es. cbn [res_bind]. eexists. split; [done|].
    apply (after_timer_step m T AtCommands now last); try done; [auto|by apply keeps_refl|].
    intros x ->. destruct Hpc' as [[=]|(bs & cap & xs & [= ->] & Hv)]. rewrite HqT in Hv. by apply Hit, Forall_inv in Hv.
  - pose proof (valid_event T msg (Hpc msg eq_refl)) as Hev.
    destruct (tevent_clock T last now due (TMessage msg) Hck ltac:(lia) Hev) as (T' & w & due' & cs & E & _). pose proof E as Et. cbn [run_tevent] in E.
    apply res_bind_ok in E as (T1 & E & E'). apply ok_inj, pair_equal_spec in E' as [-> <-]. rewrite Htick, E. cbn [res_bind].
    eexists. split; [done|]. pose proof (tr_step q T last now _ T' None Ht ltac:(lia) Hev Et) as Hr'. cbn [sampled] in Hr'.
    apply (after_timer_step m T (AtMessage msg) now last); try done; [by apply stepped_refl|by eapply tevent_keeps|].
    destruct msg; lia.
Qed.

Lemma create_finv f t p a id cb n :
  finv N idle J d q f -> fenabled idle d f (FCreate t p a id cb n) ->
  exists f', run_fevent f (FCreate t p a id cb n) = Ok f' /\ (commands_valid q f' -> finv N idle J d q f').
Proof.
  intros F [Ht Hp]. destruct f as [m T pc now last]. pose proof F as [M Hr Hn Htick Hfree Hsus Hq Hit Hpc]. unfold tm_sys in *. cbn in *.
  eexists. split; [done|]. intros _. set (T' := set_members T t p a id cb n 0).
  assert (keeps T T') as K by (by apply (tevent_keeps T 0 (TCreate t p a id cb n) T' None)). split; unfold tm_sys; cbn; try done.
  - apply (tr_step q T last last (TCreate t p a id cb n) T' None); [done|unfold W; lia|done|done].
  - eapply items_mono; [|exact Hit]. intros x. by apply valid_keeps.
  - intros x Hx. by apply (valid_keeps T), Hpc.
Qed.
Lemma fevent_finv f e :
  finv N idle J d q f -> fenabled idle d f e -> exists f', run_fevent f e = Ok f' /\ (commands_valid q f' -> finv N idle J d q f').
Proof. destruct e; [apply other_finv|apply timer_finv|apply create_finv]. Qed.
End system.

(** ** The states a program with timers reaches *)

Section programs.
Context (ucHeap : Z) (memory : Z -> Z).

(** The queue [q] of the timer task is one of the queues that were created; as long as
    the program runs, the commands that are sent are valid. *)
Inductive freachable (idle d q : Z) (tasks : list (Z * Z)) (cs : list creation) : tmachine -> Prop :=
  | fr_setup s : setup ucHeap memory tasks cs = Ok s ->
      qtypes s !! q = Some (configTIMER_QUEUE_LENGTH, sizeof_DaemonTaskMessage_t, false) ->
      view s !! q = Some (configTIMER_QUEUE_LENGTH, []) ->
      freachable idle d q tasks cs (mkTmachine (mkMachine s ∅ []) (start_timers q) AtTimers (later 0 (kern s)) 0)
  | fr_step f e f' : freachable idle d q tasks cs f -> fenabled idle d f e -> run_fevent f e = Ok f' -> commands_valid q f' ->
      freachable idle d q tasks cs f'.

Lemma freachable_inv {stc : Strict} idle d q tasks cs f :
  task_set idle tasks -> (length tasks <= 127)%nat -> Forall creation_ok cs -> (strict -> Forall (fun c => is_mutex c = false) cs) -> d <> idle ->
  freachable idle d q tasks cs f -> finv (Z.of_nat (length tasks)) idle (fun t => t ∈ tasks.*1) d q f.
Proof.
  intros Ht HN Hcs Hst Hd. destruct (setup_ok ucHeap memory idle tasks cs Ht Hcs Hst) as (s0 & E0 & P0).
  induction 1 as [s E Hq Hv|f e f' _ IH He E Hv].
  - assert (s = s0) as -> by congruence. destruct (later_ok 0 (kern s0) idle) as [Hl1 Hl2]; [apply (pr_sys _ _ _ _ _ P0)|lia|].
    split; unfold tm_sys; cbn; try done; [|apply tr_start|by rewrite (pr_suspended _ _ _ _ _ P0)|].
    + by eapply prepared_minv.
    + intros cap xs. rewrite Hv. intros [= <- <-]. constructor.
  - destruct (fevent_finv (Z.of_nat (length tasks)) ltac:(lia) idle (fun t => t ∈ tasks.*1) d q Hd f e IH He) as (f1 & E1 & F1).
    assert (f1 = f') as -> by congruence. by apply F1.
Qed.

(** C9: the timer task at work in a program.  In every state a program with tasks,
    interrupts, queues and timers reaches, the timers are in a state that rounds and
    commands of the timer task lead to, at the time that the tick count shows; and
    whatever comes next - a step of a task, an interrupt, a step of the timer task with
    interrupts inside it, the creation of a timer - returns. *)
Theorem timer_program_safe (idle d q : Z) (tasks : list (Z * Z)) (cs : list creation) (f : tmachine) :
  task_set idle tasks -> (length tasks <= 127)%nat -> Forall creation_ok cs -> d <> idle -> freachable idle d q tasks cs f ->
  treachable q (tm_timers f) (tm_last f) /\ tm_last f <= tm_now f /\ xTickCount (kern (tm_sys f)) = tm_now f mod W /\
  forall e, fenabled idle d f e -> exists f', run_fevent f e = Ok f'.
Proof.
  intros Ht HN Hcs Hd Hr. pose proof (freachable_inv (stc := False) idle d q tasks cs f Ht HN Hcs ltac:(done) Hd Hr) as F.
  split; [apply F|]. split; [apply F|]. split; [apply F|]. intros e He.
  destruct (fevent_finv (Z.of_nat (length tasks)) ltac:(lia) idle (fun t => t ∈ tasks.*1) d q Hd f e F He) as (f' & E & _). by exists f'.
Qed.
End programs.

(** ** A program

    The timer task, task 2, waits for a command; task 1 starts a timer; the timer task
    receives the command. *)
Definition timer_tasks : list (Z * Z) := [(1, 1); (2, 2); (0, 0)].
Definition timer_queue : list creation := [NewQueue configTIMER_QUEUE_LENGTH sizeof_DaemonTaskMessage_t queueQUEUE_TYPE_BASE].
Definition start_bytes : list Z := message_bytes (TimerMessage tmrCOMMAND_START 0 100) [0; 0; 0; 0].
Definition blank_tmachine : tmachine := mkTmachine (mkMachine (start_sys blank) ∅ []) no_timers AtTimers 0 0.
Definition tmachine_after (f : tmachine) (es : list fevent) : tmachine :=
  match res_fold run_fevent f es with Ok f => f | Fault _ => blank_tmachine end.
Definition timer_setup : sys :=
  match setup a_heap a_memory timer_tasks timer_queue with Ok s => s | Fault _ => start_sys blank end.
Definition timer_start : tmachine := mkTmachine (mkMachine timer_setup ∅ []) (start_timers a_heap) AtTimers (later 0 (kern timer_setup)) 0.
Definition no_ints (n : nat) : list qint := [].
Definition timer_events : list fevent :=
  [FCreate 100 3 true 0 7 0; FTimer no_ints; FOther (QInterrupt QPendSV); FOther (QStart (xQueueGenericSend (Some start_bytes) queueSEND_TO_BACK) a_heap 0);
   FOther (QStep no_ints); FOther (QInterrupt QPendSV); FTimer no_ints].
Definition timer_at (n : nat) : tmachine := tmachine_after timer_start (take n timer_events).

Lemma timer_tasks_ok : task_set 0 timer_tasks.
Proof. split; [|split; [|split]]; [apply (bool_decide_unpack _); by vm_compute|repeat constructor; cbn; unfold configMAX_PRIORITIES; lia|set_solver|cbn; lia]. Qed.
Lemma timer_queue_ok : Forall creation_ok timer_queue.
Proof. repeat constructor; cbn; unfold SIZE_MAX, sizeof_Queue_t, configTIMER_QUEUE_LENGTH, sizeof_DaemonTaskMessage_t; lia. Qed.
(** The only item that was sent starts the timer 100. *)
Lemma start_valid f os x0 :
  outcomes (tm_sys f) = os -> tctl (tm_timers f) !! 100 = Some x0 -> forallb (fun o => match o with Sent _ x _ => bool_decide (x = start_bytes) | _ => true end) os = true ->
  commands_valid a_heap f.
Proof.
  intros E Hx Hall x pos. rewrite E. intros Hin. rewrite forallb_forall in Hall. specialize (Hall _ Hin). apply (bool_decide_eq_true (x = start_bytes)) in Hall as ->.
  assert (read_message start_bytes = TimerMessage tmrCOMMAND_START 0 100) as -> by (vm_compute; exact eq_refl).
  split; [by exists x0|]. split; [unfold W; lia|]. split; [|done]. by intros [?|?].
Qed.
Lemma timer_next n e :
  freachable a_heap a_memory 0 2 a_heap timer_tasks timer_queue (timer_at n) -> timer_events !! n = Some e -> fenabled 0 2 (timer_at n) e ->
  run_fevent (timer_at n) e = Ok (timer_at (S n)) -> tctl (tm_timers (timer_at (S n))) !! 100 <> None ->
  forallb (fun o => match o with Sent _ x _ => bool_decide (x = start_bytes) | _ => true end) (outcomes (tm_sys (timer_at (S n)))) = true ->
  freachable a_heap a_memory 0 2 a_heap timer_tasks timer_queue (timer_at (S n)).
Proof.
  intros Hr _ He E Hx Hall. apply (fr_step _ _ _ _ _ _ _ (timer_at n) e); try done. destruct (tctl (tm_timers (timer_at (S n))) !! 100) as [x0|] eqn:Hx0; [|done].
  by eapply start_valid.
Qed.
Ltac compute_goal := vm_compute; exact eq_refl.
Ltac next_timer := eapply timer_next; [|compute_goal| |compute_goal|vm_compute; discriminate|compute_goal].
Lemma types_at n : bool_decide (qtypes (tm_sys (timer_at n)) !! a_heap = Some (configTIMER_QUEUE_LENGTH, sizeof_DaemonTaskMessage_t, false)) = true ->
  qtypes (tm_sys (timer_at n)) !! a_heap = Some (configTIMER_QUEUE_LENGTH, sizeof_DaemonTaskMessage_t, false).
Proof. apply bool_decide_eq_true. Qed.
Lemma timer_at_reachable : freachable a_heap a_memory 0 2 a_heap timer_tasks timer_queue (timer_at 7).
Proof.
  next_timer; [next_timer; [next_timer; [next_timer; [next_timer; [next_timer; [next_timer|]|]|]|]|]|].
  - apply (fr_setup a_heap a_memory 0 2 a_heap timer_tasks timer_queue timer_setup); compute_goal.
  - split; [compute_goal|unfold W; lia].
  - split; [compute_goal|]. split; [compute_goal|]. split; [intros n; constructor|compute_goal].
  - split; exact Logic.I.
  - assert (in_call (tm_machine (timer_at 3)) = ∅) as Hcall by compute_goal.
    assert (qtypes (tm_sys (timer_at 3)) !! a_heap = Some (configTIMER_QUEUE_LENGTH, sizeof_DaemonTaskMessage_t, false)) as Ty by (apply types_at; compute_goal).
    split; [|vm_compute; discriminate]. split; [split; [compute_goal|intros t _; rewrite Hcall; apply lookup_empty]|].
    split; [lia|]. split; [intros t _; left; eexists _, _; split; [exact Ty|]; split; [exists start_bytes; split; compute_goal|left; exact eq_refl]|]. intros Hne. by destruct Hne.
  - split; [|vm_compute; discriminate]. split; [compute_goal|]. intros n. constructor.
  - split; exact Logic.I.
  - split; [compute_goal|]. split; [compute_goal|]. split; [intros n; constructor|compute_goal].
Qed.
Lemma timer_program_safe_witness :
  tm_pc (timer_at 7) = AtMessage (TimerMessage tmrCOMMAND_START 0 100) /\
  treachable a_heap (tm_timers (timer_at 7)) (tm_last (timer_at 7)) /\ tm_last (timer_at 7) <= tm_now (timer_at 7) /\
  xTickCount (kern (tm_sys (timer_at 7))) = tm_now (timer_at 7) mod W /\
  forall e, fenabled 0 2 (timer_at 7) e -> exists f', run_fevent (timer_at 7) e = Ok f'.
Proof.
  split; [compute_goal|]. apply (timer_program_safe a_heap a_memory 0 2 a_heap timer_tasks timer_queue (timer_at 7));
    [exact timer_tasks_ok|apply Nat.leb_le; exact eq_refl|exact timer_queue_ok|discriminate|exact timer_at_reachable].
Defined.
End RtosTimerSys.
