(* ===== verification/SpiDriver.v ===== *)
(** * The LPSPI driver of the demo

    [Demo_FreeRTOS/RTD/src/Lpspi_Ip.c] as the demo configures it (no DMA, one
    clock mode, slave and half-duplex support compiled in, development error
    detection on, dummy timeout counter): initialisation, transfer set-up, the
    FIFO routines and the synchronous full-duplex transfer.  The controller is
    any [SpiPort], the access to its registers; the register header
    [S32K358_LPSPI.h] is not part of the sources, so the masks and field macros
    the driver takes from it are the class [LpspiHeader].  A failed [DevAssert]
    is a [Fault]; the exclusive areas of the scheduler manager only mask
    interrupts and are left out.  Transmit and receive buffers are distinct. *)

From S2P Require Import Prelude Words Lpspi.
Import Lpspi.

(** Reads and writes through [LPSPI_Type*], by field. *)
Class SpiPort (D : Type) := {
  reg_read : D -> reg -> res (Z * D);
  reg_write : D -> reg -> Z -> res D;
}.

(** What the driver takes from the register header.  [ERR_IPV_LPSPIV2_0001] is
    whether that macro is defined, without its second solution. *)
Class LpspiHeader := {
  LPSPI_CR_MEN_MASK : Z;
  LPSPI_CR_RST_MASK : Z;
  LPSPI_CR_DBGEN_MASK : Z;
  LPSPI_CR_RTF_MASK : Z;
  LPSPI_CR_RRF_MASK : Z;
  LPSPI_FSR_RXCOUNT_MASK : Z;
  LPSPI_FSR_RXCOUNT_SHIFT : Z;
  LPSPI_TCR_CONT_MASK : Z;
  LPSPI_TCR_CONTC_MASK : Z;
  LPSPI_TCR_RXMSK_MASK : Z;
  LPSPI_TCR_TXMSK_MASK : Z;
  LPSPI_FCR_TXWATER : Z -> Z;
  LPSPI_TCR_FRAMESZ : Z -> Z;
  LPSPI_TCR_LSBF : Z -> Z;
  LPSPI_TCR_WIDTH : Z -> Z;
  LPSPI_TCR_CPOL : Z -> Z;
  LPSPI_TCR_CPHA : Z -> Z;
  LPSPI_TCR_PRESCALE : Z -> Z;
  LPSPI_TCR_PCS : Z -> Z;
  LPSPI_TCR_CONT : Z -> Z;
  LPSPI_CCR_SCKPCS : Z -> Z;
  LPSPI_CCR_PCSSCK : Z -> Z;
  LPSPI_CCR_DBT : Z -> Z;
  LPSPI_CCR_SCKDIV : Z -> Z;
  LPSPI_CFGR1_MASTER : Z -> Z;
  LPSPI_CFGR1_SAMPLE : Z -> Z;
  LPSPI_CFGR1_PCSPOL : Z -> Z;
  LPSPI_CFGR1_PINCFG : Z -> Z;
  LPSPI_CFGR1_OUTCFG : Z -> Z;
  LPSPI_CFGR1_PCSCFG : Z -> Z;
  LPSPI_INSTANCE_COUNT : Z;
  ERR_IPV_LPSPIV2_0001 : bool;
}.

Module SpiDriver.

(** ** Types of [Lpspi_Ip_Types.h] *)

Inductive Lpspi_Ip_ModeType := LPSPI_IP_POLLING | LPSPI_IP_INTERRUPT.
Inductive Lpspi_Ip_HwStatusType := LPSPI_IP_UNINIT | LPSPI_IP_IDLE | LPSPI_IP_BUSY | LPSPI_IP_FAULT.
Inductive Lpspi_Ip_StatusType :=
  | LPSPI_IP_STATUS_SUCCESS | LPSPI_IP_STATUS_FAIL | LPSPI_IP_FIFO_ERROR | LPSPI_IP_TIMEOUT.
Inductive Lpspi_Ip_HalfDuplexType :=
  | LPSPI_IP_HALF_DUPLEX_TRANSMIT | LPSPI_IP_HALF_DUPLEX_RECEIVE | LPSPI_IP_FULL_DUPLEX.

#[global] Instance hw_status_eq_dec : EqDecision Lpspi_Ip_HwStatusType.
Proof. solve_decision. Defined.
#[global] Instance half_duplex_eq_dec : EqDecision Lpspi_Ip_HalfDuplexType.
Proof. solve_decision. Defined.

Record Lpspi_Ip_DeviceParamsType := mkParams {
  FrameSize : Z;
  Lsb : bool;
  DefaultData : Z;
  TransferType : Lpspi_Ip_HalfDuplexType;
}.

Record Lpspi_Ip_ExternalDeviceType := mkExternal {
  Instance_ : Z;
  Ccr : Z;
  Tcr : Z;
  HalfDuplexCfgr1 : Z;
  DeviceParams : Lpspi_Ip_DeviceParamsType;
}.

Record Lpspi_Ip_ConfigType := mkConfig {
  cfg_Instance : Z;
  cfg_Cr : Z;
  cfg_Cfgr1 : Z;
  SlaveMode : bool;
  cfg_TransferMode : Lpspi_Ip_ModeType;
  StateIndex : Z;
}.

(** A buffer pointer is [None] for NULL, or the bytes it points to; the callback is
    [None] for NULL, or the address of a function.  [ExternalDevice] is [None] for NULL,
    as it is until the first transfer, or the device as it was when the call that set
    the pointer read it: the driver changes a device only while its instance is not
    busy, and every transfer sets the pointer anew. *)
Record Lpspi_Ip_StateStructureType := mkState {
  TransferMode : Lpspi_Ip_ModeType;
  Status : Lpspi_Ip_HwStatusType;
  RxBuffer : option (list Z);
  TxBuffer : option (list Z);
  RxIndex : Z;
  TxIndex : Z;
  ExpectedFifoReads : Z;
  ExpectedFifoWrites : Z;
  KeepCs : bool;
  FirstCmd : bool;
  PhyUnitConfig : Lpspi_Ip_ConfigType;
  ExternalDevice : option Lpspi_Ip_ExternalDeviceType;
  CurrentTxFifoSlot : Z;
  Callback : option Z;
  HalfDuplexTcrCommand : Z;
  NextChannelIsRX : bool;
}.
#[global] Instance eta_StateStructure : Eta Lpspi_Ip_StateStructureType := fun s =>
  mkState (TransferMode s) (Status s) (RxBuffer s) (TxBuffer s) (RxIndex s) (TxIndex s)
    (ExpectedFifoReads s) (ExpectedFifoWrites s) (KeepCs s) (FirstCmd s) (PhyUnitConfig s)
    (ExternalDevice s) (CurrentTxFifoSlot s) (Callback s) (HalfDuplexTcrCommand s) (NextChannelIsRX s).

Abbreviation State_t := Lpspi_Ip_StateStructureType.

(** [State->ExternalDevice->]. *)
Definition external_device (State : State_t) : res Lpspi_Ip_ExternalDeviceType :=
  match ExternalDevice State with Some dev => Ok dev | None => Fault NullPointer end.

Definition LPSPI_IP_FIFO_SIZE_U8 : Z := 4.

(** ** The dummy counter of [OsIf_Timer.c] *)

Definition OsIf_Timer_Dummy_GetElapsed : Z := 1.
Definition OsIf_Timer_Dummy_MicrosToTicks (Micros : Z) : Z := Micros.

(** ** Words in a byte buffer

    Accesses of one, two or four bytes at an offset, little endian. *)

Definition load_word (n : Z) (buf : list Z) (off : Z) : res Z :=
  if (0 <=? off) && (off + n <=? Z.of_nat (length buf))
  then Ok (le_word (take (Z.to_nat n) (drop (Z.to_nat off) buf)))
  else Fault OutOfBounds.
Definition store_word (n : Z) (buf : list Z) (off v : Z) : res (list Z) :=
  memcpy buf off (le_bytes (Z.to_nat n) v) n.

(** Bytes one frame takes in a buffer. *)
Definition buffer_step (FrameSize : Z) : Z :=
  if FrameSize <? 9 then 1 else if FrameSize <? 17 then 2 else 4.

(** Frames of a transfer of [n] bytes, as counted by both init routines. *)
Definition expected_frames (FrameSize n : Z) : Z :=
  if FrameSize <? 9 then n
  else if FrameSize <? 17 then (if n mod 2 =? 0 then n / 2 else n / 2 + 1)
  else (if n mod 4 =? 0 then n / 4 else n / 4 + 1).

Section driver.
Context {D : Type} `{SpiPort D} `{LpspiHeader}.

(** [Base->r = f(Base->r)]. *)
Definition reg_modify (Base : D) (r : reg) (f : Z -> Z) : res D :=
  let! '(v, Base) := reg_read Base r in reg_write Base r (f v).

(** ** FIFO routines *)

(** The loop over [Index] of the branch for the frame size. *)
Definition read_frames (n : Z) (buffer : list Z) (Base : D) (RxIndex NumberOfReads : Z) : res (list Z * D) :=
  res_fold (fun '(buffer, Base) Index =>
    let! '(Data, Base) := reg_read Base RDR in
    let! buffer := store_word n buffer (n * (RxIndex + Index)) Data in
    Ok (buffer, Base)) (buffer, Base) (seqZ 0 NumberOfReads).

Definition discard_frames (Base : D) (NumberOfReads : Z) : res D :=
  res_fold (fun Base _ => let! '(_, Base) := reg_read Base RDR in Ok Base) Base (seqZ 0 NumberOfReads).

Definition Lpspi_Ip_ReadDataFromFifo (State : State_t) (Base : D) (NumberOfReads : Z)
    : res (State_t * D) :=
  let! '(buffer, Base) :=
    match RxBuffer State with
    | Some buffer =>
        let! dev := external_device State in
        let! '(buffer, Base) :=
          read_frames (buffer_step (FrameSize (DeviceParams dev))) buffer Base
            (RxIndex State) NumberOfReads in
        Ok (Some buffer, Base)
    | None => let! Base := discard_frames Base NumberOfReads in Ok (None, Base)
    end in
  Ok (State <| RxBuffer := buffer |> <| RxIndex := u16 (RxIndex State + NumberOfReads) |>, Base).

Definition push_frames (n : Z) (buffer : list Z) (Base : D) (TxIndex NumberOfWrites : Z) : res D :=
  res_fold (fun Base Index =>
    let! Data := load_word n buffer (n * (TxIndex + Index)) in
    reg_write Base TDR Data) Base (seqZ 0 NumberOfWrites).

Definition push_default (Base : D) (Data NumberOfWrites : Z) : res D :=
  res_fold (fun Base _ => reg_write Base TDR Data) Base (seqZ 0 NumberOfWrites).

Definition Lpspi_Ip_PushDataToFifo (State : State_t) (Base : D) (NumberOfWrites : Z)
    : res (State_t * D) :=
  let! dev := external_device State in
  let params := DeviceParams dev in
  let! Base :=
    match TxBuffer State with
    | Some buffer => push_frames (buffer_step (FrameSize params)) buffer Base (TxIndex State) NumberOfWrites
    | None => push_default Base (DefaultData params) NumberOfWrites
    end in
  Ok (State <| TxIndex := u16 (TxIndex State + NumberOfWrites) |>, Base).

(** ** Setting up a transfer *)

Definition Lpspi_Ip_CheckValidParameters (dev : Lpspi_Ip_ExternalDeviceType) (Length : Z) : res unit :=
  if 16 <? FrameSize (DeviceParams dev) then assert (Length mod 4 =? 0)
  else if 8 <? FrameSize (DeviceParams dev) then assert (Length mod 2 =? 0)
  else Ok tt.

(** First solution of the workaround: reset the controller, keep CFGR1. *)
Definition Lpspi_ErrataHandle (Base : D) : res D :=
  let! '(Cfgr1, Base) := reg_read Base CFGR1 in
  let! Base := reg_modify Base CR (fun v => Z.lor v LPSPI_CR_RST_MASK) in
  let! Base := reg_modify Base CR (fun v => Z.ldiff v LPSPI_CR_RST_MASK) in
  reg_write Base CFGR1 Cfgr1.

(** The clock configuration under [FirstCmd]. *)
Definition configure_clock (State : State_t) (Base : D) : res D :=
  let! Base := reg_modify Base CR (fun v => Z.ldiff v LPSPI_CR_MEN_MASK) in
  let! Base :=
    if ERR_IPV_LPSPIV2_0001 then Lpspi_ErrataHandle Base
    else reg_modify Base CR (fun v => Z.lor v (Z.lor LPSPI_CR_RTF_MASK LPSPI_CR_RRF_MASK)) in
  let! Base := reg_modify Base SR (fun v => Z.land v 0xFFFFFFFF) in
  if SlaveMode (PhyUnitConfig State) then Ok Base
  else
    let! dev := external_device State in
    let! Base := reg_write Base CCR (Ccr dev) in
    reg_modify Base CR (fun v => Z.lor v LPSPI_CR_MEN_MASK).

(** [TransferCommand] as first computed. *)
Definition transfer_command (dev : Lpspi_Ip_ExternalDeviceType) : Z :=
  let Lsbf := if Lsb (DeviceParams dev) then 1 else 0 in
  Z.lor (Z.lor (Tcr dev) (LPSPI_TCR_FRAMESZ (u32 (FrameSize (DeviceParams dev) - 1)))) (LPSPI_TCR_LSBF Lsbf).

Definition is_type (dev : Lpspi_Ip_ExternalDeviceType) (t : Lpspi_Ip_HalfDuplexType) : bool :=
  bool_decide (TransferType (DeviceParams dev) = t).

Definition Lpspi_TransmitTxInit (State : State_t) (Base : D) (buffer : option (list Z)) (NumberOfFrames : Z)
    : res (State_t * D) :=
  let! dev := external_device State in
  let slave := SlaveMode (PhyUnitConfig State) in
  let! Base := if FirstCmd State then configure_clock State Base else Ok Base in
  let TransferCommand := transfer_command dev in
  let! '(State, Base) :=
    if negb (is_type dev LPSPI_IP_HALF_DUPLEX_RECEIVE) then
      let TransferCommand :=
        if is_type dev LPSPI_IP_HALF_DUPLEX_TRANSMIT
        then Z.lor TransferCommand LPSPI_TCR_RXMSK_MASK else TransferCommand in
      let TransferCommand := if slave then Z.ldiff TransferCommand LPSPI_TCR_CONT_MASK else TransferCommand in
      let! Base :=
        if FirstCmd State then reg_write Base TCR TransferCommand
        else if has TransferCommand LPSPI_TCR_CONT_MASK
             then reg_write Base TCR (Z.lor TransferCommand LPSPI_TCR_CONTC_MASK)
             else reg_write Base TCR TransferCommand in
      let! Base := if slave then reg_modify Base CR (fun v => Z.lor v LPSPI_CR_MEN_MASK) else Ok Base in
      Ok (if is_type dev LPSPI_IP_FULL_DUPLEX
          then State <| CurrentTxFifoSlot := u8 (CurrentTxFifoSlot State - 1) |> else State, Base)
    else if slave then
      let TransferCommand := Z.ldiff (Z.lor TransferCommand LPSPI_TCR_TXMSK_MASK) LPSPI_TCR_CONT_MASK in
      let! Base := reg_write Base TCR TransferCommand in
      let! Base := reg_modify Base CR (fun v => Z.lor v LPSPI_CR_MEN_MASK) in
      Ok (State, Base)
    else Ok (State, Base) in
  let State := State <| TxIndex := 0 |> in
  let State := if is_type dev LPSPI_IP_FULL_DUPLEX then State <| TxBuffer := buffer |> else State in
  Ok (State <| ExpectedFifoWrites := u16 (expected_frames (FrameSize (DeviceParams dev)) NumberOfFrames) |>, Base).

Definition Lpspi_TransmitRxInit (State : State_t) (buffer : option (list Z)) (NumberOfFrames : Z) : res State_t :=
  let! dev := external_device State in
  let State := State <| RxIndex := 0 |> in
  let State := if is_type dev LPSPI_IP_FULL_DUPLEX then State <| RxBuffer := buffer |> else State in
  Ok (State <| ExpectedFifoReads := u16 (expected_frames (FrameSize (DeviceParams dev)) NumberOfFrames) |>).

(** ** The synchronous transfer *)

(** The receive half of the loop body. *)
Definition receive_step (State : State_t) (Base : D) (ElapsedTicks : Z) : res (State_t * D * Z) :=
  let! '(fsr, Base) := reg_read Base FSR in
  let NumberOfReads := u8 (Z.shiftr (Z.land fsr LPSPI_FSR_RXCOUNT_MASK) LPSPI_FSR_RXCOUNT_SHIFT) in
  if negb (NumberOfReads =? 0) then
    let remaining := ExpectedFifoReads State - RxIndex State in
    let NumberOfReads := if remaining <? NumberOfReads then u8 remaining else NumberOfReads in
    let State :=
      if RxIndex State =? 0
      then State <| CurrentTxFifoSlot := u8 (CurrentTxFifoSlot State + 1) |> else State in
    let! '(State, Base) := Lpspi_Ip_ReadDataFromFifo State Base NumberOfReads in
    Ok (State <| CurrentTxFifoSlot := u8 (CurrentTxFifoSlot State + NumberOfReads) |>, Base, 0)
  else Ok (State, Base, ElapsedTicks).

(** The transmit half. *)
Definition transmit_step (State : State_t) (Base : D) (ElapsedTicks : Z) : res (State_t * D * Z) :=
  if negb (CurrentTxFifoSlot State =? 0) then
    if negb (ExpectedFifoWrites State =? TxIndex State) then
      let remaining := ExpectedFifoWrites State - TxIndex State in
      let NumberOfWrites :=
        if remaining <? CurrentTxFifoSlot State then u8 remaining else CurrentTxFifoSlot State in
      let! '(State, Base) := Lpspi_Ip_PushDataToFifo State Base NumberOfWrites in
      Ok (State <| CurrentTxFifoSlot := u8 (CurrentTxFifoSlot State - NumberOfWrites) |>, Base, 0)
    else if negb (KeepCs State) then
      let! '(tcr, Base) := reg_read Base TCR in
      if has tcr LPSPI_TCR_CONT_MASK then
        let! Base := reg_modify Base TCR
                       (fun v => Z.ldiff v (Z.lor LPSPI_TCR_CONT_MASK LPSPI_TCR_CONTC_MASK)) in
        Ok (State, Base, ElapsedTicks)
      else Ok (State, Base, ElapsedTicks)
    else Ok (State, Base, ElapsedTicks)
  else Ok (State, Base, ElapsedTicks).

(** The [while] loop; [None] when [fuel] runs out. *)
Fixpoint transfer_loop (fuel : nat) (TimeoutTicks : Z) (State : State_t) (Base : D) (ElapsedTicks : Z)
    : res (option (Lpspi_Ip_StatusType * State_t * D)) :=
  match fuel with
  | O => Ok None
  | S fuel' =>
      if RxIndex State =? ExpectedFifoReads State then Ok (Some (LPSPI_IP_STATUS_SUCCESS, State, Base))
      else
        let! '(State, Base, ElapsedTicks) := receive_step State Base ElapsedTicks in
        let! '(State, Base, ElapsedTicks) := transmit_step State Base ElapsedTicks in
        let ElapsedTicks := u32 (ElapsedTicks + OsIf_Timer_Dummy_GetElapsed) in
        if TimeoutTicks <=? ElapsedTicks then Ok (Some (LPSPI_IP_TIMEOUT, State, Base))
        else transfer_loop fuel' TimeoutTicks State Base ElapsedTicks
  end.

(** Between marking the hardware busy and the return, for an idle [State]. *)
Definition sync_transfer (fuel : nat) (State : State_t) (Base : D) (dev : Lpspi_Ip_ExternalDeviceType)
    (tx rx : option (list Z)) (Length TimeOut : Z) : res (option (Lpspi_Ip_StatusType * State_t * D)) :=
  let TimeoutTicks := OsIf_Timer_Dummy_MicrosToTicks TimeOut in
  let State := State <| Status := LPSPI_IP_BUSY |> <| ExternalDevice := Some dev |> in
  let! Base := reg_write Base DER 0 in
  let! Base := reg_write Base IER 0 in
  let State := State <| CurrentTxFifoSlot := LPSPI_IP_FIFO_SIZE_U8 |> in
  let! '(State, Base) := Lpspi_TransmitTxInit State Base tx Length in
  let! State := Lpspi_TransmitRxInit State rx Length in
  let! r := transfer_loop fuel TimeoutTicks State Base 0 in
  match r with
  | None => Ok None
  | Some (st, State, Base) =>
      Ok (Some (st,
        State <| Status := match st with LPSPI_IP_STATUS_SUCCESS => LPSPI_IP_IDLE | _ => LPSPI_IP_FAULT end |>,
        Base))
  end.

End driver.

(** ** The driver and its hardware instances *)

(** [Lpspi_Ip_apxStateStructureArray] (an index into [Lpspi_Ip_axStateStructure],
    or NULL), [Lpspi_Ip_axStateStructure], and the controllers behind
    [Lpspi_Ip_apxBases]. *)
Record driver (D : Type) := mkDriver {
  apxState : list (option Z);
  axState : list State_t;
  apxBases : list D;
}.
Arguments mkDriver {D}.
Arguments apxState {D}.
Arguments axState {D}.
Arguments apxBases {D}.
#[global] Instance eta_driver D : Eta (driver D) := fun s => mkDriver (apxState s) (axState s) (apxBases s).

Section api.
Context {D : Type} `{SpiPort D} `{LpspiHeader}.

(** [State = Lpspi_Ip_apxStateStructureArray[Instance]; DevAssert(State != NULL)]. *)
Definition get_state (g : driver D) (Instance : Z) : res (Z * State_t) :=
  let! p := load (apxState g) Instance in
  match p with
  | None => Fault AssertFailure
  | Some i => let! State := load (axState g) i in Ok (i, State)
  end.
Definition put_state (g : driver D) (i : Z) (State : State_t) : res (driver D) :=
  let! l := store (axState g) i State in Ok (g <| axState := l |>).
Definition put_base (g : driver D) (Instance : Z) (Base : D) : res (driver D) :=
  let! l := store (apxBases g) Instance Base in Ok (g <| apxBases := l |>).

Definition Lpspi_Ip_UpdateTransferMode (g : driver D) (Instance : Z) (Mode : Lpspi_Ip_ModeType)
    : res (Lpspi_Ip_StatusType * driver D) :=
  do! assert (Instance <? LPSPI_INSTANCE_COUNT) in
  let! '(i, State) := get_state g Instance in
  if bool_decide (Status State = LPSPI_IP_BUSY) then Ok (LPSPI_IP_STATUS_FAIL, g)
  else
    let! g := put_state g i (State <| TransferMode := Mode |>) in
    Ok (LPSPI_IP_STATUS_SUCCESS, g).

Definition Lpspi_Ip_Init (g : driver D) (cfg : Lpspi_Ip_ConfigType) : res (Lpspi_Ip_StatusType * driver D) :=
  let Instance := cfg_Instance cfg in
  let! p := load (apxState g) Instance in
  let! Base := load (apxBases g) Instance in
  do! assert (negb (bool_decide (is_Some p))) in
  let! l := store (apxState g) Instance (Some (StateIndex cfg)) in
  let g := g <| apxState := l |> in
  let! '(i, State) := get_state g Instance in
  let! Base := reg_write Base CR (Z.lor (cfg_Cr cfg) LPSPI_CR_DBGEN_MASK) in
  let! Base := reg_write Base CFGR1 (cfg_Cfgr1 cfg) in
  let! Base := reg_write Base FCR (LPSPI_FCR_TXWATER (LPSPI_IP_FIFO_SIZE_U8 - 2)) in
  let! g := put_base g Instance Base in
  let! g := put_state g i (State <| PhyUnitConfig := cfg |> <| KeepCs := false |> <| FirstCmd := true |>
                                 <| Status := LPSPI_IP_IDLE |>) in
  let! '(_, g) := Lpspi_Ip_UpdateTransferMode g Instance (cfg_TransferMode cfg) in
  Ok (LPSPI_IP_STATUS_SUCCESS, g).

Definition Lpspi_Ip_DeInit (g : driver D) (Instance : Z) : res (Lpspi_Ip_StatusType * driver D) :=
  do! assert (Instance <? LPSPI_INSTANCE_COUNT) in
  let! Base := load (apxBases g) Instance in
  let! '(i, State) := get_state g Instance in
  if bool_decide (Status State = LPSPI_IP_BUSY) then Ok (LPSPI_IP_STATUS_FAIL, g)
  else
    let! Base := reg_modify Base CR (fun v => Z.lor v LPSPI_CR_RST_MASK) in
    let! Base := reg_write Base CR 0 in
    let! g := put_base g Instance Base in
    let! l := store (apxState g) Instance None in
    Ok (LPSPI_IP_STATUS_SUCCESS, g <| apxState := l |>).

(** Returns the status and the caller's receive buffer. *)
Definition Lpspi_Ip_SyncTransmit (fuel : nat) (g : driver D) (dev : Lpspi_Ip_ExternalDeviceType)
    (tx rx : option (list Z)) (Length TimeOut : Z)
    : res (option (Lpspi_Ip_StatusType * option (list Z) * driver D)) :=
  do! assert (negb (Length =? 0)) in
  do! assert (negb (TimeOut =? 0)) in
  do! Lpspi_Ip_CheckValidParameters dev Length in
  let Instance := Instance_ dev in
  let! '(i, State) := get_state g Instance in
  let! Base := load (apxBases g) Instance in
  if bool_decide (Status State = LPSPI_IP_BUSY) then Ok (Some (LPSPI_IP_STATUS_FAIL, rx, g))
  else
    let! r := sync_transfer fuel State Base dev tx rx Length TimeOut in
    match r with
    | None => Ok None
    | Some (st, State, Base) =>
        let! g := put_state g i State in
        let! g := put_base g Instance Base in
        let buffer := if is_type dev LPSPI_IP_FULL_DUPLEX then RxBuffer State else rx in
        Ok (Some (st, buffer, g))
    end.
End api.

(** ** The configuration of the demo, [generate/src/Lpspi_Ip_Sa_PBcfg.c] *)

Section config.
Context `{LpspiHeader}.

Definition Lpspi_Ip_DeviceParamsCfg_0 : Lpspi_Ip_DeviceParamsType := mkParams 8 true 0 LPSPI_IP_FULL_DUPLEX.

Definition Lpspi_Ip_DeviceAttributes_SpiExternalDevice_0_Instance_2 : Lpspi_Ip_ExternalDeviceType :=
  mkExternal 2
    (Z.lor (Z.lor (Z.lor (LPSPI_CCR_SCKPCS 39) (LPSPI_CCR_PCSSCK 39)) (LPSPI_CCR_SCKDIV 38)) (LPSPI_CCR_DBT 38))
    (Z.lor (Z.lor (Z.lor (Z.lor (Z.lor (LPSPI_TCR_WIDTH 3) (LPSPI_TCR_CPOL 1)) (LPSPI_TCR_CPHA 1))
       (LPSPI_TCR_PRESCALE 0)) (LPSPI_TCR_PCS 0)) (LPSPI_TCR_CONT 1))
    (Z.lor (LPSPI_CFGR1_OUTCFG 1) (LPSPI_CFGR1_PCSCFG 3))
    Lpspi_Ip_DeviceParamsCfg_0.

Definition Lpspi_Ip_PhyUnitConfig_SpiPhyUnit_0_Instance_2 : Lpspi_Ip_ConfigType :=
  mkConfig 2 0
    (Z.lor (Z.lor (Z.lor (LPSPI_CFGR1_PINCFG 0) (LPSPI_CFGR1_PCSPOL 0)) (LPSPI_CFGR1_MASTER 1)) (LPSPI_CFGR1_SAMPLE 0))
    false LPSPI_IP_POLLING 0.
End config.
End SpiDriver.
