(* ===== verification/SpiDriverProps.v ===== *)
(** * The LPSPI driver: properties

    [Module SpiDriverSafety]: whatever the controller answers, a synchronous
    transfer ends, stays inside the caller's buffers and leaves the driver idle
    or in the fault state. *)

From S2P Require Import Prelude Words Lpspi SpiDriver.
Import Lpspi SpiDriver.

(** A controller on which no register access faults. *)
Class TotalPort (D : Type) `{SpiPort D} := {
  read_total : forall d r, exists v d', reg_read d r = Ok (v, d');
  write_total : forall d r v, exists d', reg_write d r v = Ok d';
}.

Module SpiDriverSafety.

(** ** Buffers *)

Lemma load_word_ok n buf off :
  0 <= off -> off + n <= Z.of_nat (length buf) ->
  load_word n buf off = Ok (le_word (take (Z.to_nat n) (drop (Z.to_nat off) buf))).
Proof.
  intros. unfold load_word.
  by destruct (Z.leb_spec 0 off), (Z.leb_spec (off + n) (Z.of_nat (length buf))); try lia.
Qed.

Lemma store_word_ok n buf off v :
  0 <= n -> 0 <= off -> off + n <= Z.of_nat (length buf) ->
  store_word n buf off v
  = Ok (take (Z.to_nat off) buf ++ le_bytes (Z.to_nat n) v ++ drop (Z.to_nat (off + n)) buf).
Proof.
  intros. unfold store_word. rewrite memcpy_ok by (rewrite ?length_le_bytes; lia).
  by rewrite (take_ge (le_bytes _ _)) by (rewrite length_le_bytes; lia).
Qed.

(** [b'] is [b] with only the first [k] bytes changed. *)
Definition kept_after (k : Z) (b b' : option (list Z)) : Prop :=
  match b, b' with
  | Some b, Some b' => length b' = length b /\ drop (Z.to_nat k) b' = drop (Z.to_nat k) b
  | None, None => True
  | _, _ => False
  end.
Lemma kept_after_refl k b : kept_after k b b.
Proof. by destruct b. Qed.
Lemma kept_after_trans k b1 b2 b3 : kept_after k b1 b2 -> kept_after k b2 b3 -> kept_after k b1 b3.
Proof. destruct b1, b2, b3; cbn; try done. intros [-> ->] [-> ->]. done. Qed.

Lemma store_word_kept n buf off v k buf' :
  0 <= n -> 0 <= off -> off + n <= k -> k <= Z.of_nat (length buf) -> store_word n buf off v = Ok buf' ->
  kept_after k (Some buf) (Some buf').
Proof.
  intros. rewrite store_word_ok in * by lia. simplify_eq. split.
  - rewrite !length_app, length_take, length_drop, length_le_bytes. lia.
  - rewrite drop_app_ge, length_take by (rewrite length_take; lia).
    rewrite drop_app_ge, length_le_bytes by (rewrite length_le_bytes; lia).
    rewrite drop_drop. f_equal. lia.
Qed.

Lemma buffer_step_pos f : 1 <= buffer_step f <= 4.
Proof. unfold buffer_step. repeat case_match; lia. Qed.

(** The frames a transfer expects fill exactly the bytes asked for, when the
    parameter check passes. *)
Lemma expected_frames_bytes dev len :
  0 < len < 2 ^ 16 -> Lpspi_Ip_CheckValidParameters dev len = Ok tt ->
  let f := FrameSize (DeviceParams dev) in
  buffer_step f * expected_frames f len = len /\ 0 < expected_frames f len < 2 ^ 16.
Proof.
  intros Hl. unfold Lpspi_Ip_CheckValidParameters, buffer_step, expected_frames, assert. cbv zeta.
  set (f := FrameSize (DeviceParams dev)).
  destruct (Z.ltb_spec 16 f), (Z.ltb_spec 8 f), (Z.ltb_spec f 9), (Z.ltb_spec f 17); try lia;
    repeat case_match; try done; intros _; Z.to_euclidean_division_equations; lia.
Qed.

Lemma reg_modify_total `{TotalPort D} (d : D) r f : exists d', reg_modify d r f = Ok d'.
Proof. unfold reg_modify. destruct (read_total d r) as (v & d1 & ->). cbn. apply write_total. Qed.
(** One access to a register. *)
Ltac port_step :=
  match goal with
  | |- context [reg_read ?d ?r] => destruct (read_total d r) as (? & ? & ->)
  | |- context [reg_modify ?d ?r ?f] => destruct (reg_modify_total d r f) as [? ->]
  | |- context [reg_write ?d ?r ?v] => destruct (write_total d r v) as [? ->]
  end; cbn [res_bind].

Section safety.
Context {D : Type} `{TotalPort D} `{LpspiHeader}.
Implicit Types (d : D) (st : State_t).

(** ** The loop *)

(** The device of a transfer under way. *)
Definition cleared_device : Lpspi_Ip_ExternalDeviceType :=
  mkExternal 0 0 0 0 (mkParams 0 false 0 LPSPI_IP_HALF_DUPLEX_TRANSMIT).
Definition dev_of st : Lpspi_Ip_ExternalDeviceType := default cleared_device (ExternalDevice st).
Definition attached st : Prop := is_Some (ExternalDevice st).
Lemma external_ok st : attached st -> external_device st = Ok (dev_of st).
Proof. unfold external_device, dev_of. by intros [dev ->]. Qed.
Lemma dev_of_some st dev : ExternalDevice st = Some dev -> dev_of st = dev.
Proof. unfold dev_of. by intros ->. Qed.
Lemma dev_of_eq st st' : ExternalDevice st' = ExternalDevice st -> dev_of st' = dev_of st.
Proof. unfold dev_of. by intros ->. Qed.
Lemma attached_eq st st' : ExternalDevice st' = ExternalDevice st -> attached st -> attached st'.
Proof. unfold attached. by intros ->. Qed.

Definition step_of st : Z := buffer_step (FrameSize (DeviceParams (dev_of st))).
Definition covers (b : option (list Z)) (k : Z) : Prop :=
  match b with Some b => k <= Z.of_nat (length b) | None => True end.

(** The two directions of a transfer, and a full-duplex transfer. *)
Definition rx_inv st : Prop :=
  attached st /\ 0 <= RxIndex st <= ExpectedFifoReads st /\ ExpectedFifoReads st < 2 ^ 16 /\ covers (RxBuffer st) (step_of st * ExpectedFifoReads st).
Definition tx_inv st : Prop :=
  attached st /\ 0 <= TxIndex st <= ExpectedFifoWrites st /\ ExpectedFifoWrites st < 2 ^ 16 /\ covers (TxBuffer st) (step_of st * ExpectedFifoWrites st).
Record loop_inv st : Prop := {
  li_dev : attached st;
  li_rx : 0 <= RxIndex st <= ExpectedFifoReads st;
  li_reads : ExpectedFifoReads st < 2 ^ 16;
  li_tx : 0 <= TxIndex st <= ExpectedFifoWrites st;
  li_writes : ExpectedFifoWrites st < 2 ^ 16;
  li_slot : is_u 8 (CurrentTxFifoSlot st);
  li_txbuf : covers (TxBuffer st) (step_of st * ExpectedFifoWrites st);
  li_rxbuf : covers (RxBuffer st) (step_of st * ExpectedFifoReads st);
}.

Lemma loop_rx st : loop_inv st -> rx_inv st.
Proof. intros []. done. Qed.
Lemma loop_tx st : loop_inv st -> tx_inv st.
Proof. intros []. done. Qed.

(** What no step of the loop changes. *)
Record loop_frame st st' : Prop := {
  lf_dev : ExternalDevice st' = ExternalDevice st;
  lf_reads : ExpectedFifoReads st' = ExpectedFifoReads st;
  lf_writes : ExpectedFifoWrites st' = ExpectedFifoWrites st;
  lf_buf : kept_after (step_of st * ExpectedFifoReads st) (RxBuffer st) (RxBuffer st');
}.

Lemma loop_frame_refl st : loop_frame st st.
Proof. split; [done..|apply kept_after_refl]. Qed.
Lemma loop_frame_trans st1 st2 st3 : loop_frame st1 st2 -> loop_frame st2 st3 -> loop_frame st1 st3.
Proof.
  intros [E1 E2 E3 E4] [F1 F2 F3 F4]. split; [congruence..|].
  unfold step_of, dev_of in *. rewrite E1, E2 in F4. by eapply kept_after_trans.
Qed.

Lemma read_frames_total n buf d rx k m :
  1 <= n -> 0 <= rx -> n * (rx + k) <= m -> m <= Z.of_nat (length buf) ->
  exists buf' d', read_frames n buf d rx k = Ok (buf', d') /\ kept_after m (Some buf) (Some buf').
Proof.
  intros Hn Hrx Hm Hl. unfold read_frames.
  destruct (res_fold_inv (fun '(b, _) => kept_after m (Some buf) (Some b))
    (fun '(buffer, Base) Index =>
      let! '(Data, Base) := reg_read Base RDR in
      let! buffer := store_word n buffer (n * (rx + Index)) Data in
      Ok (buffer, Base)) (buf, d) (seqZ 0 k)) as ([b d'] & -> & Hb); [done| |by eauto].
  intros [b d1] i Hi Hb. apply list_elem_of_In, elem_of_seqZ in Hi.
  destruct (read_total d1 RDR) as (v & d2 & ->). cbn [res_bind].
  assert (Z.of_nat (length b) = Z.of_nat (length buf)) by (destruct Hb; lia).
  assert (n * (rx + i) + n <= n * (rx + k)) by nia.
  pose proof (store_word_ok n b (n * (rx + i)) v) as E. specialize (E ltac:(lia) ltac:(nia) ltac:(lia)).
  rewrite E. cbn [res_bind]. eexists. split; [done|]. cbn beta iota.
  eapply kept_after_trans; [done|]. by eapply store_word_kept; [..|exact E]; nia || lia.
Qed.

Lemma discard_frames_total d k : exists d', discard_frames d k = Ok d'.
Proof.
  destruct (res_fold_inv (fun _ : D => True)
    (fun Base (_ : Z) => let! '(_, Base) := reg_read Base RDR in Ok Base) d (seqZ 0 k))
    as (d' & E & _); [done| |by exists d'].
  intros d1 i _ _. destruct (read_total d1 RDR) as (v & d2 & ->). by exists d2.
Qed.

Lemma read_fifo_total st d k :
  rx_inv st -> 0 <= k <= ExpectedFifoReads st - RxIndex st ->
  exists b d', Lpspi_Ip_ReadDataFromFifo st d k
    = Ok (st <| RxBuffer := b |> <| RxIndex := RxIndex st + k |>, d') /\
    kept_after (step_of st * ExpectedFifoReads st) (RxBuffer st) b.
Proof.
  intros (Ha & Hrx & Hr & Hb) Hk. unfold Lpspi_Ip_ReadDataFromFifo. rewrite (external_ok st Ha). cbn [res_bind].
  rewrite u_small by (unfold is_u; lia). pose proof (buffer_step_pos (FrameSize (DeviceParams (dev_of st)))).
  destruct (RxBuffer st) as [buf|]; cbn in Hb.
  - destruct (read_frames_total (step_of st) buf d (RxIndex st) k (step_of st * ExpectedFifoReads st))
      as (b & d' & E & Hkept); [unfold step_of; lia|lia|unfold step_of in *; nia|done|].
    unfold step_of in E. rewrite E. cbn [res_bind]. by exists (Some b), d'.
  - destruct (discard_frames_total d k) as [d' ->]. cbn [res_bind]. by exists None, d'.
Qed.

Lemma push_fifo_total st d k :
  tx_inv st -> 0 <= k <= ExpectedFifoWrites st - TxIndex st ->
  exists d', Lpspi_Ip_PushDataToFifo st d k = Ok (st <| TxIndex := TxIndex st + k |>, d').
Proof.
  intros (Ha & Ht & Hw & Hb) Hk. unfold Lpspi_Ip_PushDataToFifo. rewrite (external_ok st Ha). cbn [res_bind]. cbv zeta.
  rewrite u_small by (unfold is_u; lia). pose proof (buffer_step_pos (FrameSize (DeviceParams (dev_of st)))).
  unfold push_frames, push_default. destruct (TxBuffer st) as [buf|]; cbn in Hb.
  - match goal with |- context [res_fold ?f d ?l] =>
      destruct (res_fold_inv (fun _ : D => True) f d l) as (d' & -> & _); [done| |by exists d'] end.
    intros d1 i Hi _. apply list_elem_of_In, elem_of_seqZ in Hi. unfold step_of in Hb.
    rewrite load_word_ok by nia. cbn [res_bind]. destruct (write_total d1 TDR (le_word
      (take (Z.to_nat (buffer_step (FrameSize (DeviceParams (dev_of st)))))
        (drop (Z.to_nat (buffer_step (FrameSize (DeviceParams (dev_of st))) * (TxIndex st + i))) buf))))
      as [d2 E]. by exists d2.
  - match goal with |- context [res_fold ?f d ?l] =>
      destruct (res_fold_inv (fun _ : D => True) f d l) as (d' & -> & _); [done| |by exists d'] end.
    intros d1 i _ _. destruct (write_total d1 TDR (DefaultData (DeviceParams (dev_of st)))) as [d2 E].
    by exists d2.
Qed.

Lemma loop_inv_step st st' :
  loop_inv st -> loop_frame st st' -> TxBuffer st' = TxBuffer st ->
  0 <= RxIndex st' <= ExpectedFifoReads st -> 0 <= TxIndex st' <= ExpectedFifoWrites st ->
  is_u 8 (CurrentTxFifoSlot st') -> loop_inv st'.
Proof.
  intros [Ha ? ? ? ? ? Hb Hr] [E1 E2 E3 E4] Ht ???. pose proof (dev_of_eq _ _ E1) as Ed. unfold step_of in *.
  split; rewrite ?E2, ?E3, ?Ht; unfold step_of; rewrite ?Ed; try done; [by apply (attached_eq st)|].
  unfold covers in *. destruct (RxBuffer st), (RxBuffer st'); cbn in E4; try done.
  destruct E4. lia.
Qed.

(** One half of the loop body either makes progress and restarts the timeout, or
    changes nothing that counts. *)
Lemma receive_step_total st d e :
  loop_inv st -> RxIndex st <> ExpectedFifoReads st ->
  exists st' d' e', receive_step st d e = Ok (st', d', e') /\ loop_inv st' /\ loop_frame st st' /\
    TxIndex st' = TxIndex st /\
    (RxIndex st' = RxIndex st /\ e' = e \/ RxIndex st < RxIndex st' /\ e' = 0).
Proof.
  intros Hi Hne. pose proof Hi as [_ Hrx Hr Ht Hw Hs _ _]. unfold receive_step.
  destruct (read_total d FSR) as (fsr & d1 & ->). cbn [res_bind].
  set (k0 := u8 _). assert (is_u 8 k0) as Hk0 by (apply u_range; lia). clearbody k0.
  destruct (Z.eqb_spec k0 0); cbn [negb].
  { exists st, d1, e. split; [done|]. split; [done|]. split; [apply loop_frame_refl|]. auto. }
  cbv zeta. set (k := if _ <? k0 then _ else _).
  assert (1 <= k <= ExpectedFifoReads st - RxIndex st) as Hk.
  { unfold is_u in Hk0. subst k. destruct (Z.ltb_spec (ExpectedFifoReads st - RxIndex st) k0); [|lia].
    rewrite u_small; unfold is_u; lia. }
  clearbody k. set (st1 := if RxIndex st =? 0 then _ else _).
  assert (loop_inv st1 /\ loop_frame st st1 /\ TxBuffer st1 = TxBuffer st /\
    RxIndex st1 = RxIndex st /\ TxIndex st1 = TxIndex st) as (Hi1 & Hf1 & Eb & Erx & Etx).
  { assert (loop_frame st st1) by (unfold st1; case_match; split; rsimpl; auto using kept_after_refl).
    assert (TxBuffer st1 = TxBuffer st /\ RxIndex st1 = RxIndex st /\ TxIndex st1 = TxIndex st)
      as (? & ? & ?) by (unfold st1; by case_match).
    split_and!; try done. apply (loop_inv_step st); try done; [by replace (RxIndex st1) with (RxIndex st)| |].
    - by replace (TxIndex st1) with (TxIndex st).
    - unfold st1. case_match; [apply u_range; lia|done]. }
  clearbody st1. pose proof (lf_reads _ _ Hf1) as Er. pose proof (lf_writes _ _ Hf1) as Ew.
  destruct (read_fifo_total st1 d1 k) as (b & d2 & -> & Hb); [by apply loop_rx|lia|]. cbn [res_bind].
  eexists _, _, _. split; [done|].
  assert (loop_frame st1 (st1 <| RxBuffer := b |> <| RxIndex := RxIndex st1 + k |>)) as Hf2 by (by split).
  assert (forall s v, loop_frame st1 s -> loop_frame st1 (s <| CurrentTxFifoSlot := v |>)) as Hslot
    by (intros s v []; by split).
  split; [|split; [|rsimpl; split; [done|right; lia]]].
  - eapply (loop_inv_step st1); [done|by apply Hslot|done|rsimpl; lia|rsimpl; lia|rsimpl; apply u_range; lia].
  - eapply loop_frame_trans; [done|by apply Hslot].
Qed.

Lemma transmit_step_total st d e :
  loop_inv st ->
  exists st' d' e', transmit_step st d e = Ok (st', d', e') /\ loop_inv st' /\ loop_frame st st' /\
    RxIndex st' = RxIndex st /\
    (TxIndex st' = TxIndex st /\ e' = e \/ TxIndex st < TxIndex st' /\ e' = 0).
Proof.
  intros Hi. pose proof Hi as [_ Hrx Hr Ht Hw Hs _ _].
  assert (forall d', exists st' d'' e', Ok (st, d', e) = Ok (st', d'', e') /\ loop_inv st' /\ loop_frame st st' /\
    RxIndex st' = RxIndex st /\ (TxIndex st' = TxIndex st /\ e' = e \/ TxIndex st < TxIndex st' /\ e' = 0)) as Hid
    by (intros d'; exists st, d', e; split_and!; [done|done|apply loop_frame_refl|done|by left]).
  unfold transmit_step. destruct (Z.eqb_spec (CurrentTxFifoSlot st) 0); cbn [negb]; [apply Hid|].
  destruct (Z.eqb_spec (ExpectedFifoWrites st) (TxIndex st)); cbn [negb].
  - destruct (KeepCs st); cbn [negb]; [apply Hid|]. destruct (read_total d TCR) as (v & d1 & ->). cbn [res_bind].
    destruct (has v _); [|apply Hid].
    destruct (reg_modify_total d1 TCR (fun v => Z.ldiff v (Z.lor LPSPI_TCR_CONT_MASK LPSPI_TCR_CONTC_MASK)))
      as [d2 ->]. apply Hid.
  - cbv zeta. set (k := if _ <? CurrentTxFifoSlot st then _ else _).
    assert (1 <= k <= ExpectedFifoWrites st - TxIndex st) as Hk.
    { unfold is_u in Hs. subst k. destruct (Z.ltb_spec (ExpectedFifoWrites st - TxIndex st) (CurrentTxFifoSlot st)); [|lia].
      rewrite u_small; unfold is_u; lia. }
    clearbody k. destruct (push_fifo_total st d k) as [d1 ->]; [by apply loop_tx|lia|]. cbn [res_bind].
    eexists _, _, _. split; [done|].
    assert (loop_frame st (st <| TxIndex := TxIndex st + k |> <| CurrentTxFifoSlot := u8 (CurrentTxFifoSlot st - k) |>))
      as Hf by (split; rsimpl; auto using kept_after_refl).
    split; [|split; [exact Hf|rsimpl; split; [done|right; lia]]].
    apply (loop_inv_step st); rsimpl; try done; [lia|apply u_range; lia].
Qed.

(** Iterations left: every frame may take a full timeout, then the wait that ends
    the loop. *)
Definition frames_left st : Z :=
  (ExpectedFifoReads st - RxIndex st) + (ExpectedFifoWrites st - TxIndex st).

Lemma transfer_loop_total fuel timeout st d e :
  loop_inv st -> 0 < timeout < 2 ^ 32 -> 0 <= e < timeout ->
  frames_left st * timeout + (timeout - e) < Z.of_nat fuel ->
  exists r st' d', transfer_loop fuel timeout st d e = Ok (Some (r, st', d')) /\
    loop_inv st' /\ loop_frame st st' /\
    (r = LPSPI_IP_STATUS_SUCCESS /\ RxIndex st' = ExpectedFifoReads st' \/ r = LPSPI_IP_TIMEOUT).
Proof.
  revert st d e. induction fuel as [|fuel IH]; intros st d e Hi Ht He Hfuel.
  { unfold frames_left in Hfuel. destruct Hi. nia. }
  cbn [transfer_loop]. destruct (Z.eqb_spec (RxIndex st) (ExpectedFifoReads st)).
  { eexists _, _, _. split; [done|]. split; [done|]. split; [apply loop_frame_refl|by left]. }
  destruct (receive_step_total st d e) as (st1 & d1 & e1 & -> & Hi1 & Hf1 & E1 & P1); [done..|]. cbn [res_bind].
  destruct (transmit_step_total st1 d1 e1) as (st2 & d2 & e2 & -> & Hi2 & Hf2 & E2 & P2); [done|]. cbn [res_bind].
  assert (loop_frame st st2) as Hf by (by eapply loop_frame_trans).
  assert (0 <= e2 < timeout) by (destruct P1 as [[? ?]|[? ?]], P2 as [[? ?]|[? ?]]; lia).
  unfold OsIf_Timer_Dummy_GetElapsed. rewrite u_small by (unfold is_u; lia).
  destruct (Z.leb_spec timeout (e2 + 1)).
  { eexists _, _, _. split; [done|]. split; [done|]. split; [done|by right]. }
  destruct (IH st2 d2 (e2 + 1)) as (r & st3 & d3 & -> & Hi3 & Hf3 & Hr); [done..|lia| |].
  { unfold frames_left in *. rewrite (lf_reads _ _ Hf), (lf_writes _ _ Hf).
    pose proof (li_rx _ Hi2). pose proof (li_tx _ Hi2).
    rewrite (lf_reads _ _ Hf) in *. rewrite (lf_writes _ _ Hf) in *.
    destruct P1 as [[? ?]|[? ?]], P2 as [[? ?]|[? ?]]; nia. }
  eexists _, _, _. split; [done|]. split; [done|]. split; [by eapply loop_frame_trans|done].
Qed.

(** ** The whole transfer *)

Lemma configure_clock_total st d : attached st -> exists d', configure_clock st d = Ok d'.
Proof.
  intros Ha. unfold configure_clock, Lpspi_ErrataHandle. rewrite (external_ok st Ha). port_step. destruct ERR_IPV_LPSPIV2_0001; repeat port_step;
    (destruct (SlaveMode _); repeat port_step; by eexists).
Qed.

Definition tx_ready st buf len : State_t :=
  st <| CurrentTxFifoSlot := u8 (CurrentTxFifoSlot st - 1) |> <| TxIndex := 0 |> <| TxBuffer := buf |>
     <| ExpectedFifoWrites := u16 (expected_frames (FrameSize (DeviceParams (dev_of st))) len) |>.

Lemma tx_init_total st d buf len :
  attached st -> is_type (dev_of st) LPSPI_IP_FULL_DUPLEX = true ->
  exists d', Lpspi_TransmitTxInit st d buf len = Ok (tx_ready st buf len, d').
Proof.
  intros Ha Hf. assert (is_type (dev_of st) LPSPI_IP_HALF_DUPLEX_RECEIVE = false /\
    is_type (dev_of st) LPSPI_IP_HALF_DUPLEX_TRANSMIT = false) as [Hr Ht].
  { unfold is_type in *. apply bool_decide_eq_true in Hf. rewrite Hf. done. }
  unfold Lpspi_TransmitTxInit. rewrite (external_ok st Ha). cbn [res_bind]. cbv zeta. rewrite Hf, Hr, Ht. cbn [negb].
  destruct (configure_clock_total st d Ha) as [d1 E]. rewrite E.
  destruct (FirstCmd st), (SlaveMode _); try destruct (has _ _); cbn [res_bind]; repeat port_step; by eexists.
Qed.

Definition rx_ready st buf len : State_t :=
  st <| RxIndex := 0 |> <| RxBuffer := buf |>
     <| ExpectedFifoReads := u16 (expected_frames (FrameSize (DeviceParams (dev_of st))) len) |>.
Lemma rx_init_ok st buf len :
  attached st -> is_type (dev_of st) LPSPI_IP_FULL_DUPLEX = true -> Lpspi_TransmitRxInit st buf len = Ok (rx_ready st buf len).
Proof. intros Ha Hf. unfold Lpspi_TransmitRxInit. rewrite (external_ok st Ha). cbn [res_bind]. cbv zeta. by rewrite Hf. Qed.

(** A full-duplex transfer before its first frame. *)
Lemma transfer_start st dev tx rx len :
  0 < len < 2 ^ 16 -> Lpspi_Ip_CheckValidParameters dev len = Ok tt -> covers tx len -> covers rx len ->
  is_type dev LPSPI_IP_FULL_DUPLEX = true -> ExternalDevice st = Some dev ->
  let st1 := rx_ready (tx_ready st tx len) rx len in
  loop_inv st1 /\ frames_left st1 <= 2 * len /\ RxIndex st1 <> ExpectedFifoReads st1 /\ RxBuffer st1 = rx /\
    step_of st1 * ExpectedFifoReads st1 = len.
Proof.
  intros Hlen Hchk Htx Hrx Hty Hdev st1. pose proof (dev_of_some _ _ Hdev) as Edev. rewrite <- Edev in Hchk, Hty. destruct (expected_frames_bytes _ len Hlen Hchk) as [En Hn].
  set (nf := expected_frames (FrameSize (DeviceParams (dev_of st))) len) in *.
  assert (ExternalDevice st1 = ExternalDevice st /\ dev_of st1 = dev_of st /\ RxIndex st1 = 0 /\ TxIndex st1 = 0 /\ is_u 8 (CurrentTxFifoSlot st1) /\
    TxBuffer st1 = tx /\ RxBuffer st1 = rx /\ ExpectedFifoReads st1 = nf /\ ExpectedFifoWrites st1 = nf)
    as (Ed' & Ed & E1 & E2 & E3 & E4 & E5 & E6 & E7).
  { unfold st1, rx_ready, tx_ready. rsimpl. change (dev_of (_ <| _ := _ |>)) with (dev_of st). fold nf.
    rewrite (u_small 16) by (unfold is_u; lia). split_and!; try done. apply u_range. lia. }
  clearbody st1. pose proof (buffer_step_pos (FrameSize (DeviceParams (dev_of st)))) as Hb.
  unfold frames_left, step_of. rewrite Ed, E1, E2, E5, E6, E7, En. split; [|split_and!; done || nia].
  split; unfold step_of; rewrite ?Ed, ?E1, ?E2, ?E4, ?E5, ?E6, ?E7, ?En; try done; try lia. by exists dev; rewrite Ed'.
Qed.

Lemma sync_transfer_total fuel st d dev tx rx len timeout :
  0 < len < 2 ^ 16 -> 0 < timeout < 2 ^ 32 -> Lpspi_Ip_CheckValidParameters dev len = Ok tt ->
  covers tx len -> covers rx len -> is_type dev LPSPI_IP_FULL_DUPLEX = true ->
  (2 * len + 1) * timeout < Z.of_nat fuel ->
  exists r st' d', sync_transfer fuel st d dev tx rx len timeout = Ok (Some (r, st', d')) /\
    kept_after len rx (RxBuffer st') /\
    (r = LPSPI_IP_STATUS_SUCCESS /\ Status st' = LPSPI_IP_IDLE \/ r = LPSPI_IP_TIMEOUT /\ Status st' = LPSPI_IP_FAULT).
Proof.
  intros Hlen Hto Hchk Htx Hrx Hty Hfuel. unfold sync_transfer. cbv zeta. do 2 port_step.
  set (st0 := st <| Status := _ |> <| ExternalDevice := Some dev |> <| CurrentTxFifoSlot := _ |>).
  match goal with |- context [Lpspi_TransmitTxInit _ ?d _ _] => destruct (tx_init_total st0 d tx len ltac:(by eexists) Hty) as [d1 ->] end.
  cbn [res_bind]. rewrite rx_init_ok by (done || by eexists). cbn [res_bind]. destruct (transfer_start st0 dev tx rx len) as (Hi & Hleft & _ & Eb & En); [done..|].
  set (st1 := rx_ready (tx_ready st0 tx len) rx len) in *. clearbody st1. unfold OsIf_Timer_Dummy_MicrosToTicks.
  destruct (transfer_loop_total fuel timeout st1 d1 0) as (r & st2 & d2 & -> & Hi2 & Hf2 & Hr); [done..|lia|nia|].
  cbn [res_bind]. eexists _, _, _. split; [done|]. rsimpl. split.
  - pose proof (lf_buf _ _ Hf2) as Hk. by rewrite En, Eb in Hk.
  - destruct Hr as [[-> _]| ->]; auto.
Qed.

Lemma put_state_ok (g : driver D) Instance i st st' :
  get_state g Instance = Ok (i, st) -> exists g', put_state g i st' = Ok g'.
Proof.
  unfold get_state, put_state. intros ([j|] & Hp & Hs)%res_bind_ok; [|done].
  apply res_bind_ok in Hs as (s & Hs & [= <- <-]).
  destruct (store_set _ _ _ st' Hs) as (l & -> & _). by eexists.
Qed.
Lemma get_put_state (g g' : driver D) Instance i st st' :
  get_state g Instance = Ok (i, st) -> put_state g i st' = Ok g' ->
  get_state g' Instance = Ok (i, st') /\ apxBases g' = apxBases g.
Proof.
  unfold get_state, put_state. intros ([j|] & Hp & Hs)%res_bind_ok (l & Hl & [= <-])%res_bind_ok; [|done].
  apply res_bind_ok in Hs as (s & Hs & [= <- <-]). cbn [apxState axState apxBases]. rewrite Hp. cbn [res_bind].
  destruct (store_set _ _ _ st' Hs) as (l' & Hl' & Hld). rewrite Hl in Hl'. injection Hl' as <-. by rewrite Hld.
Qed.
Lemma put_base_ok (g : driver D) Instance d d' :
  load (apxBases g) Instance = Ok d -> exists g', put_base g Instance d' = Ok g' /\
    apxState g' = apxState g /\ axState g' = axState g /\ load (apxBases g') Instance = Ok d'.
Proof. unfold put_base. intros Hs. destruct (store_set _ _ _ d' Hs) as (l & -> & Hl). by eexists. Qed.

(** C16: whatever the controller answers, a full-duplex synchronous transfer with
    valid parameters ends: a busy driver refuses it and changes nothing, any
    other returns success and becomes idle, or times out and is left in the
    fault state.  It writes at most the requested bytes of the receive buffer
    and reads no byte outside the transmit buffer. *)
Theorem sync_transmit_returns fuel (g : driver D) dev tx rx len timeout i st d :
  0 < len < 2 ^ 16 -> 0 < timeout < 2 ^ 32 -> Lpspi_Ip_CheckValidParameters dev len = Ok tt ->
  covers tx len -> covers rx len -> is_type dev LPSPI_IP_FULL_DUPLEX = true ->
  get_state g (Instance_ dev) = Ok (i, st) -> load (apxBases g) (Instance_ dev) = Ok d ->
  (2 * len + 1) * timeout < Z.of_nat fuel ->
  exists r buf g', Lpspi_Ip_SyncTransmit fuel g dev tx rx len timeout = Ok (Some (r, buf, g')) /\
    (Status st = LPSPI_IP_BUSY -> r = LPSPI_IP_STATUS_FAIL /\ buf = rx /\ g' = g) /\
    (Status st <> LPSPI_IP_BUSY -> kept_after len rx buf /\
       exists st', get_state g' (Instance_ dev) = Ok (i, st') /\
         (r = LPSPI_IP_STATUS_SUCCESS /\ Status st' = LPSPI_IP_IDLE \/
          r = LPSPI_IP_TIMEOUT /\ Status st' = LPSPI_IP_FAULT)).
Proof.
  intros Hlen Hto Hchk Htx Hrx Hty Hst Hd Hfuel. unfold Lpspi_Ip_SyncTransmit.
  destruct (Z.eqb_spec len 0), (Z.eqb_spec timeout 0); [lia..|]. cbn [negb assert res_bind].
  rewrite Hchk, Hst. cbn [res_bind]. rewrite Hd. cbn [res_bind]. case_bool_decide.
  { eexists _, _, _. split; [done|]. by split. }
  destruct (sync_transfer_total fuel st d dev tx rx len timeout) as (r & st' & d' & -> & Hk & Hr); [done..|].
  cbn [res_bind]. destruct (put_state_ok g _ i st st' Hst) as [g1 Hg1].
  destruct (get_put_state g g1 _ i st st' Hst Hg1) as [Hs1 Eb]. rewrite Hg1. cbn [res_bind].
  rewrite <- Eb in Hd. destruct (put_base_ok g1 _ d d' Hd) as (g2 & -> & Ep & Ea & _). cbn [res_bind]. rewrite Hty.
  eexists _, _, _. split; [done|]. split; [done|]. intros _. split; [done|]. exists st'.
  split; [|done]. revert Hs1. unfold get_state. by rewrite Ep, Ea.
Qed.
End safety.
(** A controller that never answers: every register reads as zero. *)
Definition dead := unit.
#[global] Instance dead_port : SpiPort dead :=
  {| reg_read d r := Ok (0, d); reg_write d r v := Ok d |}.
#[global] Instance dead_total : TotalPort dead.
Proof. split; by eauto. Defined.

(** The register header as the reference manual has it. *)
#[global] Instance s32k358_header : LpspiHeader := {|
  LPSPI_CR_MEN_MASK := 0x1; LPSPI_CR_RST_MASK := 0x2; LPSPI_CR_DBGEN_MASK := 0x8;
  LPSPI_CR_RTF_MASK := 0x100; LPSPI_CR_RRF_MASK := 0x200;
  LPSPI_FSR_RXCOUNT_MASK := 0x70000; LPSPI_FSR_RXCOUNT_SHIFT := 16;
  LPSPI_TCR_CONT_MASK := 0x200000; LPSPI_TCR_CONTC_MASK := 0x100000;
  LPSPI_TCR_RXMSK_MASK := 0x80000; LPSPI_TCR_TXMSK_MASK := 0x40000;
  LPSPI_FCR_TXWATER x := Z.land x 0x3; LPSPI_TCR_FRAMESZ x := Z.land x 0xFFF;
  LPSPI_TCR_LSBF x := Z.land (Z.shiftl x 23) 0x800000;
  LPSPI_TCR_WIDTH x := Z.land (Z.shiftl x 16) 0x30000; LPSPI_TCR_CPOL x := Z.land (Z.shiftl x 31) 0x80000000;
  LPSPI_TCR_CPHA x := Z.land (Z.shiftl x 30) 0x40000000;
  LPSPI_TCR_PRESCALE x := Z.land (Z.shiftl x 27) 0x38000000;
  LPSPI_TCR_PCS x := Z.land (Z.shiftl x 24) 0x3000000; LPSPI_TCR_CONT x := Z.land (Z.shiftl x 21) 0x200000;
  LPSPI_CCR_SCKPCS x := Z.land (Z.shiftl x 24) 0xFF000000; LPSPI_CCR_PCSSCK x := Z.land (Z.shiftl x 16) 0xFF0000;
  LPSPI_CCR_DBT x := Z.land (Z.shiftl x 8) 0xFF00; LPSPI_CCR_SCKDIV x := Z.land x 0xFF;
  LPSPI_CFGR1_MASTER x := Z.land x 0x1; LPSPI_CFGR1_SAMPLE x := Z.land (Z.shiftl x 1) 0x2;
  LPSPI_CFGR1_PCSPOL x := Z.land (Z.shiftl x 8) 0xF00; LPSPI_CFGR1_PINCFG x := Z.land (Z.shiftl x 24) 0x3000000;
  LPSPI_CFGR1_OUTCFG x := Z.land (Z.shiftl x 26) 0x4000000; LPSPI_CFGR1_PCSCFG x := Z.land (Z.shiftl x 27) 0x18000000;
  LPSPI_INSTANCE_COUNT := 6; ERR_IPV_LPSPIV2_0001 := false |}.

Abbreviation demo_external := Lpspi_Ip_DeviceAttributes_SpiExternalDevice_0_Instance_2.
Abbreviation demo_config := Lpspi_Ip_PhyUnitConfig_SpiPhyUnit_0_Instance_2.
(** The driver's structures before [Lpspi_Ip_Init]: cleared memory. *)
Definition no_config : Lpspi_Ip_ConfigType := mkConfig 0 0 0 false LPSPI_IP_POLLING 0.
Definition no_state : State_t :=
  mkState LPSPI_IP_POLLING LPSPI_IP_UNINIT None None 0 0 0 0 false false no_config None 0 None 0 false.
Definition demo_state : State_t :=
  no_state <| Status := LPSPI_IP_IDLE |> <| FirstCmd := true |> <| PhyUnitConfig := demo_config |>.

Lemma sync_transmit_returns_witness :
  let g := mkDriver [None; None; Some 0] [demo_state] [tt; tt; tt] in
  exists r buf g', Lpspi_Ip_SyncTransmit 100 g demo_external (Some [0xAA; 1]) (Some [7; 8; 9]) 2 3
    = Ok (Some (r, buf, g')) /\ kept_after 2 (Some [7; 8; 9]) buf /\ r = LPSPI_IP_TIMEOUT.
Proof.
  intros g. destruct (sync_transmit_returns (D := dead) 100 g demo_external (Some [0xAA; 1]) (Some [7; 8; 9]) 2 3
    0 demo_state tt) as (r & buf & g' & E & _ & Hr); try done.
  exists r, buf, g'. split; [done|]. destruct Hr as [Hk _]; [done|]. split; [done|].
  vm_compute in E. by injection E as <- _ _.
Defined.
End SpiDriverSafety.
