(* ===== verification/SpiExchange.v ===== *)
(** * Synchronous transfers against a byte exchanger

    What the driver relies on in the controller for frames of at most eight
    bits, as the class [ByteExchange]: words written to TDR are exchanged on the
    bus at once and queue up to be read from RDR, and FSR counts them.  Against
    that interface the transfer loop exchanges the whole buffer, in order, in
    at most [length + 2] rounds. *)

From S2P Require Import Prelude Words Lpspi SpiDriver SpiDriverProps.
From stdpp Require Import list.
#[local] Open Scope Z_scope.
Import Lpspi SpiDriver SpiDriverSafety.

(** [be_ok d]: enabled, eight-bit frames, nothing waiting to be sent.
    [be_send b v]: the answer to byte [v] on the bus [b]. *)
Class ByteExchange (D B : Type) `{SpiPort D} `{LpspiHeader} := {
  be_ok : D -> Prop;
  be_rx : D -> list Z;
  be_bus : D -> B;
  be_send : B -> Z -> Z * B;
  be_byte : forall b v, is_u 8 (be_send b v).1;
  be_put : forall d v, be_ok d -> (length (be_rx d) < 16)%nat ->
    exists d', reg_write d TDR v = Ok d' /\ be_ok d' /\
      be_rx d' = be_rx d ++ [(be_send (be_bus d) (u8 v)).1] /\ be_bus d' = (be_send (be_bus d) (u8 v)).2;
  be_get : forall d v q, be_ok d -> be_rx d = v :: q ->
    exists d', reg_read d RDR = Ok (v, d') /\ be_ok d' /\ be_rx d' = q /\ be_bus d' = be_bus d;
  be_count : forall d, be_ok d -> (length (be_rx d) <= 7)%nat ->
    exists v d', reg_read d FSR = Ok (v, d') /\
      u8 (Z.shiftr (Z.land v LPSPI_FSR_RXCOUNT_MASK) LPSPI_FSR_RXCOUNT_SHIFT) = Z.of_nat (length (be_rx d)) /\
      be_ok d' /\ be_rx d' = be_rx d /\ be_bus d' = be_bus d;
  be_command : forall d, be_ok d ->
    exists v d', reg_read d TCR = Ok (v, d') /\ be_ok d' /\ be_rx d' = be_rx d /\ be_bus d' = be_bus d;
  be_end : forall d, be_ok d ->
    exists d', reg_modify d TCR (fun v => Z.ldiff v (Z.lor LPSPI_TCR_CONT_MASK LPSPI_TCR_CONTC_MASK)) = Ok d' /\
      be_ok d' /\ be_rx d' = be_rx d /\ be_bus d' = be_bus d;
}.

Module SpiExchange.

(** The answers to a sequence of bytes, and the bus afterwards. *)
Fixpoint answers {B} (send : B -> Z -> Z * B) (b : B) (vs : list Z) : list Z * B :=
  match vs with
  | [] => ([], b)
  | v :: vs' =>
      let '(a, b) := send b v in
      let '(l, b) := answers send b vs' in (a :: l, b)
  end.

Lemma answers_app {B} (send : B -> Z -> Z * B) b vs ws :
  answers send b (vs ++ ws)
  = let '(l1, b1) := answers send b vs in let '(l2, b2) := answers send b1 ws in (l1 ++ l2, b2).
Proof.
  revert b. induction vs as [|v vs IH]; intros b; cbn.
  - by destruct (answers send b ws).
  - destruct (send b v) as [a b1]. rewrite IH. destruct (answers send b1 vs) as [l1 b2].
    by destruct (answers send b2 ws).
Qed.
Lemma length_answers {B} (send : B -> Z -> Z * B) b vs : length (answers send b vs).1 = length vs.
Proof.
  revert b. induction vs as [|v vs IH]; intros b; cbn; [done|].
  destruct (send b v) as [a b1]. specialize (IH b1). destruct (answers send b1 vs). cbn in *. lia.
Qed.

Lemma le_bytes_one x : is_u 8 x -> le_bytes (Z.to_nat 1) x = [x].
Proof.
  intros Hx. change (Z.to_nat 1) with 1%nat. cbn [le_bytes]. f_equal. change 255 with (Z.ones 8).
  rewrite Z.land_ones by lia. by apply Z.mod_small.
Qed.

Section exchange.
Context {D B : Type} `{ByteExchange D B}.
Implicit Types (d : D) (b : B) (st : State_t) (vs : list Z).

Abbreviation ans := (answers be_send).

(** ** The FIFO loops *)

(** Reading [k] frames off the receive queue into the buffer at [r]. *)
Lemma read_frames_bytes xs q buf d r :
  be_ok d -> be_rx d = xs ++ q -> Forall (is_u 8) xs -> 0 <= r ->
  r + Z.of_nat (length xs) <= Z.of_nat (length buf) ->
  exists d', read_frames 1 buf d r (Z.of_nat (length xs))
      = Ok (take (Z.to_nat r) buf ++ xs ++ drop (Z.to_nat r + length xs) buf, d') /\
    be_ok d' /\ be_rx d' = q /\ be_bus d' = be_bus d.
Proof.
  revert q. induction xs as [|x xs IH] using rev_ind; intros q Hok Hq Hb Hr Hl.
  { unfold read_frames. cbn. rewrite Nat.add_0_r, take_drop. by exists d. }
  rewrite length_app in *. cbn [length] in *. apply Forall_app in Hb as [Hb Hx].
  apply Forall_cons_1 in Hx as [Hx _].
  destruct (IH ([x] ++ q)) as (d1 & E & Hok1 & Hq1 & Hb1); [done|by rewrite Hq, <- app_assoc|done..|lia|].
  destruct (be_get d1 x q Hok1 Hq1) as (d2 & E2 & Hok2 & Hq2 & Hb2).
  exists d2. split; [|split_and!; [done..|congruence]]. unfold read_frames in *.
  rewrite Nat2Z.inj_add, seqZ_app, res_fold_app, E by lia. cbn [res_bind]. rewrite Z.add_0_l.
  change (Z.of_nat 1) with 1. rewrite seqZ_cons, seqZ_nil by lia. cbn [res_fold].
  rewrite E2. cbn [res_bind]. rewrite store_word_ok by (rewrite ?length_app, ?length_take, ?length_drop; lia).
  cbn [res_bind]. do 2 f_equal.
  replace (Z.to_nat (1 * (r + Z.of_nat (length xs)))) with (Z.to_nat r + length xs)%nat by lia.
  replace (Z.to_nat (1 * (r + Z.of_nat (length xs)) + 1)) with (Z.to_nat r + length xs + 1)%nat by lia.
  rewrite take_app_add' by (rewrite length_take; lia). rewrite take_app_le, (take_ge xs) by lia.
  rewrite le_bytes_one, <- !app_assoc by done. do 3 f_equal.
  rewrite (app_assoc _ xs), drop_app_ge, length_app, length_take by (rewrite length_app, length_take; lia).
  rewrite drop_drop. f_equal. lia.
Qed.

Lemma discard_frames_bytes xs q d :
  be_ok d -> be_rx d = xs ++ q ->
  exists d', discard_frames d (Z.of_nat (length xs)) = Ok d' /\
    be_ok d' /\ be_rx d' = q /\ be_bus d' = be_bus d.
Proof.
  unfold discard_frames. generalize 0 at 1. revert d. induction xs as [|x xs IH]; intros d z Hok Hq.
  { rewrite seqZ_nil by (cbn; lia). by exists d. }
  cbn [length]. rewrite seqZ_cons by lia. cbn [res_fold].
  destruct (be_get d x (xs ++ q) Hok Hq) as (d1 & -> & Hok1 & Hq1 & Hb1). cbn [res_bind].
  replace (Z.pred (Z.of_nat (S (length xs)))) with (Z.of_nat (length xs)) by lia.
  destruct (IH d1 (Z.succ z)) as (d2 & -> & ? & ? & ?); [done..|]. exists d2. split_and!; [done..|congruence].
Qed.

Lemma load_byte buf i v : buf !! Z.to_nat i = Some v -> is_u 8 v -> 0 <= i -> load_word 1 buf (1 * i) = Ok v.
Proof.
  intros Hv Hb Hi. pose proof (lookup_lt_Some _ _ _ Hv). rewrite Z.mul_1_l, load_word_ok by lia. f_equal.
  rewrite (drop_S _ _ _ Hv). change (Z.to_nat 1) with 1%nat. cbn [take le_word].
  by rewrite firstn_O, Z.shiftl_0_l, Z.lor_0_r.
Qed.

(** Writing a sequence of words, each computed from its index. *)
Lemma put_words (f : Z -> res Z) idx vs d :
  Forall2 (fun i v => f i = Ok v) idx vs -> be_ok d -> (length (be_rx d) + length vs <= 16)%nat ->
  let '(l, b) := ans (be_bus d) (map u8 vs) in
  exists d', res_fold (fun Base i => let! Data := f i in reg_write Base TDR Data) d idx = Ok d' /\
    be_ok d' /\ be_rx d' = be_rx d ++ l /\ be_bus d' = b.
Proof.
  intros Hf. revert d. induction Hf as [|i v idx vs Hv Hf IH]; intros d Hok Hroom; cbn [length map answers] in *.
  { exists d. by rewrite app_nil_r. }
  destruct (be_put d v) as (d1 & E & Hok1 & Hq1 & Hb1); [done|lia|].
  destruct (be_send (be_bus d) (u8 v)) as [a b1]. cbn [fst snd] in *.
  specialize (IH d1 Hok1). rewrite Hb1 in IH. destruct (ans b1 (map u8 vs)) as [l b2].
  destruct IH as (d2 & E2 & ? & Hq2 & ?); [rewrite Hq1, length_app; cbn; lia|].
  exists d2. cbn [res_fold]. rewrite Hv. cbn [res_bind]. rewrite E. cbn [res_bind]. rewrite E2.
  split_and!; [done..| |done]. by rewrite Hq2, Hq1, <- app_assoc.
Qed.

Lemma map_u8_id vs : Forall (is_u 8) vs -> map u8 vs = vs.
Proof. induction 1 as [|v vs Hv _ IH]; cbn [map]; [done|]. by rewrite (u_small 8 v Hv), IH. Qed.

(** The bytes frames [t, t + k) put on the bus. *)
Definition sent st (t k : nat) : list Z :=
  match TxBuffer st with
  | Some buf => take k (drop t buf)
  | None => replicate k (u8 (DefaultData (DeviceParams (dev_of st))))
  end.
Definition sends st (n : Z) : Prop :=
  match TxBuffer st with Some buf => Forall (is_u 8) buf /\ n <= Z.of_nat (length buf) | None => True end.

Lemma Forall2_seqZ_slice {A} (P : Z -> A -> Prop) (l : list A) (t k : nat) :
  (t + k <= length l)%nat -> (forall i v, l !! (t + i)%nat = Some v -> P (Z.of_nat i) v) ->
  Forall2 P (seqZ 0 (Z.of_nat k)) (take k (drop t l)).
Proof.
  intros Hl Hp. apply Forall2_same_length_lookup. split.
  { rewrite length_seqZ, length_take, length_drop. lia. }
  intros i z v Hz Hv. apply lookup_seqZ in Hz as [-> Hi]. apply lookup_take_Some in Hv as [Hv _].
  rewrite lookup_drop in Hv. rewrite Z.add_0_l. by apply Hp.
Qed.

Lemma push_bytes st d (t k : nat) :
  be_ok d -> (length (be_rx d) + k <= 16)%nat -> attached st /\ step_of st = 1 -> sends st (Z.of_nat (t + k)) ->
  TxIndex st = Z.of_nat t -> Z.of_nat (t + k) < 2 ^ 16 ->
  let '(l, b) := ans (be_bus d) (sent st t k) in
  exists d', Lpspi_Ip_PushDataToFifo st d (Z.of_nat k) = Ok (st <| TxIndex := Z.of_nat (t + k) |>, d') /\
    be_ok d' /\ be_rx d' = be_rx d ++ l /\ be_bus d' = b.
Proof.
  intros Hok Hroom [Ha Hstep] Hs Ht Hmax. unfold Lpspi_Ip_PushDataToFifo, sent. rewrite (external_ok st Ha). cbn [res_bind]. cbv zeta. unfold step_of in Hstep.
  rewrite Ht, (u_small 16) by (unfold is_u; lia). rewrite Hstep. unfold push_frames, push_default, sends in *.
  destruct (TxBuffer st) as [buf|].
  - destruct Hs as [Hb Hl]. pose proof (put_words (fun Index => load_word 1 buf (1 * (Z.of_nat t + Index)))
      (seqZ 0 (Z.of_nat k)) (take k (drop t buf)) d) as Hput.
    assert (map u8 (take k (drop t buf)) = take k (drop t buf)) as Em.
    { apply map_u8_id, Forall_take, Forall_drop, Hb. }
    rewrite Em in Hput. destruct (ans (be_bus d) (take k (drop t buf))) as [l b].
    destruct Hput as (d' & -> & ?); [|done|rewrite length_take; lia|].
    + apply Forall2_seqZ_slice; [lia|]. intros i v Hv. apply load_byte; [|by eapply Forall_lookup_1|lia].
      by replace (Z.to_nat (Z.of_nat t + Z.of_nat i)) with (t + i)%nat by lia.
    + exists d'. cbn [res_bind]. split; [by rewrite Nat2Z.inj_add|done].
  - set (c := DefaultData _). pose proof (put_words (fun _ => Ok c) (seqZ 0 (Z.of_nat k)) (replicate k c) d) as Hput.
    assert (map u8 (replicate k c) = replicate k (u8 c)) as Em by apply fmap_replicate.
    rewrite Em in Hput. destruct (ans (be_bus d) (replicate k (u8 c))) as [l b]. cbn [res_bind] in Hput.
    destruct Hput as (d' & -> & ?); [|done|rewrite length_replicate; lia|].
    + apply Forall2_same_length_lookup. split; [rewrite length_seqZ, length_replicate; lia|].
      intros i z v _ Hv. by apply lookup_replicate in Hv as [-> _].
    + exists d'. cbn [res_bind]. split; [by rewrite Nat2Z.inj_add|done].
Qed.

Lemma sent_app st (t k : nat) : sent st 0 (t + k) = sent st 0 t ++ sent st t k.
Proof.
  unfold sent. destruct (TxBuffer st) as [buf|].
  - rewrite drop_0, <- (take_drop t (take (t + k) buf)), take_take, Nat.min_l by lia.
    by rewrite take_drop_commute.
  - by rewrite replicate_add.
Qed.
Lemma length_sent st (t k n : nat) : sends st (Z.of_nat n) -> (t + k <= n)%nat -> length (sent st t k) = k.
Proof.
  unfold sends, sent. destruct (TxBuffer st) as [buf|].
  - intros [_ Hl] Hk. rewrite length_take, length_drop. lia.
  - intros. by rewrite length_replicate.
Qed.

(** What the loop leaves alone besides the counters' bounds. *)
Definition setup st :=
  (TxBuffer st, ExternalDevice st, FirstCmd st, PhyUnitConfig st, (Callback st, Status st, KeepCs st, TransferMode st)).

(** ** The loop *)

Definition got b st (t : nat) : list Z := (ans b (sent st 0 t)).1.

(** After [t] frames went out and [r] came back, of [n], from the bus [b0]. *)
Record synced (b0 : B) (rx0 : option (list Z)) (n r t : nat) st d : Prop := {
  sy_ok : be_ok d;
  sy_step : attached st /\ step_of st = 1;
  sy_r : RxIndex st = Z.of_nat r;
  sy_t : TxIndex st = Z.of_nat t;
  sy_reads : ExpectedFifoReads st = Z.of_nat n;
  sy_writes : ExpectedFifoWrites st = Z.of_nat n;
  sy_le : (r <= t <= n)%nat;
  sy_max : Z.of_nat n < 2 ^ 16;
  sy_few : (t - r <= 4)%nat;
  sy_slot : CurrentTxFifoSlot st = (if decide (r = 0%nat) then 3 else 4) - (Z.of_nat t - Z.of_nat r);
  sy_slot_u : is_u 8 (CurrentTxFifoSlot st);
  sy_sends : sends st (Z.of_nat n);
  sy_rx : be_rx d = drop r (got b0 st t);
  sy_bus : be_bus d = (ans b0 (sent st 0 t)).2;
  sy_buf : RxBuffer st = option_map (fun buf => take r (got b0 st t) ++ drop r buf) rx0;
  sy_covers : covers rx0 (Z.of_nat n);
}.

Lemma length_got b0 rx0 n r t st d : synced b0 rx0 n r t st d -> length (got b0 st t) = t.
Proof.
  intros Hs. unfold got. rewrite length_answers. destruct (sy_le _ _ _ _ _ _ _ Hs).
  apply (length_sent st 0 t n); [apply Hs|lia].
Qed.
Lemma got_u8 b0 st t : Forall (is_u 8) (got b0 st t).
Proof.
  unfold got. generalize (sent st 0 t) as vs. intros vs. revert b0.
  induction vs as [|v vs IH]; intros b0; cbn [answers]; [constructor|].
  pose proof (be_byte b0 v). destruct (be_send b0 v) as [a b1]. specialize (IH b1).
  destruct (ans b1 vs). by constructor.
Qed.

(** Reading everything that came back. *)
Lemma read_fifo_bytes st d (r t : nat) (g : list Z) rx0 :
  be_ok d -> be_rx d = drop r g -> length g = t -> (r <= t)%nat -> Forall (is_u 8) g -> attached st /\ step_of st = 1 ->
  RxIndex st = Z.of_nat r -> Z.of_nat t < 2 ^ 16 ->
  RxBuffer st = option_map (fun buf => take r g ++ drop r buf) rx0 -> covers rx0 (Z.of_nat t) ->
  exists d', Lpspi_Ip_ReadDataFromFifo st d (Z.of_nat (t - r))
    = Ok (st <| RxBuffer := option_map (fun buf => g ++ drop t buf) rx0 |> <| RxIndex := Z.of_nat t |>, d') /\
    be_ok d' /\ be_rx d' = [] /\ be_bus d' = be_bus d.
Proof.
  intros Hok Hrx Hg Hle Hb [Ha Hstep] Er Hmax Hbuf Hcov. unfold Lpspi_Ip_ReadDataFromFifo. rewrite (external_ok st Ha). cbn [res_bind].
  rewrite Er, Hbuf. rewrite u_small by (unfold is_u; lia).
  replace (Z.of_nat r + Z.of_nat (t - r)) with (Z.of_nat t) by lia. unfold step_of in Hstep. rewrite Hstep.
  assert (length (drop r g) = (t - r)%nat) as Hl by (rewrite length_drop; lia).
  rewrite <- Hl. destruct rx0 as [buf|]; cbn [option_map covers] in *.
  - destruct (read_frames_bytes (drop r g) [] (take r g ++ drop r buf) d (Z.of_nat r))
      as (d2 & -> & Hd2); [done|by rewrite app_nil_r|by apply Forall_drop|lia|rewrite length_app, length_take, !length_drop; lia|].
    exists d2. cbn [res_bind]. split; [|exact Hd2].
    rewrite Nat2Z.id, take_app_le, take_take, Nat.min_id by (rewrite length_take; lia).
    rewrite app_assoc, take_drop, Hl, drop_app_ge, length_take, drop_drop by (rewrite length_take; lia).
    by replace (r + (r + (t - r) - r `min` length g))%nat with t by lia.
  - destruct (discard_frames_bytes (drop r g) [] d) as (d2 & -> & Hd2); [done|by rewrite app_nil_r|].
    exists d2. by cbn [res_bind].
Qed.

Lemma receive_synced b0 rx0 n r t st d e :
  synced b0 rx0 n r t st d -> (r < t)%nat ->
  exists st' d', receive_step st d e = Ok (st', d', 0) /\ synced b0 rx0 n t t st' d' /\
    setup st' = setup st.
Proof.
  intros Hs Hlt. pose proof (length_got _ _ _ _ _ _ _ Hs) as Hg. pose proof (got_u8 b0 st t) as Hb.
  destruct Hs as [Hok Hstep Er Et Ern Ewn Hle Hmax Hfew Hslot Hsu Hsends Hrx Hbus Hbuf Hcov].
  unfold receive_step. destruct (be_count d Hok) as (v & d1 & -> & Ev & Hok1 & Hrx1 & Hb1);
    [rewrite Hrx, length_drop; lia|]. cbn [res_bind].
  rewrite Ev, Hrx, length_drop, Hg. destruct (Z.eqb_spec (Z.of_nat (t - r)) 0); [lia|]. cbn [negb]. cbv zeta.
  rewrite Ern, Er. destruct (Z.ltb_spec (Z.of_nat n - Z.of_nat r) (Z.of_nat (t - r))); [lia|].
  set (st1 := if Z.of_nat r =? 0 then _ else st).
  assert (exists c, st1 = st <| CurrentTxFifoSlot := c |> /\ c = 4 - (Z.of_nat t - Z.of_nat r)) as (c & -> & Hc).
  { unfold st1. destruct (Z.eqb_spec (Z.of_nat r) 0).
    - eexists. split; [done|]. rewrite Hslot, decide_True by lia. rewrite u_small; unfold is_u; lia.
    - exists (CurrentTxFifoSlot st). split; [by destruct st|]. by rewrite Hslot, decide_False by lia. }
  destruct (read_fifo_bytes (st <| CurrentTxFifoSlot := c |>) d1 r t (got b0 st t) rx0)
    as (d2 & -> & Hok2 & Hrx2 & Hb2); try done; [congruence|lia|lia|by destruct rx0; cbn in *; lia|].
  cbn [res_bind]. rsimpl. replace (u8 (c + Z.of_nat (t - r))) with 4 by (rewrite u_small; unfold is_u; lia).
  eexists _, d2. split; [done|]. split; [|done]. split; rsimpl; try done; try lia.
  - rewrite decide_False by lia. lia.
  - rewrite Hrx2. symmetry. apply drop_ge. change (length (got b0 st t) <= t)%nat. lia.
  - congruence.
  - destruct rx0; [|done]. cbn [option_map]. f_equal. f_equal. symmetry. apply take_ge. change (length (got b0 st t) <= t)%nat. lia.
Qed.

(** Nothing has come back yet. *)
Lemma receive_first b0 rx0 n st d e :
  synced b0 rx0 n 0 0 st d -> exists d', receive_step st d e = Ok (st, d', e) /\ synced b0 rx0 n 0 0 st d'.
Proof.
  intros Hs. pose proof (sy_rx _ _ _ _ _ _ _ Hs) as Hrx. pose proof (length_got _ _ _ _ _ _ _ Hs) as Hg.
  assert (be_rx d = []) as Hnil by (apply length_zero_iff_nil; rewrite Hrx, drop_0; done).
  unfold receive_step. destruct (be_count d) as (v & d1 & -> & Ev & Hok1 & Hrx1 & Hb1);
    [apply Hs|rewrite Hnil; cbn; lia|]. cbn [res_bind]. rewrite Ev, Hnil. cbn [length negb Z.eqb Z.of_nat].
  exists d1. split; [done|]. destruct Hs. split; try done; congruence.
Qed.

(** Sending what there is room for. *)
Lemma transmit_synced b0 rx0 n t st d e :
  synced b0 rx0 n t t st d -> (t < n)%nat ->
  exists st' d' k, transmit_step st d e = Ok (st', d', 0) /\ (0 < k)%nat /\ synced b0 rx0 n t (t + k) st' d' /\
    setup st' = setup st.
Proof.
  intros Hs Hlt. pose proof (length_got _ _ _ _ _ _ _ Hs) as Hg.
  destruct Hs as [Hok Hstep Er Et Ern Ewn Hle Hmax Hfew Hslot Hsu Hsends Hrx Hbus Hbuf Hcov].
  unfold transmit_step. set (c := CurrentTxFifoSlot st) in *. assert (3 <= c <= 4) as Hc by (case_decide; lia).
  destruct (Z.eqb_spec c 0); [lia|]. rewrite Ewn, Et. destruct (Z.eqb_spec (Z.of_nat n) (Z.of_nat t)); [lia|].
  cbn [negb]. cbv zeta. set (z := if _ <? c then _ else c).
  assert (exists k : nat, z = Z.of_nat k /\ (0 < k)%nat /\ (t + k <= n)%nat /\ Z.of_nat k <= c) as (k & -> & Hk & Hkn & Hkc).
  { exists (Z.to_nat z). subst z. destruct (Z.ltb_spec (Z.of_nat n - Z.of_nat t) c); [|split_and!; lia].
    rewrite u_small by (unfold is_u; lia). split_and!; lia. }
  assert (be_rx d = []) as Hnil by (rewrite Hrx; apply drop_ge; lia).
  pose proof (push_bytes st d t k Hok) as Hp. rewrite Hbus in Hp.
  assert (sends st (Z.of_nat (t + k))) as Hsk
    by (unfold sends in *; destruct (TxBuffer st); [split; [apply Hsends|lia]|done]).
  pose proof (sent_app st t k) as Hsa.
  destruct (ans (ans b0 (sent st 0 t)).2 (sent st t k)) as [l b1] eqn:El.
  destruct Hp as (d1 & -> & Hok1 & Hrx1 & Hb1); [rewrite Hnil; cbn; lia|done..|lia|]. cbn [res_bind]. rsimpl.
  fold c. replace (u8 (c - Z.of_nat k)) with (c - Z.of_nat k) by (rewrite u_small; unfold is_u; lia).
  assert (ans b0 (sent st 0 (t + k)) = (got b0 st t ++ l, b1)) as Ea.
  { rewrite Hsa, answers_app. unfold got. destruct (ans b0 (sent st 0 t)) as [l0 b2]. cbn [snd fst] in *. by rewrite El. }
  eexists _, d1, k. split; [done|]. split; [done|]. split; [|done].
  assert (forall s, TxBuffer s = TxBuffer st -> ExternalDevice s = ExternalDevice st ->
    ans b0 (sent s 0 (t + k)) = (got b0 st t ++ l, b1)) as Ea'
    by (intros s F1 F2; unfold sent, dev_of in *; by rewrite F1, F2).
  split; rsimpl; unfold got; rewrite ?Ea' by done; cbn [fst snd]; try done; try lia.
  - unfold is_u in *. lia.
  - by rewrite Hrx1, Hnil, drop_app_ge, Hg, Nat.sub_diag, drop_0 by lia.
  - rewrite Hbuf. destruct rx0; [|done]. cbn [option_map]. do 2 f_equal. by rewrite take_app_le, ?take_ge by lia.
Qed.

(** Everything went out and came back: end the continuous transfer. *)
Lemma transmit_last b0 rx0 n st d e :
  synced b0 rx0 n n n st d -> exists d', transmit_step st d e = Ok (st, d', e) /\ synced b0 rx0 n n n st d'.
Proof.
  intros Hs. unfold transmit_step. rewrite (sy_writes _ _ _ _ _ _ _ Hs), (sy_t _ _ _ _ _ _ _ Hs), Z.eqb_refl.
  cbn [negb].
  assert (forall d', be_ok d' -> be_rx d' = be_rx d -> be_bus d' = be_bus d -> synced b0 rx0 n n n st d') as Hid
    by (intros d' ? ? ?; destruct Hs; split; congruence).
  destruct (CurrentTxFifoSlot st =? 0); cbn [negb]; [by exists d|]. destruct (KeepCs st); cbn [negb]; [by exists d|].
  destruct (be_command d) as (v & d1 & -> & Hok1 & Hrx1 & Hb1); [apply Hs|]. cbn [res_bind].
  destruct (has v _); [|by exists d1; auto].
  destruct (be_end d1 Hok1) as (d2 & -> & Hok2 & Hrx2 & Hb2). cbn [res_bind].
  exists d2. split; [done|]. apply Hid; congruence.
Qed.

(** The loop exchanges everything. *)
Lemma loop_synced b0 rx0 n r t fuel timeout st d e :
  synced b0 rx0 n r t st d -> (r < t \/ t = 0)%nat -> (0 < n)%nat -> 2 <= timeout ->
  (n - t + 3 <= fuel)%nat ->
  exists st' d', transfer_loop fuel timeout st d e = Ok (Some (LPSPI_IP_STATUS_SUCCESS, st', d')) /\
    synced b0 rx0 n n n st' d' /\ setup st' = setup st.
Proof.
  revert r t st d e. induction fuel as [|fuel IH]; intros r t st d e Hs Hrt Hn Hto Hf; [lia|].
  cbn [transfer_loop]. pose proof (sy_le _ _ _ _ _ _ _ Hs) as Hle.
  rewrite (sy_r _ _ _ _ _ _ _ Hs), (sy_reads _ _ _ _ _ _ _ Hs).
  destruct (Z.eqb_spec (Z.of_nat r) (Z.of_nat n)); [lia|].
  assert (u32 (0 + OsIf_Timer_Dummy_GetElapsed) = 1) as Hone by done.
  assert ((timeout <=? 1) = false) as Hno by lia.
  destruct Hrt as [Hrt| ->].
  - destruct (receive_synced _ _ _ _ _ _ _ e Hs Hrt) as (st1 & d1 & -> & Hs1 & F1). cbn [res_bind].
    destruct (decide (t = n)) as [->|Hne].
    + destruct (transmit_last _ _ _ _ _ 0 Hs1) as (d2 & -> & Hs2). cbn [res_bind]. rewrite Hone, Hno.
      destruct fuel as [|fuel]; [lia|]. cbn [transfer_loop].
      rewrite (sy_r _ _ _ _ _ _ _ Hs2), (sy_reads _ _ _ _ _ _ _ Hs2), Z.eqb_refl. by exists st1, d2.
    + destruct (transmit_synced _ _ _ _ _ _ 0 Hs1) as (st2 & d2 & k & -> & Hk & Hs2 & F2); [lia|].
      cbn [res_bind]. rewrite Hone, Hno. destruct (IH t (t + k)%nat st2 d2 1) as (st3 & d3 & -> & ? & ?);
        [done|lia..|]. exists st3, d3. split_and!; [done..|congruence].
  - assert (r = 0%nat) as -> by lia. destruct (receive_first _ _ _ _ _ e Hs) as (d1 & -> & Hs1). cbn [res_bind].
    destruct (transmit_synced _ _ _ _ _ _ e Hs1) as (st2 & d2 & k & -> & Hk & Hs2 & F2); [lia|].
    cbn [res_bind]. rewrite Hone, Hno. destruct (IH 0%nat (0 + k)%nat st2 d2 1) as (st3 & d3 & -> & ? & ?);
      [done|lia..|]. exists st3, d3. split_and!; [done..|congruence].
Qed.
End exchange.
End SpiExchange.
