(* ===== verification/SpiSystem.v ===== *)
(** * The driver on the LPSPI controller

    The driver's register accesses land in the controller model of [Lpspi.v].
    With the register header as the reference manual documents it, the
    controller is a [ByteExchange], the set-up of a transfer leaves it empty and
    enabled, and so a synchronous transfer exchanges the caller's bytes with the
    bus. *)

From S2P Require Import Prelude Words Fifo Ssi Lpspi LpspiSpec LpspiProps SpiDriver SpiDriverProps SpiExchange.
From stdpp Require Import list.
#[local] Open Scope Z_scope.
Import Fifo8 Lpspi LpspiSpec LpspiQueue SpiDriver SpiDriverSafety SpiExchange.

(** The masks and shifts of the register header that a transfer depends on. *)
Class DocumentedHeader `{LpspiHeader} : Prop := {
  doc_men : LPSPI_CR_MEN_MASK = 0x1;
  doc_rst : LPSPI_CR_RST_MASK = 0x2;
  doc_rtf : LPSPI_CR_RTF_MASK = 0x100;
  doc_rrf : LPSPI_CR_RRF_MASK = 0x200;
  doc_rxcount : LPSPI_FSR_RXCOUNT_MASK = 0x70000 /\ LPSPI_FSR_RXCOUNT_SHIFT = 16;
  doc_cont : LPSPI_TCR_CONT_MASK = 0x200000;
  doc_contc : LPSPI_TCR_CONTC_MASK = 0x100000;
}.

Module SpiSystem.

(** The fields of [LPSPI_Type] are at the addresses the controller decodes. *)
#[global] Instance lpspi_port {B} `{SpiBus B} : SpiPort (NXPS32K358LPSPIState (B:=B)) := {|
  reg_read s r := nxps32k358_lpspi_read s (reg_offset r);
  reg_write s r v := nxps32k358_lpspi_write s (reg_offset r) v;
|}.

Section system.
Context {B : Type} `{SpiBus B} `{DocumentedHeader}.
Abbreviation state := (NXPS32K358LPSPIState (B:=B)).
Implicit Types s : state.

(** ** Register accesses outside the data path *)

(** What a transfer depends on. *)
Definition view s :=
  (contents (tx_fifo s), contents (rx_fifo s), ssi s, lpspi_cr s, lpspi_tcr s, lpspi_cfgr1 s, num_cs_lines s).

Lemma decode_offset r : decode (reg_offset r) = Some r.
Proof. by destruct r. Qed.

Lemma read_reg s r :
  lpspi_ok s -> r <> RDR -> r <> TDR ->
  exists v, reg_read s r = Ok (v, refresh s) /\ lpspi_ok (refresh s) /\ view (refresh s) = view s /\ is_u 32 v /\
    match r with
    | CR => v = lpspi_cr s | TCR => v = lpspi_tcr s | CFGR1 => v = lpspi_cfgr1 s | _ => True
    end.
Proof.
  intros Hok Hr Ht. destruct (read_safe s (reg_offset r) Hok) as (v & s' & E & Hv & _).
  exists v. revert E. cbn [reg_read lpspi_port]. unfold nxps32k358_lpspi_read.
  rewrite core_update_status by apply Hok. cbn [res_bind]. rewrite decode_offset.
  pose proof (refresh_ok s (proj1 Hok)) as Hok1. destruct r; try done; intros [= <- <-]; by split_and!.
Qed.

Lemma update_irq_view s s' : lpspi_update_irq s = Ok s' -> view s' = view s.
Proof.
  destruct (decide (tcr_frame_bytes (lpspi_tcr s) = 0)).
  - unfold lpspi_update_irq. by rewrite update_status_fault.
  - rewrite update_irq_eq by done. by intros [= <-].
Qed.

(** Registers that only hold a value or acknowledge flags. *)
Lemma write_plain s r v :
  lpspi_ok s -> r = DER \/ r = IER \/ r = SR \/ r = CCR ->
  exists s', reg_write s r v = Ok s' /\ lpspi_ok s' /\ view s' = view s.
Proof.
  intros Hok Hr. destruct (write_safe s (reg_offset r) v Hok) as (s' & E & Hok' & _);
    [rewrite decode_offset; intros [= ->]; by destruct Hr as [?|[?|[?|?]]]|].
  exists s'. split; [exact E|]. split; [done|]. revert E. unfold nxps32k358_lpspi_write.
  rewrite decode_offset. destruct Hr as [->|[->|[->| ->]]]; try (by intros E%update_irq_view).
  intros (? & _ & E%update_irq_view)%res_bind_ok. done.
Qed.

Lemma write_cfgr1 s v :
  lpspi_ok s -> is_u 32 v ->
  exists s', reg_write s CFGR1 v = Ok s' /\ lpspi_ok s' /\ view s' = view (s <| lpspi_cfgr1 := v |>).
Proof.
  intros Hok Hv. destruct (write_safe s (reg_offset CFGR1) v Hok) as (s' & E & Hok' & _); [done|].
  exists s'. split; [exact E|]. split; [done|]. revert E. unfold nxps32k358_lpspi_write.
  rewrite decode_offset, (u_small 32 v Hv). by intros (? & _ & E%update_irq_view)%res_bind_ok.
Qed.

Lemma write_fcr_view s v :
  lpspi_ok s -> exists s', reg_write s FCR v = Ok s' /\ lpspi_ok s' /\ view s' = view s.
Proof.
  intros Hok. destruct (write_safe s (reg_offset FCR) v Hok) as (s' & E & Hok' & _); [done|].
  exists s'. split; [exact E|]. split; [done|]. revert E. unfold nxps32k358_lpspi_write.
  rewrite decode_offset. intros (s1 & E1 & E%update_irq_view)%res_bind_ok. rewrite E. revert E1. unfold write_fcr.
  rewrite core_update_status by (apply core_fcr; [apply Hok|by apply u_range]). by intros [= <-].
Qed.

(** CR without its reset bit: the FIFO reset bits empty the FIFOs. *)
Lemma write_cr_view s v :
  lpspi_ok s -> is_u 32 v -> has v LPSPI_CR_RST = false ->
  exists s', reg_write s CR v = Ok s' /\ lpspi_ok s' /\
    view s' = (if has v LPSPI_CR_RTF then [] else contents (tx_fifo s),
               if has v LPSPI_CR_RRF then [] else contents (rx_fifo s), ssi s,
               clear_bits v (Z.lor (Z.lor LPSPI_CR_RST LPSPI_CR_RTF) LPSPI_CR_RRF),
               lpspi_tcr s, lpspi_cfgr1 s, num_cs_lines s).
Proof.
  intros Hok Hv Hr. destruct (write_safe s (reg_offset CR) v Hok) as (s' & E & Hok' & _); [done|].
  exists s'. split; [exact E|]. split; [done|]. revert E. unfold nxps32k358_lpspi_write.
  rewrite decode_offset, (u_small 32 v Hv), Hr. intros ->%update_irq_view. unfold write_cr.
  by destruct (has v LPSPI_CR_RTF), (has v LPSPI_CR_RRF).
Qed.

Lemma write_reset s v :
  lpspi_ok s -> is_u 32 v -> has v LPSPI_CR_RST = true ->
  exists s', reg_write s CR v = Ok s' /\ lpspi_ok s' /\
    view s' = ([], [], ssi s, 0, 0x1F, 0, num_cs_lines s).
Proof.
  intros Hok Hv Hr. cbn [reg_write lpspi_port]. unfold nxps32k358_lpspi_write.
  rewrite decode_offset, (u_small 32 v Hv), Hr. pose proof (core_hw s (proj1 Hok)) as Hhw.
  rewrite do_reset_eq by done. eexists. split; [done|].
  split; [by apply refresh_irq_ok, reset_state_core|done].
Qed.

(** ** Setting up a transfer *)

Lemma cr_u32 s : lpspi_ok s -> is_u 32 (lpspi_cr s).
Proof. intros [Hc _]. pose proof (ok_regs s Hc) as Hr. by do 3 apply Forall_cons_1 in Hr as [? Hr]. Qed.
Lemma cr_bits s : lpspi_ok s ->
  Z.testbit (lpspi_cr s) 1 = false /\ Z.testbit (lpspi_cr s) 8 = false /\ Z.testbit (lpspi_cr s) 9 = false.
Proof.
  intros [Hc _]. pose proof (ok_cr s Hc) as Hr. unfold LPSPI_CR_RST, LPSPI_CR_RTF, LPSPI_CR_RRF in Hr.
  rewrite !has_lor_mask, !has_BIT, !orb_false_iff in Hr by lia. tauto.
Qed.

(** [CR = f(CR)] by its effect on the bits. *)
Lemma modify_cr s f :
  lpspi_ok s -> is_u 32 (f (lpspi_cr s)) -> Z.testbit (f (lpspi_cr s)) 1 = false ->
  exists s', reg_modify s CR f = Ok s' /\ lpspi_ok s' /\
    view s' = (if Z.testbit (f (lpspi_cr s)) 8 then [] else contents (tx_fifo s),
               if Z.testbit (f (lpspi_cr s)) 9 then [] else contents (rx_fifo s), ssi s,
               clear_bits (f (lpspi_cr s)) 0x302, lpspi_tcr s, lpspi_cfgr1 s, num_cs_lines s).
Proof.
  intros Hok Hu Hb. unfold reg_modify. destruct (read_reg s CR Hok) as (v & -> & Hok1 & _ & _ & ->); [done..|].
  cbn [res_bind]. destruct (write_cr_view (refresh s) (f (lpspi_cr s)) Hok1 Hu) as (s' & -> & Hok' & Hv).
  { unfold LPSPI_CR_RST. by rewrite has_BIT. }
  exists s'. split; [done|]. split; [done|]. unfold LPSPI_CR_RTF, LPSPI_CR_RRF in Hv. by rewrite !has_BIT in Hv by lia.
Qed.

Lemma errata_ok s :
  lpspi_ok s -> exists s', Lpspi_ErrataHandle s = Ok s' /\ lpspi_ok s' /\
    view s' = ([], [], ssi s, 0, 0x1F, lpspi_cfgr1 s, num_cs_lines s).
Proof.
  intros Hok. unfold Lpspi_ErrataHandle. rewrite doc_rst.
  destruct (read_reg s CFGR1 Hok) as (v & -> & Hok1 & Hv1 & Hu & ->); [done..|]. cbn [res_bind].
  unfold reg_modify at 1. destruct (read_reg _ CR Hok1) as (v & -> & Hok2 & _ & _ & ->); [done..|]. cbn [res_bind].
  destruct (write_reset (refresh (refresh s)) (Z.lor (lpspi_cr (refresh s)) 2) Hok2) as (s3 & -> & Hok3 & Hv3).
  { apply is_u_lor; [lia|apply (cr_u32 s Hok)|unfold is_u; lia]. }
  { change LPSPI_CR_RST with (BIT 1). rewrite has_BIT, Z.lor_spec by lia. apply orb_true_r. }
  cbn [res_bind]. injection Hv3 as E1 E2 E3 E4 E5 E6 E7.
  destruct (modify_cr s3 (fun v => Z.ldiff v 2) Hok3) as (s4 & -> & Hok4 & Hv4); rewrite ?E4; [done..|]. cbn [res_bind].
  rewrite E4 in Hv4. cbn in Hv4. injection Hv4 as F1 F2 F3 F4 F5 F6 F7.
  destruct (write_cfgr1 s4 (lpspi_cfgr1 s) Hok4 Hu) as (s5 & -> & Hok5 & Hv5). exists s5. split; [done|]. split; [done|].
  rewrite Hv5. unfold view. cbn. by rewrite F1, F2, F3, F4, F5, F7, E1, E2, E3, E5, E7.
Qed.

Lemma clear_fifos_ok s :
  lpspi_ok s -> exists s', reg_modify s CR (fun v => Z.lor v (Z.lor LPSPI_CR_RTF_MASK LPSPI_CR_RRF_MASK)) = Ok s' /\
    lpspi_ok s' /\ contents (tx_fifo s') = [] /\ contents (rx_fifo s') = [] /\ ssi s' = ssi s /\
    lpspi_cfgr1 s' = lpspi_cfgr1 s /\ num_cs_lines s' = num_cs_lines s.
Proof.
  intros Hok. rewrite doc_rtf, doc_rrf. destruct (cr_bits s Hok) as (B1 & B8 & B9).
  destruct (modify_cr s (fun v => Z.lor v (Z.lor 256 512)) Hok) as (s1 & -> & Hok1 & Hv1).
  { apply is_u_lor; [lia|by apply cr_u32|by vm_compute]. }
  { rewrite Z.lor_spec, B1. done. }
  rewrite !Z.lor_spec, B8, B9 in Hv1. cbn in Hv1. injection Hv1 as E1 E2 E3 E4 E5 E6 E7.
  exists s1. by split_and!.
Qed.

(** An empty and enabled controller. *)
Definition fresh (bus : B) (cfgr1 ncs : Z) s : Prop :=
  lpspi_ok s /\ contents (tx_fifo s) = [] /\ contents (rx_fifo s) = [] /\ ssi s = bus /\
  Z.testbit (lpspi_cr s) 0 = true /\ lpspi_cfgr1 s = cfgr1 /\ num_cs_lines s = ncs.

Lemma configure_ok st s :
  lpspi_ok s -> attached st -> SlaveMode (PhyUnitConfig st) = false ->
  exists s', configure_clock st s = Ok s' /\ fresh (ssi s) (lpspi_cfgr1 s) (num_cs_lines s) s'.
Proof.
  intros Hok Ha Hm. unfold configure_clock. rewrite (external_ok st Ha), doc_men, Hm. destruct (cr_bits s Hok) as (B1 & B8 & B9).
  destruct (modify_cr s (fun v => Z.ldiff v 1) Hok) as (s1 & -> & Hok1 & Hv1).
  { apply is_u_ldiff; [lia|by apply cr_u32]. }
  { by rewrite Z.ldiff_spec, B1. }
  cbn [res_bind]. rewrite !Z.ldiff_spec, B8, B9 in Hv1. cbn [andb] in Hv1. injection Hv1 as _ _ E3 _ _ E6 E7.
  assert (exists s2, (if ERR_IPV_LPSPIV2_0001 then Lpspi_ErrataHandle s1
    else reg_modify s1 CR (fun v => Z.lor v (Z.lor LPSPI_CR_RTF_MASK LPSPI_CR_RRF_MASK))) = Ok s2 /\
    lpspi_ok s2 /\ contents (tx_fifo s2) = [] /\ contents (rx_fifo s2) = [] /\ ssi s2 = ssi s /\
    lpspi_cfgr1 s2 = lpspi_cfgr1 s /\ num_cs_lines s2 = num_cs_lines s)
    as (s2 & -> & Hok2 & F1 & F2 & F3 & F6 & F7).
  { rewrite <- E3, <- E6, <- E7. destruct ERR_IPV_LPSPIV2_0001; [|by apply clear_fifos_ok].
    destruct (errata_ok s1 Hok1) as (s2 & -> & Hok2 & Hv2). injection Hv2 as F1 F2 F3 F4 F5 F6 F7.
    exists s2. by split_and!. }
  cbn [res_bind]. unfold reg_modify at 1.
  destruct (read_reg s2 SR Hok2) as (v & -> & Hok3 & Hv3 & _ & _); [done..|]. cbn [res_bind].
  destruct (write_plain (refresh s2) SR (Z.land v 4294967295) Hok3) as (s4 & -> & Hok4 & Hv4); [tauto|]. cbn [res_bind].
  destruct (write_plain s4 CCR (Ccr (dev_of st)) Hok4) as (s5 & -> & Hok5 & Hv5); [tauto|]. cbn [res_bind].
  rewrite Hv4, Hv3 in Hv5. injection Hv5 as G1 G2 G3 G4 G5 G6 G7. destruct (cr_bits s5 Hok5) as (C1 & C8 & C9).
  destruct (modify_cr s5 (fun v => Z.lor v 1) Hok5) as (s6 & -> & Hok6 & Hv6).
  { apply is_u_lor; [lia|by apply cr_u32|unfold is_u; lia]. }
  { by rewrite Z.lor_spec, C1. }
  exists s6. split; [done|]. rewrite !Z.lor_spec, C8, C9 in Hv6. cbn [orb] in Hv6.
  injection Hv6 as I1 I2 I3 I4 I5 I6 I7. split_and!; try congruence.
  - rewrite I4. unfold clear_bits. rewrite Z.ldiff_spec, Z.lor_spec. by rewrite orb_true_r.
Qed.

(** ** The controller as a byte exchanger *)

Definition send (b : B) (v : Z) : Z * B := let '(r, b') := ssi_exchange b v in (u8 r, b').

Record byte_ready s : Prop := {
  br_ok : lpspi_ok s;
  br_men : Z.testbit (lpspi_cr s) 0 = true;
  br_frame : tcr_frame_bytes (lpspi_tcr s) = 1;
  br_rxmsk : rxmsk s = false;
  br_loop : loopback s = false;
  br_tx : contents (tx_fifo s) = [];
}.

Lemma byte_ready_config s s' :
  byte_ready s -> lpspi_ok s' -> config s' = config s -> contents (tx_fifo s') = [] -> byte_ready s'.
Proof.
  intros [] Hok (_ & Et & Ecr & Ecf & _)%config_eq Htx. unfold rxmsk, loopback in *.
  split; unfold rxmsk, loopback; by rewrite ?Et, ?Ecr, ?Ecf.
Qed.
Lemma byte_ready_cfg s : byte_ready s -> cfg_of s = mkCfg 1 (lsbf s) false false.
Proof. intros []. unfold cfg_of, frame_len. by rewrite br_frame0, br_rxmsk0, br_loop0. Qed.

Lemma land_ff r : Z.land r 255 = u8 r.
Proof. change 255 with (Z.ones 8). by rewrite Z.land_ones. Qed.
Lemma bytes_of_one b v : bytes_of b 1 v = [u8 v].
Proof. unfold bytes_of. destruct b; cbn [le_bytes rev app]; by rewrite land_ff. Qed.

Lemma put_byte s v :
  byte_ready s -> (length (contents (rx_fifo s)) < 16)%nat ->
  exists s', reg_write s TDR v = Ok s' /\ byte_ready s' /\
    contents (rx_fifo s') = contents (rx_fifo s) ++ [(send (ssi s) (u8 v)).1] /\ ssi s' = (send (ssi s) (u8 v)).2.
Proof.
  intros Hr Hl. pose proof Hr as [Hok Hmen _ _ _ Htx].
  destruct (put_refines s v Hok) as (s' & E & Hok' & Hcfg & Hspi); [unfold LPSPI_CR_MEN; by rewrite has_BIT|].
  exists s'. split; [exact E|]. rewrite byte_ready_cfg in Hspi by done. unfold spi_put, spi_move, spi_of in Hspi.
  rewrite Htx in Hspi. cbn [c_len c_lsbf c_rxmsk c_loop q_tx q_rx q_bus q_err length app Nat.add] in Hspi.
  rewrite bytes_of_one, !bool_decide_eq_true_2 in Hspi by (cbn; lia). cbn [andb orb length take drop] in Hspi.
  assert (word_of (lsbf s) [u8 v] = u8 v) as Hw by (unfold word_of; destruct (lsbf s); cbn; apply Z.lor_0_r).
  rewrite Hw in Hspi. unfold send. destruct (ssi_exchange (ssi s) (u8 v)) as [r b'].
  rewrite bytes_of_one in Hspi. injection Hspi as E1 E2 E3 _. split; [by apply (byte_ready_config s)|done].
Qed.

Lemma get_byte s v q :
  byte_ready s -> contents (rx_fifo s) = v :: q ->
  exists s', reg_read s RDR = Ok (v, s') /\ byte_ready s' /\ contents (rx_fifo s') = q /\ ssi s' = ssi s.
Proof.
  intros Hr Hq. pose proof Hr as [Hok _ _ _ _ Htx].
  destruct (get_refines s Hok) as (w & s' & E & Hok' & Hcfg & Hspi). rewrite byte_ready_cfg in Hspi by done.
  unfold spi_get, spi_of in Hspi. rewrite Htx, Hq in Hspi. cbn [c_len c_lsbf q_tx q_rx q_bus q_err take drop] in Hspi.
  change (Z.of_nat 1) with (Z.of_nat (length [v])) in Hspi. rewrite partial_word_full in Hspi.
  injection Hspi as Ew E1 E2 E3 _. exists s'. split; [|by split; [by apply (byte_ready_config s)|]].
  change (reg_read s RDR) with (nxps32k358_lpspi_read s 0x74). rewrite E. do 2 f_equal. rewrite <- Ew, firstn_O. unfold word_of.
  destruct (lsbf s); cbn [rev app le_word]; by rewrite Z.shiftl_0_l, Z.lor_0_r.
Qed.

Lemma count_bytes s :
  byte_ready s -> (length (contents (rx_fifo s)) <= 7)%nat ->
  exists v s', reg_read s FSR = Ok (v, s') /\
    u8 (Z.shiftr (Z.land v LPSPI_FSR_RXCOUNT_MASK) LPSPI_FSR_RXCOUNT_SHIFT) = Z.of_nat (length (contents (rx_fifo s))) /\
    byte_ready s' /\ contents (rx_fifo s') = contents (rx_fifo s) /\ ssi s' = ssi s.
Proof.
  intros Hr Hl. pose proof Hr as [Hok _ _ _ _ Htx]. pose proof (count_refines s Hok) as E.
  rewrite byte_ready_cfg in E by done. eexists _, _. split; [exact E|]. destruct doc_rxcount as [-> ->].
  split; [|split; [|done]].
  - unfold spi_count, spi_of. rewrite Htx. cbn [c_len q_tx q_rx length]. rewrite !Nat.div_1_r.
    generalize dependent (length (contents (rx_fifo s))). intros n Hn. by do 8 (destruct n as [|n]; [done|]); lia.
  - apply (byte_ready_config s); [done|by apply refresh_ok, Hok|done..].
Qed.

Lemma land_ldiff_other t m k : Z.land m k = 0 -> Z.land (Z.ldiff t m) k = Z.land t k.
Proof.
  intros Hm. apply Z.bits_inj'. intros i Hi. apply (f_equal (fun z => Z.testbit z i)) in Hm.
  rewrite Z.land_spec, Z.bits_0 in Hm. rewrite !Z.land_spec, Z.ldiff_spec.
  destruct (Z.testbit t i), (Z.testbit m i), (Z.testbit k i); done.
Qed.

(** Ending the continuous transfer touches none of the fields the controller
    reads. *)
Lemma end_command_line s :
  byte_ready s ->
  exists s', reg_modify s TCR (fun v => Z.ldiff v (Z.lor LPSPI_TCR_CONT_MASK LPSPI_TCR_CONTC_MASK)) = Ok s' /\
    byte_ready s' /\ contents (rx_fifo s') = contents (rx_fifo s) /\ ssi s' = ssi s /\
    exists s0, s' = refresh_irq s0 /\ lpspi_sr s0 = status_sr s /\ lpspi_ier s0 = lpspi_ier s /\ tx_watermark s0 = tx_watermark s.
Proof.
  intros Hr. pose proof Hr as [Hok Hmen Hfr Hmsk Hlp Htx]. rewrite doc_cont, doc_contc. unfold reg_modify.
  destruct (read_reg s TCR Hok) as (v & -> & Hok1 & _ & Hu & ->); [done..|]. cbn [res_bind].
  set (c := Z.ldiff (lpspi_tcr s) (Z.lor 2097152 1048576)).
  assert (u32 c = c) as Hc by (apply u_small; by apply is_u_ldiff).
  assert (tcr_frame_size c = tcr_frame_size (lpspi_tcr s)) as Es
    by (unfold tcr_frame_size, c; by rewrite land_ldiff_other).
  assert (tcr_frame_bytes c = 1) as Eb by (unfold tcr_frame_bytes in *; by rewrite Es).
  assert (tcr_pcs c = tcr_pcs (lpspi_tcr s)) as Ep by (unfold tcr_pcs, c; by rewrite land_ldiff_other).
  assert (has c TCR_RXMSK = false) as Em
    by (unfold rxmsk, has in *; unfold c; by rewrite land_ldiff_other).
  pose proof (LpspiProps.write_tcr_empty (refresh s) c Htx (ok_tx s (proj1 Hok))) as Ew.
  rewrite Hc in Ew. eexists. split; [apply Ew; lia|]. split; [|split; [done|]; split; [done|]; by eexists]. split; try done.
  apply refresh_irq_ok, core_tcr; [apply Hok1|rewrite <- Hc; by apply u_range|].
  apply supported_iff. rewrite Eb, Ep. pose proof (ok_supported s (proj1 Hok)) as Hs. apply supported_iff in Hs.
  change (num_cs_lines (refresh s)) with (num_cs_lines s). lia.
Qed.

Lemma end_command s :
  byte_ready s ->
  exists s', reg_modify s TCR (fun v => Z.ldiff v (Z.lor LPSPI_TCR_CONT_MASK LPSPI_TCR_CONTC_MASK)) = Ok s' /\
    byte_ready s' /\ contents (rx_fifo s') = contents (rx_fifo s) /\ ssi s' = ssi s.
Proof. intros (s' & E & Hr & Hrx & Hb & _)%end_command_line. by exists s'. Qed.

#[export] Instance lpspi_exchange : ByteExchange state B.
Proof.
  refine {| be_ok := byte_ready; be_rx s := contents (rx_fifo s); be_bus := ssi; be_send := send |}.
  - intros b v. unfold send. destruct (ssi_exchange b v). by apply u_range.
  - apply put_byte.
  - apply get_byte.
  - apply count_bytes.
  - intros s Hr. destruct (read_reg s TCR (br_ok s Hr)) as (v & E & Hok & _); [done..|].
    exists v, (refresh s). split; [done|]. split; [|done]. apply (byte_ready_config s); [done..|apply Hr].
  - apply end_command.
Defined.

(** ** The transfer *)

(** The command of [dev] as the controller reads it: one-byte frames on an
    existing chip select, reception not masked. *)
Definition byte_command (dev : Lpspi_Ip_ExternalDeviceType) (ncs : Z) : Prop :=
  let c := u32 (transfer_command dev) in
  supported ncs c = true /\ tcr_frame_bytes c = 1 /\ has c TCR_RXMSK = false.

(** The driver after [Lpspi_Ip_Init] as a master, before or after a
    synchronous transfer. *)
Definition master st : Prop := FirstCmd st = true /\ SlaveMode (PhyUnitConfig st) = false.

Lemma tx_init_line st s tx len :
  lpspi_ok s -> loopback s = false -> attached st -> master st -> is_type (dev_of st) LPSPI_IP_FULL_DUPLEX = true ->
  byte_command (dev_of st) (num_cs_lines s) ->
  exists s', Lpspi_TransmitTxInit st s tx len = Ok (tx_ready st tx len, s') /\ byte_ready s' /\
    contents (rx_fifo s') = [] /\ ssi s' = ssi s /\
    exists s1 s0, configure_clock st s = Ok s1 /\ s' = refresh_irq s0 /\ lpspi_sr s0 = lpspi_sr s1 /\ tx_watermark s0 = tx_watermark s1.
Proof.
  intros Hok Hlp Ha [Hf Hm] Hty (Hsup & Hfr & Hmsk).
  assert (is_type (dev_of st) LPSPI_IP_HALF_DUPLEX_RECEIVE = false /\
    is_type (dev_of st) LPSPI_IP_HALF_DUPLEX_TRANSMIT = false) as [Hr Ht].
  { unfold is_type in *. apply bool_decide_eq_true in Hty. by rewrite Hty. }
  unfold Lpspi_TransmitTxInit. rewrite (external_ok st Ha). cbn [res_bind]. cbv zeta. rewrite Hty, Hr, Ht, Hf, Hm. cbn [negb].
  destruct (configure_ok st s Hok Ha Hm) as (s1 & E1 & Hok1 & Htx1 & Hrx1 & Hb1 & Hmen1 & Hcf1 & Hn1). rewrite E1. cbn [res_bind].
  pose proof (LpspiProps.write_tcr_empty s1 (transfer_command (dev_of st)) Htx1 (ok_tx s1 (proj1 Hok1))) as E.
  change (nxps32k358_lpspi_write s1 96 ?v) with (reg_write s1 TCR v) in E. rewrite E by lia. cbn [res_bind].
  eexists. split; [done|]. split; [|split; [done|]; split; [done|]; by eexists s1, _]. split; try done.
  - apply refresh_irq_ok, core_tcr; [apply Hok1|by apply u_range|by rewrite Hn1].
  - unfold loopback in *. unfold refresh_irq, refresh. rsimpl. by rewrite Hcf1.
Qed.

Lemma tx_init_ready st s tx len :
  lpspi_ok s -> loopback s = false -> attached st -> master st -> is_type (dev_of st) LPSPI_IP_FULL_DUPLEX = true ->
  byte_command (dev_of st) (num_cs_lines s) ->
  exists s', Lpspi_TransmitTxInit st s tx len = Ok (tx_ready st tx len, s') /\ byte_ready s' /\
    contents (rx_fifo s') = [] /\ ssi s' = ssi s.
Proof.
  intros Hok Hlp Ha Hm Hty Hc. destruct (tx_init_line st s tx len Hok Hlp Ha Hm Hty Hc) as (s' & E & Hr & Hrx & Hb & _). by exists s'.
Qed.

(** The bytes a transfer puts on the bus. *)
Definition outgoing (dev : Lpspi_Ip_ExternalDeviceType) (tx : option (list Z)) (len : Z) : list Z :=
  match tx with
  | Some buf => take (Z.to_nat len) buf
  | None => replicate (Z.to_nat len) (u8 (DefaultData (DeviceParams dev)))
  end.

Definition valid_tx (tx : option (list Z)) (len : Z) : Prop :=
  match tx with Some buf => Forall (is_u 8) buf /\ len <= Z.of_nat (length buf) | None => True end.

(** The start and the end of the loop. *)
Lemma started dev tx rx len st s :
  byte_ready s -> contents (rx_fifo s) = [] -> 0 < len < 2 ^ 16 -> valid_tx tx len -> covers rx len ->
  buffer_step (FrameSize (DeviceParams dev)) = 1 ->
  ExternalDevice st = Some dev -> TxBuffer st = tx -> RxBuffer st = rx -> RxIndex st = 0 -> TxIndex st = 0 ->
  ExpectedFifoReads st = len -> ExpectedFifoWrites st = len -> CurrentTxFifoSlot st = 3 ->
  synced (ssi s) rx (Z.to_nat len) 0 0 st s.
Proof.
  intros Hr Hrx Hlen Htx Hcov Hstep Ed Et Eb E1 E2 E3 E4 E5. unfold valid_tx in Htx.
  assert (sent st 0 0 = []) as Hnil by (unfold sent; by destruct (TxBuffer st)).
  pose proof (dev_of_some _ _ Ed) as Edev. assert (attached st) by (by exists dev).
  split; try lia; try done; unfold step_of, sends, got; rewrite ?Edev, ?Et, ?Eb, ?E5, ?Hnil, ?Z2Nat.id by lia; try done.
  - by destruct rx.
Qed.

Lemma finished dev tx rx len bus st s :
  synced bus rx (Z.to_nat len) (Z.to_nat len) (Z.to_nat len) st s ->
  (exists f p o, setup st = (tx, Some dev, f, p, o)) ->
  let '(l, b) := answers send bus (outgoing dev tx len) in
  RxBuffer st = option_map (fun buf => l ++ drop (Z.to_nat len) buf) rx /\ ssi s = b.
Proof.
  intros Hs (f & p & o & [= Et Ed _ _ _]). pose proof (length_got _ _ _ _ _ _ _ Hs) as Hg.
  assert (sent st 0 (Z.to_nat len) = outgoing dev tx len) as Ho by (unfold sent, outgoing, dev_of; by rewrite Et, Ed).
  pose proof (sy_buf _ _ _ _ _ _ _ Hs) as Hbuf. pose proof (sy_bus _ _ _ _ _ _ _ Hs) as Hb.
  rewrite take_ge in Hbuf by lia. unfold got in Hbuf. cbn [be_send be_bus lpspi_exchange] in Hbuf, Hb.
  rewrite Ho in Hbuf, Hb. by destruct (answers send bus (outgoing dev tx len)).
Qed.

Lemma sync_transfer_exchanges fuel st s dev tx rx len timeout :
  lpspi_ok s -> loopback s = false -> master st -> is_type dev LPSPI_IP_FULL_DUPLEX = true ->
  FrameSize (DeviceParams dev) <= 8 -> byte_command dev (num_cs_lines s) ->
  0 < len < 2 ^ 16 -> 2 <= timeout -> valid_tx tx len -> covers rx len -> len + 3 <= Z.of_nat fuel ->
  let '(l, bus) := answers send (ssi s) (outgoing dev tx len) in
  exists st' s', sync_transfer fuel st s dev tx rx len timeout = Ok (Some (LPSPI_IP_STATUS_SUCCESS, st', s')) /\
    RxBuffer st' = option_map (fun buf => l ++ drop (Z.to_nat len) buf) rx /\ ssi s' = bus /\
    lpspi_ok s' /\ loopback s' = false /\ master st' /\ Status st' = LPSPI_IP_IDLE.
Proof.
  intros Hok Hlp Hm Hty Hfs Hcmd Hlen Hto Htx Hrx Hfuel. unfold sync_transfer. cbv zeta.
  destruct (write_plain s DER 0 Hok) as (s1 & -> & Hok1 & Hv1); [tauto|]. cbn [res_bind].
  destruct (write_plain s1 IER 0 Hok1) as (s2 & -> & Hok2 & Hv2); [tauto|]. cbn [res_bind].
  rewrite Hv1 in Hv2. injection Hv2 as _ _ E3 _ _ E6 E7.
  set (st0 := st <| Status := _ |> <| ExternalDevice := Some dev |> <| CurrentTxFifoSlot := _ |>).
  destruct (tx_init_ready st0 s2 tx len) as (s3 & -> & Hr3 & Hrx3 & Hb3); try done;
    [by unfold loopback in *; rewrite E6|by eexists|by rewrite E7|]. cbn [res_bind]. rewrite rx_init_ok by (done || by eexists). cbn [res_bind].
  assert (expected_frames (FrameSize (DeviceParams dev)) len = len) as Ef
    by (unfold expected_frames; by destruct (Z.ltb_spec (FrameSize (DeviceParams dev)) 9); [|lia]).
  assert (buffer_step (FrameSize (DeviceParams dev)) = 1) as Es
    by (unfold buffer_step; by destruct (Z.ltb_spec (FrameSize (DeviceParams dev)) 9); [|lia]).
  set (st1 := rx_ready (tx_ready st0 tx len) rx len).
  unfold OsIf_Timer_Dummy_MicrosToTicks. pose proof (started dev tx rx len st1 s3) as Hs. rewrite Hb3, E3 in Hs.
  destruct (loop_synced (ssi s) rx (Z.to_nat len) 0 0 fuel timeout st1 s3 0) as (st2 & s4 & -> & Hs4 & Hset);
    [|lia..|].
  { apply Hs; try done; unfold st1, rx_ready, tx_ready, st0; rsimpl; change (dev_of (_ <| _ := _ |>)) with dev;
      rewrite ?Ef, ?(u_small 16) by (unfold is_u; lia); done || lia. }
  assert (exists o, setup st2 = (tx, Some dev, FirstCmd st, PhyUnitConfig st, o)) as [o Hset2].
  { rewrite Hset. unfold setup, st1, rx_ready, tx_ready, st0. rsimpl. by eexists. }
  pose proof (finished dev tx rx len (ssi s) st2 s4 Hs4 (ex_intro _ _ (ex_intro _ _ (ex_intro _ _ Hset2)))) as Hfin.
  destruct (answers send (ssi s) (outgoing dev tx len)) as [l bus]. destruct Hfin as [Hbuf Hbus].
  cbn [res_bind]. eexists _, _. split; [done|]. rsimpl. destruct (sy_ok _ _ _ _ _ _ _ Hs4). split_and!; try done.
  injection Hset2 as _ _ Hf2 Hp2 _. unfold master in *. rsimpl. by rewrite Hf2, Hp2.
Qed.

(** ** The interface functions *)

(** Instance [k] of the driver and its controller, ready for a transfer. *)
Record channel_ready (g : driver state) (k i : Z) st s : Prop := {
  cr_state : get_state g k = Ok (i, st);
  cr_base : load (apxBases g) k = Ok s;
  cr_idle : Status st <> LPSPI_IP_BUSY;
  cr_master : master st;
  cr_ok : lpspi_ok s;
  cr_loop : loopback s = false;
}.

(** A synchronous transfer on instance [Instance_ dev]. *)
Lemma sync_transmit_bytes fuel g dev tx rx len timeout i st s :
  channel_ready g (Instance_ dev) i st s -> is_type dev LPSPI_IP_FULL_DUPLEX = true ->
  FrameSize (DeviceParams dev) <= 8 -> byte_command dev (num_cs_lines s) ->
  0 < len < 2 ^ 16 -> 2 <= timeout -> valid_tx tx len -> covers rx len -> len + 3 <= Z.of_nat fuel ->
  let '(l, bus) := answers send (ssi s) (outgoing dev tx len) in
  exists g' st' s', Lpspi_Ip_SyncTransmit fuel g dev tx rx len timeout
      = Ok (Some (LPSPI_IP_STATUS_SUCCESS, option_map (fun buf => l ++ drop (Z.to_nat len) buf) rx, g')) /\
    channel_ready g' (Instance_ dev) i st' s' /\ Status st' = LPSPI_IP_IDLE /\ ssi s' = bus.
Proof.
  intros [Hst Hb Hidle Hm Hok Hlp] Hty Hfs Hcmd Hlen Hto Htx Hrx Hfuel.
  pose proof (sync_transfer_exchanges fuel st s dev tx rx len timeout Hok Hlp Hm Hty Hfs Hcmd Hlen Hto Htx Hrx Hfuel) as Hx.
  destruct (answers send (ssi s) (outgoing dev tx len)) as [l bus].
  destruct Hx as (st' & s' & E & Hbuf & Hbus & Hok' & Hlp' & Hm' & Hs').
  unfold Lpspi_Ip_SyncTransmit. destruct (Z.eqb_spec len 0), (Z.eqb_spec timeout 0); [lia..|].
  cbn [negb assert res_bind]. assert (Lpspi_Ip_CheckValidParameters dev len = Ok tt) as ->.
  { unfold Lpspi_Ip_CheckValidParameters.
    by destruct (Z.ltb_spec 16 (FrameSize (DeviceParams dev))), (Z.ltb_spec 8 (FrameSize (DeviceParams dev))); try lia. }
  cbn [res_bind]. rewrite Hst. cbn [res_bind]. rewrite Hb. cbn [res_bind]. rewrite bool_decide_eq_false_2 by done.
  rewrite E. cbn [res_bind]. destruct (put_state_ok g _ i st st' Hst) as [g1 Hg1].
  destruct (get_put_state g g1 _ i st st' Hst Hg1) as [Hs1 Eb]. rewrite Hg1. cbn [res_bind].
  rewrite <- Eb in Hb. destruct (put_base_ok g1 _ s s' Hb) as (g2 & -> & Ep & Ea & Hl2). cbn [res_bind]. rewrite Hty, Hbuf.
  exists g2, st', s'. split; [done|]. split; [|done]. split; try done.
  - revert Hs1. unfold get_state. by rewrite Ep, Ea.
  - by rewrite Hs'.
Qed.

(** Initialisation of a free instance on a controller that has been reset. *)
Lemma init_ready g cfg st0 s :
  load (apxState g) (cfg_Instance cfg) = Ok None -> load (axState g) (StateIndex cfg) = Ok st0 ->
  load (apxBases g) (cfg_Instance cfg) = Ok s -> lpspi_ok s -> cfg_Instance cfg < LPSPI_INSTANCE_COUNT ->
  SlaveMode cfg = false -> is_u 32 (cfg_Cfgr1 cfg) -> Z.land (Z.shiftr (cfg_Cfgr1 cfg) 8) 3 <> 1 ->
  is_u 32 (Z.lor (cfg_Cr cfg) LPSPI_CR_DBGEN_MASK) ->
  has (Z.lor (cfg_Cr cfg) LPSPI_CR_DBGEN_MASK) LPSPI_CR_RST = false ->
  exists g' st s', Lpspi_Ip_Init g cfg = Ok (LPSPI_IP_STATUS_SUCCESS, g') /\
    channel_ready g' (cfg_Instance cfg) (StateIndex cfg) st s' /\ ssi s' = ssi s /\
    num_cs_lines s' = num_cs_lines s.
Proof.
  intros Hp Hst Hb Hok Hinst Hslave Hu Hcf Hcr Hrst. unfold Lpspi_Ip_Init. rewrite Hp, Hb. cbn [res_bind assert].
  rewrite bool_decide_eq_false_2 by (by intros []). cbn [negb assert res_bind].
  destruct (store_set (apxState g) (cfg_Instance cfg) None (Some (StateIndex cfg)) Hp) as (l & -> & Hl). cbn [res_bind].
  set (g1 := g <| apxState := l |>).
  assert (get_state g1 (cfg_Instance cfg) = Ok (StateIndex cfg, st0)) as Hg1.
  { unfold get_state, g1. rsimpl. rewrite Hl. cbn [res_bind]. rewrite Hst. done. }
  rewrite Hg1. cbn [res_bind].
  destruct (write_cr_view s _ Hok Hcr Hrst) as (s1 & -> & Hok1 & Hv1). cbn [res_bind]. injection Hv1 as _ _ E3 _ _ _ E7.
  destruct (write_cfgr1 s1 _ Hok1 Hu) as (s2 & -> & Hok2 & Hv2). cbn [res_bind]. injection Hv2 as _ _ F3 _ _ F6 F7.
  destruct (write_fcr_view s2 (LPSPI_FCR_TXWATER (LPSPI_IP_FIFO_SIZE_U8 - 2)) Hok2) as (s3 & -> & Hok3 & Hv3).
  cbn [res_bind]. injection Hv3 as _ _ G3 _ _ G6 G7.
  destruct (put_base_ok g1 (cfg_Instance cfg) s s3 Hb) as (g2 & -> & Ep & Ea & Hl2). cbn [res_bind].
  set (st1 := st0 <| PhyUnitConfig := cfg |> <| KeepCs := false |> <| FirstCmd := true |> <| Status := LPSPI_IP_IDLE |>).
  assert (get_state g2 (cfg_Instance cfg) = Ok (StateIndex cfg, st0)) as Hg2
    by (revert Hg1; unfold get_state; by rewrite Ep, Ea).
  destruct (put_state_ok g2 _ _ _ st1 Hg2) as [g3 Hg3]. destruct (get_put_state _ _ _ _ _ _ Hg2 Hg3) as [Hs3 Eb3].
  rewrite Hg3. cbn [res_bind]. unfold Lpspi_Ip_UpdateTransferMode.
  destruct (Z.ltb_spec (cfg_Instance cfg) LPSPI_INSTANCE_COUNT); [|lia]. cbn [assert res_bind]. rewrite Hs3. cbn [res_bind].
  rewrite bool_decide_eq_false_2 by done.
  destruct (put_state_ok g3 _ _ _ (st1 <| TransferMode := cfg_TransferMode cfg |>) Hs3) as [g4 Hg4].
  destruct (get_put_state _ _ _ _ _ _ Hs3 Hg4) as [Hs4 Eb4]. rewrite Hg4. cbn [res_bind].
  eexists g4, _, s3. split; [done|]. split; [|by rewrite G3, F3, G7, F7].
  split; [exact Hs4|by rewrite Eb4, Eb3|done|done|done|].
  unfold loopback. rewrite G6, F6. by apply Z.eqb_neq.
Qed.

(** C3: on the LPSPI controller a synchronous full-duplex transfer of frames of at
    most eight bits, with a time-out of at least two ticks, succeeds in any number of
    bytes: each byte is exchanged with the bus
    once, in order, the answers fill the first bytes of the receive buffer, and
    driver and controller are ready for the next transfer. *)
Theorem sync_transmit_exchanges fuel g dev tx rx len timeout i st s :
  channel_ready g (Instance_ dev) i st s -> is_type dev LPSPI_IP_FULL_DUPLEX = true ->
  FrameSize (DeviceParams dev) <= 8 -> byte_command dev (num_cs_lines s) ->
  0 < len < 2 ^ 16 -> 2 <= timeout -> valid_tx tx len -> covers rx len -> len + 3 <= Z.of_nat fuel ->
  let '(l, bus) := answers send (ssi s) (outgoing dev tx len) in
  exists g' st' s', Lpspi_Ip_SyncTransmit fuel g dev tx rx len timeout
      = Ok (Some (LPSPI_IP_STATUS_SUCCESS, option_map (fun buf => l ++ drop (Z.to_nat len) buf) rx, g')) /\
    channel_ready g' (Instance_ dev) i st' s' /\ Status st' = LPSPI_IP_IDLE /\ ssi s' = bus.
Proof. apply sync_transmit_bytes. Qed.
End system.
End SpiSystem.
