(* ===== verification/SpiDemo.v ===== *)
(** * The speed readings of the demo

    The SPI half of [Demo_FreeRTOS/src/main.c]: [Lpspi_Ip_Init] with the
    generated configuration, then speed requests through
    [Motor_Sensor_ReadValue], on the LPSPI controller with the motor sensor of
    the board behind it. *)

From S2P Require Import Prelude Words Fifo Ssi Lpspi LpspiSpec LpspiProps SpiDriver SpiDriverProps SpiExchange SpiSystem.
From stdpp Require Import list.
#[local] Open Scope Z_scope.
Import Fifo8 Lpspi LpspiSpec SpiDriver SpiDriverSafety SpiExchange SpiSystem.

(** The field macros the generated configuration uses. *)
Class DocumentedFields `{LpspiHeader} : Prop := {
  doc_dbgen : LPSPI_CR_DBGEN_MASK = 0x8;
  doc_framesz : forall x, LPSPI_TCR_FRAMESZ x = Z.land x 0xFFF;
  doc_lsbf : forall x, LPSPI_TCR_LSBF x = Z.land (Z.shiftl x 23) 0x800000;
  doc_width : forall x, LPSPI_TCR_WIDTH x = Z.land (Z.shiftl x 16) 0x30000;
  doc_cpol : forall x, LPSPI_TCR_CPOL x = Z.land (Z.shiftl x 31) 0x80000000;
  doc_cpha : forall x, LPSPI_TCR_CPHA x = Z.land (Z.shiftl x 30) 0x40000000;
  doc_prescale : forall x, LPSPI_TCR_PRESCALE x = Z.land (Z.shiftl x 27) 0x38000000;
  doc_pcs : forall x, LPSPI_TCR_PCS x = Z.land (Z.shiftl x 24) 0x3000000;
  doc_cont_field : forall x, LPSPI_TCR_CONT x = Z.land (Z.shiftl x 21) 0x200000;
  doc_master : forall x, LPSPI_CFGR1_MASTER x = Z.land x 0x1;
  doc_sample : forall x, LPSPI_CFGR1_SAMPLE x = Z.land (Z.shiftl x 1) 0x2;
  doc_pcspol : forall x, LPSPI_CFGR1_PCSPOL x = Z.land (Z.shiftl x 8) 0xF00;
  doc_pincfg : forall x, LPSPI_CFGR1_PINCFG x = Z.land (Z.shiftl x 24) 0x3000000;
  doc_instances : 2 < LPSPI_INSTANCE_COUNT;
}.

#[global] Instance s32k358_documented : DocumentedHeader (H := s32k358_header).
Proof. by split. Qed.
#[global] Instance s32k358_fields : DocumentedFields (H := s32k358_header).
Proof. by split. Qed.

Module SpiDemo.
Import MotorSpeed MotorProps.

Abbreviation MASTER_EXTERNAL_DEVICE := Lpspi_Ip_DeviceAttributes_SpiExternalDevice_0_Instance_2.

Section demo.
Context {W : Type} `{RandLib W} `{DocumentedHeader} `{!DocumentedFields}.
Abbreviation state := (NXPS32K358LPSPIState (B := MotorBus (W := W))).
Implicit Types (g : driver state) (s : state).

Definition Motor_Sensor_ReadValue (fuel : nat) g (cmd : Z) (rx_buff : list Z) : res (option (list Z * driver state)) :=
  let! r := Lpspi_Ip_SyncTransmit fuel g MASTER_EXTERNAL_DEVICE (Some [cmd]) (Some rx_buff) 1 1000 in
  match r with
  | Some (_, Some rx_buff, g) => Ok (Some (rx_buff, g))
  | Some (_, None, g) => Ok (Some (rx_buff, g))
  | None => Ok None
  end.

(** [n] rounds of the reading in [ReadSpeedTask]; [received_value] keeps its
    place on the stack. *)
Fixpoint read_speeds (n fuel : nat) g (received_value : Z) : res (option (list Z * driver state)) :=
  match n with
  | O => Ok (Some ([], g))
  | S n' =>
      let! r := Motor_Sensor_ReadValue fuel g CMD_GET_SPEED [received_value] in
      match r with
      | Some (rx, g) =>
          let! received_value := load rx 0 in
          let! r := read_speeds n' fuel g received_value in
          match r with
          | Some (l, g) => Ok (Some (received_value :: l, g))
          | None => Ok None
          end
      | None => Ok None
      end
  end.

Lemma demo_command : u32 (transfer_command MASTER_EXTERNAL_DEVICE) = 0xC0A30007.
Proof.
  unfold transfer_command, MASTER_EXTERNAL_DEVICE. cbn [Tcr DeviceParams FrameSize Lsb Lpspi_Ip_DeviceParamsCfg_0].
  by rewrite doc_framesz, doc_lsbf, doc_width, doc_cpol, doc_cpha, doc_prescale, doc_pcs, doc_cont_field.
Qed.

Lemma demo_byte_command ncs : 1 <= ncs -> byte_command MASTER_EXTERNAL_DEVICE ncs.
Proof.
  intros Hn. unfold byte_command. cbv zeta. rewrite demo_command. split; [|by vm_compute].
  apply supported_iff. change (tcr_frame_bytes 3231907847) with 1. change (tcr_pcs 3231907847) with 0. lia.
Qed.

(** A speed request on the bus. *)
Lemma send_speed p w :
  motor_child p -> exists p', send (([p], w) : MotorBus) CMD_GET_SPEED = ((rand w).1 mod 255, ([p'], (rand w).2)).
Proof.
  intros Hp. unfold send. rewrite exchange_one by done. unfold motor_speed_sensor_transfer.
  rewrite Z.eqb_refl, draw_speed. rsimpl. pose proof (Z.mod_pos_bound (rand w).1 255).
  eexists. by rewrite u_small by (unfold is_u; lia).
Qed.

(** One reading. *)
Lemma read_speed_ok fuel g i st s p w old :
  channel_ready g 2 i st s -> (4 <= fuel)%nat -> ssi s = ([p], w) ->
  exists g' st' s' p', Motor_Sensor_ReadValue fuel g CMD_GET_SPEED [old] = Ok (Some ([(rand w).1 mod 255], g')) /\
    channel_ready g' 2 i st' s' /\ ssi s' = ([p'], (rand w).2).
Proof.
  intros Hr Hf Hb. pose proof (cr_ok _ _ _ _ _ Hr) as Hok.
  assert (motor_child p) as Hp.
  { pose proof (ok_bus s (proj1 Hok)) as Hc. rewrite Hb in Hc. by apply Forall_cons_1 in Hc as [? _]. }
  pose proof (sync_transmit_bytes fuel g MASTER_EXTERNAL_DEVICE (Some [CMD_GET_SPEED]) (Some [old]) 1 1000 i st s Hr) as Hx.
  change (outgoing _ (Some [CMD_GET_SPEED]) 1) with [CMD_GET_SPEED] in Hx. cbn [answers] in Hx. rewrite Hb in Hx.
  destruct (send_speed p w Hp) as [p' Es]. rewrite Es in Hx.
  destruct Hx as (g' & st' & s' & E & Hr' & _ & Hb'); [done|done|apply demo_byte_command|lia..| | |cbn; lia|].
  - apply (ok_num_cs s (proj1 Hok)).
  - split; [|cbn; lia]. repeat constructor; done.
  - cbn. lia.
  - unfold Motor_Sensor_ReadValue. rewrite E. cbn [res_bind option_map]. eexists _, _, _, _. split; [done|]. by split.
Qed.

(** The first [n] values a generator draws, as speeds. *)
Fixpoint drawn (n : nat) (w : W) : list Z :=
  match n with
  | O => []
  | S n' => (rand w).1 mod 255 :: drawn n' (rand w).2
  end.

Lemma drawn_range n w : Forall (fun v => 0 <= v <= 254) (drawn n w).
Proof.
  revert w. induction n as [|n IH]; intros w; cbn [drawn]; constructor; [|done].
  pose proof (Z.mod_pos_bound (rand w).1 255). lia.
Qed.

Lemma read_speeds_ok n fuel g i st s p w old :
  channel_ready g 2 i st s -> (4 <= fuel)%nat -> ssi s = ([p], w) ->
  exists g', read_speeds n fuel g old = Ok (Some (drawn n w, g')).
Proof.
  revert g st s p w old. induction n as [|n IH]; intros g st s p w old Hr Hf Hb; [by eexists|].
  cbn [read_speeds drawn]. destruct (read_speed_ok fuel g i st s p w old) as (g1 & st1 & s1 & p1 & -> & Hr1 & Hb1); [done..|].
  cbn [res_bind]. rewrite (load_ok _ 0 ((rand w).1 mod 255)) by done. cbn [res_bind].
  destruct (IH g1 st1 s1 p1 (rand w).2 ((rand w).1 mod 255)) as [g2 ->]; [done..|]. by eexists.
Qed.

(** Initialisation as the demo does it. *)
Lemma spi_open g st0 s :
  load (apxState g) 2 = Ok None -> load (axState g) 0 = Ok st0 -> load (apxBases g) 2 = Ok s -> lpspi_ok s ->
  exists g1 st s1, Lpspi_Ip_Init g Lpspi_Ip_PhyUnitConfig_SpiPhyUnit_0_Instance_2 = Ok (LPSPI_IP_STATUS_SUCCESS, g1) /\
    channel_ready g1 2 0 st s1 /\ ssi s1 = ssi s.
Proof.
  intros Hp Hst Hb Hok. assert (cfg_Cfgr1 Lpspi_Ip_PhyUnitConfig_SpiPhyUnit_0_Instance_2 = 1) as Hc.
  { cbn [cfg_Cfgr1 Lpspi_Ip_PhyUnitConfig_SpiPhyUnit_0_Instance_2].
    by rewrite doc_pincfg, doc_pcspol, doc_master, doc_sample. }
  destruct (init_ready g Lpspi_Ip_PhyUnitConfig_SpiPhyUnit_0_Instance_2 st0 s) as (g1 & st & s1 & E & Hr & Hs1 & _);
    rewrite ?Hc; cbn [cfg_Instance cfg_Cr StateIndex SlaveMode Lpspi_Ip_PhyUnitConfig_SpiPhyUnit_0_Instance_2];
    rewrite ?doc_dbgen; try done; [apply doc_instances|]. by exists g1, st, s1.
Qed.

(** On a board with one motor sensor behind LPSPI 2 the demo's initialisation
    succeeds, and every one of any number of speed readings returns, each with
    the next value the sensor draws, between 0 and 254. *)
Theorem demo_reads_speeds n g st0 s p w old :
  load (apxState g) 2 = Ok None -> load (axState g) 0 = Ok st0 -> load (apxBases g) 2 = Ok s ->
  lpspi_ok s -> ssi s = ([p], w) ->
  exists g1 g2, Lpspi_Ip_Init g Lpspi_Ip_PhyUnitConfig_SpiPhyUnit_0_Instance_2 = Ok (LPSPI_IP_STATUS_SUCCESS, g1) /\
    read_speeds n 4 g1 old = Ok (Some (drawn n w, g2)) /\ Forall (fun v => 0 <= v <= 254) (drawn n w).
Proof.
  intros Hp Hst Hb Hok Hbus. destruct (spi_open g st0 s Hp Hst Hb Hok) as (g1 & st & s1 & E & Hr & Hs1).
  rewrite Hbus in Hs1. destruct (read_speeds_ok n 4 g1 0 st s1 p w old) as [g2 E2]; [done|lia|done|].
  exists g1, g2. split; [done|]. split; [done|apply drawn_range].
Qed.
End demo.

(** A board whose other controllers have an empty bus, and what is left after
    one reading. *)
Definition demo_board : driver (NXPS32K358LPSPIState (B := MotorBus (W := Z))) :=
  mkDriver [None; None; None] [no_state; no_state]
    [LpspiProps.demo_reset ([], 0); LpspiProps.demo_reset ([], 0); LpspiProps.demo_reset LpspiProps.demo_bus].

Lemma demo_reads_speeds_witness :
  exists g1 g2, Lpspi_Ip_Init demo_board Lpspi_Ip_PhyUnitConfig_SpiPhyUnit_0_Instance_2
      = Ok (LPSPI_IP_STATUS_SUCCESS, g1) /\
    read_speeds 2 4 g1 99 = Ok (Some ([1; 35], g2)).
Proof.
  assert (lpspi_ok (LpspiProps.demo_reset LpspiProps.demo_bus)) as Hok
    by (apply refresh_irq_ok, reset_state_core, LpspiProps.demo_hw_ok, LpspiProps.demo_bus_ok).
  destruct (demo_reads_speeds 2 demo_board no_state (LpspiProps.demo_reset LpspiProps.demo_bus)
    LpspiProps.demo_sensor 77777 99 eq_refl eq_refl eq_refl Hok eq_refl) as (g1 & g2 & E1 & E2 & _).
  exists g1, g2. split; [exact E1|]. replace [1; 35] with (drawn 2 77777) by (by vm_compute). exact E2.
Defined.

(** The same driver in front of a wire from MOSI to MISO. *)
Definition wired_board : driver (NXPS32K358LPSPIState (B := unit)) :=
  mkDriver [None; None; Some 0] [demo_state]
    [LpspiProps.demo_reset tt; LpspiProps.demo_reset tt; LpspiProps.demo_reset tt].

Lemma wired_board_ready : channel_ready wired_board 2 0 demo_state (LpspiProps.demo_reset tt).
Proof.
  split; [done|done|done|done| |reflexivity].
  apply refresh_irq_ok, reset_state_core, LpspiProps.demo_hw_ok, LpspiProps.wire_ok.
Qed.

Lemma sync_transmit_exchanges_witness :
  exists g' st' s', Lpspi_Ip_SyncTransmit 9 wired_board MASTER_EXTERNAL_DEVICE
      (Some [1; 2; 3; 4; 5; 6]) (Some [0; 0; 0; 0; 0; 0; 9]) 6 2
    = Ok (Some (LPSPI_IP_STATUS_SUCCESS, Some [1; 2; 3; 4; 5; 6; 9], g')) /\
    channel_ready g' 2 0 st' s' /\ Status st' = LPSPI_IP_IDLE /\ ssi s' = tt.
Proof.
  refine (sync_transmit_exchanges 9 wired_board MASTER_EXTERNAL_DEVICE (Some [1; 2; 3; 4; 5; 6])
    (Some [0; 0; 0; 0; 0; 0; 9]) 6 2 0 demo_state (LpspiProps.demo_reset tt) wired_board_ready _ _ _ _ _ _ _ _);
    [done|cbn; lia|by apply demo_byte_command|lia|lia| |cbn; lia|cbn; lia].
  split; [repeat constructor; done|cbn; lia].
Defined.

(** The controller reads the clock phase and polarity of the demo's command
    as its continuous-transfer bits: after a successful one-byte transfer the
    chip select is still asserted and the controller reports it is busy. *)
Theorem demo_chip_select_stays :
  (let! '(_, g) := Lpspi_Ip_Init demo_board Lpspi_Ip_PhyUnitConfig_SpiPhyUnit_0_Instance_2 in
   let! r := Lpspi_Ip_SyncTransmit 4 g MASTER_EXTERNAL_DEVICE (Some [CMD_GET_SPEED]) (Some [0]) 1 1000 in
   match r with
   | Some (st, rx, g) => let! s := load (apxBases g) 2 in Ok (Some (st, rx, cs_lines s, busy s))
   | None => Ok None
   end) = Ok (Some (LPSPI_IP_STATUS_SUCCESS, Some [1], [false], true)) /\
  LPSPI_TCR_CPHA 1 = TCR_CONT /\ LPSPI_TCR_CPOL 1 = TCR_CONTC.
Proof. by vm_compute. Qed.
End SpiDemo.
