(* ===== verification/SpiAsync.v ===== *)
(** * Asynchronous and half-duplex transfers of the LPSPI driver

    The rest of [Demo_FreeRTOS/RTD/src/Lpspi_Ip.c]: transfers that the interrupt handler
    or [Lpspi_Ip_ManageBuffers] carries on, half-duplex transfers, cancelling, and the
    functions that change a device between transfers.  A callback that is called is
    recorded, with its arguments.  The functions change the parameters of the caller's
    device through a pointer; here the caller's device is an argument and a result, and
    the caller stores the changed device back. *)

From S2P Require Import Prelude Words Lpspi SpiDriver.
Import Lpspi SpiDriver.

(** What these functions take from the register header. *)
Class LpspiFlags := {
  LPSPI_SR_TDF_MASK : Z;
  LPSPI_SR_RDF_MASK : Z;
  LPSPI_SR_WCF_MASK : Z;
  LPSPI_SR_FCF_MASK : Z;
  LPSPI_SR_TCF_MASK : Z;
  LPSPI_SR_TEF_MASK : Z;
  LPSPI_SR_REF_MASK : Z;
  LPSPI_SR_DMF_MASK : Z;
  LPSPI_IER_TDIE_MASK : Z;
  LPSPI_IER_RDIE_MASK : Z;
  LPSPI_IER_TEIE_MASK : Z;
  LPSPI_IER_REIE_MASK : Z;
  LPSPI_FSR_TXCOUNT_MASK : Z;
  LPSPI_FSR_TXCOUNT_SHIFT : Z;
  LPSPI_CFGR1_PCSCFG_MASK : Z;
  LPSPI_CFGR1_OUTCFG_MASK : Z;
  LPSPI_CFGR1_PINCFG_MASK : Z;
}.

Module SpiAsync.

Inductive Lpspi_Ip_EventType := LPSPI_IP_EVENT_END_TRANSFER | LPSPI_IP_EVENT_FAULT.
(** The call of a callback: the function, the instance and the event. *)
Definition call : Type := Z * Z * Lpspi_Ip_EventType.

Definition LPSPI_IP_HALF_DUPLEX_TIMEOUT_COUNTER : Z := 1.
Definition LPSPI_IP_FRAMESIZE_MAX_U16 : Z := 64.
Definition LPSPI_IP_FRAMESIZE_MIN_U16 : Z := 1.

Section transfers.
Context {D : Type} `{SpiPort D} `{LpspiHeader} `{LpspiFlags}.
Implicit Types (State : State_t) (Base : D).

Definition LPSPI_IP_SR_W1C_MASK_U32 : Z :=
  Z.lor (Z.lor (Z.lor LPSPI_SR_WCF_MASK LPSPI_SR_FCF_MASK) (Z.lor LPSPI_SR_TCF_MASK LPSPI_SR_TEF_MASK))
    (Z.lor LPSPI_SR_REF_MASK LPSPI_SR_DMF_MASK).

(** The bits of CFGR1 for half-duplex transfers. *)
Definition half_duplex_cfgr1 : Z := Z.lor (Z.lor LPSPI_CFGR1_PCSCFG_MASK LPSPI_CFGR1_OUTCFG_MASK) LPSPI_CFGR1_PINCFG_MASK.

Definition Lpspi_Ip_ChannelFinished (Instance : Z) State (ErrorFlag : bool) : State_t * list call :=
  let EventState := if ErrorFlag then LPSPI_IP_EVENT_FAULT else LPSPI_IP_EVENT_END_TRANSFER in
  (State <| Status := if ErrorFlag then LPSPI_IP_FAULT else LPSPI_IP_IDLE |>,
   match Callback State with Some f => [(f, Instance, EventState)] | None => [] end).

(** The flags of SR, and the flags acknowledged. *)
Definition take_flags Base : res (Z * D) :=
  let! '(SrStatusRegister, Base) := reg_read Base SR in
  let! Base := reg_modify Base SR (fun v => Z.land v LPSPI_IP_SR_W1C_MASK_U32) in
  Ok (SrStatusRegister, Base).

(** ** Full-duplex transfers *)

(** The transmit half; the receive half is that of the synchronous transfer. *)
Definition async_transmit_step State Base : res (State_t * D) :=
  if negb (CurrentTxFifoSlot State =? 0) then
    if negb (ExpectedFifoWrites State =? TxIndex State) then
      let remaining := ExpectedFifoWrites State - TxIndex State in
      let NumberOfWrites :=
        if remaining <? CurrentTxFifoSlot State then u8 remaining else CurrentTxFifoSlot State in
      let! '(State, Base) := Lpspi_Ip_PushDataToFifo State Base NumberOfWrites in
      Ok (State <| CurrentTxFifoSlot := u8 (CurrentTxFifoSlot State - NumberOfWrites) |>, Base)
    else
      let! Base := reg_modify Base IER (fun v => Z.ldiff v LPSPI_IER_TDIE_MASK) in
      if negb (KeepCs State) then
        let! '(tcr, Base) := reg_read Base TCR in
        if has tcr LPSPI_TCR_CONT_MASK then
          let! Base := reg_modify Base TCR
                         (fun v => Z.ldiff v (Z.lor LPSPI_TCR_CONT_MASK LPSPI_TCR_CONTC_MASK)) in
          Ok (State, Base)
        else Ok (State, Base)
      else Ok (State, Base)
  else Ok (State, Base).

Definition Lpspi_Ip_TransferProcess (Instance : Z) State Base : res (State_t * D * list call) :=
  if bool_decide (Status State = LPSPI_IP_BUSY) then
    let! '(SrStatusRegister, Base) := take_flags Base in
    let ErrorFlag := has SrStatusRegister (Z.lor LPSPI_SR_REF_MASK LPSPI_SR_TEF_MASK) in
    let! '(State, Base) :=
      if ErrorFlag then Ok (State, Base)
      else
        let! '(State, Base, _) := receive_step State Base 0 in
        async_transmit_step State Base in
    if (RxIndex State =? ExpectedFifoReads State) || ErrorFlag then
      let! Base :=
        if negb (KeepCs State) || ErrorFlag
        then reg_modify Base CR (fun v => Z.ldiff v LPSPI_CR_MEN_MASK) else Ok Base in
      let! Base := reg_write Base IER 0 in
      let '(State, calls) := Lpspi_Ip_ChannelFinished Instance State ErrorFlag in
      Ok (State, Base, calls)
    else Ok (State, Base, [])
  else Ok (State, Base, []).

(** ** Half-duplex transfers *)

Definition tx_count Base : res (Z * D) :=
  let! '(fsr, Base) := reg_read Base FSR in
  Ok (u8 (Z.shiftr (Z.land fsr LPSPI_FSR_TXCOUNT_MASK) LPSPI_FSR_TXCOUNT_SHIFT), Base).
Definition tx_empty Base : res (bool * D) :=
  let! '(fsr, Base) := reg_read Base FSR in Ok (negb (has fsr LPSPI_FSR_TXCOUNT_MASK), Base).

Definition Lpspi_Ip_HalfDuplexPushDataToFifo State Base (NumberOfWrites : Z) : res (State_t * D) :=
  let remaining := ExpectedFifoWrites State - TxIndex State in
  let WriteToFifoTime := if remaining <? NumberOfWrites then u8 remaining else NumberOfWrites in
  Lpspi_Ip_PushDataToFifo State Base WriteToFifoTime.

Definition Lpspi_Ip_HalfDuplexTransmitProcess State Base (NumberOfWrites : Z) : res (bool * State_t * D) :=
  if negb (ExpectedFifoWrites State =? TxIndex State) then
    let! '(State, Base) := Lpspi_Ip_HalfDuplexPushDataToFifo State Base NumberOfWrites in
    Ok (false, State, Base)
  else if negb (KeepCs State) then
    let! '(tcr, Base) := reg_read Base TCR in
    let! Base :=
      if has tcr LPSPI_TCR_CONT_MASK
      then reg_modify Base TCR (fun v => Z.ldiff v (Z.lor LPSPI_TCR_CONT_MASK LPSPI_TCR_CONTC_MASK))
      else Ok Base in
    Ok (true, State, Base)
  else Ok (true, State, Base).

(** All frames that have arrived. *)
Definition receive_frames State Base : res (State_t * D) :=
  let! '(fsr, Base) := reg_read Base FSR in
  let NumberOfReads := u8 (Z.shiftr (Z.land fsr LPSPI_FSR_RXCOUNT_MASK) LPSPI_FSR_RXCOUNT_SHIFT) in
  let remaining := ExpectedFifoReads State - RxIndex State in
  let NumberOfReads := if remaining <? NumberOfReads then u8 remaining else NumberOfReads in
  if negb (NumberOfReads =? 0) then Lpspi_Ip_ReadDataFromFifo State Base NumberOfReads else Ok (State, Base).
(** One command starts the reception of a frame. *)
Definition push_command State Base : res (State_t * D) :=
  let! '(empty, Base) := tx_empty Base in
  if empty && negb (ExpectedFifoWrites State =? TxIndex State) then
    let! Base := reg_write Base TCR (HalfDuplexTcrCommand State) in
    Ok (State <| TxIndex := u16 (TxIndex State + 1) |>, Base)
  else Ok (State, Base).

Definition Lpspi_Ip_HalfDuplexPrepare State Base (Buffer : option (list Z)) : res (State_t * D) :=
  let! dev := external_device State in
  let! Base := reg_modify Base CFGR1 (fun v => Z.ldiff v half_duplex_cfgr1) in
  let! Base := reg_modify Base CFGR1 (fun v => Z.lor v (HalfDuplexCfgr1 dev)) in
  let State := State <| CurrentTxFifoSlot := 1 |> in
  if is_type dev LPSPI_IP_HALF_DUPLEX_TRANSMIT then Ok (State <| TxBuffer := Buffer |>, Base)
  else
    let slave := SlaveMode (PhyUnitConfig State) in
    let TcrCommand := transfer_command dev in
    let TcrCommand := if slave then Z.ldiff TcrCommand LPSPI_TCR_CONT_MASK else TcrCommand in
    let State := State <| RxBuffer := Buffer |> in
    let State := if slave then State <| CurrentTxFifoSlot := 0 |> else State in
    Ok (State <| HalfDuplexTcrCommand := Z.lor TcrCommand LPSPI_TCR_TXMSK_MASK |>, Base).

(** The loop that waits for the transmit FIFO; the dummy counter advances by one in
    each round. *)
Fixpoint wait_tx_empty (fuel : nat) (TimeoutTicks ElapsedTicks : Z) Base : res (Z * D) :=
  let! '(empty, Base) := tx_empty Base in
  if negb empty && (ElapsedTicks <? TimeoutTicks) then
    match fuel with
    | O => Fault OutOfFuel
    | S fuel => wait_tx_empty fuel TimeoutTicks (u32 (ElapsedTicks + OsIf_Timer_Dummy_GetElapsed)) Base
    end
  else Ok (ElapsedTicks, Base).
Definition Lpspi_Ip_HalfDupleTransmitChannelComplete State Base : res (bool * D) :=
  let TimeoutTicks := OsIf_Timer_Dummy_MicrosToTicks LPSPI_IP_HALF_DUPLEX_TIMEOUT_COUNTER in
  let! Base :=
    if negb (KeepCs State) && negb (SlaveMode (PhyUnitConfig State))
    then reg_modify Base TCR (fun v => Z.ldiff v (Z.lor LPSPI_TCR_CONT_MASK LPSPI_TCR_CONTC_MASK))
    else Ok Base in
  if NextChannelIsRX State || negb (KeepCs State) then
    let! '(ElapsedTicks, Base) := wait_tx_empty (Z.to_nat TimeoutTicks) TimeoutTicks 0 Base in
    if TimeoutTicks <=? ElapsedTicks then
      let! Base := reg_modify Base CR (fun v => Z.lor v LPSPI_CR_RTF_MASK) in Ok (true, Base)
    else Ok (false, Base)
  else Ok (false, Base).

(** The part of the process function after the flags: whether the transfer is complete
    and whether there was an error. *)
Definition half_duplex_step (TransferType : Lpspi_Ip_HalfDuplexType) State Base : res (State_t * D * bool * bool) :=
  let receives := bool_decide (TransferType = LPSPI_IP_HALF_DUPLEX_RECEIVE) in
  let transmits := bool_decide (TransferType = LPSPI_IP_HALF_DUPLEX_TRANSMIT) in
  let slave := SlaveMode (PhyUnitConfig State) in
  let done := (ExpectedFifoWrites State =? TxIndex State) && transmits in
  let! '(ErrorFlag, Base) :=
    if done then Lpspi_Ip_HalfDupleTransmitChannelComplete State Base else Ok (false, Base) in
  if receives then
    let! '(State, Base) := receive_frames State Base in
    let! '(State, Base) := if slave then Ok (State, Base) else push_command State Base in
    Ok (State, Base, done, ErrorFlag)
  else
    let! '(NumberOfFramesTxFifo, Base) := tx_count Base in
    let NumberOfWrites := u8 (LPSPI_IP_FIFO_SIZE_U8 - NumberOfFramesTxFifo) in
    if negb (NumberOfWrites =? 0) && negb (ExpectedFifoWrites State =? TxIndex State) then
      let! '(State, Base) := Lpspi_Ip_HalfDuplexPushDataToFifo State Base NumberOfWrites in
      if slave && (ExpectedFifoWrites State =? TxIndex State) then
        let! Base := reg_modify Base IER (fun v => Z.ldiff v LPSPI_IER_TDIE_MASK) in
        Ok (State, Base, true, ErrorFlag)
      else Ok (State, Base, done, ErrorFlag)
    else Ok (State, Base, done, ErrorFlag).

Definition Lpspi_Ip_TransferProcessHalfDuplex (Instance : Z) State Base : res (State_t * D * list call) :=
  if bool_decide (Status State = LPSPI_IP_BUSY) then
    let! '(SrStatusRegister, Base) := take_flags Base in
    let! dev := external_device State in
    let! '(State, Base, TransferCompleted, ErrorFlag) :=
      if has SrStatusRegister (Z.lor LPSPI_SR_REF_MASK LPSPI_SR_TEF_MASK) then Ok (State, Base, false, true)
      else half_duplex_step (TransferType (DeviceParams dev)) State Base in
    if is_type dev LPSPI_IP_HALF_DUPLEX_TRANSMIT && TransferCompleted ||
       (RxIndex State =? ExpectedFifoReads State) && is_type dev LPSPI_IP_HALF_DUPLEX_RECEIVE || ErrorFlag
    then
      let! Base := reg_write Base IER 0 in
      let '(State, calls) := Lpspi_Ip_ChannelFinished Instance State ErrorFlag in
      Ok (State, Base, calls)
    else Ok (State, Base, [])
  else Ok (State, Base, []).

(** A round of the synchronous loop: whether it receives the last frame and breaks, and
    [TransferCompleted]. *)
Definition sync_receive_round State Base : res (bool * State_t * D) :=
  let! '(State, Base) := receive_frames State Base in
  let! '(State, Base) := push_command State Base in
  Ok (ExpectedFifoReads State =? RxIndex State, State, Base).
Definition sync_transmit_round State Base : res (bool * State_t * D) :=
  let! '(NumberOfFramesTxFifo, Base) := tx_count Base in
  let NumberOfWrites := u8 (LPSPI_IP_FIFO_SIZE_U8 - NumberOfFramesTxFifo) in
  let! '(TransferCompleted, State, Base) :=
    if negb (NumberOfWrites =? 0) then Lpspi_Ip_HalfDuplexTransmitProcess State Base NumberOfWrites
    else Ok (false, State, Base) in
  if TransferCompleted && (NextChannelIsRX State || negb (KeepCs State)) then
    let! '(empty, Base) := tx_empty Base in Ok (empty, State, Base)
  else Ok (TransferCompleted, State, Base).

(** The [while] loop; [None] when [fuel] runs out.  Each round sets the elapsed time to
    zero before it adds to it. *)
Fixpoint half_duplex_loop (fuel : nat) (TransferType : Lpspi_Ip_HalfDuplexType) (TimeoutTicks : Z) State Base
    : res (option (Lpspi_Ip_StatusType * State_t * D)) :=
  match fuel with
  | O => Ok None
  | S fuel' =>
      let receives := bool_decide (TransferType = LPSPI_IP_HALF_DUPLEX_RECEIVE) in
      let! '(complete, State, Base) := (if receives then sync_receive_round State Base else sync_transmit_round State Base) in
      if receives && complete then Ok (Some (LPSPI_IP_STATUS_SUCCESS, State, Base))
      else
        let ElapsedTicks := u32 (0 + OsIf_Timer_Dummy_GetElapsed) in
        if TimeoutTicks <=? ElapsedTicks then Ok (Some (LPSPI_IP_TIMEOUT, State, Base))
        else if complete then Ok (Some (LPSPI_IP_STATUS_SUCCESS, State, Base))
        else half_duplex_loop fuel' TransferType TimeoutTicks State Base
  end.

(** What both half-duplex calls do first, up to the registers for interrupts. *)
Definition set_type (dev : Lpspi_Ip_ExternalDeviceType) (t : Lpspi_Ip_HalfDuplexType) : Lpspi_Ip_ExternalDeviceType :=
  let p := DeviceParams dev in
  mkExternal (Instance_ dev) (Ccr dev) (Tcr dev) (HalfDuplexCfgr1 dev) (mkParams (FrameSize p) (Lsb p) (DefaultData p) t).
Definition half_duplex_init State Base (Length : Z) (TransferType : Lpspi_Ip_HalfDuplexType) : res (State_t * D) :=
  let! '(State, Base) := Lpspi_TransmitTxInit State Base None Length in
  let! State :=
    if bool_decide (TransferType = LPSPI_IP_HALF_DUPLEX_RECEIVE) then Lpspi_TransmitRxInit State None Length else Ok State in
  Ok (State, Base).

Definition sync_half_duplex (fuel : nat) State Base (dev : Lpspi_Ip_ExternalDeviceType) (Buffer : option (list Z))
    (Length : Z) (TransferType : Lpspi_Ip_HalfDuplexType) (TimeOut : Z) : res (option (Lpspi_Ip_StatusType * State_t * D)) :=
  let TimeoutTicks := OsIf_Timer_Dummy_MicrosToTicks TimeOut in
  let State := State <| Status := LPSPI_IP_BUSY |> <| ExternalDevice := Some dev |> in
  let! '(State, Base) := Lpspi_Ip_HalfDuplexPrepare State Base Buffer in
  let! Base := reg_write Base DER 0 in
  let! Base := reg_write Base IER 0 in
  let! '(State, Base) := half_duplex_init State Base Length TransferType in
  let! r := half_duplex_loop fuel TransferType TimeoutTicks State Base in
  match r with
  | None => Ok None
  | Some (st, State, Base) =>
      Ok (Some (st,
        State <| Status := match st with LPSPI_IP_STATUS_SUCCESS => LPSPI_IP_IDLE | _ => LPSPI_IP_FAULT end |>,
        Base))
  end.
End transfers.

(** ** The calls *)

Section api.
Context {D : Type} `{SpiPort D} `{LpspiHeader} `{LpspiFlags}.
Implicit Types g : driver D.

Definition put_both g (Instance i : Z) (State : State_t) (Base : D) : res (driver D) :=
  let! g := put_state g i State in put_base g Instance Base.

(** The enabled interrupts when [mode] is that of the interrupt handler. *)
Definition set_interrupts (Base : D) (mode : Lpspi_Ip_ModeType) (InterruptEnable : Z) : res D :=
  let! Base := reg_write Base DER 0 in
  reg_write Base IER (match mode with LPSPI_IP_POLLING => 0 | LPSPI_IP_INTERRUPT => InterruptEnable end).

Definition Lpspi_Ip_AsyncTransmit g (dev : Lpspi_Ip_ExternalDeviceType) (tx rx : option (list Z)) (Length : Z)
    (EndCallback : option Z) : res (Lpspi_Ip_StatusType * driver D) :=
  do! assert (negb (Length =? 0)) in
  do! Lpspi_Ip_CheckValidParameters dev Length in
  let Instance := Instance_ dev in
  let! '(i, State) := get_state g Instance in
  let! Base := load (apxBases g) Instance in
  if bool_decide (Status State = LPSPI_IP_BUSY) then Ok (LPSPI_IP_STATUS_FAIL, g)
  else
    let! Base := reg_modify Base CFGR1 (fun v => Z.ldiff v half_duplex_cfgr1) in
    let State := State <| Status := LPSPI_IP_BUSY |> <| ExternalDevice := Some dev |> <| Callback := EndCallback |>
                       <| CurrentTxFifoSlot := LPSPI_IP_FIFO_SIZE_U8 |> in
    let! '(State, Base) := Lpspi_TransmitTxInit State Base tx Length in
    let! State := Lpspi_TransmitRxInit State rx Length in
    let! Base := set_interrupts Base (TransferMode State)
                   (Z.lor (Z.lor LPSPI_IER_RDIE_MASK LPSPI_IER_TDIE_MASK) (Z.lor LPSPI_IER_REIE_MASK LPSPI_IER_TEIE_MASK)) in
    let! g := put_both g Instance i State Base in
    Ok (LPSPI_IP_STATUS_SUCCESS, g).

(** Returns the status, the buffer and the device. *)
Definition Lpspi_Ip_SyncTransmitHalfDuplex (fuel : nat) g (dev : Lpspi_Ip_ExternalDeviceType) (Buffer : option (list Z))
    (Length : Z) (TransferType : Lpspi_Ip_HalfDuplexType) (TimeOut : Z)
    : res (option (Lpspi_Ip_StatusType * option (list Z) * Lpspi_Ip_ExternalDeviceType * driver D)) :=
  do! assert (negb (Length =? 0)) in
  do! Lpspi_Ip_CheckValidParameters dev Length in
  let Instance := Instance_ dev in
  let! '(i, State) := get_state g Instance in
  let! Base := load (apxBases g) Instance in
  if bool_decide (Status State = LPSPI_IP_BUSY) then Ok (Some (LPSPI_IP_STATUS_FAIL, Buffer, dev, g))
  else
    let dev := set_type dev TransferType in
    let! r := sync_half_duplex fuel State Base dev Buffer Length TransferType TimeOut in
    match r with
    | None => Ok None
    | Some (st, State, Base) =>
        let! g := put_both g Instance i State Base in
        Ok (Some (st, if is_type dev LPSPI_IP_HALF_DUPLEX_TRANSMIT then Buffer else RxBuffer State, dev, g))
    end.

Definition Lpspi_Ip_AsyncTransmitHalfDuplex g (dev : Lpspi_Ip_ExternalDeviceType) (Buffer : option (list Z))
    (Length : Z) (TransferType : Lpspi_Ip_HalfDuplexType) (EndCallback : option Z)
    : res (Lpspi_Ip_StatusType * Lpspi_Ip_ExternalDeviceType * driver D) :=
  do! assert (negb (Length =? 0)) in
  do! Lpspi_Ip_CheckValidParameters dev Length in
  let Instance := Instance_ dev in
  let! '(i, State) := get_state g Instance in
  let! Base := load (apxBases g) Instance in
  if bool_decide (Status State = LPSPI_IP_BUSY) then Ok (LPSPI_IP_STATUS_FAIL, dev, g)
  else
    let dev := set_type dev TransferType in
    let receives := is_type dev LPSPI_IP_HALF_DUPLEX_RECEIVE in
    let State := State <| Status := LPSPI_IP_BUSY |> <| ExternalDevice := Some dev |> in
    let! '(State, Base) := Lpspi_Ip_HalfDuplexPrepare State Base Buffer in
    let State := State <| Callback := EndCallback |> in
    let! '(State, Base) := half_duplex_init State Base Length TransferType in
    let InterruptEnable :=
      if SlaveMode (PhyUnitConfig State) && receives then Z.lor LPSPI_IER_RDIE_MASK LPSPI_IER_REIE_MASK
      else if is_type dev LPSPI_IP_HALF_DUPLEX_TRANSMIT then Z.lor LPSPI_IER_TDIE_MASK LPSPI_IER_TEIE_MASK
      else Z.lor (Z.lor LPSPI_IER_RDIE_MASK LPSPI_IER_TDIE_MASK) (Z.lor LPSPI_IER_REIE_MASK LPSPI_IER_TEIE_MASK) in
    let! Base := reg_write Base FCR (LPSPI_FCR_TXWATER (if receives then 0 else LPSPI_IP_FIFO_SIZE_U8 - 1)) in
    let! Base := set_interrupts Base (TransferMode State) InterruptEnable in
    let! g := put_both g Instance i State Base in
    Ok (LPSPI_IP_STATUS_SUCCESS, dev, g).

(** The process function for the type of the transfer. *)
Definition process g (Instance i : Z) (State : State_t) (Base : D) : res (list call * driver D) :=
  let! dev := external_device State in
  let! '(State, Base, calls) :=
    if is_type dev LPSPI_IP_FULL_DUPLEX then Lpspi_Ip_TransferProcess Instance State Base
    else Lpspi_Ip_TransferProcessHalfDuplex Instance State Base in
  let! g := put_both g Instance i State Base in
  Ok (calls, g).

Definition Lpspi_Ip_ManageBuffers g (Instance : Z) : res (list call * driver D) :=
  do! assert (Instance <? LPSPI_INSTANCE_COUNT) in
  let! Base := load (apxBases g) Instance in
  let! '(i, State) := get_state g Instance in
  match TransferMode State with
  | LPSPI_IP_INTERRUPT => Ok ([], g)
  | LPSPI_IP_POLLING =>
      let! '(sr, Base) := reg_read Base SR in
      if has sr LPSPI_SR_RDF_MASK then process g Instance i State Base
      else
        let! '(sr, Base) := reg_read Base SR in
        if has sr LPSPI_SR_TDF_MASK && negb (CurrentTxFifoSlot State =? 0) then process g Instance i State Base
        else let! g := put_base g Instance Base in Ok ([], g)
  end.

Definition Lpspi_Ip_IrqHandler g (Instance : Z) : res (list call * driver D) :=
  let! Base := load (apxBases g) Instance in
  let! p := load (apxState g) Instance in
  match p with
  | Some i =>
      let! State := load (axState g) i in
      let! '(sr, Base) := reg_read Base SR in
      let IrqFlags := Z.land sr (Z.lor (Z.lor LPSPI_SR_TDF_MASK LPSPI_SR_RDF_MASK) (Z.lor LPSPI_SR_TEF_MASK LPSPI_SR_REF_MASK)) in
      let! '(ier, Base) := reg_read Base IER in
      let IrqFlags := Z.land IrqFlags
        (Z.land ier (Z.lor (Z.lor LPSPI_IER_TDIE_MASK LPSPI_IER_RDIE_MASK) (Z.lor LPSPI_IER_TEIE_MASK LPSPI_IER_REIE_MASK))) in
      if negb (IrqFlags =? 0) then process g Instance i State Base
      else let! g := put_base g Instance Base in Ok ([], g)
  | None =>
      let! Base := reg_modify Base SR (fun v => Z.land v LPSPI_IP_SR_W1C_MASK_U32) in
      let! g := put_base g Instance Base in Ok ([], g)
  end.

Definition Lpspi_Ip_Cancel g (Instance : Z) : res (driver D) :=
  do! assert (Instance <? LPSPI_INSTANCE_COUNT) in
  let! Base := load (apxBases g) Instance in
  let! '(i, State) := get_state g Instance in
  if bool_decide (Status State = LPSPI_IP_BUSY) then
    let! Base := reg_modify Base CR (fun v => Z.ldiff v LPSPI_CR_MEN_MASK) in
    let! Base := Lpspi_ErrataHandle Base in
    put_both g Instance i (State <| Status := LPSPI_IP_IDLE |>) Base
  else Ok g.

Definition Lpspi_Ip_GetStatus g (Instance : Z) : res Lpspi_Ip_HwStatusType :=
  do! assert (Instance <? LPSPI_INSTANCE_COUNT) in
  let! p := load (apxState g) Instance in
  match p with Some i => let! State := load (axState g) i in Ok (Status State) | None => Ok LPSPI_IP_UNINIT end.

(** Changes to the parameters of a device while its instance is not busy. *)
Definition update_params g (dev : Lpspi_Ip_ExternalDeviceType) (f : Lpspi_Ip_DeviceParamsType -> Lpspi_Ip_DeviceParamsType)
    : res (Lpspi_Ip_StatusType * Lpspi_Ip_ExternalDeviceType) :=
  let! '(_, State) := get_state g (Instance_ dev) in
  if bool_decide (Status State = LPSPI_IP_BUSY) then Ok (LPSPI_IP_STATUS_FAIL, dev)
  else Ok (LPSPI_IP_STATUS_SUCCESS, mkExternal (Instance_ dev) (Ccr dev) (Tcr dev) (HalfDuplexCfgr1 dev) (f (DeviceParams dev))).
Definition Lpspi_Ip_UpdateFrameSize g (dev : Lpspi_Ip_ExternalDeviceType) (size : Z) : res (Lpspi_Ip_StatusType * Lpspi_Ip_ExternalDeviceType) :=
  do! assert (size <=? LPSPI_IP_FRAMESIZE_MAX_U16) in
  do! assert (LPSPI_IP_FRAMESIZE_MIN_U16 <=? size) in
  update_params g dev (fun p => mkParams size (Lsb p) (DefaultData p) (TransferType p)).
Definition Lpspi_Ip_UpdateLsb g (dev : Lpspi_Ip_ExternalDeviceType) (lsb : bool) : res (Lpspi_Ip_StatusType * Lpspi_Ip_ExternalDeviceType) :=
  update_params g dev (fun p => mkParams (FrameSize p) lsb (DefaultData p) (TransferType p)).
Definition Lpspi_Ip_UpdateDefaultTransmitData g (dev : Lpspi_Ip_ExternalDeviceType) (data : Z)
    : res (Lpspi_Ip_StatusType * Lpspi_Ip_ExternalDeviceType) :=
  update_params g dev (fun p => mkParams (FrameSize p) (Lsb p) data (TransferType p)).
End api.
End SpiAsync.
