(* ===== verification/SpiAsyncSafety.v ===== *)
(** * Safety of the asynchronous SPI transfers

    The driver of [SpiAsync.v] on any controller: no start, interrupt, poll or cancel
    leaves a buffer, and half-duplex transfers and their time-out. *)

From S2P Require Import Prelude Words Lpspi SpiDriver SpiDriverProps SpiAsync.
From stdpp Require Import list.
#[local] Open Scope Z_scope.
Import Lpspi SpiDriver SpiDriverSafety SpiAsync.

Module SpiAsyncSafety.

Lemma put_both_ok {D : Type} (g : driver D) k i st s st' s' :
  get_state g k = Ok (i, st) -> load (apxBases g) k = Ok s ->
  exists g', put_both g k i st' s' = Ok g' /\ get_state g' k = Ok (i, st') /\ load (apxBases g') k = Ok s'.
Proof.
  intros Hg Hs. unfold put_both. destruct (put_state_ok g k i st st' Hg) as [g1 E1]. rewrite E1. cbn [res_bind].
  destruct (get_put_state g g1 k i st st' Hg E1) as [Hg1 Eb]. rewrite <- Eb in Hs.
  destruct (put_base_ok g1 k s s' Hs) as (g2 & -> & Ep & Ea & Hl). exists g2. split; [done|]. split; [|done].
  revert Hg1. unfold get_state. by rewrite Ep, Ea.
Qed.

Section safety.
Context {D : Type} `{TotalPort D} `{LpspiHeader} `{LpspiFlags}.
Implicit Types (d : D) (st : State_t) (g : driver D).

(** A transfer that has started and not ended. *)
Definition transfer_inv st : Prop :=
  match TransferType (DeviceParams (dev_of st)) with
  | LPSPI_IP_FULL_DUPLEX => loop_inv st /\ RxIndex st <> ExpectedFifoReads st
  | LPSPI_IP_HALF_DUPLEX_TRANSMIT => tx_inv st
  | LPSPI_IP_HALF_DUPLEX_RECEIVE => rx_inv st /\ 0 <= TxIndex st <= ExpectedFifoWrites st /\ ExpectedFifoWrites st < 2 ^ 16
  end.
Definition pending st : nat := if bool_decide (Status st = LPSPI_IP_BUSY) then 1 else 0.
Lemma pending_le st : (pending st <= 1)%nat.
Proof. unfold pending. case_bool_decide; lia. Qed.
Lemma pending_idle st : Status st <> LPSPI_IP_BUSY -> pending st = 0%nat.
Proof. intros Hb. unfold pending. by rewrite bool_decide_eq_false_2. Qed.
(** What a step of the process function keeps, and how many callbacks it may call. *)
Definition step_ok st (r : res (State_t * D * list call)) : Prop :=
  exists st' d' calls, r = Ok (st', d', calls) /\ (Status st' = LPSPI_IP_BUSY -> transfer_inv st') /\
    (length calls + pending st' <= pending st)%nat /\ ExternalDevice st' = ExternalDevice st.

Lemma step_idle st d : Status st <> LPSPI_IP_BUSY -> step_ok st (Ok (st, d, [])).
Proof. intros Hb. eexists _, _, _. by split_and!. Qed.
Lemma step_more st st' d : Status st = LPSPI_IP_BUSY -> transfer_inv st' -> ExternalDevice st' = ExternalDevice st -> step_ok st (Ok (st', d, [])).
Proof.
  intros Hb Hi E. eexists _, _, _. split; [done|]. split; [done|]. split; [|done]. pose proof (pending_le st').
  unfold pending at 2. rewrite bool_decide_eq_true_2 by done. cbn. lia.
Qed.
Lemma step_finished k st st' e d :
  Status st = LPSPI_IP_BUSY -> ExternalDevice st' = ExternalDevice st -> step_ok st (let '(st', calls) := Lpspi_Ip_ChannelFinished k st' e in Ok (st', d, calls)).
Proof.
  intros Hb E. unfold Lpspi_Ip_ChannelFinished. cbv zeta. eexists _, _, _. split; [done|]. rsimpl. split; [by destruct e|]. split; [|done].
  unfold pending. rsimpl. rewrite bool_decide_eq_false_2, bool_decide_eq_true_2 by (done || by destruct e).
  destruct (Callback st'); cbn; lia.
Qed.

Lemma take_flags_total d : exists v d', take_flags d = Ok (v, d').
Proof. unfold take_flags. do 2 port_step. by eexists _, _. Qed.

(** ** Full-duplex *)

Lemma async_transmit_step_total st d :
  loop_inv st ->
  exists st' d', async_transmit_step st d = Ok (st', d') /\ loop_inv st' /\ loop_frame st st' /\ RxIndex st' = RxIndex st.
Proof.
  intros Hi. assert (forall d', exists st' d'', Ok (st, d') = Ok (st', d'') /\ loop_inv st' /\ loop_frame st st' /\ RxIndex st' = RxIndex st) as Hid
    by (intros d'; exists st, d'; split_and!; [done|done|apply loop_frame_refl|done]).
  unfold async_transmit_step. destruct (Z.eqb_spec (CurrentTxFifoSlot st) 0); cbn [negb]; [apply Hid|].
  destruct (Z.eqb_spec (ExpectedFifoWrites st) (TxIndex st)); cbn [negb].
  - port_step. destruct (KeepCs st); cbn [negb]; [apply Hid|]. port_step. destruct (has _ _); [port_step|]; apply Hid.
  - pose proof Hi as [_ Hrx Hr Ht Hw Hs _ _]. cbv zeta. set (k := if _ <? CurrentTxFifoSlot st then _ else _).
    assert (1 <= k <= ExpectedFifoWrites st - TxIndex st) as Hk.
    { unfold is_u in Hs. subst k. destruct (Z.ltb_spec (ExpectedFifoWrites st - TxIndex st) (CurrentTxFifoSlot st)); [|lia].
      rewrite u_small; unfold is_u; lia. }
    clearbody k. destruct (push_fifo_total st d k) as [d1 ->]; [by apply loop_tx|lia|]. cbn [res_bind].
    eexists _, _. split; [done|]. rsimpl.
    assert (loop_frame st (st <| TxIndex := TxIndex st + k |> <| CurrentTxFifoSlot := u8 (CurrentTxFifoSlot st - k) |>))
      as Hf by (split; rsimpl; auto using kept_after_refl).
    split; [|by split]. apply (loop_inv_step st); rsimpl; try done; [lia|apply u_range; lia].
Qed.

Lemma full_inv st : is_type (dev_of st) LPSPI_IP_FULL_DUPLEX = true ->
  transfer_inv st <-> loop_inv st /\ RxIndex st <> ExpectedFifoReads st.
Proof. unfold is_type, transfer_inv. by intros ->%bool_decide_eq_true. Qed.

Lemma transfer_process_total k st d :
  is_type (dev_of st) LPSPI_IP_FULL_DUPLEX = true -> (Status st = LPSPI_IP_BUSY -> transfer_inv st) ->
  step_ok st (Lpspi_Ip_TransferProcess k st d).
Proof.
  intros Hty Hi. unfold Lpspi_Ip_TransferProcess. case_bool_decide as Hb; [|by apply step_idle].
  apply full_inv in Hi as [Hi Hne]; [|done..]. destruct (take_flags_total d) as (v & d1 & ->). cbn [res_bind]. cbv zeta.
  set (e := has _ _). clearbody e.
  assert (exists st' d', (if e then Ok (st, d1) else let! '(State, Base, _) := receive_step st d1 0 in async_transmit_step State Base)
    = Ok (st', d') /\ loop_inv st' /\ loop_frame st st') as (st' & d' & -> & Hi' & Hf').
  { destruct e; [by exists st, d1; auto using loop_frame_refl|].
    destruct (receive_step_total st d1 0) as (st1 & d2 & e1 & -> & Hi1 & Hf1 & _); [done..|]. cbn [res_bind].
    destruct (async_transmit_step_total st1 d2 Hi1) as (st2 & d3 & -> & Hi2 & Hf2 & _). exists st2, d3. eauto using loop_frame_trans. }
  pose proof (lf_dev _ _ Hf') as Ed. cbn [res_bind]. destruct (Z.eqb_spec (RxIndex st') (ExpectedFifoReads st')), e; cbn [orb];
    try (destruct (KeepCs st'); cbn [negb orb res_bind]; cbv iota; cbn [res_bind]; repeat port_step; by apply step_finished).
  apply step_more; [done| |done]. apply full_inv; [|done]. by rewrite (dev_of_eq _ _ Ed).
Qed.
(** ** Half-duplex *)

Definition recv_inv st : Prop := rx_inv st /\ 0 <= TxIndex st <= ExpectedFifoWrites st /\ ExpectedFifoWrites st < 2 ^ 16.

Lemma tx_empty_total d : exists b d', tx_empty d = Ok (b, d').
Proof. unfold tx_empty. port_step. by eexists _, _. Qed.
Lemma receive_frames_total st d :
  recv_inv st -> exists st' d', receive_frames st d = Ok (st', d') /\ recv_inv st' /\ ExternalDevice st' = ExternalDevice st.
Proof.
  intros Hi. pose proof Hi as [(Ha & Hrx & Hr & Hb) Ht]. unfold receive_frames. port_step. set (k0 := u8 _). assert (is_u 8 k0) as Hk0 by (apply u_range; lia).
  clearbody k0. cbv zeta. set (k := if _ <? k0 then _ else _).
  assert (0 <= k <= ExpectedFifoReads st - RxIndex st) as Hk.
  { unfold is_u in Hk0. subst k. destruct (Z.ltb_spec (ExpectedFifoReads st - RxIndex st) k0); [|lia]. rewrite u_small; unfold is_u; lia. }
  clearbody k. destruct (Z.eqb_spec k 0); cbn [negb]; [by eexists _, _|].
  match goal with |- context [Lpspi_Ip_ReadDataFromFifo _ ?d _] => destruct (read_fifo_total st d k) as (b & d' & -> & Hk'); [apply Hi|lia|] end.
  eexists _, _. split; [done|]. split; [|done]. split; [|done]. unfold rx_inv, step_of, covers in *. rsimpl. split; [done|]. split; [lia|]. split; [done|].
  destruct (RxBuffer st), b; cbn in Hk'; try done. destruct Hk'. lia.
Qed.
Lemma push_command_total st d :
  recv_inv st -> exists st' d', push_command st d = Ok (st', d') /\ recv_inv st' /\ ExternalDevice st' = ExternalDevice st.
Proof.
  intros Hi. pose proof Hi as [Hr Ht]. unfold push_command. destruct (tx_empty_total d) as (b & d1 & ->). cbn [res_bind].
  destruct b, (Z.eqb_spec (ExpectedFifoWrites st) (TxIndex st)); cbn [andb negb]; try by eexists _, _.
  port_step. eexists _, _. split; [done|]. split; [|done]. split; [done|]. rsimpl. rewrite u_small by (unfold is_u; lia). lia.
Qed.
Lemma half_push_total st d k :
  tx_inv st -> is_u 8 k ->
  exists st' d', Lpspi_Ip_HalfDuplexPushDataToFifo st d k = Ok (st', d') /\ tx_inv st' /\ ExternalDevice st' = ExternalDevice st.
Proof.
  intros Hi Hk. pose proof Hi as (Ha & Ht & Hw & Hb). unfold Lpspi_Ip_HalfDuplexPushDataToFifo. cbv zeta. set (m := if _ <? k then _ else _).
  assert (0 <= m <= ExpectedFifoWrites st - TxIndex st) as Hm.
  { unfold is_u in Hk. subst m. destruct (Z.ltb_spec (ExpectedFifoWrites st - TxIndex st) k); [|lia]. rewrite u_small; unfold is_u; lia. }
  destruct (push_fifo_total st d m Hi Hm) as [d' ->]. eexists _, _. split; [done|]. split; [|done]. unfold tx_inv, step_of in *. rsimpl. split; [done|]. split; [lia|done].
Qed.
Lemma wait_tx_empty_total fuel t e d :
  0 <= e -> 0 <= t < 2 ^ 32 -> t - e <= Z.of_nat fuel -> exists e' d', wait_tx_empty fuel t e d = Ok (e', d').
Proof.
  revert e d. induction fuel as [|fuel IH]; intros e d He Ht Hf; cbn [wait_tx_empty]; destruct (tx_empty_total d) as (b & d1 & ->); cbn [res_bind];
    destruct b, (Z.ltb_spec e t); cbn [andb negb]; try by eexists _, _.
  - lia.
  - unfold OsIf_Timer_Dummy_GetElapsed. rewrite u_small by (unfold is_u; lia). apply IH; lia.
Qed.
Lemma channel_complete_total st d : exists b d', Lpspi_Ip_HalfDupleTransmitChannelComplete st d = Ok (b, d').
Proof.
  unfold Lpspi_Ip_HalfDupleTransmitChannelComplete. cbv zeta.
  assert (exists d1, (if negb (KeepCs st) && negb (SlaveMode (PhyUnitConfig st))
    then reg_modify d TCR (fun v => Z.ldiff v (Z.lor LPSPI_TCR_CONT_MASK LPSPI_TCR_CONTC_MASK)) else Ok d) = Ok d1) as [d1 ->]
    by (destruct (_ && _); [apply reg_modify_total|by eexists]). cbn [res_bind].
  destruct (_ || _); [|by eexists _, _]. set (t := OsIf_Timer_Dummy_MicrosToTicks _). assert (0 <= t < 2 ^ 32) by done. clearbody t.
  destruct (wait_tx_empty_total (Z.to_nat t) t 0 d1) as (e & d2 & ->); [lia..|]. cbn [res_bind].
  destruct (_ <=? _); [port_step|]; by eexists _, _.
Qed.
Lemma half_inv st :
  is_type (dev_of st) LPSPI_IP_FULL_DUPLEX = false ->
  transfer_inv st <-> (is_type (dev_of st) LPSPI_IP_HALF_DUPLEX_RECEIVE = true /\ recv_inv st \/
    is_type (dev_of st) LPSPI_IP_HALF_DUPLEX_RECEIVE = false /\ tx_inv st).
Proof. unfold is_type, transfer_inv, recv_inv. destruct (TransferType _); naive_solver. Qed.

Lemma half_duplex_step_total st d :
  is_type (dev_of st) LPSPI_IP_FULL_DUPLEX = false -> transfer_inv st ->
  exists st' d' c e, half_duplex_step (TransferType (DeviceParams (dev_of st))) st d = Ok (st', d', c, e) /\ transfer_inv st' /\ ExternalDevice st' = ExternalDevice st.
Proof.
  intros Hty Hi. apply half_inv in Hi; [|done]. unfold half_duplex_step. cbv zeta. fold (is_type (dev_of st) LPSPI_IP_HALF_DUPLEX_RECEIVE).
  fold (is_type (dev_of st) LPSPI_IP_HALF_DUPLEX_TRANSMIT).
  assert (exists e d1, (if (ExpectedFifoWrites st =? TxIndex st) && is_type (dev_of st) LPSPI_IP_HALF_DUPLEX_TRANSMIT
    then Lpspi_Ip_HalfDupleTransmitChannelComplete st d else Ok (false, d)) = Ok (e, d1)) as (e & d1 & ->)
    by (destruct (_ && _); [apply channel_complete_total|by eexists _, _]). cbn [res_bind].
  destruct Hi as [[Hr Hi]|[Hr Hi]]; rewrite Hr.
  - destruct (receive_frames_total st d1 Hi) as (st1 & d2 & -> & Hi1 & E1). cbn [res_bind].
    assert (exists st2 d3, (if SlaveMode (PhyUnitConfig st) then Ok (st1, d2) else push_command st1 d2) = Ok (st2, d3) /\ recv_inv st2 /\
      ExternalDevice st2 = ExternalDevice st1) as (st2 & d3 & -> & Hi2 & E2)
      by (destruct (SlaveMode _); [by eexists _, _|by apply push_command_total]).
    cbn [res_bind]. eexists _, _, _, _. split; [done|]. rewrite E2, E1. split; [|done].
    assert (dev_of st2 = dev_of st) as Ed by (by apply dev_of_eq; rewrite E2). apply half_inv; rewrite Ed; auto.
  - unfold tx_count. port_step. set (n := u8 (_ - _)). assert (is_u 8 n) as Hn by (apply u_range; lia). clearbody n.
    assert (forall st' : State_t, tx_inv st' -> ExternalDevice st' = ExternalDevice st -> transfer_inv st') as Hdone
      by (intros st' Hi' E%dev_of_eq; apply half_inv; rewrite E; auto).
    destruct (_ && _); [|eexists _, _, _, _; split; [done|]; auto].
    match goal with |- context [Lpspi_Ip_HalfDuplexPushDataToFifo _ ?d _] =>
      destruct (half_push_total st d n Hi Hn) as (st1 & d2 & -> & Hi1 & E1) end. cbn [res_bind].
    destruct (_ && _); [port_step|]; eexists _, _, _, _; (split; [done|]; auto).
Qed.
Lemma half_duplex_process_total k st d :
  attached st -> is_type (dev_of st) LPSPI_IP_FULL_DUPLEX = false -> (Status st = LPSPI_IP_BUSY -> transfer_inv st) ->
  step_ok st (Lpspi_Ip_TransferProcessHalfDuplex k st d).
Proof.
  intros Ha Hty Hi. unfold Lpspi_Ip_TransferProcessHalfDuplex. case_bool_decide as Hb; [|by apply step_idle].
  destruct (take_flags_total d) as (v & d1 & ->). rewrite (external_ok st Ha). cbn [res_bind].
  assert (exists st' d' c e, (if has v (Z.lor LPSPI_SR_REF_MASK LPSPI_SR_TEF_MASK) then Ok (st, d1, false, true)
    else half_duplex_step (TransferType (DeviceParams (dev_of st))) st d1)
    = Ok (st', d', c, e) /\ transfer_inv st' /\ ExternalDevice st' = ExternalDevice st) as (st' & d' & c & e & -> & Hi' & E').
  { destruct (has _ _); [by eexists _, _, _, _; auto|]. destruct (half_duplex_step_total st d1) as (st' & d' & c & e & -> & Hi' & ?); eauto 10. }
  cbn [res_bind]. destruct (_ || e); [port_step; by apply step_finished|by apply step_more].
Qed.

(** ** The driver *)

(** The driver, and the devices of the application, which the calls change. *)
Definition world : Type := driver D * list Lpspi_Ip_ExternalDeviceType.

(** The state's device is one of the application's: as it is now while a transfer is
    under way, and at any time of the same transfer type, which is all that is looked
    at between transfers. *)
Definition copy_ok (devs : list Lpspi_Ip_ExternalDeviceType) st : Prop :=
  attached st -> exists p dev, load devs p = Ok dev /\
    TransferType (DeviceParams dev) = TransferType (DeviceParams (dev_of st)) /\ (Status st = LPSPI_IP_BUSY -> dev = dev_of st).
(** The channel of instance [k]: its state and its controller are there, and a
    transfer under way has its invariant. *)
Definition channel_ok (w : world) (k : Z) st : Prop :=
  0 <= k < LPSPI_INSTANCE_COUNT /\ (exists i d, get_state w.1 k = Ok (i, st) /\ load (apxBases w.1) k = Ok d) /\
  (Status st = LPSPI_IP_BUSY -> transfer_inv st) /\ copy_ok w.2 st.

(** The calls for one instance; [p] is the number of a device. *)
Inductive event :=
  | Transmit (p : Z) (tx rx : option (list Z)) (len : Z) (cb : option Z)
  | TransmitHalf (p : Z) (buf : option (list Z)) (len : Z) (t : Lpspi_Ip_HalfDuplexType) (cb : option Z)
  | SetFrameSize (p size : Z)
  | SetLsb (p : Z) (lsb : bool)
  | SetDefaultData (p data : Z)
  | Interrupt
  | Poll
  | Cancel
  | SetMode (mode : Lpspi_Ip_ModeType).
(** A call that changes device [p]. *)
Definition on_device (w : world) (p : Z) (f : Lpspi_Ip_ExternalDeviceType -> res (Lpspi_Ip_ExternalDeviceType * driver D)) : res (list call * world) :=
  let! dev := load w.2 p in
  let! '(dev, g) := f dev in
  let! devs := store w.2 p dev in
  Ok ([], (g, devs)).
Definition run_event (w : world) (k : Z) (e : event) : res (list call * world) :=
  let '(g, devs) := w in
  match e with
  | Transmit p tx rx len cb =>
      let! dev := load devs p in
      let! '(_, g) := Lpspi_Ip_AsyncTransmit g dev tx rx len cb in Ok ([], (g, devs))
  | TransmitHalf p buf len t cb =>
      on_device w p (fun dev => let! '(_, dev, g) := Lpspi_Ip_AsyncTransmitHalfDuplex g dev buf len t cb in Ok (dev, g))
  | SetFrameSize p size => on_device w p (fun dev => let! '(_, dev) := Lpspi_Ip_UpdateFrameSize g dev size in Ok (dev, g))
  | SetLsb p lsb => on_device w p (fun dev => let! '(_, dev) := Lpspi_Ip_UpdateLsb g dev lsb in Ok (dev, g))
  | SetDefaultData p data => on_device w p (fun dev => let! '(_, dev) := Lpspi_Ip_UpdateDefaultTransmitData g dev data in Ok (dev, g))
  | Interrupt => let! '(calls, g) := Lpspi_Ip_IrqHandler g k in Ok (calls, (g, devs))
  | Poll => let! '(calls, g) := Lpspi_Ip_ManageBuffers g k in Ok (calls, (g, devs))
  | Cancel => let! g := Lpspi_Ip_Cancel g k in Ok ([], (g, devs))
  | SetMode mode => let! '(_, g) := Lpspi_Ip_UpdateTransferMode g k mode in Ok ([], (g, devs))
  end.
Fixpoint run_events (w : world) (k : Z) (es : list event) : res (list call * world) :=
  match es with
  | [] => Ok ([], w)
  | e :: es =>
      let! '(calls, w) := run_event w k e in
      let! '(more, w) := run_events w k es in
      Ok (calls ++ more, w)
  end.
(** The parameters the driver's checks and the buffers allow.  A full-duplex transfer
    takes a device whose type is now full-duplex; interrupts and polls come only after
    the first transfer, since they follow the pointer to its device. *)
Definition valid_len dev len : Prop := 0 < len < 2 ^ 16 /\ Lpspi_Ip_CheckValidParameters dev len = Ok tt.
Definition permitted (w : world) (k : Z) (e : event) : Prop :=
  match e with
  | Transmit p tx rx len _ => exists dev, load w.2 p = Ok dev /\ Instance_ dev = k /\ valid_len dev len /\ covers tx len /\ covers rx len /\
      is_type dev LPSPI_IP_FULL_DUPLEX = true
  | TransmitHalf p buf len t _ =>
      exists dev, load w.2 p = Ok dev /\ Instance_ dev = k /\ valid_len dev len /\ covers buf len /\ t <> LPSPI_IP_FULL_DUPLEX
  | SetFrameSize p size => exists dev, load w.2 p = Ok dev /\ Instance_ dev = k /\ LPSPI_IP_FRAMESIZE_MIN_U16 <= size <= LPSPI_IP_FRAMESIZE_MAX_U16
  | SetLsb p _ | SetDefaultData p _ => exists dev, load w.2 p = Ok dev /\ Instance_ dev = k
  | Interrupt | Poll => exists i st, get_state w.1 k = Ok (i, st) /\ attached st
  | Cancel | SetMode _ => True
  end.
Fixpoint permitted_run (w : world) (k : Z) (es : list event) : Prop :=
  match es with
  | [] => True
  | e :: es => permitted w k e /\ forall calls w', run_event w k e = Ok (calls, w') -> permitted_run w' k es
  end.
(** The same, computed. *)
Definition valid_lenb dev len : bool :=
  (0 <? len) && (len <? 2 ^ 16) && match Lpspi_Ip_CheckValidParameters dev len with Ok _ => true | Fault _ => false end.
Definition coversb (b : option (list Z)) (k : Z) : bool := match b with Some b => k <=? Z.of_nat (length b) | None => true end.
Definition permittedb (w : world) (k : Z) (e : event) : bool :=
  let with_device p (f : Lpspi_Ip_ExternalDeviceType -> bool) := match load w.2 p with Ok dev => (Instance_ dev =? k) && f dev | Fault _ => false end in
  match e with
  | Transmit p tx rx len _ => with_device p (fun dev => valid_lenb dev len && coversb tx len && coversb rx len && is_type dev LPSPI_IP_FULL_DUPLEX)
  | TransmitHalf p buf len t _ => with_device p (fun dev => valid_lenb dev len && coversb buf len && negb (bool_decide (t = LPSPI_IP_FULL_DUPLEX)))
  | SetFrameSize p size => with_device p (fun _ => (LPSPI_IP_FRAMESIZE_MIN_U16 <=? size) && (size <=? LPSPI_IP_FRAMESIZE_MAX_U16))
  | SetLsb p _ | SetDefaultData p _ => with_device p (fun _ => true)
  | Interrupt | Poll => match get_state w.1 k with Ok (_, st) => bool_decide (attached st) | Fault _ => false end
  | Cancel | SetMode _ => true
  end.
Fixpoint permittedb_run (w : world) (k : Z) (es : list event) : bool :=
  match es with
  | [] => true
  | e :: es => permittedb w k e && match run_event w k e with Ok (_, w) => permittedb_run w k es | Fault _ => true end
  end.
Lemma valid_lenb_ok dev len : valid_lenb dev len = true -> valid_len dev len.
Proof.
  unfold valid_lenb. intros [[? ?]%andb_prop Hc]%andb_prop. split; [lia|]. by destruct (Lpspi_Ip_CheckValidParameters dev len) as [[]|].
Qed.
Lemma coversb_ok b k : coversb b k = true -> covers b k.
Proof. destruct b; [|done]. cbn. lia. Qed.
Lemma permittedb_ok w k e : permittedb w k e = true -> permitted w k e.
Proof.
  unfold permittedb, permitted. cbv zeta beta. destruct e; try done;
    try (destruct (load w.2 p) as [dev|]; [|done]; intros [Hk%Z.eqb_eq Hb]%andb_prop; exists dev; split; [done|]; split; [done|]).
  - apply andb_prop in Hb as [[[? ?]%andb_prop ?]%andb_prop ?]. auto using valid_lenb_ok, coversb_ok.
  - apply andb_prop in Hb as [[? ?]%andb_prop ?]. split; [by apply valid_lenb_ok|]. split; [by apply coversb_ok|]. by case_bool_decide.
  - apply andb_prop in Hb as [? ?]. lia.
  - destruct (load w.2 p) as [dev|]; [|done]. intros [Hk%Z.eqb_eq _]%andb_prop. by exists dev.
  - destruct (load w.2 p) as [dev|]; [|done]. intros [Hk%Z.eqb_eq _]%andb_prop. by exists dev.
  - destruct (get_state w.1 k) as [[i st]|]; [|done]. intros Ha%bool_decide_eq_true. by exists i, st.
  - destruct (get_state w.1 k) as [[i st]|]; [|done]. intros Ha%bool_decide_eq_true. by exists i, st.
Qed.
Lemma permittedb_run_ok es : forall w k, permittedb_run w k es = true -> permitted_run w k es.
Proof.
  induction es as [|e es IH]; intros w k; [done|]. cbn [permittedb_run permitted_run]. intros [He Hes]%andb_prop. split; [by apply permittedb_ok|].
  intros calls w' E. rewrite E in Hes. by apply IH.
Qed.
Definition starts (e : event) : nat := match e with Transmit _ _ _ _ _ | TransmitHalf _ _ _ _ _ => 1 | _ => 0 end.
Lemma get_state_inv g k i st : get_state g k = Ok (i, st) -> load (apxState g) k = Ok (Some i) /\ load (axState g) i = Ok st.
Proof.
  unfold get_state. destruct (load (apxState g) k) as [[j|]|]; cbn [res_bind]; try done.
  destruct (load (axState g) j) eqn:E; cbn [res_bind]; [|done]. by intros [= -> ->].
Qed.

(** What a call does: the channel stays well-formed, and the callbacks are paid for by
    the transfers. *)
Definition event_ok k st n (r : res (list call * world)) : Prop :=
  exists calls w' st', r = Ok (calls, w') /\ channel_ok w' k st' /\ (length calls + pending st' <= pending st + n)%nat.
(** The same for a call that leaves the devices alone. *)
Definition keeps_devices (devs : list Lpspi_Ip_ExternalDeviceType) (r : res (list call * driver D)) : res (list call * world) :=
  let! '(calls, g) := r in Ok (calls, (g, devs)).
Lemma same_ok w k st n : channel_ok w k st -> event_ok k st n (Ok ([], w)).
Proof. intros Hc. eexists _, _, _. split; [done|]. split; [done|]. cbn. lia. Qed.
Lemma copy_step devs st st' :
  copy_ok devs st -> ExternalDevice st' = ExternalDevice st -> (Status st' = LPSPI_IP_BUSY -> Status st = LPSPI_IP_BUSY) -> copy_ok devs st'.
Proof.
  intros Hc E Hb Ha. rewrite (dev_of_eq _ _ E). destruct Hc as (p & dev & Hp & Ht & Hd); [by apply (attached_eq st')|].
  exists p, dev. auto.
Qed.
(** A call that stores state and controller back. *)
Lemma store_channel_ok g devs k i st d st' d' n calls :
  0 <= k < LPSPI_INSTANCE_COUNT -> get_state g k = Ok (i, st) -> load (apxBases g) k = Ok d ->
  (Status st' = LPSPI_IP_BUSY -> transfer_inv st') -> copy_ok devs st' -> (length calls + pending st' <= pending st + n)%nat ->
  event_ok k st n (let! g := put_both g k i st' d' in Ok (calls, (g, devs))).
Proof.
  intros Hk Hg Hd Hi Hcp Hn. destruct (put_both_ok g k i st d st' d' Hg Hd) as (g' & -> & Hg' & Hd'). cbn [res_bind].
  eexists _, _, _. split; [done|]. split; [|done]. split; [done|]. split; [by exists i, d'|done].
Qed.
Lemma process_ok g devs k i st d :
  channel_ok (g, devs) k st -> get_state g k = Ok (i, st) -> attached st ->
  event_ok k st 0 (keeps_devices devs (process g k i st d)).
Proof.
  intros (Hk & (i' & d0 & Hg' & Hd) & Hi & Hcp) Hg Ha. unfold keeps_devices, process. rewrite (external_ok st Ha). cbn [res_bind].
  match goal with |- context [if ?b then ?x else ?y] => set (r := if b then x else y) end.
  assert (step_ok st r) as (st' & d' & calls & -> & Hi' & Hn & E').
  { subst r. destruct (is_type _ _) eqn:Hty; [by apply transfer_process_total|by apply half_duplex_process_total]. }
  cbn [res_bind]. destruct (put_both_ok g k i st d0 st' d' Hg Hd) as (g' & -> & Hg2 & Hd2). cbn [res_bind].
  exists calls, (g', devs), st'. split; [done|]. split; [|lia]. split; [done|]. split; [by exists i, d'|]. split; [done|].
  apply (copy_step devs st); [done..|]. intros Hb. unfold pending in Hn. rewrite (bool_decide_eq_true_2 _ Hb) in Hn.
  case_bool_decide; [done|lia].
Qed.
Lemma put_base_same g devs k st d n :
  channel_ok (g, devs) k st -> event_ok k st n (keeps_devices devs (let! g := put_base g k d in Ok ([], g))).
Proof.
  intros (Hk & (i & d0 & Hg & Hd) & Hi & Hcp). unfold keeps_devices. cbn [fst snd] in *.
  destruct (put_base_ok g k d0 d Hd) as (g' & -> & Ep & Ea & Hl). cbn [res_bind].
  apply same_ok. split; [done|]. split; [|done]. exists i, d. split; [|done]. revert Hg. unfold get_state. cbn [fst]. by rewrite Ep, Ea.
Qed.

Lemma interrupt_ok g devs k st : channel_ok (g, devs) k st -> attached st -> event_ok k st 0 (keeps_devices devs (Lpspi_Ip_IrqHandler g k)).
Proof.
  intros Hc Ha. pose proof Hc as (Hk & (i & d & Hg & Hd) & Hi & _). cbn [fst snd] in *. destruct (get_state_inv _ _ _ _ Hg) as [Hp Hs].
  unfold Lpspi_Ip_IrqHandler. rewrite Hd, Hp. cbn [res_bind]. rewrite Hs. cbn [res_bind]. do 2 port_step.
  destruct (_ =? 0); cbn [negb]; [by apply put_base_same|by apply process_ok].
Qed.
Lemma poll_ok g devs k st : channel_ok (g, devs) k st -> attached st -> event_ok k st 0 (keeps_devices devs (Lpspi_Ip_ManageBuffers g k)).
Proof.
  intros Hc Ha. pose proof Hc as (Hk & (i & d & Hg & Hd) & Hi & _). cbn [fst snd] in *. unfold Lpspi_Ip_ManageBuffers.
  destruct (Z.ltb_spec k LPSPI_INSTANCE_COUNT); [|lia]. cbn [assert res_bind]. rewrite Hd, Hg. cbn [res_bind].
  destruct (TransferMode st); [|by apply same_ok]. port_step. destruct (has _ _); [by apply process_ok|].
  port_step. destruct (_ && _); [by apply process_ok|by apply put_base_same].
Qed.
(** Before the first transfer a poll that finds a received frame follows a null pointer. *)
Lemma poll_follows_null g k i st d v d' :
  0 <= k < LPSPI_INSTANCE_COUNT -> get_state g k = Ok (i, st) -> load (apxBases g) k = Ok d -> TransferMode st = LPSPI_IP_POLLING ->
  ExternalDevice st = None -> reg_read d SR = Ok (v, d') -> has v LPSPI_SR_RDF_MASK = true -> Lpspi_Ip_ManageBuffers g k = Fault NullPointer.
Proof.
  intros Hk Hg Hd Hm Hn Hr Hv. unfold Lpspi_Ip_ManageBuffers. destruct (Z.ltb_spec k LPSPI_INSTANCE_COUNT); [|lia]. cbn [assert res_bind].
  rewrite Hd, Hg. cbn [res_bind]. rewrite Hm, Hr. cbn [res_bind]. rewrite Hv. unfold process, external_device. by rewrite Hn.
Qed.
Lemma cancel_ok g devs k st : channel_ok (g, devs) k st -> event_ok k st 0 (run_event (g, devs) k Cancel).
Proof.
  intros Hc. pose proof Hc as (Hk & (i & d & Hg & Hd) & Hi & Hcp). cbn [fst snd run_event] in *. unfold Lpspi_Ip_Cancel.
  destruct (Z.ltb_spec k LPSPI_INSTANCE_COUNT); [|lia]. cbn [assert res_bind]. rewrite Hd, Hg. cbn [res_bind].
  case_bool_decide as Hb; [|by apply same_ok]. unfold Lpspi_ErrataHandle. repeat port_step.
  eapply store_channel_ok; [done..|by apply (copy_step devs st)|rewrite pending_idle by done; cbn; lia].
Qed.
Lemma set_mode_ok g devs k st mode : channel_ok (g, devs) k st -> event_ok k st 0 (run_event (g, devs) k (SetMode mode)).
Proof.
  intros Hc. pose proof Hc as (Hk & (i & d & Hg & Hd) & Hi & Hcp). cbn [fst snd run_event] in *. unfold Lpspi_Ip_UpdateTransferMode.
  destruct (Z.ltb_spec k LPSPI_INSTANCE_COUNT); [|lia]. cbn [assert res_bind]. rewrite Hg. cbn [res_bind].
  case_bool_decide as Hb; [by apply same_ok|]. destruct (put_state_ok g k i st (st <| TransferMode := mode |>) Hg) as [g1 E1].
  destruct (get_put_state g g1 k i st _ Hg E1) as [Hg1 Eb]. rewrite E1. cbn [res_bind].
  exists [], (g1, devs), (st <| TransferMode := mode |>). split; [done|]. split; [|rewrite pending_idle by done; cbn; lia].
  split; [done|]. split; [exists i, d; cbn [fst]; by rewrite Eb|done].
Qed.
(** Changes of a device that keep its type, while no transfer is under way. *)
Lemma update_ok g devs k st p dev f :
  channel_ok (g, devs) k st -> load devs p = Ok dev -> Instance_ dev = k -> (forall x, TransferType (f x) = TransferType x) ->
  event_ok k st 0 (on_device (g, devs) p (fun dev => let! '(_, dev) := update_params g dev f in Ok (dev, g))).
Proof.
  intros Hc Hp <- Hf. pose proof Hc as (Hk & (i & d & Hg & Hd) & Hi & Hcp). cbn [fst snd] in *. unfold on_device, update_params. cbn [snd].
  rewrite Hp. cbn [res_bind]. rewrite Hg. cbn [res_bind]. case_bool_decide as Hb; cbn [res_bind].
  - destruct (store_set devs p dev dev Hp) as (devs' & Es & Hl). rewrite Es. cbn [res_bind].
    apply same_ok. split; [done|]. split; [by exists i, d|]. split; [done|]. cbn [snd]. by rewrite (store_same _ _ _ _ Hp Es).
  - set (dev' := mkExternal _ _ _ _ _). destruct (store_set devs p dev dev' Hp) as (devs' & Es & Hl). rewrite Es. cbn [res_bind].
    apply same_ok. split; [done|]. split; [by exists i, d|]. split; [done|]. cbn [snd]. intros Ha.
    destruct (Hcp Ha) as (q & dq & Hq & Ht & _). destruct (decide (q = p)) as [->|Hne].
    + exists p, dev'. split; [done|]. split; [|done]. rewrite <- Ht. rewrite Hp in Hq. injection Hq as <-. apply Hf.
    + exists q, dq. split; [|done]. by rewrite (store_other _ _ _ _ _ Es).
Qed.
(** ** The start of a transfer *)

Lemma started_ok g devs k i st st' d p :
  0 <= k < LPSPI_INSTANCE_COUNT -> get_state g k = Ok (i, st') -> load (apxBases g) k = Ok d -> transfer_inv st' ->
  load devs p = Ok (dev_of st') -> event_ok k st 1 (Ok ([], (g, devs))).
Proof.
  intros Hk Hg Hd Hi Hp. eexists _, _, st'. split; [done|]. split; [|pose proof (pending_le st'); cbn; lia].
  split; [done|]. split; [by exists i, d|]. split; [done|]. intros _. by exists p, (dev_of st').
Qed.
Lemma transmit_ok g devs k st p tx rx len cb :
  channel_ok (g, devs) k st -> permitted (g, devs) k (Transmit p tx rx len cb) -> event_ok k st 1 (run_event (g, devs) k (Transmit p tx rx len cb)).
Proof.
  intros Hc (dev & Hp & <- & [Hlen Hchk] & Htx & Hrx & Hty). pose proof Hc as (Hk & (i & d & Hg & Hd) & Hi & _). cbn [run_event fst snd] in *.
  rewrite Hp. cbn [res_bind]. unfold Lpspi_Ip_AsyncTransmit.
  destruct (Z.eqb_spec len 0); [lia|]. cbn [negb assert res_bind]. rewrite Hchk. cbn [res_bind]. rewrite Hg. cbn [res_bind]. rewrite Hd. cbn [res_bind].
  case_bool_decide; [by apply same_ok|]. port_step. set (st0 := st <| Status := _ |> <| ExternalDevice := Some dev |> <| Callback := _ |> <| CurrentTxFifoSlot := _ |>).
  match goal with |- context [Lpspi_TransmitTxInit _ ?d _ _] => destruct (tx_init_total st0 d tx len ltac:(by eexists) Hty) as [d1 ->] end. cbn [res_bind].
  rewrite rx_init_ok by (done || by eexists). cbn [res_bind].
  destruct (transfer_start st0 dev tx rx len) as (Hi1 & _ & Hne & _); [done..|]. set (st1 := rx_ready (tx_ready st0 tx len) rx len) in *.
  unfold set_interrupts. do 2 port_step.
  match goal with |- context [put_both _ _ _ ?s ?d'] => destruct (put_both_ok g _ i st d s d' Hg Hd) as (g' & -> & Hg' & Hd') end. cbn [res_bind].
  eapply (started_ok _ _ _ _ _ _ _ p); [done..| |exact Hp]. by apply full_inv.
Qed.

Lemma half_prepare_total st d buf :
  attached st -> exists st' d', Lpspi_Ip_HalfDuplexPrepare st d buf = Ok (st', d') /\ ExternalDevice st' = ExternalDevice st /\
    (if is_type (dev_of st) LPSPI_IP_HALF_DUPLEX_TRANSMIT then TxBuffer st' else RxBuffer st') = buf.
Proof.
  intros Ha. unfold Lpspi_Ip_HalfDuplexPrepare. rewrite (external_ok st Ha). cbn [res_bind]. cbv zeta. do 2 port_step. rsimpl.
  destruct (is_type _ _); [by eexists _, _|]. eexists _, _. split; [done|]. by destruct (SlaveMode _).
Qed.
(** What the initialisation of a half-duplex transfer leaves, but for the accesses to
    the controller. *)
Lemma half_tx_init_total st d len :
  attached st -> is_type (dev_of st) LPSPI_IP_FULL_DUPLEX = false ->
  exists d', Lpspi_TransmitTxInit st d None len
    = Ok (st <| TxIndex := 0 |> <| ExpectedFifoWrites := u16 (expected_frames (FrameSize (DeviceParams (dev_of st))) len) |>, d').
Proof.
  intros Ha Hf. unfold Lpspi_TransmitTxInit. rewrite (external_ok st Ha). cbn [res_bind]. cbv zeta. rewrite Hf.
  destruct (configure_clock_total st d Ha) as [d1 E]. rewrite E.
  destruct (is_type _ LPSPI_IP_HALF_DUPLEX_RECEIVE), (FirstCmd st), (SlaveMode _); cbn [negb]; cbv iota; cbn [res_bind];
    try destruct (has _ _); cbn [res_bind]; repeat port_step; by eexists.
Qed.
Lemma half_init_total st d len t :
  attached st -> TransferType (DeviceParams (dev_of st)) = t -> t <> LPSPI_IP_FULL_DUPLEX -> valid_len (dev_of st) len ->
  covers (if is_type (dev_of st) LPSPI_IP_HALF_DUPLEX_TRANSMIT then TxBuffer st else RxBuffer st) len ->
  exists st' d', half_duplex_init st d len t = Ok (st', d') /\ transfer_inv st' /\ ExternalDevice st' = ExternalDevice st /\
    (t = LPSPI_IP_HALF_DUPLEX_RECEIVE -> RxIndex st' <> ExpectedFifoReads st').
Proof.
  intros Ha Et Hne [Hlen Hchk] Hb. destruct (expected_frames_bytes _ len Hlen Hchk) as [En Hn]. unfold half_duplex_init.
  assert (is_type (dev_of st) LPSPI_IP_FULL_DUPLEX = false) as Hf by (unfold is_type; rewrite Et; by destruct t).
  destruct (half_tx_init_total st d len Ha Hf) as [d1 ->]. cbn [res_bind].
  set (nf := expected_frames (FrameSize (DeviceParams (dev_of st))) len) in *.
  assert (u16 nf = nf) as Hu by (apply u_small; unfold is_u; lia). rewrite Hu. set (st1 := st <| TxIndex := 0 |> <| ExpectedFifoWrites := nf |>).
  assert (ExternalDevice st1 = ExternalDevice st) as E1 by done. assert (dev_of st1 = dev_of st) as D1 by done.
  destruct t; [| |done].
  - change (bool_decide (LPSPI_IP_HALF_DUPLEX_TRANSMIT = LPSPI_IP_HALF_DUPLEX_RECEIVE)) with false. cbn [res_bind].
    eexists _, _. split; [done|]. split; [|done]. unfold transfer_inv. rewrite D1, Et. unfold is_type in Hb. rewrite Et in Hb. cbn in Hb.
    unfold tx_inv, step_of. rewrite D1. unfold st1. rsimpl. rewrite En. split_and!; try done; lia.
  - rewrite bool_decide_eq_true_2 by done. unfold Lpspi_TransmitRxInit. rewrite (external_ok st1 Ha). cbn [res_bind]. cbv zeta.
    rewrite D1, Hf. fold nf. rewrite Hu. eexists _, _. split; [done|]. unfold is_type in Hb. rewrite Et in Hb. cbn in Hb.
    set (st2 := _ <| ExpectedFifoReads := nf |>). assert (dev_of st2 = dev_of st) as D2 by done.
    split; [|split; [done|intros _; unfold st2; rsimpl; lia]]. unfold transfer_inv. rewrite D2, Et.
    unfold rx_inv, step_of. rewrite D2. unfold st2, st1. rsimpl. rewrite En. split_and!; try done; lia.
Qed.
Lemma transmit_half_ok g devs k st p buf len t cb :
  channel_ok (g, devs) k st -> permitted (g, devs) k (TransmitHalf p buf len t cb) ->
  event_ok k st 1 (run_event (g, devs) k (TransmitHalf p buf len t cb)).
Proof.
  intros Hc (dev & Hp & <- & Hv & Hb & Ht). pose proof Hv as [Hlen Hchk]. pose proof Hc as (Hk & (i & d & Hg & Hd) & Hi & Hcp).
  cbn [run_event fst snd] in *. unfold on_device. cbn [snd]. rewrite Hp. cbn [res_bind]. unfold Lpspi_Ip_AsyncTransmitHalfDuplex.
  destruct (Z.eqb_spec len 0); [lia|]. cbn [negb assert res_bind]. rewrite Hchk. cbn [res_bind]. rewrite Hg. cbn [res_bind]. rewrite Hd. cbn [res_bind].
  case_bool_decide.
  { cbn [res_bind]. destruct (store_set devs p dev dev Hp) as (devs' & Es & _). rewrite Es. rewrite (store_same _ _ _ _ Hp Es). by apply same_ok. }
  cbv zeta. set (dev' := set_type dev t). set (st0 := st <| Status := _ |> <| ExternalDevice := _ |>).
  destruct (half_prepare_total st0 d buf) as (st1 & d1 & -> & E1 & B1); [by eexists|]. cbn [res_bind].
  assert (ExternalDevice (st1 <| Callback := cb |>) = Some dev') as E1' by exact E1. pose proof (dev_of_some _ _ E1') as D1.
  destruct (half_init_total (st1 <| Callback := cb |>) d1 len t) as (st2 & d2 & -> & Hi2 & E2 & _);
    [by eexists|by rewrite D1|done|by rewrite D1|rewrite D1; change (dev_of st0) with dev' in B1; rsimpl; by rewrite B1|].
  cbn [res_bind]. unfold set_interrupts. repeat port_step.
  match goal with |- context [put_both _ _ _ ?s ?d'] => destruct (put_both_ok g _ i st d s d' Hg Hd) as (g' & -> & Hg' & Hd') end. cbn [res_bind].
  destruct (store_set devs p dev dev' Hp) as (devs' & -> & Hl). cbn [res_bind].
  eapply (started_ok _ _ _ _ _ _ _ p); [done..|]. by rewrite (dev_of_eq _ _ E2), D1.
Qed.

Lemma run_event_ok w k st e : channel_ok w k st -> permitted w k e -> event_ok k st (starts e) (run_event w k e).
Proof.
  destruct w as [g devs]. intros Hc Hv. destruct e; cbn [run_event starts]; [by apply transmit_ok|by apply transmit_half_ok|..].
  - destruct Hv as (dev & Hp & Hin & Hs). unfold Lpspi_Ip_UpdateFrameSize. destruct (Z.leb_spec size LPSPI_IP_FRAMESIZE_MAX_U16); [|lia].
    destruct (Z.leb_spec LPSPI_IP_FRAMESIZE_MIN_U16 size); [|lia]. by apply (update_ok _ _ _ _ _ dev).
  - destruct Hv as (dev & Hp & Hin). by apply (update_ok _ _ _ _ _ dev).
  - destruct Hv as (dev & Hp & Hin). by apply (update_ok _ _ _ _ _ dev).
  - destruct Hv as (i & st' & Hg & Ha). destruct (proj1 (proj2 Hc)) as (i' & d & Hg' & _). rewrite Hg in Hg'. injection Hg' as -> ->. by apply interrupt_ok.
  - destruct Hv as (i & st' & Hg & Ha). destruct (proj1 (proj2 Hc)) as (i' & d & Hg' & _). rewrite Hg in Hg'. injection Hg' as -> ->. by apply poll_ok.
  - by apply cancel_ok.
  - by apply set_mode_ok.
Qed.

(** C14: on any controller, whatever its registers answer, a channel of the driver runs
    without a fault: any sequence of asynchronous full- and half-duplex transfers with
    valid parameters on any number of devices, changes of these devices, interrupts,
    polls, cancels and mode changes returns; no access leaves a buffer, no assertion
    fails and no null pointer is followed.  A full-duplex transfer needs a device that
    no half-duplex transfer has turned into a half-duplex one, and interrupts and polls
    need a first transfer.  The transfer under way keeps its invariant and its device,
    and there are never more callbacks than transfers. *)
Theorem spi_channel_safe w k st es :
  channel_ok w k st -> permitted_run w k es ->
  exists calls w' st', run_events w k es = Ok (calls, w') /\ channel_ok w' k st' /\
    (length calls + pending st' <= pending st + list_sum (map starts es))%nat.
Proof.
  revert w st. induction es as [|e es IH]; intros w st Hc Hv; cbn [run_events].
  { eexists _, _, _. split; [done|]. split; [done|]. cbn. lia. }
  destruct Hv as [He Hes]. destruct (run_event_ok w k st e Hc He) as (calls & w1 & st1 & E1 & Hc1 & Hn1). rewrite E1. cbn [res_bind].
  destruct (IH w1 st1 Hc1 (Hes _ _ E1)) as (more & w2 & st2 & -> & Hc2 & Hn2). cbn [res_bind]. exists (calls ++ more), w2, st2.
  split; [done|]. split; [done|]. rewrite length_app.
  change (list_sum (map starts (e :: es))) with (starts e + list_sum (map starts es))%nat. lia.
Qed.
(** ** The time-out of the synchronous half-duplex transfer *)

Lemma sync_transmit_round_total st d : tx_inv st -> exists c st' d', sync_transmit_round st d = Ok (c, st', d').
Proof.
  intros Hi. unfold sync_transmit_round, tx_count. port_step. set (n := u8 (_ - _)). assert (is_u 8 n) as Hn by (apply u_range; lia). clearbody n.
  match goal with |- context [Lpspi_Ip_HalfDuplexTransmitProcess _ ?d _] => rename d into d1 end.
  assert (exists c st' d', (if negb (n =? 0) then Lpspi_Ip_HalfDuplexTransmitProcess st d1 n else Ok (false, st, d1)) = Ok (c, st', d')) as (c & st' & d' & ->).
  { destruct (negb (n =? 0)); [|by eexists _, _, _]. unfold Lpspi_Ip_HalfDuplexTransmitProcess. destruct (negb (_ =? _)).
    - destruct (half_push_total st d1 n Hi Hn) as (st1 & d2 & -> & _). by eexists _, _, _.
    - destruct (KeepCs st); cbn [negb]; [by eexists _, _, _|]. port_step. destruct (has _ _); [port_step|cbn [res_bind]]; by eexists _, _, _. }
  cbn [res_bind]. destruct (_ && _); [|by eexists _, _, _]. destruct (tx_empty_total d') as (b & d2 & ->). by eexists _, _, _.
Qed.
(** A controller that never has a frame for the driver. *)
Definition silent : Prop := forall d v d', reg_read d FSR = Ok (v, d') -> Z.land v LPSPI_FSR_RXCOUNT_MASK = 0.
Lemma silent_round st d :
  silent -> recv_inv st -> RxIndex st <> ExpectedFifoReads st ->
  exists st' d', sync_receive_round st d = Ok (false, st', d') /\ recv_inv st' /\ RxIndex st' <> ExpectedFifoReads st'.
Proof.
  intros Hq Hi Hne. pose proof Hi as [(_ & Hrx & _) _]. unfold sync_receive_round, receive_frames. destruct (read_total d FSR) as (v & d1 & E). rewrite E. cbn [res_bind].
  rewrite (Hq _ _ _ E), Z.shiftr_0_l. change (u8 0) with 0. cbv zeta. destruct (Z.ltb_spec (ExpectedFifoReads st - RxIndex st) 0); [lia|].
  cbn [Z.eqb negb res_bind]. destruct (push_command_total st d1 Hi) as (st' & d' & E' & Hi' & _). rewrite E'. cbn [res_bind].
  assert (RxIndex st' = RxIndex st /\ ExpectedFifoReads st' = ExpectedFifoReads st) as [R1 R2].
  { revert E'. unfold push_command. destruct (tx_empty_total d1) as (b & d2 & ->). cbn [res_bind].
    destruct (_ && _); [port_step|]; by intros [= <- _]. }
  exists st', d'. rewrite R1, R2. destruct (Z.eqb_spec (ExpectedFifoReads st) (RxIndex st)); [congruence|done].
Qed.
Lemma silent_loop fuel t st d :
  silent -> recv_inv st -> RxIndex st <> ExpectedFifoReads st -> 2 <= t -> half_duplex_loop fuel LPSPI_IP_HALF_DUPLEX_RECEIVE t st d = Ok None.
Proof.
  revert st d. induction fuel as [|fuel IH]; intros st d Hq Hi Hne Ht; [done|]. cbn [half_duplex_loop].
  rewrite bool_decide_eq_true_2 by done. destruct (silent_round st d Hq Hi Hne) as (st' & d' & -> & Hi' & Hne'). cbn [res_bind andb].
  change (u32 (0 + OsIf_Timer_Dummy_GetElapsed)) with 1. destruct (Z.leb_spec t 1); [lia|]. by apply IH.
Qed.
Lemma transmit_loop fuel t st d :
  tx_inv st -> t <= 1 -> exists st' d', half_duplex_loop (S fuel) LPSPI_IP_HALF_DUPLEX_TRANSMIT t st d = Ok (Some (LPSPI_IP_TIMEOUT, st', d')).
Proof.
  intros Hi Ht. cbn [half_duplex_loop]. destruct (sync_transmit_round_total st d Hi) as (c & st' & d' & E).
  assert (bool_decide (LPSPI_IP_HALF_DUPLEX_TRANSMIT = LPSPI_IP_HALF_DUPLEX_RECEIVE) = false) as -> by done. rewrite E. cbn [res_bind andb].
  change (u32 (0 + OsIf_Timer_Dummy_GetElapsed)) with 1. destruct (Z.leb_spec t 1); [|lia]. by eexists _, _.
Qed.
Lemma sync_half_start st d dev buf len t :
  t <> LPSPI_IP_FULL_DUPLEX -> valid_len dev len -> covers buf len -> TransferType (DeviceParams dev) = t ->
  exists st1 d1, (forall fuel timeout, sync_half_duplex fuel st d dev buf len t timeout
      = let! r := half_duplex_loop fuel t timeout st1 d1 in
        match r with
        | None => Ok None
        | Some (x, State, Base) =>
            Ok (Some (x, State <| Status := match x with LPSPI_IP_STATUS_SUCCESS => LPSPI_IP_IDLE | _ => LPSPI_IP_FAULT end |>, Base))
        end) /\ transfer_inv st1 /\ dev_of st1 = dev /\ (t = LPSPI_IP_HALF_DUPLEX_RECEIVE -> RxIndex st1 <> ExpectedFifoReads st1).
Proof.
  intros Ht Hv Hb Et. unfold sync_half_duplex, OsIf_Timer_Dummy_MicrosToTicks. cbv zeta. set (st0 := st <| Status := _ |> <| ExternalDevice := Some dev |>).
  destruct (half_prepare_total st0 d buf) as (st1 & d1 & -> & E1 & B1); [by eexists|]. cbn [res_bind]. change (dev_of st0) with dev in B1.
  pose proof (dev_of_some st1 dev E1) as D1. do 2 port_step.
  match goal with |- context [half_duplex_init _ ?d _ _] =>
    destruct (half_init_total st1 d len t) as (st2 & d2 & -> & Hi & E2 & Hr); [by exists dev|by rewrite D1|done|by rewrite D1|by rewrite D1, B1|] end.
  exists st2, d2. split; [done|]. split; [done|]. by rewrite (dev_of_eq _ _ E2), D1.
Qed.

(** C37: the synchronous half-duplex transfer restarts its time-out in every round.  A
    time-out of at least two ticks never comes: on a controller without an answer a
    receive call never returns.  A time-out of one tick always comes: a transmit
    call reports it, and leaves the channel in the fault state, after its first round,
    even when that sent every frame. *)
Theorem half_duplex_deadline fuel g dev buf len timeout i st d :
  valid_len dev len -> covers buf len -> get_state g (Instance_ dev) = Ok (i, st) -> load (apxBases g) (Instance_ dev) = Ok d ->
  Status st <> LPSPI_IP_BUSY ->
  (silent -> 2 <= timeout -> Lpspi_Ip_SyncTransmitHalfDuplex fuel g dev buf len LPSPI_IP_HALF_DUPLEX_RECEIVE timeout = Ok None) /\
  (timeout <= 1 -> exists dev' g' st', Lpspi_Ip_SyncTransmitHalfDuplex (S fuel) g dev buf len LPSPI_IP_HALF_DUPLEX_TRANSMIT timeout
     = Ok (Some (LPSPI_IP_TIMEOUT, buf, dev', g')) /\ get_state g' (Instance_ dev) = Ok (i, st') /\ Status st' = LPSPI_IP_FAULT).
Proof.
  intros Hv Hb Hg Hd Hidle. pose proof Hv as [Hlen Hchk]. unfold Lpspi_Ip_SyncTransmitHalfDuplex.
  destruct (Z.eqb_spec len 0); [lia|]. cbn [negb assert res_bind]. rewrite Hchk. cbn [res_bind]. rewrite Hg. cbn [res_bind]. rewrite Hd. cbn [res_bind].
  rewrite bool_decide_eq_false_2 by done. cbv zeta. split.
  - intros Hq Ht. destruct (sync_half_start st d (set_type dev LPSPI_IP_HALF_DUPLEX_RECEIVE) buf len LPSPI_IP_HALF_DUPLEX_RECEIVE)
      as (st1 & d1 & -> & Hi & E1 & Hne); [done..|]. unfold transfer_inv in Hi. rewrite E1 in Hi. rewrite silent_loop by auto. done.
  - intros Ht. destruct (sync_half_start st d (set_type dev LPSPI_IP_HALF_DUPLEX_TRANSMIT) buf len LPSPI_IP_HALF_DUPLEX_TRANSMIT)
      as (st1 & d1 & -> & Hi & E1 & _); [done..|]. unfold transfer_inv in Hi. rewrite E1 in Hi.
    destruct (transmit_loop fuel timeout st1 d1 Hi Ht) as (st2 & d2 & ->). cbn [res_bind].
    match goal with |- context [put_both _ _ _ ?s ?d'] => destruct (put_both_ok g _ i st d s d' Hg Hd) as (g' & -> & Hg' & Hd') end.
    cbn [res_bind]. eexists _, g', _. split; [done|]. by split; [exact Hg'|].
Qed.
End safety.
(** The masks as the reference manual has them. *)
#[global] Instance s32k358_flags : LpspiFlags := {|
  LPSPI_SR_TDF_MASK := 0x1; LPSPI_SR_RDF_MASK := 0x2; LPSPI_SR_WCF_MASK := 0x100; LPSPI_SR_FCF_MASK := 0x200;
  LPSPI_SR_TCF_MASK := 0x400; LPSPI_SR_TEF_MASK := 0x800; LPSPI_SR_REF_MASK := 0x1000; LPSPI_SR_DMF_MASK := 0x2000;
  LPSPI_IER_TDIE_MASK := 0x1; LPSPI_IER_RDIE_MASK := 0x2; LPSPI_IER_TEIE_MASK := 0x800; LPSPI_IER_REIE_MASK := 0x1000;
  LPSPI_FSR_TXCOUNT_MASK := 0x7; LPSPI_FSR_TXCOUNT_SHIFT := 0;
  LPSPI_CFGR1_PCSCFG_MASK := 0x18000000; LPSPI_CFGR1_OUTCFG_MASK := 0x4000000; LPSPI_CFGR1_PINCFG_MASK := 0x3000000 |}.

Definition dead_driver : driver dead := mkDriver [None; None; Some 0] [demo_state] [tt; tt; tt].
(** Two devices; the second is turned into a half-duplex one. *)
Definition dead_events : list event :=
  [Transmit 0 (Some [1; 2]) None 2 (Some 7); Interrupt; Transmit 0 None None 1 None; Cancel; SetFrameSize 0 16;
   TransmitHalf 1 (Some [5]) 1 LPSPI_IP_HALF_DUPLEX_RECEIVE (Some 8); Poll; Cancel; Transmit 0 (Some [3; 4]) None 2 None; Poll].
Lemma spi_channel_safe_witness :
  exists calls w', run_events (dead_driver, [demo_external; demo_external]) 2 dead_events = Ok (calls, w') /\ (length calls <= 4)%nat.
Proof.
  destruct (spi_channel_safe (D := dead) (dead_driver, [demo_external; demo_external]) 2 demo_state dead_events) as (calls & w' & st' & E & _ & Hn).
  - split; [by split|]. split; [by exists 0, tt|]. split; [done|]. by intros [? ?].
  - apply permittedb_run_ok. vm_compute. exact eq_refl.
  - exists calls, w'. split; [exact E|]. rewrite (pending_idle demo_state) in Hn by done. change (list_sum _) with 4%nat in Hn. lia.
Defined.

Lemma half_duplex_deadline_witness :
  Lpspi_Ip_SyncTransmitHalfDuplex 1000 dead_driver demo_external (Some [0]) 1 LPSPI_IP_HALF_DUPLEX_RECEIVE 5 = Ok None /\
  exists dev' g', Lpspi_Ip_SyncTransmitHalfDuplex 3 dead_driver demo_external (Some [1]) 1 LPSPI_IP_HALF_DUPLEX_TRANSMIT 1
    = Ok (Some (LPSPI_IP_TIMEOUT, Some [1], dev', g')).
Proof.
  assert (valid_len demo_external 1) as Hv by (by split). split.
  - apply (half_duplex_deadline (D := dead) 1000 dead_driver demo_external (Some [0]) 1 5 0 demo_state tt Hv); try done.
    by intros d v d' [= <- _].
  - destruct (half_duplex_deadline (D := dead) 2 dead_driver demo_external (Some [1]) 1 1 0 demo_state tt Hv) as [_ Ht]; try done.
    destruct Ht as (dev' & g' & st' & E & _); [done|]. by exists dev', g'.
Defined.
End SpiAsyncSafety.
