(* ===== verification/SpiAsyncProps.v ===== *)
(** * Interrupt-driven transfers on the LPSPI controller

    The driver of [SpiAsync.v] on the controller model: the interrupt line stays high
    until the handler has moved every byte. *)

From S2P Require Import Prelude Words Fifo Ssi Lpspi LpspiSpec LpspiProps SpiDriver SpiDriverProps SpiExchange SpiSystem SpiAsync SpiAsyncSafety.
From stdpp Require Import list.
#[local] Open Scope Z_scope.
Import Fifo8 Lpspi LpspiSpec LpspiQueue SpiDriver SpiDriverSafety SpiExchange SpiSystem SpiAsync SpiAsyncSafety.

(** The masks of the register header. *)
Class DocumentedFlags `{LpspiFlags} : Prop := {
  doc_tdf : LPSPI_SR_TDF_MASK = 0x1;
  doc_rdf : LPSPI_SR_RDF_MASK = 0x2;
  doc_tef : LPSPI_SR_TEF_MASK = 0x800;
  doc_ref : LPSPI_SR_REF_MASK = 0x1000;
  doc_tdie : LPSPI_IER_TDIE_MASK = 0x1;
  doc_rdie : LPSPI_IER_RDIE_MASK = 0x2;
  doc_teie : LPSPI_IER_TEIE_MASK = 0x800;
  doc_reie : LPSPI_IER_REIE_MASK = 0x1000;
  doc_txcount : LPSPI_FSR_TXCOUNT_MASK = 0x7 /\ LPSPI_FSR_TXCOUNT_SHIFT = 0;
  doc_half_duplex : half_duplex_cfgr1 = 0x1F000000;
}.

Module SpiAsyncProps.

Section async.
Context {B : Type} `{SpiBus B} `{DocumentedHeader} `{DocumentedFlags}.
Abbreviation state := (NXPS32K358LPSPIState (B := B)).
Implicit Types s : state.

(** ** The controller with its interrupt line *)

Definition enabled : Z := 0x1803.
(** Ready for bytes, without errors, and the line is high because there is room to send. *)
Record serving s : Prop := {
  se_ready : byte_ready s;
  se_tef : Z.testbit (lpspi_sr s) 11 = false;
  se_ier : lpspi_ier s = enabled;
  se_water : 0 <= tx_watermark s;
  se_irq : irq s = true;
}.

Lemma tdf_set s :
  lpspi_core (refresh s) -> contents (tx_fifo s) = [] -> 0 <= tx_watermark s -> Z.testbit (status_sr s) 0 = true.
Proof.
  intros Hc Htx Hw. pose proof (length_contents _ (ok_tx _ Hc)) as Hl. pose proof (core_frame _ Hc). pose proof (ok_tx_cap _ Hc) as Hcap.
  change (tx_fifo (refresh s)) with (tx_fifo s) in *. change (lpspi_tcr (refresh s)) with (lpspi_tcr s) in *. rewrite Htx in Hl. cbn [length Z.of_nat] in Hl.
  unfold status_sr, tx_words. rewrite <- Hl, Z.div_0_l by lia. change (u8 0) with 0.
  destruct (Z.leb_spec 0 (tx_watermark s)); [|lia]. unfold fifo8_num_free. rewrite Hcap, <- Hl.
  change (4 <=? u32 _) with true. unfold LPSPI_SR_TDF, LPSPI_SR_RDF.
  destruct (_ <? _); rewrite ?flag_other by done; by rewrite flag_bit.
Qed.
Lemma irq_high s : Z.testbit (lpspi_sr s) 0 = true -> lpspi_ier s = enabled -> irq_level s = true.
Proof.
  intros Hb Hi. unfold irq_level, has. rewrite Hi. apply negb_true_iff, Z.eqb_neq. intros E.
  apply (f_equal (fun z => Z.testbit z 0)) in E. by rewrite !Z.land_spec, Hb in E.
Qed.
Lemma update_status_inv s s' : lpspi_update_status s = Ok s' -> s' = refresh s.
Proof.
  destruct (decide (tcr_frame_bytes (lpspi_tcr s) = 0)); [by rewrite update_status_fault|]. rewrite update_status_eq by done. congruence.
Qed.
Lemma update_irq_inv s s' : lpspi_update_irq s = Ok s' -> s' = refresh_irq s.
Proof. unfold lpspi_update_irq. intros (s1 & ->%update_status_inv & [= <-])%res_bind_ok. done. Qed.
(** After a write, which refreshes the line. *)
Lemma serving_line s :
  byte_ready (refresh_irq s) -> Z.testbit (lpspi_sr s) 11 = false -> lpspi_ier s = enabled -> 0 <= tx_watermark s ->
  serving (refresh_irq s).
Proof.
  intros Hr Ht Hi Hw. split; try done; [change (Z.testbit (status_sr s) 11 = false); by rewrite status_sr_other|].
  change (irq (refresh_irq s)) with (irq_level (refresh s)). apply irq_high; [|done]. apply tdf_set; [|apply (br_tx _ Hr)|done].
  pose proof (proj1 (br_ok _ Hr)) as Hc. by apply (core_irq _ (irq s)) in Hc.
Qed.
Lemma serving_written s s' :
  lpspi_update_irq s = Ok s' -> byte_ready s' -> Z.testbit (lpspi_sr s') 11 = false -> lpspi_ier s' = enabled -> 0 <= tx_watermark s' ->
  serving s'.
Proof.
  intros ->%update_irq_inv Hr Ht Hi Hw. split; try done.
  change (irq (refresh_irq s)) with (irq_level (refresh s)). apply irq_high; [|done]. apply tdf_set; [|apply (br_tx _ Hr)|done].
  pose proof (proj1 (br_ok _ Hr)) as Hc. by apply (core_irq _ (irq s)) in Hc.
Qed.
Lemma serving_refresh s : serving s -> serving (refresh s).
Proof.
  intros [Hr Ht Hi Hw Hl]. pose proof (br_ok s Hr) as Hok. split; try done.
  - apply (byte_ready_config s); [done|by apply refresh_ok, Hok|done|apply Hr].
  - unfold refresh. rsimpl. by rewrite status_sr_other.
Qed.

Lemma serving_put s v :
  serving s -> (length (contents (rx_fifo s)) < 16)%nat ->
  exists s', reg_write s TDR v = Ok s' /\ serving s' /\
    contents (rx_fifo s') = contents (rx_fifo s) ++ [(send (ssi s) (u8 v)).1] /\ ssi s' = (send (ssi s) (u8 v)).2.
Proof.
  intros [Hr Ht Hi Hw _] Hl. destruct (put_byte s v Hr Hl) as (s' & E & Hr' & Hrx & Hb). exists s'. split; [done|]. split; [|done].
  destruct (put_refines s v (br_ok s Hr)) as (s1 & E1 & _ & Hcfg & Hspi); [unfold LPSPI_CR_MEN; rewrite has_BIT by lia; apply Hr|].
  assert (s1 = s') as -> by (cbn [reg_write lpspi_port] in E; change (reg_offset TDR) with 0x64 in E; congruence).
  apply config_eq in Hcfg as (_ & _ & _ & _ & Hi' & Hw' & _).
  assert (exists s0, lpspi_update_irq s0 = Ok s') as [s0 E0].
  { revert E1. unfold nxps32k358_lpspi_write. change (decode 0x64) with (Some TDR). cbn match. intros ([early s2] & E2 & E3)%res_bind_ok.
    destruct early; [|by eauto]. injection E3 as ->. revert E2. unfold write_tdr. repeat case_match; try done; intros (s3 & E3 & E4)%res_bind_ok.
    - injection E4 as ->. by eauto.
    - by apply res_bind_ok in E4 as (s4 & _ & [=]). }
  apply (serving_written s0); [done|done| |congruence|lia].
  assert (q_err (spi_of s') = q_err (spi_of s)) as Hq.
  { rewrite Hspi. unfold spi_put, spi_move. rewrite byte_ready_cfg by done. unfold spi_of. rewrite (br_tx s Hr).
    cbn [c_len c_lsbf c_rxmsk c_loop q_tx q_rx q_bus q_err length app Nat.add]. rewrite bool_decide_eq_true_2 by lia.
    destruct (_ && _); [|done]. by destruct (ssi_exchange _ _). }
  unfold spi_of in Hq. cbn [q_err] in Hq. congruence.
Qed.
Lemma serving_get s v q :
  serving s -> contents (rx_fifo s) = v :: q ->
  exists s', reg_read s RDR = Ok (v, s') /\ serving s' /\ contents (rx_fifo s') = q /\ ssi s' = ssi s.
Proof.
  intros [Hr Ht Hi Hw Hl] Hq. destruct (get_byte s v q Hr Hq) as (s' & E & Hr' & Hrx & Hb). exists s'. split; [done|]. split; [|done].
  destruct (get_refines s (br_ok s Hr)) as (w & s1 & E1 & _ & Hcfg & Hspi).
  assert (s1 = s') as -> by (cbn [reg_read lpspi_port] in E; change (reg_offset RDR) with 0x74 in E; congruence).
  apply config_eq in Hcfg as (_ & _ & _ & _ & Hi' & Hw' & _). split; [done| |congruence|lia|].
  - apply (f_equal (fun z => q_err z.2)) in Hspi. unfold spi_get, spi_of in Hspi. cbn [snd q_err] in Hspi. congruence.
  - revert E1. unfold nxps32k358_lpspi_read. rewrite core_update_status by apply (br_ok s Hr). cbn [res_bind].
    change (decode 0x74) with (Some RDR). cbn match. unfold read_rdr. case_match; [by intros [= _ <-]|].
    by intros ([ret f] & _ & (s2 & ->%update_status_inv & [= _ <-])%res_bind_ok)%res_bind_ok.
Qed.
(** Registers that are read, and flags that are acknowledged. *)
Lemma serving_read s r :
  serving s -> r <> RDR -> r <> TDR ->
  exists v, reg_read s r = Ok (v, refresh s) /\ serving (refresh s) /\ is_u 32 v /\
    match r with SR => v = status_sr s | IER => v = enabled | TCR => v = lpspi_tcr s | CR => v = lpspi_cr s | _ => True end.
Proof.
  intros Hs Hr Ht. destruct (read_reg s r (br_ok s (se_ready s Hs)) Hr Ht) as (v & E & _ & _ & Hu & Hv). exists v.
  split; [done|]. split; [by apply serving_refresh|]. split; [done|]. destruct r; try done.
  - cbn [reg_read lpspi_port] in E. unfold nxps32k358_lpspi_read in E. rewrite core_update_status in E by apply (br_ok s (se_ready s Hs)).
    by injection E as <-.
  - cbn [reg_read lpspi_port] in E. unfold nxps32k358_lpspi_read in E. rewrite core_update_status in E by apply (br_ok s (se_ready s Hs)).
    injection E as <-. apply (se_ier s Hs).
Qed.
Lemma serving_sr s v :
  serving s -> exists s', reg_write s SR v = Ok s' /\ serving s' /\ contents (rx_fifo s') = contents (rx_fifo s) /\ ssi s' = ssi s.
Proof.
  intros [Hr Ht Hi Hw Hl]. destruct (write_plain s SR v (br_ok s Hr)) as (s' & E & Hok & Hv); [tauto|]. exists s'. split; [done|].
  injection Hv as E1 E2 E3 E4 E5 E6 E7. split; [|done]. pose proof E as E0. cbn [reg_write lpspi_port] in E0. unfold nxps32k358_lpspi_write in E0.
  change (decode (reg_offset SR)) with (Some SR) in E0. cbn match in E0. pose proof (update_irq_inv _ _ E0) as ->.
  eapply serving_written; [exact E0| | |done|done].
  - destruct Hr. split; unfold rxmsk, loopback in *; rewrite ?E1, ?E4, ?E5, ?E6; done.
  - change (Z.testbit (status_sr (s <| lpspi_sr := clear_bits (lpspi_sr s) (u32 v) |>)) 11 = false). rewrite status_sr_other by lia. rsimpl.
    unfold clear_bits. by rewrite Z.ldiff_spec, Ht.
Qed.
Lemma serving_end s :
  serving s -> exists s', reg_modify s TCR (fun v => Z.ldiff v (Z.lor LPSPI_TCR_CONT_MASK LPSPI_TCR_CONTC_MASK)) = Ok s' /\
    serving s' /\ contents (rx_fifo s') = contents (rx_fifo s) /\ ssi s' = ssi s.
Proof.
  intros [Hr Ht Hi Hw Hl]. destruct (end_command_line s Hr) as (s' & E & Hr' & Hrx & Hb & s0 & Es & F1 & F2 & F3).
  exists s'. split; [done|]. split; [|done]. rewrite Es in *. apply (serving_line s0); [done|by rewrite F1, status_sr_other|congruence|lia].
Qed.

#[local] Instance irq_exchange : ByteExchange state B.
Proof.
  refine {| be_ok := serving; be_rx s := contents (rx_fifo s); be_bus := ssi; be_send := send |}.
  - intros b v. unfold send. destruct (ssi_exchange b v). by apply u_range.
  - apply serving_put.
  - apply serving_get.
  - intros s Hs Hl. destruct (count_bytes s (se_ready s Hs) Hl) as (v & s' & E & Hv & _ & Hrx & Hb).
    destruct (serving_read s FSR Hs) as (v' & E' & Hs' & _); [done..|]. rewrite E in E'. injection E' as <- ->. by exists v, (refresh s).
  - intros s Hs. destruct (serving_read s TCR Hs) as (v & E & Hs' & _); [done..|]. by exists v, (refresh s).
  - apply serving_end.
Defined.

(** ** The process function *)

Lemma async_transmit_eq st s :
  ExpectedFifoWrites st <> TxIndex st ->
  async_transmit_step st s = let! '(st', s', _) := transmit_step st s 0 in Ok (st', s').
Proof.
  intros Hne. unfold async_transmit_step, transmit_step. destruct (_ =? 0); cbn [negb]; [done|].
  destruct (Z.eqb_spec (ExpectedFifoWrites st) (TxIndex st)); [done|]. cbn [negb]. cbv zeta.
  by destruct (Lpspi_Ip_PushDataToFifo _ _ _) as [[st1 s1]|].
Qed.
Lemma flags_ok s :
  serving s -> exists sr s', take_flags s = Ok (sr, s') /\ has sr (Z.lor LPSPI_SR_REF_MASK LPSPI_SR_TEF_MASK) = false /\
    serving s' /\ contents (rx_fifo s') = contents (rx_fifo s) /\ ssi s' = ssi s.
Proof.
  intros Hs. unfold take_flags, reg_modify. destruct (serving_read s SR Hs) as (v & -> & Hs1 & _ & ->); [done..|]. cbn [res_bind].
  destruct (serving_read _ SR Hs1) as (v & -> & Hs2 & _ & _); [done..|]. cbn [res_bind].
  destruct (serving_sr _ (Z.land v LPSPI_IP_SR_W1C_MASK_U32) Hs2) as (s' & -> & Hs' & Hrx & Hb). cbn [res_bind].
  eexists _, s'. split; [done|]. split; [|done]. rewrite doc_ref, doc_tef. change (Z.lor 0x1000 0x800) with (Z.lor (BIT 12) (BIT 11)).
  rewrite has_lor_mask, !has_BIT, !status_sr_other, (se_tef s Hs) by lia. by rewrite (ok_ref s (proj1 (br_ok s (se_ready s Hs)))).
Qed.
Lemma synced_at b0 rx0 n r t st s s' :
  synced b0 rx0 n r t st s -> serving s' -> contents (rx_fifo s') = contents (rx_fifo s) -> ssi s' = ssi s -> synced b0 rx0 n r t st s'.
Proof. intros [] Hs Hrx Hb. split; try done; cbn [be_rx be_bus irq_exchange] in *; congruence. Qed.


Lemma process_more b0 rx0 n r t k st s :
  synced b0 rx0 n r t st s -> (r < t \/ t = 0)%nat -> (t < n)%nat -> Status st = LPSPI_IP_BUSY ->
  exists st' s' m, Lpspi_Ip_TransferProcess k st s = Ok (st', s', []) /\ (0 < m)%nat /\ synced b0 rx0 n t (t + m) st' s' /\ setup st' = setup st.
Proof.
  intros Hs Hrt Hn Hb. unfold Lpspi_Ip_TransferProcess. rewrite bool_decide_eq_true_2 by done.
  destruct (flags_ok s (sy_ok _ _ _ _ _ _ _ Hs)) as (sr & s1 & -> & Hsr & Hs1 & Hrx1 & Hb1). cbn [res_bind]. rewrite Hsr.
  pose proof (synced_at _ _ _ _ _ _ _ _ Hs Hs1 Hrx1 Hb1) as Hy.
  assert (exists st1 s2 e, receive_step st s1 0 = Ok (st1, s2, e) /\ synced b0 rx0 n t t st1 s2 /\ setup st1 = setup st) as (st1 & s2 & e & -> & Hy2 & F2).
  { destruct Hrt as [Hrt| ->]; [destruct (receive_synced _ _ _ _ _ _ _ 0 Hy Hrt) as (st1 & s2 & E & ? & ?); by eexists _, _, _|].
    pose proof (sy_le _ _ _ _ _ _ _ Hy). assert (r = 0%nat) as -> by lia. destruct (receive_first _ _ _ _ _ 0 Hy) as (s2 & E & ?). by eexists _, _, _. }
  cbn [res_bind]. rewrite async_transmit_eq by (rewrite (sy_writes _ _ _ _ _ _ _ Hy2), (sy_t _ _ _ _ _ _ _ Hy2); lia).
  destruct (transmit_synced _ _ _ _ _ _ 0 Hy2 Hn) as (st3 & s3 & m & -> & Hm & Hy3 & F3). cbn [res_bind].
  rewrite (sy_r _ _ _ _ _ _ _ Hy3), (sy_reads _ _ _ _ _ _ _ Hy3). destruct (Z.eqb_spec (Z.of_nat t) (Z.of_nat n)); [lia|]. cbn [orb].
  exists st3, s3, m. split_and!; [done..|congruence].
Qed.

(** The end of the transfer: interrupts and controller are switched off. *)
Lemma byte_ready_view s s' : byte_ready s -> lpspi_ok s' -> view s' = view s -> byte_ready s'.
Proof.
  intros [] Hok [= E1 E2 E3 E4 E5 E6 E7]. unfold rxmsk, loopback in *. split; unfold rxmsk, loopback; by rewrite ?E1, ?E4, ?E5, ?E6.
Qed.
Lemma last_transmit st s :
  serving s -> CurrentTxFifoSlot st <> 0 -> ExpectedFifoWrites st = TxIndex st ->
  exists s', async_transmit_step st s = Ok (st, s') /\ byte_ready s' /\ ssi s' = ssi s.
Proof.
  intros Hs Hslot Hw. unfold async_transmit_step. destruct (Z.eqb_spec (CurrentTxFifoSlot st) 0); [done|]. rewrite Hw, Z.eqb_refl. cbn [negb].
  unfold reg_modify at 1. destruct (serving_read s IER Hs) as (v & -> & Hs1 & _); [done..|]. cbn [res_bind].
  destruct (write_plain (refresh s) IER (Z.ldiff v LPSPI_IER_TDIE_MASK) (br_ok _ (se_ready _ Hs1))) as (s2 & -> & Hok2 & Hv2); [tauto|]. cbn [res_bind].
  pose proof (byte_ready_view _ _ (se_ready _ Hs1) Hok2 Hv2) as Hr2. injection Hv2 as _ _ Hb2 _ _ _ _.
  destruct (KeepCs st); cbn [negb]; [by exists s2|].
  destruct (read_reg s2 TCR Hok2) as (w & -> & Hok3 & Hv3 & _); [done..|]. cbn [res_bind].
  pose proof (byte_ready_view _ _ Hr2 Hok3 Hv3) as Hr3. destruct (has w _); [|by exists (refresh s2)].
  destruct (end_command _ Hr3) as (s4 & -> & Hr4 & _ & Hb4). cbn [res_bind]. exists s4. split; [done|]. split; [done|]. rewrite Hb4. exact Hb2.
Qed.
Lemma switch_off s (off : bool) :
  byte_ready s ->
  exists s', (let! s := if off then reg_modify s CR (fun v => Z.ldiff v LPSPI_CR_MEN_MASK) else Ok s in reg_write s IER 0) = Ok s' /\
    lpspi_ok s' /\ loopback s' = false /\ irq s' = false /\ ssi s' = ssi s /\ num_cs_lines s' = num_cs_lines s.
Proof.
  intros Hr. pose proof (br_ok s Hr) as Hok.
  assert (exists s1, (if off then reg_modify s CR (fun v => Z.ldiff v LPSPI_CR_MEN_MASK) else Ok s) = Ok s1 /\ lpspi_ok s1 /\
    loopback s1 = false /\ ssi s1 = ssi s /\ num_cs_lines s1 = num_cs_lines s) as (s1 & -> & Hok1 & Hl1 & Hb1 & Hn1).
  { destruct off; [|exists s; destruct Hr; by split_and!]. rewrite doc_men. destruct (cr_bits s Hok) as (B1 & B8 & B9).
    destruct (modify_cr s (fun v => Z.ldiff v 1) Hok) as (s1 & -> & Hok1 & Hv1);
      [apply is_u_ldiff; [lia|by apply cr_u32]|by rewrite Z.ldiff_spec, B1|].
    injection Hv1 as _ _ E3 _ _ E6 E7. exists s1. split_and!; try done. unfold loopback. rewrite E6. apply (br_loop s Hr). }
  cbn [res_bind]. destruct (write_plain s1 IER 0 Hok1) as (s2 & E & Hok2 & [= _ _ F3 _ _ F6 F7]); [tauto|]. exists s2. split; [done|]. split; [done|].
  split; [unfold loopback in *; by rewrite F6|]. split; [|split; congruence].
  cbn [reg_write lpspi_port] in E. unfold nxps32k358_lpspi_write in E. change (decode (reg_offset IER)) with (Some IER) in E. cbn match in E.
  apply update_irq_inv in E as ->. change (irq_level (refresh (s1 <| lpspi_ier := 0 |>)) = false). unfold irq_level.
  change (lpspi_ier (refresh (s1 <| lpspi_ier := 0 |>))) with 0. by rewrite Z.land_0_r.
Qed.

Lemma synced_plain b0 rx0 n r t st s :
  synced b0 rx0 n r t st s -> synced (H1 := lpspi_exchange) b0 rx0 n r t st s.
Proof. intros []. split; try done. by apply se_ready. Qed.
Definition end_call (f : option Z) (k : Z) : list call :=
  match f with Some f => [(f, k, LPSPI_IP_EVENT_END_TRANSFER)] | None => [] end.
Lemma process_last b0 rx0 n r k st s :
  synced b0 rx0 n r n st s -> (r < n)%nat -> Status st = LPSPI_IP_BUSY ->
  exists st1 s1 st' s', Lpspi_Ip_TransferProcess k st s = Ok (st', s', end_call (Callback st) k) /\
    synced b0 rx0 n n n st1 s1 /\ setup st1 = setup st /\ st' = st1 <| Status := LPSPI_IP_IDLE |> /\
    lpspi_ok s' /\ loopback s' = false /\ irq s' = false /\ ssi s' = ssi s1.
Proof.
  intros Hs Hrt Hb. unfold Lpspi_Ip_TransferProcess. rewrite bool_decide_eq_true_2 by done.
  destruct (flags_ok s (sy_ok _ _ _ _ _ _ _ Hs)) as (sr & s1 & -> & Hsr & Hs1 & Hrx1 & Hb1). cbn [res_bind]. rewrite Hsr.
  pose proof (synced_at _ _ _ _ _ _ _ _ Hs Hs1 Hrx1 Hb1) as Hy. destruct (receive_synced _ _ _ _ _ _ _ 0 Hy Hrt) as (st1 & s2 & -> & Hy2 & F2). cbn [res_bind].
  pose proof (sy_slot _ _ _ _ _ _ _ Hy2) as Hslot. rewrite decide_False in Hslot by lia.
  destruct (last_transmit st1 s2 (sy_ok _ _ _ _ _ _ _ Hy2)) as (s3 & -> & Hr3 & Hb3);
    [lia|by rewrite (sy_writes _ _ _ _ _ _ _ Hy2), (sy_t _ _ _ _ _ _ _ Hy2)|]. cbn [res_bind].
  rewrite (sy_r _ _ _ _ _ _ _ Hy2), (sy_reads _ _ _ _ _ _ _ Hy2), Z.eqb_refl. cbn [orb]. rewrite orb_false_r.
  destruct (switch_off s3 (negb (KeepCs st1)) Hr3) as (s4 & E & Hok4 & Hl4 & Hi4 & Hb4 & _).
  apply res_bind_ok in E as (s5 & -> & E). cbn [res_bind]. rewrite E. cbn [res_bind]. unfold Lpspi_Ip_ChannelFinished.
  assert (Callback st1 = Callback st) as -> by (unfold setup in F2; congruence).
  eexists st1, s2, _, s4. split; [by destruct (Callback st)|]. split_and!; try done. congruence.
Qed.

(** ** The interrupt handler, as long as the line is high *)

Fixpoint serve (fuel : nat) (g : driver state) (k : Z) : res (list call * driver state) :=
  match fuel with
  | O => Ok ([], g)
  | S fuel =>
      let! s := load (apxBases g) k in
      if irq s then
        let! '(calls, g) := Lpspi_Ip_IrqHandler g k in
        let! '(more, g) := serve fuel g k in Ok (calls ++ more, g)
      else Ok ([], g)
  end.

Lemma spi_handler_ok g k i st s :
  get_state g k = Ok (i, st) -> load (apxBases g) k = Ok s -> serving s ->
  exists s1, Lpspi_Ip_IrqHandler g k = process g k i st s1 /\ serving s1 /\ contents (rx_fifo s1) = contents (rx_fifo s) /\ ssi s1 = ssi s.
Proof.
  intros Hg Hl Hs. unfold Lpspi_Ip_IrqHandler. rewrite Hl. cbn [res_bind]. unfold get_state in Hg.
  apply res_bind_ok in Hg as ([j|] & -> & Hg); [|done]. cbn [res_bind]. apply res_bind_ok in Hg as (st0 & -> & [= <- <-]). cbn [res_bind].
  destruct (serving_read s SR Hs) as (v & -> & Hs1 & _ & ->); [done..|]. cbn [res_bind].
  destruct (serving_read _ IER Hs1) as (v & -> & Hs2 & _ & ->); [done..|]. cbn [res_bind]. exists (refresh (refresh s)).
  split; [|done]. set (f := Z.land (Z.land _ _) _). destruct (Z.eqb_spec f 0) as [E|]; [|done]. exfalso.
  apply (f_equal (fun z => Z.testbit z 0)) in E. unfold f in E. rewrite doc_tdf, doc_tdie, !Z.land_spec, !Z.lor_spec in E.
  rewrite tdf_set in E; [done|apply refresh_core, (br_ok s (se_ready s Hs))|apply (br_tx s (se_ready s Hs))|apply Hs].
Qed.

Lemma serve_idle fuel g k s : load (apxBases g) k = Ok s -> irq s = false -> serve fuel g k = Ok ([], g).
Proof. intros Hl Hi. destruct fuel; [done|]. cbn [serve]. rewrite Hl. cbn [res_bind]. by rewrite Hi. Qed.
Lemma serve_ok fuel b0 rx0 n r t g k i st s :
  get_state g k = Ok (i, st) -> load (apxBases g) k = Ok s -> synced b0 rx0 n r t st s -> (r < t \/ t = 0)%nat -> (0 < n)%nat ->
  Status st = LPSPI_IP_BUSY -> is_type (dev_of st) LPSPI_IP_FULL_DUPLEX = true -> (n - t + 2 <= fuel)%nat ->
  exists g' st1 s1 s', serve fuel g k = Ok (end_call (Callback st) k, g') /\
    synced b0 rx0 n n n st1 s1 /\ setup st1 = setup st /\ get_state g' k = Ok (i, st1 <| Status := LPSPI_IP_IDLE |>) /\
    load (apxBases g') k = Ok s' /\ lpspi_ok s' /\ loopback s' = false /\ irq s' = false /\ ssi s' = ssi s1.
Proof.
  revert g st s r t. induction fuel as [|fuel IH]; intros g st s r t Hg Hl Hs Hrt Hn Hb Hty Hf; [lia|].
  cbn [serve]. rewrite Hl. cbn [res_bind]. rewrite (se_irq s (sy_ok _ _ _ _ _ _ _ Hs)).
  destruct (spi_handler_ok g k i st s Hg Hl (sy_ok _ _ _ _ _ _ _ Hs)) as (s1 & -> & Hs1 & Hrx1 & Hb1).
  pose proof (synced_at _ _ _ _ _ _ _ _ Hs Hs1 Hrx1 Hb1) as Hy. unfold process. rewrite (external_ok st (proj1 (sy_step _ _ _ _ _ _ _ Hs))). cbn [res_bind]. rewrite Hty.
  destruct (decide (t < n)%nat) as [Hlt|Hge].
  - destruct (process_more _ _ _ _ _ k _ _ Hy Hrt Hlt Hb) as (st2 & s2 & m & -> & Hm & Hy2 & F2). cbn [res_bind].
    destruct (put_both_ok g k i st s st2 s2 Hg Hl) as (g2 & -> & Hg2 & Hl2). cbn [res_bind].
    assert (Callback st2 = Callback st /\ Status st2 = Status st /\ ExternalDevice st2 = ExternalDevice st) as (G1 & G2 & G3)
      by (unfold setup in F2; split_and!; congruence).
    destruct (IH g2 st2 s2 t (t + m)%nat Hg2 Hl2 Hy2) as (g' & st3 & s3 & s' & -> & Hy3 & F3 & R); [lia|done|congruence|by rewrite (dev_of_eq _ _ G3)|lia|].
    cbn [res_bind app]. rewrite G1. exists g', st3, s3, s'. split_and!; try done; [congruence|apply R..].
  - pose proof (sy_le _ _ _ _ _ _ _ Hy). assert (t = n) as -> by lia.
    destruct (process_last _ _ _ _ k _ _ Hy ltac:(lia) Hb) as (st1 & s2 & st2 & s' & -> & Hy2 & F2 & -> & R). cbn [res_bind].
    destruct (put_both_ok g k i st s (st1 <| Status := LPSPI_IP_IDLE |>) s' Hg Hl) as (g2 & -> & Hg2 & Hl2). cbn [res_bind].
    rewrite (serve_idle fuel g2 k s' Hl2) by apply R. cbn [res_bind]. rewrite app_nil_r. exists g2, st1, s2, s'. split_and!; try done; apply R.
Qed.

(** ** The start of a transfer *)

(** A step that sets no error flag and keeps the watermark a count. *)
Definition calm s s' : Prop :=
  (0 <= tx_watermark s -> 0 <= tx_watermark s') /\ (Z.testbit (lpspi_sr s) 11 = false -> Z.testbit (lpspi_sr s') 11 = false).
Lemma calm_trans s1 s2 s3 : calm s1 s2 -> calm s2 s3 -> calm s1 s3.
Proof. unfold calm. tauto. Qed.
Lemma calm_refresh s : calm s (refresh s).
Proof. split; [done|]. intros Ht. change (Z.testbit (status_sr s) 11 = false). by rewrite status_sr_other. Qed.
Lemma calm_irq s0 s s' :
  lpspi_update_irq s0 = Ok s' -> calm s s0 -> calm s s'.
Proof.
  intros ->%update_irq_inv [H4 H5]. split; [done|]. intros Ht%H5. change (Z.testbit (status_sr s0) 11 = false). by rewrite status_sr_other.
Qed.
Lemma calm_read s r v s' : reg_read s r = Ok (v, s') -> r <> RDR -> calm s s'.
Proof.
  cbn [reg_read lpspi_port]. unfold nxps32k358_lpspi_read. intros (s1 & ->%update_status_inv & E)%res_bind_ok Hr. rewrite decode_offset in E.
  destruct r; try done; injection E as _ <-; apply calm_refresh.
Qed.
Definition plain (r : reg) : Prop := r = CR \/ r = SR \/ r = CCR \/ r = DER \/ r = IER \/ r = CFGR1.
Lemma calm_write s r v s' : lpspi_ok s -> reg_write s r v = Ok s' -> plain r -> lpspi_ok s' /\ calm s s'.
Proof.
  intros Hok E Hr. split.
  { destruct (write_safe s (reg_offset r) v Hok) as (s1 & E1 & Hok1 & _).
    - rewrite decode_offset. intros [= ->]. by destruct Hr as [?|[?|[?|[?|[?|?]]]]].
    - cbn [reg_write lpspi_port] in E. congruence. }
  revert E. cbn [reg_write lpspi_port]. unfold nxps32k358_lpspi_write. rewrite decode_offset. intros E.
  destruct Hr as [->|[->|[->|[->|[->| ->]]]]]; try (eapply calm_irq; [exact E|]; done);
    try (apply res_bind_ok in E as (? & _ & E); eapply calm_irq; [exact E|]; done).
  - destruct (has _ LPSPI_CR_RST); [|eapply calm_irq; [exact E|]].
    + rewrite do_reset_eq in E by apply core_hw, Hok. injection E as <-. split; [done|]. intros _.
      change (Z.testbit (status_sr (reset_state s)) 11 = false). by rewrite status_sr_other.
    + unfold write_cr. split; destruct (has _ LPSPI_CR_RTF), (has _ LPSPI_CR_RRF); rsimpl; try done; intros Ht; by mask_bits.
  - eapply calm_irq; [exact E|]. split; rsimpl; [done|]. intros Ht. unfold clear_bits. by rewrite Z.ldiff_spec, Ht.
Qed.
Lemma calm_modify s r f s' : lpspi_ok s -> reg_modify s r f = Ok s' -> plain r -> lpspi_ok s' /\ calm s s'.
Proof.
  intros Hok. unfold reg_modify. intros ([v s1] & E1 & E)%res_bind_ok Hr.
  destruct (read_reg s r Hok) as (w & E2 & Hok1 & _); [by destruct Hr as [->|[->|[->|[->|[->| ->]]]]]..|]. rewrite E1 in E2. injection E2 as -> ->.
  destruct (calm_write _ _ _ _ Hok1 E Hr) as [Hok' Hc]. split; [done|]. eapply calm_trans; [apply calm_refresh|exact Hc].
Qed.
(** The flags are cleared by writing them back. *)
Lemma clear_flags s s' :
  lpspi_ok s -> reg_modify s SR (fun v => Z.land v 0xFFFFFFFF) = Ok s' -> Z.testbit (lpspi_sr s') 11 = false.
Proof.
  intros Hok. unfold reg_modify. cbn [reg_read reg_write lpspi_port]. unfold nxps32k358_lpspi_read, nxps32k358_lpspi_write. rewrite !decode_offset.
  rewrite core_update_status by apply Hok. cbn [res_bind]. intros ->%update_irq_inv.
  match goal with |- context [lpspi_sr (refresh_irq ?x)] => change (Z.testbit (status_sr x) 11 = false) end. rewrite status_sr_other by lia. rsimpl.
  unfold clear_bits, u32, u. rewrite Z.ldiff_spec, Z.mod_pow2_bits_low, Z.land_spec by lia. change (Z.testbit 0xFFFFFFFF 11) with true.
  by destruct (Z.testbit _ 11).
Qed.
Lemma configure_calm st s s' :
  lpspi_ok s -> configure_clock st s = Ok s' -> 0 <= tx_watermark s -> 0 <= tx_watermark s' /\ Z.testbit (lpspi_sr s') 11 = false.
Proof.
  intros Hok. unfold configure_clock, Lpspi_ErrataHandle. intros (s1 & E1 & (s2 & E2 & (s3 & E3 & E)%res_bind_ok)%res_bind_ok)%res_bind_ok Hw.
  destruct (calm_modify _ _ _ _ Hok E1) as [Hok1 [W1 _]]; [by left|].
  assert (lpspi_ok s2 /\ calm s1 s2) as [Hok2 [W2 _]].
  { destruct ERR_IPV_LPSPIV2_0001; [|apply (calm_modify _ _ _ _ Hok1 E2); by left].
    apply res_bind_ok in E2 as ([c s4] & E4 & (s5 & E5 & (s6 & E6 & E7)%res_bind_ok)%res_bind_ok).
    pose proof (calm_read _ _ _ _ E4 ltac:(done)) as C4. destruct (read_reg s1 CFGR1 Hok1) as (w & F & Hok4 & _); [done..|].
    rewrite E4 in F. injection F as -> ->. destruct (calm_modify _ _ _ _ Hok4 E5) as [Hok5 C5]; [by left|].
    destruct (calm_modify _ _ _ _ Hok5 E6) as [Hok6 C6]; [by left|]. destruct (calm_write _ _ _ _ Hok6 E7) as [Hok7 C7]; [unfold plain; tauto|].
    split; [done|]. by eapply calm_trans; [eapply calm_trans; [eapply calm_trans|]|]. }
  destruct (calm_modify _ _ _ _ Hok2 E3) as [Hok3 [W3 _]]; [unfold plain; tauto|]. pose proof (clear_flags _ _ Hok2 E3) as Ht.
  destruct (SlaveMode _); [injection E as <-; tauto|]. apply res_bind_ok in E as (dev & _ & (s4 & E4 & E5)%res_bind_ok).
  destruct (calm_write _ _ _ _ Hok3 E4) as [Hok4 [W4 T4]]; [unfold plain; tauto|].
  destruct (calm_modify _ _ _ _ Hok4 E5) as [_ [W5 T5]]; [by left|]. tauto.
Qed.

Lemma synced_serving b0 rx0 n r t st s :
  synced (H1 := lpspi_exchange) b0 rx0 n r t st s -> serving s -> synced b0 rx0 n r t st s.
Proof. intros [] Hs. by split. Qed.
Lemma loopback_other c m : Z.land m 0x300 = 0 -> Z.land (Z.shiftr (Z.ldiff c m) 8) 3 = Z.land (Z.shiftr c 8) 3.
Proof. intros Hm. change 3 with (Z.shiftr 0x300 8). by rewrite <- !Z.shiftr_land, land_ldiff_other. Qed.
Lemma clear_half_duplex s :
  lpspi_ok s -> exists s', reg_modify s CFGR1 (fun v => Z.ldiff v half_duplex_cfgr1) = Ok s' /\ lpspi_ok s' /\ calm s s' /\
    loopback s' = loopback s /\ ssi s' = ssi s /\ num_cs_lines s' = num_cs_lines s.
Proof.
  intros Hok. destruct (read_reg s CFGR1 Hok) as (v & E & Hok1 & Hv1 & Hu & Ev); [done..|].
  destruct (write_cfgr1 (refresh s) (Z.ldiff v half_duplex_cfgr1) Hok1) as (s' & E' & Hok' & Hv'); [by apply is_u_ldiff|].
  assert (reg_modify s CFGR1 (fun v => Z.ldiff v half_duplex_cfgr1) = Ok s') as Em by (unfold reg_modify; rewrite E; exact E').
  destruct (calm_modify _ _ _ _ Hok Em) as [_ Hc]; [unfold plain; tauto|]. exists s'. split; [done|]. split; [done|]. split; [done|].
  injection Hv' as _ _ F3 _ _ F6 F7. split; [|done]. unfold loopback. rewrite F6. cbn [lpspi_cfgr1]. rewrite doc_half_duplex, loopback_other, Ev by done. done.
Qed.
Lemma set_interrupts_ok s :
  byte_ready s -> 0 <= tx_watermark s -> Z.testbit (lpspi_sr s) 11 = false ->
  exists s', set_interrupts s LPSPI_IP_INTERRUPT
      (Z.lor (Z.lor LPSPI_IER_RDIE_MASK LPSPI_IER_TDIE_MASK) (Z.lor LPSPI_IER_REIE_MASK LPSPI_IER_TEIE_MASK)) = Ok s' /\
    serving s' /\ contents (rx_fifo s') = contents (rx_fifo s) /\ ssi s' = ssi s.
Proof.
  intros Hr Hw Ht. unfold set_interrupts. destruct (write_plain s DER 0 (br_ok s Hr)) as (s1 & E1 & Hok1 & Hv1); [tauto|]. rewrite E1. cbn [res_bind].
  destruct (calm_write _ _ _ _ (br_ok s Hr) E1) as [_ [W1 T1]]; [unfold plain; tauto|].
  rewrite doc_rdie, doc_tdie, doc_reie, doc_teie. change (Z.lor (Z.lor 2 1) (Z.lor 0x1000 0x800)) with enabled.
  destruct (write_plain s1 IER enabled Hok1) as (s2 & E2 & Hok2 & Hv2); [tauto|]. exists s2. split; [done|]. rewrite Hv1 in Hv2.
  assert (byte_ready s2) as Hr2 by (by apply (byte_ready_view s)). injection Hv2 as _ G2 G3 _ _ _ _. split; [|done].
  pose proof E2 as E0. cbn [reg_write lpspi_port] in E0. unfold nxps32k358_lpspi_write in E0. rewrite decode_offset in E0.
  pose proof (update_irq_inv _ _ E0) as ->. apply serving_line; [done|exact (T1 Ht)|done|exact (W1 Hw)].
Qed.

Definition started_state st dev tx rx len cb : State_t :=
  rx_ready (tx_ready (st <| Status := LPSPI_IP_BUSY |> <| ExternalDevice := Some dev |> <| Callback := cb |>
                                     <| CurrentTxFifoSlot := LPSPI_IP_FIFO_SIZE_U8 |>) tx len) rx len.
Lemma started_synced st s dev tx rx len cb :
  serving s -> contents (rx_fifo s) = [] -> is_type dev LPSPI_IP_FULL_DUPLEX = true -> FrameSize (DeviceParams dev) <= 8 ->
  0 < len < 2 ^ 16 -> valid_tx tx len -> covers rx len ->
  synced (ssi s) rx (Z.to_nat len) 0 0 (started_state st dev tx rx len cb) s /\
  setup (started_state st dev tx rx len cb) = (tx, Some dev, FirstCmd st, PhyUnitConfig st, (cb, LPSPI_IP_BUSY, KeepCs st, TransferMode st)).
Proof.
  intros Hs Hrx Hty Hfs Hlen Htx Hcov.
  assert (expected_frames (FrameSize (DeviceParams dev)) len = len /\ buffer_step (FrameSize (DeviceParams dev)) = 1) as [Ef Es].
  { unfold expected_frames, buffer_step. by destruct (Z.ltb_spec (FrameSize (DeviceParams dev)) 9); [|lia]. }
  unfold started_state. split.
  - apply synced_serving; [|done]. apply (started dev tx rx len); try done; [apply Hs|..];
      unfold rx_ready, tx_ready; rsimpl; change (dev_of (_ <| _ := _ |>)) with dev; rewrite ?Ef, ?(u_small 16) by (unfold is_u; lia); done.
  - done.
Qed.
Lemma async_start g dev tx rx len cb i st s :
  channel_ready g (Instance_ dev) i st s -> TransferMode st = LPSPI_IP_INTERRUPT -> 0 <= tx_watermark s ->
  is_type dev LPSPI_IP_FULL_DUPLEX = true -> FrameSize (DeviceParams dev) <= 8 -> byte_command dev (num_cs_lines s) -> 0 < len < 2 ^ 16 ->
  exists g1 s1, Lpspi_Ip_AsyncTransmit g dev tx rx len cb = Ok (LPSPI_IP_STATUS_SUCCESS, g1) /\
    get_state g1 (Instance_ dev) = Ok (i, started_state st dev tx rx len cb) /\ load (apxBases g1) (Instance_ dev) = Ok s1 /\
    serving s1 /\ contents (rx_fifo s1) = [] /\ ssi s1 = ssi s.
Proof.
  intros [Hst Hb Hidle Hm Hok Hlp] Hmode Hw Hty Hfs Hcmd Hlen. unfold Lpspi_Ip_AsyncTransmit.
  destruct (Z.eqb_spec len 0); [lia|]. cbn [negb assert res_bind]. assert (Lpspi_Ip_CheckValidParameters dev len = Ok tt) as ->.
  { unfold Lpspi_Ip_CheckValidParameters.
    by destruct (Z.ltb_spec 16 (FrameSize (DeviceParams dev))), (Z.ltb_spec 8 (FrameSize (DeviceParams dev))); try lia. }
  cbn [res_bind]. rewrite Hst. cbn [res_bind]. rewrite Hb. cbn [res_bind]. rewrite bool_decide_eq_false_2 by done.
  destruct (clear_half_duplex s Hok) as (s1 & -> & Hok1 & [W1 _] & Hl1 & Hb1 & Hn1). cbn [res_bind].
  set (st0 := st <| Status := _ |> <| ExternalDevice := Some dev |> <| Callback := cb |> <| CurrentTxFifoSlot := _ |>).
  destruct (tx_init_line st0 s1 tx len) as (s2 & -> & Hr2 & Hrx2 & Hb2 & s3 & s4 & Ec & -> & F1 & F2); try done; [congruence|by eexists|by rewrite Hn1|]. cbn [res_bind].
  rewrite rx_init_ok by (done || by eexists). cbn [res_bind].
  destruct (configure_calm _ _ _ Hok1 Ec (W1 Hw)) as [W3 T3].
  change (rx_ready (tx_ready st0 tx len) rx len) with (started_state st dev tx rx len cb).
  assert (TransferMode (started_state st dev tx rx len cb) = LPSPI_IP_INTERRUPT) as -> by done.
  destruct (set_interrupts_ok (refresh_irq s4) Hr2) as (s5 & -> & Hs5 & Hrx5 & Hb5);
    [change (0 <= tx_watermark s4); congruence|change (Z.testbit (status_sr s4) 11 = false); rewrite status_sr_other by lia; congruence|]. cbn [res_bind].
  destruct (put_both_ok g _ i st s (started_state st dev tx rx len cb) s5 Hst Hb) as (g1 & -> & Hg1 & Hl5). cbn [res_bind].
  exists g1, s5. split_and!; try done; congruence.
Qed.

(** C4: on the LPSPI controller an interrupt-driven full-duplex transfer of frames of at
    most eight bits exchanges every byte with the bus once and in order.  From the call on the
    interrupt line is high until the last byte has been read; the handler, called as
    long as it is, ends within [len + 2] calls, reports the end to the callback once,
    and leaves driver and controller ready, with the line low. *)
Theorem async_transmit_exchanges fuel g dev tx rx len cb i st s :
  channel_ready g (Instance_ dev) i st s -> TransferMode st = LPSPI_IP_INTERRUPT -> 0 <= tx_watermark s ->
  is_type dev LPSPI_IP_FULL_DUPLEX = true -> FrameSize (DeviceParams dev) <= 8 -> byte_command dev (num_cs_lines s) ->
  0 < len < 2 ^ 16 -> valid_tx tx len -> covers rx len -> len + 2 <= Z.of_nat fuel ->
  let '(l, bus) := answers send (ssi s) (outgoing dev tx len) in
  exists g1 g2 st' s', Lpspi_Ip_AsyncTransmit g dev tx rx len cb = Ok (LPSPI_IP_STATUS_SUCCESS, g1) /\
    serve fuel g1 (Instance_ dev) = Ok (end_call cb (Instance_ dev), g2) /\ channel_ready g2 (Instance_ dev) i st' s' /\
    Status st' = LPSPI_IP_IDLE /\ RxBuffer st' = option_map (fun buf => l ++ drop (Z.to_nat len) buf) rx /\ ssi s' = bus /\ irq s' = false.
Proof.
  intros Hcr Hmode Hw Hty Hfs Hcmd Hlen Htx Hcov Hfuel. pose proof (cr_master _ _ _ _ _ Hcr) as [Hf Hm].
  destruct (async_start g dev tx rx len cb i st s Hcr Hmode Hw Hty Hfs Hcmd Hlen) as (g1 & s1 & E & Hg1 & Hl1 & Hs1 & Hrx1 & Hb1).
  destruct (started_synced st s1 dev tx rx len cb Hs1 Hrx1 Hty Hfs Hlen Htx Hcov) as [Hy Hset]. set (st1 := started_state st dev tx rx len cb) in *.
  destruct (serve_ok fuel (ssi s1) rx (Z.to_nat len) 0 0 g1 (Instance_ dev) i st1 s1) as (g2 & st2 & s2 & s' & Es & Hy2 & F2 & Hg2 & Hl2 & Hok' & Hlp' & Hi' & Hb');
    [done|done|done|by right|lia|unfold setup in Hset; congruence|done|lia|].
  rewrite Hset in F2. pose proof (finished dev tx rx len (ssi s1) st2 s2 (synced_plain _ _ _ _ _ _ _ Hy2)) as Hfin. rewrite Hb1 in Hfin.
  specialize (Hfin (ex_intro _ _ (ex_intro _ _ (ex_intro _ _ F2)))). destruct (answers send (ssi s) (outgoing dev tx len)) as [l bus]. destruct Hfin as [Hbuf Hbus].
  assert (Callback st1 = cb) as Hcb by (unfold setup in Hset; congruence). rewrite Hcb in Es.
  exists g1, g2, (st2 <| Status := LPSPI_IP_IDLE |>), s'. split; [done|]. split; [done|]. unfold setup in F2. injection F2 as _ _ G3 G4 _ _ _ _.
  split; [|split_and!; [done|done|congruence|done]]. split; try done. unfold master. rsimpl. by rewrite G3, G4.
Qed.
End async.
End SpiAsyncProps.
