(* ===== verification/SpiAsyncDemo.v ===== *)
(** * Interrupt-driven transfers of the demo's device

    The theorem of [SpiAsyncProps.v] on a concrete board, and a full-duplex transfer that
    follows a half-duplex one. *)

From S2P Require Import Prelude Words Fifo Ssi Lpspi LpspiSpec LpspiProps SpiDriver SpiDriverProps SpiExchange SpiSystem SpiDemo SpiAsync SpiAsyncSafety SpiAsyncProps.
#[local] Open Scope Z_scope.
Import Fifo8 Lpspi LpspiSpec SpiDriver SpiDriverSafety SpiExchange SpiSystem SpiDemo SpiAsync SpiAsyncProps.

#[global] Instance s32k358_documented_flags : DocumentedFlags.
Proof. by split. Qed.

Module SpiAsyncDemo.

(** The wired board with the channel in interrupt mode. *)
Definition irq_state : State_t := demo_state <| TransferMode := LPSPI_IP_INTERRUPT |>.
Definition irq_board : driver (NXPS32K358LPSPIState (B := unit)) :=
  mkDriver [None; None; Some 0] [irq_state] [LpspiProps.demo_reset tt; LpspiProps.demo_reset tt; LpspiProps.demo_reset tt].
Lemma irq_board_ready : channel_ready irq_board 2 0 irq_state (LpspiProps.demo_reset tt).
Proof.
  split; [done|done|done|done| |reflexivity].
  apply refresh_irq_ok, reset_state_core, LpspiProps.demo_hw_ok, LpspiProps.wire_ok.
Qed.

Lemma async_transmit_exchanges_witness :
  exists g1 g2 st' s', Lpspi_Ip_AsyncTransmit irq_board MASTER_EXTERNAL_DEVICE (Some [1; 2; 3; 4; 5; 6]) (Some [0; 0; 0; 0; 0; 0; 9]) 6 (Some 7)
      = Ok (LPSPI_IP_STATUS_SUCCESS, g1) /\
    serve 8 g1 2 = Ok ([(7, 2, LPSPI_IP_EVENT_END_TRANSFER)], g2) /\ channel_ready g2 2 0 st' s' /\
    Status st' = LPSPI_IP_IDLE /\ RxBuffer st' = Some [1; 2; 3; 4; 5; 6; 9] /\ ssi s' = tt /\ irq s' = false.
Proof.
  refine (async_transmit_exchanges 8 irq_board MASTER_EXTERNAL_DEVICE (Some [1; 2; 3; 4; 5; 6]) (Some [0; 0; 0; 0; 0; 0; 9]) 6 (Some 7)
    0 irq_state (LpspiProps.demo_reset tt) irq_board_ready _ _ _ _ _ _ _ _ _);
    [done|done|done|cbn; lia|by apply demo_byte_command|lia| |cbn; lia|lia].
  split; [repeat constructor; done|cbn; lia].
Defined.

(** A half-duplex transfer of one byte, then a full-duplex one with the same device. *)
Definition half_then_full (tx rx : list Z) : res (option (Lpspi_Ip_StatusType * option (list Z))) :=
  let len := Z.of_nat (length tx) in
  let! r := Lpspi_Ip_SyncTransmitHalfDuplex 5 wired_board MASTER_EXTERNAL_DEVICE (Some [1]) 1 LPSPI_IP_HALF_DUPLEX_TRANSMIT 2 in
  match r with
  | None => Ok None
  | Some (_, _, dev, g) =>
      let! r := Lpspi_Ip_SyncTransmit 500 g dev (Some tx) (Some rx) len 100 in
      Ok (match r with Some (st, rx, _) => Some (st, rx) | None => None end)
  end.

(** The full-duplex calls do not set the type of the transfer back.  After a
    half-duplex transfer with the same device a full-duplex transfer of one byte reports
    success and leaves its receive buffer as it was; one of two bytes reads past the end of
    the earlier call's buffer. *)
Theorem half_duplex_sticks :
  half_then_full [7] [9] = Ok (Some (LPSPI_IP_STATUS_SUCCESS, Some [9])) /\ half_then_full [7; 8] [9; 9] = Fault OutOfBounds.
Proof. by vm_compute. Qed.
End SpiAsyncDemo.
