(* ===== verification/UartDriver.v ===== *)
(** * The LPUART driver of the demo

    [Demo_FreeRTOS/RTD/src/Lpuart_Uart_Ip.c] and the register functions of
    [Lpuart_Uart_Ip_HwAccess.h], as the demo configures them: no DMA, no
    loopback, development error detection on, dummy timeout counter.  The
    hardware is any [UartPort], the access to its registers; the register header
    [S32K358_LPUART.h] is not part of the sources, so the masks and shifts the
    driver takes from it are the class [LpuartHeader].  A failed [DevAssert] is a
    [Fault]; the exclusive areas of the scheduler manager only mask interrupts
    and are left out.  A polling loop that the counter ends has as many rounds as
    the counter allows; more would be [OutOfFuel]. *)

From S2P Require Import Prelude Words.

Module UartDriver.

(** Registers of [LPUART_Type] that the driver uses. *)
Inductive ureg := BAUD | STAT | CTRL | DATA | FIFO.

Class UartPort (D : Type) := {
  ureg_read : D -> ureg -> res (Z * D);
  ureg_write : D -> ureg -> Z -> res D;
}.

Class LpuartHeader := {
  LPUART_BAUD_OSR_SHIFT : Z;
  LPUART_BAUD_OSR_MASK : Z;
  LPUART_BAUD_OSR : Z -> Z;
  LPUART_BAUD_SBR_SHIFT : Z;
  LPUART_BAUD_SBR_MASK : Z;
  LPUART_BAUD_BOTHEDGE_MASK : Z;
  LPUART_BAUD_M10_MASK : Z;
  LPUART_BAUD_M10_SHIFT : Z;
  LPUART_BAUD_SBNS_MASK : Z;
  LPUART_BAUD_SBNS_SHIFT : Z;
  LPUART_CTRL_TE_MASK : Z;
  LPUART_CTRL_TE_SHIFT : Z;
  LPUART_CTRL_RE_MASK : Z;
  LPUART_CTRL_RE_SHIFT : Z;
  LPUART_CTRL_M7_MASK : Z;
  LPUART_CTRL_M7_SHIFT : Z;
  LPUART_CTRL_M_MASK : Z;
  LPUART_CTRL_M_SHIFT : Z;
  LPUART_CTRL_PE_MASK : Z;
  LPUART_CTRL_PE_SHIFT : Z;
  LPUART_CTRL_PT_MASK : Z;
  LPUART_CTRL_PT_SHIFT : Z;
  LPUART_CTRL_R9T8_MASK : Z;
  LPUART_CTRL_R9T8_SHIFT : Z;
  LPUART_CTRL_R8T9_MASK : Z;
  LPUART_CTRL_R8T9_SHIFT : Z;
  LPUART_CTRL_TIE_SHIFT : Z;
  LPUART_CTRL_TCIE_SHIFT : Z;
  LPUART_CTRL_RIE_SHIFT : Z;
  LPUART_CTRL_ORIE_SHIFT : Z;
  LPUART_CTRL_NEIE_SHIFT : Z;
  LPUART_CTRL_FEIE_SHIFT : Z;
  LPUART_CTRL_PEIE_SHIFT : Z;
  LPUART_STAT_TDRE_SHIFT : Z;
  LPUART_STAT_TC_SHIFT : Z;
  LPUART_STAT_RDRF_SHIFT : Z;
  LPUART_STAT_OR_SHIFT : Z;
  LPUART_STAT_NF_SHIFT : Z;
  LPUART_STAT_FE_SHIFT : Z;
  LPUART_STAT_PF_SHIFT : Z;
  LPUART_STAT_OR_MASK : Z;
  LPUART_STAT_NF_MASK : Z;
  LPUART_STAT_FE_MASK : Z;
  LPUART_STAT_PF_MASK : Z;
  LPUART_FIFO_TXFLUSH_MASK : Z;
  LPUART_FIFO_RXFLUSH_MASK : Z;
  LPUART_INSTANCE_COUNT : Z;
}.

(** ** Types of [Lpuart_Uart_Ip_Types.h] and [Lpuart_Uart_Ip_HwAccess.h] *)

Inductive Lpuart_Uart_Ip_TransferType := LPUART_UART_IP_USING_DMA | LPUART_UART_IP_USING_INTERRUPTS.
Inductive Lpuart_Uart_Ip_StatusType :=
  | LPUART_UART_IP_STATUS_SUCCESS | LPUART_UART_IP_STATUS_ERROR | LPUART_UART_IP_STATUS_BUSY
  | LPUART_UART_IP_STATUS_TIMEOUT | LPUART_UART_IP_STATUS_TX_UNDERRUN | LPUART_UART_IP_STATUS_RX_OVERRUN
  | LPUART_UART_IP_STATUS_ABORTED | LPUART_UART_IP_STATUS_FRAMING_ERROR | LPUART_UART_IP_STATUS_PARITY_ERROR
  | LPUART_UART_IP_STATUS_NOISE_ERROR | LPUART_UART_IP_STATUS_DMA_ERROR.
Inductive Lpuart_Uart_Ip_EventType :=
  | LPUART_UART_IP_EVENT_RX_FULL | LPUART_UART_IP_EVENT_TX_EMPTY | LPUART_UART_IP_EVENT_END_TRANSFER
  | LPUART_UART_IP_EVENT_ERROR.
Inductive Lpuart_Uart_Ip_BitCountPerCharType :=
  | LPUART_UART_IP_7_BITS_PER_CHAR | LPUART_UART_IP_8_BITS_PER_CHAR | LPUART_UART_IP_9_BITS_PER_CHAR
  | LPUART_UART_IP_10_BITS_PER_CHAR.
Inductive Lpuart_Uart_Ip_ParityModeType :=
  | LPUART_UART_IP_PARITY_DISABLED | LPUART_UART_IP_PARITY_EVEN | LPUART_UART_IP_PARITY_ODD.
Inductive Lpuart_Uart_Ip_StopBitCountType := LPUART_UART_IP_ONE_STOP_BIT | LPUART_UART_IP_TWO_STOP_BIT.
Inductive Lpuart_Uart_Ip_StatusFlagType :=
  | LPUART_UART_IP_TX_DATA_REG_EMPTY | LPUART_UART_IP_TX_COMPLETE | LPUART_UART_IP_DATA_REG_FULL
  | LPUART_UART_IP_RX_OVERRUN | LPUART_UART_IP_NOISE_DETECT | LPUART_UART_IP_FRAME_ERR
  | LPUART_UART_IP_PARITY_ERR.
Inductive Lpuart_Uart_Ip_InterruptType :=
  | LPUART_UART_IP_INT_TX_DATA_REG_EMPTY | LPUART_UART_IP_INT_TX_COMPLETE | LPUART_UART_IP_INT_RX_DATA_REG_FULL
  | LPUART_UART_IP_INT_RX_OVERRUN | LPUART_UART_IP_INT_NOISE_ERR_FLAG | LPUART_UART_IP_INT_FRAME_ERR_FLAG
  | LPUART_UART_IP_INT_PARITY_ERR_FLAG.

#[global] Instance transfer_type_eq_dec : EqDecision Lpuart_Uart_Ip_TransferType.
Proof. solve_decision. Defined.
#[global] Instance uart_status_eq_dec : EqDecision Lpuart_Uart_Ip_StatusType.
Proof. solve_decision. Defined.
#[global] Instance bit_count_eq_dec : EqDecision Lpuart_Uart_Ip_BitCountPerCharType.
Proof. solve_decision. Defined.
#[global] Instance parity_eq_dec : EqDecision Lpuart_Uart_Ip_ParityModeType.
Proof. solve_decision. Defined.

(** The values of the enumerations. *)
Definition bit_count_value (c : Lpuart_Uart_Ip_BitCountPerCharType) : Z :=
  match c with
  | LPUART_UART_IP_7_BITS_PER_CHAR => 0
  | LPUART_UART_IP_8_BITS_PER_CHAR => 1
  | LPUART_UART_IP_9_BITS_PER_CHAR => 2
  | LPUART_UART_IP_10_BITS_PER_CHAR => 3
  end.
Definition parity_value (p : Lpuart_Uart_Ip_ParityModeType) : Z :=
  match p with
  | LPUART_UART_IP_PARITY_DISABLED => 0
  | LPUART_UART_IP_PARITY_EVEN => 2
  | LPUART_UART_IP_PARITY_ODD => 3
  end.
Definition stop_bits_value (n : Lpuart_Uart_Ip_StopBitCountType) : Z :=
  match n with LPUART_UART_IP_ONE_STOP_BIT => 0 | LPUART_UART_IP_TWO_STOP_BIT => 1 end.

(** A pointer into a byte buffer, NULL as [None]. *)
Abbreviation pointer := (option (list Z * Z)).

Record Lpuart_Uart_Ip_StateStructureType := mkUart {
  BaudRate : Z;
  TxBuff : pointer;
  RxBuff : pointer;
  TxSize : Z;
  RxSize : Z;
  IsTxBusy : bool;
  IsRxBusy : bool;
  TransmitStatus : Lpuart_Uart_Ip_StatusType;
  ReceiveStatus : Lpuart_Uart_Ip_StatusType;
}.
#[global] Instance eta_UartState : Eta Lpuart_Uart_Ip_StateStructureType := fun s =>
  mkUart (BaudRate s) (TxBuff s) (RxBuff s) (TxSize s) (RxSize s) (IsTxBusy s) (IsRxBusy s)
    (TransmitStatus s) (ReceiveStatus s).
Abbreviation ustate := Lpuart_Uart_Ip_StateStructureType.

(** [Callback] is what the user's function does to the state structure, which it
    changes with [Lpuart_Uart_Ip_SetTxBuffer] and [Lpuart_Uart_Ip_SetRxBuffer];
    [StateStruct] is an index into [Lpuart_Uart_Ip_apStateStructure]. *)
Record Lpuart_Uart_Ip_UserConfigType := mkUserConfig {
  cfg_BaudRate : Z;
  BaudRateDivisor : Z;
  BaudOverSamplingRatio : Z;
  ParityMode : Lpuart_Uart_Ip_ParityModeType;
  StopBitsCount : Lpuart_Uart_Ip_StopBitCountType;
  BitCountPerChar : Lpuart_Uart_Ip_BitCountPerCharType;
  cfg_TransferType : Lpuart_Uart_Ip_TransferType;
  Callback : option (Lpuart_Uart_Ip_EventType -> ustate -> ustate);
  StateStruct : Z;
}.
Abbreviation config := Lpuart_Uart_Ip_UserConfigType.

Definition LPUART_FEATURE_DEFAULT_OSR : Z := 0xF.
Definition LPUART_FEATURE_DEFAULT_SBR : Z := 0x4.
Definition LPUART_FEATURE_STAT_REG_FLAGS_MASK : Z := 0xC01FC000.
Definition LPUART_IP_DATA_MASK_U32 : Z := 0x000000FF.
Definition LPUART_UART_IP_TIMEOUT_VALUE_US : Z := 0.

(** ** Register functions, [Lpuart_Uart_Ip_HwAccess.h] *)

Section hw.
Context {D : Type} `{UartPort D} `{LpuartHeader}.

(** [Base->r = f(Base->r)]. *)
Definition ureg_modify (Base : D) (r : ureg) (f : Z -> Z) : res D :=
  let! '(v, Base) := ureg_read Base r in ureg_write Base r (f v).

Definition b2u (b : bool) : Z := if b then 1 else 0.
(** [(v & ~mask) | (x << shift)]. *)
Definition set_field (mask shift x v : Z) : Z := Z.lor (Z.ldiff v mask) (Z.shiftl x shift).

Definition Lpuart_Uart_Ip_Hw_Init (Base : D) : res D :=
  let! Base := ureg_write Base BAUD
    (Z.lor (Z.shiftl LPUART_FEATURE_DEFAULT_OSR LPUART_BAUD_OSR_SHIFT)
           (Z.shiftl LPUART_FEATURE_DEFAULT_SBR LPUART_BAUD_SBR_SHIFT)) in
  let! Base := ureg_write Base STAT LPUART_FEATURE_STAT_REG_FLAGS_MASK in
  ureg_write Base CTRL 0.

Definition Lpuart_Uart_Ip_SetTransmitterCmd (Base : D) (Enable : bool) : res D :=
  ureg_modify Base CTRL (set_field LPUART_CTRL_TE_MASK LPUART_CTRL_TE_SHIFT (b2u Enable)).
Definition Lpuart_Uart_Ip_SetReceiverCmd (Base : D) (Enable : bool) : res D :=
  ureg_modify Base CTRL (set_field LPUART_CTRL_RE_MASK LPUART_CTRL_RE_SHIFT (b2u Enable)).

Definition Lpuart_Uart_Ip_SetBaudRateDivisor (Base : D) (baudRateDivisor : Z) : res D :=
  ureg_modify Base BAUD (fun v =>
    Z.lor (Z.ldiff v LPUART_BAUD_SBR_MASK) (Z.land baudRateDivisor LPUART_BAUD_SBR_MASK)).
Definition Lpuart_Uart_Ip_SetOversamplingRatio (Base : D) (OverSamplingRatio : Z) : res D :=
  ureg_modify Base BAUD (fun v => Z.lor (Z.ldiff v LPUART_BAUD_OSR_MASK) (LPUART_BAUD_OSR OverSamplingRatio)).
Definition Lpuart_Uart_Ip_EnableBothEdgeSamplingCmd (Base : D) : res D :=
  ureg_modify Base BAUD (fun v => Z.lor v LPUART_BAUD_BOTHEDGE_MASK).

Definition Lpuart_Uart_Ip_SetBitCountPerChar (Base : D) (BitCountPerChar : Lpuart_Uart_Ip_BitCountPerCharType)
    (Parity : bool) : res D :=
  let TmpBitCountPerChar := bit_count_value BitCountPerChar + b2u Parity in
  if TmpBitCountPerChar =? bit_count_value LPUART_UART_IP_10_BITS_PER_CHAR then
    ureg_modify Base BAUD (set_field LPUART_BAUD_M10_MASK LPUART_BAUD_M10_SHIFT 1)
  else
    let! Base :=
      if bool_decide (BitCountPerChar = LPUART_UART_IP_7_BITS_PER_CHAR) then
        if Parity then ureg_modify Base CTRL (fun v => Z.ldiff v (Z.lor LPUART_CTRL_M7_MASK LPUART_CTRL_M_MASK))
        else ureg_modify Base CTRL (set_field LPUART_CTRL_M7_MASK LPUART_CTRL_M7_SHIFT 1)
      else ureg_modify Base CTRL (set_field LPUART_CTRL_M_MASK LPUART_CTRL_M_SHIFT (TmpBitCountPerChar - 1)) in
    ureg_modify Base BAUD (fun v => Z.ldiff v LPUART_BAUD_M10_MASK).

Definition Lpuart_Uart_Ip_SetParityMode (Base : D) (p : Lpuart_Uart_Ip_ParityModeType) : res D :=
  let! Base := ureg_modify Base CTRL
                 (set_field LPUART_CTRL_PE_MASK LPUART_CTRL_PE_SHIFT (Z.shiftr (parity_value p) 1)) in
  ureg_modify Base CTRL (set_field LPUART_CTRL_PT_MASK LPUART_CTRL_PT_SHIFT (Z.land (parity_value p) 1)).
Definition Lpuart_Uart_Ip_SetStopBitCount (Base : D) (n : Lpuart_Uart_Ip_StopBitCountType) : res D :=
  ureg_modify Base BAUD (set_field LPUART_BAUD_SBNS_MASK LPUART_BAUD_SBNS_SHIFT (stop_bits_value n)).

Definition int_shift (i : Lpuart_Uart_Ip_InterruptType) : Z :=
  match i with
  | LPUART_UART_IP_INT_TX_DATA_REG_EMPTY => LPUART_CTRL_TIE_SHIFT
  | LPUART_UART_IP_INT_TX_COMPLETE => LPUART_CTRL_TCIE_SHIFT
  | LPUART_UART_IP_INT_RX_DATA_REG_FULL => LPUART_CTRL_RIE_SHIFT
  | LPUART_UART_IP_INT_RX_OVERRUN => LPUART_CTRL_ORIE_SHIFT
  | LPUART_UART_IP_INT_NOISE_ERR_FLAG => LPUART_CTRL_NEIE_SHIFT
  | LPUART_UART_IP_INT_FRAME_ERR_FLAG => LPUART_CTRL_FEIE_SHIFT
  | LPUART_UART_IP_INT_PARITY_ERR_FLAG => LPUART_CTRL_PEIE_SHIFT
  end.
Definition flag_shift (f : Lpuart_Uart_Ip_StatusFlagType) : Z :=
  match f with
  | LPUART_UART_IP_TX_DATA_REG_EMPTY => LPUART_STAT_TDRE_SHIFT
  | LPUART_UART_IP_TX_COMPLETE => LPUART_STAT_TC_SHIFT
  | LPUART_UART_IP_DATA_REG_FULL => LPUART_STAT_RDRF_SHIFT
  | LPUART_UART_IP_RX_OVERRUN => LPUART_STAT_OR_SHIFT
  | LPUART_UART_IP_NOISE_DETECT => LPUART_STAT_NF_SHIFT
  | LPUART_UART_IP_FRAME_ERR => LPUART_STAT_FE_SHIFT
  | LPUART_UART_IP_PARITY_ERR => LPUART_STAT_PF_SHIFT
  end.

Definition Lpuart_Uart_Ip_SetIntMode (Base : D) (IntSrc : Lpuart_Uart_Ip_InterruptType) (Enable : bool) : res D :=
  ureg_modify Base CTRL (set_field (Z.shiftl 1 (int_shift IntSrc)) (int_shift IntSrc) (b2u Enable)).
Definition Lpuart_Uart_Ip_GetIntMode (Base : D) (IntSrc : Lpuart_Uart_Ip_InterruptType) : res (bool * D) :=
  let! '(v, Base) := ureg_read Base CTRL in Ok (0 <? Z.land (Z.shiftr v (int_shift IntSrc)) 1, Base).
Definition Lpuart_Uart_Ip_GetStatusFlag (Base : D) (StatusFlag : Lpuart_Uart_Ip_StatusFlagType) : res (bool * D) :=
  let! '(v, Base) := ureg_read Base STAT in Ok (0 <? Z.land (Z.shiftr v (flag_shift StatusFlag)) 1, Base).

Definition Lpuart_Uart_Ip_Putchar (Base : D) (Data : Z) : res D := ureg_write Base DATA (u8 Data).
Definition Lpuart_Uart_Ip_Putchar9 (Base : D) (Data : Z) : res D :=
  let NinthDataBit := Z.land (Z.shiftr Data 8) 1 in
  let! Base := ureg_modify Base CTRL (set_field LPUART_CTRL_R9T8_MASK LPUART_CTRL_R9T8_SHIFT NinthDataBit) in
  ureg_write Base DATA (u8 Data).
Definition Lpuart_Uart_Ip_Putchar10 (Base : D) (Data : Z) : res D :=
  let NinthDataBit := Z.land (Z.shiftr Data 8) 1 in
  let TenthDataBit := Z.land (Z.shiftr Data 9) 1 in
  let! Base := ureg_modify Base CTRL (fun v =>
    set_field LPUART_CTRL_R8T9_MASK LPUART_CTRL_R8T9_SHIFT TenthDataBit
      (set_field LPUART_CTRL_R9T8_MASK LPUART_CTRL_R9T8_SHIFT NinthDataBit v)) in
  ureg_write Base DATA (u8 Data).

Definition Lpuart_Uart_Ip_Getchar (Base : D) : res (Z * D) :=
  let! '(v, Base) := ureg_read Base DATA in Ok (u8 (Z.land v LPUART_IP_DATA_MASK_U32), Base).
Definition Lpuart_Uart_Ip_Getchar9 (Base : D) : res (Z * D) :=
  let! '(c, Base) := ureg_read Base CTRL in
  let ReadData := Z.shiftl (Z.land (Z.shiftr c LPUART_CTRL_R8T9_SHIFT) 1) 8 in
  let! '(v, Base) := ureg_read Base DATA in
  Ok (Z.lor ReadData (u8 (Z.land v LPUART_IP_DATA_MASK_U32)), Base).
Definition Lpuart_Uart_Ip_Getchar10 (Base : D) : res (Z * D) :=
  let! '(c, Base) := ureg_read Base CTRL in
  let ReadData := Z.shiftl (Z.land (Z.shiftr c LPUART_CTRL_R9T8_SHIFT) 1) 9 in
  let! '(c, Base) := ureg_read Base CTRL in
  let ReadData := Z.lor ReadData (Z.shiftl (Z.land (Z.shiftr c LPUART_CTRL_R8T9_SHIFT) 1) 8) in
  let! '(v, Base) := ureg_read Base DATA in
  Ok (Z.lor ReadData (u8 (Z.land v LPUART_IP_DATA_MASK_U32)), Base).

Definition Lpuart_Uart_Ip_ClearStatusFlagWithMask (Base : D) (Mask : Z) : res D :=
  ureg_modify Base STAT (fun v => Z.lor (Z.ldiff v LPUART_FEATURE_STAT_REG_FLAGS_MASK) Mask).
Definition Lpuart_Uart_Ip_ClearStatusFlag (Base : D) (StatusFlag : Lpuart_Uart_Ip_StatusFlagType) : res D :=
  match StatusFlag with
  | LPUART_UART_IP_RX_OVERRUN => Lpuart_Uart_Ip_ClearStatusFlagWithMask Base LPUART_STAT_OR_MASK
  | LPUART_UART_IP_NOISE_DETECT => Lpuart_Uart_Ip_ClearStatusFlagWithMask Base LPUART_STAT_NF_MASK
  | LPUART_UART_IP_FRAME_ERR => Lpuart_Uart_Ip_ClearStatusFlagWithMask Base LPUART_STAT_FE_MASK
  | LPUART_UART_IP_PARITY_ERR => Lpuart_Uart_Ip_ClearStatusFlagWithMask Base LPUART_STAT_PF_MASK
  | _ => Ok Base
  end.
Definition Lpuart_Uart_Ip_ClearErrorFlags (Base : D) : res D :=
  Lpuart_Uart_Ip_ClearStatusFlagWithMask Base
    (Z.lor (Z.lor (Z.lor LPUART_STAT_OR_MASK LPUART_STAT_NF_MASK) LPUART_STAT_FE_MASK) LPUART_STAT_PF_MASK).

Definition Lpuart_Uart_Ip_FlushTxBuffer (Base : D) : res D :=
  ureg_modify Base FIFO (fun v => Z.lor v LPUART_FIFO_TXFLUSH_MASK).
Definition Lpuart_Uart_Ip_FlushRxBuffer (Base : D) : res D :=
  ureg_modify Base FIFO (fun v => Z.lor v LPUART_FIFO_RXFLUSH_MASK).

(** With the dummy counter of [OsIf_Timer.c] one tick passes per look. *)
Definition OsIf_MicrosToTicks (Micros : Z) : Z := Micros.
Definition OsIf_GetElapsed : Z := 1.
Definition Lpuart_Uart_Ip_CheckTimeout (ElapsedTicks TimeoutTicks : Z) : bool * Z :=
  let ElapsedTicks := u32 (ElapsedTicks + OsIf_GetElapsed) in
  (TimeoutTicks <=? ElapsedTicks, ElapsedTicks).

(** [while (!flag && !CheckTimeout) {}]. *)
Fixpoint wait_flag (fuel : nat) (Base : D) (f : Lpuart_Uart_Ip_StatusFlagType) (TimeoutTicks ElapsedTicks : Z)
    : res (D * Z) :=
  match fuel with
  | O => Fault OutOfFuel
  | S fuel' =>
      let! '(set, Base) := Lpuart_Uart_Ip_GetStatusFlag Base f in
      if set then Ok (Base, ElapsedTicks)
      else
        let '(late, ElapsedTicks) := Lpuart_Uart_Ip_CheckTimeout ElapsedTicks TimeoutTicks in
        if late then Ok (Base, ElapsedTicks) else wait_flag fuel' Base f TimeoutTicks ElapsedTicks
  end.
(** Rounds that the counter leaves, and the one that stops. *)
Definition rounds (TimeoutTicks : Z) : nat := S (Z.to_nat TimeoutTicks).

(** ** The data register and the buffers *)

(** [*p], [*p = v] and [++p]. *)
Definition deref (p : pointer) : res Z :=
  match p with None => Fault NullPointer | Some (buf, i) => load buf i end.
Definition assign (p : pointer) (v : Z) : res pointer :=
  match p with
  | None => Fault NullPointer
  | Some (buf, i) => let! buf := store buf i v in Ok (Some (buf, i))
  end.
Definition advance (p : pointer) : pointer := option_map (fun '(buf, i) => (buf, i + 1)) p.

Definition narrow (cfg : config) : bool :=
  bool_decide (BitCountPerChar cfg = LPUART_UART_IP_7_BITS_PER_CHAR) ||
  bool_decide (BitCountPerChar cfg = LPUART_UART_IP_8_BITS_PER_CHAR).

Definition Lpuart_Uart_Ip_PutData (cfg : config) (UartState : ustate) (Base : D) : res (ustate * D) :=
  if narrow cfg then
    let! Data8b := deref (TxBuff UartState) in
    let UartState := UartState <| TxBuff := advance (TxBuff UartState) |>
                               <| TxSize := u32 (TxSize UartState - 1) |> in
    let! Base := Lpuart_Uart_Ip_Putchar Base Data8b in
    Ok (UartState, Base)
  else
    let! Data16b := deref (TxBuff UartState) in
    let! '(Data16b, UartState) :=
      if TxSize UartState =? 1 then
        Ok (Data16b, UartState <| TxBuff := advance (TxBuff UartState) |>
                               <| TxSize := u32 (TxSize UartState - 1) |>)
      else
        let p := advance (TxBuff UartState) in
        let! high := deref p in
        Ok (Z.lor Data16b (u16 (Z.shiftl high 8)),
            UartState <| TxBuff := advance p |> <| TxSize := u32 (TxSize UartState - 2) |>) in
    let! Base := if bool_decide (BitCountPerChar cfg = LPUART_UART_IP_9_BITS_PER_CHAR)
                 then Lpuart_Uart_Ip_Putchar9 Base Data16b else Lpuart_Uart_Ip_Putchar10 Base Data16b in
    Ok (UartState, Base).

Definition Lpuart_Uart_Ip_GetData (cfg : config) (UartState : ustate) (Base : D) : res (ustate * D) :=
  if narrow cfg then
    let! '(c, Base) := Lpuart_Uart_Ip_Getchar Base in
    let! p := assign (RxBuff UartState) c in
    let! p := if bool_decide (BitCountPerChar cfg = LPUART_UART_IP_7_BITS_PER_CHAR)
              then let! c := deref p in assign p (Z.land c 0x7F) else Ok p in
    Ok (UartState <| RxBuff := advance p |> <| RxSize := u32 (RxSize UartState - 1) |>, Base)
  else
    let! '(Data16b, Base) :=
      if bool_decide (BitCountPerChar cfg = LPUART_UART_IP_9_BITS_PER_CHAR)
      then Lpuart_Uart_Ip_Getchar9 Base else Lpuart_Uart_Ip_Getchar10 Base in
    if RxSize UartState =? 1 then
      let! p := assign (RxBuff UartState) (u8 Data16b) in
      Ok (UartState <| RxBuff := advance p |> <| RxSize := u32 (RxSize UartState - 1) |>, Base)
    else
      let! p := assign (RxBuff UartState) (Z.land Data16b 0xFF) in
      let! p := assign (advance p) (u8 (Z.shiftr Data16b 8)) in
      Ok (UartState <| RxBuff := advance p |> <| RxSize := u32 (RxSize UartState - 2) |>, Base).

(** ** Starting and completing interrupt transfers *)

Definition set_ints (Base : D) (l : list Lpuart_Uart_Ip_InterruptType) (Enable : bool) : res D :=
  res_fold (fun Base i => Lpuart_Uart_Ip_SetIntMode Base i Enable) Base l.
Definition error_ints : list Lpuart_Uart_Ip_InterruptType :=
  [LPUART_UART_IP_INT_RX_OVERRUN; LPUART_UART_IP_INT_PARITY_ERR_FLAG;
   LPUART_UART_IP_INT_NOISE_ERR_FLAG; LPUART_UART_IP_INT_FRAME_ERR_FLAG].

Definition Lpuart_Uart_Ip_StartSendDataUsingInt (UartState : ustate) (Base : D) (p : pointer) (n : Z)
    : res (Lpuart_Uart_Ip_StatusType * ustate * D) :=
  let UartState := UartState <| TxBuff := p |> <| TxSize := n |>
                             <| TransmitStatus := LPUART_UART_IP_STATUS_BUSY |> in
  let! Base := Lpuart_Uart_Ip_SetTransmitterCmd Base true in
  let! Base := Lpuart_Uart_Ip_SetIntMode Base LPUART_UART_IP_INT_TX_DATA_REG_EMPTY true in
  Ok (LPUART_UART_IP_STATUS_SUCCESS, UartState, Base).

Definition Lpuart_Uart_Ip_CompleteSendDataUsingInt (UartState : ustate) (Base : D) : res (ustate * D) :=
  let! Base := if bool_decide (TransmitStatus UartState <> LPUART_UART_IP_STATUS_BUSY)
               then Lpuart_Uart_Ip_SetIntMode Base LPUART_UART_IP_INT_TX_DATA_REG_EMPTY false else Ok Base in
  let! Base := Lpuart_Uart_Ip_SetIntMode Base LPUART_UART_IP_INT_TX_COMPLETE false in
  let TimeoutTicks := OsIf_MicrosToTicks LPUART_UART_IP_TIMEOUT_VALUE_US in
  let! '(Base, ElapsedTicks) := wait_flag (rounds TimeoutTicks) Base LPUART_UART_IP_TX_COMPLETE TimeoutTicks 0 in
  let '(late, _) := Lpuart_Uart_Ip_CheckTimeout ElapsedTicks TimeoutTicks in
  let UartState := if late then UartState <| TransmitStatus := LPUART_UART_IP_STATUS_TIMEOUT |> else UartState in
  let! Base := Lpuart_Uart_Ip_SetTransmitterCmd Base false in
  let UartState := if bool_decide (TransmitStatus UartState = LPUART_UART_IP_STATUS_BUSY)
                   then UartState <| TransmitStatus := LPUART_UART_IP_STATUS_SUCCESS |> else UartState in
  Ok (UartState <| IsTxBusy := false |>, Base).

Definition Lpuart_Uart_Ip_StartReceiveDataUsingInt (UartState : ustate) (Base : D) (p : pointer) (n : Z)
    : res (Lpuart_Uart_Ip_StatusType * ustate * D) :=
  let UartState := UartState <| IsRxBusy := true |> <| RxBuff := p |> <| RxSize := n |>
                             <| ReceiveStatus := LPUART_UART_IP_STATUS_BUSY |> in
  let! Base := Lpuart_Uart_Ip_ClearErrorFlags Base in
  let! Base := Lpuart_Uart_Ip_FlushRxBuffer Base in
  let! Base := Lpuart_Uart_Ip_SetReceiverCmd Base true in
  let! Base := set_ints Base error_ints true in
  let! Base := Lpuart_Uart_Ip_SetIntMode Base LPUART_UART_IP_INT_RX_DATA_REG_FULL true in
  Ok (LPUART_UART_IP_STATUS_SUCCESS, UartState, Base).

Definition Lpuart_Uart_Ip_CompleteReceiveDataUsingInt (UartState : ustate) (Base : D) : res (ustate * D) :=
  let! Base := set_ints Base error_ints false in
  let! Base := Lpuart_Uart_Ip_SetIntMode Base LPUART_UART_IP_INT_RX_DATA_REG_FULL false in
  let! '(UartState, Base) :=
    if bool_decide (ReceiveStatus UartState = LPUART_UART_IP_STATUS_ABORTED) then
      let TimeoutTicks := OsIf_MicrosToTicks LPUART_UART_IP_TIMEOUT_VALUE_US in
      let! '(Base, ElapsedTicks) :=
        wait_flag (rounds TimeoutTicks) Base LPUART_UART_IP_DATA_REG_FULL TimeoutTicks 0 in
      let '(late, _) := Lpuart_Uart_Ip_CheckTimeout ElapsedTicks TimeoutTicks in
      Ok (if late then UartState <| ReceiveStatus := LPUART_UART_IP_STATUS_TIMEOUT |> else UartState, Base)
    else Ok (UartState, Base) in
  let! Base := Lpuart_Uart_Ip_SetReceiverCmd Base false in
  let! '(_, Base) := Lpuart_Uart_Ip_Getchar Base in
  let UartState := UartState <| IsRxBusy := false |> in
  Ok (if bool_decide (ReceiveStatus UartState = LPUART_UART_IP_STATUS_BUSY)
      then UartState <| ReceiveStatus := LPUART_UART_IP_STATUS_SUCCESS |> else UartState, Base).

(** ** The interrupt handler *)

Definition call_back (cfg : config) (e : Lpuart_Uart_Ip_EventType) (UartState : ustate) : ustate :=
  match Callback cfg with None => UartState | Some f => f e UartState end.

Definition Lpuart_Uart_Ip_RxIrqHandler (cfg : config) (UartState : ustate) (Base : D) : res (ustate * D) :=
  let! '(UartState, Base) := Lpuart_Uart_Ip_GetData cfg UartState Base in
  let UartState := if RxSize UartState =? 0 then call_back cfg LPUART_UART_IP_EVENT_RX_FULL UartState
                   else UartState in
  if RxSize UartState =? 0 then
    let! '(UartState, Base) := Lpuart_Uart_Ip_CompleteReceiveDataUsingInt UartState Base in
    Ok (call_back cfg LPUART_UART_IP_EVENT_END_TRANSFER UartState, Base)
  else Ok (UartState, Base).

Definition Lpuart_Uart_Ip_TxEmptyIrqHandler (cfg : config) (UartState : ustate) (Base : D) : res (ustate * D) :=
  if 0 <? TxSize UartState then
    let! '(UartState, Base) := Lpuart_Uart_Ip_PutData cfg UartState Base in
    let UartState := if TxSize UartState =? 0 then call_back cfg LPUART_UART_IP_EVENT_TX_EMPTY UartState
                     else UartState in
    if TxSize UartState =? 0 then
      let! Base := Lpuart_Uart_Ip_SetIntMode Base LPUART_UART_IP_INT_TX_DATA_REG_EMPTY false in
      let! Base := Lpuart_Uart_Ip_SetIntMode Base LPUART_UART_IP_INT_TX_COMPLETE true in
      Ok (UartState, Base)
    else Ok (UartState, Base)
  else Ok (UartState, Base).

Definition Lpuart_Uart_Ip_TxCompleteIrqHandler (cfg : config) (UartState : ustate) (Base : D) : res (ustate * D) :=
  if TxSize UartState =? 0 then
    let! '(UartState, Base) :=
      if bool_decide (cfg_TransferType cfg = LPUART_UART_IP_USING_INTERRUPTS)
      then Lpuart_Uart_Ip_CompleteSendDataUsingInt UartState Base else Ok (UartState, Base) in
    Ok (call_back cfg LPUART_UART_IP_EVENT_END_TRANSFER UartState, Base)
  else Ok (UartState, Base).

(** One of the four checks of the error handler; the flags are [IsReturn] and [IsError]. *)
Definition check_error (f : Lpuart_Uart_Ip_StatusFlagType) (i : Lpuart_Uart_Ip_InterruptType)
    (st : Lpuart_Uart_Ip_StatusType) (IsReturn IsError : bool) (UartState : ustate) (Base : D)
    : res (bool * bool * ustate * D) :=
  let! '(set, Base) := Lpuart_Uart_Ip_GetStatusFlag Base f in
  if set && negb IsReturn then
    let! '(enabled, Base) := Lpuart_Uart_Ip_GetIntMode Base i in
    if negb enabled then Ok (true, IsError, UartState, Base)
    else
      let UartState := UartState <| ReceiveStatus := st |> in
      let! Base := Lpuart_Uart_Ip_ClearStatusFlag Base f in
      Ok (IsReturn, true, UartState, Base)
  else Ok (IsReturn, IsError, UartState, Base).

Definition Lpuart_Uart_Ip_ErrIrqHandler (cfg : config) (UartState : ustate) (Base : D) : res (ustate * D) :=
  let! '(IsReturn, IsError, UartState, Base) :=
    check_error LPUART_UART_IP_RX_OVERRUN LPUART_UART_IP_INT_RX_OVERRUN LPUART_UART_IP_STATUS_RX_OVERRUN
      false false UartState Base in
  let! '(IsReturn, IsError, UartState, Base) :=
    check_error LPUART_UART_IP_FRAME_ERR LPUART_UART_IP_INT_FRAME_ERR_FLAG LPUART_UART_IP_STATUS_FRAMING_ERROR
      IsReturn IsError UartState Base in
  let! '(IsReturn, IsError, UartState, Base) :=
    check_error LPUART_UART_IP_PARITY_ERR LPUART_UART_IP_INT_PARITY_ERR_FLAG LPUART_UART_IP_STATUS_PARITY_ERROR
      IsReturn IsError UartState Base in
  let! '(IsReturn, IsError, UartState, Base) :=
    check_error LPUART_UART_IP_NOISE_DETECT LPUART_UART_IP_INT_NOISE_ERR_FLAG LPUART_UART_IP_STATUS_NOISE_ERROR
      IsReturn IsError UartState Base in
  if negb IsReturn && IsError then
    let! '(UartState, Base) :=
      if bool_decide (cfg_TransferType cfg = LPUART_UART_IP_USING_INTERRUPTS)
      then Lpuart_Uart_Ip_CompleteReceiveDataUsingInt UartState Base else Ok (UartState, Base) in
    Ok (call_back cfg LPUART_UART_IP_EVENT_ERROR UartState, Base)
  else Ok (UartState, Base).

(** The handler for an initialised instance. *)
Definition irq_handler (cfg : config) (UartState : ustate) (Base : D) : res (ustate * D) :=
  let! '(UartState, Base) := Lpuart_Uart_Ip_ErrIrqHandler cfg UartState Base in
  let! '(full, Base) := Lpuart_Uart_Ip_GetStatusFlag Base LPUART_UART_IP_DATA_REG_FULL in
  let! '(UartState, Base) :=
    if full then
      let! '(enabled, Base) := Lpuart_Uart_Ip_GetIntMode Base LPUART_UART_IP_INT_RX_DATA_REG_FULL in
      if enabled then Lpuart_Uart_Ip_RxIrqHandler cfg UartState Base else Ok (UartState, Base)
    else Ok (UartState, Base) in
  let IsReturn := full in
  let! '(empty, Base) := Lpuart_Uart_Ip_GetStatusFlag Base LPUART_UART_IP_TX_DATA_REG_EMPTY in
  let! '(IsReturn, UartState, Base) :=
    if empty && negb IsReturn then
      let! '(enabled, Base) := Lpuart_Uart_Ip_GetIntMode Base LPUART_UART_IP_INT_TX_DATA_REG_EMPTY in
      if enabled then
        let! '(UartState, Base) := Lpuart_Uart_Ip_TxEmptyIrqHandler cfg UartState Base in
        Ok (true, UartState, Base)
      else Ok (IsReturn, UartState, Base)
    else Ok (IsReturn, UartState, Base) in
  let! '(complete, Base) := Lpuart_Uart_Ip_GetStatusFlag Base LPUART_UART_IP_TX_COMPLETE in
  if complete && negb IsReturn then
    let! '(enabled, Base) := Lpuart_Uart_Ip_GetIntMode Base LPUART_UART_IP_INT_TX_COMPLETE in
    if enabled then Lpuart_Uart_Ip_TxCompleteIrqHandler cfg UartState Base else Ok (UartState, Base)
  else Ok (UartState, Base).

(** ** Polling transfers *)

(** The loop of [Lpuart_Uart_Ip_SyncSend]: each round sends a character. *)
Fixpoint send_loop (fuel : nat) (cfg : config) (UartState : ustate) (Base : D) (TimeoutTicks ElapsedTicks : Z)
    : res (ustate * D * Z) :=
  match fuel with
  | O => Fault OutOfFuel
  | S fuel' =>
      if negb (0 <? TxSize UartState) then Ok (UartState, Base, ElapsedTicks)
      else
        let '(late, ElapsedTicks) := Lpuart_Uart_Ip_CheckTimeout ElapsedTicks TimeoutTicks in
        if late then Ok (UartState, Base, ElapsedTicks)
        else
          let! '(UartState, Base) := Lpuart_Uart_Ip_PutData cfg UartState Base in
          let! '(Base, ElapsedTicks) :=
            wait_flag (rounds TimeoutTicks) Base LPUART_UART_IP_TX_DATA_REG_EMPTY TimeoutTicks ElapsedTicks in
          send_loop fuel' cfg UartState Base TimeoutTicks ElapsedTicks
  end.

(** [Lpuart_Uart_Ip_SyncSend] once the transmitter is marked busy. *)
Definition sync_send (cfg : config) (UartState : ustate) (Base : D) (p : pointer) (n Timeout : Z)
    : res (Lpuart_Uart_Ip_StatusType * ustate * D) :=
  let UartState := UartState <| IsTxBusy := true |> <| TxBuff := p |> <| TxSize := n |>
                             <| TransmitStatus := LPUART_UART_IP_STATUS_BUSY |> in
  let! Base := Lpuart_Uart_Ip_SetIntMode Base LPUART_UART_IP_INT_TX_DATA_REG_EMPTY false in
  let! Base := Lpuart_Uart_Ip_SetIntMode Base LPUART_UART_IP_INT_TX_COMPLETE false in
  let! Base := Lpuart_Uart_Ip_SetTransmitterCmd Base true in
  let TimeoutTicks := OsIf_MicrosToTicks Timeout in
  let! '(UartState, Base, ElapsedTicks) :=
    send_loop (S (Z.to_nat n)) cfg UartState Base TimeoutTicks 0 in
  let! Base := Lpuart_Uart_Ip_SetTransmitterCmd Base false in
  let '(late, _) := Lpuart_Uart_Ip_CheckTimeout ElapsedTicks TimeoutTicks in
  let st := if late then LPUART_UART_IP_STATUS_TIMEOUT else LPUART_UART_IP_STATUS_SUCCESS in
  Ok (st, UartState <| TransmitStatus := st |> <| IsTxBusy := false |>, Base).

(** The flags looked at after each character, the status for each and its mask. *)
Definition receive_errors : list (Lpuart_Uart_Ip_StatusFlagType * Lpuart_Uart_Ip_StatusType * Z) :=
  [(LPUART_UART_IP_RX_OVERRUN, LPUART_UART_IP_STATUS_RX_OVERRUN, LPUART_STAT_OR_MASK);
   (LPUART_UART_IP_FRAME_ERR, LPUART_UART_IP_STATUS_FRAMING_ERROR, LPUART_STAT_FE_MASK);
   (LPUART_UART_IP_NOISE_DETECT, LPUART_UART_IP_STATUS_NOISE_ERROR, LPUART_STAT_NF_MASK);
   (LPUART_UART_IP_PARITY_ERR, LPUART_UART_IP_STATUS_PARITY_ERROR, LPUART_STAT_PF_MASK)].
Definition look_for_errors (UartState : ustate) (Base : D) : res (ustate * D * Z) :=
  res_fold (fun '(UartState, Base, Mask) '(f, st, m) =>
    let! '(set, Base) := Lpuart_Uart_Ip_GetStatusFlag Base f in
    Ok (if set then (UartState <| ReceiveStatus := st |>, Base, Z.lor Mask m) else (UartState, Base, Mask)))
    (UartState, Base, 0) receive_errors.

Fixpoint receive_loop (fuel : nat) (cfg : config) (UartState : ustate) (Base : D) (TimeoutTicks ElapsedTicks : Z)
    : res (ustate * D * Z) :=
  match fuel with
  | O => Fault OutOfFuel
  | S fuel' =>
      if negb (0 <? RxSize UartState) then Ok (UartState, Base, ElapsedTicks)
      else
        let '(late, ElapsedTicks) := Lpuart_Uart_Ip_CheckTimeout ElapsedTicks TimeoutTicks in
        if late then Ok (UartState, Base, ElapsedTicks)
        else
          let! '(Base, ElapsedTicks) :=
            wait_flag (rounds TimeoutTicks) Base LPUART_UART_IP_DATA_REG_FULL TimeoutTicks ElapsedTicks in
          let! '(UartState, Base, Mask) := look_for_errors UartState Base in
          if 0 <? Mask then
            let! Base := Lpuart_Uart_Ip_SetReceiverCmd Base false in
            let! Base := Lpuart_Uart_Ip_ClearStatusFlagWithMask Base Mask in
            Ok (UartState, Base, ElapsedTicks)
          else
            let! '(UartState, Base) := Lpuart_Uart_Ip_GetData cfg UartState Base in
            receive_loop fuel' cfg UartState Base TimeoutTicks ElapsedTicks
  end.
Definition Lpuart_Uart_Ip_StartGetData (cfg : config) (UartState : ustate) (Base : D) (TimeoutTicks ElapsedTicks : Z)
    : res (ustate * D * Z) :=
  receive_loop (S (Z.to_nat (RxSize UartState))) cfg UartState Base TimeoutTicks ElapsedTicks.

(** [Lpuart_Uart_Ip_SyncReceive] once the receiver is marked busy. *)
Definition sync_receive (cfg : config) (UartState : ustate) (Base : D) (p : pointer) (n Timeout : Z)
    : res (Lpuart_Uart_Ip_StatusType * ustate * D) :=
  let UartState := UartState <| IsRxBusy := true |> <| RxBuff := p |> <| RxSize := n |>
                             <| ReceiveStatus := LPUART_UART_IP_STATUS_BUSY |> in
  let! Base := Lpuart_Uart_Ip_SetIntMode Base LPUART_UART_IP_INT_RX_DATA_REG_FULL false in
  let! Base := Lpuart_Uart_Ip_SetReceiverCmd Base true in
  let TimeoutTicks := OsIf_MicrosToTicks Timeout in
  let! '(UartState, Base, ElapsedTicks) := Lpuart_Uart_Ip_StartGetData cfg UartState Base TimeoutTicks 0 in
  let '(late, _) := Lpuart_Uart_Ip_CheckTimeout ElapsedTicks TimeoutTicks in
  let UartState := if late then UartState <| ReceiveStatus := LPUART_UART_IP_STATUS_TIMEOUT |> else UartState in
  let UartState := if bool_decide (ReceiveStatus UartState = LPUART_UART_IP_STATUS_BUSY)
                   then UartState <| ReceiveStatus := LPUART_UART_IP_STATUS_SUCCESS |> else UartState in
  let UartState := if (RxSize UartState =? 0) &&
                      bool_decide (ReceiveStatus UartState = LPUART_UART_IP_STATUS_RX_OVERRUN)
                   then UartState <| ReceiveStatus := LPUART_UART_IP_STATUS_SUCCESS |> else UartState in
  let! Base := Lpuart_Uart_Ip_SetReceiverCmd Base false in
  let UartState := UartState <| IsRxBusy := false |> in
  let! '(_, Base) := Lpuart_Uart_Ip_Getchar Base in
  Ok (ReceiveStatus UartState, UartState, Base).

(** ** Baud rate *)

Definition baud_diff (CalculatedBaud ExpectedBaud : Z) : Z :=
  if ExpectedBaud <? CalculatedBaud then CalculatedBaud - ExpectedBaud else ExpectedBaud - CalculatedBaud.

(** The divisor and the rate for an oversampling ratio. *)
Definition try_osr (ClockFrequency ExpectedBaud Osr : Z) : res (Z * Z) :=
  let! q := c_div ClockFrequency (u32 (ExpectedBaud * Osr)) in
  let Sbr := u16 q in
  let! CalculatedBaud := c_div ClockFrequency (u32 (Osr * Sbr)) in
  Ok (Sbr, CalculatedBaud).

(** What the search carries. *)
Record baud_search := mkSearch { bs_Osr : Z; bs_Sbr : Z; bs_BaudDiff : Z; bs_CalculatedBaud : Z }.

Definition search_step (ClockFrequency ExpectedBaud : Z) (b : baud_search) (Idx : Z) : res baud_search :=
  let! '(SbrTemp, CalculatedBaud) := try_osr ClockFrequency ExpectedBaud Idx in
  let TempDiff := baud_diff CalculatedBaud ExpectedBaud in
  Ok (if TempDiff <=? bs_BaudDiff b then mkSearch Idx SbrTemp TempDiff CalculatedBaud
      else mkSearch (bs_Osr b) (bs_Sbr b) (bs_BaudDiff b) CalculatedBaud).

Definition max_osr (ClockFrequency ExpectedBaud : Z) : Z :=
  let MaxOsr := ClockFrequency / ExpectedBaud in if 32 <? MaxOsr then 32 else MaxOsr.

Definition search_baud (ClockFrequency ExpectedBaud : Z) : res baud_search :=
  let! '(Sbr, CalculatedBaud) := try_osr ClockFrequency ExpectedBaud 4 in
  res_fold (search_step ClockFrequency ExpectedBaud)
    (mkSearch 4 Sbr (baud_diff CalculatedBaud ExpectedBaud) CalculatedBaud)
    (seqZ 5 (max_osr ClockFrequency ExpectedBaud - 4)).

(** [Lpuart_Uart_Ip_SetBaudRate] for an idle instance. *)
Definition set_baud_rate (UartState : ustate) (Base : D) (ExpectedBaud ClockFrequency : Z) : res (ustate * D) :=
  do! assert (0 <? ClockFrequency) in
  do! assert (u32 (ExpectedBaud * 4) <=? ClockFrequency) in
  let! b := search_baud ClockFrequency ExpectedBaud in
  let! Base := if bs_Osr b <? 8 then Lpuart_Uart_Ip_EnableBothEdgeSamplingCmd Base else Ok Base in
  let! Base := Lpuart_Uart_Ip_SetOversamplingRatio Base (bs_Osr b - 1) in
  let! Base := Lpuart_Uart_Ip_SetBaudRateDivisor Base (bs_Sbr b) in
  Ok (UartState <| BaudRate := bs_CalculatedBaud b |>, Base).
End hw.

(** ** The driver and its instances *)

(** [Lpuart_Uart_Ip_apStateStructuresArray] (an index into
    [Lpuart_Uart_Ip_apStateStructure], or NULL), [Lpuart_Uart_Ip_apStateStructure],
    [Lpuart_Uart_Ip_apUserConfig], and the hardware behind [Lpuart_Uart_Ip_apBases]. *)
Record udriver (D : Type) := mkUdriver {
  apStateStructuresArray : list (option Z);
  apStateStructure : list ustate;
  apUserConfig : list (option config);
  apBases : list D;
}.
Arguments mkUdriver {D}.
Arguments apStateStructuresArray {D}.
Arguments apStateStructure {D}.
Arguments apUserConfig {D}.
Arguments apBases {D}.
#[global] Instance eta_udriver D : Eta (udriver D) := fun g =>
  mkUdriver (apStateStructuresArray g) (apStateStructure g) (apUserConfig g) (apBases g).

Section api.
Context {D : Type} `{UartPort D} `{LpuartHeader}.

(** The state structure of an instance, for [DevAssert(UartState != NULL)] and
    where the code follows the pointer without one. *)
Definition uart_state (g : udriver D) (Instance : Z) (null : fault) : res (Z * ustate) :=
  let! p := load (apStateStructuresArray g) Instance in
  match p with
  | None => Fault null
  | Some i => let! st := load (apStateStructure g) i in Ok (i, st)
  end.
Definition user_config (g : udriver D) (Instance : Z) (null : fault) : res config :=
  let! c := load (apUserConfig g) Instance in
  match c with None => Fault null | Some cfg => Ok cfg end.
Definition put_uart (g : udriver D) (Instance i : Z) (UartState : ustate) (Base : D) : res (udriver D) :=
  let! l := store (apStateStructure g) i UartState in
  let! bs := store (apBases g) Instance Base in
  Ok (g <| apStateStructure := l |> <| apBases := bs |>).

Definition cleared : ustate :=
  mkUart 0 None None 0 0 false false LPUART_UART_IP_STATUS_SUCCESS LPUART_UART_IP_STATUS_SUCCESS.

(** The register set-up of [Lpuart_Uart_Ip_Init]: the defaults, then the user's settings. *)
Definition init_settings (cfg : config) (Base : D) : res D :=
  let! Base := if BaudOverSamplingRatio cfg <? 8 then Lpuart_Uart_Ip_EnableBothEdgeSamplingCmd Base
               else Ok Base in
  let! Base := Lpuart_Uart_Ip_SetOversamplingRatio Base (u32 (BaudOverSamplingRatio cfg - 1)) in
  let! Base := Lpuart_Uart_Ip_SetBaudRateDivisor Base (BaudRateDivisor cfg) in
  let! Base := Lpuart_Uart_Ip_SetBitCountPerChar Base (BitCountPerChar cfg)
                 (bool_decide (ParityMode cfg <> LPUART_UART_IP_PARITY_DISABLED)) in
  let! Base := Lpuart_Uart_Ip_SetParityMode Base (ParityMode cfg) in
  Lpuart_Uart_Ip_SetStopBitCount Base (StopBitsCount cfg).
Definition init_hardware (cfg : config) (Base : D) : res D :=
  let! Base := Lpuart_Uart_Ip_Hw_Init Base in init_settings cfg Base.

Definition Lpuart_Uart_Ip_Init (g : udriver D) (Instance : Z) (UserConfig : config) : res (udriver D) :=
  do! assert (Instance <? LPUART_INSTANCE_COUNT) in
  let! p := load (apStateStructuresArray g) Instance in
  do! assert (bool_decide (p = None)) in
  do! assert (BaudOverSamplingRatio UserConfig <=? 0x20) in
  do! assert ((BaudRateDivisor UserConfig <=? 0x1FFF) && (1 <=? BaudRateDivisor UserConfig)) in
  let! Base := load (apBases g) Instance in
  let! l := store (apStateStructuresArray g) Instance (Some (StateStruct UserConfig)) in
  let! cs := store (apUserConfig g) Instance (Some UserConfig) in
  let g := g <| apStateStructuresArray := l |> <| apUserConfig := cs |> in
  do! assert (bool_decide (BitCountPerChar UserConfig <> LPUART_UART_IP_10_BITS_PER_CHAR) ||
              bool_decide (ParityMode UserConfig = LPUART_UART_IP_PARITY_DISABLED)) in
  let! Base := init_hardware UserConfig Base in
  put_uart g Instance (StateStruct UserConfig) (cleared <| BaudRate := cfg_BaudRate UserConfig |>) Base.

(** [while ((IsTxBusy || IsRxBusy) && !CheckTimeout) {}]. *)
Fixpoint wait_idle (fuel : nat) (UartState : ustate) (TimeoutTicks ElapsedTicks : Z) : res Z :=
  match fuel with
  | O => Fault OutOfFuel
  | S fuel' =>
      if negb (IsTxBusy UartState || IsRxBusy UartState) then Ok ElapsedTicks
      else
        let '(late, ElapsedTicks) := Lpuart_Uart_Ip_CheckTimeout ElapsedTicks TimeoutTicks in
        if late then Ok ElapsedTicks else wait_idle fuel' UartState TimeoutTicks ElapsedTicks
  end.

Definition Lpuart_Uart_Ip_Deinit (g : udriver D) (Instance : Z) : res (Lpuart_Uart_Ip_StatusType * udriver D) :=
  do! assert (Instance <? LPUART_INSTANCE_COUNT) in
  let! Base := load (apBases g) Instance in
  let! '(_, UartState) := uart_state g Instance AssertFailure in
  let TimeoutTicks := OsIf_MicrosToTicks LPUART_UART_IP_TIMEOUT_VALUE_US in
  let! ElapsedTicks := wait_idle (rounds TimeoutTicks) UartState TimeoutTicks 0 in
  let '(late, _) := Lpuart_Uart_Ip_CheckTimeout ElapsedTicks TimeoutTicks in
  if late then Ok (LPUART_UART_IP_STATUS_ERROR, g)
  else
    let! Base := set_ints Base
      ([LPUART_UART_IP_INT_TX_DATA_REG_EMPTY; LPUART_UART_IP_INT_TX_COMPLETE;
        LPUART_UART_IP_INT_RX_DATA_REG_FULL] ++ error_ints) false in
    let! bs := store (apBases g) Instance Base in
    let! l := store (apStateStructuresArray g) Instance None in
    Ok (LPUART_UART_IP_STATUS_SUCCESS, g <| apBases := bs |> <| apStateStructuresArray := l |>).

Definition Lpuart_Uart_Ip_SyncSend (g : udriver D) (Instance : Z) (TxBuff : pointer) (TxSize Timeout : Z)
    : res (Lpuart_Uart_Ip_StatusType * udriver D) :=
  do! assert (Instance <? LPUART_INSTANCE_COUNT) in
  do! assert (bool_decide (is_Some TxBuff)) in
  do! assert (0 <? TxSize) in
  let! Base := load (apBases g) Instance in
  let! '(i, UartState) := uart_state g Instance AssertFailure in
  if IsTxBusy UartState then Ok (LPUART_UART_IP_STATUS_BUSY, g)
  else
    let! cfg := user_config g Instance NullPointer in
    let! '(st, UartState, Base) := sync_send cfg UartState Base TxBuff TxSize Timeout in
    let! g := put_uart g Instance i UartState Base in
    Ok (st, g).

Definition Lpuart_Uart_Ip_AsyncSend (g : udriver D) (Instance : Z) (TxBuff : pointer) (TxSize : Z)
    : res (Lpuart_Uart_Ip_StatusType * udriver D) :=
  do! assert (Instance <? LPUART_INSTANCE_COUNT) in
  do! assert (bool_decide (is_Some TxBuff)) in
  do! assert (0 <? TxSize) in
  let! '(i, UartState) := uart_state g Instance AssertFailure in
  if IsTxBusy UartState then Ok (LPUART_UART_IP_STATUS_BUSY, g)
  else
    let! Base := load (apBases g) Instance in
    let UartState := UartState <| IsTxBusy := true |> in
    let! cfg := user_config g Instance AssertFailure in
    let! '(st, UartState, Base) :=
      if bool_decide (cfg_TransferType cfg = LPUART_UART_IP_USING_INTERRUPTS)
      then Lpuart_Uart_Ip_StartSendDataUsingInt UartState Base TxBuff TxSize
      else Ok (LPUART_UART_IP_STATUS_SUCCESS, UartState, Base) in
    let! g := put_uart g Instance i UartState Base in
    Ok (st, g).

(** The status and [*BytesRemaining], when it is written. *)
Definition Lpuart_Uart_Ip_GetTransmitStatus (g : udriver D) (Instance : Z) (BytesRemaining : bool)
    : res (Lpuart_Uart_Ip_StatusType * option Z) :=
  do! assert (Instance <? LPUART_INSTANCE_COUNT) in
  let! '(_, UartState) := uart_state g Instance AssertFailure in
  let! cfg := user_config g Instance AssertFailure in
  Ok (TransmitStatus UartState,
      if BytesRemaining && bool_decide (cfg_TransferType cfg = LPUART_UART_IP_USING_INTERRUPTS)
      then Some (if IsTxBusy UartState then TxSize UartState else 0) else None).

Definition Lpuart_Uart_Ip_AbortSendingData (g : udriver D) (Instance : Z)
    : res (Lpuart_Uart_Ip_StatusType * udriver D) :=
  do! assert (Instance <? LPUART_INSTANCE_COUNT) in
  let! Base := load (apBases g) Instance in
  let! '(i, UartState) := uart_state g Instance AssertFailure in
  let! cfg := user_config g Instance AssertFailure in
  let! '(UartState, Base) :=
    if negb (IsTxBusy UartState) then Ok (UartState, Base)
    else
      let UartState := UartState <| TransmitStatus := LPUART_UART_IP_STATUS_ABORTED |> in
      let! '(UartState, Base) :=
        if bool_decide (cfg_TransferType cfg = LPUART_UART_IP_USING_INTERRUPTS)
        then Lpuart_Uart_Ip_CompleteSendDataUsingInt UartState Base else Ok (UartState, Base) in
      let! Base := Lpuart_Uart_Ip_FlushTxBuffer Base in
      Ok (UartState, Base) in
  let! g := put_uart g Instance i UartState Base in
  Ok (if bool_decide (TransmitStatus UartState = LPUART_UART_IP_STATUS_TIMEOUT)
      then LPUART_UART_IP_STATUS_ERROR else LPUART_UART_IP_STATUS_SUCCESS, g).

(** The caller's buffer is the one the state structure points into afterwards. *)
Definition Lpuart_Uart_Ip_SyncReceive (g : udriver D) (Instance : Z) (RxBuff : pointer) (RxSize Timeout : Z)
    : res (Lpuart_Uart_Ip_StatusType * udriver D) :=
  do! assert (Instance <? LPUART_INSTANCE_COUNT) in
  do! assert (bool_decide (is_Some RxBuff)) in
  do! assert (0 <? RxSize) in
  let! Base := load (apBases g) Instance in
  let! '(i, UartState) := uart_state g Instance AssertFailure in
  if IsRxBusy UartState then Ok (LPUART_UART_IP_STATUS_BUSY, g)
  else
    let! cfg := user_config g Instance NullPointer in
    let! '(st, UartState, Base) := sync_receive cfg UartState Base RxBuff RxSize Timeout in
    let! g := put_uart g Instance i UartState Base in
    Ok (st, g).

Definition Lpuart_Uart_Ip_AsyncReceive (g : udriver D) (Instance : Z) (RxBuff : pointer) (RxSize : Z)
    : res (Lpuart_Uart_Ip_StatusType * udriver D) :=
  do! assert (Instance <? LPUART_INSTANCE_COUNT) in
  do! assert (bool_decide (is_Some RxBuff)) in
  do! assert (0 <? RxSize) in
  let! '(i, UartState) := uart_state g Instance AssertFailure in
  if IsRxBusy UartState then Ok (LPUART_UART_IP_STATUS_BUSY, g)
  else
    let! Base := load (apBases g) Instance in
    let UartState := UartState <| IsRxBusy := true |> in
    let! cfg := user_config g Instance AssertFailure in
    let! '(st, UartState, Base) :=
      if bool_decide (cfg_TransferType cfg = LPUART_UART_IP_USING_INTERRUPTS)
      then Lpuart_Uart_Ip_StartReceiveDataUsingInt UartState Base RxBuff RxSize
      else Ok (LPUART_UART_IP_STATUS_SUCCESS, UartState, Base) in
    let! g := put_uart g Instance i UartState Base in
    Ok (st, g).

Definition Lpuart_Uart_Ip_GetReceiveStatus (g : udriver D) (Instance : Z) (BytesRemaining : bool)
    : res (Lpuart_Uart_Ip_StatusType * option Z) :=
  do! assert (Instance <? LPUART_INSTANCE_COUNT) in
  let! '(_, UartState) := uart_state g Instance AssertFailure in
  let! cfg := user_config g Instance AssertFailure in
  Ok (ReceiveStatus UartState,
      if BytesRemaining && bool_decide (cfg_TransferType cfg = LPUART_UART_IP_USING_INTERRUPTS)
      then Some (if IsRxBusy UartState then RxSize UartState else 0) else None).

Definition Lpuart_Uart_Ip_AbortReceivingData (g : udriver D) (Instance : Z)
    : res (Lpuart_Uart_Ip_StatusType * udriver D) :=
  do! assert (Instance <? LPUART_INSTANCE_COUNT) in
  let! Base := load (apBases g) Instance in
  let! '(i, UartState) := uart_state g Instance AssertFailure in
  let! cfg := user_config g Instance AssertFailure in
  let! '(UartState, Base) :=
    if negb (IsRxBusy UartState) then Ok (UartState, Base)
    else
      let UartState := UartState <| ReceiveStatus := LPUART_UART_IP_STATUS_ABORTED |> in
      let! '(UartState, Base) :=
        if bool_decide (cfg_TransferType cfg = LPUART_UART_IP_USING_INTERRUPTS)
        then Lpuart_Uart_Ip_CompleteReceiveDataUsingInt UartState Base else Ok (UartState, Base) in
      let! Base := Lpuart_Uart_Ip_ClearErrorFlags Base in
      let! Base := Lpuart_Uart_Ip_FlushRxBuffer Base in
      Ok (UartState, Base) in
  let! g := put_uart g Instance i UartState Base in
  Ok (if bool_decide (ReceiveStatus UartState = LPUART_UART_IP_STATUS_TIMEOUT)
      then LPUART_UART_IP_STATUS_ERROR else LPUART_UART_IP_STATUS_SUCCESS, g).

Definition Lpuart_Uart_Ip_SetBaudRate (g : udriver D) (Instance DesiredBaudrate ClockFrequency : Z)
    : res (Lpuart_Uart_Ip_StatusType * udriver D) :=
  do! assert (Instance <? LPUART_INSTANCE_COUNT) in
  let! Base := load (apBases g) Instance in
  let! '(i, UartState) := uart_state g Instance AssertFailure in
  if IsTxBusy UartState || IsRxBusy UartState then Ok (LPUART_UART_IP_STATUS_BUSY, g)
  else
    let! '(UartState, Base) := set_baud_rate UartState Base DesiredBaudrate ClockFrequency in
    let! g := put_uart g Instance i UartState Base in
    Ok (LPUART_UART_IP_STATUS_SUCCESS, g).

Definition Lpuart_Uart_Ip_GetBaudRate (g : udriver D) (Instance : Z) : res Z :=
  do! assert (Instance <? LPUART_INSTANCE_COUNT) in
  let! '(_, UartState) := uart_state g Instance NullPointer in
  Ok (BaudRate UartState).

Definition put_ustate (g : udriver D) (i : Z) (UartState : ustate) : res (udriver D) :=
  let! l := store (apStateStructure g) i UartState in Ok (g <| apStateStructure := l |>).

Definition Lpuart_Uart_Ip_SetTxBuffer (g : udriver D) (Instance : Z) (p : pointer) (n : Z) : res (udriver D) :=
  do! assert (Instance <? LPUART_INSTANCE_COUNT) in
  do! assert (bool_decide (is_Some p)) in
  do! assert (0 <? n) in
  let! '(i, UartState) := uart_state g Instance NullPointer in
  put_ustate g i (UartState <| TxBuff := p |> <| TxSize := n |>).
Definition Lpuart_Uart_Ip_SetRxBuffer (g : udriver D) (Instance : Z) (p : pointer) (n : Z) : res (udriver D) :=
  do! assert (Instance <? LPUART_INSTANCE_COUNT) in
  do! assert (bool_decide (is_Some p)) in
  do! assert (0 <? n) in
  let! '(i, UartState) := uart_state g Instance NullPointer in
  put_ustate g i (UartState <| RxBuff := p |> <| RxSize := n |>).

(** A null state structure is a spurious interrupt: the flags are cleared. *)
Definition Lpuart_Uart_Ip_IrqHandler (g : udriver D) (Instance : Z) : res (udriver D) :=
  do! assert (Instance <? LPUART_INSTANCE_COUNT) in
  let! Base := load (apBases g) Instance in
  let! p := load (apStateStructuresArray g) Instance in
  match p with
  | None =>
      let! '(_, Base) := Lpuart_Uart_Ip_Getchar Base in
      let! Base := Lpuart_Uart_Ip_ClearErrorFlags Base in
      let! bs := store (apBases g) Instance Base in
      Ok (g <| apBases := bs |>)
  | Some i =>
      let! UartState := load (apStateStructure g) i in
      let! cfg := user_config g Instance NullPointer in
      let! '(UartState, Base) := irq_handler cfg UartState Base in
      put_uart g Instance i UartState Base
  end.
End api.

(** ** The configuration of the demo, [generate/src/Lpuart_Uart_Ip_Sa_PBcfg.c] *)

Definition Lpuart_Uart_Ip_xHwConfigPB_3 : config :=
  mkUserConfig 115942 15 23 LPUART_UART_IP_PARITY_DISABLED LPUART_UART_IP_ONE_STOP_BIT
    LPUART_UART_IP_8_BITS_PER_CHAR LPUART_UART_IP_USING_INTERRUPTS None 0.
End UartDriver.
