(* ===== verification/UartDriverProps.v ===== *)
(** * Safety of the LPUART driver

    The driver on any hardware that keeps what is written to its control register
    ([FaithfulPort]): no call and no interrupt faults, the buffers are only
    accessed inside, and the search for a baud rate finds the best one. *)

From S2P Require Import Prelude Words UartDriver.
Import UartDriver.

(** Positions of the fields, as the reference manual of the chip gives them. *)
Class DocumentedLpuart `{LpuartHeader} : Prop := {
  doc_osr_shift : LPUART_BAUD_OSR_SHIFT = 24;
  doc_osr_mask : LPUART_BAUD_OSR_MASK = 0x1F000000;
  doc_osr : forall x, LPUART_BAUD_OSR x = Z.land (u32 (Z.shiftl x 24)) 0x1F000000;
  doc_sbr_shift : LPUART_BAUD_SBR_SHIFT = 0;
  doc_sbr_mask : LPUART_BAUD_SBR_MASK = 0x1FFF;
  doc_bothedge : LPUART_BAUD_BOTHEDGE_MASK = 0x20000;
  doc_m10 : LPUART_BAUD_M10_MASK = 0x20000000 /\ LPUART_BAUD_M10_SHIFT = 29;
  doc_sbns : LPUART_BAUD_SBNS_MASK = 0x2000 /\ LPUART_BAUD_SBNS_SHIFT = 13;
  doc_te : LPUART_CTRL_TE_MASK = 0x80000 /\ LPUART_CTRL_TE_SHIFT = 19;
  doc_re : LPUART_CTRL_RE_MASK = 0x40000 /\ LPUART_CTRL_RE_SHIFT = 18;
  doc_m7 : LPUART_CTRL_M7_MASK = 0x800 /\ LPUART_CTRL_M7_SHIFT = 11;
  doc_m : LPUART_CTRL_M_MASK = 0x10 /\ LPUART_CTRL_M_SHIFT = 4;
  doc_pe : LPUART_CTRL_PE_MASK = 0x2 /\ LPUART_CTRL_PE_SHIFT = 1;
  doc_pt : LPUART_CTRL_PT_MASK = 0x1 /\ LPUART_CTRL_PT_SHIFT = 0;
  doc_r9t8 : LPUART_CTRL_R9T8_MASK = 0x40000000 /\ LPUART_CTRL_R9T8_SHIFT = 30;
  doc_r8t9 : LPUART_CTRL_R8T9_MASK = 0x80000000 /\ LPUART_CTRL_R8T9_SHIFT = 31;
  doc_tie : LPUART_CTRL_TIE_SHIFT = 23;
  doc_tcie : LPUART_CTRL_TCIE_SHIFT = 22;
  doc_rie : LPUART_CTRL_RIE_SHIFT = 21;
  doc_orie : LPUART_CTRL_ORIE_SHIFT = 27;
  doc_neie : LPUART_CTRL_NEIE_SHIFT = 26;
  doc_feie : LPUART_CTRL_FEIE_SHIFT = 25;
  doc_peie : LPUART_CTRL_PEIE_SHIFT = 24;
  doc_tdre : LPUART_STAT_TDRE_SHIFT = 23;
  doc_tc : LPUART_STAT_TC_SHIFT = 22;
  doc_rdrf : LPUART_STAT_RDRF_SHIFT = 21;
}.

(** What the driver needs of the hardware: register accesses succeed and keep the
    hardware's own invariant [J], and CTRL reads back what was written.  [host] is
    what happens at the hardware between accesses. *)
Class FaithfulPort (D : Type) `{UartPort D} (J : D -> Prop) := {
  ctrl_of : D -> Z;
  host : Type;
  host_step : host -> D -> D;
  uread_ok : forall d r, J d ->
    yields (ureg_read d r) (fun '(v, d') => J d' /\ ctrl_of d' = ctrl_of d /\ (r = CTRL -> v = ctrl_of d));
  uwrite_ok : forall d r v, J d ->
    yields (ureg_write d r v) (fun d' => J d' /\ (r = CTRL -> ctrl_of d' = u32 v) /\
      (r <> CTRL -> ctrl_of d' = ctrl_of d));
  host_ok : forall h d, J d -> J (host_step h d) /\ ctrl_of (host_step h d) = ctrl_of d;
}.
Arguments host D {_ J _}.

(** ** The search for a baud rate *)

Module BaudSearch.

(** Rates that the driver accepts and whose divisors fit their 16 bits. *)
Definition rate_ok (clk e : Z) : Prop := 0 < e /\ e * 4 <= clk < 2 ^ 32 /\ clk / (e * 4) < 2 ^ 16.

Definition divisor (clk e o : Z) : Z := clk / (e * o).
Definition rate (clk e o : Z) : Z := clk / (o * divisor clk e o).

Lemma max_osr_bounds clk e : rate_ok clk e -> 4 <= max_osr clk e <= 32 /\ e * max_osr clk e <= clk.
Proof.
  intros (He & Hc & _). unfold max_osr.
  assert (4 <= clk / e) by (apply Z.div_le_lower_bound; lia).
  assert (e * (clk / e) <= clk) by (apply Z.mul_div_le; lia).
  destruct (Z.ltb_spec 32 (clk / e)); nia.
Qed.

Lemma divisor_bounds clk e o :
  rate_ok clk e -> 4 <= o -> e * o <= clk -> 1 <= divisor clk e o < 2 ^ 16 /\ o * divisor clk e o <= clk.
Proof.
  intros (He & Hc & Hs) Ho Hoc. unfold divisor.
  assert (1 <= clk / (e * o)) by (apply Z.div_le_lower_bound; nia).
  assert (clk / (e * o) <= clk / (e * 4)) by (apply Z.div_le_compat_l; nia).
  assert (e * o * (clk / (e * o)) <= clk) by (apply Z.mul_div_le; nia).
  split; [lia|nia].
Qed.

Lemma try_osr_ok clk e o :
  rate_ok clk e -> 4 <= o -> e * o <= clk -> try_osr clk e o = Ok (divisor clk e o, rate clk e o).
Proof.
  intros Hr Ho Hoc. destruct (divisor_bounds clk e o Hr Ho Hoc) as [Hd Hod]. destruct Hr as (He & Hc & Hs).
  unfold try_osr. rewrite (u_small 32 (e * o)) by (unfold is_u; nia).
  rewrite c_div_nz by nia. cbn [res_bind]. fold (divisor clk e o).
  rewrite (u_small 16 (divisor clk e o)) by (unfold is_u; lia).
  rewrite (u_small 32 (o * _)) by (unfold is_u; nia). rewrite c_div_nz by nia. done.
Qed.

(** The best of the ratios tried, and the rate of the last one. *)
Record best (clk e n : Z) (b : baud_search) : Prop := {
  bt_osr : 4 <= bs_Osr b < n;
  bt_sbr : bs_Sbr b = divisor clk e (bs_Osr b);
  bt_diff : bs_BaudDiff b = Z.abs (rate clk e (bs_Osr b) - e);
  bt_least : forall o, 4 <= o < n -> bs_BaudDiff b <= Z.abs (rate clk e o - e);
  bt_last : bs_CalculatedBaud b = rate clk e (n - 1);
}.

Lemma baud_diff_abs c e : baud_diff c e = Z.abs (c - e).
Proof. unfold baud_diff. destruct (Z.ltb_spec e c); lia. Qed.

Lemma search_step_best clk e n b :
  rate_ok clk e -> 4 <= n -> e * n <= clk -> best clk e n b ->
  yields (search_step clk e b n) (best clk e (n + 1)).
Proof.
  intros Hr Hn Hc [Ho Hs Hd Hl Hlast]. unfold search_step. rewrite try_osr_ok by done. cbn [res_bind].
  rewrite baud_diff_abs. apply yields_ok.
  destruct (Z.leb_spec (Z.abs (rate clk e n - e)) (bs_BaudDiff b)) as [Hle|Hgt]; split; cbn; try done; try lia.
  - intros o Hon. destruct (decide (o = n)) as [->|]; [lia|]. transitivity (bs_BaudDiff b); [done|apply Hl; lia].
  - by replace (n + 1 - 1) with n by lia.
  - intros o Hon. destruct (decide (o = n)) as [->|]; [lia|]. apply Hl. lia.
  - by replace (n + 1 - 1) with n by lia.
Qed.

Lemma search_steps_best clk e m b (k : nat) :
  rate_ok clk e -> 4 <= m -> e * (m + Z.of_nat k - 1) <= clk -> best clk e m b ->
  yields (res_fold (search_step clk e) b (seqZ m (Z.of_nat k))) (best clk e (m + Z.of_nat k)).
Proof.
  intros Hr. revert m b. induction k as [|k IH]; intros m b Hm Hc Hb.
  { cbn. apply yields_ok. by rewrite Z.add_0_r. }
  rewrite seqZ_cons by lia. cbn [res_fold]. eapply yields_bind.
  - apply search_step_best; [done|done| |done]. destruct Hr. nia.
  - intros b' Hb'. replace (Z.pred (Z.of_nat (S k))) with (Z.of_nat k) by lia.
    replace (m + Z.of_nat (S k)) with (Z.succ m + Z.of_nat k) by lia.
    apply IH; [lia| |done]. destruct Hr. nia.
Qed.

Lemma search_best clk e :
  rate_ok clk e -> yields (search_baud clk e) (best clk e (max_osr clk e + 1)).
Proof.
  intros Hr. destruct (max_osr_bounds clk e Hr) as [Hm Hmc]. unfold search_baud.
  rewrite try_osr_ok by (done || destruct Hr; nia). cbn [res_bind].
  replace (max_osr clk e - 4) with (Z.of_nat (Z.to_nat (max_osr clk e - 4))) by lia.
  replace (max_osr clk e + 1) with (5 + Z.of_nat (Z.to_nat (max_osr clk e - 4))) by lia.
  apply search_steps_best; [done|lia|destruct Hr; nia|].
  split; cbn; try done; [apply baud_diff_abs|].
  intros o Ho. replace o with 4 by lia. rewrite baud_diff_abs. lia.
Qed.
End BaudSearch.

Module UartSafe.

(** ** Pointers and bits *)

(** [n] bytes from the pointer are inside its buffer. *)
Definition covers (p : pointer) (n : Z) : Prop :=
  0 <= n < 2 ^ 32 /\
  (0 < n -> match p with Some (buf, i) => 0 <= i /\ i + n <= Z.of_nat (length buf) | None => False end).

Lemma covers_deref p n : covers p n -> 0 < n -> exists v, deref p = Ok v.
Proof.
  intros [Hn Hp] H0. specialize (Hp H0). destruct p as [[buf i]|]; [|done]. destruct Hp as [Hi Hl].
  destruct (lookup_lt_is_Some_2 buf (Z.to_nat i)) as [v Hv]; [lia|]. exists v. by apply load_ok.
Qed.

Lemma covers_assign p n v :
  covers p n -> 0 < n -> exists p', assign p v = Ok p' /\ covers p' n.
Proof.
  intros [Hn Hp] H0. pose proof (Hp H0) as Hq. destruct p as [[buf i]|]; [|done]. destruct Hq as [Hi Hl].
  cbn [assign]. destruct (lookup_lt_is_Some_2 buf (Z.to_nat i)) as [w Hw]; [lia|].
  rewrite store_ok by lia. eexists. split; [done|]. split; [done|]. intros _. by rewrite length_insert.
Qed.

Lemma covers_advance p n : covers p n -> 1 <= n -> covers (advance p) (n - 1).
Proof.
  intros [Hn Hp] H1. split; [lia|]. intros H0. assert (0 < n) as Hn0 by lia. specialize (Hp Hn0).
  destruct p as [[buf i]|]; [|done]. cbn. lia.
Qed.

Lemma set_field_bit m k x v i :
  0 <= i < 32 -> Z.testbit m i = false -> Z.testbit (Z.shiftl x k) i = false ->
  Z.testbit (u32 (set_field m k x v)) i = Z.testbit v i.
Proof.
  intros Hi Hm Hx. unfold u32, u, set_field. rewrite Z.mod_pow2_bits_low by lia.
  rewrite Z.lor_spec, Z.ldiff_spec, Hm, Hx. by rewrite andb_true_r, orb_false_r.
Qed.

Section safe.
Context {D : Type} {J : D -> Prop} {HP : UartPort D} {HF : FaithfulPort D J} {HH : LpuartHeader} {HD : DocumentedLpuart}.

(** The receive interrupt is enabled. *)
Definition rie (d : D) : bool := Z.testbit (ctrl_of d) 21.
(** The hardware is well and that enable bit is [e]. *)
Definition calm (e : bool) (d : D) : Prop := J d /\ rie d = e.

Lemma read_calm e d r : calm e d -> yields (ureg_read d r) (fun '(_, d') => calm e d').
Proof.
  intros [Hd He]. eapply yields_mono; [by apply uread_ok|]. intros [v d'] (? & Hc & _). split; [done|].
  unfold rie in *. by rewrite Hc.
Qed.
Lemma write_calm e d r v : calm e d -> r <> CTRL -> yields (ureg_write d r v) (calm e).
Proof.
  intros [Hd He] Hr. eapply yields_mono; [by apply uwrite_ok|]. intros d' (? & _ & Hc). split; [done|].
  unfold rie in *. by rewrite Hc.
Qed.
Lemma modify_calm e d r f : calm e d -> r <> CTRL -> yields (ureg_modify d r f) (calm e).
Proof. intros Hd Hr. eapply yields_bind; [by apply read_calm|]. intros [v d1] Hd1. by apply write_calm. Qed.
Lemma modify_ctrl d f : J d -> yields (ureg_modify d CTRL f) (fun d' => J d' /\ ctrl_of d' = u32 (f (ctrl_of d))).
Proof.
  intros Hd. eapply yields_bind; [by apply uread_ok|]. intros [v d1] (H1 & Hc & Hv).
  eapply yields_mono; [by apply uwrite_ok|]. intros d2 (H2 & Hw & _). split; [done|]. rewrite Hw by done. f_equal.
  by rewrite Hv.
Qed.
Lemma modify_ctrl_calm e d f :
  calm e d -> (forall v, Z.testbit (u32 (f v)) 21 = Z.testbit v 21) -> yields (ureg_modify d CTRL f) (calm e).
Proof.
  intros [Hd He] Hf. eapply yields_mono; [by apply modify_ctrl|]. intros d' [? Hc]. split; [done|].
  unfold rie in *. by rewrite Hc, Hf.
Qed.

(** A field of CTRL that is not the receive interrupt. *)
Lemma field_calm e d m k x :
  calm e d -> Z.testbit m 21 = false -> Z.testbit (Z.shiftl x k) 21 = false ->
  yields (ureg_modify d CTRL (set_field m k x)) (calm e).
Proof. intros Hd Hm Hx. apply modify_ctrl_calm; [done|]. intros v. by apply set_field_bit. Qed.

Lemma int_calm e d i b :
  calm e d -> i <> LPUART_UART_IP_INT_RX_DATA_REG_FULL -> yields (Lpuart_Uart_Ip_SetIntMode d i b) (calm e).
Proof.
  intros Hd Hi. unfold Lpuart_Uart_Ip_SetIntMode.
  apply field_calm; [done|..]; destruct i; cbn [int_shift]; try done;
    rewrite ?doc_tie, ?doc_tcie, ?doc_orie, ?doc_neie, ?doc_feie, ?doc_peie; by destruct b.
Qed.
Lemma int_rie e d b :
  calm e d -> yields (Lpuart_Uart_Ip_SetIntMode d LPUART_UART_IP_INT_RX_DATA_REG_FULL b) (calm b).
Proof.
  intros [Hd _]. eapply yields_mono; [by apply modify_ctrl|]. intros d' [? Hc]. split; [done|]. unfold rie.
  rewrite Hc. cbn [int_shift]. rewrite doc_rie. unfold u, set_field.
  rewrite Z.mod_pow2_bits_low by lia. rewrite Z.lor_spec, Z.ldiff_spec.
  replace (Z.testbit (Z.shiftl 1 21) 21) with true by done. rewrite andb_false_r. by destruct b.
Qed.
Lemma transmitter_calm e d b : calm e d -> yields (Lpuart_Uart_Ip_SetTransmitterCmd d b) (calm e).
Proof. intros Hd. destruct doc_te as [Hm Hs]. apply field_calm; [done|..]; rewrite ?Hm, ?Hs; by destruct b. Qed.
Lemma receiver_calm e d b : calm e d -> yields (Lpuart_Uart_Ip_SetReceiverCmd d b) (calm e).
Proof. intros Hd. destruct doc_re as [Hm Hs]. apply field_calm; [done|..]; rewrite ?Hm, ?Hs; by destruct b. Qed.

(** The flag that the transmission is complete is never seen. *)
Definition tc_silent : Prop :=
  forall d v d', J d -> ureg_read d STAT = Ok (v, d') -> Z.testbit v 22 = false.

Lemma bit_value v i : 0 <= i -> (0 <? Z.land (Z.shiftr v i) 1) = Z.testbit v i.
Proof.
  intros Hi. change 1 with (Z.ones 1). rewrite Z.land_ones by lia.
  rewrite Z.pow_1_r, <- Z.bit0_mod, Z.shiftr_spec by lia. rewrite Z.add_0_l. by destruct (Z.testbit v i).
Qed.
Lemma flag_calm e d f :
  calm e d -> yields (Lpuart_Uart_Ip_GetStatusFlag d f)
           (fun '(b, d') => calm e d' /\ (f = LPUART_UART_IP_TX_COMPLETE -> tc_silent -> b = false)).
Proof.
  intros Hd. destruct (read_calm e d STAT Hd) as ([v d'] & He & Hq).
  exists ((0 <? Z.land (Z.shiftr v (flag_shift f)) 1), d').
  unfold Lpuart_Uart_Ip_GetStatusFlag. rewrite He. split; [done|]. split; [done|]. intros -> Ht.
  cbn [flag_shift]. rewrite doc_tc, bit_value by lia. eapply Ht; [|done]. by destruct Hd.
Qed.
Lemma getint_calm e d i :
  calm e d -> yields (Lpuart_Uart_Ip_GetIntMode d i)
           (fun '(b, d') => calm e d' /\ (i = LPUART_UART_IP_INT_RX_DATA_REG_FULL -> b = e)).
Proof.
  intros [Hd He]. destruct (uread_ok d CTRL Hd) as ([v d'] & Hr & HJ & Hc & Hv).
  exists ((0 <? Z.land (Z.shiftr v (int_shift i)) 1), d').
  unfold Lpuart_Uart_Ip_GetIntMode. rewrite Hr. split; [done|]. unfold rie in He.
  split; [split; [done|unfold rie; by rewrite Hc]|].
  intros ->. cbn [int_shift]. rewrite doc_rie, bit_value by lia. by rewrite Hv.
Qed.

(** ** Characters *)

Ltac calmly := eapply yields_bind; [first [by apply int_calm | by apply transmitter_calm | by apply receiver_calm
  | by apply flag_calm | by apply getint_calm | by apply read_calm | by apply write_calm | by apply modify_calm
  | by eapply int_rie ]|].

Lemma putchar9_calm e d v : calm e d -> yields (Lpuart_Uart_Ip_Putchar9 d v) (calm e).
Proof.
  intros Hd. destruct doc_r9t8 as [Hm Hs]. eapply yields_bind.
  - apply field_calm; [done|..]; rewrite ?Hm, ?Hs; [done|]. by rewrite Z.shiftl_spec_low.
  - intros d' Hd'. by apply write_calm.
Qed.
Lemma putchar10_calm e d v : calm e d -> yields (Lpuart_Uart_Ip_Putchar10 d v) (calm e).
Proof.
  intros Hd. destruct doc_r9t8 as [Hm Hs], doc_r8t9 as [Hm' Hs']. eapply yields_bind.
  - apply modify_ctrl_calm; [done|]. intros w. rewrite Hm, Hs, Hm', Hs'.
    rewrite set_field_bit; [|done|done|by rewrite Z.shiftl_spec_low]. unfold set_field.
    rewrite Z.lor_spec, Z.ldiff_spec, Z.shiftl_spec_low by lia. by rewrite andb_true_r, orb_false_r.
  - intros d' Hd'. by apply write_calm.
Qed.
Lemma getchar_calm e d : calm e d -> yields (Lpuart_Uart_Ip_Getchar d) (fun '(_, d') => calm e d').
Proof. intros Hd. calmly. intros [v d'] Hd'. by apply yields_ok. Qed.
Lemma getchar9_calm e d : calm e d -> yields (Lpuart_Uart_Ip_Getchar9 d) (fun '(_, d') => calm e d').
Proof. intros Hd. calmly. intros [c d1] H1. cbv zeta. calmly. intros [v d2] H2. by apply yields_ok. Qed.
Lemma getchar10_calm e d : calm e d -> yields (Lpuart_Uart_Ip_Getchar10 d) (fun '(_, d') => calm e d').
Proof.
  intros Hd. calmly. intros [c d1] H1. cbv zeta. calmly. intros [c' d2] H2. calmly. intros [v d3] H3.
  by apply yields_ok.
Qed.

Definition tx_ok (st : ustate) : Prop := covers (TxBuff st) (TxSize st).
Definition rx_ok (st : ustate) : Prop := covers (RxBuff st) (RxSize st).
Definition tx_part (st : ustate) := (TxBuff st, TxSize st, IsTxBusy st, TransmitStatus st).
Definition rx_part (st : ustate) := (RxBuff st, RxSize st, IsRxBusy st, ReceiveStatus st).

Lemma size_less n m : 0 <= m <= n -> n < 2 ^ 32 -> u32 (n - m) = n - m.
Proof. intros. apply u_small. unfold is_u. lia. Qed.

Lemma put_data_ok e cfg st d :
  calm e d -> tx_ok st -> 0 < TxSize st ->
  yields (Lpuart_Uart_Ip_PutData cfg st d) (fun '(st', d') => calm e d' /\ tx_ok st' /\
    0 <= TxSize st' < TxSize st /\ rx_part st' = rx_part st /\ IsTxBusy st' = IsTxBusy st).
Proof.
  intros Hd Ht H0. unfold Lpuart_Uart_Ip_PutData. destruct (covers_deref _ _ Ht H0) as [v Hv].
  pose proof (covers_advance _ _ Ht ltac:(lia)) as Ha. assert (TxSize st < 2 ^ 32) by apply Ht.
  rewrite Hv. cbn [res_bind]. destruct (narrow cfg).
  { calmly. intros d' Hd'. apply yields_ok. unfold tx_ok. rsimpl. rewrite size_less by lia. split_and!; try done; lia. }
  destruct (Z.eqb_spec (TxSize st) 1) as [H1|H1].
  - cbn [res_bind]. eapply yields_bind.
    + instantiate (1 := calm e). destruct (bool_decide _); [by apply putchar9_calm|by apply putchar10_calm].
    + intros d' Hd'. apply yields_ok. unfold tx_ok. rsimpl. rewrite size_less by lia. split_and!; try done; lia.
  - destruct (covers_deref _ _ Ha ltac:(lia)) as [w Hw]. rewrite Hw. cbn [res_bind].
    pose proof (covers_advance _ _ Ha ltac:(lia)) as Hb. eapply yields_bind.
    + instantiate (1 := calm e). destruct (bool_decide _); [by apply putchar9_calm|by apply putchar10_calm].
    + intros d' Hd'. apply yields_ok. unfold tx_ok. rsimpl. rewrite size_less by lia.
      replace (TxSize st - 1 - 1) with (TxSize st - 2) in Hb by lia. split_and!; try done; lia.
Qed.

(** Storing [m] bytes of the remaining ones. *)
Lemma stored_ok st p m :
  covers p (RxSize st - m) -> 0 < m <= RxSize st -> RxSize st < 2 ^ 32 ->
  let st' := st <| RxBuff := p |> <| RxSize := u32 (RxSize st - m) |> in
  rx_ok st' /\ 0 <= RxSize st' < RxSize st /\ tx_part st' = tx_part st /\ ReceiveStatus st' = ReceiveStatus st.
Proof. intros Hp Hm Hl st'. unfold rx_ok, st'. rsimpl. rewrite size_less by lia. split_and!; try done; lia. Qed.

Lemma get_data_ok e cfg st d :
  calm e d -> rx_ok st -> 0 < RxSize st ->
  yields (Lpuart_Uart_Ip_GetData cfg st d) (fun '(st', d') => calm e d' /\ rx_ok st' /\
    0 <= RxSize st' < RxSize st /\ tx_part st' = tx_part st /\ ReceiveStatus st' = ReceiveStatus st).
Proof.
  intros Hd Hr H0. unfold Lpuart_Uart_Ip_GetData. assert (RxSize st < 2 ^ 32) as Hl by apply Hr.
  destruct (narrow cfg).
  { eapply yields_bind; [by apply getchar_calm|]. intros [c d1] H1.
    destruct (covers_assign _ _ c Hr H0) as (p & -> & Hp). cbn [res_bind].
    eapply (yields_bind _ _ (fun p => covers p (RxSize st))).
    - destruct (bool_decide _); [|by apply yields_ok]. destruct (covers_deref _ _ Hp H0) as [w ->]. cbn [res_bind].
      destruct (covers_assign _ _ (Z.land w 0x7F) Hp H0) as (p' & -> & Hp'). by apply yields_ok.
    - intros p' Hp'. apply yields_ok. split; [done|]. apply stored_ok; [apply covers_advance; [done|lia]|lia|done]. }
  eapply (yields_bind _ _ (fun '(_, d') => calm e d')).
  { destruct (bool_decide _); [by apply getchar9_calm|by apply getchar10_calm]. }
  intros [v d1] Hd1. destruct (Z.eqb_spec (RxSize st) 1) as [H1|H1].
  - destruct (covers_assign _ _ (u8 v) Hr H0) as (p & -> & Hp). apply yields_ok. split; [done|].
    apply stored_ok; [apply covers_advance; [done|lia]|lia|done].
  - destruct (covers_assign _ _ (Z.land v 0xFF) Hr H0) as (p & -> & Hp). cbn [res_bind].
    apply covers_advance in Hp; [|lia].
    destruct (covers_assign _ _ (u8 (Z.shiftr v 8)) Hp ltac:(lia)) as (p' & -> & Hp'). apply yields_ok. split; [done|].
    apply stored_ok; [|lia|done]. replace (RxSize st - 2) with (RxSize st - 1 - 1) by lia.
    apply covers_advance; [done|lia].
Qed.

(** ** Waiting *)

Lemma wait_flag_ok fuel ie d f T E :
  calm ie d -> 0 <= E -> E + 1 < 2 ^ 32 -> 0 <= T < 2 ^ 32 -> T - E < Z.of_nat fuel -> (0 < fuel)%nat ->
  yields (wait_flag fuel d f T E) (fun '(d', E') => calm ie d' /\ E <= E' <= Z.max (E + 1) T).
Proof.
  revert d E. induction fuel as [|fuel IH]; intros d E Hd HE HE2 HT Hf H0; [lia|]. cbn [wait_flag].
  eapply yields_bind; [by apply flag_calm|]. intros [b d1] [Hd1 _].
  destruct b; [apply yields_ok; split; [done|lia]|].
  unfold Lpuart_Uart_Ip_CheckTimeout, OsIf_GetElapsed. rewrite u_small by (unfold is_u; lia).
  destruct (Z.leb_spec T (E + 1)); [apply yields_ok; split; [done|lia]|].
  eapply yields_mono; [apply IH; done || lia|]. intros [d' E'] [? ?]. split; [done|lia].
Qed.

(** Waiting for no time. *)
Lemma wait_nothing_ok ie d f :
  calm ie d ->
  let T := OsIf_MicrosToTicks LPUART_UART_IP_TIMEOUT_VALUE_US in
  yields (wait_flag (rounds T) d f T 0) (fun '(d', _) => calm ie d').
Proof.
  intros Hd T. eapply yields_mono; [apply wait_flag_ok; [done|lia|lia|done|done|unfold rounds; lia]|].
  by intros [d' E'] [? _].
Qed.

Lemma rounds_enough T E : 0 <= E -> 0 <= T -> T - E < Z.of_nat (rounds T).
Proof. unfold rounds. lia. Qed.

(** ** Polling transfers *)

Lemma send_loop_ok ie fuel cfg st d T E :
  calm ie d -> tx_ok st -> 0 <= E <= T -> T + 1 < 2 ^ 32 -> TxSize st < Z.of_nat fuel ->
  yields (send_loop fuel cfg st d T E) (fun '(st', d', E') => calm ie d' /\ tx_ok st' /\
    rx_part st' = rx_part st /\ IsTxBusy st' = IsTxBusy st).
Proof.
  revert st d E. induction fuel as [|fuel IH]; intros st d E Hd Ht HE HT Hf; [destruct Ht; lia|]. cbn [send_loop].
  destruct (Z.ltb_spec 0 (TxSize st)) as [H0|H0]; cbn [negb]; [|by apply yields_ok].
  unfold Lpuart_Uart_Ip_CheckTimeout, OsIf_GetElapsed. rewrite u_small by (unfold is_u; lia).
  destruct (Z.leb_spec T (E + 1)); [by apply yields_ok|].
  eapply yields_bind; [by apply put_data_ok|]. intros [st1 d1] (Hd1 & Ht1 & Hs1 & Hr1 & Hb1).
  eapply yields_bind; [apply (wait_flag_ok _ ie); [done|lia|lia|lia|apply rounds_enough; lia|unfold rounds; lia]|].
  intros [d2 E2] [Hd2 HE2]. eapply yields_mono; [apply IH; done || lia|].
  intros [[st' d'] E'] (? & ? & ? & ?). split_and!; try done; congruence.
Qed.

Lemma sync_send_ok ie cfg st d p n T :
  calm ie d -> covers p n -> 0 <= T -> T + 1 < 2 ^ 32 ->
  yields (sync_send cfg st d p n T) (fun '(_, st', d') => calm ie d' /\ tx_ok st' /\ rx_part st' = rx_part st).
Proof.
  intros Hd Hp HT HT2. unfold sync_send. calmly. intros d1 Hd1. calmly. intros d2 Hd2. calmly. intros d3 Hd3.
  eapply yields_bind.
  - apply (send_loop_ok ie); [done|by unfold tx_ok; rsimpl|by unfold OsIf_MicrosToTicks; lia|done|]. rsimpl.
    destruct Hp. lia.
  - intros [[st' d4] E] (Hd4 & Ht4 & Hr4 & _). calmly. intros d5 Hd5.
    destruct (Lpuart_Uart_Ip_CheckTimeout _ _) as [late E']. apply yields_ok. split_and!; [done|done|]. by etransitivity.
Qed.

Lemma look_for_errors_ok ie st d :
  calm ie d -> yields (look_for_errors st d) (fun '(st', d', _) => calm ie d' /\
    RxBuff st' = RxBuff st /\ RxSize st' = RxSize st /\ tx_part st' = tx_part st).
Proof.
  intros Hd. unfold look_for_errors.
  apply (yields_fold (fun '(st', d', _) => calm ie d' /\
    RxBuff st' = RxBuff st /\ RxSize st' = RxSize st /\ tx_part st' = tx_part st)); [done|].
  intros [[st1 d1] m] [[f s] k] (Hd1 & Hb & Hs & Ht). eapply yields_bind; [by apply flag_calm|].
  intros [b d2] [Hd2 _]. destruct b; by apply yields_ok.
Qed.

Lemma receive_loop_ok ie fuel cfg st d T E :
  calm ie d -> rx_ok st -> 0 <= E <= T -> T + 1 < 2 ^ 32 -> RxSize st < Z.of_nat fuel ->
  yields (receive_loop fuel cfg st d T E) (fun '(st', d', E') => calm ie d' /\ rx_ok st' /\ tx_part st' = tx_part st).
Proof.
  revert st d E. induction fuel as [|fuel IH]; intros st d E Hd Ht HE HT Hf; [destruct Ht; lia|]. cbn [receive_loop].
  destruct (Z.ltb_spec 0 (RxSize st)) as [H0|H0]; cbn [negb]; [|by apply yields_ok].
  unfold Lpuart_Uart_Ip_CheckTimeout, OsIf_GetElapsed. rewrite u_small by (unfold is_u; lia).
  destruct (Z.leb_spec T (E + 1)); [by apply yields_ok|].
  eapply yields_bind; [apply (wait_flag_ok _ ie); [done|lia|lia|lia|apply rounds_enough; lia|unfold rounds; lia]|].
  intros [d1 E1] [Hd1 HE1]. eapply yields_bind; [by apply (look_for_errors_ok ie)|].
  intros [[st2 d2] m] (Hd2 & Hb2 & Hs2 & Ht2).
  assert (rx_ok st2) by (unfold rx_ok; by rewrite Hb2, Hs2). destruct (0 <? m).
  - calmly. intros d3 Hd3. calmly. intros d4 Hd4. by apply yields_ok.
  - eapply yields_bind; [apply (get_data_ok ie); [done|done|lia]|]. intros [st3 d3] (Hd3 & Hr3 & Hs3 & Ht3 & _).
    eapply yields_mono; [apply IH; done || lia|]. intros [[st' d'] E'] (? & ? & ?). split_and!; try done. congruence.
Qed.

Lemma sync_receive_ok ie cfg st d p n T :
  calm ie d -> covers p n -> 0 <= T -> T + 1 < 2 ^ 32 ->
  yields (sync_receive cfg st d p n T) (fun '(_, st', d') => calm false d' /\ rx_ok st' /\ tx_part st' = tx_part st).
Proof.
  intros Hd Hp HT HT2. unfold sync_receive. eapply yields_bind; [by eapply int_rie|]. intros d1 Hd1. calmly. intros d2 Hd2.
  eapply yields_bind.
  - apply (receive_loop_ok false); [done|by unfold rx_ok; rsimpl|by unfold OsIf_MicrosToTicks; lia|done|]. rsimpl.
    destruct Hp. lia.
  - intros [[st' d3] E] (Hd3 & Hr3 & Ht3). destruct (Lpuart_Uart_Ip_CheckTimeout _ _) as [late E'].
    cbv zeta. calmly. intros d4 Hd4. eapply yields_bind; [by apply getchar_calm|]. intros [c d5] Hd5. apply yields_ok.
    split; [done|]. split; [|etransitivity; [|exact Ht3]]; destruct late; repeat case_match; done.
Qed.

(** ** Interrupt transfers *)

Lemma set_ints_calm ie d l b :
  calm ie d -> Forall (fun i => i <> LPUART_UART_IP_INT_RX_DATA_REG_FULL) l -> yields (set_ints d l b) (calm ie).
Proof.
  intros Hd Hl. revert d Hd. induction Hl as [|i l Hi Hl IH]; intros d Hd; [by apply yields_ok|].
  cbn [set_ints res_fold]. eapply yields_bind; [by apply int_calm|]. intros d' Hd'. by apply IH.
Qed.
Lemma error_ints_calm ie d b : calm ie d -> yields (set_ints d error_ints b) (calm ie).
Proof. intros Hd. apply set_ints_calm; [done|]. by repeat constructor. Qed.

Lemma start_send_ok ie st d p n :
  calm ie d -> covers p n ->
  yields (Lpuart_Uart_Ip_StartSendDataUsingInt st d p n) (fun '(r, st', d') => calm ie d' /\ tx_ok st' /\
    rx_part st' = rx_part st /\ IsTxBusy st' = IsTxBusy st /\ r = LPUART_UART_IP_STATUS_SUCCESS).
Proof.
  intros Hd Hp. unfold Lpuart_Uart_Ip_StartSendDataUsingInt. calmly. intros d1 Hd1. calmly. intros d2 Hd2.
  by apply yields_ok.
Qed.
Lemma complete_send_ok ie st d :
  calm ie d -> yields (Lpuart_Uart_Ip_CompleteSendDataUsingInt st d) (fun '(st', d') => calm ie d' /\
    TxBuff st' = TxBuff st /\ TxSize st' = TxSize st /\ rx_part st' = rx_part st).
Proof.
  intros Hd. unfold Lpuart_Uart_Ip_CompleteSendDataUsingInt. eapply (yields_bind _ _ (calm ie)).
  { destruct (bool_decide _); [by apply int_calm|by apply yields_ok]. }
  intros d1 Hd1. calmly. intros d2 Hd2. eapply yields_bind; [by apply (wait_nothing_ok ie)|]. intros [d3 E] Hd3.
  destruct (Lpuart_Uart_Ip_CheckTimeout _ _) as [late E']. cbv zeta. calmly. intros d4 Hd4. apply yields_ok.
  destruct late; repeat case_match; done.
Qed.
Lemma start_receive_ok ie st d p n :
  calm ie d -> covers p n ->
  yields (Lpuart_Uart_Ip_StartReceiveDataUsingInt st d p n) (fun '(_, st', d') => calm true d' /\ rx_ok st' /\
    RxSize st' = n /\ tx_part st' = tx_part st).
Proof.
  intros Hd Hp. unfold Lpuart_Uart_Ip_StartReceiveDataUsingInt, Lpuart_Uart_Ip_ClearErrorFlags.
  calmly. intros d1 Hd1. calmly. intros d2 Hd2. calmly. intros d3 Hd3.
  eapply yields_bind; [by apply (error_ints_calm ie)|]. intros d4 Hd4. eapply yields_bind; [by eapply int_rie|].
  intros d5 Hd5. by apply yields_ok.
Qed.
Lemma complete_receive_ok ie st d :
  calm ie d -> yields (Lpuart_Uart_Ip_CompleteReceiveDataUsingInt st d) (fun '(st', d') => calm false d' /\
    RxBuff st' = RxBuff st /\ RxSize st' = RxSize st /\ tx_part st' = tx_part st).
Proof.
  intros Hd. unfold Lpuart_Uart_Ip_CompleteReceiveDataUsingInt.
  eapply yields_bind; [by apply (error_ints_calm ie)|]. intros d1 Hd1. eapply yields_bind; [by eapply int_rie|]. intros d2 Hd2.
  eapply (yields_bind _ _ (fun '(st', d') => calm false d' /\
    RxBuff st' = RxBuff st /\ RxSize st' = RxSize st /\ tx_part st' = tx_part st)).
  - destruct (bool_decide _); [|by apply yields_ok]. eapply yields_bind; [by apply (wait_nothing_ok false)|].
    intros [d3 E] Hd3. destruct (Lpuart_Uart_Ip_CheckTimeout _ _) as [late E']. apply yields_ok. by destruct late.
  - intros [st3 d3] (Hd3 & Hb & Hs & Ht). calmly. intros d4 Hd4. eapply yields_bind; [by apply getchar_calm|].
    intros [c d5] Hd5. apply yields_ok. cbv zeta. by case_match.
Qed.

(** ** The interrupt handler *)

(** The buffers are large enough; while the receive interrupt is enabled there is room. *)
Definition fine (ie : bool) (st : ustate) : Prop := tx_ok st /\ rx_ok st /\ (ie = true -> 0 < RxSize st).
Definition good (st : ustate) (d : D) : Prop := exists ie, calm ie d /\ fine ie st.

(** The user's function keeps the buffers large enough and takes none away. *)
Definition callback_ok (cfg : config) : Prop :=
  forall f e st, Callback cfg = Some f -> tx_ok st -> rx_ok st ->
    tx_ok (f e st) /\ rx_ok (f e st) /\ (0 < RxSize st -> 0 < RxSize (f e st)).

Lemma call_back_ok cfg e st :
  callback_ok cfg -> tx_ok st -> rx_ok st ->
  tx_ok (call_back cfg e st) /\ rx_ok (call_back cfg e st) /\ (0 < RxSize st -> 0 < RxSize (call_back cfg e st)).
Proof. intros Hc Ht Hr. unfold call_back. destruct (Callback cfg) as [f|] eqn:Ef; [by apply (Hc f)|done]. Qed.
Lemma call_back_fine ie cfg e st : callback_ok cfg -> fine ie st -> fine ie (call_back cfg e st).
Proof. intros Hc (Ht & Hr & Hi). destruct (call_back_ok cfg e st Hc Ht Hr) as (? & ? & ?). split_and!; auto. Qed.
Lemma call_back_none cfg e st : Callback cfg = None -> call_back cfg e st = st.
Proof. unfold call_back. by intros ->. Qed.

Lemma tx_part_ok st st' : tx_part st' = tx_part st -> tx_ok st -> tx_ok st'.
Proof. unfold tx_part, tx_ok. by intros [= -> -> _ _]. Qed.
Lemma tx_part_busy st st' : tx_part st' = tx_part st -> IsTxBusy st' = IsTxBusy st.
Proof. by intros [= _ _ -> _]. Qed.
Lemma rx_part_fine ie st st' : rx_part st' = rx_part st -> tx_ok st' -> fine ie st -> fine ie st'.
Proof. unfold rx_part, fine, rx_ok. intros [= -> -> _ _] Ht (_ & ? & ?). done. Qed.

(** A handler serves the transfer; without the completion flag and a callback the
    transmitter stays busy. *)
Definition served (cfg : config) (st : ustate) (r : ustate * D) : Prop :=
  let '(st', d') := r in
  good st' d' /\ (tc_silent -> Callback cfg = None -> IsTxBusy st' = IsTxBusy st).

Lemma served_here ie cfg st st' d' :
  calm ie d' -> fine ie st' -> (Callback cfg = None -> IsTxBusy st' = IsTxBusy st) -> served cfg st (st', d').
Proof. intros Hd Hf Hb. split; [by exists ie|auto]. Qed.

Lemma completed_receive cfg st st1 st' d' ev :
  callback_ok cfg -> calm false d' -> RxBuff st' = RxBuff st1 -> RxSize st' = RxSize st1 ->
  tx_part st' = tx_part st1 -> tx_ok st1 -> rx_ok st1 -> (Callback cfg = None -> IsTxBusy st1 = IsTxBusy st) ->
  served cfg st (call_back cfg ev st', d').
Proof.
  intros Hc Hd Hb Hs Ht Ht1 Hr1 Hbusy. apply (served_here false); [done| |].
  - apply call_back_fine; [done|]. split_and!; [by eapply tx_part_ok|unfold rx_ok; by rewrite Hb, Hs|done].
  - intros Hn. rewrite call_back_none by done. rewrite <- Hbusy by done. by apply tx_part_busy.
Qed.

Lemma rx_irq_ok cfg st d :
  callback_ok cfg -> calm true d -> fine true st -> yields (Lpuart_Uart_Ip_RxIrqHandler cfg st d) (served cfg st).
Proof.
  intros Hc Hd (Ht & Hr & H0). unfold Lpuart_Uart_Ip_RxIrqHandler. specialize (H0 eq_refl).
  eapply yields_bind; [by apply (get_data_ok true)|]. intros [st1 d1] (Hd1 & Hr1 & Hs1 & Ht1 & _).
  pose proof (tx_part_ok _ _ Ht1 Ht) as Htx. pose proof (tx_part_busy _ _ Ht1) as Hb. cbv zeta.
  set (st2 := if _ =? 0 then call_back _ _ _ else st1).
  assert (tx_ok st2 /\ rx_ok st2 /\ (Callback cfg = None -> IsTxBusy st2 = IsTxBusy st)) as (Ht2 & Hr2 & Hb2).
  { unfold st2. destruct (_ =? 0); [|done]. destruct (call_back_ok cfg LPUART_UART_IP_EVENT_RX_FULL st1 Hc Htx Hr1)
      as (? & ? & _). split_and!; try done. intros Hn. by rewrite call_back_none. }
  destruct (Z.eqb_spec (RxSize st2) 0) as [Hz|Hz].
  - eapply yields_bind; [by apply (complete_receive_ok true)|]. intros [st3 d3] (Hd3 & Hbf & Hsz & Ht3). apply yields_ok.
    by apply (completed_receive _ _ st2).
  - apply yields_ok. apply (served_here true); [done| |done]. split_and!; try done. intros _. destruct Hr2. lia.
Qed.

Lemma tx_empty_ok ie cfg st d :
  callback_ok cfg -> calm ie d -> fine ie st -> yields (Lpuart_Uart_Ip_TxEmptyIrqHandler cfg st d) (served cfg st).
Proof.
  intros Hc Hd Hf. unfold Lpuart_Uart_Ip_TxEmptyIrqHandler. pose proof Hf as (Ht & Hr & H0).
  destruct (Z.ltb_spec 0 (TxSize st)); [|by apply yields_ok, (served_here ie)].
  eapply yields_bind; [by apply (put_data_ok ie)|]. intros [st1 d1] (Hd1 & Ht1 & Hs1 & Hr1 & Hb1). cbv zeta.
  set (st2 := if _ =? 0 then call_back _ _ _ else st1).
  assert (fine ie st2 /\ (Callback cfg = None -> IsTxBusy st2 = IsTxBusy st)) as [Hf2 Hb2].
  { unfold st2. pose proof (rx_part_fine ie _ _ Hr1 Ht1 Hf) as Hf1. destruct (_ =? 0); [|done].
    split; [by apply call_back_fine|]. intros Hn. by rewrite call_back_none. }
  clearbody st2. destruct (_ =? 0); [|by apply yields_ok, (served_here ie)].
  calmly. intros d2 Hd2. calmly. intros d3 Hd3. by apply yields_ok, (served_here ie).
Qed.

Lemma tx_complete_ok ie cfg st d :
  callback_ok cfg -> calm ie d -> fine ie st ->
  yields (Lpuart_Uart_Ip_TxCompleteIrqHandler cfg st d) (fun '(st', d') => good st' d').
Proof.
  intros Hc Hd Hf. unfold Lpuart_Uart_Ip_TxCompleteIrqHandler. destruct (_ =? 0); [|apply yields_ok; by exists ie].
  eapply (yields_bind _ _ (fun '(st', d') => calm ie d' /\ fine ie st')).
  - destruct (bool_decide _); [|by apply yields_ok]. eapply yields_mono; [by apply (complete_send_ok ie)|].
    intros [st' d'] (? & Hb & Hs & Hr). split; [done|]. eapply rx_part_fine; [done| |done].
    unfold tx_ok. rewrite Hb, Hs. apply Hf.
  - intros [st' d'] [Hd' Hf']. apply yields_ok. exists ie. split; [done|]. by apply call_back_fine.
Qed.

(** What the checks of the error handler change. *)
Definition checked (ie : bool) (st : ustate) (r : bool * bool * ustate * D) : Prop :=
  let '(_, _, st', d') := r in
  calm ie d' /\ RxBuff st' = RxBuff st /\ RxSize st' = RxSize st /\ tx_part st' = tx_part st.

Lemma check_error_ok ie st0 f i s ret err st d :
  checked ie st0 (ret, err, st, d) -> yields (check_error f i s ret err st d) (checked ie st0).
Proof.
  intros (Hd & Hb & Hs & Ht). unfold check_error. eapply yields_bind; [by apply flag_calm|]. intros [b d1] [Hd1 _].
  destruct (b && negb ret); [|by apply yields_ok]. eapply yields_bind; [by apply getint_calm|]. intros [en d2] [Hd2 _].
  destruct en; cbn [negb]; [|by apply yields_ok]. eapply (yields_bind _ _ (calm ie)).
  - destruct f; cbn [Lpuart_Uart_Ip_ClearStatusFlag]; first [by apply modify_calm|by apply yields_ok].
  - intros d3 Hd3. by apply yields_ok.
Qed.

Lemma err_irq_ok ie cfg st d :
  callback_ok cfg -> calm ie d -> fine ie st -> yields (Lpuart_Uart_Ip_ErrIrqHandler cfg st d) (served cfg st).
Proof.
  intros Hc Hd Hf. unfold Lpuart_Uart_Ip_ErrIrqHandler.
  eapply yields_bind; [by apply (check_error_ok ie st)|]. intros [[[r1 e1] st1] d1] H1.
  eapply yields_bind; [by apply (check_error_ok ie st)|]. intros [[[r2 e2] st2] d2] H2.
  eapply yields_bind; [by apply (check_error_ok ie st)|]. intros [[[r3 e3] st3] d3] H3.
  eapply yields_bind; [by apply (check_error_ok ie st)|]. intros [[[r4 e4] st4] d4] (Hd4 & Hb4 & Hs4 & Ht4).
  pose proof (tx_part_busy _ _ Ht4) as Hbusy.
  assert (fine ie st4) as Hf4.
  { destruct Hf as (Ht & Hr & Hi). split_and!; [by eapply tx_part_ok|unfold rx_ok; by rewrite Hb4, Hs4|by rewrite Hs4]. }
  destruct (negb r4 && e4); [|by apply yields_ok, (served_here ie)]. destruct (bool_decide _).
  - eapply yields_bind; [by apply (complete_receive_ok ie)|]. intros [st5 d5] (Hd5 & Hb5 & Hs5 & Ht5). apply yields_ok.
    apply (completed_receive _ _ st4); try done; apply Hf4.
  - cbn [res_bind]. apply yields_ok. apply (served_here ie); [done|by apply call_back_fine|].
    intros Hn. by rewrite call_back_none.
Qed.

Lemma served_trans cfg st1 st2 d2 r : served cfg st1 (st2, d2) -> served cfg st2 r -> served cfg st1 r.
Proof.
  destruct r as [st3 d3]. intros [_ H1] [H2 H3]. split; [done|]. intros Ht Hn. rewrite H3 by done. by apply H1.
Qed.

Lemma irq_handler_ok cfg st d :
  callback_ok cfg -> good st d -> yields (irq_handler cfg st d) (served cfg st).
Proof.
  intros Hc (ie0 & Hd0 & Hf0). unfold irq_handler.
  eapply yields_bind; [by apply (err_irq_ok ie0)|]. intros [st1 d1] Hs1. pose proof Hs1 as [(ie & Hd & Hf) _].
  eapply yields_bind; [by apply flag_calm|]. intros [full d2] [Hd2 _].
  eapply (yields_bind _ _ (served cfg st)).
  { destruct full; [|apply yields_ok; eapply served_trans; [done|]; by apply (served_here ie)].
    eapply yields_bind; [by apply getint_calm|]. intros [en d3] [Hd3 Hen]. specialize (Hen eq_refl).
    destruct en; [|apply yields_ok; eapply served_trans; [done|]; by apply (served_here ie)]. subst ie.
    eapply yields_mono; [by apply rx_irq_ok|]. intros r Hr. by eapply served_trans. }
  intros [st3 d3] Hs3. pose proof Hs3 as [(ie3 & Hd3 & Hf3) _].
  eapply yields_bind; [by apply flag_calm|]. intros [empty d4] [Hd4 _].
  eapply (yields_bind _ _ (fun '(_, st', d') => served cfg st (st', d'))).
  { destruct (empty && negb full); [|apply yields_ok; eapply served_trans; [done|]; by apply (served_here ie3)].
    eapply yields_bind; [by apply getint_calm|]. intros [en d5] [Hd5 _].
    destruct en; [|apply yields_ok; eapply served_trans; [done|]; by apply (served_here ie3)].
    eapply yields_bind; [by apply (tx_empty_ok ie3)|]. intros [st6 d6] Hs6. apply yields_ok. by eapply served_trans. }
  intros [[ret st6] d6] Hs6. pose proof Hs6 as [(ie6 & Hd6 & Hf6) _].
  eapply yields_bind; [by apply flag_calm|]. intros [complete d7] [Hd7 Htc].
  assert (served cfg st (st6, d7)) as Hs7 by (eapply served_trans; [exact Hs6|]; by apply (served_here ie6)).
  destruct (complete && negb ret) eqn:Eb; [|by apply yields_ok]. apply andb_true_iff in Eb as [-> _].
  eapply yields_bind; [by apply getint_calm|]. intros [en d8] [Hd8 _].
  destruct en; [|apply yields_ok; eapply served_trans; [exact Hs6|]; by apply (served_here ie6)].
  eapply yields_mono; [by apply (tx_complete_ok ie6)|]. intros [st9 d9] Hg. split; [done|]. intros Ht. by discriminate Htc.
Qed.

(** ** Initialisation *)

Lemma bit_count_calm ie d c b : calm ie d -> yields (Lpuart_Uart_Ip_SetBitCountPerChar d c b) (calm ie).
Proof.
  intros Hd. unfold Lpuart_Uart_Ip_SetBitCountPerChar. cbv zeta. destruct (_ =? _) eqn:E10; [by apply modify_calm|].
  destruct doc_m7 as [H7 H7s], doc_m as [Hm Hms]. eapply (yields_bind _ _ (calm ie)).
  - destruct (bool_decide_reflect (c = LPUART_UART_IP_7_BITS_PER_CHAR)) as [_|Hc]; [destruct b|].
    + apply modify_ctrl_calm; [done|]. intros v. rewrite H7, Hm. unfold u. rewrite Z.mod_pow2_bits_low by lia.
      rewrite Z.ldiff_spec. by rewrite andb_true_r.
    + apply field_calm; [done|..]; by rewrite ?H7, ?H7s.
    + apply field_calm; [done|..]; rewrite ?Hm, ?Hms; [done|]. by destruct c, b.
  - intros d' Hd'. by apply modify_calm.
Qed.

Lemma init_settings_ok ie cfg d : calm ie d -> yields (init_settings cfg d) (calm ie).
Proof.
  intros Hd. unfold init_settings. eapply (yields_bind _ _ (calm ie)).
  { destruct (_ <? 8); [by apply modify_calm|by apply yields_ok]. }
  intros d1 H1. calmly. intros d2 H2. calmly. intros d3 H3. eapply yields_bind; [by apply (bit_count_calm ie)|].
  intros d4 H4. eapply (yields_bind _ _ (calm ie)); [|intros d5 H5; by apply modify_calm].
  destruct doc_pe as [Hm Hs], doc_pt as [Hm' Hs']. unfold Lpuart_Uart_Ip_SetParityMode.
  eapply (yields_bind _ _ (calm ie)); [|intros d5 H5].
  - apply field_calm; [done|..]; rewrite ?Hm, ?Hs; [done|]. by destruct (ParityMode cfg).
  - apply field_calm; [done|..]; rewrite ?Hm', ?Hs'; [done|]. by destruct (ParityMode cfg).
Qed.
Lemma hw_init_ok d : J d -> yields (Lpuart_Uart_Ip_Hw_Init d) (calm false).
Proof.
  intros Hd. assert (calm (rie d) d) as Hc by done. unfold Lpuart_Uart_Ip_Hw_Init. calmly. intros d1 H1. calmly.
  intros d2 [H2 _]. eapply yields_mono; [by apply uwrite_ok|]. intros d3 (H3 & Hw & _). split; [done|]. unfold rie. by rewrite Hw.
Qed.
Lemma init_hardware_ok cfg d : J d -> yields (init_hardware cfg d) (calm false).
Proof. intros Hd. eapply yields_bind; [by apply hw_init_ok|]. intros d1 H1. by apply init_settings_ok. Qed.

(** ** An instance of the driver *)

Record opened (g : udriver D) (k i : Z) (st : ustate) (cfg : config) (d : D) : Prop := {
  op_instance : k < LPUART_INSTANCE_COUNT;
  op_pointer : load (apStateStructuresArray g) k = Ok (Some i);
  op_state : load (apStateStructure g) i = Ok st;
  op_config : load (apUserConfig g) k = Ok (Some cfg);
  op_base : load (apBases g) k = Ok d;
  op_callback : callback_ok cfg;
}.
(** [b]: the transmitter is known to be busy. *)
Definition running (b : bool) (k i : Z) (cfg : config) (g : udriver D) : Prop :=
  exists st d, opened g k i st cfg d /\ good st d /\ (b = true -> IsTxBusy st = true).

Lemma opened_assert g k i st cfg d : opened g k i st cfg d -> assert (k <? LPUART_INSTANCE_COUNT) = Ok tt.
Proof. intros Ho. apply assert_true. apply Z.ltb_lt. apply Ho. Qed.
Lemma opened_state g k i st cfg d f : opened g k i st cfg d -> uart_state g k f = Ok (i, st).
Proof. intros Ho. unfold uart_state. rewrite (op_pointer _ _ _ _ _ _ Ho). cbn. by rewrite (op_state _ _ _ _ _ _ Ho). Qed.
Lemma opened_config g k i st cfg d f : opened g k i st cfg d -> user_config g k f = Ok cfg.
Proof. intros Ho. unfold user_config. by rewrite (op_config _ _ _ _ _ _ Ho). Qed.
Lemma put_opened g k i st cfg d st' d' :
  opened g k i st cfg d -> yields (put_uart g k i st' d') (fun g' => opened g' k i st' cfg d').
Proof.
  intros [Hk Hp Hs Hc Hb Hcb]. unfold put_uart. destruct (store_set _ _ _ st' Hs) as (l & -> & Hl).
  destruct (store_set _ _ _ d' Hb) as (bs & -> & Hbs). by apply yields_ok.
Qed.
Lemma put_running b g k i st cfg d ie st' d' :
  opened g k i st cfg d -> calm ie d' -> fine ie st' -> (b = true -> IsTxBusy st' = true) ->
  yields (put_uart g k i st' d') (running b k i cfg).
Proof.
  intros Ho Hd Hf Hb. eapply yields_mono; [by eapply put_opened|]. intros g' Ho'. exists st', d'.
  split; [done|]. split; [by exists ie|done].
Qed.

(** ** Programs *)

Inductive ucall :=
  | USyncSend (p : pointer) (n T : Z)
  | UAsyncSend (p : pointer) (n : Z)
  | UAbortSend
  | USyncReceive (p : pointer) (n T : Z)
  | UAsyncReceive (p : pointer) (n : Z)
  | UAbortReceive
  | USetBaudRate (e clk : Z)
  | UDeinit
  | UIrq
  | UHost (h : host D).

(** The result of the call, where it has one. *)
Definition run_ucall (k : Z) (g : udriver D) (c : ucall) : res (option Lpuart_Uart_Ip_StatusType * udriver D) :=
  let ret m := let! '(st, g) := m in Ok (Some st, g) in
  match c with
  | USyncSend p n T => ret (Lpuart_Uart_Ip_SyncSend g k p n T)
  | UAsyncSend p n => ret (Lpuart_Uart_Ip_AsyncSend g k p n)
  | UAbortSend => ret (Lpuart_Uart_Ip_AbortSendingData g k)
  | USyncReceive p n T => ret (Lpuart_Uart_Ip_SyncReceive g k p n T)
  | UAsyncReceive p n => ret (Lpuart_Uart_Ip_AsyncReceive g k p n)
  | UAbortReceive => ret (Lpuart_Uart_Ip_AbortReceivingData g k)
  | USetBaudRate e clk => ret (Lpuart_Uart_Ip_SetBaudRate g k e clk)
  | UDeinit => ret (Lpuart_Uart_Ip_Deinit g k)
  | UIrq => let! g := Lpuart_Uart_Ip_IrqHandler g k in Ok (None, g)
  | UHost h =>
      let! d := load (apBases g) k in
      let! bs := store (apBases g) k (host_step h d) in Ok (None, g <| apBases := bs |>)
  end.
Fixpoint run_ucalls (k : Z) (g : udriver D) (cs : list ucall) : res (list (option Lpuart_Uart_Ip_StatusType) * udriver D) :=
  match cs with
  | [] => Ok ([], g)
  | c :: cs =>
      let! '(r, g) := run_ucall k g c in
      let! '(rs, g) := run_ucalls k g cs in Ok (r :: rs, g)
  end.

(** Buffers hold what the sizes say, and counting up to the timeout does not wrap. *)
Definition ucall_ok (c : ucall) : Prop :=
  match c with
  | USyncSend p n T | USyncReceive p n T => covers p n /\ 0 < n /\ 0 <= T /\ T + 1 < 2 ^ 32
  | UAsyncSend p n | UAsyncReceive p n => covers p n /\ 0 < n
  | USetBaudRate e clk => BaudSearch.rate_ok clk e
  | _ => True
  end.

(** What a call gives: the instance still runs, and a busy transmitter refuses
    to send. *)
Definition is_send (c : ucall) : bool := match c with USyncSend _ _ _ | UAsyncSend _ _ => true | _ => false end.
Definition outcome (b : bool) (k i : Z) (cfg : config) (c : ucall)
    (r : option Lpuart_Uart_Ip_StatusType * udriver D) : Prop :=
  running b k i cfg r.2 /\ (b = true -> is_send c = true -> r.1 = Some LPUART_UART_IP_STATUS_BUSY).

(** [put_uart] as the last step of a call. *)
Lemma put_outcome b g k i st cfg d ie st' d' c s :
  opened g k i st cfg d -> calm ie d' -> fine ie st' -> (b = true -> IsTxBusy st' = true) ->
  (b = true -> is_send c = true -> s = LPUART_UART_IP_STATUS_BUSY) ->
  yields (let! '(st, g) := (let! g := put_uart g k i st' d' in Ok (s, g)) in Ok (Some st, g)) (outcome b k i cfg c).
Proof.
  intros Ho Hd Hf Hb Hs. destruct (put_running b g k i st cfg d ie st' d' Ho Hd Hf Hb) as (g' & -> & Hg').
  apply yields_ok. split; [done|]. intros. cbn. by rewrite Hs.
Qed.
Lemma same_outcome b g k i cfg c s :
  running b k i cfg g -> (is_send c = true -> s = LPUART_UART_IP_STATUS_BUSY) ->
  yields (let! '(st, g) := Ok (s, g) in Ok (Some st, g)) (outcome b k i cfg c).
Proof. intros Hr Hs. apply yields_ok. split; [done|]. intros _ Hc. cbn. by rewrite Hs. Qed.

(** An idle transmitter takes the buffer and is busy then. *)
Lemma async_send_starts g k i st cfg d ie p n :
  opened g k i st cfg d -> calm ie d -> fine ie st -> IsTxBusy st = false -> covers p n -> 0 < n ->
  yields (Lpuart_Uart_Ip_AsyncSend g k p n)
    (fun '(r, g') => r = LPUART_UART_IP_STATUS_SUCCESS /\ running true k i cfg g').
Proof.
  intros Ho Hd Hf Eb Hp Hn. unfold Lpuart_Uart_Ip_AsyncSend. rewrite (opened_assert _ _ _ _ _ _ Ho). cbn [res_bind].
  rewrite assert_true by (destruct p; [done|by destruct Hp as [_ []]]). cbn [res_bind].
  rewrite (assert_true (0 <? n)) by (by apply Z.ltb_lt). cbn [res_bind].
  rewrite (opened_state _ _ _ _ _ _ _ Ho). cbn [res_bind]. rewrite Eb.
  rewrite (op_base _ _ _ _ _ _ Ho), (opened_config _ _ _ _ _ _ _ Ho). cbn [res_bind].
  eapply yields_bind with (P := fun '(r, st', d') => calm ie d' /\ fine ie st' /\ IsTxBusy st' = true /\
    r = LPUART_UART_IP_STATUS_SUCCESS).
  - destruct (bool_decide _); [|by apply yields_ok]. eapply yields_mono; [by apply (start_send_ok ie)|].
    intros [[r st'] d'] (Hd' & Ht' & Hr' & Hb' & ->). split_and!; try done. by eapply rx_part_fine.
  - intros [[r st'] d'] (Hd' & Hf' & Hb' & ->). eapply yields_bind; [by eapply (put_running true)|].
    intros g' Hg'. by apply yields_ok.
Qed.

Section calls.
Variables (b : bool) (k i : Z) (cfg : config) (g : udriver D).
Hypothesis Hrun : running b k i cfg g.
Hypothesis Hbusy : b = true -> tc_silent /\ Callback cfg = None.

Ltac enter Ho := rewrite (opened_assert _ _ _ _ _ _ Ho); cbn [res_bind].

Lemma sync_send_call p n T :
  ucall_ok (USyncSend p n T) -> yields (run_ucall k g (USyncSend p n T)) (outcome b k i cfg (USyncSend p n T)).
Proof.
  intros (Hp & Hn & HT & HT2). pose proof Hrun as (st & d & Ho & (ie & Hd & Hf) & Hb).
  cbn [run_ucall]. unfold Lpuart_Uart_Ip_SyncSend. enter Ho.
  destruct p as [[buf j]|]; [|by destruct Hp as [_ []]]. rewrite bool_decide_eq_true_2 by done.
  rewrite (assert_true (0 <? n)) by (by apply Z.ltb_lt). cbn [assert res_bind].
  rewrite (op_base _ _ _ _ _ _ Ho), (opened_state _ _ _ _ _ _ _ Ho). cbn [res_bind].
  destruct (IsTxBusy st) eqn:Eb; [by apply same_outcome|]. rewrite (opened_config _ _ _ _ _ _ _ Ho). cbn [res_bind].
  destruct (sync_send_ok ie cfg st d _ n T Hd Hp HT HT2) as ([[s st'] d'] & -> & Hd' & Ht' & Hr'). cbn [res_bind].
  eapply (put_outcome _ _ _ _ _ _ _ ie); [done|done|by eapply rx_part_fine|..]; intros Eb'; discriminate (Hb Eb').
Qed.

Lemma async_send_call p n :
  ucall_ok (UAsyncSend p n) -> yields (run_ucall k g (UAsyncSend p n)) (outcome b k i cfg (UAsyncSend p n)).
Proof.
  intros (Hp & Hn). pose proof Hrun as (st & d & Ho & (ie & Hd & Hf) & Hb). cbn [run_ucall].
  destruct (IsTxBusy st) eqn:Eb.
  - unfold Lpuart_Uart_Ip_AsyncSend. enter Ho. rewrite assert_true by (destruct p; [done|by destruct Hp as [_ []]]).
    cbn [res_bind]. rewrite (assert_true (0 <? n)) by (by apply Z.ltb_lt). cbn [res_bind].
    rewrite (opened_state _ _ _ _ _ _ _ Ho). cbn [res_bind]. rewrite Eb. by apply same_outcome.
  - destruct (async_send_starts g k i st cfg d ie p n Ho Hd Hf Eb Hp Hn) as ([r g'] & -> & _ & (st' & d' & Ho' & Hg' & Hb')).
    apply yields_ok. split; [|by intros Eb'; discriminate (Hb Eb')]. exists st', d'. split_and!; [done|done|]. intros _. by apply Hb'.
Qed.

Lemma abort_send_call :
  b = false -> yields (run_ucall k g UAbortSend) (outcome b k i cfg UAbortSend).
Proof.
  intros Eb. pose proof Hrun as (st & d & Ho & (ie & Hd & Hf) & _).
  cbn [run_ucall]. unfold Lpuart_Uart_Ip_AbortSendingData. enter Ho.
  rewrite (op_base _ _ _ _ _ _ Ho), (opened_state _ _ _ _ _ _ _ Ho), (opened_config _ _ _ _ _ _ _ Ho). cbn [res_bind].
  assert (forall st' d', calm ie d' -> TxBuff st' = TxBuff st -> TxSize st' = TxSize st -> rx_part st' = rx_part st ->
    calm ie d' /\ fine ie st') as Hfine.
  { intros st' d' Hd' Hbf Hs Hr. split; [done|]. eapply rx_part_fine; [done| |done]. unfold tx_ok. rewrite Hbf, Hs. apply Hf. }
  destruct (IsTxBusy st) eqn:Ebusy; cbn [negb].
  - eapply yields_bind with (P := fun '(_, g') => running b k i cfg g').
    + eapply yields_bind with (P := fun '(st', d') => calm ie d' /\ fine ie st').
      * eapply yields_bind with (P := fun '(st', d') => calm ie d' /\ fine ie st').
        -- destruct (bool_decide _); [|by apply yields_ok, Hfine].
           eapply yields_mono; [by apply (complete_send_ok ie)|]. intros [st' d'] (? & ? & ? & ?). by apply Hfine.
        -- intros [st' d'] [Hd' Hf']. calmly. intros d2 Hd2. by apply yields_ok.
      * intros [st' d'] [Hd' Hf']. eapply yields_bind; [eapply (put_running b); [done..|by rewrite Eb]|]. intros g' Hg'.
        by apply yields_ok.
    + intros [s g'] Hg'. apply yields_ok. split; [done|]. by rewrite Eb.
  - cbn [res_bind]. eapply (put_outcome _ _ _ _ _ _ _ ie); [done..| |]; by rewrite Eb.
Qed.

(** Calls on the receiver leave the transmitter as it is. *)
Lemma receive_outcome st d ie st' d' c s :
  opened g k i st cfg d -> fine false st -> calm ie d' -> rx_ok st' -> (ie = true -> 0 < RxSize st') ->
  tx_part st' = tx_part st -> is_send c = false -> (b = true -> IsTxBusy st = true) ->
  yields (let! '(st, g) := (let! g := put_uart g k i st' d' in Ok (s, g)) in Ok (Some st, g)) (outcome b k i cfg c).
Proof.
  intros Ho (Ht & _) Hd' Hr' Hi' Ht' Hc Hb. eapply (put_outcome _ _ _ _ _ _ _ ie); [done|done| |..].
  - split_and!; [by eapply tx_part_ok|done|done].
  - intros Eb. rewrite (tx_part_busy _ _ Ht'). by apply Hb.
  - by rewrite Hc.
Qed.
Lemma fine_off ie st : fine ie st -> fine false st.
Proof. by intros (? & ? & _). Qed.

Lemma sync_receive_call p n T :
  ucall_ok (USyncReceive p n T) -> yields (run_ucall k g (USyncReceive p n T)) (outcome b k i cfg (USyncReceive p n T)).
Proof.
  intros (Hp & Hn & HT & HT2). pose proof Hrun as (st & d & Ho & (ie & Hd & Hf) & Hb).
  cbn [run_ucall]. unfold Lpuart_Uart_Ip_SyncReceive. enter Ho.
  destruct p as [[buf j]|]; [|by destruct Hp as [_ []]]. rewrite bool_decide_eq_true_2 by done.
  rewrite (assert_true (0 <? n)) by (by apply Z.ltb_lt). cbn [assert res_bind].
  rewrite (op_base _ _ _ _ _ _ Ho), (opened_state _ _ _ _ _ _ _ Ho). cbn [res_bind].
  destruct (IsRxBusy st) eqn:Eb; [by apply same_outcome|]. rewrite (opened_config _ _ _ _ _ _ _ Ho). cbn [res_bind].
  destruct (sync_receive_ok ie cfg st d _ n T Hd Hp HT HT2) as ([[s st'] d'] & -> & Hd' & Hr' & Ht'). cbn [res_bind].
  eapply receive_outcome; [done|by eapply fine_off|done..].
Qed.

Lemma async_receive_call p n :
  ucall_ok (UAsyncReceive p n) -> yields (run_ucall k g (UAsyncReceive p n)) (outcome b k i cfg (UAsyncReceive p n)).
Proof.
  intros (Hp & Hn). pose proof Hrun as (st & d & Ho & (ie & Hd & Hf) & Hb).
  cbn [run_ucall]. unfold Lpuart_Uart_Ip_AsyncReceive. enter Ho.
  destruct p as [[buf j]|]; [|by destruct Hp as [_ []]]. rewrite bool_decide_eq_true_2 by done.
  rewrite (assert_true (0 <? n)) by (by apply Z.ltb_lt). cbn [assert res_bind].
  rewrite (opened_state _ _ _ _ _ _ _ Ho). cbn [res_bind].
  destruct (IsRxBusy st) eqn:Eb; [by apply same_outcome|].
  rewrite (op_base _ _ _ _ _ _ Ho), (opened_config _ _ _ _ _ _ _ Ho). cbn [res_bind]. destruct (bool_decide _).
  - match goal with |- context [Lpuart_Uart_Ip_StartReceiveDataUsingInt ?x _ _ _] =>
      destruct (start_receive_ok ie x d _ n Hd Hp) as ([[s st'] d'] & -> & Hd' & Hr' & Hs' & Ht') end.
    cbn [res_bind]. eapply receive_outcome; [done|by eapply fine_off|done|done|by rewrite Hs'|done|done|done].
  - cbn [res_bind]. eapply receive_outcome; [done|by eapply fine_off|done|apply Hf|apply Hf|done|done|done].
Qed.

Lemma abort_receive_call : yields (run_ucall k g UAbortReceive) (outcome b k i cfg UAbortReceive).
Proof.
  pose proof Hrun as (st & d & Ho & (ie & Hd & Hf) & Hb).
  cbn [run_ucall]. unfold Lpuart_Uart_Ip_AbortReceivingData. enter Ho.
  rewrite (op_base _ _ _ _ _ _ Ho), (opened_state _ _ _ _ _ _ _ Ho), (opened_config _ _ _ _ _ _ _ Ho). cbn [res_bind].
  eapply yields_bind with (P := fun '(_, g') => running b k i cfg g'); [|intros [s g'] Hg'; by apply yields_ok].
  eapply yields_bind with (P := fun '(st', d') => (exists ie', calm ie' d' /\ (ie' = true -> 0 < RxSize st')) /\ rx_ok st' /\
    tx_part st' = tx_part st).
  2: { intros [st' d'] ((ie' & Hd' & Hi') & Hr' & Ht'). eapply yields_bind; [|intros g' Hg'; by apply yields_ok].
       eapply (put_running b); [done|done| |].
       - split_and!; [eapply tx_part_ok; [done|apply Hf]|done|done].
       - intros Eb. rewrite (tx_part_busy _ _ Ht'). by apply Hb. }
  destruct (IsRxBusy st); cbn [negb]; [|apply yields_ok; split; [exists ie; split; [done|apply Hf]|split; [apply Hf|done]]].
  eapply yields_bind with (P := fun '(st', d') => (exists ie', calm ie' d' /\ (ie' = true -> 0 < RxSize st')) /\ rx_ok st' /\
    tx_part st' = tx_part st).
  - destruct (bool_decide _); [|apply yields_ok; split; [exists ie; split; [done|apply Hf]|split; [apply Hf|done]]].
    eapply yields_mono; [by apply (complete_receive_ok ie)|]. intros [st' d'] (Hd' & Hbf & Hs & Ht).
    split; [by exists false|]. split; [|done]. unfold rx_ok. rewrite Hbf, Hs. apply Hf.
  - intros [st' d'] ((ie' & Hd' & Hi') & Hr' & Ht'). calmly. intros d2 Hd2. calmly. intros d3 Hd3. apply yields_ok.
    split; [by exists ie'|done].
Qed.

Lemma set_baud_call e clk :
  ucall_ok (USetBaudRate e clk) -> yields (run_ucall k g (USetBaudRate e clk)) (outcome b k i cfg (USetBaudRate e clk)).
Proof.
  intros Hr. pose proof Hrun as (st & d & Ho & (ie & Hd & Hf) & Hb).
  cbn [run_ucall]. unfold Lpuart_Uart_Ip_SetBaudRate. enter Ho.
  rewrite (op_base _ _ _ _ _ _ Ho), (opened_state _ _ _ _ _ _ _ Ho). cbn [res_bind].
  destruct (_ || _) eqn:Eb; [by apply same_outcome|]. apply orb_false_iff in Eb as [Eb _].
  eapply yields_bind with (P := fun '(_, g') => running b k i cfg g'); [|intros [s g'] Hg'; by apply yields_ok].
  eapply yields_bind with (P := fun '(st', d') => calm ie d' /\ fine ie st' /\ IsTxBusy st' = IsTxBusy st).
  2: { intros [st' d'] (Hd' & Hf' & Ht'). eapply yields_bind; [|intros g' Hg'; by apply yields_ok].
       eapply (put_running b); [done|done|done|]. rewrite Ht'. exact Hb. }
  unfold set_baud_rate. pose proof (proj1 (proj2 Hr)) as Hc. pose proof (proj1 Hr) as He.
  rewrite assert_true by (apply Z.ltb_lt; lia). cbn [res_bind].
  rewrite (assert_true (_ <=? _)); [cbn [res_bind]|apply Z.leb_le; rewrite u_small; [lia|unfold is_u; lia]].
  eapply yields_bind; [by apply BaudSearch.search_best|]. intros s Hs.
  eapply (yields_bind _ _ (calm ie)); [destruct (_ <? 8); [by apply modify_calm|by apply yields_ok]|].
  intros d1 H1. calmly. intros d2 H2. calmly. intros d3 H3. by apply yields_ok.
Qed.

(** With the configured timeout of zero de-initialisation always fails and changes nothing. *)
Lemma deinit_fails : Lpuart_Uart_Ip_Deinit g k = Ok (LPUART_UART_IP_STATUS_ERROR, g).
Proof.
  pose proof Hrun as (st & d & Ho & Hg & Hb). unfold Lpuart_Uart_Ip_Deinit. enter Ho.
  rewrite (op_base _ _ _ _ _ _ Ho), (opened_state _ _ _ _ _ _ _ Ho). cbn [res_bind].
  destruct (IsTxBusy st || IsRxBusy st) eqn:Eb; cbn; by rewrite Eb.
Qed.

Lemma deinit_call : yields (run_ucall k g UDeinit) (outcome b k i cfg UDeinit).
Proof. cbn [run_ucall]. rewrite deinit_fails. by apply same_outcome. Qed.

Lemma irq_call : yields (run_ucall k g UIrq) (outcome b k i cfg UIrq).
Proof.
  pose proof Hrun as (st & d & Ho & Hg & Hb). cbn [run_ucall]. unfold Lpuart_Uart_Ip_IrqHandler. enter Ho.
  rewrite (op_base _ _ _ _ _ _ Ho), (op_pointer _ _ _ _ _ _ Ho). cbn [res_bind].
  rewrite (op_state _ _ _ _ _ _ Ho), (opened_config _ _ _ _ _ _ _ Ho). cbn [res_bind].
  eapply yields_bind with (P := fun g' => running b k i cfg g'); [|intros g' Hg'; by apply yields_ok].
  eapply yields_bind; [apply irq_handler_ok; [apply Ho|done]|]. intros [st' d'] [(ie' & Hd' & Hf') Hb'].
  eapply (put_running b); [done|done|done|]. intros Eb. destruct (Hbusy Eb) as [Ht Hn]. rewrite Hb' by done. by apply Hb.
Qed.

Lemma host_call h : yields (run_ucall k g (UHost h)) (outcome b k i cfg (UHost h)).
Proof.
  pose proof Hrun as (st & d & Ho & (ie & [Hd Hi] & Hf) & Hb). cbn [run_ucall].
  rewrite (op_base _ _ _ _ _ _ Ho). cbn [res_bind]. destruct (host_ok h d Hd) as [Hd' Hc].
  destruct Ho as [Hk Hp Hs Hcf Hbs Hcb]. destruct (store_set _ _ _ (host_step h d) Hbs) as (bs & -> & Hl).
  apply yields_ok. split; [|done]. exists st, (host_step h d). split; [done|]. split; [|done].
  exists ie. split; [|done]. split; [done|]. unfold rie in *. by rewrite Hc.
Qed.

Lemma ucall_outcome c :
  ucall_ok c -> (b = true -> c <> UAbortSend) -> yields (run_ucall k g c) (outcome b k i cfg c).
Proof.
  intros Hc Ha. destruct c.
  - by apply sync_send_call.
  - by apply async_send_call.
  - apply abort_send_call. destruct b; [by destruct (Ha eq_refl)|done].
  - by apply sync_receive_call.
  - by apply async_receive_call.
  - by apply abort_receive_call.
  - by apply set_baud_call.
  - apply deinit_call.
  - apply irq_call.
  - apply host_call.
Qed.
End calls.

(** Every call of a program gives its outcome. *)
Lemma ucalls_outcome b k i cfg cs g :
  running b k i cfg g -> (b = true -> tc_silent /\ Callback cfg = None) ->
  Forall ucall_ok cs -> (b = true -> Forall (fun c => c <> UAbortSend) cs) ->
  yields (run_ucalls k g cs) (fun '(rs, g') => running b k i cfg g' /\
    (b = true -> Forall2 (fun c r => is_send c = true -> r = Some LPUART_UART_IP_STATUS_BUSY) cs rs)).
Proof.
  intros Hr Hb Hcs. revert g Hr. induction Hcs as [|c cs Hc Hcs IH]; intros g Hr Ha; cbn [run_ucalls].
  { apply yields_ok. by split; [|constructor]. }
  eapply yields_bind; [apply (ucall_outcome b k i cfg g Hr Hb c Hc); intros Eb; by destruct (Forall_cons_1 _ _ _ (Ha Eb))|].
  intros [r g1] [Hr1 Hs]. eapply yields_bind; [apply IH; [exact Hr1|]; intros Eb; by destruct (Forall_cons_1 _ _ _ (Ha Eb))|].
  intros [rs g2] [Hr2 Hs2]. apply yields_ok. split; [done|]. intros Eb. constructor; [by apply Hs|by apply Hs2].
Qed.

(** An instance that is not initialised, and configurations that the driver accepts. *)
Record closed (g : udriver D) (k : Z) (cfg : config) (d : D) : Prop := {
  cl_instance : k < LPUART_INSTANCE_COUNT;
  cl_pointer : load (apStateStructuresArray g) k = Ok None;
  cl_state : exists st, load (apStateStructure g) (StateStruct cfg) = Ok st;
  cl_config : exists c, load (apUserConfig g) k = Ok c;
  cl_base : load (apBases g) k = Ok d;
}.
Record config_ok (cfg : config) : Prop := {
  cf_osr : BaudOverSamplingRatio cfg <= 0x20;
  cf_sbr : 1 <= BaudRateDivisor cfg <= 0x1FFF;
  cf_parity : BitCountPerChar cfg = LPUART_UART_IP_10_BITS_PER_CHAR -> ParityMode cfg = LPUART_UART_IP_PARITY_DISABLED;
  cf_callback : callback_ok cfg;
}.

(** The state structure after initialisation. *)
Definition initial (cfg : config) : ustate := cleared <| BaudRate := cfg_BaudRate cfg |>.

Lemma init_ok g k cfg d :
  closed g k cfg d -> config_ok cfg -> J d ->
  exists d', init_hardware cfg d = Ok d' /\ calm false d' /\
    yields (Lpuart_Uart_Ip_Init g k cfg) (fun g' => opened g' k (StateStruct cfg) (initial cfg) cfg d').
Proof.
  intros [Hk Hp [st Hs] [c Hc] Hb] [Ho Hd Hpar Hcb] HJ. destruct (init_hardware_ok cfg d HJ) as (d' & Hi & Hd').
  exists d'. split; [done|]. split; [done|]. unfold Lpuart_Uart_Ip_Init.
  rewrite assert_true by (by apply Z.ltb_lt). cbn [res_bind]. rewrite Hp. cbn [res_bind].
  rewrite assert_true by done. cbn [res_bind]. rewrite assert_true by (by apply Z.leb_le). cbn [res_bind].
  rewrite assert_true by (apply andb_true_iff; split; apply Z.leb_le; lia). cbn [res_bind]. rewrite Hb. cbn [res_bind].
  destruct (store_set _ _ _ (Some (StateStruct cfg)) Hp) as (l & -> & Hl).
  destruct (store_set _ _ _ (Some cfg) Hc) as (cs & -> & Hcs). cbn [res_bind].
  rewrite assert_true; [cbn [res_bind]|].
  - rewrite Hi. cbn [res_bind]. by eapply (put_opened _ k (StateStruct cfg) st).
  - destruct (bool_decide_reflect (BitCountPerChar cfg <> LPUART_UART_IP_10_BITS_PER_CHAR)) as [|Hn]; [done|].
    apply bool_decide_eq_true, Hpar, dec_stable, Hn.
Qed.

Lemma initial_fine cfg : fine false (initial cfg).
Proof. by repeat split. Qed.
Lemma init_running g k cfg d :
  closed g k cfg d -> config_ok cfg -> J d ->
  yields (Lpuart_Uart_Ip_Init g k cfg) (running false k (StateStruct cfg) cfg).
Proof.
  intros Hc Hcfg HJ. destruct (init_ok g k cfg d Hc Hcfg HJ) as (d' & _ & Hd' & Hi).
  eapply yields_mono; [exact Hi|]. intros g' Ho. exists (initial cfg), d'. split; [done|]. split; [|done].
  exists false. split; [done|]. apply initial_fine.
Qed.
End safe.
End UartSafe.

Import UartSafe.

(** C26: once an instance is initialised, no sequence of sends, receives, aborts,
    changes of the baud rate, interrupts and activity at the hardware faults: no
    assertion fails, no pointer leaves its buffer, no divisor is zero, and every
    polling loop ends within the rounds its timeout allows.  Afterwards the
    buffers still hold what the sizes say. *)
Theorem uart_program_safe {D : Type} {J : D -> Prop} `{FaithfulPort D J} `{DocumentedLpuart}
    (g : udriver D) (k : Z) (cfg : config) (d : D) (cs : list ucall) :
  closed g k cfg d -> config_ok cfg -> J d -> Forall ucall_ok cs ->
  exists g1 rs g2 st d', Lpuart_Uart_Ip_Init g k cfg = Ok g1 /\ run_ucalls k g1 cs = Ok (rs, g2) /\
    load (apStateStructure g2) (StateStruct cfg) = Ok st /\ load (apBases g2) k = Ok d' /\ J d' /\
    covers (TxBuff st) (TxSize st) /\ covers (RxBuff st) (RxSize st).
Proof.
  intros Hc Hcfg HJ Hcs. destruct (init_running g k cfg d Hc Hcfg HJ) as (g1 & Hi & Hr).
  destruct (ucalls_outcome false k (StateStruct cfg) cfg cs g1 Hr) as ([rs g2] & Hrun & Hg & _); [done..|].
  destruct Hg as (st & d' & Ho & (ie & [Hd _] & Ht & Hx & _) & _).
  exists g1, rs, g2, st, d'. by destruct Ho.
Qed.

(** ** Registers that only remember CTRL *)

Module CtrlOnly.
#[global] Instance port : UartPort Z := {
  ureg_read d r := Ok (match r with CTRL => d | STAT => 0x00E00000 | _ => 0 end, d);
  ureg_write d r v := Ok (match r with CTRL => u32 v | _ => d end);
}.
#[global] Instance faithful : FaithfulPort Z (fun _ => True).
Proof.
  refine {| ctrl_of d := d; host := unit; host_step _ d := d |}.
  - intros d r _. apply yields_ok. by destruct r.
  - intros d r v _. apply yields_ok. by destruct r.
  - done.
Defined.

(** The header with the positions of the reference manual. *)
#[global] Instance header : LpuartHeader := {|
  LPUART_BAUD_OSR_SHIFT := 24; LPUART_BAUD_OSR_MASK := 0x1F000000;
  LPUART_BAUD_OSR x := Z.land (u32 (Z.shiftl x 24)) 0x1F000000;
  LPUART_BAUD_SBR_SHIFT := 0; LPUART_BAUD_SBR_MASK := 0x1FFF; LPUART_BAUD_BOTHEDGE_MASK := 0x20000;
  LPUART_BAUD_M10_MASK := 0x20000000; LPUART_BAUD_M10_SHIFT := 29;
  LPUART_BAUD_SBNS_MASK := 0x2000; LPUART_BAUD_SBNS_SHIFT := 13;
  LPUART_CTRL_TE_MASK := 0x80000; LPUART_CTRL_TE_SHIFT := 19;
  LPUART_CTRL_RE_MASK := 0x40000; LPUART_CTRL_RE_SHIFT := 18;
  LPUART_CTRL_M7_MASK := 0x800; LPUART_CTRL_M7_SHIFT := 11;
  LPUART_CTRL_M_MASK := 0x10; LPUART_CTRL_M_SHIFT := 4;
  LPUART_CTRL_PE_MASK := 0x2; LPUART_CTRL_PE_SHIFT := 1;
  LPUART_CTRL_PT_MASK := 0x1; LPUART_CTRL_PT_SHIFT := 0;
  LPUART_CTRL_R9T8_MASK := 0x40000000; LPUART_CTRL_R9T8_SHIFT := 30;
  LPUART_CTRL_R8T9_MASK := 0x80000000; LPUART_CTRL_R8T9_SHIFT := 31;
  LPUART_CTRL_TIE_SHIFT := 23; LPUART_CTRL_TCIE_SHIFT := 22; LPUART_CTRL_RIE_SHIFT := 21;
  LPUART_CTRL_ORIE_SHIFT := 27; LPUART_CTRL_NEIE_SHIFT := 26; LPUART_CTRL_FEIE_SHIFT := 25;
  LPUART_CTRL_PEIE_SHIFT := 24;
  LPUART_STAT_TDRE_SHIFT := 23; LPUART_STAT_TC_SHIFT := 22; LPUART_STAT_RDRF_SHIFT := 21;
  LPUART_STAT_OR_SHIFT := 19; LPUART_STAT_NF_SHIFT := 18; LPUART_STAT_FE_SHIFT := 17; LPUART_STAT_PF_SHIFT := 16;
  LPUART_STAT_OR_MASK := 0x80000; LPUART_STAT_NF_MASK := 0x40000; LPUART_STAT_FE_MASK := 0x20000;
  LPUART_STAT_PF_MASK := 0x10000;
  LPUART_FIFO_TXFLUSH_MASK := 0x8000; LPUART_FIFO_RXFLUSH_MASK := 0x4000;
  LPUART_INSTANCE_COUNT := 16;
|}.
#[global] Instance documented : DocumentedLpuart.
Proof. by split. Qed.

Definition unopened : udriver Z :=
  mkUdriver (replicate 16 None) [cleared] (replicate 16 None) (replicate 16 0).
Definition a_program : list ucall :=
  [USyncSend (Some ([72; 105], 0)) 2 100; UAsyncReceive (Some ([0; 0; 0], 1)) 2; UHost tt; UIrq; UIrq;
   USetBaudRate 115200 40000000; UAsyncSend (Some ([33], 0)) 1; UIrq; UAbortReceive; UDeinit].
End CtrlOnly.

Lemma uart_program_safe_witness :
  closed CtrlOnly.unopened 3 Lpuart_Uart_Ip_xHwConfigPB_3 0 /\
  exists g1 rs g2 st d', Lpuart_Uart_Ip_Init CtrlOnly.unopened 3 Lpuart_Uart_Ip_xHwConfigPB_3 = Ok g1 /\
    run_ucalls 3 g1 CtrlOnly.a_program = Ok (rs, g2) /\
    load (apStateStructure g2) 0 = Ok st /\ load (apBases g2) 3 = Ok d' /\ True /\
    covers (TxBuff st) (TxSize st) /\ covers (RxBuff st) (RxSize st).
Proof.
  assert (closed CtrlOnly.unopened 3 Lpuart_Uart_Ip_xHwConfigPB_3 0) as Hc
    by (split; [done|done|by eexists|by eexists|done]).
  split; [exact Hc|]. apply (uart_program_safe _ _ _ 0 CtrlOnly.a_program Hc); [by split|done|].
  repeat constructor; vm_compute; done.
Defined.
