(* ===== verification/UartSystem.v ===== *)
(** * The LPUART driver on the emulated LPUART

    The registers of [hw/char/nxps32k358_lpuart.c] as the hardware of the driver:
    what [Lpuart_Uart_Ip_SyncSend] puts out, the baud rate the device sees, the
    output of the demo's [print], and what becomes of interrupt-driven sends. *)

From S2P Require Import Prelude Words Chardev Lpuart UartDriver UartDriverProps.
Import UartDriver UartSafe.
Import Lpuart (NXPS32K358LPUARTState, CharPort, port_ok, uart_ok, lpuart_cr, lpuart_sr, lpuart_dr, lpuart_gb,
  baud_rate_config, qemu_chr_fe_write_all, chr_ioctl_speed).

Module UartSystem.

Definition ureg_offset (r : ureg) : Z :=
  match r with
  | BAUD => Lpuart.LPUART_BAUD
  | STAT => Lpuart.LPUART_STAT
  | CTRL => Lpuart.LPUART_CTRL
  | DATA => Lpuart.LPUART_DATA
  | FIFO => 0x28
  end.

Section system.
Context {C : Type} {HC : CharPort C} {HH : LpuartHeader} {HD : DocumentedLpuart}.
Abbreviation device := (C * NXPS32K358LPUARTState)%type.

#[global] Instance device_port : UartPort device := {
  ureg_read '(c, s) r :=
    let! '(v, c, s) := Lpuart.nxps32k358_lpuart_read c s (ureg_offset r) in Ok (v, (c, s));
  ureg_write '(c, s) r v := Ok (Lpuart.nxps32k358_lpuart_write c s (ureg_offset r) v);
}.

(** The device and its back end are well; with [q], the flag for a complete
    transmission is clear. *)
Definition sound (q : bool) (d : device) : Prop :=
  port_ok d.1 /\ uart_ok d.2 /\ (q = true -> Z.testbit (lpuart_sr d.2) 22 = false).

(** A byte from the host arrives when the device can receive. *)
Definition host_byte (b : Z) (d : device) : device :=
  (d.1, if Lpuart.nxps32k358_lpuart_can_receive d.2 =? 0 then d.2
        else Lpuart.nxps32k358_lpuart_receive d.2 [u8 b]).

(** ** The device as the driver needs it *)

Lemma receive_keeps s b :
  let s' := Lpuart.nxps32k358_lpuart_receive s [b] in
  lpuart_cr s' = lpuart_cr s /\ Z.testbit (lpuart_sr s') 22 = Z.testbit (lpuart_sr s) 22.
Proof.
  cbn [Lpuart.nxps32k358_lpuart_receive]. destruct (negb _); [done|]. split; [done|].
  unfold Lpuart.nxps32k358_lpuart_update_irq. rsimpl. unfold set_bits. rewrite Z.lor_spec.
  by rewrite orb_false_r.
Qed.
Lemma delivers_keeps s s' :
  Lpuart.delivers s s' -> lpuart_cr s' = lpuart_cr s /\ Z.testbit (lpuart_sr s') 22 = Z.testbit (lpuart_sr s) 22.
Proof.
  induction 1 as [|s b s' _ _ _ [IH1 IH2]]; [done|]. destruct (receive_keeps s b) as [H1 H2]. by rewrite IH1, IH2.
Qed.

Lemma device_read q d r :
  sound q d -> yields (ureg_read d r) (fun '(v, d') => sound q d' /\ lpuart_cr d'.2 = lpuart_cr d.2 /\
    (r = CTRL -> v = lpuart_cr d.2) /\ (r = STAT -> v = lpuart_sr d.2 /\ d' = d) /\ (r = BAUD -> v = baud_rate_config d.2 /\ d' = d)).
Proof.
  destruct d as [c s]. intros (Hc & Hs & Hq). cbn [fst snd] in *.
  destruct (Lpuart.read_uart c s (ureg_offset r) Hc Hs) as (v & c' & s' & He & Hc' & Hs' & _).
  exists (v, (c', s')). cbn [ureg_read device_port]. rewrite He. split; [done|]. cbn [fst snd].
  destruct r; try (injection He as <- <- <-; by split_and!).
  unfold Lpuart.nxps32k358_lpuart_read in He. cbn -[Lpuart.qemu_chr_fe_accept_input upd clear_bits] in He.
  destruct (Lpuart.accept_input_ok c (s <| lpuart_sr := clear_bits (lpuart_sr s) Lpuart.LPUART_STAT_RDRF |>) Hc)
    as (c1 & s1 & Ha & _ & Hd). apply delivers_keeps in Hd as [Hcr Hsr].
  rewrite Ha in He. injection He as <- <- <-. split; [|by split_and!].
  split; [done|]. split; [done|]. intros Eq. cbn [snd].
  unfold Lpuart.nxps32k358_lpuart_update_irq. rsimpl. rewrite Hsr. rsimpl. unfold clear_bits. rewrite Z.ldiff_spec.
  by rewrite (Hq Eq).
Qed.

Lemma device_write q d r v :
  sound q d -> sound q (Lpuart.nxps32k358_lpuart_write d.1 d.2 (ureg_offset r) v) /\
    (r = CTRL -> lpuart_cr (Lpuart.nxps32k358_lpuart_write d.1 d.2 (ureg_offset r) v).2 = u32 v) /\
    (r <> CTRL -> lpuart_cr (Lpuart.nxps32k358_lpuart_write d.1 d.2 (ureg_offset r) v).2 = lpuart_cr d.2).
Proof.
  destruct d as [c s]. intros (Hc & Hs & Hq). cbn [fst snd] in *.
  pose proof (Lpuart.write_uart c s (ureg_offset r) v Hc Hs) as Hw.
  destruct (Lpuart.nxps32k358_lpuart_write c s (ureg_offset r) v) as [c' s'] eqn:He. destruct Hw as (Hc' & Hs' & _).
  unfold Lpuart.nxps32k358_lpuart_write in He. cbn [fst snd].
  destruct r; cbn -[u upd set_bits Z.lor Z.land] in He; try (injection He as <- <-; by split_and!).
  - destruct (_ <=? 1023) eqn:El; injection He as <- <-; (split; [split; [done|]; split; [done|]|done]);
      cbn [fst snd lpuart_sr]; intros Eq.
    + rewrite Z.lor_spec, orb_false_r. apply Z.leb_le in El.
      destruct (u_range 32 v) as [H0 _]; [lia|]. apply (proj1 (is_u_testbit 10 _ ltac:(lia))); [|lia].
      unfold is_u. lia.
    + by rewrite Z.land_spec, (Hq Eq).
  - destruct (_ <? 61440); injection He as <- <-; split_and!; try done; split_and!; try done.
    cbn [snd]. unfold Lpuart.nxps32k358_lpuart_update_irq. cbn -[Z.testbit set_bits]. intros Eq. unfold set_bits. by rewrite Z.lor_spec, (Hq Eq).
Qed.

#[global] Instance device_faithful q : FaithfulPort device (sound q).
Proof.
  refine {| ctrl_of d := lpuart_cr d.2; host := Z; host_step := host_byte |}.
  - intros d r Hd. eapply yields_mono; [by apply (device_read q)|]. intros [v d'] (? & ? & ? & _). done.
  - intros [c s] r v Hd. cbn [ureg_write device_port]. apply yields_ok. by apply (device_write q (c, s)).
  - intros b [c s] (Hc & Hs & Hq). unfold host_byte, sound. cbn [fst snd] in *.
    destruct (_ =? 0); [done|]. destruct (receive_keeps s (u8 b)) as [H1 H2]. split; [|done]. split; [done|].
    split; [|by rewrite H2]. apply Lpuart.receive_uart; [done|]. by apply u_range.
Defined.

(** ** Register accesses, exactly *)

Implicit Types (c : C) (s : NXPS32K358LPUARTState).

Definition cr_modify s (f : Z -> Z) : NXPS32K358LPUARTState :=
  Lpuart.nxps32k358_lpuart_update_irq (s <| lpuart_cr := u32 (f (lpuart_cr s)) |>).
Definition byte_out s : NXPS32K358LPUARTState :=
  Lpuart.nxps32k358_lpuart_update_irq (s <| lpuart_sr := set_bits (lpuart_sr s) Lpuart.LPUART_STAT_TDRE |>).

Lemma modify_ctrl_exact c s f : ureg_modify (c, s) CTRL f = Ok (c, cr_modify s f).
Proof. done. Qed.
Lemma stat_flag_exact c s f :
  Lpuart_Uart_Ip_GetStatusFlag (c, s) f = Ok (0 <? Z.land (Z.shiftr (lpuart_sr s) (flag_shift f)) 1, (c, s)).
Proof. done. Qed.
Lemma putchar_exact c s b :
  is_u 8 b -> Lpuart_Uart_Ip_Putchar (c, s) b = Ok (qemu_chr_fe_write_all c [b], byte_out s).
Proof.
  intros Hb. unfold Lpuart_Uart_Ip_Putchar. rewrite u_small by done. cbn [ureg_write device_port ureg_offset].
  assert (u32 b = b) as Hu by (apply u_small, (is_u_mono 8); [lia|done]).
  unfold Lpuart.nxps32k358_lpuart_write. rewrite Hu. cbn -[u8].
  destruct (Z.ltb_spec b 61440) as [_|Hge]; [by rewrite u_small|unfold is_u in Hb; lia].
Qed.
Lemma byte_out_tdre s : Z.testbit (lpuart_sr (byte_out s)) 23 = true.
Proof.
  unfold byte_out, Lpuart.nxps32k358_lpuart_update_irq. rsimpl. unfold set_bits. by rewrite Z.lor_spec, orb_true_r.
Qed.

(** The bytes go out one by one. *)
Definition writes c (bs : list Z) : C := foldl (fun c b => qemu_chr_fe_write_all c [b]) c bs.
Definition bytes_out s (n : nat) : NXPS32K358LPUARTState := Nat.iter n byte_out s.

Lemma bytes_out_keeps s n :
  lpuart_cr (bytes_out s n) = lpuart_cr s /\ baud_rate_config (bytes_out s n) = baud_rate_config s /\
  Lpuart.clk (bytes_out s n) = Lpuart.clk s.
Proof. induction n as [|n IH]; [done|]. destruct IH as (? & ? & ?). by split_and!. Qed.
Lemma bytes_out_S s n : bytes_out s (S n) = bytes_out (byte_out s) n.
Proof. unfold bytes_out. by rewrite Nat.iter_succ_r. Qed.

(** ** Sending by polling *)

Lemma put_data_exact cfg st c s buf j b :
  narrow cfg = true -> TxBuff st = Some (buf, j) -> 0 <= j -> buf !! Z.to_nat j = Some b -> is_u 8 b ->
  Lpuart_Uart_Ip_PutData cfg st (c, s) =
    Ok (st <| TxBuff := Some (buf, j + 1) |> <| TxSize := u32 (TxSize st - 1) |>, (qemu_chr_fe_write_all c [b], byte_out s)).
Proof.
  intros Hn Hp Hj Hb Hu. unfold Lpuart_Uart_Ip_PutData. rewrite Hn, Hp. cbn [deref].
  rewrite (load_ok _ _ b) by done. cbn [res_bind]. by rewrite putchar_exact.
Qed.
Lemma wait_empty c s fuel T E :
  (0 < fuel)%nat -> Z.testbit (lpuart_sr s) 23 = true ->
  wait_flag fuel (c, s) LPUART_UART_IP_TX_DATA_REG_EMPTY T E = Ok ((c, s), E).
Proof.
  intros Hf Hb. destruct fuel; [lia|]. cbn [wait_flag]. rewrite stat_flag_exact. cbn [res_bind flag_shift].
  by rewrite doc_tdre, bit_value, Hb.
Qed.

(** Characters that [n] bytes and a timeout allow, from a count of [E] looks. *)
Definition sent_of (n T E : Z) : Z := Z.min n (Z.max 0 (T - 1 - E)).

Lemma send_loop_exact fuel cfg st c s T E buf j n :
  narrow cfg = true -> TxBuff st = Some (buf, j) -> TxSize st = n -> covers (Some (buf, j)) n -> Forall (is_u 8) buf ->
  0 <= j -> 0 <= E -> E + 1 < 2 ^ 32 -> T < 2 ^ 32 -> n < Z.of_nat fuel ->
  let m := sent_of n T E in
  send_loop fuel cfg st (c, s) T E =
    Ok (st <| TxBuff := Some (buf, j + m) |> <| TxSize := n - m |>,
        (writes c (take (Z.to_nat m) (drop (Z.to_nat j) buf)), bytes_out s (Z.to_nat m)),
        if m =? n then E + n else Z.max T (E + 1)).
Proof.
  intros Hn Hp Hs Hcov Hbs. revert st c s E j n Hp Hs Hcov.
  induction fuel as [|fuel IH]; intros st c s E j n Hp Hs Hcov Hj HE HE2 HT Hf m; [destruct Hcov; lia|].
  assert (0 <= n < 2 ^ 32) as Hn0 by apply Hcov. cbn [send_loop]. rewrite Hs.
  destruct (Z.ltb_spec 0 n) as [H0|H0]; cbn [negb].
  2: { assert (n = 0) as -> by lia. assert (m = 0) as -> by (unfold m, sent_of; lia). cbn [Z.to_nat take Z.eqb].
       rewrite !Z.add_0_r. rewrite <- Hp. cbn. do 3 f_equal. destruct st; cbn in *. by subst. }
  unfold Lpuart_Uart_Ip_CheckTimeout, OsIf_GetElapsed. rewrite u_small by (unfold is_u; lia).
  destruct (Z.leb_spec T (E + 1)) as [Hl|Hl].
  { assert (m = 0) as -> by (unfold m, sent_of; lia). destruct (Z.eqb_spec 0 n); [lia|]. cbn [Z.to_nat take].
    rewrite Z.add_0_r, Z.sub_0_r, <- Hp, Z.max_r by lia. cbn. do 3 f_equal. destruct st; cbn in *. by subst. }
  destruct (lookup_lt_is_Some_2 buf (Z.to_nat j)) as [b Hb]; [destruct Hcov as [_ Hcov]; specialize (Hcov H0); lia|].
  assert (is_u 8 b) as Hu by (by eapply Forall_lookup_1).
  rewrite (put_data_exact cfg st c s buf j b) by done. cbn [res_bind].
  rewrite wait_empty by (apply byte_out_tdre || (unfold rounds; lia)). cbn [res_bind].
  rewrite Hs, size_less by lia.
  assert (covers (Some (buf, j + 1)) (n - 1)) as Hcov' by (by apply (covers_advance (Some (buf, j))); [|lia]).
  rewrite (IH _ _ _ (E + 1) (j + 1) (n - 1)); [|done|by rsimpl|done|lia|lia|lia|lia|lia].
  assert (m = 1 + sent_of (n - 1) T (E + 1)) as -> by (unfold m, sent_of; lia).
  set (m' := sent_of (n - 1) T (E + 1)). assert (0 <= m') by (unfold m', sent_of; lia).
  f_equal. f_equal; [f_equal|].
  - replace (j + (1 + m')) with (j + 1 + m') by lia. by replace (n - (1 + m')) with (n - 1 - m') by lia.
  - replace (Z.to_nat (1 + m')) with (S (Z.to_nat m')) by lia. replace (Z.to_nat (j + 1)) with (S (Z.to_nat j)) by lia.
    rewrite bytes_out_S. f_equal. by rewrite (drop_S buf b (Z.to_nat j) Hb).
  - destruct (Z.eqb_spec m' (n - 1)), (Z.eqb_spec (1 + m') n); lia.
Qed.

(** The device after a send of [m] bytes: the transmit interrupts and the
    transmitter are switched off. *)
Definition int_off (i : Lpuart_Uart_Ip_InterruptType) : Z -> Z :=
  set_field (Z.shiftl 1 (int_shift i)) (int_shift i) (b2u false).
Definition transmitter (on : bool) : Z -> Z := set_field LPUART_CTRL_TE_MASK LPUART_CTRL_TE_SHIFT (b2u on).
Definition before_send s : NXPS32K358LPUARTState :=
  cr_modify (cr_modify (cr_modify s (int_off LPUART_UART_IP_INT_TX_DATA_REG_EMPTY))
    (int_off LPUART_UART_IP_INT_TX_COMPLETE)) (transmitter true).
Definition after_send s (m : nat) : NXPS32K358LPUARTState := cr_modify (bytes_out (before_send s) m) (transmitter false).

Lemma sync_send_exact cfg st c s buf j n T :
  narrow cfg = true -> covers (Some (buf, j)) n -> 0 < n -> Forall (is_u 8) buf -> 0 <= T -> T + 1 < 2 ^ 32 ->
  let m := sent_of n T 0 in
  let r := if n + 1 <? T then LPUART_UART_IP_STATUS_SUCCESS else LPUART_UART_IP_STATUS_TIMEOUT in
  sync_send cfg st (c, s) (Some (buf, j)) n T =
    Ok (r, st <| TxBuff := Some (buf, j + m) |> <| TxSize := n - m |> <| TransmitStatus := r |> <| IsTxBusy := false |>,
        (writes c (take (Z.to_nat m) (drop (Z.to_nat j) buf)), after_send s (Z.to_nat m))).
Proof.
  intros Hn Hcov H0 Hbs HT HT2 m r. unfold sync_send, Lpuart_Uart_Ip_SetIntMode, Lpuart_Uart_Ip_SetTransmitterCmd.
  do 3 (rewrite modify_ctrl_exact; cbn [res_bind]).
  change (cr_modify (cr_modify (cr_modify s _) _) _) with (before_send s). unfold OsIf_MicrosToTicks.
  assert (0 <= j) by (destruct Hcov as [_ Hc]; specialize (Hc H0); lia).
  rewrite (send_loop_exact _ _ _ _ _ _ _ buf j n); [|done|done|done|done|done|done|lia|lia|lia|lia]. fold m.
  cbn [res_bind]. rewrite modify_ctrl_exact. cbn [res_bind]. fold (transmitter false).
  fold (after_send s (Z.to_nat m)). unfold Lpuart_Uart_Ip_CheckTimeout, OsIf_GetElapsed.
  assert (m = Z.min n (Z.max 0 (T - 1))) as Hm by (unfold m, sent_of; lia). assert (n < 2 ^ 32) by apply Hcov.
  assert ((T <=? u32 ((if m =? n then 0 + n else Z.max T (0 + 1)) + 1)) = negb (n + 1 <? T)) as ->.
  { rewrite u_small by (unfold is_u; destruct (Z.eqb_spec m n); lia).
    destruct (Z.eqb_spec m n), (Z.ltb_spec (n + 1) T); cbn [negb]; first [apply Z.leb_le; lia|apply Z.leb_gt; lia]. }
  unfold r. clear. destruct (n + 1 <? T); cbn [negb]; reflexivity.
Qed.

Lemma after_send_keeps s m :
  baud_rate_config (after_send s m) = baud_rate_config s /\ Lpuart.clk (after_send s m) = Lpuart.clk s.
Proof. unfold after_send. destruct (bytes_out_keeps (before_send s) m) as (_ & Hb & Hc). split; [exact Hb|exact Hc]. Qed.

(** One call of [Lpuart_Uart_Ip_SyncSend]. *)
Lemma send_call_exact g k i st cfg c s buf j n T :
  opened g k i st cfg (c, s) -> IsTxBusy st = false -> narrow cfg = true ->
  covers (Some (buf, j)) n -> 0 < n -> Forall (is_u 8) buf -> 0 <= T -> T + 1 < 2 ^ 32 ->
  let m := sent_of n T 0 in
  let r := if n + 1 <? T then LPUART_UART_IP_STATUS_SUCCESS else LPUART_UART_IP_STATUS_TIMEOUT in
  exists g' st', Lpuart_Uart_Ip_SyncSend g k (Some (buf, j)) n T = Ok (r, g') /\
    opened g' k i st' cfg
      (writes c (take (Z.to_nat m) (drop (Z.to_nat j) buf)), after_send s (Z.to_nat m)) /\
    IsTxBusy st' = false /\ TransmitStatus st' = r /\ TxSize st' = n - m.
Proof.
  intros Ho Hb Hn Hcov H0 Hbs HT HT2 m r. unfold Lpuart_Uart_Ip_SyncSend.
  rewrite (opened_assert _ _ _ _ _ _ Ho). cbn [res_bind]. rewrite assert_true by done. cbn [res_bind].
  rewrite (assert_true (0 <? n)) by (by apply Z.ltb_lt). cbn [res_bind].
  rewrite (op_base _ _ _ _ _ _ Ho), (opened_state _ _ _ _ _ _ _ Ho). cbn [res_bind]. rewrite Hb.
  rewrite (opened_config _ _ _ _ _ _ _ Ho). cbn [res_bind]. rewrite sync_send_exact by done. cbn [res_bind]. fold m r.
  match goal with |- context [put_uart g k i ?x ?y] =>
    destruct (put_opened g k i st cfg (c, s) x y Ho) as (g' & -> & Ho') end.
  exists g'. eexists. split; [done|]. split; [exact Ho'|done].
Qed.

(** ** The baud rate *)

Definition baud_set s (v : Z) : NXPS32K358LPUARTState := s <| baud_rate_config := u32 v |>.
(** A write to BAUD tells the back end the new speed. *)
Definition baud_write (d : device) (v : Z) : device :=
  (Lpuart.nxps32k358_lpuart_update_params d.1 (baud_set d.2 v), baud_set d.2 v).
Lemma write_baud_exact c s v : ureg_write (c, s) BAUD v = Ok (baud_write (c, s) v).
Proof. done. Qed.
Lemma modify_baud_exact c s f : ureg_modify (c, s) BAUD f = Ok (baud_write (c, s) (f (baud_rate_config s))).
Proof. done. Qed.

(** BAUD is written any number of times, the last time with [v]; CTRL may be written. *)
Definition retuned (c : C) s (v : Z) (d : device) : Prop :=
  exists speeds, d.1 = foldl chr_ioctl_speed c speeds /\ baud_rate_config d.2 = v /\ Lpuart.clk d.2 = Lpuart.clk s /\
    lpuart_sr d.2 = lpuart_sr s /\ lpuart_dr d.2 = lpuart_dr s /\ lpuart_gb d.2 = lpuart_gb s.

Lemma retuned_refl c s : retuned c s (baud_rate_config s) (c, s).
Proof. by exists []. Qed.
Lemma retuned_write c s v d w : retuned c s v d -> retuned c s (u32 w) (baud_write d w).
Proof.
  intros (sp & Hc & _ & Hk & Hsr & Hdr & Hgb).
  exists (sp ++ [Lpuart.nxps32k358_lpuart_calculate_baud_rate (baud_set d.2 w)]).
  split; [|by split_and!]. cbn. unfold Lpuart.nxps32k358_lpuart_update_params. by rewrite Hc, foldl_app.
Qed.
Lemma retuned_modify c s v d f :
  retuned c s v d -> exists d', ureg_modify d BAUD f = Ok d' /\ retuned c s (u32 (f v)) d'.
Proof.
  intros Hr. destruct d as [c1 s1]. rewrite modify_baud_exact. eexists. split; [done|].
  replace v with (baud_rate_config s1) by (by destruct Hr as (? & _ & ? & _)). by eapply retuned_write.
Qed.

Lemma retuned_ctrl c s v d f : retuned c s v d -> exists d', ureg_modify d CTRL f = Ok d' /\ retuned c s v d'.
Proof. destruct d as [c1 s1]. rewrite modify_ctrl_exact. intros Hr. by eexists. Qed.

(** The fields OSR and SBR. *)
Lemma osr_field x v : 0 <= x < 32 -> Z.lor (Z.ldiff v LPUART_BAUD_OSR_MASK) (LPUART_BAUD_OSR x)
  = Z.lor (Z.ldiff v 0x1F000000) (Z.shiftl x 24).
Proof.
  intros Hx. rewrite doc_osr_mask, doc_osr. f_equal.
  rewrite (u_small 32) by (unfold is_u; rewrite Z.shiftl_mul_pow2 by lia; lia).
  apply Z.bits_inj'. intros n Hn. rewrite Z.land_spec, Z.shiftl_spec by done.
  destruct (Z.testbit x (n - 24)) eqn:Eb; [|done]. cbn [andb].
  assert (24 <= n < 29) as Hr.
  { destruct (decide (n < 24)); [by rewrite Z.testbit_neg_r in Eb by lia|]. split; [lia|].
    destruct (decide (n < 29)); [done|]. rewrite (proj2 (proj1 (is_u_testbit 5 x ltac:(lia)) ltac:(unfold is_u; lia))) in Eb by lia. done. }
  assert (n = 24 \/ n = 25 \/ n = 26 \/ n = 27 \/ n = 28) as Hc by lia. by destruct Hc as [-> | [-> | [-> | [-> | ->]]]].
Qed.

(** What the device reads back from the two fields. *)
Lemma fields_read o r v :
  0 <= o < 32 -> 0 <= r < 2 ^ 13 -> is_u 32 v ->
  let w := Z.lor (Z.ldiff (u32 (Z.lor (Z.ldiff v 0x1F000000) (Z.shiftl o 24))) 0x1FFF) (Z.land r 0x1FFF) in
  is_u 32 w /\ Z.land w Lpuart.LPUART_BAUD_SBR_MASK = r /\
  Z.shiftr (Z.land w Lpuart.LPUART_BAUD_OSR_MASK) Lpuart.LPUART_BAUD_OSR_SHIFT = o.
Proof.
  intros Ho Hr Hv w. assert (is_u 32 (Z.shiftl o 24)) by (unfold is_u; rewrite Z.shiftl_mul_pow2 by lia; lia).
  assert (is_u 32 (Z.lor (Z.ldiff v 0x1F000000) (Z.shiftl o 24))) as Hi by (apply is_u_lor; [lia|by apply is_u_ldiff|done]).
  assert (w = Z.lor (Z.ldiff (Z.lor (Z.ldiff v 0x1F000000) (Z.shiftl o 24)) 0x1FFF) (Z.land r 0x1FFF)) as Hw
    by (unfold w; by rewrite (u_small 32 _ Hi)).
  assert (forall n, 13 <= n -> Z.testbit r n = false) as Hrb by (apply (is_u_testbit 13); [lia|unfold is_u; lia]).
  assert (forall n, 5 <= n -> Z.testbit o n = false) as Hob by (apply (is_u_testbit 5); [lia|unfold is_u; lia]).
  change Lpuart.LPUART_BAUD_SBR_MASK with (Z.ones 13). change Lpuart.LPUART_BAUD_OSR_MASK with (Z.shiftl (Z.ones 5) 24).
  change Lpuart.LPUART_BAUD_OSR_SHIFT with 24. change 0x1FFF with (Z.ones 13) in Hw.
  change 0x1F000000 with (Z.shiftl (Z.ones 5) 24) in Hw. split_and!.
  - rewrite Hw. apply is_u_lor; [lia|apply is_u_ldiff; [lia|]|].
    + exact Hi.
    + apply is_u_land; [lia|]. unfold is_u. lia.
  - rewrite Hw. apply Z.bits_inj'. intros n Hn.
    rewrite !Z.land_spec, !Z.lor_spec, Z.ldiff_spec, !Z.land_spec, Z.testbit_ones_nonneg by lia.
    destruct (Z.ltb_spec n 13); [by rewrite !andb_false_r, !andb_true_r|]. by rewrite Hrb, !andb_false_r.
  - rewrite Hw. apply Z.bits_inj'. intros n Hn.
    rewrite Z.shiftr_spec, !Z.land_spec, !Z.lor_spec, !Z.ldiff_spec, !Z.land_spec by lia.
    rewrite Z.lor_spec, Z.ldiff_spec, !Z.shiftl_spec, !Z.testbit_ones_nonneg by lia.
    replace (n + 24 - 24) with n by lia. destruct (Z.ltb_spec n 5), (Z.ltb_spec (n + 24) 13); try lia.
    + by rewrite !andb_false_r, !andb_true_r, orb_false_r.
    + by rewrite Hob, !andb_false_r.
Qed.

Lemma baud_u32 s : uart_ok s -> is_u 32 (baud_rate_config s).
Proof. intros Hs. by apply Forall_cons_1 in Hs as [? _]. Qed.

(** The rate that the device computes from its fields. *)
Lemma device_rate s o r :
  0 <= o < 32 -> 0 < r < 2 ^ 13 -> 0 <= Lpuart.clk s < 2 ^ 32 ->
  Z.land (baud_rate_config s) Lpuart.LPUART_BAUD_SBR_MASK = r ->
  Z.shiftr (Z.land (baud_rate_config s) Lpuart.LPUART_BAUD_OSR_MASK) Lpuart.LPUART_BAUD_OSR_SHIFT = o ->
  Lpuart.nxps32k358_lpuart_calculate_baud_rate s = Lpuart.clk s / ((o + 1) * r).
Proof.
  intros Ho Hr Hc Hs Hos. unfold Lpuart.nxps32k358_lpuart_calculate_baud_rate. cbv zeta. rewrite Hs, Hos.
  change (Z.shiftr r Lpuart.LPUART_BAUD_SBR_SHIFT) with (Z.shiftr r 0). rewrite Z.shiftr_0_r.
  rewrite (u_small 32 (o + 1)) by (unfold is_u; lia). rewrite (u_small 64) by (unfold is_u; nia).
  destruct (Z.eqb_spec ((o + 1) * r) 0); [nia|]. apply u_small. unfold is_u.
  split; [apply Z.div_pos; nia|]. apply Z.div_lt_upper_bound; nia.
Qed.

(** Writing a ratio and a divisor. *)
Lemma tune_exact c s v d o r :
  retuned c s v d -> is_u 32 v -> 0 <= o < 32 -> 0 < r < 2 ^ 13 -> 0 <= Lpuart.clk s < 2 ^ 32 ->
  exists d1 d2 w, Lpuart_Uart_Ip_SetOversamplingRatio d o = Ok d1 /\ Lpuart_Uart_Ip_SetBaudRateDivisor d1 r = Ok d2 /\
    retuned c s w d2 /\ Lpuart.nxps32k358_lpuart_calculate_baud_rate d2.2 = Lpuart.clk s / ((o + 1) * r).
Proof.
  intros Hd Hv Ho Hr Hc. unfold Lpuart_Uart_Ip_SetOversamplingRatio, Lpuart_Uart_Ip_SetBaudRateDivisor.
  destruct (retuned_modify c s v d (fun v => Z.lor (Z.ldiff v LPUART_BAUD_OSR_MASK) (LPUART_BAUD_OSR o)) Hd) as (d1 & H1 & Hd1).
  destruct (retuned_modify c s _ d1 (fun v => Z.lor (Z.ldiff v LPUART_BAUD_SBR_MASK) (Z.land r LPUART_BAUD_SBR_MASK)) Hd1)
    as (d2 & H2 & Hd2). exists d1, d2. eexists. split; [exact H1|]. split; [exact H2|]. split; [exact Hd2|].
  cbv beta in Hd2. rewrite osr_field, doc_sbr_mask in Hd2 by done.
  destruct (fields_read o r v Ho ltac:(lia) Hv) as (Hw & Hsbr & Hosr).
  rewrite (u_small 32 _ Hw) in Hd2. destruct Hd2 as (_ & _ & Hb & Hk & _). rewrite <- Hk.
  apply device_rate; rewrite ?Hk, ?Hb; done.
Qed.

Lemma set_baud_exact st c s e clk :
  uart_ok s -> Lpuart.clk s = clk -> BaudSearch.rate_ok clk e -> clk / (e * 4) <= 0x1FFF ->
  exists o d' w, set_baud_rate st (c, s) e clk = Ok (st <| BaudRate := BaudSearch.rate clk e (max_osr clk e) |>, d') /\
    retuned c s w d' /\ 4 <= o <= max_osr clk e /\
    Lpuart.nxps32k358_lpuart_calculate_baud_rate d'.2 = BaudSearch.rate clk e o /\
    forall o', 4 <= o' <= max_osr clk e -> Z.abs (BaudSearch.rate clk e o - e) <= Z.abs (BaudSearch.rate clk e o' - e).
Proof.
  intros Hs Hk Hr Hmax. pose proof Hr as (He & Hc & _). destruct (BaudSearch.search_best clk e Hr) as (b & Hb & [Ho Hsb Hdf Hl Hlast]).
  destruct (BaudSearch.max_osr_bounds clk e Hr) as [Hm Hmc].
  destruct (BaudSearch.divisor_bounds clk e (bs_Osr b) Hr) as [Hd _]; [lia|nia|].
  assert (BaudSearch.divisor clk e (bs_Osr b) <= clk / (e * 4)) by (apply Z.div_le_compat_l; nia).
  unfold set_baud_rate. rewrite assert_true by (apply Z.ltb_lt; lia). cbn [res_bind].
  rewrite (assert_true (_ <=? _)); [cbn [res_bind]|apply Z.leb_le; rewrite u_small; [lia|unfold is_u; lia]].
  rewrite Hb. cbn [res_bind]. exists (bs_Osr b).
  assert (exists d1 v, (if bs_Osr b <? 8 then Lpuart_Uart_Ip_EnableBothEdgeSamplingCmd (c, s) else Ok (c, s)) = Ok d1 /\
    retuned c s v d1 /\ is_u 32 v) as (d1 & v & -> & Hd1 & Hv).
  { destruct (_ <? 8).
    - destruct (retuned_modify c s _ _ (fun v => Z.lor v LPUART_BAUD_BOTHEDGE_MASK) (retuned_refl c s)) as (d' & Hd' & Hr').
      exists d', (u32 (Z.lor (baud_rate_config s) LPUART_BAUD_BOTHEDGE_MASK)). split_and!; [done|done|by apply u_range].
    - exists (c, s), (baud_rate_config s). split_and!; [done|apply retuned_refl|by apply baud_u32]. }
  cbn [res_bind].
  destruct (tune_exact c s v d1 (bs_Osr b - 1) (bs_Sbr b)) as (d2 & d3 & w & -> & H3 & Hr3 & Hrate);
    [done|done|lia|rewrite Hsb; lia|lia|]. cbn [res_bind]. rewrite H3. cbn [res_bind].
  exists d3, w. split; [by rewrite Hlast, Z.add_simpl_r|]. split; [done|]. split; [lia|]. split.
  - rewrite Hrate, Hk, Hsb. unfold BaudSearch.rate. do 2 f_equal. lia.
  - intros o' Ho'. rewrite <- Hdf. apply Hl. lia.
Qed.

(** ** Initialisation *)

(** The device after the defaults are written: no status flag is left. *)
Definition hw_init_state s : NXPS32K358LPUARTState :=
  cr_modify ((baud_set s 0x0F000004) <| lpuart_sr := Z.land (lpuart_sr s) LPUART_FEATURE_STAT_REG_FLAGS_MASK |>) (fun _ => 0).

Lemma hw_init_exact c s :
  Lpuart_Uart_Ip_Hw_Init (c, s) = Ok ((baud_write (c, s) 0x0F000004).1, hw_init_state s).
Proof. unfold Lpuart_Uart_Ip_Hw_Init. by rewrite doc_osr_shift, doc_sbr_shift. Qed.

(** Initialisation clears the flag for a complete transmission. *)
Lemma init_no_tc cfg d : sound false d -> yields (init_hardware cfg d) (calm (J := sound true) false).
Proof.
  intros Hd. unfold init_hardware. pose proof (hw_init_ok (J := sound false) d Hd) as Hi.
  destruct d as [c s]. rewrite hw_init_exact in Hi |- *. cbn [res_bind]. apply init_settings_ok.
  destruct Hi as (d' & [= <-] & (Hc & Hs & _) & Hr). split; [|exact Hr]. split_and!; [done|done|]. intros _.
  cbn [snd]. change (lpuart_sr (hw_init_state s)) with (Z.land (lpuart_sr s) LPUART_FEATURE_STAT_REG_FLAGS_MASK).
  rewrite Z.land_spec. apply andb_false_r.
Qed.

Lemma device_tc_silent : tc_silent (J := sound true).
Proof.
  intros d v d' (Hc & Hs & Hq) Hr. destruct (device_read true d STAT) as ([w d2] & He & _ & _ & _ & Hst & _); [done|].
  rewrite Hr in He. injection He as <- <-. destruct (Hst eq_refl) as [-> _]. by apply Hq.
Qed.
End system.
End UartSystem.
Import UartSystem.

Section theorems.
Context {C : Type} {HC : CharPort C} {HH : LpuartHeader} {HD : DocumentedLpuart}.

(** C28: [Lpuart_Uart_Ip_SyncSend] on the emulated LPUART hands the bytes to the
    character back end in order, one after the other.  The dummy counter counts
    looks at the clock, so a timeout of [T] lets at most [T - 1] bytes out, and
    the call reports success exactly when the number of bytes is below [T - 1]. *)
Theorem sync_send_transmits (g : udriver (C * NXPS32K358LPUARTState)) (k i : Z) (st : ustate) (cfg : config)
    (c : C) (s : NXPS32K358LPUARTState) (buf : list Z) (j n T : Z) :
  opened g k i st cfg (c, s) -> IsTxBusy st = false -> narrow cfg = true ->
  covers (Some (buf, j)) n -> 0 < n -> Forall (is_u 8) buf -> 0 <= T -> T + 1 < 2 ^ 32 ->
  exists g' st' s',
    Lpuart_Uart_Ip_SyncSend g k (Some (buf, j)) n T =
      Ok (if n + 1 <? T then LPUART_UART_IP_STATUS_SUCCESS else LPUART_UART_IP_STATUS_TIMEOUT, g') /\
    opened g' k i st' cfg (writes c (take (Z.to_nat (Z.min n (T - 1))) (drop (Z.to_nat j) buf)), s') /\
    IsTxBusy st' = false /\ TxSize st' = n - Z.max 0 (Z.min n (T - 1)) /\ baud_rate_config s' = baud_rate_config s.
Proof.
  intros Ho Hb Hn Hcov H0 Hbs HT HT2.
  destruct (send_call_exact g k i st cfg c s buf j n T Ho Hb Hn Hcov H0 Hbs HT HT2) as (g' & st' & Hs & Ho' & Hb' & _ & Hts).
  assert (sent_of n T 0 = Z.max 0 (Z.min n (T - 1))) as Hm by (unfold sent_of; lia). rewrite Hm in *.
  replace (Z.to_nat (Z.max 0 (Z.min n (T - 1)))) with (Z.to_nat (Z.min n (T - 1))) in Ho' by lia.
  exists g', st'. eexists. split; [exact Hs|]. split; [exact Ho'|]. split; [done|]. split; [done|].
  apply after_send_keeps.
Qed.

(** C29: [Lpuart_Uart_Ip_SetBaudRate] programs the ratio and the divisor whose rate,
    as the emulated device computes it, is nearest to the rate asked for among
    all oversampling ratios it may use.  [Lpuart_Uart_Ip_GetBaudRate] afterwards
    returns the rate of the last ratio tried, which is another one in general.  The
    channel is idle and the divisor fits its 13 bits for every ratio. *)
Theorem set_baud_rate_best (g : udriver (C * NXPS32K358LPUARTState)) (k i : Z) (st : ustate) (cfg : config)
    (c : C) (s : NXPS32K358LPUARTState) (e clk : Z) :
  opened g k i st cfg (c, s) -> IsTxBusy st = false -> IsRxBusy st = false -> uart_ok s -> Lpuart.clk s = clk ->
  BaudSearch.rate_ok clk e -> clk / (e * 4) <= 0x1FFF ->
  exists g' c' s' o, Lpuart_Uart_Ip_SetBaudRate g k e clk = Ok (LPUART_UART_IP_STATUS_SUCCESS, g') /\
    load (apBases g') k = Ok (c', s') /\ 4 <= o <= max_osr clk e /\
    Lpuart.nxps32k358_lpuart_calculate_baud_rate s' = BaudSearch.rate clk e o /\
    (forall o', 4 <= o' <= max_osr clk e -> Z.abs (BaudSearch.rate clk e o - e) <= Z.abs (BaudSearch.rate clk e o' - e)) /\
    Lpuart_Uart_Ip_GetBaudRate g' k = Ok (BaudSearch.rate clk e (max_osr clk e)).
Proof.
  intros Ho Ht Hx Hs Hk Hr Hmax. unfold Lpuart_Uart_Ip_SetBaudRate.
  rewrite (opened_assert _ _ _ _ _ _ Ho). cbn [res_bind].
  rewrite (op_base _ _ _ _ _ _ Ho), (opened_state _ _ _ _ _ _ _ Ho). cbn [res_bind]. rewrite Ht, Hx. cbn [orb].
  destruct (set_baud_exact st c s e clk Hs Hk Hr Hmax) as (o & [c' s'] & w & -> & _ & Hor & Hrate & Hbest). cbn [res_bind].
  match goal with |- context [put_uart g k i ?x ?y] =>
    destruct (put_opened g k i st cfg (c, s) x y Ho) as (g' & -> & Ho') end. cbn [res_bind].
  exists g', c', s', o. split; [done|]. split; [apply Ho'|]. split; [done|]. split; [done|]. split; [done|].
  unfold Lpuart_Uart_Ip_GetBaudRate. rewrite (opened_assert _ _ _ _ _ _ Ho'). cbn [res_bind].
  by rewrite (opened_state _ _ _ _ _ _ _ Ho').
Qed.

(** C30: on the emulated LPUART an interrupt-driven send never completes.  After
    initialisation the flag for a complete transmission is clear and nothing sets
    it, so whatever calls, interrupts and host input follow, short of an abort,
    the driver stays busy and refuses every further send. *)
Theorem async_send_stalls (g : udriver (C * NXPS32K358LPUARTState)) (k : Z) (cfg : config)
    (c : C) (s : NXPS32K358LPUARTState) (p : pointer) (n : Z) (cs : list (ucall (J := sound true))) :
  closed g k cfg (c, s) -> config_ok cfg -> Callback cfg = None -> port_ok c -> uart_ok s ->
  covers p n -> 0 < n -> Forall ucall_ok cs -> Forall (fun c => c <> UAbortSend) cs ->
  exists g1 g2 rs g3 st, Lpuart_Uart_Ip_Init g k cfg = Ok g1 /\
    Lpuart_Uart_Ip_AsyncSend g1 k p n = Ok (LPUART_UART_IP_STATUS_SUCCESS, g2) /\
    run_ucalls k g2 cs = Ok (rs, g3) /\
    load (apStateStructure g3) (StateStruct cfg) = Ok st /\ IsTxBusy st = true /\
    Forall2 (fun c r => is_send c = true -> r = Some LPUART_UART_IP_STATUS_BUSY) cs rs.
Proof.
  intros Hc Hcfg Hcb Hpc Hus Hp Hn Hcs Hab. assert (sound false (c, s)) as HJ by done.
  destruct (init_ok (J := sound false) g k cfg (c, s) Hc Hcfg HJ) as (d1 & Hi & _ & (g1 & Hg1 & Ho1)).
  destruct (init_no_tc cfg (c, s) HJ) as (d1' & Hi' & Hd1). rewrite Hi in Hi'. injection Hi' as <-.
  destruct (async_send_starts (J := sound true) g1 k (StateStruct cfg) (initial cfg) cfg d1 false p n)
    as ([r g2] & Hg2 & -> & Hr2); [done|done|apply initial_fine|done|done|done|].
  destruct (ucalls_outcome true k (StateStruct cfg) cfg cs g2 Hr2) as ([rs g3] & Hrun & Hg3 & Hrs);
    [by split; [apply device_tc_silent|]|done|done|].
  destruct Hg3 as (st & d3 & Ho3 & _ & Hb3). exists g1, g2, rs, g3, st. split_and!; try done; [apply Ho3|by apply Hb3|by apply Hrs].
Qed.
End theorems.

(** ** A back end that keeps what is written *)

Module Tape.
#[global] Instance tape : CharPort (list Z).
Proof.
  refine {| port_ok _ := True; Lpuart.qemu_chr_fe_accept_input c s := Ok (c, s);
            qemu_chr_fe_write_all c bs := c ++ bs; chr_ioctl_speed c _ := c |}.
  - intros c s _. exists c, s. split; [done|]. split; [done|constructor].
  - done.
  - done.
Defined.

(** LPUART 3 of the board, at 40 MHz, and the driver before and after initialisation. *)
Definition reset_uart : NXPS32K358LPUARTState :=
  Lpuart.nxps32k358_lpuart_reset (Lpuart.mkLpuart 40000000 false 0 0 0 0 0).
Definition board : list (list Z * NXPS32K358LPUARTState) := replicate 16 ([], reset_uart).
Definition unopened : udriver (list Z * NXPS32K358LPUARTState) :=
  mkUdriver (replicate 16 None) [cleared] (replicate 16 None) board.
Definition ready : udriver (list Z * NXPS32K358LPUARTState) :=
  mkUdriver (<[3%nat := Some 0]> (replicate 16 None)) [initial Lpuart_Uart_Ip_xHwConfigPB_3]
    (<[3%nat := Some Lpuart_Uart_Ip_xHwConfigPB_3]> (replicate 16 None)) board.

Lemma reset_uart_ok : uart_ok reset_uart.
Proof. apply Lpuart.reset_uart. Qed.
Lemma demo_callback_ok : callback_ok Lpuart_Uart_Ip_xHwConfigPB_3.
Proof. done. Qed.
Lemma unopened_closed : closed unopened 3 Lpuart_Uart_Ip_xHwConfigPB_3 ([], reset_uart).
Proof. split; [done|done|by eexists|by eexists|done]. Qed.
Lemma ready_opened :
  opened ready 3 0 (initial Lpuart_Uart_Ip_xHwConfigPB_3) Lpuart_Uart_Ip_xHwConfigPB_3 ([], reset_uart).
Proof. split; [done|done|done|done|done|apply demo_callback_ok]. Qed.
Lemma demo_config_ok : config_ok Lpuart_Uart_Ip_xHwConfigPB_3.
Proof. split; [done|done|done|apply demo_callback_ok]. Qed.
End Tape.

(** Five bytes with a timeout of four: three go out and the call times out. *)
Lemma sync_send_transmits_witness :
  exists g' st' s',
    Lpuart_Uart_Ip_SyncSend Tape.ready 3 (Some ([104; 101; 108; 108; 111], 0)) 5 4 =
      Ok (LPUART_UART_IP_STATUS_TIMEOUT, g') /\
    opened g' 3 0 st' Lpuart_Uart_Ip_xHwConfigPB_3 ([104; 101; 108], s') /\
    IsTxBusy st' = false /\ TxSize st' = 2 /\ baud_rate_config s' = baud_rate_config Tape.reset_uart.
Proof.
  destruct (sync_send_transmits Tape.ready 3 0 _ _ [] Tape.reset_uart [104; 101; 108; 108; 111] 0 5 4 Tape.ready_opened)
    as (g' & st' & s' & H1 & H2 & H3 & H4 & H5); [done|done|by vm_compute|done|repeat constructor; done|done|done|].
  exists g', st', s'. split; [exact H1|]. split; [exact H2|]. split; [exact H3|]. split; [exact H4|exact H5].
Defined.

(** 115200 baud from 40 MHz. *)
Lemma set_baud_rate_best_witness :
  exists g' c' s' o, Lpuart_Uart_Ip_SetBaudRate Tape.ready 3 115200 40000000 = Ok (LPUART_UART_IP_STATUS_SUCCESS, g') /\
    load (apBases g') 3 = Ok (c', s') /\ 4 <= o <= 32 /\
    Lpuart.nxps32k358_lpuart_calculate_baud_rate s' = BaudSearch.rate 40000000 115200 o /\
    (forall o', 4 <= o' <= 32 -> Z.abs (BaudSearch.rate 40000000 115200 o - 115200)
       <= Z.abs (BaudSearch.rate 40000000 115200 o' - 115200)) /\
    Lpuart_Uart_Ip_GetBaudRate g' 3 = Ok 125000.
Proof.
  apply (set_baud_rate_best Tape.ready 3 0 _ _ [] Tape.reset_uart 115200 40000000 Tape.ready_opened);
    [done|done|apply Tape.reset_uart_ok|done|by vm_compute|by vm_compute].
Defined.

Abbreviation tape_call := (ucall (D := list Z * NXPS32K358LPUARTState) (J := sound true)).
Definition busy_program : list tape_call :=
  [(UIrq : tape_call); (USyncSend (Some ([65], 0)) 1 100 : tape_call);
   (UHost (D := list Z * NXPS32K358LPUARTState) (J := sound true) 66); (UIrq : tape_call);
   (UAsyncSend (Some ([67], 0)) 1 : tape_call); (UDeinit : tape_call)].

Lemma async_send_stalls_witness :
  exists g1 g2 rs g3 st, Lpuart_Uart_Ip_Init Tape.unopened 3 Lpuart_Uart_Ip_xHwConfigPB_3 = Ok g1 /\
    Lpuart_Uart_Ip_AsyncSend g1 3 (Some ([72; 105], 0)) 2 = Ok (LPUART_UART_IP_STATUS_SUCCESS, g2) /\
    run_ucalls 3 g2 busy_program = Ok (rs, g3) /\
    load (apStateStructure g3) 0 = Ok st /\ IsTxBusy st = true /\
    Forall2 (fun c r => is_send c = true -> r = Some LPUART_UART_IP_STATUS_BUSY) busy_program rs.
Proof.
  apply (async_send_stalls Tape.unopened 3 Lpuart_Uart_Ip_xHwConfigPB_3 [] Tape.reset_uart (Some ([72; 105], 0)) 2 busy_program
    Tape.unopened_closed Tape.demo_config_ok); [done|done|apply Tape.reset_uart_ok|by vm_compute|done| |].
  - repeat constructor; by vm_compute.
  - repeat constructor; done.
Defined.
