(* ===== verification/UartDemo.v ===== *)
(** * What the demo prints

    The output functions of [Demo_FreeRTOS/src/main.c] on LPUART 3 as the demo
    configures it: [UART_send_byte], the loop of [print] between taking and giving
    the mutex, and [uint8_to_str]. *)

From S2P Require Import Prelude Words Chardev Lpuart UartDriver UartDriverProps UartSystem.
Import UartDriver UartSafe UartSystem.
Import Lpuart (NXPS32K358LPUARTState, CharPort, port_ok, uart_ok, lpuart_cr, lpuart_sr, lpuart_dr, lpuart_gb,
  baud_rate_config, qemu_chr_fe_write_all, chr_ioctl_speed).

Module UartDemo.

Definition UART_LPUART_INTERNAL_CHANNEL : Z := 3.

Section demo.
Context {D : Type} `{UartPort D} `{LpuartHeader}.

Definition UART_send_byte (g : udriver D) (byte : Z) : res (udriver D) :=
  let! '(_, g) := Lpuart_Uart_Ip_SyncSend g UART_LPUART_INTERNAL_CHANNEL (Some ([byte], 0)) 1 100 in Ok g.

(** The loop of [print], on the bytes of memory from [str] on. *)
Fixpoint print_loop (g : udriver D) (str : list Z) : res (udriver D) :=
  match str with
  | [] => Fault OutOfBounds
  | b :: str => if b =? 0 then Ok g else let! g := UART_send_byte g b in print_loop g str
  end.
End demo.

(** [sprintf(buffer, "%u", value)] for a byte: its decimal digits, and the zero. *)
Definition digit (n : Z) : Z := 48 + n.
Definition uint8_to_str (value : Z) : list Z :=
  (if 100 <=? value then [digit (value / 100)] else []) ++
  (if 10 <=? value then [digit (value / 10 mod 10)] else []) ++ [digit (value mod 10); 0].

(** Reading decimal digits up to the zero. *)
Fixpoint parse (acc : Z) (str : list Z) : option Z :=
  match str with
  | [] => None
  | b :: str => if b =? 0 then Some acc else if (48 <=? b) && (b <=? 57) then parse (acc * 10 + (b - 48)) str else None
  end.

Section print.
Context {C : Type} {HC : CharPort C} {HH : LpuartHeader} {HD : DocumentedLpuart}.
Abbreviation device := (C * NXPS32K358LPUARTState)%type.
Abbreviation cfg := Lpuart_Uart_Ip_xHwConfigPB_3.

(** The channel of the demo, idle. *)
Definition idle (g : udriver device) (c : C) (s : NXPS32K358LPUARTState) : Prop :=
  exists st, opened g 3 0 st cfg (c, s) /\ IsTxBusy st = false.

Lemma send_byte_exact g c s b :
  idle g c s -> is_u 8 b ->
  exists g', UART_send_byte g b = Ok g' /\ idle g' (qemu_chr_fe_write_all c [b]) (after_send s 1).
Proof.
  intros (st & Ho & Hb) Hu. unfold UART_send_byte, UART_LPUART_INTERNAL_CHANNEL.
  destruct (send_call_exact g 3 0 st cfg c s [b] 0 1 100) as (g' & st' & Hs & Ho' & Hb' & _);
    [done|done|done|by vm_compute|done|by constructor|done|done|].
  rewrite Hs. cbn [res_bind]. exists g'. split; [done|]. by exists st'.
Qed.

Lemma print_loop_exact str rest g c s :
  idle g c s -> Forall (fun b => 0 < b < 256) str ->
  exists g' s', print_loop g (str ++ 0 :: rest) = Ok g' /\ idle g' (writes c str) s' /\
    baud_rate_config s' = baud_rate_config s /\ Lpuart.clk s' = Lpuart.clk s.
Proof.
  intros Hi Hs. revert g c s Hi. induction Hs as [|b str Hb Hs IH]; intros g c s Hi; cbn [app print_loop].
  { by exists g, s. }
  destruct (Z.eqb_spec b 0); [lia|].
  destruct (send_byte_exact g c s b Hi) as (g1 & -> & Hi1); [unfold is_u; lia|]. cbn [res_bind].
  destruct (IH _ _ _ Hi1) as (g2 & s2 & -> & Hi2 & Hb2 & Hc2). exists g2, s2. split; [done|]. split; [done|].
  destruct (after_send_keeps s 1) as [Hb1 Hc1]. by rewrite Hb2, Hc2.
Qed.

(** One of the writes of initialisation. *)
Ltac retune H :=
  lazymatch type of H with retuned ?c ?s ?v ?d =>
    lazymatch goal with
    | |- context [ureg_modify d BAUD ?f] =>
        let d' := fresh "d" in let E := fresh in let H' := fresh in
        destruct (retuned_modify c s v d f H) as (d' & E & H'); rewrite E; clear E H; rename H' into H; cbn [res_bind]
    | |- context [ureg_modify d CTRL ?f] =>
        let d' := fresh "d" in let E := fresh in let H' := fresh in
        destruct (retuned_ctrl c s v d f H) as (d' & E & H'); rewrite E; clear E H; rename H' into H; cbn [res_bind]
    end
  end.

(** The registers that initialisation leaves. *)
Lemma demo_init_exact c s :
  exists c' s' speeds, init_hardware cfg (c, s) = Ok (c', s') /\ c' = foldl chr_ioctl_speed c speeds /\
    baud_rate_config s' = 0x1600000F /\ Lpuart.clk s' = Lpuart.clk s.
Proof.
  unfold init_hardware. rewrite hw_init_exact. cbn [res_bind]. unfold init_settings.
  set (d0 := (_, hw_init_state s)).
  assert (retuned c (hw_init_state s) 0x0F000004 d0) as H0.
  { exists [Lpuart.nxps32k358_lpuart_calculate_baud_rate (baud_set s 0x0F000004)]. by split_and!. }
  clearbody d0. change (BaudOverSamplingRatio cfg <? 8) with false. cbn [res_bind].
  unfold Lpuart_Uart_Ip_SetOversamplingRatio, Lpuart_Uart_Ip_SetBaudRateDivisor, Lpuart_Uart_Ip_SetBitCountPerChar,
    Lpuart_Uart_Ip_SetParityMode, Lpuart_Uart_Ip_SetStopBitCount.
  retune H0. retune H0.
  change (bit_count_value (BitCountPerChar cfg) + _ =? _) with false.
  change (bool_decide (BitCountPerChar cfg = _)) with false. cbv iota. do 5 retune H0.
  destruct d6 as [c' s'], H0 as (sp & Hc & Hb & Hk & _). cbn [fst snd] in *. exists c', s', sp. split; [done|]. split; [done|].
  split; [|done]. rewrite Hb. destruct doc_m10 as [-> _], doc_sbns as [-> ->].
  by rewrite doc_osr_mask, doc_osr, doc_sbr_mask.
Qed.
(** Initialisation as the demo does it. *)
Lemma uart_open g c s :
  closed g UART_LPUART_INTERNAL_CHANNEL cfg (c, s) -> port_ok c -> uart_ok s ->
  exists g1 speeds s1, Lpuart_Uart_Ip_Init g UART_LPUART_INTERNAL_CHANNEL cfg = Ok g1 /\ idle g1 (foldl chr_ioctl_speed c speeds) s1 /\
    baud_rate_config s1 = 0x1600000F /\ Lpuart.clk s1 = Lpuart.clk s.
Proof.
  intros Hc Hpc Hus. destruct (init_ok (J := sound false) g 3 cfg (c, s) Hc Tape.demo_config_ok) as (d1 & Hi & _ & (g1 & Hg1 & Ho)); [done|].
  destruct (demo_init_exact c s) as (c1 & s1 & sp & Hi' & -> & Hb1 & Hk1). rewrite Hi in Hi'. injection Hi' as ->.
  exists g1, sp, s1. split; [done|]. split; [by exists (initial cfg)|done].
Qed.
End print.

(** Decimal digits of every byte, checked one by one. *)
Definition text_ok (v : Z) : bool :=
  (length (uint8_to_str v) <=? 4)%nat && bool_decide (parse 0 (uint8_to_str v) = Some v) &&
  forallb (fun b => (0 <? b) && (b <? 256)) (removelast (uint8_to_str v)) &&
  bool_decide (uint8_to_str v = removelast (uint8_to_str v) ++ [0]).
Lemma speed_text v :
  is_u 8 v -> uint8_to_str v = removelast (uint8_to_str v) ++ [0] /\ (length (uint8_to_str v) <= 4)%nat /\
    Forall (fun b => 0 < b < 256) (removelast (uint8_to_str v)) /\ parse 0 (uint8_to_str v) = Some v.
Proof.
  intros Hv. assert (text_ok v = true) as Ht.
  { assert (forallb text_ok (seqZ 0 256) = true) as Hall by (by vm_compute). rewrite forallb_forall in Hall.
    apply Hall, list_elem_of_In, elem_of_seqZ. unfold is_u in Hv. lia. }
  apply andb_true_iff in Ht as [[[Hl Hp]%andb_true_iff Hb]%andb_true_iff Hz].
  apply Nat.leb_le in Hl. apply bool_decide_eq_true in Hp, Hz. rewrite forallb_forall in Hb.
  split; [done|]. split; [done|]. split; [|done]. apply List.Forall_forall. intros b Hin. specialize (Hb b Hin).
  apply andb_true_iff in Hb as [H1 H2]. lia.
Qed.
End UartDemo.
Import UartDemo.

(** After [Lpuart_Uart_Ip_Init] with the configuration of the demo the
    emulated LPUART 3, clocked at 40 MHz, runs at the 115942 baud that the
    configuration names, and [print] hands exactly the characters of the string,
    up to its terminating zero, to the character back end, at the same rate. *)
Theorem demo_prints {C : Type} {HC : CharPort C} {HH : LpuartHeader} {HD : DocumentedLpuart}
    (g : udriver (C * NXPS32K358LPUARTState)) (c : C) (s : NXPS32K358LPUARTState) (str rest : list Z) :
  closed g UART_LPUART_INTERNAL_CHANNEL Lpuart_Uart_Ip_xHwConfigPB_3 (c, s) -> port_ok c -> uart_ok s ->
  Lpuart.clk s = 40000000 -> Forall (fun b => 0 < b < 256) str ->
  exists g1 speeds s1 g2 s2,
    Lpuart_Uart_Ip_Init g UART_LPUART_INTERNAL_CHANNEL Lpuart_Uart_Ip_xHwConfigPB_3 = Ok g1 /\
    load (apBases g1) UART_LPUART_INTERNAL_CHANNEL = Ok (foldl chr_ioctl_speed c speeds, s1) /\
    Lpuart.nxps32k358_lpuart_calculate_baud_rate s1 = cfg_BaudRate Lpuart_Uart_Ip_xHwConfigPB_3 /\
    print_loop g1 (str ++ 0 :: rest) = Ok g2 /\
    load (apBases g2) UART_LPUART_INTERNAL_CHANNEL = Ok (writes (foldl chr_ioctl_speed c speeds) str, s2) /\
    Lpuart.nxps32k358_lpuart_calculate_baud_rate s2 = cfg_BaudRate Lpuart_Uart_Ip_xHwConfigPB_3.
Proof.
  intros Hc Hpc Hus Hk Hs. destruct (uart_open g c s Hc Hpc Hus) as (g1 & sp & s1 & Hg1 & Hid & Hb1 & Hk1).
  destruct (print_loop_exact str rest g1 (foldl chr_ioctl_speed c sp) s1) as (g2 & s2 & Hp & (st2 & Ho2 & _) & Hb2 & Hk2); [done|done|].
  destruct Hid as (st1 & Ho & _).
  assert (forall s', baud_rate_config s' = 0x1600000F -> Lpuart.clk s' = 40000000 ->
    Lpuart.nxps32k358_lpuart_calculate_baud_rate s' = cfg_BaudRate Lpuart_Uart_Ip_xHwConfigPB_3) as Hrate.
  { intros s' Hb Hc'. rewrite (device_rate s' 22 15); rewrite ?Hc', ?Hb; done. }
  exists g1, sp, s1, g2, s2. split_and!; [done|apply Ho|apply Hrate; congruence|done|apply Ho2|apply Hrate; congruence].
Qed.

Lemma demo_prints_witness :
  exists g1 speeds s1 g2 s2,
    Lpuart_Uart_Ip_Init Tape.unopened 3 Lpuart_Uart_Ip_xHwConfigPB_3 = Ok g1 /\
    load (apBases g1) 3 = Ok (foldl chr_ioctl_speed [] speeds, s1) /\
    Lpuart.nxps32k358_lpuart_calculate_baud_rate s1 = 115942 /\
    print_loop g1 ([82; 80; 77; 13; 10] ++ 0 :: [1; 2]) = Ok g2 /\
    load (apBases g2) 3 = Ok (writes (foldl chr_ioctl_speed [] speeds) [82; 80; 77; 13; 10], s2) /\
    Lpuart.nxps32k358_lpuart_calculate_baud_rate s2 = 115942.
Proof.
  apply (demo_prints Tape.unopened [] Tape.reset_uart [82; 80; 77; 13; 10] [1; 2] Tape.unopened_closed);
    [done|apply Tape.reset_uart_ok|done|repeat constructor; done].
Defined.

(** The text of a speed is at most four characters with its zero, which is the
    size of the buffer in [ReadSpeedTask]; none of the others is zero, and read as
    a decimal number it is the speed. *)
Theorem speed_text_fits (v : Z) :
  is_u 8 v ->
  exists str, uint8_to_str v = str ++ [0] /\ (length (uint8_to_str v) <= 4)%nat /\
    Forall (fun b => 0 < b < 256) str /\ parse 0 (uint8_to_str v) = Some v.
Proof. intros (H1 & H2 & H3 & H4)%speed_text. by exists (removelast (uint8_to_str v)). Qed.

Lemma speed_text_fits_witness :
  exists str, uint8_to_str 254 = str ++ [0] /\ (length (uint8_to_str 254) <= 4)%nat /\
    Forall (fun b => 0 < b < 256) str /\ parse 0 (uint8_to_str 254) = Some 254.
Proof. apply (speed_text_fits 254). by vm_compute. Defined.
