(* ===== verification/DemoTasks.v ===== *)
(** * The tasks of the demo

    [Demo_FreeRTOS/src/main.c]: the three tasks as programs, and the machine that runs
    them.  A task runs until an interrupt switches it off the processor; everything
    else - the timer task with its callback, the idle task, the interrupts - is the
    outside, which does what it likes except with the mutex and the two semaphores of
    the tasks A and B. *)

From S2P Require Import Prelude RtosList RtosHeap RtosSeq RtosSched RtosSchedInv RtosTick RtosSchedProps RtosRun RtosSteady RtosTyped RtosBoot.
From S2P Require Import RtosQueue RtosQueueData RtosQueueSys RtosQueueRun RtosLock RtosMachine RtosWait UartDemo.
From stdpp Require Import list strings.
#[local] Set Warnings "-clear-no-such-hyp".
#[local] Open Scope Z_scope.

Module DemoTasks.
Export RtosWait.

(** ** Programs

    What a task still has to do.  Each constructor is a call, with the rest of the
    program as a function of its result; the results of [xSemaphoreTake] and
    [xSemaphoreGive] are not looked at.  [Again] ends the body of the endless loop,
    with the local variables; [Unterminated] is the read past the end of a string. *)
Inductive prog :=
  | Again (last_wake received_value : Z)
  | GetTickCount (k : Z -> prog)
  | SleepUntil (last_wake period : Z) (k : Z -> prog)
  | Take (q : Z) (k : prog)
  | Give (q : Z) (k : prog)
  | SendByte (byte : Z) (k : prog)
  | ReadValue (cmd received_value : Z) (k : Z -> prog)
  | LoadSpeed (k : Z -> prog)
  | StoreSpeed (v : Z) (k : prog)
  | Unterminated.
Declare Scope demo_scope.
Notation "'let>' x := c 'in' k" := (c (fun x => k)) (at level 10, x name, k at level 200, only parsing) : demo_scope.
Notation "'do>' c 'in' k" := (c k) (at level 10, k at level 200, only parsing) : demo_scope.
#[local] Open Scope demo_scope.

(** The bytes of a string literal, without and with its zero. *)
Fixpoint bytes (s : string) : list Z :=
  match s with EmptyString => [] | String c s => Z.of_nat (Ascii.nat_of_ascii c) :: bytes s end.
Definition literal (s : string) (ends : list Z) : list Z := (bytes s ++ ends) ++ [0].
Definition crlf : list Z := [13; 10].

Definition CMD_GET_SPEED : Z := 0xAA.
Definition HIGH_SPEED_THRESHOLD : Z := 200.
Definition configTICK_RATE_HZ : Z := 1000.
Definition portTICK_PERIOD_MS : Z := 1000 / configTICK_RATE_HZ.

(** The handles in the global variables. *)
Record handles := mkHandles { xMutex : Z; xSemaphore : Z; ySemaphore : Z; zSemaphore : Z }.

Section code.
Context (h : handles).

Fixpoint send_string (str : list Z) (k : prog) : prog :=
  match str with
  | [] => Unterminated
  | b :: str => if b =? 0 then k else do> SendByte b in send_string str k
  end.
Definition print (str : list Z) (k : prog) : prog :=
  do> Take (xMutex h) in
  do> send_string str in
  do> Give (xMutex h) in k.

Definition ReadSpeedTask_body (last_wake received_value : Z) : prog :=
  let> last_wake := SleepUntil last_wake (1000 / portTICK_PERIOD_MS) in
  do> Take (xSemaphore h) in
  do> print (literal "=== Task A: Reading Speed ===" crlf) in
  let> received_value := ReadValue CMD_GET_SPEED received_value in
  do> StoreSpeed received_value in
  do> print (literal "Motor Speed: " []) in
  let> g_last_speed := LoadSpeed in
  do> print (UartDemo.uint8_to_str g_last_speed) in
  do> print (literal " RPM" (crlf ++ crlf)) in
  do> Give (ySemaphore h) in
  Again last_wake received_value.
Definition ReadSpeedTask (received_value : Z) : prog :=
  let> last_wake := GetTickCount in Again last_wake received_value.

Definition CheckSpeedTask_body (last_wake : Z) : prog :=
  let> last_wake := SleepUntil last_wake (1000 / portTICK_PERIOD_MS) in
  do> Take (ySemaphore h) in
  do> print (literal "=== Task B: Checking Speed ===" crlf) in
  let> g_last_speed := LoadSpeed in
  do> print (if HIGH_SPEED_THRESHOLD <? g_last_speed then literal "Status: ATTENZIONE, alta velocita'!" (crlf ++ crlf)
             else literal "Status: Velocita' normale." (crlf ++ crlf)) in
  do> Give (xSemaphore h) in
  Again last_wake 0.
Definition CheckSpeedTask : prog := let> last_wake := GetTickCount in Again last_wake 0.

Definition TaskCodeC_body : prog :=
  do> Take (zSemaphore h) in
  do> print (literal "=== Task C woke via Timer ===" crlf) in
  Again 0 0.
Definition TaskCodeC : prog := Again 0 0.

(** The timer task calls it. *)
Definition vTimerCallback : qevent := QStart semaphore_give (zSemaphore h) 0.
End code.

(** ** The machine *)

(** The devices that the tasks use: a byte sent and a value read, and the bytes that
    a board in a state has printed, with the values that it has returned. *)
Class Board (HW : Type) := {
  send_byte : HW -> Z -> res HW;
  read_value : HW -> Z -> Z -> res (HW * Z);
  printed : HW -> list Z -> list Z -> Prop;
  send_byte_ok w bs vs b : printed w bs vs -> is_u 8 b -> exists w', send_byte w b = Ok w' /\ printed w' (bs ++ [b]) vs;
  read_value_ok w bs vs old : printed w bs vs ->
    exists w' v, read_value w CMD_GET_SPEED old = Ok (w', v) /\ is_u 8 v /\ printed w' bs (vs ++ [v]);
}.

(** The tasks. *)
Record crew := mkCrew { taskA : Z; taskB : Z; taskC : Z }.
Definition member (w : crew) (t : Z) : Prop := t = taskA w \/ t = taskB w \/ t = taskC w.

Section machine.
Context {HW : Type} {HB : Board HW} (h : handles) (w : crew).

Definition body (t last_wake received_value : Z) : prog :=
  if t =? taskA w then ReadSpeedTask_body h last_wake received_value
  else if t =? taskB w then CheckSpeedTask_body h last_wake
  else TaskCodeC_body h.

(** The state: the kernel with its queues and calls, what each task has still to do,
    the devices and the global variable; [speeds] records the values read so far. *)
Record demo := mkDemo { os : machine; code : gmap Z prog; board : HW; g_last_speed : Z; speeds : list Z }.
#[global] Instance eta_demo : Eta demo := fun d => mkDemo (os d) (code d) (board d) (g_last_speed d) (speeds d).
Definition set_os (d : demo) (m : machine) : demo := d <| os := m |>.
Definition goto (d : demo) (t : Z) (p : prog) : demo := d <| code := <[t := p]> (code d) |>.

(** The step of the task [t] that runs.  [ints] and the other two are the interrupts
    that come inside its calls. *)
Definition returned (p : prog) : prog := match p with Take _ k | Give _ k => k | _ => p end.
Definition run_task (d : demo) (t : Z) (ints : nat -> list qint) (before after : list interrupt) : res demo :=
  match code d !! t with
  | None => Ok d
  | Some p =>
      match in_call (os d) !! t with
      | Some _ =>
          let! m := run_qevent (os d) (QStep ints) in
          let d := set_os d m in
          Ok (match in_call m !! t with Some _ => d | None => goto d t (returned p) end)
      | None =>
          match p with
          | Again last_wake received_value => Ok (goto d t (body t last_wake received_value))
          | GetTickCount k => Ok (goto d t (k (xTickCount (kern (msys (os d))))))
          | SleepUntil last_wake period k =>
              let! m := run_qevent (os d) (QKernel (DelayUntil last_wake period before after)) in
              Ok (goto (set_os d m) t (k (u32 (last_wake + period))))
          | Take q _ => let! m := run_qevent (os d) (QStart xQueueSemaphoreTake q portMAX_DELAY) in Ok (set_os d m)
          | Give q _ => let! m := run_qevent (os d) (QStart semaphore_give q 0) in Ok (set_os d m)
          | SendByte b k => let! x := send_byte (board d) b in Ok (goto (d <| board := x |>) t k)
          | ReadValue cmd old k =>
              let! '(x, v) := read_value (board d) cmd old in
              Ok (goto (d <| board := x |> <| speeds := speeds d ++ [v] |>) t (k v))
          | LoadSpeed k => Ok (goto d t (k (g_last_speed d)))
          | StoreSpeed v k => Ok (goto (d <| g_last_speed := v |>) t k)
          | Unterminated => Fault OutOfBounds
          end
      end
  end.

(** An interrupt or a step of another task, or a step of the task that runs. *)
Inductive devent :=
  | Outside (e : qevent)
  | Inside (ints : nat -> list qint) (before after : list interrupt).
Definition run_devent (d : demo) (e : devent) : res demo :=
  match e with
  | Outside e => let! m := run_qevent (os d) e in Ok (set_os d m)
  | Inside ints before after => let! t := current (kern (msys (os d))) in run_task d t ints before after
  end.

(** What the outside leaves alone. *)
Definition reserved (q : Z) : Prop := q = xMutex h \/ q = xSemaphore h \/ q = ySemaphore h.
Definition avoids (ints : list qint) : Prop := forall q, reserved q -> misses q ints.
Definition denabled (idle : Z) (d : demo) (e : devent) : Prop :=
  let m := os d in
  match e with
  | Outside (QInterrupt i) => qenabled idle m (QInterrupt i) /\ avoids [i]
  | Outside e =>
      qenabled idle m e /\ (forall t, pxCurrentTCB (kern (msys m)) = Some t -> ~ member w t) /\
      match e with
      | QKernel c => spares (pt := member w) c
      | QStart _ q _ => ~ reserved q
      | QStep ints => forall n, avoids (ints n)
      | QInterrupt _ => True
      end
  | Inside ints _ _ =>
      xPendSV (kern (msys m)) = false /\ (exists t, pxCurrentTCB (kern (msys m)) = Some t /\ member w t) /\
      ints_ok (msys m) ints /\ forall n, avoids (ints n)
  end.
End machine.
Arguments demo : clear implicits.
End DemoTasks.
