(* ===== verification/DemoProps.v ===== *)
(** * What the tasks of the demo print

    The tasks take turns: the two semaphores of A and B pass the turn between them.
    The task whose turn it is knows the value read last, and only the task that has
    the mutex prints.  This is a condition on programs, [wp], which the three tasks
    satisfy, and an invariant of the machine that every step keeps. *)

From S2P Require Import Prelude Words RtosList RtosHeap RtosSeq RtosSched RtosSchedInv RtosTick RtosSchedProps RtosRun RtosSteady RtosTyped RtosBoot.
From S2P Require Import RtosQueue RtosQueueData RtosQueueSys RtosQueueRun RtosLock RtosMachine RtosWait UartDemo DemoTasks.
From stdpp Require Import list strings.
#[local] Set Warnings "-clear-no-such-hyp".
#[local] Open Scope Z_scope.

Module DemoProps.
Export DemoTasks.

(** ** Messages *)

Definition msg_reading : list Z := bytes "=== Task A: Reading Speed ===" ++ crlf.
Definition msg_speed : list Z := bytes "Motor Speed: " ++ [].
Definition msg_digits (v : Z) : list Z := removelast (UartDemo.uint8_to_str v).
Definition msg_rpm : list Z := bytes " RPM" ++ crlf ++ crlf.
Definition msg_checking : list Z := bytes "=== Task B: Checking Speed ===" ++ crlf.
Definition msg_status (v : Z) : list Z :=
  if HIGH_SPEED_THRESHOLD <? v then bytes "Status: ATTENZIONE, alta velocita'!" ++ crlf ++ crlf
  else bytes "Status: Velocita' normale." ++ crlf ++ crlf.
Definition msg_timer : list Z := bytes "=== Task C woke via Timer ===" ++ crlf.

Section messages.
Context (w : crew).
(** What A and B print in a round in which the speed is [v]. *)
Definition round (v : Z) : list (Z * list Z) :=
  [(taskA w, msg_reading); (taskA w, msg_speed); (taskA w, msg_digits v); (taskA w, msg_rpm);
   (taskB w, msg_checking); (taskB w, msg_status v)].

(** Where the round is: the messages printed, the speed when it has been read, and
    whether it is in the global variable. *)
Record turn_state := mkTurn { said : nat; value : option Z; stored : bool }.
(** The message that comes next. *)
Definition next (r : turn_state) : option (Z * list Z) :=
  match said r, value r with
  | O, None => Some (taskA w, msg_reading)
  | S n, Some v => round v !! S n
  | _, _ => None
  end.

(** What is known of a task: the message it prints, sent and not yet sent, and the
    round if it has the turn. *)
Record local := mkLocal { writing : option (list Z * list Z); turn : option turn_state }.
#[global] Instance eta_local : Eta local := fun l => mkLocal (writing l) (turn l).
#[global] Instance eta_turn : Eta turn_state := fun r => mkTurn (said r) (value r) (stored r).
Definition may_print (t : Z) (l : local) (s : list Z) : Prop :=
  if t =? taskC w then s = msg_timer else exists r, turn l = Some r /\ next r = Some (t, s).
(** A message has been printed. *)
Definition told (l : local) : local :=
  mkLocal None ((fun r => r <| said := S (said r) |>) <$> turn l).

(** ** Programs that keep to the rules *)

Context (h : handles).
Definition fresh : turn_state := mkTurn 0 None false.
Definition handed (v : Z) : turn_state := mkTurn 4 (Some v) true.

Fixpoint wp (t : Z) (p : prog) (l : local) : Prop :=
  match p with
  | Again last _ => l = mkLocal None None /\ is_u 32 last
  | GetTickCount k => forall n, is_u 32 n -> wp t (k n) l
  | SleepUntil last period k => 0 < period /\ wp t (k (u32 (last + period))) l
  | Take q k =>
      writing l = None /\
      (q = xMutex h /\ (exists s, may_print t l s /\ wp t k (l <| writing := Some ([], s) |>)) \/
       q = zSemaphore h /\ wp t k l \/
       turn l = None /\ t = taskA w /\ q = xSemaphore h /\ wp t k (l <| turn := Some fresh |>) \/
       turn l = None /\ t = taskB w /\ q = ySemaphore h /\ forall v, is_u 8 v -> wp t k (l <| turn := Some (handed v) |>))
  | Give q k =>
      q = xMutex h /\ (exists s, writing l = Some (s, []) /\ wp t k (told l)) \/
      writing l = None /\ t = taskA w /\ q = ySemaphore h /\ (exists v, turn l = Some (handed v)) /\ wp t k (l <| turn := None |>) \/
      writing l = None /\ t = taskB w /\ q = xSemaphore h /\ (exists v, turn l = Some (mkTurn 6 (Some v) true)) /\ wp t k (l <| turn := None |>)
  | SendByte b k => exists s rest, writing l = Some (s, b :: rest) /\ is_u 8 b /\ wp t k (l <| writing := Some (s ++ [b], rest) |>)
  | ReadValue cmd _ k => writing l = None /\ cmd = CMD_GET_SPEED /\ turn l = Some (mkTurn 1 None false) /\
      forall v, is_u 8 v -> wp t (k v) (l <| turn := Some (mkTurn 1 (Some v) false) |>)
  | LoadSpeed k => exists n v, turn l = Some (mkTurn n (Some v) true) /\ wp t (k v) l
  | StoreSpeed v k => writing l = None /\ exists n b, turn l = Some (mkTurn n (Some v) b) /\ wp t k (l <| turn := Some (mkTurn n (Some v) true) |>)
  | Unterminated => False
  end.

Lemma wp_send t s pre k l :
  Forall (fun b => 0 < b < 256) s -> writing l = Some (pre, s) -> wp t k (told l) -> wp t (send_string (s ++ [0]) (Give (xMutex h) k)) l.
Proof.
  intros Hs. revert pre l. induction Hs as [|b s Hb Hs IH]; intros pre l Hw Hk; cbn [app send_string].
  - cbn. left. split; [done|]. by exists pre.
  - destruct (Z.eqb_spec b 0); [lia|]. cbn [wp]. exists pre, s. split; [done|]. split; [unfold is_u; lia|]. by apply (IH (pre ++ [b])).
Qed.
Lemma wp_print t s k l :
  Forall (fun b => 0 < b < 256) s -> writing l = None -> may_print t l s -> wp t k (told l) -> wp t (print h (s ++ [0]) k) l.
Proof.
  intros Hs Hw Hm Hk. unfold print. cbn [wp]. split; [done|]. left. split; [done|]. exists s. split; [done|]. by apply (wp_send t s []).
Qed.

(** The messages have no zero inside. *)
Definition plain (s : list Z) : Prop := Forall (fun b => 0 < b < 256) s.
Lemma plain_ok s : forallb (fun b => (0 <? b) && (b <? 256)) s = true -> plain s.
Proof. intros H. apply List.Forall_forall. intros b Hb. rewrite forallb_forall in H. apply H in Hb. apply andb_true_iff in Hb as [? ?]. lia. Qed.
Lemma plain_digits v : is_u 8 v -> plain (msg_digits v).
Proof. intros (_ & _ & H & _)%UartDemo.speed_text. exact H. Qed.

Context (Hne : taskA w <> taskC w) (Hne' : taskB w <> taskC w).
Lemma may_print_turn t r s : t <> taskC w -> next r = Some (t, s) -> may_print t (mkLocal None (Some r)) s.
Proof. intros Ht Hn. unfold may_print. rewrite (proj2 (Z.eqb_neq _ _) Ht). by exists r. Qed.

Lemma wp_A last old : is_u 32 last -> wp (taskA w) (ReadSpeedTask_body h last old) (mkLocal None None).
Proof.
  intros Hl. unfold ReadSpeedTask_body, literal. cbn [wp]. split; [done|]. split; [done|]. right. right. left. split_and!; [done..|]. rsimpl.
  apply wp_print; [by apply plain_ok|done|by apply may_print_turn|]. unfold told. cbn [wp fmap option_fmap option_map turn]. rsimpl.
  split; [done|]. split; [done|]. split; [done|]. intros v Hv. split; [done|]. exists 1%nat, false. split; [done|].
  apply wp_print; [by apply plain_ok|done|by apply may_print_turn|]. unfold told. cbn [fmap option_fmap option_map turn]. rsimpl. cbn [wp].
  exists 2%nat, v. split; [done|]. destruct (UartDemo.speed_text v Hv) as (E & _ & Hp & _). rewrite E.
  apply wp_print; [done|done|by apply may_print_turn|]. unfold told. cbn [fmap option_fmap option_map turn]. rsimpl.
  apply wp_print; [by apply plain_ok|done|by apply may_print_turn|]. unfold told. cbn [fmap option_fmap option_map turn]. rsimpl. cbn [wp].
  right. left. split_and!; [done..|by exists v|done|]. apply u_range. lia.
Qed.
Lemma wp_B last : is_u 32 last -> wp (taskB w) (CheckSpeedTask_body h last) (mkLocal None None).
Proof.
  intros Hl. unfold CheckSpeedTask_body, literal. cbn [wp]. split; [done|]. split; [done|]. right. right. right. split_and!; [done..|]. intros v Hv. rsimpl.
  apply wp_print; [by apply plain_ok|done|by apply may_print_turn|]. unfold told. cbn [fmap option_fmap option_map turn]. rsimpl. cbn [wp].
  exists 5%nat, v. split; [done|].
  match goal with |- wp _ (print _ ?x _) _ => replace x with (msg_status v ++ [0]) by (unfold msg_status; by destruct (_ <? _)) end.
  apply wp_print; [|done|by apply may_print_turn|].
  { unfold msg_status. destruct (_ <? _); by apply plain_ok. }
  unfold told. cbn [fmap option_fmap option_map turn]. rsimpl. cbn [wp].
  right. right. split_and!; [done..|by exists v|done|]. apply u_range. lia.
Qed.
Lemma wp_C : wp (taskC w) (TaskCodeC_body h) (mkLocal None None).
Proof.
  unfold TaskCodeC_body, literal. cbn [wp]. split; [done|]. right. left. split; [done|].
  apply wp_print; [by apply plain_ok|done| |by cbn]. unfold may_print. by rewrite Z.eqb_refl.
Qed.
End messages.
End DemoProps.
