(* ===== verification/DemoInv.v ===== *)
(** * The invariant of the demo

    Every step of the tasks, and every step of the outside, returns and keeps the
    invariant: the turn is in one place, the holder of the mutex is the task that
    prints, and what was printed is what the rounds so far prescribe. *)

From S2P Require Import Prelude Words RtosList RtosHeap RtosSeq RtosSched RtosSchedInv RtosTick RtosSchedProps RtosRun RtosSteady RtosTyped RtosBoot.
From S2P Require Import RtosQueue RtosQueueData RtosQueueSys RtosQueueRun RtosLock RtosMachine RtosWait DemoTasks DemoProps.
From stdpp Require Import list strings.
#[local] Set Warnings "-clear-no-such-hyp".
#[local] Open Scope Z_scope.

Module DemoInv.
Export DemoProps.

(** Where the turn is: in a semaphore, or with a task. *)
Inductive place := AtX | AtA | AtY | AtB.
#[global] Instance place_dec : EqDecision place.
Proof. solve_decision. Defined.

Section script.
Context (w : crew).
(** The messages so far: those of A and B are the finished rounds, of the speeds
    [vs], and the start of the round [r]; those of C are all the same. *)
Record script_ok (msgs : list (Z * list Z)) (vs : list Z) (r : turn_state) (sp : list Z) (g : Z) : Prop := {
  sc_round : match value r with
             | None => (said r <= 1)%nat /\ stored r = false
             | Some v => is_u 8 v /\ (1 <= said r <= 6)%nat /\ (stored r = true -> g = v)
             end;
  sc_speeds : sp = vs ++ option_list (value r);
  sc_rounds : filter (fun m => m.1 <> taskC w) msgs = (vs ≫= round w) ++ take (said r) (round w (default 0 (value r)));
  sc_timer : Forall (fun m => m.1 = taskC w -> m.2 = msg_timer) msgs;
}.

Lemma next_said r t s : next w r = Some (t, s) ->
  (value r = None -> said r = 0%nat) /\ (said r < 6)%nat /\
  take (S (said r)) (round w (default 0 (value r))) = take (said r) (round w (default 0 (value r))) ++ [(t, s)].
Proof.
  destruct r as [n [v|] b]; cbn [next value said].
  - destruct n as [|n]; [done|]. intros E. assert (S n < length (round w v))%nat as Hl by (by apply lookup_lt_Some in E). split_and!; [done|exact Hl|].
    cbn [default]. by apply take_S_r.
  - destruct n; [|done]. intros [= <- <-]. split_and!; [done|lia|done].
Qed.
Lemma script_next msgs vs r sp g t s :
  script_ok msgs vs r sp g -> next w r = Some (t, s) -> t <> taskC w -> script_ok (msgs ++ [(t, s)]) vs (r <| said := S (said r) |>) sp g.
Proof.
  intros [Hr Hs Hm Ht] Hn Hne. destruct (next_said r t s Hn) as (H0 & Hlt & Htk). split; rsimpl.
  - destruct (value r); [destruct Hr as (? & ? & ?); split_and!; auto; lia|]. destruct Hr as [_ ?]. split; [|done]. rewrite H0 by done. lia.
  - done.
  - rewrite filter_app, Hm, filter_cons_True, filter_nil by done. by rewrite Htk, app_assoc.
  - apply Forall_app. split; [done|]. constructor; [|constructor]. done.
Qed.
Lemma script_timer msgs vs r sp g : script_ok msgs vs r sp g -> script_ok (msgs ++ [(taskC w, msg_timer)]) vs r sp g.
Proof.
  intros [Hr Hs Hm Ht]. split; [done|done| |].
  - rewrite filter_app, Hm, filter_cons_False, filter_nil by (by intros []). by rewrite app_nil_r.
  - apply Forall_app. split; [done|]. constructor; [done|constructor].
Qed.
Lemma script_read msgs vs sp g v :
  is_u 8 v -> script_ok msgs vs (mkTurn 1 None false) sp g -> script_ok msgs vs (mkTurn 1 (Some v) false) (sp ++ [v]) g.
Proof.
  intros Hv [Hr Hs Hm Ht]. split; cbn in *; [by split_and!; [|lia..|]|by rewrite Hs, app_nil_r|done|done].
Qed.
Lemma script_store msgs vs sp g n v b : script_ok msgs vs (mkTurn n (Some v) b) sp g -> script_ok msgs vs (mkTurn n (Some v) true) sp v.
Proof. intros [(? & ? & ?) Hs Hm Ht]. by split. Qed.
Lemma script_done msgs vs sp g v b : script_ok msgs vs (mkTurn 6 (Some v) b) sp g -> script_ok msgs (vs ++ [v]) fresh sp g.
Proof.
  intros [Hr Hs Hm Ht]. split; cbn in *; [split; [lia|done]|by rewrite Hs, app_nil_r| |done].
  rewrite Hm, bind_app. cbn. by rewrite !app_nil_r.
Qed.
End script.

(** What each task knows. *)
Definition put_local (ls : Z -> local) (t : Z) (l : local) : Z -> local := fun u => if u =? t then l else ls u.
Lemma put_same ls t l : put_local ls t l t = l.
Proof. unfold put_local. by rewrite Z.eqb_refl. Qed.
Lemma put_other ls t l u : u <> t -> put_local ls t l u = ls u.
Proof. intros H. unfold put_local. by rewrite (proj2 (Z.eqb_neq _ _) H). Qed.

Section invariant.
Context {HW : Type} {HB : Board HW} (h : handles) (w : crew) (N : Z) (HN : N <= 127) (idle : Z) (T : Z -> Prop).
#[local] Instance crew_patient : Patient := member w.
#[local] Instance lenient : Strict := False.

(** The tasks are different, the semaphores are different. *)
Record apart : Prop := {
  ap_AB : taskA w <> taskB w;
  ap_AC : taskA w <> taskC w;
  ap_BC : taskB w <> taskC w;
  ap_xy : xSemaphore h <> ySemaphore h;
  ap_zx : zSemaphore h <> xSemaphore h;
  ap_zy : zSemaphore h <> ySemaphore h;
  ap_idle : ~ member w idle;
}.
Context (AP : apart).

(** The kernel with its queues and calls. *)
Record os_ok (m : machine) : Prop := {
  oo_machine : minv N idle T m;
  oo_mutex : qtypes (msys m) !! xMutex h = Some (1, 0, true);
  oo_x : qtypes (msys m) !! xSemaphore h = Some (1, 0, false);
  oo_y : qtypes (msys m) !! ySemaphore h = Some (1, 0, false);
  oo_z : exists len, qtypes (msys m) !! zSemaphore h = Some (len, 0, false);
  oo_others t o q p : in_call m !! t = Some (o, q, p) -> ~ member w t -> ~ reserved h q;
  oo_running t : pxCurrentTCB (kern (msys m)) = Some t -> member w t -> uxSchedulerSuspended (kern (msys m)) = 0;
}.
(** The call a task is in is the one its program makes. *)
Definition calling (c : option (operation * Z * progress)) (p : prog) : Prop :=
  match c with
  | None => True
  | Some (o, q, pr) => (exists k, p = Take q k /\ o = xQueueSemaphoreTake /\ forever pr) \/
                       (exists k, p = Give q k /\ o = semaphore_give /\ pr = Try None 0 false)
  end.
Definition task_ok (m : machine) (code : gmap Z prog) (l : local) (t : Z) : Prop :=
  exists p, code !! t = Some p /\ wp w h t p l /\ calling (in_call m !! t) p.
Definition printing (m : machine) (ls : Z -> local) : Prop :=
  (forall t, owned (lock_log m) !! xMutex h = Some t <-> member w t /\ writing (ls t) <> None) /\
  forall t s rest, member w t -> writing (ls t) = Some (s, rest) -> may_print w t (ls t) (s ++ rest).
(** What the holder of the mutex has sent of its message. *)
Definition part (m : machine) (ls : Z -> local) : list Z :=
  match owned (lock_log m) !! xMutex h with
  | Some t => match writing (ls t) with Some (s, _) => s | None => [] end
  | None => []
  end.

Definition if_at {A} (pl p : place) (a b : A) : A := if decide (pl = p) then a else b.
Record turns (m : machine) (ls : Z -> local) (pl : place) (r : turn_state) : Prop := {
  tu_x : count (msys m) (xSemaphore h) = Some (if_at pl AtX 1 0);
  tu_y : count (msys m) (ySemaphore h) = Some (if_at pl AtY 1 0);
  tu_A : turn (ls (taskA w)) = if_at pl AtA (Some r) None;
  tu_B : turn (ls (taskB w)) = if_at pl AtB (Some r) None;
  tu_C : turn (ls (taskC w)) = None;
  tu_fresh : pl = AtX -> r = fresh;
  tu_handed : pl = AtY -> exists v, r = handed v;
}.

Record dinv (d : demo HW) (ls : Z -> local) (msgs : list (Z * list Z)) (vs : list Z) (pl : place) (r : turn_state) : Prop := {
  di_os : os_ok (os d);
  di_task t : member w t -> task_ok (os d) (code d) (ls t) t;
  di_printing : printing (os d) ls;
  di_turns : turns (os d) ls pl r;
  di_script : script_ok w msgs vs r (speeds d) (g_last_speed d);
  di_board : printed (board d) (concat msgs.*2 ++ part (os d) ls) (speeds d);
}.

(** ** The outside *)

(** A change of the machine that the tasks do not see. *)
Record unseen (m m' : machine) : Prop := {
  un_os : os_ok m';
  un_call t : member w t -> in_call m' !! t = in_call m !! t;
  un_owned : owned (lock_log m') !! xMutex h = owned (lock_log m) !! xMutex h;
  un_x : count (msys m') (xSemaphore h) = count (msys m) (xSemaphore h);
  un_y : count (msys m') (ySemaphore h) = count (msys m) (ySemaphore h);
}.
Lemma unseen_dinv d ls msgs vs pl r m' : dinv d ls msgs vs pl r -> unseen (os d) m' -> dinv (set_os d m') ls msgs vs pl r.
Proof.
  intros [O K [P1 P2] U S B] [O' C W X Y]. split; cbn; try done.
  - intros t Ht. destruct (K t Ht) as (p & ? & ? & ?). exists p. by rewrite C.
  - split; [|done]. intros t. by rewrite W.
  - destruct U. split; try done; congruence.
  - unfold part in *. by rewrite W.
Qed.
Lemma os_ok_step m e m' :
  os_ok m -> qenabled idle m e -> event_spares e -> run_qevent m e = Ok m' ->
  (forall t o q p, in_call m' !! t = Some (o, q, p) -> ~ member w t -> ~ reserved h q) ->
  (forall t, pxCurrentTCB (kern (msys m')) = Some t -> member w t -> uxSchedulerSuspended (kern (msys m')) = 0) -> os_ok m'.
Proof.
  intros [M Tm Tx Ty Tz Hc Hr] He Hs E Hc' Hr'. destruct (qevent_minv N HN idle T m e M He Hs) as (m1 & E1 & [M' _ Ety]).
  rewrite E in E1. injection E1 as <-. split; rewrite ?Ety; done.
Qed.
Lemma outside_unseen d e ls msgs vs pl r :
  dinv d ls msgs vs pl r -> denabled h w idle d (Outside e) -> exists m', run_qevent (os d) e = Ok m' /\ unseen (os d) m'.
Proof.
  intros D He. pose proof (di_os _ _ _ _ _ _ D) as O. set (m := os d) in *.
  assert (qenabled idle m e /\ event_spares e) as [Hq Hs] by (destruct e; destruct He as [? He]; (split; [done|]); try exact I; apply He).
  destruct (qevent_minv N HN idle T m e (oo_machine _ O) Hq Hs) as (m' & E & _). exists m'. split; [done|].
  destruct (qevent_kept N idle T m e m' (oo_machine _ O) Hq E) as [K C].
  assert (forall q, reserved h q -> event_misses m q e) as Hm.
  { intros q Hres. destruct e as [i| | |ints]; cbn; try done; cbn in He.
    - destruct He as [_ Ha]. specialize (Ha q Hres). by apply Forall_cons in Ha as [? _].
    - destruct He as (_ & Hn & Ha). split; [intros n; by apply Ha|]. intros t o q0 p Hcur Hin ->. by apply (oo_others _ O t o q p Hin (Hn t Hcur)). }
  assert (forall t, member w t -> pxCurrentTCB (kern (msys m)) <> Some t \/ (exists i, e = QInterrupt i)) as Ht.
  { intros t Ht. destruct e as [i| | |]; [by right; exists i|left; intros Hcur; cbn in He; by apply (proj1 (proj2 He) t)..]. }
  assert (forall q, reserved h q -> count (msys m') q = count (msys m) q) as Hcount by (intros q Hres; by apply (event_count m e), Hm).
  split; [|by intros t Hmem; apply C, Ht|apply (event_owned m e); [done|]; apply Hm; by left|apply Hcount; unfold reserved; tauto..].
  apply (os_ok_step m e m' O Hq Hs E).
  - intros t o q p Hin Hmem. destruct (event_call m e m' t o q p E Hin) as [(p0 & Hin0)|(Hcur & n & ->)]; [by apply (oo_others _ O t o q p0)|]. cbn in He. tauto.
  - intros t Hcur Hmem. destruct e as [i| | |]; [|destruct K as [_ K]; rewrite K in Hcur; by destruct (Ht t Hmem) as [|[? [=]]]..].
    rewrite (sy_suspended _ _ K). destruct (decide (uxSchedulerSuspended (kern (msys m)) = 0)) as [|Hne]; [done|].
    rewrite (sy_current _ _ K Hne) in Hcur. by apply (oo_running _ O t).
Qed.
Lemma outside_ok d e ls msgs vs pl r :
  dinv d ls msgs vs pl r -> denabled h w idle d (Outside e) -> exists d', run_devent h w d (Outside e) = Ok d' /\ dinv d' ls msgs vs pl r.
Proof.
  intros D He. destruct (outside_unseen d e _ _ _ _ _ D He) as (m' & E & U). cbn [run_devent]. rewrite E. cbn [res_bind].
  eexists. split; [done|]. by apply unseen_dinv.
Qed.

(** ** The parts of the invariant after a step of a task *)

Lemma put_member ls t l u : put_local ls t l u = if decide (u = t) then l else ls u.
Proof. destruct (decide (u = t)) as [->|]; [apply put_same|by apply put_other]. Qed.
Lemma tasks_put m m' code ls t p' l' :
  (forall u, member w u -> task_ok m code (ls u) u) -> (forall u, u <> t -> in_call m' !! u = in_call m !! u) ->
  wp w h t p' l' -> calling (in_call m' !! t) p' -> forall u, member w u -> task_ok m' (<[t := p']> code) (put_local ls t l' u) u.
Proof.
  intros K C Hw Hc u Hu. rewrite put_member. destruct (decide (u = t)) as [->|Hne].
  - exists p'. by rewrite lookup_insert_eq.
  - destruct (K u Hu) as (p & Hp & Hwp & Hca). exists p. rewrite lookup_insert_ne by done. by rewrite C.
Qed.
Lemma tasks_call m m' code ls t p :
  (forall u, member w u -> task_ok m code (ls u) u) -> (forall u, u <> t -> in_call m' !! u = in_call m !! u) -> code !! t = Some p ->
  calling (in_call m' !! t) p -> forall u, member w u -> task_ok m' code (ls u) u.
Proof.
  intros K C Hp Hc u Hu. destruct (K u Hu) as (p0 & Hp0 & Hwp & Hca). exists p0. split; [done|]. split; [done|].
  destruct (decide (u = t)) as [->|]; [congruence|by rewrite C].
Qed.
Lemma turns_at m ls pl r t r0 :
  turns m ls pl r -> member w t -> turn (ls t) = Some r0 -> r0 = r /\ (t = taskA w /\ pl = AtA \/ t = taskB w /\ pl = AtB).
Proof.
  intros [] [-> |[-> | ->]] E; [rewrite tu_A0 in E|rewrite tu_B0 in E|congruence]; unfold if_at in E; destruct (decide _); try done;
    injection E as <-; tauto.
Qed.
(** The same counts, and a task that knows something else of the round it has. *)
Lemma turns_put m m' ls pl r t l' r' :
  turns m ls pl r -> member w t -> count (msys m') (xSemaphore h) = count (msys m) (xSemaphore h) ->
  count (msys m') (ySemaphore h) = count (msys m) (ySemaphore h) ->
  (turn l' = turn (ls t) /\ r' = r \/ turn (ls t) <> None /\ turn l' = Some r') -> turns m' (put_local ls t l') pl r'.
Proof.
  intros U Ht Hx Hy [[El ->]|[Hn El]].
  - destruct U. split; try congruence; try done; rewrite put_member; destruct (decide _); congruence.
  - destruct (turn (ls t)) as [r0|] eqn:Er; [|done]. destruct (turns_at _ _ _ _ _ _ U Ht Er) as (-> & Hpl). destruct AP, U.
    destruct Hpl as [[-> ->]|[-> ->]]; split; try congruence; try done; rewrite put_member;
      (destruct (decide _); [try congruence; by rewrite El|by try (rewrite ?tu_A0, ?tu_B0, ?tu_C0)]).
Qed.
Lemma printing_put m m' ls t l' :
  printing m ls -> member w t -> owned (lock_log m') !! xMutex h = owned (lock_log m) !! xMutex h ->
  (writing l' = None <-> writing (ls t) = None) -> (forall s rest, writing l' = Some (s, rest) -> may_print w t l' (s ++ rest)) ->
  printing m' (put_local ls t l').
Proof.
  intros [P1 P2] Ht Ho Hw Hm. split.
  - intros u. rewrite Ho, put_member. destruct (decide (u = t)) as [->|]; [rewrite P1; tauto|apply P1].
  - intros u s rest Hu. rewrite put_member. destruct (decide (u = t)) as [->|]; [apply Hm|by apply P2].
Qed.
(** Another task does not print while the task [t] is about to change what it knows. *)
Lemma part_put m ls t l' : writing l' = writing (ls t) -> part m (put_local ls t l') = part m ls.
Proof.
  intros E. unfold part. destruct (owned (lock_log m) !! xMutex h) as [u|]; [|done]. rewrite put_member.
  destruct (decide (u = t)) as [->|]; [by rewrite E|done].
Qed.
Lemma part_owner m ls t s rest : printing m ls -> member w t -> writing (ls t) = Some (s, rest) -> part m ls = s.
Proof. intros [P _] Ht E. unfold part. rewrite (proj2 (P t)) by (by rewrite E). by rewrite E. Qed.

(** ** Steps that leave the kernel alone *)

Lemma goto_dinv d ls msgs vs pl r t p' :
  dinv d ls msgs vs pl r -> member w t -> wp w h t p' (ls t) -> in_call (os d) !! t = None -> dinv (goto d t p') ls msgs vs pl r.
Proof.
  intros [O K P U S B] Ht Hw Hc. split; try done. intros u Hu. unfold goto. cbn.
  assert (put_local ls t (ls t) u = ls u) as <- by (rewrite put_member; by destruct (decide (u = t)) as [->|]).
  apply (tasks_put (os d)); try done. by rewrite Hc.
Qed.
Lemma send_dinv d ls msgs vs pl r t b k :
  dinv d ls msgs vs pl r -> member w t -> wp w h t (SendByte b k) (ls t) -> in_call (os d) !! t = None ->
  exists x ls', send_byte (board d) b = Ok x /\ dinv (goto (d <| board := x |>) t k) ls' msgs vs pl r.
Proof.
  intros [O K P U S B] Ht (s & rest & Ew & Hb & Hw) Hc. rewrite (part_owner _ _ _ _ _ P Ht Ew) in B.
  destruct (send_byte_ok _ _ _ b B Hb) as (x & -> & B'). exists x, (put_local ls t ((ls t) <| writing := Some (s ++ [b], rest) |>)).
  split; [done|]. set (l' := (ls t) <| writing := _ |>) in *.
  assert (printing (os d) (put_local ls t l')) as P'.
  { apply (printing_put (os d)); try done; [cbn; by rewrite Ew|]. intros s0 rest0 [= <- <-]. rewrite <- app_assoc. exact (proj2 P t s (b :: rest) Ht Ew). }
  split; try done.
  - apply (tasks_put (os d)); try done. cbn. by rewrite Hc.
  - apply (turns_put (os d) (os d) ls pl r); try done. by left.
  - change (printed x (concat msgs.*2 ++ part (os d) (put_local ls t l')) (speeds d)). rewrite (part_owner _ _ t (s ++ [b]) rest P' Ht) by (by rewrite put_same). by rewrite app_assoc.
Qed.
Lemma read_dinv d ls msgs vs pl r t cmd old k :
  dinv d ls msgs vs pl r -> member w t -> wp w h t (ReadValue cmd old k) (ls t) -> in_call (os d) !! t = None ->
  exists x v ls' r', read_value (board d) cmd old = Ok (x, v) /\
    dinv (goto (d <| board := x |> <| speeds := speeds d ++ [v] |>) t (k v)) ls' msgs vs pl r'.
Proof.
  intros [O K P U S B] Ht (Ew & -> & Et & Hw) Hc. destruct (read_value_ok _ _ _ old B) as (x & v & E & Hv & B').
  destruct (turns_at _ _ _ _ _ _ U Ht Et) as (<- & _).
  set (r' := mkTurn 1 (Some v) false) in *. exists x, v, (put_local ls t ((ls t) <| turn := Some r' |>)), r'. split; [done|]. split; try done.
  - apply (tasks_put (os d)); try done; [by apply Hw|]. cbn. by rewrite Hc.
  - apply (printing_put (os d)); try done. cbn. by rewrite Ew.
  - apply (turns_put (os d) (os d) ls pl (mkTurn 1 None false)); try done. right. by rewrite Et.
  - by apply script_read.
  - change (printed x (concat msgs.*2 ++ part (os d) (put_local ls t ((ls t) <| turn := Some r' |>))) (speeds d ++ [v])). by rewrite part_put.
Qed.
Lemma store_dinv d ls msgs vs pl r t v k :
  dinv d ls msgs vs pl r -> member w t -> wp w h t (StoreSpeed v k) (ls t) -> in_call (os d) !! t = None ->
  exists ls' r', dinv (goto (d <| g_last_speed := v |>) t k) ls' msgs vs pl r'.
Proof.
  intros [O K P U S B] Ht (Ew & n & b & Et & Hw) Hc. destruct (turns_at _ _ _ _ _ _ U Ht Et) as (<- & _).
  set (r' := mkTurn n (Some v) true) in *. exists (put_local ls t ((ls t) <| turn := Some r' |>)), r'. split; try done.
  - apply (tasks_put (os d)); try done. cbn. by rewrite Hc.
  - apply (printing_put (os d)); try done. cbn. by rewrite Ew.
  - apply (turns_put (os d) (os d) ls pl (mkTurn n (Some v) b)); try done. right. by rewrite Et.
  - by eapply script_store.
  - change (printed (board d) (concat msgs.*2 ++ part (os d) (put_local ls t ((ls t) <| turn := Some r' |>))) (speeds d)). by rewrite part_put.
Qed.
Lemma load_speed d ls msgs vs pl r t n v :
  dinv d ls msgs vs pl r -> member w t -> turn (ls t) = Some (mkTurn n (Some v) true) -> g_last_speed d = v.
Proof.
  intros [O K P U S B] Ht Et. destruct (turns_at _ _ _ _ _ _ U Ht Et) as (<- & _). destruct (sc_round _ _ _ _ _ _ S) as (_ & _ & Hg). by apply Hg.
Qed.

(** ** Calls of the kernel *)

(** The task [t] is in a call of its program; nothing else changes. *)
Lemma called_dinv d ls msgs vs pl r t p m' :
  dinv d ls msgs vs pl r -> code d !! t = Some p -> os_ok m' -> (forall u, u <> t -> in_call m' !! u = in_call (os d) !! u) ->
  calling (in_call m' !! t) p -> owned (lock_log m') !! xMutex h = owned (lock_log (os d)) !! xMutex h ->
  count (msys m') (xSemaphore h) = count (msys (os d)) (xSemaphore h) -> count (msys m') (ySemaphore h) = count (msys (os d)) (ySemaphore h) ->
  dinv (set_os d m') ls msgs vs pl r.
Proof.
  intros [O K P U S B] Hp O' C Hc Hw Hx Hy. split; try done.
  - by apply (tasks_call (os d) m' (code d) ls t p).
  - destruct P as [P1 P2]. split; [|done]. intros u. cbn. by rewrite Hw.
  - destruct U. split; try done; cbn -[count if_at]; congruence.
  - unfold part in *. cbn. by rewrite Hw.
Qed.
Lemma not_idle d t : member w t -> pxCurrentTCB (kern (msys (os (HW := HW) d))) = Some t -> pxCurrentTCB (kern (msys (os d))) <> Some idle.
Proof. intros Ht -> [= ->]. by apply (ap_idle AP). Qed.
Lemma free_task m t : xPendSV (kern (msys m)) = false -> pxCurrentTCB (kern (msys m)) = Some t -> in_call m !! t = None ->
  xPendSV (kern (msys m)) = false /\ forall u, pxCurrentTCB (kern (msys m)) = Some u -> in_call m !! u = None.
Proof. intros Hp Hc Hin. split; [done|]. intros u Hu. congruence. Qed.

Lemma sleep_dinv d ls msgs vs pl r t last period k before after :
  dinv d ls msgs vs pl r -> member w t -> pxCurrentTCB (kern (msys (os d))) = Some t -> xPendSV (kern (msys (os d))) = false ->
  wp w h t (SleepUntil last period k) (ls t) -> in_call (os d) !! t = None ->
  exists m', run_qevent (os d) (QKernel (DelayUntil last period before after)) = Ok m' /\
    dinv (goto (set_os d m') t (k (u32 (last + period)))) ls msgs vs pl r.
Proof.
  intros D Ht Hcur Hp [Hpos Hw] Hc. pose proof (di_os _ _ _ _ _ _ D) as O. set (e := QKernel _).
  assert (qenabled idle (os d) e) as Hq.
  { split; [by apply (free_task (os d) t)|]. split; [|done]. split; [done|]. split; [by apply (oo_running _ O t)|by apply (not_idle d t)]. }
  destruct (qevent_minv N HN idle T (os d) e (oo_machine _ O) Hq I) as (m' & E & _). exists m'. split; [done|].
  pose proof E as E0. unfold e in E0. cbn [run_qevent run_call] in E0. apply res_bind_ok in E0 as (k' & E1 & E0). apply ok_inj in E0 as <-.
  apply res_bind_ok in E1 as ([[k1 w1] b1] & E1 & E0). apply ok_inj in E0 as ->. apply delay_until_kept in E1 as [_ Hs].
  apply goto_dinv; try done. apply unseen_dinv; [done|]. split; try done. apply (os_ok_step (os d) e _ O Hq I E); [|done]. apply (oo_others _ O).
Qed.

Lemma start_dinv d ls msgs vs pl r t o q n p :
  dinv d ls msgs vs pl r -> member w t -> pxCurrentTCB (kern (msys (os d))) = Some t -> xPendSV (kern (msys (os d))) = false ->
  in_call (os d) !! t = None -> code d !! t = Some p -> 0 <= n < 2 ^ 32 -> o = xQueueSemaphoreTake \/ o = semaphore_give ->
  op_ok (qtypes (msys (os d))) o q \/ lock_may (qtypes (msys (os d))) (owned (lock_log (os d))) t o q ->
  calling (Some (o, q, Try None n false)) p ->
  exists m', run_qevent (os d) (QStart o q n) = Ok m' /\ dinv (set_os d m') ls msgs vs pl r.
Proof.
  intros D Ht Hcur Hp Hc Hcode Hn Ho Hop Hca. pose proof (di_os _ _ _ _ _ _ D) as O. set (e := QStart o q n).
  assert (qenabled idle (os d) e) as Hq.
  { split; [by apply (free_task (os d) t)|]. split; [done|]. split; [intros u Hu; assert (u = t) as -> by congruence; done|].
    intros _. split; [by apply (oo_running _ O t)|by apply (not_idle d t)]. }
  destruct (qevent_minv N HN idle T (os d) e (oo_machine _ O) Hq I) as (m' & E & _). exists m'. split; [done|].
  pose proof (start_event _ _ _ _ _ _ Ho Hcur E) as E'. apply (called_dinv d ls msgs vs pl r t p); try done; subst m'; cbn -[count]; try done.
  - apply (os_ok_step (os d) e _ O Hq I E); [|apply (oo_running _ O)]. cbn. intros u o' q' p' Hin Hu.
    rewrite lookup_insert_ne in Hin by (by intros ->). by apply (oo_others _ O u o' q' p').
  - intros u Hu. by rewrite lookup_insert_ne.
  - by rewrite lookup_insert_eq.
Qed.

(** ** Steps inside a call *)

Definition stepped_to (m : machine) (t : Z) (o : operation) (q : Z) (s' : sys) (p' : progress) : machine :=
  mkMachine s' (set_progress m t o q p') (lock_log m ++ logged s' t o q p').
Section step.
Context (d : demo HW) (ls : Z -> local) (msgs : list (Z * list Z)) (vs : list Z) (pl : place) (rd : turn_state) (t : Z) (ints : nat -> list qint).
Context (D : dinv d ls msgs vs pl rd) (Ht : member w t) (Hcur : pxCurrentTCB (kern (msys (os d))) = Some t).
Context (Hp : xPendSV (kern (msys (os d))) = false) (Hi : ints_ok (msys (os d)) ints) (Ha : forall n, avoids h (ints n)).
Abbreviation m := (os d).

Lemma in_call_step o q pr :
  in_call m !! t = Some (o, q, pr) ->
  exists s' p', step_call (fun n => run_qints (ints n)) o (msys m) q pr = Ok (s', p') /\
    run_qevent m (QStep ints) = Ok (stepped_to m t o q s' p') /\ os_ok (stepped_to m t o q s' p').
Proof.
  intros Hin. pose proof (di_os _ _ _ _ _ _ D) as O. assert (qenabled idle m (QStep ints)) as Hq by done.
  destruct (qevent_minv N HN idle T m _ (oo_machine _ O) Hq I) as (m' & E & _).
  destruct (step_event m ints m' t o q pr Hcur Hin E) as (s' & p' & Es & ->). exists s', p'. split; [done|]. split; [done|].
  apply (os_ok_step m _ _ O Hq I E).
  - intros u o' q' p0 Hu Hmem. destruct (event_call _ _ _ u o' q' p0 E Hu) as [[p1 H1]|(_ & n & [=])]. by apply (oo_others _ O u o' q' p1).
  - intros u _ _. destruct (step_call_kept ints o (msys m) q pr s' p' Es) as [_ Hs]; [intros _|apply Hs]; by apply (oo_running _ O t).
Qed.
Lemma others_calls o q s' p' u : u <> t -> in_call (stepped_to m t o q s' p') !! u = in_call m !! u.
Proof. intros Hu. by apply set_progress_other. Qed.
Lemma call_over o q s' b : in_call (stepped_to m t o q s' (Return b)) !! t = None.
Proof. apply lookup_delete_eq. Qed.
Lemma all_avoid q : reserved h q -> all_miss q ints.
Proof. intros Hq n. by apply Ha. Qed.

(** The call goes on waiting. *)
Lemma wait_dinv q pr s' p' k :
  code d !! t = Some (Take q k) -> forever pr -> forever p' -> step_call (fun n => run_qints (ints n)) xQueueSemaphoreTake (msys m) q pr = Ok (s', p') ->
  os_ok (stepped_to m t xQueueSemaphoreTake q s' p') -> dinv (set_os d (stepped_to m t xQueueSemaphoreTake q s' p')) ls msgs vs pl rd.
Proof.
  intros Hc Hf Hf' E O'. assert (forall q0, reserved h q0 -> count s' q0 = count (msys m) q0) as Hcount.
  { intros q0 Hres%all_avoid. destruct (decide (q = q0)) as [->|Hne]; [|by eapply step_elsewhere].
    pose proof (take_count ints _ _ _ _ _ Hf Hres E) as Hk. by destruct p'. }
  eapply called_dinv; [exact D|exact Hc|done|intros u; apply others_calls| | |apply Hcount; unfold reserved; tauto..].
  - unfold stepped_to. cbn [in_call]. destruct p'; try done; cbn [set_progress]; rewrite lookup_insert_eq; left; by exists k.
  - unfold stepped_to, logged. cbn [lock_log]. by destruct p'; try done; destruct (qtypes s' !! q) as [[[? ?] []]|]; rewrite app_nil_r.
Qed.

(** The call is over. *)
Lemma over_dinv o q s' b k l' msgs' vs' pl' r' :
  let m' := stepped_to m t o q s' (Return b) in
  os_ok m' -> wp w h t k l' -> printing m' (put_local ls t l') -> turns m' (put_local ls t l') pl' r' ->
  script_ok w msgs' vs' r' (speeds d) (g_last_speed d) -> concat msgs'.*2 ++ part m' (put_local ls t l') = concat msgs.*2 ++ part m ls ->
  dinv (goto (set_os d m') t k) (put_local ls t l') msgs' vs' pl' r'.
Proof.
  intros m' O' Hw P' U' S' B'. split; try done.
  - apply (tasks_put m); [apply D|intros u; apply others_calls|done|]. change (calling (in_call m' !! t) k). unfold m'. by rewrite call_over.
  - change (printed (board d) (concat msgs'.*2 ++ part m' (put_local ls t l')) (speeds d)). rewrite B'. apply D.
Qed.
(** ... and was not about the mutex. *)
Lemma quiet_over o q s' b k l' vs' pl' r' :
  let m' := stepped_to m t o q s' (Return b) in
  q <> xMutex h -> writing l' = writing (ls t) -> writing l' = None ->
  os_ok m' -> wp w h t k l' -> turns m' (put_local ls t l') pl' r' -> script_ok w msgs vs' r' (speeds d) (g_last_speed d) ->
  dinv (goto (set_os d m') t k) (put_local ls t l') msgs vs' pl' r'.
Proof.
  intros m' Hq Hw Hn O' Hwp U' S'. assert (owned (lock_log m') !! xMutex h = owned (lock_log m) !! xMutex h) as Ho.
  { unfold m', stepped_to, logged. cbn [lock_log]. destruct (qtypes s' !! q) as [[[? ?] []]|]; [|by rewrite app_nil_r..].
    destruct o; destruct b; rewrite ?app_nil_r; try done; rewrite owned_snoc; [by rewrite lookup_delete_ne|by rewrite lookup_insert_ne]. }
  apply over_dinv; try done.
  - apply (printing_put m); [apply D|done|done|by rewrite Hw|]. intros s rest. by rewrite Hn.
  - f_equal. trans (part m (put_local ls t l')); [fold m'; unfold part; by rewrite Ho|by apply part_put].
Qed.

Lemma mutex_apart : xSemaphore h <> xMutex h /\ ySemaphore h <> xMutex h /\ zSemaphore h <> xMutex h.
Proof.
  destruct (di_os _ _ _ _ _ _ D) as [_ Tm Tx Ty [len Tz] _ _]. split_and!; intros E; [rewrite E in Tx|rewrite E in Ty|rewrite E in Tz]; congruence.
Qed.
(** What a call on another queue does to the counts of the two semaphores. *)
Lemma counts_elsewhere o q pr s' p' :
  step_call (fun n => run_qints (ints n)) o (msys m) q pr = Ok (s', p') ->
  (q <> xSemaphore h -> count s' (xSemaphore h) = count (msys m) (xSemaphore h)) /\
  (q <> ySemaphore h -> count s' (ySemaphore h) = count (msys m) (ySemaphore h)).
Proof. intros E. split; intros Hq; (eapply step_elsewhere; [exact Hq|apply all_avoid; unfold reserved; tauto|exact E]). Qed.

Lemma took_mutex pr s' k s :
  let m' := stepped_to m t xQueueSemaphoreTake (xMutex h) s' (Return (Some [])) in
  step_call (fun n => run_qints (ints n)) xQueueSemaphoreTake (msys m) (xMutex h) pr = Ok (s', Return (Some [])) -> os_ok m' ->
  writing (ls t) = None -> may_print w t (ls t) s -> wp w h t k ((ls t) <| writing := Some ([], s) |>) ->
  dinv (goto (set_os d m') t k) (put_local ls t ((ls t) <| writing := Some ([], s) |>)) msgs vs pl rd.
Proof.
  intros m' E O' Hw Hm Hk. destruct mutex_apart as (Hx & Hy & _). destruct (counts_elsewhere _ _ _ _ _ E) as [Cx Cy].
  assert (qtypes s' !! xMutex h = Some (1, 0, true)) as Tm by exact (oo_mutex _ O').
  assert (lock_log m' = lock_log m ++ [Took t (xMutex h)]) as El by (unfold m', stepped_to, logged; cbn [lock_log]; by rewrite Tm).
  assert (owned (lock_log m) !! xMutex h = None) as Hn.
  { pose proof (mi_log _ _ _ _ (oo_machine _ O')) as L. rewrite El in L. by apply log_inv in L as [_ ?]. }
  assert (owned (lock_log m') !! xMutex h = Some t) as Ho by (by rewrite El, owned_snoc, lookup_insert_eq).
  destruct (di_printing _ _ _ _ _ _ D) as [P1 P2]. assert (forall u, member w u -> writing (ls u) = None) as Hall.
  { intros u Hu. destruct (writing (ls u)) eqn:Eu; [|done]. assert (owned (lock_log m) !! xMutex h = Some u); [|congruence]. apply P1. by rewrite Eu. }
  apply over_dinv; try done; [| |apply D|].
  - fold m'. split; [|intros u s0 rest Hu; rewrite put_member; destruct (decide (u = t)) as [->|]; [intros [= <- <-]; exact Hm|by rewrite Hall]].
    intros u. rewrite Ho, put_member. destruct (decide (u = t)) as [->|Hne]; [split; [|done]; by split|]. split; [congruence|]. intros [Hu Hwr]. by rewrite Hall in Hwr.
  - apply (turns_put m _ ls pl rd); [apply D|done|by apply Cx|by apply Cy|by left].
  - f_equal. fold m'. unfold part. by rewrite Ho, Hn, put_same.
Qed.
Lemma gave_mutex s' k s :
  let m' := stepped_to m t semaphore_give (xMutex h) s' (Return (Some [])) in
  step_call (fun n => run_qints (ints n)) semaphore_give (msys m) (xMutex h) (Try None 0 false) = Ok (s', Return (Some [])) -> os_ok m' ->
  writing (ls t) = Some (s, []) -> wp w h t k (told (ls t)) ->
  exists r', dinv (goto (set_os d m') t k) (put_local ls t (told (ls t))) (msgs ++ [(t, s)]) vs pl r'.
Proof.
  intros m' E O' Hw Hk. destruct mutex_apart as (Hx & Hy & _). destruct (counts_elsewhere _ _ _ _ _ E) as [Cx Cy].
  assert (qtypes s' !! xMutex h = Some (1, 0, true)) as Tm by exact (oo_mutex _ O').
  assert (lock_log m' = lock_log m ++ [Gave t (xMutex h)]) as El by (unfold m', stepped_to, logged; cbn [lock_log]; by rewrite Tm).
  assert (owned (lock_log m') !! xMutex h = None) as Ho by (by rewrite El, owned_snoc, lookup_delete_eq).
  pose proof (di_printing _ _ _ _ _ _ D) as [P1 P2]. assert (owned (lock_log m) !! xMutex h = Some t) as Hn by (apply P1; by rewrite Hw).
  assert (forall u, member w u -> u <> t -> writing (ls u) = None) as Hall.
  { intros u Hu Hne. destruct (writing (ls u)) eqn:Eu; [|done]. assert (owned (lock_log m) !! xMutex h = Some u); [|congruence]. apply P1. by rewrite Eu. }
  assert (exists r', (turn (told (ls t)) = turn (ls t) /\ r' = rd \/ turn (ls t) <> None /\ turn (told (ls t)) = Some r') /\
    script_ok w (msgs ++ [(t, s)]) vs r' (speeds d) (g_last_speed d)) as (r' & Hr & S').
  { pose proof (P2 t s [] Ht Hw) as Hm. rewrite app_nil_r in Hm. unfold may_print in Hm. pose proof (di_script _ _ _ _ _ _ D) as Hsc.
    destruct (Z.eqb_spec t (taskC w)) as [Et|Hne].
    - exists rd. split; [left; split; [|done]|by rewrite Et, Hm; apply script_timer]. unfold told. cbn. by rewrite Et, (tu_C _ _ _ _ (di_turns _ _ _ _ _ _ D)).
    - destruct Hm as (r0 & Er & Hnx). destruct (turns_at _ _ _ _ _ _ (di_turns _ _ _ _ _ _ D) Ht Er) as (-> & _).
      exists (rd <| said := S (said rd) |>). split; [right; unfold told; cbn; by rewrite Er|by apply script_next]. }
  exists r'. apply over_dinv; try done.
  - fold m'. split; [|intros u s0 rest Hu; rewrite put_member; destruct (decide (u = t)) as [->|]; [done|by rewrite Hall]].
    intros u. rewrite Ho, put_member. split; [done|]. destruct (decide (u = t)) as [->|Hne]; [by intros []|]. intros [Hu Hwr]. by rewrite Hall in Hwr.
  - apply (turns_put m _ ls pl rd); [apply D|done|by apply Cx|by apply Cy|done].
  - fold m'. rewrite (part_owner m ls t s [] (conj P1 P2) Ht Hw). unfold part. rewrite Ho, fmap_app, concat_app. cbn. by rewrite !app_nil_r.
Qed.

(** The turn moves. *)
Lemma if_at_pos p : 0 < if_at pl p 1 0 -> pl = p.
Proof. unfold if_at. destruct (decide _); [done|lia]. Qed.
Lemma took_z pr s' k :
  let m' := stepped_to m t xQueueSemaphoreTake (zSemaphore h) s' (Return (Some [])) in
  step_call (fun n => run_qints (ints n)) xQueueSemaphoreTake (msys m) (zSemaphore h) pr = Ok (s', Return (Some [])) -> os_ok m' ->
  writing (ls t) = None -> wp w h t k (ls t) -> dinv (goto (set_os d m') t k) (put_local ls t (ls t)) msgs vs pl rd.
Proof.
  intros m' E O' Hw Hk. destruct mutex_apart as (_ & _ & Hz). destruct (counts_elsewhere _ _ _ _ _ E) as [Cx Cy]. apply quiet_over; try done; [|apply D].
  apply (turns_put m _ ls pl rd); [apply D|done|by apply Cx, (ap_zx AP)|by apply Cy, (ap_zy AP)|by left].
Qed.
Lemma took_x pr s' k :
  let m' := stepped_to m t xQueueSemaphoreTake (xSemaphore h) s' (Return (Some [])) in
  step_call (fun n => run_qints (ints n)) xQueueSemaphoreTake (msys m) (xSemaphore h) pr = Ok (s', Return (Some [])) -> forever pr -> os_ok m' ->
  writing (ls t) = None -> t = taskA w -> wp w h t k ((ls t) <| turn := Some fresh |>) ->
  dinv (goto (set_os d m') t k) (put_local ls t ((ls t) <| turn := Some fresh |>)) msgs vs AtA rd.
Proof.
  intros m' E Hf O' Hw Et Hk. destruct mutex_apart as (Hx & _ & _). destruct (counts_elsewhere _ _ _ _ _ E) as [_ Cy].
  destruct (take_count ints _ _ _ _ _ Hf (all_avoid (xSemaphore h) (or_intror (or_introl eq_refl))) E) as (n & Hn & Hpos & Hn').
  pose proof (di_turns _ _ _ _ _ _ D) as [Ux Uy UA UB UC Uf _]. rewrite Ux in Hn. injection Hn as <-. pose proof (if_at_pos _ Hpos) as Epl.
  pose proof (Uf Epl) as Er. rewrite Epl in Ux, Uy, UA, UB, Hn'. apply quiet_over; try done; [|apply D]. destruct AP. split; try done.
  - cbn -[count]. rewrite Cy by done. exact Uy.
  - rewrite put_member, decide_True by congruence. by rewrite Er.
  - by rewrite put_member, decide_False by congruence.
  - by rewrite put_member, decide_False by congruence.
Qed.
Lemma took_y pr s' k :
  let m' := stepped_to m t xQueueSemaphoreTake (ySemaphore h) s' (Return (Some [])) in
  step_call (fun n => run_qints (ints n)) xQueueSemaphoreTake (msys m) (ySemaphore h) pr = Ok (s', Return (Some [])) -> forever pr -> os_ok m' ->
  writing (ls t) = None -> t = taskB w -> (forall v, is_u 8 v -> wp w h t k ((ls t) <| turn := Some (handed v) |>)) ->
  dinv (goto (set_os d m') t k) (put_local ls t ((ls t) <| turn := Some rd |>)) msgs vs AtB rd.
Proof.
  intros m' E Hf O' Hw Et Hk. destruct mutex_apart as (_ & Hy & _). destruct (counts_elsewhere _ _ _ _ _ E) as [Cx _].
  destruct (take_count ints _ _ _ _ _ Hf (all_avoid (ySemaphore h) (or_intror (or_intror eq_refl))) E) as (n & Hn & Hpos & Hn').
  pose proof (di_turns _ _ _ _ _ _ D) as [Ux Uy UA UB UC _ Uh]. rewrite Uy in Hn. injection Hn as <-. pose proof (if_at_pos _ Hpos) as Epl. rewrite Epl in Ux, Uy, UA, UB, Hn'.
  destruct (Uh Epl) as [v Ev]. pose proof (di_script _ _ _ _ _ _ D) as S. pose proof (sc_round _ _ _ _ _ _ S) as Hr. rewrite Ev in Hr. destruct Hr as (Hv & _).
  apply quiet_over; try done; [rewrite Ev; by apply Hk|]. destruct AP. split; try done.
  - cbn -[count]. rewrite Cx by congruence. exact Ux.
  - by rewrite put_member, decide_False by congruence.
  - by rewrite put_member, decide_True by congruence.
  - by rewrite put_member, decide_False by congruence.
Qed.
Lemma gave_y s' p' k v :
  step_call (fun n => run_qints (ints n)) semaphore_give (msys m) (ySemaphore h) (Try None 0 false) = Ok (s', p') ->
  (forall b, p' = Return b -> os_ok (stepped_to m t semaphore_give (ySemaphore h) s' p')) ->
  writing (ls t) = None -> t = taskA w -> turn (ls t) = Some (handed v) -> wp w h t k ((ls t) <| turn := None |>) ->
  p' = Return (Some []) /\
  dinv (goto (set_os d (stepped_to m t semaphore_give (ySemaphore h) s' p')) t k) (put_local ls t ((ls t) <| turn := None |>)) msgs vs AtY rd.
Proof.
  intros E O' Hw Et Hv Hk. destruct mutex_apart as (_ & Hy & _). destruct (counts_elsewhere _ _ _ _ _ E) as [Cx _].
  pose proof (di_turns _ _ _ _ _ _ D) as U. destruct (turns_at _ _ _ _ _ _ U Ht Hv) as (Er & [[_ Epl]|[EB _]]); [|by destruct (ap_AB AP); congruence].
  destruct U as [Ux Uy UA UB UC _ _]. rewrite Epl in Ux, Uy, UA, UB.
  destruct (give_count _ _ _ _ _ _ _ 1 0 (oo_y _ (di_os _ _ _ _ _ _ D)) Uy ltac:(lia) ltac:(lia) E) as [-> Hn']. split; [done|].
  apply quiet_over; try done; [by eapply O'| |apply D]. destruct AP. split; try done.
  - cbn -[count]. rewrite Cx by congruence. exact Ux.
  - by rewrite put_member, decide_True by congruence.
  - by rewrite put_member, decide_False by congruence.
  - by rewrite put_member, decide_False by congruence.
  - intros _. by exists v.
Qed.
Lemma gave_x s' p' k v :
  step_call (fun n => run_qints (ints n)) semaphore_give (msys m) (xSemaphore h) (Try None 0 false) = Ok (s', p') ->
  (forall b, p' = Return b -> os_ok (stepped_to m t semaphore_give (xSemaphore h) s' p')) ->
  writing (ls t) = None -> t = taskB w -> turn (ls t) = Some (mkTurn 6 (Some v) true) -> wp w h t k ((ls t) <| turn := None |>) ->
  p' = Return (Some []) /\
  dinv (goto (set_os d (stepped_to m t semaphore_give (xSemaphore h) s' p')) t k) (put_local ls t ((ls t) <| turn := None |>)) msgs (vs ++ [v]) AtX fresh.
Proof.
  intros E O' Hw Et Hv Hk. destruct mutex_apart as (Hx & _ & _). destruct (counts_elsewhere _ _ _ _ _ E) as [_ Cy].
  pose proof (di_turns _ _ _ _ _ _ D) as U. destruct (turns_at _ _ _ _ _ _ U Ht Hv) as (Er & [[EA _]|[_ Epl]]); [by destruct (ap_AB AP); congruence|].
  destruct U as [Ux Uy UA UB UC _ _]. rewrite Epl in Ux, Uy, UA, UB. pose proof (di_script _ _ _ _ _ _ D) as Hsc. rewrite <- Er in Hsc.
  destruct (give_count _ _ _ _ _ _ _ 1 0 (oo_x _ (di_os _ _ _ _ _ _ D)) Ux ltac:(lia) ltac:(lia) E) as [-> Hn']. split; [done|].
  apply quiet_over; try done; [by eapply O'| |by eapply script_done]. destruct AP. split; try done.
  - cbn -[count]. rewrite Cy by congruence. exact Uy.
  - by rewrite put_member, decide_False by congruence.
  - by rewrite put_member, decide_True by congruence.
  - by rewrite put_member, decide_False by congruence.
Qed.

(** What a step of a call comes to. *)
Lemma take_call q pr k :
  code d !! t = Some (Take q k) -> wp w h t (Take q k) (ls t) -> in_call m !! t = Some (xQueueSemaphoreTake, q, pr) -> forever pr ->
  exists m', run_qevent m (QStep ints) = Ok m' /\
    (in_call m' !! t <> None /\ dinv (set_os d m') ls msgs vs pl rd \/
     in_call m' !! t = None /\ exists ls' pl', dinv (goto (set_os d m') t k) ls' msgs vs pl' rd).
Proof.
  intros Hc [Hw Hk] Hin Hf. destruct (in_call_step _ _ _ Hin) as (s' & p' & E & Er & O'). eexists. split; [exact Er|].
  pose proof (oo_machine _ (di_os _ _ _ _ _ _ D)) as M.
  destruct (patient_take T _ ints _ _ _ _ _ t (mi_typed _ _ _ _ M) Hcur Ht (oo_running _ (di_os _ _ _ _ _ _ D) t Hcur Ht) Hi Hf E) as [Hf'| ->].
  - left. split; [|exact (wait_dinv q pr s' p' k Hc Hf Hf' E O')]. unfold stepped_to. cbn [in_call]. destruct p'; try done; cbn [set_progress]; by rewrite lookup_insert_eq.
  - right. split; [apply call_over|]. destruct Hk as [(-> & s & Hm & Hk)|[(-> & Hk)|[(Hn & Et & -> & Hk)|(Hn & Et & -> & Hk)]]].
    + eexists _, pl. exact (took_mutex pr s' k s E O' Hw Hm Hk).
    + eexists _, pl. exact (took_z pr s' k E O' Hw Hk).
    + eexists _, AtA. exact (took_x pr s' k E Hf O' Hw Et Hk).
    + eexists _, AtB. exact (took_y pr s' k E Hf O' Hw Et Hk).
Qed.
Lemma give_call q k :
  wp w h t (Give q k) (ls t) -> in_call m !! t = Some (semaphore_give, q, Try None 0 false) ->
  exists m', run_qevent m (QStep ints) = Ok m' /\ in_call m' !! t = None /\
    exists ls' msgs' vs' pl' r', dinv (goto (set_os d m') t k) ls' msgs' vs' pl' r'.
Proof.
  intros Hk Hin. destruct (in_call_step _ _ _ Hin) as (s' & p' & E & Er & O'). eexists. split; [exact Er|].
  destruct Hk as [(-> & s & Hw & Hk)|[(Hw & Et & -> & (v & Hv) & Hk)|(Hw & Et & -> & (v & Hv) & Hk)]].
  - pose proof (oo_machine _ (di_os _ _ _ _ _ _ D)) as M. assert (holders (msys m) !! xMutex h = Some (Some t)) as Hh.
    { apply (mi_owned _ _ _ _ M), (di_printing _ _ _ _ _ _ D). by rewrite Hw. }
    pose proof (give_mutex _ _ _ _ _ _ _ (si_queues _ _ _ (mi_sys _ _ _ _ M)) Hh E) as ->. split; [apply call_over|].
    destruct (gave_mutex s' k s E O' Hw Hk) as [r' D']. by eexists _, _, _, _, r'.
  - destruct (gave_y s' p' k v E (fun _ _ => O') Hw Et Hv Hk) as [-> D']. split; [apply call_over|]. by eexists _, _, _, _, _.
  - destruct (gave_x s' p' k v E (fun _ _ => O') Hw Et Hv Hk) as [-> D']. split; [apply call_over|]. by eexists _, _, _, _, _.
Qed.
End step.

(** ** Every step *)

Definition holds (d : demo HW) : Prop := exists ls msgs vs pl r, dinv d ls msgs vs pl r.

(** What may be asked of the semaphore or mutex. *)
Lemma take_may d ls msgs vs pl r t q k :
  dinv d ls msgs vs pl r -> member w t -> wp w h t (Take q k) (ls t) ->
  op_ok (qtypes (msys (os d))) xQueueSemaphoreTake q \/ lock_may (qtypes (msys (os d))) (owned (lock_log (os d))) t xQueueSemaphoreTake q.
Proof.
  intros D Ht [Hw Hk]. destruct (di_os _ _ _ _ _ _ D) as [_ Tm Tx Ty [len Tz] _ _]. destruct Hk as [(-> & _)|[(-> & _)|[(_ & _ & -> & _)|(_ & _ & -> & _)]]].
  - right. split; [by eexists _, _|]. cbn. intros Ho. apply (di_printing _ _ _ _ _ _ D) in Ho as [_ Ho]. done.
  - left. by exists len.
  - left. by exists 1.
  - left. by exists 1.
Qed.
Lemma give_may d ls msgs vs pl r t q k :
  dinv d ls msgs vs pl r -> member w t -> wp w h t (Give q k) (ls t) ->
  op_ok (qtypes (msys (os d))) semaphore_give q \/ lock_may (qtypes (msys (os d))) (owned (lock_log (os d))) t semaphore_give q.
Proof.
  intros D Ht Hk. destruct (di_os _ _ _ _ _ _ D) as [_ Tm Tx Ty _ _ _]. destruct Hk as [(-> & s & Hw & _)|[(_ & _ & -> & _)|(_ & _ & -> & _)]].
  - right. split; [by eexists _, _|]. cbn. split_and!; try done. apply (di_printing _ _ _ _ _ _ D). by rewrite Hw.
  - left. eexists _, _. split; [done|]. split; [done|]. by left.
  - left. eexists _, _. split; [done|]. split; [done|]. by left.
Qed.
Lemma wp_body t last old : member w t -> is_u 32 last -> wp w h t (body h w t last old) (mkLocal None None).
Proof.
  intros Ht Hl. destruct AP. unfold body. destruct (Z.eqb_spec t (taskA w)) as [->|]; [by apply wp_A|].
  destruct (Z.eqb_spec t (taskB w)) as [->|]; [by apply wp_B|]. destruct Ht as [?|[?| ->]]; [done|done|]. by apply wp_C.
Qed.
Lemma inside_ok d ints before after : holds d -> denabled h w idle d (Inside ints before after) ->
  exists d', run_devent h w d (Inside ints before after) = Ok d' /\ holds d'.
Proof.
  intros (ls & msgs & vs & pl & r & D) (Hp & (t & Hcur & Ht) & Hi & Ha). cbn [run_devent]. unfold current. rewrite Hcur. cbn [res_bind]. unfold run_task.
  destruct (di_task _ _ _ _ _ _ D t Ht) as (p & Hcode & Hw & Hca). rewrite Hcode. destruct (in_call (os d) !! t) as [[[o q] pr]|] eqn:Hin.
  - destruct Hca as [(k & -> & -> & Hf)|(k & -> & -> & ->)].
    + destruct (take_call d ls msgs vs pl r t ints D Ht Hcur Hp Hi Ha q pr k Hcode Hw Hin Hf) as (m' & -> & [[Hin' D']|[Hin' (ls' & pl' & D')]]); cbn [res_bind].
      * destruct (in_call m' !! t); [|done]. eexists. split; [done|]. by eexists _, _, _, _, _.
      * rewrite Hin'. eexists. split; [done|]. by eexists _, _, _, _, _.
    + destruct (give_call d ls msgs vs pl r t ints D Ht Hcur Hp Hi Ha q k Hw Hin) as (m' & -> & Hin' & D'). cbn [res_bind]. rewrite Hin'. eexists. by split.
  - destruct p as [last old|k|last period k|q k|q k|b k|cmd old k|k|v k|].
    + destruct Hw as [El Hl]. eexists. split; [done|]. exists ls, msgs, vs, pl, r. apply goto_dinv; try done. rewrite El. by apply wp_body.
    + eexists. split; [done|]. exists ls, msgs, vs, pl, r. apply goto_dinv; try done. apply Hw.
      apply (inv_wf _ _ (si_kern _ _ _ (mi_sys _ _ _ _ (oo_machine _ (di_os _ _ _ _ _ _ D))))).
    + destruct (sleep_dinv d ls msgs vs pl r t last period k before after D Ht Hcur Hp Hw Hin) as (m' & -> & D'). eexists. split; [done|]. by eexists _, _, _, _, _.
    + destruct (start_dinv d ls msgs vs pl r t xQueueSemaphoreTake q portMAX_DELAY (Take q k)) as (m' & -> & D'); try done; [by left|by eapply take_may|left; by exists k|].
      eexists. split; [done|]. by eexists _, _, _, _, _.
    + destruct (start_dinv d ls msgs vs pl r t semaphore_give q 0 (Give q k)) as (m' & -> & D'); try done; [by right|by eapply give_may|right; by exists k|].
      eexists. split; [done|]. by eexists _, _, _, _, _.
    + destruct (send_dinv d ls msgs vs pl r t b k D Ht Hw Hin) as (x & ls' & -> & D'). eexists. split; [done|]. by eexists _, _, _, _, _.
    + destruct (read_dinv d ls msgs vs pl r t cmd old k D Ht Hw Hin) as (x & v & ls' & r' & -> & D'). eexists. split; [done|]. by eexists _, _, _, _, _.
    + destruct Hw as (n & v & Et & Hw). eexists. split; [done|]. exists ls, msgs, vs, pl, r. apply goto_dinv; try done.
      by rewrite (load_speed d ls msgs vs pl r t n v D Ht Et).
    + destruct (store_dinv d ls msgs vs pl r t v k D Ht Hw Hin) as (ls' & r' & D'). eexists. split; [done|]. by eexists _, _, _, _, _.
    + done.
Qed.
Lemma devent_ok d e : holds d -> denabled h w idle d e -> exists d', run_devent h w d e = Ok d' /\ holds d'.
Proof.
  intros H He. destruct e as [e|ints before after]; [|by apply inside_ok]. destruct H as (ls & msgs & vs & pl & r & D).
  destruct (outside_ok d e ls msgs vs pl r D He) as (d' & -> & D'). exists d'. split; [done|]. by eexists _, _, _, _, _.
Qed.
End invariant.
End DemoInv.
