(* ===== verification/DemoMain.v ===== *)
(** * The start of the demo

    [main] of [Demo_FreeRTOS/src/main.c] up to the start of the scheduler: the mutex,
    the semaphores, the tasks and the timer are created in this order, on a heap of
    8192 bytes, and all of them get their memory. *)

From S2P Require Import Prelude Words RtosList RtosHeap RtosSeq RtosSched RtosSchedInv RtosTick RtosSchedProps RtosRun RtosSteady RtosTyped RtosBoot.
From S2P Require Import RtosQueue RtosQueueData RtosQueueSys RtosQueueRun RtosLock RtosMachine RtosProgram RtosTimer DemoTasks.
From stdpp Require Import list strings.
#[local] Set Warnings "-clear-no-such-hyp".
#[local] Open Scope Z_scope.

Module DemoMain.
Export RtosProgram RtosTimer DemoTasks.

Definition configMINIMAL_STACK_SIZE : Z := 90.
Definition tskIDLE_PRIORITY : Z := 0.
Definition pdMS_TO_TICKS (ms : Z) : Z := ms * configTICK_RATE_HZ / 1000.

(** What the tasks find: the kernel with its queues, the timers, the handles. *)
Record started := mkStarted { st_sys : sys; st_timers : timers; st_handles : handles; st_crew : crew; st_timer : Z; st_idle : Z }.

Section main.
(** The address of the heap, the bytes memory holds, the bytes of a message that a
    command leaves as they are, and the address of the callback. *)
Context (ucHeap : Z) (memory : Z -> Z) (rest : list Z) (callback : Z).

(** A command that does not wait takes one step. *)
Definition send_command (s : sys) (c : command_call) : res sys :=
  match c with
  | FromTask o q n => let! p := start_operation o s q n in let! '(s, _) := step_call (fun _ => Ok) o s q p in Ok s
  | _ => Ok s
  end.
Definition xTimerStart (s : sys) (T : timers) (xTimer xTicksToWait : Z) : res sys :=
  let! c := xTimerGenericCommand (kern s) T xTimer tmrCOMMAND_START (xTickCount (kern s)) xTicksToWait rest in send_command s c.

(** The tasks that the scheduler needs, and its variables. *)
Definition vTaskStartScheduler (s : sys) (T : timers) : res (sys * timers * Z) :=
  let! '(s, idle) := xTaskCreate ucHeap s configMINIMAL_STACK_SIZE tskIDLE_PRIORITY in
  match idle with
  | None => Fault AssertFailure
  | Some idle =>
      let! '(s, T) := xTimerCreateTimerTask ucHeap memory s T in
      Ok (put_kern s (start_variables (kern s)), T, idle)
  end.

(** [None] when something that is checked could not be created: the message that is
    printed then is not modelled. *)
Definition main : res (option started) :=
  let s := start_sys blank in
  let! '(s, xMutex) := xQueueCreateMutex ucHeap memory s queueQUEUE_TYPE_MUTEX in
  if xMutex =? 0 then Ok None else
  let! '(s, xSemaphore) := xQueueCreateCountingSemaphore ucHeap memory s 1 1 in
  if xSemaphore =? 0 then Ok None else
  let! '(s, ySemaphore) := xQueueCreateCountingSemaphore ucHeap memory s 1 0 in
  if ySemaphore =? 0 then Ok None else
  let! '(s, zSemaphore) := xQueueCreateCountingSemaphore ucHeap memory s 1 0 in
  if zSemaphore =? 0 then Ok None else
  let! '(s, taskA) := xTaskCreate ucHeap s (configMINIMAL_STACK_SIZE * 4) (configMAX_PRIORITIES - 2) in
  let! '(s, taskB) := xTaskCreate ucHeap s (configMINIMAL_STACK_SIZE * 4) (configMAX_PRIORITIES - 2) in
  let! '(s, taskC) := xTaskCreate ucHeap s (configMINIMAL_STACK_SIZE * 2) (configMAX_PRIORITIES - 1) in
  match taskA, taskB, taskC with
  | Some taskA, Some taskB, Some taskC =>
      let! '(s, T, xTimers) := xTimerCreate ucHeap memory s no_timers (pdMS_TO_TICKS 10000) true 0 callback in
      let! s := xTimerStart s T xTimers 0 in
      let! '(s, T, idle) := vTaskStartScheduler s T in
      Ok (Some (mkStarted s T (mkHandles xMutex xSemaphore ySemaphore zSemaphore) (mkCrew taskA taskB taskC) xTimers idle))
  | _, _, _ => Ok None
  end.

(** ** While [main] runs *)

Import RtosHeap.RtosHeap.
Context {pt : Patient} (Hplaced : placed ucHeap).
Abbreviation base := (aligned_base ucHeap).

Lemma base_pos : 0 < base /\ base + configTOTAL_HEAP_SIZE < 2 ^ 32 + 8.
Proof. pose proof (aligned_base_range ucHeap Hplaced) as [_ ?]. unfold placed in Hplaced. lia. Qed.

(** [ts] are the tasks created so far, the last one first, [n] is the size of what is
    allocated. *)
Record rising (ts : list (Z * Z)) (n : Z) (s : sys) : Prop := {
  rs_kern : booting ts (kern s);
  rs_typed : typed (fun u => u ∈ ts.*1) (fun _ => 0) (kern s);
  rs_queues N : 0 <= N -> all_ok N s;
  rs_unlocked : all_unlocked s;
  rs_free q h : holders s !! q = Some h -> h = None;
  rs_heap : heap_ok ucHeap (sheap s);
  rs_size : xNextFreeByte (sheap s) = n;
}.

Lemma typed_tasks (T T' : Z -> Prop) H k : (forall u, T u <-> T' u) -> typed T H k -> typed T' H k.
Proof.
  intros E []. split; try done.
  - intros c Hc. by apply E, ty_current0.
  - intros i l Hi. by eapply E, ty_item0.
  - intros l i Hi. by eapply E, ty_on0.
  - intros t Ht. by apply ty_event0, E.
Qed.
Lemma malloc_at s ts n size :
  rising ts n s -> 0 < size < 2 ^ 16 -> n + block_size size < configADJUSTED_HEAP_SIZE ->
  exists h, pvPortMalloc ucHeap (sheap s) size = (base + n, h) /\ heap_ok ucHeap h /\ xNextFreeByte h = n + block_size size.
Proof.
  intros R Hs Hn. assert (is_u 32 size) as Hu by (unfold is_u; lia). pose proof (malloc_ok ucHeap _ size Hplaced (rs_heap _ _ _ R) Hu) as Hok.
  rewrite (malloc_eq ucHeap _ size Hplaced (rs_heap _ _ _ R) Hu) in *. cbn in *. rewrite (rs_size _ _ _ R) in *.
  rewrite (proj2 (Z.ltb_lt 0 size)), (proj2 (Z.ltb_lt _ _) Hn) in * by lia. cbn in *. eexists. by split.
Qed.
Lemma at_nonzero n : 0 <= n < configTOTAL_HEAP_SIZE -> (base + n =? 0) = false.
Proof. intros Hn. pose proof base_pos. apply Z.eqb_neq. lia. Qed.

Lemma booting_clear ts k e : booting ts k -> booting ts (k <| kst := put_list (kst k) (EventList e) (mkSl [] []) |>).
Proof.
  intros B. assert (tasks_on k (EventList e) = []) as He.
  { destruct (tasks_on k (EventList e)) as [|i l] eqn:E; [done|]. assert (container k i = Some (EventList e)) as Hi
      by (apply (tasks_on_iff _ _ _ _ _ (bt_wf _ _ B)); rewrite E; set_solver).
    destruct i as [u|u]; [by destruct (bt_state _ _ B u _ Hi)|]. by rewrite (bt_event _ _ B) in Hi. }
  destruct B. split; try done. by apply clear_list_wf.
Qed.
Lemma booting_lists ts k q : booting ts k -> booting ts (initialise_lists k q).
Proof. intros B. exact (booting_clear ts _ (to_receive q) (booting_clear ts k (to_send q) B)). Qed.
Lemma create_at s ts n c :
  rising ts n s -> creation_ok c -> queue_bytes c < 2 ^ 16 -> 0 <= n -> n + block_size (queue_bytes c) < configADJUSTED_HEAP_SIZE ->
  exists h, create ucHeap memory s c = Ok (with_queue memory s c (base + n) h, base + n) /\
    rising ts (n + block_size (queue_bytes c)) (with_queue memory s c (base + n) h).
Proof.
  intros R Hok Hb H0 Hn. assert (0 < queue_bytes c) as Hp.
  { destruct c as [len size ty|max init|ty]; unfold queue_bytes, sizeof_Queue_t; [destruct Hok as (? & ? & ?); nia|lia..]. }
  destruct (create_exact ucHeap memory s c Hok) as (h & p & Hm & ->).
  destruct (malloc_at s ts n (queue_bytes c) R ltac:(lia) Hn) as (h' & Hm' & Hh & Hx). rewrite Hm in Hm'. injection Hm' as -> ->.
  pose proof (block_size_bounds (queue_bytes c)) as [_ ?]. unfold configADJUSTED_HEAP_SIZE, configTOTAL_HEAP_SIZE, portBYTE_ALIGNMENT in *.
  rewrite at_nonzero by (unfold configTOTAL_HEAP_SIZE; lia). exists h'. split; [done|]. destruct (created_ok memory c (base + n) Hok) as (HQ & [Hrx Htx] & _ & Hho).
  set (Q := new_queue memory c (base + n)) in *. destruct R as [B K A U F _ _]. split; try done.
  - by apply booting_lists.
  - by apply typed_new_lists.
  - intros N HN q' Q'. cbn. fold Q. destruct (decide (base + n = q')) as [<-|Hne]; [rewrite lookup_insert_eq; intros [= <-]|rewrite lookup_insert_ne by done; by apply A].
    split; [done|]. unfold locks_ok. rewrite Hrx, Htx. unfold queueUNLOCKED. lia.
  - intros q' Q'. cbn. fold Q. destruct (decide (base + n = q')) as [<-|Hne]; [rewrite lookup_insert_eq; by intros [= <-]|rewrite lookup_insert_ne by done; by apply U].
  - intros q' h. unfold holders. cbn. fold Q. rewrite lookup_omap. destruct (decide (base + n = q')) as [<-|Hne].
    + rewrite lookup_insert_eq. cbn. rewrite Hho. destruct (is_mutex c); congruence.
    + rewrite lookup_insert_ne by done. rewrite <- lookup_omap. apply F.
Qed.
Lemma task_at s ts n depth p :
  rising ts n s -> 0 < depth < 2 ^ 12 -> 0 <= p < configMAX_PRIORITIES -> Z.of_nat (length ts) < 2 ^ 32 - 1 -> 0 <= n ->
  n + block_size (depth * 4) + block_size sizeof_TCB_t < configADJUSTED_HEAP_SIZE -> base + (n + block_size (depth * 4)) ∉ ts.*1 ->
  let t := base + (n + block_size (depth * 4)) in
  exists s', xTaskCreate ucHeap s depth p = Ok (s', Some t) /\ queues s' = queues s /\
    rising ((t, p) :: ts) (n + block_size (depth * 4) + block_size sizeof_TCB_t) s'.
Proof.
  intros R Hd Hp Hl H0 Hn Hni t. unfold xTaskCreate, sizeof_StackType_t. rewrite (u_small 32) by (unfold is_u; lia).
  pose proof (block_size_bounds (depth * 4)) as [_ ?]. pose proof (block_size_bounds sizeof_TCB_t) as [_ ?].
  unfold configADJUSTED_HEAP_SIZE, configTOTAL_HEAP_SIZE, portBYTE_ALIGNMENT, sizeof_TCB_t in *.
  destruct (malloc_at s ts n (depth * 4) R ltac:(lia)) as (h1 & -> & Hh1 & Hx1); [unfold configADJUSTED_HEAP_SIZE, configTOTAL_HEAP_SIZE, portBYTE_ALIGNMENT; lia|].
  rewrite at_nonzero by (unfold configTOTAL_HEAP_SIZE; lia).
  assert (rising ts (n + block_size (depth * 4)) (s <| sheap := h1 |>)) as R1 by (destruct R; by split).
  destruct (malloc_at _ ts _ 88 R1 ltac:(lia)) as (h2 & -> & Hh2 & Hx2); [unfold configADJUSTED_HEAP_SIZE, configTOTAL_HEAP_SIZE, portBYTE_ALIGNMENT; lia|].
  rewrite at_nonzero by (unfold configTOTAL_HEAP_SIZE; lia). fold t in Hni |- *. cbn [kern]. rsimpl.
  destruct (create_task_ok ts (kern s) t p (rs_kern _ _ _ R) Hni Hp Hl) as (k & E & B). rewrite E. cbn [res_bind]. eexists. split; [done|]. split; [done|].
  destruct R. split; try done. cbn. unfold create_task in E. apply res_bind_ok in E as (k1 & E1 & E2).
  pose proof (typed_init_task _ _ _ _ _ _ E1 Hp eq_refl rs_typed0) as K1. pose proof (typed_add_task _ _ _ _ _ E2 (or_introl eq_refl) K1) as K2.
  eapply typed_tasks; [|exact K2]. intros u. set_solver.
Qed.

(** The timer and its queue. *)
Definition timer_queue : creation := NewQueue configTIMER_QUEUE_LENGTH sizeof_DaemonTaskMessage_t queueQUEUE_TYPE_BASE.
Lemma timer_at s ts n period cb :
  rising ts n s -> 0 < period -> 0 <= n -> n + 288 < configADJUSTED_HEAP_SIZE ->
  exists s' T, xTimerCreate ucHeap memory s no_timers period true 0 cb = Ok (s', T, base + n) /\ xTimerQueue T = base + (n + 48) /\
    queues s' = <[base + (n + 48) := new_queue memory timer_queue (base + (n + 48))]> (queues s) /\ rising ts (n + 288) s'.
Proof.
  intros R Hp H0 Hn. unfold configADJUSTED_HEAP_SIZE, configTOTAL_HEAP_SIZE, portBYTE_ALIGNMENT in Hn. unfold xTimerCreate.
  destruct (malloc_at s ts n sizeof_Timer_t R) as (h1 & -> & Hh1 & Hx1); [by vm_compute|change (block_size sizeof_Timer_t) with 48; unfold configADJUSTED_HEAP_SIZE, configTOTAL_HEAP_SIZE, portBYTE_ALIGNMENT; lia|].
  rewrite at_nonzero by (unfold configTOTAL_HEAP_SIZE; lia).
  assert (rising ts (n + 48) (s <| sheap := h1 |>)) as R1 by (destruct R; by split). set (s1 := s <| sheap := h1 |>) in *.
  change (queues s) with (queues s1). clearbody s1. unfold prvInitialiseNewTimer. rewrite (proj2 (Z.ltb_lt 0 period) Hp). cbn [assert res_bind].
  unfold prvCheckForValidListAndQueue. cbn [xTimerQueue no_timers Z.eqb].
  destruct (create_at s1 ts (n + 48) timer_queue R1) as (h2 & E2 & R2); [by vm_compute|by vm_compute|lia|change (block_size (queue_bytes timer_queue)) with 240; unfold configADJUSTED_HEAP_SIZE, configTOTAL_HEAP_SIZE, portBYTE_ALIGNMENT; lia|].
  cbn [create timer_queue] in E2. rewrite E2. cbn [res_bind]. rewrite at_nonzero by (unfold configTOTAL_HEAP_SIZE; lia).
  unfold vQueueAddToRegistry. rewrite at_nonzero by (unfold configTOTAL_HEAP_SIZE; lia). cbn [negb assert res_bind].
  change (n + 48 + block_size (queue_bytes timer_queue)) with (n + 48 + 240) in R2. replace (n + 48 + 240) with (n + 288) in R2 by lia.
  destruct (entry_to_write _ _ _ _); cbn [res_bind]; (eexists _, _; split; [reflexivity|]); (split; [done|]); (split; [done|]); [|exact R2]. destruct R2; by split.
Qed.
(** The start command is in the queue before the scheduler runs. *)
Lemma send_at s ts n q Q item :
  rising ts n s -> queues s !! q = Some Q -> pcHead_NULL Q = false -> item_ok (uxLength Q) (uxItemSize Q) (Some item) queueSEND_TO_BACK ->
  uxMessagesWaiting Q < uxLength Q ->
  exists s' Q', send_command s (FromTask (xQueueGenericSend (Some item) queueSEND_TO_BACK) q 0) = Ok s' /\ queues s' = <[q := Q']> (queues s) /\ rising ts n s'.
Proof.
  intros R Hq Hm Hi Hw. destruct (rs_queues _ _ _ R 0 ltac:(lia) q Q Hq) as [Hok Hl]. unfold send_command. cbn [start_operation].
  unfold xQueueGenericSend_start, get_queue. rewrite Hq. cbn [res_bind]. destruct (item_asserts _ _ _ _ Hi) as [-> ->]. cbn [assert res_bind].
  rewrite andb_false_r. cbn [negb assert res_bind]. unfold step_call. cbn [step_operation]. unfold xQueueGenericSend_try, get_queue. rewrite Hq. cbn [res_bind].
  rewrite (proj2 (Z.ltb_lt _ _) Hw). cbn [orb].
  destruct (send_data (kern s) q Q (Some item) queueSEND_TO_BACK Hok Hm Hi) as (Q' & E & Hok' & Sq & _); [by rewrite (proj2 (Z.ltb_lt _ _) Hw)|].
  rewrite E. cbn [res_bind].
  assert (listLIST_IS_EMPTY (kern s) (EventList (to_receive q)) = true) as ->.
  { unfold listLIST_IS_EMPTY, seq_empty. fold (tasks_on (kern s) (EventList (to_receive q))). destruct (tasks_on _ _) as [|i l] eqn:Et; [done|].
    pose proof (rs_kern _ _ _ R) as B. assert (container (kern s) i = Some (EventList (to_receive q))) as Hc
      by (apply (tasks_on_iff _ _ _ _ _ (bt_wf _ _ B)); rewrite Et; set_solver).
    destruct i as [u|u]; [by destruct (bt_state _ _ B u _ Hc)|]. by rewrite (bt_event _ _ B) in Hc. }
  cbn [negb res_bind]. eexists _, Q'. split; [reflexivity|]. split; [done|]. destruct R as [B K A U F Hh Hx]. split; try done.
  - intros N HN q' Q0. cbn. destruct (decide (q = q')) as [<-|]; [rewrite lookup_insert_eq; intros [= <-]|rewrite lookup_insert_ne by done; by apply A].
    split; [done|]. unfold locks_ok in *. rewrite (sq_rx _ _ Sq), (sq_tx _ _ Sq). destruct (U q Q Hq) as [-> ->]. unfold queueUNLOCKED. lia.
  - intros q' Q0. cbn. destruct (decide (q = q')) as [<-|]; [rewrite lookup_insert_eq; intros [= <-]|rewrite lookup_insert_ne by done; by apply U].
    unfold unlocked. rewrite (sq_rx _ _ Sq), (sq_tx _ _ Sq). by apply (U q).
  - intros q' h. unfold holders. cbn. rewrite (holders_same (queues s) q Q Q' Hq); [apply F|apply Sq].
Qed.

Lemma rising_start : rising [] 0 (start_sys blank).
Proof.
  split; try done; [apply blank_booting| |apply heap_start_ok]. split; try done.
  - intros l i Hi. change (i ∈ @nil kitem) in Hi. by apply not_elem_of_nil in Hi.
  - intros t Ht. by apply not_elem_of_nil in Ht.
Qed.
(** The addresses, from the start of the aligned heap on. *)
Definition main_handles : handles := mkHandles base (base + 80) (base + 160) (base + 240).
Definition main_crew : crew := mkCrew (base + 1760) (base + 3288) (base + 4096).
Definition main_tasks : list (Z * Z) :=
  [(base + 5640, configTIMER_TASK_PRIORITY); (base + 4832, tskIDLE_PRIORITY); (base + 4096, configMAX_PRIORITIES - 1);
   (base + 3288, configMAX_PRIORITIES - 2); (base + 1760, configMAX_PRIORITIES - 2)].
Definition main_queues (Q : Queue_t) : gmap Z Queue_t :=
  <[base + 4232 := Q]> (<[base + 240 := new_queue memory (NewCounting 1 0) (base + 240)]> (<[base + 160 := new_queue memory (NewCounting 1 0) (base + 160)]>
    (<[base + 80 := new_queue memory (NewCounting 1 1) (base + 80)]> (<[base := new_queue memory (NewMutex queueQUEUE_TYPE_MUTEX) base]> ∅)))).

Ltac heap_fits := unfold configADJUSTED_HEAP_SIZE, configTOTAL_HEAP_SIZE, portBYTE_ALIGNMENT; lia.
Ltac new_task := cbn; rewrite !not_elem_of_cons; split_and!; first [lia|apply not_elem_of_nil].
(** A queue or semaphore at the offset [n]. *)
Lemma created_at s ts n c m :
  rising ts n s -> creation_ok c -> queue_bytes c < 2 ^ 16 -> 0 <= n -> m = n + block_size (queue_bytes c) -> m < configADJUSTED_HEAP_SIZE ->
  exists s', create ucHeap memory s c = Ok (s', base + n) /\ (base + n =? 0) = false /\
    queues s' = <[base + n := new_queue memory c (base + n)]> (queues s) /\ rising ts m s'.
Proof.
  intros R Hok Hb H0 -> Hn. destruct (create_at s ts n c R Hok Hb H0 Hn) as (h & E & R'). eexists. split; [exact E|]. split; [|done]. apply at_nonzero.
  pose proof (block_size_bounds (queue_bytes c)) as [_ ?]. unfold configADJUSTED_HEAP_SIZE, portBYTE_ALIGNMENT in Hn.
  assert (0 < queue_bytes c); [|lia]. destruct c; cbn; unfold sizeof_Queue_t; [destruct Hok as (? & ? & ?); nia|lia..].
Qed.
Lemma made_at s ts n depth p t m :
  rising ts n s -> 0 < depth < 2 ^ 12 -> 0 <= p < configMAX_PRIORITIES -> Z.of_nat (length ts) < 2 ^ 32 - 1 -> 0 <= n ->
  t = base + (n + block_size (depth * 4)) -> m = n + block_size (depth * 4) + block_size sizeof_TCB_t -> m < configADJUSTED_HEAP_SIZE -> t ∉ ts.*1 ->
  exists s', xTaskCreate ucHeap s depth p = Ok (s', Some t) /\ queues s' = queues s /\ rising ((t, p) :: ts) m s'.
Proof. intros R Hd Hp Hl H0 -> -> Hn Hni. by apply task_at. Qed.

Lemma scheduler_ok s ts T :
  rising ts 4472 s -> xTimerQueue T = base + 4232 -> (length ts < 10)%nat -> base + 4832 ∉ ts.*1 -> base + 5640 ∉ ts.*1 ->
  exists s' T', vTaskStartScheduler s T = Ok (put_kern s' (start_variables (kern s')), T', base + 4832) /\ queues s' = queues s /\
    rising ((base + 5640, configTIMER_TASK_PRIORITY) :: (base + 4832, tskIDLE_PRIORITY) :: ts) 5728 s'.
Proof.
  intros R ET Hl H1 H2. unfold vTaskStartScheduler.
  destruct (made_at s ts 4472 configMINIMAL_STACK_SIZE tskIDLE_PRIORITY (base + 4832) 4920 R) as (s1 & -> & Q1 & R1);
    [done|done|lia|lia|done|done|heap_fits|done|]. cbn [res_bind].
  unfold xTimerCreateTimerTask, prvCheckForValidListAndQueue. rewrite ET, at_nonzero by (by vm_compute). cbn [res_bind]. rewrite ET, at_nonzero by (by vm_compute).
  cbn [negb assert res_bind].
  destruct (made_at s1 _ 4920 configTIMER_TASK_STACK_DEPTH configTIMER_TASK_PRIORITY (base + 5640) 5728 R1) as (s2 & -> & Q2 & R2);
    [done|done|cbn; lia|lia|done|done|heap_fits|cbn; rewrite not_elem_of_cons; split; [lia|done]|]. cbn [res_bind].
  eexists s2, _. split; [reflexivity|]. split; [congruence|done].
Qed.
Lemma main_ok :
  length rest = 4%nat ->
  exists s T Q, main = Ok (Some (mkStarted (put_kern s (start_variables (kern s))) T main_handles main_crew (base + 4184) (base + 4832))) /\
    rising main_tasks 5728 s /\ queues s = main_queues Q.
Proof.
  intros Hrest. unfold main.
  destruct (created_at _ _ _ (NewMutex queueQUEUE_TYPE_MUTEX) 80 rising_start) as (s1 & E1 & N1 & Q1 & R1); [done|by vm_compute|lia|done|heap_fits|].
  rewrite Z.add_0_r in E1, N1, Q1. cbn [create] in E1. rewrite E1. cbn [res_bind]. rewrite N1.
  destruct (created_at _ _ _ (NewCounting 1 1) 160 R1) as (s2 & E2 & N2 & Q2 & R2); [done|by vm_compute|lia|done|heap_fits|].
  cbn [create] in E2. rewrite E2. cbn [res_bind]. rewrite N2.
  destruct (created_at _ _ _ (NewCounting 1 0) 240 R2) as (s3 & E3 & N3 & Q3 & R3); [done|by vm_compute|lia|done|heap_fits|].
  cbn [create] in E3. rewrite E3. cbn [res_bind]. rewrite N3.
  destruct (created_at _ _ _ (NewCounting 1 0) 320 R3) as (s4 & E4 & N4 & Q4 & R4); [done|by vm_compute|lia|done|heap_fits|].
  cbn [create] in E4. rewrite E4. cbn [res_bind]. rewrite N4. clear E1 E2 E3 E4 N1 N2 N3 N4 R1 R2 R3.
  destruct (made_at s4 [] 320 (configMINIMAL_STACK_SIZE * 4) (configMAX_PRIORITIES - 2) (base + 1760) 1848 R4) as (s5 & -> & Q5 & R5);
    [done|done|done|lia|done|done|heap_fits|set_solver|]. cbn [res_bind].
  destruct (made_at s5 _ 1848 (configMINIMAL_STACK_SIZE * 4) (configMAX_PRIORITIES - 2) (base + 3288) 3376 R5) as (s6 & -> & Q6 & R6);
    [done|done|done|lia|done|done|heap_fits|new_task|]. cbn [res_bind].
  destruct (made_at s6 _ 3376 (configMINIMAL_STACK_SIZE * 2) (configMAX_PRIORITIES - 1) (base + 4096) 4184 R6) as (s7 & -> & Q7 & R7);
    [done|done|done|lia|done|done|heap_fits|new_task|]. cbn [res_bind].
  destruct (timer_at s7 _ 4184 (pdMS_TO_TICKS 10000) callback R7) as (s8 & T & -> & ET & Q8 & R8); [done|lia|heap_fits|]. cbn [res_bind].
  change (4184 + 48) with 4232 in ET, Q8. change (4184 + 288) with 4472 in R8. unfold xTimerStart, xTimerGenericCommand. rewrite at_nonzero, ET by (by vm_compute). cbn [negb assert res_bind].
  set (bs := message_bytes _ rest). rewrite at_nonzero by (by vm_compute). change (tmrCOMMAND_START <? tmrFIRST_FROM_ISR_COMMAND) with true. cbn [res_bind].
  assert (queues s8 !! (base + 4232) = Some (new_queue memory timer_queue (base + 4232))) as HQ by (by rewrite Q8, lookup_insert_eq).
  assert ((if xSchedulerRunning (kern s8) && (uxSchedulerSuspended (kern s8) =? 0) then 0 else 0) = 0) as -> by (by destruct (_ && _)).
  destruct (send_at s8 _ 4472 (base + 4232) _ bs R8 HQ) as (s9 & Q & -> & Q9 & R9); [done| |done|].
  { split; [|by left]. exists bs. split; [done|]. unfold bs. cbn [message_bytes]. rewrite !length_app, Hrest. done. }
  cbn [res_bind]. destruct (scheduler_ok s9 _ T R9 ET) as (s11 & T' & -> & Q11 & R11); [cbn; lia|new_task..|].
  cbn [res_bind].
  exists s11, T', Q. split; [reflexivity|]. split; [exact R11|].
  rewrite Q11, Q9, Q8, Q7, Q6, Q5, Q4, Q3, Q2, Q1. unfold main_queues. by rewrite insert_insert_eq.
Qed.
Lemma rising_highest s : rising main_tasks 5728 s -> pxCurrentTCB (kern s) = Some (base + 4096).
Proof.
  intros [[] _ _ _ _ _ _]. destruct bt_current0 as (c & -> & Hr & Hmax). f_equal.
  assert (c ∈ main_tasks.*1) as Hc. { apply dec_stable. intros Hn. unfold ready in Hr. by rewrite (bt_free0 c Hn) in Hr. }
  assert (4 <= priority (kern s) c) as H4.
  { destruct (bt_ready0 (base + 4096) 4) as [Ht <-]; [set_solver|by apply Hmax]. }
  apply list_elem_of_fmap in Hc as ([c' p] & -> & Hc). destruct (bt_ready0 _ _ Hc) as [_ Hp]. cbn [fst] in *. rewrite Hp in H4. clear -Hc H4.
  unfold main_tasks in Hc. rewrite !elem_of_cons in Hc. unfold configTIMER_TASK_PRIORITY, tskIDLE_PRIORITY, configMAX_PRIORITIES in Hc. by destruct Hc as [[= -> ->]|[[= -> ->]|[[= -> ->]|[[= -> ->]|[[= -> ->]|Hc%elem_of_nil]]]]].
Qed.
End main.

(** What the handles of the demo point to. *)
Definition objects (st : started) : list Z :=
  [xMutex (st_handles st); xSemaphore (st_handles st); ySemaphore (st_handles st); zSemaphore (st_handles st);
   taskA (st_crew st); taskB (st_crew st); taskC (st_crew st); st_timer st; st_idle st].

(** C27: wherever the linker puts the heap of 8192 bytes, [main] gets the memory for the
    mutex, the three semaphores, the tasks, the timer with its queue and task, and the
    idle task: no message of failure is printed and the scheduler is started with
    task C, the one of the highest priority.  The objects are different, lie in the
    heap at multiples of 8, and 2456 bytes are left. *)
Theorem demo_starts (ucHeap : Z) (memory : Z -> Z) (rest : list Z) (callback : Z) :
  RtosHeap.RtosHeap.placed ucHeap -> length rest = 4%nat ->
  exists st, main ucHeap memory rest callback = Ok (Some st) /\
    xSchedulerRunning (kern (st_sys st)) = true /\ pxCurrentTCB (kern (st_sys st)) = Some (taskC (st_crew st)) /\
    NoDup (objects st) /\ Forall (fun p => ucHeap <= p < ucHeap + RtosHeap.RtosHeap.configTOTAL_HEAP_SIZE /\ p mod 8 = 0) (objects st) /\
    RtosHeap.RtosHeap.xPortGetFreeHeapSize (sheap (st_sys st)) = 2456.
Proof.
  intros Hp Hr. destruct (main_ok ucHeap memory rest callback (pt := nobody) Hp Hr) as (s & T & Q & E & R & _). eexists. split; [exact E|].
  destruct (RtosHeap.RtosHeap.aligned_base_range ucHeap Hp) as [Hm Hb]. assert (pxCurrentTCB (kern s) = Some (RtosHeap.RtosHeap.aligned_base ucHeap + 4096)) as Hc by (by eapply rising_highest).
  split_and!; [done|exact Hc|unfold objects; cbn; repeat apply NoDup_cons_2; try apply NoDup_nil_2; rewrite ?not_elem_of_cons; split_and?; (lia || set_solver)| |].
  - unfold objects. cbn [st_handles st_crew st_timer st_idle xMutex xSemaphore ySemaphore zSemaphore taskA taskB taskC main_handles main_crew]. repeat apply Forall_cons_2; try apply Forall_nil_2; (split; [unfold RtosHeap.RtosHeap.configTOTAL_HEAP_SIZE; lia|]); (exact Hm || by rewrite <- Z.add_mod_idemp_l, Hm).
  - unfold RtosHeap.RtosHeap.xPortGetFreeHeapSize. cbn. by rewrite (rs_size _ _ _ _ R).
Qed.
Lemma demo_starts_witness :
  exists st, main 0x20400004 (fun _ => 0) [0; 0; 0; 0] 1 = Ok (Some st) /\
    xSchedulerRunning (kern (st_sys st)) = true /\ pxCurrentTCB (kern (st_sys st)) = Some (taskC (st_crew st)) /\
    NoDup (objects st) /\ Forall (fun p => 0x20400004 <= p < 0x20400004 + RtosHeap.RtosHeap.configTOTAL_HEAP_SIZE /\ p mod 8 = 0) (objects st) /\
    RtosHeap.RtosHeap.xPortGetFreeHeapSize (sheap (st_sys st)) = 2456.
Proof. apply (demo_starts 0x20400004 (fun _ => 0) [0; 0; 0; 0] 1); done. Defined.
End DemoMain.
