(* ===== verification/DemoRun.v ===== *)
(** * The demo from its start on

    The state in which [main] starts the scheduler satisfies the invariant of the
    tasks, so every state the demo reaches does. *)

From S2P Require Import Prelude Words RtosList RtosHeap RtosSeq RtosSched RtosSchedInv RtosTick RtosSchedProps RtosRun RtosSteady RtosTyped RtosBoot.
From S2P Require Import RtosQueue RtosQueueData RtosQueueSys RtosQueueRun RtosLock RtosMachine RtosProgram RtosTimer RtosWait DemoTasks DemoProps DemoInv DemoMain.
From stdpp Require Import list strings.
#[local] Set Warnings "-clear-no-such-hyp".
#[local] Open Scope Z_scope.

Module DemoRun.
Export DemoInv DemoMain.
Import RtosHeap.RtosHeap.

Section start.
Context (ucHeap : Z) (memory : Z -> Z) (rest : list Z) (callback : Z).
Abbreviation base := (aligned_base ucHeap).

Lemma rising_minv {pt : Patient} ts n s idle :
  rising ucHeap ts n s -> (idle, 0) ∈ ts -> Z.of_nat (size (queues s)) < 2 ^ 32 ->
  minv (stc := False) (Z.of_nat (length ts)) idle (fun u => u ∈ ts.*1) (mkMachine (put_kern s (start_variables (kern s))) ∅ []).
Proof.
  intros [B K A U F _ _] Hi Hsz. split; cbn -[holders]; try done.
  - split; cbn; [by eapply started_inv|apply A; lia|done|apply B].
  - apply (typed_same _ _ (kern s)); [|done..]. eapply typed_ext; [|exact K]. intros t. symmetry. by apply nothing_held.
  - pose proof (holders_size s). change (Z.of_nat (size (holders s)) < 2 ^ 32). lia.
  - constructor.
  - intros q t. rewrite lookup_empty. split; [done|]. intros Hh. by apply F in Hh.
Qed.
Lemma main_lookup Q :
  main_queues ucHeap memory Q !! base = Some (new_queue memory (NewMutex queueQUEUE_TYPE_MUTEX) base) /\
  main_queues ucHeap memory Q !! (base + 80) = Some (new_queue memory (NewCounting 1 1) (base + 80)) /\
  main_queues ucHeap memory Q !! (base + 160) = Some (new_queue memory (NewCounting 1 0) (base + 160)) /\
  main_queues ucHeap memory Q !! (base + 240) = Some (new_queue memory (NewCounting 1 0) (base + 240)).
Proof. unfold main_queues. split_and!; repeat (rewrite lookup_insert_ne by lia); by rewrite lookup_insert_eq. Qed.
Lemma main_size Q : (size (main_queues ucHeap memory Q) <= 5)%nat.
Proof.
  assert (forall k (v : Queue_t) (m : gmap Z Queue_t) n, (size m <= n)%nat -> (size (<[k := v]> m) <= S n)%nat) as H.
  { intros k v m n Hm. rewrite map_size_insert. destruct (m !! k); cbn; lia. }
  unfold main_queues. repeat apply H. by rewrite map_size_empty.
Qed.

Context {HW : Type} {HB : Board HW}.
(** The tasks at their start; [old] is what the variable of task A on its stack holds. *)
Definition start_demo (st : started) (x : HW) (old : Z) : demo HW :=
  mkDemo (mkMachine (st_sys st) ∅ [])
    {[taskA (st_crew st) := ReadSpeedTask old; taskB (st_crew st) := CheckSpeedTask; taskC (st_crew st) := TaskCodeC]} x 0 [].
Inductive dreachable (st : started) (x : HW) (old : Z) : demo HW -> Prop :=
  | dr_start : dreachable st x old (start_demo st x old)
  | dr_step d e d' : dreachable st x old d -> denabled (st_handles st) (st_crew st) (st_idle st) d e ->
      run_devent (st_handles st) (st_crew st) d e = Ok d' -> dreachable st x old d'.

Lemma main_apart : apart (main_handles ucHeap) (main_crew ucHeap) (base + 4832).
Proof. split; cbn; try lia. unfold member. cbn. lia. Qed.
Context (Hplaced : placed ucHeap) (Hrest : length rest = 4%nat).
Abbreviation main_demo_inv st := (holds (st_handles st) (st_crew st) 5 (st_idle st) (fun u => u ∈ (main_tasks ucHeap).*1)).

Lemma start_holds st x old : main ucHeap memory rest callback = Ok (Some st) -> printed x [] [] -> main_demo_inv st (start_demo st x old).
Proof.
  intros E Hx. destruct (main_ok ucHeap memory rest callback (pt := member (main_crew ucHeap)) Hplaced Hrest) as (s & T & Q & E' & R & Hq).
  rewrite E in E'. injection E' as ->. cbn [st_handles st_crew st_idle]. pose proof main_apart as AP. destruct (main_lookup Q) as (Lm & Lx & Ly & Lz). rewrite <- Hq in Lm, Lx, Ly, Lz.
  exists (fun _ => mkLocal None None), [], [], AtX, fresh. split; cbn [os code board g_last_speed speeds start_demo st_sys st_crew].
  - split; cbn -[qtypes]; try (unfold qtypes; cbn; rewrite lookup_fmap; by (rewrite Lm || rewrite Lx || rewrite Ly)).
    + apply (rising_minv (main_tasks ucHeap) 5728 s); [done|set_solver|]. pose proof (main_size Q). rewrite Hq. lia.
    + exists 1. unfold qtypes. cbn. by rewrite lookup_fmap, Lz.
    + done.
    + intros t _ _. apply (rs_kern _ _ _ _ R).
  - intros t Ht. destruct AP, Ht as [-> |[-> | ->]]; [exists (ReadSpeedTask old)|exists CheckSpeedTask|exists TaskCodeC]; simplify_map_eq; by split_and!.
  - split; [|done]. intros t. cbn [lock_log]. change (owned []) with (∅ : gmap Z Z). rewrite lookup_empty. split; [done|]. by intros [_ []].
  - split; try done; unfold count; cbn; by rewrite ?Lx, ?Ly.
  - split; try done. cbn. lia.
  - exact Hx.
Qed.
Lemma reachable_holds st x old d :
  main ucHeap memory rest callback = Ok (Some st) -> printed x [] [] -> dreachable st x old d -> main_demo_inv st d.
Proof.
  intros E Hx. induction 1 as [|d e d' _ IH He Ed]; [by apply start_holds|].
  destruct (main_ok ucHeap memory rest callback (pt := nobody) Hplaced Hrest) as (s & T & Q & E' & _). rewrite E in E'. injection E' as ->.
  destruct (devent_ok _ _ 5 ltac:(lia) _ _ main_apart d e IH He) as (d1 & E1 & H1). assert (Ok d1 = Ok d') as [= ->] by (rewrite <- E1; exact Ed). exact H1.
Qed.
End start.

(** ** What was printed *)

(** The messages of A and B are those of the rounds, one after the other, up to where
    the tasks are; those of C are all the same. *)
Definition transcript (w : crew) (speeds : list Z) (msgs : list (Z * list Z)) : Prop :=
  filter (fun m => m.1 <> taskC w) msgs `prefix_of` (speeds ≫= round w) ++ [(taskA w, msg_reading)] /\
  Forall (fun m => m.1 = taskC w -> m.2 = msg_timer) msgs.
Lemma script_transcript w msgs vs r sp g : script_ok w msgs vs r sp g -> transcript w sp msgs.
Proof.
  intros [Hr -> Hm Ht]. split; [|done]. rewrite Hm, bind_app, <- app_assoc. apply prefix_app. destruct (value r) as [v|]; cbn [option_list default].
  - change ([v] ≫= round w) with (round w v). apply prefix_app_r, prefix_take.
  - destruct Hr as [Hn _]. destruct (said r) as [|[|n]]; [apply prefix_nil|by cbn|lia].
Qed.
Section output.
Context {HW : Type} {HB : Board HW} (h : handles) (w : crew) (N idle : Z) (T : Z -> Prop).
Lemma holds_transcript (d : demo HW) :
  holds h w N idle T d ->
  exists msgs, transcript w (speeds d) msgs /\
    (printed (board d) (concat msgs.*2) (speeds d) \/
     exists t s rest, transcript w (speeds d) (msgs ++ [(t, s ++ rest)]) /\ printed (board d) (concat msgs.*2 ++ s) (speeds d)).
Proof.
  intros (ls & msgs & vs & pl & r & [O K [P1 P2] U S B]). exists msgs. split; [by eapply script_transcript|]. unfold part in B.
  destruct (owned (lock_log (os d)) !! xMutex h) as [t|] eqn:Eo; [|left; by rewrite app_nil_r in B]. destruct (proj1 (P1 t) eq_refl) as [Ht Hw].
  destruct (writing (ls t)) as [[s rest]|] eqn:Ew; [|done]. right. exists t, s, rest. split; [|done]. specialize (P2 t s rest Ht Ew). unfold may_print in P2.
  destruct (Z.eqb_spec t (taskC w)) as [->|Hne].
  - rewrite P2. eapply script_transcript, script_timer, S.
  - destruct P2 as (r0 & Er & Hn). destruct (turns_at h w N T _ _ _ _ _ _ U Ht Er) as (-> & _). by eapply script_transcript, script_next.
Qed.
(** The timer task can call the callback whenever it runs outside a call. *)
Lemma callback_enabled (d : demo HW) t :
  apart h w idle -> holds h w N idle T d -> xPendSV (kern (msys (os d))) = false -> pxCurrentTCB (kern (msys (os d))) = Some t -> ~ member w t ->
  in_call (os d) !! t = None -> denabled h w idle d (Outside (vTimerCallback h)).
Proof.
  intros AP (ls & msgs & vs & pl & r & [[_ Om _ _ [len Oz] _ _] _ _ _ _ _]) Hp Ht Hm Hc. cbn. rewrite Hp, Ht. split_and!; try done.
  - by intros u [= <-].
  - intros u _. left. exists len, 0. split; [done|]. split; [done|]. by left.
  - by intros u [= <-].
  - destruct AP. intros [E|[E|E]]; [|done..]. rewrite E in Oz. congruence.
Qed.
End output.

(** ** A run

    The tasks run until they block, the timer task sleeps after its calls, and the tick
    interrupt comes when there is nothing to do. *)
Section run.
Context {HW : Type} {HB : Board HW} (h : handles) (w : crew) (idle : Z).
Definition next_event (d : demo HW) : devent :=
  if xPendSV (kern (msys (os d))) then Outside (QInterrupt QPendSV)
  else match pxCurrentTCB (kern (msys (os d))) with
       | None => Outside (QInterrupt QSysTick)
       | Some t =>
           if bool_decide (t = taskA w \/ t = taskB w \/ t = taskC w) then Inside (fun _ => []) [] []
           else if bool_decide (in_call (os d) !! t <> None) then Outside (QStep (fun _ => []))
           else if bool_decide (t = idle \/ uxSchedulerSuspended (kern (msys (os d))) <> 0) then Outside (QInterrupt QSysTick)
           else Outside (QKernel (Delay 500 [] []))
       end.
Fixpoint autopilot (n : nat) (d : demo HW) : res (demo HW) :=
  match n with O => Ok d | S n => let! d := run_devent h w d (next_event d) in autopilot n d end.
Lemma next_enabled d : denabled h w idle d (next_event d).
Proof.
  unfold next_event. destruct (xPendSV _) eqn:Es; [by split; repeat constructor|].
  destruct (pxCurrentTCB _) as [t|] eqn:Et; [|by split; repeat constructor]. case_bool_decide as Ht.
  - split; [done|]. split; [by exists t|]. split; [by intros n|]. intros n q _. constructor.
  - case_bool_decide as Hc.
    { cbn. split_and!; try done; [by intros n; constructor|rewrite Et; by intros u [= <-]|by intros n q _; constructor]. }
    case_bool_decide as Hi; [by split; repeat constructor|]. cbn. rewrite Es, Et.
    assert (t <> idle /\ uxSchedulerSuspended (kern (msys (os d))) = 0 /\ in_call (os d) !! t = None) as (Hn & Hs & Hc').
    { split_and!; apply dec_stable; naive_solver. }
    split_and!; try done; try (intros u [= <-]; done). congruence.
Qed.
End run.
Lemma autopilot_reaches {HW} {HB : Board HW} st (x : HW) old n d d' :
  dreachable st x old d -> autopilot (st_handles st) (st_crew st) (st_idle st) n d = Ok d' -> dreachable st x old d'.
Proof.
  revert d. induction n as [|n IH]; intros d Hd E; [by injection E as <-|]. cbn [autopilot] in E.
  destruct (run_devent _ _ d _) as [d1|] eqn:E1; [|done]. eapply IH; [|exact E].
  econstructor; [exact Hd|apply next_enabled|exact E1].
Qed.

(** ** The theorem *)

(** C10: from the start of the scheduler on, whatever the interrupts, the idle task and
    the timer task do - on any board that sends bytes and reads values - a step of the
    tasks of the demo, or of the outside, never reaches a fault: no assertion of
    FreeRTOS fails, no pointer that is followed is null, no string is read past its end
    and every call of a device returns. *)
Theorem demo_never_faults {HW} {HB : Board HW} ucHeap memory rest callback st (x : HW) old d e :
  RtosHeap.RtosHeap.placed ucHeap -> length rest = 4%nat -> main ucHeap memory rest callback = Ok (Some st) ->
  printed x [] [] -> dreachable st x old d -> denabled (st_handles st) (st_crew st) (st_idle st) d e ->
  exists d', run_devent (st_handles st) (st_crew st) d e = Ok d'.
Proof.
  intros Hp Hr E Hx Hd He. pose proof (reachable_holds ucHeap memory rest callback Hp Hr st x old d E Hx Hd) as H.
  destruct (main_ok ucHeap memory rest callback (pt := nobody) Hp Hr) as (s & T & Q & E' & _). rewrite E in E'. injection E' as ->.
  destruct (devent_ok _ _ 5 ltac:(lia) _ _ (main_apart ucHeap) d e H He) as (d' & Ed & _). by exists d'.
Qed.

(** A board that keeps the bytes and has a list of speeds to be read. *)
#[local] Instance paper : Board (list Z * list Z).
Proof.
  refine {| send_byte x b := Ok (x.1 ++ [b], x.2);
            read_value x _ _ := match x.2 with [] => Ok (x, 0) | v :: vs => Ok ((x.1, vs), v) end;
            printed x bs _ := x.1 = bs /\ Forall (is_u 8) x.2 |}.
  - intros x bs vs b [<- H] _. by eexists.
  - intros [x [|v vs]] bs read old [<- H]; [by eexists _, _|]. apply Forall_cons in H as [Hv H]. by eexists _, _.
Defined.
Definition a_start : started :=
  match main 0x20400000 (fun _ => 0) [0; 0; 0; 0] 1 with
  | Ok (Some st) => st
  | _ => mkStarted (start_sys blank) no_timers (mkHandles 0 0 0 0) (mkCrew 0 0 0) 0 0
  end.
Lemma a_heap_placed : RtosHeap.RtosHeap.placed 0x20400000.
Proof. done. Qed.
Lemma a_start_main : main 0x20400000 (fun _ => 0) [0; 0; 0; 0] 1 = Ok (Some a_start).
Proof. vm_compute. reflexivity. Qed.
Lemma a_start_apart : apart (st_handles a_start) (st_crew a_start) (st_idle a_start).
Proof.
  assert (st_handles a_start = main_handles 0x20400000 /\ st_crew a_start = main_crew 0x20400000 /\ st_idle a_start = 541070048) as (-> & -> & ->)
    by (vm_compute; done).
  exact (main_apart 0x20400000).
Qed.
Lemma a_start_timer : ~ member (st_crew a_start) 541070856.
Proof. unfold member. vm_compute. by intros [H|[H|H]]. Qed.
(** The state after a number of steps: in 1500 of them task A reads and prints a
    speed and task B checks it. *)
Definition a_run (n : nat) : demo (list Z * list Z) :=
  let d := start_demo a_start ([], [210]) 0 in
  match autopilot (st_handles a_start) (st_crew a_start) (st_idle a_start) n d with Ok d => d | Fault _ => d end.
Lemma a_run_prints :
  (board (a_run 1500)).1 =
    msg_reading ++ msg_speed ++ bytes "210" ++ msg_rpm ++ msg_checking ++ msg_status 210 /\ speeds (a_run 1500) = [210].
Proof. by vm_compute. Qed.
Lemma a_run_reached : dreachable a_start ([], [210]) 0 (a_run 1500).
Proof.
  unfold a_run. cbv zeta. destruct (autopilot _ _ _ _ _) as [d|] eqn:E; [|constructor]. eapply autopilot_reaches; [constructor|exact E].
Qed.
Lemma demo_never_faults_witness :
  exists d', run_devent (st_handles a_start) (st_crew a_start) (a_run 1500) (next_event (st_crew a_start) (st_idle a_start) (a_run 1500)) = Ok d'.
Proof.
  apply (demo_never_faults 0x20400000 (fun _ => 0) [0; 0; 0; 0] 1 a_start ([], [210]) 0).
  - done.
  - reflexivity.
  - apply a_start_main.
  - split; [reflexivity|]. by repeat constructor.
  - apply a_run_reached.
  - apply next_enabled.
Defined.
End DemoRun.
