(* ===== verification/DemoBoard.v ===== *)
(** * The demo on the board

    The devices of the demo - LPUART 3 with its driver, LPSPI 2 with its driver and the
    motor sensor behind it - implement what the tasks expect of a board, so what is
    known of the tasks holds of the bytes that reach the character back end. *)

From S2P Require Import Prelude Words Fifo Ssi Lpspi LpspiSpec LpspiProps SpiDriver SpiDriverProps SpiExchange SpiSystem SpiDemo.
From S2P Require Import Chardev Lpuart UartDriver UartDriverProps UartSystem UartDemo.
From S2P Require Import RtosHeap RtosQueue RtosProgram DemoTasks DemoProps DemoInv DemoMain DemoRun.
From stdpp Require Import list strings.
#[local] Open Scope Z_scope.

Module DemoBoard.
Export DemoRun.
Import Lpuart (NXPS32K358LPUARTState, CharPort, port_ok, uart_ok, qemu_chr_fe_write_all, chr_ioctl_speed).
Import Lpspi (NXPS32K358LPSPIState, ssi).
Import SpiDriver (driver, Lpspi_Ip_Init, apxState, axState, apxBases, LPSPI_IP_STATUS_SUCCESS, Lpspi_Ip_PhyUnitConfig_SpiPhyUnit_0_Instance_2).
Import UartDriver (udriver, apBases, LpuartHeader, Lpuart_Uart_Ip_Init, Lpuart_Uart_Ip_xHwConfigPB_3).

Section board.
Context {C : Type} {HC : CharPort C} {HH : LpuartHeader} {HD : DocumentedLpuart}.
Context {W : Type} {HR : MotorSpeed.RandLib W} {HL : LpspiHeader} {HDL : DocumentedHeader} {HDF : DocumentedFields}.
Abbreviation uart := (udriver (C * NXPS32K358LPUARTState)).
Abbreviation spi := (driver (NXPS32K358LPSPIState (B := MotorSpeed.MotorBus (W := W)))).

Definition board_send (x : uart * spi) (byte : Z) : res (uart * spi) :=
  let! g := UartDemo.UART_send_byte (fst x) byte in Ok (g, snd x).
(** The call returns within four rounds of the polling loop. *)
Definition board_read (x : uart * spi) (cmd received_value : Z) : res (uart * spi * Z) :=
  let! r := SpiDemo.Motor_Sensor_ReadValue 4 (snd x) cmd [received_value] in
  match r with
  | Some (rx, g) => let! v := load rx 0 in Ok (fst x, g, v)
  | None => Fault OutOfFuel
  end.
(** The initialisation of the devices in [main]. *)
Definition board_init (x : uart * spi) : res (uart * spi) :=
  let! g := Lpuart_Uart_Ip_Init (fst x) UartDemo.UART_LPUART_INTERNAL_CHANNEL Lpuart_Uart_Ip_xHwConfigPB_3 in
  let! '(_, g') := Lpspi_Ip_Init (snd x) Lpspi_Ip_PhyUnitConfig_SpiPhyUnit_0_Instance_2 in
  Ok (g, g').

(** The back end was in the state [c0] and has been handed the bytes [bs] since; the
    sensor has drawn the values [vs], from [w0] on; both devices are ready. *)
Definition board_printed (c0 : C) (w0 : W) (x : uart * spi) (bs vs : list Z) : Prop :=
  (exists s, UartDemo.idle (fst x) (UartSystem.writes c0 bs) s) /\
  exists i st s p w, SpiSystem.channel_ready (snd x) 2 i st s /\ ssi s = ([p], w) /\
    forall n, SpiDemo.drawn (length vs + n) w0 = vs ++ SpiDemo.drawn n w.
Lemma board_send_ok c0 w0 x bs vs b :
  board_printed c0 w0 x bs vs -> is_u 8 b -> exists x', board_send x b = Ok x' /\ board_printed c0 w0 x' (bs ++ [b]) vs.
Proof.
  intros [(s & Hi) Hs] Hb. unfold board_send. destruct (UartDemo.send_byte_exact _ _ s b Hi Hb) as (g & -> & Hi'). cbn [res_bind].
  eexists. split; [done|]. split; [|done]. exists (UartSystem.after_send s 1). unfold UartSystem.writes in *. by rewrite foldl_app.
Qed.
Lemma board_read_ok c0 w0 x bs vs old :
  board_printed c0 w0 x bs vs -> exists x' v, board_read x CMD_GET_SPEED old = Ok (x', v) /\ is_u 8 v /\ board_printed c0 w0 x' bs (vs ++ [v]).
Proof.
  intros [Hu (i & st & s & p & w & Hr & Hb & Hd)]. unfold board_read.
  destruct (SpiDemo.read_speed_ok 4 (snd x) i st s p w old Hr ltac:(lia) Hb) as (g & st' & s' & p' & E & Hr' & Hb').
  change CMD_GET_SPEED with MotorSpeed.CMD_GET_SPEED. rewrite E. cbn [res_bind]. rewrite (load_ok _ 0 ((MotorSpeed.rand w).1 mod 255)) by done. cbn [res_bind].
  eexists _, _. split; [done|]. split; [unfold is_u; pose proof (Z.mod_pos_bound (MotorSpeed.rand w).1 255); lia|].
  split; [done|]. exists i, st', s', p', (MotorSpeed.rand w).2. split; [done|]. split; [done|]. intros n.
  rewrite length_app, <- Nat.add_assoc, Hd, <- app_assoc. done.
Qed.
Definition real_board (c0 : C) (w0 : W) : Board (uart * spi) :=
  {| send_byte := board_send; read_value := board_read; printed := board_printed c0 w0;
     send_byte_ok := board_send_ok c0 w0; read_value_ok := board_read_ok c0 w0 |}.

(** The devices before [main]: closed drivers, the sensor behind LPSPI 2. *)
Record board_off (x : uart * spi) (c : C) (w : W) : Prop := {
  bo_uart : exists s, UartSafe.closed (fst x) UartDemo.UART_LPUART_INTERNAL_CHANNEL Lpuart_Uart_Ip_xHwConfigPB_3 (c, s) /\ uart_ok s;
  bo_port : port_ok c;
  bo_spi : exists st0 s p, load (apxState (snd x)) 2 = Ok None /\ load (axState (snd x)) 0 = Ok st0 /\ load (apxBases (snd x)) 2 = Ok s /\
    LpspiSpec.lpspi_ok s /\ ssi s = ([p], w);
}.
Lemma board_init_ok x c w :
  board_off x c w -> exists x' bauds, board_init x = Ok x' /\ board_printed (foldl chr_ioctl_speed c bauds) w x' [] [].
Proof.
  intros [(s & Hc & Hu) Hp (st0 & s' & p & H1 & H2 & H3 & H4 & H5)]. unfold board_init.
  destruct (UartDemo.uart_open (fst x) c s Hc Hp Hu) as (g & speeds & s1 & -> & Hi & _). cbn [res_bind].
  destruct (SpiDemo.spi_open (snd x) st0 s' H1 H2 H3 H4) as (g' & st & s2 & -> & Hr & Hs). cbn [res_bind].
  eexists _, speeds. split; [done|]. split; [by exists s1|]. exists 0, st, s2, p, w. split; [done|]. split; [congruence|done].
Qed.
Lemma drawn_all (x : spi) (vs : list Z) w0 :
  (exists i st s p w, SpiSystem.channel_ready x 2 i st s /\ ssi s = ([p], w) /\ forall n, SpiDemo.drawn (length vs + n) w0 = vs ++ SpiDemo.drawn n w) ->
  vs = SpiDemo.drawn (length vs) w0.
Proof. intros (i & st & s & p & w & _ & _ & H). specialize (H 0%nat). by rewrite Nat.add_0_r, app_nil_r in H. Qed.

(** C1: what the demo prints.  With the devices that [main] has initialised, in every
    state that the demo reaches, the character back end of LPUART 3 has been handed
    whole messages and the beginning of at most one more, never two messages
    mixed.  Without those of task C, which are all the same, the messages are in
    the order of the rounds: task A announces itself and prints a speed in decimal,
    then task B announces itself and prints its status, the warning if and only if the
    speed is over 200.  The speeds are those that the sensor draws, in this order. *)
Theorem demo_transcript ucHeap memory rest callback (x : uart * spi) (c : C) (w : W) :
  RtosHeap.RtosHeap.placed ucHeap -> length rest = 4%nat -> board_off x c w ->
  exists st x1 bauds, main ucHeap memory rest callback = Ok (Some st) /\ board_init x = Ok x1 /\
    let c0 := foldl chr_ioctl_speed c bauds in
    forall old d, dreachable (HB := real_board c0 w) st x1 old d ->
    exists msgs out s, load (apBases (fst (board d))) UartDemo.UART_LPUART_INTERNAL_CHANNEL = Ok (UartSystem.writes c0 out, s) /\
      speeds d = SpiDemo.drawn (length (speeds d)) w /\ transcript (st_crew st) (speeds d) msgs /\
      (out = concat msgs.*2 \/
       exists t sent left, transcript (st_crew st) (speeds d) (msgs ++ [(t, sent ++ left)]) /\ out = concat msgs.*2 ++ sent).
Proof.
  intros Hp Hr Hb. destruct (main_ok ucHeap memory rest callback (pt := nobody) Hp Hr) as (s & T & Q & E & _).
  destruct (board_init_ok x c w Hb) as (x1 & bauds & Ei & H1). eexists _, x1, bauds. split; [exact E|]. split; [exact Ei|]. intros c0 old d Hd.
  pose proof (reachable_holds (HB := real_board c0 w) ucHeap memory rest callback Hp Hr _ x1 old d E H1 Hd) as H.
  destruct (holds_transcript _ _ _ _ _ d H) as (msgs & Hm & Ho).
  destruct Ho as [[(u & st1 & Ho & _) Hs]|(t & sent & left & Hn & [(u & st1 & Ho & _) Hs])]; apply drawn_all in Hs; exists msgs; eexists _, u.
  - split; [apply Ho|]. split; [done|]. split; [done|by left].
  - split; [apply Ho|]. split; [done|]. split; [done|]. right. by exists t, sent, left.
Qed.
End board.

(** A board with a back end that keeps the bytes, and the demo on it: the timer task
    calls the callback at the tick 500, and [n] steps follow. *)
Definition a_board := (Tape.unopened, SpiDemo.demo_board).
Definition a_board_on := match board_init a_board with Ok x => x | Fault _ => a_board end.
Definition the_demo (n : nat) :=
  let start := start_demo a_start a_board_on 0 in
  let run := autopilot (HB := real_board [] 77777) (st_handles a_start) (st_crew a_start) (st_idle a_start) in
  match
    let! d := run 516%nat start in
    let! d := run_devent (HB := real_board [] 77777) (st_handles a_start) (st_crew a_start) d (Outside (vTimerCallback (st_handles a_start))) in
    run n d
  with Ok d => d | Fault _ => start end.
Lemma a_board_off : board_off a_board [] 77777.
Proof.
  split; [exists Tape.reset_uart; split; [apply Tape.unopened_closed|apply Tape.reset_uart_ok]|done|].
  exists SpiDriverSafety.no_state, (LpspiProps.demo_reset LpspiProps.demo_bus), LpspiProps.demo_sensor.
  split; [reflexivity|]. split; [reflexivity|]. split; [reflexivity|]. split; [|reflexivity]. apply LpspiSpec.refresh_irq_ok, LpspiSpec.reset_state_core, LpspiProps.demo_hw_ok, LpspiProps.demo_bus_ok.
Qed.
Lemma no_ioctl bauds : foldl chr_ioctl_speed ([] : list Z) bauds = [].
Proof. by induction bauds. Qed.
Lemma a_board_printed : @printed _ (real_board [] 77777) a_board_on [] [].
Proof.
  destruct (board_init_ok a_board [] 77777 a_board_off) as (x & bauds & E & H).
  rewrite no_ioctl in H. assert (a_board_on = x) as -> by (unfold a_board_on; rewrite E; reflexivity). exact H.
Qed.
(** The timer task runs when the first 516 steps are done. *)
Lemma timer_runs :
  match autopilot (HB := real_board [] 77777) (st_handles a_start) (st_crew a_start) (st_idle a_start) 516 (start_demo a_start a_board_on 0) with
  | Ok d => xPendSV (kern (msys (os d))) = false /\ pxCurrentTCB (kern (msys (os d))) = Some 541070856 /\ in_call (os d) !! 541070856 = None
  | Fault _ => False
  end.
Proof. vm_compute. done. Qed.
Lemma the_demo_reached n : dreachable (HB := real_board [] 77777) a_start a_board_on 0 (the_demo n).
Proof.
  unfold the_demo. cbv zeta. destruct (autopilot _ _ _ 516 _) as [d1|] eqn:E1; [|constructor]. cbn [res_bind].
  destruct (run_devent _ _ d1 _) as [d2|] eqn:E2; [|constructor]. cbn [res_bind]. destruct (autopilot _ _ _ n d2) as [d3|] eqn:E3; [|constructor].
  eapply (autopilot_reaches (HB := real_board [] 77777)); [|exact E3].
  assert (dreachable (HB := real_board [] 77777) a_start a_board_on 0 d1) as H1 by (eapply autopilot_reaches; [constructor|exact E1]).
  eapply dr_step; [exact H1| |exact E2].
  pose proof timer_runs as Ht. rewrite E1 in Ht. destruct Ht as (Hp & Hc & Hn).
  eapply (callback_enabled (HB := real_board [] 77777) _ _ 5 _ _ d1 541070856); [exact a_start_apart| |exact Hp|exact Hc|exact a_start_timer|exact Hn].
  exact (reachable_holds (HB := real_board [] 77777) 0x20400000 (fun _ => 0) [0; 0; 0; 0] 1 a_heap_placed eq_refl a_start a_board_on 0 d1 a_start_main a_board_printed H1).
Qed.
(** The message of task C and the first round, from the calls of the tasks down to the
    registers of the two controllers, up to the middle of the message of task B. *)
Lemma the_demo_prints :
  speeds (the_demo 650) = [1] /\
  option_map fst (match load (apBases (fst (board (the_demo 650)))) 3 with Ok u => Some u | _ => None end) =
    Some (msg_timer ++ msg_reading ++ msg_speed ++ bytes "1" ++ msg_rpm ++ bytes "=== Task B: Checking ").
Proof. vm_compute. done. Qed.
Lemma demo_transcript_witness :
  exists msgs out s, load (apBases (fst (board (the_demo 650)))) 3 = Ok (UartSystem.writes [] out, s) /\
    speeds (the_demo 650) = SpiDemo.drawn (length (speeds (the_demo 650))) 77777 /\ transcript (st_crew a_start) (speeds (the_demo 650)) msgs /\
    (out = concat msgs.*2 \/
     exists t sent left, transcript (st_crew a_start) (speeds (the_demo 650)) (msgs ++ [(t, sent ++ left)]) /\ out = concat msgs.*2 ++ sent).
Proof.
  destruct (demo_transcript 0x20400000 (fun _ => 0) [0; 0; 0; 0] 1 a_board [] 77777 a_heap_placed eq_refl a_board_off) as (st & x1 & bauds & E & Ei & H).
  assert (a_start = st) as <- by (unfold a_start; rewrite E; reflexivity).
  assert (a_board_on = x1) as <- by (unfold a_board_on; rewrite Ei; reflexivity).
  rewrite no_ioctl in H. apply (H 0 (the_demo 650)), the_demo_reached.
Defined.
End DemoBoard.
